(* ===== verification/_CoqProject ===== *)
-Q . S2P
Prelude.v
GaCommon.v
FramePool.v
Dpipe.v
Bytes.v
CtrlMsg.v
CtrlQueue.v
CtrlServer.v
StdMap.v
GaConf.v
CNum.v
Doubles.v
CxxString.v
GetOpts.v
ParamShared.v
RtspConf.v
VSource.v
AudioSource.v
VConverter.v
EncoderCommon.v
SdlKeys.v
CtrlSdl.v
SockUtil.v
SockServer.v
TransCoder.v
IrrWorld.v
IrrStreamer.v
EncoderOpts.v
Surface.v
SurfaceSet.v
RuntimeWriter.v
IrrvProtocol.v
StreamStart.v
VideoDemux.v
DisplayServer.v
EncCli.v
CallbackMux.v
TransLoop.v
IrrvClient.v
CommandParser.v
IddDisplays.v
IddSystem.v
IddSetupTool.v
Json.v
SdlController.v
AndroidController.v
WebrtcClient.v
BrowserInput.v
Latency.v
VhalAudio.v
VhalControl.v
NetPred.v
Tcae.v
ClientControl.v
ClientWindow.v
ClientServer.v
GaModule.v
PeriodicServer.v
CursorShape.v
CaptureFlow.v
