(* ===== verification/Prelude.v ===== *)
(** * Cloud Streaming: a verification library

    The program streams a desktop or an Android instance to remote clients.  On
    the rendering host the encoder library ([src/sources/encoder]) encodes
    surfaces and serves them over a socket with the IRRV protocol; the streamer
    ([src/sources/streamer]) receives such streams or captures itself, and hands
    frames, audio and control messages to its streaming modules, above all the
    WebRTC module; browsers and a native client ([src/sources/apps/webrtc-client])
    show the stream and send back input; a tool ([src/sources/apps/idd-setup-tool])
    sets up virtual displays.  This library models the C++ code that carries the
    logic of these and proves what makes it correct.

    ** Parts and files

    Shared:
    - [Prelude]: computations over a state that may have no defined result
      ([cmd]), machine integers, tactics; [Bytes]: little-endian words and byte
      buffers; [StdMap]: [std::map] keyed by strings, with iterators; [CNum]:
      numbers in C strings ([atoi], [atof]) and binary64; [Doubles]: rounding of
      binary64 operations, enclosed between grid points; [CxxString]: C++ strings;
      [Json]: the JSON library as a class ([Json], [JsonLaws]), actions that may
      throw ([act], [outcome]), and values that satisfy the laws.

    Streamer core ([src/sources/streamer/core]):
    - [GaCommon] ([ga-common.cpp]): time arithmetic, alignment, start codes,
      rectangles, log levels, audio formats and buffer sizes, statistics.
    - [FramePool], [Dpipe] ([dpipe.cpp]): the pipe of frame buffers between a
      producer and a consumer.  [FramePool] is the abstract contract (two pools,
      a class with its laws); [Dpipe] models the linked lists in a heap and
      proves that they implement it.
    - [CtrlMsg] ([ctrl-msg.cpp]): system control messages, byte order, dispatch.
    - [CtrlQueue], [CtrlServer] ([controller.cpp]): the ring buffer of input
      messages, the client thread's drain, the handshake, and the server thread
      over TCP (framing of a byte stream) and UDP.
    - [GaConf] ([ga-confvar.cpp], [ga-conf.cpp]): configuration files and the
      configuration store; [RtspConf] ([rtspconf.cpp]): the settings read from it.
    - [GetOpts] ([ga-get-opts.cpp]): the command line; [ParamShared]
      ([ga-param-shared.cpp]): parameters in memory shared between processes.
    - [VSource] ([vsource.cpp]): video channels, their pipes and frame buffers,
      on top of [Dpipe] and [GaConf]; [AudioSource] ([asource.cpp],
      [ga-audio-input.cpp]): audio buffers and the generator that reads them;
      [VConverter] ([vconverter.cpp]): the cache of converters; [EncoderCommon]
      ([encoder-common.cpp]): registration of clients, start and stop of the
      encoder modules.
    - [GaModule] ([ga-module.cpp]): loading of modules, their interface, packets
      with side data; [PeriodicServer] ([ga-server-periodic.cpp]): the process that
      serves an Android instance, from its command line to the end of its modules.
    - [SdlKeys], [CtrlSdl] ([module/ctrl-sdl]): input messages, their replay as
      input of the system, blocked keys, the session watch.
    - [CursorShape], [CaptureFlow] ([streamer/capture]): the shapes of the captured
      cursor; events, surfaces, packets and statistics of the desktop capture, its start
      and stop.

    Encoder and receiver ([src/sources/encoder], [irrv-receiver]):
    - [SockUtil], [SockServer] ([sock_util], and the receiver's
      [sock_client.cpp]): transfers with retries and a time limit, set-up,
      client slots, readiness, disconnection.
    - [TransCoder] ([CTransCoder.cpp] setters, [ProfileLevel.h], [CFFEncoder.cpp]
      look-ups), [IrrWorld], [IrrStreamer] ([IrrStreamer.cpp], [stream.cpp]):
      the streamer's run-time controls.
    - [EncoderOpts], [Surface], [SurfaceSet] ([encoder.cpp]): the check of the
      encoder's options; one surface with its descriptors and driver objects, and
      the surfaces of a process.
    - [RuntimeWriter] ([IORuntimeWriter.cpp], [safe_queue.h], and
      [IOStreamWriter.cpp] in its Module [StreamWriter]): recording of the stream
      in files, with a thread and a queue per stream.
    - [IrrvProtocol] ([irrv/irrv_protocol.cpp]): the server side of the protocol,
      calling [SockServer] below and [IrrStreamer] beside it.
    - [StreamStart] ([irr_encoder_start], [IrrStreamer::start] and what they call):
      from the options to a running stream; [VideoDemux] ([CIrrVideoDemux.cpp],
      [irr_encoder_write]): from the renderer's surfaces to the encoder's packets.
    - [NetPred], [Tcae] ([shared/tcae]): the predictor of frame sizes, from the
      delays that clients report to the size the encoder is given.
    - [CallbackMux] ([CCallbackMux.cpp]), [TransLoop] ([CTransCoder.cpp], the
      thread): reading, decoding, encoding, and the way of packets to the clients,
      on top of all the above.
    - [DisplayServer], [EncCli] ([encoder/server]): the process that shows the
      guest's buffers through the encoder, and its command line.
    - [IrrvClient] ([irrv-receiver/CSendRecvMessage.cpp]): the receiving side.

    WebRTC ([module/server-webrtc]):
    - [SdlController] ([ga-controller-sdl.cpp]) and [AndroidController]
      ([ga-controller-android.cpp]): from the text of the browser to input; both
      are instances of the class [Controller] of [WebrtcClient].
    - [WebrtcClient] ([ics-p2p-client.cpp], [ga-cursor.cpp], [ga-qos.cpp],
      [ga-video-input.cpp], [cursor.cpp]): the peer-to-peer client, for any
      controller; [BrowserInput]: the client with the Windows controller and the
      replay of [CtrlSdl]; [Latency]: the stamps of the latency test.
    - [VhalAudio], [VhalControl] ([aic-vhal-client]): sound, sensors, cameras and
      commands of an Android instance.

    Applications ([src/sources/apps]):
    - [ClientControl], [ClientWindow] ([webrtc-client]): the native client's
      messages, session, connection start, window and flags; [ClientServer]: the
      native client and the server together.
    - [CommandParser], [IddDisplays], [IddSystem], [IddSetupTool]
      ([idd-setup-tool]): command lines and help, displays, the devices of the
      system, and the tool as a whole.

    ** How the code is modelled

    State is a record per component with the source's fields; operations are
    functions of type [cmd S A], that is [S -> option (A * S)], one per source
    function, with [None] where the C++ has no defined continuation (null or
    dangling pointer, index out of range, signed overflow, exception); where the
    code catches exceptions, or an exception leaves state behind that matters, the
    result has a case for it ([outcome] of [Json], [res] of [CommandParser]).
    Machine integers are [Z] with their wrap-around written out ([u32], [i32],
    ...), and signed arithmetic that may overflow goes through [int_chk].  Floats
    and doubles are the Standard Library's specification of IEEE arithmetic
    ([SpecFloat]), so that rounding is the hardware's.  Pointers into shared
    structures are addresses of a heap ([Dpipe]); buffers are lists of bytes.
    Answers of the operating system, of callbacks and of other modules are
    arguments: a value, a function, or a list of answers for loops.  What the code
    asks of the system is a list of effects or a trace.  Libraries are classes
    with documented laws: FFmpeg's dictionary ([StreamStart.AvDict]), the JSON
    library ([Json], [JsonLaws]), the codes of SDL ([SdlCodes]); each has an
    instance that the witnesses use.  [ClientServer.represents] says what it means
    that one JSON library holds the document another one wrote.

    Loops are structural where the data decreases.  The others take fuel or the
    list of answers they consume: [tcp_again] gets the receive buffer's length
    plus one, and [tcp_recv_terminates] proves that it is enough for every input;
    [ga_conf_load] takes the nesting depth of includes; [ctrl_client_drain] gets
    the number of queued messages plus one; [break_line], [step_back] and
    [extract_loop] of [CommandParser] and the registry lists of [IddSystem] get the
    length of the text, which each round shortens; [show_more] and [hide_more] of
    [ClientWindow] get the distance of the counter; transfer loops end as "still
    waiting" when the answers run out.

    ** What is proved (C1 to C40 are the named properties)

    - Refinement of an abstract contract: [Dpipe] against two pools (C2), the
      controller queue against a bounded FIFO (C4), audio buffers against queues
      (C6, C15).
    - Invariants over all sequences of operations: slots and descriptors match
      (C7), buffers are never lost or shared (C23), surfaces neither leak nor
      disappear early, one by one (C30) and in the display server (C3), encoders
      run exactly while there are clients (C31), the encoder's settings stay within
      limits (C37), the finger of the Android pointer goes down and up in turn
      (C22), side data of packets is complete and given back (C35); what the option
      check accepts is well formed (C28).
    - Security of the protocol: frames and controls only for clients that
      authenticated on their connection (C1), packets only for clients that started
      the transmission (C21), nothing more for a peer that does not answer (C11).
    - The stream from end to end: checked options start (C10), and only on one
      path (C40); the buffer on display is the next one encoded (C12); run-time
      settings reach the encoder, or are taken back, once (C17, C20); the predictor's target sizes stay in
      range (C16) and frames are dropped in moderation (C34); packets reach the
      receiver (C8) and frames the WebRTC library (C25), latencies are answered
      once (C18); recordings are exact (C13) and the writer never hangs (C38).
    - Input and control from end to end: a key of the native client is pressed on
      the server (C5), the browser's pointer moves to its place on the display (C32), the
      server's cursor is the one the client shows (C33), control messages over TCP
      (C9), controls of the receiver, of which the server executes all but regions of
      interest (C36).
    - Round trips and exact behaviour: configuration text (C19), command lines
      (C14) also into the configuration (C29), transfers (C26), configuration of the
      RTSP server (C27), the order of the set-up tool's steps (C24), waiting for a
      frame (C39).
    - Other theorems of the files, among them: start codes, channel counts, time,
      network reports, handshake, enumeration of the configuration, UDP, shared
      parameters, system messages, frame buffers that hold their frames, pacing of
      the demuxer, replay of mouse and keyboard, the converters' cache, help texts,
      arrangement and pairing of displays, sensors, options of the Windows tools,
      modules that stay open while they are listed, the life of the server's modules,
      statistics of the native client, the start of its connection, its full-screen
      mode, the cursor that is drawn, handles and surfaces of the capture.
    - Where the code does something else than it means to, a theorem states what
      it does: C40 and, among others, [vctrl_defined_iff],
      [failed_auth_leaks_client], [message_disconnects_receiver],
      [tcp_session_stale_head], [ctrl_queue_drops_payload],
      [handshake_length_unchecked], [include_cycle_diverges],
      [qsv_creation_leaks], [unmapped_view], [limit_reached_grows],
      [client_bitrate_forgotten], [capture_without_second_server],
      [failed_start_crashes], [short_read_misreported], [arguments_unchecked],
      [bad_text_throws], [no_credit], [reopen_plays_junk], [far_edge_off_screen],
      [fractional_rate_never_recovers], [sizes_taken_for_delays],
      [key_request_overwritten], [left_of_picture_loses_height], [mode_lost],
      [window_deleted_twice], [freed_packet_dangles], [region_of_interest_dropped].

    ** Not modelled

    Concurrency is modelled at the granularity of the locks the code holds: each
    operation is one step and sequences of operations are arbitrary, including
    other threads' operations between the rounds of a waiting loop ([Dpipe]), the
    turns of the file threads ([RuntimeWriter]) and the exchanges of the
    connection's start ([ClientControl]).  Media processing inside FFmpeg, VA-API,
    QSV and DirectX is a set of answers; the wrappers that only call it
    ([CFFDecoder], [CFFFilter], [CFFMux], the devices), the set-up of DirectX and of
    the codecs in the capture, screen grabbing, the display driver, the signalling
    channels of WebRTC, the camera and the position of the Android instance, the rendering and the statistics windows of the native
    client, and logging are not modelled: they are calls of system interfaces with
    no logic of their own that the models could state.  Nor are, in files that are
    modelled otherwise, floating-point configuration values, the resolution of the RTSP
    server's name, and what is compiled
    only with an older FFmpeg (side data for run-time settings, regions of
    interest, frame skipping) or only inside Android.

    ** Plan

    What could follow: the remaining functions of [ga-common.cpp], the wrappers' own
    logic ([CFFFilter], [CFFEncoder::init]), and the parameters of the capture side's
    encoders. *)

From Stdlib Require Import ZArith Lia Ascii String.
From stdpp Require Import base gmap list strings.

#[export] Set Default Goal Selector "!".
#[export] Set Warnings "-clear-no-such-hyp".

Open Scope Z_scope.

(** ** Computations that may go wrong

    [cmd S A] is a stateful computation over [S].  [None] means that the C++
    code has no defined continuation: a null or dangling pointer is followed,
    an index is out of range, a signed operation overflows, or an exception
    leaves the function. *)

Definition cmd (S A : Type) : Type := S -> option (A * S).

Definition cret {S A} (a : A) : cmd S A := fun s => Some (a, s).

Definition cbind {S A B} (f : A -> cmd S B) (m : cmd S A) : cmd S B :=
  fun s => match m s with Some (a, s') => f a s' | None => None end.

Definition cundef {S A} : cmd S A := fun _ => None.

Definition cget {S} : cmd S S := fun s => Some (s, s).

Definition cput {S} (s : S) : cmd S unit := fun _ => Some (tt, s).

Definition cgets {S A} (f : S -> A) : cmd S A := fun s => Some (f s, s).

Definition cmodify {S} (f : S -> S) : cmd S unit := fun s => Some (tt, f s).

(** Lift an optional value: [None] is undefined behaviour. *)
Definition clift {S A} (o : option A) : cmd S A :=
  fun s => match o with Some a => Some (a, s) | None => None end.

Declare Scope cmd_scope.
Delimit Scope cmd_scope with cmd.

Notation "x <-- m ;; k" := (cbind (fun x => k) m)
  (at level 100, m at next level, right associativity) : cmd_scope.
Notation "m ;;; k" := (cbind (fun _ => k) m)
  (at level 100, right associativity) : cmd_scope.
Open Scope cmd_scope.

Lemma cbind_ret {S A B} (a : A) (f : A -> cmd S B) s :
  cbind f (cret a) s = f a s.
Proof. reflexivity. Qed.

Lemma cbind_Some {S A B} (m : cmd S A) (f : A -> cmd S B) s a s' :
  m s = Some (a, s') -> cbind f m s = f a s'.
Proof. intros E. unfold cbind. by rewrite E. Qed.

Lemma cbind_inv {S A B} (m : cmd S A) (f : A -> cmd S B) s r :
  cbind f m s = Some r -> exists a s', m s = Some (a, s') /\ f a s' = Some r.
Proof. unfold cbind. destruct (m s) as [[a s']|]; naive_solver. Qed.

Lemma Some_pair_inj {A B} (a c : A) (b d : B) :
  Some (a, b) = Some (c, d) -> a = c /\ b = d.
Proof. by intros [= -> ->]. Qed.

(** ** Machine integers *)

Definition wrapu (w z : Z) : Z := z mod 2 ^ w.

(** Two's complement reading of the low [w] bits. *)
Definition wraps (w z : Z) : Z :=
  let u := z mod 2 ^ w in if u <? 2 ^ (w - 1) then u else u - 2 ^ w.

Definition u8 := wrapu 8.
Definition u16 := wrapu 16.
Definition u32 := wrapu 32.
Definition u64 := wrapu 64.
Definition i32 := wraps 32.

Definition INT_MAX : Z := 2147483647.
Definition INT_MIN : Z := -2147483648.

(** The value of a signed [int] expression: undefined when it overflows. *)
Definition int_chk (z : Z) : option Z :=
  if (INT_MIN <=? z) && (z <=? INT_MAX) then Some z else None.

Lemma int_chk_Some z : INT_MIN <= z <= INT_MAX -> int_chk z = Some z.
Proof.
  intros H. unfold int_chk.
  rewrite (proj2 (Z.leb_le INT_MIN z)), (proj2 (Z.leb_le z INT_MAX)) by lia. done.
Qed.

Lemma int_chk_inv z r : int_chk z = Some r -> r = z /\ INT_MIN <= z <= INT_MAX.
Proof.
  unfold int_chk. destruct (INT_MIN <=? z) eqn:E1, (z <=? INT_MAX) eqn:E2;
    simpl; intros [=]; lia.
Qed.

Lemma wrapu_small w z : 0 <= z < 2 ^ w -> wrapu w z = z.
Proof. intros H. by apply Z.mod_small. Qed.
Lemma u32_small z : 0 <= z < 2 ^ 32 -> u32 z = z.
Proof. apply wrapu_small. Qed.

Lemma wrapu_range w z : 0 <= w -> 0 <= wrapu w z < 2 ^ w.
Proof. intros H. apply Z.mod_pos_bound. by apply Z.pow_pos_nonneg. Qed.

Lemma wraps_small w z : 0 < w -> 0 <= z < 2 ^ (w - 1) -> wraps w z = z.
Proof.
  intros Hw H. unfold wraps. assert (2 ^ w = 2 * 2 ^ (w - 1)) by (rewrite <- Z.pow_succ_r by lia; f_equal; lia).
  rewrite Z.mod_small by lia. by rewrite (proj2 (Z.ltb_lt _ _)) by lia.
Qed.

(** ** Tactics *)

(** Case analysis on the innermost scrutinee of a [match] or [if]. *)
Ltac split_match :=
  match goal with
  | |- context [match ?x with _ => _ end] =>
      lazymatch x with
      | context [match _ with _ => _ end] => fail
      | _ => destruct x eqn:?
      end
  end.

Ltac split_match_in H :=
  match type of H with
  | context [match ?x with _ => _ end] =>
      lazymatch x with
      | context [match _ with _ => _ end] => fail
      | _ => destruct x eqn:?
      end
  end.

(** Turn the boolean comparisons of the code into propositions. *)
Ltac bool_to_prop :=
  repeat match goal with
  | H : (_ && _) = true |- _ => apply andb_prop in H; destruct H
  | H : (_ || _) = false |- _ => apply orb_false_elim in H; destruct H
  | H : (_ || _) = true |- _ => apply orb_prop in H
  | H : negb _ = true |- _ => apply negb_true_iff in H
  | H : negb _ = false |- _ => apply negb_false_iff in H
  | H : (_ =? _) = true |- _ => apply Z.eqb_eq in H
  | H : (_ =? _) = false |- _ => apply Z.eqb_neq in H
  | H : (_ <? _) = true |- _ => apply Z.ltb_lt in H
  | H : (_ <? _) = false |- _ => apply Z.ltb_ge in H
  | H : (_ <=? _) = true |- _ => apply Z.leb_le in H
  | H : (_ <=? _) = false |- _ => apply Z.leb_gt in H
  end.

Create HintDb cstream.
#[export] Hint Resolve int_chk_Some : cstream.
