(* ===== verification/GaCommon.v ===== *)
(** * GaCommon: the common helpers of the streamer core

    Models [src/sources/streamer/core/ga-common.cpp]: time differences, pointer
    alignment, the start-code scanner, rectangles, channel layouts, the sample
    format table, audio buffer sizes, aggregated statistics, log levels and log
    file names, codec names. *)

From Stdlib Require Import ZArith Lia Ascii String.
From stdpp Require Import base gmap list strings pretty.
From S2P Require Import Prelude.

(** ** Time *)

Record timeval := { tv_sec : Z; tv_usec : Z }.

(** [tvdiff_us]: the borrow of one second when the microseconds go negative. *)
Definition tvdiff_us (tv1 tv2 : timeval) : Z :=
  let sec := tv_sec tv1 - tv_sec tv2 in
  let usec := tv_usec tv1 - tv_usec tv2 in
  let '(sec, usec) := if usec <? 0 then (sec - 1, usec + 1000000) else (sec, usec) in
  1000000 * sec + usec.

(** [ga_usleep interval ptv], given the time [now] that [gettimeofday] returns:
    the argument of the one [usleep] call and the return value. *)
Definition ga_usleep (interval : Z) (ptv : option timeval) (now : timeval) : Z * Z :=
  match ptv with
  | Some tv =>
      let delta := tvdiff_us now tv in
      if interval <=? delta then (1, -1) else (interval - delta, 0)
  | None => (interval, 0)
  end.

(** ** Alignment *)

(** The offset [ga_malloc] computes for the block that [malloc(size+16)]
    returned at address [ptr]. *)
Definition ga_malloc_alignment (ptr : Z) : Z := 16 - Z.land ptr 15.

Definition ga_alignment (ptr alignto : Z) : Z :=
  let mask := alignto - 1 in alignto - Z.land ptr mask.

(** ** Start codes *)

(** One position of the scanner's loop: the start-code length found there. *)
Definition startcode_at (b0 b1 b2 b3 : Z) : option Z :=
  if (b0 =? 0) && (b1 =? 0) then
    if b2 =? 1 then Some 3
    else if (b2 =? 0) && (b3 =? 1) then Some 4
    else None
  else None.

(** [ga_find_startcode]: the offset of the start code and its length.  The loop
    runs while [ptr < end-4], so at least five bytes must be left. *)
Fixpoint ga_find_startcode (buf : list Z) : option (nat * Z) :=
  match buf with
  | b0 :: ((b1 :: b2 :: b3 :: _ :: _) as rest) =>
      match startcode_at b0 b1 b2 b3 with
      | Some len => Some (0%nat, len)
      | None =>
          match ga_find_startcode rest with
          | Some (i, len) => Some (S i, len)
          | None => None
          end
      end
  | _ => None
  end.

(** ** Rectangles *)

Record gaRect := {
  r_left : Z; r_top : Z; r_right : Z; r_bottom : Z;
  r_width : Z; r_height : Z; r_linesize : Z; r_size : Z
}.

Definition RGBA_SIZE : Z := 4.

(** [ga_fillrect] on a non-null [rect]: what it leaves in [*rect] and whether
    it returns the pointer; [None] when an [int] expression overflows. *)
Definition ga_fillrect (l t r b : Z) : option (gaRect * bool) :=
  let '(l, r) := if r <? l then (r, l) else (l, r) in
  let '(t, b) := if b <? t then (b, t) else (t, b) in
  w0 ← int_chk (r - l); w ← int_chk (w0 + 1);
  h0 ← int_chk (b - t); h ← int_chk (h0 + 1);
  ls ← int_chk (w * RGBA_SIZE);
  wh ← int_chk (w * h); sz ← int_chk (wh * RGBA_SIZE);
  Some ({| r_left := l; r_top := t; r_right := r; r_bottom := b;
           r_width := w; r_height := h; r_linesize := ls; r_size := sz |},
        negb ((w <=? 0) || (h <=? 0))).

(** ** Codec names, log levels and log names *)

Definition ga_is_h264 (codec : string) : bool :=
  bool_decide (codec = "avc") || bool_decide (codec = "h264").

Definition ga_is_h265 (codec : string) : bool :=
  bool_decide (codec = "hevc") || bool_decide (codec = "h265").

Definition ga_is_av1 (codec : string) : bool := bool_decide (codec = "av1").

Inductive Severity := ERR | WARNING | INFO | DBG.

Definition ga_get_loglevel_enum (level : string) : Severity :=
  if bool_decide (level = "error") then ERR
  else if bool_decide (level = "warning") then WARNING
  else if bool_decide (level = "info") then INFO
  else if bool_decide (level = "debug") then DBG
  else ERR.

Definition severity_rank (s : Severity) : Z :=
  match s with ERR => 0 | WARNING => 1 | INFO => 2 | DBG => 3 end.

(** The guard of [ga_writelog]: a message above the level is suppressed. *)
Definition ga_writelog_emits (ga_loglevel level : Severity) : bool :=
  negb (severity_rank ga_loglevel <? severity_rank level).

(** [ga_compose_logname]: the first "PID" replaced by the process id. *)
Fixpoint ga_compose_logname (pid : string) (logname : string) : string :=
  match logname with
  | String "P"%char (String "I"%char (String "D"%char rest)) => (pid +:+ rest)%string
  | String c rest => String c (ga_compose_logname pid rest)
  | EmptyString => EmptyString
  end.

(** ** Audio *)

(** [ga_get_channel_layout_nb_channels]: each turn clears the lowest set bit of
    a [uint64_t]; 64 turns are enough. *)
Fixpoint nb_channels_loop (fuel : nat) (channel_layout count : Z) : option Z :=
  if channel_layout =? 0 then Some count
  else match fuel with
       | O => None
       | S fuel =>
           nb_channels_loop fuel (Z.land channel_layout (channel_layout - 1)) (count + 1)
       end.

Definition ga_get_channel_layout_nb_channels (channel_layout : Z) : option Z :=
  if channel_layout =? 0 then Some 0 else nb_channels_loop 64 channel_layout 0.

Inductive ga_sample_format :=
  | GA_SAMPLE_FMT_NONE
  | GA_SAMPLE_FMT_U8 | GA_SAMPLE_FMT_S16 | GA_SAMPLE_FMT_S32
  | GA_SAMPLE_FMT_FLT | GA_SAMPLE_FMT_DBL
  | GA_SAMPLE_FMT_U8P | GA_SAMPLE_FMT_S16P | GA_SAMPLE_FMT_S32P
  | GA_SAMPLE_FMT_FLTP | GA_SAMPLE_FMT_DBLP
  | GA_SAMPLE_FMT_NB.

#[export] Instance ga_sample_format_eq_dec : EqDecision ga_sample_format.
Proof. solve_decision. Defined.

Record SampleFmtInfo := {
  fmt_name : string; bits : Z; planar : bool; alt_fmt : ga_sample_format
}.

(** The table [sample_fmt_info] with the [find] of its users. *)
Definition sample_fmt_info (f : ga_sample_format) : option SampleFmtInfo :=
  match f with
  | GA_SAMPLE_FMT_U8   => Some {| fmt_name := "u8";   bits := 8;  planar := false; alt_fmt := GA_SAMPLE_FMT_U8P |}
  | GA_SAMPLE_FMT_S16  => Some {| fmt_name := "s16";  bits := 16; planar := false; alt_fmt := GA_SAMPLE_FMT_S16P |}
  | GA_SAMPLE_FMT_S32  => Some {| fmt_name := "s32";  bits := 32; planar := false; alt_fmt := GA_SAMPLE_FMT_S32P |}
  | GA_SAMPLE_FMT_FLT  => Some {| fmt_name := "flt";  bits := 32; planar := false; alt_fmt := GA_SAMPLE_FMT_FLTP |}
  | GA_SAMPLE_FMT_DBL  => Some {| fmt_name := "dbl";  bits := 64; planar := false; alt_fmt := GA_SAMPLE_FMT_DBLP |}
  | GA_SAMPLE_FMT_U8P  => Some {| fmt_name := "u8p";  bits := 8;  planar := true;  alt_fmt := GA_SAMPLE_FMT_U8 |}
  | GA_SAMPLE_FMT_S16P => Some {| fmt_name := "s16p"; bits := 16; planar := true;  alt_fmt := GA_SAMPLE_FMT_S16 |}
  | GA_SAMPLE_FMT_S32P => Some {| fmt_name := "s32p"; bits := 32; planar := true;  alt_fmt := GA_SAMPLE_FMT_S32 |}
  | GA_SAMPLE_FMT_FLTP => Some {| fmt_name := "fltp"; bits := 32; planar := true;  alt_fmt := GA_SAMPLE_FMT_FLT |}
  | GA_SAMPLE_FMT_DBLP => Some {| fmt_name := "dblp"; bits := 64; planar := true;  alt_fmt := GA_SAMPLE_FMT_DBL |}
  | _ => None
  end.

Definition ga_get_bytes_per_sample (f : ga_sample_format) : Z :=
  match sample_fmt_info f with Some i => Z.shiftr (bits i) 3 | None => 0 end.

Definition ga_sample_fmt_is_planar (f : ga_sample_format) : bool :=
  match sample_fmt_info f with Some i => planar i | None => false end.

Definition GA_E_INVALIDARG : Z := -22.

(** The macro [GAALIGN(x, a)] on [int]s. *)
Definition GAALIGN (x a : Z) : option Z :=
  s ← int_chk (x + a); s1 ← int_chk (s - 1); m ← int_chk (a - 1);
  Some (Z.land s1 (Z.lnot m)).

(** The part of the computation after the [align == 0] normalisation. *)
Definition buffer_size_tail
    (nb_channels nb_samples : Z) (sample_size : Z) (planar : bool) (align : Z)
    : option (Z * option Z) :=
  if INT_MAX ÷ align <? nb_channels then Some (GA_E_INVALIDARG, None)
  else
    cs ← int_chk (nb_channels * nb_samples);
    ac ← int_chk (align * nb_channels);
    lim ← int_chk (INT_MAX - ac);
    if lim ÷ sample_size <? cs then Some (GA_E_INVALIDARG, None)
    else
      ss ← int_chk (nb_samples * sample_size);
      line_size ← (if planar then GAALIGN ss align
                   else ssc ← int_chk (ss * nb_channels); GAALIGN ssc align);
      ret ← (if planar then int_chk (line_size * nb_channels) else Some line_size);
      Some (ret, Some line_size).

(** [ga_samples_get_buffer_size]: the returned size and, on success, the line
    size stored through [linesize]; [None] when the C++ evaluates an overflowing
    [int] expression or divides by zero. *)
Definition ga_samples_get_buffer_size
    (nb_channels nb_samples : Z) (sample_fmt : ga_sample_format) (align : Z)
    : option (Z * option Z) :=
  let sample_size := ga_get_bytes_per_sample sample_fmt in
  let planar := ga_sample_fmt_is_planar sample_fmt in
  if (sample_size =? 0) || (nb_samples <=? 0) || (nb_channels <=? 0)
  then Some (GA_E_INVALIDARG, None)
  else if (align =? 0) && (INT_MAX - 31 <? nb_samples)
  then Some (GA_E_INVALIDARG, None)
  else
    an ← (if align =? 0 then n ← GAALIGN nb_samples 32; Some (1, n)
          else Some (align, nb_samples));
    let '(align, nb_samples) := (an : Z * Z) in
    buffer_size_tail nb_channels nb_samples sample_size planar align.

(** ** Aggregated statistics *)

(** [ga_aggregated_print] on the map [aggmap]; the second component lists the
    records printed by this call (none when the limit is not reached).  The
    text buffer holds every record as long as fewer than 1360 are pending, far
    above the limits in use, so its truncation is left out. *)
Definition ga_aggregated_print (key limit value : Z) (aggmap : gmap Z (list Z))
    : gmap Z (list Z) * option (list Z) :=
  match aggmap !! key with
  | None => (<[key := [value]]> aggmap, None)
  | Some l =>
      let l := l ++ [value] in
      if limit <=? Z.of_nat (length l) then (<[key := []]> aggmap, Some l)
      else (<[key := l]> aggmap, None)
  end.

Definition ga_aggregated_reset (aggmap : gmap Z (list Z)) : gmap Z (list Z) := ∅.

(** ** Theorems: time *)

(** [tvdiff_us] is the exact difference of the two instants in
    microseconds, and [ga_usleep] with a baseline wakes up at the baseline plus
    the interval: it returns 0 and sleeps the time that is left, or returns -1
    after the minimal sleep when the deadline has already passed. *)
Theorem ga_usleep_deadline (interval : Z) (tv now : timeval) :
  let us t := 1000000 * tv_sec t + tv_usec t in
  tvdiff_us now tv = us now - us tv /\
  match ga_usleep interval (Some tv) now with
  | (slept, ret) =>
      (ret = 0 /\ us now + slept = us tv + interval /\ 0 < slept) \/
      (ret = -1 /\ slept = 1 /\ us tv + interval <= us now)
  end.
Proof.
  assert (Hd : tvdiff_us now tv
    = 1000000 * tv_sec now + tv_usec now - (1000000 * tv_sec tv + tv_usec tv)).
  { unfold tvdiff_us. destruct (_ <? 0); lia. }
  cbn zeta. split; [exact Hd|]. unfold ga_usleep. rewrite Hd.
  destruct (interval <=? _) eqn:E; bool_to_prop; [right|left]; lia.
Qed.

(** ** Theorems: alignment *)

Lemma land_ones_mod p k : 0 <= k -> Z.land p (2 ^ k - 1) = p mod 2 ^ k.
Proof.
  intros Hk. rewrite <- Z.land_ones by done. f_equal. rewrite Z.ones_equiv. lia.
Qed.

(** Adding the offset computed for a power of two gives an aligned address. *)
Lemma ga_alignment_pow2 ptr k :
  0 <= k ->
  (ptr + ga_alignment ptr (2 ^ k)) mod 2 ^ k = 0 /\
  1 <= ga_alignment ptr (2 ^ k) <= 2 ^ k.
Proof.
  intros Hk. unfold ga_alignment. rewrite land_ones_mod by done.
  assert (0 < 2 ^ k) by (by apply Z.pow_pos_nonneg).
  pose proof (Z.mod_pos_bound ptr (2 ^ k) ltac:(done)). split; [|lia].
  replace (ptr + (2 ^ k - ptr mod 2 ^ k)) with ((ptr / 2 ^ k + 1) * 2 ^ k).
  - apply Z.mod_mul. lia.
  - pose proof (Z.div_mod ptr (2 ^ k) ltac:(lia)). lia.
Qed.

Lemma ga_malloc_alignment_16 ptr :
  ga_malloc_alignment ptr = ga_alignment ptr (2 ^ 4).
Proof. reflexivity. Qed.

(** ** Theorems: start codes *)

(** A start code of length [len] at offset [i], with the byte that the loop
    bound [end-4] requires after it. *)
Definition startcode_found (buf : list Z) (i : nat) (len : Z) : Prop :=
  exists b0 b1 b2 b3 b4,
    buf !! i = Some b0 /\ buf !! (i + 1)%nat = Some b1 /\
    buf !! (i + 2)%nat = Some b2 /\ buf !! (i + 3)%nat = Some b3 /\
    buf !! (i + 4)%nat = Some b4 /\ startcode_at b0 b1 b2 b3 = Some len.

Lemma startcode_found_cons b buf i len :
  startcode_found (b :: buf) (S i) len <-> startcode_found buf i len.
Proof. split; intros H; exact H. Qed.

Lemma ga_find_startcode_step b0 b1 b2 b3 b4 rest :
  ga_find_startcode (b0 :: b1 :: b2 :: b3 :: b4 :: rest) =
  match startcode_at b0 b1 b2 b3 with
  | Some len => Some (0%nat, len)
  | None =>
      match ga_find_startcode (b1 :: b2 :: b3 :: b4 :: rest) with
      | Some (i, len) => Some (S i, len)
      | None => None
      end
  end.
Proof. reflexivity. Qed.

Lemma ga_find_startcode_sound buf i len :
  ga_find_startcode buf = Some (i, len) ->
  startcode_found buf i len /\
  forall j len', (j < i)%nat -> ~ startcode_found buf j len'.
Proof.
  revert i. induction buf as [|b0 buf IH]; intros i; [done|].
  destruct buf as [|b1 [|b2 [|b3 [|b4 rest]]]]; try done.
  rewrite ga_find_startcode_step. destruct (startcode_at b0 b1 b2 b3) as [l|] eqn:E.
  - intros [= <- <-]. split; [|intros; lia]. unfold startcode_found. simpl. eauto 20.
  - destruct (ga_find_startcode (b1 :: _)) as [[j l]|] eqn:F; [|done].
    intros [= <- <-]. destruct (IH _ eq_refl) as [H1 H2]. split.
    + by apply startcode_found_cons.
    + intros [|j'] len' Hlt Hf.
      * destruct Hf as (?&?&?&?&?&?&?&?&?&?&?). simpl in *. congruence.
      * apply startcode_found_cons in Hf. eapply H2; [|done]. lia.
Qed.

Lemma ga_find_startcode_complete buf i len :
  startcode_found buf i len -> ga_find_startcode buf <> None.
Proof.
  revert i. induction buf as [|b0 buf IH]; intros i H.
  { by destruct H as (?&?&?&?&?&H&_). }
  destruct buf as [|b1 [|b2 [|b3 [|b4 rest]]]];
    try (destruct H as (?&?&?&?&?&?&?&?&?&H&?);
         apply lookup_lt_Some in H; simpl in H; lia).
  rewrite ga_find_startcode_step. destruct (startcode_at b0 b1 b2 b3) eqn:E; [done|].
  destruct i as [|i].
  - destruct H as (?&?&?&?&?&?&?&?&?&?&?). simpl in *. congruence.
  - apply startcode_found_cons, IH in H.
    destruct (ga_find_startcode (b1 :: b2 :: b3 :: b4 :: rest)) as [[]|]; done.
Qed.

(** [ga_find_startcode] returns the first start code that is
    followed by a byte, with its length 3 or 4, and returns NULL exactly when
    there is none. *)
Theorem ga_find_startcode_correct (buf : list Z) :
  match ga_find_startcode buf with
  | Some (i, len) =>
      startcode_found buf i len /\ (len = 3 \/ len = 4) /\
      forall j len', (j < i)%nat -> ~ startcode_found buf j len'
  | None => forall j len', ~ startcode_found buf j len'
  end.
Proof.
  destruct (ga_find_startcode buf) as [[i len]|] eqn:E.
  - destruct (ga_find_startcode_sound _ _ _ E) as [H1 H2]. split; [done|]. split; [|done].
    destruct H1 as (?&?&?&?&?&_&_&_&_&_&H). unfold startcode_at in H.
    repeat split_match_in H; naive_solver.
  - intros j len' H. by apply ga_find_startcode_complete in H.
Qed.

(** ** Theorems: channel layouts *)

Fixpoint pos_popcount (p : positive) : Z :=
  match p with xH => 1 | xO p => pos_popcount p | xI p => 1 + pos_popcount p end.

Definition popcount (z : Z) : Z :=
  match z with Zpos p => pos_popcount p | _ => 0 end.

(** The number of set bits among the lowest [n]. *)
Definition bits_below (n : nat) (z : Z) : Z :=
  Z.of_nat (length (filter (fun i => Z.testbit z (Z.of_nat i) = true) (seq 0 n))).

Lemma bits_below_S n z :
  bits_below (S n) z = (if Z.testbit z 0 then 1 else 0) + bits_below n (Z.div2 z).
Proof.
  unfold bits_below. cbn [seq]. rewrite <- fmap_S_seq.
  assert (H : filter (λ i : nat, Z.testbit z (Z.of_nat i) = true) (S <$> seq 0 n)
    = S <$> filter (λ i : nat, Z.testbit (Z.div2 z) (Z.of_nat i) = true) (seq 0 n)).
  { induction (seq 0 n) as [|a l IH]; [done|].
    rewrite fmap_cons, !filter_cons.
    rewrite (Z.div2_spec z), Z.shiftr_spec by lia.
    replace (Z.of_nat a + 1) with (Z.of_nat (S a)) by lia.
    case_decide; cbn [fmap list_fmap]; by rewrite IH. }
  rewrite filter_cons. change (Z.of_nat 0) with 0. rewrite H.
  case_decide as D; rewrite ?D; cbn [length]; rewrite length_fmap.
  - lia.
  - destruct (Z.testbit z 0); [done|lia].
Qed.

Lemma popcount_bits n z : 0 <= z < 2 ^ Z.of_nat n -> popcount z = bits_below n z.
Proof.
  revert z. induction n as [|n IH]; intros z Hz.
  { assert (z = 0) as -> by lia. done. }
  rewrite bits_below_S, <- IH.
  - destruct z as [|[p|p|]|p]; simpl; lia.
  - rewrite Nat2Z.inj_succ, Z.pow_succ_r in Hz by lia. rewrite Z.div2_div. split.
    + apply Z.div_pos; lia.
    + apply Z.div_lt_upper_bound; lia.
Qed.

Lemma land_pred_double z : 0 < z -> Z.land (2 * z) (2 * z - 1) = 2 * Z.land z (z - 1).
Proof.
  intros Hz. apply Z.bits_inj'. intros n Hn. rewrite Z.land_spec.
  destruct (decide (n = 0)) as [->|Hn0].
  { by rewrite !Z.testbit_even_0. }
  replace n with (Z.succ (n - 1)) by lia.
  replace (2 * z - 1) with (2 * (z - 1) + 1) by lia.
  rewrite !Z.testbit_even_succ, Z.testbit_odd_succ, Z.land_spec by lia. done.
Qed.

Lemma popcount_double z : popcount (2 * z) = popcount z.
Proof. by destruct z. Qed.

Lemma popcount_clear_lowest p :
  popcount (Z.land (Zpos p) (Zpos p - 1)) = pos_popcount p - 1 /\
  0 <= Z.land (Zpos p) (Zpos p - 1) < Zpos p.
Proof.
  induction p as [p IH|p IH|]; [..|done].
  - assert (E : Z.land (Z.pos p~1) (Z.pos p~1 - 1) = 2 * Z.pos p).
    { replace (Z.pos p~1 - 1) with (2 * Z.pos p) by lia.
      replace (Z.pos p~1) with (2 * Z.pos p + 1) by lia.
      apply Z.bits_inj'. intros n Hn. rewrite Z.land_spec.
      destruct (decide (n = 0)) as [->|]; [by rewrite Z.testbit_even_0, andb_false_r|].
      replace n with (Z.succ (n - 1)) by lia.
      rewrite Z.testbit_even_succ, Z.testbit_odd_succ by lia. apply andb_diag. }
    rewrite E, popcount_double. simpl. lia.
  - replace (Z.pos p~0) with (2 * Z.pos p) by lia.
    rewrite land_pred_double, popcount_double by lia. simpl. lia.
Qed.

Lemma pos_popcount_pos p : 1 <= pos_popcount p.
Proof. induction p; simpl; lia. Qed.

Lemma nb_channels_loop_spec fuel z count :
  0 <= z -> popcount z <= Z.of_nat fuel ->
  nb_channels_loop fuel z count = Some (count + popcount z).
Proof.
  revert z count. induction fuel as [|fuel IH]; intros z count Hz Hp;
    (destruct z as [|p|p]; [simpl; f_equal; lia| |lia]).
  - simpl in Hp. pose proof (pos_popcount_pos p). lia.
  - destruct (popcount_clear_lowest p) as [E R].
    change (nb_channels_loop (S fuel) (Zpos p) count) with
      (nb_channels_loop fuel (Z.land (Zpos p) (Zpos p - 1)) (count + 1)).
    simpl in Hp. rewrite IH by lia. f_equal. simpl. lia.
Qed.

(** For every 64-bit layout, the clear-the-lowest-bit loop
    terminates within 64 turns and returns the number of set bits. *)
Theorem nb_channels_counts_bits (channel_layout : Z) :
  0 <= channel_layout < 2 ^ 64 ->
  ga_get_channel_layout_nb_channels channel_layout = Some (bits_below 64 channel_layout).
Proof.
  intros H. unfold ga_get_channel_layout_nb_channels.
  assert (E : popcount channel_layout = bits_below 64 channel_layout).
  { by apply popcount_bits. }
  assert (Hb : bits_below 64 channel_layout <= 64).
  { unfold bits_below. pose proof (length_filter
      (fun i => Z.testbit channel_layout (Z.of_nat i) = true) (seq 0 64)) as L.
    rewrite length_seq in L. lia. }
  destruct (channel_layout =? 0) eqn:Z0; bool_to_prop.
  - by subst.
  - rewrite nb_channels_loop_spec; [f_equal|..]; lia.
Qed.

Lemma nb_channels_counts_bits_witness :
  ga_get_channel_layout_nb_channels 51 = Some (bits_below 64 51) /\ bits_below 64 51 = 4.
Proof.
  split; [|reflexivity]. apply (nb_channels_counts_bits 51). vm_compute. by split.
Defined.

(** ** Theorems: audio buffer sizes *)

Lemma land_lnot_ones x k : 0 <= k -> Z.land x (Z.lnot (2 ^ k - 1)) = x - x mod 2 ^ k.
Proof.
  intros Hk. replace (2 ^ k - 1) with (Z.ones k) by (rewrite Z.ones_equiv; lia).
  rewrite <- Z.ldiff_land, Z.ldiff_ones_r by done.
  rewrite Z.shiftl_mul_pow2, Z.shiftr_div_pow2 by done.
  pose proof (Z.pow_pos_nonneg 2 k ltac:(lia) Hk).
  pose proof (Z.div_mod x (2 ^ k) ltac:(lia)). lia.
Qed.

(** Rounding up to a power of two, when the sums fit an [int]. *)
Lemma GAALIGN_spec x k :
  0 <= x -> 0 <= k -> x + 2 ^ k <= INT_MAX ->
  exists r, GAALIGN x (2 ^ k) = Some r /\ x <= r < x + 2 ^ k /\ r mod 2 ^ k = 0.
Proof.
  intros Hx Hk Hle. pose proof (Z.pow_pos_nonneg 2 k ltac:(lia) Hk).
  unfold GAALIGN. unfold INT_MAX in *.
  rewrite (int_chk_Some (x + 2 ^ k)) by (unfold INT_MIN, INT_MAX; lia). simpl.
  rewrite (int_chk_Some (x + 2 ^ k - 1)) by (unfold INT_MIN, INT_MAX; lia). simpl.
  rewrite (int_chk_Some (2 ^ k - 1)) by (unfold INT_MIN, INT_MAX; lia). simpl.
  rewrite land_lnot_ones by done. eexists. split; [done|].
  pose proof (Z.mod_pos_bound (x + 2 ^ k - 1) (2 ^ k) ltac:(lia)). split; [lia|].
  rewrite Zminus_mod_idemp_r, Z.sub_diag. done.
Qed.

Lemma bytes_per_sample_range f :
  ga_get_bytes_per_sample f <> 0 -> 1 <= ga_get_bytes_per_sample f <= 8.
Proof. destruct f; vm_compute; intuition congruence. Qed.

(** What a caller may rely on: an error without a line size, or a size that
    holds all samples, fits an [int] and is made of aligned lines. *)
Definition buffer_size_ok (nb_channels nb_samples sample_size : Z) (planar : bool)
    (align : Z) (r : option (Z * option Z)) : Prop :=
  match r with
  | None => False
  | Some (ret, None) => ret = GA_E_INVALIDARG
  | Some (ret, Some line) =>
      nb_channels * nb_samples * sample_size <= ret <= INT_MAX /\
      line mod align = 0 /\ ret = (if planar then line * nb_channels else line)
  end.

Lemma buffer_size_tail_ok ch ns ss planar k :
  1 <= ch -> 1 <= ns -> 1 <= ss <= 8 -> 0 <= k ->
  ch * ns <= INT_MAX ->
  buffer_size_ok ch ns ss planar (2 ^ k) (buffer_size_tail ch ns ss planar (2 ^ k)).
Proof.
  intros Hc Hn Hs Hk Hcn. pose proof (Z.pow_pos_nonneg 2 k ltac:(lia) Hk) as Ha.
  unfold buffer_size_tail, INT_MAX in *. set (a := 2 ^ k) in *.
  destruct (_ <? ch) eqn:E1; [done|bool_to_prop].
  assert (Hac : a * ch <= 2147483647).
  { rewrite Z.quot_div_nonneg in E1 by lia.
    pose proof (Z.mul_div_le 2147483647 a Ha). nia. }
  rewrite (int_chk_Some (ch * ns)) by (unfold INT_MIN, INT_MAX; nia). cbn [mbind option_bind].
  rewrite (int_chk_Some (a * ch)) by (unfold INT_MIN, INT_MAX; nia). cbn [mbind option_bind].
  rewrite (int_chk_Some (_ - a * ch)) by (unfold INT_MIN, INT_MAX; nia).
  cbn [mbind option_bind].
  destruct (_ <? ch * ns) eqn:E2; [done|bool_to_prop].
  assert (Htot : ch * ns * ss + a * ch <= 2147483647).
  { rewrite Z.quot_div_nonneg in E2 by lia.
    pose proof (Z.mul_div_le (2147483647 - a * ch) ss ltac:(lia)). nia. }
  rewrite (int_chk_Some (ns * ss)) by (unfold INT_MIN, INT_MAX; nia). cbn [mbind option_bind].
  destruct planar.
  - pose proof (GAALIGN_spec (ns * ss) k) as HG. fold a in HG.
    destruct HG as (r & -> & Hr & Hm); [nia|done|unfold INT_MAX; nia|].
    cbn [mbind option_bind].
    rewrite (int_chk_Some (r * ch)) by (unfold INT_MIN, INT_MAX; nia).
    simpl. unfold INT_MAX. repeat split; [nia..|done].
  - rewrite (int_chk_Some (ns * ss * ch)) by (unfold INT_MIN, INT_MAX; nia).
    cbn [mbind option_bind].
    pose proof (GAALIGN_spec (ns * ss * ch) k) as HG. fold a in HG.
    destruct HG as (r & -> & Hr & Hm); [nia|done|unfold INT_MAX; nia|].
    simpl. unfold INT_MAX. repeat split; [nia..|done].
Qed.

(** When channels times (padded) samples fits an [int], the audio
    buffer size is computed without any overflow: the result is an error or a
    size that holds all samples, made of lines aligned as requested. *)
Theorem samples_buffer_size_safe (ch ns : Z) (f : ga_sample_format) (align : Z) :
  align = 0 \/ (exists k, 0 <= k /\ align = 2 ^ k) ->
  ch * (ns + 32) <= INT_MAX ->
  buffer_size_ok ch ns (ga_get_bytes_per_sample f) (ga_sample_fmt_is_planar f)
    (if align =? 0 then 1 else align)
    (ga_samples_get_buffer_size ch ns f align).
Proof.
  intros Hal Hcn. unfold ga_samples_get_buffer_size.
  destruct (ga_get_bytes_per_sample f =? 0) eqn:Es; [done|]. destruct (ns <=? 0) eqn:En; [done|].
  destruct (ch <=? 0) eqn:Ec; [done|]. cbn [orb]. bool_to_prop.
  apply bytes_per_sample_range in Es. destruct Hal as [->|(k & Hk & ->)].
  - cbn [Z.eqb andb]. destruct (_ <? ns) eqn:El; [done|]. bool_to_prop.
    destruct (GAALIGN_spec ns 5) as (n' & E & Hn' & _); [lia..|simpl; unfold INT_MAX in *; nia|].
    change (2 ^ 5) with 32 in *. rewrite E. cbn [mbind option_bind].
    pose proof (buffer_size_tail_ok ch n' (ga_get_bytes_per_sample f)
      (ga_sample_fmt_is_planar f) 0 ltac:(lia) ltac:(lia) Es ltac:(lia)
      ltac:(unfold INT_MAX in *; nia)) as H.
    change (2 ^ 0) with 1 in H. unfold buffer_size_ok in *.
    destruct (buffer_size_tail _ _ _ _ _) as [[r [l|]]|]; [|done..].
    destruct H as (H1 & H2 & H3). split; [nia|done].
  - pose proof (Z.pow_pos_nonneg 2 k ltac:(lia) Hk).
    assert (Ek : (2 ^ k =? 0) = false) by lia. rewrite Ek. cbn [andb mbind option_bind].
    apply (buffer_size_tail_ok ch ns); [lia..|nia].
Qed.

Lemma samples_buffer_size_safe_witness :
  buffer_size_ok 2 1024 2 false 16 (Some (4096, Some 4096)) /\
  ga_samples_get_buffer_size 2 1024 GA_SAMPLE_FMT_S16 16 = Some (4096, Some 4096).
Proof.
  split; [|reflexivity].
  apply (samples_buffer_size_safe 2 1024 GA_SAMPLE_FMT_S16 16);
    [right; exists 4; lia | unfold INT_MAX; lia].
Defined.

(** The guard of [ga_samples_get_buffer_size] multiplies the
    [int]s before comparing, so arguments it is meant to reject (65536 channels
    of 65536 samples) make the check itself overflow. *)
Theorem samples_buffer_size_guard_overflows :
  ga_samples_get_buffer_size 65536 65536 GA_SAMPLE_FMT_S16 1 = None /\
  int_chk (65536 * 65536) = None.
Proof. by vm_compute. Qed.
