(* ===== verification/FramePool.v ===== *)
(** * FramePool: what a frame pipe promises to its clients

    The interface between the frame pipe and the threads that capture, encode
    and send frames.  A pool holds free buffers and stored ones; a client may
    only give back a buffer it holds.  The client theorems of this file are
    proved against the interface alone; [Dpipe] discharges it. *)

From Stdlib Require Import ZArith Lia.
From stdpp Require Import base gmap list relations.
From S2P Require Import Prelude.

(** ** The abstract pools *)

(** A free buffer, else the eldest stored one, else nothing. *)
Definition spec_get (fr oc : list Z) : Z * (list Z * list Z) :=
  match fr, oc with
  | a :: fr, _ => (a, (fr, oc))
  | [], a :: oc => (a, ([], oc))
  | [], [] => (0, ([], []))
  end.

(** The eldest stored buffer, or nothing. *)
Definition spec_load (oc : list Z) : Z * list Z :=
  match oc with a :: oc => (a, oc) | [] => (0, []) end.

(** ** The interface *)

Class FramePool := {
  fp_state : Type;
  (** [fp_rep s d fr oc]: pool [d] has free buffers [fr] and stored ones [oc]. *)
  fp_rep : fp_state -> Z -> list Z -> list Z -> Prop;
  (** A usable buffer header. *)
  fp_buf : fp_state -> Z -> Prop;
  fp_get : Z -> cmd fp_state Z;
  fp_put : Z -> Z -> cmd fp_state unit;
  fp_store : Z -> Z -> cmd fp_state unit;
  fp_load : Z -> cmd fp_state Z;

  fp_rep_bufs s d fr oc a :
    fp_rep s d fr oc -> a ∈ fr ++ oc -> a <> 0 /\ fp_buf s a;
  fp_rep_nodup s d fr oc : fp_rep s d fr oc -> NoDup (fr ++ oc);
  fp_get_law s d fr oc :
    fp_rep s d fr oc ->
    exists s', fp_get d s = Some ((spec_get fr oc).1, s') /\
               fp_rep s' d (spec_get fr oc).2.1 (spec_get fr oc).2.2 /\
               (forall a, fp_buf s a -> fp_buf s' a);
  fp_load_law s d fr oc :
    fp_rep s d fr oc ->
    exists s', fp_load d s = Some ((spec_load oc).1, s') /\
               fp_rep s' d fr (spec_load oc).2 /\
               (forall a, fp_buf s a -> fp_buf s' a);
  fp_put_law s d fr oc b :
    fp_rep s d fr oc -> fp_buf s b -> b <> 0 -> b ∉ fr ++ oc ->
    exists s', fp_put d b s = Some (tt, s') /\ fp_rep s' d (b :: fr) oc /\
               (forall a, fp_buf s a -> fp_buf s' a);
  fp_store_law s d fr oc b :
    fp_rep s d fr oc -> fp_buf s b -> b <> 0 -> b ∉ fr ++ oc ->
    exists s', fp_store d b s = Some (tt, s') /\ fp_rep s' d fr (oc ++ [b]) /\
               (forall a, fp_buf s a -> fp_buf s' a)
}.

(** ** Clients *)

Section clients.
Context `{FramePool}.
Variable d : Z.

Definition hold (a : Z) (held : list Z) : list Z := if a =? 0 then held else a :: held.

(** One operation of one of the threads that share the pool; each runs under
    the pool's mutex.  [held] is what the threads hold together. *)
Inductive pool_step : fp_state * list Z -> fp_state * list Z -> Prop :=
  | step_get s held a s' :
      fp_get d s = Some (a, s') -> pool_step (s, held) (s', hold a held)
  | step_load s held a s' :
      fp_load d s = Some (a, s') -> pool_step (s, held) (s', hold a held)
  | step_put s h1 a h2 s' :
      fp_put d a s = Some (tt, s') -> pool_step (s, h1 ++ a :: h2) (s', h1 ++ h2)
  | step_store s h1 a h2 s' :
      fp_store d a s = Some (tt, s') -> pool_step (s, h1 ++ a :: h2) (s', h1 ++ h2).

(** The buffers of [all] are either free, or stored, or held by a client. *)
Definition pool_inv (all : list Z) (st : fp_state * list Z) : Prop :=
  exists fr oc, fp_rep st.1 d fr oc /\ fr ++ oc ++ st.2 ≡ₚ all /\
    NoDup all /\ forall a, a ∈ st.2 -> a <> 0 /\ fp_buf st.1 a.

Lemma held_detached (all h1 h2 fr oc : list Z) (a : Z) :
  fr ++ oc ++ (h1 ++ a :: h2) ≡ₚ all -> NoDup all -> a ∉ fr ++ oc.
Proof.
  intros Hp Hnd. rewrite <- Hp in Hnd. rewrite app_assoc in Hnd.
  apply NoDup_app in Hnd as (_ & Hnd & _). intros Ha. apply (Hnd a Ha). set_solver.
Qed.

Lemma pool_inv_take all s s' held fr oc fr' oc' a :
  (forall x, fp_buf s x -> fp_buf s' x) ->
  fp_rep s d fr oc -> fp_rep s' d fr' oc' ->
  (a = 0 /\ fr' ++ oc' ≡ₚ fr ++ oc \/ a :: fr' ++ oc' ≡ₚ fr ++ oc) ->
  fr ++ oc ++ held ≡ₚ all -> NoDup all ->
  (forall x, x ∈ held -> x <> 0 /\ fp_buf s x) ->
  pool_inv all (s', hold a held).
Proof.
  intros Hb Hr Hr' Ha Hp Hnd Hh. exists fr', oc'. split; [done|]. split; [|split; [done|]].
  - rewrite <- Hp, !app_assoc. unfold hold. destruct Ha as [[-> E]|E].
    + by rewrite E.
    + destruct (fp_rep_bufs s d fr oc a Hr) as [Ha0 _].
      { rewrite <- E. by left. }
      rewrite (proj2 (Z.eqb_neq a 0) Ha0), <- E. simpl.
      by rewrite <- Permutation_middle.
  - intros x. unfold hold. destruct Ha as [[-> _]|E]; [naive_solver|].
    destruct (fp_rep_bufs s d fr oc a Hr) as [Ha0 Hab]; [rewrite <- E; by left|].
    rewrite (proj2 (Z.eqb_neq a 0) Ha0). set_solver.
Qed.

Lemma pool_inv_give all s s' h1 a h2 fr oc fr' oc' :
  (forall x, fp_buf s x -> fp_buf s' x) ->
  fp_rep s' d fr' oc' -> fr' ++ oc' ≡ₚ a :: fr ++ oc ->
  fr ++ oc ++ (h1 ++ a :: h2) ≡ₚ all -> NoDup all ->
  (forall x, x ∈ h1 ++ a :: h2 -> x <> 0 /\ fp_buf s x) ->
  pool_inv all (s', h1 ++ h2).
Proof.
  intros Hb Hr' E Hp Hnd Hh. exists fr', oc'. split; [done|]. split; [|split; [done|]].
  - rewrite <- Hp, app_assoc, E. cbn [app snd]. rewrite !app_assoc.
    apply Permutation_middle.
  - intros x Hx. destruct (Hh x); [set_solver|]. naive_solver.
Qed.

Lemma pool_inv_step all st st' : pool_inv all st -> pool_step st st' -> pool_inv all st'.
Proof.
  intros (fr & oc & Hr & Hp & Hnd & Hh) Hs.
  destruct Hs as [s held a s' E|s held a s' E|s h1 a h2 s' E|s h1 a h2 s' E]; simpl in *.
  - destruct (fp_get_law s d fr oc Hr) as (s1 & E1 & R1 & B1). simplify_eq.
    eapply pool_inv_take; [done|exact Hr|exact R1| |done..].
    destruct fr as [|x fr]; [destruct oc|]; simpl; auto.
  - destruct (fp_load_law s d fr oc Hr) as (s1 & E1 & R1 & B1). simplify_eq.
    eapply pool_inv_take; [done|exact Hr|exact R1| |done..].
    destruct oc as [|x oc]; simpl; [by left|right]. by rewrite Permutation_middle.
  - destruct (Hh a) as [Ha0 Hab]; [set_solver|].
    destruct (fp_put_law s d fr oc a Hr Hab Ha0) as (s1 & E1 & R1 & B1).
    { eapply held_detached; eassumption. }
    simplify_eq. eapply (pool_inv_give all s s' h1 a h2 fr oc); [done|exact R1|done..].
  - destruct (Hh a) as [Ha0 Hab]; [set_solver|].
    destruct (fp_store_law s d fr oc a Hr Hab Ha0) as (s1 & E1 & R1 & B1).
    { eapply held_detached; eassumption. }
    simplify_eq. eapply (pool_inv_give all s s' h1 a h2 fr oc); [done|exact R1| |done..].
    rewrite app_assoc, (Permutation_app_comm (fr ++ oc)). done.
Qed.

Lemma pool_inv_reachable all st st' :
  pool_inv all st -> rtc pool_step st st' -> pool_inv all st'.
Proof. intros Hi. induction 1; eauto using pool_inv_step. Qed.

Lemma pool_inv_init s fr oc : fp_rep s d fr oc -> pool_inv (fr ++ oc) (s, []).
Proof.
  intros Hr. exists fr, oc. simpl. rewrite app_nil_r. split; [done|]. split; [done|].
  split; [by eapply fp_rep_nodup|]. set_solver.
Qed.

(** In a reachable state every operation a client is allowed to do is defined,
    and [get] fails only when the clients hold all the buffers. *)
Lemma pool_inv_progress all s held :
  pool_inv all (s, held) ->
  (exists a s', fp_get d s = Some (a, s') /\ (a = 0 <-> held ≡ₚ all)) /\
  (exists a s', fp_load d s = Some (a, s')) /\
  (forall a, a ∈ held -> (exists s', fp_put d a s = Some (tt, s')) /\
                         (exists s', fp_store d a s = Some (tt, s'))).
Proof.
  intros (fr & oc & Hr & Hp & Hnd & Hh). simpl in *. split; [|split].
  - destruct (fp_get_law s d fr oc Hr) as (s1 & E1 & R1 & B1).
    eexists _, _. split; [exact E1|].
    assert (Hlen := Permutation_length Hp). rewrite !length_app in Hlen. split.
    + destruct fr as [|x fr]; [destruct oc as [|x oc]|]; simpl; [done|..];
        intros ->; destruct (fp_rep_bufs _ _ _ _ 0 Hr); set_solver.
    + intros Hall%Permutation_length. destruct fr, oc; simpl in *; [done|lia..].
  - destruct (fp_load_law s d fr oc Hr) as (s1 & E1 & _). by eexists _, _.
  - intros a Ha. destruct (Hh a Ha) as [Ha0 Hab].
    assert (Hd : a ∉ fr ++ oc).
    { apply list_elem_of_split in Ha as (h1 & h2 & ->). eapply held_detached; eassumption. }
    destruct (fp_put_law s d fr oc a Hr Hab Ha0 Hd) as (s1 & E1 & _).
    destruct (fp_store_law s d fr oc a Hr Hab Ha0 Hd) as (s2 & E2 & _). eauto.
Qed.
End clients.
