(* ===== verification/Dpipe.v ===== *)
(** * Dpipe: the pipe that delivers discrete frames

    Models [src/sources/streamer/core/dpipe.cpp] and [dpipe.h] at the level of
    the C heap: buffers are linked through their [next] fields, the free pool
    is a stack headed by [in], the output pool a queue from [out] to
    [out_tail].  The theorems show that the pointer code implements a pair of
    abstract pools, never follows a bad pointer, and neither loses nor
    duplicates a frame buffer under any sequence of operations. *)

From Stdlib Require Import ZArith Lia.
From stdpp Require Import base gmap list strings relations.
From S2P Require Import Prelude GaCommon FramePool.

(** ** Data *)

(** Addresses are integers, 0 is NULL. *)
Record dpipe_buffer_t := {
  pointer : Z; internal : Z; offset : Z; next : Z
}.

(** A pipe.  The two counters are [int]s in the code; each counts buffers that
    are allocated, so that they stay below its limit. *)
Record dpipe_t := {
  channel_id : Z; name : Z;
  in_ : Z; out : Z; out_tail : Z;
  in_count : Z; out_count : Z
}.

(** What a live heap address holds: a buffer header, a pipe, the frame memory
    of a buffer (with its size), or a copied name. *)
Inductive obj :=
  | OBuf (b : dpipe_buffer_t)
  | OPipe (p : dpipe_t)
  | OBlock (sz : Z)
  | OStr (s : string).

(** The process state: the heap, the global [dpipemap], and the answers the
    allocator will give to the coming requests (0 is a failed [malloc]). *)
Record dstate := {
  heap : gmap Z obj;
  dpipemap : gmap string Z;
  mallocs : list Z
}.

Definition set_heap (h : gmap Z obj) (s : dstate) : dstate :=
  {| heap := h; dpipemap := dpipemap s; mallocs := mallocs s |}.

Definition set_map (m : gmap string Z) (s : dstate) : dstate :=
  {| heap := heap s; dpipemap := m; mallocs := mallocs s |}.

(** ** Memory primitives *)

Definition malloc (o : obj) : cmd dstate Z := fun s =>
  match mallocs s with
  | [] => Some (0, s)
  | a :: rest =>
      let s := {| heap := heap s; dpipemap := dpipemap s; mallocs := rest |} in
      if a =? 0 then Some (0, s) else Some (a, set_heap (<[a := o]> (heap s)) s)
  end.

Definition free (a : Z) : cmd dstate unit := fun s =>
  if a =? 0 then Some (tt, s)
  else match heap s !! a with
       | Some _ => Some (tt, set_heap (delete a (heap s)) s)
       | None => None
       end.

Definition read_buf (a : Z) : cmd dstate dpipe_buffer_t := fun s =>
  match heap s !! a with Some (OBuf b) => Some (b, s) | _ => None end.

Definition write_buf (a : Z) (b : dpipe_buffer_t) : cmd dstate unit := fun s =>
  match heap s !! a with
  | Some (OBuf _) => Some (tt, set_heap (<[a := OBuf b]> (heap s)) s)
  | _ => None
  end.

Definition read_pipe (a : Z) : cmd dstate dpipe_t := fun s =>
  match heap s !! a with Some (OPipe p) => Some (p, s) | _ => None end.

Definition write_pipe (a : Z) (p : dpipe_t) : cmd dstate unit := fun s =>
  match heap s !! a with
  | Some (OPipe _) => Some (tt, set_heap (<[a := OPipe p]> (heap s)) s)
  | _ => None
  end.

Definition read_str (a : Z) : cmd dstate string := fun s =>
  match heap s !! a with Some (OStr x) => Some (x, s) | _ => None end.

Definition set_next (n : Z) (b : dpipe_buffer_t) : dpipe_buffer_t :=
  {| pointer := pointer b; internal := internal b; offset := offset b; next := n |}.

Definition set_in (a n : Z) (p : dpipe_t) : dpipe_t :=
  {| channel_id := channel_id p; name := name p; in_ := a; out := out p;
     out_tail := out_tail p; in_count := n; out_count := out_count p |}.

Definition set_out (a t n : Z) (p : dpipe_t) : dpipe_t :=
  {| channel_id := channel_id p; name := name p; in_ := in_ p; out := a;
     out_tail := t; in_count := in_count p; out_count := n |}.

(** ** Operations *)

Definition dpipe_lookup (nm : string) : cmd dstate Z :=
  cgets (fun s => default 0 (dpipemap s !! nm)).

(** A list-freeing loop of [dpipe_destroy]; each turn frees a header, so the
    number of live objects bounds the number of turns. *)
Fixpoint free_list (fuel : nat) (vbuf : Z) : cmd dstate unit :=
  if vbuf =? 0 then cret tt
  else match fuel with
       | O => cundef
       | S fuel =>
           b <-- read_buf vbuf ;;
           free (internal b) ;;;
           free vbuf ;;;
           free_list fuel (next b)
       end.

Definition dpipe_destroy (dpipe : Z) : cmd dstate Z :=
  if dpipe =? 0 then cret 0
  else
    p <-- read_pipe dpipe ;;
    (if name p =? 0 then cret tt
     else
       nm <-- read_str (name p) ;;
       cmodify (fun s => set_map (delete nm (dpipemap s)) s) ;;;
       free (name p)) ;;;
    n1 <-- cgets (fun s => size (heap s)) ;;
    free_list n1 (in_ p) ;;;
    n2 <-- cgets (fun s => size (heap s)) ;;
    free_list n2 (out p) ;;;
    free dpipe ;;;
    cret 0.

(** One turn of the allocation loop of [dpipe_create]; [false] is the
    [goto err_create]. *)
Definition create_buffer (dpipe maxframesize : Z) : cmd dstate bool :=
  dbuffer <-- malloc (OBuf {| pointer := 0; internal := 0; offset := 0; next := 0 |}) ;;
  if dbuffer =? 0 then cret false
  else
    sz <-- clift (int_chk (maxframesize + 16)) ;;
    ptr <-- malloc (OBlock sz) ;;
    if ptr =? 0 then free dbuffer ;;; cret false
    else
      let off := ga_malloc_alignment ptr in
      p <-- read_pipe dpipe ;;
      write_buf dbuffer {| pointer := ptr + off; internal := ptr; offset := off;
                           next := in_ p |} ;;;
      write_pipe dpipe (set_in dbuffer (in_count p + 1) p) ;;;
      cret true.

Fixpoint create_loop (nframe : nat) (dpipe maxframesize : Z) : cmd dstate bool :=
  match nframe with
  | O => cret true
  | S n =>
      ok <-- create_buffer dpipe maxframesize ;;
      if (ok : bool) then create_loop n dpipe maxframesize else cret false
  end.

(** [new dpipe_t{}] throws when no memory is left: no continuation then. *)
Definition new_dpipe : cmd dstate Z :=
  a <-- malloc (OPipe {| channel_id := 0; name := 0; in_ := 0; out := 0;
                         out_tail := 0; in_count := 0; out_count := 0 |}) ;;
  if a =? 0 then cundef else cret a.

Definition set_ident (id nm : Z) (p : dpipe_t) : dpipe_t :=
  {| channel_id := id; name := nm; in_ := in_ p; out := out p;
     out_tail := out_tail p; in_count := in_count p; out_count := out_count p |}.

Definition dpipe_create (id : Z) (nm : option string) (nframe maxframesize : Z)
    : cmd dstate Z :=
  match nm with
  | None => cret 0
  | Some nm =>
      if (id <? 0) || (nframe <=? 0) || (maxframesize <=? 0) then cret 0
      else
        old <-- dpipe_lookup nm ;;
        if negb (old =? 0) then cret 0
        else
          dpipe <-- new_dpipe ;;
          dup <-- malloc (OStr nm) ;;
          p <-- read_pipe dpipe ;;
          write_pipe dpipe (set_ident id dup p) ;;;
          ok <-- (if dup =? 0 then cret false
                  else create_loop (Z.to_nat nframe) dpipe maxframesize) ;;
          if (ok : bool) then
            cmodify (fun s => set_map (<[nm := dpipe]> (dpipemap s)) s) ;;;
            cret dpipe
          else dpipe_destroy dpipe ;;; cret 0
  end.

(** The common body of [dpipe_load_nowait], of the non-blocking branch of
    [dpipe_load] and of the dropping branch of [dpipe_get]: unlink the first
    buffer of the output pool. *)
Definition pop_out (dpipe : Z) : cmd dstate Z :=
  p <-- read_pipe dpipe ;;
  if out p =? 0 then cret 0
  else
    let vbuf := out p in
    b <-- read_buf vbuf ;;
    write_buf vbuf (set_next 0 b) ;;;
    write_pipe dpipe
      (set_out (next b) (if next b =? 0 then 0 else out_tail p) (out_count p - 1) p) ;;;
    cret vbuf.

Definition dpipe_get (dpipe : Z) : cmd dstate Z :=
  p <-- read_pipe dpipe ;;
  if negb (in_ p =? 0) then
    let vbuf := in_ p in
    b <-- read_buf vbuf ;;
    write_buf vbuf (set_next 0 b) ;;;
    write_pipe dpipe (set_in (next b) (in_count p - 1) p) ;;;
    cret vbuf
  else pop_out dpipe.

Definition dpipe_put (dpipe buffer : Z) : cmd dstate unit :=
  p <-- read_pipe dpipe ;;
  b <-- read_buf buffer ;;
  write_buf buffer (set_next (in_ p) b) ;;;
  write_pipe dpipe (set_in buffer (in_count p + 1) p).

Definition dpipe_load_nowait (dpipe : Z) : cmd dstate Z := pop_out dpipe.

Definition dpipe_store (dpipe buffer : Z) : cmd dstate unit :=
  p <-- read_pipe dpipe ;;
  (if negb (out_tail p =? 0) then
     t <-- read_buf (out_tail p) ;;
     write_buf (out_tail p) (set_next buffer t) ;;;
     write_pipe dpipe (set_out (out p) buffer (out_count p) p)
   else write_pipe dpipe (set_out buffer buffer (out_count p) p)) ;;;
  b <-- read_buf buffer ;;
  write_buf buffer (set_next 0 b) ;;;
  p <-- read_pipe dpipe ;;
  write_pipe dpipe (set_out (out p) (out_tail p) (out_count p + 1) p).

(** What [dpipe_load] does next: return a buffer (or NULL), or stay blocked. *)
Inductive load_result := Loaded (vbuf : Z) | Blocked.

(** [dpipe_load].  While the thread waits on the condition variable the mutex
    is released and the other threads act: [env] lists what they do during each
    successive wait (wake-ups may be spurious).  With [timed] the wait is
    bounded by [abstime] and done at most once. *)
Fixpoint dpipe_load (dpipe : Z) (timed failed : bool) (env : list (cmd dstate unit))
    : cmd dstate load_result :=
  p <-- read_pipe dpipe ;;
  if negb (out p =? 0) then v <-- pop_out dpipe ;; cret (Loaded v)
  else if timed && failed then cret (Loaded 0)
  else match env with
       | [] => cret Blocked
       | other :: env => other ;;; dpipe_load dpipe timed timed env
       end.

(** ** Representation of the pools in the heap *)

(** [chain h p l]: following [next] from [p] visits exactly the buffers [l]
    and ends at NULL. *)
Fixpoint chain (h : gmap Z obj) (p : Z) (l : list Z) : Prop :=
  match l with
  | [] => p = 0
  | a :: l => p = a /\ a <> 0 /\ exists b, h !! a = Some (OBuf b) /\ chain h (next b) l
  end.

(** [rep h d fr oc]: the pipe at [d] has the free pool [fr] (a stack) and the
    output pool [oc] (oldest first), with tail pointer and counters to match. *)
Definition rep (h : gmap Z obj) (d : Z) (fr oc : list Z) : Prop :=
  exists p, h !! d = Some (OPipe p) /\
    chain h (in_ p) fr /\ chain h (out p) oc /\
    out_tail p = default 0 (last oc) /\
    in_count p = Z.of_nat (length fr) /\ out_count p = Z.of_nat (length oc) /\
    NoDup (fr ++ oc).

Definition is_buf (h : gmap Z obj) (a : Z) : Prop := exists b, h !! a = Some (OBuf b).

(** What no pipe operation may change: the frame memory a buffer header owns,
    the identity of pipes, the other objects. *)
Definition core (o : obj) : obj :=
  match o with
  | OBuf b => OBuf (set_next 0 b)
  | OPipe p => OPipe (set_in 0 0 (set_out 0 0 0 p))
  | _ => o
  end.

Definition same_core (h h' : gmap Z obj) : Prop :=
  forall a, core <$> (h !! a) = core <$> (h' !! a).

#[export] Instance same_core_equiv : Equivalence same_core.
Proof. split; repeat intro; congruence. Qed.

Lemma same_core_insert h a o o' :
  h !! a = Some o -> core o' = core o -> same_core h (<[a := o']> h).
Proof.
  intros Ha Hc x. rewrite lookup_insert. case_decide; [subst|done].
  rewrite Ha. simpl. by rewrite Hc.
Qed.

Lemma same_core_set_next h a b x :
  h !! a = Some (OBuf b) -> same_core h (<[a := OBuf (set_next x b)]> h).
Proof. intros H. by apply same_core_insert with (OBuf b). Qed.

(** The usual update: one [next] field and the pool fields of the pipe. *)
Lemma same_core_relink h a b x d p p' :
  h !! a = Some (OBuf b) -> h !! d = Some (OPipe p) ->
  core (OPipe p') = core (OPipe p) ->
  same_core h (<[d := OPipe p']> (<[a := OBuf (set_next x b)]> h)).
Proof.
  intros Ha Hd Hc. transitivity (<[a := OBuf (set_next x b)]> h).
  - by apply same_core_set_next.
  - eapply same_core_insert; [|done]. rewrite lookup_insert_ne; [done|congruence].
Qed.

Lemma same_core_is_buf h h' a : same_core h h' -> is_buf h a -> is_buf h' a.
Proof.
  intros H [b Hb]. specialize (H a). rewrite Hb in H. simpl in H.
  destruct (h' !! a) as [[]|] eqn:E; simplify_eq/=. by eexists.
Qed.

Lemma chain_frame h h' p l :
  (forall a, a ∈ l -> h' !! a = h !! a) -> chain h p l -> chain h' p l.
Proof.
  revert p. induction l as [|a l IH]; intros p Heq; [done|].
  intros (-> & Ha & b & Hb & Hc). repeat split; [done|]. exists b. split.
  - rewrite Heq; [done|]. by left.
  - apply IH; [|done]. intros x Hx. apply Heq. by right.
Qed.

Lemma chain_bufs h p l a : chain h p l -> a ∈ l -> a <> 0 /\ is_buf h a.
Proof.
  revert p. induction l as [|x l IH]; intros p Hc Ha.
  { by apply not_elem_of_nil in Ha. }
  destruct Hc as (-> & Hx & b & Hb & Hc). apply elem_of_cons in Ha as [->|Ha].
  - split; [done|]. by exists b.
  - by eapply IH.
Qed.

Lemma chain_insert h p l a o :
  a ∉ l -> chain h p l -> chain (<[a := o]> h) p l.
Proof.
  intros Ha. apply chain_frame. intros x Hx. apply lookup_insert_ne. set_solver.
Qed.

Lemma chain_insert_pipe h p l d q q' :
  h !! d = Some (OPipe q) -> chain h p l -> chain (<[d := OPipe q']> h) p l.
Proof.
  intros Hd Hc. apply chain_insert; [|done]. intros Hin.
  destruct (chain_bufs _ _ _ _ Hc Hin) as [_ [b Hb]]. congruence.
Qed.

Lemma chain_null h p l : chain h p l -> (p =? 0) = bool_decide (l = []).
Proof.
  destruct l as [|a l]; simpl.
  - by intros ->.
  - intros (-> & H & _). by apply Z.eqb_neq.
Qed.

(** Appending a detached buffer behind the last one. *)
Lemma chain_snoc h p l t b x bx :
  chain h p (l ++ [t]) -> h !! t = Some (OBuf b) -> NoDup (l ++ [t]) ->
  x ∉ l ++ [t] -> x <> 0 -> h !! x = Some (OBuf bx) ->
  chain (<[x := OBuf (set_next 0 bx)]> (<[t := OBuf (set_next x b)]> h)) p (l ++ [t; x]).
Proof.
  intros Hc Ht Hnd Hx Hx0 Hbx. revert p Hc.
  assert (x <> t) by set_solver.
  induction l as [|a l IH]; intros p Hc.
  - destruct Hc as (-> & Ht0 & b' & Hb' & _). simpl. repeat split; [done|].
    exists (set_next x b). split.
    + by rewrite lookup_insert_ne, lookup_insert_eq.
    + repeat split; [done|]. exists (set_next 0 bx). split; [|done].
      by rewrite lookup_insert_eq.
  - destruct Hc as (-> & Ha0 & b' & Hb' & Hc). simpl. repeat split; [done|].
    apply NoDup_cons in Hnd as [Hna Hnd]. exists b'. split.
    + rewrite !lookup_insert_ne; [done|set_solver..].
    + apply IH; [done| |done]. by apply not_elem_of_cons in Hx as [_ Hx].
Qed.

(** ** Stepping through the pointer code *)

Lemma read_buf_eq s a b : heap s !! a = Some (OBuf b) -> read_buf a s = Some (b, s).
Proof. intros H. unfold read_buf. by rewrite H. Qed.

Lemma write_buf_eq s a b b' :
  heap s !! a = Some (OBuf b) ->
  write_buf a b' s = Some (tt, set_heap (<[a := OBuf b']> (heap s)) s).
Proof. intros H. unfold write_buf. by rewrite H. Qed.

Lemma read_pipe_eq s a p : heap s !! a = Some (OPipe p) -> read_pipe a s = Some (p, s).
Proof. intros H. unfold read_pipe. by rewrite H. Qed.

Lemma write_pipe_eq s a p p' :
  heap s !! a = Some (OPipe p) ->
  write_pipe a p' s = Some (tt, set_heap (<[a := OPipe p']> (heap s)) s).
Proof. intros H. unfold write_pipe. by rewrite H. Qed.

Lemma free_eq s a o :
  a <> 0 -> heap s !! a = Some o -> free a s = Some (tt, set_heap (delete a (heap s)) s).
Proof.
  intros Ha H. unfold free. rewrite (proj2 (Z.eqb_neq a 0) Ha). by rewrite H.
Qed.

(** Find a heap cell below the updates made since. *)
Ltac hlookup :=
  cbn [heap set_heap set_map mallocs dpipemap];
  repeat first [ rewrite lookup_insert_ne by congruence
               | rewrite lookup_delete_ne by congruence ];
  first [eassumption | rewrite lookup_insert_eq; reflexivity].

(** Execute the first primitive of a computation. *)
Ltac hprim :=
  first [ eapply read_buf_eq | eapply read_pipe_eq
        | eapply write_buf_eq | eapply write_pipe_eq
        | eapply free_eq; [congruence|] ]; hlookup.

Ltac hstep := erewrite cbind_Some; [|hprim].

(** ** Each operation implements its abstract counterpart *)

(** [refines s s' d fr oc]: the pipe now represents [fr] and [oc] and nothing
    else of the state has changed. *)
Definition refines (s s' : dstate) (d : Z) (fr oc : list Z) : Prop :=
  rep (heap s') d fr oc /\ same_core (heap s) (heap s') /\
  dpipemap s' = dpipemap s /\ mallocs s' = mallocs s.

Lemma last_cons_ne (a : Z) l : l <> [] -> last (a :: l) = last l.
Proof. by destruct l. Qed.

Lemma pop_out_refines s d fr oc :
  rep (heap s) d fr oc ->
  exists s', pop_out d s = Some ((spec_load oc).1, s') /\
             refines s s' d fr (spec_load oc).2.
Proof.
  intros (p & Hd & Hin & Hout & Htl & Hic & Hoc & Hnd).
  unfold pop_out. hstep. rewrite (chain_null _ _ _ Hout). destruct oc as [|a oc].
  { exists s. split; [done|]. repeat split; [|done..]. by exists p. }
  destruct Hout as (Ea & Ha0 & b & Hb & Hout).
  rewrite bool_decide_eq_false_2 by done. cbv zeta. rewrite Ea.
  assert (Had : a <> d) by congruence. do 3 hstep.
  apply NoDup_app in Hnd as (Hn1 & Hn2 & Hn3). apply NoDup_cons in Hn3 as [Hna Hn3].
  eexists. split; [done|]. split; [|split; [|done]].
  - eexists. split; [hlookup|]. cbn [heap set_heap in_ out out_tail in_count out_count set_in set_out].
    assert (Hd' : <[a:=OBuf (set_next 0 b)]> (heap s) !! d = Some (OPipe p))
      by by rewrite lookup_insert_ne.
    split; [|split]; [by eapply chain_insert_pipe, chain_insert; [..|set_solver|]..|].
    rewrite (chain_null _ _ _ Hout). split; [|split; [done|split]].
    + destruct oc as [|a' oc']; [done|]. rewrite bool_decide_eq_false_2 by done. done.
    + cbn [length spec_load snd] in *. lia.
    + apply NoDup_app. repeat split; [done| |done]. set_solver.
  - by eapply same_core_relink.
Qed.

Lemma dpipe_get_refines s d fr oc :
  rep (heap s) d fr oc ->
  exists s', dpipe_get d s = Some ((spec_get fr oc).1, s') /\
             refines s s' d (spec_get fr oc).2.1 (spec_get fr oc).2.2.
Proof.
  intros Hrep. pose proof Hrep as (p & Hd & Hin & Hout & Htl & Hic & Hoc & Hnd).
  unfold dpipe_get. hstep. rewrite (chain_null _ _ _ Hin). destruct fr as [|a fr].
  { destruct (pop_out_refines _ _ _ _ Hrep) as (s' & E & R).
    exists s'. by destruct oc. }
  destruct Hin as (Ea & Ha0 & b & Hb & Hin).
  rewrite bool_decide_eq_false_2 by done. cbn [negb]. cbv zeta. rewrite Ea.
  assert (Had : a <> d) by congruence. do 3 hstep.
  apply NoDup_cons in Hnd as [Hna Hnd].
  eexists. split; [done|]. split; [|split; [|done]].
  - eexists. split; [hlookup|]. cbn [heap set_heap in_ out out_tail in_count out_count set_in set_out].
    assert (Hd' : <[a:=OBuf (set_next 0 b)]> (heap s) !! d = Some (OPipe p))
      by by rewrite lookup_insert_ne.
    split; [|split]; [by eapply chain_insert_pipe, chain_insert; [..|set_solver|]..|].
    cbn [spec_get fst snd length] in *. repeat split; [done|lia|done|done].
  - by eapply same_core_relink.
Qed.

Lemma dpipe_put_refines s d fr oc a :
  rep (heap s) d fr oc -> is_buf (heap s) a -> a <> 0 -> a ∉ fr ++ oc ->
  exists s', dpipe_put d a s = Some (tt, s') /\ refines s s' d (a :: fr) oc.
Proof.
  intros (p & Hd & Hin & Hout & Htl & Hic & Hoc & Hnd) [b Hb] Ha0 Ha.
  assert (Had : a <> d) by congruence.
  unfold dpipe_put. do 3 hstep. erewrite write_pipe_eq by hlookup.
  eexists. split; [done|]. split; [|split; [|done]].
  - eexists. split; [hlookup|]. cbn [heap set_heap in_ out out_tail in_count out_count set_in set_out].
    assert (Hd' : <[a:=OBuf (set_next (in_ p) b)]> (heap s) !! d = Some (OPipe p))
      by by rewrite lookup_insert_ne.
    split; [|split].
    + repeat split; [done|]. exists (set_next (in_ p) b). split.
      { by rewrite lookup_insert_ne, lookup_insert_eq. }
      by eapply chain_insert_pipe, chain_insert; [..|set_solver|].
    + by eapply chain_insert_pipe, chain_insert; [..|set_solver|].
    + cbn [length]. repeat split; [done|lia|done|]. by constructor.
  - by eapply same_core_relink.
Qed.

Lemma insert_around (m : gmap Z obj) d a x y z :
  a <> d -> <[d := x]> (<[a := y]> (<[d := z]> m)) = <[d := x]> (<[a := y]> m).
Proof. intros H. by rewrite (insert_insert_ne _ a d), insert_insert_eq. Qed.

Lemma NoDup_snoc (l : list Z) a : NoDup l -> a ∉ l -> NoDup (l ++ [a]).
Proof.
  intros Hl Ha. apply NoDup_app. repeat split; [done| |apply NoDup_singleton].
  intros x Hx ->%list_elem_of_singleton. done.
Qed.

Lemma dpipe_store_refines s d fr oc a :
  rep (heap s) d fr oc -> is_buf (heap s) a -> a <> 0 -> a ∉ fr ++ oc ->
  exists s', dpipe_store d a s = Some (tt, s') /\ refines s s' d fr (oc ++ [a]).
Proof.
  intros (p & Hd & Hin & Hout & Htl & Hic & Hoc & Hnd) [b Hb] Ha0 Ha.
  assert (Had : a <> d) by congruence.
  assert (Hnd' : NoDup (fr ++ oc ++ [a])) by (rewrite app_assoc; by apply NoDup_snoc).
  apply not_elem_of_app in Ha as [Hafr Haoc].
  unfold dpipe_store. hstep. destruct oc as [|t oc _] using rev_ind.
  - simpl in Htl. rewrite Htl. cbn [negb Z.eqb]. do 4 hstep.
    erewrite write_pipe_eq by hlookup. eexists. split; [done|].
    cbn [heap set_heap]. rewrite insert_around by done.
    split; [|split; [by eapply same_core_relink|done]].
    eexists. split; [hlookup|].
    cbn [heap set_heap in_ out out_tail in_count out_count set_in set_out app last].
    assert (Hd' : <[a:=OBuf (set_next 0 b)]> (heap s) !! d = Some (OPipe p)) by hlookup.
    split; [by eapply chain_insert_pipe, chain_insert|].
    split; [|cbn [length] in *; repeat split; [done|lia|done]].
    repeat split; [done|]. exists (set_next 0 b). split; [hlookup|done].
  - rewrite last_snoc in Htl. simpl in Htl. subst t.
    destruct (chain_bufs _ _ _ (out_tail p) Hout) as [Ht0 [bt Hbt]]; [set_solver|].
    rewrite (proj2 (Z.eqb_neq _ _) Ht0). cbn [negb].
    assert (Htd : out_tail p <> d) by congruence.
    assert (Hta : out_tail p <> a) by set_solver.
    rewrite (cbind_Some _ _ _ tt (set_heap (<[d:=OPipe (set_out (out p) a (out_count p) p)]>
      (<[out_tail p:=OBuf (set_next a bt)]> (heap s))) s)); [|by do 2 hstep; erewrite write_pipe_eq by hlookup].
    do 3 hstep. erewrite write_pipe_eq by hlookup. eexists. split; [done|].
    cbn [heap set_heap]. rewrite insert_around by done. split; [|split; [|done]].
    + eexists. split; [hlookup|].
      cbn [heap set_heap in_ out out_tail in_count out_count set_in set_out app last].
      assert (Hd' : <[a:=OBuf (set_next 0 b)]> (<[out_tail p:=OBuf (set_next a bt)]> (heap s))
        !! d = Some (OPipe p)) by hlookup.
      split; [|split].
      * eapply chain_insert_pipe, chain_insert, chain_insert; [done|done| |done].
        apply NoDup_app in Hnd as (_ & Hn & _). intros H. apply (Hn _ H). set_solver.
      * eapply chain_insert_pipe; [done|]. rewrite <- app_assoc.
        apply NoDup_app in Hnd as (_ & _ & Hnd). by apply chain_snoc.
      * rewrite last_snoc. rewrite !length_app in *. cbn [length] in *.
        repeat split; [lia|lia|done].
    + transitivity (<[out_tail p:=OBuf (set_next a bt)]> (heap s)).
      * by apply same_core_set_next.
      * eapply same_core_relink; [hlookup|hlookup|done].
Qed.

(** ** The pipe as an implementation of the pool interface *)

Lemma rep_bufs h d fr oc a : rep h d fr oc -> a ∈ fr ++ oc -> a <> 0 /\ is_buf h a.
Proof.
  intros (p & _ & Hin & Hout & _) Ha.
  apply elem_of_app in Ha as [Ha|Ha];
    [exact (chain_bufs _ _ _ _ Hin Ha)|exact (chain_bufs _ _ _ _ Hout Ha)].
Qed.

Lemma rep_nodup h d fr oc : rep h d fr oc -> NoDup (fr ++ oc).
Proof. by intros (p & _ & _ & _ & _ & _ & _ & H). Qed.

(** From the refinement lemmas to the form of the interface laws. *)
Lemma refines_law {A} (m : cmd dstate A) (r : A) s d fr' oc' :
  (exists s', m s = Some (r, s') /\ refines s s' d fr' oc') ->
  exists s', m s = Some (r, s') /\ rep (heap s') d fr' oc' /\
             forall a, is_buf (heap s) a -> is_buf (heap s') a.
Proof.
  intros (s' & E & R & C & _). exists s'. repeat split; [done..|].
  intros a. by apply same_core_is_buf.
Qed.

#[export, refine] Instance dpipe_pool : FramePool := {|
  fp_state := dstate;
  fp_rep s := rep (heap s);
  fp_buf s := is_buf (heap s);
  fp_get := dpipe_get;
  fp_put := dpipe_put;
  fp_store := dpipe_store;
  fp_load := dpipe_load_nowait
|}.
Proof.
  - intros *. apply rep_bufs.
  - intros *. apply rep_nodup.
  - intros. by apply refines_law, dpipe_get_refines.
  - intros. by apply refines_law, pop_out_refines.
  - intros. by apply refines_law, dpipe_put_refines.
  - intros. by apply refines_law, dpipe_store_refines.
Defined.

(** ** Blocking loads *)

Lemma pop_out_nonnull s d fr a oc v s' :
  rep (heap s) d fr (a :: oc) -> pop_out d s = Some (v, s') -> v = a /\ v <> 0.
Proof.
  intros Hr E. destruct (pop_out_refines _ _ _ _ Hr) as (s1 & E1 & _).
  rewrite E1 in E. injection E as <- <-. split; [done|].
  destruct (rep_bufs _ _ _ _ a Hr); set_solver.
Qed.

(** The output pool of the pipe at [d] is empty. *)
Definition out_empty (s : dstate) (d : Z) : Prop :=
  exists p, heap s !! d = Some (OPipe p) /\ out p = 0.

(** What the waits of [dpipe_load] see: every action of the other threads keeps
    the pipe represented. *)
Definition env_ok (d : Z) (env : list (cmd dstate unit)) : Prop :=
  Forall (fun act : cmd dstate unit => forall s fr oc, rep (heap s) d fr oc ->
    exists s' fr' oc', act s = Some (tt, s') /\ rep (heap s') d fr' oc') env.

(** The waits [es], one after the other, lead from [s] to [s1], and each of them began with an empty output pool. *)
Fixpoint waits (d : Z) (es : list (cmd dstate unit)) (s s1 : dstate) : Prop :=
  match es with
  | [] => s1 = s
  | act :: es => (exists fr, rep (heap s) d fr []) /\ exists s2, act s = Some (tt, s2) /\ waits d es s2 s1
  end.

(** How a load ends after the waits that led to [s1], where the pools are [fr1] and [oc1]. *)
Definition load_ends (d : Z) (timed failed : bool) (es rest : list (cmd dstate unit)) (s1 : dstate) (fr1 oc1 : list Z)
    (r : load_result) (s' : dstate) : Prop :=
  match r with
  | Loaded 0 => timed = true /\ (failed = false -> es <> []) /\ oc1 = [] /\ s' = s1
  | Loaded v => exists oc', oc1 = v :: oc' /\ rep (heap s') d fr1 oc'
  | Blocked => rest = [] /\ oc1 = [] /\ s' = s1 /\ (timed = true -> es = [])
  end.

Lemma dpipe_load_cases d timed failed env s fr oc :
  env_ok d env -> rep (heap s) d fr oc ->
  exists r s' es rest s1 fr1 oc1, dpipe_load d timed failed env s = Some (r, s') /\
    env = es ++ rest /\ waits d es s s1 /\ rep (heap s1) d fr1 oc1 /\
    (timed = true -> length es <= if failed then 0 else 1)%nat /\
    load_ends d timed failed es rest s1 fr1 oc1 r s'.
Proof.
  intros Henv. revert s failed fr oc. induction Henv as [|act env Hact Henv IH];
    intros s failed fr oc Hr; pose proof Hr as (p & Hd & Hin & Hout & _); simpl; hstep;
    rewrite (chain_null _ _ _ Hout); (destruct oc as [|a oc];
    [|destruct (pop_out_refines _ _ _ _ Hr) as (s1 & E1 & R1 & _);
      destruct (pop_out_nonnull _ _ _ _ _ _ _ Hr E1) as [Ea Ha0];
      cbn [negb]; rewrite bool_decide_eq_false_2 by done; cbn [negb];
      rewrite (cbind_Some _ _ _ _ _ E1); eexists _, _, [], _, s, fr, (a :: oc); split; [reflexivity|];
      split; [reflexivity|]; split; [done|]; split; [done|]; split; [simpl; lia|];
      cbn [spec_load fst] in *; destruct a; [done|by eexists..]]).
  - cbn [negb]. rewrite bool_decide_eq_true_2 by done. cbn [negb].
    destruct timed, failed; cbn [andb]; eexists _, _, [], [], s, fr, []; (split; [reflexivity|]);
      (split; [done|]); (split; [done|]); (split; [done|]); (split; [simpl; lia|]); done.
  - rewrite bool_decide_eq_true_2 by done. cbn [negb].
    destruct (timed && failed) eqn:TF.
    { apply andb_prop in TF as [-> ->]. eexists _, _, [], _, s, fr, []. split; [reflexivity|].
      split; [reflexivity|]. split; [done|]. split; [done|]. split; [done|]. done. }
    destruct (Hact s fr [] Hr) as (s2 & fr2 & oc2 & E2 & R2).
    rewrite (cbind_Some _ _ _ _ _ E2).
    destruct (IH s2 timed fr2 oc2 R2) as (r & s' & es & rest & s1 & fr1 & oc1 & E & -> & W & R & L & H).
    exists r, s', (act :: es), rest, s1, fr1, oc1. split; [done|]. split; [done|]. split; [split; eauto|]. split; [done|].
    split; [intros ->; simpl in *; specialize (L eq_refl); destruct failed; [done|lia]|].
    destruct r as [[| |]|]; [destruct H as (? & ? & ? & ?); done|done..|].
    destruct H as (-> & -> & -> & Hb). do 3 (split; [done|]). intros ->.
    rewrite (Hb eq_refl) in *. simpl in W. subst s1. simpl in E. destruct R as (q & Hq & _ & Ho & _).
    erewrite cbind_Some in E; [|hprim]. rewrite (chain_null _ _ _ Ho) in E. done.
Qed.

(** ** Allocation and release *)

(** [malloc] returns NULL or the address of memory that is not in use. *)
Definition malloc_ok (s : dstate) : Prop :=
  (forall a, a ∈ mallocs s -> a <> 0 -> heap s !! a = None) /\
  NoDup (filter (fun a => a <> 0) (mallocs s)).

Lemma malloc_ok_mono s s' :
  mallocs s' = mallocs s -> (forall a, heap s !! a = None -> heap s' !! a = None) ->
  malloc_ok s -> malloc_ok s'.
Proof. intros E H [H1 H2]. unfold malloc_ok. rewrite E. split; [|done]. naive_solver. Qed.

Lemma malloc_spec o s :
  malloc_ok s ->
  exists a s', malloc o s = Some (a, s') /\ dpipemap s' = dpipemap s /\ malloc_ok s' /\
    (a = 0 /\ heap s' = heap s \/
     a <> 0 /\ heap s !! a = None /\ heap s' = <[a := o]> (heap s)).
Proof.
  intros [H1 H2]. unfold malloc, malloc_ok.
  destruct (mallocs s) as [|a rest] eqn:E.
  { exists 0, s. rewrite E. split; [done|]. split; [done|]. split; [|by left].
    split; [|constructor]. set_solver. }
  rewrite filter_cons in H2. destruct (decide (a <> 0)) as [Ha|Ha].
  - rewrite (proj2 (Z.eqb_neq a 0) Ha). eexists _, _. split; [done|].
    apply NoDup_cons in H2 as [Hna H2]. simpl. split; [done|]. split; [split; [|done]|].
    + intros x Hx Hx0. rewrite lookup_insert_ne; [apply H1; set_solver|].
      intros ->. apply Hna, list_elem_of_filter. done.
    + right. split; [done|]. split; [apply H1; set_solver|done].
  - apply dec_stable in Ha as ->. eexists _, _. split; [done|]. simpl. split; [done|].
    split; [|by left]. split; [|done]. intros x Hx. apply H1. set_solver.
Qed.

(** The heap [h'] is [h] without the objects at [ks]. *)
Definition without (h h' : gmap Z obj) (ks : list Z) : Prop :=
  forall a, h' !! a = if decide (a ∈ ks) then None else h !! a.

Lemma without_trans h h1 h2 k1 k2 :
  without h h1 k1 -> without h1 h2 k2 -> without h h2 (k1 ++ k2).
Proof.
  intros H1 H2 a. rewrite H2, H1. repeat case_decide; set_solver.
Qed.

Lemma without_nil h : without h h [].
Proof. intros a. by rewrite decide_False by apply not_elem_of_nil. Qed.

Lemma without_delete h a : without h (delete a h) [a].
Proof. intros x. rewrite lookup_delete. repeat case_decide; set_solver. Qed.

Lemma without_lookup h h' ks a : without h h' ks -> a ∉ ks -> h' !! a = h !! a.
Proof. intros H Ha. rewrite (H a). by rewrite decide_False. Qed.

(** Buffer [a] owns the frame memory at [m], allocated for [sz] bytes: the data
    pointer is 16-byte aligned and the [sz] bytes lie inside the block. *)
Definition frame_of (h : gmap Z obj) (sz a m : Z) : Prop :=
  m <> 0 /\ h !! m = Some (OBlock (sz + 16)) /\
  exists b, h !! a = Some (OBuf b) /\ internal b = m /\
    offset b = ga_malloc_alignment m /\ pointer b = m + offset b.

Lemma frame_of_eq h h' sz a m :
  h' !! a = h !! a -> h' !! m = h !! m -> frame_of h sz a m -> frame_of h' sz a m.
Proof. unfold frame_of. by intros -> ->. Qed.

Lemma frames_frame h h' sz l ms :
  (forall a, a ∈ l ++ ms -> h' !! a = h !! a) ->
  Forall2 (frame_of h sz) l ms -> Forall2 (frame_of h' sz) l ms.
Proof.
  intros Heq HF. induction HF as [|a m l ms Ham HF IH]; constructor.
  - eapply frame_of_eq; [apply Heq; set_solver..|done].
  - apply IH. intros x Hx. apply Heq. set_solver.
Qed.

Lemma free_list_spec fuel s p sz l ms :
  chain (heap s) p l -> Forall2 (frame_of (heap s) sz) l ms -> NoDup (l ++ ms) ->
  (length l <= fuel)%nat ->
  exists s', free_list fuel p s = Some (tt, s') /\ without (heap s) (heap s') (l ++ ms) /\
    dpipemap s' = dpipemap s /\ mallocs s' = mallocs s.
Proof.
  revert s p l ms. induction fuel as [|fuel IH]; intros s p l ms Hc HF Hnd Hl.
  { destruct l; [|simpl in Hl; lia]. simpl in Hc. subst. inversion HF; subst.
    exists s. split; [done|]. split; [apply without_nil|done]. }
  destruct HF as [|a m l ms Ham HF].
  { simpl in Hc. subst. exists s. split; [done|]. split; [apply without_nil|done]. }
  destruct Hc as (-> & Ha0 & b & Hb & Hc).
  destruct Ham as (Hm0 & Hm & b' & Hb' & Hi & _). simplify_eq.
  assert (Hmm : internal b <> a) by congruence.
  apply NoDup_cons in Hnd as [Hna Hnd]. apply NoDup_app in Hnd as (Hn1 & Hn2 & Hn3).
  apply NoDup_cons in Hn3 as [Hnm Hn3].
  cbn [free_list]. rewrite (proj2 (Z.eqb_neq a 0) Ha0). do 3 hstep.
  set (s1 := set_heap _ (set_heap _ s)).
  assert (W : without (heap s) (heap s1) [internal b; a]).
  { change [internal b; a] with ([internal b] ++ [a]).
    eapply without_trans; apply without_delete. }
  assert (Hout : forall x, x ∈ l ++ ms -> heap s1 !! x = heap s !! x).
  { intros x Hx. eapply without_lookup; [exact W|].
    intros Hin. apply Hna. set_solver. }
  destruct (IH s1 (next b) l ms) as (s' & E & W' & Em & Ea).
  - eapply chain_frame; [|exact Hc]. set_solver.
  - by eapply frames_frame.
  - apply NoDup_app. set_solver.
  - simpl in Hl. lia.
  - exists s'. split; [exact E|]. split; [|done].
    intros x. rewrite (without_trans _ _ _ _ _ W W' x).
    repeat case_decide; set_solver.
Qed.

Lemma chain_length_size h p l : chain h p l -> NoDup l -> (length l <= size h)%nat.
Proof.
  intros Hc Hnd. rewrite <- size_dom, <- (size_list_to_set (C:=gset Z) l Hnd).
  apply subseteq_size. intros a Ha%elem_of_list_to_set.
  destruct (chain_bufs _ _ _ _ Hc Ha) as [_ [b Hb]]. by eapply elem_of_dom_2.
Qed.

(** Everything the pipe at [d] owns: its name, its buffers and their memory. *)
Definition owned (h : gmap Z obj) (d sz : Z) (nm : option string)
    (fr oc ms1 ms2 : list Z) : Prop :=
  exists p, h !! d = Some (OPipe p) /\ d <> 0 /\
    chain h (in_ p) fr /\ chain h (out p) oc /\
    Forall2 (frame_of h sz) fr ms1 /\ Forall2 (frame_of h sz) oc ms2 /\
    NoDup ((fr ++ ms1) ++ (oc ++ ms2)) /\
    match nm with
    | None => name p = 0
    | Some str => name p <> 0 /\ h !! name p = Some (OStr str)
    end.

Lemma frames_lookup h sz l ms a :
  Forall2 (frame_of h sz) l ms -> a ∈ l ++ ms ->
  (exists b, h !! a = Some (OBuf b)) \/ (exists z, h !! a = Some (OBlock z)).
Proof.
  intros HF [[i Hi]%list_elem_of_lookup|[i Hi]%list_elem_of_lookup]%elem_of_app.
  - destruct (Forall2_lookup_l _ _ _ _ _ HF Hi) as (m & _ & _ & _ & b & Hb & _). eauto.
  - destruct (Forall2_lookup_r _ _ _ _ _ HF Hi) as (x & _ & _ & Hm & _). eauto.
Qed.

Lemma frames_not_str h sz l ms a s :
  Forall2 (frame_of h sz) l ms -> h !! a = Some (OStr s) -> a ∉ l ++ ms.
Proof. intros HF Ha Hin. destruct (frames_lookup _ _ _ _ _ HF Hin) as [[]|[]]; congruence. Qed.

Lemma frames_not_pipe h sz l ms a p :
  Forall2 (frame_of h sz) l ms -> h !! a = Some (OPipe p) -> a ∉ l ++ ms.
Proof. intros HF Ha Hin. destruct (frames_lookup _ _ _ _ _ HF Hin) as [[]|[]]; congruence. Qed.

(** The name part of [dpipe_destroy]. *)
Lemma destroy_name_spec s d sz nm fr oc ms1 ms2 p :
  owned (heap s) d sz nm fr oc ms1 ms2 -> heap s !! d = Some (OPipe p) ->
  exists s', (if name p =? 0 then cret tt
     else
       n <-- read_str (name p) ;;
       cmodify (fun s => set_map (delete n (dpipemap s)) s) ;;;
       free (name p)) s = Some (tt, s') /\
    without (heap s) (heap s') (match nm with None => [] | _ => [name p] end) /\
    dpipemap s' = match nm with None => dpipemap s | Some n => delete n (dpipemap s) end /\
    mallocs s' = mallocs s.
Proof.
  intros (p' & Hp' & _ & _ & _ & _ & _ & _ & Hn) Hp. rewrite Hp in Hp'.
  injection Hp' as <-. destruct nm as [str|].
  - destruct Hn as [Hn0 Hn]. rewrite (proj2 (Z.eqb_neq _ _) Hn0).
    rewrite (cbind_Some _ _ s str s) by (unfold read_str; by rewrite Hn).
    rewrite (cbind_Some _ _ s tt (set_map (delete str (dpipemap s)) s)) by done.
    erewrite free_eq; [|done|hlookup]. eexists. split; [done|].
    split; [|done]. apply without_delete.
  - rewrite Hn. exists s. split; [done|]. split; [apply without_nil|done].
Qed.

(** One of the two lists is freed, after the memory [k] is gone already. *)
Lemma free_side h k s hd sz l ms :
  without h (heap s) k -> chain h hd l -> Forall2 (frame_of h sz) l ms -> NoDup (l ++ ms) ->
  (forall x, x ∈ l ++ ms -> x ∉ k) ->
  exists s', free_list (size (heap s)) hd s = Some (tt, s') /\ without h (heap s') (k ++ (l ++ ms)) /\
    dpipemap s' = dpipemap s /\ mallocs s' = mallocs s.
Proof.
  intros W Hc HF Hnd Hk.
  assert (Q : forall x, x ∈ l ++ ms -> heap s !! x = h !! x).
  { intros x Hx. eapply without_lookup; [exact W|]. by apply Hk. }
  assert (C : chain (heap s) hd l).
  { eapply chain_frame; [|exact Hc]. intros x Hx. apply Q. set_solver. }
  destruct (free_list_spec (size (heap s)) s hd sz l ms) as (s' & E & W' & M & A);
    [done|by eapply frames_frame|done| |].
  { eapply chain_length_size; [exact C|]. by apply NoDup_app in Hnd as []. }
  exists s'. split; [done|]. split; [by eapply without_trans|done].
Qed.

(** The name's memory is apart from the pipe and its frames. *)
Lemma name_apart h d sz nm fr oc ms1 ms2 p :
  owned h d sz nm fr oc ms1 ms2 -> h !! d = Some (OPipe p) ->
  forall x, x ∈ d :: (fr ++ ms1) ++ (oc ++ ms2) -> x ∉ match nm with None => [] | _ => [name p] end.
Proof.
  intros (p' & Hp' & _ & _ & _ & HF1 & HF2 & _ & Hn) Hp x Hx Hk. rewrite Hp in Hp'. injection Hp' as <-.
  destruct nm as [str|]; [|by apply not_elem_of_nil in Hk].
  apply list_elem_of_singleton in Hk. subst x. destruct Hn as [_ Hn].
  apply elem_of_cons in Hx as [Hx|[Hx|Hx]%elem_of_app]; [rewrite Hx in Hn; congruence| |].
  - exact (frames_not_str _ _ _ _ _ _ HF1 Hn Hx).
  - exact (frames_not_str _ _ _ _ _ _ HF2 Hn Hx).
Qed.

Lemma dpipe_destroy_spec s d sz nm fr oc ms1 ms2 :
  owned (heap s) d sz nm fr oc ms1 ms2 ->
  exists s' p, heap s !! d = Some (OPipe p) /\ dpipe_destroy d s = Some (0, s') /\
    without (heap s) (heap s')
      (match nm with None => [] | _ => [name p] end ++ (fr ++ ms1) ++ (oc ++ ms2) ++ [d]) /\
    dpipemap s' = match nm with None => dpipemap s | Some n => delete n (dpipemap s) end /\
    mallocs s' = mallocs s.
Proof.
  intros Ho. pose proof Ho as (p & Hp & Hd0 & Hin & Hout & HF1 & HF2 & Hnd & _).
  destruct (destroy_name_spec _ _ _ _ _ _ _ _ _ Ho Hp) as (s1 & E1 & W1 & M1 & A1).
  pose proof (name_apart _ _ _ _ _ _ _ _ _ Ho Hp) as K.
  unfold dpipe_destroy. rewrite (proj2 (Z.eqb_neq d 0) Hd0). hstep. rewrite (cbind_Some _ _ _ _ _ E1).
  set (k1 := match nm with None => [] | _ => [name p] end) in *.
  apply NoDup_app in Hnd as (Hnd1 & Hdis & Hnd2).
  rewrite (cbind_Some _ _ s1 (size (heap s1)) s1) by done.
  destruct (free_side _ _ _ _ _ _ _ W1 Hin HF1 Hnd1) as (s2 & E2 & W2 & M2 & A2); [intros x Hx; apply K; set_solver|].
  rewrite (cbind_Some _ _ _ _ _ E2). rewrite (cbind_Some _ _ s2 (size (heap s2)) s2) by done.
  destruct (free_side _ _ _ _ _ _ _ W2 Hout HF2 Hnd2) as (s3 & E3 & W3 & M3 & A3).
  { intros x Hx [Hk|Hk]%elem_of_app; [by eapply (K x); [set_solver|]|by eapply Hdis]. }
  rewrite (cbind_Some _ _ _ _ _ E3).
  assert (Hd3 : heap s3 !! d = Some (OPipe p)).
  { rewrite <- Hp. eapply without_lookup; [exact W3|]. rewrite !elem_of_app.
    pose proof (frames_not_pipe _ _ _ _ _ _ HF1 Hp). pose proof (frames_not_pipe _ _ _ _ _ _ HF2 Hp).
    pose proof (K d). set_solver. }
  erewrite cbind_Some; [|eapply free_eq; [done|exact Hd3]].
  eexists _, p. split; [done|]. split; [done|]. split.
  - pose proof (without_trans _ _ _ _ _ W3 (without_delete (heap s3) d)) as W.
    rewrite <- !app_assoc in W. rewrite <- !app_assoc. exact W.
  - cbn [dpipemap set_heap mallocs]. by rewrite M3, M2, M1, A3, A2, A1.
Qed.

(** A pipe under construction: on top of the heap [h0], the pipe at [d], its
    name at [nma] and the buffers allocated so far. *)
Definition building (h0 : gmap Z obj) (s : dstate) (d sz id nma : Z) (str : string)
    (fr ms : list Z) : Prop :=
  exists p, heap s !! d = Some (OPipe p) /\ d <> 0 /\
    (name p = nma /\ channel_id p = id /\ out p = 0 /\ out_tail p = 0 /\
     out_count p = 0 /\ in_count p = Z.of_nat (length fr)) /\
    chain (heap s) (in_ p) fr /\ Forall2 (frame_of (heap s) sz) fr ms /\
    NoDup (fr ++ ms) /\ nma <> 0 /\ heap s !! nma = Some (OStr str) /\
    (forall a, a ∉ d :: nma :: fr ++ ms -> heap s !! a = h0 !! a) /\
    (forall a, a ∈ d :: nma :: fr ++ ms -> h0 !! a = None).

Lemma building_heap h0 s s' d sz id nma str fr ms :
  heap s' = heap s ->
  building h0 s d sz id nma str fr ms -> building h0 s' d sz id nma str fr ms.
Proof. unfold building. by intros ->. Qed.

Lemma building_owned h0 s d sz id nma str fr ms :
  building h0 s d sz id nma str fr ms -> owned (heap s) d sz (Some str) fr [] ms [].
Proof.
  intros (p & Hp & Hd & (En & _ & Eo & _) & Hc & HF & Hnd & Hn & Hs & _).
  exists p. rewrite Eo, En. rewrite !app_nil_r. repeat split; auto.
Qed.

Lemma building_add h0 s s' d sz id nma str fr ms a m p :
  building h0 s d sz id nma str fr ms ->
  heap s !! d = Some (OPipe p) ->
  heap s !! a = None -> heap s !! m = None -> a <> m -> a <> 0 -> m <> 0 ->
  heap s' =
    <[d := OPipe (set_in a (in_count p + 1) p)]>
      (<[a := OBuf {| pointer := m + ga_malloc_alignment m; internal := m;
                      offset := ga_malloc_alignment m; next := in_ p |}]>
        (<[m := OBlock (sz + 16)]> (heap s))) ->
  building h0 s' d sz id nma str (a :: fr) (m :: ms).
Proof.
  intros (p' & Hp' & Hd & (En & Ei & Eo & Et & Ec & El) & Hc & HF & Hnd & Hn & Hs & Hold & Hnew)
    Hp Ha Hm Ham Ha0 Hm0 Eh.
  rewrite Hp in Hp'. injection Hp' as <-. set (b := OBuf _) in Eh.
  assert (Hin : forall x, x ∈ fr ++ ms -> x <> a /\ x <> m /\ x <> d).
  { intros x Hx. destruct (frames_lookup _ _ _ _ _ HF Hx) as [[]|[]]; repeat split; congruence. }
  assert (Hsame : forall x, x <> a -> x <> m -> x <> d -> heap s' !! x = heap s !! x).
  { intros x ???. rewrite Eh, !lookup_insert_ne by congruence. done. }
  assert (Ea' : heap s' !! a = Some b).
  { rewrite Eh. rewrite lookup_insert_ne, lookup_insert_eq by congruence. done. }
  assert (Em' : heap s' !! m = Some (OBlock (sz + 16))).
  { rewrite Eh. rewrite !lookup_insert_ne, lookup_insert_eq by congruence. done. }
  exists (set_in a (in_count p + 1) p).
  split; [by rewrite Eh, lookup_insert_eq|]. split; [done|].
  split; [cbn [length set_in name channel_id out out_tail out_count in_count];
          repeat split; [done..|lia]|].
  split; [|split; [|split; [|split; [done|split; [|split]]]]].
  - split; [done|]. split; [done|]. eexists. split; [exact Ea'|].
    eapply chain_frame; [|exact Hc]. intros x Hx.
    destruct (Hin x) as (?&?&?); [set_solver|]. by apply Hsame.
  - constructor.
    + split; [done|]. split; [done|]. eexists. split; [exact Ea'|]. done.
    + eapply frames_frame; [|exact HF]. intros x Hx.
      destruct (Hin x Hx) as (?&?&?). by apply Hsame.
  - apply NoDup_app in Hnd as (N1 & N2 & N3).
    assert (a ∉ fr ++ ms) by (intros Hx; by destruct (Hin a Hx)).
    assert (m ∉ fr ++ ms) by (intros Hx; by destruct (Hin m Hx) as (_ & ? & _)).
    simpl. apply NoDup_cons. split; [set_solver|].
    apply NoDup_app. split; [done|]. split; [set_solver|].
    apply NoDup_cons. set_solver.
  - rewrite Hsame; [done|congruence..].
  - intros x Hx. rewrite Hsame by set_solver. apply Hold. set_solver.
  - intros x Hx. destruct (decide (x ∈ d :: nma :: fr ++ ms)) as [Hy|Hy]; [by apply Hnew|].
    assert (x = a \/ x = m) as [->| ->] by set_solver;
      rewrite <- (Hold _ Hy); done.
Qed.

Lemma create_buffer_spec h0 s d sz id nma str fr ms :
  building h0 s d sz id nma str fr ms -> malloc_ok s -> 0 <= sz <= INT_MAX - 16 ->
  exists ok s', create_buffer d sz s = Some (ok, s') /\ malloc_ok s' /\
    dpipemap s' = dpipemap s /\
    if (ok : bool) then exists a m, building h0 s' d sz id nma str (a :: fr) (m :: ms)
    else building h0 s' d sz id nma str fr ms.
Proof.
  intros Hb Hm Hsz. unfold create_buffer.
  destruct (malloc_spec (OBuf {| pointer := 0; internal := 0; offset := 0; next := 0 |}) s Hm)
    as (a & s1 & E1 & M1 & O1 & [[-> H1]|(Ha0 & Ha & H1)]); rewrite (cbind_Some _ _ _ _ _ E1).
  { exists false, s1. split; [done|]. split; [done|]. split; [done|].
    by eapply building_heap. }
  rewrite (proj2 (Z.eqb_neq a 0) Ha0).
  rewrite int_chk_Some by (unfold INT_MIN, INT_MAX in *; lia).
  rewrite (cbind_Some _ _ _ _ _ (eq_refl : clift (Some _) s1 = Some (_, s1))).
  destruct (malloc_spec (OBlock (sz + 16)) s1 O1)
    as (m & s2 & E2 & M2 & O2 & [[-> H2]|(Hm0 & Hm' & H2)]); rewrite (cbind_Some _ _ _ _ _ E2).
  { simpl. erewrite cbind_Some; [|eapply free_eq; [done|]; by rewrite H2, H1, lookup_insert_eq].
    eexists false, _. split; [done|]. split.
    - eapply malloc_ok_mono; [..|exact O2]; [done|]. intros x. cbn [heap set_heap].
      rewrite lookup_delete. by case_decide.
    - split; [simpl; congruence|]. eapply building_heap; [|exact Hb].
      cbn [heap set_heap]. rewrite H2, H1. by apply delete_insert_id. }
  rewrite (proj2 (Z.eqb_neq m 0) Hm0).
  destruct (Hb) as (p & Hp & _). rewrite H1 in Hm'.
  assert (Hma : a <> m) by (intros ->; by rewrite lookup_insert_eq in Hm').
  rewrite lookup_insert_ne in Hm' by done.
  assert (Hp2 : heap s2 !! d = Some (OPipe p)).
  { rewrite H2, H1, !lookup_insert_ne by congruence. done. }
  assert (Ha2 : heap s2 !! a = Some (OBuf {| pointer := 0; internal := 0; offset := 0; next := 0 |})).
  { rewrite H2, H1, lookup_insert_ne, lookup_insert_eq by done. done. }
  assert (Had : a <> d) by congruence. cbv zeta.
  do 3 hstep. eexists true, _. split; [done|]. split; [|split].
  - eapply malloc_ok_mono; [..|exact O2]; [done|]. intros x Hx. cbn [heap set_heap].
    rewrite !lookup_insert_ne; [done|congruence..].
  - simpl. congruence.
  - exists a, m. eapply building_add; [exact Hb|exact Hp|done..|].
    cbn [heap set_heap]. rewrite H2, H1.
    by rewrite (insert_insert_ne _ m a), insert_insert_eq by done.
Qed.

Lemma create_loop_spec n h0 s d sz id nma str fr ms :
  building h0 s d sz id nma str fr ms -> malloc_ok s -> 0 <= sz <= INT_MAX - 16 ->
  exists ok s' fr' ms', create_loop n d sz s = Some (ok, s') /\ malloc_ok s' /\
    dpipemap s' = dpipemap s /\ building h0 s' d sz id nma str fr' ms' /\
    ((ok : bool) = true -> length fr' = (n + length fr)%nat).
Proof.
  revert s fr ms. induction n as [|n IH]; intros s fr ms Hb Hm Hsz.
  { exists true, s, fr, ms. done. }
  destruct (create_buffer_spec _ _ _ _ _ _ _ _ _ Hb Hm Hsz) as ([|] & s1 & E1 & O1 & M1 & R1);
    cbn [create_loop]; rewrite (cbind_Some _ _ _ _ _ E1).
  - destruct R1 as (a & m & R1).
    destruct (IH _ _ _ R1 O1 Hsz) as (ok & s' & fr' & ms' & E & O & M & R & L).
    exists ok, s', fr', ms'. split; [done|]. split; [done|]. split; [congruence|].
    split; [done|]. intros Hok. rewrite (L Hok). simpl. lia.
  - exists false, s1, fr, ms. done.
Qed.

(** A buffer that can hold [sz] bytes: its data pointer is 16-byte aligned and
    the bytes lie inside the block it was allocated in. *)
Definition usable (h : gmap Z obj) (sz a : Z) : Prop :=
  exists b blk, h !! a = Some (OBuf b) /\ h !! internal b = Some (OBlock blk) /\
    pointer b mod 16 = 0 /\ internal b <= pointer b /\
    pointer b + sz <= internal b + blk.

Lemma frames_usable h sz l ms : Forall2 (frame_of h sz) l ms -> Forall (usable h sz) l.
Proof.
  induction 1 as [|a m l ms (Hm0 & Hm & b & Hb & Ei & Eo & Ep) HF IH]; constructor; [|done].
  exists b, (sz + 16). rewrite Ei, Ep, Eo, ga_malloc_alignment_16.
  destruct (ga_alignment_pow2 m 4 ltac:(lia)) as [A B]. change (2 ^ 4) with 16 in *.
  repeat split; [done..|lia|lia].
Qed.

(** A created pipe: registered, all buffers free, each with aligned memory of
    the requested size inside its own block, the rest of the heap untouched. *)
Definition created (s s' : dstate) (d id nframe sz : Z) (nm : string) : Prop :=
  d <> 0 /\ dpipemap s' = <[nm := d]> (dpipemap s) /\
  exists fr ms p,
    rep (heap s') d fr [] /\ Z.of_nat (length fr) = nframe /\
    heap s' !! d = Some (OPipe p) /\ channel_id p = id /\
    Forall (usable (heap s') sz) fr /\
    building (heap s) s' d sz id (name p) nm fr ms /\
    (forall a o, heap s !! a = Some o -> heap s' !! a = Some o).

Lemma building_created h0 s d sz id nma nm fr ms :
  building h0 s d sz id nma nm fr ms ->
  (rep (heap s) d fr [] /\ exists p, heap s !! d = Some (OPipe p) /\ channel_id p = id /\
     name p = nma /\ Forall (usable (heap s) sz) fr) /\
  forall a o, h0 !! a = Some o -> heap s !! a = Some o.
Proof.
  intros (p & Hp & Hd & (En & Ei & Eo & Et & Ec & El) & Hc & HF & Hnd & Hn & Hs & Hold & Hnew).
  split; [split; [|by eauto 10 using frames_usable]|].
  - exists p. rewrite Eo. apply NoDup_app in Hnd as (N1 & _ & _). rewrite app_nil_r. by repeat split.
  - intros a o Ha. rewrite Hold; [done|]. intros Hx. apply Hnew in Hx. congruence.
Qed.

Lemma destroy_building h0 s d sz id nma nm fr ms :
  building h0 s d sz id nma nm fr ms ->
  exists s', dpipe_destroy d s = Some (0, s') /\ heap s' = h0 /\
             dpipemap s' = delete nm (dpipemap s).
Proof.
  intros Hb.
  destruct (dpipe_destroy_spec _ _ _ _ _ _ _ _ (building_owned _ _ _ _ _ _ _ _ _ Hb))
    as (s' & p & Hp & E & W & M & _).
  destruct Hb as (p' & Hp' & _ & (En & _) & _ & _ & _ & _ & _ & Hold & Hnew).
  assert (p' = p) as -> by congruence.
  exists s'. split; [done|]. split; [|done].
  apply map_eq. intros a. rewrite (W a), En. cbn [app]. case_decide as D.
  - symmetry. apply Hnew. set_solver.
  - apply Hold. set_solver.
Qed.

(** The pipe structure as [new_dpipe] leaves it. *)
Definition blank_pipe : dpipe_t :=
  {| channel_id := 0; name := 0; in_ := 0; out := 0; out_tail := 0; in_count := 0; out_count := 0 |}.

Lemma new_dpipe_spec s :
  malloc_ok s -> (forall rest, mallocs s <> 0 :: rest) -> mallocs s <> [] ->
  exists d s1, new_dpipe s = Some (d, s1) /\ dpipemap s1 = dpipemap s /\ malloc_ok s1 /\
    d <> 0 /\ heap s !! d = None /\ heap s1 = <[d := OPipe blank_pipe]> (heap s).
Proof.
  intros Hm Hnew Hne.
  destruct (malloc_spec (OPipe blank_pipe) s Hm) as (d & s1 & E1 & M1 & O1 & [[-> H1]|(Hd0 & Hd & H1)]).
  { exfalso. unfold malloc in E1. destruct (mallocs s) as [|a rest]; [done|].
    destruct (a =? 0) eqn:Ea; bool_to_prop; [by subst; eapply Hnew|]. by injection E1. }
  exists d, s1. split; [|done]. unfold new_dpipe. rewrite (cbind_Some _ _ _ _ _ E1).
  by rewrite (proj2 (Z.eqb_neq d 0) Hd0).
Qed.

(** The name could not be copied: the pipe is destroyed again. *)
Lemma create_undone s s3 d (sz id : Z) :
  d <> 0 -> heap s !! d = None -> heap s3 = <[d := OPipe (set_ident id 0 blank_pipe)]> (heap s) ->
  exists s', dpipe_destroy d s3 = Some (0, s') /\ heap s' = heap s /\ dpipemap s' = dpipemap s3.
Proof.
  intros Hd0 Hd H3. destruct (dpipe_destroy_spec s3 d sz None [] [] [] []) as (s' & p & Hp & E & W & M & _).
  { eexists. split; [rewrite H3; by apply lookup_insert_eq|]. split; [done|].
    cbn [set_ident in_ out name blank_pipe]. repeat split; auto; constructor. }
  exists s'. split; [done|]. split; [|done]. apply map_eq. intros a. rewrite (W a), H3. cbn [app]. case_decide as D.
  - by apply list_elem_of_singleton in D as ->.
  - apply lookup_insert_ne. set_solver.
Qed.

(** The frames of a new, named pipe. *)
Lemma create_frames s s3 d nma id nm nframe sz :
  malloc_ok s3 -> dpipemap s3 = dpipemap s -> dpipemap s !! nm = None -> 0 < nframe -> 0 < sz <= INT_MAX - 16 ->
  building (heap s) s3 d sz id nma nm [] [] ->
  exists d' s', (ok <-- create_loop (Z.to_nat nframe) d sz ;;
     if (ok : bool) then cmodify (fun s => set_map (<[nm := d]> (dpipemap s)) s) ;;; cret d
     else dpipe_destroy d ;;; cret 0) s3 = Some (d', s') /\
    (d' = 0 /\ heap s' = heap s /\ dpipemap s' = dpipemap s \/ created s s' d' id nframe sz nm).
Proof.
  intros O3 M3 Hno Hn Hsz Hb. pose proof Hb as (_ & _ & Hd0 & _).
  destruct (create_loop_spec (Z.to_nat nframe) _ _ _ _ _ _ _ _ _ Hb O3 ltac:(lia))
    as ([|] & s4 & fr & ms & E4 & O4 & M4 & B4 & L4); rewrite (cbind_Some _ _ _ _ _ E4).
  - eexists d, _. split; [done|]. right.
    destruct (building_created _ _ _ _ _ _ _ _ _ B4) as ([R4 (p & Hp & Ep & En & U4)] & K4).
    split; [done|]. split; [cbn [dpipemap set_map]; congruence|].
    exists fr, ms, p. cbn [heap set_map]. split; [done|].
    split; [specialize (L4 eq_refl); simpl in L4; lia|]. split; [done|]. split; [done|].
    split; [done|]. rewrite En. done.
  - destruct (destroy_building _ _ _ _ _ _ _ _ _ B4) as (s' & E & H' & M').
    rewrite (cbind_Some _ _ _ _ _ E). exists 0, s'. split; [done|]. left.
    split; [done|]. split; [done|]. rewrite M', M4, M3. by apply delete_id.
Qed.

Lemma dpipe_create_spec s id nm nframe sz :
  malloc_ok s -> (forall rest, mallocs s <> 0 :: rest) -> mallocs s <> [] ->
  0 <= id -> 0 < nframe -> 0 < sz <= INT_MAX - 16 ->
  default 0 (dpipemap s !! nm) = 0 -> (forall k d, dpipemap s !! k = Some d -> d <> 0) ->
  exists d s', dpipe_create id (Some nm) nframe sz s = Some (d, s') /\
    (d = 0 /\ heap s' = heap s /\ dpipemap s' = dpipemap s \/
     created s s' d id nframe sz nm).
Proof.
  intros Hm Hnew Hne Hid Hn Hsz Hlk Hmap. unfold dpipe_create.
  replace ((id <? 0) || (nframe <=? 0) || (sz <=? 0)) with false by lia.
  rewrite (cbind_Some _ _ s 0 s) by (unfold dpipe_lookup, cgets; by rewrite Hlk). cbn [Z.eqb negb].
  assert (Hno : dpipemap s !! nm = None).
  { destruct (dpipemap s !! nm) as [x|] eqn:E; [|done]. by apply Hmap in E. }
  destruct (new_dpipe_spec s Hm Hnew Hne) as (d & s1 & E1 & M1 & O1 & Hd0 & Hd & H1).
  rewrite (cbind_Some _ _ _ _ _ E1).
  destruct (malloc_spec (OStr nm) s1 O1) as (nma & s2 & E2 & M2 & O2 & Hcase). rewrite (cbind_Some _ _ _ _ _ E2).
  assert (Hd2 : heap s2 !! d = Some (OPipe blank_pipe)).
  { destruct Hcase as [[_ H2]|(Ha0 & Ha & H2)]; rewrite H2, H1; [by rewrite lookup_insert_eq|].
    rewrite H1 in Ha. rewrite lookup_insert_ne by (intros ->; by rewrite lookup_insert_eq in Ha).
    by rewrite lookup_insert_eq. }
  do 2 hstep. set (s3 := set_heap _ s2).
  assert (O3 : malloc_ok s3).
  { eapply malloc_ok_mono; [..|exact O2]; [done|]. intros x Hx. cbn [s3 heap set_heap].
    rewrite lookup_insert_ne; [done|congruence]. }
  destruct Hcase as [[-> H2]|(Ha0 & Ha & H2)].
  - rewrite (cbind_Some _ _ s3 false s3) by done.
    destruct (create_undone s s3 d sz id Hd0 Hd) as (s' & E & H' & M').
    { cbn [s3 heap set_heap]. by rewrite H2, H1, insert_insert_eq. }
    rewrite (cbind_Some _ _ _ _ _ E). exists 0, s'. split; [done|]. left. split; [done|].
    split; [done|]. rewrite M'. simpl. congruence.
  - rewrite (proj2 (Z.eqb_neq nma 0) Ha0). rewrite H1 in Ha.
    assert (Hnd : nma <> d) by (intros ->; by rewrite lookup_insert_eq in Ha).
    rewrite lookup_insert_ne in Ha by done. apply (create_frames s s3 d nma); [done|simpl; congruence|done..|].
    eexists. split; [by apply lookup_insert_eq|]. split; [done|].
    split; [done|]. split; [done|]. split; [constructor|]. split; [constructor|].
    split; [done|]. cbn [s3 heap set_heap]. rewrite H2, H1. split; [|split].
    + rewrite lookup_insert_ne, lookup_insert_eq by done. done.
    + intros x Hx. rewrite !lookup_insert_ne by set_solver. done.
    + intros x Hx. assert (x = d \/ x = nma) as [->| ->] by set_solver; done.
Qed.

(** ** Properties of the component *)

(** C2. On a represented pipe every operation is defined and does
    what its abstract counterpart does: [dpipe_get] takes a free buffer or else
    the eldest stored one, [dpipe_load_nowait] the eldest stored one,
    [dpipe_put] pushes on the free pool, [dpipe_store] appends to the output
    pool; links, tail pointer and counters stay consistent and no other object
    changes. *)
Theorem dpipe_refines_pools (s : dstate) (d : Z) (fr oc : list Z) :
  rep (heap s) d fr oc ->
  (exists s', dpipe_get d s = Some ((spec_get fr oc).1, s') /\
     refines s s' d (spec_get fr oc).2.1 (spec_get fr oc).2.2) /\
  (exists s', dpipe_load_nowait d s = Some ((spec_load oc).1, s') /\
     refines s s' d fr (spec_load oc).2) /\
  (forall a, is_buf (heap s) a -> a <> 0 -> a ∉ fr ++ oc ->
     (exists s', dpipe_put d a s = Some (tt, s') /\ refines s s' d (a :: fr) oc) /\
     (exists s', dpipe_store d a s = Some (tt, s') /\ refines s s' d fr (oc ++ [a]))).
Proof.
  intros Hr. split; [by apply dpipe_get_refines|]. split; [by apply pop_out_refines|].
  intros a Hb H0 Hn. split; [by apply dpipe_put_refines|by apply dpipe_store_refines].
Qed.

(** C23. Whatever sequence of gets, loads, puts and stores the
    threads run, every buffer of the pipe stays in exactly one place (free,
    stored, or held by a thread), every operation a thread may do next is
    defined, and [dpipe_get] returns NULL exactly when the threads hold all the
    buffers. *)
Theorem dpipe_conserves_buffers (s s' : dstate) (d : Z) (fr oc held : list Z) :
  rep (heap s) d fr oc ->
  rtc (pool_step d) (s, []) (s', held) ->
  (exists fr' oc', rep (heap s') d fr' oc' /\ fr' ++ oc' ++ held ≡ₚ fr ++ oc) /\
  NoDup held /\
  (exists a s2, dpipe_get d s' = Some (a, s2) /\ (a = 0 <-> held ≡ₚ fr ++ oc)) /\
  (forall a, a ∈ held -> (exists s2, dpipe_put d a s' = Some (tt, s2)) /\
                         (exists s2, dpipe_store d a s' = Some (tt, s2))).
Proof.
  intros Hr Hsteps.
  pose proof (pool_inv_reachable d _ _ _ (pool_inv_init d s fr oc Hr) Hsteps) as Hinv.
  destruct (pool_inv_progress d _ _ _ Hinv) as (Hg & _ & Hp).
  destruct Hinv as (fr' & oc' & Hr' & Hperm & Hnd & _). simpl in *.
  split; [by eauto|]. split; [|done].
  rewrite <- Hperm in Hnd. apply NoDup_app in Hnd as (_ & _ & Hnd).
  by apply NoDup_app in Hnd as (_ & _ & Hnd).
Qed.

(** C39. [dpipe_load] hands out the first stored buffer.  Whatever the other
    threads do during its waits, as long as they keep the pipe represented, the
    call goes through some of the waits, each begun with an empty output pool, at
    most one of them with a deadline.  Then either the output pool is not empty,
    its first buffer is returned and both pools are otherwise as they were (with
    a stored buffer at the start this is without any wait), or the pool is empty:
    without a deadline the call never returns NULL but stays blocked when no
    other thread acts any more, with a deadline it returns NULL after its one
    wait. *)
Theorem dpipe_load_waits (d : Z) (timed : bool) (env : list (cmd dstate unit))
    (s : dstate) (fr oc : list Z) :
  env_ok d env -> rep (heap s) d fr oc ->
  exists r s' es rest s1 fr1 oc1, dpipe_load d timed false env s = Some (r, s') /\
    env = es ++ rest /\ waits d es s s1 /\ rep (heap s1) d fr1 oc1 /\
    (timed = true -> length es <= 1)%nat /\
    match r with
    | Loaded 0 => timed = true /\ length es = 1%nat /\ oc1 = [] /\ s' = s1
    | Loaded v => exists oc', oc1 = v :: oc' /\ rep (heap s') d fr1 oc'
    | Blocked => rest = [] /\ oc1 = [] /\ s' = s1 /\ (timed = true -> es = [])
    end.
Proof.
  intros He Hr. destruct (dpipe_load_cases d timed false env s fr oc He Hr)
    as (r & s' & es & rest & s1 & fr1 & oc1 & E & Ee & W & R & L & H).
  exists r, s', es, rest, s1, fr1, oc1. do 5 (split; [done|]).
  destruct r as [[| |]|]; [|done..]. destruct H as (Ht & Hn & ? & ?). split; [done|]. split; [|done].
  specialize (L Ht). specialize (Hn eq_refl). destruct es as [|? [|]]; simpl in *; [done|done|lia].
Qed.

(** With an allocator that returns NULL or unused memory (and
    no [bad_alloc] for the pipe itself), [dpipe_create] for a new name either
    returns NULL and leaves heap and registry as they were (nothing leaks on
    any failure path), or returns a registered pipe with [nframe] free buffers,
    each 16-byte aligned and large enough. *)
Theorem dpipe_create_all_or_nothing (s : dstate) (id : Z) (nm : string) (nframe sz : Z) :
  malloc_ok s -> (forall rest, mallocs s <> 0 :: rest) -> mallocs s <> [] ->
  0 <= id -> 0 < nframe -> 0 < sz <= INT_MAX - 16 ->
  default 0 (dpipemap s !! nm) = 0 -> (forall k d, dpipemap s !! k = Some d -> d <> 0) ->
  exists d s', dpipe_create id (Some nm) nframe sz s = Some (d, s') /\
    (d = 0 /\ heap s' = heap s /\ dpipemap s' = dpipemap s \/
     created s s' d id nframe sz nm).
Proof. apply dpipe_create_spec. Qed.

(** Destroying a freshly created pipe gives back exactly the
    heap and the registry from before its creation. *)
Theorem dpipe_create_destroy (s s' : dstate) (d id nframe sz : Z) (nm : string) :
  created s s' d id nframe sz nm -> dpipemap s !! nm = None ->
  exists s'', dpipe_destroy d s' = Some (0, s'') /\ heap s'' = heap s /\
              dpipemap s'' = dpipemap s.
Proof.
  intros (Hd & Hm & fr & ms & p & _ & _ & _ & _ & _ & Hb & _) Hno.
  destruct (destroy_building _ _ _ _ _ _ _ _ _ Hb) as (s'' & E & Eh & Em).
  exists s''. split; [done|]. split; [done|]. rewrite Em, Hm. by apply delete_insert_id.
Qed.

(** ** A concrete pipe *)

Definition demo0 : dstate :=
  {| heap := ∅; dpipemap := ∅; mallocs := [100; 200; 300; 400; 500; 600] |}.

(** Two frames of 1000 bytes: headers at 300 and 500, memory at 400 and 600. *)
Definition demo : dstate :=
  match dpipe_create 0 (Some "video-0") 2 1000 demo0 with
  | Some (_, s) => s
  | None => demo0
  end.

Lemma demo0_malloc_ok : malloc_ok demo0.
Proof.
  split.
  - intros a _ _. apply lookup_empty.
  - refine (bool_decide_unpack _ _). vm_compute. exact I.
Qed.

Lemma demo_rep : rep (heap demo) 100 [500; 300] [].
Proof.
  eexists. split; [vm_compute; reflexivity|]. cbn [in_ out out_tail in_count out_count].
  split.
  { split; [done|]. split; [done|]. eexists. split; [vm_compute; reflexivity|].
    split; [done|]. split; [done|]. eexists. split; [vm_compute; reflexivity|]. done. }
  split; [done|]. repeat split. refine (bool_decide_unpack _ _). vm_compute. exact I.
Qed.

Lemma dpipe_refines_pools_witness :
  exists s', dpipe_get 100 demo = Some (500, s') /\ refines demo s' 100 [300] [].
Proof. apply (dpipe_refines_pools demo 100 [500; 300] [] demo_rep). Defined.

(** Get a buffer, store it: one thread's first two steps. *)
Definition demo_get : Z * dstate := default (0, demo) (dpipe_get 100 demo).
Definition demo_store : dstate :=
  default demo (snd <$> dpipe_store 100 500 demo_get.2).

Lemma demo_run : rtc (pool_step 100) (demo, []) (demo_store, []).
Proof.
  eapply rtc_l; [eapply (step_get (H := dpipe_pool) 100 demo [] 500 demo_get.2);
                 vm_compute; reflexivity|].
  eapply rtc_l; [|apply rtc_refl].
  eapply (step_store (H := dpipe_pool) 100 demo_get.2 [] 500 []). vm_compute. reflexivity.
Qed.

Lemma dpipe_conserves_buffers_witness :
  exists fr' oc', rep (heap demo_store) 100 fr' oc' /\ fr' ++ oc' ++ [] ≡ₚ [500; 300].
Proof.
  apply (dpipe_conserves_buffers demo demo_store 100 [500; 300] [] [] demo_rep demo_run).
Defined.

(** Two free buffers and none stored, and another thread that does nothing during the wait. *)
Lemma demo_idle_ok : env_ok 100 [cret tt].
Proof. constructor; [|constructor]. intros s fr oc H. exists s, fr, oc. by split. Qed.

Lemma dpipe_load_waits_witness :
  exists r s' es rest s1 fr1 oc1, dpipe_load 100 true false [cret tt] demo = Some (r, s') /\
    [cret tt] = es ++ rest /\ waits 100 es demo s1 /\ rep (heap s1) 100 fr1 oc1 /\
    (true = true -> length es <= 1)%nat /\
    match r with
    | Loaded 0 => true = true /\ length es = 1%nat /\ oc1 = [] /\ s' = s1
    | Loaded v => exists oc', oc1 = v :: oc' /\ rep (heap s') 100 fr1 oc'
    | Blocked => rest = [] /\ oc1 = [] /\ s' = s1 /\ (true = true -> es = [])
    end.
Proof. exact (dpipe_load_waits 100 true [cret tt] demo [500; 300] [] demo_idle_ok demo_rep). Defined.

(** With a buffer stored it is handed out at once. *)
Lemma dpipe_load_stored : exists s', dpipe_load 100 false false [] demo_store = Some (Loaded 500, s').
Proof. eexists. vm_compute. reflexivity. Qed.

Lemma dpipe_create_all_or_nothing_witness :
  exists d s', dpipe_create 0 (Some "video-0") 2 1000 demo0 = Some (d, s') /\
    (d = 0 /\ heap s' = heap demo0 /\ dpipemap s' = dpipemap demo0 \/
     created demo0 s' d 0 2 1000 "video-0").
Proof.
  apply (dpipe_create_all_or_nothing demo0 0 "video-0" 2 1000).
  - exact demo0_malloc_ok.
  - by intros rest [=].
  - done.
  - lia.
  - lia.
  - unfold INT_MAX. lia.
  - reflexivity.
  - intros k d H. change ((∅ : gmap string Z) !! k = Some d) in H. by rewrite lookup_empty in H.
Defined.

Lemma demo_created : created demo0 demo 100 0 2 1000 "video-0".
Proof.
  destruct (dpipe_create_spec demo0 0 "video-0" 2 1000) as (d & s' & E & H).
  - exact demo0_malloc_ok.
  - by intros rest [=].
  - done.
  - lia.
  - lia.
  - unfold INT_MAX. lia.
  - reflexivity.
  - intros k d H. change ((∅ : gmap string Z) !! k = Some d) in H. by rewrite lookup_empty in H.
  - assert (E' : dpipe_create 0 (Some "video-0") 2 1000 demo0 = Some (100, demo))
      by (vm_compute; reflexivity).
    rewrite E' in E. apply Some_pair_inj in E as [Ed Es]. rewrite <- Ed, <- Es in H.
    destruct H as [(H & _)|H]; [discriminate H|exact H].
Qed.

Lemma dpipe_create_destroy_witness :
  exists s'', dpipe_destroy 100 demo = Some (0, s'') /\ heap s'' = heap demo0 /\
              dpipemap s'' = dpipemap demo0.
Proof. exact (dpipe_create_destroy demo0 demo 100 0 2 1000 "video-0" demo_created eq_refl). Defined.
