(* ===== verification/Bytes.v ===== *)
(** * Bytes: memory as lists of bytes

    Little-endian fields of an x86-64 host, network byte order, and in-place
    writes.  Shared by the components that read or build messages in memory. *)

From Stdlib Require Import ZArith Lia.
From stdpp Require Import base list.
From S2P Require Import Prelude.

(** ** Integers as bytes *)

Definition is_byte (b : Z) : Prop := 0 <= b < 256.

(** The [n] low bytes of [z], least significant first. *)
Fixpoint to_le (n : nat) (z : Z) : list Z :=
  match n with O => [] | S n => z mod 256 :: to_le n (z / 256) end.

Fixpoint of_le (l : list Z) : Z :=
  match l with [] => 0 | b :: l => b + 256 * of_le l end.

(** [htons]/[ntohs] and [htonl]/[ntohl] on a little-endian host: reverse the
    [n] bytes of the value. *)
Definition bswap (n : nat) (z : Z) : Z := of_le (rev (to_le n z)).

Definition htons := bswap 2.
Definition ntohs := bswap 2.
Definition htonl := bswap 4.

Lemma length_to_le n z : length (to_le n z) = n.
Proof. revert z. induction n as [|n IH]; intros z; simpl; [done|by rewrite IH]. Qed.

Lemma to_le_bytes n z : Forall is_byte (to_le n z).
Proof.
  revert z. induction n as [|n IH]; intros z; simpl; constructor; [|done].
  unfold is_byte. apply Z.mod_pos_bound. lia.
Qed.

Lemma of_le_to_le n z : of_le (to_le n z) = z mod 256 ^ Z.of_nat n.
Proof.
  revert z. induction n as [|n IH]; intros z; simpl; [by rewrite Z.mod_1_r|].
  rewrite IH. rewrite Nat2Z.inj_succ, Z.pow_succ_r by lia.
  rewrite Z.rem_mul_r by lia. lia.
Qed.

Lemma of_le_range l : Forall is_byte l -> 0 <= of_le l < 256 ^ Z.of_nat (length l).
Proof.
  induction 1 as [|b l Hb Hl IH]; simpl; [lia|]. unfold is_byte in Hb.
  rewrite Nat2Z.inj_succ, Z.pow_succ_r by lia. lia.
Qed.

Lemma to_le_of_le l : Forall is_byte l -> to_le (length l) (of_le l) = l.
Proof.
  induction 1 as [|b l Hb Hl IH]; simpl; [done|]. unfold is_byte in Hb. f_equal.
  - rewrite Z.mul_comm, Z.mod_add by lia. by apply Z.mod_small.
  - rewrite Z.mul_comm, Z.div_add by lia. rewrite Z.div_small by lia. by rewrite Z.add_0_l.
Qed.

Lemma to_le_bswap n z : to_le n (bswap n z) = rev (to_le n z).
Proof.
  unfold bswap. rewrite <- (length_to_le n z) at 1. rewrite <- length_rev.
  apply to_le_of_le. apply Forall_rev, to_le_bytes.
Qed.

Lemma bswap_range n z : 0 <= bswap n z < 256 ^ Z.of_nat n.
Proof.
  unfold bswap. rewrite <- (length_to_le n z) at 3. rewrite <- length_rev.
  apply of_le_range, Forall_rev, to_le_bytes.
Qed.

(** Swapping twice is the identity on [n]-byte values. *)
Lemma bswap_involutive n z : 0 <= z < 256 ^ Z.of_nat n -> bswap n (bswap n z) = z.
Proof.
  intros Hz. unfold bswap at 1. rewrite to_le_bswap, rev_involutive, of_le_to_le.
  by apply Z.mod_small.
Qed.

(** ** Fields in memory *)

(** Read the [n]-byte field at [off]; out of the region is undefined. *)
Definition rd (n off : nat) (m : list Z) : option Z :=
  if decide (off + n <= length m)%nat then Some (of_le (take n (drop off m))) else None.

(** Overwrite the bytes from [off] on with [l]. *)
Definition wr_bytes (off : nat) (l m : list Z) : option (list Z) :=
  if decide (off + length l <= length m)%nat
  then Some (take off m ++ l ++ drop (off + length l) m) else None.

Definition wr (n off : nat) (z : Z) (m : list Z) : option (list Z) :=
  wr_bytes off (to_le n z) m.

Lemma wr_bytes_length off l m m' : wr_bytes off l m = Some m' -> length m' = length m.
Proof.
  unfold wr_bytes. case_decide; [|done]. intros [= <-].
  rewrite !length_app, length_take, length_drop. lia.
Qed.

Lemma wr_bytes_Some off l m :
  (off + length l <= length m)%nat ->
  wr_bytes off l m = Some (take off m ++ l ++ drop (off + length l) m).
Proof. intros H. unfold wr_bytes. by rewrite decide_True. Qed.

(** The written bytes are read back. *)
Lemma wr_bytes_read off l m m' :
  wr_bytes off l m = Some m' -> take (length l) (drop off m') = l.
Proof.
  unfold wr_bytes. case_decide as D; [|done]. intros [= <-].
  rewrite drop_app_ge by (rewrite length_take; lia). rewrite length_take.
  replace (off - off `min` length m)%nat with 0%nat by lia.
  rewrite drop_0. by rewrite take_app_length.
Qed.

(** Bytes before and after the written range are kept. *)
Lemma wr_bytes_other off l m m' i :
  wr_bytes off l m = Some m' -> (i < off \/ off + length l <= i)%nat -> m' !! i = m !! i.
Proof.
  unfold wr_bytes. case_decide as D; [|done]. intros [= <-] [Hi|Hi].
  - rewrite lookup_app_l by (rewrite length_take; lia). by apply lookup_take_lt.
  - rewrite lookup_app_r by (rewrite length_take; lia). rewrite length_take.
    rewrite lookup_app_r by lia. rewrite lookup_drop. f_equal. lia.
Qed.

Lemma rd_wr n off z m m' :
  wr n off z m = Some m' -> rd n off m' = Some (z mod 256 ^ Z.of_nat n).
Proof.
  intros E. unfold rd. rewrite (wr_bytes_length _ _ _ _ E).
  pose proof (wr_bytes_read _ _ _ _ E) as R. rewrite length_to_le in R.
  unfold wr, wr_bytes in E. case_decide as D; [|done].
  rewrite length_to_le in D. rewrite decide_True by done. f_equal.
  by rewrite R, of_le_to_le.
Qed.

Lemma list_slice_ext (m m' : list Z) off n :
  length m' = length m -> (forall i, (off <= i < off + n)%nat -> m' !! i = m !! i) ->
  take n (drop off m') = take n (drop off m).
Proof.
  intros Hl H. apply list_eq. intros i. destruct (decide (i < n)%nat).
  - rewrite !lookup_take_lt, !lookup_drop by done. apply H. lia.
  - rewrite !lookup_take_ge by lia. done.
Qed.

Lemma rd_wr_other n k off off' z m m' :
  wr n off z m = Some m' -> (off' + k <= off \/ off + n <= off')%nat ->
  rd k off' m' = rd k off' m.
Proof.
  intros E H. unfold rd. rewrite (wr_bytes_length _ _ _ _ E). case_decide; [|done].
  f_equal. f_equal. apply list_slice_ext; [by eapply wr_bytes_length|].
  intros i Hi. eapply wr_bytes_other; [exact E|]. rewrite length_to_le. lia.
Qed.
