(* ===== verification/CtrlMsg.v ===== *)
(** * CtrlMsg: system control messages

    Models [src/sources/streamer/core/ctrl-msg.cpp] and [ctrl-msg.h]: the table
    of system-message handlers, the conversion of a received message to host
    byte order, the dispatch of a received message and the construction of a
    network report.  Messages are bytes in memory, as received. *)

From Stdlib Require Import ZArith Lia.
From stdpp Require Import base list.
From S2P Require Import Prelude Bytes.

(** ** Constants and layout *)

Definition CTRL_MSGTYPE_SYSTEM : Z := 254.
Definition CTRL_MSGSYS_SUBTYPE_NULL : Z := 0.
Definition CTRL_MSGSYS_SUBTYPE_SHUTDOWN : Z := 1.
Definition CTRL_MSGSYS_SUBTYPE_NETREPORT : Z := 2.
Definition CTRL_MSGSYS_SUBTYPE_MAX : Z := 2.

(** [sizeof(ctrlmsg_system_t)] and the offsets of its fields (packed). *)
Definition sizeof_ctrlmsg_system : Z := 4.
Definition off_msgsize : nat := 0.
Definition off_msgtype : nat := 2.
Definition off_subtype : nat := 3.

(** [ctrlmsg_system_netreport_t]: six 32-bit counters after the header. *)
Record netreport := {
  duration : Z; framecount : Z; pktcount : Z; pktloss : Z; bytecount : Z; capacity : Z
}.

Definition sizeof_netreport : Z := 28.
Definition off_duration : nat := 4.
Definition off_framecount : nat := 8.
Definition off_pktcount : nat := 12.
Definition off_pktloss : nat := 16.
Definition off_bytecount : nat := 20.
Definition off_capacity : nat := 24.

(** ** The handler table *)

(** A handler is a function pointer; 0 is NULL. *)
Definition ctrlsys_handler_t := Z.

Definition handler_list := list ctrlsys_handler_t.

Definition ctrlsys_handler_list0 : handler_list := [0; 0; 0].

(** [ctrlsys_set_handler]: the new table and the returned old handler; an index
    outside the array would be undefined. *)
Definition ctrlsys_set_handler (subtype : Z) (h : ctrlsys_handler_t) (t : handler_list)
    : option (handler_list * ctrlsys_handler_t) :=
  if CTRL_MSGSYS_SUBTYPE_MAX <? subtype then Some (t, 0)
  else
    old ← t !! Z.to_nat subtype;
    Some (<[Z.to_nat subtype := h]> t, old).

(** ** Conversion and dispatch *)

(** Convert the 32-bit field at [off] in place. *)
Definition swap32 (off : nat) (m : list Z) : option (list Z) :=
  v ← rd 4 off m; wr 4 off (htonl v) m.

(** [ctrlsys_ntoh]: the return code and the message, converted in place. *)
Definition ctrlsys_ntoh (m : list Z) : option (Z * list Z) :=
  sz ← rd 2 off_msgsize m;
  m ← wr 2 off_msgsize (ntohs sz) m;
  sub ← rd 1 off_subtype m;
  if (sub =? CTRL_MSGSYS_SUBTYPE_NULL) || (sub =? CTRL_MSGSYS_SUBTYPE_SHUTDOWN)
  then Some (0, m)
  else if sub =? CTRL_MSGSYS_SUBTYPE_NETREPORT then
    sz ← rd 2 off_msgsize m;
    if negb (sz =? sizeof_netreport) then Some (-1, m)
    else
      m ← swap32 off_duration m;
      m ← swap32 off_framecount m;
      m ← swap32 off_pktcount m;
      m ← swap32 off_pktloss m;
      m ← swap32 off_bytecount m;
      m ← swap32 off_capacity m;
      Some (0, m)
  else Some (-1, m).

(** What a call of [ctrlsys_handle_message] does: the return value, the memory
    of the message afterwards, and the handler it calls (on that memory). *)
Record handled := {
  h_ret : Z; h_mem : list Z; h_call : option ctrlsys_handler_t
}.

Definition ctrlsys_handle_message (t : handler_list) (buf : option (list Z)) (size : Z)
    : option handled :=
  match buf with
  | None => Some {| h_ret := 1; h_mem := []; h_call := None |}
  | Some m =>
      if size <? sizeof_ctrlmsg_system
      then Some {| h_ret := 0; h_mem := m; h_call := None |}
      else
        ty ← rd 1 off_msgtype m;
        if negb (ty =? CTRL_MSGTYPE_SYSTEM)
        then Some {| h_ret := 0; h_mem := m; h_call := None |}
        else
          sub ← rd 1 off_subtype m;
          if CTRL_MSGSYS_SUBTYPE_MAX <? sub
          then Some {| h_ret := 1; h_mem := m; h_call := None |}
          else
            h ← t !! Z.to_nat sub;
            if h =? 0 then Some {| h_ret := 1; h_mem := m; h_call := None |}
            else
              r ← ctrlsys_ntoh m;
              let '(rc, m) := (r : Z * list Z) in
              if negb (rc =? 0) then Some {| h_ret := 1; h_mem := m; h_call := None |}
              else Some {| h_ret := 1; h_mem := m; h_call := Some h |}
  end.

(** ** Building a report *)

(** [ctrlsys_netreport] on the memory of [msg]. *)
Definition ctrlsys_netreport (msg : list Z) (r : netreport) : option (list Z) :=
  m ← wr_bytes 0 (repeat 0 (Z.to_nat sizeof_netreport)) msg;
  m ← wr 2 off_msgsize (htons sizeof_netreport) m;
  m ← wr 1 off_msgtype CTRL_MSGTYPE_SYSTEM m;
  m ← wr 1 off_subtype CTRL_MSGSYS_SUBTYPE_NETREPORT m;
  m ← wr 4 off_duration (htonl (duration r)) m;
  m ← wr 4 off_framecount (htonl (framecount r)) m;
  m ← wr 4 off_pktcount (htonl (pktcount r)) m;
  m ← wr 4 off_pktloss (htonl (pktloss r)) m;
  m ← wr 4 off_bytecount (htonl (bytecount r)) m;
  m ← wr 4 off_capacity (htonl (capacity r)) m;
  Some m.

(** The report a handler reads from a converted message. *)
Definition read_report (m : list Z) : option netreport :=
  a ← rd 4 off_duration m; b ← rd 4 off_framecount m; c ← rd 4 off_pktcount m;
  d ← rd 4 off_pktloss m; e ← rd 4 off_bytecount m; f ← rd 4 off_capacity m;
  Some {| duration := a; framecount := b; pktcount := c; pktloss := d;
          bytecount := e; capacity := f |}.

(** ** Lemmas *)

Definition u32_report (r : netreport) : Prop :=
  Forall (fun z => 0 <= z < 2 ^ 32)
    [duration r; framecount r; pktcount r; pktloss r; bytecount r; capacity r].

Lemma wr_defined n off z m :
  (off + n <= length m)%nat -> exists m', wr n off z m = Some m' /\ length m' = length m.
Proof.
  intros H. unfold wr. rewrite wr_bytes_Some by (by rewrite length_to_le).
  eexists. split; [done|]. eapply wr_bytes_length, wr_bytes_Some. by rewrite length_to_le.
Qed.

Lemma rd_defined n off m : (off + n <= length m)%nat -> exists z, rd n off m = Some z.
Proof. intros H. unfold rd. rewrite decide_True by done. eauto. Qed.

Lemma rd_range n off m z :
  Forall is_byte m -> rd n off m = Some z -> 0 <= z < 256 ^ Z.of_nat n.
Proof.
  intros Hm. unfold rd. case_decide as D; [|done]. intros [= <-].
  replace n with (length (take n (drop off m))) at 3 by (rewrite length_take, length_drop; lia).
  apply of_le_range. by apply Forall_take, Forall_drop.
Qed.

Lemma swap32_defined off m :
  (off + 4 <= length m)%nat ->
  exists v m', rd 4 off m = Some v /\ swap32 off m = Some m' /\ length m' = length m /\
    rd 4 off m' = Some (htonl v) /\
    forall k off', (off' + k <= off \/ off + 4 <= off')%nat -> rd k off' m' = rd k off' m.
Proof.
  intros H. destruct (rd_defined 4 off m H) as [v Hv].
  destruct (wr_defined 4 off (htonl v) m H) as (m' & E & L).
  exists v, m'. split; [done|]. unfold swap32. rewrite Hv. simpl. split; [done|].
  split; [done|]. split.
  - rewrite (rd_wr _ _ _ _ _ E). f_equal. apply Z.mod_small. apply (bswap_range 4).
  - intros k off' Ho. by eapply rd_wr_other.
Qed.

Lemma wr_step n off z m :
  (off + n <= length m)%nat ->
  exists m', wr n off z m = Some m' /\ length m' = length m /\
    rd n off m' = Some (z mod 256 ^ Z.of_nat n) /\
    forall k off', (off' + k <= off \/ off + n <= off')%nat -> rd k off' m' = rd k off' m.
Proof.
  intros H. destruct (wr_defined n off z m H) as (m' & E & L). exists m'.
  split; [done|]. split; [done|]. split; [by apply (rd_wr _ _ _ m)|].
  intros k off' Ho. by eapply rd_wr_other.
Qed.

Ltac offsets :=
  unfold off_msgsize, off_msgtype, off_subtype, off_duration, off_framecount,
    off_pktcount, off_pktloss, off_bytecount, off_capacity in *.

(** Carry what is known of the memory over a write elsewhere. *)
Ltac carry O :=
  lazymatch type of O with
  | forall k o, _ -> rd k o ?m1 = rd k o ?m0 =>
      repeat match goal with
      | H : rd ?k ?o m0 = Some ?v |- _ =>
          assert (rd k o m1 = Some v) by (rewrite O; [exact H|lia]); clear H
      end; clear O
  end.

(** Do the next field write (or swap) of a computation. *)
Ltac do_wr :=
  match goal with
  | |- context [wr ?n ?off ?z ?m] =>
      let m' := fresh "m" in let E := fresh "E" in let L := fresh "L" in
      let R := fresh "R" in let O := fresh "O" in
      destruct (wr_step n off z m) as (m' & E & L & R & O); [lia|];
      rewrite E; cbn [mbind option_bind]; clear E; carry O
  end.

Ltac do_swap :=
  match goal with
  | |- context [swap32 ?off ?m] =>
      let v := fresh "v" in let m' := fresh "m" in let V := fresh "V" in
      let E := fresh "E" in let L := fresh "L" in let R := fresh "R" in
      let O := fresh "O" in
      destruct (swap32_defined off m) as (v & m' & V & E & L & R & O); [lia|];
      rewrite E; cbn [mbind option_bind]; clear E; simplify_eq; carry O
  end.

Lemma htonl_small z : htonl z mod 256 ^ Z.of_nat 4 = htonl z.
Proof. apply Z.mod_small, bswap_range. Qed.

(** The bytes of a report in memory, in network order. *)
Definition report_in (m : list Z) (r : netreport) : Prop :=
  rd 2 off_msgsize m = Some (htons sizeof_netreport) /\
  rd 1 off_msgtype m = Some CTRL_MSGTYPE_SYSTEM /\
  rd 1 off_subtype m = Some CTRL_MSGSYS_SUBTYPE_NETREPORT /\
  rd 4 off_duration m = Some (htonl (duration r)) /\
  rd 4 off_framecount m = Some (htonl (framecount r)) /\
  rd 4 off_pktcount m = Some (htonl (pktcount r)) /\
  rd 4 off_pktloss m = Some (htonl (pktloss r)) /\
  rd 4 off_bytecount m = Some (htonl (bytecount r)) /\
  rd 4 off_capacity m = Some (htonl (capacity r)).

Lemma ctrlsys_netreport_spec msg r :
  (28 <= length msg)%nat ->
  exists m, ctrlsys_netreport msg r = Some m /\ length m = length msg /\ report_in m r.
Proof.
  intros Hl. unfold ctrlsys_netreport. offsets.
  rewrite wr_bytes_Some by done. cbn [mbind option_bind].
  set (m0 := _ ++ _ ++ _).
  assert (L0 : length m0 = length msg) by (eapply wr_bytes_length, wr_bytes_Some; done).
  do 9 do_wr. eexists. split; [done|]. split; [congruence|].
  unfold report_in. offsets. rewrite !htonl_small in *. auto 20.
Qed.

Lemma htonl_htonl z : 0 <= z < 2 ^ 32 -> htonl (htonl z) = z.
Proof. intros H. by apply bswap_involutive. Qed.

Lemma ctrlsys_ntoh_report m r :
  (28 <= length m)%nat -> report_in m r -> u32_report r ->
  exists m', ctrlsys_ntoh m = Some (0, m') /\ length m' = length m /\
             read_report m' = Some r /\ rd 2 off_msgsize m' = Some sizeof_netreport.
Proof.
  intros Hl (H1 & H2 & H3 & H4 & H5 & H6 & H7 & H8 & H9) Hr.
  unfold ctrlsys_ntoh. offsets. rewrite H1. cbn [mbind option_bind].
  do_wr. change (ntohs (htons sizeof_netreport) mod 256 ^ Z.of_nat 2) with 28 in *.
  repeat match goal with H : rd 1 3 _ = Some _ |- _ => rewrite H; clear H end.
  cbn [mbind option_bind]. cbn [Z.eqb orb CTRL_MSGSYS_SUBTYPE_NETREPORT
    CTRL_MSGSYS_SUBTYPE_NULL CTRL_MSGSYS_SUBTYPE_SHUTDOWN].
  match goal with H : rd 2 0 _ = Some 28 |- _ => rewrite H end.
  cbn [mbind option_bind negb Z.eqb]. change (negb (28 =? sizeof_netreport)) with false.
  cbv iota. do 6 do_swap. eexists. split; [done|]. split; [congruence|].
  unfold u32_report in Hr. rewrite !Forall_cons in Hr.
  destruct Hr as (?&?&?&?&?&?&_). rewrite !htonl_htonl in * by done.
  split; [|done]. unfold read_report. offsets.
  repeat match goal with H : rd 4 _ _ = Some _ |- _ => rewrite H; clear H end.
  by destruct r.
Qed.

Lemma rd1_lookup off m : rd 1 off m = m !! off.
Proof.
  unfold rd. case_decide as D.
  - destruct (lookup_lt_is_Some_2 m off ltac:(lia)) as [b Hb]. rewrite Hb. f_equal.
    rewrite (drop_S _ b) by done. simpl. lia.
  - symmetry. apply lookup_ge_None. lia.
Qed.

Lemma ntohs_htons z : 0 <= z < 65536 -> ntohs (htons z) = z.
Proof. intros H. by apply (bswap_involutive 2). Qed.

(** On a message whose length field is right, the conversion is defined, keeps
    the size and the type and subtype bytes, and accepts subtypes 0 and 1
    unconditionally and a report of exactly [sizeof_netreport] bytes. *)
Lemma ctrlsys_ntoh_defined m sub :
  4 <= Z.of_nat (length m) < 65536 ->
  rd 2 off_msgsize m = Some (htons (Z.of_nat (length m))) ->
  rd 1 off_subtype m = Some sub -> 0 <= sub <= 2 ->
  exists rc m', ctrlsys_ntoh m = Some (rc, m') /\ length m' = length m /\
    (rc = 0 <-> (sub = 2 -> length m = 28%nat)).
Proof.
  intros Hl Hs Hsub Hr. unfold ctrlsys_ntoh. offsets. rewrite Hs. cbn [mbind option_bind].
  do_wr.
  match goal with H : rd 2 0 _ = Some (_ mod _) |- _ =>
    rewrite ntohs_htons, Z.mod_small in H by lia end.
  match goal with H : rd 1 3 ?x = Some sub |- context [rd 1 3 ?x] => rewrite H end.
  cbn [mbind option_bind].
  unfold CTRL_MSGSYS_SUBTYPE_NULL, CTRL_MSGSYS_SUBTYPE_SHUTDOWN,
    CTRL_MSGSYS_SUBTYPE_NETREPORT, sizeof_netreport.
  destruct (sub =? 0) eqn:E0, (sub =? 1) eqn:E1, (sub =? 2) eqn:E2; bool_to_prop;
    try lia; cbn [orb]; try (do 2 eexists; split; [done|]; split; [done|lia]).
  match goal with H : rd 2 0 ?x = Some _ |- context [rd 2 0 ?x] => rewrite H end.
  cbn [mbind option_bind].
  destruct (negb _) eqn:E; bool_to_prop.
  - do 2 eexists. split; [done|]. split; [done|]. lia.
  - do 6 do_swap. do 2 eexists. split; [done|]. split; [congruence|lia].
Qed.

(** What the dispatch of a framed message does. *)
Lemma handle_message_spec t m :
  length t = 3%nat -> Forall is_byte m -> Z.of_nat (length m) < 65536 ->
  ((4 <= length m)%nat -> rd 2 off_msgsize m = Some (htons (Z.of_nat (length m)))) ->
  exists r, ctrlsys_handle_message t (Some m) (Z.of_nat (length m)) = Some r /\
    length (h_mem r) = length m /\
    (h_ret r = 0 <-> (length m < 4)%nat \/ m !! 2%nat <> Some CTRL_MSGTYPE_SYSTEM) /\
    (forall h, h_call r = Some h <->
      (4 <= length m)%nat /\ m !! 2%nat = Some CTRL_MSGTYPE_SYSTEM /\ h <> 0 /\
      exists sub, m !! 3%nat = Some sub /\ t !! Z.to_nat sub = Some h /\
                  (sub = 2 -> length m = 28%nat)).
Proof.
  intros Ht Hb Hl Hs. unfold ctrlsys_handle_message, sizeof_ctrlmsg_system.
  unfold handler_list, ctrlsys_handler_t in *.
  destruct (_ <? 4) eqn:E4; bool_to_prop;
    [eexists; split; [done|]; simpl; split; [done|]; split; naive_solver lia|].
  specialize (Hs ltac:(lia)).
  destruct (rd_defined 1 off_msgtype m ltac:(offsets; lia)) as [ty Hty].
  destruct (rd_defined 1 off_subtype m ltac:(offsets; lia)) as [sub Hsub].
  pose proof (rd_range _ _ _ _ Hb Hsub) as Rs. change (256 ^ Z.of_nat 1) with 256 in Rs.
  rewrite Hty. cbn [mbind option_bind].
  pose proof Hty as Hty'. pose proof Hsub as Hsub'. rewrite rd1_lookup in Hty', Hsub'.
  unfold off_msgtype in Hty'. unfold off_subtype in Hsub'. rewrite Hty', Hsub'.
  destruct (negb _) eqn:Et; bool_to_prop; subst;
    [eexists; split; [done|]; simpl; split; [done|]; split; naive_solver lia|].
  rewrite Hsub. cbn [mbind option_bind].
  replace CTRL_MSGSYS_SUBTYPE_MAX with 2 by done.
  destruct (2 <? sub) eqn:E2; bool_to_prop.
  { eexists. split; [done|]. simpl. split; [done|]. split; [naive_solver lia|].
    intros h. split; [done|]. intros (_ & _ & _ & s & [= <-] & Hx & _).
    apply lookup_lt_Some in Hx. lia. }
  destruct (lookup_lt_is_Some_2 t (Z.to_nat sub) ltac:(lia)) as [h0 Hh0].
  rewrite Hh0. cbn [mbind option_bind]. destruct (h0 =? 0) eqn:Eh; bool_to_prop.
  { eexists. split; [done|]. simpl. split; [done|]. split; naive_solver lia. }
  destruct (ctrlsys_ntoh_defined m sub ltac:(lia) Hs Hsub ltac:(lia)) as (rc & m' & E & L & Rc).
  rewrite E. cbn [mbind option_bind].
  destruct (negb (rc =? 0)) eqn:Erc; bool_to_prop;
    (eexists; split; [done|]; simpl; split; [done|]; split; [naive_solver lia|]);
    intros h; split.
  - done.
  - intros (_ & _ & _ & s & [= <-] & _ & Hx). destruct Erc. by apply Rc.
  - intros [= <-]. split; [lia|]. split; [done|]. split; [done|].
    exists sub. split; [done|]. split; [done|]. by apply Rc.
  - intros (_ & _ & _ & s & [= <-] & Hx & _). congruence.
Qed.

(** Accesses inside a prefix of the memory do not depend on the rest. *)
Lemma rd_app n off m z rest : rd n off m = Some z -> rd n off (m ++ rest) = Some z.
Proof.
  unfold rd. case_decide; [|done]. intros [= <-].
  rewrite decide_True by (rewrite length_app; lia). do 2 f_equal.
  rewrite drop_app_le by lia. rewrite take_app_le by (rewrite length_drop; lia). done.
Qed.

Lemma wr_app n off z m m' rest :
  wr n off z m = Some m' -> wr n off z (m ++ rest) = Some (m' ++ rest).
Proof.
  unfold wr, wr_bytes. rewrite length_to_le. case_decide; [|done]. intros [= <-].
  rewrite decide_True by (rewrite length_app; lia). f_equal.
  rewrite take_app_le, drop_app_le by lia. by rewrite <- !app_assoc.
Qed.

Lemma swap32_app off m m' rest :
  swap32 off m = Some m' -> swap32 off (m ++ rest) = Some (m' ++ rest).
Proof.
  unfold swap32. intros (v & Hv & Hw)%bind_Some. rewrite (rd_app _ _ _ _ rest Hv).
  cbn [mbind option_bind]. by apply wr_app.
Qed.

(** Replay a computation on a longer memory. *)
Ltac localize H rest :=
  repeat (apply bind_Some in H as (? & ? & H);
    match goal with
    | R : rd _ _ ?m = Some ?v |- context [rd _ _ (?m ++ rest)] =>
        rewrite (rd_app _ _ _ _ rest R); clear R
    | R : wr _ _ _ ?m = Some ?v |- context [wr _ _ _ (?m ++ rest)] =>
        rewrite (wr_app _ _ _ _ _ rest R); clear R
    | R : swap32 _ ?m = Some ?v |- context [swap32 _ (?m ++ rest)] =>
        rewrite (swap32_app _ _ _ rest R); clear R
    | R : _ = Some ?v |- _ => rewrite R
    end; cbn [mbind option_bind]).

Lemma ctrlsys_ntoh_app m rc m' rest :
  ctrlsys_ntoh m = Some (rc, m') -> ctrlsys_ntoh (m ++ rest) = Some (rc, m' ++ rest).
Proof.
  unfold ctrlsys_ntoh. intros H. localize H rest.
  destruct (_ || _); [by simplify_eq|]. destruct (_ =? _); [|by simplify_eq].
  localize H rest. destruct (negb _); [by simplify_eq|]. localize H rest. by simplify_eq.
Qed.

(** Dispatch touches only the bytes of the message it is given. *)
Lemma handle_message_app t m size r rest :
  ctrlsys_handle_message t (Some m) size = Some r ->
  ctrlsys_handle_message t (Some (m ++ rest)) size =
    Some {| h_ret := h_ret r; h_mem := h_mem r ++ rest; h_call := h_call r |}.
Proof.
  unfold ctrlsys_handle_message. intros H. destruct (_ <? _); [by simplify_eq|].
  localize H rest. destruct (negb _); [by simplify_eq|].
  localize H rest. destruct (_ <? _); [by simplify_eq|].
  apply bind_Some in H as (h & Hh & H). rewrite Hh. cbn [mbind option_bind].
  destruct (h =? 0); [by simplify_eq|].
  apply bind_Some in H as ([rc m'] & Hn & H). rewrite (ctrlsys_ntoh_app _ _ _ rest Hn).
  cbn [mbind option_bind]. destruct (negb _); by simplify_eq.
Qed.

(** A message that is not for the system handlers is left as it was. *)
Lemma handle_message_ret0 t m size r :
  ctrlsys_handle_message t (Some m) size = Some r -> h_ret r = 0 -> h_mem r = m /\ h_call r = None.
Proof.
  unfold ctrlsys_handle_message. intros H H0. destruct (_ <? _); [by simplify_eq|].
  apply bind_Some in H as (? & _ & H). destruct (negb _); [by simplify_eq|].
  apply bind_Some in H as (? & _ & H). destruct (_ <? _); [by simplify_eq|].
  apply bind_Some in H as (h & _ & H). destruct (h =? 0); [by simplify_eq|].
  apply bind_Some in H as ([rc m'] & _ & H). destruct (negb _); by simplify_eq.
Qed.

(** ** Properties *)

(** A network report survives the wire: for all six 32-bit
    counters, the message [ctrlsys_netreport] builds, handed to
    [ctrlsys_handle_message] of a receiver with a report handler registered by
    [ctrlsys_set_handler], returns 1, calls that handler, and the handler reads
    the original counters and the host-order message size. *)
Theorem netreport_roundtrip msg r t h t' old :
  (28 <= length msg)%nat -> u32_report r -> h <> 0 ->
  ctrlsys_set_handler CTRL_MSGSYS_SUBTYPE_NETREPORT h t = Some (t', old) ->
  exists m m', ctrlsys_netreport msg r = Some m /\
    ctrlsys_handle_message t' (Some m) sizeof_netreport =
      Some {| h_ret := 1; h_mem := m'; h_call := Some h |} /\
    read_report m' = Some r /\ rd 2 off_msgsize m' = Some sizeof_netreport.
Proof.
  intros Hl Hr Hh Ht. destruct (ctrlsys_netreport_spec msg r Hl) as (m & E & L & R).
  destruct (ctrlsys_ntoh_report m r ltac:(lia) R Hr) as (m' & E' & _ & R1 & R2).
  exists m, m'. split; [done|]. split; [|done].
  destruct R as (_ & R3 & R4 & _). unfold ctrlsys_handle_message.
  rewrite R3. cbn [mbind option_bind]. rewrite R4. cbn [mbind option_bind].
  unfold ctrlsys_set_handler in Ht.
  change (CTRL_MSGSYS_SUBTYPE_MAX <? CTRL_MSGSYS_SUBTYPE_NETREPORT) with false in Ht.
  cbv iota in Ht. apply bind_Some in Ht as (o & Eo & [= <- <-]).
  pose proof (lookup_lt_Some _ _ _ Eo).
  rewrite (list_lookup_insert_eq t) by done. cbn [mbind option_bind].
  apply Z.eqb_neq in Hh. rewrite Hh, E'. done.
Qed.

Lemma netreport_roundtrip_witness :
  exists m m', ctrlsys_netreport (repeat 7 32) (Build_netreport 1000000 60 900 3 123456 4294967295)
      = Some m /\
    ctrlsys_handle_message [0; 0; 9] (Some m) sizeof_netreport =
      Some {| h_ret := 1; h_mem := m'; h_call := Some 9 |} /\
    read_report m' = Some (Build_netreport 1000000 60 900 3 123456 4294967295) /\
    rd 2 off_msgsize m' = Some sizeof_netreport.
Proof.
  apply (netreport_roundtrip (repeat 7 32) _ ctrlsys_handler_list0 9 _ 0).
  - simpl. lia.
  - unfold u32_report. rewrite !Forall_cons. simpl. repeat split; lia || constructor.
  - lia.
  - reflexivity.
Defined.

(** Dispatch of a framed message is safe and exact.  When the
    message's length field is the number of bytes received (what the servers
    check before dispatching), no access leaves the message or the handler
    table; the result is 0 (not a system message) exactly for short messages and
    other types; and a handler runs exactly when it is registered for the
    subtype, a report moreover only at its exact size. *)
Theorem handle_message_dispatch t m :
  length t = 3%nat -> Forall is_byte m -> Z.of_nat (length m) < 65536 ->
  ((4 <= length m)%nat -> rd 2 off_msgsize m = Some (htons (Z.of_nat (length m)))) ->
  exists r, ctrlsys_handle_message t (Some m) (Z.of_nat (length m)) = Some r /\
    length (h_mem r) = length m /\
    (h_ret r = 0 <-> (length m < 4)%nat \/ m !! 2%nat <> Some CTRL_MSGTYPE_SYSTEM) /\
    (forall h, h_call r = Some h <->
      (4 <= length m)%nat /\ m !! 2%nat = Some CTRL_MSGTYPE_SYSTEM /\ h <> 0 /\
      exists sub, m !! 3%nat = Some sub /\ t !! Z.to_nat sub = Some h /\
                  (sub = 2 -> length m = 28%nat)).
Proof. apply handle_message_spec. Qed.

Lemma handle_message_dispatch_witness :
  exists r, ctrlsys_handle_message [0; 5; 0] (Some [0; 4; 254; 1]) 4 = Some r /\
    length (h_mem r) = 4%nat /\
    (h_ret r = 0 <-> (4 < 4)%nat \/ Some 254 <> Some CTRL_MSGTYPE_SYSTEM) /\
    (forall h, h_call r = Some h <->
      (4 <= 4)%nat /\ Some 254 = Some CTRL_MSGTYPE_SYSTEM /\ h <> 0 /\
      exists sub, Some 1 = Some sub /\ [0; 5; 0] !! Z.to_nat sub = Some h /\
                  (sub = 2 -> 4%nat = 28%nat)).
Proof.
  apply (handle_message_dispatch [0; 5; 0] [0; 4; 254; 1]).
  - reflexivity.
  - rewrite !Forall_cons. unfold is_byte. repeat split; lia || constructor.
  - simpl. lia.
  - reflexivity.
Defined.
