(* ===== verification/CtrlQueue.v ===== *)
(** * CtrlQueue: the controller message queue

    Models the queue routines of [src/sources/streamer/core/controller.cpp]
    ([ctrl_queue_*], [ctrl_server_readnext], [ctrl_client_sendmsg]): a ring of
    fixed-size units in one allocated buffer, each unit a [struct queuemsg] (a
    16-bit size, then the payload).  Positions are byte offsets into the buffer
    as in the code.  The queue mutex makes each routine one atomic step. *)

From Stdlib Require Import ZArith Lia.
From stdpp Require Import base list.
From S2P Require Import Prelude Bytes.

(** ** State and routines *)

Record qstate := {
  qbuffer : option (list Z);
  qhead : Z; qtail : Z; qsize : Z; qunit : Z
}.

Definition sizeof_queuemsg : Z := 4.
Definition off_qmsg_msg : Z := 2.

Definition with_head (h : Z) (q : qstate) : qstate :=
  {| qbuffer := qbuffer q; qhead := h; qtail := qtail q; qsize := qsize q; qunit := qunit q |}.

(** [ctrl_queue_init]; [mem] is what [malloc] returns for [qsize] bytes. *)
Definition ctrl_queue_init (size maxunit : Z) (mem : Z -> option (list Z)) : option (Z * qstate) :=
  let unit := i32 (u64 (maxunit + sizeof_queuemsg)) in
  if unit =? 0 then None
  else
    sz ← int_chk (size - Z.rem size unit);
    let q := {| qbuffer := mem (u64 sz); qhead := 0; qtail := 0; qsize := sz; qunit := unit |} in
    match qbuffer q with
    | None => Some (-1, q)
    | Some _ => Some (0, q)
    end.

Definition ctrl_queue_free : cmd qstate unit :=
  cmodify (fun q => {| qbuffer := None; qhead := 0; qtail := 0; qsize := 0; qunit := qunit q |}).

(** The returned pointer, as an offset into the buffer; [None] is NULL. *)
Definition ctrl_queue_read_msg : cmd qstate (option Z) :=
  q <-- cget ;;
  match qbuffer q with
  | None => cret None
  | Some _ => if qtail q =? qhead q then cret None else cret (Some (qhead q))
  end.

(** The released pointer is only compared to log a warning. *)
Definition ctrl_queue_release_msg (msg : option Z) : cmd qstate unit :=
  q <-- cget ;;
  match qbuffer q with
  | None => cret tt
  | Some _ =>
      if qhead q =? qtail q then cret tt
      else
        h <-- clift (int_chk (qhead q + qunit q)) ;;
        cput (with_head (if h =? qsize q then 0 else h) q)
  end.

(** Copy [n] bytes of the caller's memory [msg] to offset [off]. *)
Definition bcopy_in (msg : list Z) (n off : Z) (buf : list Z) : option (list Z) :=
  if Z.of_nat (length msg) <? n then None
  else wr_bytes (Z.to_nat off) (take (Z.to_nat n) msg) buf.

Definition ctrl_queue_write_msg (msg : list Z) (msgsize : Z) : cmd qstate Z :=
  q <-- cget ;;
  if u64 (qunit q) <? u64 (msgsize + sizeof_queuemsg) then cret 0
  else match qbuffer q with
  | None => cret 0
  | Some buf =>
      nextpos <-- clift (int_chk (qtail q + qunit q)) ;;
      let nextpos := if nextpos =? qsize q then 0 else nextpos in
      if nextpos =? qhead q then cret 0
      else
        buf <-- clift (wr 2 (Z.to_nat (qtail q)) (u16 msgsize) buf) ;;
        buf <-- clift (if (0 <? msgsize) && (msgsize <=? 2)
                       then bcopy_in msg msgsize (qtail q + off_qmsg_msg) buf
                       else Some buf) ;;
        cput {| qbuffer := Some buf; qhead := qhead q; qtail := nextpos;
                qsize := qsize q; qunit := qunit q |} ;;;
        cret msgsize
  end.

Definition ctrl_queue_clear : cmd qstate unit :=
  cmodify (fun q => {| qbuffer := qbuffer q; qhead := 0; qtail := 0;
                       qsize := qsize q; qunit := qunit q |}).

(** One pass of [ctrl_server_readnext]: the return value and the bytes copied to
    the caller; [None] when there is nothing and the thread waits for the next
    notification before it tries again. *)
Definition ctrl_server_readnext (msglen : Z) : cmd qstate (option (Z * list Z)) :=
  qm <-- ctrl_queue_read_msg ;;
  match qm with
  | None => cret None
  | Some off =>
      q <-- cget ;;
      buf <-- clift (qbuffer q) ;;
      sz <-- clift (rd 2 (Z.to_nat off) buf) ;;
      out <-- (if msglen <? sz then cret (-1, [])
               else
                 let from := Z.to_nat (off + off_qmsg_msg) in
                 if decide (from + Z.to_nat sz <= length buf)%nat
                 then cret (sz, take (Z.to_nat sz) (drop from buf))
                 else cundef) ;;
      ctrl_queue_release_msg (Some off) ;;;
      cret (Some out)
  end.

(** [ctrl_client_sendmsg]: whether the reader is notified. *)
Definition ctrl_client_sendmsg (ctrlenabled : bool) (msg : list Z) (msglen : Z)
    : cmd qstate bool :=
  if negb ctrlenabled then cret false
  else
    r <-- ctrl_queue_write_msg msg msglen ;;
    if negb (r =? msglen) then cret false else cret true.

(** How a wake-up of [ctrl_client_thread] ends: waiting again, terminated by a
    null message, or the process exits after a failed send. *)
Inductive client_exit := CWait | CQuit | CExit | CFuel.

(** The inner loop of [ctrl_client_thread] (not Android): what it sends, and how
    it ends; [send] is the result of the socket call. *)
Fixpoint ctrl_client_drain (send : list Z -> Z) (fuel : nat)
    : cmd qstate (list (list Z) * client_exit) :=
  match fuel with
  | O => cret ([], CFuel)
  | S fuel =>
      qm <-- ctrl_queue_read_msg ;;
      match qm with
      | None => cret ([], CWait)
      | Some off =>
          q <-- cget ;;
          buf <-- clift (qbuffer q) ;;
          sz <-- clift (rd 2 (Z.to_nat off) buf) ;;
          if sz =? 0 then cret ([], CQuit)
          else
            let from := Z.to_nat (off + off_qmsg_msg) in
            msg <-- (if decide (from + Z.to_nat sz <= length buf)%nat
                     then cret (take (Z.to_nat sz) (drop from buf)) else cundef) ;;
            if send msg <? 0 then cret ([msg], CExit)
            else
              ctrl_queue_release_msg (Some off) ;;;
              r <-- ctrl_client_drain send fuel ;;
              cret (msg :: fst r, snd r)
      end
  end.

(** ** Runs of queue operations *)

Inductive qop := QWrite (msg : list Z) | QNext (msglen : Z) | QClear | QFree.

Inductive qout := OWrite (ret : Z) | ONext (r : option (Z * list Z)) | ODone.

Definition qexec (o : qop) : cmd qstate qout :=
  match o with
  | QWrite msg => r <-- ctrl_queue_write_msg msg (Z.of_nat (length msg)) ;; cret (OWrite r)
  | QNext n => r <-- ctrl_server_readnext n ;; cret (ONext r)
  | QClear => ctrl_queue_clear ;;; cret ODone
  | QFree => ctrl_queue_free ;;; cret ODone
  end.

Fixpoint qrun (os : list qop) : cmd qstate (list qout) :=
  match os with
  | [] => cret []
  | o :: os => r <-- qexec o ;; rs <-- qrun os ;; cret (r :: rs)
  end.

(** ** Specification: a bounded FIFO of messages, [None] once freed *)

Definition squeue := option (list (list Z)).

Definition sexec (cap : nat) (maxunit : Z) (o : qop) (s : squeue) : qout * squeue :=
  match o, s with
  | QWrite msg, Some l =>
      if (Z.of_nat (length msg) <=? maxunit) && (length l <? cap)%nat
      then (OWrite (Z.of_nat (length msg)), Some (l ++ [msg])) else (OWrite 0, s)
  | QWrite _, None => (OWrite 0, s)
  | QNext n, Some (m :: l) =>
      (ONext (Some (if n <? Z.of_nat (length m) then (-1, []) else (Z.of_nat (length m), m))), Some l)
  | QNext _, _ => (ONext None, s)
  | QClear, Some _ => (ODone, Some [])
  | QClear, None => (ODone, s)
  | QFree, _ => (ODone, None)
  end.

Fixpoint srun (cap : nat) (maxunit : Z) (os : list qop) (s : squeue) : list qout * squeue :=
  match os with
  | [] => ([], s)
  | o :: os =>
      let '(r, s) := sexec cap maxunit o s in
      let '(rs, s) := srun cap maxunit os s in (r :: rs, s)
  end.

(** The implementation delivers sizes and order exactly, and the bytes of
    messages of at most two bytes. *)
Definition agree (o s : qout) : Prop :=
  match o, s with
  | OWrite a, OWrite b => a = b
  | ONext None, ONext None => True
  | ONext (Some (r, b)), ONext (Some (r', b')) =>
      r = r' /\ length b = length b' /\ ((length b' <= 2)%nat -> b = b')
  | ODone, ODone => True
  | _, _ => False
  end.

(** ** Representation *)

(** The [i]-th unit after unit [h] in a ring of [n] units ([i < n]). *)
Definition slot (n h i : nat) : nat := if decide (h + i < n)%nat then (h + i)%nat else (h + i - n)%nat.

Definition slot_ok (buf : list Z) (off : nat) (m : list Z) : Prop :=
  rd 2 off buf = Some (Z.of_nat (length m)) /\
  ((length m <= 2)%nat -> take (length m) (drop (off + 2) buf) = m).

Record qrep_live (n u : nat) (buf : list Z) (h : nat) (q : qstate) (l : list (list Z)) : Prop := {
  ql_unit : qunit q = Z.of_nat u;
  ql_size : qsize q = Z.of_nat (n * u);
  ql_len : length buf = (n * u)%nat;
  ql_h : (h < n)%nat;
  ql_count : (length l < n)%nat;
  ql_head : qhead q = Z.of_nat (h * u);
  ql_tail : qtail q = Z.of_nat (slot n h (length l) * u);
  ql_msgs : forall i m, l !! i = Some m ->
    (length m + 4 <= u)%nat /\ slot_ok buf (slot n h i * u) m
}.

Definition qrep (n u : nat) (q : qstate) (s : squeue) : Prop :=
  match s with
  | Some l => exists buf h, qbuffer q = Some buf /\ qrep_live n u buf h q l
  | None => qbuffer q = None /\ qunit q = Z.of_nat u
  end.

(** Queue dimensions the code can allocate: units of at least a header, sizes
    that fit the 16-bit field, total size an [int]. *)
Definition dims (n u : nat) : Prop :=
  (1 <= n)%nat /\ (4 <= u)%nat /\ Z.of_nat u <= 65539 /\ Z.of_nat (n * u) <= INT_MAX.

(** ** Ring arithmetic *)

Lemma slot_lt n h i : (h < n)%nat -> (i < n)%nat -> (slot n h i < n)%nat.
Proof. unfold slot. case_decide; lia. Qed.

Lemma slot_0 n h : (h < n)%nat -> slot n h 0 = h.
Proof. unfold slot. case_decide; lia. Qed.

Lemma slot_inj n h i j :
  (h < n)%nat -> (i < n)%nat -> (j < n)%nat -> slot n h i = slot n h j -> i = j.
Proof. unfold slot. repeat case_decide; lia. Qed.

(** The unit after [a] in a ring of [n]. *)
Definition next_slot (n a : nat) : nat := if decide (a + 1 = n)%nat then 0%nat else (a + 1)%nat.

Lemma next_slot_lt n a : (a < n)%nat -> (next_slot n a < n)%nat.
Proof. unfold next_slot. case_decide; lia. Qed.

Lemma slot_next n h i :
  (h < n)%nat -> (i + 1 < n)%nat -> next_slot n (slot n h i) = slot n h (i + 1).
Proof. unfold next_slot, slot. repeat case_decide; lia. Qed.

Lemma slot_next_head n h i :
  (h < n)%nat -> (i + 1 < n)%nat -> slot n (next_slot n h) i = slot n h (i + 1).
Proof. unfold next_slot, slot. repeat case_decide; lia. Qed.

Lemma slot_full n h i :
  (h < n)%nat -> (i < n)%nat -> next_slot n (slot n h i) = h <-> (i + 1 = n)%nat.
Proof. unfold next_slot, slot. repeat case_decide; lia. Qed.

(** The code's step of a position by one unit, with wrap-around. *)
Lemma advance n u a :
  (a < n)%nat -> (1 <= u)%nat ->
  (if Z.of_nat (a * u) + Z.of_nat u =? Z.of_nat (n * u) then 0
   else Z.of_nat (a * u) + Z.of_nat u) = Z.of_nat (next_slot n a * u).
Proof.
  intros Ha Hu. unfold next_slot. destruct (_ =? _) eqn:E; bool_to_prop; case_decide; nia.
Qed.

Lemma pos_eqb u a b : (1 <= u)%nat ->
  (Z.of_nat (a * u) =? Z.of_nat (b * u)) = bool_decide (a = b).
Proof.
  intros Hu. case_bool_decide; subst; [apply Z.eqb_refl|]. apply Z.eqb_neq. nia.
Qed.

(** Bytes of one unit do not reach into another. *)
Lemma unit_disjoint (u a b : nat) : a <> b -> (a * u + u <= b * u \/ b * u + u <= a * u)%nat.
Proof. intros H. destruct (decide (a < b)%nat); nia. Qed.

(** A change confined to unit [a] keeps the messages of the other units. *)
Lemma slot_ok_frame u a b buf buf' m :
  a <> b -> length buf' = length buf -> (length m + 4 <= u)%nat ->
  (forall i, (i < a * u \/ a * u + u <= i)%nat -> buf' !! i = buf !! i) ->
  slot_ok buf (b * u) m -> slot_ok buf' (b * u) m.
Proof.
  intros Hab Hl Hm Hf [H1 H2]. pose proof (unit_disjoint u _ _ Hab).
  split.
  - rewrite <- H1. unfold rd. rewrite Hl. case_decide; [|done]. do 2 f_equal.
    apply list_slice_ext; [done|]. intros i Hi. apply Hf. lia.
  - intros Hs. etrans; [|apply H2, Hs]. apply list_slice_ext; [done|].
    intros i Hi. apply Hf. lia.
Qed.

(** Storing a message in unit [off]: header, then at most two payload bytes. *)
Lemma store_msg buf off u msg :
  (off + u <= length buf)%nat -> (length msg + 4 <= u)%nat -> Z.of_nat (length msg) <= 65535 ->
  exists buf1 buf2,
    wr 2 off (u16 (Z.of_nat (length msg))) buf = Some buf1 /\
    (if (0 <? Z.of_nat (length msg)) && (Z.of_nat (length msg) <=? 2)
     then bcopy_in msg (Z.of_nat (length msg)) (Z.of_nat off + off_qmsg_msg) buf1
     else Some buf1) = Some buf2 /\
    length buf2 = length buf /\
    (forall i, (i < off \/ off + u <= i)%nat -> buf2 !! i = buf !! i) /\
    slot_ok buf2 off msg.
Proof.
  intros Ho Hu Hm. set (b1 := take off buf ++ to_le 2 (u16 (Z.of_nat (length msg))) ++ drop (off + 2) buf).
  assert (E1 : wr 2 off (u16 (Z.of_nat (length msg))) buf = Some b1).
  { unfold wr. rewrite wr_bytes_Some; rewrite length_to_le; [done|lia]. }
  pose proof (wr_bytes_length _ _ _ _ E1) as L1. pose proof (rd_wr _ _ _ _ _ E1) as R1.
  unfold u16 in R1. rewrite wrapu_small, Z.mod_small in R1 by lia.
  assert (F1 : forall i, (i < off \/ off + u <= i)%nat -> b1 !! i = buf !! i).
  { intros i Hi. eapply wr_bytes_other; [exact E1|]. rewrite length_to_le. lia. }
  exists b1. destruct (_ && _) eqn:E.
  - apply andb_prop in E as [E2 E3]. bool_to_prop. unfold bcopy_in, off_qmsg_msg.
    rewrite Z.ltb_irrefl. rewrite take_ge by lia.
    replace (Z.to_nat (Z.of_nat off + 2)) with (off + 2)%nat by lia.
    destruct (wr_bytes (off + 2) msg b1) as [b2|] eqn:E4;
      [|rewrite wr_bytes_Some in E4 by lia; done].
    exists b2. pose proof (wr_bytes_length _ _ _ _ E4) as L2.
    split; [done|]. split; [done|]. split; [lia|]. split.
    + intros i Hi. rewrite (wr_bytes_other _ _ _ _ i E4) by lia. by apply F1.
    + split; [|intros _; by eapply wr_bytes_read].
      rewrite <- R1. unfold rd. rewrite L2. case_decide; [|done]. do 2 f_equal.
      apply list_slice_ext; [done|]. intros i Hi. apply (wr_bytes_other _ _ _ _ i E4). lia.
  - exists b1. split; [done|]. split; [done|]. split; [done|]. split; [done|].
    split; [done|]. intros Hs.
    destruct msg; [done|]. cbn [length] in *. apply andb_false_iff in E as [E|E]; bool_to_prop; lia.
Qed.

(** ** Each operation refines the specification *)

Section ring.
Context (n u : nat) (Hd : dims n u).

Let cap : nat := (n - 1)%nat.
Let maxunit : Z := Z.of_nat u - 4.

(** Sizes are passed as [int]. *)
Definition op_ok (o : qop) : Prop :=
  match o with QWrite msg => Z.of_nat (length msg) <= INT_MAX | _ => True end.

Lemma guard_spec q (msg : list Z) :
  qunit q = Z.of_nat u -> Z.of_nat (length msg) <= INT_MAX ->
  (u64 (qunit q) <? u64 (Z.of_nat (length msg) + 4)) = negb (Z.of_nat (length msg) <=? maxunit).
Proof.
  intros -> Hm. destruct Hd as (D1 & D2 & D3 & D4). unfold INT_MAX in *.
  unfold u64. rewrite !wrapu_small by lia. unfold maxunit in *.
  rewrite <- Z.ltb_antisym. destruct (Z.ltb_spec (Z.of_nat u) (Z.of_nat (length msg) + 4));
    symmetry; [apply Z.ltb_lt|apply Z.ltb_ge]; lia.
Qed.

Lemma live_fits q l buf h i :
  qrep_live n u buf h q l -> (i < n)%nat -> (slot n h i * u + u <= length buf)%nat.
Proof.
  intros [] Hi. rewrite ql_len0. pose proof (slot_lt n h i ql_h0 Hi). nia.
Qed.

Lemma write_refines q s msg :
  qrep n u q s -> op_ok (QWrite msg) ->
  exists r q', ctrl_queue_write_msg msg (Z.of_nat (length msg)) q = Some (r, q') /\
    fst (sexec cap maxunit (QWrite msg) s) = OWrite r /\
    qrep n u q' (snd (sexec cap maxunit (QWrite msg) s)).
Proof.
  intros Hq Hm. unfold ctrl_queue_write_msg, cbind, cget, sizeof_queuemsg.
  destruct s as [l|]; simpl in Hq.
  2:{ destruct Hq as [Hb Hu]. rewrite (guard_spec q msg Hu Hm), Hb.
      exists 0, q. split_and!; [by destruct (negb _)|done|done]. }
  destruct Hq as (buf & h & Hb & Hl). pose proof Hl as [Q1 Q2 Q3 Q4 Q5 Q6 Q7 Q8].
  rewrite (guard_spec q msg Q1 Hm). simpl. rewrite Hb.
  destruct (Z.of_nat (length msg) <=? maxunit) eqn:Em; cbn [andb negb];
    [|exists 0, q; split_and!; [done|done|by exists buf, h]].
  pose proof Hd as (D1 & D2 & D3 & D4). unfold INT_MAX in D4. unfold maxunit, cap in *. bool_to_prop.
  pose proof (slot_lt n h (length l) Q4 Q5) as Hs.
  rewrite Q7, Q1, Q2, Q6. unfold clift at 1. rewrite int_chk_Some by (unfold INT_MIN, INT_MAX; nia).
  rewrite advance, pos_eqb by lia.
  pose proof (slot_full n h (length l) Q4 Q5) as Hf.
  destruct (Nat.ltb_spec (length l) (n - 1)) as [Hc|Hc].
  2:{ rewrite bool_decide_true by (apply Hf; lia). exists 0, q.
      split_and!; [done|done|by exists buf, h]. }
  rewrite bool_decide_false by (rewrite Hf; lia). rewrite Nat2Z.id.
  destruct (store_msg buf (slot n h (length l) * u) u msg) as (b1 & b2 & E1 & E2 & L & F & K);
    [eapply live_fits; eauto|lia|lia|].
  rewrite E1. unfold clift at 1. rewrite E2. unfold clift, cput, cret. do 2 eexists.
  split; [done|]. split; [done|]. exists b2, h. split; [done|].
  split; simpl; auto.
  - by rewrite L.
  - rewrite length_app; simpl; lia.
  - rewrite length_app. simpl. by rewrite <- slot_next by lia.
  - intros i m. destruct (decide (i = length l)) as [->|Hi].
    + rewrite list_lookup_middle by done. intros [= <-]. split; [lia|done].
    + intros E. assert (i < length l)%nat.
      { apply lookup_lt_Some in E. rewrite length_app in E. simpl in E. lia. }
      rewrite lookup_app_l in E by done. destruct (Q8 i m E) as [K1 K2]. split; [done|].
      eapply slot_ok_frame; [|exact L|exact K1|exact F|exact K2].
      intros E'. apply slot_inj in E'; lia.
Qed.

(** Dropping the head message. *)
Lemma release_live q buf h m l p :
  qbuffer q = Some buf -> qrep_live n u buf h q (m :: l) ->
  exists q', ctrl_queue_release_msg p q = Some (tt, q') /\ qrep n u q' (Some l).
Proof.
  intros Hb [Q1 Q2 Q3 Q4 Q5 Q6 Q7 Q8]. pose proof Hd as (D1 & D2 & D3 & D4).
  unfold INT_MAX in D4. simpl in Q5.
  unfold ctrl_queue_release_msg, cbind, cget. rewrite Hb, Q6, Q7, pos_eqb by lia.
  rewrite bool_decide_false.
  2:{ simpl. intros E. rewrite <- (slot_0 n h Q4) in E at 1. apply slot_inj in E; lia. }
  rewrite Q1, Q2. unfold clift. rewrite int_chk_Some by (unfold INT_MIN, INT_MAX; nia).
  rewrite advance by lia. eexists. split; [done|].
  exists buf, (next_slot n h). split; [done|]. simpl in Q7. split; simpl; auto.
  - by apply next_slot_lt.
  - lia.
  - rewrite Q7. rewrite slot_next_head by lia. f_equal. f_equal. f_equal. lia.
  - intros i x Hx. rewrite slot_next_head by (apply lookup_lt_Some in Hx; lia).
    rewrite Nat.add_1_r. by apply (Q8 (S i)).
Qed.

Lemma readnext_refines q s k :
  qrep n u q s ->
  exists r q', ctrl_server_readnext k q = Some (r, q') /\
    agree (ONext r) (fst (sexec cap maxunit (QNext k) s)) /\
    qrep n u q' (snd (sexec cap maxunit (QNext k) s)).
Proof.
  intros Hq. pose proof Hd as (D1 & D2 & D3 & D4).
  unfold ctrl_server_readnext, ctrl_queue_read_msg, cbind, cget.
  destruct s as [l|]; simpl in Hq.
  2:{ destruct Hq as [Hb Hu]. rewrite Hb. exists None, q. by split_and!. }
  destruct Hq as (buf & h & Hb & Hl). pose proof Hl as [Q1 Q2 Q3 Q4 Q5 Q6 Q7 Q8].
  rewrite Hb, Q7, Q6, pos_eqb by lia.
  destruct l as [|m l].
  { simpl. rewrite slot_0, bool_decide_true by done.
    exists None, q. split_and!; [done|done|by exists buf, h]. }
  rewrite bool_decide_false.
  2:{ simpl in *. intros E. rewrite <- (slot_0 n h Q4) in E at 2. apply slot_inj in E; lia. }
  unfold cret at 1. cbn iota. rewrite Hb. unfold clift at 1.
  destruct (Q8 0%nat m eq_refl) as [K1 [K2 K3]]. rewrite slot_0 in K2, K3 by done.
  rewrite Nat2Z.id, K2. unfold clift at 1.
  destruct (release_live q buf h m l (Some (Z.of_nat (h * u))) Hb Hl) as (q' & E & R).
  simpl. destruct (k <? _); cbn [cret].
  - unfold cret at 1. rewrite E. do 2 eexists. split; [done|]. done.
  - unfold off_qmsg_msg. replace (Z.to_nat (Z.of_nat (h * u) + 2)) with (h * u + 2)%nat by lia.
    rewrite Nat2Z.id. pose proof (live_fits q _ buf h 0 Hl ltac:(lia)) as Hf.
    rewrite slot_0 in Hf by done. rewrite decide_True by lia. unfold cret at 1. rewrite E.
    do 2 eexists. split; [done|]. split; [|done]. split; [done|]. split; [|done].
    rewrite length_take, length_drop. lia.
Qed.

(** One pass of the client loop over the head message. *)
Lemma drain_step send fuel q m l :
  qrep n u q (Some (m :: l)) -> (0 < length m)%nat -> (forall x, 0 <= send x) ->
  exists msg q', qrep n u q' (Some l) /\ length msg = length m /\
    ((length m <= 2)%nat -> msg = m) /\
    ctrl_client_drain send (S fuel) q =
      match ctrl_client_drain send fuel q' with
      | Some (r, q2) => Some ((msg :: fst r, snd r), q2) | None => None
      end.
Proof.
  intros (buf & h & Hb & Hl) Hm Hs. pose proof Hd as (D1 & D2 & D3 & D4).
  pose proof Hl as [Q1 Q2 Q3 Q4 Q5 Q6 Q7 Q8].
  destruct (Q8 0%nat m eq_refl) as [K1 [K2 K3]]. rewrite slot_0 in K2, K3 by done.
  destruct (release_live q buf h m l (Some (Z.of_nat (h * u))) Hb Hl) as (q' & E & R).
  pose proof (live_fits q _ buf h 0 Hl ltac:(lia)) as Hf. rewrite slot_0 in Hf by done.
  exists (take (length m) (drop (h * u + 2) buf)), q'. split; [done|].
  split; [rewrite length_take, length_drop; lia|]. split; [done|].
  cbn [ctrl_client_drain]. rewrite (cbind_Some _ _ q (Some (Z.of_nat (h * u))) q).
  2:{ unfold ctrl_queue_read_msg, cbind, cget. rewrite Hb, Q7, Q6, pos_eqb by lia.
      rewrite bool_decide_false; [done|]. simpl in *. intros Eh.
      rewrite <- (slot_0 n h Q4) in Eh at 2. apply slot_inj in Eh; lia. }
  cbv beta iota. rewrite (cbind_Some cget _ q q q) by done. rewrite Hb.
  rewrite (cbind_Some (clift (Some buf)) _ q buf q) by done. rewrite Nat2Z.id, K2.
  rewrite (cbind_Some (clift _) _ q (Z.of_nat (length m)) q) by done. cbv beta zeta.
  rewrite (proj2 (Z.eqb_neq _ _)) by lia. unfold off_qmsg_msg. rewrite Nat2Z.id.
  replace (Z.to_nat (Z.of_nat (h * u) + 2)) with (h * u + 2)%nat by lia.
  rewrite decide_True by lia. unfold cbind, cret.
  rewrite (proj2 (Z.ltb_ge _ _)) by apply Hs. rewrite E.
  by destruct (ctrl_client_drain send fuel q') as [[[] ?]|].
Qed.

Lemma drain_all send l : forall q,
  qrep n u q (Some l) -> Forall (fun m => (0 < length m)%nat) l -> (forall x, 0 <= send x) ->
  exists sent q', ctrl_client_drain send (S (length l)) q = Some ((sent, CWait), q') /\
    qrep n u q' (Some []) /\
    Forall2 (fun s m => length s = length m /\ ((length m <= 2)%nat -> s = m)) sent l.
Proof.
  induction l as [|m l IH]; intros q Hq Hl Hs.
  - exists [], q. split; [|by split]. destruct Hq as (buf & h & Hb & [Q1 Q2 Q3 Q4 Q5 Q6 Q7 Q8]).
    pose proof Hd as (D1 & D2 & _).
    cbn [ctrl_client_drain]. unfold cbind, ctrl_queue_read_msg, cget, cbind.
    rewrite Hb, Q7, Q6, pos_eqb by lia. simpl. rewrite slot_0, bool_decide_true by done. done.
  - apply Forall_cons in Hl as [Hm Hl].
    destruct (drain_step send (S (length l)) q m l Hq Hm Hs) as (msg & q1 & R & L & K & E).
    destruct (IH q1 R Hl Hs) as (sent & q' & E' & R' & F).
    exists (msg :: sent), q'. cbn [length]. rewrite E, E'. split; [done|]. split; [done|].
    by constructor.
Qed.

(** One operation, from related states. *)
Lemma qexec_refines q s o :
  qrep n u q s -> op_ok o ->
  exists r q', qexec o q = Some (r, q') /\ agree r (fst (sexec cap maxunit o s)) /\
    qrep n u q' (snd (sexec cap maxunit o s)).
Proof.
  intros Hq Ho. destruct o as [msg|k| |].
  - destruct (write_refines q s msg Hq Ho) as (r & q' & E & F & R).
    unfold qexec, cbind. rewrite E. do 2 eexists. split; [done|]. rewrite F. done.
  - destruct (readnext_refines q s k Hq) as (r & q' & E & F & R).
    unfold qexec, cbind. rewrite E. do 2 eexists. done.
  - do 2 eexists. split; [done|]. destruct s as [l|]; [|done]. split; [done|].
    destruct Hq as (buf & h & Hb & [Q1 Q2 Q3 Q4 Q5 Q6 Q7 Q8]).
    pose proof Hd as (D1 & _). exists buf, 0%nat.
    split; [done|]. split; simpl; auto; try lia; [by rewrite slot_0 by lia|done].
  - do 2 eexists. split; [done|]. split; [done|]. simpl. split; [done|].
    destruct s as [l|]; simpl in Hq; [|by destruct Hq].
    by destruct Hq as (buf & h & Hb & []).
Qed.

Lemma qrun_refines os q s :
  qrep n u q s -> Forall op_ok os ->
  exists rs q', qrun os q = Some (rs, q') /\ Forall2 agree rs (fst (srun cap maxunit os s)) /\
    qrep n u q' (snd (srun cap maxunit os s)).
Proof.
  intros Hq Ho. revert q s Hq. induction Ho as [|o os Ho Hos IH]; intros q s Hq; simpl.
  - do 2 eexists. done.
  - destruct (qexec_refines q s o Hq Ho) as (r & q1 & E & A & R). unfold cbind.
    rewrite E. destruct (sexec cap maxunit o s) as [r' s1]. simpl in *.
    destruct (IH q1 s1 R) as (rs & q2 & E2 & A2 & R2). rewrite E2.
    destruct (srun cap maxunit os s1) as [rs' s2]. do 2 eexists. split; [done|].
    split; [by constructor|done].
Qed.
End ring.

(** What [ctrl_queue_init] allocates. *)
Lemma ctrl_queue_init_rep size maxunit buf :
  0 <= maxunit <= 65535 -> maxunit + 4 <= size <= INT_MAX ->
  Z.of_nat (length buf) = size - size mod (maxunit + 4) ->
  exists q, ctrl_queue_init size maxunit (fun _ => Some buf) = Some (0, q) /\
    dims (Z.to_nat (size / (maxunit + 4))) (Z.to_nat (maxunit + 4)) /\
    qrep (Z.to_nat (size / (maxunit + 4))) (Z.to_nat (maxunit + 4)) q (Some []).
Proof.
  intros Hm Hs Hb. unfold INT_MAX in Hs. unfold ctrl_queue_init, sizeof_queuemsg, u64, i32.
  rewrite (wrapu_small 64) by lia.
  assert (Hw : wraps 32 (maxunit + 4) = maxunit + 4).
  { unfold wraps. rewrite Z.mod_small by lia. rewrite (proj2 (Z.ltb_lt _ _)) by lia. done. }
  rewrite Hw. rewrite (proj2 (Z.eqb_neq _ _)) by lia.
  rewrite Z.rem_mod_nonneg by lia. set (k := maxunit + 4) in *.
  pose proof (Z.mod_pos_bound size k ltac:(lia)). pose proof (Z.div_mod size k ltac:(lia)) as Hdm.
  assert (1 <= size / k) by (apply Z.div_le_lower_bound; lia).
  rewrite int_chk_Some by (unfold INT_MIN, INT_MAX; lia). simpl.
  eexists. split; [done|]. split.
  - unfold dims, INT_MAX. split_and!; lia || nia.
  - exists buf, 0%nat. split; [done|]. split; simpl; try lia.
    + rewrite slot_0 by lia. lia.
    + done.
Qed.

(** The caller's memory beyond the message does not matter. *)
Lemma write_msg_app msg rest q :
  ctrl_queue_write_msg (msg ++ rest) (Z.of_nat (length msg)) q =
  ctrl_queue_write_msg msg (Z.of_nat (length msg)) q.
Proof.
  assert (Hb : forall off buf, bcopy_in (msg ++ rest) (Z.of_nat (length msg)) off buf =
                          bcopy_in msg (Z.of_nat (length msg)) off buf).
  { intros off buf. unfold bcopy_in. rewrite Nat2Z.id, take_app_length, take_ge by lia.
    rewrite (proj2 (Z.ltb_ge _ _)) by (rewrite length_app; lia).
    by rewrite Z.ltb_irrefl. }
  unfold ctrl_queue_write_msg, cbind, cget. split_match; [done|]. split_match; [|done].
  unfold clift. destruct (int_chk _); [|done]. cbv zeta.
  destruct (wr _ _ _ _); [|split_match; done]. by rewrite Hb.
Qed.

(** A queue the server may be running with: set up by [ctrl_queue_init], or not
    set up at all. *)
Definition queue_ok (q : qstate) : Prop :=
  qbuffer q = None \/ exists n u l, dims n u /\ qrep n u q (Some l).

Lemma write_msg_ok q msg :
  queue_ok q -> Z.of_nat (length msg) <= INT_MAX ->
  exists r q', ctrl_queue_write_msg msg (Z.of_nat (length msg)) q = Some (r, q') /\ queue_ok q'.
Proof.
  intros [Hn|(n & u & l & Hd & Hq)] Hm.
  - unfold ctrl_queue_write_msg, cbind, cget. rewrite Hn.
    exists 0, q. split; [by split_match|by left].
  - destruct (write_refines n u Hd q (Some l) msg Hq Hm) as (r & q' & E & _ & R).
    exists r, q'. split; [done|]. right. simpl in R.
    destruct (_ && _); simpl in R; eauto 10.
Qed.

(** ** Properties *)

(** C4. The controller queue is a bounded FIFO.  For every queue the code
    can set up ([maxunit] fits the 16-bit size field, at least one unit fits)
    and every sequence of writes, reads, clears and a free, from the
    initialised queue: no operation leaves the buffer or overflows, and every
    result agrees with a FIFO of [size / (maxunit + 4) - 1] messages: writes
    return 0 exactly when the message is too long, the FIFO is full or the
    buffer was freed; reads deliver the messages in order with their sizes, and
    with their bytes when they have at most two. *)
Theorem ctrl_queue_fifo size maxunit buf os :
  0 <= maxunit <= 65535 -> maxunit + 4 <= size <= INT_MAX ->
  Z.of_nat (length buf) = size - size mod (maxunit + 4) -> Forall op_ok os ->
  exists q rs q', ctrl_queue_init size maxunit (fun _ => Some buf) = Some (0, q) /\
    qrun os q = Some (rs, q') /\
    Forall2 agree rs
      (fst (srun (Z.to_nat (size / (maxunit + 4)) - 1) maxunit os (Some []))).
Proof.
  intros Hm Hs Hb Ho. destruct (ctrl_queue_init_rep size maxunit buf Hm Hs Hb) as (q & E & D & R).
  destruct (qrun_refines _ _ D os q _ R Ho) as (rs & q' & E' & A & _).
  replace (Z.of_nat (Z.to_nat (maxunit + 4)) - 4) with maxunit in A by lia.
  by exists q, rs, q'.
Qed.

Lemma ctrl_queue_fifo_witness :
  exists q rs q', ctrl_queue_init 30 6 (fun _ => Some (repeat 0 30)) = Some (0, q) /\
    qrun [QWrite [1; 2]; QWrite [3]; QWrite [4]; QNext 8; QNext 0] q = Some (rs, q') /\
    Forall2 agree rs
      (fst (srun 2 6 [QWrite [1; 2]; QWrite [3]; QWrite [4]; QNext 8; QNext 0] (Some []))).
Proof.
  apply (ctrl_queue_fifo 30 6 (repeat 0 30)).
  - lia.
  - unfold INT_MAX. lia.
  - reflexivity.
  - rewrite !Forall_cons. unfold op_ok, INT_MAX. simpl. repeat split; lia || constructor.
Defined.

(** Messages longer than two bytes lose their payload.  Whenever a
    message of more than two bytes is accepted, the only bytes of the buffer
    that change are the two bytes of the size field: the payload of the unit is
    whatever it held before, whatever the message was.  (Line 168 copies only
    when [msgsize <= 2], and every control message has at least a two-byte
    length field of its own.) *)
Theorem ctrl_queue_drops_payload q buf msg r q' :
  qbuffer q = Some buf -> (2 < length msg)%nat -> 0 <= qtail q ->
  ctrl_queue_write_msg msg (Z.of_nat (length msg)) q = Some (r, q') -> r <> 0 ->
  r = Z.of_nat (length msg) /\
  exists buf', qbuffer q' = Some buf' /\ length buf' = length buf /\
    forall i, i <> Z.to_nat (qtail q) -> i <> S (Z.to_nat (qtail q)) -> buf' !! i = buf !! i.
Proof.
  intros Hb Hm Ht E Hr. unfold ctrl_queue_write_msg, cbind, cget in E. rewrite Hb in E.
  rewrite (proj2 (Z.leb_gt (Z.of_nat (length msg)) 2)) in E by lia.
  rewrite andb_false_r in E. unfold clift, cput, cret in E.
  repeat split_match_in E; simplify_eq/=; try done; (split; [done|]);
    eexists; (split; [done|]);
    match goal with H : wr _ _ _ _ = Some _ |- _ => rename H into W end;
    (split; [by eapply wr_bytes_length|]); intros i H1 H2;
    (eapply wr_bytes_other; [exact W|]); rewrite length_to_le; lia.
Qed.

Lemma ctrl_queue_drops_payload_witness :
  exists q', ctrl_queue_write_msg [0; 3; 7] 3
      {| qbuffer := Some (repeat 9 24); qhead := 0; qtail := 8; qsize := 24; qunit := 8 |}
    = Some (3, q') /\ 3 = Z.of_nat (length [0; 3; 7]) /\
  exists buf', qbuffer q' = Some buf' /\ length buf' = 24%nat /\
    forall i, i <> 8%nat -> i <> 9%nat -> buf' !! i = repeat 9 24 !! i.
Proof.
  eexists. split; [vm_compute; reflexivity|].
  apply (ctrl_queue_drops_payload
    {| qbuffer := Some (repeat 9 24); qhead := 0; qtail := 8; qsize := 24; qunit := 8 |}
    (repeat 9 24) [0; 3; 7] 3); [reflexivity|simpl; lia|simpl; lia|vm_compute; reflexivity|lia].
Defined.

(** One wake-up of the client thread empties the queue: when no queued
    message is the null message and the sends succeed, it sends every queued
    message in order (sizes always, bytes up to two), leaves the queue empty and
    goes back to waiting, in one pass more than there are messages. *)
Theorem ctrl_client_drains n u send q l :
  dims n u -> qrep n u q (Some l) -> Forall (fun m => (0 < length m)%nat) l ->
  (forall x, 0 <= send x) ->
  exists sent q', ctrl_client_drain send (S (length l)) q = Some ((sent, CWait), q') /\
    qrep n u q' (Some []) /\
    Forall2 (fun s m => length s = length m /\ ((length m <= 2)%nat -> s = m)) sent l.
Proof. intros Hd. by apply (drain_all n u Hd). Qed.

Lemma ctrl_client_drains_witness :
  exists sent q', ctrl_client_drain (fun m => Z.of_nat (length m)) 2
      {| qbuffer := Some (1 :: 0 :: 7 :: repeat 0 13); qhead := 0; qtail := 8; qsize := 16; qunit := 8 |}
      = Some ((sent, CWait), q') /\
    qrep 2 8 q' (Some []) /\
    Forall2 (fun s m => length s = length m /\ ((length m <= 2)%nat -> s = m)) sent [[7]].
Proof.
  apply (ctrl_client_drains 2 8 _ _ [[7]]).
  - unfold dims, INT_MAX. lia.
  - eexists _, 0%nat. split; [reflexivity|]. split; simpl; try lia; try reflexivity.
    intros [|i] m; [|done]. intros [= <-]. split; [simpl; lia|]. split; reflexivity.
  - rewrite Forall_singleton. simpl. lia.
  - lia.
Defined.
