(* ===== verification/CtrlServer.v ===== *)
(** * CtrlServer: the control server thread and the client's handshake

    Models [ctrl_client_init] (the handshake), [ctrl_client_thread],
    [ctrl_server_setreplay] and [ctrl_server_thread] of
    [src/sources/streamer/core/controller.cpp]: the accept and handshake check,
    the TCP reassembly loop with its labels [tcp_readmore] and [tcp_again], the
    UDP branch and the dispatch of each message to the system handlers, the
    replay callback or the queue.  What the sockets deliver is an input. *)

From Stdlib Require Import ZArith Lia.
From stdpp Require Import base list.
From S2P Require Import Prelude Bytes CtrlMsg CtrlQueue.

(** ** Handshake *)

Definition CTRL_MAX_ID_LENGTH : Z := 64.

(** ["GACtrlV01"] *)
Definition CTRL_CURRENT_VERSION : list Z := [71; 65; 67; 116; 114; 108; 86; 48; 49].

(** [strncpy]: at most [n] bytes of the string, padded with NULs. *)
Definition strncpy (n : nat) (s : list Z) : list Z :=
  take n s ++ repeat 0 (n - length s).

(** The bytes [ctrl_client_init] sends for a control id (a string without its
    terminating NUL). *)
Definition ctrl_client_handshake (ctrlid : list Z) : list Z :=
  let length0 := u8 (1 + Z.of_nat (length ctrlid) + 1) in
  let length1 := if 1 + CTRL_MAX_ID_LENGTH <? length0 then 1 + CTRL_MAX_ID_LENGTH else length0 in
  take (Z.to_nat length1) (length1 :: strncpy (Z.to_nat CTRL_MAX_ID_LENGTH) ctrlid).

(** [memcmp(a, b, n) != 0] on two objects; reading past either is undefined. *)
Definition memcmp_ne (n : nat) (a b : list Z) : option bool :=
  if decide (n <= length a /\ n <= length b)%nat
  then Some (negb (bool_decide (take n a = take n b))) else None.

(** The server's check of a received handshake: [buf] is the whole receive
    buffer, [buflen] the number of bytes received.  [length - 1] is converted to
    [size_t], so a zero length compares far more than any object. *)
Definition ctrl_handshake_check (myctrlid buf : list Z) (buflen : Z) : option bool :=
  len ← rd 1 0 buf;
  if buflen <? len then Some false
  else
    ne ← memcmp_ne (Z.to_nat (u64 (len - 1))) (myctrlid ++ [0]) (drop 1 buf);
    Some (negb ne).

(** ** Server state *)

Inductive event :=
  | ESystem (call : option ctrlsys_handler_t) (m : list Z)
  | EReplay (m : list Z)
  | EQueue (m : list Z) (notified : bool).

Record core := {
  co_handlers : handler_list;
  co_replay : Z;
  co_queue : qstate;
  co_log : list event
}.

Record server := {
  sv_buf : list Z; sv_head : Z; sv_len : Z;
  sv_client : option Z;
  sv_core : core
}.

Definition bufSize : Z := 8192.

Definition with_pos (h l : Z) (s : server) : server :=
  {| sv_buf := sv_buf s; sv_head := h; sv_len := l; sv_client := sv_client s; sv_core := sv_core s |}.

Definition with_buf (b : list Z) (s : server) : server :=
  {| sv_buf := b; sv_head := sv_head s; sv_len := sv_len s; sv_client := sv_client s;
     sv_core := sv_core s |}.

Definition log_event (e : event) (c : core) : core :=
  {| co_handlers := co_handlers c; co_replay := co_replay c; co_queue := co_queue c;
     co_log := co_log c ++ [e] |}.

Definition ctrl_server_setreplay (callback : Z) : cmd core Z :=
  c <-- cget ;;
  cput {| co_handlers := co_handlers c; co_replay := callback; co_queue := co_queue c;
          co_log := co_log c |} ;;;
  cret (co_replay c).

(** ** Dispatch and the loops *)

Section server.
(** What a callback leaves in the bytes of the message it is handed. *)
Context (callback : Z -> list Z -> list Z).

Definition set_queue (q : qstate) (c : core) : core :=
  {| co_handlers := co_handlers c; co_replay := co_replay c; co_queue := q; co_log := co_log c |}.

(** Run a callback on the first [n] bytes of [mem]. *)
Definition run_callback (f : Z) (n : nat) (mem : list Z) : option (list Z) :=
  if decide (n <= length mem)%nat then Some (callback f (take n mem) ++ drop n mem) else None.

(** Handle the message of [msglen] bytes at the front of [mem] (the buffer from
    [bufhead] on); the result is that memory afterwards. *)
Definition dispatch (mem : list Z) (msglen : Z) : cmd core (list Z) :=
  c <-- cget ;;
  r <-- clift (ctrlsys_handle_message (co_handlers c) (Some mem) msglen) ;;
  if negb (h_ret r =? 0) then
    cmodify (log_event (ESystem (h_call r) (take (Z.to_nat msglen) (h_mem r)))) ;;;
    match h_call r with
    | Some h => clift (run_callback h (Z.to_nat msglen) (h_mem r))
    | None => cret (h_mem r)
    end
  else if negb (co_replay c =? 0) then
    cmodify (log_event (EReplay (take (Z.to_nat msglen) (h_mem r)))) ;;;
    clift (run_callback (co_replay c) (Z.to_nat msglen) (h_mem r))
  else
    w <-- clift (ctrl_queue_write_msg (h_mem r) msglen (co_queue c)) ;;
    let '(ret, q) := (w : Z * qstate) in
    cmodify (set_queue q) ;;;
    cmodify (log_event (EQueue (take (Z.to_nat msglen) (h_mem r)) (ret =? msglen))) ;;;
    cret (h_mem r).

Definition in_core {A} (m : cmd core A) : cmd server A := fun s =>
  match m (sv_core s) with
  | Some (a, c) =>
      Some (a, {| sv_buf := sv_buf s; sv_head := sv_head s; sv_len := sv_len s;
                  sv_client := sv_client s; sv_core := c |})
  | None => None
  end.

(** Dispatch at [bufhead] and write the memory back. *)
Definition dispatch_at (msglen : Z) : cmd server unit :=
  s <-- cget ;;
  let h := Z.to_nat (sv_head s) in
  mem <-- in_core (dispatch (drop h (sv_buf s)) msglen) ;;
  cmodify (with_buf (take h (sv_buf s) ++ mem)).

(** Where the thread goes next. *)
Inductive label := Restart | LoopTop | ReadMore | OutOfFuel.

(** From [tcp_again] to the next [recv]. *)
Fixpoint tcp_again (fuel : nat) : cmd server label :=
  match fuel with
  | O => cret OutOfFuel
  | S fuel =>
      s <-- cget ;;
      if sv_len s <? 2 then cret ReadMore
      else
        raw <-- clift (rd 2 (Z.to_nat (sv_head s)) (sv_buf s)) ;;
        let msglen := ntohs raw in
        if msglen =? 0 then cret LoopTop
        else if (sv_len s <? msglen) && (sv_len s <? bufSize - sv_head s) then
          buf <-- clift (wr_bytes 0
                    (take (Z.to_nat (sv_len s)) (drop (Z.to_nat (sv_head s)) (sv_buf s)))
                    (sv_buf s)) ;;
          cmodify (with_buf buf) ;;;
          cret ReadMore
        else
          dispatch_at msglen ;;;
          if msglen <? sv_len s then
            cmodify (with_pos (sv_head s + msglen) (sv_len s - msglen)) ;;;
            tcp_again fuel
          else
            cmodify (with_pos (sv_head s) 0) ;;;
            cret LoopTop
  end.

(** One [recv] at [tcp_readmore] (an error or a close is [None] or no bytes),
    then the code up to the next one. *)
Definition tcp_recv (data : option (list Z)) : cmd server label :=
  match data with
  | None | Some [] => cret Restart
  | Some d =>
      s <-- cget ;;
      buf <-- clift (wr_bytes (Z.to_nat (sv_len s)) d (sv_buf s)) ;;
      cmodify (with_buf buf) ;;;
      cmodify (with_pos (sv_head s) (sv_len s + Z.of_nat (length d))) ;;;
      tcp_again (S (Z.to_nat (sv_len s + Z.of_nat (length d))))
  end.

(** The thread on one connection, for a sequence of [recv] results. *)
Fixpoint tcp_session (rs : list (option (list Z))) : cmd server label :=
  match rs with
  | [] => cret ReadMore
  | r :: rs =>
      l <-- tcp_recv r ;;
      match l with
      | LoopTop => (s <-- cget ;; cput (with_pos 0 (sv_len s) s)) ;;; tcp_session rs
      | ReadMore => tcp_session rs
      | Restart | OutOfFuel => cret l
      end
  end.

(** Accepting a TCP client: the handshake is received into the buffer and
    checked; on success the loop starts with [buflen = bufhead = 0]. *)
Definition tcp_accept (myctrlid : list Z) (data : option (list Z)) : cmd server label :=
  match data with
  | None | Some [] => cret Restart
  | Some d =>
      s <-- cget ;;
      buf <-- clift (wr_bytes 0 d (sv_buf s)) ;;
      cput (with_buf buf s) ;;;
      ok <-- clift (ctrl_handshake_check myctrlid buf (Z.of_nat (length d))) ;;
      if ok : bool then cmodify (with_pos 0 0) ;;; cret LoopTop else cret Restart
  end.

(** One turn of the loop in UDP mode: [data] is the datagram ([None] when
    [recvfrom] fails), [from] its sender. *)
Definition udp_turn (data : option (list Z)) (from : Z) : cmd server unit :=
  s <-- cget ;;
  buf <-- clift (match data with Some d => wr_bytes 0 d (sv_buf s) | None => Some (sv_buf s) end) ;;
  let buflen := match data with Some d => Z.of_nat (length d) | None => -1 end in
  cput {| sv_buf := buf; sv_head := 0; sv_len := buflen; sv_client := Some from;
          sv_core := sv_core s |} ;;;
  if buflen <? 2 then cret tt
  else
    raw <-- clift (rd 2 0 buf) ;;
    let msglen := ntohs raw in
    if msglen =? 0 then cret tt
    else if negb (buflen =? msglen) then cret tt
    else
      dispatch_at msglen ;;;
      cmodify (with_pos 0 0).

End server.

(** ** Dispatch of a framed message *)

(** A message as it should arrive: bytes, at least the length field, and the
    length field in network order. *)
Definition framed (m : list Z) : Prop :=
  (2 <= length m)%nat /\ Z.of_nat (length m) < 65536 /\ Forall is_byte m /\
  rd 2 off_msgsize m = Some (htons (Z.of_nat (length m))).

(** A core the server can be running with. *)
Definition core_ok (c : core) : Prop := length (co_handlers c) = 3%nat /\ queue_ok (co_queue c).

(** A system message: a whole header, with the system type. *)
Definition is_system (m : list Z) : Prop :=
  (4 <= length m)%nat /\ m !! 2%nat = Some CTRL_MSGTYPE_SYSTEM.

(** The event that reports the delivery of [m]: a system message for the system
    handlers, any other message, whole and unchanged, for the callback or the
    queue. *)
Definition delivers (e : event) (m : list Z) : Prop :=
  match e with
  | ESystem _ m' => is_system m /\ length m' = length m
  | EReplay m' | EQueue m' _ => ~ is_system m /\ m' = m
  end.

Section proofs.
Context (callback : Z -> list Z -> list Z).
(** Callbacks write only inside the message they are handed. *)
Context (callback_in_place : forall f m, length (callback f m) = length m).

Lemma run_callback_app f n m rest :
  n = length m -> run_callback callback f n (m ++ rest) = Some (callback f m ++ rest).
Proof.
  intros ->. unfold run_callback. rewrite decide_True by (rewrite length_app; lia).
  by rewrite take_app_length, drop_app_length.
Qed.

(** A system message is converted in place and handed to its handler, if any. *)
Lemma dispatch_system m c r :
  ctrlsys_handle_message (co_handlers c) (Some m) (Z.of_nat (length m)) = Some r ->
  length (h_mem r) = length m -> h_ret r <> 0 ->
  forall rest, dispatch callback (m ++ rest) (Z.of_nat (length m)) c =
    Some (match h_call r with Some h => callback h (h_mem r) | None => h_mem r end ++ rest,
          log_event (ESystem (h_call r) (h_mem r)) c).
Proof.
  intros E L Hr rest. unfold dispatch, cbind, cget, clift, cmodify.
  rewrite (handle_message_app _ _ _ _ rest E). cbn [h_ret h_mem h_call].
  rewrite (proj2 (Z.eqb_neq _ _) Hr). cbn [negb]. rewrite Nat2Z.id, <- L, take_app_length.
  destruct (h_call r) as [h|]; [|done]. by rewrite run_callback_app.
Qed.

(** Any other message goes to the replay callback or to the queue. *)
Lemma dispatch_other m c r rest :
  ctrlsys_handle_message (co_handlers c) (Some m) (Z.of_nat (length m)) = Some r ->
  h_ret r = 0 ->
  dispatch callback (m ++ rest) (Z.of_nat (length m)) c =
    if negb (co_replay c =? 0)
    then Some (callback (co_replay c) m ++ rest, log_event (EReplay m) c)
    else '(ret, q) ← ctrl_queue_write_msg m (Z.of_nat (length m)) (co_queue c);
         Some (m ++ rest, log_event (EQueue m (ret =? Z.of_nat (length m))) (set_queue q c)).
Proof.
  intros E Hr. destruct (handle_message_ret0 _ _ _ _ E Hr) as [Em _].
  unfold dispatch, cbind, cget, clift, cmodify.
  rewrite (handle_message_app _ _ _ _ rest E). cbn [h_ret h_mem h_call]. rewrite Hr, Em.
  cbn [Z.eqb negb]. rewrite Nat2Z.id, take_app_length.
  destruct (negb _); [by rewrite run_callback_app|]. rewrite write_msg_app.
  by destruct (ctrl_queue_write_msg _ _ _) as [[ret q]|].
Qed.

Lemma dispatch_framed m c :
  framed m -> core_ok c ->
  exists m' c' e,
    (forall rest, dispatch callback (m ++ rest) (Z.of_nat (length m)) c = Some (m' ++ rest, c')) /\
    length m' = length m /\ core_ok c' /\ co_log c' = co_log c ++ [e] /\ delivers e m.
Proof.
  intros (F1 & F2 & F3 & F4) [Hh Hq].
  destruct (handle_message_spec _ m Hh F3 F2 ltac:(done)) as (r & E & L & R0 & _).
  destruct (decide (h_ret r = 0)) as [Er|Er].
  - assert (~ is_system m) as Hs by (intros [? ?]; apply R0 in Er as [?|?]; [lia|done]).
    destruct (co_replay c =? 0) eqn:Ec.
    + destruct (write_msg_ok (co_queue c) m Hq) as (ret & q & Eq & Hq');
        [unfold INT_MAX; lia|].
      exists m, (log_event (EQueue m (ret =? Z.of_nat (length m))) (set_queue q c)),
        (EQueue m (ret =? Z.of_nat (length m))).
      split; [|done]. intros rest. rewrite (dispatch_other m c r rest E Er), Ec, Eq. done.
    + exists (callback (co_replay c) m), (log_event (EReplay m) c), (EReplay m).
      split; [|by rewrite callback_in_place].
      intros rest. rewrite (dispatch_other m c r rest E Er), Ec. done.
  - eexists _, (log_event (ESystem (h_call r) (h_mem r)) c), (ESystem (h_call r) (h_mem r)).
    split; [by apply (dispatch_system m c r)|].
    split; [by destruct (h_call r); rewrite ?callback_in_place|]. split; [done|]. split; [done|].
    split; [|done]. split.
    + destruct (decide (4 <= length m)%nat); [done|]. destruct Er. apply R0. lia.
    + destruct (decide (m !! 2%nat = Some CTRL_MSGTYPE_SYSTEM)); [done|]. destruct Er.
      apply R0. by right.
Qed.

(** The messages [ms], one after the other. *)
Fixpoint deliver (ms : list (list Z)) : cmd core unit :=
  match ms with
  | [] => cret tt
  | m :: ms => dispatch callback m (Z.of_nat (length m)) ;;; deliver ms
  end.

(** The buffer after [pre] holds [m], then [data] not yet handled, then [tl]. *)
Record at_msg (s : server) (pre m data tl : list Z) : Prop := {
  am_buf : sv_buf s = pre ++ m ++ data ++ tl;
  am_head : sv_head s = Z.of_nat (length pre);
  am_len : sv_len s = Z.of_nat (length m + length data)
}.

Definition set_core (c : core) (s : server) : server :=
  {| sv_buf := sv_buf s; sv_head := sv_head s; sv_len := sv_len s; sv_client := sv_client s;
     sv_core := c |}.

(** One framed message at the head: it is dispatched and the loop goes on with
    the bytes after it, or back to [recv] when there are none. *)
Lemma tcp_again_framed fuel s pre m data tl m' c' :
  at_msg s pre m data tl -> framed m ->
  (forall rest, dispatch callback (m ++ rest) (Z.of_nat (length m)) (sv_core s) = Some (m' ++ rest, c')) ->
  let s' := set_core c' (with_buf (pre ++ m' ++ data ++ tl) s) in
  tcp_again callback (S fuel) s =
    match data with
    | [] => Some (LoopTop, with_pos (sv_head s) 0 s')
    | _ => tcp_again callback fuel
             (with_pos (Z.of_nat (length pre + length m)) (Z.of_nat (length data)) s')
    end.
Proof.
  intros [Hb Hh Hl] (F1 & F2 & F3 & F4) E s'. cbn [tcp_again].
  rewrite (cbind_Some cget _ s s s) by done. cbv beta.
  rewrite (proj2 (Z.ltb_ge (sv_len s) 2)) by lia.
  assert (R : rd 2 (Z.to_nat (sv_head s)) (sv_buf s) = Some (htons (Z.of_nat (length m)))).
  { rewrite Hh, Hb, Nat2Z.id, <- F4. unfold rd. rewrite !length_app.
    rewrite !decide_True by (unfold off_msgsize; lia). do 2 f_equal.
    rewrite drop_app_length. unfold off_msgsize. rewrite drop_0, take_app_le by lia. done. }
  rewrite R. rewrite (cbind_Some (clift _) _ s (htons (Z.of_nat (length m))) s) by done.
  cbv beta zeta. rewrite ntohs_htons by lia.
  rewrite (proj2 (Z.eqb_neq (Z.of_nat (length m)) 0)) by lia.
  rewrite (proj2 (Z.ltb_ge (sv_len s) (Z.of_nat (length m)))) by lia. cbn [andb].
  rewrite (cbind_Some (dispatch_at callback (Z.of_nat (length m))) _ s tt s').
  2:{ unfold dispatch_at, cbind, cget, in_core, cmodify.
      rewrite Hh, Hb, Nat2Z.id, drop_app_length, take_app_length, E.
      unfold s', with_buf, set_core. simpl. by rewrite Hh. }
  unfold cbind, cmodify, cret. rewrite Hl, Hh. destruct data as [|d data]; cbn [length].
  - rewrite Nat.add_0_r, Z.ltb_irrefl. done.
  - rewrite (proj2 (Z.ltb_lt _ _)) by lia. f_equal. unfold with_pos. f_equal; lia.
Qed.

(** A batch of framed messages at the head is delivered in order, and nothing
    is left. *)
Lemma tcp_again_batch ms : forall fuel s pre m tl,
  at_msg s pre m (concat ms) tl -> Forall framed (m :: ms) -> core_ok (sv_core s) ->
  (length ms < fuel)%nat ->
  exists s' es, tcp_again callback fuel s = Some (LoopTop, s') /\ sv_len s' = 0 /\
    length (sv_buf s') = length (sv_buf s) /\ core_ok (sv_core s') /\
    co_log (sv_core s') = co_log (sv_core s) ++ es /\ Forall2 delivers es (m :: ms).
Proof.
  induction ms as [|m2 ms IH]; intros fuel s pre m tl Hs Hf Hc Hl;
    (destruct fuel as [|fuel]; [simpl in Hl; lia|]); apply Forall_cons in Hf as [Hm Hf];
    destruct (dispatch_framed m (sv_core s) Hm Hc) as (m' & c' & e & E & L & Hc' & Hlog & He);
    rewrite (tcp_again_framed fuel s pre m _ tl m' c' Hs Hm E); pose proof Hs as [Hb _ _].
  - simpl. do 2 eexists. split; [done|]. split; [done|]. simpl. split.
    { rewrite Hb, !length_app. simpl. lia. }
    split; [done|]. split; [exact Hlog|]. by repeat constructor.
  - set (s1 := with_pos (Z.of_nat (length pre + length m)) _ _).
    assert (Hs1 : at_msg s1 (pre ++ m') m2 (concat ms) tl).
    { unfold s1. split; simpl; rewrite ?length_app; [by rewrite <- !app_assoc|lia|lia]. }
    assert (Hbl : length (sv_buf s1) = length (sv_buf s)).
    { unfold s1. simpl. rewrite Hb. simpl. rewrite !length_app. lia. }
    destruct (IH fuel s1 _ _ _ Hs1 Hf Hc') as (s' & es & E' & H1 & H2 & H3 & H4 & H5);
      [simpl in Hl; lia|].
    destruct (concat (m2 :: ms)) as [|x l] eqn:Ex.
    { apply Forall_cons in Hf as [(F1 & _) _]. apply (f_equal length) in Ex. simpl in Ex.
      rewrite length_app in Ex. lia. }
    exists s', (e :: es). split; [exact E'|]. split; [done|]. split.
    { by rewrite H2. }
    split; [done|]. split; [|by constructor].
    rewrite H4. simpl. rewrite Hlog, <- app_assoc. done.
Qed.

(** Between two [recv] calls, with the bytes [p] of a message received. *)
Definition idle (p : list Z) (s : server) : Prop :=
  sv_head s = 0 /\ sv_len s = Z.of_nat (length p) /\ Z.of_nat (length (sv_buf s)) = bufSize /\
  (exists tl, sv_buf s = p ++ tl) /\ core_ok (sv_core s).

(** What [recv] does to the buffer. *)
Lemma tcp_recv_append p s d :
  idle p s -> d <> [] -> Z.of_nat (length p + length d) <= bufSize ->
  exists tl, let s1 := with_pos 0 (Z.of_nat (length (p ++ d))) (with_buf ((p ++ d) ++ tl) s) in
    tcp_recv callback (Some d) s = tcp_again callback (S (length (p ++ d))) s1 /\
    length (sv_buf s1) = length (sv_buf s).
Proof.
  intros (Hh & Hl & Hb & [tl Ht] & _) Hd Hn. exists (drop (length d) tl). cbv zeta.
  unfold tcp_recv. destruct d as [|b d]; [done|]. set (d' := b :: d) in *. clearbody d'.
  unfold cbind, cget, clift, cmodify. rewrite Hl, Ht, Nat2Z.id.
  rewrite Ht, length_app in Hb.
  rewrite wr_bytes_Some by (rewrite length_app; lia).
  rewrite take_app_length. replace (drop (length p + length d') (p ++ tl)) with (drop (length d') tl).
  2:{ rewrite drop_app_ge by lia. f_equal. lia. }
  rewrite <- Nat2Z.inj_add, Nat2Z.id. split.
  - rewrite length_app, app_assoc. unfold with_pos, with_buf. simpl. by rewrite Hh.
  - simpl. rewrite !length_app, length_drop. lia.
Qed.

(** An incomplete message: back to [recv], keeping the bytes. *)
Lemma tcp_recv_partial m p d q s :
  idle p s -> framed m -> m = (p ++ d) ++ q -> d <> [] -> q <> [] ->
  Z.of_nat (length m) <= bufSize ->
  exists s', tcp_recv callback (Some d) s = Some (ReadMore, s') /\ idle (p ++ d) s' /\
    sv_core s' = sv_core s.
Proof.
  intros Hi (F1 & F2 & F3 & F4) -> Hd Hq Hm. rewrite !length_app in Hm.
  destruct (tcp_recv_append p s d Hi Hd ltac:(lia)) as (tl & -> & Hbl).
  set (s1 := with_pos _ _ _) in *. destruct Hi as (Hh & Hl & Hb & _ & Hc).
  assert (I1 : idle (p ++ d) s1) by (unfold idle; split_and!; [done|done|simpl in *; lia|by eexists|done]).
  exists s1. split; [|done]. cbn [tcp_again]. rewrite (cbind_Some cget _ s1 s1 s1) by done. cbv beta.
  destruct (sv_len s1 <? 2) eqn:E2; [done|]. simpl in E2. bool_to_prop.
  assert (R : rd 2 (Z.to_nat (sv_head s1)) (sv_buf s1) =
              Some (htons (Z.of_nat (length ((p ++ d) ++ q))))).
  { rewrite <- F4. simpl. unfold rd, off_msgsize. rewrite !length_app in *.
    rewrite !decide_True by lia. do 2 f_equal.
    rewrite !drop_0, (take_app_le (p ++ d) tl), (take_app_le (p ++ d) q) by (rewrite ?length_app; lia).
    done. }
  rewrite R. rewrite (cbind_Some (clift _) _ s1 (htons (Z.of_nat (length ((p ++ d) ++ q)))) s1) by done.
  cbv beta zeta. rewrite ntohs_htons by (rewrite length_app in *; lia).
  rewrite (proj2 (Z.eqb_neq _ _)) by (rewrite !length_app in *; lia).
  assert (0 < length q)%nat by (destruct q; [done|simpl; lia]).
  rewrite (proj2 (Z.ltb_lt _ _)) by (simpl; rewrite !length_app; lia).
  rewrite (proj2 (Z.ltb_lt _ _)) by (simpl; rewrite !length_app; lia). cbn [andb].
  simpl sv_len. simpl sv_head. simpl sv_buf. rewrite Nat2Z.id, drop_0, take_app_length.
  unfold cbind, clift. rewrite wr_bytes_Some by (rewrite !length_app; lia).
  simpl. rewrite drop_app_length. done.
Qed.

(** The bytes that complete a message, or a whole batch. *)
Lemma tcp_recv_complete p d m ms s :
  idle p s -> Forall framed (m :: ms) -> p ++ d = m ++ concat ms -> d <> [] ->
  Z.of_nat (length (p ++ d)) <= bufSize ->
  exists s' es, tcp_recv callback (Some d) s = Some (LoopTop, s') /\
    idle [] (with_pos 0 (sv_len s') s') /\
    co_log (sv_core s') = co_log (sv_core s) ++ es /\ Forall2 delivers es (m :: ms).
Proof.
  intros Hi Hf Hpd Hd Hn. rewrite length_app in Hn.
  destruct (tcp_recv_append p s d Hi Hd Hn) as (tl & -> & Hbl).
  set (s1 := with_pos _ _ _) in *. destruct Hi as (Hh & Hl & Hb & _ & Hc).
  assert (Hs1 : at_msg s1 [] m (concat ms) tl).
  { split; simpl; [by rewrite Hpd, <- app_assoc|done|by rewrite Hpd, length_app]. }
  destruct (tcp_again_batch ms (S (length (p ++ d))) s1 [] m tl Hs1 Hf Hc) as (s' & es & E & H1 & H2 & H3 & H4 & H5).
  { rewrite Hpd, length_app. apply Forall_cons in Hf as [_ Hf]. clear -Hf.
    induction Hf as [|x l (F & _) _ IH]; simpl; [lia|]. rewrite length_app. lia. }
  exists s', es. split; [done|]. split; [|done]. unfold idle.
  split_and!; [done|by rewrite H1|simpl; simpl in *; lia|by eexists|done].
Qed.

(** A message arriving in pieces. *)
Lemma tcp_session_pieces ps : forall m p s rs,
  idle p s -> framed m -> p ++ concat ps = m -> ps <> [] -> Forall (fun d => d <> []) ps ->
  Z.of_nat (length m) <= bufSize ->
  exists s' e, tcp_session callback (map Some ps ++ rs) s = tcp_session callback rs s' /\
    idle [] s' /\ co_log (sv_core s') = co_log (sv_core s) ++ [e] /\ delivers e m.
Proof.
  induction ps as [|d ps IH]; intros m p s rs Hi Hm Hp Hne Hps Hn; [done|].
  apply Forall_cons in Hps as [Hd Hps]. destruct ps as [|d2 ps].
  - cbn [concat] in Hp. rewrite (right_id_L [] (++) d) in Hp.
    destruct (tcp_recv_complete p d m [] s Hi) as (s' & es & E & I' & Hlog & Hes);
      [by constructor|by rewrite Hp; cbn [concat]; rewrite (right_id_L [] (++) m)|done|by rewrite Hp|].
    apply Forall2_cons_inv_r in Hes as (e & es' & He & Hnil & ->).
    apply Forall2_nil_inv_r in Hnil as ->.
    exists (with_pos 0 (sv_len s') s'), e. split; [|done].
    cbn [map app tcp_session]. unfold cbind at 1. rewrite E. done.
  - destruct (tcp_recv_partial m p d (concat (d2 :: ps)) s Hi Hm) as (s1 & E & I1 & Hc1);
      [by rewrite <- app_assoc|done| |done|].
    { apply Forall_cons in Hps as [Hd2 _]. simpl. destruct d2; done. }
    destruct (IH m (p ++ d) s1 rs I1 Hm) as (s' & e & E' & I' & Hlog & He);
      [by rewrite <- app_assoc|done|done|done|].
    exists s', e. rewrite Hc1 in Hlog. split; [|done].
    rewrite <- E'. simpl map. cbn [app tcp_session]. unfold cbind at 1. rewrite E. done.
Qed.
End proofs.

(** The streams the reassembly handles: each message arrives either in pieces
    of its own, or complete in one [recv] together with other complete
    messages. *)
Inductive good_stream : list (list Z) -> list (list Z) -> Prop :=
  | gs_nil : good_stream [] []
  | gs_batch m ms rs ms' :
      Forall framed (m :: ms) -> Z.of_nat (length (concat (m :: ms))) <= bufSize ->
      good_stream rs ms' -> good_stream (concat (m :: ms) :: rs) ((m :: ms) ++ ms')
  | gs_pieces m ps rs ms' :
      framed m -> concat ps = m -> Forall (fun d => d <> []) ps ->
      Z.of_nat (length m) <= bufSize ->
      good_stream rs ms' -> good_stream (ps ++ rs) (m :: ms').

(** The state in which the loop is entered after the handshake. *)
Definition fresh (s : server) : Prop :=
  sv_head s = 0 /\ sv_len s = 0 /\ Z.of_nat (length (sv_buf s)) = bufSize /\ core_ok (sv_core s).

(** ** Properties *)

(** C9. Control messages over TCP: for every stream in which each message
    arrives in pieces of its own or complete together with other complete
    messages, the server thread dispatches every message exactly once, in
    order, with its own bytes (system messages to the system handlers, others
    to the replay callback or the queue), without leaving its buffer, and is
    back waiting for input with nothing left over. *)
Theorem tcp_session_delivers callback
  (callback_in_place : forall f m, length (callback f m) = length m) rs ms s :
  good_stream rs ms -> fresh s ->
  exists s' es, tcp_session callback (map Some rs) s = Some (ReadMore, s') /\ fresh s' /\
    co_log (sv_core s') = co_log (sv_core s) ++ es /\ Forall2 delivers es ms.
Proof.
  intros Hg. revert s. induction Hg as [|m ms rs ms' Hf Hn Hg IH|m ps rs ms' Hm Hp Hps Hn Hg IH];
    intros s (H1 & H2 & H3 & H4);
    assert (I : idle [] s) by (unfold idle; split_and!; [done|done|done|by eexists|done]).
  - exists s, []. rewrite (right_id_L [] (++)). done.
  - destruct (tcp_recv_complete _ callback_in_place [] (concat (m :: ms)) m ms s I Hf)
      as (s1 & es & E & (I1 & I2 & I3 & _ & I4) & Hlog & Hes); [done| |done|].
    { apply Forall_cons in Hf as [(F & _) _]. intros Ex. apply (f_equal length) in Ex.
      simpl in Ex. rewrite length_app in Ex. lia. }
    destruct (IH (with_pos 0 (sv_len s1) s1)) as (s' & es' & E' & F' & Hlog' & Hes'); [done|].
    exists s', (es ++ es'). cbn [map tcp_session]. unfold cbind at 1. rewrite E.
    split; [exact E'|]. split; [done|]. split; [|by apply Forall2_app].
    rewrite Hlog'. simpl. by rewrite Hlog, app_assoc.
  - destruct (tcp_session_pieces _ callback_in_place ps m [] s (map Some rs) I Hm)
      as (s1 & e & E & (I1 & I2 & I3 & _ & I4) & Hlog & He); [done| |done|done|].
    { intros ->. destruct Hm as (F & _). subst m. simpl in F. lia. }
    destruct (IH s1) as (s' & es' & E' & F' & Hlog' & Hes'); [done|].
    exists s', (e :: es'). rewrite map_app, E. split; [exact E'|]. split; [done|].
    split; [|by constructor]. rewrite Hlog', Hlog, <- app_assoc. done.
Qed.

Definition core0 : core :=
  {| co_handlers := ctrlsys_handler_list0; co_replay := 1; co_log := [];
     co_queue := {| qbuffer := None; qhead := 0; qtail := 0; qsize := 0; qunit := 0 |} |}.

Definition server0 : server :=
  {| sv_buf := repeat 0 (Z.to_nat bufSize); sv_head := 0; sv_len := 0; sv_client := None;
     sv_core := core0 |}.

Lemma tcp_session_delivers_witness :
  exists s' es,
    tcp_session (fun _ m => rev m) (map Some [[0; 4; 1; 9; 0; 3; 2]; [0]; [5; 7; 8; 9]]) server0
      = Some (ReadMore, s') /\ fresh s' /\
    co_log (sv_core s') = co_log (sv_core server0) ++ es /\
    Forall2 delivers es [[0; 4; 1; 9]; [0; 3; 2]; [0; 5; 7; 8; 9]].
Proof.
  apply (tcp_session_delivers (fun _ m => rev m)).
  - intros f m. apply length_rev.
  - apply (gs_batch [0; 4; 1; 9] [[0; 3; 2]] [[0]; [5; 7; 8; 9]] [[0; 5; 7; 8; 9]]).
    + rewrite !Forall_cons. unfold framed. rewrite !Forall_cons. unfold is_byte.
      repeat split; try constructor; simpl; lia || reflexivity.
    + unfold bufSize. simpl. lia.
    + apply (gs_pieces [0; 5; 7; 8; 9] [[0]; [5; 7; 8; 9]] [] []); [|done| | |constructor].
      * unfold framed. rewrite !Forall_cons. unfold is_byte.
        repeat split; try constructor; simpl; lia || reflexivity.
      * by repeat constructor.
      * unfold bufSize. simpl. lia.
  - unfold fresh. split_and!; [done|done|reflexivity|]. split; [done|by left].
Defined.

(** The inner loop always comes back to a [recv]: whatever bytes the
    peer sent and whatever the state, handling one [recv] never runs out of the
    model's fuel ([buflen + 1] rounds), because every round consumes a message
    of at least one byte. *)
Theorem tcp_recv_terminates callback data s :
  0 <= sv_len s -> option_map fst (tcp_recv callback data s) <> Some OutOfFuel.
Proof.
  intros Hs Ho. assert (exists s', tcp_recv callback data s = Some (OutOfFuel, s')) as [s' Es'].
  { destruct (tcp_recv callback data s) as [[l s']|]; simpl in Ho; [injection Ho as ->; eauto|done]. }
  clear Ho. revert Es'. assert (H : forall fuel s, sv_len s < Z.of_nat fuel -> 0 <= sv_len s ->
    tcp_again callback fuel s <> Some (OutOfFuel, s')).
  { clear. induction fuel as [|fuel IH]; intros s Hf Hs; [lia|]. cbn [tcp_again].
    intros (s1 & s2 & E1 & E)%cbind_inv. injection E1 as <- <-.
    destruct (sv_len s <? 2) eqn:E2; [done|]. bool_to_prop.
    apply cbind_inv in E as (raw & s3 & E3 & E).
    pose proof (bswap_range 2 raw) as Hr. fold (ntohs raw) in Hr.
    destruct (ntohs raw =? 0) eqn:E0; [done|]. bool_to_prop.
    destruct (_ && _).
    { apply cbind_inv in E as (? & ? & _ & E). apply cbind_inv in E as (? & ? & _ & E). done. }
    apply cbind_inv in E as (? & s4 & _ & E).
    destruct (ntohs raw <? sv_len s) eqn:El; bool_to_prop.
    - apply cbind_inv in E as (? & s5 & E5 & E). injection E5 as _ <-. revert E.
      apply IH; simpl; lia.
    - apply cbind_inv in E as (? & ? & _ & E). done. }
  unfold tcp_recv. destruct data as [[|b d]|]; [done| |done].
  intros (s1 & s2 & E1 & E)%cbind_inv. injection E1 as <- <-.
  apply cbind_inv in E as (? & ? & E1 & E).
  apply cbind_inv in E as (? & ? & E2 & E).
  apply cbind_inv in E as (? & ? & E3 & E). injection E3 as _ <-.
  revert E. apply H; simpl; lia.
Qed.

Lemma tcp_recv_terminates_witness :
  0 <= sv_len server0 /\
  option_map fst (tcp_recv (fun _ m => m) (Some [0; 2; 0; 0; 0]) server0) <> Some OutOfFuel.
Proof. split; [simpl; lia|]. apply tcp_recv_terminates. simpl. lia. Defined.

(** A message whose first bytes arrive behind another message is
    corrupted.  Two messages [00 04 01 01] and [00 04 02 02] arrive as seven
    bytes and one byte: the partial message is moved to the front of the buffer
    but [bufhead] is not reset, so after the last byte arrives the loop reads
    the stale bytes at the old position and dispatches [00 04 02 00] instead. *)
Theorem tcp_session_stale_head :
  exists s', tcp_session (fun _ m => m) [Some [0; 4; 1; 1; 0; 4; 2]; Some [2]] server0
      = Some (ReadMore, s') /\
    co_log (sv_core s') = [EReplay [0; 4; 1; 1]; EReplay [0; 4; 2; 0]].
Proof. eexists. split; vm_compute; reflexivity. Qed.

Lemma framed_iff d raw :
  (2 <= length d)%nat -> Z.of_nat (length d) < 65536 -> Forall is_byte d ->
  rd 2 0 d = Some raw -> ntohs raw = Z.of_nat (length d) <-> framed d.
Proof.
  intros H2 Hl Hb Hr. pose proof (rd_range _ _ _ _ Hb Hr) as Rr. split.
  - intros E. split; [done|]. split; [done|]. split; [done|]. unfold off_msgsize.
    rewrite Hr, <- E. f_equal. symmetry. by apply (bswap_involutive 2).
  - intros (_ & _ & _ & F). unfold off_msgsize in F. rewrite Hr in F.
    injection F as ->. apply ntohs_htons. lia.
Qed.

(** Control messages over UDP are safe against any datagram: for every
    byte string a datagram can hold, and also when [recvfrom] fails, the turn is
    defined (no access outside the buffer or the handler table), a datagram is
    dispatched exactly when its length field is its size, and then once, whole
    and unchanged; anything else is dropped without a trace. *)
Theorem udp_turn_safe callback
  (callback_in_place : forall f m, length (callback f m) = length m) data from s :
  Z.of_nat (length (sv_buf s)) = bufSize -> core_ok (sv_core s) ->
  (forall d, data = Some d -> Forall is_byte d /\ Z.of_nat (length d) <= bufSize) ->
  exists s', udp_turn callback data from s = Some (tt, s') /\
    length (sv_buf s') = length (sv_buf s) /\ core_ok (sv_core s') /\
    sv_client s' = Some from /\
    ((exists d e, data = Some d /\ framed d /\ delivers e d /\
        co_log (sv_core s') = co_log (sv_core s) ++ [e]) \/
     ((forall d, data = Some d -> ~ framed d) /\ sv_core s' = sv_core s)).
Proof.
  intros Hb Hc Hd. unfold udp_turn, cbind at 1, cget. destruct data as [d|].
  2:{ eexists. split; [done|]. split_and!; [done|done|done|]. by right. }
  destruct (Hd d eq_refl) as [Hby Hn]. clear Hd. unfold bufSize in *.
  unfold cbind at 1, clift at 1. rewrite wr_bytes_Some by lia. rewrite take_0, Nat.add_0_l.
  set (tl := drop (length d) (sv_buf s)). change ([] ++ d ++ tl) with (d ++ tl). cbv zeta.
  set (s1 := {| sv_buf := d ++ tl; sv_head := 0; sv_len := Z.of_nat (length d);
                sv_client := Some from; sv_core := sv_core s |}).
  assert (L1 : length (d ++ tl) = length (sv_buf s)).
  { rewrite length_app. unfold tl. rewrite length_drop. lia. }
  rewrite (cbind_Some (cput s1) _ s tt s1) by done.
  assert (Hno : ~ framed d -> exists s', Some (tt, s1) = Some (tt, s') /\
    length (sv_buf s') = length (sv_buf s) /\ core_ok (sv_core s') /\
    sv_client s' = Some from /\
    ((exists d0 e, Some d = Some d0 /\ framed d0 /\ delivers e d0 /\
        co_log (sv_core s') = co_log (sv_core s) ++ [e]) \/
     ((forall d0, Some d = Some d0 -> ~ framed d0) /\ sv_core s' = sv_core s))).
  { intros Hf. exists s1. split_and!; [done|done|done|done|]. right. by split; [intros ? [= <-]|]. }
  destruct (_ <? 2) eqn:E2; bool_to_prop; [apply Hno; intros [? _]; lia|].
  destruct (rd_defined 2 0 d ltac:(lia)) as [raw Hr].
  pose proof (framed_iff d raw ltac:(lia) ltac:(lia) Hby Hr) as Hf.
  rewrite (rd_app _ _ _ _ tl Hr). rewrite (cbind_Some (clift _) _ s1 raw s1) by done.
  destruct (ntohs raw =? 0) eqn:E0; bool_to_prop; [apply Hno; rewrite <- Hf; lia|].
  destruct (negb _) eqn:En; bool_to_prop; [apply Hno; rewrite <- Hf; lia|].
  rewrite <- En. assert (F : framed d) by (apply Hf; lia).
  destruct (dispatch_framed callback callback_in_place d (sv_core s) F Hc)
    as (m' & c' & e & E & L & Hc' & Hlog & He).
  eexists. split.
  { unfold dispatch_at, cbind, cget, in_core, cmodify. simpl. rewrite drop_0, E. reflexivity. }
  simpl. split; [rewrite <- L1, !length_app; lia|]. split; [done|]. split; [done|].
  left. by exists d, e.
Qed.

Lemma udp_turn_safe_witness :
  exists s', udp_turn (fun _ m => m) (Some [0; 4; 1; 1]) 7 server0 = Some (tt, s') /\
    length (sv_buf s') = length (sv_buf server0) /\ core_ok (sv_core s') /\
    sv_client s' = Some 7 /\
    ((exists d e, Some [0; 4; 1; 1] = Some d /\ framed d /\ delivers e d /\
        co_log (sv_core s') = co_log (sv_core server0) ++ [e]) \/
     ((forall d, Some [0; 4; 1; 1] = Some d -> ~ framed d) /\ sv_core s' = sv_core server0)).
Proof.
  apply (udp_turn_safe (fun _ m => m)).
  - done.
  - reflexivity.
  - split; [done|by left].
  - intros d [= <-]. rewrite !Forall_cons. unfold is_byte, bufSize.
    repeat split; try constructor; simpl; lia.
Defined.

(** The handshake tells control ids apart.  For C strings [id]
    (the server's) and [id'] (the client's, at most 63 characters and no longer
    than the server's), what the client sends is accepted by the server exactly
    when the ids are equal. *)
Theorem handshake_accepts_iff id id' rest :
  Forall (fun b => b <> 0) id -> Forall (fun b => b <> 0) id' ->
  (length id' <= 63)%nat -> (length id' <= length id)%nat ->
  ctrl_handshake_check id (ctrl_client_handshake id' ++ rest)
    (Z.of_nat (length (ctrl_client_handshake id'))) = Some (bool_decide (id' = id)).
Proof.
  intros Hid Hid' H63 Hle. unfold ctrl_client_handshake, CTRL_MAX_ID_LENGTH, u8.
  rewrite wrapu_small by lia. rewrite (proj2 (Z.ltb_ge _ _)) by lia.
  replace (Z.to_nat (1 + Z.of_nat (length id') + 1)) with (S (length id' + 1)) by lia.
  assert (Ht : take (length id' + 1) (strncpy (Z.to_nat 64) id') = id' ++ [0]).
  { unfold strncpy. rewrite (take_ge id') by lia. rewrite take_app_add.
    destruct (Z.to_nat 64 - length id')%nat eqn:E; [lia|done]. }
  cbn [take]. rewrite Ht. unfold ctrl_handshake_check. rewrite rd1_lookup.
  cbn [app lookup list_lookup mbind option_bind length]. rewrite length_app. cbn [length].
  rewrite (proj2 (Z.ltb_ge _ _)) by lia. unfold u64. rewrite wrapu_small by lia.
  replace (Z.to_nat (1 + Z.of_nat (length id') + 1 - 1)) with (length id' + 1)%nat by lia.
  unfold memcmp_ne. rewrite skipn_cons. change (drop 0 ((id' ++ [0]) ++ rest)) with ((id' ++ [0]) ++ rest).
  rewrite decide_True by (rewrite !length_app; simpl; lia). cbn [mbind option_bind].
  rewrite negb_involutive. f_equal.
  rewrite (take_app_le (id' ++ [0]) rest), (take_ge (id' ++ [0])) by (rewrite length_app; simpl; lia).
  apply bool_decide_ext. split; [|by intros ->; rewrite take_ge by (rewrite length_app; simpl; lia)].
  intros E. destruct (decide (length id' = length id)) as [El|Hn].
  - rewrite take_ge in E by (rewrite length_app; simpl; lia). by apply app_inj_tail in E as [-> _].
  - exfalso. rewrite take_app_le in E by lia.
    assert (Hz : id !! length id' = Some 0).
    { rewrite <- (lookup_take_lt id (length id' + 1)) by lia. rewrite E.
      by apply list_lookup_middle. }
    by apply (Forall_lookup_1 _ _ _ _ Hid Hz).
Qed.

Lemma handshake_accepts_iff_witness :
  ctrl_handshake_check CTRL_CURRENT_VERSION
    (ctrl_client_handshake CTRL_CURRENT_VERSION ++ [1; 2])
    (Z.of_nat (length (ctrl_client_handshake CTRL_CURRENT_VERSION))) =
  Some (bool_decide (CTRL_CURRENT_VERSION = CTRL_CURRENT_VERSION)).
Proof.
  apply (handshake_accepts_iff CTRL_CURRENT_VERSION CTRL_CURRENT_VERSION [1; 2]).
  - unfold CTRL_CURRENT_VERSION. rewrite !Forall_cons. repeat split; lia || constructor.
  - unfold CTRL_CURRENT_VERSION. rewrite !Forall_cons. repeat split; lia || constructor.
  - simpl. lia.
  - simpl. lia.
Defined.

(** A one-byte handshake is accepted without any id, and a zero
    length byte makes the server compare [SIZE_MAX] bytes, past every object. *)
Theorem handshake_length_unchecked id rest n :
  ctrl_handshake_check id (1 :: rest) (Z.of_nat (S n)) = Some true /\
  ctrl_handshake_check id (0 :: take (Z.to_nat 8191) rest) (Z.of_nat (S n)) = None.
Proof.
  unfold ctrl_handshake_check. rewrite !rd1_lookup.
  cbn [lookup list_lookup mbind option_bind]. rewrite !skipn_cons, !skipn_O.
  rewrite !(proj2 (Z.ltb_ge _ _)) by lia. split.
  - change (Z.to_nat (u64 (1 - 1))) with 0%nat. unfold memcmp_ne.
    rewrite decide_True by lia. done.
  - unfold memcmp_ne. rewrite decide_False; [done|].
    change (u64 (0 - 1)) with (2 ^ 64 - 1). intros [_ H]. rewrite length_take in H. lia.
Qed.
