(* ===== verification/StdMap.v ===== *)
(** * StdMap: [std::map] keyed by strings

    The ordered map the configuration uses, as a list of bindings sorted by key,
    with its iterators.  Keys are byte strings compared the way
    [std::string::compare] does (bytes as unsigned values, a proper prefix is
    smaller). *)

From Stdlib Require Import ZArith Lia Ascii String.
From stdpp Require Import base list.
From S2P Require Import Prelude.

(** ** Byte strings *)

Abbreviation bytes := (list Z) (only parsing).

(** The bytes of a string literal. *)
Fixpoint b (s : string) : bytes :=
  match s with
  | EmptyString => []
  | String.String c s => Z.of_N (N_of_ascii c) :: b s
  end.

Fixpoint str_cmp (s t : bytes) : comparison :=
  match s, t with
  | [], [] => Eq
  | [], _ :: _ => Lt
  | _ :: _, [] => Gt
  | x :: s, y :: t => match x ?= y with Eq => str_cmp s t | c => c end
  end.

Definition str_eqb (s t : bytes) : bool := match str_cmp s t with Eq => true | _ => false end.

Lemma str_cmp_eq s t : str_cmp s t = Eq <-> s = t.
Proof.
  revert t. induction s as [|x s IH]; intros [|y t]; simpl; try naive_solver.
  destruct (Z.compare_spec x y); [subst; rewrite IH; naive_solver| |]; split; intros; simplify_eq; lia.
Qed.

Lemma str_cmp_refl s : str_cmp s s = Eq.
Proof. by apply str_cmp_eq. Qed.

Lemma str_cmp_antisym s t : str_cmp t s = CompOpp (str_cmp s t).
Proof.
  revert t. induction s as [|x s IH]; intros [|y t]; simpl; [done..|].
  rewrite (Z.compare_antisym x y). destruct (x ?= y); simpl; auto.
Qed.

Lemma str_cmp_lt_trans s t u : str_cmp s t = Lt -> str_cmp t u = Lt -> str_cmp s u = Lt.
Proof.
  revert t u. induction s as [|x s IH]; intros [|y t] [|z u]; simpl; try done.
  intros H1 H2. destruct (Z.compare_spec x y) as [E1|E1|E1]; [| |done];
    (destruct (Z.compare_spec y z) as [E2|E2|E2]; [| |done]);
    destruct (Z.compare_spec x z) as [E3|E3|E3]; try lia; [by eapply IH|done..].
Qed.

Lemma str_eqb_eq s t : str_eqb s t = true <-> s = t.
Proof. unfold str_eqb. rewrite <- str_cmp_eq. by destruct (str_cmp s t). Qed.

Lemma str_eqb_refl s : str_eqb s s = true.
Proof. by apply str_eqb_eq. Qed.

Lemma str_eqb_ne s t : s <> t -> str_eqb s t = false.
Proof. intros H. destruct (str_eqb s t) eqn:E; [|done]. by apply str_eqb_eq in E. Qed.

(** ** Maps *)

Definition smap (A : Type) := list (bytes * A).

Fixpoint sm_find {A} (k : bytes) (m : smap A) : option A :=
  match m with
  | [] => None
  | (k', v) :: m => if str_eqb k k' then Some v else sm_find k m
  end.

(** Insert or replace, keeping the order. *)
Fixpoint sm_insert {A} (k : bytes) (v : A) (m : smap A) : smap A :=
  match m with
  | [] => [(k, v)]
  | (k', v') :: m' =>
      match str_cmp k k' with
      | Lt => (k, v) :: m
      | Eq => (k, v) :: m'
      | Gt => (k', v') :: sm_insert k v m'
      end
  end.

Definition sm_erase {A} (k : bytes) (m : smap A) : smap A :=
  List.filter (fun p => negb (str_eqb k (fst p))) m.

(** Iterators: a position, the end, or a position whose element is gone. *)
Inductive iter := ItEnd | ItAt (k : bytes) | ItInvalid.

Definition sm_begin {A} (m : smap A) : iter :=
  match m with [] => ItEnd | (k, _) :: _ => ItAt k end.

(** The position after [k]. *)
Fixpoint sm_after {A} (k : bytes) (m : smap A) : iter :=
  match m with
  | [] => ItEnd
  | (k', _) :: m => match str_cmp k k' with Lt => ItAt k' | _ => sm_after k m end
  end.

(** What erasing key [k] does to an iterator. *)
Definition it_erased (k : bytes) (i : iter) : iter :=
  match i with ItAt k' => if str_eqb k k' then ItInvalid else i | _ => i end.

(** ** The order invariant and the map laws *)

Definition key_lt (s t : bytes) : Prop := str_cmp s t = Lt.

#[export] Instance key_lt_trans : Transitive key_lt.
Proof. intros s t u. apply str_cmp_lt_trans. Qed.

(** Keys strictly increasing. *)
Fixpoint sm_sorted {A} (m : smap A) : Prop :=
  match m with
  | [] => True
  | (k, _) :: m => Forall (fun p => key_lt k (fst p)) m /\ sm_sorted m
  end.

Section laws.
Context {A : Type}.
Implicit Types (m : smap A) (k : bytes).

Lemma sm_find_insert k v m : sm_sorted m -> sm_find k (sm_insert k v m) = Some v.
Proof.
  induction m as [|[k' v'] m IH]; simpl; [by rewrite str_eqb_refl|]. intros [_ Hs].
  destruct (str_cmp k k') eqn:E; simpl; rewrite ?str_eqb_refl; [done|done|].
  unfold str_eqb. rewrite E. auto.
Qed.

Lemma sm_find_insert_ne k k' v m : k' <> k -> sm_find k' (sm_insert k v m) = sm_find k' m.
Proof.
  intros Hk. induction m as [|[k2 v2] m IH]; simpl; [by rewrite str_eqb_ne|].
  destruct (str_cmp k k2) eqn:E; simpl; [|by rewrite (str_eqb_ne k' k)|by rewrite IH].
  apply str_cmp_eq in E. subst. by rewrite !(str_eqb_ne k' k2).
Qed.

Lemma sm_find_erase k k' m :
  sm_find k' (sm_erase k m) = if str_eqb k k' then None else sm_find k' m.
Proof.
  induction m as [|[k2 v2] m IH]; simpl; [by destruct (str_eqb k k')|].
  destruct (str_eqb k k2) eqn:E; simpl.
  - rewrite IH. apply str_eqb_eq in E. subst. destruct (str_eqb k2 k') eqn:E2; [done|].
    rewrite str_eqb_ne; [done|]. intros ->. by rewrite str_eqb_refl in E2.
  - rewrite IH. destruct (str_eqb k' k2) eqn:E2; [|done]. apply str_eqb_eq in E2. subst.
    by rewrite E.
Qed.

Lemma sm_insert_forall (P : bytes * A -> Prop) k v m :
  P (k, v) -> Forall P m -> Forall P (sm_insert k v m).
Proof.
  intros Hk. induction m as [|[k2 v2] m IH]; simpl; intros H; [by constructor|].
  apply Forall_cons in H as [H2 H]. destruct (str_cmp k k2); repeat constructor; auto.
Qed.

Lemma sm_insert_sorted k v m : sm_sorted m -> sm_sorted (sm_insert k v m).
Proof.
  induction m as [|[k2 v2] m IH]; simpl; [done|]. intros [H1 H2].
  destruct (str_cmp k k2) eqn:E; simpl.
  - apply str_cmp_eq in E. by subst.
  - split; [|done]. constructor; [done|]. eapply Forall_impl; [exact H1|].
    intros p. simpl. by apply str_cmp_lt_trans.
  - split; [|auto]. apply sm_insert_forall; [|done]. simpl. unfold key_lt.
    by rewrite str_cmp_antisym, E.
Qed.

Lemma sm_erase_sorted k m : sm_sorted m -> sm_sorted (sm_erase k m).
Proof.
  induction m as [|[k2 v2] m IH]; simpl; [done|]. intros [H1 H2].
  destruct (negb _); simpl; [|auto]. split; [|auto].
  rewrite Forall_forall in *. intros p Hp. apply H1.
  apply list_elem_of_In in Hp. apply filter_In in Hp as [Hp _]. by apply list_elem_of_In.
Qed.

Lemma sm_after_lt k m :
  Forall (fun p => key_lt k (fst p)) m -> sm_after k m = sm_begin m.
Proof. destruct m as [|[k2 v2] m]; simpl; [done|]. intros [H _]%Forall_cons. simpl in H. by rewrite H. Qed.

(** Positions of a sorted map, one after the other. *)
Lemma sm_after_app k v m1 m2 :
  sm_sorted (m1 ++ (k, v) :: m2) -> sm_after k (m1 ++ (k, v) :: m2) = sm_begin m2.
Proof.
  induction m1 as [|[k1 v1] m1 IH]; simpl.
  - intros [H _]. rewrite str_cmp_refl. by apply sm_after_lt.
  - intros [H1 H2]. apply Forall_app in H1 as [_ [H1 _]%Forall_cons]. simpl in H1.
    rewrite str_cmp_antisym, H1. simpl. auto.
Qed.
End laws.

(** Starting at [i], the keys an enumeration visits in at most [n] steps. *)
Fixpoint sm_walk {A} (n : nat) (i : iter) (m : smap A) : list bytes :=
  match n, i with
  | S n, ItAt k => k :: sm_walk n (sm_after k m) m
  | _, _ => []
  end.

Lemma sm_walk_all {A} (m1 m2 : smap A) :
  sm_sorted (m1 ++ m2) ->
  sm_walk (length m2) (sm_begin m2) (m1 ++ m2) = map fst m2.
Proof.
  revert m1. induction m2 as [|[k v] m2 IH]; intros m1 Hs; simpl; [done|]. f_equal.
  rewrite (sm_after_app k v m1 m2 Hs). specialize (IH (m1 ++ [(k, v)])).
  rewrite <- app_assoc in IH. by apply IH.
Qed.
