(* ===== verification/GaConf.v ===== *)
(** * GaConf: the runtime configuration

    Models [src/sources/streamer/core/ga-conf.cpp] and [ga-confvar.cpp]: the
    parameter store with its plain and map-valued parameters and iterators, the
    configuration-file parser with [include], and the typed readers.  C strings
    are byte lists without their NUL.  The file system is an argument. *)

From Stdlib Require Import ZArith Lia Ascii String Sorting.Sorted.
From stdpp Require Import base list.
From S2P Require Import Prelude StdMap.

(** ** [gaConfVar] *)

Record gaConfVar := { data : bytes; mapdata : smap bytes; mi : iter }.

Definition var_clear : gaConfVar := {| data := []; mapdata := []; mi := ItEnd |}.

(** [operator=] from text. *)
Definition var_assign (value : bytes) (v : gaConfVar) : gaConfVar :=
  {| data := value; mapdata := []; mi := ItEnd |}.

(** [operator=] from another variable. *)
Definition var_copy (w v : gaConfVar) : gaConfVar :=
  {| data := data w; mapdata := mapdata w; mi := sm_begin (mapdata w) |}.

(** [operator[]]: the entry, created empty when it is missing. *)
Definition var_index (key : bytes) (v : gaConfVar) : bytes * gaConfVar :=
  match sm_find key (mapdata v) with
  | Some s => (s, v)
  | None => ([], {| data := data v; mapdata := sm_insert key [] (mapdata v); mi := mi v |})
  end.

(** Assignment through the reference [operator[]] returns. *)
Definition var_index_assign (key value : bytes) (v : gaConfVar) : gaConfVar :=
  {| data := data v; mapdata := sm_insert key value (mapdata v); mi := mi v |}.

Definition var_haskey (key : bytes) (v : gaConfVar) : bool :=
  match sm_find key (mapdata v) with Some _ => true | None => false end.

Definition var_msize (v : gaConfVar) : Z := i32 (Z.of_nat (length (mapdata v))).

Definition var_mreset (v : gaConfVar) : gaConfVar :=
  {| data := data v; mapdata := mapdata v; mi := sm_begin (mapdata v) |}.

(** Dereferencing an iterator; a dangling one is undefined. *)
Definition var_mkey (v : gaConfVar) : option bytes :=
  match mi v with ItEnd => Some [] | ItAt k => Some k | ItInvalid => None end.

Definition var_mvalue (v : gaConfVar) : option bytes :=
  match mi v with
  | ItEnd => Some []
  | ItAt k => sm_find k (mapdata v)
  | ItInvalid => None
  end.

Definition var_mnextkey (v : gaConfVar) : option (bytes * gaConfVar) :=
  match mi v with
  | ItEnd => Some ([], v)
  | ItAt k =>
      let i := sm_after k (mapdata v) in
      let v := {| data := data v; mapdata := mapdata v; mi := i |} in
      Some (match i with ItAt k' => k' | _ => [] end, v)
  | ItInvalid => None
  end.

(** ** The global store *)

Record conf := { ga_vars : smap gaConfVar; ga_vmi : iter }.

Definition conf0 : conf := {| ga_vars := []; ga_vmi := ItEnd |}.

Definition set_vars (m : smap gaConfVar) (c : conf) : conf := {| ga_vars := m; ga_vmi := ga_vmi c |}.

(** The variable behind [ga_vars[name]], created when it is missing. *)
Definition vars_index (name : bytes) (c : conf) : gaConfVar :=
  match sm_find name (ga_vars c) with Some v => v | None => var_clear end.

(** [ga_vars[name] = f(ga_vars[name])]. *)
Definition vars_update (name : bytes) (f : gaConfVar -> gaConfVar) (c : conf) : conf :=
  set_vars (sm_insert name (f (vars_index name c)) (ga_vars c)) c.

(** ** Parsing *)

Definition isspace (c : Z) : bool := ((9 <=? c) && (c <=? 13)) || (c =? 32).

Fixpoint drop_spaces (s : bytes) : bytes :=
  match s with c :: s' => if isspace c then drop_spaces s' else s | [] => [] end.

(** [strchr]: the text before and after the first [c]. *)
Fixpoint strchr (c : Z) (s : bytes) : option (bytes * bytes) :=
  match s with
  | [] => None
  | x :: s => if x =? c then Some ([], s)
              else match strchr c s with Some (p, q) => Some (x :: p, q) | None => None end
  end.

(** The string after a NUL is written over the first [c]. *)
Definition cut (c : Z) (s : bytes) : bytes :=
  match strchr c s with Some (p, _) => p | None => s end.

Definition trim_tail (s : bytes) : bytes := rev (drop_spaces (rev s)).

Definition CH_HASH : Z := 35.
Definition CH_SLASH : Z := 47.
Definition CH_SEMI : Z := 59.
Definition CH_EQ : Z := 61.
Definition CH_LBR : Z := 91.
Definition CH_RBR : Z := 93.
Definition CH_NL : Z := 10.

Definition ga_conf_trim (buf : bytes) : bytes :=
  let buf := drop_spaces buf in
  if match buf with c :: _ => c =? CH_LBR | [] => false end then []
  else
    let buf := cut CH_HASH buf in
    let buf := cut CH_SEMI buf in
    let buf := match strchr CH_SLASH buf with
               | Some (p, c :: _) => if c =? CH_SLASH then p else buf
               | _ => buf
               end in
    let buf := cut CH_HASH buf in
    trim_tail buf.

(** *** [std::filesystem::path] (POSIX), as far as [include] uses it *)

Definition path_is_absolute (p : bytes) : bool :=
  match p with c :: _ => c =? CH_SLASH | [] => false end.

Fixpoint drop_slashes (s : bytes) : bytes :=
  match s with c :: s' => if c =? CH_SLASH then drop_slashes s' else s | [] => [] end.

(** The text before the last slash run; the root keeps its slash. *)
Definition parent_path (p : bytes) : bytes :=
  match strchr CH_SLASH (rev p) with
  | None => []
  | Some (_, r) =>
      match rev (drop_slashes r) with [] => [CH_SLASH] | d => d end
  end.

Definition path_append (dir p : bytes) : bytes :=
  match dir with
  | [] => p
  | _ => match last dir with
         | Some c => if c =? CH_SLASH then dir ++ p else dir ++ CH_SLASH :: p
         | None => p
         end
  end.

(** [ga_conf_parse] on one line; [load] is [ga_conf_load]. *)
Definition ga_conf_parse (load : bytes -> cmd conf Z) (filename buf : bytes) : cmd conf Z :=
  match strchr CH_EQ buf with
  | None => cret 0
  | Some (option, token) =>
      if bool_decide (token = []) then cret 0
      else
        let option := ga_conf_trim option in
        if bool_decide (option = []) then cret 0
        else
          let token := ga_conf_trim token in
          if bool_decide (token = []) then cret 0
          else if str_eqb option (b "include") then
            load (if path_is_absolute token then token
                  else path_append (parent_path filename) token)
          else
            match strchr CH_LBR option with
            | Some (name, rest) =>
                match strchr CH_RBR rest with
                | None => cret (-1)
                | Some (key, after) =>
                    if bool_decide (key = []) then cret (-1)
                    else if negb (bool_decide (after = [])) then cret (-1)
                    else cmodify (vars_update name (var_index_assign key token)) ;;; cret 0
                end
            | None => cmodify (vars_update option (var_assign token)) ;;; cret 0
            end
  end.

(** [fgets]: at most [n] bytes, up to and including a newline, and the rest. *)
Fixpoint fgets (n : nat) (s : bytes) : bytes * bytes :=
  match n, s with
  | S n, c :: s =>
      if c =? CH_NL then ([c], s)
      else let '(l, r) := fgets n s in (c :: l, r)
  | _, _ => ([], s)
  end.

(** The lines a loop over [fgets(buf, 8192, fp)] sees ([fuel] at least the
    number of bytes); a NUL byte ends the C string. *)
Fixpoint conf_lines (fuel : nat) (s : bytes) : list bytes :=
  match fuel, s with
  | S fuel, _ :: _ => let '(l, r) := fgets (Z.to_nat 8191) s in cut 0 l :: conf_lines fuel r
  | _, _ => []
  end.

(** The body of the read loop: the number of lines, or -1 at the first error. *)
Fixpoint load_lines (parse : bytes -> cmd conf Z) (lineno : Z) (ls : list bytes) : cmd conf Z :=
  match ls with
  | [] => cret lineno
  | l :: ls =>
      r <-- parse l ;;
      if r <? 0 then cret (-1) else load_lines parse (lineno + 1) ls
  end.

(** [ga_conf_load], on the file system [fs]; [depth] bounds the nesting of
    [include] that the stack allows, beyond it there is no result. *)
Fixpoint ga_conf_load (fs : bytes -> option bytes) (depth : nat) (filename : bytes) : cmd conf Z :=
  match depth with
  | O => cundef
  | S depth =>
      match fs filename with
      | None => cret (-1)
      | Some content =>
          load_lines (ga_conf_parse (ga_conf_load fs depth) filename) 0
            (conf_lines (length content) content)
      end
  end.

Definition ga_conf_clear : cmd conf unit := cput conf0.

(** ** Reading plain parameters *)

(** [store = NULL] is [slen = None]; the result is the string stored. *)
Definition ga_conf_readv (key : bytes) (slen : option Z) : cmd conf (option bytes) :=
  c <-- cget ;;
  match sm_find key (ga_vars c) with
  | None => cret None
  | Some v =>
      match slen with
      | None => cret (Some (data v))
      | Some n => if n <=? Z.of_nat (length (data v)) then cret None else cret (Some (data v))
      end
  end.

Definition ga_conf_readstr (key : bytes) : cmd conf bytes :=
  c <-- cget ;;
  match sm_find key (ga_vars c) with None => cret [] | Some v => cret (data v) end.

(** *** [strtol] with base 0 *)

Definition LONG_MAX : Z := 2 ^ 63 - 1.
Definition LONG_MIN : Z := - 2 ^ 63.

Definition digit_val (c : Z) : option Z :=
  if (48 <=? c) && (c <=? 57) then Some (c - 48)
  else if (97 <=? c) && (c <=? 122) then Some (c - 87)
  else if (65 <=? c) && (c <=? 90) then Some (c - 55)
  else None.

(** The value of the leading digits below [base], how many there are, the rest. *)
Fixpoint digits (base acc : Z) (n : nat) (s : bytes) : Z * nat * bytes :=
  match s with
  | c :: s' =>
      match digit_val c with
      | Some d => if d <? base then digits base (acc * base + d) (S n) s' else (acc, n, s)
      | None => (acc, n, s)
      end
  | [] => (acc, n, s)
  end.

Record strtol_result := { sl_val : Z; sl_erange : bool; sl_rest : bytes; sl_any : bool }.

Definition is_hex (c : Z) : bool :=
  match digit_val c with Some d => d <? 16 | None => false end.

Definition strtol (s : bytes) : strtol_result :=
  let s1 := drop_spaces s in
  let '(neg, s2) := match s1 with
                    | 45 :: r => (true, r) | 43 :: r => (false, r) | _ => (false, s1) end in
  let '(base, s3) := match s2 with
                     | 48 :: x :: h :: _ =>
                         if ((x =? 120) || (x =? 88)) && is_hex h then (16, drop 2 s2) else (8, s2)
                     | 48 :: _ => (8, s2)
                     | _ => (10, s2)
                     end in
  let '(v, n, r) := digits base 0 0 s3 in
  if (n =? 0)%nat then {| sl_val := 0; sl_erange := false; sl_rest := s; sl_any := false |}
  else
    let v := if neg : bool then - v else v in
    {| sl_val := if LONG_MAX <? v then LONG_MAX else if v <? LONG_MIN then LONG_MIN else v;
       sl_erange := (LONG_MAX <? v) || (v <? LONG_MIN);
       sl_rest := r; sl_any := true |}.

Definition ga_conf_readint (key : bytes) : cmd conf Z :=
  str <-- ga_conf_readstr key ;;
  if bool_decide (str = []) then cret 0
  else
    let r := strtol str in
    if sl_erange r || (INT_MAX <? sl_val r) || (sl_val r <? INT_MIN) then cret 0
    else if negb (sl_any r) then cret 0
    else cret (sl_val r).

(** The loop of [ga_conf_multiple_int]: the integers stored and counted. *)
Fixpoint multiple_int (n : nat) (ptr : bytes) : list Z :=
  match n with
  | O => []
  | S n =>
      let r := strtol ptr in
      if negb (sl_any r) then [] else i32 (sl_val r) :: multiple_int n (sl_rest r)
  end.

(** The return value and the integers loaded. *)
Definition ga_conf_multiple_int (buf : bytes) (val_null : bool) (n : Z) : Z * list Z :=
  if val_null then (-1, [])
  else let l := multiple_int (Z.to_nat n) buf in (Z.of_nat (length l), l).

Definition ga_conf_readints (key : bytes) (val_null : bool) (n : Z) : cmd conf (Z * list Z) :=
  ptr <-- ga_conf_readv key (Some 1024) ;;
  match ptr with
  | None => cret (0, [])
  | Some s => cret (ga_conf_multiple_int s val_null n)
  end.

Definition tolower (c : Z) : Z := if (65 <=? c) && (c <=? 90) then c + 32 else c.

(** [strcasecmp(s, t) == 0] *)
Definition strcaseeq (s t : bytes) : bool := str_eqb (map tolower s) (map tolower t).

Definition ga_conf_boolval (ptr : bytes) (defval : Z) : Z :=
  if strcaseeq ptr (b "true") || strcaseeq ptr (b "1") || strcaseeq ptr (b "y")
     || strcaseeq ptr (b "yes") || strcaseeq ptr (b "enabled") || strcaseeq ptr (b "enable")
  then 1
  else if strcaseeq ptr (b "false") || strcaseeq ptr (b "0") || strcaseeq ptr (b "n")
     || strcaseeq ptr (b "no") || strcaseeq ptr (b "disabled") || strcaseeq ptr (b "disable")
  then 0
  else defval.

Definition ga_conf_readbool (key : bytes) (defval : Z) : cmd conf Z :=
  str <-- ga_conf_readstr key ;;
  if bool_decide (str = []) then cret defval else cret (ga_conf_boolval str defval).

Definition ga_conf_writev (key value : bytes) : cmd conf Z :=
  cmodify (vars_update key (var_assign value)) ;;; cret 0.

(** Erase a variable; an iterator on it dangles from then on. *)
Definition erase_var (key : bytes) (c : conf) : conf :=
  {| ga_vars := sm_erase key (ga_vars c);
     ga_vmi := match sm_find key (ga_vars c) with
               | Some _ => it_erased key (ga_vmi c) | None => ga_vmi c end |}.

Definition ga_conf_erase (key : bytes) : cmd conf unit := cmodify (erase_var key).

(** ** Parameter maps *)

Definition ga_conf_mapsize (mapname : bytes) : cmd conf Z :=
  c <-- cget ;;
  match sm_find mapname (ga_vars c) with None => cret 0 | Some v => cret (var_msize v) end.

Definition ga_conf_ismap (key : bytes) : cmd conf Z :=
  n <-- ga_conf_mapsize key ;; cret (if 0 <? n then 1 else 0).

Definition ga_conf_haskey (mapname key : bytes) : cmd conf Z :=
  c <-- cget ;;
  match sm_find mapname (ga_vars c) with
  | None => cret 0
  | Some v => cret (if var_haskey key v then 1 else 0)
  end.

(** What [strncpy(store, s, n)] leaves in [store] up to its end: a C string only
    if there was room for the NUL. *)
Record cbuf := { cb_chars : bytes; cb_terminated : bool }.

Definition strncpy_buf (s : bytes) (n : Z) : cbuf :=
  {| cb_chars := take (Z.to_nat n) s; cb_terminated := Z.of_nat (length s) <? n |}.

(** Reading a buffer as a C string; without a NUL the read leaves the buffer. *)
Definition c_str (c : cbuf) : option bytes := if cb_terminated c then Some (cb_chars c) else None.

(** [store = NULL] is [None]: the string is duplicated. *)
Definition store_str (s : bytes) (slen : option Z) : cbuf :=
  match slen with
  | None => {| cb_chars := s; cb_terminated := true |}
  | Some n => strncpy_buf s n
  end.

(** [var_index] creates the key when it is missing. *)
Definition ga_conf_mapreadv (mapname key : bytes) (slen : option Z) : cmd conf (option cbuf) :=
  c <-- cget ;;
  match sm_find mapname (ga_vars c) with
  | None => cret None
  | Some v =>
      let '(s, v) := var_index key v in
      cput (set_vars (sm_insert mapname v (ga_vars c)) c) ;;;
      if bool_decide (s = []) then cret None else cret (Some (store_str s slen))
  end.

Definition ga_conf_mapreadint (mapname key : bytes) : cmd conf Z :=
  ptr <-- ga_conf_mapreadv mapname key (Some 64) ;;
  match ptr with
  | None => cret 0
  | Some p => s <-- clift (c_str p) ;; cret (i32 (sl_val (strtol s)))
  end.

Definition ga_conf_mapreadints (mapname key : bytes) (val_null : bool) (n : Z)
    : cmd conf (Z * list Z) :=
  ptr <-- ga_conf_mapreadv mapname key (Some 1024) ;;
  match ptr with
  | None => cret (0, [])
  | Some p => s <-- clift (c_str p) ;; cret (ga_conf_multiple_int s val_null n)
  end.

Definition ga_conf_mapreadbool (mapname key : bytes) (defval : Z) : cmd conf Z :=
  ptr <-- ga_conf_mapreadv mapname key (Some 64) ;;
  match ptr with
  | None => cret defval
  | Some p => s <-- clift (c_str p) ;; cret (ga_conf_boolval s defval)
  end.

Definition ga_conf_mapwritev (mapname key value : bytes) : cmd conf Z :=
  cmodify (vars_update mapname (var_index_assign key value)) ;;; cret 0.

(** The key argument is not used. *)
Definition ga_conf_maperase (mapname key : bytes) : cmd conf unit :=
  c <-- cget ;;
  match sm_find mapname (ga_vars c) with
  | None => cret tt
  | Some _ => cput (erase_var mapname c)
  end.

Definition ga_conf_mapreset (mapname : bytes) : cmd conf unit :=
  c <-- cget ;;
  match sm_find mapname (ga_vars c) with
  | None => cret tt
  | Some v => cput (set_vars (sm_insert mapname (var_mreset v) (ga_vars c)) c)
  end.

Definition ga_conf_mapkey (mapname : bytes) (klen : option Z) : cmd conf (option cbuf) :=
  c <-- cget ;;
  match sm_find mapname (ga_vars c) with
  | None => cret None
  | Some v =>
      k <-- clift (var_mkey v) ;;
      if bool_decide (k = []) then cret None else cret (Some (store_str k klen))
  end.

Definition ga_conf_mapvalue (mapname : bytes) (vlen : option Z) : cmd conf (option cbuf) :=
  c <-- cget ;;
  match sm_find mapname (ga_vars c) with
  | None => cret None
  | Some v =>
      k <-- clift (var_mkey v) ;;
      if bool_decide (k = []) then cret None
      else s <-- clift (var_mvalue v) ;; cret (Some (store_str s vlen))
  end.

Definition ga_conf_mapnextkey (mapname : bytes) (klen : option Z) : cmd conf (option cbuf) :=
  c <-- cget ;;
  match sm_find mapname (ga_vars c) with
  | None => cret None
  | Some v =>
      r <-- clift (var_mnextkey v) ;;
      let '(k, v) := (r : bytes * gaConfVar) in
      cput (set_vars (sm_insert mapname v (ga_vars c)) c) ;;;
      if bool_decide (k = []) then cret None else cret (Some (store_str k klen))
  end.

(** ** Enumerating the whole configuration *)

Definition set_vmi (i : iter) (c : conf) : conf := {| ga_vars := ga_vars c; ga_vmi := i |}.

Definition ga_conf_reset : cmd conf unit := cmodify (fun c => set_vmi (sm_begin (ga_vars c)) c).

Definition ga_conf_key : cmd conf (option bytes) :=
  c <-- cget ;;
  match ga_vmi c with ItEnd => cret None | ItAt k => cret (Some k) | ItInvalid => cundef end.

Definition ga_conf_nextkey : cmd conf (option bytes) :=
  c <-- cget ;;
  match ga_vmi c with
  | ItEnd => cret None
  | ItAt k =>
      let i := sm_after k (ga_vars c) in
      cput (set_vmi i c) ;;;
      cret (match i with ItAt k' => Some k' | _ => None end)
  | ItInvalid => cundef
  end.

(** ** The store invariant *)

Definition mi_ok {A} (i : iter) (m : smap A) : Prop :=
  match i with ItEnd => True | ItAt k => exists v, sm_find k m = Some v | ItInvalid => False end.

Definition var_ok (v : gaConfVar) : Prop := sm_sorted (mapdata v) /\ mi_ok (mi v) (mapdata v).

Definition conf_ok (c : conf) : Prop :=
  sm_sorted (ga_vars c) /\ (forall k v, sm_find k (ga_vars c) = Some v -> var_ok v).

Lemma mi_ok_insert {A} i k (v : A) m : mi_ok i m -> sm_sorted m -> mi_ok i (sm_insert k v m).
Proof.
  destruct i as [|k'|]; simpl; [done| |done]. intros [w Hw] Hs.
  destruct (decide (k' = k)) as [->|Hk]; [rewrite sm_find_insert by done|
    rewrite sm_find_insert_ne by done]; eauto.
Qed.

Lemma sm_begin_ok {A} (m : smap A) : mi_ok (sm_begin m) m.
Proof. destruct m as [|[k v] m]; simpl; [done|]. rewrite str_eqb_refl. eauto. Qed.

Lemma sm_after_ok {A} k (m : smap A) : sm_sorted m -> mi_ok (sm_after k m) m.
Proof.
  induction m as [|[k2 v2] m IH]; simpl; [done|]. intros [H1 H2].
  assert (Hgen : mi_ok (sm_after k m) ((k2, v2) :: m)).
  { specialize (IH H2). destruct (sm_after k m) as [|k3|]; simpl in *; [done| |done].
    destruct (str_eqb k3 k2); eauto. }
  destruct (str_cmp k k2); [done| |done]. simpl. rewrite str_eqb_refl. eauto.
Qed.

Lemma var_clear_ok : var_ok var_clear.
Proof. done. Qed.

Lemma var_assign_ok s v : var_ok (var_assign s v).
Proof. done. Qed.

Lemma var_index_assign_ok k s v : var_ok v -> var_ok (var_index_assign k s v).
Proof.
  intros [H1 H2]. split; simpl; [by apply sm_insert_sorted|by apply mi_ok_insert].
Qed.

Lemma var_index_ok k v : var_ok v -> var_ok (snd (var_index k v)).
Proof.
  intros H. unfold var_index. destruct (sm_find k (mapdata v)); [done|].
  by apply (var_index_assign_ok k []).
Qed.

Lemma var_mreset_ok v : var_ok v -> var_ok (var_mreset v).
Proof. intros [H _]. split; [done|]. apply sm_begin_ok. Qed.

Lemma var_mnextkey_ok v : var_ok v -> exists k v', var_mnextkey v = Some (k, v') /\ var_ok v'.
Proof.
  intros [H1 H2]. unfold var_mnextkey. destruct (mi v) as [|k|] eqn:E; simpl in H2; [| |done].
  - exists [], v. split; [done|]. split; [done|]. by rewrite E.
  - do 2 eexists. split; [done|]. split; [done|]. by apply sm_after_ok.
Qed.

#[export] Hint Resolve var_clear_ok var_assign_ok var_index_assign_ok var_index_ok var_mreset_ok : cstream.

(** Storing a good variable keeps the store good. *)
Lemma conf_ok_insert c k v i :
  conf_ok c -> var_ok v -> conf_ok {| ga_vars := sm_insert k v (ga_vars c); ga_vmi := i |}.
Proof.
  intros [H1 H2] Hv. split; simpl; [by apply sm_insert_sorted|]. intros k' v'.
  destruct (decide (k' = k)) as [->|Hk].
  - rewrite sm_find_insert by done. by intros [= <-].
  - rewrite sm_find_insert_ne by done. apply H2.
Qed.

Lemma vars_index_ok c k : conf_ok c -> var_ok (vars_index k c).
Proof.
  intros [_ H]. unfold vars_index. destruct (sm_find k (ga_vars c)) eqn:E; eauto with cstream.
Qed.

Lemma vars_update_ok c k f :
  conf_ok c -> (forall v, var_ok v -> var_ok (f v)) -> conf_ok (vars_update k f c).
Proof. intros Hc Hf. apply conf_ok_insert; [done|]. by apply Hf, vars_index_ok. Qed.

Lemma erase_var_ok c k : conf_ok c -> conf_ok (erase_var k c).
Proof.
  intros [H1 H2]. split; simpl; [by apply sm_erase_sorted|]. intros k' v'.
  rewrite sm_find_erase. destruct (str_eqb k k'); [done|]. apply H2.
Qed.

Lemma conf_ok_vmi c i : conf_ok c -> conf_ok (set_vmi i c).
Proof. done. Qed.

(** The operations of the module that change the store (not loading files). *)
Inductive conf_op :=
  | OClear | OWrite (key value : bytes) | OErase (key : bytes)
  | OMapRead (mapname key : bytes) (slen : option Z)
  | OMapWrite (mapname key value : bytes) | OMapErase (mapname key : bytes)
  | OMapReset (mapname : bytes) | OMapNext (mapname : bytes) (klen : option Z)
  | OMapValue (mapname : bytes) (vlen : option Z) | OReset
  | OParse (filename line : bytes).

Definition conf_exec (load : bytes -> cmd conf Z) (o : conf_op) : cmd conf unit :=
  match o with
  | OClear => ga_conf_clear
  | OWrite k v => ga_conf_writev k v ;;; cret tt
  | OErase k => ga_conf_erase k
  | OMapRead m k n => ga_conf_mapreadv m k n ;;; cret tt
  | OMapWrite m k v => ga_conf_mapwritev m k v ;;; cret tt
  | OMapErase m k => ga_conf_maperase m k
  | OMapReset m => ga_conf_mapreset m
  | OMapNext m n => ga_conf_mapnextkey m n ;;; cret tt
  | OMapValue m n => ga_conf_mapvalue m n ;;; cret tt
  | OReset => ga_conf_reset
  | OParse f l => ga_conf_parse load f l ;;; cret tt
  end.

(** [m] is defined on good stores and keeps them good. *)
Definition conf_safe {A} (m : cmd conf A) : Prop :=
  forall c, conf_ok c -> exists a c', m c = Some (a, c') /\ conf_ok c'.

Lemma conf_safe_bind {A B} (m : cmd conf A) (f : A -> cmd conf B) :
  conf_safe m -> (forall a, conf_safe (f a)) -> conf_safe (cbind f m).
Proof.
  intros Hm Hf c Hc. destruct (Hm c Hc) as (a & c' & E & Hc'). unfold cbind. rewrite E. by apply Hf.
Qed.

Lemma conf_safe_ret {A} (a : A) : conf_safe (cret a).
Proof. intros c Hc. by exists a, c. Qed.

Lemma conf_safe_modify f : (forall c, conf_ok c -> conf_ok (f c)) -> conf_safe (cmodify f).
Proof. intros Hf c Hc. exists tt, (f c). auto. Qed.

#[export] Hint Resolve conf_safe_ret : cstream.

Lemma update_safe k f : (forall v, var_ok v -> var_ok (f v)) -> conf_safe (cmodify (vars_update k f)).
Proof. intros Hf. apply conf_safe_modify. intros c Hc. by apply vars_update_ok. Qed.

Lemma parse_safe load f l : (forall p, conf_safe (load p)) -> conf_safe (ga_conf_parse load f l).
Proof.
  intros Hl. unfold ga_conf_parse.
  repeat first [apply conf_safe_ret | apply Hl
               | apply conf_safe_bind; [apply update_safe|intros _]
               | progress auto with cstream | split_match].
Qed.

Lemma conf_exec_safe load o : (forall p, conf_safe (load p)) -> conf_safe (conf_exec load o).
Proof.
  intros Hl. destruct o; simpl;
    try (apply conf_safe_bind; [|intros; apply conf_safe_ret]).
  - intros c Hc. by exists tt, conf0.
  - apply conf_safe_bind; [apply update_safe|]; auto with cstream.
  - apply conf_safe_modify. intros c. apply erase_var_ok.
  - intros c Hc. unfold ga_conf_mapreadv, cbind, cget.
    destruct (sm_find mapname (ga_vars c)) as [v|] eqn:E; [|by exists None, c].
    pose proof (var_index_ok key v (proj2 Hc _ _ E)) as Hv. destruct (var_index key v) as [s v'].
    destruct (bool_decide (s = [])); simpl; do 2 eexists; (split; [done|]); by apply conf_ok_insert.
  - apply conf_safe_bind; [apply update_safe|]; auto with cstream.
  - intros c Hc. unfold ga_conf_maperase, cbind, cget.
    destruct (sm_find _ _); [|by exists tt, c]. exists tt, (erase_var mapname c).
    split; [done|]. by apply erase_var_ok.
  - intros c Hc. unfold ga_conf_mapreset, cbind, cget.
    destruct (sm_find mapname (ga_vars c)) as [v|] eqn:E; [|by exists tt, c].
    do 2 eexists. split; [done|]. apply conf_ok_insert; [done|]. apply var_mreset_ok, (proj2 Hc _ _ E).
  - intros c Hc. unfold ga_conf_mapnextkey, cbind, cget.
    destruct (sm_find mapname (ga_vars c)) as [v|] eqn:E; [|by exists None, c].
    destruct (var_mnextkey_ok v (proj2 Hc _ _ E)) as (k & v' & E' & Hv). rewrite E'. simpl.
    destruct (bool_decide (k = [])); do 2 eexists; (split; [done|]); by apply conf_ok_insert.
  - intros c Hc. unfold ga_conf_mapvalue, cbind, cget.
    destruct (sm_find mapname (ga_vars c)) as [v|] eqn:E; [|by exists None, c].
    destruct (proj2 Hc _ _ E) as [_ Hv]. unfold var_mkey, var_mvalue.
    destruct (mi v) as [|k|] eqn:Em; simpl in Hv; [by exists None, c| |done].
    destruct Hv as [w Hw]. unfold clift, cret. rewrite Hw. case_bool_decide; eauto.
  - intros c Hc. by eexists tt, _.
  - by apply parse_safe.
Qed.

(** Sequences of operations. *)
Fixpoint conf_run (load : bytes -> cmd conf Z) (os : list conf_op) : cmd conf unit :=
  match os with [] => cret tt | o :: os => conf_exec load o ;;; conf_run load os end.

Lemma conf_run_safe load os : (forall p, conf_safe (load p)) -> conf_safe (conf_run load os).
Proof.
  intros Hl. induction os as [|o os IH]; simpl; [apply conf_safe_ret|].
  apply conf_safe_bind; [by apply conf_exec_safe|by intros _].
Qed.

(** A client's enumeration: [ga_conf_reset], [ga_conf_key], then [n] times
    [ga_conf_nextkey], until NULL. *)
Fixpoint enum_next (n : nat) : cmd conf (list bytes) :=
  match n with
  | O => cret []
  | S n =>
      k <-- ga_conf_nextkey ;;
      match k with None => cret [] | Some k => r <-- enum_next n ;; cret (k :: r) end
  end.

Definition conf_enum (n : nat) : cmd conf (list bytes) :=
  ga_conf_reset ;;;
  k <-- ga_conf_key ;;
  match k with None => cret [] | Some k => r <-- enum_next n ;; cret (k :: r) end.

Lemma enum_next_walk m2 : forall m1 k v,
  sm_sorted (m1 ++ (k, v) :: m2) ->
  exists i, enum_next (S (length m2)) {| ga_vars := m1 ++ (k, v) :: m2; ga_vmi := ItAt k |} =
    Some (map fst m2, {| ga_vars := m1 ++ (k, v) :: m2; ga_vmi := i |}).
Proof.
  induction m2 as [|[k2 v2] m2 IH]; intros m1 k v Hs.
  - exists ItEnd. cbn [enum_next]. unfold ga_conf_nextkey, cbind, cget, cput, set_vmi.
    cbn [ga_vmi ga_vars]. by rewrite (sm_after_app k v m1 _ Hs).
  - destruct (IH (m1 ++ [(k, v)]) k2 v2) as [i Hi]; [by rewrite <- app_assoc|].
    rewrite <- app_assoc in Hi. cbn [app] in Hi. exists i. cbn [length].
    remember (S (length m2)) as n. cbn [enum_next].
    rewrite (cbind_Some ga_conf_nextkey _ _ (Some k2)
      {| ga_vars := m1 ++ (k, v) :: (k2, v2) :: m2; ga_vmi := ItAt k2 |}).
    { unfold cbind. by rewrite Hi. }
    unfold ga_conf_nextkey, cbind, cget, cput, set_vmi. cbn [ga_vmi ga_vars].
    by rewrite (sm_after_app k v m1 _ Hs).
Qed.

(** ** Trimming and splitting clean text *)

(** A character that has no meaning to the parser. *)
Definition plainc (c : Z) : bool :=
  (33 <=? c) && (c <=? 126) &&
  negb (existsb (Z.eqb c) [CH_HASH; CH_SLASH; CH_SEMI; CH_EQ; CH_LBR; CH_RBR]).

Definition padc (c : Z) : bool := (c =? 32) || (c =? 9).

(** A name or a key: one or more plain characters. *)
Definition is_word (s : bytes) : Prop := s <> [] /\ Forall (fun c => plainc c = true) s.

(** A character that starts no comment and does not end the line. *)
Definition valc (c : Z) : Prop := c <> CH_HASH /\ c <> CH_SEMI /\ c <> CH_NL /\ c <> 0.

(** The first slash is not doubled. *)
Definition slash_ok (s : bytes) : Prop :=
  match strchr CH_SLASH s with Some (_, c :: _) => c <> CH_SLASH | _ => True end.

(** A value: no [#] and no [;], no doubled slash as the first one, no blank at
    either end, and not opening a section. *)
Definition is_value (s : bytes) : Prop :=
  (Forall valc s /\ slash_ok s) /\ (exists c r, s = c :: r /\ isspace c = false /\ c <> CH_LBR) /\
  (exists c r, s = r ++ [c] /\ isspace c = false).

Definition is_pad (s : bytes) : Prop := Forall (fun c => padc c = true) s.

(** Text of a comment: anything on the line. *)
Definition is_text (s : bytes) : Prop := Forall (fun c => c <> CH_NL /\ c <> 0) s.

Lemma plainc_spec c : plainc c = true ->
  33 <= c <= 126 /\ c <> CH_HASH /\ c <> CH_SLASH /\ c <> CH_SEMI /\ c <> CH_EQ /\ c <> CH_LBR /\
  c <> CH_RBR.
Proof.
  unfold plainc. simpl. intros H. bool_to_prop. repeat match goal with
  | H : (_ || _) = false |- _ => apply orb_false_elim in H as [??] end. bool_to_prop. split_and!; lia.
Qed.

Lemma padc_spec c : padc c = true -> c = 32 \/ c = 9.
Proof. unfold padc. intros H. bool_to_prop. destruct H; bool_to_prop; lia. Qed.

Lemma isspace_pad c : padc c = true -> isspace c = true.
Proof. intros [->| ->]%padc_spec; done. Qed.

Lemma isspace_plain c : plainc c = true -> isspace c = false.
Proof.
  intros H%plainc_spec. unfold isspace. apply orb_false_intro; [apply andb_false_iff; right|];
    [apply Z.leb_gt|apply Z.eqb_neq]; lia.
Qed.

Lemma drop_spaces_pad p s : Forall (fun c => isspace c = true) p -> drop_spaces (p ++ s) = drop_spaces s.
Proof. induction 1 as [|c p Hc Hp IH]; simpl; [done|]. by rewrite Hc. Qed.

Lemma drop_spaces_id c s : isspace c = false -> drop_spaces (c :: s) = c :: s.
Proof. intros H. simpl. by rewrite H. Qed.

Lemma trim_tail_pad s c p :
  isspace c = false -> Forall (fun c => isspace c = true) p -> trim_tail ((s ++ [c]) ++ p) = s ++ [c].
Proof.
  intros Hc Hp. unfold trim_tail. rewrite rev_app_distr, drop_spaces_pad by (by apply Forall_rev).
  rewrite rev_app_distr. simpl rev at 2. cbn [app]. rewrite drop_spaces_id by done.
  simpl. by rewrite rev_involutive.
Qed.

Lemma strchr_app c p q : Forall (fun x => x <> c) p -> strchr c (p ++ c :: q) = Some (p, q).
Proof.
  induction 1 as [|x p Hx Hp IH]; simpl; [by rewrite Z.eqb_refl|].
  rewrite (proj2 (Z.eqb_neq x c)) by done. by rewrite IH.
Qed.

Lemma strchr_none c p : Forall (fun x => x <> c) p -> strchr c p = None.
Proof.
  induction 1 as [|x p Hx Hp IH]; simpl; [done|].
  rewrite (proj2 (Z.eqb_neq x c)) by done. by rewrite IH.
Qed.

Lemma cut_none c p : Forall (fun x => x <> c) p -> cut c p = p.
Proof. intros H. unfold cut. by rewrite strchr_none. Qed.

Lemma cut_app c p q : Forall (fun x => x <> c) p -> cut c (p ++ c :: q) = p.
Proof. intros H. unfold cut. by rewrite strchr_app. Qed.

Lemma cut_skip c p q : Forall (fun x => x <> c) p -> cut c (p ++ q) = p ++ cut c q.
Proof.
  induction 1 as [|x p Hx Hp IH]; [done|]. unfold cut in *. cbn [app strchr].
  rewrite (proj2 (Z.eqb_neq x c)) by done. rewrite <- IH. by destruct (strchr c (p ++ q)) as [[]|].
Qed.

(** What starts a comment. *)
Definition marks : list bytes := [[CH_HASH]; [CH_SEMI]; [CH_SLASH; CH_SLASH]].

(** A mark that is found behind this text: slashes only when it has none. *)
Definition mark_ok (s m : bytes) : Prop :=
  In m marks /\ (m = [CH_SLASH; CH_SLASH] -> Forall (fun c => c <> CH_SLASH) s).

(** What may follow a value on its line. *)
Inductive line_end (s : bytes) : bytes -> Prop :=
  | le_plain p : Forall (fun c => isspace c = true) p -> line_end s p
  | le_comment p m t : Forall (fun c => isspace c = true) p -> mark_ok s m -> line_end s (p ++ m ++ t).

Lemma space_not c x : isspace x = true -> 33 <= c -> x <> c.
Proof.
  unfold isspace. intros H Hc. bool_to_prop. destruct H; bool_to_prop; lia.
Qed.

(** The comment step of [ga_conf_trim]. *)
Definition cut_slashes (buf : bytes) : bytes :=
  match strchr CH_SLASH buf with
  | Some (p, c :: _) => if c =? CH_SLASH then p else buf
  | _ => buf
  end.

Lemma spaces_not p c : Forall (fun c => isspace c = true) p -> 33 <= c -> Forall (fun x => x <> c) p.
Proof. intros H Hc. eapply Forall_impl; [exact H|]. intros x Hx. by apply space_not. Qed.

Lemma cut_slashes_id s q : slash_ok s -> Forall (fun c => isspace c = true) q -> cut_slashes (s ++ q) = s ++ q.
Proof.
  intros Hs Hq. apply (spaces_not _ CH_SLASH) in Hq as Hn; [|unfold CH_SLASH; lia]. unfold cut_slashes, slash_ok in *.
  assert (strchr CH_SLASH (s ++ q) = match strchr CH_SLASH s with Some (x, y) => Some (x, y ++ q) | None => None end) as ->.
  { clear Hs. induction s as [|c s IH]; cbn [app strchr]; [by apply strchr_none|].
    destruct (c =? CH_SLASH); [done|]. rewrite IH. by destruct (strchr CH_SLASH s) as [[]|]. }
  destruct (strchr CH_SLASH s) as [[x [|c y]]|]; [|by cbn [app]; rewrite (proj2 (Z.eqb_neq c CH_SLASH))|done].
  destruct q as [|c q]; [done|]. apply Forall_cons in Hn as [Hn _]. cbn [app]. by rewrite (proj2 (Z.eqb_neq c CH_SLASH)).
Qed.

(** The comments of a line are cut off. *)
Lemma cut_comments s e : Forall valc s -> slash_ok s -> line_end s e ->
  exists q, cut_slashes (cut CH_SEMI (cut CH_HASH (s ++ e))) = s ++ q /\ Forall (fun c => isspace c = true) q.
Proof.
  intros Hs Hd He.
  assert (forall q x, x = CH_HASH \/ x = CH_SEMI -> Forall (fun c => isspace c = true) q -> Forall (fun c => c <> x) (s ++ q)) as Hn.
  { intros q x Hx Hq. apply Forall_app. split; [|apply spaces_not; [done|unfold CH_HASH, CH_SEMI in Hx; lia]].
    eapply Forall_impl; [exact Hs|]. intros y (H1 & H2 & _). destruct Hx as [-> | ->]; done. }
  destruct He as [q Hq|q m t Hq [Hm Hsl]]; exists q; (split; [|done]).
  - rewrite (cut_none CH_HASH), (cut_none CH_SEMI) by auto. by apply cut_slashes_id.
  - rewrite app_assoc. destruct Hm as [<-|[<-|[<-|[]]]]; cbn [app].
    + rewrite cut_app, (cut_none CH_SEMI) by auto. by apply cut_slashes_id.
    + rewrite (cut_skip CH_HASH) by auto. unfold cut at 2. cbn [strchr]. change (CH_SEMI =? CH_HASH) with false. cbv iota.
      destruct (strchr CH_HASH t) as [[x y]|]; rewrite cut_app by auto; by apply cut_slashes_id.
    + rewrite (cut_skip CH_HASH), (cut_skip CH_SEMI) by auto.
      change (CH_SLASH :: CH_SLASH :: t) with ([CH_SLASH; CH_SLASH] ++ t).
      rewrite (cut_skip CH_HASH [CH_SLASH; CH_SLASH]), (cut_skip CH_SEMI [CH_SLASH; CH_SLASH]) by (by repeat constructor).
      unfold cut_slashes. cbn [app]. rewrite strchr_app; [done|]. apply Forall_app.
      split; [by apply Hsl|by apply spaces_not; [|unfold CH_SLASH; lia]].
Qed.

(** Trimming recovers a value from its padding and comment. *)
Lemma ga_conf_trim_value p s e :
  is_pad p -> is_value s -> line_end s e -> ga_conf_trim (p ++ s ++ e) = s.
Proof.
  intros Hp ((Hs & Hd) & (c & r & E & Hc & Hc') & (c2 & r2 & E2 & Hc2)) He. unfold ga_conf_trim.
  rewrite drop_spaces_pad by (eapply Forall_impl; [exact Hp|]; apply isspace_pad).
  assert (drop_spaces (s ++ e) = s ++ e) as -> by (subst s; by apply drop_spaces_id).
  assert (match s ++ e with c :: _ => c =? CH_LBR | [] => false end = false) as -> by (subst s; by apply Z.eqb_neq).
  destruct (cut_comments s e Hs Hd He) as (q & E3 & Hq). fold (cut_slashes (cut CH_SEMI (cut CH_HASH (s ++ e)))). rewrite E3.
  rewrite (cut_none CH_HASH).
  - rewrite E2. by apply trim_tail_pad.
  - apply Forall_app. split; [eapply Forall_impl; [exact Hs|]; by intros y (H1 & _)|].
    apply spaces_not; [done|unfold CH_HASH; lia].
Qed.

(** ** Configuration files *)

(** A line of a configuration file, with its padding and trailing comment. *)
Inductive entry :=
  | EPlain (p0 name p1 p2 value tl : bytes)
  | EMap (p0 name key p1 p2 value tl : bytes)
  | EEmpty (lhs tl : bytes)             (** an assignment without value *)
  | ENote (p0 mark text : bytes)
  | ESection (p0 text : bytes)
  | EBlank (p0 : bytes).

Definition render (e : entry) : bytes :=
  match e with
  | EPlain p0 name p1 p2 value tl => p0 ++ name ++ p1 ++ CH_EQ :: p2 ++ value ++ tl ++ [CH_NL]
  | EMap p0 name key p1 p2 value tl =>
      p0 ++ (name ++ CH_LBR :: key ++ [CH_RBR]) ++ p1 ++ CH_EQ :: p2 ++ value ++ tl ++ [CH_NL]
  | EEmpty lhs tl => lhs ++ CH_EQ :: tl ++ [CH_NL]
  | ENote p0 mark text => p0 ++ mark ++ text ++ [CH_NL]
  | ESection p0 text => p0 ++ CH_LBR :: text ++ [CH_NL]
  | EBlank p0 => p0 ++ [CH_NL]
  end.

(** Padding, then nothing or a comment, behind a value. *)
Definition is_tail (s tl : bytes) : Prop :=
  is_pad tl \/ exists p m t, tl = p ++ m ++ t /\ is_pad p /\ mark_ok s m /\ is_text t.

Definition entry_ok (e : entry) : Prop :=
  Z.of_nat (length (render e)) <= 8191 /\
  match e with
  | EPlain p0 name p1 p2 value tl =>
      is_pad p0 /\ is_word name /\ name <> b "include" /\ is_pad p1 /\ is_pad p2 /\
      is_value value /\ is_tail value tl
  | EMap p0 name key p1 p2 value tl =>
      is_pad p0 /\ is_word name /\ is_word key /\ is_pad p1 /\ is_pad p2 /\
      is_value value /\ is_tail value tl
  | EEmpty lhs tl => is_text lhs /\ (CH_EQ ∉ lhs) /\ is_tail [] tl
  | ENote p0 mark text => is_pad p0 /\ In mark marks /\ is_text text
  | ESection p0 text => is_pad p0 /\ is_text text
  | EBlank p0 => is_pad p0
  end.

(** What the line should do to the store. *)
Definition entry_apply (e : entry) (c : conf) : conf :=
  match e with
  | EPlain _ name _ _ value _ => vars_update name (var_assign value) c
  | EMap _ name key _ _ value _ => vars_update name (var_index_assign key value) c
  | EEmpty _ _ | ENote _ _ _ | ESection _ _ | EBlank _ => c
  end.

Lemma is_pad_space p : is_pad p -> Forall (fun c => isspace c = true) p.
Proof. intros H. eapply Forall_impl; [exact H|]. apply isspace_pad. Qed.

Lemma is_tail_end s tl : is_tail s tl -> line_end s (tl ++ [CH_NL]).
Proof.
  intros [H|(p & m & t & -> & Hp & Hm & Ht)].
  - apply le_plain, Forall_app. split; [by apply is_pad_space|by repeat constructor].
  - rewrite <- !app_assoc. apply le_comment; [by apply is_pad_space|done].
Qed.

Lemma pad_not p c : is_pad p -> 33 <= c -> Forall (fun x => x <> c) p.
Proof.
  intros H Hc. eapply Forall_impl; [exact (is_pad_space p H)|]. intros x Hx. by apply space_not.
Qed.

Lemma word_not s c : is_word s -> plainc c = false -> Forall (fun x => x <> c) s.
Proof.
  intros [_ H] Hc. eapply Forall_impl; [exact H|]. intros x Hx ->. simpl in Hx. congruence.
Qed.

Lemma word_valc s : is_word s -> Forall valc s.
Proof.
  intros [_ H]. eapply Forall_impl; [exact H|]. intros x (H1 & H2 & H3 & H4 & _)%plainc_spec.
  unfold valc, CH_NL in *. split_and!; done || lia.
Qed.

Lemma no_slash_ok s : Forall (fun x => x <> CH_SLASH) s -> slash_ok s.
Proof. intros H. unfold slash_ok. by rewrite strchr_none. Qed.

Lemma word_value s : is_word s -> is_value s.
Proof.
  intros Hw. pose proof Hw as [Hne H]. split; [split; [by apply word_valc|by apply no_slash_ok, word_not]|]. split.
  - destruct s as [|c r]; [done|]. exists c, r. apply Forall_cons in H as [H _].
    split; [done|]. split; [by apply isspace_plain|]. apply plainc_spec in H; tauto.
  - destruct s as [|c r _] using rev_ind; [done|]. exists c, r. split; [done|].
    apply Forall_app in H as [_ [H _]%Forall_cons]. by apply isspace_plain.
Qed.

Lemma bracket_value name key :
  is_word name -> is_word key -> is_value (name ++ CH_LBR :: key ++ [CH_RBR]).
Proof.
  intros Hn Hk. pose proof (word_valc _ Hn) as Vn. pose proof (word_valc _ Hk) as Vk.
  assert (Hb : valc CH_LBR /\ valc CH_RBR) by done. destruct Hb as [Hb1 Hb2].
  destruct (word_value _ Hn) as (_ & (c & r & E & Hc & Hc') & _). split; [split|].
  { apply Forall_app. split; [done|]. constructor; [done|]. apply Forall_app. by repeat constructor. }
  { apply no_slash_ok, Forall_app. split; [by apply word_not|]. constructor; [done|].
    apply Forall_app. split; [by apply word_not|by repeat constructor]. }
  split.
  - exists c, (r ++ CH_LBR :: key ++ [CH_RBR]). by rewrite E.
  - exists CH_RBR, (name ++ CH_LBR :: key). split; [by rewrite <- app_assoc|done].
Qed.

(** The assignment part of a line: what is left and right of the first [=]. *)
Lemma parse_split load f p0 s p1 p2 value tl :
  is_pad p0 -> is_value s -> Forall (fun x => x <> CH_EQ) s -> is_pad p1 -> is_pad p2 ->
  is_value value -> is_tail value tl -> str_eqb s (b "include") = false ->
  ga_conf_parse load f (p0 ++ s ++ p1 ++ CH_EQ :: p2 ++ value ++ tl ++ [CH_NL]) =
    match strchr CH_LBR s with
    | Some (name, rest) =>
        match strchr CH_RBR rest with
        | None => cret (-1)
        | Some (key, after) =>
            if bool_decide (key = []) then cret (-1)
            else if negb (bool_decide (after = [])) then cret (-1)
            else cmodify (vars_update name (var_index_assign key value)) ;;; cret 0
        end
    | None => cmodify (vars_update s (var_assign value)) ;;; cret 0
    end.
Proof.
  intros Hp0 Hs Hse Hp1 Hp2 Hv Htl Hinc. unfold ga_conf_parse.
  replace (p0 ++ s ++ p1 ++ CH_EQ :: p2 ++ value ++ tl ++ [CH_NL])
    with ((p0 ++ s ++ p1) ++ CH_EQ :: (p2 ++ value ++ tl ++ [CH_NL])) by (by rewrite <- !app_assoc).
  rewrite strchr_app.
  2:{ apply Forall_app. split; [by apply pad_not; [|unfold CH_EQ; lia]|].
      apply Forall_app. split; [done|]. by apply pad_not; [|unfold CH_EQ; lia]. }
  rewrite bool_decide_false by (destruct p2, value, tl; done).
  rewrite (ga_conf_trim_value p0 s p1) by (done || by apply le_plain, is_pad_space).
  rewrite (ga_conf_trim_value p2 value) by (done || by apply is_tail_end).
  destruct Hs as (_ & (c & r & -> & _) & _). destruct Hv as (_ & (c2 & r2 & -> & _) & _).
  case_bool_decide; [done|]. case_bool_decide; [done|]. by rewrite Hinc.
Qed.

Lemma include_no_bracket name rest : name ++ CH_LBR :: rest <> b "include".
Proof.
  intros E. assert (H : In CH_LBR (b "include")) by (rewrite <- E; apply in_or_app; right; by left).
  simpl in H. unfold CH_LBR in H. lia.
Qed.

Lemma strchr_skip c p s : Forall (fun x => x <> c) p ->
  strchr c (p ++ s) = match strchr c s with Some (x, y) => Some (p ++ x, y) | None => None end.
Proof.
  induction 1 as [|x p Hx Hp IH]; simpl; [by destruct (strchr c s) as [[]|]|].
  rewrite (proj2 (Z.eqb_neq x c)) by done. rewrite IH. by destruct (strchr c s) as [[]|].
Qed.

(** A comment, a section and blanks are trimmed to nothing. *)
Lemma ga_conf_trim_none p0 s e : is_pad p0 -> s = [] \/ head s = Some CH_LBR \/ (exists m, In m marks /\ s = m ++ e) ->
  ga_conf_trim (p0 ++ s) = [].
Proof.
  intros H. unfold ga_conf_trim. rewrite drop_spaces_pad by (by apply is_pad_space).
  intros [->|[Hh|(m & [<-|[<-|[<-|[]]]] & ->)]].
  - done.
  - destruct s as [|c s]; [done|]. injection Hh as ->. done.
  - done.
  - cbn [app drop_spaces]. change (isspace CH_SEMI) with false. cbv iota. change (CH_SEMI =? CH_LBR) with false. cbv iota.
    change (CH_SEMI :: e) with ([CH_SEMI] ++ e). rewrite (cut_skip CH_HASH [CH_SEMI]) by (by repeat constructor). done.
  - cbn [app drop_spaces]. change (isspace CH_SLASH) with false. cbv iota. change (CH_SLASH =? CH_LBR) with false. cbv iota.
    change (CH_SLASH :: CH_SLASH :: e) with ([CH_SLASH; CH_SLASH] ++ e).
    rewrite (cut_skip CH_HASH [CH_SLASH; CH_SLASH]) by (by repeat constructor).
    rewrite (cut_skip CH_SEMI [CH_SLASH; CH_SLASH]) by (by repeat constructor). done.
Qed.

(** A line whose left part is trimmed to nothing is ignored. *)
Lemma ga_conf_parse_ignored load f l c :
  (forall x y, strchr CH_EQ l = Some (x, y) -> ga_conf_trim x = []) -> ga_conf_parse load f l c = Some (0, c).
Proof.
  intros H. unfold ga_conf_parse. destruct (strchr CH_EQ l) as [[x y]|]; [|done].
  rewrite (H x y eq_refl). by case_bool_decide.
Qed.

(** What is before the first [=] of a line that starts with text that has none. *)
Lemma strchr_prefix p s x y : Forall (fun c => c <> CH_EQ) p -> strchr CH_EQ (p ++ s) = Some (x, y) ->
  exists x', x = p ++ x'.
Proof.
  intros H. rewrite strchr_skip by done. destruct (strchr CH_EQ s) as [[x' y']|]; [|done]. intros [= <- _]. by exists x'.
Qed.

Lemma tail_trim tl : is_tail [] tl -> ga_conf_trim (tl ++ [CH_NL]) = [].
Proof.
  intros [H|(p & m & t & -> & Hp & [Hm _] & Ht)].
  - unfold ga_conf_trim. rewrite drop_spaces_pad by (by apply is_pad_space). done.
  - rewrite <- !app_assoc. apply (ga_conf_trim_none p _ (t ++ [CH_NL])); [done|]. right. right. by exists m.
Qed.

(** Parsing a clean line. *)
Lemma ga_conf_parse_entry load f e c :
  entry_ok e -> ga_conf_parse load f (render e) c = Some (0, entry_apply e c).
Proof.
  intros [_ H]. destruct e as [p0 name p1 p2 value tl|p0 name key p1 p2 value tl|l tl|p0 m t|p0 t|p0]; simpl.
  - destruct H as (H0 & Hn & Hi & H1 & H2 & Hv & Ht).
    rewrite (parse_split load f p0 name p1 p2 value tl);
      try done; [|by apply word_value|by apply word_not|by apply str_eqb_ne].
    by rewrite strchr_none by (by apply word_not).
  - destruct H as (H0 & Hn & Hk & H1 & H2 & Hv & Ht).
    rewrite (parse_split load f p0 (name ++ CH_LBR :: key ++ [CH_RBR]) p1 p2 value tl);
      try done; [|by apply bracket_value| |apply str_eqb_ne, include_no_bracket].
    + rewrite strchr_app by (by apply word_not). rewrite strchr_app by (by apply word_not).
      rewrite bool_decide_false by (by destruct Hk). by rewrite bool_decide_true.
    + apply Forall_app. split; [by apply word_not|]. constructor; [done|].
      apply Forall_app. split; [by apply word_not|]. by repeat constructor.
  - destruct H as (_ & Hl & Ht). unfold ga_conf_parse. rewrite strchr_app.
    2: { apply Forall_forall. by intros x I ->. }
    rewrite (tail_trim tl Ht). case_bool_decide; [done|]. by case_bool_decide.
  - destruct H as (H0 & Hm & _). apply ga_conf_parse_ignored. intros x y E.
    rewrite app_assoc in E. apply strchr_prefix in E as [x' ->].
    + rewrite <- app_assoc. apply (ga_conf_trim_none p0 _ x'); [done|]. right. right. by exists m.
    + apply Forall_app. split; [apply pad_not; [done|unfold CH_EQ; lia]|].
      destruct Hm as [<-|[<-|[<-|[]]]]; by repeat constructor.
  - destruct H as (H0 & _). apply ga_conf_parse_ignored. intros x y E.
    replace (p0 ++ CH_LBR :: t ++ [CH_NL]) with ((p0 ++ [CH_LBR]) ++ (t ++ [CH_NL])) in E by (by rewrite <- app_assoc).
    apply strchr_prefix in E as [x' ->].
    + rewrite <- app_assoc. apply (ga_conf_trim_none p0 _ []); [done|]. right. by left.
    + apply Forall_app. split; [apply pad_not; [done|unfold CH_EQ; lia]|by repeat constructor].
  - unfold ga_conf_parse. rewrite strchr_none; [done|]. apply Forall_app.
    split; [apply pad_not; [done|unfold CH_EQ; lia]|by repeat constructor].
Qed.

(** A rendered line is one line of the file. *)
Definition is_line (l : bytes) : Prop :=
  exists s, l = s ++ [CH_NL] /\ is_text s /\ Z.of_nat (length s) < 8191.

Lemma text_app s t : is_text (s ++ t) <-> is_text s /\ is_text t.
Proof. apply Forall_app. Qed.

Lemma text_pad p : is_pad p -> is_text p.
Proof.
  intros H. eapply Forall_impl; [exact H|]. intros x [-> | ->]%padc_spec; unfold CH_NL; lia.
Qed.

Lemma text_valc s : Forall valc s -> is_text s.
Proof. intros H. eapply Forall_impl; [exact H|]. intros x (_ & _ & ? & ?). done. Qed.

Lemma text_mark m : In m marks -> is_text m.
Proof. intros [<-|[<-|[<-|[]]]]; by repeat constructor. Qed.

Lemma text_tail s tl : is_tail s tl -> is_text tl.
Proof.
  intros [H|(p & m & t & -> & Hp & [Hm _] & Ht)]; [by apply text_pad|].
  rewrite !text_app. split; [by apply text_pad|]. split; [by apply text_mark|done].
Qed.

Lemma render_line e : entry_ok e -> is_line (render e).
Proof.
  intros [Hl H]. assert (Hx : exists s, render e = s ++ [CH_NL] /\ is_text s).
  { destruct e as [p0 name p1 p2 value tl|p0 name key p1 p2 value tl|l tl|p0 m t|p0 t|p0]; simpl in *.
    - destruct H as (H0 & Hn & Hi & H1 & H2 & ((Hv & _) & _) & Ht).
      exists (p0 ++ name ++ p1 ++ CH_EQ :: p2 ++ value ++ tl).
      split; [by repeat rewrite <- ?app_assoc, <- ?app_comm_cons|].
      rewrite !text_app. split; [by apply text_pad|]. split; [by apply text_valc, word_valc|].
      split; [by apply text_pad|]. constructor; [done|]. rewrite !text_app.
      split; [by apply text_pad|]. split; [by apply text_valc|by eapply text_tail].
    - destruct H as (H0 & Hn & Hk & H1 & H2 & ((Hv & _) & _) & Ht).
      exists (p0 ++ (name ++ CH_LBR :: key ++ [CH_RBR]) ++ p1 ++ CH_EQ :: p2 ++ value ++ tl).
      split; [by repeat rewrite <- ?app_assoc, <- ?app_comm_cons|].
      apply text_app. split; [by apply text_pad|].
      apply text_app. split; [by apply text_valc, bracket_value|].
      apply text_app. split; [by apply text_pad|]. constructor; [done|]. rewrite !text_app.
      split; [by apply text_pad|]. split; [by apply text_valc|by eapply text_tail].
    - destruct H as (Hle & _ & Ht). exists (l ++ CH_EQ :: tl). split; [by rewrite <- app_assoc|].
      apply text_app. split; [done|]. constructor; [done|by eapply text_tail].
    - destruct H as (H0 & Hm & Ht). exists (p0 ++ m ++ t). split; [by rewrite <- !app_assoc|].
      rewrite !text_app. split; [by apply text_pad|]. split; [by apply text_mark|done].
    - destruct H as [H0 Ht]. exists (p0 ++ CH_LBR :: t). split; [by rewrite <- app_assoc|].
      apply text_app. split; [by apply text_pad|by constructor].
    - exists p0. split; [done|by apply text_pad]. }
  destruct Hx as (s & E & Hs). exists s. split; [done|]. split; [done|].
  rewrite E, length_app in Hl. simpl in Hl. lia.
Qed.

Lemma fgets_line s : forall n r, Forall (fun x => x <> CH_NL) s -> (length s < n)%nat ->
  fgets n (s ++ CH_NL :: r) = (s ++ [CH_NL], r).
Proof.
  induction s as [|c s IH]; intros [|n] r Hs Hn; simpl in *; try lia; [done|].
  apply Forall_cons in Hs as [Hc Hs]. rewrite (proj2 (Z.eqb_neq _ _)) by done.
  by rewrite IH by (done || lia).
Qed.

(** The lines of a file made of lines. *)
Lemma conf_lines_concat ls : forall fuel,
  Forall is_line ls -> (length ls <= fuel)%nat -> conf_lines fuel (concat ls) = ls.
Proof.
  induction ls as [|l ls IH]; intros fuel Hl Hf; [by destruct fuel|].
  destruct fuel as [|fuel]; [simpl in Hf; lia|]. apply Forall_cons in Hl as [(s & -> & Hs & Hn) Hl].
  assert (E : fgets (Z.to_nat 8191) (concat ((s ++ [CH_NL]) :: ls)) = (s ++ [CH_NL], concat ls)).
  { cbn [concat]. rewrite <- app_assoc. apply fgets_line; [|lia].
    eapply Forall_impl; [exact Hs|]. by intros x [? _]. }
  cbn [conf_lines]. rewrite E. destruct (concat ((s ++ [CH_NL]) :: ls)) eqn:Ec.
  { apply (f_equal length) in Ec. cbn [concat] in Ec. rewrite !length_app in Ec. simpl in Ec. lia. }
  rewrite IH by (done || simpl in Hf; lia). f_equal. apply cut_none, Forall_app.
  split; [|by repeat constructor]. eapply Forall_impl; [exact Hs|]. by intros x [_ ?].
Qed.

Lemma load_lines_entries load f es : forall n c,
  Forall entry_ok es ->
  load_lines (ga_conf_parse load f) n (map render es) c =
    Some (n + Z.of_nat (length es), fold_left (fun c e => entry_apply e c) es c).
Proof.
  induction es as [|e es IH]; intros n c He; simpl; [by rewrite Z.add_0_r|].
  apply Forall_cons in He as [He Hes]. unfold cbind.
  rewrite (ga_conf_parse_entry load f e c He). simpl. rewrite IH by done. f_equal. f_equal. lia.
Qed.

Lemma concat_render_fuel es :
  Forall entry_ok es -> (length (map render es) <= length (concat (map render es)))%nat.
Proof.
  induction 1 as [|e es He _ IH]; simpl; [lia|]. rewrite length_app.
  destruct (render_line e He) as (s & -> & _). rewrite length_app. simpl. lia.
Qed.

Lemma ga_conf_load_entries fs depth f es c :
  Forall entry_ok es -> fs f = Some (concat (map render es)) ->
  ga_conf_load fs (S depth) f c =
    Some (Z.of_nat (length es), fold_left (fun c e => entry_apply e c) es c).
Proof.
  intros He Hf. cbn [ga_conf_load]. rewrite Hf. rewrite conf_lines_concat.
  - by rewrite load_lines_entries.
  - apply Forall_map. eapply Forall_impl; [exact He|]. apply render_line.
  - by apply concat_render_fuel.
Qed.

(** ** What a sequence of lines means *)

(** The plain value a reader should see: the last assignment. *)
Fixpoint plain_of (name : bytes) (cur : bytes) (es : list entry) : bytes :=
  match es with
  | [] => cur
  | EPlain _ n _ _ v _ :: es => plain_of name (if str_eqb name n then v else cur) es
  | _ :: es => plain_of name cur es
  end.

(** The value of a map entry: the last assignment after the last plain
    assignment to the same name, which drops the map. *)
Fixpoint mapped_of (name key : bytes) (cur : option bytes) (es : list entry) : option bytes :=
  match es with
  | [] => cur
  | EPlain _ n _ _ _ _ :: es => mapped_of name key (if str_eqb name n then None else cur) es
  | EMap _ n k _ _ v _ :: es =>
      mapped_of name key (if str_eqb name n && str_eqb key k then Some v else cur) es
  | _ :: es => mapped_of name key cur es
  end.

Definition var_data (name : bytes) (c : conf) : bytes := data (vars_index name c).
Definition var_entry (name key : bytes) (c : conf) : option bytes :=
  sm_find key (mapdata (vars_index name c)).

Lemma vars_index_update n n' f c :
  conf_ok c -> vars_index n (vars_update n' f c) =
    if str_eqb n n' then f (vars_index n' c) else vars_index n c.
Proof.
  intros [H _]. unfold vars_index at 1, vars_update, set_vars. simpl.
  destruct (str_eqb n n') eqn:E.
  - apply str_eqb_eq in E as ->. by rewrite sm_find_insert.
  - rewrite sm_find_insert_ne; [done|]. intros ->. by rewrite str_eqb_refl in E.
Qed.

Lemma entry_apply_ok e c : conf_ok c -> conf_ok (entry_apply e c).
Proof. intros Hc. destruct e; simpl; try done; apply vars_update_ok; auto with cstream. Qed.

Lemma fold_entries es name key : forall c, conf_ok c ->
  let c' := fold_left (fun c e => entry_apply e c) es c in
  conf_ok c' /\ var_data name c' = plain_of name (var_data name c) es /\
  var_entry name key c' = mapped_of name key (var_entry name key c) es.
Proof.
  induction es as [|e es IH]; intros c Hc; simpl; [done|].
  destruct (IH (entry_apply e c) (entry_apply_ok e c Hc)) as (H1 & H2 & H3).
  split; [done|]. rewrite H2, H3. clear IH H1 H2 H3.
  destruct e as [p0 n p1 p2 v tl|p0 n k p1 p2 v tl|? ?|? ? ?|? ?|?]; cbn [entry_apply plain_of mapped_of]; [| |done..].
  - unfold var_data, var_entry. rewrite vars_index_update by done. by destruct (str_eqb name n).
  - unfold var_data, var_entry. rewrite vars_index_update by done.
    destruct (str_eqb name n) eqn:E; [|done]. apply str_eqb_eq in E as ->. simpl. split; [done|].
    destruct (str_eqb key k) eqn:Ek.
    + apply str_eqb_eq in Ek as ->. rewrite sm_find_insert; [done|]. by apply vars_index_ok.
    + rewrite sm_find_insert_ne; [done|]. intros ->. by rewrite str_eqb_refl in Ek.
Qed.

Lemma mapped_of_nonempty es name key : forall cur,
  Forall entry_ok es -> cur <> Some [] -> mapped_of name key cur es <> Some [].
Proof.
  induction es as [|e es IH]; intros cur He Hc; [done|]. apply Forall_cons in He as [He Hes].
  destruct e; cbn [mapped_of]; apply IH; try done.
  - by destruct (str_eqb _ _).
  - destruct (_ && _); [|done]. destruct He as (_ & _ & _ & _ & _ & _ & (_ & (c & r & -> & _) & _) & _).
    done.
Qed.

Lemma readstr_data name c : ga_conf_readstr name c = Some (var_data name c, c).
Proof.
  unfold ga_conf_readstr, var_data, vars_index, cbind, cget. by destruct (sm_find name (ga_vars c)).
Qed.

Lemma mapreadv_entry name key c :
  var_entry name key c <> Some [] ->
  exists c', ga_conf_mapreadv name key None c =
    Some (option_map (fun v => {| cb_chars := v; cb_terminated := true |}) (var_entry name key c), c').
Proof.
  unfold ga_conf_mapreadv, var_entry, vars_index, cbind, cget, cput, var_index. intros H.
  destruct (sm_find name (ga_vars c)) as [v|]; [|by exists c].
  destruct (sm_find key (mapdata v)) as [s|]; simpl; [|eauto].
  case_bool_decide; [congruence|]. unfold cret. eauto.
Qed.

(** *** Decimal text *)

(** The decimal digits of a non-negative number, most significant first. *)
Fixpoint dec_digits (fuel : nat) (n : Z) (acc : bytes) : bytes :=
  match fuel with
  | O => acc
  | S fuel => if n <? 10 then (48 + n) :: acc
              else dec_digits fuel (n / 10) ((48 + n mod 10) :: acc)
  end.

(** What [printf("%d")] prints ([fuel] enough for any number of that size). *)
Definition print_int (n : Z) : bytes :=
  if n <? 0 then 45 :: dec_digits (S (Z.to_nat (Z.log2 (- n)))) (- n) []
  else dec_digits (S (Z.to_nat (Z.log2 n))) n [].

Lemma digit_val_dec d : 0 <= d < 10 -> digit_val (48 + d) = Some d.
Proof.
  intros H. unfold digit_val. rewrite (proj2 (Z.leb_le _ _)), (proj2 (Z.leb_le _ _)) by lia.
  simpl. f_equal. lia.
Qed.

(** All digits: their value from an accumulator. *)
Fixpoint dec_value (acc : Z) (l : bytes) : Z :=
  match l with [] => acc | c :: l => dec_value (acc * 10 + (c - 48)) l end.

Definition is_dec (c : Z) : Prop := 48 <= c <= 57.

Lemma digits_dec l : forall acc n, Forall is_dec l ->
  digits 10 acc n l = (dec_value acc l, (n + length l)%nat, []).
Proof.
  induction l as [|c l IH]; intros acc n H; simpl; [by rewrite Nat.add_0_r|].
  apply Forall_cons in H as [Hc Hl]. unfold is_dec in Hc.
  replace c with (48 + (c - 48)) at 1 by lia. rewrite digit_val_dec by lia.
  rewrite (proj2 (Z.ltb_lt _ _)) by lia. rewrite IH by done. by rewrite Nat.add_succ_r.
Qed.

Lemma dec_value_app acc l c : dec_value acc (l ++ [c]) = dec_value acc l * 10 + (c - 48).
Proof. revert acc. induction l as [|x l IH]; intros acc; simpl; [done|]. apply IH. Qed.

Lemma log2_div10 n : 10 <= n -> Z.log2 (n / 10) < Z.log2 n.
Proof.
  intros Hn. apply Z.log2_lt_pow2; [apply Z.div_str_pos; lia|].
  pose proof (Z.log2_spec n ltac:(lia)) as [_ H]. pose proof (Z.log2_pos n ltac:(lia)).
  apply Z.div_lt_upper_bound; [lia|].
  rewrite <- (Z.succ_pred (Z.log2 n)) in H at 1.
  replace (Z.succ (Z.succ (Z.pred (Z.log2 n)))) with (Z.succ (Z.log2 n)) in H by lia.
  rewrite Z.pow_succ_r in H by lia. lia.
Qed.

(** The printed digits have the value of the number and no leading zero. *)
Lemma dec_digits_spec fuel : forall n acc,
  0 <= n -> Z.log2 n < Z.of_nat fuel ->
  exists l, dec_digits fuel n acc = l ++ acc /\ Forall is_dec l /\ l <> [] /\ dec_value 0 l = n /\
    (n <> 0 -> exists c r, l = c :: r /\ c <> 48).
Proof.
  induction fuel as [|fuel IH]; intros n acc Hn Hf.
  { pose proof (Z.log2_nonneg n). lia. }
  cbn [dec_digits]. destruct (n <? 10) eqn:E; bool_to_prop.
  - exists [48 + n]. split; [done|]. split; [constructor; [unfold is_dec; lia|done]|].
    split; [done|]. split; [simpl; lia|]. intros H. exists (48 + n), []. split; [done|lia].
  - pose proof (log2_div10 n E). pose proof (Z.div_pos n 10 Hn ltac:(lia)).
    pose proof (Z.mod_pos_bound n 10 ltac:(lia)).
    destruct (IH (n / 10) ((48 + n mod 10) :: acc)) as (l & E1 & K1 & K2 & K3 & K4); [lia..|].
    exists (l ++ [48 + n mod 10]). split; [by rewrite E1, <- app_assoc|]. split.
    { apply Forall_app. split; [done|]. constructor; [unfold is_dec; lia|done]. }
    split; [by destruct l|]. split.
    { rewrite dec_value_app, K3. pose proof (Z.div_mod n 10 ltac:(lia)). lia. }
    intros _. destruct K4 as (c & r & -> & Hc).
    { pose proof (Z.div_str_pos n 10 ltac:(lia)). lia. }
    by eexists _, _.
Qed.

(** Clamping to [long] and the range error. *)
Definition to_long (v : Z) : Z := if LONG_MAX <? v then LONG_MAX else if v <? LONG_MIN then LONG_MIN else v.

Lemma strtol_digits (neg : bool) c r :
  Forall is_dec (c :: r) -> c <> 48 ->
  strtol ((if neg then [45] else []) ++ c :: r) =
    let v := if neg then - dec_value 0 (c :: r) else dec_value 0 (c :: r) in
    {| sl_val := to_long v; sl_erange := (LONG_MAX <? v) || (v <? LONG_MIN);
       sl_rest := []; sl_any := true |}.
Proof.
  intros H Hc. pose proof H as [Hd _]%Forall_cons. unfold is_dec in Hd.
  assert (Hx : c = 49 \/ c = 50 \/ c = 51 \/ c = 52 \/ c = 53 \/ c = 54 \/ c = 55 \/ c = 56 \/ c = 57)
    by lia.
  unfold strtol. destruct neg; cbn [app].
  - rewrite drop_spaces_id by done.
    destruct Hx as [->|[->|[->|[->|[->|[->|[->|[->| ->]]]]]]]];
      cbv beta iota zeta; rewrite digits_dec by done; done.
  - destruct Hx as [->|[->|[->|[->|[->|[->|[->|[->| ->]]]]]]]];
      rewrite drop_spaces_id by done; cbv beta iota zeta; rewrite digits_dec by done; done.
Qed.

Lemma strtol_print n :
  strtol (print_int n) =
    {| sl_val := to_long n; sl_erange := (LONG_MAX <? n) || (n <? LONG_MIN);
       sl_rest := []; sl_any := true |}.
Proof.
  destruct (decide (n = 0)) as [->|Hn]; [done|]. unfold print_int.
  destruct (n <? 0) eqn:E; bool_to_prop.
  - destruct (dec_digits_spec (S (Z.to_nat (Z.log2 (- n)))) (- n) []) as (l & -> & H1 & _ & H3 & H4);
      [lia|pose proof (Z.log2_nonneg (- n)); lia|]. destruct H4 as (c & r & -> & Hc); [lia|].
    rewrite (right_id_L [] (++)). pose proof (strtol_digits true c r H1 Hc) as S. cbn [app] in S. rewrite S. cbv zeta.
    rewrite H3, Z.opp_involutive. done.
  - destruct (dec_digits_spec (S (Z.to_nat (Z.log2 n))) n []) as (l & -> & H1 & _ & H3 & H4);
      [lia|pose proof (Z.log2_nonneg n); lia|]. destruct H4 as (c & r & -> & Hc); [done|].
    rewrite (right_id_L [] (++)). pose proof (strtol_digits false c r H1 Hc) as S. cbn [app] in S. rewrite S. cbv zeta. by rewrite H3.
Qed.

Lemma print_int_nonempty n : print_int n <> [].
Proof.
  intros E. pose proof (strtol_print n) as H. rewrite E in H. done.
Qed.

Lemma value_intro c r c2 r2 :
  c :: r = r2 ++ [c2] -> isspace c = false -> c <> CH_LBR -> isspace c2 = false ->
  Forall valc (c :: r) -> slash_ok (c :: r) -> is_value (c :: r).
Proof. intros E H1 H2 H3 H4 H5. split; [done|]. split; [by exists c, r|by exists c2, r2]. Qed.

(** ** Properties *)

(** C19. Configuration files are read back exactly.  For every file made of
    assignments to a name or to a key, in brackets behind a name, assignments without a value,
    section headers, comment lines (that start with [#], [;] or two slashes) and blank
    lines, with any blanks around the parts and a trailing comment of one of the three
    forms: loading it into an empty store returns the number of lines; afterwards every
    plain parameter reads as the last value assigned to it (empty if none) and every map
    entry as the last value assigned to it since the last plain assignment of the same
    name.  Names and keys are printable characters without blanks, [#], [;], [/], [=] and
    brackets, and no name is [include].  A value may hold anything else on its line, blanks
    and slashes included (a mime type, a path), but for what the parser takes for
    something else: it has no [#] and no [;], its first slash is not doubled, it does not
    start with a bracket, and a comment of two slashes may follow it only when it has no
    slash itself.  Lines have at most 8191 bytes with their newline, and no NUL. *)
Theorem conf_file_roundtrip fs depth f es :
  Forall entry_ok es -> fs f = Some (concat (map render es)) ->
  exists c, ga_conf_load fs (S depth) f conf0 = Some (Z.of_nat (length es), c) /\
    (forall name, ga_conf_readstr name c = Some (plain_of name [] es, c)) /\
    (forall name key, exists c', ga_conf_mapreadv name key None c =
       Some (option_map (fun v => {| cb_chars := v; cb_terminated := true |})
               (mapped_of name key None es), c')).
Proof.
  intros He Hf. eexists. split; [by apply ga_conf_load_entries|].
  assert (H0 : conf_ok conf0) by done. split.
  - intros name. rewrite readstr_data.
    destruct (fold_entries es name [] conf0 H0) as (_ & -> & _). done.
  - intros name key. destruct (fold_entries es name key conf0 H0) as (_ & _ & E).
    change (var_entry name key conf0) with (@None bytes) in E. rewrite <- E.
    apply mapreadv_entry. rewrite E. by apply mapped_of_nonempty.
Qed.

Definition sample_file : list entry :=
  [ESection [] (b "video]"); ENote [] (b "#") (b " sample");
   EPlain (b "  ") (b "video-fps") (b " ") (b " ") (b "30") (b " ; frames");
   EMap [] (b "video-specific") (b "preset") (b " ") [] (b "fast mode") []; EBlank [];
   EEmpty (b "video-specific[level] ") (b "  # none");
   EPlain [] (b "video-mimetype") (b " ") (b " ") (b "video/H264") [];
   EPlain [] (b "video-fps") [] [] (b "60") (b "// again")].

(** Deciding what a line needs. *)
Definition is_wordb (s : bytes) : bool := negb (bool_decide (s = [])) && forallb plainc s.
Definition textb (s : bytes) : bool := forallb (fun c => negb (c =? CH_NL) && negb (c =? 0)) s.

Lemma is_wordb_ok s : is_wordb s = true -> is_word s.
Proof.
  unfold is_wordb. intros [H1 H2]%andb_prop. apply negb_true_iff, bool_decide_eq_false in H1. split; [done|].
  apply List.Forall_forall. by apply List.forallb_forall.
Qed.
Lemma padb_ok s : forallb padc s = true -> is_pad s.
Proof. intros H. apply List.Forall_forall. by apply List.forallb_forall. Qed.
Lemma textb_ok s : textb s = true -> is_text s.
Proof.
  intros H. apply List.Forall_forall. intros x I. apply (proj1 (List.forallb_forall _ _) H) in I.
  apply andb_prop in I as [I1 I2]. apply negb_true_iff, Z.eqb_neq in I1. apply negb_true_iff, Z.eqb_neq in I2. done.
Qed.

(** A value given with its first and last characters. *)
Ltac value_of c r c2 r2 := apply (value_intro c r c2 r2); done || by repeat constructor.

Lemma sample_file_ok : Forall entry_ok sample_file.
Proof.
  unfold sample_file. rewrite !Forall_cons, Forall_nil. split_and!; [..|done]; (split; [simpl; lia|]); cbn beta iota.
  - split; [by apply padb_ok|by apply textb_ok].
  - split_and!; [by apply padb_ok|by left|by apply textb_ok].
  - split_and!; [by apply padb_ok|by apply is_wordb_ok|done|by apply padb_ok|by apply padb_ok|value_of 51 [48] 48 [51]|].
    right. exists [32], [CH_SEMI], (b " frames"). split_and!; [done|by apply padb_ok|split; [right; by left|done]|by apply textb_ok].
  - split_and!; [by apply padb_ok|by apply is_wordb_ok|by apply is_wordb_ok|by apply padb_ok|by apply padb_ok| |by left; constructor].
    value_of 102 (b "ast mode") 101 (b "fast mod").
  - constructor.
  - split_and!; [by apply textb_ok|by apply (bool_decide_unpack _)|]. right.
    exists (b "  "), [CH_HASH], (b " none"). split_and!; [done|by apply padb_ok|split; [by left|done]|by apply textb_ok].
  - split_and!; [by apply padb_ok|by apply is_wordb_ok|done|by apply padb_ok|by apply padb_ok| |by left; constructor].
    value_of 118 (b "ideo/H264") 52 (b "video/H26").
  - split_and!; [by apply padb_ok|by apply is_wordb_ok|done|by apply padb_ok|by apply padb_ok|value_of 54 [48] 48 [54]|].
    right. exists [], [CH_SLASH; CH_SLASH], (b " again").
    split_and!; [done|by apply padb_ok|split; [right; right; by left|by repeat constructor]|by apply textb_ok].
Qed.

Lemma conf_file_roundtrip_witness :
  exists c, ga_conf_load (fun _ => Some (concat (map render sample_file))) 1 (b "a.conf") conf0
      = Some (8, c) /\
    ga_conf_readstr (b "video-fps") c = Some (b "60", c) /\
    ga_conf_readstr (b "video-mimetype") c = Some (b "video/H264", c) /\
    exists c', ga_conf_mapreadv (b "video-specific") (b "preset") None c =
       Some (Some {| cb_chars := b "fast mode"; cb_terminated := true |}, c').
Proof.
  destruct (conf_file_roundtrip (fun _ => Some (concat (map render sample_file))) 0 (b "a.conf") sample_file)
    as (c & E & P & M).
  - exact sample_file_ok.
  - reflexivity.
  - exists c. split; [exact E|]. split; [exact (P (b "video-fps"))|]. split; [exact (P (b "video-mimetype"))|].
    exact (M (b "video-specific") (b "preset")).
Defined.

(** Integers survive the configuration text.  Whatever was stored
    before, after [ga_conf_writev] of the decimal text of [n], of any magnitude,
    [ga_conf_readint] returns [n] when it fits an [int] and 0 otherwise (also
    beyond the range of [long], where [strtol] saturates). *)
Theorem readint_roundtrip c key n :
  sm_sorted (ga_vars c) ->
  exists c', ga_conf_writev key (print_int n) c = Some (0, c') /\
    ga_conf_readint key c' = Some (if (INT_MIN <=? n) && (n <=? INT_MAX) then n else 0, c').
Proof.
  intros Hs. eexists. split; [done|]. unfold ga_conf_readint, cbind. rewrite readstr_data.
  unfold var_data, vars_index, vars_update, set_vars. simpl. rewrite sm_find_insert by done. simpl.
  rewrite bool_decide_false by apply print_int_nonempty. rewrite strtol_print. simpl.
  unfold to_long, LONG_MAX, LONG_MIN, INT_MAX, INT_MIN.
  destruct (2 ^ 63 - 1 <? n) eqn:E1; bool_to_prop.
  { simpl. rewrite (proj2 (Z.leb_gt n _)) by lia. by rewrite andb_false_r. }
  destruct (n <? - 2 ^ 63) eqn:E2; bool_to_prop.
  { simpl. rewrite (proj2 (Z.leb_gt _ n)) by lia. done. }
  simpl orb. destruct (2147483647 <? n) eqn:E3; bool_to_prop.
  { simpl. rewrite (proj2 (Z.leb_gt n _)) by lia. by rewrite andb_false_r. }
  destruct (n <? -2147483648) eqn:E4; bool_to_prop.
  { simpl. rewrite (proj2 (Z.leb_gt _ n)) by lia. done. }
  rewrite (proj2 (Z.leb_le _ n)), (proj2 (Z.leb_le n _)) by lia. done.
Qed.

Lemma readint_roundtrip_witness :
  exists c', ga_conf_writev (b "server-port") (print_int (-8554)) conf0 = Some (0, c') /\
    ga_conf_readint (b "server-port") c' = Some (-8554, c').
Proof. apply (readint_roundtrip conf0 (b "server-port") (-8554)). exact I. Defined.

(** The store stays well formed.  From the empty store, any sequence
    of writes, erasures, map reads, map writes, map erasures, map iterations and
    parsed lines (with included files that behave the same way) is defined, and
    leaves the parameters and every parameter map sorted without duplicates, and
    every map iterator at the end or on an existing key. *)
Theorem conf_store_invariant load os :
  (forall p, conf_safe (load p)) ->
  exists c, conf_run load os conf0 = Some (tt, c) /\ conf_ok c.
Proof.
  intros Hl. assert (H0 : conf_ok conf0) by done.
  destruct (conf_run_safe load os Hl conf0 H0) as ([] & c & E & Hc). eauto.
Qed.

Lemma conf_store_invariant_witness :
  exists c, conf_run (fun _ => cret (-1))
      [OParse (b "x") (b "a[k] = 1"); OMapReset (b "a"); OMapNext (b "a") None; OErase (b "a")] conf0
    = Some (tt, c) /\ conf_ok c.
Proof.
  apply (conf_store_invariant (fun _ => cret (-1))
    [OParse (b "x") (b "a[k] = 1"); OMapReset (b "a"); OMapNext (b "a") None; OErase (b "a")]).
  intros p. apply conf_safe_ret.
Defined.

(** Enumerating the configuration with [ga_conf_reset],
    [ga_conf_key] and [ga_conf_nextkey] visits every parameter exactly once, in
    increasing key order, ends with NULL, and changes no parameter. *)
Theorem conf_enum_complete c :
  conf_ok c ->
  exists c', conf_enum (length (ga_vars c)) c = Some (map fst (ga_vars c), c') /\
    ga_vars c' = ga_vars c /\
    StronglySorted key_lt (map fst (ga_vars c)).
Proof.
  intros [Hs _]. destruct c as [m i]. simpl in *.
  assert (HS : StronglySorted key_lt (map fst m)).
  { clear i. induction m as [|[k v] m IH]; simpl; [constructor|]. destruct Hs as [H1 H2].
    constructor; [auto|]. by apply Forall_map. }
  destruct m as [|[k v] m]; [by eexists|].
  destruct (enum_next_walk m [] k v Hs) as [j Hj]. cbn [app] in Hj.
  exists {| ga_vars := (k, v) :: m; ga_vmi := j |}. split; [|done].
  unfold conf_enum, cbind, ga_conf_reset, cmodify, ga_conf_key, cbind, cget, set_vmi.
  cbn [ga_vars ga_vmi sm_begin length]. unfold cret at 1. rewrite Hj. done.
Qed.

Lemma conf_enum_complete_witness :
  exists c', conf_enum 2 {| ga_vars := [(b "a", var_clear); (b "b", var_clear)]; ga_vmi := ItEnd |}
      = Some ([b "a"; b "b"], c') /\
    ga_vars c' = [(b "a", var_clear); (b "b", var_clear)] /\
    StronglySorted key_lt [b "a"; b "b"].
Proof.
  apply (conf_enum_complete {| ga_vars := [(b "a", var_clear); (b "b", var_clear)]; ga_vmi := ItEnd |}).
  split; [simpl; split_and!; by repeat constructor|]. intros k v. simpl.
  destruct (str_eqb k _); [by intros [= <-]|]. destruct (str_eqb k _); [by intros [= <-]|done].
Defined.

(** [ga_conf_maperase] removes the whole parameter, not the key it
    is given: afterwards the parameter map has no key at all and the plain value
    is gone too, whatever [key] was. *)
Theorem maperase_drops_map c mapname key :
  exists c', ga_conf_maperase mapname key c = Some (tt, c') /\
    sm_find mapname (ga_vars c') = None /\
    (forall k, ga_conf_haskey mapname k c' = Some (0, c')) /\
    ga_conf_readstr mapname c' = Some ([], c').
Proof.
  unfold ga_conf_maperase, cbind, cget. destruct (sm_find mapname (ga_vars c)) as [v|] eqn:E.
  - exists (erase_var mapname c). split; [done|].
    assert (F : sm_find mapname (ga_vars (erase_var mapname c)) = None).
    { simpl. by rewrite sm_find_erase, str_eqb_refl. }
    split; [done|]. unfold ga_conf_haskey, ga_conf_readstr, cbind, cget. by rewrite F.
  - exists c. split; [done|]. split; [done|].
    unfold ga_conf_haskey, ga_conf_readstr, cbind, cget. by rewrite E.
Qed.

(** Reading a key that a parameter map does not have creates it:
    [ga_conf_mapreadv] returns NULL, but afterwards the key exists (with the
    empty value) and every other entry is as before. *)
Theorem mapread_creates_key c mapname key v slen :
  conf_ok c -> sm_find mapname (ga_vars c) = Some v -> sm_find key (mapdata v) = None ->
  exists c', ga_conf_mapreadv mapname key slen c = Some (None, c') /\
    ga_conf_haskey mapname key c = Some (0, c) /\ ga_conf_haskey mapname key c' = Some (1, c') /\
    (forall k, k <> key -> var_entry mapname k c' = var_entry mapname k c).
Proof.
  intros [Hs Hv] E Ek. unfold ga_conf_mapreadv, ga_conf_haskey, var_index, cbind, cget, cput.
  rewrite E, Ek. eexists. split; [done|]. unfold var_haskey. rewrite Ek. split; [done|].
  simpl. rewrite sm_find_insert by done. simpl. destruct (Hv _ _ E) as [Hm _].
  rewrite sm_find_insert by done. split; [done|]. intros k Hk. unfold var_entry, vars_index.
  simpl. rewrite sm_find_insert, E by done. simpl. by rewrite sm_find_insert_ne.
Qed.

Lemma mapread_creates_key_witness :
  exists c', ga_conf_mapreadv (b "m") (b "x") None
      {| ga_vars := [(b "m", var_clear)]; ga_vmi := ItEnd |} = Some (None, c') /\
    ga_conf_haskey (b "m") (b "x") {| ga_vars := [(b "m", var_clear)]; ga_vmi := ItEnd |}
      = Some (0, {| ga_vars := [(b "m", var_clear)]; ga_vmi := ItEnd |}) /\
    ga_conf_haskey (b "m") (b "x") c' = Some (1, c') /\
    (forall k, k <> b "x" -> var_entry (b "m") k c' =
       var_entry (b "m") k {| ga_vars := [(b "m", var_clear)]; ga_vmi := ItEnd |}).
Proof.
  apply (mapread_creates_key {| ga_vars := [(b "m", var_clear)]; ga_vmi := ItEnd |} _ _ var_clear).
  - split; [simpl; split; [constructor|done]|]. intros k v. simpl.
    destruct (str_eqb k _); [by intros [= <-]|done].
  - reflexivity.
  - reflexivity.
Defined.

(** An include cycle has no guard: a file that includes itself is
    never loaded, however deep the nesting the stack allows. *)
Theorem include_cycle_diverges depth c :
  ga_conf_load (fun _ => Some (b "include = self.conf")) depth (b "self.conf") c = None.
Proof.
  revert c. induction depth as [|depth IH]; intros c; [done|].
  cbn [ga_conf_load]. change (conf_lines _ _) with [b "include = self.conf"].
  cbn [load_lines]. unfold cbind.
  change (ga_conf_parse (ga_conf_load (fun _ => Some (b "include = self.conf")) depth) (b "self.conf")
    (b "include = self.conf")) with
    (ga_conf_load (fun _ => Some (b "include = self.conf")) depth (b "self.conf")).
  by rewrite IH.
Qed.
