(* ===== verification/CNum.v ===== *)
(** * CNum: numbers and strings of the C library

    What the modelled code uses of [stdlib.h], [string.h] and of IEEE-754
    arithmetic: [atoi], [atof], prefixes and searches in strings, double
    precision (binary64) values and their conversion to [int].  Doubles are the
    [spec_float] of the Standard Library, whose operations round to nearest even
    and can be evaluated. *)

From Stdlib Require Import ZArith Lia String.
From Stdlib Require Import Floats.SpecFloat.
From stdpp Require Import base list.
From S2P Require Import Prelude StdMap GaConf.

(** ** Strings *)

(** [strncmp(s, p, strlen(p)) == 0]: [p] is a prefix of [s]. *)
Fixpoint has_prefix (p s : bytes) : bool :=
  match p, s with
  | [], _ => true
  | x :: p, y :: s => (x =? y) && has_prefix p s
  | _ :: _, [] => false
  end.

(** [std::string::find(":")] and [substr(pos + 1)]: without a colon, [npos + 1]
    is 0 and the whole string is taken. *)
Definition after_first (c : Z) (s : bytes) : bytes :=
  match strchr c s with Some (_, r) => r | None => s end.

(** ** [atoi] *)

(** Sign and digits in base 10, saturated to [long] and then narrowed to [int]
    as glibc does. *)
Definition atoi (s : bytes) : Z :=
  let s1 := drop_spaces s in
  let '(neg, s2) := match s1 with
                    | 45 :: r => (true, r) | 43 :: r => (false, r) | _ => (false, s1) end in
  let '(v, _, _) := digits 10 0 0 s2 in
  let v := if neg : bool then - v else v in
  i32 (if LONG_MAX <? v then LONG_MAX else if v <? LONG_MIN then LONG_MIN else v).

(** ** Double precision *)

Abbreviation double := spec_float (only parsing).
Definition dprec : Z := 53.
Definition demax : Z := 1024.
Definition dmul (x y : double) : double := SFmul dprec demax x y.
Definition ddiv (x y : double) : double := SFdiv dprec demax x y.
Definition dltb (x y : double) : bool := SFltb x y.
Definition of_Z (z : Z) : double := binary_normalize dprec demax z 0 false.

(** The integer part; nothing for an infinity or a NaN. *)
Definition trunc (x : double) : option Z :=
  match x with
  | S754_zero _ => Some 0
  | S754_finite s m e =>
      let v := if 0 <=? e then Z.pos m * 2 ^ e else Z.pos m / 2 ^ (- e) in
      Some (if s then - v else v)
  | _ => None
  end.

(** Conversion to [int] is undefined when the integer part does not fit. *)
Definition to_int (x : double) : option Z := z ← trunc x; int_chk z.

(** [m * base^e], rounded once. *)
Definition of_scaled (neg : bool) (m base e : Z) : double :=
  match m with
  | Z.pos p =>
      if 0 <=? e then binary_normalize dprec demax ((if neg then -1 else 1) * (m * base ^ e)) 0 neg
      else let '(mz, ez, lz) := SFdiv_core_binary dprec demax m 0 (base ^ (- e)) 0 in
           binary_round_aux dprec demax neg mz ez lz
  | _ => S754_zero neg
  end.

(** Digits, an optional point and more digits: the digits' value, how many
    there are, how many follow the point, the rest. *)
Definition mantissa (base : Z) (s : bytes) : Z * nat * nat * bytes :=
  let '(v, n, r) := digits base 0 0 s in
  match r with
  | 46 :: r' => let '(v', n', r'') := digits base v 0 r' in (v', n + n', n', r'')%nat
  | _ => (v, n, 0%nat, r)
  end.

(** The exponent after one of two letters; 0 when it is not well formed. *)
Definition exponent (lower : Z) (s : bytes) : Z :=
  match s with
  | c :: r =>
      if tolower c =? lower then
        let '(neg, r) := match r with
                         | 45 :: r' => (true, r') | 43 :: r' => (false, r') | _ => (false, r) end in
        let '(v, _, _) := digits 10 0 0 r in if neg : bool then - v else v
      else 0
  | [] => 0
  end.

(** [atof] in the "C" locale. *)
Definition atof (s : bytes) : double :=
  let s1 := drop_spaces s in
  let '(neg, s2) := match s1 with
                    | 45 :: r => (true, r) | 43 :: r => (false, r) | _ => (false, s1) end in
  let low := map tolower s2 in
  if has_prefix (b "inf") low then S754_infinity neg
  else if has_prefix (b "nan") low then S754_nan
  else
    let '(v, n, f, r) := mantissa 16 (drop 2 s2) in
    if has_prefix (b "0x") low && negb (n =? 0)%nat then
      of_scaled neg v 2 (exponent 112 r - 4 * Z.of_nat f)
    else
      let '(v, n, f, r) := mantissa 10 s2 in
      if (n =? 0)%nat then S754_zero false
      else of_scaled neg v 10 (exponent 101 r - Z.of_nat f).

(** ** Integers as doubles *)

Lemma digits2_log2 p : Z.pos (digits2_pos p) = Z.log2 (Z.pos p) + 1.
Proof.
  induction p as [p IH|p IH|]; [| |reflexivity];
    cbn [digits2_pos]; rewrite Pos2Z.inj_succ, IH.
  - rewrite Pos2Z.inj_xI, Z.log2_succ_double by lia. lia.
  - rewrite Pos2Z.inj_xO, Z.log2_double by lia. lia.
Qed.

Lemma Zdigits2_log2 m : 0 < m -> Zdigits2 m = Z.log2 m + 1.
Proof. destruct m as [|p|p]; [lia| |lia]. intros _. apply digits2_log2. Qed.

Lemma shr_1_double x : 0 < x ->
  shr_1 (shr_record_of_loc (2 * x) loc_Exact) = shr_record_of_loc x loc_Exact.
Proof. destruct x; by try lia. Qed.

Lemma iter_shr_exact p : forall m, 0 < m ->
  SpecFloat.iter_pos shr_1 p (shr_record_of_loc (m * 2 ^ Z.pos p) loc_Exact) =
  shr_record_of_loc m loc_Exact.
Proof.
  induction p as [p IH|p IH|]; intros m Hm; cbn [SpecFloat.iter_pos].
  - replace (m * 2 ^ Z.pos p~1) with (2 * (m * 2 ^ Z.pos p * 2 ^ Z.pos p)).
    { rewrite shr_1_double by lia. rewrite IH by lia. by apply IH. }
    replace (Z.pos p~1) with (1 + (Z.pos p + Z.pos p)) by lia. rewrite !Z.pow_add_r by lia. lia.
  - replace (m * 2 ^ Z.pos p~0) with (m * 2 ^ Z.pos p * 2 ^ Z.pos p).
    { rewrite IH by lia. by apply IH. }
    replace (Z.pos p~0) with (Z.pos p + Z.pos p) by lia. rewrite !Z.pow_add_r by lia. lia.
  - rewrite Z.mul_comm. by apply shr_1_double.
Qed.

Lemma iter_xO_shift p k : Z.pos (Pos.iter xO p k) = Z.pos p * 2 ^ Z.pos k.
Proof.
  pattern k. apply Pos.peano_ind; clear k.
  - simpl. lia.
  - intros k IH. rewrite Pos.iter_succ, Pos2Z.inj_xO, IH, Pos2Z.inj_succ, Z.pow_succ_r by lia. lia.
Qed.

(** A mantissa of [53] digits or a multiple of the power of two in excess is
    rounded exactly. *)
Lemma round_exact m n e : 0 < m -> Z.log2 m = dprec - 1 -> 0 <= n ->
  -1074 <= n + e <= demax - dprec ->
  binary_round_aux dprec demax false (m * 2 ^ n) e loc_Exact =
    S754_finite false (Z.to_pos m) (e + n).
Proof.
  intros Hm Hl Hn He. unfold dprec, demax in *. unfold binary_round_aux, shr_fexp, fexp, emin.
  rewrite Zdigits2_log2, Z.log2_mul_pow2 by lia. rewrite Hl.
  replace (Z.max _ _ - e) with n by lia.
  assert (S : shr (shr_record_of_loc (m * 2 ^ n) loc_Exact) e n = (shr_record_of_loc m loc_Exact, e + n)).
  { destruct n as [|p|p]; [|by rewrite <- (iter_shr_exact p m Hm)|lia].
    simpl. by rewrite Z.mul_1_r, Z.add_0_r. }
  rewrite S. cbn [shr_m loc_of_shr_record shr_record_of_loc round_nearest_even].
  rewrite Zdigits2_log2, Hl by lia.
  replace (Z.max _ _ - (e + n)) with 0 by lia. cbn [shr shr_m].
  destruct m as [|p|p]; [lia| |lia]. by rewrite (proj2 (Z.leb_le _ _)) by lia.
Qed.

(** The value of a positive integer below [2^53]. *)
Lemma of_Z_pos z : 0 < z < 2 ^ dprec ->
  of_Z z = S754_finite false (Z.to_pos (z * 2 ^ (dprec - 1 - Z.log2 z))) (Z.log2 z - (dprec - 1)).
Proof.
  intros Hz. assert (L : 0 <= Z.log2 z < dprec).
  { split; [apply Z.log2_nonneg|]. apply Z.log2_lt_pow2; lia. }
  unfold of_Z, binary_normalize. destruct z as [|p|p]; [lia| |lia].
  unfold binary_round. rewrite digits2_log2. unfold shl_align.
  unfold fexp, emin, dprec, demax in *.
  replace (Z.max _ _ - 0) with (Z.log2 (Z.pos p) - 52) by lia.
  replace (Z.max _ _) with (Z.log2 (Z.pos p) - 52) by lia.
  set (k := Z.log2 (Z.pos p) - 52) in *.
  assert (R : forall q, Z.pos q = Z.pos p * 2 ^ (- k) -> forall e, e = k ->
    binary_round_aux 53 1024 false (Z.pos q) e loc_Exact = S754_finite false (Z.to_pos (Z.pos p * 2 ^ (53 - 1 - Z.log2 (Z.pos p)))) k).
  { intros q Hq e ->. rewrite Hq. pose proof (round_exact (Z.pos p * 2 ^ (- k)) 0 k) as RE.
    unfold dprec, demax in RE. rewrite Z.mul_1_r in RE. rewrite RE.
    - do 2 f_equal; [|lia]. do 2 f_equal. lia.
    - lia.
    - rewrite Z.log2_mul_pow2 by lia. lia.
    - lia.
    - lia. }
  destruct k as [|k'|k'] eqn:Ek; [|lia|].
  - rewrite R; [by do 2 f_equal; lia| |lia]. simpl. lia.
  - rewrite R; [by do 2 f_equal; lia| |lia].
    apply iter_xO_shift.
Qed.

(** The product of two such integers is exact while it stays below [2^53]. *)
Lemma dmul_exact a c : 0 < a -> 0 < c -> a * c < 2 ^ dprec -> dmul (of_Z a) (of_Z c) = of_Z (a * c).
Proof.
  intros Ha Hc Hac. assert (Hb : a < 2 ^ dprec /\ c < 2 ^ dprec) by nia.
  rewrite !of_Z_pos by nia. unfold dmul, SFmul. cbn [xorb].
  assert (Hp : forall z k, 0 < z -> 0 < z * 2 ^ k \/ k < 0).
  { intros z k Hz. destruct (Z.le_gt_cases 0 k); [left|by right]. pose proof (Z.pow_pos_nonneg 2 k). nia. }
  pose proof (Z.log2_mul_below a c) as L1. pose proof (Z.log2_nonneg a). pose proof (Z.log2_nonneg c).
  pose proof (proj1 (Z.log2_lt_pow2 (a * c) dprec ltac:(nia)) Hac) as L2.
  unfold dprec in *.
  set (la := Z.log2 a) in *. set (lc := Z.log2 c) in *. set (l := Z.log2 (a * c)) in *.
  rewrite Pos2Z.inj_mul, !Z2Pos.id by (destruct (Hp a (53 - 1 - la)), (Hp c (53 - 1 - lc)); lia).
  replace (a * 2 ^ (53 - 1 - la) * (c * 2 ^ (53 - 1 - lc)))
    with (a * c * 2 ^ (53 - 1 - l) * 2 ^ (52 - la - lc + l)).
  - pose proof (round_exact (a * c * 2 ^ (53 - 1 - l)) (52 - la - lc + l)) as R. unfold dprec, demax in *.
    rewrite R; [do 2 f_equal; lia|..]; try lia.
    rewrite Z.log2_mul_pow2 by nia. fold l. lia.
  - rewrite <- !Z.mul_assoc, <- Z.pow_add_r by lia.
    replace (53 - 1 - l + (52 - la - lc + l)) with ((53 - 1 - la) + (53 - 1 - lc)) by lia.
    rewrite Z.pow_add_r by lia. ring.
Qed.

Lemma trunc_of_Z z : 0 <= z < 2 ^ dprec -> trunc (of_Z z) = Some z.
Proof.
  intros Hz. destruct (Z.eq_dec z 0) as [->|N]; [done|]. rewrite of_Z_pos by lia.
  assert (L : 0 <= Z.log2 z < 53).
  { split; [apply Z.log2_nonneg|]. apply Z.log2_lt_pow2; unfold dprec in *; lia. }
  unfold trunc, dprec in *. rewrite Z2Pos.id by (pose proof (Z.pow_pos_nonneg 2 (53 - 1 - Z.log2 z)); nia).
  f_equal. destruct (0 <=? _) eqn:E; bool_to_prop.
  - replace (Z.log2 z) with 52 by lia. simpl. lia.
  - replace (- (Z.log2 z - (53 - 1))) with (53 - 1 - Z.log2 z) by lia. apply Z.div_mul.
    pose proof (Z.pow_pos_nonneg 2 (53 - 1 - Z.log2 z)). lia.
Qed.

(** ** Rounding below an integer *)

(** [r] is the quotient [M / D] shifted right by [k] bits, with the bits lost remembered. *)
Definition shifted (D M k : Z) (r : shr_record) : Prop :=
  0 <= shr_m r /\ shr_m r * 2 ^ k * D <= M < (shr_m r + 1) * 2 ^ k * D /\
  (shr_r r || shr_s r = true -> shr_m r * 2 ^ k * D < M).

Lemma shr_1_shifted D M k r : 0 < D -> 0 <= k -> shifted D M k r -> shifted D M (k + 1) (shr_1 r).
Proof.
  intros HD Hk (H0 & H1 & H2). assert (0 < 2 ^ k) by (apply Z.pow_pos_nonneg; lia).
  assert (2 ^ (k + 1) = 2 * 2 ^ k) as E by (rewrite Z.pow_add_r by lia; lia).
  assert (0 < 2 ^ k * D) by nia. set (u := 2 ^ k) in *. set (v := u * D) in *.
  assert (forall a, a * u * D = a * v) as Eu by (intros; unfold v; ring). assert (forall a, a * (2 * u) * D = a * (2 * v)) as Eu2 by (intros; unfold v; ring).
  rewrite !Eu in *. destruct r as [m r1 s1]. cbn [shr_m shr_r shr_s] in *.
  destruct m as [|[q|q|]|q]; cbn [shr_1]; unfold shifted; cbn [shr_m shr_r shr_s];
    rewrite E, ?Eu2; try lia; (split; [lia|split; [lia|]]); intros Hs; try (destruct r1, s1; cbn in *; try discriminate Hs); lia.
Qed.

Lemma iter_shr_shifted p : forall D M k r, 0 < D -> 0 <= k -> shifted D M k r -> shifted D M (k + Z.pos p) (SpecFloat.iter_pos shr_1 p r).
Proof.
  induction p as [p IH|p IH|]; intros D M k r HD Hk H; cbn [SpecFloat.iter_pos].
  - replace (k + Z.pos p~1) with (k + 1 + Z.pos p + Z.pos p) by lia. apply IH; [done|lia|]. apply IH; [done|lia|]. by apply shr_1_shifted.
  - replace (k + Z.pos p~0) with (k + Z.pos p + Z.pos p) by lia. apply IH; [done|lia|]. by apply IH.
  - by apply shr_1_shifted.
Qed.

Lemma shr_shifted D M r e n : 0 < D -> shifted D M 0 r ->
  let '(r', e') := shr r e n in e' = e + Z.max 0 n /\ shifted D M (Z.max 0 n) r'.
Proof.
  intros HD H. destruct n as [|p|p]; cbn [shr].
  - by replace (e + Z.max 0 0) with e by lia.
  - split; [lia|]. change (Z.max 0 (Z.pos p)) with (0 + Z.pos p). by apply iter_shr_shifted.
  - rewrite Z.max_l by lia. by rewrite Z.add_0_r.
Qed.

Lemma shifted_exact M : 0 <= M -> shifted 1 M 0 (shr_record_of_loc M loc_Exact).
Proof. intros HM. unfold shifted. cbn [shr_record_of_loc shr_m shr_r shr_s]. rewrite Z.pow_0_r. split; [done|]. split; [lia|done]. Qed.

(** Rounding to nearest does not pass an integer. *)
Lemma round_shifted D M k r N : 0 < D -> 0 <= k -> shifted D M k r -> M <= N * 2 ^ k * D ->
  0 <= round_nearest_even (shr_m r) (loc_of_shr_record r) <= N.
Proof.
  intros HD Hk (H0 & H1 & H2) HN. assert (0 < 2 ^ k) by (apply Z.pow_pos_nonneg; lia). assert (0 < 2 ^ k * D) by nia.
  rewrite <- !Z.mul_assoc in *. assert (shr_m r <= N) by nia.
  assert (shr_r r || shr_s r = true -> shr_m r + 1 <= N) as K by (intros Hs%H2; nia).
  destruct r as [m [] []]; cbn [shr_m shr_r shr_s loc_of_shr_record round_nearest_even orb] in *; try lia;
    specialize (K eq_refl); try lia. destruct (Z.even m); lia.
Qed.

(** [x] is not negative and at most [N]. *)
Definition at_most (N : Z) (x : double) : Prop :=
  x = S754_zero false \/
  exists m e, x = S754_finite false m e /\ e <= 1 /\ Z.pos m * 2 ^ Z.max 0 e <= N * 2 ^ Z.max 0 (- e).

Lemma trunc_at_most N x : 0 <= N -> at_most N x -> exists z, trunc x = Some z /\ 0 <= z <= N.
Proof.
  intros HN [->|(m & e & -> & He & H)]; [exists 0; split; [done|lia]|]. cbn [trunc]. eexists. split; [reflexivity|].
  destruct (Z.leb_spec 0 e) as [Hp|Hp].
  - rewrite (Z.max_r 0 e), (Z.max_l 0 (- e)), Z.mul_1_r in H by lia. pose proof (Z.pow_nonneg 2 e). lia.
  - rewrite (Z.max_l 0 e), (Z.max_r 0 (- e)), Z.mul_1_r in H by lia. pose proof (Z.pow_pos_nonneg 2 (- e)).
    split; [apply Z.div_pos; lia|]. apply Z.div_le_upper_bound; lia.
Qed.

(** A value [M / D * 2^e] of at most [N] is rounded to a number of at most [N], when [N]
    is an integer below [2^53]; [q] with the location [l] is what is known of [M / D]. *)
Lemma round_below D M q l e N : 0 < D -> 0 <= M -> e <= 0 -> 0 <= N < 2 ^ dprec -> M <= N * 2 ^ (- e) * D ->
  shifted D M 0 (shr_record_of_loc q l) -> at_most N (binary_round_aux dprec demax false q e l).
Proof.
  intros HD HM He HN Hle H0. unfold binary_round_aux, shr_fexp.
  assert (Hq : 0 <= q <= N * 2 ^ (- e)).
  { destruct H0 as (P0 & [P1 P2] & _). assert (shr_m (shr_record_of_loc q l) = q) as E by (by destruct l as [|[]]).
    rewrite E, Z.pow_0_r, Z.mul_1_r in *. split; [done|]. nia. }
  assert (forall z E, 0 <= z <= N * 2 ^ (- E) -> E <= 0 -> fexp dprec demax (Zdigits2 z + E) <= 1 /\
    (E + Z.max 0 (fexp dprec demax (Zdigits2 z + E) - E) <= 1)) as HF.
  { intros z E Hz HE. enough (Zdigits2 z + E <= dprec + 1) by (unfold fexp, emin, dprec, demax in *; lia).
    destruct (Z.eqb_spec z 0) as [->|N0]; [unfold dprec; cbn [Zdigits2]; lia|]. rewrite Zdigits2_log2 by lia.
    enough (Z.log2 z < dprec - E) by lia. apply Z.log2_lt_pow2; [lia|]. unfold Z.sub. rewrite Z.pow_add_r by (unfold dprec; lia).
    pose proof (Z.pow_pos_nonneg 2 (- E)). nia. }
  assert (fexp dprec demax (Zdigits2 q + e) <= 0) as HF0.
  { enough (Zdigits2 q + e <= dprec) by (unfold fexp, emin, dprec, demax in *; lia).
    destruct (Z.eqb_spec q 0) as [->|N0]; [unfold dprec; cbn [Zdigits2]; lia|]. rewrite Zdigits2_log2 by lia.
    enough (Z.log2 q < dprec - e) by lia. apply Z.log2_lt_pow2; [lia|]. unfold Z.sub. rewrite Z.pow_add_r by (unfold dprec; lia).
    pose proof (Z.pow_pos_nonneg 2 (- e)). nia. }
  pose proof (shr_shifted D M (shr_record_of_loc q l) e (fexp dprec demax (Zdigits2 q + e) - e) HD H0) as S1.
  destruct (shr _ e _) as [r1 e1]. destruct S1 as [-> S1]. set (K := Z.max 0 _) in *.
  assert (e + K <= 0) as HE by (unfold K; lia).
  pose proof (round_shifted D M K r1 (N * 2 ^ (- (e + K))) HD ltac:(lia) S1) as R.
  rewrite <- (Z.mul_assoc N), <- Z.pow_add_r in R by lia. replace (- (e + K) + K) with (- e) in R by lia. specialize (R Hle).
  set (m1 := round_nearest_even _ _) in *. set (E := e + K) in *. destruct (HF m1 E R HE) as [_ HE2]. clear HF HF0.
  set (k2 := fexp dprec demax (Zdigits2 m1 + E) - E) in *.
  pose proof (shr_shifted 1 m1 _ E k2 ltac:(lia) (shifted_exact m1 ltac:(lia))) as S2.
  destruct (shr _ E k2) as [r2 e2]. destruct S2 as [-> (P0 & [P1 _] & _)]. set (K2 := Z.max 0 k2) in *.
  rewrite Z.mul_1_r in P1. destruct (shr_m r2) as [|p|p]; [by left| |lia].
  rewrite (proj2 (Z.leb_le _ _)) by (unfold demax, dprec; lia). right. exists p, (E + K2). split; [done|]. split; [done|].
  assert (0 < 2 ^ K2) by (apply Z.pow_pos_nonneg; lia). destruct (Z.le_gt_cases 0 (E + K2)) as [Hp|Hp].
  - rewrite Z.max_r, Z.max_l, Z.mul_1_r by lia. apply (Z.mul_le_mono_pos_r _ _ (2 ^ (- E))); [apply Z.pow_pos_nonneg; lia|].
    rewrite <- Z.mul_assoc, <- Z.pow_add_r by lia. replace (E + K2 + - E) with K2 by lia. lia.
  - rewrite Z.max_l, Z.max_r, Z.mul_1_r by lia. apply (Z.mul_le_mono_pos_r _ _ (2 ^ K2)); [lia|].
    rewrite <- Z.mul_assoc, <- Z.pow_add_r by lia. replace (- (E + K2) + K2) with (- E) by lia. lia.
Qed.

(** A fraction of at most one, times an integer. *)
Lemma dmul_fraction q w : at_most 1 q -> 0 <= w < 2 ^ dprec -> at_most w (dmul q (of_Z w)).
Proof.
  intros Hq Hw. destruct (Z.eq_dec w 0) as [->|N]; [left; by destruct Hq as [->|(m & e & -> & _)]|].
  rewrite (of_Z_pos w) by lia. destruct Hq as [->|(m & e & -> & He & Hm)]; [by left|].
  assert (L : 0 <= Z.log2 w < dprec) by (split; [apply Z.log2_nonneg|apply Z.log2_lt_pow2; lia]).
  assert (e <= 0) as He0.
  { destruct (Z.eq_dec e 1) as [->|]; [|lia]. change (2 ^ Z.max 0 1) with 2 in Hm. change (2 ^ Z.max 0 (- (1))) with 1 in Hm. lia. }
  rewrite Z.max_l, Z.max_r in Hm by lia.
  unfold dmul, SFmul. cbn [xorb]. set (k := dprec - 1 - Z.log2 w) in *. assert (0 <= k) by (unfold k; lia).
  pose proof (Z.pow_pos_nonneg 2 k ltac:(lia) ltac:(lia)).
  rewrite Pos2Z.inj_mul, Z2Pos.id by nia. replace (Z.log2 w - (dprec - 1)) with (- k) by (unfold k; lia).
  apply (round_below 1 (Z.pos m * (w * 2 ^ k))); [lia|nia|lia|lia| |apply shifted_exact; nia].
  replace (- (e + - k)) with (- e + k) by lia. rewrite Z.pow_add_r by lia. nia.
Qed.

(** The quotient of an integer by one that is not smaller. *)
Lemma ddiv_fraction a c : 0 <= a <= c -> 0 < c < 2 ^ dprec -> at_most 1 (ddiv (of_Z a) (of_Z c)).
Proof.
  intros Ha Hc. rewrite (of_Z_pos c) by lia. destruct (Z.eq_dec a 0) as [->|N]; [by left|]. rewrite (of_Z_pos a) by lia.
  assert (La : 0 <= Z.log2 a <= Z.log2 c) by (split; [apply Z.log2_nonneg|apply Z.log2_le_mono; lia]).
  assert (Lc : Z.log2 c < dprec) by (apply Z.log2_lt_pow2; lia).
  set (ka := dprec - 1 - Z.log2 a) in *. set (kc := dprec - 1 - Z.log2 c) in *.
  replace (Z.log2 a - (dprec - 1)) with (- ka) by (unfold ka; lia). replace (Z.log2 c - (dprec - 1)) with (- kc) by (unfold kc; lia).
  pose proof (Z.pow_pos_nonneg 2 ka ltac:(lia) ltac:(lia)). pose proof (Z.pow_pos_nonneg 2 kc ltac:(lia) ltac:(lia)).
  unfold ddiv, SFdiv, SFdiv_core_binary. cbn [xorb]. rewrite !Z2Pos.id by nia.
  set (ma := a * 2 ^ ka). set (mc := c * 2 ^ kc). assert (0 < ma) by (unfold ma; nia). assert (0 < mc) by (unfold mc; nia).
  set (e' := Z.min _ _). assert (e' <= - ka + kc) by (unfold e'; lia). set (s := - ka - - kc - e'). assert (0 <= s) by (unfold s; lia).
  assert (match s with Z0 => ma | Z.pos _ => Z.shiftl ma s | Z.neg _ => 0 end = ma * 2 ^ s) as ->.
  { destruct s as [|ps|ps]; [by rewrite Z.mul_1_r|by rewrite Z.shiftl_mul_pow2|lia]. }
  pose proof (Z_div_mod (ma * 2 ^ s) mc ltac:(lia)) as D. destruct (Z.div_eucl (ma * 2 ^ s) mc) as [qq r]. destruct D as [D Hr].
  pose proof (Z.pow_pos_nonneg 2 s ltac:(lia) ltac:(lia)).
  assert (- e' = s + ka - kc) as Ee by (unfold s; lia). assert (0 <= - e') by (unfold ka, kc in *; lia).
  assert (0 <= qq) by nia.
  apply (round_below mc (ma * 2 ^ s)); [done|nia|lia|unfold dprec; lia| |].
  - rewrite Z.mul_1_l, Ee. unfold mc, ma. replace (a * 2 ^ ka * 2 ^ s) with (a * 2 ^ (ka + s)) by (rewrite Z.pow_add_r by lia; ring).
    replace (2 ^ (s + ka - kc) * (c * 2 ^ kc)) with (c * (2 ^ (s + ka - kc) * 2 ^ kc)) by ring.
    rewrite <- Z.pow_add_r by lia. replace (s + ka - kc + kc) with (ka + s) by lia.
    apply Z.mul_le_mono_nonneg_r; [apply Z.pow_nonneg; lia|lia].
  - assert (forall l, (l = loc_Exact /\ r = 0) \/ (l <> loc_Exact /\ 0 < r) -> shifted mc (ma * 2 ^ s) 0 (shr_record_of_loc qq l)) as K.
    { intros l Hl. assert (shr_m (shr_record_of_loc qq l) = qq) as E by (by destruct l as [|[]]).
      unfold shifted. rewrite E, Z.pow_0_r, Z.mul_1_r, D. split; [done|]. split; [nia|].
      destruct Hl as [[-> ->]|[Hl Hr0]]; [done|]. intros _. nia. }
    apply K. unfold new_location. destruct (Z.even mc); unfold new_location_even, new_location_odd;
      (destruct (Z.eqb_spec r 0) as [->|N0]; [by left|right; split; [done|lia]]).
Qed.

(** ** Decimal text *)

(** Digits stop at a byte that is not one. *)
Lemma digits_dec_app l u : forall acc n, Forall is_dec l ->
  (forall c r, u = c :: r -> match digit_val c with Some d => 10 <= d | None => True end) ->
  digits 10 acc n (l ++ u) = (dec_value acc l, (n + length l)%nat, u).
Proof.
  induction l as [|c l IH]; intros acc n H Hu; simpl.
  - rewrite Nat.add_0_r. destruct u as [|c r]; [done|]. simpl. specialize (Hu c r eq_refl).
    destruct (digit_val c) as [d|]; [|done]. by rewrite (proj2 (Z.ltb_ge _ _)).
  - apply Forall_cons in H as [Hc Hl]. unfold is_dec in Hc.
    replace c with (48 + (c - 48)) at 1 by lia. rewrite digit_val_dec by lia.
    rewrite (proj2 (Z.ltb_lt _ _)) by lia. rewrite IH by done. by rewrite Nat.add_succ_r.
Qed.

Lemma is_dec_cases (P : Z -> Prop) c : is_dec c ->
  P 48 -> P 49 -> P 50 -> P 51 -> P 52 -> P 53 -> P 54 -> P 55 -> P 56 -> P 57 -> P c.
Proof.
  intros H. assert (c = 48 \/ c = 49 \/ c = 50 \/ c = 51 \/ c = 52 \/ c = 53 \/ c = 54 \/ c = 55 \/ c = 56 \/
    c = 57) as Hx by (unfold is_dec in H; lia).
  intros. by destruct Hx as [->|[->|[->|[->|[->|[->|[->|[->|[->| ->]]]]]]]]].
Qed.

(** A unit letter, or nothing. *)
Definition unit_suffix (u : bytes) : Prop := u = [] \/ u = [75] \/ u = [77].

Lemma unit_no_digit u c r : unit_suffix u -> u = c :: r ->
  match digit_val c with Some d => 10 <= d | None => True end.
Proof. intros [->|[->| ->]]; intros [=]; subst; vm_compute; congruence. Qed.

Lemma no_hex_prefix c r u : Forall is_dec (c :: r) -> unit_suffix u ->
  has_prefix (b "0x") (map tolower ((c :: r) ++ u)) = false.
Proof.
  intros [_ Hr]%Forall_cons Hu. cbn [app map has_prefix b]. apply andb_false_iff. right.
  destruct r as [|x r]; simpl.
  - destruct Hu as [->|[->| ->]]; done.
  - apply Forall_cons in Hr as [Hx _]. pattern x. by apply (is_dec_cases _ x Hx).
Qed.

Lemma of_scaled_int v : 0 <= v -> of_scaled false v 10 0 = of_Z v.
Proof. intros Hv. destruct v as [|p|p]; [done| |lia]. unfold of_scaled. simpl. by rewrite Pos.mul_1_r. Qed.

Lemma dec_value_nonneg l : forall acc, Forall is_dec l -> 0 <= acc -> 0 <= dec_value acc l.
Proof.
  induction l as [|c l IH]; intros acc H Ha; simpl; [done|].
  apply Forall_cons in H as [Hc Hl]. unfold is_dec in Hc. apply IH; [done|lia].
Qed.

Lemma atof_digits c r u : Forall is_dec (c :: r) -> unit_suffix u ->
  atof ((c :: r) ++ u) = of_Z (dec_value 0 (c :: r)).
Proof.
  intros H Hu. pose proof (no_hex_prefix c r u H Hu) as Hx. unfold atof.
  assert (D : drop_spaces ((c :: r) ++ u) = (c :: r) ++ u).
  { apply Forall_cons in H as [Hc _]. cbn [app drop_spaces]. pattern c. by apply (is_dec_cases _ c Hc). }
  rewrite D.
  assert (S : match (c :: r) ++ u with 45 :: q => (true, q) | 43 :: q => (false, q)
              | _ => (false, (c :: r) ++ u) end = (false, (c :: r) ++ u)).
  { apply Forall_cons in H as [Hc _]. cbn [app]. pattern c. by apply (is_dec_cases _ c Hc). }
  rewrite S. cbv beta iota zeta. clear S D.
  assert (has_prefix (b "inf") (map tolower ((c :: r) ++ u)) = false) as ->.
  { apply Forall_cons in H as [Hc _]. cbn [app map]. pattern c. by apply (is_dec_cases _ c Hc). }
  assert (has_prefix (b "nan") (map tolower ((c :: r) ++ u)) = false) as ->.
  { apply Forall_cons in H as [Hc _]. cbn [app map]. pattern c. by apply (is_dec_cases _ c Hc). }
  destruct (mantissa 16 _) as [[[v n] f] q]. rewrite Hx. cbn [andb].
  unfold mantissa. rewrite digits_dec_app; [|done|intros ??; by apply unit_no_digit].
  rewrite <- of_scaled_int by (by apply dec_value_nonneg).
  destruct Hu as [->|[->| ->]]; reflexivity.
Qed.

Lemma print_int_digits n : 0 <= n -> exists c r,
  print_int n = c :: r /\ Forall is_dec (c :: r) /\ dec_value 0 (c :: r) = n.
Proof.
  intros Hn. unfold print_int. rewrite (proj2 (Z.ltb_ge n 0)) by lia.
  destruct (dec_digits_spec (S (Z.to_nat (Z.log2 n))) n []) as (l & -> & H1 & H2 & H3 & _);
    [lia|pose proof (Z.log2_nonneg n); lia|]. rewrite (right_id_L [] (++)).
  destruct l as [|c r]; [done|]. eauto.
Qed.

Lemma atof_print n u : 0 <= n -> unit_suffix u -> atof (print_int n ++ u) = of_Z n.
Proof.
  intros Hn Hu. destruct (print_int_digits n Hn) as (c & r & -> & H & <-). by apply atof_digits.
Qed.

Lemma atoi_print n u : 0 <= n <= INT_MAX -> unit_suffix u -> atoi (print_int n ++ u) = n.
Proof.
  intros [Hn Hm] Hu. destruct (print_int_digits n Hn) as (c & r & -> & H & E). unfold atoi.
  assert (D : drop_spaces ((c :: r) ++ u) = (c :: r) ++ u).
  { apply Forall_cons in H as [Hc _]. cbn [app drop_spaces]. pattern c. by apply (is_dec_cases _ c Hc). }
  rewrite D.
  assert (S : match (c :: r) ++ u with 45 :: q => (true, q) | 43 :: q => (false, q)
              | _ => (false, (c :: r) ++ u) end = (false, (c :: r) ++ u)).
  { apply Forall_cons in H as [Hc _]. cbn [app]. pattern c. by apply (is_dec_cases _ c Hc). }
  rewrite S. cbv beta iota zeta.
  rewrite digits_dec_app; [|done|intros ??; by apply unit_no_digit]. rewrite E.
  unfold INT_MAX, LONG_MAX, LONG_MIN in *.
  rewrite (proj2 (Z.ltb_ge _ n)), (proj2 (Z.ltb_ge n _)) by lia.
  unfold i32, wraps. rewrite Z.mod_small by lia. by rewrite (proj2 (Z.ltb_lt _ _)) by lia.
Qed.
