(* ===== verification/Doubles.v ===== *)
(** * Doubles: how far rounding moves a double

    The lemmas behind the theorems on code that computes with [double]: every
    operation rounds to the nearest number of binary64, so a result does not pass
    a bound that is itself such a number.  The value of a finite number that is
    not negative is kept as a whole number of units of [2^-1074], the least
    positive double, so that all bounds are comparisons of integers. *)

From Stdlib Require Import ZArith Lia Bool.
From Stdlib Require Import Floats.SpecFloat.
From stdpp Require Import base list.
From S2P Require Import Prelude CNum.

Definition dadd (x y : double) : double := SFadd dprec demax x y.
Definition dsub (x y : double) : double := SFsub dprec demax x y.
Definition dsqrt (x : double) : double := SFsqrt dprec demax x.
Definition dleb (x y : double) : bool := SFleb x y.
Definition deqb (x y : double) : bool := SFeqb x y.
Definition is_nan (x : double) : bool := match x with S754_nan => true | _ => false end.

(** The decimal [m * 10^-k] of the source, as the compiler rounds it. *)
Definition decimal (m k : Z) : double := of_scaled false m 10 (- k).

Abbreviation dfexp := (fexp dprec demax).
Abbreviation valid := (valid_binary dprec demax).

(** ** One rounding *)

(** The number that [m] units of [2^F] are stored as, [m] of at most 53 bits or [2^53]. *)
Definition packed (s : bool) (m F : Z) : double :=
  match m with
  | Z.pos p =>
      if m =? 2 ^ 53 then (if F + 1 <=? 971 then S754_finite s (Z.to_pos (2 ^ 52)) (F + 1) else S754_infinity s)
      else if F <=? 971 then S754_finite s p F else S754_infinity s
  | _ => S754_zero s
  end.

(** What is packed is a double. *)
Definition packable (m F : Z) : Prop := 0 <= m <= 2 ^ 53 /\ -1074 <= F /\ (F = -1074 \/ 2 ^ 52 <= m).

Lemma digits_bounds m : 0 < m -> 2 ^ (Zdigits2 m - 1) <= m < 2 ^ Zdigits2 m.
Proof. intros H. rewrite Zdigits2_log2 by done. replace (Z.log2 m + 1 - 1) with (Z.log2 m) by lia. by apply Z.log2_spec. Qed.

Lemma digits_of m d : 0 < d -> 2 ^ (d - 1) <= m < 2 ^ d -> Zdigits2 m = d.
Proof.
  intros Hd H. assert (0 < 2 ^ (d - 1)) by (apply Z.pow_pos_nonneg; lia). rewrite Zdigits2_log2 by lia.
  rewrite (Z.log2_unique m (d - 1)); [lia..|]. replace (Z.succ (d - 1)) with d by lia. lia.
Qed.

Lemma dfexp_spec d : dfexp d = Z.max (d - 53) (-1074).
Proof. reflexivity. Qed.

Lemma packed_digits m F : packable m F -> 0 < m < 2 ^ 53 -> dfexp (Zdigits2 m + F) = F.
Proof.
  intros (_ & HF & Hm) Hr. rewrite dfexp_spec. pose proof (digits_bounds m ltac:(lia)) as B.
  assert (Zdigits2 m <= 53). { enough (Zdigits2 m - 1 < 53) by lia. apply (Z.pow_lt_mono_r_iff 2); lia. }
  destruct Hm as [->|Hm]; [lia|]. enough (53 <= Zdigits2 m) by lia.
  enough (52 < Zdigits2 m) by lia. apply (Z.pow_lt_mono_r_iff 2); [lia| |lia].
  rewrite Zdigits2_log2 by lia. pose proof (Z.log2_nonneg m). lia.
Qed.

(** The second half of a rounding only packs. *)
Lemma pack_spec s m F : packable m F ->
  (let '(r, e) := shr_fexp dprec demax m F loc_Exact in
   match shr_m r with
   | Z0 => S754_zero s
   | Z.pos p => if e <=? demax - dprec then S754_finite s p e else S754_infinity s
   | _ => S754_nan
   end) = packed s m F.
Proof.
  intros P. destruct P as ((H0 & H1) & HF & Hm). unfold shr_fexp, packed. destruct m as [|p|p]; [| |lia].
  - cbn [Zdigits2]. rewrite dfexp_spec. destruct (Z.max _ _ - F) eqn:E; cbn [shr shr_record_of_loc shr_m]; try done. lia.
  - destruct (Z.eqb_spec (Z.pos p) (2 ^ 53)) as [E|E].
    + rewrite E. change (Zdigits2 (2 ^ 53)) with 54. rewrite dfexp_spec. replace (Z.max (54 + F - 53) (-1074) - F) with 1 by lia. reflexivity.
    + rewrite packed_digits by (unfold packable; lia). rewrite Z.sub_diag. reflexivity.
Qed.

(** A rounding as the nearest whole number of units: with [M / D] the mantissa before it
    (of which [q] and [l] are known), no whole number is passed. *)
Lemma round_spec s D M q l e : 0 < D -> 0 <= M -> shifted D M 0 (shr_record_of_loc q l) -> e <= dfexp (Zdigits2 q + e) ->
  exists m F, binary_round_aux dprec demax s q e l = packed s m F /\ packable m F /\ e <= F /\
    (forall N, M <= N * 2 ^ (F - e) * D -> m <= N) /\ (forall N, N * 2 ^ (F - e) * D <= M -> N <= m) /\
    (F = -1074 \/ (2 ^ 52 * 2 ^ (F - e) * D <= M)).
Proof.
  intros HD HM H0 He. unfold binary_round_aux. unfold shr_fexp at 1. set (F := dfexp (Zdigits2 q + e)) in *.
  assert (Hq : shr_m (shr_record_of_loc q l) = q) by (by destruct l as [|[]]).
  assert (B : 0 <= q /\ q * D <= M < (q + 1) * D) by (destruct H0 as (P0 & P1 & _); rewrite Hq, Z.pow_0_r, Z.mul_1_r in *; lia).
  pose proof (shr_shifted D M _ e (F - e) HD H0) as S1. rewrite Z.max_r in S1 by lia.
  destruct (shr _ e (F - e)) as [r1 e1]. destruct S1 as [-> S1]. replace (e + (F - e)) with F by lia.
  assert (R : forall N, M <= N * 2 ^ (F - e) * D -> 0 <= round_nearest_even (shr_m r1) (loc_of_shr_record r1) <= N)
    by (intros N; by apply round_shifted; [|lia|]).
  assert (L : forall N, N * 2 ^ (F - e) * D <= M -> N <= round_nearest_even (shr_m r1) (loc_of_shr_record r1)).
  { intros N HN. destruct S1 as (P0 & [_ P1] & _). pose proof (Z.pow_pos_nonneg 2 (F - e) ltac:(lia) ltac:(lia)).
    rewrite <- !Z.mul_assoc in *. assert (0 < 2 ^ (F - e) * D) by nia. assert (N < shr_m r1 + 1) by nia.
    destruct r1 as [m1 [] []]; cbn [shr_m loc_of_shr_record round_nearest_even] in *; try lia. destruct (Z.even m1); lia. }
  set (m := round_nearest_even _ _) in *.
  assert (HF : -1074 <= F /\ Zdigits2 q + e - 53 <= F /\ (F = -1074 \/ F = Zdigits2 q + e - 53)) by (unfold F; rewrite dfexp_spec; lia).
  assert (K52 : F = -1074 \/ 2 ^ 52 * 2 ^ (F - e) * D <= M).
  { destruct HF as (_ & _ & [E|E]); [by left|right]. destruct (Z.eq_dec q 0) as [->|Nq]; [cbn [Zdigits2] in E; lia|].
    pose proof (digits_bounds q ltac:(lia)) as [Dq _]. transitivity (q * D); [|lia].
    apply Z.mul_le_mono_nonneg_r; [lia|]. rewrite <- Z.pow_add_r by lia. replace (52 + (F - e)) with (Zdigits2 q - 1) by lia. done. }
  assert (P : packable m F).
  { split; [|split; [lia|]].
    - apply R. transitivity ((q + 1) * D); [lia|]. apply Z.mul_le_mono_nonneg_r; [lia|]. rewrite <- Z.pow_add_r by lia.
      destruct (Z.eq_dec q 0) as [->|Nq]; [apply (Z.pow_le_mono_r 2 0); lia|].
      pose proof (digits_bounds q ltac:(lia)) as [_ Dq].
      pose proof (Z.pow_le_mono_r 2 (Zdigits2 q) (53 + (F - e)) ltac:(lia) ltac:(lia)). lia.
    - destruct K52 as [E|E]; [by left|right]. by apply L. }
  exists m, F. split; [by apply pack_spec|]. split; [done|]. split; [lia|]. split; [intros N HN; by apply R|]. done.
Qed.

Lemma packed_valid s m F : packable m F -> valid (packed s m F) = true.
Proof.
  intros P. unfold packed. destruct m as [|p|p]; try done. destruct (Z.eqb_spec (Z.pos p) (2 ^ 53)) as [E|E].
  - destruct (Z.leb_spec (F + 1) 971) as [L|L]; [|done]. cbn [valid_binary]. unfold bounded, canonical_mantissa.
    change (Z.pos (digits2_pos (Z.to_pos (2 ^ 52)))) with 53. destruct P as (_ & HF & _). rewrite dfexp_spec.
    apply andb_true_iff. split; [apply Z.eqb_eq; lia|apply Z.leb_le; unfold demax, dprec; lia].
  - destruct (Z.leb_spec F 971) as [L|L]; [|done]. cbn [valid_binary]. unfold bounded, canonical_mantissa.
    apply andb_true_iff. split; [|apply Z.leb_le; unfold demax, dprec; lia]. apply Z.eqb_eq.
    apply (packed_digits (Z.pos p)); [done|]. destruct P as ((_ & H1) & _). lia.
Qed.

(** ** Values and bounds *)

(** Numbers that are zero, or positive and finite. *)
Definition nonneg (x : double) : Prop :=
  match x with S754_zero _ => True | S754_finite false m e => bounded dprec demax m e = true | _ => False end.

(** The value of such a number in units of [2^-1074]. *)
Definition val (x : double) : Z := match x with S754_finite false m e => Z.pos m * 2 ^ (e + 1074) | _ => 0 end.

(** The values a double can have. *)
Definition rep (B : Z) : Prop := exists K t, B = K * 2 ^ (t + 1074) /\ 0 <= K < 2 ^ 53 /\ -1074 <= t <= 971.

Lemma bounded_spec m e : bounded dprec demax m e = true <-> dfexp (Zdigits2 (Z.pos m) + e) = e /\ e <= 971.
Proof. unfold bounded, canonical_mantissa. rewrite andb_true_iff, Z.eqb_eq, Z.leb_le. done. Qed.

Lemma bounded_least m e : bounded dprec demax m e = true -> -1074 <= e.
Proof. rewrite bounded_spec, dfexp_spec. lia. Qed.

Lemma val_nonneg x : 0 <= val x.
Proof. destruct x as [| | |[] m e]; cbn [val]; lia. Qed.

Lemma val_rep x : nonneg x -> rep (val x).
Proof.
  destruct x as [s|s| |[] m e]; cbn [nonneg val]; intros H; try (by exists 0, 0).
  pose proof (bounded_least _ _ H). apply bounded_spec in H as [H He]. exists (Z.pos m), e. split; [done|]. split; [|lia].
  pose proof (digits_bounds (Z.pos m) ltac:(lia)) as [_ B]. rewrite dfexp_spec in H.
  pose proof (Z.pow_le_mono_r 2 (Zdigits2 (Z.pos m)) 53 ltac:(lia) ltac:(lia)). lia.
Qed.

Lemma pow_cancel a c d k : 0 <= k -> 0 <= d -> a * 2 ^ k <= c * 2 ^ (d + k) -> a <= c * 2 ^ d.
Proof. intros Hk Hd H. apply (Z.mul_le_mono_pos_r _ _ (2 ^ k)); [apply Z.pow_pos_nonneg; lia|]. rewrite <- Z.mul_assoc, <- Z.pow_add_r by lia. done. Qed.

(** What is packed stays below a bound and finite. *)
Lemma packed_val m F K t : packable m F -> F <= t <= 971 -> 0 <= K < 2 ^ 53 -> m <= K * 2 ^ (t - F) ->
  nonneg (packed false m F) /\ val (packed false m F) = m * 2 ^ (F + 1074).
Proof.
  intros P Ht HK Hm. pose proof (packed_valid false m F P) as V. revert V. pose proof P as ((H0 & H1) & HF & _). unfold packed.
  destruct m as [|p|p]; [done| |lia]. destruct (Z.eqb_spec (Z.pos p) (2 ^ 53)) as [E|E].
  - assert (F < t). { destruct (Z.eq_dec F t) as [->|]; [|lia]. rewrite Z.sub_diag, Z.pow_0_r in Hm. lia. }
    rewrite (proj2 (Z.leb_le _ _)) by lia. intros V. split; [exact V|]. unfold val. rewrite E, Z2Pos.id by lia.
    replace (F + 1 + 1074) with (1 + (F + 1074)) by lia. rewrite (Z.pow_add_r 2 1) by lia. lia.
  - rewrite (proj2 (Z.leb_le _ _)) by lia. intros V. by split.
Qed.

(** Rounding passes no bound that is a double: [M / D * 2^e] is the value before it. *)
Lemma round_within D M q l e lo hi : 0 < D -> 0 <= M -> shifted D M 0 (shr_record_of_loc q l) -> e <= dfexp (Zdigits2 q + e) ->
  -2148 <= e -> rep lo -> rep hi -> lo * 2 ^ 1074 * D <= M * 2 ^ (e + 2148) <= hi * 2 ^ 1074 * D ->
  let x := binary_round_aux dprec demax false q e l in nonneg x /\ lo <= val x <= hi.
Proof.
  intros HD HM HS He He2 (K1 & t1 & -> & HK1 & Ht1) (K & t & -> & HK & Ht) [Hlo Hhi].
  destruct (round_spec false D M q l e HD HM HS He) as (m & F & -> & P & HeF & Up & Lo & K52). cbn zeta.
  assert (E : forall a u, -1074 <= u -> a * 2 ^ (u + 1074) * 2 ^ 1074 * D = a * D * 2 ^ (u + 2148)).
  { intros a u Hu. replace (u + 2148) with (u + 1074 + 1074) by lia. rewrite (Z.pow_add_r 2 (u + 1074)) by lia. ring. }
  rewrite E in Hlo, Hhi by lia.
  assert (F <= t) as HF.
  { destruct K52 as [->|K52]; [lia|]. destruct P as (_ & P1 & _).
    assert (2 ^ 52 * 2 ^ (F - e) * D * 2 ^ (e + 2148) < 2 ^ 53 * D * 2 ^ (t + 2148)) as X.
    { pose proof (Z.pow_pos_nonneg 2 (e + 2148) ltac:(lia) ltac:(lia)). pose proof (Z.pow_pos_nonneg 2 (t + 2148) ltac:(lia) ltac:(lia)). nia. }
    replace (2 ^ 52 * 2 ^ (F - e) * D * 2 ^ (e + 2148)) with (2 ^ (52 + (F - e) + (e + 2148)) * D) in X by (rewrite !Z.pow_add_r by lia; ring).
    replace (2 ^ 53 * D * 2 ^ (t + 2148)) with (2 ^ (53 + (t + 2148)) * D) in X by (rewrite Z.pow_add_r by lia; ring).
    apply Z.mul_lt_mono_pos_r in X; [|done]. apply Z.pow_lt_mono_r_iff in X; lia. }
  assert (m <= K * 2 ^ (t - F)) as Hm.
  { apply Up. replace (K * 2 ^ (t - F) * 2 ^ (F - e) * D) with (K * D * 2 ^ (t - e)).
    - apply (pow_cancel M (K * D) (t - e) (e + 2148)); [lia..|]. by replace (t - e + (e + 2148)) with (t + 2148) by lia.
    - replace (t - e) with (t - F + (F - e)) by lia. rewrite Z.pow_add_r by lia. ring. }
  destruct (packed_val m F K t P ltac:(lia) HK Hm) as [Nn ->]. split; [done|]. destruct P as ((Hm0 & _) & HF2 & P2).
  pose proof (Z.pow_pos_nonneg 2 (F + 1074) ltac:(lia) ltac:(lia)) as Hp. split.
  - destruct (Z.le_gt_cases F t1) as [C|C].
    + replace (t1 + 1074) with (t1 - F + (F + 1074)) by lia. rewrite Z.pow_add_r, Z.mul_assoc by lia. apply Z.mul_le_mono_nonneg_r; [lia|].
      apply Lo. replace (K1 * 2 ^ (t1 - F) * 2 ^ (F - e) * D) with (K1 * D * 2 ^ (t1 - e)).
      * apply (Z.mul_le_mono_pos_r _ _ (2 ^ (e + 2148))); [apply Z.pow_pos_nonneg; lia|].
        rewrite <- Z.mul_assoc, <- Z.pow_add_r by lia. by replace (t1 - e + (e + 2148)) with (t1 + 2148) by lia.
      * replace (t1 - e) with (t1 - F + (F - e)) by lia. rewrite Z.pow_add_r by lia. ring.
    + assert (2 ^ 52 <= m) by (destruct P2; lia). transitivity (2 ^ 53 * 2 ^ (t1 + 1074)).
      { apply Z.mul_le_mono_nonneg_r; [apply Z.pow_nonneg|]; lia. }
      rewrite <- Z.pow_add_r by lia. transitivity (2 ^ (52 + (F + 1074))); [apply Z.pow_le_mono_r; lia|]. rewrite Z.pow_add_r by lia. apply Z.mul_le_mono_nonneg_r; lia.
  - replace (t + 1074) with (t - F + (F + 1074)) by lia. rewrite (Z.pow_add_r 2 (t - F)), Z.mul_assoc by lia. apply Z.mul_le_mono_nonneg_r; lia.
Qed.

(** ** Operations *)

Lemma rep_0 : rep 0.
Proof. by exists 0, 0. Qed.

Lemma rep_nonneg B : rep B -> 0 <= B.
Proof. intros (K & t & -> & HK & Ht). pose proof (Z.pow_nonneg 2 (t + 1074) ltac:(lia)). nia. Qed.

Lemma rep_Z z : 0 <= z < 2 ^ 53 -> rep (z * 2 ^ 1074).
Proof. intros H. exists z, 0. repeat split; lia. Qed.

Lemma digits_mul a c : 0 < a -> 0 < c -> Zdigits2 a <= Zdigits2 (a * c).
Proof.
  intros Ha Hc. rewrite !Zdigits2_log2 by nia. apply Zplus_le_compat_r, Z.log2_le_mono. nia.
Qed.

Lemma dmul_within x y lo hi : nonneg x -> nonneg y -> rep lo -> rep hi -> lo * 2 ^ 1074 <= val x * val y <= hi * 2 ^ 1074 ->
  nonneg (dmul x y) /\ lo <= val (dmul x y) <= hi.
Proof.
  intros Hx Hy Rl Rh H. pose proof (rep_nonneg _ Rh). pose proof (Z.pow_pos_nonneg 2 1074 ltac:(lia) ltac:(lia)) as P0.
  destruct x as [sx|sx| |[] mx ex]; try done.
  - destruct y as [sy|sy| |[] my ey]; try done; cbn [val] in H; split; try done; cbn [val dmul SFmul]; nia.
  - destruct y as [sy|sy| |[] my ey]; try done; [cbn [val] in H; split; [done|]; cbn [val dmul SFmul]; nia|].
    cbn [nonneg] in Hx, Hy. pose proof (bounded_least _ _ Hx). pose proof (bounded_least _ _ Hy).
    apply bounded_spec in Hx as [Hx _], Hy as [Hy _]. unfold dmul, SFmul. cbn [xorb]. rewrite dfexp_spec in Hx, Hy.
    pose proof (digits_mul (Z.pos mx) (Z.pos my) ltac:(lia) ltac:(lia)). pose proof (digits_mul (Z.pos my) (Z.pos mx) ltac:(lia) ltac:(lia)) as D2.
    rewrite (Z.mul_comm (Z.pos my)) in D2. rewrite Pos2Z.inj_mul.
    apply (round_within 1 (Z.pos mx * Z.pos my)); [lia|lia|apply shifted_exact; lia|rewrite dfexp_spec; lia|lia|done|done|].
    rewrite !Z.mul_1_r. replace (Z.pos mx * Z.pos my * 2 ^ (ex + ey + 2148)) with (val (S754_finite false mx ex) * val (S754_finite false my ey)); [done|].
    cbn [val]. replace (ex + ey + 2148) with (ex + 1074 + (ey + 1074)) by lia. rewrite (Z.pow_add_r 2 (ex + 1074)) by lia. ring.
Qed.

(** A mantissa that was not rounded yet. *)
Lemma binary_round_within p e lo hi : -1074 <= e -> rep lo -> rep hi -> lo <= Z.pos p * 2 ^ (e + 1074) <= hi ->
  nonneg (binary_round dprec demax false p e) /\ lo <= val (binary_round dprec demax false p e) <= hi.
Proof.
  intros He Rl Rh H. unfold binary_round, shl_align. change (Z.pos (digits2_pos p)) with (Zdigits2 (Z.pos p)).
  set (F := dfexp (Zdigits2 (Z.pos p) + e)). pose proof (Z.pow_pos_nonneg 2 1074 ltac:(lia) ltac:(lia)) as P0.
  assert (forall m f, -1074 <= f -> f <= dfexp (Zdigits2 (Z.pos m) + f) -> Z.pos m * 2 ^ (f + 1074) = Z.pos p * 2 ^ (e + 1074) ->
    nonneg (binary_round_aux dprec demax false (Z.pos m) f loc_Exact) /\ lo <= val (binary_round_aux dprec demax false (Z.pos m) f loc_Exact) <= hi) as K.
  { intros m f Hf Hd Ev. apply (round_within 1 (Z.pos m)); [lia|lia|by apply shifted_exact|done|lia|done|done|].
    rewrite !Z.mul_1_r. replace (f + 2148) with (f + 1074 + 1074) by lia. rewrite Z.pow_add_r, Z.mul_assoc, Ev by lia.
    split; apply Z.mul_le_mono_nonneg_r; lia. }
  destruct (F - e) as [|d|d] eqn:Ed; cbv beta iota; [apply K; [done|unfold F in Ed; lia|done]..|].
  assert (HF : -1074 <= F) by (unfold F; rewrite dfexp_spec; lia). apply K; [done| |].
  - assert (Zdigits2 (Z.pos (Pos.iter xO p d)) = Zdigits2 (Z.pos p) + Z.pos d) as ->.
    { rewrite iter_xO_shift, !Zdigits2_log2, Z.log2_mul_pow2 by (pose proof (Z.pow_pos_nonneg 2 (Z.pos d)); lia). lia. }
    replace (Zdigits2 (Z.pos p) + Z.pos d + F) with (Zdigits2 (Z.pos p) + e) by lia. by unfold F.
  - rewrite iter_xO_shift. rewrite <- Z.mul_assoc, <- Z.pow_add_r by lia. do 2 f_equal. lia.
Qed.

Lemma val_of_Z z : 0 <= z < 2 ^ 53 -> nonneg (of_Z z) /\ val (of_Z z) = z * 2 ^ 1074.
Proof.
  intros Hz. destruct z as [|p|p]; [done| |lia].
  destruct (binary_round_within p 0 (Z.pos p * 2 ^ 1074) (Z.pos p * 2 ^ 1074)) as [N V]; [lia|by apply rep_Z..|done|].
  change (of_Z (Z.pos p)) with (binary_round dprec demax false p 0). split; [done|lia].
Qed.

(** Bringing two mantissas to the smaller exponent. *)
Lemma align_val m e z : z <= e -> Z.pos (fst (shl_align m e z)) = Z.pos m * 2 ^ (e - z).
Proof.
  intros H. unfold shl_align. destruct (z - e) as [|d|d] eqn:E; cbn [fst]; [|lia|].
  - by replace (e - z) with 0 by lia; rewrite Z.mul_1_r.
  - rewrite iter_xO_shift. by replace (e - z) with (Z.pos d) by lia.
Qed.

Lemma dadd_within x y lo hi : nonneg x -> nonneg y -> rep lo -> rep hi -> lo <= val x + val y <= hi ->
  nonneg (dadd x y) /\ lo <= val (dadd x y) <= hi.
Proof.
  intros Hx Hy Rl Rh H. destruct x as [sx|sx| |[] mx ex]; try done.
  - destruct y as [sy|sy| |[] my ey]; try done. by destruct sx, sy.
  - destruct y as [sy|sy| |[] my ey]; try done; [cbn [val] in H; rewrite Z.add_0_r in H; done|].
    cbn [nonneg] in Hx, Hy. pose proof (bounded_least _ _ Hx). pose proof (bounded_least _ _ Hy).
    unfold dadd, SFadd. cbn [cond_Zopp]. set (z := Z.min ex ey).
    pose proof (align_val mx ex z ltac:(lia)) as Ax. pose proof (align_val my ey z ltac:(lia)) as Ay.
    set (a := fst (shl_align mx ex z)) in *. set (c := fst (shl_align my ey z)) in *. change (Z.pos a + Z.pos c) with (Z.pos (a + c)).
    cbn [binary_normalize]. apply binary_round_within; [lia|done..|].
    rewrite Pos2Z.inj_add, Z.mul_add_distr_r, Ax, Ay, <- !Z.mul_assoc, <- !Z.pow_add_r by lia.
    replace (ex - z + (z + 1074)) with (ex + 1074) by lia. by replace (ey - z + (z + 1074)) with (ey + 1074) by lia.
Qed.

(** A quotient before it is rounded: its integer part, what is known of the rest, and that
    its exponent is small enough for one rounding. *)
Lemma quotient_spec a ea c ec : 0 < a -> 0 < c ->
  let '(q, e, l) := SFdiv_core_binary dprec demax a ea c ec in
  exists s, 0 <= s /\ s + e = ea - ec /\ shifted c (a * 2 ^ s) 0 (shr_record_of_loc q l) /\ e <= dfexp (Zdigits2 q + e) /\
    (e = ea - ec \/ -1074 <= e).
Proof.
  intros Ha Hc. unfold SFdiv_core_binary. set (e := Z.min _ _). set (s := ea - ec - e). assert (Hs : 0 <= s) by (unfold s, e; lia).
  assert (match s with Z0 => a | Z.pos _ => Z.shiftl a s | Z.neg _ => 0 end = a * 2 ^ s) as ->.
  { destruct s as [|ps|ps]; [by rewrite Z.mul_1_r|by rewrite Z.shiftl_mul_pow2|lia]. }
  pose proof (Z_div_mod (a * 2 ^ s) c ltac:(lia)) as D. destruct (Z.div_eucl (a * 2 ^ s) c) as [q r]. destruct D as [D Hr].
  pose proof (Z.pow_pos_nonneg 2 s ltac:(lia) ltac:(lia)). assert (0 <= q) by nia.
  exists s. split; [done|]. split; [unfold s; lia|]. split; [|split].
  - assert (new_location c r = loc_Exact /\ r = 0 \/ exists o, new_location c r = loc_Inexact o /\ 0 < r) as L.
    { unfold new_location, new_location_even, new_location_odd. destruct (Z.eqb_spec r 0) as [->|N]; [left; by destruct (Z.even c)|right].
      destruct (Z.even c); rewrite ?(proj2 (Z.eqb_neq r 0) N); eexists; (split; [reflexivity|lia]). }
    destruct L as [[-> ->]|(o & -> & Hr0)]; unfold shifted; [|destruct o]; cbn [shr_record_of_loc shr_m shr_r shr_s orb]; rewrite Z.pow_0_r; repeat split; try lia; nia.
  - pose proof (digits_bounds a Ha) as [Da _]. pose proof (digits_bounds c Hc) as [_ Dc].
    assert (Zdigits2 a + ea - (Zdigits2 c + ec) <= Zdigits2 q + e) as B.
    { enough (Zdigits2 a + s - Zdigits2 c <= Zdigits2 q) by (unfold s in *; lia).
      destruct (Z.le_gt_cases (Zdigits2 a + s - Zdigits2 c) 0) as [L|L].
      { transitivity 0; [done|]. destruct q; cbn [Zdigits2]; lia. }
      assert (0 <= Zdigits2 c) by (destruct c; cbn [Zdigits2]; lia). assert (0 <= Zdigits2 a - 1) by (destruct a; cbn [Zdigits2]; lia).
      assert (2 ^ (Zdigits2 a + s - Zdigits2 c - 1) < q + 1) as Q.
      { apply (Z.mul_lt_mono_pos_r (2 ^ Zdigits2 c)); [apply Z.pow_pos_nonneg; lia|]. rewrite <- Z.pow_add_r by lia.
        replace (Zdigits2 a + s - Zdigits2 c - 1 + Zdigits2 c) with (Zdigits2 a - 1 + s) by lia. rewrite Z.pow_add_r by lia. nia. }
      assert (0 < q) by (pose proof (Z.pow_pos_nonneg 2 (Zdigits2 a + s - Zdigits2 c - 1) ltac:(lia) ltac:(lia)); lia).
      pose proof (digits_bounds q ltac:(lia)) as [_ Dq]. enough (Zdigits2 a + s - Zdigits2 c - 1 < Zdigits2 q) by lia.
      apply (Z.pow_lt_mono_r_iff 2); [lia| |lia]. destruct q; cbn [Zdigits2]; lia. }
    etransitivity; [unfold e; apply Z.le_min_l|]. rewrite !dfexp_spec. lia.
  - unfold e. rewrite dfexp_spec. lia.
Qed.

Lemma ddiv_within x y lo hi : nonneg x -> nonneg y -> 0 < val y -> rep lo -> rep hi ->
  lo * val y <= val x * 2 ^ 1074 <= hi * val y -> nonneg (ddiv x y) /\ lo <= val (ddiv x y) <= hi.
Proof.
  intros Hx Hy Py Rl Rh H. pose proof (rep_nonneg _ Rh). pose proof (Z.pow_pos_nonneg 2 1074 ltac:(lia) ltac:(lia)) as P0.
  destruct y as [sy|sy| |[] my ey]; try done. destruct x as [sx|sx| |[] mx ex]; try done.
  { cbn [val] in H |- *. split; [done|]. cbn [ddiv SFdiv val] in *. nia. }
  cbn [nonneg] in Hx, Hy. pose proof (bounded_least _ _ Hx). pose proof (bounded_least _ _ Hy). apply bounded_spec in Hy as [_ Hy].
  unfold ddiv, SFdiv. cbn [xorb]. pose proof (quotient_spec (Z.pos mx) ex (Z.pos my) ey ltac:(lia) ltac:(lia)) as Q.
  destruct (SFdiv_core_binary _ _ _ _ _ _) as [[q e] l]. destruct Q as (s & Hs & Es & Sh & He & Ee).
  apply (round_within (Z.pos my) (Z.pos mx * 2 ^ s)); [lia|lia|done|done|lia|done|done|].
  cbn [val] in H. pose proof (Z.pow_pos_nonneg 2 (ey + 1074) ltac:(lia) ltac:(lia)).
  replace (Z.pos mx * 2 ^ s * 2 ^ (e + 2148)) with (Z.pos mx * 2 ^ (ex - ey + 2148)) by (rewrite <- Z.mul_assoc, <- Z.pow_add_r by lia; do 2 f_equal; lia).
  assert (Z.pos mx * 2 ^ (ex + 1074) * 2 ^ 1074 * 2 ^ 1074 = Z.pos mx * 2 ^ (ex - ey + 2148) * 2 ^ (ey + 1074)) as Ex.
  { rewrite <- !Z.mul_assoc, <- !Z.pow_add_r by lia. do 2 f_equal. lia. }
  split; (apply (Z.mul_le_mono_pos_r _ _ (2 ^ (ey + 1074))); [done|]); rewrite <- Ex; nia.
Qed.

(** Whatever is divided, the quotient is a double; so is a product with a factor whose
    mantissa has all its 53 bits. *)
Lemma ddiv_valid x y : valid (ddiv x y) = true.
Proof.
  destruct x as [?|?| |sx mx ex], y as [?|?| |sy my ey]; try done. unfold ddiv, SFdiv.
  pose proof (quotient_spec (Z.pos mx) ex (Z.pos my) ey ltac:(lia) ltac:(lia)) as Q.
  destruct (SFdiv_core_binary _ _ _ _ _ _) as [[q e] l]. destruct Q as (s & Hs & _ & Sh & He & _).
  destruct (round_spec (xorb sx sy) (Z.pos my) (Z.pos mx * 2 ^ s) q l e) as (m & F & -> & P & _); [lia|lia|done..|]. by apply packed_valid.
Qed.

Definition full (x : double) : Prop := match x with S754_finite _ m _ => Zdigits2 (Z.pos m) = 53 | _ => False end.

Lemma dmul_valid x y : full y -> valid (dmul x y) = true.
Proof.
  destruct x as [?|?| |sx mx ex], y as [?|?| |sy my ey]; try done. cbn [full]. intros Hy. unfold dmul, SFmul.
  rewrite Pos2Z.inj_mul. pose proof (digits_mul (Z.pos my) (Z.pos mx) ltac:(lia) ltac:(lia)) as D2. rewrite (Z.mul_comm (Z.pos my)) in D2.
  destruct (round_spec (xorb sx sy) 1 (Z.pos mx * Z.pos my) (Z.pos mx * Z.pos my) loc_Exact (ex + ey)) as (m & F & -> & P & _);
    [lia|lia|by apply shifted_exact|rewrite dfexp_spec; lia|]. by apply packed_valid.
Qed.

Lemma dmul_comm x y : dmul x y = dmul y x.
Proof.
  destruct x as [[]|[]| |[] mx ex], y as [[]|[]| |[] my ey]; try done; unfold dmul, SFmul; cbn [xorb];
    by rewrite (Pos.mul_comm mx), (Z.add_comm ex).
Qed.

(** ** Bounds on a grid *)

(** [n] units of [2^-29]: fine enough for what the code computes, coarse enough that all
    numbers below [2^24] are doubles. *)
Definition units (n : Z) : Z := n * 2 ^ 1045.

Lemma rep_units n : 0 <= n < 2 ^ 53 -> rep (units n).
Proof. intros H. exists n, (-29). repeat split; lia. Qed.

Lemma units_le a c : a <= c <-> units a <= units c.
Proof. unfold units. pose proof (Z.pow_pos_nonneg 2 1045 ltac:(lia) ltac:(lia)). nia. Qed.

Definition between (lo hi : Z) (x : double) : Prop := nonneg x /\ units lo <= val x <= units hi.

Lemma between_mono lo hi lo' hi' x : between lo hi x -> lo' <= lo -> hi <= hi' -> between lo' hi' x.
Proof. intros [N H] L%units_le R%units_le. split; [done|lia]. Qed.

(** Products with [k * 2^-53]. *)
Lemma scale_between x c k lo hi lo' hi' : between lo hi x -> nonneg c -> val c = k * 2 ^ 1021 -> 0 <= k ->
  0 <= lo' < 2 ^ 53 -> 0 <= hi' < 2 ^ 53 -> lo' * 2 ^ 53 <= lo * k -> hi * k <= hi' * 2 ^ 53 -> between lo' hi' (dmul x c).
Proof.
  intros [N [L R]] Nc Vc Hk Hlo Hhi H1 H2. apply dmul_within; [done|done|by apply rep_units..|]. rewrite Vc. unfold units in *.
  change (2 ^ 1074) with (2 ^ 53 * 2 ^ 1021). pose proof (Z.pow_pos_nonneg 2 1021 ltac:(lia) ltac:(lia)). pose proof (Z.pow_pos_nonneg 2 1045 ltac:(lia) ltac:(lia)).
  set (u := 2 ^ 1021) in *. set (w := 2 ^ 1045) in *. set (q := 2 ^ 53) in *. split.
  - transitivity (lo * w * (k * u)); [|apply Z.mul_le_mono_nonneg_r; nia].
    replace (lo' * w * (q * u)) with (lo' * q * (w * u)) by ring. replace (lo * w * (k * u)) with (lo * k * (w * u)) by ring.
    apply Z.mul_le_mono_nonneg_r; nia.
  - transitivity (hi * w * (k * u)); [apply Z.mul_le_mono_nonneg_r; nia|].
    replace (hi' * w * (q * u)) with (hi' * q * (w * u)) by ring. replace (hi * w * (k * u)) with (hi * k * (w * u)) by ring.
    apply Z.mul_le_mono_nonneg_r; nia.
Qed.

Lemma add_between x y lo hi lo' hi' : between lo hi x -> between lo' hi' y -> 0 <= lo + lo' -> hi + hi' < 2 ^ 53 ->
  between (lo + lo') (hi + hi') (dadd x y).
Proof.
  intros [N H] [N' H'] Hl Hh. assert (units lo <= units hi) as K%units_le by lia. assert (units lo' <= units hi') as K'%units_le by lia.
  apply dadd_within; [done|done|apply rep_units; lia..|]. unfold units in *. lia.
Qed.

(** A whole number divided by another. *)
Lemma div_between a c lo hi : 0 <= a < 2 ^ 53 -> 0 < c < 2 ^ 53 -> 0 <= lo < 2 ^ 53 -> 0 <= hi < 2 ^ 53 ->
  lo * c <= a * 2 ^ 29 <= hi * c -> between lo hi (ddiv (of_Z a) (of_Z c)).
Proof.
  intros Ha Hc Hlo Hhi H. destruct (val_of_Z a Ha) as [Na Va]. destruct (val_of_Z c ltac:(lia)) as [Nc Vc].
  pose proof (Z.pow_pos_nonneg 2 1074 ltac:(lia) ltac:(lia)). apply ddiv_within; [done|done|rewrite Vc; nia|by apply rep_units..|].
  rewrite Va, Vc. unfold units. pose proof (Z.pow_pos_nonneg 2 1045 ltac:(lia) ltac:(lia)).
  assert (2 ^ 1074 = 2 ^ 29 * 2 ^ 1045) as E by reflexivity. set (u := 2 ^ 1045) in *. set (w := 2 ^ 1074) in *. set (q := 2 ^ 29) in *.
  replace (lo * u * (c * w)) with (lo * c * (u * w)) by ring. replace (hi * u * (c * w)) with (hi * c * (u * w)) by ring.
  replace (a * w * w) with (a * q * (u * w)) by (rewrite E; ring). split; apply Z.mul_le_mono_nonneg_r; nia.
Qed.

(** ** Comparisons *)

Lemma dltb_val x y : nonneg x -> nonneg y -> dltb x y = (val x <? val y).
Proof.
  intros Hx Hy. symmetry. unfold dltb, SFltb. destruct x as [sx|sx| |[] mx ex]; try done.
  - destruct y as [sy|sy| |[] my ey]; try done. cbn [val SFcompare]. apply Z.ltb_lt. pose proof (bounded_least _ _ Hy). pose proof (Z.pow_pos_nonneg 2 (ey + 1074)). nia.
  - destruct y as [sy|sy| |[] my ey]; try done; [cbn [val SFcompare]; apply Z.ltb_ge; lia|].
    cbn [val SFcompare nonneg] in *. pose proof (bounded_least _ _ Hx). pose proof (bounded_least _ _ Hy).
    assert (Lt : forall m e m' e', bounded dprec demax m e = true -> bounded dprec demax m' e' = true -> e < e' -> -1074 <= e ->
      Z.pos m * 2 ^ (e + 1074) < Z.pos m' * 2 ^ (e' + 1074)).
    { intros m e m' e' B B' L Le. apply bounded_spec in B as [B _], B' as [B' _]. rewrite dfexp_spec in B, B'.
      pose proof (digits_bounds (Z.pos m) ltac:(lia)) as [_ U]. pose proof (digits_bounds (Z.pos m') ltac:(lia)) as [W _].
      assert (Zdigits2 (Z.pos m') = 53) as Ed by lia. rewrite Ed in W. change (53 - 1) with 52 in W.
      pose proof (Z.pow_le_mono_r 2 (Zdigits2 (Z.pos m)) 53 ltac:(lia) ltac:(lia)).
      pose proof (Z.pow_pos_nonneg 2 (e + 1074) ltac:(lia) ltac:(lia)). replace (e' + 1074) with (e' - e - 1 + (1 + (e + 1074))) by lia.
      rewrite (Z.pow_add_r 2 (e' - e - 1)), (Z.pow_add_r 2 1) by lia. pose proof (Z.pow_pos_nonneg 2 (e' - e - 1) ltac:(lia) ltac:(lia)).
      set (u := 2 ^ (e + 1074)) in *. set (v := 2 ^ (e' - e - 1)) in *. assert (Z.pos m * u < 2 ^ 53 * u) by nia.
      assert (2 ^ 52 <= Z.pos m' * v) by (etransitivity; [exact W|]; apply Z.le_mul_diag_r; lia).
      assert (2 ^ 52 * (2 * u) <= Z.pos m' * v * (2 * u)) by (apply Z.mul_le_mono_nonneg_r; lia). lia. }
    destruct (Z.compare_spec ex ey) as [->|L|L].
    + change (Pos.compare_cont Eq mx my) with (mx ?= my)%positive. pose proof (Z.pow_pos_nonneg 2 (ey + 1074) ltac:(lia) ltac:(lia)).
      destruct (Pos.compare_spec mx my) as [->|L|L]; [apply Z.ltb_irrefl|apply Z.ltb_lt; nia|apply Z.ltb_ge; nia].
    + apply Z.ltb_lt, Lt; done.
    + apply Z.ltb_ge. apply Z.lt_le_incl, Lt; done.
Qed.

(** Putting a double between two bounds: it takes no account of what the double was, not
    even of an infinity or a NaN. *)
Lemma clamp_within mn mx x : valid x = true -> nonneg mn -> nonneg mx -> val mn <= val mx ->
  let y := if dltb x mn || is_nan x then mn else x in
  let z := if dltb mx y then mx else y in nonneg z /\ val mn <= val z <= val mx.
Proof.
  intros V Hn Hx H y z. assert (nonneg y \/ y = S754_infinity false) as Y.
  { unfold y. destruct x as [?|[]| |[] m e]; cbn [is_nan]; rewrite ?orb_true_r, ?orb_false_r; try (by left; destruct (dltb _ _)).
    - left. by destruct mn as [?|?| |[] ? ?].
    - destruct (dltb _ mn); auto.
    - left. by destruct mn as [?|?| |[] ? ?].
  }
  destruct Y as [Y|Y].
  - assert (val mn <= val y) as L.
    { unfold y. destruct (dltb x mn) eqn:E; cbn [orb]; [done|]. destruct (is_nan x) eqn:En; [done|]. unfold y in Y. rewrite ?E, ?En in Y. cbn [orb] in Y.
      rewrite dltb_val in E by done. lia. }
    unfold z. destruct (dltb mx y) eqn:E; [done|]. rewrite dltb_val in E by done. split; [done|lia].
  - unfold z. rewrite Y. destruct mx as [?|?| |[] ? ?]; try done.
Qed.

Lemma trunc_val x : nonneg x -> trunc x = Some (val x / 2 ^ 1074).
Proof.
  intros Hx. destruct x as [?|?| |[] m e]; try done. cbn [trunc val]. pose proof (bounded_least _ _ Hx). f_equal. destruct (Z.leb_spec 0 e).
  - rewrite Z.pow_add_r, Z.mul_assoc, Z.div_mul by lia. done.
  - replace 1074 with (- e + (e + 1074)) at 2 by lia. rewrite (Z.pow_add_r 2 (- e)) by lia. by rewrite Z.div_mul_cancel_r by lia.
Qed.

(** Equal doubles have equal values. *)
Lemma deqb_val x y : nonneg x -> nonneg y -> deqb x y = true -> val x = val y.
Proof.
  intros Hx Hy. unfold deqb, SFeqb. destruct x as [?|?| |[] mx ex]; try done; destruct y as [?|?| |[] my ey]; try done.
  cbn [SFcompare]. destruct (Z.compare_spec ex ey) as [->|?|?]; try done. change (Pos.compare_cont Eq mx my) with (mx ?= my)%positive.
  by destruct (Pos.compare_spec mx my) as [->|?|?].
Qed.

(** ** Positions

    A position [x] of [N] taken to a side of [w] pixels, in double precision: [x / N] is known to [2^-52], the product to
    [2^-36], so that the integer part is that of the exact quotient, or one less where the quotient is whole. *)

Lemma ceil_div a c : 0 < c -> a <= ((a + c - 1) / c) * c < a + c.
Proof. intros H. pose proof (Z.div_mod (a + c - 1) c ltac:(lia)). pose proof (Z.mod_pos_bound (a + c - 1) c H). nia. Qed.
Lemma floor_div a c : 0 < c -> a / c * c <= a < a / c * c + c.
Proof. intros H. pose proof (Z.div_mod a c ltac:(lia)). pose proof (Z.mod_pos_bound a c H). nia. Qed.

Lemma quotient_near x N : 0 <= x <= N -> 0 < N < 2 ^ 16 ->
  exists lo hi, 0 <= lo /\ hi <= 2 ^ 52 /\ lo * N <= x * 2 ^ 52 < lo * N + N /\ hi * N < x * 2 ^ 52 + N /\
    nonneg (ddiv (of_Z x) (of_Z N)) /\ lo * 2 ^ 1022 <= val (ddiv (of_Z x) (of_Z N)) <= hi * 2 ^ 1022.
Proof.
  intros Hx HN. destruct (val_of_Z x) as [Nx Vx]; [lia|]. destruct (val_of_Z N) as [Nn Vn]; [lia|].
  pose proof (floor_div (x * 2 ^ 52) N ltac:(lia)) as F. pose proof (ceil_div (x * 2 ^ 52) N ltac:(lia)) as C.
  set (lo := x * 2 ^ 52 / N) in *. set (hi := (x * 2 ^ 52 + N - 1) / N) in *.
  assert (0 <= lo) by (apply Z.div_pos; lia). assert (hi <= 2 ^ 52) by (apply Z.lt_succ_r, Z.div_lt_upper_bound; lia).
  assert (lo <= hi) by nia. exists lo, hi. do 4 (split; [lia|]). apply ddiv_within.
  all: try done; try (rewrite Vn; lia); try (eexists _, (-52); split; [reflexivity|]; lia).
  all: rewrite Vx, Vn; change (2 ^ 1074) with (2 ^ 52 * 2 ^ 1022); set (u := 2 ^ 1022); assert (0 < u) by (unfold u; lia).
  all: replace (lo * u * (N * (2 ^ 52 * u))) with (lo * N * (u * (2 ^ 52 * u))) by ring.
  all: replace (hi * u * (N * (2 ^ 52 * u))) with (hi * N * (u * (2 ^ 52 * u))) by ring.
  all: replace (x * (2 ^ 52 * u) * (2 ^ 52 * u)) with (x * 2 ^ 52 * (u * (2 ^ 52 * u))) by ring.
  all: split; apply Z.mul_le_mono_nonneg_r; lia.
Qed.

Lemma position_near x N w : 0 <= x <= N -> 0 < N < 2 ^ 16 -> 0 <= w < 2 ^ 16 ->
  exists p, to_int (dmul (ddiv (of_Z x) (of_Z N)) (of_Z w)) = Some p /\ N * p <= x * w <= N * (p + 1).
Proof.
  intros Hx HN Hw. destruct (quotient_near x N Hx HN) as (lo & hi & L0 & H0 & L & H & Nq & Vq).
  set (q := ddiv (of_Z x) (of_Z N)) in *. destruct (val_of_Z w) as [Nw Vw]; [lia|].
  pose proof (floor_div (lo * w) (2 ^ 16) ltac:(lia)) as F. pose proof (ceil_div (hi * w) (2 ^ 16) ltac:(lia)) as C.
  set (pl := lo * w / 2 ^ 16) in *. set (ph := (hi * w + 2 ^ 16 - 1) / 2 ^ 16) in *.
  assert (lo <= hi) by (assert (0 < 2 ^ 1022) by lia; nia).
  assert (0 <= pl) by (apply Z.div_pos; nia). assert (ph <= 2 ^ 52) by (apply Z.lt_succ_r, Z.div_lt_upper_bound; nia).
  assert (pl <= ph) by nia.
  destruct (dmul_within q (of_Z w) (pl * 2 ^ 1038) (ph * 2 ^ 1038)) as [Np [Vl Vh]]; [done|done| | | |].
  1-2: eexists _, (-36); split; [reflexivity|]; lia.
  { rewrite Vw. change (2 ^ 1074) with (2 ^ 16 * 2 ^ 1022 * 2 ^ 36). change (2 ^ 1038) with (2 ^ 16 * 2 ^ 1022).
    set (u := 2 ^ 1022) in *. assert (0 < u) by (unfold u; lia). split.
    - transitivity (lo * u * (w * (2 ^ 16 * u * 2 ^ 36))); [|apply Z.mul_le_mono_nonneg_r; nia].
      replace (pl * (2 ^ 16 * u) * (2 ^ 16 * u * 2 ^ 36)) with (pl * 2 ^ 16 * (u * (2 ^ 16 * u * 2 ^ 36))) by ring.
      replace (lo * u * (w * (2 ^ 16 * u * 2 ^ 36))) with (lo * w * (u * (2 ^ 16 * u * 2 ^ 36))) by ring. apply Z.mul_le_mono_nonneg_r; nia.
    - transitivity (hi * u * (w * (2 ^ 16 * u * 2 ^ 36))); [apply Z.mul_le_mono_nonneg_r; nia|].
      replace (ph * (2 ^ 16 * u) * (2 ^ 16 * u * 2 ^ 36)) with (ph * 2 ^ 16 * (u * (2 ^ 16 * u * 2 ^ 36))) by ring.
      replace (hi * u * (w * (2 ^ 16 * u * 2 ^ 36))) with (hi * w * (u * (2 ^ 16 * u * 2 ^ 36))) by ring. apply Z.mul_le_mono_nonneg_r; nia. }
  set (r := dmul q (of_Z w)) in *. unfold to_int. rewrite trunc_val by done. cbn [mbind option_bind].
  pose proof (floor_div (val r) (2 ^ 1074) ltac:(lia)) as T. set (p := val r / 2 ^ 1074) in *.
  assert (P1 : p * 2 ^ 36 <= ph) by (change (2 ^ 1074) with (2 ^ 36 * 2 ^ 1038) in T; assert (0 < 2 ^ 1038) by lia; nia).
  assert (P2 : pl < (p + 1) * 2 ^ 36) by (change (2 ^ 1074) with (2 ^ 36 * 2 ^ 1038) in T; assert (0 < 2 ^ 1038) by lia; nia).
  clear T Vl Vh Np Vq Nq Vw Nw. exists p. split; [apply int_chk_Some; unfold INT_MIN, INT_MAX; lia|].
  assert (p * 2 ^ 52 <= hi * w + 2 ^ 16) by lia. assert (lo * w - 2 ^ 16 < (p + 1) * 2 ^ 52) by lia.
  assert (hi * w * N <= (x * 2 ^ 52 + N) * w) by nia. assert ((x * 2 ^ 52 - N) * w <= lo * w * N) by nia.
  assert (N * w < 2 ^ 32) by nia. split; nia.
Qed.
