(* ===== verification/CxxString.v ===== *)
(** * CxxString: operations of [std::string]

    Searching, cutting and case conversion of strings, as the command line parser
    and the encoder's server use them ([std::string::find], [substr], [erase] with
    [remove], [tolower]).  A position is a [nat]; [None] is [npos]. *)

From Stdlib Require Import ZArith Lia String.
From stdpp Require Import base list.
From S2P Require Import Prelude StdMap GaConf CNum.

(** [s.find(p)]: the first position where [p] begins. *)
Fixpoint str_find (p s : bytes) : option nat :=
  if has_prefix p s then Some O
  else match s with
       | [] => None
       | _ :: s => S <$> str_find p s
       end.

Definition contains (p s : bytes) : bool := bool_decide (is_Some (str_find p s)).

(** [s.substr(pos)]: throws when the position is behind the end. *)
Definition substr (pos : nat) (s : bytes) : option bytes :=
  if (pos <=? length s)%nat then Some (drop pos s) else None.

(** [s.erase(remove(begin, end, c), end)]. *)
Definition erase_char (c : Z) (s : bytes) : bytes := filter (fun x => x <> c) s.

(** [StringToLowerCase] in the C locale. *)
Definition lower (s : bytes) : bytes := map tolower s.

(** ** Facts *)

Lemma has_prefix_app p s : has_prefix p (p ++ s) = true.
Proof. induction p as [|x p IH]; [done|]. cbn. by rewrite Z.eqb_refl. Qed.

Lemma has_prefix_spec p s : has_prefix p s = true -> exists t, s = p ++ t.
Proof.
  revert s. induction p as [|x p IH]; intros [|y s] E; cbn in E; try done; [by exists []|by eexists|].
  apply andb_prop in E as [->%Z.eqb_eq E]. destruct (IH _ E) as [t ->]. by exists t.
Qed.

Lemma str_find_spec p s n : str_find p s = Some n ->
  exists a t, s = a ++ p ++ t /\ length a = n.
Proof.
  revert n. induction s as [|x s IH]; intros n; cbn; destruct (has_prefix p _) eqn:E.
  - intros [= <-]. destruct (has_prefix_spec _ _ E) as [t ->]. by exists [], t.
  - done.
  - intros [= <-]. destruct (has_prefix_spec _ _ E) as [t ->]. by exists [], t.
  - destruct (str_find p s) as [m|]; cbn; intros [= <-].
    destruct (IH m eq_refl) as (a & t & -> & <-). by exists (x :: a), t.
Qed.

Lemma str_find_prefix p s : str_find p (p ++ s) = Some O.
Proof. pose proof (has_prefix_app p s) as E. by destruct (p ++ s); cbn; cbn in E; rewrite E. Qed.

(** The search goes on behind what cannot begin a match. *)
Lemma str_find_skip x p s t : x ∉ t -> str_find (x :: p) (t ++ s) = Nat.add (length t) <$> str_find (x :: p) s.
Proof.
  induction t as [|y t IH]; intros N; [change ([] ++ s) with s; by destruct (str_find (x :: p) s)|].
  apply not_elem_of_cons in N as [N1 N2]. cbn. rewrite (proj2 (Z.eqb_neq x y)) by done. cbn.
  rewrite (IH N2). by destruct (str_find (x :: p) s).
Qed.

Lemma str_find_none x p s : x ∉ s -> str_find (x :: p) s = None.
Proof.
  intros N. rewrite <- (app_nil_r s), (str_find_skip _ _ _ _ N). done.
Qed.

Lemma length_lower s : length (lower s) = length s.
Proof. apply length_map. Qed.

Lemma lower_app s t : lower (s ++ t) = lower s ++ lower t.
Proof. apply map_app. Qed.

Lemma tolower_idem c : tolower (tolower c) = tolower c.
Proof.
  unfold tolower. destruct ((65 <=? c) && (c <=? 90)) eqn:E; [|by rewrite E]. bool_to_prop.
  by rewrite (proj2 (Z.leb_gt (c + 32) 90)), andb_false_r by lia.
Qed.

Lemma lower_idem s : lower (lower s) = lower s.
Proof. unfold lower. rewrite map_map. apply map_ext, tolower_idem. Qed.
