(* ===== verification/GetOpts.v ===== *)
(** * GetOpts: command lines of the streamer

    Models [src/sources/streamer/core/ga-get-opts.cpp]: the option parser
    [ga_get_opts], the options with their argument checks (booleans, log levels,
    adapter identifiers, resolutions), and the usage screen.  Exceptions are
    values; the numbers of [std::stoul] and of the stream extractions are read as
    on the platform the code is for (a 32-bit [unsigned long]). *)

From Stdlib Require Import ZArith Lia String.
From stdpp Require Import base list.
From S2P Require Import Prelude StdMap GaConf CNum.

Definition CH_MINUS : Z := 45.
Definition CH_BACKSLASH : Z := 92.

(** ** Options *)

Inductive ArgumentType := ARGUMENT_NO | ARGUMENT_OPTIONAL | ARGUMENT_MANDATORY.
Inductive Severity := ERR | WARNING | INFO | DBG.

(** What an option's argument stands for. *)
Inductive opt_value :=
  | VNone
  | VBoolean (v : bool)
  | VLogLevel (l : Severity)
  | VLuid (high low : Z)
  | VResolution (w h : Z).

(** The virtual members of an option class: the argument's name in the usage
    screen, and the check that converts it ([None]: refused). *)
Record opt_class := { argument_name : bytes; argument_check : bytes -> option opt_value }.

Record opt := {
  short_name : Z;                  (** 0 for none *)
  long_name : bytes;
  argument_type : ArgumentType;
  description : bytes;
  class : opt_class;
  argument : bytes;
  valid : bool;
  value : opt_value
}.

Definition set_argument (a : bytes) (o : opt) : opt :=
  {| short_name := short_name o; long_name := long_name o; argument_type := argument_type o;
     description := description o; class := class o; argument := a; valid := valid o; value := value o |}.
Definition set_value (v : opt_value) (o : opt) : opt :=
  {| short_name := short_name o; long_name := long_name o; argument_type := argument_type o;
     description := description o; class := class o; argument := argument o; valid := valid o; value := v |}.
Definition set_valid (o : opt) : opt :=
  {| short_name := short_name o; long_name := long_name o; argument_type := argument_type o;
     description := description o; class := class o; argument := argument o; valid := true; value := value o |}.

(** *** The classes *)

Definition plain_class : opt_class := {| argument_name := b "<ARG>"; argument_check := fun _ => Some VNone |}.

(** [option_boolean::argument_check] *)
Definition boolean_check (arg : bytes) : option opt_value :=
  if existsb (strcaseeq arg) [b "true"; b "1"; b "y"; b "yes"; b "enabled"; b "enable"; b "on"] then Some (VBoolean true)
  else if existsb (strcaseeq arg) [b "false"; b "0"; b "n"; b "no"; b "disabled"; b "disable"; b "off"]
  then Some (VBoolean false)
  else None.
Definition boolean_class : opt_class := {| argument_name := b "<ARG>"; argument_check := boolean_check |}.

(** [option_loglevel::argument_check] *)
Definition loglevel_check (arg : bytes) : option opt_value :=
  if str_eqb arg (b "error") then Some (VLogLevel ERR)
  else if str_eqb arg (b "warning") then Some (VLogLevel WARNING)
  else if str_eqb arg (b "info") then Some (VLogLevel INFO)
  else if str_eqb arg (b "debug") then Some (VLogLevel DBG)
  else None.
Definition loglevel_class : opt_class := {| argument_name := b "LEVEL"; argument_check := loglevel_check |}.

(** Sign of a number. *)
Definition sign_of (s : bytes) : bool * bytes :=
  match s with 45 :: r => (true, r) | 43 :: r => (false, r) | _ => (false, s) end.

(** The base a number is written in, for base 0. *)
Definition base_of (s : bytes) : Z * bytes :=
  match s with
  | 48 :: x :: h :: _ => if ((x =? 120) || (x =? 88)) && is_hex h then (16, drop 2 s) else (8, s)
  | 48 :: _ => (8, s)
  | _ => (10, s)
  end.

Definition ULONG_MAX : Z := 4294967295.

(** [std::stoul] in base 0: [None] when it throws; what follows the digits is
    not looked at, and a minus sign negates in the unsigned type. *)
Definition stoul (f : bytes) : option Z :=
  let '(neg, s) := sign_of (drop_spaces f) in
  let '(base, s) := base_of s in
  let '(v, n, _) := digits base 0 0 s in
  if (n =? 0)%nat then None
  else if ULONG_MAX <? v then None
  else Some (if neg : bool then u32 (- v) else v).

(** The words of a string. *)
Fixpoint word (s : bytes) : bytes * bytes :=
  match s with
  | c :: s' => if isspace c then ([], s) else let '(w, r) := word s' in (c :: w, r)
  | [] => ([], [])
  end.
Fixpoint words (fuel : nat) (s : bytes) : list bytes :=
  match fuel with
  | O => []
  | S fuel => match word (drop_spaces s) with ([], _) => [] | (w, r) => w :: words fuel r end
  end.

(** [option_luid::argument_check]: every word must be a number, and the first
    two are taken. *)
Definition luid_check (arg : bytes) : option opt_value :=
  l ← mapM stoul (words (S (length arg)) arg);
  match l with hi :: lo :: _ => Some (VLuid (i32 hi) lo) | _ => None end.
Definition luid_class : opt_class := {| argument_name := [34] ++ b "HI LO" ++ [34]; argument_check := luid_check |}.

(** Extraction of a [uint16_t]: [None] when the stream fails; a number that does
    not fit fails. *)
Definition get_u16 (s : bytes) : option (Z * bytes) :=
  let '(neg, s) := sign_of (drop_spaces s) in
  let '(v, n, r) := digits 10 0 0 s in
  if (n =? 0)%nat then None
  else if 65535 <? (if neg : bool then u64 (- v) else v) then None
  else Some (if neg then u64 (- v) else v, r).

(** Extraction of a [char]. *)
Definition get_char (s : bytes) : option (Z * bytes) :=
  match drop_spaces s with c :: r => Some (c, r) | [] => None end.

(** [option_resolution::argument_check] *)
Definition resolution_check (arg : bytes) : option opt_value :=
  '(w, r) ← get_u16 arg;
  '(c, r) ← get_char r;
  '(h, _) ← get_u16 r;
  if tolower c =? 120 then Some (VResolution w h) else None.
Definition resolution_class : opt_class := {| argument_name := b "WxH"; argument_check := resolution_check |}.

(** ** The parser *)

Inductive opt_error := NameNotGiven | LongShortName | NotSupported | OnlyOnce | BadArgument | MandatoryMissing.

Inductive outcome :=
  | Parsed (opts : list opt) (rest : list bytes)
  | Thrown (e : opt_error) (opts : list opt).

(** [ptr[0] == '-'] and [ptr[1] == '-'] *)
Definition is_option (ptr : bytes) : bool := match ptr with c :: _ => c =? CH_MINUS | [] => false end.
Definition is_long (ptr : bytes) : bool := match ptr with _ :: c :: _ => c =? CH_MINUS | _ => false end.

(** The loop over the known options: the place of the option. *)
Fixpoint find_option (ptr : bytes) (opts : list opt) : opt_error + nat :=
  match opts with
  | [] => inl NotSupported
  | o :: opts =>
      let found :=
        if is_long ptr
        then inr ((2 <? length ptr)%nat && str_eqb (long_name o) (drop 2 ptr))
        else if negb (length ptr =? 2)%nat then inl LongShortName
        else inr (match ptr with _ :: c :: _ => short_name o =? c | _ => false end) in
      match found with
      | inl e => inl e
      | inr true => inr O
      | inr false => match find_option ptr opts with inr i => inr (S i) | inl e => inl e end
      end
  end.

(** The argument of an option that was found, given the next word of the command
    line: an error, or the option and whether the word was taken. *)
Definition take_argument (o : opt) (next : option bytes) : opt_error * opt + opt * bool :=
  match argument_type o with
  | ARGUMENT_NO => inr (set_valid o, false)
  | ty =>
      let found := match next with
                   | Some (c :: _) => match ty with ARGUMENT_OPTIONAL => negb (c =? CH_MINUS) | _ => true end
                   | _ => false
                   end in
      if found then
        let a := default [] next in
        match argument_check (class o) a with
        | Some v => inr (set_valid (set_value v (set_argument a o)), true)
        | None => inl (BadArgument, set_argument a o)
        end
      else match ty with
           | ARGUMENT_MANDATORY => inl (MandatoryMissing, o)
           | _ => inr (set_valid o, false)
           end
  end.

(** [ga_get_opts::parse] on the words after the program's name: the options and
    the words left in [argv]. *)
Fixpoint parse (args : list bytes) (opts : list opt) : outcome :=
  match args with
  | [] => Parsed opts []
  | ptr :: rest =>
      if negb (is_option ptr) then Parsed opts args
      else if (length ptr =? 1)%nat then Thrown NameNotGiven opts
      else match find_option ptr opts with
           | inl e => Thrown e opts
           | inr i =>
               match opts !! i with
               | None => Thrown NotSupported opts
               | Some o =>
                   if valid o then Thrown OnlyOnce opts
                   else match take_argument o (head rest) with
                        | inl (e, o) => Thrown e (<[i := o]> opts)
                        | inr (o, taken) =>
                            match taken, rest with
                            | true, _ :: rest' => parse rest' (<[i := o]> opts)
                            | _, _ => parse rest (<[i := o]> opts)
                            end
                        end
               end
           end
  end.

(** The constructor: path and name of the program, at the last separator. *)
Fixpoint last_sep (s : bytes) : option (bytes * bytes) :=
  match s with
  | [] => None
  | c :: s => match last_sep s with
              | Some (p, n) => Some (c :: p, n)
              | None => if (c =? CH_SLASH) || (c =? CH_BACKSLASH) then Some ([], s) else None
              end
  end.
Definition app_path_name (pathname : bytes) : bytes * bytes :=
  match last_sep pathname with Some (p, n) => (p, n) | None => ([], pathname) end.

Definition command_line (app_name : bytes) (args : list bytes) : bytes :=
  app_name ++ flat_map (fun a => 32 :: a) args.

(** ** The usage screen *)

Definition usage_cli_option (o : opt) : bytes :=
  if short_name o =? 0 then []
  else b " -" ++ [short_name o] ++
       match argument_type o with
       | ARGUMENT_NO => []
       | ARGUMENT_OPTIONAL => b " [" ++ argument_name (class o) ++ b "]"
       | ARGUMENT_MANDATORY => b " " ++ argument_name (class o)
       end.

Definition usage_cli (app_name additional_params : bytes) (opts : list opt) : bytes :=
  b "  " ++ app_name ++ flat_map usage_cli_option opts
  ++ (if bool_decide (additional_params = []) then [] else b " " ++ additional_params) ++ [CH_NL].

(** Padding with spaces: [std::left] stays in force once it was used. *)
Definition pad (lf : bool) (n : nat) (s : bytes) : bytes :=
  if lf then s ++ repeat 32 (n - length s) else repeat 32 (n - length s) ++ s.

Definition DESC_INDENT : nat := 35.
Definition ARGS_WIDTH : nat := 8.

(** The lines of a description; each after the first is indented. *)
Fixpoint lines (cur : bytes) (s : bytes) : list bytes :=
  match s with
  | [] => [cur]
  | c :: s => if c =? CH_NL then cur :: lines [] s else lines (cur ++ [c]) s
  end.

Definition usage_lines (lf : bool) (indent : nat) (d : bytes) : bytes :=
  match lines [] d with
  | [] => []
  | l :: ls => l ++ [CH_NL] ++ flat_map (fun l => pad lf indent (b " ") ++ l ++ [CH_NL]) ls
  end.

(** One option; the state is whether [std::left] is in force. *)
Definition usage_option (indent width : nat) (lf : bool) (o : opt) : bytes * bool :=
  let has_long := negb (bool_decide (long_name o = [])) in
  let lf' := lf || has_long in
  let names :=
    b "  " ++ (if short_name o =? 0 then b "    " else b "-" ++ [short_name o] ++ b ", ")
    ++ (if has_long then b "--" ++ pad true (indent - width - 8) (long_name o)
        else pad lf (indent - width - 6) (b " ")) in
  let arg := match argument_type o with
             | ARGUMENT_NO => []
             | ARGUMENT_OPTIONAL => b "[" ++ argument_name (class o) ++ b "]"
             | ARGUMENT_MANDATORY => argument_name (class o)
             end in
  (names ++ pad lf' width arg ++ usage_lines lf' indent (description o), lf').

Fixpoint usage_options (indent width : nat) (lf : bool) (opts : list opt) : bytes :=
  match opts with
  | [] => []
  | o :: opts => let '(t, lf) := usage_option indent width lf o in t ++ usage_options indent width lf opts
  end.

(** ** Rendering command lines *)

(** A use of an option: its place, whether its long name is used, its argument. *)
Record use := { u_index : nat; u_long : bool; u_arg : option bytes }.

Definition render_name (o : opt) (long : bool) : bytes :=
  if long then 45 :: 45 :: long_name o else [45; short_name o].

Definition render_use (opts : list opt) (u : use) : list bytes :=
  match opts !! u_index u with
  | None => []
  | Some o => render_name o (u_long u) :: match u_arg u with Some a => [a] | None => [] end
  end.

Definition render (opts : list opt) (us : list use) : list bytes := flat_map (render_use opts) us.

(** The option after the use. *)
Definition used (a : option bytes) (o : opt) : opt :=
  match a with
  | None => set_valid o
  | Some a => set_valid (set_value (default VNone (argument_check (class o) a)) (set_argument a o))
  end.
Definition apply_use (opts : list opt) (u : use) : list opt := alter (used (u_arg u)) (u_index u) opts.

(** No two options have a name in common. *)
Definition names_distinct (opts : list opt) : Prop := forall i j oi oj,
  opts !! i = Some oi -> opts !! j = Some oj ->
  (long_name oi = long_name oj /\ long_name oi <> [] -> i = j) /\
  (short_name oi = short_name oj -> short_name oi <> 0 -> i = j).

(** A use that can be written: the name exists, and the argument is what the
    option takes; [next] is the word that follows when there is no argument. *)
Definition usable (o : opt) (u : use) (next : option bytes) : Prop :=
  (if u_long u then long_name o <> [] else short_name o <> 0 /\ short_name o <> CH_MINUS) /\
  match u_arg u with
  | Some a => (exists c r, a = c :: r /\ (argument_type o = ARGUMENT_OPTIONAL -> c <> CH_MINUS)) /\
              argument_type o <> ARGUMENT_NO /\ is_Some (argument_check (class o) a)
  | None => argument_type o = ARGUMENT_NO \/
            argument_type o = ARGUMENT_OPTIONAL /\
              match next with Some (c :: _) => c = CH_MINUS | _ => True end
  end.

Fixpoint all_usable (opts : list opt) (us : list use) (rest : list bytes) : Prop :=
  match us with
  | [] => True
  | u :: us => (exists o, opts !! u_index u = Some o /\ valid o = false /\
                  usable o u (head (render opts us ++ rest))) /\ all_usable opts us rest
  end.

(** Options with the same names, arguments and classes. *)
Definition same_opt (o o' : opt) : Prop :=
  short_name o = short_name o' /\ long_name o = long_name o' /\ argument_type o = argument_type o' /\ class o = class o'.

Lemma find_by_name opts i o (long : bool) : names_distinct opts -> opts !! i = Some o ->
  (if long then long_name o <> [] else short_name o <> 0 /\ short_name o <> CH_MINUS) ->
  find_option (render_name o long) opts = inr i.
Proof.
  revert i. induction opts as [|o' opts IH]; intros i N Hi Hn; [done|].
  assert (N' : names_distinct opts).
  { intros j k oj ok Hj Hk. destruct (N (S j) (S k) oj ok Hj Hk). naive_solver. }
  destruct i as [|i]; cbn in Hi.
  - simplify_eq. cbn [find_option]. destruct long; cbn [render_name length drop].
    + cbn -[str_eqb]. rewrite str_eqb_refl. by destruct (long_name o).
    + destruct Hn as [_ Hm]. cbn [is_long]. rewrite (proj2 (Z.eqb_neq _ _) Hm). cbn. by rewrite Z.eqb_refl.
  - specialize (IH i N' Hi Hn). destruct (N 0%nat (S i) o' o eq_refl Hi) as [N1 N2]. cbn [find_option].
    destruct long; cbn [render_name length drop].
    + cbn [render_name] in IH. rewrite IH, drop_0. cbn [is_long]. rewrite Z.eqb_refl.
      assert (str_eqb (long_name o') (long_name o) = false) as ->.
      { apply not_true_iff_false. intros E%str_eqb_eq. rewrite <- E in Hn. discriminate (N1 (conj E Hn)). }
      by rewrite andb_false_r.
    + cbn [render_name] in IH. destruct Hn as [Hz Hm]. cbn [is_long]. rewrite (proj2 (Z.eqb_neq _ _) Hm). cbn [negb Nat.eqb length].
      destruct (Z.eqb_spec (short_name o') (short_name o)) as [E|_]; [rewrite <- E in Hz; discriminate (N2 E Hz)|].
      by rewrite IH.
Qed.

Lemma take_used o u tail : usable o u (head tail) ->
  take_argument o (head (match u_arg u with Some a => a :: tail | None => tail end)) =
  inr (used (u_arg u) o, match u_arg u with Some _ => true | None => false end).
Proof.
  intros [_ H]. unfold take_argument, used. destruct (u_arg u) as [a|].
  - destruct H as ((c & r & -> & Hc) & Hno & [v Hv]). cbn [head from_option]. unfold id.
    destruct (argument_type o); [done| |].
    + rewrite (proj2 (Z.eqb_neq _ _) (Hc eq_refl)). cbn [negb]. by rewrite Hv.
    + by rewrite Hv.
  - destruct H as [->|[-> H]]; [done|]. destruct (head tail) as [[|c r]|]; try done.
    by rewrite H, Z.eqb_refl.
Qed.

Lemma used_same a o : same_opt (used a o) o.
Proof. by destruct a. Qed.

Lemma lookup_apply opts u i : apply_use opts u !! i =
  if decide (i = u_index u) then used (u_arg u) <$> opts !! i else opts !! i.
Proof.
  unfold apply_use. destruct (decide (i = u_index u)) as [->|N].
  - by rewrite list_lookup_alter, decide_True.
  - by rewrite list_lookup_alter, decide_False.
Qed.

Lemma render_apply opts u us : render (apply_use opts u) us = render opts us.
Proof.
  unfold render. induction us as [|v us IH]; [done|]. cbn [flat_map]. rewrite IH. f_equal. unfold render_use.
  rewrite lookup_apply. destruct (decide (u_index v = u_index u)); [|done].
  destruct (opts !! u_index v) as [o|]; [|done]. cbn [fmap option_fmap option_map].
  destruct (used_same (u_arg u) o) as (E1 & E2 & _). unfold render_name. by rewrite E1, E2.
Qed.

Lemma names_apply opts u : names_distinct opts -> names_distinct (apply_use opts u).
Proof.
  intros N i j oi oj Hi Hj.
  assert (H : forall k ok, apply_use opts u !! k = Some ok -> exists o, opts !! k = Some o /\ same_opt ok o).
  { intros k ok. rewrite lookup_apply. destruct (decide (k = u_index u)); [|by eexists].
    intros (o & -> & ->)%fmap_Some. eauto using used_same. }
  destruct (H _ _ Hi) as (o1 & H1 & S1 & S2 & _), (H _ _ Hj) as (o2 & H2 & S3 & S4 & _).
  rewrite S1, S2, S3, S4. by apply N.
Qed.

Lemma usable_apply opts u us rest : u_index u ∉ map u_index us -> all_usable opts us rest ->
  all_usable (apply_use opts u) us rest.
Proof.
  induction us as [|v us IH]; [done|]. intros Hn [(o & Ho & Hv & Hu) Hus]. cbn in Hn.
  apply not_elem_of_cons in Hn as [Hn1 Hn2]. split; [|by apply IH].
  exists o. rewrite lookup_apply, decide_False, render_apply by done. done.
Qed.

Lemma apply_use_insert opts u o : opts !! u_index u = Some o ->
  <[u_index u := used (u_arg u) o]> opts = apply_use opts u.
Proof.
  intros Ho. apply list_eq. intros i. rewrite lookup_apply. destruct (decide (i = u_index u)) as [->|N].
  - rewrite Ho. apply list_lookup_insert_eq. by eapply lookup_lt_Some.
  - by apply list_lookup_insert_ne.
Qed.

(** Uses that are written are taken, whatever follows them. *)
Lemma parse_uses opts us rest :
  names_distinct opts -> NoDup (map u_index us) -> all_usable opts us rest ->
  parse (render opts us ++ rest) opts = parse rest (fold_left apply_use us opts).
Proof.
  revert opts. induction us as [|u us IH]; intros opts N D U; [done|].
  cbn in D. apply NoDup_cons in D as [Du D]. destruct U as [(o & Ho & Hv & Hu) U].
  set (tail := render opts us ++ rest) in *.
  assert (E : render opts (u :: us) ++ rest = render_name o (u_long u) ::
    match u_arg u with Some a => a :: tail | None => tail end).
  { unfold render at 1. cbn [flat_map]. unfold render_use at 1. rewrite Ho. subst tail. by destruct (u_arg u). }
  rewrite E. cbn [parse]. rewrite (find_by_name opts (u_index u) o) by (done || apply Hu).
  assert (is_option (render_name o (u_long u)) = true /\ (length (render_name o (u_long u)) =? 1)%nat = false) as [-> ->]
    by (by destruct (u_long u)).
  cbn [negb]. rewrite Ho, Hv, take_used by done. rewrite (apply_use_insert _ _ _ Ho).
  cbn [fold_left]. rewrite <- (IH (apply_use opts u)); [|by apply names_apply|done|by apply usable_apply].
  rewrite render_apply. fold tail. destruct (u_arg u); [done|]. by destruct tail.
Qed.

(** A command line that is written is read back.  For options whose names
    are distinct, any uses of different options (by short or long name, with
    arguments the options accept, an optional argument left out only where the
    next word starts with a minus sign or there is none) followed by other words,
    written out, parse to exactly these options marked as given with their
    converted arguments, all other options as before, and the other words left
    over. *)
Theorem parse_render opts us rest :
  names_distinct opts -> NoDup (map u_index us) -> all_usable opts us rest ->
  match rest with w :: _ => is_option w = false | [] => True end ->
  parse (render opts us ++ rest) opts = Parsed (fold_left apply_use us opts) rest.
Proof.
  intros N D U R. rewrite parse_uses by done. destruct rest as [|w rest]; [done|]. cbn [parse]. by rewrite R.
Qed.

Lemma names_fold us : forall opts, names_distinct opts -> names_distinct (fold_left apply_use us opts).
Proof. induction us as [|u us IH]; intros opts N; [done|]. by apply IH, names_apply. Qed.

(** Uses keep the names of an option, and what is given stays given. *)
Lemma fold_same i us : forall opts o, opts !! i = Some o -> exists o',
  fold_left apply_use us opts !! i = Some o' /\ same_opt o' o /\ (valid o = true -> valid o' = true).
Proof.
  induction us as [|v us IH]; intros opts o Ho; [by exists o|]. cbn [fold_left].
  destruct (decide (i = u_index v)) as [E|E].
  - destruct (IH (apply_use opts v) (used (u_arg v) o)) as (o' & H & S & V).
    { rewrite lookup_apply, decide_True by done. by rewrite Ho. }
    exists o'. split; [done|]. destruct (used_same (u_arg v) o) as (?&?&?&?), S as (?&?&?&?).
    split; [split_and!; congruence|]. intros _. apply V. by destruct (u_arg v).
  - apply IH. by rewrite lookup_apply, decide_False.
Qed.

Lemma fold_used us u opts o : opts !! u_index u = Some o -> u ∈ us ->
  exists o', fold_left apply_use us opts !! u_index u = Some o' /\ same_opt o' o /\ valid o' = true.
Proof.
  intros Ho (us1 & us2 & ->)%list_elem_of_split. rewrite fold_left_app. cbn [fold_left].
  destruct (fold_same (u_index u) us1 opts o Ho) as (o1 & H1 & S1 & _).
  destruct (fold_same (u_index u) us2 (apply_use (fold_left apply_use us1 opts) u) (used (u_arg u) o1))
    as (o2 & H2 & S2 & V2).
  { rewrite lookup_apply, decide_True by done. by rewrite H1. }
  exists o2. split; [done|]. destruct (used_same (u_arg u) o1) as (?&?&?&?), S1 as (?&?&?&?), S2 as (?&?&?&?).
  split; [split_and!; congruence|]. apply V2. by destruct (u_arg u).
Qed.

Lemma all_usable_elem opts us rest u : all_usable opts us rest -> u ∈ us ->
  exists o next, opts !! u_index u = Some o /\ usable o u next.
Proof.
  induction us as [|v us IH]; intros U Hu; [by apply not_elem_of_nil in Hu|].
  destruct U as [(o & Ho & _ & Hv) U]. apply elem_of_cons in Hu as [->|Hu]; [by eauto|by apply IH].
Qed.

Lemma find_unknown name opts : Forall (fun o => long_name o <> name) opts ->
  find_option (CH_MINUS :: CH_MINUS :: name) opts = inl NotSupported.
Proof.
  induction 1 as [|o opts Ho _ IH]; [done|]. cbn [find_option]. rewrite IH. cbn [is_long drop]. rewrite Z.eqb_refl, drop_0.
  assert (str_eqb (long_name o) name = false) as -> by (apply not_true_iff_false; by intros E%str_eqb_eq).
  by rewrite andb_false_r.
Qed.

Lemma long_names_fold us : forall opts, map long_name (fold_left apply_use us opts) = map long_name opts.
Proof.
  induction us as [|u us IH]; intros opts; [done|]. cbn [fold_left]. rewrite IH. apply list_eq. intros i.
  rewrite !list_lookup_fmap, lookup_apply. destruct (decide (i = u_index u)); [|done].
  destruct (opts !! i) as [o|]; [|done]. cbn. f_equal. apply used_same.
Qed.

(** An option can be given only once, and only a known one.  After uses that
    parse, giving one of the options again throws, whatever follows; so do a name
    that no option has and a lone minus sign. *)
Theorem parse_errors opts us u rest :
  names_distinct opts -> NoDup (map u_index us) -> u ∈ us ->
  let again := match opts !! u_index u with Some o => render_name o (u_long u) | None => [] end in
  let after := fold_left apply_use us opts in
  (all_usable opts us (again :: rest) -> parse (render opts us ++ again :: rest) opts = Thrown OnlyOnce after) /\
  (all_usable opts us ([CH_MINUS] :: rest) ->
     parse (render opts us ++ [CH_MINUS] :: rest) opts = Thrown NameNotGiven after) /\
  (forall name, name <> [] -> Forall (fun o => long_name o <> name) opts ->
     all_usable opts us ((CH_MINUS :: CH_MINUS :: name) :: rest) ->
     parse (render opts us ++ (CH_MINUS :: CH_MINUS :: name) :: rest) opts = Thrown NotSupported after).
Proof.
  intros N D Hu again after. split; [|split].
  - intros U. destruct (all_usable_elem _ _ _ _ U Hu) as (o & next & Ho & Hn & _).
    destruct (fold_used us u opts o Ho Hu) as (o' & Ho' & (S1 & S2 & _) & V).
    rewrite parse_uses by done. subst again after. rewrite Ho. cbn [parse].
    replace (render_name o (u_long u)) with (render_name o' (u_long u)) by (unfold render_name; by rewrite S1, S2).
    rewrite (find_by_name _ (u_index u) o') by (try apply names_fold; rewrite ?S1, ?S2; done). rewrite Ho', V.
    by destruct (u_long u).
  - intros U. by rewrite parse_uses by done.
  - intros name Hne Hno U. rewrite parse_uses by done. cbn [parse is_option length]. rewrite Z.eqb_refl. cbn [negb Nat.eqb].
    rewrite find_unknown; [done|]. rewrite <- (Forall_map long_name (fun l => l <> name)), long_names_fold.
    by rewrite Forall_map.
Qed.

(** ** Arguments *)

Lemma get_u16_print n u : 0 <= n ->
  (forall c r, u = c :: r -> match digit_val c with Some d => 10 <= d | None => True end) ->
  get_u16 (print_int n ++ u) = if 65535 <? n then None else Some (n, u).
Proof.
  intros Hn Hu. destruct (print_int_digits n Hn) as (c & r & E & H & V). rewrite E. unfold get_u16.
  assert (D : drop_spaces ((c :: r) ++ u) = (c :: r) ++ u).
  { apply Forall_cons in H as [Hc _]. cbn [app drop_spaces]. pattern c. by apply (is_dec_cases _ c Hc). }
  assert (S : sign_of ((c :: r) ++ u) = (false, (c :: r) ++ u)).
  { apply Forall_cons in H as [Hc _]. cbn [app sign_of]. pattern c. by apply (is_dec_cases _ c Hc). }
  rewrite D, S, digits_dec_app, V by done. cbn [length Nat.add Nat.eqb]. by destruct (65535 <? n).
Qed.

(** Resolutions are read back, in their range.  A width and a height printed
    in decimal with an x or X between them are accepted exactly when both fit 16
    bits, with exactly these values; a pair that does not fit is refused rather
    than truncated. *)
Theorem resolution_roundtrip w h c : 0 <= w -> 0 <= h -> c = 120 \/ c = 88 ->
  resolution_check (print_int w ++ c :: print_int h) =
  if (w <=? 65535) && (h <=? 65535) then Some (VResolution w h) else None.
Proof.
  intros Hw Hh Hc. unfold resolution_check.
  rewrite get_u16_print by (done || intros x r [= <- <-]; by destruct Hc; subst).
  rewrite (Z.leb_antisym 65535 w), (Z.leb_antisym 65535 h).
  destruct (65535 <? w); [done|]. cbn [mbind option_bind negb andb].
  assert (G : get_char (c :: print_int h) = Some (c, print_int h)) by (by destruct Hc; subst).
  rewrite G. cbn [mbind option_bind]. rewrite <- (app_nil_r (print_int h)), get_u16_print by done.
  destruct (65535 <? h); [done|]. cbn [mbind option_bind negb]. by destruct Hc; subst.
Qed.

Lemma resolution_roundtrip_witness :
  resolution_check (b "1920x1080") = Some (VResolution 1920 1080) /\ resolution_check (b "1920X65536") = None.
Proof.
  split; [apply (resolution_roundtrip 1920 1080 120)|apply (resolution_roundtrip 1920 65536 88)];
    first [left; reflexivity | right; reflexivity | discriminate].
Defined.

(** *** Examples *)

Definition opt_of (short : Z) (long : bytes) (ty : ArgumentType) (c : opt_class) : opt :=
  {| short_name := short; long_name := long; argument_type := ty; description := []; class := c; argument := [];
     valid := false; value := VNone |}.

(** Options as the servers have them. *)
Definition sample_opts : list opt :=
  [opt_of 104 (b "help") ARGUMENT_NO plain_class; opt_of 0 (b "loglevel") ARGUMENT_MANDATORY loglevel_class;
   opt_of 0 (b "luid") ARGUMENT_MANDATORY luid_class; opt_of 115 (b "size") ARGUMENT_MANDATORY resolution_class;
   opt_of 118 (b "verbose") ARGUMENT_OPTIONAL boolean_class].

Definition sample_uses : list use :=
  [{| u_index := 3; u_long := false; u_arg := Some (b "1280x720") |};
   {| u_index := 4; u_long := true; u_arg := None |};
   {| u_index := 2; u_long := true; u_arg := Some (b "0 0x1a") |}].

Lemma sample_distinct : names_distinct sample_opts.
Proof.
  intros [|[|[|[|[|i]]]]] [|[|[|[|[|j]]]]] oi oj Hi Hj; cbn in Hi, Hj; try discriminate; simplify_eq;
    (split; [intros [E _]; (reflexivity || (vm_compute in E; discriminate E))
            |intros E; (reflexivity || (vm_compute in E; discriminate E) || (intros Z; exfalso; by apply Z))]).
Qed.

Lemma sample_usable rest : all_usable sample_opts sample_uses rest.
Proof.
  cbn [all_usable sample_uses].
  split; [|split; [|split; [|done]]]; eexists; (split; [reflexivity|]); (split; [reflexivity|]); split.
  - by split.
  - split; [by do 2 eexists|]. split; [done|]. by vm_compute; eexists.
  - done.
  - right. split; [done|]. reflexivity.
  - done.
  - split; [by do 2 eexists|]. split; [done|]. by vm_compute; eexists.
Qed.

Lemma parse_render_witness :
  parse [b "-s"; b "1280x720"; b "--verbose"; b "--luid"; b "0 0x1a"; b "game.exe"] sample_opts =
    Parsed (fold_left apply_use sample_uses sample_opts) [b "game.exe"] /\
  value <$> fold_left apply_use sample_uses sample_opts !! 2%nat = Some (VLuid 0 26).
Proof.
  split; [|vm_compute; reflexivity].
  apply (parse_render sample_opts sample_uses [b "game.exe"]).
  - exact sample_distinct.
  - repeat (constructor; [vm_compute; intros H; repeat (apply elem_of_cons in H as [H|H]; [discriminate H|]);
      by apply not_elem_of_nil in H|]). constructor.
  - apply sample_usable.
  - reflexivity.
Defined.

Lemma parse_errors_witness :
  parse [b "-s"; b "1280x720"; b "--verbose"; b "--luid"; b "0 0x1a"; b "-s"] sample_opts =
    Thrown OnlyOnce (fold_left apply_use sample_uses sample_opts) /\
  parse [b "-s"; b "1280x720"; b "--verbose"; b "--luid"; b "0 0x1a"; b "--nosuch"] sample_opts =
    Thrown NotSupported (fold_left apply_use sample_uses sample_opts).
Proof.
  pose proof (parse_errors sample_opts sample_uses {| u_index := 3; u_long := false; u_arg := Some (b "1280x720") |} [])
    as P.
  destruct P as (P1 & _ & P3).
  - exact sample_distinct.
  - repeat (constructor; [vm_compute; intros H; repeat (apply elem_of_cons in H as [H|H]; [discriminate H|]);
      by apply not_elem_of_nil in H|]). constructor.
  - apply elem_of_cons. by left.
  - split.
    + apply P1. apply sample_usable.
    + apply (P3 (b "nosuch")); [discriminate| |apply sample_usable].
      repeat (constructor; [vm_compute; discriminate|]). constructor.
Defined.

(** The path and the name of the program make up its full name. *)
Lemma last_sep_app s p n : last_sep s = Some (p, n) ->
  exists c, s = p ++ c :: n /\ ((c =? CH_SLASH) || (c =? CH_BACKSLASH) = true) /\
    Forall (fun c => (c =? CH_SLASH) || (c =? CH_BACKSLASH) = false) n.
Proof.
  assert (K : forall s, last_sep s = None -> Forall (fun c => (c =? CH_SLASH) || (c =? CH_BACKSLASH) = false) s).
  { clear. induction s as [|c s IH]; cbn; intros E; [constructor|].
    destruct (last_sep s) as [[? ?]|]; [done|]. destruct (_ || _) eqn:Ec; [done|]. constructor; auto. }
  revert p n. induction s as [|c s IH]; intros p n E; cbn in E; [done|].
  destruct (last_sep s) as [[p' n']|] eqn:Es.
  - simplify_eq. destruct (IH _ _ eq_refl) as (d & -> & H). by exists d.
  - destruct (_ || _) eqn:Ec; simplify_eq. exists c. split_and!; [done..|by apply K].
Qed.
