(* ===== verification/ParamShared.v ===== *)
(** * ParamShared: parameters shared between processes

    Models [src/sources/streamer/core/ga-param-shared.cpp]: the parameters of a
    session in named shared memory, which the server process fills in and the
    process of the game reads.  The state is the system's: the named objects with
    their contents and the open handles; a [ga_param_shared] object of any process
    is a handle and a view of the object, so what one process stores another
    reads.  Copying a string that does not fit ([strcpy_s]), and storing through a
    view that was mapped for reading, end the process: they are undefined here. *)

From Stdlib Require Import ZArith Lia String.
From stdpp Require Import base gmap list strings.
From S2P Require Import Prelude StdMap GaConf.

(** ** The parameters *)

(** The character arrays and the other members of [param_shared_s]. *)
Inductive sfield :=
  | config_pathname | ga_root_path | game_dir | game_exe | game_argv | hook_type | codec_format
  | server_peer_id | client_peer_id | logfile | video_bitrate | ltr_interval.
Inductive ifield :=
  | loglevel | luid_high | luid_low | enable_tcae | enable_ltr | enable_present
  | width | height | encode_width | encode_height.

#[export] Instance sfield_eq_dec : EqDecision sfield.
Proof. solve_decision. Defined.
#[export] Instance ifield_eq_dec : EqDecision ifield.
Proof. solve_decision. Defined.

Definition MAX_PATH : Z := 260.
Definition MAX_ARGV_LEN : Z := 2048.
Definition MAX_ID_LEN : Z := 32.

(** The size of an array. *)
Definition capacity (f : sfield) : Z :=
  match f with
  | config_pathname | ga_root_path | game_dir | game_exe | logfile => MAX_PATH
  | game_argv => MAX_ARGV_LEN
  | hook_type | codec_format | ltr_interval => 8
  | server_peer_id | client_peer_id => MAX_ID_LEN
  | video_bitrate => 16
  end.

Record param_shared_s := { strs : sfield -> bytes; ints : ifield -> Z }.

(** New pages are zero, whatever the members' initialisers say. *)
Definition zero_params : param_shared_s := {| strs := fun _ => []; ints := fun _ => 0 |}.

Definition set_str (f : sfield) (v : bytes) (p : param_shared_s) : param_shared_s :=
  {| strs := fun g => if decide (g = f) then v else strs p g; ints := ints p |}.
Definition set_int (f : ifield) (v : Z) (p : param_shared_s) : param_shared_s :=
  {| strs := strs p; ints := fun g => if decide (g = f) then v else ints p g |}.

(** ** The system *)

(** The mapping objects by name, and the open handles of all processes with the
    object of each. *)
Record system := { objects : gmap (list Z) param_shared_s; handles : gmap Z (list Z) }.

Definition put_object (nm : bytes) (p : param_shared_s) (y : system) : system :=
  {| objects := <[nm := p]> (objects y); handles := handles y |}.
Definition put_handle (h : Z) (nm : bytes) (y : system) : system :=
  {| objects := objects y; handles := <[h := nm]> (handles y) |}.

(** Close a handle: undefined on one that is not open; the object goes with its
    last handle. *)
Definition CloseHandle (h : Z) : cmd system unit := fun y =>
  match handles y !! h with
  | None => None
  | Some nm =>
      let hs := delete h (handles y) in
      Some (tt, {| objects := if bool_decide (map_Exists (fun _ n => n = nm) hs) then objects y
                              else delete nm (objects y);
                   handles := hs |})
  end.

(** ** The object *)

Inductive access := FILE_MAP_READ | FILE_MAP_WRITE.

(** [map_file_handle_] and [shared_param_] with the access it was mapped for. *)
Record ga_param_shared := { map_file_handle_ : option Z; shared_param_ : option (list Z * access) }.

Definition mem_name (pid : Z) : bytes := b "GA_Param_Shared_" ++ print_int pid.

(** [create_param_shared_mem]: [handle] and [view] are the system's answers; an
    object that exists is opened, a new one has zero pages. *)
Definition create_param_shared_mem (named : bytes) (desired_access : access) (handle : option Z) (view : bool)
    : cmd system (bool * ga_param_shared) := fun y =>
  match handle with
  | None => Some ((false, {| map_file_handle_ := None; shared_param_ := None |}), y)
  | Some h =>
      let y := match objects y !! named with Some _ => y | None => put_object named zero_params y end in
      let y := put_handle h named y in
      if negb view then
        (CloseHandle h;;; cret (false, {| map_file_handle_ := Some h; shared_param_ := None |})) y
      else Some ((true, {| map_file_handle_ := Some h; shared_param_ := Some (named, desired_access) |}), y)
  end.

(** The constructor. *)
Definition ga_param_shared_new (pid : Z) (desired_access : access) (handle : option Z) (view : bool)
    : cmd system ga_param_shared :=
  r <-- create_param_shared_mem (mem_name pid) desired_access handle view ;;
  cret (snd r).

(** The destructor. *)
Definition ga_param_shared_delete (s : ga_param_shared) : cmd system unit :=
  match map_file_handle_ s with Some h => CloseHandle h | None => cret tt end.

(** The memory of a view: undefined when the object is gone. *)
Definition load (s : ga_param_shared) (y : system) : option (option param_shared_s) :=
  match shared_param_ s with
  | None => Some None
  | Some (nm, _) => match objects y !! nm with Some p => Some (Some p) | None => None end
  end.

(** Store through the view, if there is one. *)
Definition store (s : ga_param_shared) (upd : param_shared_s -> option param_shared_s) : cmd system bool := fun y =>
  match shared_param_ s with
  | None => Some (false, y)
  | Some (nm, FILE_MAP_READ) => None
  | Some (nm, FILE_MAP_WRITE) =>
      p ← objects y !! nm;
      p ← upd p;
      Some (true, put_object nm p y)
  end.

(** [strcpy_s] into an array of the structure. *)
Definition strcpy_s (f : sfield) (v : bytes) (p : param_shared_s) : option param_shared_s :=
  if Z.of_nat (length v) <? capacity f then Some (set_str f v p) else None.

Definition put_str (f : sfield) (v : bytes) (s : ga_param_shared) : cmd system bool := store s (strcpy_s f v).
Definition put_int (f : ifield) (v : Z) (s : ga_param_shared) : cmd system bool := store s (fun p => Some (set_int f v p)).
Definition get_str (f : sfield) (s : ga_param_shared) (y : system) : option bytes :=
  (fun o => match o with Some p => strs p f | None => [] end) <$> load s y.
Definition get_int (f : ifield) (dflt : Z) (s : ga_param_shared) (y : system) : option Z :=
  (fun o => match o with Some p => ints p f | None => dflt end) <$> load s y.

(** *** The methods *)

Definition set_config_pathname := put_str config_pathname.
Definition get_config_pathname := get_str config_pathname.
Definition set_ga_root_path := put_str ga_root_path.
Definition get_ga_root_path := get_str ga_root_path.
Definition set_game_dir := put_str game_dir.
Definition get_game_dir := get_str game_dir.
Definition set_game_exe := put_str game_exe.
Definition get_game_exe := get_str game_exe.
Definition set_game_argv := put_str game_argv.
Definition get_game_argv := get_str game_argv.
Definition set_hook_type := put_str hook_type.
Definition get_hook_type := get_str hook_type.
Definition set_codec_format := put_str codec_format.
Definition get_codec_format := get_str codec_format.
Definition set_server_peer_id := put_str server_peer_id.
Definition get_server_peer_id := get_str server_peer_id.
Definition set_client_peer_id := put_str client_peer_id.
Definition get_client_peer_id := get_str client_peer_id.
Definition set_logfile := put_str logfile.
Definition get_logfile := get_str logfile.
Definition set_video_bitrate := put_str video_bitrate.
Definition get_video_bitrate := get_str video_bitrate.
Definition set_loglevel := put_int loglevel.
Definition SEVERITY_INFO : Z := 2.
Definition get_loglevel := get_int loglevel SEVERITY_INFO.
Definition set_luid (high low : Z) (s : ga_param_shared) : cmd system bool :=
  store s (fun p => Some (set_int luid_low low (set_int luid_high high p))).
Definition get_luid (s : ga_param_shared) (y : system) : option (Z * Z) :=
  h ← get_int luid_high 0 s y; l ← get_int luid_low 0 s y; Some (h, l).
Definition set_tcae (v : bool) := put_int enable_tcae (Z.b2z v).
Definition get_tcae := get_int enable_tcae 0.
Definition set_ltr (v : bool) := put_int enable_ltr (Z.b2z v).
Definition get_ltr := get_int enable_ltr 0.
Definition set_ltrinterval := put_str ltr_interval.
(** Without memory a string is made from the null pointer 0. *)
Definition get_ltrinterval (s : ga_param_shared) (y : system) : option bytes :=
  o ← load s y; p ← o; Some (strs p ltr_interval).
Definition set_present (v : bool) := put_int enable_present (Z.b2z v).
Definition get_present := get_int enable_present 0.
Definition set_width := put_int width.
Definition get_width := get_int width 0.
Definition set_height := put_int height.
Definition get_height := get_int height 0.
Definition set_encode_width := put_int encode_width.
Definition get_encode_width := get_int encode_width 0.
Definition set_encode_height := put_int encode_height.
Definition get_encode_height := get_int encode_height 0.

(** [set_param_shared]: the members one after the other. *)
Definition copy_order : list sfield :=
  [config_pathname; ga_root_path; game_dir; game_exe; game_argv; hook_type; codec_format; server_peer_id;
   client_peer_id; logfile; video_bitrate; ltr_interval].
Definition copy_ints : list ifield :=
  [loglevel; luid_high; luid_low; enable_tcae; enable_ltr; enable_present; width; height; encode_width; encode_height].

Definition copy_params (params p : param_shared_s) : option param_shared_s :=
  p ← foldl (fun o f => p ← o; strcpy_s f (strs params f) p) (Some p) copy_order;
  Some (foldl (fun p f => set_int f (ints params f) p) p copy_ints).

Definition set_param_shared (params : param_shared_s) (s : ga_param_shared) : cmd system bool := store s (copy_params params).

Definition is_valid (s : ga_param_shared) (y : system) : option bool :=
  r ← get_ga_root_path s y;
  if bool_decide (r = []) then Some false
  else c ← get_config_pathname s y; Some (negb (bool_decide (c = []))).

Definition get_event_name_with_pid (event_name : option bytes) (pid : Z) : bytes :=
  match event_name with None => [] | Some e => e ++ b "_" ++ print_int pid end.

(** ** What is stored is read *)

Definition fits (params : param_shared_s) (f : sfield) : bool := Z.of_nat (length (strs params f)) <? capacity f.

Lemma copy_strs params l : forall p,
  foldl (fun o f => p ← o; strcpy_s f (strs params f) p) (Some p) l =
  if forallb (fits params) l
  then Some (foldl (fun p f => set_str f (strs params f) p) p l) else None.
Proof.
  induction l as [|f l IH]; intros p; [done|]. cbn [foldl forallb]. cbn [mbind option_bind]. unfold strcpy_s at 2.
  change (Z.of_nat (length (strs params f)) <? capacity f) with (fits params f).
  destruct (fits params f); cbn [andb]; [apply IH|]. clear. induction l as [|g l IH]; [done|]. exact IH.
Qed.

Lemma set_strs params l g : forall p,
  strs (foldl (fun p f => set_str f (strs params f) p) p l) g = (if decide (g ∈ l) then strs params g else strs p g) /\
  ints (foldl (fun p f => set_str f (strs params f) p) p l) = ints p.
Proof.
  induction l as [|f l IH]; intros p; [done|]. cbn [foldl]. destruct (IH (set_str f (strs params f) p)) as [-> ->].
  split; [|done]. cbn [strs set_str].
  destruct (decide (g ∈ l)) as [H|H]; [rewrite decide_True by set_solver; done|].
  destruct (decide (g = f)) as [->|N]; [rewrite decide_True by set_solver; done|].
  by rewrite decide_False by set_solver.
Qed.

Lemma set_ints params l g : forall p,
  ints (foldl (fun p f => set_int f (ints params f) p) p l) g = (if decide (g ∈ l) then ints params g else ints p g) /\
  strs (foldl (fun p f => set_int f (ints params f) p) p l) = strs p.
Proof.
  induction l as [|f l IH]; intros p; [done|]. cbn [foldl]. destruct (IH (set_int f (ints params f) p)) as [-> ->].
  split; [|done]. cbn [ints set_int].
  destruct (decide (g ∈ l)) as [H|H]; [rewrite decide_True by set_solver; done|].
  destruct (decide (g = f)) as [->|N]; [rewrite decide_True by set_solver; done|].
  by rewrite decide_False by set_solver.
Qed.

Lemma all_strs f : f ∈ copy_order.
Proof. destruct f; unfold copy_order; set_solver. Qed.
Lemma all_ints f : f ∈ copy_ints.
Proof. destruct f; unfold copy_ints; set_solver. Qed.

(** The whole structure is copied, if every string fits. *)
Lemma copy_params_spec params p :
  if forallb (fits params) copy_order
  then exists q, copy_params params p = Some q /\ (forall f, strs q f = strs params f) /\ (forall f, ints q f = ints params f)
  else copy_params params p = None.
Proof.
  unfold copy_params. rewrite copy_strs. destruct (forallb (fits params) copy_order); [|done].
  cbn [mbind option_bind]. eexists. split; [reflexivity|]. split; intros f.
  - rewrite (proj2 (set_ints params copy_ints loglevel _)), (proj1 (set_strs params copy_order f p)).
    by rewrite decide_True by apply all_strs.
  - rewrite (proj1 (set_ints params copy_ints f _)). by rewrite decide_True by apply all_ints.
Qed.

(** A successful constructor. *)
Lemma new_run pid acc h y :
  let nm := mem_name pid in
  ga_param_shared_new pid acc (Some h) true y =
    Some ({| map_file_handle_ := Some h; shared_param_ := Some (nm, acc) |},
          put_handle h nm (match objects y !! nm with Some _ => y | None => put_object nm zero_params y end)).
Proof. done. Qed.

(** Parameters reach the other process.  A process that maps the memory of a
    process id for writing and stores parameters succeeds exactly when every
    string fits its array (otherwise it is ended); any object of any process
    mapped later for the same id then reads exactly these parameters, also after
    the writer has closed its own. *)
Theorem shared_params_roundtrip pid acc h1 h2 params y :
  h1 <> h2 -> handles y !! h1 = None -> handles y !! h2 = None ->
  exists s1 y1, ga_param_shared_new pid FILE_MAP_WRITE (Some h1) true y = Some (s1, y1) /\
    if forallb (fits params) copy_order then
      exists y2 s2 y3 y4, set_param_shared params s1 y1 = Some (true, y2) /\
        ga_param_shared_new pid acc (Some h2) true y2 = Some (s2, y3) /\
        ga_param_shared_delete s1 y3 = Some (tt, y4) /\
        (forall f, get_str f s2 y3 = Some (strs params f) /\ get_str f s2 y4 = Some (strs params f)) /\
        (forall f d, get_int f d s2 y3 = Some (ints params f) /\ get_int f d s2 y4 = Some (ints params f))
    else set_param_shared params s1 y1 = None.
Proof.
  intros Hne F1 F2. set (nm := mem_name pid). do 2 eexists. split; [apply new_run|]. fold nm.
  set (y1 := match objects y !! nm with Some _ => y | None => put_object nm zero_params y end).
  assert (exists p, objects y1 !! nm = Some p) as [p Hp].
  { subst y1. destruct (objects y !! nm) as [p|] eqn:E; [by exists p|]. exists zero_params. apply lookup_insert_eq. }
  assert (Hh : handles y1 = handles y) by (subst y1; by destruct (objects y !! nm)).
  pose proof (copy_params_spec params p) as C. unfold set_param_shared, store. cbn [shared_param_ objects put_handle].
  rewrite Hp. cbn [mbind option_bind]. destruct (forallb (fits params) copy_order); [|by rewrite C].
  destruct C as (q & -> & Cs & Ci). cbn [mbind option_bind].
  do 4 eexists. split; [reflexivity|]. split; [apply new_run|]. fold nm.
  cbn [objects put_object put_handle handles]. rewrite lookup_insert_eq.
  unfold ga_param_shared_delete. cbn [map_file_handle_]. unfold CloseHandle. cbn [handles put_handle put_object objects].
  rewrite Hh, lookup_insert_ne, lookup_insert_eq by done. rewrite bool_decide_eq_true_2.
  - split; [reflexivity|]. unfold get_str, get_int, load. cbn [shared_param_ objects put_handle put_object].
    split; intros; rewrite lookup_insert_eq; cbn [fmap option_fmap option_map]; by rewrite ?Cs, ?Ci.
  - exists h2, nm. split; [|done]. rewrite lookup_delete_ne by done. apply lookup_insert_eq.
Qed.

Definition sample_params : param_shared_s :=
  {| strs := fun f => match f with ga_root_path => b "C:/ga" | codec_format => b "hevc" | _ => [] end;
     ints := fun f => match f with width => 1920 | height => 1080 | _ => 0 end |}.
Definition system0 : system := {| objects := ∅; handles := ∅ |}.

Lemma shared_params_roundtrip_witness :
  exists s1 y1 y2 s2 y3 y4, ga_param_shared_new 42 FILE_MAP_WRITE (Some 4) true system0 = Some (s1, y1) /\
    set_param_shared sample_params s1 y1 = Some (true, y2) /\
    ga_param_shared_new 42 FILE_MAP_READ (Some 8) true y2 = Some (s2, y3) /\
    ga_param_shared_delete s1 y3 = Some (tt, y4) /\
    get_codec_format s2 y4 = Some (b "hevc") /\ get_width s2 y4 = Some 1920.
Proof.
  destruct (shared_params_roundtrip 42 FILE_MAP_READ 4 8 sample_params system0)
    as (s1 & y1 & E1 & y2 & s2 & y3 & y4 & E2 & E3 & E4 & S & I); [discriminate|reflexivity|reflexivity|].
  exists s1, y1, y2, s2, y3, y4. split_and!; [exact E1|exact E2|exact E3|exact E4|apply S|apply I].
Defined.

(** A view that cannot be mapped is closed twice.  When the mapping object is
    made but its view is not, the constructor closes the handle and keeps it, and
    the destructor closes it again; and on such an object [get_ltrinterval] makes
    a string from a null pointer, where every other query returns a default. *)
Theorem unmapped_view pid acc h y :
  handles y !! h = None ->
  exists s y1, ga_param_shared_new pid acc (Some h) false y = Some (s, y1) /\
    ga_param_shared_delete s y1 = None /\ get_ltrinterval s y1 = None /\
    (forall f, get_str f s y1 = Some []) /\ (forall f d, get_int f d s y1 = Some d) /\ is_valid s y1 = Some false.
Proof.
  intros F. unfold ga_param_shared_new, create_param_shared_mem, cbind. cbn [negb].
  set (y0 := match objects y !! mem_name pid with Some _ => y | None => put_object (mem_name pid) zero_params y end).
  assert (handles y0 = handles y) as Hh by (subst y0; by destruct (objects y !! mem_name pid)).
  unfold CloseHandle at 1. cbn [handles put_handle]. rewrite lookup_insert_eq. cbn.
  do 2 eexists. split; [reflexivity|]. split_and!; try done.
  unfold ga_param_shared_delete, CloseHandle. cbn. by rewrite lookup_delete_eq.
Qed.

Lemma unmapped_view_witness :
  exists s y1, ga_param_shared_new 42 FILE_MAP_READ (Some 4) false system0 = Some (s, y1) /\
    ga_param_shared_delete s y1 = None.
Proof.
  destruct (unmapped_view 42 FILE_MAP_READ 4 system0) as (s & y1 & E & D & _); [reflexivity|].
  exists s, y1. split; [exact E|exact D].
Defined.

(** Setting one member leaves the others alone. *)
Lemma put_str_frame f v s y y' : put_str f v s y = Some (true, y') ->
  get_str f s y' = Some v /\ (forall g, g <> f -> get_str g s y' = get_str g s y) /\
  (forall g d, get_int g d s y' = get_int g d s y).
Proof.
  unfold put_str, store. destruct (shared_param_ s) as [[nm []]|] eqn:Es; [done| |done]. intros E.
  apply bind_Some in E as (p & Ep & E). apply bind_Some in E as (q & Eq & E). simplify_eq.
  unfold strcpy_s in Eq. destruct (_ <? _); [|done]. simplify_eq.
  unfold get_str, get_int, load. rewrite Es. cbn [objects put_object]. rewrite lookup_insert_eq, Ep. cbn.
  split_and!; [by rewrite decide_True|intros g N; by rewrite decide_False|done].
Qed.

(** New memory is not valid, and does not have the initial values of the
    structure: tolerance-based encoding is off and the log level is [ERR]. *)
Lemma new_memory_zero pid acc h y : objects y !! mem_name pid = None -> exists s y1,
  ga_param_shared_new pid acc (Some h) true y = Some (s, y1) /\ is_valid s y1 = Some false /\
  get_tcae s y1 = Some 0 /\ get_loglevel s y1 = Some 0.
Proof.
  intros E. do 2 eexists. split; [apply new_run|]. rewrite E.
  unfold is_valid, get_ga_root_path, get_str, get_tcae, get_loglevel, get_int, load.
  cbn [shared_param_ objects put_handle put_object]. by rewrite lookup_insert_eq.
Qed.
