(* ===== verification/RtspConf.v ===== *)
(** * RtspConf: the streaming parameters

    Models [src/sources/streamer/core/rtspconf.cpp] (the Linux build): the
    defaults of [rtspconf_init] and the validation of [rtspconf_parse] on top of
    the configuration store of [GaConf]. *)

From Stdlib Require Import ZArith Lia Ascii String.
From stdpp Require Import base list.
From S2P Require Import Prelude StdMap GaConf.

Definition IPPROTO_TCP : Z := 6.
Definition IPPROTO_UDP : Z := 17.

Definition RTSPCONF_OBJECT_SIZE : Z := 128.
Definition RTSPCONF_TITLE_SIZE : Z := 256.
Definition RTSPCONF_DISPLAY_SIZE : Z := 16.

Record RTSPConf := {
  initialized : Z;
  object : cbuf; title : cbuf; display : cbuf;
  servername : option bytes;
  serverport : Z; proto : Z;
  ctrlenable : Z; ctrlport : Z; ctrlproto : Z; sendmousemotion : Z;
  video_fps : Z; video_renderer_software : Z;
  audio_bitrate : Z; audio_samplerate : Z; audio_bitspersample : Z; audio_channels : Z;
  vso : list bytes
}.

Definition rtspconf_init : RTSPConf :=
  {| initialized := 1;
     object := strncpy_buf (b "/desktop") RTSPCONF_OBJECT_SIZE;
     title := strncpy_buf (b "Real-Time Desktop") RTSPCONF_TITLE_SIZE;
     display := strncpy_buf (b ":0") RTSPCONF_DISPLAY_SIZE;
     servername := None;
     serverport := 554; proto := IPPROTO_UDP;
     ctrlenable := 0; ctrlport := 555; ctrlproto := IPPROTO_TCP; sendmousemotion := 0;
     video_fps := 24; video_renderer_software := 0;
     audio_bitrate := 128000; audio_samplerate := 44100; audio_bitspersample := 16;
     audio_channels := 2;
     vso := [] |}.

(** [ga_conf_readv(key, buf, sizeof(buf))] with the 1024-byte local buffer. *)
Definition readbuf (key : bytes) : cmd conf (option bytes) := ga_conf_readv key (Some 1024).

(** [ptr == NULL || strcmp(ptr, "tcp") != 0 ? UDP : TCP] *)
Definition proto_of (ptr : option bytes) : Z :=
  match ptr with
  | None => IPPROTO_UDP
  | Some p => if negb (str_eqb p (b "tcp")) then IPPROTO_UDP else IPPROTO_TCP
  end.

Definition VS : bytes := b "video-specific".

(** The loop over the map "video-specific". *)
Fixpoint vso_loop (fuel : nat) (ptr : option cbuf) (acc : list bytes) : cmd conf (list bytes) :=
  match ptr with
  | None => cret acc
  | Some p =>
      match fuel with
      | O => cundef
      | S fuel =>
          val <-- ga_conf_mapvalue VS (Some 1024) ;;
          acc <-- match val with
                  | None => cret acc
                  | Some vb =>
                      if bool_decide (cb_chars vb = []) then cret acc
                      else
                        k <-- clift (c_str p) ;;
                        v <-- clift (c_str vb) ;;
                        cret (acc ++ [k; v])
                  end ;;
          ptr <-- ga_conf_mapnextkey VS (Some 1024) ;;
          vso_loop fuel ptr acc
      end
  end.

(** The part of [rtspconf_parse] for the controller, when it is enabled: the
    port, protocol and mouse setting, or a failure. *)
Definition parse_control : cmd conf (option (Z * Z * Z)) :=
  v <-- ga_conf_readint (b "control-port") ;;
  if (v <=? 0) || (65536 <=? v) then cret None
  else
    ptr <-- readbuf (b "control-proto") ;;
    m <-- ga_conf_readbool (b "control-send-mouse-motion") 1 ;;
    cret (Some (v, proto_of ptr, m)).

Definition parse_vso : cmd conf (list bytes) :=
  n <-- ga_conf_mapsize VS ;;
  if 0 <? n then
    ga_conf_mapreset VS ;;;
    ptr <-- ga_conf_mapkey VS (Some 1024) ;;
    vso_loop (Z.to_nat n) ptr []
  else cret [].

(** The value of a field after [strncpy(field, ptr, size)] if [ptr] is set. *)
Definition set_field (ptr : option bytes) (size : Z) (old : cbuf) : cbuf :=
  match ptr with Some p => strncpy_buf p size | None => old end.

(** Assignments to the name fields. *)
Definition with_names (srv : option bytes) (ob ti di : cbuf) (c : RTSPConf) : RTSPConf :=
  {|
     initialized := initialized c; object := ob; title := ti; display := di;
     servername := srv; serverport := serverport c; proto := proto c; ctrlenable :=
     ctrlenable c; ctrlport := ctrlport c; ctrlproto := ctrlproto c; sendmousemotion
     := sendmousemotion c; video_fps := video_fps c; video_renderer_software :=
     video_renderer_software c; audio_bitrate := audio_bitrate c; audio_samplerate :=
     audio_samplerate c; audio_bitspersample := audio_bitspersample c; audio_channels
     := audio_channels c; vso := vso c |}.

(** Assignments to [serverport], [proto] and [ctrlenable]. *)
Definition with_server (port pr ce : Z) (c : RTSPConf) : RTSPConf :=
  {|
     initialized := initialized c; object := object c; title := title c; display :=
     display c; servername := servername c; serverport := port; proto := pr;
     ctrlenable := ce; ctrlport := ctrlport c; ctrlproto := ctrlproto c;
     sendmousemotion := sendmousemotion c; video_fps := video_fps c;
     video_renderer_software := video_renderer_software c; audio_bitrate :=
     audio_bitrate c; audio_samplerate := audio_samplerate c; audio_bitspersample :=
     audio_bitspersample c; audio_channels := audio_channels c; vso := vso c |}.

(** Assignments to the controller fields. *)
Definition with_control (port pr mouse : Z) (c : RTSPConf) : RTSPConf :=
  {|
     initialized := initialized c; object := object c; title := title c; display :=
     display c; servername := servername c; serverport := serverport c; proto := proto
     c; ctrlenable := ctrlenable c; ctrlport := port; ctrlproto := pr; sendmousemotion
     := mouse; video_fps := video_fps c; video_renderer_software :=
     video_renderer_software c; audio_bitrate := audio_bitrate c; audio_samplerate :=
     audio_samplerate c; audio_bitspersample := audio_bitspersample c; audio_channels
     := audio_channels c; vso := vso c |}.

(** Assignments to the video fields. *)
Definition with_video (fps renderer : Z) (c : RTSPConf) : RTSPConf :=
  {|
     initialized := initialized c; object := object c; title := title c; display :=
     display c; servername := servername c; serverport := serverport c; proto := proto
     c; ctrlenable := ctrlenable c; ctrlport := ctrlport c; ctrlproto := ctrlproto c;
     sendmousemotion := sendmousemotion c; video_fps := fps; video_renderer_software
     := renderer; audio_bitrate := audio_bitrate c; audio_samplerate :=
     audio_samplerate c; audio_bitspersample := audio_bitspersample c; audio_channels
     := audio_channels c; vso := vso c |}.

(** Assignments to the audio fields. *)
Definition with_audio (br sr bps ch : Z) (c : RTSPConf) : RTSPConf :=
  {|
     initialized := initialized c; object := object c; title := title c; display :=
     display c; servername := servername c; serverport := serverport c; proto := proto
     c; ctrlenable := ctrlenable c; ctrlport := ctrlport c; ctrlproto := ctrlproto c;
     sendmousemotion := sendmousemotion c; video_fps := video_fps c;
     video_renderer_software := video_renderer_software c; audio_bitrate := br;
     audio_samplerate := sr; audio_bitspersample := bps; audio_channels := ch; vso :=
     vso c |}.

(** The options pushed on [vso]. *)
Definition with_vso (l : list bytes) (c : RTSPConf) : RTSPConf :=
  {|
     initialized := initialized c; object := object c; title := title c; display :=
     display c; servername := servername c; serverport := serverport c; proto := proto
     c; ctrlenable := ctrlenable c; ctrlport := ctrlport c; ctrlproto := ctrlproto c;
     sendmousemotion := sendmousemotion c; video_fps := video_fps c;
     video_renderer_software := video_renderer_software c; audio_bitrate :=
     audio_bitrate c; audio_samplerate := audio_samplerate c; audio_bitspersample :=
     audio_bitspersample c; audio_channels := audio_channels c; vso := l |}.

(** [rtspconf_parse] on a non-null [conf]: the return value and the structure. *)
Definition rtspconf_parse : cmd conf (Z * RTSPConf) :=
  let conf0 := rtspconf_init in
  server_name <-- readbuf (b "server-name") ;;
  base_object <-- readbuf (b "base-object") ;;
  title1 <-- readbuf (b "title") ;;
  display1 <-- readbuf (b "display") ;;
  let conf1 := with_names server_name
                 (set_field base_object RTSPCONF_OBJECT_SIZE (object conf0))
                 (set_field title1 RTSPCONF_TITLE_SIZE (title conf0))
                 (set_field display1 RTSPCONF_DISPLAY_SIZE (display conf0)) conf0 in
  v <-- ga_conf_readint (b "server-port") ;;
  if (v <=? 0) || (65536 <=? v) then cret (-1, conf1)
  else
  ptr <-- readbuf (b "proto") ;;
  ce <-- ga_conf_readbool (b "control-enabled") 0 ;;
  let conf2 := with_server v (proto_of ptr) ce conf1 in
  ctl <-- (if negb (ce =? 0) then parse_control
           else cret (Some (ctrlport conf0, ctrlproto conf0, sendmousemotion conf0))) ;;
  match ctl with
  | None => cret (-1, conf2)
  | Some (cp, cpr, sm) =>
  let conf3 := with_control cp cpr sm conf2 in
  fps <-- ga_conf_readint (b "video-fps") ;;
  if (fps <=? 0) || (120 <? fps) then cret (-1, conf3)
  else
  renderer <-- readbuf (b "video-renderer") ;;
  let conf4 := with_video fps
                 match renderer with
                 | Some p => if str_eqb p (b "software") then 1 else 0
                 | None => 0
                 end conf3 in
  br <-- ga_conf_readint (b "audio-bitrate") ;;
  if (br <=? 0) || (1024000 <? br) then cret (-1, conf4)
  else
  let audio sr bps ch := with_audio br sr bps ch conf4 in
  sr <-- ga_conf_readint (b "audio-samplerate") ;;
  if (sr <=? 0) || (1024000 <? sr)
  then cret (-1, audio (audio_samplerate conf0) (audio_bitspersample conf0) (audio_channels conf0))
  else
  bps <-- ga_conf_readint (b "audio-bitspersample") ;;
  if (bps <? 8) || (64 <? bps)
  then cret (-1, audio sr (audio_bitspersample conf0) (audio_channels conf0))
  else
  ch <-- ga_conf_readint (b "audio-channels") ;;
  if ch <? 1 then cret (-1, audio sr bps (audio_channels conf0))
  else
  let conf5 := audio sr bps ch in
  df <-- readbuf (b "audio-device-format") ;;
  if bool_decide (df = None) then cret (-1, conf5)
  else
  dl <-- readbuf (b "audio-device-channel-layout") ;;
  if bool_decide (dl = None) then cret (-1, conf5)
  else
  cf <-- readbuf (b "audio-codec-format") ;;
  if bool_decide (cf = None) then cret (-1, conf5)
  else
  cl <-- readbuf (b "audio-codec-channel-layout") ;;
  if bool_decide (cl = None) then cret (-1, conf5)
  else
  l <-- parse_vso ;;
  cret (0, with_vso l conf5)
  end.

(** ** What the readers return *)

Definition int_val (key : bytes) (c : conf) : Z :=
  match ga_conf_readint key c with Some (v, _) => v | None => 0 end.
Definition bool_val (key : bytes) (d : Z) (c : conf) : Z :=
  match ga_conf_readbool key d c with Some (v, _) => v | None => 0 end.
Definition buf_val (key : bytes) (c : conf) : option bytes :=
  match readbuf key c with Some (v, _) => v | None => None end.

Lemma readint_pure key c : ga_conf_readint key c = Some (int_val key c, c).
Proof.
  unfold int_val, ga_conf_readint, cbind. rewrite readstr_data. case_bool_decide; [done|].
  cbv zeta. destruct (_ || _); [done|]. by destruct (negb _).
Qed.

Lemma readbool_pure key d c : ga_conf_readbool key d c = Some (bool_val key d c, c).
Proof.
  unfold bool_val, ga_conf_readbool, cbind. rewrite readstr_data. by case_bool_decide.
Qed.

Lemma readbuf_pure key c : readbuf key c = Some (buf_val key c, c).
Proof.
  unfold buf_val, readbuf, ga_conf_readv, cbind, cget. destruct (sm_find key (ga_vars c)); [|done].
  by destruct (_ <=? _).
Qed.

#[local] Opaque int_val bool_val buf_val.

Ltac pure_step :=
  lazymatch goal with
  | |- context [cbind _ (ga_conf_readint ?k) ?c] =>
      rewrite (cbind_Some (ga_conf_readint k) _ c _ c (readint_pure k c))
  | |- context [cbind _ (ga_conf_readbool ?k ?d) ?c] =>
      rewrite (cbind_Some (ga_conf_readbool k d) _ c _ c (readbool_pure k d c))
  | |- context [cbind _ (readbuf ?k) ?c] =>
      rewrite (cbind_Some (readbuf k) _ c _ c (readbuf_pure k c))
  end; cbv beta.

(** ** Video-specific options *)

(** The options in key order, without empty values. *)
Fixpoint options_of (m : smap bytes) : list bytes :=
  match m with
  | [] => []
  | (k, v) :: m => (if bool_decide (v = []) then [] else [k; v]) ++ options_of m
  end.

(** Keys and values that fit the 1024-byte buffers with their NUL. *)
Definition short_entry (p : bytes * bytes) : Prop :=
  fst p <> [] /\ Z.of_nat (length (fst p)) < 1024 /\ Z.of_nat (length (snd p)) < 1024.

Definition vs_map (c : conf) : smap bytes := mapdata (vars_index VS c).

Definition vs_short (c : conf) : Prop :=
  Forall short_entry (vs_map c) /\ Z.of_nat (length (vs_map c)) <= INT_MAX.

Lemma store_short s : Z.of_nat (length s) < 1024 ->
  store_str s (Some 1024) = {| cb_chars := s; cb_terminated := true |}.
Proof.
  intros H. unfold store_str, strncpy_buf. rewrite take_ge by lia.
  by rewrite (proj2 (Z.ltb_lt _ _)).
Qed.

Lemma sm_find_mid {A} m1 k (v : A) m2 :
  sm_sorted (m1 ++ (k, v) :: m2) -> sm_find k (m1 ++ (k, v) :: m2) = Some v.
Proof.
  induction m1 as [|[k1 v1] m1 IH]; simpl; [by rewrite str_eqb_refl|]. intros [H1 H2].
  apply Forall_app in H1 as [_ [H1 _]%Forall_cons]. simpl in H1.
  rewrite str_eqb_ne; [auto|]. intros ->. unfold key_lt in H1. by rewrite str_cmp_refl in H1.
Qed.

(** The position of the map iterator. *)
Record at_pos (c : conf) (m : smap bytes) (i : iter) (v : gaConfVar) : Prop := {
  ap_find : sm_find VS (ga_vars c) = Some v;
  ap_data : mapdata v = m;
  ap_mi : mi v = i;
  ap_sorted : sm_sorted (ga_vars c)
}.

Definition set_mi (i : iter) (v : gaConfVar) : gaConfVar :=
  {| data := data v; mapdata := mapdata v; mi := i |}.

Definition key_buf (i : iter) : option cbuf :=
  match i with ItAt k => Some {| cb_chars := k; cb_terminated := true |} | _ => None end.

(** [mapnextkey] moves to the following entry. *)
Lemma mapnextkey_pos c m1 k s m2 v :
  at_pos c (m1 ++ (k, s) :: m2) (ItAt k) v -> sm_sorted (m1 ++ (k, s) :: m2) ->
  Forall short_entry m2 ->
  exists c', ga_conf_mapnextkey VS (Some 1024) c = Some (key_buf (sm_begin m2), c') /\
    at_pos c' (m1 ++ (k, s) :: m2) (sm_begin m2) (set_mi (sm_begin m2) v).
Proof.
  intros [F D I S] Hm Hs. unfold ga_conf_mapnextkey, cbind, cget. rewrite F.
  unfold var_mnextkey. rewrite I. cbv zeta. rewrite D, (sm_after_app k s m1 m2 Hm).
  unfold clift. eexists. split.
  - unfold cput. destruct m2 as [|[k2 s2] m2]; [done|]. apply Forall_cons in Hs as [(H1 & H2 & _) _].
    simpl in H1, H2. cbn [sm_begin key_buf]. case_bool_decide; [done|].
    by rewrite store_short.
  - split; simpl; [by rewrite sm_find_insert; [rewrite <- D|]|done|done|by apply sm_insert_sorted].
Qed.

(** [mapvalue] reads the value at the position. *)
Lemma mapvalue_pos c m1 k s m2 v :
  at_pos c (m1 ++ (k, s) :: m2) (ItAt k) v -> sm_sorted (m1 ++ (k, s) :: m2) ->
  short_entry (k, s) ->
  ga_conf_mapvalue VS (Some 1024) c = Some (Some {| cb_chars := s; cb_terminated := true |}, c).
Proof.
  intros [F D I S] Hm (H1 & _ & H2). simpl in H1, H2.
  unfold ga_conf_mapvalue, cbind, cget. rewrite F. unfold var_mkey, var_mvalue. rewrite I, D.
  unfold clift. case_bool_decide; [done|]. rewrite (sm_find_mid m1 k s m2 Hm). by rewrite store_short.
Qed.

Lemma vso_loop_spec m2 : forall m1 k s c v acc,
  at_pos c (m1 ++ (k, s) :: m2) (ItAt k) v -> sm_sorted (m1 ++ (k, s) :: m2) ->
  Forall short_entry ((k, s) :: m2) ->
  exists c', vso_loop (S (length m2)) (key_buf (ItAt k)) acc c =
    Some (acc ++ options_of ((k, s) :: m2), c').
Proof.
  induction m2 as [|[k2 s2] m2 IH]; intros m1 k s c v acc Hp Hm Hs;
    apply Forall_cons in Hs as [Hk Hs];
    destruct (mapnextkey_pos c m1 k s _ v Hp Hm Hs) as (c' & E & Hp');
    pose proof (mapvalue_pos c m1 k s _ v Hp Hm Hk) as Ev;
    cbn [vso_loop key_buf]; rewrite (cbind_Some _ _ _ _ _ Ev); cbv beta iota;
    cbn [cb_chars];
    (rewrite (cbind_Some _ _ c (acc ++ if bool_decide (s = []) then [] else [k; s]) c);
      [|case_bool_decide; [by rewrite (right_id_L [] (++))|done]]);
    rewrite (cbind_Some _ _ _ _ _ E); cbv beta; cbn [options_of].
  - exists c'. cbn [sm_begin key_buf length vso_loop]. by rewrite (right_id_L [] (++)).
  - cbn [sm_begin] in Hp'. cbn [length].
    replace (m1 ++ (k, s) :: (k2, s2) :: m2) with ((m1 ++ [(k, s)]) ++ (k2, s2) :: m2) in Hp', Hm
      by (by rewrite <- app_assoc).
    destruct (IH _ _ _ _ _ (acc ++ if bool_decide (s = []) then [] else [k; s]) Hp' Hm Hs) as (c2 & E2).
    exists c2. cbn [sm_begin]. rewrite E2. cbn [options_of]. by rewrite <- app_assoc.
Qed.

Lemma mapsize_pure name c : ga_conf_mapsize name c = Some (var_msize (vars_index name c), c).
Proof.
  unfold ga_conf_mapsize, vars_index, cbind, cget. by destruct (sm_find name (ga_vars c)).
Qed.

Lemma parse_vso_spec c :
  conf_ok c -> vs_short c -> exists c', parse_vso c = Some (options_of (vs_map c), c').
Proof.
  intros [Hs Hv] [Hsh Hlen]. unfold parse_vso. rewrite (cbind_Some _ _ _ _ _ (mapsize_pure VS c)).
  cbv beta. assert (W : var_msize (vars_index VS c) = Z.of_nat (length (vs_map c))).
  { unfold var_msize, i32, wraps, INT_MAX, vs_map in *. rewrite Z.mod_small by lia.
    by rewrite (proj2 (Z.ltb_lt _ _)) by lia. }
  rewrite W. clear W. unfold vs_map, vars_index in *.
  destruct (sm_find VS (ga_vars c)) as [v|] eqn:F; [|by exists c].
  destruct (mapdata v) as [|[k s] m2] eqn:D; [by exists c|].
  rewrite (proj2 (Z.ltb_lt _ _)) by (simpl; lia).
  destruct (Hv _ _ F) as [Hm _]. rewrite D in Hm.
  set (c1 := set_vars (sm_insert VS (var_mreset v) (ga_vars c)) c).
  rewrite (cbind_Some _ _ c tt c1).
  2:{ unfold ga_conf_mapreset, cbind, cget. by rewrite F. }
  assert (Hp : at_pos c1 ([] ++ (k, s) :: m2) (ItAt k) (var_mreset v)).
  { split; simpl; [by apply sm_find_insert|done|by rewrite D|by apply sm_insert_sorted]. }
  rewrite (cbind_Some _ _ c1 (key_buf (ItAt k)) c1).
  - cbv beta. rewrite Nat2Z.id. cbn [length].
    destruct (vso_loop_spec m2 [] k s c1 (var_mreset v) [] Hp Hm Hsh) as (c2 & E). eauto.
  - unfold ga_conf_mapkey, cbind, cget. destruct Hp as [F1 _ I1 _]. rewrite F1.
    unfold var_mkey. rewrite I1. unfold clift. apply Forall_cons in Hsh as [(H1 & H2 & _) _].
    case_bool_decide; [done|]. by rewrite store_short.
Qed.

(** ** Validation *)

(** What a usable configuration has to say. *)
Definition rtsp_valid (c : conf) : Prop :=
  1 <= int_val (b "server-port") c <= 65535 /\
  (bool_val (b "control-enabled") 0 c <> 0 -> 1 <= int_val (b "control-port") c <= 65535) /\
  1 <= int_val (b "video-fps") c <= 120 /\
  1 <= int_val (b "audio-bitrate") c <= 1024000 /\
  1 <= int_val (b "audio-samplerate") c <= 1024000 /\
  8 <= int_val (b "audio-bitspersample") c <= 64 /\
  1 <= int_val (b "audio-channels") c /\
  buf_val (b "audio-device-format") c <> None /\
  buf_val (b "audio-device-channel-layout") c <> None /\
  buf_val (b "audio-codec-format") c <> None /\
  buf_val (b "audio-codec-channel-layout") c <> None.

(** A field of [size] characters holds the value, or the default where there is none: as much of it as fits, with a
    terminating NUL when there is room for it. *)
Definition holds_name (f : cbuf) (value : option bytes) (default_ : bytes) (size : nat) : Prop :=
  let text := match value with Some t => t | None => default_ end in
  cb_chars f = take size text /\ cb_terminated f = (length text <? size)%nat.

(** The structure a valid configuration produces: every field. *)
Definition rtsp_result (c : conf) (s : RTSPConf) : Prop :=
  serverport s = int_val (b "server-port") c /\ proto s = proto_of (buf_val (b "proto") c) /\
  ctrlenable s = bool_val (b "control-enabled") 0 c /\
  ctrlport s = (if ctrlenable s =? 0 then 555 else int_val (b "control-port") c) /\
  ctrlproto s = (if ctrlenable s =? 0 then IPPROTO_TCP else proto_of (buf_val (b "control-proto") c)) /\
  video_fps s = int_val (b "video-fps") c /\
  audio_bitrate s = int_val (b "audio-bitrate") c /\
  audio_samplerate s = int_val (b "audio-samplerate") c /\
  audio_bitspersample s = int_val (b "audio-bitspersample") c /\
  audio_channels s = int_val (b "audio-channels") c /\
  servername s = buf_val (b "server-name") c /\
  vso s = options_of (vs_map c) /\
  initialized s = 1 /\
  holds_name (object s) (buf_val (b "base-object") c) (b "/desktop") 128 /\
  holds_name (title s) (buf_val (b "title") c) (b "Real-Time Desktop") 256 /\
  holds_name (display s) (buf_val (b "display") c) (b ":0") 16 /\
  sendmousemotion s = (if ctrlenable s =? 0 then 0 else bool_val (b "control-send-mouse-motion") 1 c) /\
  (video_renderer_software s = 1 /\ buf_val (b "video-renderer") c = Some (b "software") \/
   video_renderer_software s = 0 /\ buf_val (b "video-renderer") c <> Some (b "software")).

Lemma parse_control_spec c :
  exists o, parse_control c = Some (o, c) /\
    match o with
    | None => ~ 1 <= int_val (b "control-port") c <= 65535
    | Some (p, pr, sm) => 1 <= int_val (b "control-port") c <= 65535 /\
        p = int_val (b "control-port") c /\ pr = proto_of (buf_val (b "control-proto") c) /\
        sm = bool_val (b "control-send-mouse-motion") 1 c
    end.
Proof.
  unfold parse_control. pure_step. destruct (_ || _) eqn:E; bool_to_prop.
  - exists None. split; [done|]. destruct E; bool_to_prop; lia.
  - repeat pure_step. eexists (Some (_, _, _)). split; [done|]. split; [lia|done].
Qed.

Lemma set_field_holds ptr size old d : cb_chars old = d -> cb_terminated old = true -> (length d < Z.to_nat size)%nat ->
  holds_name (set_field ptr size old) ptr d (Z.to_nat size).
Proof.
  intros Hd Ht Hl. unfold holds_name, set_field, strncpy_buf. destruct ptr as [p|]; simpl.
  - split; [done|]. destruct (Z.ltb_spec (Z.of_nat (length p)) size), (Nat.ltb_spec (length p) (Z.to_nat size)); done || lia.
  - rewrite take_ge by lia. split; [done|]. rewrite Ht. symmetry. by apply Nat.ltb_lt.
Qed.

Lemma renderer_spec (r : option bytes) :
  let n := match r with Some p => if str_eqb p (b "software") then 1 else 0 | None => 0 end in
  n = 1 /\ r = Some (b "software") \/ n = 0 /\ r <> Some (b "software").
Proof.
  destruct r as [p|]; [|by right]. cbv zeta. destruct (str_eqb p (b "software")) eqn:E.
  - left. apply str_eqb_eq in E. by subst.
  - right. split; [done|]. intros [= ->]. by rewrite str_eqb_refl in E.
Qed.

(** A failed check: -1, and the configuration is not valid. *)
Ltac reject V :=
  do 3 eexists; split; [reflexivity|]; split; [by right|]; split; [|by intros [=]];
  split; [by intros [=]|]; intros V; exfalso; unfold rtsp_valid in V.

(** ** Properties *)

(** C27. [rtspconf_parse] accepts exactly the valid configurations.  On any
    well-formed store whose video-specific entries fit the local buffers, it
    returns 0 exactly when every port, rate, sample size and channel count is in
    range and the four audio formats are given, and -1 otherwise; on success every
    field of the structure holds its configured value: ports, protocols, rates and
    names (object, title and display cut at the sizes of their fields, or their
    defaults), the control defaults when the controller is off, the renderer's
    flag, and the video-specific options in key order without the empty ones. *)
Theorem rtspconf_parse_exact c :
  conf_ok c -> vs_short c ->
  exists r s c', rtspconf_parse c = Some ((r, s), c') /\ (r = 0 \/ r = -1) /\
    (r = 0 <-> rtsp_valid c) /\ (r = 0 -> rtsp_result c s).
Proof.
  intros Hc Hvs. destruct (parse_vso_spec c Hc Hvs) as (c' & Ev).
  destruct (parse_control_spec c) as (o & Eo & Ho).
  unfold rtspconf_parse. cbv zeta. do 5 pure_step.
  destruct (_ || _) eqn:E1; bool_to_prop; [reject V; destruct E1; bool_to_prop; lia|]. do 2 pure_step.
  set (ce := bool_val (b "control-enabled") 0 c).
  assert (Hctl : exists o', (if negb (ce =? 0) then parse_control else
      cret (Some (ctrlport rtspconf_init, ctrlproto rtspconf_init, sendmousemotion rtspconf_init))) c
      = Some (o', c) /\
    match o' with
    | None => ce <> 0 /\ ~ 1 <= int_val (b "control-port") c <= 65535
    | Some (p, pr, sm) => (ce <> 0 -> 1 <= int_val (b "control-port") c <= 65535) /\
        p = (if ce =? 0 then 555 else int_val (b "control-port") c) /\
        pr = (if ce =? 0 then IPPROTO_TCP else proto_of (buf_val (b "control-proto") c)) /\
        sm = (if ce =? 0 then 0 else bool_val (b "control-send-mouse-motion") 1 c)
    end).
  { destruct (ce =? 0) eqn:E; bool_to_prop; [by eexists|]. exists o. split; [done|].
    destruct o as [[[p pr] sm]|]; [by destruct Ho as (? & -> & -> & ->)|done]. }
  clear o Eo Ho. destruct Hctl as (o & Eo & Ho).
  rewrite (cbind_Some _ _ c o c Eo). cbv beta. destruct o as [[[cp cpr] sm]|].
  2:{ reject V. destruct V as (_ & V & _). fold ce in V. tauto. }
  destruct Ho as (Hcp & -> & -> & ->). pure_step.
  destruct (_ || _) eqn:E2; bool_to_prop; [reject V; destruct E2; bool_to_prop; lia|]. do 2 pure_step.
  destruct (_ || _) eqn:E3; bool_to_prop; [reject V; destruct E3; bool_to_prop; lia|]. pure_step.
  destruct (_ || _) eqn:E4; bool_to_prop; [reject V; destruct E4; bool_to_prop; lia|]. pure_step.
  destruct (_ || _) eqn:E5; bool_to_prop; [reject V; destruct E5; bool_to_prop; lia|]. pure_step.
  destruct (_ <? 1) eqn:E6; bool_to_prop; [reject V; lia|].
  pure_step. case_bool_decide as F1; [reject V; tauto|].
  pure_step. case_bool_decide as F2; [reject V; tauto|].
  pure_step. case_bool_decide as F3; [reject V; tauto|].
  pure_step. case_bool_decide as F4; [reject V; tauto|].
  rewrite (cbind_Some _ _ _ _ _ Ev). cbv beta. do 3 eexists. split; [reflexivity|].
  split; [by left|]. split; [split; [|done]; intros _; unfold rtsp_valid; fold ce; split_and!; done || lia|]. intros _.
  unfold rtsp_result. fold ce. split_and!; try done.
  - apply (set_field_holds _ RTSPCONF_OBJECT_SIZE (object rtspconf_init)); [done|done|vm_compute; lia].
  - apply (set_field_holds _ RTSPCONF_TITLE_SIZE (title rtspconf_init)); [done|done|vm_compute; lia].
  - apply (set_field_holds _ RTSPCONF_DISPLAY_SIZE (display rtspconf_init)); [done|done|vm_compute; lia].
  - apply (renderer_spec (buf_val (b "video-renderer") c)).
Qed.

(** A configuration as [ga_conf_writev] and [ga_conf_mapwritev] build it. *)
Definition sample_conf : conf :=
  vars_update VS (var_index_assign (b "preset") (b "fast"))
  (vars_update (b "video-fps") (var_assign (b "60"))
  (vars_update (b "server-port") (var_assign (b "8554")) GaConf.conf0)).

Lemma rtspconf_parse_exact_witness :
  exists r s c', rtspconf_parse sample_conf = Some ((r, s), c') /\ (r = 0 \/ r = -1) /\
    (r = 0 <-> rtsp_valid sample_conf) /\ (r = 0 -> rtsp_result sample_conf s).
Proof.
  apply (rtspconf_parse_exact sample_conf).
  - unfold sample_conf. repeat apply vars_update_ok; auto with cstream. done.
  - split; [|unfold INT_MAX; vm_compute; discriminate].
    change (vs_map sample_conf) with [(b "preset", b "fast")].
    constructor; [|constructor]. split; [done|]. simpl. lia.
Defined.
