(* ===== verification/VSource.v ===== *)
(** * VSource: video sources and their frame buffers

    Models [src/sources/streamer/core/vsource.cpp] (the Linux build): the global
    table of video channels, the layout of a frame inside its pipe buffer, the
    getters, and [video_source_setup_ex], which reads the resolutions from the
    configuration, creates a pipe per channel and initialises its frames.  The
    pipes live in the heap of [Dpipe]; a frame structure is indexed by the
    address of the buffer memory it starts at. *)

From Stdlib Require Import ZArith Lia Ascii String.
From stdpp Require Import base gmap list strings.
From S2P Require Import Prelude GaCommon Dpipe StdMap GaConf.

(** ** Data *)

Definition VSOURCE_ALIGNMENT : Z := 16.
Definition VIDEO_SOURCE_DEF_MAXWIDTH : Z := 2560.
Definition VIDEO_SOURCE_DEF_MAXHEIGHT : Z := 1600.
Definition VIDEO_SOURCE_MAX_STRIDE : nat := 4.
Definition VIDEO_SOURCE_CHANNEL_MAX : Z := 2.
Definition VIDEO_SOURCE_POOLSIZE : Z := 8.

(** [sizeof(vsource_frame_t)] on x86-64 Linux. *)
Definition sizeof_vsource_frame : Z := 96.

Record vsource_frame_t := {
  fr_channel : Z; imgpts : Z; linesize : list Z;
  realwidth : Z; realheight : Z; realstride : Z; realsize : Z;
  maxstride : Z; imgbufsize : Z; imgbuf : Z;
  img : list Z (* the bytes at [imgbuf] *)
}.

Record vsource_t := {
  vs_channel : Z; vs_pipename : list string;
  max_width : Z; max_height : Z; max_stride : Z;
  curr_width : Z; curr_height : Z; curr_stride : Z;
  out_width : Z; out_height : Z; out_stride : Z
}.

Definition vsource_zero : vsource_t :=
  {| vs_channel := 0; vs_pipename := []; max_width := 0; max_height := 0; max_stride := 0;
     curr_width := 0; curr_height := 0; curr_stride := 0;
     out_width := 0; out_height := 0; out_stride := 0 |}.

Record vsource_config_t := { c_width : Z; c_height : Z; c_stride : Z }.

Record vstate := {
  gChannels : Z;
  gVsource : list vsource_t;
  gPipe : list Z;
  frames : gmap Z vsource_frame_t;
  pipes : dstate
}.

Definition set_vsource (i : nat) (v : vsource_t) (s : vstate) : vstate :=
  {| gChannels := gChannels s; gVsource := <[i := v]> (gVsource s); gPipe := gPipe s;
     frames := frames s; pipes := pipes s |}.

Definition set_pipe (i : nat) (p : Z) (s : vstate) : vstate :=
  {| gChannels := gChannels s; gVsource := gVsource s; gPipe := <[i := p]> (gPipe s);
     frames := frames s; pipes := pipes s |}.

Definition set_frame (a : Z) (f : vsource_frame_t) (s : vstate) : vstate :=
  {| gChannels := gChannels s; gVsource := gVsource s; gPipe := gPipe s;
     frames := <[a := f]> (frames s); pipes := pipes s |}.

Definition set_channels (n : Z) (s : vstate) : vstate :=
  {| gChannels := n; gVsource := gVsource s; gPipe := gPipe s; frames := frames s; pipes := pipes s |}.

(** Run a pipe operation. *)
Definition in_pipes {A} (m : cmd dstate A) : cmd vstate A := fun s =>
  match m (pipes s) with
  | Some (a, d) => Some (a, {| gChannels := gChannels s; gVsource := gVsource s; gPipe := gPipe s;
                               frames := frames s; pipes := d |})
  | None => None
  end.

(** ** Frames *)

(** Where the image of a frame at address [frame] starts. *)
Definition frame_imgbuf (frame : Z) : Z :=
  let p := frame + sizeof_vsource_frame in p + ga_alignment p VSOURCE_ALIGNMENT.

Definition vsource_frame_init (channel frame : Z) : cmd vstate Z :=
  if (channel <? 0) || (VIDEO_SOURCE_CHANNEL_MAX <=? channel) then cret 0
  else
    s <-- cget ;;
    vs <-- clift (gVsource s !! Z.to_nat channel) ;;
    if max_width vs =? 0 then cret 0
    else
      sz <-- clift (int_chk (max_height vs * max_stride vs)) ;;
      cmodify (set_frame frame {|
        fr_channel := 0; imgpts := 0;
        linesize := repeat (max_stride vs) VIDEO_SOURCE_MAX_STRIDE;
        realwidth := 0; realheight := 0; realstride := 0; realsize := 0;
        maxstride := max_stride vs; imgbufsize := sz; imgbuf := frame_imgbuf frame;
        img := repeat 0 (Z.to_nat sz) |}) ;;;
      cret frame.

(** [vsource_frame_release] does nothing. *)
Definition vsource_frame_release (frame : Z) : cmd vstate unit := cret tt.

(** [bcopy] of the image, inside both buffers or undefined. *)
Definition vsource_dup_frame (src dst : Z) : cmd vstate unit :=
  s <-- cget ;;
  f <-- clift (frames s !! src) ;;
  g <-- clift (frames s !! dst) ;;
  n <-- clift (int_chk (realstride f * realheight f)) ;;
  if (n <? 0) || (Z.of_nat (length (img f)) <? n) || (Z.of_nat (length (img g)) <? n) then cundef
  else
    cput (set_frame dst {|
      fr_channel := fr_channel g; imgpts := imgpts f; linesize := linesize f;
      realwidth := realwidth f; realheight := realheight f; realstride := realstride f;
      realsize := realsize f;
      maxstride := maxstride g; imgbufsize := imgbufsize g; imgbuf := imgbuf g;
      img := take (Z.to_nat n) (img f) ++ drop (Z.to_nat n) (img g) |} s).

(** ** Channels *)

Definition video_source_channels : cmd vstate Z := cgets gChannels.

(** A pointer into the table [gVsource], as an index ([None] is NULL). *)
Definition video_source (channel : Z) : cmd vstate (option Z) :=
  s <-- cget ;;
  if (channel <? 0) || (gChannels s <? channel) then cret None else cret (Some channel).

(** Following such a pointer; past the table is undefined. *)
Definition deref (p : Z) : cmd vstate vsource_t :=
  s <-- cget ;; clift (gVsource s !! Z.to_nat p).

Definition with_pipename (l : list string) (v : vsource_t) : vsource_t :=
  {| vs_channel := vs_channel v; vs_pipename := l;
     max_width := max_width v; max_height := max_height v; max_stride := max_stride v;
     curr_width := curr_width v; curr_height := curr_height v; curr_stride := curr_stride v;
     out_width := out_width v; out_height := out_height v; out_stride := out_stride v |}.

(** The names are a linked list, newest first; each is one allocation. *)
Definition video_source_add_pipename_internal (vs : option Z) (pipename : option string)
    : cmd vstate (option string) :=
  match vs, pipename with
  | Some i, Some n =>
      a <-- in_pipes (malloc (OStr n)) ;;
      if a =? 0 then cret None
      else
        v <-- deref i ;;
        cmodify (set_vsource (Z.to_nat i) (with_pipename (n :: vs_pipename v) v)) ;;;
        cret (Some n)
  | _, _ => cret None
  end.

Definition video_source_add_pipename (channel : Z) (pipename : option string)
    : cmd vstate (option string) :=
  vs <-- video_source channel ;;
  match vs with
  | None => cret None
  | Some _ => video_source_add_pipename_internal vs pipename
  end.

Definition video_source_get_pipename (channel : Z) : cmd vstate (option string) :=
  vs <-- video_source channel ;;
  match vs with
  | None => cret None
  | Some i => v <-- deref i ;; cret (head (vs_pipename v))
  end.

(** A getter [vs == NULL ? dflt : vs->field]. *)
Definition video_source_field (f : vsource_t -> Z) (dflt channel : Z) : cmd vstate Z :=
  vs <-- video_source channel ;;
  match vs with
  | None => cret dflt
  | Some i => v <-- deref i ;; cret (f v)
  end.

Definition video_source_max_width := video_source_field max_width (-1).
Definition video_source_max_height := video_source_field max_height (-1).
Definition video_source_max_stride := video_source_field max_stride (-1).
Definition video_source_curr_width := video_source_field curr_width (-1).
Definition video_source_curr_height := video_source_field curr_height (-1).
Definition video_source_curr_stride := video_source_field curr_stride (-1).
Definition video_source_out_width := video_source_field out_width (-1).
Definition video_source_out_height := video_source_field out_height (-1).
Definition video_source_out_stride := video_source_field out_stride (-1).

Definition video_source_mem_size (channel : Z) : cmd vstate Z :=
  vs <-- video_source channel ;;
  match vs with
  | None => cret 0
  | Some i =>
      v <-- deref i ;;
      n <-- clift (int_chk (max_height v * max_stride v)) ;;
      clift (int_chk (n + VSOURCE_ALIGNMENT))
  end.

(** ** Setup *)

(** The [snprintf] of "video-%d" for a channel number below 10. *)
Definition pipe_name (idx : nat) : string :=
  String.append "video-" (String.String (ascii_of_nat (48 + idx)) EmptyString).

(** The two integers of a resolution parameter, or 0 0. *)
Definition read_res (key : bytes) (c : conf) : option (Z * Z) :=
  match ga_conf_readints key false 2 c with
  | Some ((n, l), _) =>
      match l with
      | [w; h] => if n =? 2 then Some (w, h) else Some (0, 0)
      | _ => Some (0, 0)
      end
  | None => None
  end.

Definition zmax (x y : Z) : Z := if y <? x then x else y.

(** The fields of [vs] for channel [idx]. *)
Definition setup_fields (cfg : vsource_config_t) (maxres outres : Z * Z) (v : vsource_t)
    : option vsource_t :=
  st ← int_chk (zmax VIDEO_SOURCE_DEF_MAXWIDTH (fst maxres) * 4);
  os ← (if negb (fst outres =? 0) then int_chk (fst outres * 4) else Some (c_stride cfg));
  Some {|
    vs_channel := vs_channel v; vs_pipename := vs_pipename v;
    max_width := zmax VIDEO_SOURCE_DEF_MAXWIDTH (fst maxres);
    max_height := zmax VIDEO_SOURCE_DEF_MAXHEIGHT (snd maxres);
    max_stride := st;
    curr_width := c_width cfg; curr_height := c_height cfg; curr_stride := c_stride cfg;
    out_width := if negb (fst outres =? 0) then fst outres else c_width cfg;
    out_height := if negb (fst outres =? 0) then snd outres else c_height cfg;
    out_stride := os |}.

(** The loop that initialises the frames of a pipe; [fuel] bounds its length. *)
Fixpoint init_frames (fuel : nat) (channel data : Z) : cmd vstate bool :=
  if data =? 0 then cret true
  else match fuel with
  | O => cundef
  | S fuel =>
      b <-- in_pipes (read_buf data) ;;
      r <-- vsource_frame_init channel (pointer b) ;;
      if r =? 0 then cret false else init_frames fuel channel (next b)
  end.

Definition with_channel (i : Z) (v : vsource_t) : vsource_t :=
  {| vs_channel := i; vs_pipename := vs_pipename v;
     max_width := max_width v; max_height := max_height v; max_stride := max_stride v;
     curr_width := curr_width v; curr_height := curr_height v; curr_stride := curr_stride v;
     out_width := out_width v; out_height := out_height v; out_stride := out_stride v |}.

(** One turn of the channel loop; [false] is [return -1]. *)
Definition setup_channel (idx : nat) (cfg : vsource_config_t) (maxres outres : Z * Z)
    : cmd vstate bool :=
  cmodify (set_vsource idx (with_channel (Z.of_nat idx) vsource_zero)) ;;;
  nm <-- video_source_add_pipename_internal (Some (Z.of_nat idx)) (Some (pipe_name idx)) ;;
  match nm with
  | None => cret false
  | Some _ =>
      v <-- deref (Z.of_nat idx) ;;
      v <-- clift (setup_fields cfg maxres outres v) ;;
      cmodify (set_vsource idx v) ;;;
      n <-- clift (int_chk (max_height v * max_stride v)) ;;
      p <-- in_pipes (dpipe_create (Z.of_nat idx) (Some (pipe_name idx)) VIDEO_SOURCE_POOLSIZE
                        (i32 (u64 (sizeof_vsource_frame + n + VSOURCE_ALIGNMENT)))) ;;
      cmodify (set_pipe idx p) ;;;
      if p =? 0 then cret false
      else
        pp <-- in_pipes (read_pipe p) ;;
        fuel <-- cgets (fun s => size (heap (pipes s))) ;;
        init_frames fuel (Z.of_nat idx) (in_ pp)
  end.

Fixpoint setup_channels (idx : nat) (cfgs : list vsource_config_t) (maxres outres : Z * Z)
    : cmd vstate bool :=
  match cfgs with
  | [] => cret true
  | cfg :: cfgs =>
      ok <-- setup_channel idx cfg maxres outres ;;
      if (ok : bool) then setup_channels (S idx) cfgs maxres outres else cret false
  end.

(** [config = NULL] is [None]; otherwise the [nConfig] configurations. *)
Definition video_source_setup_ex (c : conf) (config : option (list vsource_config_t)) (nConfig : Z)
    : cmd vstate Z :=
  match config with
  | None => cret (-1)
  | Some cfgs =>
      if (nConfig <=? 0) || (VIDEO_SOURCE_CHANNEL_MAX <? nConfig) then cret (-1)
      else
        maxres <-- clift (read_res (b "max-resolution") c) ;;
        outres <-- clift (read_res (b "output-resolution") c) ;;
        if Z.of_nat (length cfgs) <? nConfig then cundef
        else
        ok <-- setup_channels 0 (take (Z.to_nat nConfig) cfgs) maxres outres ;;
        if (ok : bool) then cmodify (set_channels nConfig) ;;; cret 0 else cret (-1)
  end.

Definition video_source_setup (c : conf) (width height stride : Z) : cmd vstate Z :=
  video_source_setup_ex c
    (Some [{| c_width := width; c_height := height; c_stride := stride |}]) 1.

(** ** Frame layout *)

(** The frame [vsource_frame_init] builds for a source. *)
Definition new_frame (vs : vsource_t) (sz frame : Z) : vsource_frame_t :=
  {| fr_channel := 0; imgpts := 0; linesize := repeat (max_stride vs) VIDEO_SOURCE_MAX_STRIDE;
     realwidth := 0; realheight := 0; realstride := 0; realsize := 0;
     maxstride := max_stride vs; imgbufsize := sz; imgbuf := frame_imgbuf frame;
     img := repeat 0 (Z.to_nat sz) |}.

(** The image is aligned, behind the structure, and ends inside the buffer. *)
Lemma frame_imgbuf_bounds frame sz :
  frame_imgbuf frame mod 16 = 0 /\ frame + sizeof_vsource_frame <= frame_imgbuf frame /\
  frame_imgbuf frame + sz <= frame + (sizeof_vsource_frame + sz + VSOURCE_ALIGNMENT).
Proof.
  unfold frame_imgbuf, VSOURCE_ALIGNMENT.
  destruct (ga_alignment_pow2 (frame + sizeof_vsource_frame) 4 ltac:(lia)) as [A B].
  change (2 ^ 4) with 16 in *. split; [done|]. lia.
Qed.

Definition set_frames (m : gmap Z vsource_frame_t) (s : vstate) : vstate :=
  {| gChannels := gChannels s; gVsource := gVsource s; gPipe := gPipe s; frames := m; pipes := pipes s |}.

Lemma vsource_frame_init_ok channel frame s vs sz :
  0 <= channel < VIDEO_SOURCE_CHANNEL_MAX -> gVsource s !! Z.to_nat channel = Some vs ->
  max_width vs <> 0 -> int_chk (max_height vs * max_stride vs) = Some sz ->
  vsource_frame_init channel frame s = Some (frame, set_frame frame (new_frame vs sz frame) s).
Proof.
  intros Hc Hv Hw Hz. unfold vsource_frame_init, VIDEO_SOURCE_CHANNEL_MAX in *.
  replace ((channel <? 0) || (2 <=? channel)) with false by lia.
  unfold cbind, cget, clift. rewrite Hv, (proj2 (Z.eqb_neq _ _) Hw), Hz. done.
Qed.

(** Initialising a chain of buffers: every visited buffer holds its frame, and
    nothing but the frames changes. *)
Lemma init_frames_spec channel vs sz : forall l fuel p s,
  0 <= channel < VIDEO_SOURCE_CHANNEL_MAX -> gVsource s !! Z.to_nat channel = Some vs ->
  max_width vs <> 0 -> int_chk (max_height vs * max_stride vs) = Some sz ->
  chain (heap (pipes s)) p l -> (length l <= fuel)%nat ->
  exists ok m, init_frames fuel channel p s = Some (ok, set_frames m s) /\
    (forall a f, frames s !! a = Some f -> f = new_frame vs sz a -> m !! a = Some f) /\
    (ok = true -> forall a bf, a ∈ l -> heap (pipes s) !! a = Some (OBuf bf) ->
       m !! pointer bf = Some (new_frame vs sz (pointer bf))).
Proof.
  induction l as [|a l IH]; intros fuel p s Hc Hv Hw Hz Hl Hf.
  - simpl in Hl. subst p. exists true, (frames s). split; [by destruct fuel, s|]. split; [done|].
    intros _ a bf Ha. by apply not_elem_of_nil in Ha.
  - destruct Hl as (-> & Ha & bf & Hb & Hl). destruct fuel as [|fuel]; [simpl in Hf; lia|].
    cbn [init_frames]. rewrite (proj2 (Z.eqb_neq _ _) Ha).
    rewrite (cbind_Some _ _ s bf s).
    2:{ unfold in_pipes, read_buf. rewrite Hb. by destruct s. }
    rewrite (cbind_Some _ _ _ _ _ (vsource_frame_init_ok channel (pointer bf) s vs sz Hc Hv Hw Hz)).
    set (s1 := set_frame (pointer bf) (new_frame vs sz (pointer bf)) s).
    assert (Hk : forall x f, frames s !! x = Some f -> f = new_frame vs sz x -> frames s1 !! x = Some f).
    { intros x f Hx ->. simpl. destruct (decide (x = pointer bf)) as [->|Hn];
        [by rewrite lookup_insert_eq|by rewrite lookup_insert_ne]. }
    destruct (pointer bf =? 0) eqn:E0.
    { exists false, (frames s1). split; [done|]. split; [done|done]. }
    destruct (IH fuel (next bf) s1 Hc Hv Hw Hz Hl) as (ok & m & E & H1 & H2); [simpl in Hf; lia|].
    exists ok, m. split; [done|]. split; [eauto|]. intros Hok x bx Hx Hbx.
    apply elem_of_cons in Hx as [->|Hx]; [|by eapply H2].
    assert (bx = bf) as -> by congruence. apply H1; [simpl; by rewrite lookup_insert_eq|done].
Qed.

(** ** Properties *)

(** Resolutions for which the size computations stay inside [int]. *)
Definition res_ok (maxres outres : Z * Z) : Prop :=
  zmax VIDEO_SOURCE_DEF_MAXWIDTH (fst maxres) * 4 <= INT_MAX /\
  zmax VIDEO_SOURCE_DEF_MAXHEIGHT (snd maxres) *
    (zmax VIDEO_SOURCE_DEF_MAXWIDTH (fst maxres) * 4) + 128 <= INT_MAX /\
  INT_MIN <= fst outres * 4 <= INT_MAX.

Lemma zmax_spec x y : zmax x y = Z.max x y.
Proof. unfold zmax. destruct (y <? x) eqn:E; bool_to_prop; lia. Qed.

(** The fields a channel gets, and the size of its frames. *)
Lemma setup_fields_ok cfg maxres outres v :
  res_ok maxres outres ->
  exists w n, setup_fields cfg maxres outres v = Some w /\ max_width w <> 0 /\
    vs_pipename w = vs_pipename v /\
    int_chk (max_height w * max_stride w) = Some n /\
    n = zmax VIDEO_SOURCE_DEF_MAXHEIGHT (snd maxres) *
        (zmax VIDEO_SOURCE_DEF_MAXWIDTH (fst maxres) * 4) /\ 0 < n /\ n + 128 <= INT_MAX /\
    i32 (u64 (sizeof_vsource_frame + n + VSOURCE_ALIGNMENT)) = sizeof_vsource_frame + n + VSOURCE_ALIGNMENT.
Proof.
  intros (R1 & R2 & R3). unfold setup_fields. rewrite !zmax_spec in *.
  unfold VIDEO_SOURCE_DEF_MAXWIDTH, VIDEO_SOURCE_DEF_MAXHEIGHT, INT_MAX, INT_MIN in *.
  rewrite (int_chk_Some (Z.max 2560 (fst maxres) * 4)) by (unfold INT_MIN, INT_MAX; lia).
  cbn [mbind option_bind].
  assert (Ho : exists os, (if negb (fst outres =? 0) then int_chk (fst outres * 4)
                           else Some (c_stride cfg)) = Some os).
  { destruct (negb _); [|eauto]. rewrite int_chk_Some; [eauto|]. unfold INT_MIN, INT_MAX. lia. }
  destruct Ho as [os ->]. cbn [mbind option_bind].
  set (n := Z.max 1600 (snd maxres) * (Z.max 2560 (fst maxres) * 4)) in *.
  assert (0 < n) by (unfold n; lia).
  eexists _, n. split; [reflexivity|]. cbn. fold n.
  split; [lia|]. split; [done|]. split; [by apply int_chk_Some; unfold INT_MIN, INT_MAX; lia|].
  split; [done|]. split; [done|]. split; [lia|].
  unfold sizeof_vsource_frame, VSOURCE_ALIGNMENT, u64, i32, wraps.
  rewrite wrapu_small by lia. rewrite Z.mod_small by lia. by rewrite (proj2 (Z.ltb_lt _ _)) by lia.
Qed.

(** The same state over other pipes. *)
Definition over (d : dstate) (s : vstate) : vstate :=
  {| gChannels := gChannels s; gVsource := gVsource s; gPipe := gPipe s; frames := frames s; pipes := d |}.

(** Naming a pipe: the copy of the name may fail; otherwise it is put in front. *)
Lemma add_pipename_spec i n s v a1 a2 ms :
  malloc_ok (pipes s) -> mallocs (pipes s) = a1 :: a2 :: ms -> gVsource s !! Z.to_nat i = Some v ->
  exists d1, dpipemap d1 = dpipemap (pipes s) /\ malloc_ok d1 /\ mallocs d1 = a2 :: ms /\
    (video_source_add_pipename_internal (Some i) (Some n) s = Some (None, over d1 s) \/
     video_source_add_pipename_internal (Some i) (Some n) s =
       Some (Some n, set_vsource (Z.to_nat i) (with_pipename (n :: vs_pipename v) v) (over d1 s))).
Proof.
  intros Hm Hms Hv. unfold video_source_add_pipename_internal.
  destruct (malloc_spec (OStr n) (pipes s) Hm) as (a & d1 & Em & Md & Mok & _).
  assert (Ems : mallocs d1 = a2 :: ms).
  { unfold malloc in Em. rewrite Hms in Em. destruct (a1 =? 0); by injection Em as <- <-. }
  exists d1. split; [done|]. split; [done|]. split; [done|].
  assert (Ea : in_pipes (malloc (OStr n)) s = Some (a, over d1 s)) by (unfold in_pipes; by rewrite Em).
  destruct (a =? 0) eqn:E0; [left|right]; unfold cbind; rewrite Ea, E0; [done|].
  change (gVsource s) with (gVsource (over d1 s)) in Hv. unfold deref, cbind, cget, clift. by rewrite Hv.
Qed.

(** A buffer of the pipe with its frame: aligned, behind the frame structure and
    inside the buffer's allocation. *)
Definition frame_fits (s : vstate) (a : Z) : Prop := exists bf blk f,
  heap (pipes s) !! a = Some (OBuf bf) /\ heap (pipes s) !! internal bf = Some (OBlock blk) /\
  frames s !! pointer bf = Some f /\ imgbuf f mod 16 = 0 /\
  internal bf <= pointer bf /\ pointer bf + sizeof_vsource_frame <= imgbuf f /\
  imgbuf f + imgbufsize f <= internal bf + blk.

(** The last part of the set-up, on a pipe that was created. *)
Lemma pool_frames_fit channel w n d p fr s :
  0 <= channel < VIDEO_SOURCE_CHANNEL_MAX -> gVsource s !! Z.to_nat channel = Some w ->
  max_width w <> 0 -> int_chk (max_height w * max_stride w) = Some n ->
  rep (heap (pipes s)) d fr [] -> heap (pipes s) !! d = Some (OPipe p) ->
  Forall (usable (heap (pipes s)) (sizeof_vsource_frame + n + VSOURCE_ALIGNMENT)) fr ->
  exists ok m, init_frames (size (heap (pipes s))) channel (in_ p) s = Some (ok, set_frames m s) /\
    (ok = true -> forall a, a ∈ fr -> frame_fits (set_frames m s) a).
Proof.
  intros Hc Hv Hw En (p' & Hp' & Hch & _ & _ & _ & _ & Hnd) Hp Hus.
  assert (p' = p) as -> by congruence. rewrite app_nil_r in Hnd.
  destruct (init_frames_spec channel w n fr (size (heap (pipes s))) (in_ p) s) as (ok & m & E & _ & Hfr);
    [done..|by apply (chain_length_size _ (in_ p))|].
  exists ok, m. split; [exact E|]. intros Hok x Hx.
  rewrite Forall_forall in Hus. destruct (Hus x Hx) as (bf & blk & Hb & Hblk & _ & Hle & Hfit).
  exists bf, blk, (new_frame w n (pointer bf)). split; [done|]. split; [done|].
  split; [by apply (Hfr Hok x)|]. destruct (frame_imgbuf_bounds (pointer bf) n) as (B1 & B2 & B3).
  simpl. split; [done|]. split; [done|]. split; [done|]. lia.
Qed.

(** Every frame of a video channel fits its buffer.  Setting up a
    channel, for every configuration and any resolutions whose sizes fit [int],
    with an allocator that may fail: the code is defined; and when it succeeds
    the channel's pipe holds eight free buffers, and each of them has a frame
    whose image area is 16-byte aligned, starts behind the frame structure and
    ends inside the buffer's own allocation. *)
Theorem setup_channel_frames_fit idx cfg maxres outres s a1 a2 ms :
  (idx < 2)%nat -> length (gVsource s) = 2%nat -> length (gPipe s) = 2%nat ->
  res_ok maxres outres ->
  malloc_ok (pipes s) -> mallocs (pipes s) = a1 :: a2 :: ms -> a2 <> 0 ->
  default 0 (dpipemap (pipes s) !! pipe_name idx) = 0 ->
  (forall k d, dpipemap (pipes s) !! k = Some d -> d <> 0) ->
  exists ok s', setup_channel idx cfg maxres outres s = Some (ok, s') /\
    (ok = true -> exists p fr, gPipe s' !! idx = Some p /\ rep (heap (pipes s')) p fr [] /\
       length fr = 8%nat /\ forall a, a ∈ fr -> frame_fits s' a).
Proof.
  intros Hi Hvl Hpl Hr Hm Hms Ha2 Hlk Hmap. unfold setup_channel.
  set (s1 := set_vsource idx (with_channel (Z.of_nat idx) vsource_zero) s).
  rewrite (cbind_Some _ _ s tt s1) by done.
  assert (Hv1 : gVsource s1 !! Z.to_nat (Z.of_nat idx) = Some (with_channel (Z.of_nat idx) vsource_zero)).
  { rewrite Nat2Z.id. simpl. apply list_lookup_insert_eq. lia. }
  destruct (add_pipename_spec _ (pipe_name idx) s1 _ a1 a2 ms Hm Hms Hv1) as (d1 & Md & Mok & Ems & [En1|En1]).
  { exists false, (over d1 s1). split; [|done]. by rewrite (cbind_Some _ _ _ _ _ En1). }
  rewrite Nat2Z.id in En1. rewrite (cbind_Some _ _ _ _ _ En1). clear En1.
  set (v3 := with_pipename _ _). set (s3 := set_vsource idx v3 (over d1 s1)).
  assert (Hv3 : gVsource s3 !! Z.to_nat (Z.of_nat idx) = Some v3).
  { rewrite Nat2Z.id. simpl. apply list_lookup_insert_eq. rewrite length_insert. lia. }
  rewrite (cbind_Some _ _ s3 v3 s3) by (unfold deref, cbind, cget, clift; by rewrite Hv3).
  destruct (setup_fields_ok cfg maxres outres v3 Hr) as (w & n & Ew & Hw & _ & En & _ & Hn & Hn2 & Esz).
  rewrite Ew. rewrite (cbind_Some (clift _) _ s3 w s3) by done.
  set (s4 := set_vsource idx w s3). rewrite (cbind_Some (cmodify _) _ s3 tt s4) by done.
  rewrite En. rewrite (cbind_Some (clift _) _ s4 n s4) by done. rewrite Esz.
  destruct (dpipe_create_spec d1 (Z.of_nat idx) (pipe_name idx) VIDEO_SOURCE_POOLSIZE
    (sizeof_vsource_frame + n + VSOURCE_ALIGNMENT)) as (d & d2 & Ed & Hcase).
  { done. } { intros rest. rewrite Ems. intros [= E _]. done. } { by rewrite Ems. }
  { lia. } { done. } { unfold sizeof_vsource_frame, VSOURCE_ALIGNMENT in *. lia. }
  { by rewrite Md. } { by rewrite Md. }
  set (s5 := over d2 s4).
  rewrite (cbind_Some _ _ s4 d s5) by (unfold in_pipes; change (pipes s4) with d1; by rewrite Ed).
  set (s6 := set_pipe idx d s5). rewrite (cbind_Some (cmodify _) _ s5 tt s6) by done.
  destruct Hcase as [(-> & _)|(Hd & _ & fr & ms' & p & Hrep & Hlen & Hp & _ & Hus & _)].
  { exists false, s6. done. }
  rewrite (proj2 (Z.eqb_neq _ _) Hd).
  rewrite (cbind_Some _ _ s6 p s6) by (unfold in_pipes, read_pipe; simpl; by rewrite Hp).
  rewrite (cbind_Some _ _ s6 (size (heap d2)) s6) by done.
  destruct (pool_frames_fit (Z.of_nat idx) w n d p fr s6) as (ok & m & E & Hfit); [|..|done|done|done|done|done|].
  { unfold VIDEO_SOURCE_CHANNEL_MAX. lia. }
  { rewrite Nat2Z.id. simpl. apply list_lookup_insert_eq. rewrite !length_insert. lia. }
  exists ok, (set_frames m s6). split; [exact E|]. intros Hok. exists d, fr.
  split; [simpl; apply list_lookup_insert_eq; lia|]. split; [done|].
  split; [unfold VIDEO_SOURCE_POOLSIZE in Hlen; lia|by apply Hfit].
Qed.

Definition vstate0 : vstate :=
  {| gChannels := 0; gVsource := [vsource_zero; vsource_zero]; gPipe := [0; 0]; frames := ∅;
     pipes := {| heap := ∅; dpipemap := ∅;
                 mallocs := map (fun i => 100 * Z.of_nat i) (seq 1 20) |} |}.

Lemma vstate0_malloc_ok : malloc_ok (pipes vstate0).
Proof.
  split; [intros a _ _; apply lookup_empty|].
  refine (bool_decide_unpack _ _). vm_compute. exact I.
Qed.

Lemma setup_channel_frames_fit_witness :
  exists ok s', setup_channel 0 {| c_width := 1280; c_height := 720; c_stride := 5120 |}
      (3840, 2160) (0, 0) vstate0 = Some (ok, s') /\
    (ok = true -> exists p fr, gPipe s' !! 0%nat = Some p /\ rep (heap (pipes s')) p fr [] /\
       length fr = 8%nat /\
       forall a, a ∈ fr -> exists bf blk f, heap (pipes s') !! a = Some (OBuf bf) /\
         heap (pipes s') !! internal bf = Some (OBlock blk) /\
         frames s' !! pointer bf = Some f /\ imgbuf f mod 16 = 0 /\
         internal bf <= pointer bf /\ pointer bf + sizeof_vsource_frame <= imgbuf f /\
         imgbuf f + imgbufsize f <= internal bf + blk).
Proof.
  apply (setup_channel_frames_fit 0 _ _ _ vstate0 100 200
           (map (fun i => 100 * Z.of_nat i) (seq 3 18))).
  - lia.
  - reflexivity.
  - reflexivity.
  - unfold res_ok. vm_compute. repeat split; discriminate.
  - exact vstate0_malloc_ok.
  - reflexivity.
  - lia.
  - reflexivity.
  - intros k d H. change ((∅ : gmap string Z) !! k = Some d) in H. by rewrite lookup_empty in H.
Defined.

(** The channel check is off by one.  [video_source] tests
    [channel > gChannels]: with both channels of the table in use, channel 2 is
    accepted and every getter reads past the table, while 3 is refused; with one
    channel in use, channel 1 is answered from an entry never set up instead of
    with the documented error. *)
Theorem video_source_off_by_one s f dflt :
  length (gVsource s) = 2%nat ->
  (gChannels s = 2 -> video_source_field f dflt 2 s = None /\
                      video_source_field f dflt 3 s = Some (dflt, s)) /\
  (gChannels s = 1 -> exists v, gVsource s !! 1%nat = Some v /\
                      video_source_field f dflt 1 s = Some (f v, s)).
Proof.
  intros Hl. split; intros Hg; unfold video_source_field, video_source, deref, cbind, cget, clift;
    rewrite Hg.
  - split; [|done]. change ((2 <? 0) || (2 <? 2)) with false.
    unfold cret. cbv beta iota. change (Z.to_nat 2) with 2%nat.
    rewrite lookup_ge_None_2 by lia. done.
  - destruct (lookup_lt_is_Some_2 (gVsource s) 1 ltac:(lia)) as [v Hv]. exists v.
    split; [done|]. change ((1 <? 0) || (1 <? 1)) with false.
    unfold cret. cbv beta iota. change (Z.to_nat 1) with 1%nat. by rewrite Hv.
Qed.

Lemma video_source_off_by_one_witness :
  (gChannels (set_channels 2 vstate0) = 2 -> video_source_field max_width (-1) 2 (set_channels 2 vstate0) = None /\
                      video_source_field max_width (-1) 3 (set_channels 2 vstate0) = Some (-1, (set_channels 2 vstate0))) /\
  (gChannels (set_channels 2 vstate0) = 1 -> exists v, gVsource (set_channels 2 vstate0) !! 1%nat = Some v /\
                      video_source_field max_width (-1) 1 (set_channels 2 vstate0) = Some (max_width v, (set_channels 2 vstate0))).
Proof. apply video_source_off_by_one. reflexivity. Defined.
