(* ===== verification/AudioSource.v ===== *)
(** * AudioSource: the buffers of captured audio

    Models [src/sources/streamer/core/asource.cpp] (the buffers clients read
    from, the table of clients, the format of the source) and its client
    [src/sources/streamer/module/server-webrtc/ga-audio-input.cpp].  Each
    operation on a buffer holds the buffer's mutex, so it is one step; only a
    read that waits for data lets others in, and what they do is a parameter of
    it.  Memory is the list of its bytes; sizes are [int]s, and arithmetic that
    overflows one is undefined ([None]).  The count of delivered frames is a
    [long long], which a stream never fills. *)

From Stdlib Require Import ZArith Lia.
From stdpp Require Import base gmap list sorting.
From S2P Require Import Prelude Bytes.

(** ** Buffers *)

Record audio_buffer_t := {
  bufPts : Z; client_connected : bool; ab_frames : Z; channels : Z; bitspersample : Z;
  bufsize : Z; bufhead : Z; buftail : Z; bframes : Z; buffer : list Z
}.

(** Assignments to the position and the contents. *)
Definition set_data (pts head tail n : Z) (m : list Z) (ab : audio_buffer_t) : audio_buffer_t :=
  {| bufPts := pts; client_connected := client_connected ab; ab_frames := ab_frames ab; channels := channels ab;
     bitspersample := bitspersample ab; bufsize := bufsize ab; bufhead := head; buftail := tail; bframes := n;
     buffer := m |}.
Definition set_connected (c : bool) (ab : audio_buffer_t) : audio_buffer_t :=
  {| bufPts := bufPts ab; client_connected := c; ab_frames := ab_frames ab; channels := channels ab;
     bitspersample := bitspersample ab; bufsize := bufsize ab; bufhead := bufhead ab; buftail := buftail ab;
     bframes := bframes ab; buffer := buffer ab |}.

(** [frames * channels * bitspersample / 8] *)
Definition frame_bytes (frames ch bps : Z) : option Z :=
  a ← int_chk (frames * ch); c ← int_chk (a * bps); Some (Z.quot c 8).

(** Reading and writing [n] bytes at an offset. *)
Definition mem_read (off n : Z) (m : list Z) : option (list Z) :=
  if (0 <=? off) && (0 <=? n) && (off + n <=? Z.of_nat (length m))
  then Some (take (Z.to_nat n) (drop (Z.to_nat off) m)) else None.
Definition mem_write (off : Z) (l m : list Z) : option (list Z) :=
  if 0 <=? off then wr_bytes (Z.to_nat off) l m else None.

(** The bytes a fill stores: zeros without data. *)
Definition fill_data (data : option (list Z)) (n : Z) : option (list Z) :=
  match data with
  | None => if 0 <=? n then Some (repeat 0 (Z.to_nat n)) else None
  | Some d => mem_read 0 n d
  end.

(** The code from the label [retry] on; it jumps back at most once. *)
Fixpoint fill_retry (fuel : nat) (data : option (list Z)) (framesize frames : Z) (ab : audio_buffer_t) : option audio_buffer_t :=
  match fuel with
  | O => None
  | S fuel =>
      let headspace := bufhead ab in
      tailspace ← int_chk (bufsize ab - buftail ab);
      space ← int_chk (headspace + tailspace);
      if space <? framesize then Some ab
      else if framesize <=? tailspace then
        d ← fill_data data framesize;
        m ← mem_write (buftail ab) d (buffer ab);
        t ← int_chk (buftail ab + framesize);
        n ← int_chk (bframes ab + frames);
        Some (set_data (bufPts ab) (bufhead ab) t n m ab)
      else
        d ← mem_read (bufhead ab) (buftail ab - bufhead ab) (buffer ab);
        m ← mem_write 0 d (buffer ab);
        fill_retry fuel data framesize frames (set_data (bufPts ab) 0 (buftail ab - bufhead ab) (bframes ab) m ab)
  end.

(** [audio_source_buffer_fill_one] on a buffer that is not null. *)
Definition audio_source_buffer_fill_one (data : option (list Z)) (frames : Z) (ab : audio_buffer_t) : option audio_buffer_t :=
  if frames <=? 0 then Some ab
  else
    framesize ← frame_bytes frames (channels ab) (bitspersample ab);
    fill_retry 2 data framesize frames ab.

(** [audio_source_buffer_read]: the frames and the bytes it copies.  [others] is
    what other threads do while it waits. *)
Definition audio_source_buffer_read (others : audio_buffer_t -> option audio_buffer_t) (frames : Z)
    (ab : audio_buffer_t) : option (Z * list Z * audio_buffer_t) :=
  if frames <=? 0 then Some (0, [], ab)
  else
    ab ← (if bframes ab =? 0 then others ab else Some ab);
    let copyframe := if frames <=? bframes ab then frames else bframes ab in
    if 0 <? copyframe then
      copysize ← frame_bytes copyframe (channels ab) (bitspersample ab);
      d ← mem_read (bufhead ab) copysize (buffer ab);
      h ← int_chk (bufhead ab + copysize);
      let n := bframes ab - copyframe in
      Some (copyframe, d,
        set_data (bufPts ab + copyframe) (if n =? 0 then 0 else h) (if n =? 0 then 0 else buftail ab) n (buffer ab) ab)
    else Some (copyframe, [], ab).

Definition audio_source_buffer_purge (ab : audio_buffer_t) : audio_buffer_t := set_data 0 0 0 0 (buffer ab) ab.

(** ** The source and its clients *)

Record asource := {
  a_heap : gmap Z audio_buffer_t; gClients : gmap Z (option Z);
  gChunksize : Z; gSamplerate : Z; gBitspersample : Z; gChannels : Z
}.

Definition set_heap (h : gmap Z audio_buffer_t) (a : asource) : asource :=
  {| a_heap := h; gClients := gClients a; gChunksize := gChunksize a; gSamplerate := gSamplerate a;
     gBitspersample := gBitspersample a; gChannels := gChannels a |}.
Definition set_clients (c : gmap Z (option Z)) (a : asource) : asource :=
  {| a_heap := a_heap a; gClients := c; gChunksize := gChunksize a; gSamplerate := gSamplerate a;
     gBitspersample := gBitspersample a; gChannels := gChannels a |}.

Definition audio_source_setup (chunksize samplerate bitspersample channels : Z) (a : asource) : Z * asource :=
  (0, {| a_heap := a_heap a; gClients := gClients a; gChunksize := chunksize; gSamplerate := samplerate;
         gBitspersample := bitspersample; gChannels := channels |}).

Definition audio_source_chunksize (a : asource) : Z := gChunksize a.
Definition audio_source_chunkbytes (a : asource) : option Z := frame_bytes (gChunksize a) (gChannels a) (gBitspersample a).
Definition audio_source_samplerate (a : asource) : Z := gSamplerate a.
Definition audio_source_bitspersample (a : asource) : Z := gBitspersample a.
Definition audio_source_channels (a : asource) : Z := gChannels a.

(** [audio_source_buffer_init]: [p] is the address of the new structure and [mem]
    what [malloc] gives for its data. *)
Definition audio_source_buffer_init (p : Z) (mem : option (list Z)) : cmd asource (option Z) := fun a =>
  frames ← int_chk (gChunksize a * 4);
  let channels := gChannels a in
  let bitspersample := gBitspersample a in
  if (frames =? 0) || (channels =? 0) || (bitspersample =? 0) then Some (None, a)
  else
    bufsize ← frame_bytes frames channels bitspersample;
    match mem with
    | None => Some (None, a)
    | Some m =>
        Some (Some p, set_heap (<[p := {| bufPts := 0; client_connected := false; ab_frames := frames; channels := channels;
          bitspersample := bitspersample; bufsize := bufsize; bufhead := 0; buftail := 0; bframes := 0; buffer := m |}]>
          (a_heap a)) a)
    end.

Definition load (p : Z) : cmd asource audio_buffer_t := fun a => ab ← a_heap a !! p; Some (ab, a).
Definition store (p : Z) (ab : audio_buffer_t) : cmd asource unit := fun a => Some (tt, set_heap (<[p := ab]> (a_heap a)) a).

Definition audio_source_buffer_deinit (p : option Z) : cmd asource unit :=
  match p with
  | None => cret tt
  | Some p => load p;;; cmodify (fun a => set_heap (delete p (a_heap a)) a)
  end.

(** The clients in the order of their thread identifiers. *)
Definition client_le (x y : Z * option Z) : Prop := x.1 <= y.1.
#[export] Instance client_le_dec : RelDecision client_le := fun x y => Z.le_dec x.1 y.1.
Definition clients (a : asource) : list (Z * option Z) := merge_sort client_le (map_to_list (gClients a)).

Fixpoint fill_clients (data : option (list Z)) (frames : Z) (cs : list (Z * option Z)) : cmd asource unit :=
  match cs with
  | [] => cret tt
  | (_, None) :: cs => fill_clients data frames cs
  | (_, Some p) :: cs =>
      ab <-- load p ;;
      (if client_connected ab then ab' <-- clift (audio_source_buffer_fill_one data frames ab) ;; store p ab' else cret tt);;;
      fill_clients data frames cs
  end.

Definition audio_source_buffer_fill (data : option (list Z)) (frames : Z) : cmd asource unit := fun a =>
  fill_clients data frames (clients a) a.

Definition audio_source_client_register (tid : Z) (p : option Z) (a : asource) : asource :=
  set_clients (<[tid := p]> (gClients a)) a.
Definition audio_source_client_unregister (tid : Z) (a : asource) : asource :=
  set_clients (delete tid (gClients a)) a.
Definition audio_source_client_count (a : asource) : Z := i32 (Z.of_nat (size (gClients a))).

(** ** The generator of audio frames *)

Record GAAudioFrameGenerator := {
  channel_number_ : Z; sample_rate_ : Z; sample_size_ : Z; recording_frames_in_10_ms_ : Z;
  recording_buffer_size_in_10ms_ : Z; audio_buffer_ : option Z
}.

Definition generator_ctor (channel_number sample_rate : Z) : GAAudioFrameGenerator :=
  {| channel_number_ := channel_number; sample_rate_ := sample_rate; sample_size_ := 16;
     recording_frames_in_10_ms_ := 0; recording_buffer_size_in_10ms_ := 0; audio_buffer_ := None |}.

(** [Create]: [None] when the buffer cannot be had.  [tid] is the calling thread. *)
Definition generator_create (tid p : Z) (mem : option (list Z)) (channel_number sample_rate : Z) : cmd asource (option GAAudioFrameGenerator) :=
  r <-- audio_source_buffer_init p mem ;;
  match r with
  | None => cret None
  | Some p =>
      let frames := Z.quot sample_rate 100 in
      size <-- clift (frame_bytes frames channel_number 16) ;;
      cmodify (audio_source_client_register tid (Some p));;;
      ab <-- load p ;;
      store p (audio_source_buffer_purge ab);;;
      cret (Some {| channel_number_ := channel_number; sample_rate_ := sample_rate; sample_size_ := 16;
                    recording_frames_in_10_ms_ := frames; recording_buffer_size_in_10ms_ := size;
                    audio_buffer_ := Some p |})
  end.

(** The destructor, in the thread [tid]. *)
Definition generator_destroy (tid : Z) (g : GAAudioFrameGenerator) : cmd asource unit :=
  cmodify (audio_source_client_unregister tid);;; audio_source_buffer_deinit (audio_buffer_ g).

Definition ClientConnectionStatus (status : bool) (g : GAAudioFrameGenerator) : cmd asource unit :=
  match audio_buffer_ g with
  | None => cret tt
  | Some p => ab <-- load p ;; store p (set_connected status ab)
  end.

(** A read into [frame_buffer] at an offset. *)
Definition read_into (others : audio_buffer_t -> option audio_buffer_t) (frames off : Z) (ab : audio_buffer_t)
    (out : list Z) : option (Z * audio_buffer_t * list Z) :=
  '(n, d, ab) ← audio_source_buffer_read others frames ab;
  out ← mem_write off d out;
  Some (n, ab, out).

(** [GenerateFramesForNext10Ms] into [frame_buffer], of [capacity] bytes; [others1],
    [between] and [others2] are what other threads do while it waits and between
    its two reads. *)
Definition GenerateFramesForNext10Ms (others1 between others2 : audio_buffer_t -> option audio_buffer_t) (capacity : Z)
    (g : GAAudioFrameGenerator) (ab : audio_buffer_t) (frame_buffer : list Z) : option (Z * audio_buffer_t * list Z) :=
  if capacity <? u32 (recording_buffer_size_in_10ms_ g) then Some (0, ab, frame_buffer)
  else
    '(frames_read, ab, out) ← read_into others1 (recording_frames_in_10_ms_ g) 0 ab frame_buffer;
    if frames_read =? recording_frames_in_10_ms_ g then Some (u32 (recording_buffer_size_in_10ms_ g), ab, out)
    else if frames_read <? recording_frames_in_10_ms_ g then
      let frames_to_read := recording_frames_in_10_ms_ g - frames_read in
      u ← frame_bytes 1 (channel_number_ g) (sample_size_ g);
      ab ← between ab;
      '(n, ab, out) ← read_into others2 frames_to_read (u * frames_read) ab out;
      Some (if frames_to_read =? n then u32 (recording_buffer_size_in_10ms_ g) else u32 frames_read, ab, out)
    else Some (0, ab, out).

Definition GetSampleRate (g : GAAudioFrameGenerator) : Z := sample_rate_ g.
Definition GetChannelNumber (g : GAAudioFrameGenerator) : Z := channel_number_ g.

(** ** What a buffer is: a bounded queue of bytes *)

(** The bytes that are to be read. *)
Definition contents (ab : audio_buffer_t) : list Z :=
  take (Z.to_nat (buftail ab - bufhead ab)) (drop (Z.to_nat (bufhead ab)) (buffer ab)).

(** A buffer whose frames take [u] whole bytes. *)
Record buf_ok (u : Z) (ab : audio_buffer_t) : Prop := {
  bk_unit : channels ab * bitspersample ab = 8 * u;
  bk_channels : 0 < channels ab;
  bk_pos : 0 < u;
  bk_range : 0 <= bufhead ab <= buftail ab;
  bk_tail : buftail ab <= bufsize ab;
  bk_size : Z.of_nat (length (buffer ab)) = bufsize ab;
  bk_max : 8 * bufsize ab <= INT_MAX;
  bk_frames : buftail ab - bufhead ab = bframes ab * u
}.

(** Nothing but position and contents differs. *)
Definition same_format (ab ab' : audio_buffer_t) : Prop :=
  channels ab' = channels ab /\ bitspersample ab' = bitspersample ab /\ bufsize ab' = bufsize ab /\
  client_connected ab' = client_connected ab /\ ab_frames ab' = ab_frames ab.

(** *** The queue *)

Record queue := { q_bytes : list Z; q_pts : Z }.

Definition q_fill (u cap : Z) (data : option (list Z)) (frames : Z) (q : queue) : queue :=
  if frames <=? 0 then q
  else if cap - Z.of_nat (length (q_bytes q)) <? frames * u then q
  else {| q_bytes := q_bytes q ++ match data with
                                  | None => repeat 0 (Z.to_nat (frames * u))
                                  | Some d => take (Z.to_nat (frames * u)) d
                                  end;
          q_pts := q_pts q |}.

Definition q_read (u frames : Z) (q : queue) : Z * list Z * queue :=
  if frames <=? 0 then (0, [], q)
  else
    let n := Z.min frames (Z.of_nat (length (q_bytes q)) / u) in
    (n, take (Z.to_nat (n * u)) (q_bytes q),
     {| q_bytes := drop (Z.to_nat (n * u)) (q_bytes q); q_pts := q_pts q + n |}).

Definition queue_of (ab : audio_buffer_t) : queue := {| q_bytes := contents ab; q_pts := bufPts ab |}.

(** *** Memory *)

Lemma mem_read_Some off n m : 0 <= off -> 0 <= n -> off + n <= Z.of_nat (length m) ->
  mem_read off n m = Some (take (Z.to_nat n) (drop (Z.to_nat off) m)).
Proof.
  intros H1 H2 H3. unfold mem_read.
  by rewrite (proj2 (Z.leb_le _ _) H1), (proj2 (Z.leb_le _ _) H2), (proj2 (Z.leb_le _ _) H3).
Qed.

Lemma mem_write_Some off l m : 0 <= off -> off + Z.of_nat (length l) <= Z.of_nat (length m) ->
  mem_write off l m = Some (take (Z.to_nat off) m ++ l ++ drop (Z.to_nat off + length l) m).
Proof.
  intros H1 H2. unfold mem_write. rewrite (proj2 (Z.leb_le _ _) H1). apply wr_bytes_Some. lia.
Qed.

Lemma length_mem_write off l m m' : mem_write off l m = Some m' -> length m' = length m.
Proof. unfold mem_write. case_match; [|done]. apply wr_bytes_length. Qed.

Lemma frame_bytes_ok u n ch bps : ch * bps = 8 * u -> 0 < ch -> 0 < u -> 0 <= n -> n * (8 * u) <= INT_MAX ->
  frame_bytes n ch bps = Some (n * u).
Proof.
  intros E Hc Hu Hn Hm. unfold frame_bytes. assert (0 < bps) by nia. assert (n * ch * bps = 8 * (n * u)) as E2 by lia.
  rewrite int_chk_Some by (unfold INT_MIN, INT_MAX in *; nia). cbn.
  rewrite int_chk_Some by (unfold INT_MIN, INT_MAX in *; nia). cbn. rewrite E2. f_equal.
  rewrite Z.mul_comm, Z.quot_mul; lia.
Qed.

Lemma length_contents u ab : buf_ok u ab -> Z.of_nat (length (contents ab)) = buftail ab - bufhead ab.
Proof. intros []. unfold contents. rewrite length_take, length_drop. lia. Qed.

(** *** Filling *)

Definition data_ok (u : Z) (data : option (list Z)) (frames : Z) : Prop :=
  frames * (8 * u) <= INT_MAX /\ match data with Some d => frames * u <= Z.of_nat (length d) | None => True end.

(** The bytes of [frames] frames. *)
Definition filled (u : Z) (data : option (list Z)) (frames : Z) : list Z :=
  match data with None => repeat 0 (Z.to_nat (frames * u)) | Some d => take (Z.to_nat (frames * u)) d end.

Lemma length_filled u data frames : 0 <= u -> 0 <= frames -> data_ok u data frames ->
  Z.of_nat (length (filled u data frames)) = frames * u.
Proof. intros Hu Hf [_ D]. unfold filled. destruct data; rewrite ?length_take, ?repeat_length; nia. Qed.

Lemma fill_data_ok u data frames : 0 <= u -> 0 <= frames -> data_ok u data frames ->
  fill_data data (frames * u) = Some (filled u data frames).
Proof.
  intros Hu Hf [_ D]. unfold fill_data, filled. destruct data as [d|].
  - rewrite mem_read_Some by nia. by rewrite drop_0.
  - by rewrite (proj2 (Z.leb_le _ _)) by nia.
Qed.

Lemma contents_append ab l m pts n : 0 <= bufhead ab <= buftail ab -> buftail ab + Z.of_nat (length l) <= Z.of_nat (length (buffer ab)) ->
  mem_write (buftail ab) l (buffer ab) = Some m ->
  contents (set_data pts (bufhead ab) (buftail ab + Z.of_nat (length l)) n m ab) = contents ab ++ l.
Proof.
  intros Hr Hl E. rewrite mem_write_Some in E by lia. injection E as <-. unfold contents. cbn.
  rewrite drop_app_le by (rewrite length_take; lia).
  replace (drop (Z.to_nat (bufhead ab)) (take (Z.to_nat (buftail ab)) (buffer ab)))
    with (take (Z.to_nat (buftail ab - bufhead ab)) (drop (Z.to_nat (bufhead ab)) (buffer ab)))
    by (rewrite take_drop_commute; do 2 f_equal; lia).
  rewrite take_app_ge by (rewrite length_take, length_drop; lia). rewrite length_take, length_drop. f_equal.
  rewrite take_app_le by lia. apply take_ge. lia.
Qed.

(** One pass of the loop, on a buffer in order. *)
Lemma fill_retry_S u fuel data framesize frames ab : buf_ok u ab ->
  fill_retry (S fuel) data framesize frames ab =
    if bufhead ab + (bufsize ab - buftail ab) <? framesize then Some ab
    else if framesize <=? bufsize ab - buftail ab then
      d ← fill_data data framesize;
      m ← mem_write (buftail ab) d (buffer ab);
      t ← int_chk (buftail ab + framesize);
      n ← int_chk (bframes ab + frames);
      Some (set_data (bufPts ab) (bufhead ab) t n m ab)
    else
      d ← mem_read (bufhead ab) (buftail ab - bufhead ab) (buffer ab);
      m ← mem_write 0 d (buffer ab);
      fill_retry fuel data framesize frames (set_data (bufPts ab) 0 (buftail ab - bufhead ab) (bframes ab) m ab).
Proof.
  intros []. cbn [fill_retry].
  rewrite (int_chk_Some (bufsize ab - buftail ab)) by (unfold INT_MIN, INT_MAX in *; lia). cbn [mbind option_bind].
  rewrite (int_chk_Some (bufhead ab + (bufsize ab - buftail ab))) by (unfold INT_MIN, INT_MAX in *; lia). done.
Qed.

(** Space at the end: the bytes are appended. *)
Lemma fill_tail u fuel data frames ab : buf_ok u ab -> 0 < frames -> data_ok u data frames ->
  frames * u <= bufsize ab - buftail ab ->
  exists ab', fill_retry (S fuel) data (frames * u) frames ab = Some ab' /\ buf_ok u ab' /\ same_format ab ab' /\
    contents ab' = contents ab ++ filled u data frames /\ bufPts ab' = bufPts ab.
Proof.
  intros K Hf D Hs. rewrite (fill_retry_S u) by done. destruct K.
  assert (0 < frames * u) by nia. assert (0 <= bframes ab) by nia.
  assert ((bframes ab + frames) * u <= bufsize ab) by lia. assert (bframes ab + frames <= (bframes ab + frames) * u) by nia.
  replace (bufhead ab + (bufsize ab - buftail ab) <? frames * u) with false by (symmetry; apply Z.ltb_ge; lia).
  replace (frames * u <=? bufsize ab - buftail ab) with true by (symmetry; apply Z.leb_le; lia).
  rewrite (fill_data_ok u) by (try done; lia). cbn [mbind option_bind].
  pose proof (length_filled u data frames ltac:(lia) ltac:(lia) D) as L.
  destruct (mem_write (buftail ab) (filled u data frames) (buffer ab)) as [m|] eqn:E;
    [|rewrite mem_write_Some in E by lia; done]. cbn [mbind option_bind].
  rewrite int_chk_Some by (unfold INT_MIN, INT_MAX in *; lia). cbn [mbind option_bind].
  rewrite int_chk_Some by (unfold INT_MIN, INT_MAX in *; lia). cbn [mbind option_bind].
  eexists. split; [reflexivity|]. split; [|split; [by split_and!|split; [|done]]].
  - pose proof (length_mem_write _ _ _ _ E). split; cbn; try done; try lia. 
  - rewrite <- L. apply contents_append; try done. lia.
Qed.

(** Space only with the bytes already read: the others are moved to the front. *)
Lemma fill_move u ab : buf_ok u ab ->
  exists d m, mem_read (bufhead ab) (buftail ab - bufhead ab) (buffer ab) = Some d /\ mem_write 0 d (buffer ab) = Some m /\
    let ab' := set_data (bufPts ab) 0 (buftail ab - bufhead ab) (bframes ab) m ab in
    buf_ok u ab' /\ contents ab' = contents ab.
Proof.
  intros []. rewrite mem_read_Some by lia. assert (length (contents ab) = Z.to_nat (buftail ab - bufhead ab)) as L
    by (unfold contents; rewrite length_take, length_drop; lia).
  fold (contents ab). destruct (mem_write 0 (contents ab) (buffer ab)) as [m|] eqn:E; [|rewrite mem_write_Some in E by lia; done].
  exists (contents ab), m. split; [reflexivity|]. split; [done|]. split.
  - pose proof (length_mem_write _ _ _ _ E). split; cbn; try done; lia.
  - rewrite mem_write_Some in E by lia. injection E as <-. unfold contents at 1. cbn [bufhead buftail buffer set_data].
    change (take (Z.to_nat 0) (buffer ab)) with (@nil Z). cbn [app]. rewrite drop_0, Z.sub_0_r, take_app_le by lia. apply take_ge. lia.
Qed.

Lemma fill_one_ok u data frames ab : buf_ok u ab -> data_ok u data frames ->
  exists ab', audio_source_buffer_fill_one data frames ab = Some ab' /\ buf_ok u ab' /\ same_format ab ab' /\
    queue_of ab' = q_fill u (bufsize ab) data frames (queue_of ab).
Proof.
  intros K D. unfold audio_source_buffer_fill_one, q_fill. destruct (Z.leb_spec frames 0) as [|Hf].
  { exists ab. by split_and!. }
  pose proof K as []. rewrite (frame_bytes_ok u) by first [done|lia|apply D]. cbn [mbind option_bind queue_of q_bytes q_pts].
  rewrite (length_contents u) by done. fold (filled u data frames).
  destruct (Z.ltb_spec (bufsize ab - (buftail ab - bufhead ab)) (frames * u)) as [Hs|Hs].
  - exists ab. split; [|by split_and!]. rewrite (fill_retry_S u) by done.
    by replace (bufhead ab + (bufsize ab - buftail ab) <? frames * u) with true by (symmetry; apply Z.ltb_lt; lia).
  - destruct (decide (frames * u <= bufsize ab - buftail ab)) as [Ht|Ht].
    + destruct (fill_tail u 1 data frames ab K Hf D Ht) as (ab' & E & K' & F & C & P). exists ab'. split_and!; try done.
      unfold queue_of. by rewrite C, P.
    + destruct (fill_move u ab K) as (d & m & E1 & E2 & K1 & C1).
      destruct (fill_tail u 0 data frames _ K1 Hf D) as (ab' & E & K' & F & C & P); [cbn; lia|].
      exists ab'. split; [|split_and!; try done; unfold queue_of; rewrite C, P, C1; done].
      rewrite <- E, (fill_retry_S u) by done.
      replace (bufhead ab + (bufsize ab - buftail ab) <? frames * u) with false by (symmetry; apply Z.ltb_ge; lia).
      replace (frames * u <=? bufsize ab - buftail ab) with false by (symmetry; apply Z.leb_gt; lia).
      rewrite E1. cbn [mbind option_bind]. rewrite E2. done.
Qed.

(** *** Reading *)

Lemma contents_advance u ab k : buf_ok u ab -> 0 <= k <= buftail ab - bufhead ab ->
  take (Z.to_nat (buftail ab - (bufhead ab + k))) (drop (Z.to_nat (bufhead ab + k)) (buffer ab)) =
  drop (Z.to_nat k) (contents ab).
Proof.
  intros [] Hk. unfold contents. replace (Z.to_nat (buftail ab - bufhead ab))
    with (Z.to_nat k + Z.to_nat (buftail ab - (bufhead ab + k)))%nat by lia.
  rewrite <- take_drop_commute, drop_drop. do 2 f_equal. lia.
Qed.

Lemma read_ok u others frames ab ab1 : buf_ok u ab1 -> 0 < frames ->
  (if bframes ab =? 0 then others ab else Some ab) = Some ab1 ->
  exists n d ab', audio_source_buffer_read others frames ab = Some (n, d, ab') /\ buf_ok u ab' /\ same_format ab1 ab' /\
    q_read u frames (queue_of ab1) = (n, d, queue_of ab').
Proof.
  intros K Hf Ho. unfold audio_source_buffer_read, q_read. rewrite (proj2 (Z.leb_gt frames 0) Hf), Ho.
  cbn [mbind option_bind queue_of q_bytes q_pts]. rewrite (length_contents u) by done. pose proof K as [].
  assert (0 <= bframes ab1) by nia. rewrite bk_frames0, Z.div_mul by lia.
  replace (if frames <=? bframes ab1 then frames else bframes ab1) with (Z.min frames (bframes ab1))
    by (destruct (Z.leb_spec frames (bframes ab1)); lia).
  set (n := Z.min frames (bframes ab1)). destruct (Z.ltb_spec 0 n) as [Hn|Hn].
  - assert (n * u <= bframes ab1 * u) by (apply Z.mul_le_mono_nonneg_r; lia). assert (0 < n * u) by nia.
    rewrite (frame_bytes_ok u) by first [done|lia]. cbn [mbind option_bind].
    rewrite mem_read_Some by lia. cbn [mbind option_bind].
    rewrite int_chk_Some by (unfold INT_MIN, INT_MAX in *; lia). cbn [mbind option_bind].
    eexists n, _, _. split; [reflexivity|]. split_and!; try done.
    + destruct (Z.eqb_spec (bframes ab1 - n) 0); split; cbn; try done; nia.
    + replace (take (Z.to_nat (n * u)) (drop (Z.to_nat (bufhead ab1)) (buffer ab1))) with (take (Z.to_nat (n * u)) (contents ab1))
        by (unfold contents; rewrite take_take; f_equal; lia).
      f_equal. unfold queue_of. cbn [bufPts set_data]. f_equal. rewrite <- (contents_advance u) by (try done; lia).
      unfold contents. cbn. destruct (Z.eqb_spec (bframes ab1 - n) 0); [|done].
      by replace (Z.to_nat (buftail ab1 - (bufhead ab1 + n * u))) with 0%nat by nia.
  - assert (n = 0) as -> by lia. exists 0, [], ab1. split; [done|]. split_and!; try done.
    cbn [Z.mul Z.to_nat take drop]. by rewrite Z.add_0_r.
Qed.

Lemma purge_ok u ab : buf_ok u ab -> buf_ok u (audio_source_buffer_purge ab) /\ same_format ab (audio_source_buffer_purge ab) /\
  queue_of (audio_source_buffer_purge ab) = {| q_bytes := []; q_pts := 0 |}.
Proof. intros []. split; [split; cbn; try done; lia|done]. Qed.

(** *** Sequences of operations *)

(** A read says what is filled in while it waits. *)
Inductive audio_op :=
  | OFill (data : option (list Z)) (frames : Z)
  | ORead (frames : Z) (meanwhile : list (option (list Z) * Z))
  | OPurge.

Fixpoint fills (l : list (option (list Z) * Z)) (ab : audio_buffer_t) : option audio_buffer_t :=
  match l with [] => Some ab | (d, n) :: l => ab ← audio_source_buffer_fill_one d n ab; fills l ab end.

(** An operation gives the frames and bytes read. *)
Definition audio_step (o : audio_op) (ab : audio_buffer_t) : option (Z * list Z * audio_buffer_t) :=
  match o with
  | OFill d n => ab ← audio_source_buffer_fill_one d n ab; Some (0, [], ab)
  | ORead n m => audio_source_buffer_read (fills m) n ab
  | OPurge => Some (0, [], audio_source_buffer_purge ab)
  end.

Fixpoint audio_run (os : list audio_op) (ab : audio_buffer_t) : option (list (Z * list Z) * audio_buffer_t) :=
  match os with
  | [] => Some ([], ab)
  | o :: os =>
      '(n, d, ab) ← audio_step o ab;
      '(outs, ab) ← audio_run os ab;
      Some ((n, d) :: outs, ab)
  end.

Definition q_fills (u cap : Z) (l : list (option (list Z) * Z)) (q : queue) : queue :=
  fold_left (fun q x => q_fill u cap x.1 x.2 q) l q.

Definition queue_step (u cap : Z) (o : audio_op) (q : queue) : Z * list Z * queue :=
  match o with
  | OFill d n => (0, [], q_fill u cap d n q)
  | ORead n m => q_read u n (if (0 <? n) && bool_decide (q_bytes q = []) then q_fills u cap m q else q)
  | OPurge => (0, [], {| q_bytes := []; q_pts := 0 |})
  end.

Fixpoint queue_run (u cap : Z) (os : list audio_op) (q : queue) : list (Z * list Z) * queue :=
  match os with
  | [] => ([], q)
  | o :: os => let '(n, d, q) := queue_step u cap o q in let '(outs, q) := queue_run u cap os q in ((n, d) :: outs, q)
  end.

Definition op_ok (u : Z) (o : audio_op) : Prop :=
  match o with
  | OFill d n => data_ok u d n
  | ORead _ m => Forall (fun x => data_ok u x.1 x.2) m
  | OPurge => True
  end.

Lemma same_format_trans ab ab1 ab2 : same_format ab ab1 -> same_format ab1 ab2 -> same_format ab ab2.
Proof. unfold same_format. intuition congruence. Qed.

Lemma fills_ok u l : Forall (fun x => data_ok u x.1 x.2) l -> forall ab, buf_ok u ab ->
  exists ab', fills l ab = Some ab' /\ buf_ok u ab' /\ same_format ab ab' /\ queue_of ab' = q_fills u (bufsize ab) l (queue_of ab).
Proof.
  induction 1 as [|[d n] l D _ IH]; intros ab K; [by exists ab|]. cbn.
  destruct (fill_one_ok u d n ab K D) as (ab1 & -> & K1 & F1 & Q1). cbn.
  destruct (IH ab1 K1) as (ab2 & E & K2 & F2 & Q2). exists ab2. split; [done|]. split; [done|].
  split; [by eapply same_format_trans|]. unfold q_fills in *. cbn. rewrite Q2, Q1.
  assert (bufsize ab1 = bufsize ab) as -> by apply F1. done.
Qed.

Lemma empty_frames u ab : buf_ok u ab -> bool_decide (q_bytes (queue_of ab) = []) = (bframes ab =? 0).
Proof.
  intros K. pose proof (length_contents u ab K) as L. destruct K. cbn. destruct (Z.eqb_spec (bframes ab) 0).
  - apply bool_decide_eq_true, nil_length_inv. nia.
  - apply bool_decide_eq_false. intros E. rewrite E in L. cbn in L. nia.
Qed.

Lemma audio_step_ok u o ab : buf_ok u ab -> op_ok u o -> exists n d ab', audio_step o ab = Some (n, d, ab') /\
  buf_ok u ab' /\ same_format ab ab' /\ queue_step u (bufsize ab) o (queue_of ab) = (n, d, queue_of ab').
Proof.
  intros K O. destruct o as [d n|n m|]; cbn [audio_step queue_step op_ok] in *.
  - destruct (fill_one_ok u d n ab K O) as (ab1 & -> & K1 & F1 & Q1). cbn. rewrite <- Q1. by eexists _, _, _.
  - destruct (Z.ltb_spec 0 n) as [Hn|Hn].
    + rewrite (empty_frames u) by done. cbn [andb].
      assert (exists ab1, (if bframes ab =? 0 then fills m ab else Some ab) = Some ab1 /\ buf_ok u ab1 /\ same_format ab ab1 /\
        queue_of ab1 = if bframes ab =? 0 then q_fills u (bufsize ab) m (queue_of ab) else queue_of ab) as (ab1 & E1 & K1 & F1 & Q1)
        by (destruct (bframes ab =? 0); [by apply fills_ok|by exists ab]).
      destruct (read_ok u (fills m) n ab ab1 K1 Hn E1) as (k & d & ab2 & E2 & K2 & F2 & Q2).
      exists k, d, ab2. split; [done|]. split; [done|]. split; [by eapply same_format_trans|]. by rewrite <- Q1.
    + cbn [andb]. unfold audio_source_buffer_read, q_read. rewrite (proj2 (Z.leb_le n 0) Hn). by exists 0, [], ab.
  - destruct (purge_ok u ab K) as (K1 & F1 & Q1). exists 0, [], (audio_source_buffer_purge ab). by rewrite Q1.
Qed.

Lemma audio_run_ok u os : forall ab, buf_ok u ab -> Forall (op_ok u) os ->
  exists outs ab', audio_run os ab = Some (outs, ab') /\ buf_ok u ab' /\ same_format ab ab' /\
    queue_run u (bufsize ab) os (queue_of ab) = (outs, queue_of ab').
Proof.
  induction os as [|o os IH]; intros ab K F; [by exists [], ab|]. inversion F as [|? ? Ho Fo]; subst. cbn.
  destruct (audio_step_ok u o ab K Ho) as (n & d & ab1 & -> & K1 & F1 & ->). cbn.
  destruct (IH ab1 K1 Fo) as (outs & ab2 & -> & K2 & F2 & Q). cbn. exists ((n, d) :: outs), ab2.
  split; [done|]. split; [done|]. split; [by eapply same_format_trans|].
  assert (bufsize ab1 = bufsize ab) as Eb by apply F1. rewrite <- Eb. by rewrite Q.
Qed.

(** The memory [malloc] gives has the size asked for. *)
Definition malloced (size : Z) (m : list Z) : Prop := Z.of_nat (length m) = size.

Lemma init_ok p m a u : gChannels a * gBitspersample a = 8 * u -> 0 < gChannels a -> 0 < u -> 0 < gChunksize a ->
  gChunksize a * 4 * (8 * u) <= INT_MAX -> malloced (gChunksize a * 4 * u) m ->
  exists ab, audio_source_buffer_init p (Some m) a = Some (Some p, set_heap (<[p := ab]> (a_heap a)) a) /\
    buf_ok u ab /\ bufsize ab = gChunksize a * 4 * u /\ queue_of ab = {| q_bytes := []; q_pts := 0 |} /\
    client_connected ab = false.
Proof.
  intros E Hc Hu Hk Hm L. unfold audio_source_buffer_init.
  assert (gChunksize a * 4 <= gChunksize a * 4 * (8 * u)) by nia.
  rewrite int_chk_Some by (unfold INT_MIN, INT_MAX in *; lia). cbn [mbind option_bind].
  replace ((gChunksize a * 4 =? 0) || (gChannels a =? 0) || (gBitspersample a =? 0)) with false
    by (symmetry; rewrite !orb_false_iff; split_and!; apply Z.eqb_neq; nia).
  rewrite (frame_bytes_ok u) by first [done|lia]. cbn [mbind option_bind].
  eexists. split; [reflexivity|]. split; [split; cbn; try done; lia|done].
Qed.

(** C6. A client's buffer is a bounded queue of audio.  With a format whose frames
    take whole bytes, a new buffer behaves, under any sequence of fills (with data or
    with silence), reads (with what arrives while they wait) and purges, exactly as a
    queue of bytes with room for four chunks: a fill appends all its bytes, or none
    when they do not fit; a read gives the oldest frames, as many as asked for or as
    there are; nothing is undefined, although data is moved inside the buffer and
    positions are reset; and the time stamp counts the frames read since the last
    purge. *)
Theorem audio_buffer_is_queue p m a u os :
  gChannels a * gBitspersample a = 8 * u -> 0 < gChannels a -> 0 < u -> 0 < gChunksize a ->
  gChunksize a * 4 * (8 * u) <= INT_MAX -> malloced (gChunksize a * 4 * u) m -> Forall (op_ok u) os ->
  exists ab a', audio_source_buffer_init p (Some m) a = Some (Some p, a') /\ a_heap a' !! p = Some ab /\
    exists outs ab', audio_run os ab = Some (outs, ab') /\
      queue_run u (gChunksize a * 4 * u) os {| q_bytes := []; q_pts := 0 |} = (outs, queue_of ab').
Proof.
  intros E Hc Hu Hk Hm L F. destruct (init_ok p m a u E Hc Hu Hk Hm L) as (ab & Ei & K & Es & Eq & _).
  exists ab. eexists. split; [exact Ei|]. split; [apply lookup_insert_eq|].
  destruct (audio_run_ok u os ab K F) as (outs & ab' & R & _ & _ & Q). exists outs, ab'. split; [done|]. by rewrite <- Es, <- Eq.
Qed.

Definition stereo : asource :=
  {| a_heap := ∅; gClients := ∅; gChunksize := 1; gSamplerate := 48000; gBitspersample := 16; gChannels := 2 |}.
Definition audio_session : list audio_op :=
  [OFill (Some [1; 2; 3; 4; 5; 6; 7; 8; 9; 10; 11; 12]) 3; ORead 2 []; OFill None 3; OFill (Some [1; 1; 1; 1]) 1;
   ORead 5 []; ORead 1 [(Some [9; 9; 9; 9], 1)]].

Lemma audio_buffer_is_queue_witness : exists ab ab',
  audio_run audio_session ab =
    Some ([(0, []); (2, [1; 2; 3; 4; 5; 6; 7; 8]); (0, []); (0, []); (4, [9; 10; 11; 12; 0; 0; 0; 0; 0; 0; 0; 0; 0; 0; 0; 0]);
           (1, [9; 9; 9; 9])], ab') /\ bufPts ab' = 7.
Proof.
  destruct (audio_buffer_is_queue 1 (repeat 0 16) stereo 4 audio_session) as (ab & a' & _ & _ & outs & ab' & R & Q).
  - reflexivity.
  - reflexivity.
  - reflexivity.
  - reflexivity.
  - vm_compute. discriminate.
  - reflexivity.
  - repeat constructor; vm_compute; discriminate.
  - exists ab, ab'. destruct ab'. vm_compute in Q. injection Q as <- _ <-. split; [exact R|reflexivity].
Defined.

(** ** Frames of ten milliseconds *)

(** What is there after a read that waited. *)
Definition q_wait (u cap n : Z) (meanwhile : list (option (list Z) * Z)) (q : queue) : queue :=
  if (0 <? n) && bool_decide (q_bytes q = []) then q_fills u cap meanwhile q else q.

(** What one call delivers from a queue: the value returned, the bytes written, the queue. *)
Definition q_generate (u cap n : Z) (m1 mb m2 : list (option (list Z) * Z)) (q : queue) : Z * list Z * queue :=
  let '(k1, d1, q1) := q_read u n (q_wait u cap n m1 q) in
  if k1 =? n then (n * u, d1, q1)
  else
    let '(k2, d2, q2) := q_read u (n - k1) (q_wait u cap (n - k1) m2 (q_fills u cap mb q1)) in
    (if n - k1 =? k2 then n * u else k1, d1 ++ d2, q2).

Lemma q_read_length u n q k d q' : 0 < u -> 0 < n -> q_read u n q = (k, d, q') ->
  0 <= k <= n /\ Z.of_nat (length d) = k * u.
Proof.
  intros Hu Hn. unfold q_read. rewrite (proj2 (Z.leb_gt n 0) Hn). intros [= <- <- _].
  pose proof (Z.div_pos (Z.of_nat (length (q_bytes q))) u ltac:(lia) Hu).
  pose proof (Z.mul_div_le (Z.of_nat (length (q_bytes q))) u Hu). split; [lia|]. rewrite length_take.
  set (k := Z.min n _). assert (k * u <= Z.of_nat (length (q_bytes q)) / u * u) by (apply Z.mul_le_mono_nonneg_r; lia).
  assert (0 <= k * u) by nia. lia.
Qed.

Lemma read_into_ok u n m off ab out : buf_ok u ab -> 0 < n -> Forall (fun x => data_ok u x.1 x.2) m ->
  0 <= off -> off + n * u <= Z.of_nat (length out) ->
  exists k d ab', read_into (fills m) n off ab out =
      Some (k, ab', take (Z.to_nat off) out ++ d ++ drop (Z.to_nat off + length d) out) /\
    buf_ok u ab' /\ same_format ab ab' /\ q_read u n (q_wait u (bufsize ab) n m (queue_of ab)) = (k, d, queue_of ab').
Proof.
  intros K Hn F Ho Hl. destruct (audio_step_ok u (ORead n m) ab K F) as (k & d & ab' & E & K' & F' & Q).
  cbn [audio_step queue_step] in E, Q. exists k, d, ab'. split; [|done]. unfold read_into. rewrite E. cbn [mbind option_bind].
  pose proof (bk_pos _ _ K) as Hu. destruct (q_read_length u n _ k d _ Hu Hn Q) as [Hk Ld].
  assert (k * u <= n * u) by (apply Z.mul_le_mono_nonneg_r; lia). rewrite mem_write_Some by lia. done.
Qed.

(** A generator whose buffer has its format. *)
Record generator_ok (u : Z) (g : GAAudioFrameGenerator) : Prop := {
  go_unit : channel_number_ g * sample_size_ g = 8 * u;
  go_channels : 0 < channel_number_ g;
  go_frames : 0 < recording_frames_in_10_ms_ g;
  go_size : recording_buffer_size_in_10ms_ g = recording_frames_in_10_ms_ g * u;
  go_max : 8 * recording_buffer_size_in_10ms_ g <= INT_MAX
}.

Lemma generate_ok u g m1 mb m2 cap ab out : generator_ok u g -> buf_ok u ab ->
  Forall (fun x => data_ok u x.1 x.2) (m1 ++ mb ++ m2) ->
  recording_buffer_size_in_10ms_ g <= cap -> cap <= Z.of_nat (length out) ->
  exists r d ab', GenerateFramesForNext10Ms (fills m1) (fills mb) (fills m2) cap g ab out =
      Some (r, ab', d ++ drop (length d) out) /\ buf_ok u ab' /\
    q_generate u (bufsize ab) (recording_frames_in_10_ms_ g) m1 mb m2 (queue_of ab) = (r, d, queue_of ab').
Proof.
  intros [] K F Hc Ho. apply Forall_app in F as [F1 [F2 F3]%Forall_app]. set (n := recording_frames_in_10_ms_ g) in *.
  pose proof (bk_pos _ _ K) as Hu. assert (0 < n * u) by nia. unfold GenerateFramesForNext10Ms, q_generate. fold n.
  rewrite go_size0 in *. assert (u32 (n * u) = n * u) as Eu by (apply wrapu_small; unfold INT_MAX in *; lia). rewrite Eu.
  rewrite (proj2 (Z.ltb_ge cap (n * u))) by lia.
  destruct (read_into_ok u n m1 0 ab out K go_frames0 F1) as (k & d & ab1 & E1 & K1 & S1 & Q1); [lia..|].
  rewrite E1, Q1. cbn [mbind option_bind]. destruct (q_read_length u n _ _ _ _ Hu go_frames0 Q1) as [Hk Ld].
  assert (bufsize ab1 = bufsize ab) as Eb by apply S1.
  destruct (Z.eqb_spec k n) as [->|Nk]; [by eexists _, _, _|].
  rewrite (proj2 (Z.ltb_lt k n)) by lia. rewrite (frame_bytes_ok u) by first [done|unfold INT_MAX in *; nia].
  cbn [mbind option_bind]. rewrite Z.mul_1_l.
  destruct (fills_ok u mb F2 ab1 K1) as (ab2 & -> & K2 & S2 & Q2). cbn [mbind option_bind].
  assert (bufsize ab2 = bufsize ab1) as Eb2 by apply S2.
  set (out1 := take (Z.to_nat 0) out ++ d ++ drop (Z.to_nat 0 + length d) out).
  assert (out1 = d ++ drop (length d) out) as Eo by done.
  assert (length out1 = length out) as Lo by (rewrite Eo, length_app, length_drop; nia).
  destruct (read_into_ok u (n - k) m2 (u * k) ab2 out1 K2) as (k2 & d2 & ab3 & E3 & K3 & S3 & Q3); [lia|done|lia|lia|].
  rewrite E3. cbn [mbind option_bind]. rewrite <- Eb, <- Q2, <- Eb2, Q3.
  eexists _, (d ++ d2), ab3. split; [|done]. assert (u32 k = k) as -> by (apply wrapu_small; unfold INT_MAX in *; nia).
  do 2 f_equal. rewrite Eo. replace (Z.to_nat (u * k)) with (length d) by lia.
  rewrite take_app_length, drop_app_ge by lia. rewrite drop_drop, length_app, <- app_assoc. do 4 f_equal. lia.
Qed.

(** Ten milliseconds of audio are the oldest in the queue.  When the buffer has the
    frames of ten milliseconds (or data that comes while the call waits makes them
    up), the generator fills the front of the caller's memory with exactly the oldest
    frames, keeps the rest of that memory, removes these frames from the buffer
    and returns their size in bytes. *)
Theorem ten_ms_delivered u g m1 cap ab out :
  generator_ok u g -> buf_ok u ab -> Forall (fun x => data_ok u x.1 x.2) m1 ->
  recording_buffer_size_in_10ms_ g <= cap -> cap <= Z.of_nat (length out) ->
  let q := q_wait u (bufsize ab) (recording_frames_in_10_ms_ g) m1 (queue_of ab) in
  let size := Z.to_nat (recording_buffer_size_in_10ms_ g) in
  (size <= length (q_bytes q))%nat ->
  exists ab', GenerateFramesForNext10Ms (fills m1) Some Some cap g ab out =
      Some (recording_buffer_size_in_10ms_ g, ab', take size (q_bytes q) ++ drop size out) /\
    contents ab' = drop size (q_bytes q).
Proof.
  intros G K F Hc Ho q size Hs.
  destruct (generate_ok u g m1 [] [] cap ab out G K ltac:(by rewrite !app_nil_r) Hc Ho) as (r & d & ab' & E & _ & Q).
  change (fills []) with (@Some audio_buffer_t) in E. exists ab'. rewrite E. destruct G. pose proof (bk_pos _ _ K) as Hu.
  unfold q_generate in Q. fold q in Q. unfold q_read at 1 in Q. rewrite (proj2 (Z.leb_gt _ 0) go_frames0) in Q.
  assert (recording_frames_in_10_ms_ g <= Z.of_nat (length (q_bytes q)) / u) as L
    by (apply Z.div_le_lower_bound; [done|]; unfold size in Hs; rewrite go_size0 in Hs; nia).
  rewrite (Z.min_l _ _ L), Z.eqb_refl, <- go_size0 in Q. injection Q as <- <- <-. fold size.
  rewrite length_take, Nat.min_l by done. done.
Qed.

Definition stereo_generator : GAAudioFrameGenerator :=
  {| channel_number_ := 2; sample_rate_ := 300; sample_size_ := 16; recording_frames_in_10_ms_ := 3;
     recording_buffer_size_in_10ms_ := 12; audio_buffer_ := Some 1 |}.
Definition stereo_buffer : audio_buffer_t :=
  {| bufPts := 0; client_connected := true; ab_frames := 4; channels := 2; bitspersample := 16; bufsize := 16;
     bufhead := 4; buftail := 12; bframes := 2; buffer := [0; 0; 0; 0; 1; 2; 3; 4; 5; 6; 7; 8; 0; 0; 0; 0] |}.
Definition full_buffer : audio_buffer_t :=
  {| bufPts := 0; client_connected := true; ab_frames := 4; channels := 2; bitspersample := 16; bufsize := 16;
     bufhead := 0; buftail := 16; bframes := 4; buffer := [0; 1; 2; 3; 4; 5; 6; 7; 8; 9; 10; 11; 12; 13; 14; 15] |}.

Lemma stereo_generator_ok : generator_ok 4 stereo_generator.
Proof. by split. Qed.
Lemma stereo_buffer_ok : buf_ok 4 stereo_buffer.
Proof. by split. Qed.
Lemma full_buffer_ok : buf_ok 4 full_buffer.
Proof. by split. Qed.

Lemma ten_ms_delivered_witness : exists ab', contents ab' = [12; 13; 14; 15] /\
  GenerateFramesForNext10Ms Some Some Some 13 stereo_generator full_buffer (repeat 99 13)
  = Some (12, ab', [0; 1; 2; 3; 4; 5; 6; 7; 8; 9; 10; 11; 99]).
Proof.
  destruct (ten_ms_delivered 4 stereo_generator [] 13 full_buffer (repeat 99 13) stereo_generator_ok full_buffer_ok
    ltac:(constructor) ltac:(vm_compute; discriminate) ltac:(vm_compute; discriminate) ltac:(vm_compute; lia))
    as (ab' & E & C).
  exists ab'. split; [exact C|exact E].
Defined.

(** A short read loses audio.  When the buffer has fewer frames than ten
    milliseconds take and none arrive, the call still removes all of them from the buffer
    and writes them, but returns their number instead of their size: the caller
    learns of fewer bytes than it was given, and the rest is never delivered. *)
Theorem short_read_misreported u g cap ab out :
  generator_ok u g -> buf_ok u ab -> recording_buffer_size_in_10ms_ g <= cap -> cap <= Z.of_nat (length out) ->
  bframes ab < recording_frames_in_10_ms_ g ->
  exists ab', GenerateFramesForNext10Ms Some Some Some cap g ab out =
      Some (bframes ab, ab', contents ab ++ drop (length (contents ab)) out) /\
    contents ab' = [] /\ Z.of_nat (length (contents ab)) = bframes ab * u.
Proof.
  intros G K Hc Ho Hs.
  destruct (generate_ok u g [] [] [] cap ab out G K ltac:(constructor) Hc Ho) as (r & d & ab' & E & _ & Q).
  change (fills []) with (@Some audio_buffer_t) in E. exists ab'. rewrite E. destruct G. pose proof (bk_pos _ _ K) as Hu.
  pose proof (length_contents _ _ K) as L. pose proof (bk_frames _ _ K) as Lf. rewrite Lf in L.
  pose proof (bk_range _ _ K). assert (0 <= bframes ab) by nia.
  unfold q_generate in Q. assert (forall cap n q, q_wait u cap n [] q = q) as W by (intros; unfold q_wait; by destruct (_ && _)).
  rewrite !W in Q. unfold q_read at 1 in Q. rewrite (proj2 (Z.leb_gt _ 0) go_frames0) in Q. cbn [queue_of q_bytes q_pts] in Q.
  rewrite L, Z.div_mul, Z.min_r in Q by lia. rewrite (proj2 (Z.eqb_neq _ _)) in Q by lia.
  rewrite take_ge, drop_ge in Q by lia. rewrite W in Q. unfold q_fills in Q. cbn [fold_left] in Q.
  unfold q_read in Q. rewrite (proj2 (Z.leb_gt _ 0)) in Q by lia. cbn [q_bytes length Z.of_nat] in Q.
  rewrite Z.div_0_l, Z.min_r in Q by lia. cbn [Z.mul Z.to_nat take drop] in Q. rewrite (proj2 (Z.eqb_neq _ _)) in Q by lia.
  rewrite app_nil_r in Q. injection Q as <- <- <- _. done.
Qed.

Lemma short_read_misreported_witness : exists ab', contents ab' = [] /\
  GenerateFramesForNext10Ms Some Some Some 13 stereo_generator stereo_buffer (repeat 99 13)
  = Some (2, ab', [1; 2; 3; 4; 5; 6; 7; 8; 99; 99; 99; 99; 99]).
Proof.
  destruct (short_read_misreported 4 stereo_generator 13 stereo_buffer (repeat 99 13) stereo_generator_ok stereo_buffer_ok
    ltac:(vm_compute; discriminate) ltac:(vm_compute; discriminate) ltac:(vm_compute; reflexivity)) as (ab' & E & C & _).
  exists ab'. split; [exact C|exact E].
Defined.

(** ** Filling all clients *)

(** The buffers of a list of clients. *)
Definition registered (cs : list (Z * option Z)) : list Z := omap snd cs.

(** Every registered buffer exists, is in order, and is registered once. *)
Definition clients_ok (u : Z) (a : asource) (cs : list (Z * option Z)) : Prop :=
  NoDup (registered cs) /\ forall p, p ∈ registered cs -> exists ab, a_heap a !! p = Some ab /\ buf_ok u ab.

(** What a fill does to one buffer. *)
Definition client_filled (u : Z) (data : option (list Z)) (frames : Z) (ab ab' : audio_buffer_t) : Prop :=
  buf_ok u ab' /\ same_format ab ab' /\
  queue_of ab' = if client_connected ab then q_fill u (bufsize ab) data frames (queue_of ab) else queue_of ab.

Lemma fill_clients_ok u data frames cs : data_ok u data frames -> forall a, clients_ok u a cs ->
  exists a', fill_clients data frames cs a = Some (tt, a') /\ gClients a' = gClients a /\
    (forall p, p ∉ registered cs -> a_heap a' !! p = a_heap a !! p) /\
    forall p ab, p ∈ registered cs -> a_heap a !! p = Some ab ->
      exists ab', a_heap a' !! p = Some ab' /\ client_filled u data frames ab ab'.
Proof.
  intros D. induction cs as [|[t [p|]] cs IH]; intros a [N H]; cbn [registered omap list_omap snd] in *.
  - exists a. split_and!; try done. intros p ab I. by apply elem_of_nil in I.
  - fold (registered cs) in *. apply NoDup_cons in N as [Np N]. destruct (H p) as (ab & Ep & K); [by left|].
    destruct (fill_one_ok u data frames ab K D) as (ab1 & E1 & K1 & F1 & Q1).
    set (ab' := if client_connected ab then ab1 else ab). set (a1 := if client_connected ab then set_heap (<[p := ab1]> (a_heap a)) a else a).
    assert (fill_clients data frames ((t, Some p) :: cs) a = fill_clients data frames cs a1) as ->.
    { cbn [fill_clients]. unfold load, cbind, clift, store, cret, a1. rewrite Ep. cbn [mbind option_bind].
      destruct (client_connected ab); [by rewrite E1|done]. }
    assert (forall x, x <> p -> a_heap a1 !! x = a_heap a !! x) as Hx
      by (intros x Nx; unfold a1; destruct (client_connected ab); [by apply lookup_insert_ne|done]).
    assert (a_heap a1 !! p = Some ab') as Hp
      by (unfold a1, ab'; destruct (client_connected ab); [by apply lookup_insert_eq|done]).
    destruct (IH a1) as (a2 & E2 & G2 & O2 & C2).
    { split; [done|]. intros x Ix. rewrite Hx by (by intros ->). apply H. by right. }
    exists a2. split; [done|]. split; [rewrite G2; unfold a1; by destruct (client_connected ab)|]. split.
    + intros x Nx. rewrite O2 by (intros I; apply Nx; by right). apply Hx. intros ->. apply Nx. by left.
    + intros x abx Ix Ex. apply elem_of_cons in Ix as [->|Ix].
      * rewrite O2 by done. exists ab'. split; [done|]. rewrite Ep in Ex. injection Ex as <-.
        unfold client_filled, ab'. destruct (client_connected ab) eqn:Ec; [done|by split_and!].
      * apply C2; [done|]. rewrite Hx; [done|]. by intros ->.
  - apply IH. by split.
Qed.

Lemma registered_clients a p : p ∈ registered (clients a) <-> exists t, gClients a !! t = Some (Some p).
Proof.
  unfold registered. rewrite list_elem_of_omap. split.
  - intros ([t o] & I & E). cbn in E. subst. unfold clients in I. rewrite merge_sort_Permutation in I.
    apply elem_of_map_to_list in I. eauto.
  - intros [t E]. exists (t, Some p). split; [|done]. unfold clients. rewrite merge_sort_Permutation.
    by apply elem_of_map_to_list.
Qed.

(** Captured audio reaches every connected client and no other.  When each
    registered buffer exists, is in order and is registered once, a fill is defined;
    it appends the chunk to the queue of every connected client (or drops it whole
    where it does not fit), and leaves unconnected clients, all other buffers and the
    table alone. *)
Theorem fill_reaches_clients u data frames a :
  data_ok u data frames -> clients_ok u a (clients a) ->
  exists a', audio_source_buffer_fill data frames a = Some (tt, a') /\ gClients a' = gClients a /\
    forall p ab, a_heap a !! p = Some ab -> exists ab', a_heap a' !! p = Some ab' /\
      ((exists t, gClients a !! t = Some (Some p)) -> client_filled u data frames ab ab') /\
      ((forall t, gClients a !! t <> Some (Some p)) -> ab' = ab).
Proof.
  intros D K. destruct (fill_clients_ok u data frames (clients a) D a K) as (a' & E & G & O & C).
  exists a'. split; [done|]. split; [done|]. intros p ab Ep.
  destruct (decide (p ∈ registered (clients a))) as [I|I].
  - destruct (C p ab I Ep) as (ab' & E' & F). exists ab'. split; [done|]. split; [done|].
    intros N. apply registered_clients in I as [t It]. by destruct (N t).
  - exists ab. rewrite O by done. split; [done|]. split; [|done].
    intros T. destruct I. by apply registered_clients.
Qed.

Definition two_clients : asource :=
  {| a_heap := {[1 := full_buffer; 2 := stereo_buffer]}; gClients := {[10 := Some 2; 20 := Some 1; 30 := None]};
     gChunksize := 1; gSamplerate := 48000; gBitspersample := 16; gChannels := 2 |}.

Lemma two_clients_ok : clients_ok 4 two_clients (clients two_clients).
Proof.
  assert (registered (clients two_clients) = [2; 1]) as E by (vm_compute; reflexivity). unfold clients_ok. rewrite E. split.
  - by apply (bool_decide_unpack _).
  - intros p [->|[->|[]%elem_of_nil]%elem_of_cons]%elem_of_cons; eexists; (split; [reflexivity|]);
      [apply stereo_buffer_ok|apply full_buffer_ok].
Qed.

Lemma fill_reaches_clients_witness : exists a',
  audio_source_buffer_fill (Some [9; 9; 9; 9]) 1 two_clients = Some (tt, a') /\
  contents <$> (a_heap a' !! 2) = Some [1; 2; 3; 4; 5; 6; 7; 8; 9; 9; 9; 9] /\
  contents <$> (a_heap a' !! 1) = Some (buffer full_buffer).
Proof.
  destruct (fill_reaches_clients 4 (Some [9; 9; 9; 9]) 1 two_clients) as (a' & E & _ & F).
  - by split.
  - exact two_clients_ok.
  - exists a'. split; [exact E|].
    destruct (F 2 stereo_buffer eq_refl) as (ab2 & -> & C2 & _). destruct (F 1 full_buffer eq_refl) as (ab1 & -> & C1 & _).
    destruct (C2 ltac:(by exists 10)) as (_ & _ & Q2). destruct (C1 ltac:(by exists 20)) as (_ & _ & Q1).
    cbn. split; f_equal; [exact (f_equal q_bytes Q2)|exact (f_equal q_bytes Q1)].
Defined.

(** *** Destruction by another thread *)

Lemma fill_dangling data frames t p cs : (t, Some p) ∈ cs -> forall a, a_heap a !! p = None -> fill_clients data frames cs a = None.
Proof.
  induction cs as [|[t' o] cs IH]; intros I a Hp; [by apply elem_of_nil in I|]. cbn [fill_clients].
  apply elem_of_cons in I as [I|I].
  - injection I as <- <-. unfold cbind at 1, load. by rewrite Hp.
  - destruct o as [p'|]; [|by apply IH]. unfold cbind, load. destruct (a_heap a !! p') as [ab|] eqn:E'; [|done].
    cbn [mbind option_bind]. destruct (client_connected ab); [|by apply IH]. unfold clift.
    destruct (audio_source_buffer_fill_one data frames ab); [|done]. unfold store. apply IH; [done|]. cbn.
    rewrite lookup_insert_ne; [done|congruence].
Qed.

(** A generator destroyed by another thread leaves its freed buffer registered.
    The constructor registers the buffer under the calling thread and the destructor
    unregisters the thread that destroys: when these differ, the next captured
    chunk is written to memory that was freed. *)
Theorem destroyed_elsewhere tid tid' p mem ch rate a g a1 a2 data frames :
  generator_create tid p mem ch rate a = Some (Some g, a1) -> generator_destroy tid' g a1 = Some (tt, a2) -> tid' <> tid ->
  audio_source_buffer_fill data frames a2 = None.
Proof.
  unfold generator_create. intros (r & a3 & E1 & E)%cbind_inv Ed N. destruct r as [p'|]; [|done].
  apply cbind_inv in E as (size & a4 & E2 & E). apply cbind_inv in E as ([] & a5 & E3 & E).
  apply cbind_inv in E as (ab & a6 & E4 & E). apply cbind_inv in E as ([] & a7 & E5 & E).
  assert (gClients a7 !! tid = Some (Some p')) as Ht.
  { unfold store in E5. unfold load in E4. apply bind_Some in E4 as (? & _ & E4). unfold cmodify in E3.
    simplify_eq. cbn. apply lookup_insert_eq. }
  unfold cret in E. simplify_eq. unfold generator_destroy in Ed. apply cbind_inv in Ed as ([] & a8 & E6 & Ed).
  cbn in Ed. apply cbind_inv in Ed as (ab' & a9 & E7 & Ed).
  unfold cmodify in E6, Ed. unfold load in E7. apply bind_Some in E7 as (? & _ & E7). simplify_eq.
  unfold audio_source_buffer_fill. apply (fill_dangling _ _ tid p'); [|apply lookup_delete_eq].
  unfold clients. rewrite merge_sort_Permutation. apply elem_of_map_to_list. cbn. by rewrite lookup_delete_ne.
Qed.

Lemma destroyed_elsewhere_witness : exists a2, audio_source_buffer_fill None 1 a2 = None.
Proof.
  destruct (generator_create 5 1 (Some (repeat 0 16)) 2 300 stereo) as [[[g|] a1]|] eqn:E; [|discriminate E..].
  destruct (generator_destroy 6 g a1) as [[[] a2]|] eqn:D.
  - exists a2. exact (destroyed_elsewhere 5 6 1 (Some (repeat 0 16)) 2 300 stereo g a1 a2 None 1 E D ltac:(done)).
  - exfalso. vm_compute in E. injection E as <- <-. discriminate D.
Defined.
