(* ===== verification/VConverter.v ===== *)
(** * VConverter: the cache of frame converters

    Models [src/sources/streamer/core/vconverter.cpp].  The converters are kept in
    a [std::map] under the order [operator<] of [vconvcfg]; the map is the list of
    its entries in that order, searched and filled through the order alone.  What
    the scaling library answers to [sws_getContext] is a parameter. *)

From Stdlib Require Import ZArith Lia Sorted.
From stdpp Require Import base list.
From S2P Require Import Prelude.

Record vconvcfg := {
  src_width : Z; src_height : Z; src_fmt : Z; dst_width : Z; dst_height : Z; dst_fmt : Z
}.

#[export] Instance vconvcfg_eq_dec : EqDecision vconvcfg.
Proof. solve_decision. Defined.

(** [operator<] *)
Definition cfg_ltb (a b : vconvcfg) : bool :=
  if src_width a <? src_width b then true
  else if src_width b <? src_width a then false
  else if src_height a <? src_height b then true
  else if src_height b <? src_height a then false
  else if src_fmt a <? src_fmt b then true
  else if src_fmt b <? src_fmt a then false
  else if dst_width a <? dst_width b then true
  else if dst_width b <? dst_width a then false
  else if dst_height a <? dst_height b then true
  else if dst_height b <? dst_height a then false
  else if dst_fmt a <? dst_fmt b then true
  else if dst_fmt b <? dst_fmt a then false
  else false.

Definition cfg_lt (a b : vconvcfg) : Prop := cfg_ltb a b = true.

(** ** The map *)

Definition converters := list (vconvcfg * Z).

(** [std::map::find]: the entry that is neither smaller nor larger. *)
Fixpoint map_find (k : vconvcfg) (m : converters) : option Z :=
  match m with
  | [] => None
  | (k', v) :: m => if cfg_ltb k' k then map_find k m else if cfg_ltb k k' then None else Some v
  end.

(** [operator[]] and the assignment to its result. *)
Fixpoint map_set (k : vconvcfg) (v : Z) (m : converters) : converters :=
  match m with
  | [] => [(k, v)]
  | (k', v') :: m' =>
      if cfg_ltb k' k then (k', v') :: map_set k v m' else if cfg_ltb k k' then (k, v) :: m else (k', v) :: m'
  end.

Definition lookup_frame_converter_internal (ccfg : vconvcfg) (m : converters) : option Z := map_find ccfg m.

Definition cfg (srcw srch srcfmt dstw dsth dstfmt : Z) : vconvcfg :=
  {| src_width := srcw; src_height := srch; src_fmt := srcfmt; dst_width := dstw; dst_height := dsth; dst_fmt := dstfmt |}.

Definition lookup_frame_converter (srcw srch srcfmt dstw dsth dstfmt : Z) (m : converters) : option Z :=
  lookup_frame_converter_internal (cfg srcw srch srcfmt dstw dsth dstfmt) m.

(** The state: the map, and how often the library was asked for each converter. *)
Record vconverter := { ga_converters : converters; sws_calls : list vconvcfg }.

(** [create_frame_converter]: [sws] is the answer of [sws_getContext], if it is asked. *)
Definition create_frame_converter (sws : vconvcfg -> option Z) (srcw srch srcfmt dstw dsth dstfmt : Z) (s : vconverter)
    : option Z * vconverter :=
  let ccfg := cfg srcw srch srcfmt dstw dsth dstfmt in
  match lookup_frame_converter_internal ccfg (ga_converters s) with
  | Some ctx => (Some ctx, s)
  | None =>
      match sws ccfg with
      | None => (None, {| ga_converters := ga_converters s; sws_calls := sws_calls s ++ [ccfg] |})
      | Some ctx => (Some ctx, {| ga_converters := map_set ccfg ctx (ga_converters s); sws_calls := sws_calls s ++ [ccfg] |})
      end
  end.

(** ** The order *)

Ltac cfg_cases :=
  repeat match goal with
  | |- context [?x <? ?y] => destruct (Z.ltb_spec x y)
  | H : context [?x <? ?y] |- _ => destruct (Z.ltb_spec x y)
  end.

(** The order of the tuples. *)
Definition lex (a b : vconvcfg) : Prop :=
  src_width a < src_width b \/ src_width a = src_width b /\
  (src_height a < src_height b \/ src_height a = src_height b /\
  (src_fmt a < src_fmt b \/ src_fmt a = src_fmt b /\
  (dst_width a < dst_width b \/ dst_width a = dst_width b /\
  (dst_height a < dst_height b \/ dst_height a = dst_height b /\ dst_fmt a < dst_fmt b)))).

Lemma cfg_lt_lex a b : cfg_lt a b <-> lex a b.
Proof.
  unfold cfg_lt, cfg_ltb, lex. cfg_cases; split; intros; try done; try lia; try (intuition lia).
Qed.

Lemma lex_irrefl a : ~ lex a a.
Proof. unfold lex. lia. Qed.

Lemma lex_trans a b c : lex a b -> lex b c -> lex a c.
Proof. unfold lex. lia. Qed.

#[export] Instance cfg_lt_strict : StrictOrder cfg_lt.
Proof.
  split; [intros a H%cfg_lt_lex; by apply lex_irrefl in H|].
  intros a b c H1%cfg_lt_lex H2%cfg_lt_lex. apply cfg_lt_lex. by eapply lex_trans.
Qed.

(** Configurations the map does not tell apart are equal. *)
Lemma cfg_trichotomy a b : cfg_ltb a b = false -> cfg_ltb b a = false -> a = b.
Proof.
  intros H1 H2. assert (~ lex a b) as N1 by (rewrite <- cfg_lt_lex; unfold cfg_lt; congruence).
  assert (~ lex b a) as N2 by (rewrite <- cfg_lt_lex; unfold cfg_lt; congruence). unfold lex in N1, N2.
  destruct a, b; cbn in *. f_equal; lia.
Qed.

Lemma cfg_ltb_irrefl a : cfg_ltb a a = false.
Proof. destruct (cfg_ltb a a) eqn:E; [|done]. by destruct (irreflexivity cfg_lt a). Qed.

Lemma cfg_ltb_asym a b : cfg_ltb a b = true -> cfg_ltb b a = false.
Proof. intros E. destruct (cfg_ltb b a) eqn:F; [|done]. exfalso. apply (irreflexivity cfg_lt a). by transitivity b. Qed.

(** ** The map in order *)

Definition ordered (m : converters) : Prop := StronglySorted cfg_lt (map fst m).

Lemma find_set k v m k' : ordered m -> map_find k' (map_set k v m) = if decide (k' = k) then Some v else map_find k' m.
Proof.
  unfold ordered. induction m as [|[k1 v1] m IH]; cbn; intros S.
  - case_decide as D; [subst; by rewrite cfg_ltb_irrefl|].
    destruct (cfg_ltb k k') eqn:E1; [done|]. destruct (cfg_ltb k' k) eqn:E2; [done|]. by destruct D; apply cfg_trichotomy.
  - apply StronglySorted_inv in S as [S F]. destruct (cfg_ltb k1 k) eqn:E1; cbn.
    + destruct (cfg_ltb k1 k') eqn:E2; [by apply IH|]. case_decide as D; [subst; congruence|done].
    + destruct (cfg_ltb k k1) eqn:E2; cbn.
      * case_decide as D; [subst; by rewrite cfg_ltb_irrefl|].
        destruct (cfg_ltb k k') eqn:E3; [done|]. destruct (cfg_ltb k' k) eqn:E4; [|by destruct D; apply cfg_trichotomy].
        assert (cfg_lt k' k1) as L by (by transitivity k). rewrite (cfg_ltb_asym _ _ L).
        unfold cfg_lt in L. by rewrite L.
      * assert (k1 = k) as -> by (by apply cfg_trichotomy). case_decide as D; [subst; by rewrite cfg_ltb_irrefl|].
        destruct (cfg_ltb k k') eqn:E3; [done|]. destruct (cfg_ltb k' k) eqn:E4; [done|]. by destruct D; apply cfg_trichotomy.
Qed.

Lemma set_keys k v m k' : k' ∈ map fst (map_set k v m) -> k' = k \/ k' ∈ map fst m.
Proof.
  induction m as [|[k1 v1] m IH]; cbn; [intros [->|[]%elem_of_nil]%elem_of_cons; by left|].
  destruct (cfg_ltb k1 k); [|destruct (cfg_ltb k k1)]; cbn; intros I; rewrite ?elem_of_cons in *; tauto.
Qed.

Lemma set_ordered k v m : ordered m -> ordered (map_set k v m).
Proof.
  unfold ordered. induction m as [|[k1 v1] m IH]; cbn; intros S; [repeat constructor|].
  apply StronglySorted_inv in S as [S F]. destruct (cfg_ltb k1 k) eqn:E1; [|destruct (cfg_ltb k k1) eqn:E2]; cbn.
  - constructor; [by apply IH|]. apply Forall_forall. intros x I. apply set_keys in I as [->|I]; [done|].
    rewrite Forall_forall in F. by apply F.
  - constructor; [by constructor|]. constructor; [done|]. rewrite Forall_forall in *. intros x I. by transitivity k1; [|apply F].
  - by constructor.
Qed.

(** ** Requests *)

(** A request, and what the library would answer to it. *)
Definition request : Type := vconvcfg * option Z.

Definition create (r : request) (s : vconverter) : option Z * vconverter :=
  let k := r.1 in
  create_frame_converter (fun _ => r.2) (src_width k) (src_height k) (src_fmt k) (dst_width k) (dst_height k) (dst_fmt k) s.

Fixpoint create_all (rs : list request) (s : vconverter) : list (option Z) * vconverter :=
  match rs with
  | [] => ([], s)
  | r :: rs => let '(o, s) := create r s in let '(os, s) := create_all rs s in (o :: os, s)
  end.

(** The reference: the first answer the library gave for a configuration. *)
Definition first_answer (k : vconvcfg) (rs : list request) : option Z :=
  head (omap (fun r => if decide (r.1 = k) then r.2 else None) rs).

Fixpoint first_answers (before rs : list request) : list (option Z) :=
  match rs with [] => [] | r :: rs => first_answer r.1 (before ++ [r]) :: first_answers (before ++ [r]) rs end.

(** The library is asked only for what it has not yet made. *)
Definition asked_for (before : list request) (r : request) : list vconvcfg :=
  match first_answer r.1 before with Some _ => [] | None => [r.1] end.
Fixpoint asked (before rs : list request) : list vconvcfg :=
  match rs with [] => [] | r :: rs => asked_for before r ++ asked (before ++ [r]) rs end.

Definition cached (before : list request) (s : vconverter) : Prop :=
  ordered (ga_converters s) /\ forall k, map_find k (ga_converters s) = first_answer k before.

Lemma first_answer_snoc k rs r : first_answer k (rs ++ [r]) =
  match first_answer k rs with Some v => Some v | None => if decide (r.1 = k) then r.2 else None end.
Proof.
  unfold first_answer. induction rs as [|x rs IH]; cbn; [case_decide; [by destruct r.2|done]|].
  destruct (decide (x.1 = k)); [destruct x.2; [done|apply IH]|apply IH].
Qed.

Lemma create_cached before r s o s' : cached before s -> create r s = (o, s') ->
  cached (before ++ [r]) s' /\ o = first_answer r.1 (before ++ [r]) /\
  sws_calls s' = sws_calls s ++ asked_for before r.
Proof.
  intros [O F]. unfold asked_for, create, create_frame_converter, lookup_frame_converter_internal.
  replace (cfg _ _ _ _ _ _) with r.1 by (by destruct r as [[] ?]). rewrite F, first_answer_snoc, decide_True by done.
  assert (forall k, first_answer k (before ++ [r]) =
    match first_answer k before with Some v => Some v | None => if decide (r.1 = k) then r.2 else None end) as S
    by (intros; apply first_answer_snoc).
  destruct (first_answer r.1 before) as [v|] eqn:E.
  - intros [= <- <-]. split; [split; [done|]|by rewrite app_nil_r]. intros k. rewrite S, F.
    case_decide; [subst; by rewrite E|by destruct (first_answer k before)].
  - destruct r.2 as [v|] eqn:Er; intros [= <- <-]; (split; [|done]); (split; [by try apply set_ordered|]); intros k;
      cbn [ga_converters]; rewrite ?find_set by done; rewrite S, F.
    + case_decide; [subst; rewrite E; by rewrite decide_True|]. rewrite decide_False by done. by destruct (first_answer k before).
    + destruct (first_answer k before); [done|]. by case_decide.
Qed.

Lemma create_all_cached rs : forall before s os s', cached before s -> create_all rs s = (os, s') ->
  cached (before ++ rs) s' /\ os = first_answers before rs /\ sws_calls s' = sws_calls s ++ asked before rs.
Proof.
  induction rs as [|r rs IH]; intros before s os s' K E; cbn in E; [simplify_eq; by rewrite !app_nil_r|].
  destruct (create r s) as [o s1] eqn:E1. destruct (create_all rs s1) as [os1 s2] eqn:E2. simplify_eq.
  destruct (create_cached before r s o s1 K E1) as (K1 & -> & C1).
  destruct (IH _ _ _ _ K1 E2) as (K2 & -> & C2).
  rewrite <- app_assoc in K2. split; [done|]. split; [done|]. cbn. by rewrite C2, C1, app_assoc.
Qed.

(** Converters are created once and found again.  From an empty cache, any
    sequence of requests gives what a cache keyed by equality gives, although the map
    only knows the order of the configurations: each request is answered with the
    converter the library first made for exactly that configuration, a failure is not
    remembered, the library is not asked again for what it made, and lookups afterwards find these converters and no others.  The
    order behind the map is strict and tells all configurations apart. *)
Theorem converters_cached rs calls :
  let '(os, s) := create_all rs {| ga_converters := []; sws_calls := calls |} in
  os = first_answers [] rs /\ sws_calls s = calls ++ asked [] rs /\
  forall srcw srch srcfmt dstw dsth dstfmt,
    lookup_frame_converter srcw srch srcfmt dstw dsth dstfmt (ga_converters s)
    = first_answer (cfg srcw srch srcfmt dstw dsth dstfmt) rs.
Proof.
  destruct (create_all _ _) as [os s] eqn:E.
  destruct (create_all_cached rs [] {| ga_converters := []; sws_calls := calls |} os s) as ([_ F] & -> & C).
  - split; [constructor|done].
  - done.
  - split; [done|]. split; [exact C|]. intros. apply F.
Qed.
