(* ===== verification/EncoderCommon.v ===== *)
(** * EncoderCommon: encoder modules and their clients

    Models [src/sources/streamer/core/encoder-common.cpp]: the registered
    encoder modules and sink server, and the registration of clients, which
    starts the encoders with the first client and stops them with the last.
    The [encoder_lock] makes each registration one atomic step.  What a module
    callback returns is an argument of the model; every call is recorded. *)

From Stdlib Require Import ZArith Lia.
From stdpp Require Import base gmap sets list relations.
From S2P Require Import Prelude.

(** ** Modules and calls *)

(** The callbacks of a [ga_module_t] that are not NULL. *)
Record ga_module_t := {
  m_name : Z;
  m_init : bool; m_start : bool; m_stop : bool; m_deinit : bool; m_send_packet : bool
}.

Inductive phase := PInit | PStart | PStop | PDeinit.

(** A call of a module callback with its parameter. *)
Record mcall := { mc_module : Z; mc_phase : phase; mc_param : Z }.

#[export] Instance phase_eq_dec : EqDecision phase.
Proof. solve_decision. Defined.

Record estate := {
  encoder_clients : gset Z;
  threadLaunched : bool;
  sync_reset : bool;
  vencoder : option ga_module_t; aencoder : option ga_module_t; sinkserver : option ga_module_t;
  vencoder_param : Z; aencoder_param : Z;
  calls : list mcall
}.

(** A function returns, or the process exits. *)
Inductive outcome := Return (r : Z) | Exit.

Definition set_clients (c : gset Z) (s : estate) : estate :=
  {| encoder_clients := c; threadLaunched := threadLaunched s; sync_reset := sync_reset s;
     vencoder := vencoder s; aencoder := aencoder s; sinkserver := sinkserver s;
     vencoder_param := vencoder_param s; aencoder_param := aencoder_param s; calls := calls s |}.

Definition set_launched (l : bool) (s : estate) : estate :=
  {| encoder_clients := encoder_clients s; threadLaunched := l; sync_reset := sync_reset s;
     vencoder := vencoder s; aencoder := aencoder s; sinkserver := sinkserver s;
     vencoder_param := vencoder_param s; aencoder_param := aencoder_param s; calls := calls s |}.

Definition set_sync (l : bool) (s : estate) : estate :=
  {| encoder_clients := encoder_clients s; threadLaunched := threadLaunched s; sync_reset := l;
     vencoder := vencoder s; aencoder := aencoder s; sinkserver := sinkserver s;
     vencoder_param := vencoder_param s; aencoder_param := aencoder_param s; calls := calls s |}.

Definition add_call (c : mcall) (s : estate) : estate :=
  {| encoder_clients := encoder_clients s; threadLaunched := threadLaunched s;
     sync_reset := sync_reset s;
     vencoder := vencoder s; aencoder := aencoder s; sinkserver := sinkserver s;
     vencoder_param := vencoder_param s; aencoder_param := aencoder_param s;
     calls := calls s ++ [c] |}.

(** ** Registration of modules *)

Definition encoder_running (s : estate) : Z := if threadLaunched s then 1 else 0.

Definition encoder_register_vencoder (m : ga_module_t) (param : Z) (s : estate) : Z * estate :=
  (0, {| encoder_clients := encoder_clients s; threadLaunched := threadLaunched s;
         sync_reset := sync_reset s;
         vencoder := Some m; aencoder := aencoder s; sinkserver := sinkserver s;
         vencoder_param := param; aencoder_param := aencoder_param s; calls := calls s |}).

Definition encoder_register_aencoder (m : ga_module_t) (param : Z) (s : estate) : Z * estate :=
  (0, {| encoder_clients := encoder_clients s; threadLaunched := threadLaunched s;
         sync_reset := sync_reset s;
         vencoder := vencoder s; aencoder := Some m; sinkserver := sinkserver s;
         vencoder_param := vencoder_param s; aencoder_param := param; calls := calls s |}).

Definition encoder_register_sinkserver (m : ga_module_t) (s : estate) : Z * estate :=
  if negb (m_send_packet m) then (-1, s)
  else (0, {| encoder_clients := encoder_clients s; threadLaunched := threadLaunched s;
              sync_reset := sync_reset s;
              vencoder := vencoder s; aencoder := aencoder s; sinkserver := Some m;
              vencoder_param := vencoder_param s; aencoder_param := aencoder_param s;
              calls := calls s |}).

Definition encoder_get_vencoder (s : estate) : option ga_module_t := vencoder s.
Definition encoder_get_aencoder (s : estate) : option ga_module_t := aencoder s.
Definition encoder_get_sinkserver (s : estate) : option ga_module_t := sinkserver s.

(** ** Clients *)

Section clients.
(** What a callback returns. *)
Context (ret : mcall -> Z).

(** [if(m != NULL && m->f != NULL) m->f(param)]: the new state and whether the
    result was negative. *)
Definition call_opt (m : option ga_module_t) (f : ga_module_t -> bool) (p : phase) (param : Z)
    (s : estate) : bool * estate :=
  match m with
  | Some m =>
      if f m then
        let c := {| mc_module := m_name m; mc_phase := p; mc_param := param |} in
        (ret c <? 0, add_call c s)
      else (false, s)
  | None => (false, s)
  end.

Definition encoder_register_client (rtsp : Z) (s : estate) : outcome * estate :=
  let add s := (Return 0, set_clients ({[rtsp]} ∪ encoder_clients s) s) in
  if (size (encoder_clients s) =? 0)%nat then
    let '(e, s) := call_opt (vencoder s) m_init PInit (vencoder_param s) s in
    if e : bool then (Exit, s) else
    let '(e, s) := call_opt (aencoder s) m_init PInit (aencoder_param s) s in
    if e : bool then (Exit, s) else
    let s := set_launched true s in
    let '(e, s) := call_opt (vencoder s) m_start PStart (vencoder_param s) s in
    if e : bool then (Exit, set_launched false s) else
    let '(e, s) := call_opt (aencoder s) m_start PStart (aencoder_param s) s in
    if e : bool then (Exit, set_launched false s) else
    add s
  else add s.

(** [ENABLE_AUDIO] is defined in [ga-common.h]. *)
Definition encoder_unregister_client (rtsp : Z) (s : estate) : outcome * estate :=
  let s := set_clients (encoder_clients s ∖ {[rtsp]}) s in
  if (size (encoder_clients s) =? 0)%nat then
    let s := set_launched false s in
    let '(_, s) := call_opt (vencoder s) m_stop PStop (vencoder_param s) s in
    let '(_, s) := call_opt (vencoder s) m_deinit PDeinit (vencoder_param s) s in
    let '(_, s) := call_opt (aencoder s) m_stop PStop (aencoder_param s) s in
    let '(_, s) := call_opt (aencoder s) m_deinit PDeinit (aencoder_param s) s in
    (Return 0, set_sync true s)
  else (Return 0, s).

(** The packet goes to the sink server; [send] is what its callback returns. *)
Definition encoder_send_packet (send : ga_module_t -> Z) (s : estate) : Z :=
  match sinkserver s with Some m => send m | None => -1 end.

(** ** The life cycle of a module *)

Inductive life := Idle | Ready | Running | Stopped | Misused.

(** A module is initialised, started, stopped, deinitialised, and so on; any
    other order is a misuse. *)
Definition life_step (l : life) (p : phase) : life :=
  match l, p with
  | Idle, PInit => Ready
  | Ready, PStart => Running
  | Running, PStop => Stopped
  | Stopped, PDeinit => Idle
  | _, _ => Misused
  end.

(** The state of module [id] after the recorded calls. *)
Definition life_of (id : Z) (cs : list mcall) : life :=
  fold_left (fun l c => if mc_module c =? id then life_step l (mc_phase c) else l) cs Idle.

(** Clients come and go; only registered clients leave. *)
Inductive client_step : estate -> estate -> Prop :=
  | cs_register c s s' :
      encoder_register_client c s = (Return 0, s') -> client_step s s'
  | cs_unregister c s s' :
      c ∈ encoder_clients s -> encoder_unregister_client c s = (Return 0, s') -> client_step s s'.

(** All callbacks of a module are implemented. *)
Definition complete (m : ga_module_t) : Prop :=
  m_init m = true /\ m_start m = true /\ m_stop m = true /\ m_deinit m = true.

(** The encoders of the process: two complete modules with different names. *)
Definition modules_ok (s : estate) : Prop :=
  exists v a, vencoder s = Some v /\ aencoder s = Some a /\ complete v /\ complete a /\
    m_name v <> m_name a.

Definition expected (s : estate) : life :=
  if decide (encoder_clients s = ∅) then Idle else Running.

Definition enc_inv (s : estate) : Prop :=
  modules_ok s /\ threadLaunched s = bool_decide (encoder_clients s <> ∅) /\
  forall m, vencoder s = Some m \/ aencoder s = Some m -> life_of (m_name m) (calls s) = expected s.

Lemma size_empty_b (X : gset Z) : (size X =? 0)%nat = bool_decide (X = ∅).
Proof.
  case_bool_decide as H; [subst; by rewrite size_empty|].
  apply Nat.eqb_neq. intros E. apply H. apply size_empty_inv in E. set_solver.
Qed.

Lemma life_of_app id cs c :
  life_of id (cs ++ [c]) =
    if mc_module c =? id then life_step (life_of id cs) (mc_phase c) else life_of id cs.
Proof. unfold life_of. by rewrite fold_left_app. Qed.

(** The effect of one lifetime half on the call log. *)
Lemma life_of_two id1 id2 cs p1 p2 q1 q2 :
  id1 <> id2 ->
  forall a b, a = id1 \/ a = id2 -> b = life_of a cs ->
  life_of a (((((cs ++ [{| mc_module := id1; mc_phase := p1; mc_param := q1 |}])
     ++ [{| mc_module := id2; mc_phase := p1; mc_param := q2 |}])
     ++ [{| mc_module := id1; mc_phase := p2; mc_param := q1 |}])
     ++ [{| mc_module := id2; mc_phase := p2; mc_param := q2 |}])) =
  life_step (life_step b p1) p2.
Proof.
  intros Hne a b [->| ->] ->; rewrite !life_of_app; simpl;
    rewrite !Z.eqb_refl, ?(proj2 (Z.eqb_neq id1 id2)), ?(proj2 (Z.eqb_neq id2 id1)) by congruence; done.
Qed.

Lemma life_of_pairs id1 id2 cs p1 p2 q1 q2 :
  id1 <> id2 ->
  forall a b, a = id1 \/ a = id2 -> b = life_of a cs ->
  life_of a (((((cs ++ [{| mc_module := id1; mc_phase := p1; mc_param := q1 |}])
     ++ [{| mc_module := id1; mc_phase := p2; mc_param := q1 |}])
     ++ [{| mc_module := id2; mc_phase := p1; mc_param := q2 |}])
     ++ [{| mc_module := id2; mc_phase := p2; mc_param := q2 |}])) =
  life_step (life_step b p1) p2.
Proof.
  intros Hne a b [->| ->] ->; rewrite !life_of_app; simpl;
    rewrite !Z.eqb_refl, ?(proj2 (Z.eqb_neq id1 id2)), ?(proj2 (Z.eqb_neq id2 id1)) by congruence; done.
Qed.

Lemma enc_inv_register c s s' :
  enc_inv s -> encoder_register_client c s = (Return 0, s') -> enc_inv s'.
Proof.
  intros ((v & a & Ev & Ea & Cv & Ca & Hne) & Hl & Hlife) E.
  unfold encoder_register_client in E. rewrite size_empty_b in E.
  assert (Hc : {[c]} ∪ encoder_clients s <> ∅) by set_solver.
  case_bool_decide as Hempty.
  - pose proof Cv as (V1 & V2 & _). pose proof Ca as (A1 & A2 & _).
    unfold call_opt in E.
    repeat (progress (rewrite ?Ev, ?Ea, ?V1, ?V2, ?A1, ?A2 in E; simpl in E) || split_match_in E);
      simplify_eq.
    split; [by exists v, a|]. split; [symmetry; by apply bool_decide_true|].
    intros m Hm. unfold expected. simpl. rewrite decide_False by done.
    assert (Hid : m_name m = m_name v \/ m_name m = m_name a)
      by (simpl in Hm; destruct Hm as [Hm|Hm]; [left|right]; congruence).
    rewrite (life_of_two _ _ _ PInit PStart _ _ Hne _ Idle Hid); [done|].
    symmetry. rewrite (Hlife m) by (simpl in Hm; naive_solver). unfold expected.
    by rewrite decide_True.
  - simplify_eq. split; [by exists v, a|]. split; simpl.
    + rewrite Hl. rewrite !bool_decide_true by done. done.
    + intros m Hm. rewrite (Hlife m Hm). unfold expected. simpl. by rewrite !decide_False.
Qed.

Lemma enc_inv_unregister c s s' :
  enc_inv s -> c ∈ encoder_clients s -> encoder_unregister_client c s = (Return 0, s') -> enc_inv s'.
Proof.
  intros ((v & a & Ev & Ea & Cv & Ca & Hne) & Hl & Hlife) Hin E.
  unfold encoder_unregister_client in E. rewrite size_empty_b in E. simpl in E.
  assert (Hs : encoder_clients s <> ∅) by set_solver.
  assert (Hold : forall m, vencoder s = Some m \/ aencoder s = Some m ->
    life_of (m_name m) (calls s) = Running).
  { intros m Hm. rewrite (Hlife m Hm). unfold expected. by rewrite decide_False. }
  case_bool_decide as Hempty.
  - pose proof Cv as (_ & _ & V1 & V2). pose proof Ca as (_ & _ & A1 & A2).
    unfold call_opt in E.
    repeat (progress (rewrite ?Ev, ?Ea, ?V1, ?V2, ?A1, ?A2 in E; simpl in E)). simplify_eq.
    split; [by exists v, a|]. split; [simpl; symmetry; apply bool_decide_false; tauto|].
    intros m Hm. unfold expected. simpl. rewrite decide_True by done.
    assert (Hid : m_name m = m_name v \/ m_name m = m_name a)
      by (simpl in Hm; destruct Hm as [Hm|Hm]; [left|right]; congruence).
    rewrite (life_of_pairs _ _ _ PStop PDeinit _ _ Hne _ Running Hid); [done|].
    symmetry. apply Hold. simpl in Hm. naive_solver.
  - simplify_eq. split; [by exists v, a|]. split; simpl.
    + rewrite Hl, !bool_decide_true by done. done.
    + intros m Hm. rewrite (Hold m Hm). unfold expected. simpl. by rewrite decide_False.
Qed.

(** The start: modules registered, no client yet. *)
Definition enc_start (s : estate) : Prop :=
  modules_ok s /\ encoder_clients s = ∅ /\ threadLaunched s = false /\ calls s = [].

Lemma enc_inv_start s : enc_start s -> enc_inv s.
Proof.
  intros (Hm & Hc & Hl & Hx). split; [done|]. rewrite Hl, Hc, Hx.
  split; [by rewrite bool_decide_false by tauto|]. intros m _. unfold expected. by rewrite Hc.
Qed.

Lemma enc_inv_step s s' : client_step s s' -> enc_inv s -> enc_inv s'.
Proof.
  destruct 1; intros; [by eapply enc_inv_register|by eapply enc_inv_unregister].
Qed.

(** ** Properties *)

(** C31. The encoders run exactly while there are clients.  For two complete
    encoder modules and any interleaving of clients registering (with callbacks
    that succeed) and registered clients unregistering: after every step the
    "launched" flag is set exactly when some client is registered, and each
    module has gone through its callbacks in the order init, start, stop,
    deinit, is running exactly while some client is registered, and is
    deinitialised otherwise; no callback is ever called twice or out of order. *)
Theorem encoder_runs_with_clients s s' :
  enc_start s -> rtc client_step s s' ->
  threadLaunched s' = bool_decide (encoder_clients s' <> ∅) /\
  forall m, vencoder s' = Some m \/ aencoder s' = Some m ->
    life_of (m_name m) (calls s') = if decide (encoder_clients s' = ∅) then Idle else Running.
Proof.
  intros H0 Hr. apply enc_inv_start in H0.
  assert (Hi : enc_inv s') by (induction Hr; eauto using enc_inv_step).
  destruct Hi as (_ & H1 & H2). split; [done|]. exact H2.
Qed.
End clients.

Definition demo_module (n : Z) : ga_module_t :=
  {| m_name := n; m_init := true; m_start := true; m_stop := true; m_deinit := true;
     m_send_packet := false |}.

Definition demo_estate : estate :=
  {| encoder_clients := ∅; threadLaunched := false; sync_reset := true;
     vencoder := Some (demo_module 1); aencoder := Some (demo_module 2); sinkserver := None;
     vencoder_param := 0; aencoder_param := 0; calls := [] |}.

Lemma encoder_runs_with_clients_witness :
  let s := snd (encoder_register_client (fun _ => 0) 7 demo_estate) in
  threadLaunched s = bool_decide (encoder_clients s <> ∅) /\
  forall m, vencoder s = Some m \/ aencoder s = Some m ->
    life_of (m_name m) (calls s) = if decide (encoder_clients s = ∅) then Idle else Running.
Proof.
  apply (encoder_runs_with_clients (fun _ => 0) demo_estate).
  - split; [|done]. by exists (demo_module 1), (demo_module 2).
  - apply rtc_once. apply (cs_register _ 7). reflexivity.
Defined.

(** Unregistering with no client left stops the encoders again: on
    a state without clients, [encoder_unregister_client] of any pointer calls
    stop and deinit of modules that are not running, which breaks their life
    cycle. *)
Theorem encoder_unregister_unknown ret s v c :
  encoder_clients s = ∅ -> vencoder s = Some v -> complete v ->
  life_of (m_name v) (calls s) = Idle ->
  exists s', encoder_unregister_client ret c s = (Return 0, s') /\
    life_of (m_name v) (calls s') = Misused.
Proof.
  intros Hc Ev (V1 & V2 & V3 & V4) Hl. unfold encoder_unregister_client.
  rewrite size_empty_b. simpl. rewrite bool_decide_true by set_solver.
  assert (Hm : forall cs, life_of (m_name v) cs = Misused -> forall x,
    life_of (m_name v) (cs ++ [x]) = Misused).
  { intros cs Hx x. rewrite life_of_app, Hx. by destruct (mc_module x =? m_name v). }
  unfold call_opt. simpl. repeat (progress (rewrite ?Ev, ?V3, ?V4; simpl)).
  assert (H1 : life_of (m_name v) (calls s ++
    [{| mc_module := m_name v; mc_phase := PStop; mc_param := vencoder_param s |}]) = Misused).
  { rewrite life_of_app. simpl. by rewrite Z.eqb_refl, Hl. }
  destruct (aencoder s) as [m|] eqn:Ea; simpl; rewrite ?Ea; simpl;
    [destruct (m_stop m); simpl; rewrite ?Ea; simpl; destruct (m_deinit m); simpl|];
    eexists; (split; [reflexivity|]); simpl; auto 10.
Qed.

Lemma encoder_unregister_unknown_witness :
  exists s', encoder_unregister_client (fun _ => 0) 7 demo_estate = (Return 0, s') /\
    life_of 1 (calls s') = Misused.
Proof.
  apply (encoder_unregister_unknown (fun _ => 0) demo_estate (demo_module 1) 7); done.
Defined.
