(* ===== verification/SdlKeys.v ===== *)
(** * SdlKeys: from key codes of the client to virtual keys

    Models the key map of [src/sources/streamer/module/ctrl-sdl/ctrl-sdl.cpp]
    ([SDLKeyToKeySym_init], [SDLKeyToKeySym]).  The numbers of the key codes come
    from the headers of SDL and those of the virtual keys from the headers of the
    system; both are parameters. *)

From Stdlib Require Import ZArith Lia.
From stdpp Require Import base gmap list.
From S2P Require Import Prelude.

(** ** Names *)

Inductive sdl_key :=
  | SDLK_SCROLLLOCK | SDLK_PRINTSCREEN | SDLK_BACKSPACE | SDLK_TAB | SDLK_CLEAR | SDLK_RETURN | SDLK_PAUSE
  | SDLK_ESCAPE | SDLK_SPACE | SDLK_QUOTEDBL | SDLK_QUOTE | SDLK_PLUS | SDLK_COMMA | SDLK_MINUS | SDLK_PERIOD
  | SDLK_SLASH | SDLK_COLON | SDLK_SEMICOLON | SDLK_LESS | SDLK_EQUALS | SDLK_GREATER | SDLK_QUESTION
  | SDLK_LEFTBRACKET | SDLK_BACKSLASH | SDLK_RIGHTBRACKET | SDLK_UNDERSCORE | SDLK_BACKQUOTE | SDLK_DELETE
  | SDLK_KP_0 | SDLK_KP_1 | SDLK_KP_2 | SDLK_KP_3 | SDLK_KP_4 | SDLK_KP_5 | SDLK_KP_6 | SDLK_KP_7 | SDLK_KP_8
  | SDLK_KP_9 | SDLK_KP_PERIOD | SDLK_KP_DIVIDE | SDLK_KP_MULTIPLY | SDLK_KP_MINUS | SDLK_KP_PLUS
  | SDLK_KP_ENTER | SDLK_UP | SDLK_DOWN | SDLK_RIGHT | SDLK_LEFT | SDLK_INSERT | SDLK_HOME | SDLK_END
  | SDLK_PAGEUP | SDLK_PAGEDOWN | SDLK_F1 | SDLK_F2 | SDLK_F3 | SDLK_F4 | SDLK_F5 | SDLK_F6 | SDLK_F7 | SDLK_F8
  | SDLK_F9 | SDLK_F10 | SDLK_F11 | SDLK_F12 | SDLK_F13 | SDLK_F14 | SDLK_F15 | SDLK_NUMLOCKCLEAR
  | SDLK_CAPSLOCK | SDLK_RSHIFT | SDLK_LSHIFT | SDLK_RCTRL | SDLK_LCTRL | SDLK_RALT | SDLK_LALT | SDLK_RGUI
  | SDLK_LGUI | SDLK_MODE | SDLK_HELP | SDLK_MENU.

Inductive vk_code :=
  | VK_SCROLL | VK_SNAPSHOT | VK_BACK | VK_TAB | VK_CLEAR | VK_RETURN | VK_PAUSE | VK_ESCAPE | VK_SPACE
  | VK_OEM_7 | VK_OEM_PLUS | VK_OEM_COMMA | VK_OEM_MINUS | VK_OEM_PERIOD | VK_OEM_2 | VK_OEM_1 | VK_OEM_4
  | VK_OEM_5 | VK_OEM_6 | VK_OEM_3 | VK_DELETE | VK_NUMPAD0 | VK_NUMPAD1 | VK_NUMPAD2 | VK_NUMPAD3 | VK_NUMPAD4
  | VK_NUMPAD5 | VK_NUMPAD6 | VK_NUMPAD7 | VK_NUMPAD8 | VK_NUMPAD9 | VK_DECIMAL | VK_DIVIDE | VK_MULTIPLY
  | VK_SUBTRACT | VK_ADD | VK_UP | VK_DOWN | VK_RIGHT | VK_LEFT | VK_INSERT | VK_HOME | VK_END | VK_PRIOR
  | VK_NEXT | VK_F1 | VK_F2 | VK_F3 | VK_F4 | VK_F5 | VK_F6 | VK_F7 | VK_F8 | VK_F9 | VK_F10 | VK_F11 | VK_F12
  | VK_F13 | VK_F14 | VK_F15 | VK_NUMLOCK | VK_CAPITAL | VK_RSHIFT | VK_LSHIFT | VK_RCONTROL | VK_LCONTROL
  | VK_RMENU | VK_LMENU | VK_RWIN | VK_LWIN | VK_MODECHANGE | VK_HELP | VK_MENU.

Definition keymap_first : list (sdl_key * vk_code) :=
  [(SDLK_SCROLLLOCK, VK_SCROLL); (SDLK_PRINTSCREEN, VK_SNAPSHOT); (SDLK_BACKSPACE, VK_BACK); (SDLK_TAB, VK_TAB);
  (SDLK_CLEAR, VK_CLEAR); (SDLK_RETURN, VK_RETURN); (SDLK_PAUSE, VK_PAUSE); (SDLK_ESCAPE, VK_ESCAPE);
  (SDLK_SPACE, VK_SPACE); (SDLK_QUOTEDBL, VK_OEM_7); (SDLK_QUOTE, VK_OEM_7); (SDLK_PLUS, VK_OEM_PLUS);
  (SDLK_COMMA, VK_OEM_COMMA); (SDLK_MINUS, VK_OEM_MINUS); (SDLK_PERIOD, VK_OEM_PERIOD); (SDLK_SLASH, VK_OEM_2);
  (SDLK_COLON, VK_OEM_1); (SDLK_SEMICOLON, VK_OEM_1); (SDLK_LESS, VK_OEM_COMMA); (SDLK_EQUALS, VK_OEM_PLUS);
  (SDLK_GREATER, VK_OEM_PERIOD); (SDLK_QUESTION, VK_OEM_2); (SDLK_LEFTBRACKET, VK_OEM_4);
  (SDLK_BACKSLASH, VK_OEM_5); (SDLK_RIGHTBRACKET, VK_OEM_6); (SDLK_UNDERSCORE, VK_OEM_MINUS);
  (SDLK_BACKQUOTE, VK_OEM_3)].

Definition keymap_third : list (sdl_key * vk_code) :=
  [(SDLK_DELETE, VK_DELETE); (SDLK_KP_0, VK_NUMPAD0); (SDLK_KP_1, VK_NUMPAD1); (SDLK_KP_2, VK_NUMPAD2);
  (SDLK_KP_3, VK_NUMPAD3); (SDLK_KP_4, VK_NUMPAD4); (SDLK_KP_5, VK_NUMPAD5); (SDLK_KP_6, VK_NUMPAD6);
  (SDLK_KP_7, VK_NUMPAD7); (SDLK_KP_8, VK_NUMPAD8); (SDLK_KP_9, VK_NUMPAD9); (SDLK_KP_PERIOD, VK_DECIMAL);
  (SDLK_KP_DIVIDE, VK_DIVIDE); (SDLK_KP_MULTIPLY, VK_MULTIPLY); (SDLK_KP_MINUS, VK_SUBTRACT);
  (SDLK_KP_PLUS, VK_ADD); (SDLK_KP_ENTER, VK_RETURN); (SDLK_UP, VK_UP); (SDLK_DOWN, VK_DOWN);
  (SDLK_RIGHT, VK_RIGHT); (SDLK_LEFT, VK_LEFT); (SDLK_INSERT, VK_INSERT); (SDLK_HOME, VK_HOME);
  (SDLK_END, VK_END); (SDLK_PAGEUP, VK_PRIOR); (SDLK_PAGEDOWN, VK_NEXT); (SDLK_F1, VK_F1); (SDLK_F2, VK_F2);
  (SDLK_F3, VK_F3); (SDLK_F4, VK_F4); (SDLK_F5, VK_F5); (SDLK_F6, VK_F6); (SDLK_F7, VK_F7); (SDLK_F8, VK_F8);
  (SDLK_F9, VK_F9); (SDLK_F10, VK_F10); (SDLK_F11, VK_F11); (SDLK_F12, VK_F12); (SDLK_F13, VK_F13);
  (SDLK_F14, VK_F14); (SDLK_F15, VK_F15); (SDLK_NUMLOCKCLEAR, VK_NUMLOCK); (SDLK_CAPSLOCK, VK_CAPITAL);
  (SDLK_SCROLLLOCK, VK_SCROLL); (SDLK_RSHIFT, VK_RSHIFT); (SDLK_LSHIFT, VK_LSHIFT); (SDLK_RCTRL, VK_RCONTROL);
  (SDLK_LCTRL, VK_LCONTROL); (SDLK_RALT, VK_RMENU); (SDLK_LALT, VK_LMENU); (SDLK_RGUI, VK_RWIN);
  (SDLK_LGUI, VK_LWIN); (SDLK_MODE, VK_MODECHANGE); (SDLK_HELP, VK_HELP); (SDLK_MENU, VK_MENU)].

#[export] Instance sdl_key_eq_dec : EqDecision sdl_key.
Proof. solve_decision. Defined.

Definition INVALID_KEY : Z := 65535.

(** ** The map *)

Section Keys.
Context (SDLK : sdl_key -> Z) (VK : vk_code -> Z).

Definition set_keys (l : list (sdl_key * vk_code)) (m : gmap Z Z) : gmap Z Z :=
  fold_left (fun m kv => <[SDLK kv.1 := VK kv.2]> m) l m.
Definition set_chars (f : Z -> Z) (l : list Z) (m : gmap Z Z) : gmap Z Z :=
  fold_left (fun m i => <[i := f i]> m) l m.

Record keys := { keymap : gmap Z Z; keymap_initialized : bool }.

Definition SDLKeyToKeySym_init (k : keys) : keys :=
  let m := set_keys keymap_first (keymap k) in
  let m := set_chars (fun i => i) (seqZ 48 10) m in
  let m := set_chars (fun i => Z.land i 223) (seqZ 97 26) m in
  {| keymap := set_keys keymap_third m; keymap_initialized := true |}.

Definition SDLKeyToKeySym (sdlkey : Z) (k : keys) : Z * keys :=
  let k := if keymap_initialized k then k else SDLKeyToKeySym_init k in
  (match keymap k !! sdlkey with Some v => v | None => INVALID_KEY end, k).

(** ** What the map holds *)

(** The documented key codes: all different, and none of them a digit or a small letter. *)
Class SdlCodes : Prop := {
  SDLK_inj :: Inj (=) (=) SDLK;
  SDLK_chars : forall k, (SDLK k ∉ seqZ 48 10) /\ (SDLK k ∉ seqZ 97 26)
}.
Context `{!SdlCodes}.

Lemma set_chars_lookup f l : forall m x, NoDup l ->
  set_chars f l m !! x = if decide (x ∈ l) then Some (f x) else m !! x.
Proof.
  induction l as [|i l IH]; intros m x N; cbn; [by rewrite decide_False by apply not_elem_of_nil|].
  apply NoDup_cons in N as [Ni N]. unfold set_chars in IH. rewrite IH by done. destruct (decide (x = i)) as [->|Nx].
  - rewrite decide_False by done. rewrite decide_True by left. apply lookup_insert_eq.
  - rewrite lookup_insert_ne by done. destruct (decide (x ∈ l)) as [I|I].
    + by rewrite decide_True by (by right).
    + rewrite decide_False; [done|]. intros [?|?]%elem_of_cons; done.
Qed.

Lemma set_keys_lookup l : forall m k, (exists v, In (k, v) l /\ set_keys l m !! SDLK k = Some (VK v)) \/
  (~ In k (map fst l) /\ set_keys l m !! SDLK k = m !! SDLK k).
Proof.
  induction l as [|[k1 v1] l IH]; intros m k; cbn; [right; split; [by intros []|done]|].
  destruct (IH (<[SDLK k1 := VK v1]> m) k) as [(v & I & E)|[N E]]; [left; exists v; split; [by right|exact E]|].
  destruct (decide (k1 = k)) as [->|Nk].
  - left. exists v1. split; [by left|]. unfold set_keys in E. rewrite E. apply lookup_insert_eq.
  - right. split; [intros [?|?]; done|]. unfold set_keys in E. rewrite E. apply lookup_insert_ne. by intros ?%(inj SDLK).
Qed.

Lemma set_keys_other l : forall m x, (forall k, SDLK k <> x) -> set_keys l m !! x = m !! x.
Proof.
  induction l as [|[k1 v1] l IH]; intros m x N; cbn; [done|]. unfold set_keys in IH. rewrite IH by done.
  by rewrite lookup_insert_ne.
Qed.

(** Every key is in the table. *)
Lemma all_listed k : In k (map fst (keymap_first ++ keymap_third)).
Proof. destruct k; cbn; tauto. Qed.

Definition fresh : keys := {| keymap := ∅; keymap_initialized := false |}.

(** Keys are translated as the table says.  After the first use initialised the
    map, every key code the program names is translated to the virtual key that its
    table gives for it, digits to themselves, small letters to their capitals, and
    any other code to the invalid key; later assignments of the initialisation do not
    disturb earlier ones. *)
Theorem keys_translated x :
  let '(vk, k') := SDLKeyToKeySym x fresh in
  keymap_initialized k' = true /\ (SDLKeyToKeySym x k' = (vk, k')) /\
  (forall k, x = SDLK k -> exists v, In (k, v) (keymap_first ++ keymap_third) /\ vk = VK v) /\
  (48 <= x <= 57 -> vk = x) /\ (97 <= x <= 122 -> vk = x - 32) /\
  ((forall k, x <> SDLK k) -> ~ (48 <= x <= 57) -> ~ (97 <= x <= 122) -> vk = INVALID_KEY).
Proof.
  unfold SDLKeyToKeySym at 1. cbn [fresh keymap_initialized SDLKeyToKeySym_init keymap].
  set (m1 := set_keys keymap_first ∅). set (m2 := set_chars (fun i => i) (seqZ 48 10) m1).
  set (m3 := set_chars (fun i => Z.land i 223) (seqZ 97 26) m2).
  assert (forall y, m2 !! y = if decide (y ∈ seqZ 48 10) then Some y else m1 !! y) as E2
    by (intros; apply set_chars_lookup, NoDup_seqZ).
  assert (forall y, m3 !! y = if decide (y ∈ seqZ 97 26) then Some (Z.land y 223) else m2 !! y) as E3
    by (intros y; exact (set_chars_lookup (fun i => Z.land i 223) _ m2 y (NoDup_seqZ _ _))).
  split; [done|]. split; [done|]. split; [|split; [|split]].
  - intros k ->. destruct (SDLK_chars k) as [N1 N2].
    destruct (set_keys_lookup keymap_third m3 k) as [(v & I & ->)|[N E]]; [exists v; split; [|done]; apply in_app_iff; by right|].
    rewrite E, E3, E2, !decide_False by done.
    destruct (set_keys_lookup keymap_first ∅ k) as [(v & I & E1)|[N' _]].
    + unfold m1. rewrite E1. exists v. split; [|done]. apply in_app_iff. by left.
    + exfalso. pose proof (all_listed k) as L. rewrite map_app, in_app_iff in L. tauto.
  - intros Hx. rewrite set_keys_other.
    + rewrite E3, decide_False by (rewrite elem_of_seqZ; lia). by rewrite E2, decide_True by (rewrite elem_of_seqZ; lia).
    + intros k <-. destruct (SDLK_chars k) as [N1 _]. apply N1. rewrite elem_of_seqZ. lia.
  - intros Hx. rewrite set_keys_other.
    + rewrite E3, decide_True by (rewrite elem_of_seqZ; lia).
      assert (Forall (fun x => Z.land x 223 = x - 32) (seqZ 97 26)) as F by (by apply (bool_decide_unpack _)).
      rewrite Forall_forall in F. apply F. rewrite elem_of_seqZ. lia.
    + intros k <-. destruct (SDLK_chars k) as [_ N2]. apply N2. rewrite elem_of_seqZ. lia.
  - intros N N1 N2. rewrite set_keys_other by (intros k; congruence).
    rewrite E3, E2, !decide_False by (rewrite elem_of_seqZ; lia). unfold m1. by rewrite set_keys_other by (intros k; congruence).
Qed.

End Keys.

(** ** The numbering of SDL 2 *)

Definition of_scancode (s : Z) : Z := Z.lor s (2 ^ 30).

Definition sdl2_code (k : sdl_key) : Z :=
  match k with
  | SDLK_BACKSPACE => 8 | SDLK_TAB => 9 | SDLK_RETURN => 13 | SDLK_ESCAPE => 27 | SDLK_SPACE => 32
  | SDLK_QUOTEDBL => 34 | SDLK_QUOTE => 39 | SDLK_PLUS => 43 | SDLK_COMMA => 44 | SDLK_MINUS => 45
  | SDLK_PERIOD => 46 | SDLK_SLASH => 47 | SDLK_COLON => 58 | SDLK_SEMICOLON => 59 | SDLK_LESS => 60
  | SDLK_EQUALS => 61 | SDLK_GREATER => 62 | SDLK_QUESTION => 63 | SDLK_LEFTBRACKET => 91
  | SDLK_BACKSLASH => 92 | SDLK_RIGHTBRACKET => 93 | SDLK_UNDERSCORE => 95 | SDLK_BACKQUOTE => 96
  | SDLK_DELETE => 127
  | SDLK_CAPSLOCK => of_scancode 57 | SDLK_F1 => of_scancode 58 | SDLK_F2 => of_scancode 59
  | SDLK_F3 => of_scancode 60 | SDLK_F4 => of_scancode 61 | SDLK_F5 => of_scancode 62 | SDLK_F6 => of_scancode 63
  | SDLK_F7 => of_scancode 64 | SDLK_F8 => of_scancode 65 | SDLK_F9 => of_scancode 66 | SDLK_F10 => of_scancode 67
  | SDLK_F11 => of_scancode 68 | SDLK_F12 => of_scancode 69 | SDLK_PRINTSCREEN => of_scancode 70
  | SDLK_SCROLLLOCK => of_scancode 71 | SDLK_PAUSE => of_scancode 72 | SDLK_INSERT => of_scancode 73
  | SDLK_HOME => of_scancode 74 | SDLK_PAGEUP => of_scancode 75 | SDLK_END => of_scancode 77
  | SDLK_PAGEDOWN => of_scancode 78 | SDLK_RIGHT => of_scancode 79 | SDLK_LEFT => of_scancode 80
  | SDLK_DOWN => of_scancode 81 | SDLK_UP => of_scancode 82 | SDLK_NUMLOCKCLEAR => of_scancode 83
  | SDLK_KP_DIVIDE => of_scancode 84 | SDLK_KP_MULTIPLY => of_scancode 85 | SDLK_KP_MINUS => of_scancode 86
  | SDLK_KP_PLUS => of_scancode 87 | SDLK_KP_ENTER => of_scancode 88 | SDLK_KP_1 => of_scancode 89
  | SDLK_KP_2 => of_scancode 90 | SDLK_KP_3 => of_scancode 91 | SDLK_KP_4 => of_scancode 92
  | SDLK_KP_5 => of_scancode 93 | SDLK_KP_6 => of_scancode 94 | SDLK_KP_7 => of_scancode 95
  | SDLK_KP_8 => of_scancode 96 | SDLK_KP_9 => of_scancode 97 | SDLK_KP_0 => of_scancode 98
  | SDLK_KP_PERIOD => of_scancode 99 | SDLK_F13 => of_scancode 104 | SDLK_F14 => of_scancode 105
  | SDLK_F15 => of_scancode 106 | SDLK_HELP => of_scancode 117 | SDLK_MENU => of_scancode 118
  | SDLK_CLEAR => of_scancode 156 | SDLK_LCTRL => of_scancode 224 | SDLK_LSHIFT => of_scancode 225
  | SDLK_LALT => of_scancode 226 | SDLK_LGUI => of_scancode 227 | SDLK_RCTRL => of_scancode 228
  | SDLK_RSHIFT => of_scancode 229 | SDLK_RALT => of_scancode 230 | SDLK_RGUI => of_scancode 231
  | SDLK_MODE => of_scancode 257
  end.

(** The key a code belongs to. *)
Definition sdl2_key (c : Z) : option sdl_key :=
  List.find (fun k => sdl2_code k =? c) (map fst (keymap_first ++ keymap_third)).

Lemma sdl2_key_code k : sdl2_key (sdl2_code k) = Some k.
Proof. destruct k; vm_compute; reflexivity. Qed.

#[export] Instance sdl2_codes : SdlCodes sdl2_code.
Proof.
  split.
  - intros k1 k2 E. pose proof (sdl2_key_code k1) as E1. rewrite E, sdl2_key_code in E1. congruence.
  - intros k. rewrite !elem_of_seqZ. destruct k; vm_compute; intuition congruence.
Qed.

Definition some_vk (v : vk_code) : Z := match v with VK_F1 => 112 | VK_UP => 38 | _ => 8 end.

Lemma keys_translated_witness : exists k', SDLKeyToKeySym sdl2_code some_vk (of_scancode 58) fresh = (112, k').
Proof.
  pose proof (keys_translated sdl2_code some_vk (of_scancode 58)) as T.
  destruct (SDLKeyToKeySym sdl2_code some_vk (of_scancode 58) fresh) as [vk k'].
  destruct T as (_ & _ & T & _). destruct (T SDLK_F1 eq_refl) as (v & I & ->). exists k'.
  assert (v = VK_F1) as ->; [|reflexivity]. cbn in I. repeat destruct I as [[= <-]|I]; try done; try congruence.
Defined.
