(* ===== verification/CtrlSdl.v ===== *)
(** * CtrlSdl: replay of the client's input

    Models [src/sources/streamer/module/ctrl-sdl/ctrl-sdl.cpp] and [ctrl-sdl.h]:
    the construction of keyboard and mouse messages, their conversion to host
    byte order, key blocking, the replay of a message as system input, the
    initialisation with its scale factors (and the resolutions kept by
    [src/sources/streamer/core/controller.cpp]) and the thread that watches for
    changes of the session.  The layout is the one of the Windows build without latency
    telemetry: [LONG] and [time_t] fields of four bytes, packed.  Messages are
    bytes in memory; [SendInput] and the application's callback are events. *)

From Stdlib Require Import ZArith Lia String.
From Stdlib Require Import Floats.SpecFloat.
From stdpp Require Import base gmap sets list.
From S2P Require Import Prelude Bytes CtrlMsg StdMap GaConf CNum GaCommon SdlKeys.

(** ** Messages *)

Definition SDL_EVENT_MSGTYPE_KEYBOARD : Z := 1.
Definition SDL_EVENT_MSGTYPE_MOUSEKEY : Z := 2.
Definition SDL_EVENT_MSGTYPE_MOUSEMOTION : Z := 3.
Definition SDL_EVENT_MSGTYPE_MOUSEWHEEL : Z := 4.

Definition sizeof_sdlmsg : nat := 64.
Definition sizeof_keyboard : nat := 18.
Definition sizeof_mouse : nat := 32.

Definition off_msgsize : nat := 0.
Definition off_msgtype : nat := 2.
Definition off_is_pressed : nat := 4.
Definition off_scancode : nat := 6.
Definition off_sdlkey : nat := 8.
Definition off_unicode : nat := 12.
Definition off_sdlmod : nat := 16.
Definition off_mousebutton : nat := 5.
Definition off_mousestate : nat := 6.
Definition off_relativeMouseMode : nat := 7.
Definition off_mousex : nat := 8.
Definition off_mousey : nat := 12.
Definition off_mouseRelX : nat := 16.
Definition off_mouseRelY : nat := 20.
Definition off_eventtime : nat := 24.

(** [bzero] of the first [n] bytes. *)
Definition bzero (n : nat) (m : list Z) : option (list Z) := wr_bytes 0 (replicate n 0) m.

Definition sdlmsg_keyboard (pressed scancode key md unicode : Z) (m : list Z) : option (list Z) :=
  m ← bzero sizeof_keyboard m;
  m ← wr 2 off_msgsize (htons (Z.of_nat sizeof_keyboard)) m;
  m ← wr 1 off_msgtype SDL_EVENT_MSGTYPE_KEYBOARD m;
  m ← wr 1 off_is_pressed pressed m;
  m ← wr 2 off_scancode (htons scancode) m;
  m ← wr 4 off_sdlkey (htonl (u32 key)) m;
  m ← wr 4 off_unicode (htonl unicode) m;
  wr 2 off_sdlmod (htons md) m.

Definition sdlmsg_mousekey (pressed button x y : Z) (m : list Z) : option (list Z) :=
  m ← bzero sizeof_mouse m;
  m ← wr 2 off_msgsize (htons (Z.of_nat sizeof_mouse)) m;
  m ← wr 1 off_msgtype SDL_EVENT_MSGTYPE_MOUSEKEY m;
  m ← wr 1 off_is_pressed pressed m;
  m ← wr 4 off_mousex (htons x) m;
  m ← wr 4 off_mousey (htons y) m;
  wr 1 off_mousebutton button m.

Definition sdlmsg_mousewheel (mousex mousey : Z) (m : list Z) : option (list Z) :=
  m ← bzero sizeof_mouse m;
  m ← wr 2 off_msgsize (htons (Z.of_nat sizeof_mouse)) m;
  m ← wr 1 off_msgtype SDL_EVENT_MSGTYPE_MOUSEWHEEL m;
  m ← wr 4 off_mousex (htons mousex) m;
  wr 4 off_mousey (htons mousey) m.

Definition sdlmsg_mousemotion (mousex mousey relx rely state relativeMouseMode : Z) (m : list Z) : option (list Z) :=
  m ← bzero sizeof_mouse m;
  m ← wr 2 off_msgsize (htons (Z.of_nat sizeof_mouse)) m;
  m ← wr 1 off_msgtype SDL_EVENT_MSGTYPE_MOUSEMOTION m;
  m ← wr 1 off_mousestate state m;
  m ← wr 1 off_relativeMouseMode (u8 relativeMouseMode) m;
  m ← wr 4 off_mousex mousex m;
  m ← wr 4 off_mousey mousey m;
  m ← wr 4 off_mouseRelX relx m;
  wr 4 off_mouseRelY rely m.

(** [if(f) f = conv(f)] on the field at [off]. *)
Definition convert (n off : nat) (conv : Z -> Z) (m : list Z) : option (list Z) :=
  v ← rd n off m; if v =? 0 then Some m else wr n off (conv v) m.

Definition sdlmsg_ntoh (m : list Z) : option (list Z) :=
  ty ← rd 1 off_msgtype m;
  if ty =? SDL_EVENT_MSGTYPE_KEYBOARD then
    m ← convert 2 off_scancode ntohs m;
    m ← convert 4 off_sdlkey htonl m;
    m ← convert 4 off_unicode htonl m;
    convert 2 off_sdlmod ntohs m
  else if ty =? SDL_EVENT_MSGTYPE_MOUSEMOTION then
    m ← convert 4 off_mousex (fun v => v) m;
    m ← convert 4 off_mousey (fun v => v) m;
    m ← convert 4 off_mouseRelX (fun v => v) m;
    convert 4 off_mouseRelY (fun v => v) m
  else if (ty =? SDL_EVENT_MSGTYPE_MOUSEKEY) || (ty =? SDL_EVENT_MSGTYPE_MOUSEWHEEL) then
    m ← convert 4 off_mousex (fun v => ntohs (u16 v)) m;
    m ← convert 4 off_mousey (fun v => ntohs (u16 v)) m;
    m ← convert 4 off_mouseRelX (fun v => ntohs (u16 v)) m;
    convert 4 off_mouseRelY (fun v => ntohs (u16 v)) m
  else Some m.

(** ** The replayer *)

(** What the system is told. *)
Inductive INPUT :=
  | KeyInput (wVk wScan dwFlags : Z)
  | MouseInput (dx dy mouseData dwFlags : Z).

Inductive event :=
  | ESetDesktop                         (** the thread takes the input desktop *)
  | ESend (i : INPUT)                   (** [SendInput] *)
  | ECallback (i : INPUT)               (** [callback_on_input_received] *)
  | EReport (sec usec : Z).             (** [pEventReportCallback] *)

Record replayer := {
  scaleFactorX : double; scaleFactorY : double; outputW : Z; outputH : Z; cxsize : Z; cysize : Z;
  kbScancode : gset Z; kbSdlkey : gset Z; keyblock_initialized : bool; r_keys : keys;
  prect : option gaRect; on_input_received : bool; event_report : bool; bSessionChanged : bool;
  curr_width : Z; curr_height : Z; output_width : Z; output_height : Z
}.

Definition set_changed (c : bool) (r : replayer) : replayer :=
  {| scaleFactorX := scaleFactorX r; scaleFactorY := scaleFactorY r; outputW := outputW r; outputH := outputH r;
     cxsize := cxsize r; cysize := cysize r; kbScancode := kbScancode r; kbSdlkey := kbSdlkey r;
     keyblock_initialized := keyblock_initialized r; r_keys := r_keys r; prect := prect r;
     on_input_received := on_input_received r; event_report := event_report r; bSessionChanged := c;
     curr_width := curr_width r; curr_height := curr_height r; output_width := output_width r;
     output_height := output_height r |}.
Definition set_keystate (k : keys) (r : replayer) : replayer :=
  {| scaleFactorX := scaleFactorX r; scaleFactorY := scaleFactorY r; outputW := outputW r; outputH := outputH r;
     cxsize := cxsize r; cysize := cysize r; kbScancode := kbScancode r; kbSdlkey := kbSdlkey r;
     keyblock_initialized := keyblock_initialized r; r_keys := k; prect := prect r;
     on_input_received := on_input_received r; event_report := event_report r; bSessionChanged := bSessionChanged r;
     curr_width := curr_width r; curr_height := curr_height r; output_width := output_width r;
     output_height := output_height r |}.

(** *** Key blocking *)

Definition sdlmsg_kb_add (v : Z) (remove : bool) (db : gset Z) : gset Z := if remove then db ∖ {[v]} else {[v]} ∪ db.
Definition sdlmsg_kb_match (v : Z) (db : gset Z) : bool := bool_decide (v ∈ db).

Definition sdlmsg_key_blocked (m : list Z) (r : replayer) : option bool :=
  ty ← rd 1 off_msgtype m;
  if negb (ty =? SDL_EVENT_MSGTYPE_KEYBOARD) then Some false
  else
    sc ← rd 2 off_scancode m;
    if sdlmsg_kb_match sc (kbScancode r) then Some true
    else k ← rd 4 off_sdlkey m; Some (sdlmsg_kb_match (i32 k) (kbSdlkey r)).

(** [strtol] with the 32-bit [long] of the platform, narrowed to [unsigned short]. *)
Definition read_code (s : bytes) : Z := u16 (Z.max INT_MIN (Z.min INT_MAX (sl_val (strtol s)))).

(** The loop over one map of the configuration; the map is finite, so its size is
    enough fuel. *)
Fixpoint kb_loop (fuel : nat) (mapname : bytes) (key : option cbuf) (db : gset Z) : cmd conf (gset Z) :=
  match fuel with
  | O => cret db
  | S fuel =>
      match key with
      | None => cret db
      | Some kb =>
          k <-- clift (c_str kb) ;;
          let sc := read_code k in
          db <-- (if sc =? 0 then cret db
                  else
                    v <-- ga_conf_mapvalue mapname (Some 64) ;;
                    match v with
                    | None => cret db
                    | Some vb => s <-- clift (c_str vb) ;;
                        cret (if negb (ga_conf_boolval s 0 =? 0) then {[sc]} ∪ db else db)
                    end) ;;
          next <-- ga_conf_mapnextkey mapname (Some 64) ;;
          kb_loop fuel mapname next db
      end
  end.

Definition kb_load (mapname : bytes) : cmd conf (gset Z) :=
  n <-- ga_conf_mapsize mapname ;;
  if 0 <? n then
    ga_conf_mapreset mapname;;;
    key <-- ga_conf_mapkey mapname (Some 64) ;;
    kb_loop (S (Z.to_nat n)) mapname key ∅
  else cret ∅.

(** [sdlmsg_kb_init]: the two sets. *)
Definition sdlmsg_kb_init : cmd conf (gset Z * gset Z) :=
  sc <-- kb_load (b "key-block-scancode") ;;
  kc <-- kb_load (b "key-block-keycode") ;;
  cret (sc, kc).

(** *** Native replay *)

Definition KEYEVENTF_KEYUP : Z := 2.
Definition MOUSEEVENTF_MOVE : Z := 1.
Definition MOUSEEVENTF_LEFTDOWN : Z := 2.
Definition MOUSEEVENTF_LEFTUP : Z := 4.
Definition MOUSEEVENTF_RIGHTDOWN : Z := 8.
Definition MOUSEEVENTF_RIGHTUP : Z := 16.
Definition MOUSEEVENTF_MIDDLEDOWN : Z := 32.
Definition MOUSEEVENTF_MIDDLEUP : Z := 64.
Definition MOUSEEVENTF_WHEEL : Z := 2048.
Definition MOUSEEVENTF_ABSOLUTE : Z := 32768.
Definition WHEEL_DELTA : Z := 120.

(** [(short) x] of an integer. *)
Definition to_short (z : Z) : Z := wraps 16 z.

(** Conversions of a [double], undefined out of range. *)
Definition dword_of (x : double) : option Z :=
  z ← trunc x; if (0 <=? z) && (z <? 2 ^ 32) then Some z else None.
Definition short_of (x : double) : option Z :=
  z ← trunc x; if (-32768 <=? z) && (z <=? 32767) then Some z else None.

(** Division by an [int] as [DWORD]. *)
Definition dword_div (a c : Z) : option Z := if u32 c =? 0 then None else Some (i32 (a / u32 c)).

Definition send (r : replayer) (i : INPUT) : event := if on_input_received r then ECallback i else ESend i.

(** The flags and data of a mouse button. *)
Definition button_input (button pressed : Z) : INPUT :=
  let down := negb (pressed =? 0) in
  if (button =? 1) && down then MouseInput 0 0 0 MOUSEEVENTF_LEFTDOWN
  else if (button =? 1) && negb down then MouseInput 0 0 0 MOUSEEVENTF_LEFTUP
  else if (button =? 2) && down then MouseInput 0 0 0 MOUSEEVENTF_MIDDLEDOWN
  else if (button =? 2) && negb down then MouseInput 0 0 0 MOUSEEVENTF_MIDDLEUP
  else if (button =? 3) && down then MouseInput 0 0 0 MOUSEEVENTF_RIGHTDOWN
  else if (button =? 3) && negb down then MouseInput 0 0 0 MOUSEEVENTF_RIGHTUP
  else if (button =? 4) && down then MouseInput 0 0 1 MOUSEEVENTF_WHEEL
  else if (button =? 5) && down then MouseInput 0 0 (u32 (-1)) MOUSEEVENTF_WHEEL
  else MouseInput 0 0 0 0.

(** The input for one axis of the wheel, if it moved. *)
Definition wheel_input (v : Z) : list INPUT :=
  if v =? 0 then []
  else if 0 <? to_short v then [MouseInput 0 0 WHEEL_DELTA MOUSEEVENTF_WHEEL]
  else if to_short v <? 0 then [MouseInput 0 0 (u32 (- WHEEL_DELTA)) MOUSEEVENTF_WHEEL]
  else [MouseInput 0 0 0 0].

(** An absolute coordinate: [origin] is the side of the rectangle, if there is one. *)
Definition absolute (scale : double) (origin : option Z) (v size : Z) : option Z :=
  a ← dword_of (match origin with
                | None => dmul (dmul (of_Z 65536) scale) (of_Z v)
                | Some o => dmul (of_Z 65536) (SFadd dprec demax (of_Z o) (dmul scale (of_Z v)))
                end);
  dword_div a size.

Definition motion_of (r : replayer) (md x y rx ry : Z) : option INPUT :=
  if md =? 0 then
    dx ← absolute (scaleFactorX r) (r_left <$> prect r) x (cxsize r);
    dy ← absolute (scaleFactorY r) (r_top <$> prect r) y (cysize r);
    Some (MouseInput dx dy 0 (MOUSEEVENTF_ABSOLUTE + MOUSEEVENTF_MOVE))
  else if md =? 1 then
    if on_input_received r then Some (MouseInput (to_short rx) (to_short ry) 0 MOUSEEVENTF_MOVE)
    else
      dx ← short_of (dmul (scaleFactorX r) (of_Z (to_short rx)));
      dy ← short_of (dmul (scaleFactorY r) (of_Z (to_short ry)));
      Some (MouseInput dx dy 0 MOUSEEVENTF_MOVE)
  else Some (MouseInput x y 0 MOUSEEVENTF_MOVE).

Definition motion_input (m : list Z) (r : replayer) : option INPUT :=
  md ← rd 1 off_relativeMouseMode m;
  x ← rd 4 off_mousex m;
  y ← rd 4 off_mousey m;
  rx ← rd 4 off_mouseRelX m;
  ry ← rd 4 off_mouseRelY m;
  motion_of r md (i32 x) (i32 y) (i32 rx) (i32 ry).

Section Replay.
Context (SDLK : sdl_key -> Z) (VK : vk_code -> Z) (MapVirtualKey : Z -> Z).

Definition key_event (m : list Z) (r : replayer) : option (list event * replayer) :=
  k ← rd 4 off_sdlkey m;
  pressed ← rd 1 off_is_pressed m;
  let '(vk, ks) := SDLKeyToKeySym SDLK VK (i32 k) (r_keys r) in
  let r := set_keystate ks r in
  let vk := u16 vk in
  Some (if vk =? INVALID_KEY then []
        else [send r (KeyInput vk (u16 (MapVirtualKey vk)) (if pressed =? 0 then KEYEVENTF_KEYUP else 0))], r).

Definition sdlmsg_replay_native (m : list Z) (r : replayer) : option (list event * replayer) :=
  let '(ev0, r) := if bSessionChanged r then ([ESetDesktop], set_changed false r) else ([], r) in
  ty ← rd 1 off_msgtype m;
  '(ev, r) ←
    (if ty =? SDL_EVENT_MSGTYPE_KEYBOARD then key_event m r
     else if ty =? SDL_EVENT_MSGTYPE_MOUSEKEY then
       b ← rd 1 off_mousebutton m; p ← rd 1 off_is_pressed m;
       Some ([send r (button_input b p)], r)
     else if ty =? SDL_EVENT_MSGTYPE_MOUSEWHEEL then
       x ← rd 4 off_mousex m; y ← rd 4 off_mousey m;
       Some (map (send r) (wheel_input x ++ wheel_input y), r)
     else if ty =? SDL_EVENT_MSGTYPE_MOUSEMOTION then
       i ← motion_input m r;
       if on_input_received r then Some ([ECallback i], r)
       else if event_report r then
         s ← rd 4 off_eventtime m; us ← rd 4 (off_eventtime + 4) m;
         Some ([ESend i; EReport (i32 s) (i32 us)], r)
       else Some ([ESend i], r)
     else Some ([], r));
  Some (ev0 ++ ev, r).

Definition sdlmsg_replay (m : list Z) (r : replayer) : option (list event * replayer) :=
  m ← sdlmsg_ntoh m;
  blocked ← sdlmsg_key_blocked m r;
  if blocked : bool then Some ([], r) else sdlmsg_replay_native m r.

(** [sdlmsg_replay_callback]: a wrong length is logged, and the message replayed. *)
Definition sdlmsg_replay_callback (m : list Z) (msglen : Z) (r : replayer) : option (list event * replayer) :=
  rd 2 off_msgsize m ≫= fun _ => sdlmsg_replay m r.

End Replay.

(** *** Resolutions and scale factors *)

Definition ctrl_server_set_resolution (w h : Z) (r : replayer) : replayer :=
  {| scaleFactorX := scaleFactorX r; scaleFactorY := scaleFactorY r; outputW := outputW r; outputH := outputH r;
     cxsize := cxsize r; cysize := cysize r; kbScancode := kbScancode r; kbSdlkey := kbSdlkey r;
     keyblock_initialized := keyblock_initialized r; r_keys := r_keys r; prect := prect r;
     on_input_received := on_input_received r; event_report := event_report r; bSessionChanged := bSessionChanged r;
     curr_width := w; curr_height := h; output_width := output_width r; output_height := output_height r |}.
Definition ctrl_server_set_output_resolution (w h : Z) (r : replayer) : replayer :=
  {| scaleFactorX := scaleFactorX r; scaleFactorY := scaleFactorY r; outputW := outputW r; outputH := outputH r;
     cxsize := cxsize r; cysize := cysize r; kbScancode := kbScancode r; kbSdlkey := kbSdlkey r;
     keyblock_initialized := keyblock_initialized r; r_keys := r_keys r; prect := prect r;
     on_input_received := on_input_received r; event_report := event_report r; bSessionChanged := bSessionChanged r;
     curr_width := curr_width r; curr_height := curr_height r; output_width := w; output_height := h |}.
Definition ctrl_server_get_resolution (r : replayer) : Z * Z := (curr_width r, curr_height r).

(** [1.0 * size / output], replaced by 1 when it is not positive. *)
Definition scale_factor (size output : Z) : double :=
  let f := ddiv (dmul (of_Z 1) (of_Z size)) (of_Z output) in
  if SFleb f (of_Z 0) then of_Z 1 else f.
Definition ctrl_server_get_scalefactor (r : replayer) : double * double :=
  (scale_factor (curr_width r) (output_width r), scale_factor (curr_height r) (output_height r)).

(** The assignments of [sdlmsg_replay_init] to the replayer's own variables. *)
Definition with_input (cb report : bool) (kb : gset Z * gset Z) (ks : keys) (r : replayer) : replayer :=
  {| scaleFactorX := scaleFactorX r; scaleFactorY := scaleFactorY r; outputW := outputW r; outputH := outputH r;
     cxsize := cxsize r; cysize := cysize r; kbScancode := kb.1; kbSdlkey := kb.2;
     keyblock_initialized := true; r_keys := ks; prect := prect r;
     on_input_received := cb; event_report := report || event_report r; bSessionChanged := bSessionChanged r;
     curr_width := curr_width r; curr_height := curr_height r; output_width := output_width r;
     output_height := output_height r |}.
Definition with_screen (rect : option gaRect) (cx cy : Z) (r : replayer) : replayer :=
  {| scaleFactorX := scaleFactorX r; scaleFactorY := scaleFactorY r; outputW := outputW r; outputH := outputH r;
     cxsize := cx; cysize := cy; kbScancode := kbScancode r; kbSdlkey := kbSdlkey r;
     keyblock_initialized := keyblock_initialized r; r_keys := r_keys r; prect := rect;
     on_input_received := on_input_received r; event_report := event_report r; bSessionChanged := bSessionChanged r;
     curr_width := curr_width r; curr_height := curr_height r; output_width := output_width r;
     output_height := output_height r |}.
Definition with_output (w h : Z) (f : double * double) (r : replayer) : replayer :=
  {| scaleFactorX := f.1; scaleFactorY := f.2; outputW := w; outputH := h;
     cxsize := cxsize r; cysize := cysize r; kbScancode := kbScancode r; kbSdlkey := kbSdlkey r;
     keyblock_initialized := keyblock_initialized r; r_keys := r_keys r; prect := prect r;
     on_input_received := on_input_received r; event_report := event_report r; bSessionChanged := bSessionChanged r;
     curr_width := curr_width r; curr_height := curr_height r; output_width := output_width r;
     output_height := output_height r |}.

(** [sdlmsg_replay_init]: [rect] are the sides of the configured rectangle, [cx] and
    [cy] the size of the screen. *)
Definition sdlmsg_replay_init (SDLK : sdl_key -> Z) (VK : vk_code -> Z) (rect : option (Z * Z * Z * Z)) (cb report : bool)
    (cx cy : Z) (r : replayer) : cmd conf (Z * replayer) :=
  kb <-- (if keyblock_initialized r then cret (kbScancode r, kbSdlkey r) else sdlmsg_kb_init) ;;
  let ks := if keymap_initialized (r_keys r) then r_keys r else SDLKeyToKeySym_init SDLK VK (r_keys r) in
  let r := with_input cb report kb ks r in
  crop <-- (match rect with
            | None => cret (Some None)
            | Some (l, t, rg, bt) =>
                f <-- clift (ga_fillrect l t rg bt) ;; cret (if snd f : bool then Some (Some (fst f)) else None)
            end) ;;
  match crop with
  | None => cret (-1, r)
  | Some crop =>
      let r := with_screen crop cx cy r in
      let r := ctrl_server_set_output_resolution cx cy (ctrl_server_set_resolution cx cy r) in
      res <-- ga_conf_readints (b "output-resolution") false 2 ;;
      match res with
      | (2, [w; h]) =>
          let r := ctrl_server_set_output_resolution w h r in
          let '(bx, by_) := match crop with
                            | None => (cx, cy)
                            | Some c => (r_right c - r_left c + 1, r_bottom c - r_top c + 1)
                            end in
          let r := ctrl_server_set_resolution bx by_ r in
          cret (0, with_output w h (ctrl_server_get_scalefactor r) r)
      | _ => cret (0, r)
      end
  end.

(** ** The watchdog of the session *)

Section Watchdog.
(** [GetUserObjectInformation(desktop, UOI_NAME, buffer, nLength, &needed)]: the
    return value, the length needed, and what it stores. *)
Context (GetUserObjectInformation : Z -> Z -> bool * Z * bytes).

(** [getDesktopName] *)
Definition getDesktopName (desktop : option Z) : bool * bytes :=
  match desktop with
  | None => (false, [])
  | Some d =>
      let '(ok, nameLength, _) := GetUserObjectInformation d 0 in
      if negb ok then (false, [])
      else if (nameLength <=? 0) || (32768 <=? nameLength) then (false, [])
      else
        let '(ok, _, data) := GetUserObjectInformation d nameLength in
        if negb ok then (false, [])
        else (true, data ++ repeat 0 (Z.to_nat (nameLength + 1) - length data))
  end.

(** What the system answers in one round of the loop. *)
Record round := { ro_session : Z; ro_desktop : option Z }.

Record watch := { prevSession : Z; prevDeskName : bytes; prevDeskNameAvailable : bool; w_changed : bool }.

Definition watch_start (baseSession : Z) (desktop : option Z) : watch :=
  let '(ok, name) := getDesktopName desktop in
  {| prevSession := baseSession; prevDeskName := name; prevDeskNameAvailable := ok; w_changed := false |}.

Definition watch_round (o : round) (w : watch) : watch :=
  let sessionChanged := negb (prevSession w =? ro_session o) in
  let '(currDeskNameAvailable, currDeskName) := getDesktopName (ro_desktop o) in
  let desktopChanged := negb (str_eqb currDeskName (prevDeskName w)) in
  let desktopLost := prevDeskNameAvailable w && negb currDeskNameAvailable in
  let desktopReacquired := negb (prevDeskNameAvailable w) && currDeskNameAvailable in
  if desktopLost then
    {| prevSession := prevSession w; prevDeskName := prevDeskName w; prevDeskNameAvailable := currDeskNameAvailable;
       w_changed := w_changed w |}
  else if currDeskNameAvailable && (sessionChanged || desktopChanged || desktopReacquired) then
    {| prevSession := ro_session o; prevDeskName := currDeskName; prevDeskNameAvailable := currDeskNameAvailable;
       w_changed := true |}
  else
    {| prevSession := prevSession w; prevDeskName := prevDeskName w; prevDeskNameAvailable := currDeskNameAvailable;
       w_changed := w_changed w |}.

Definition sessionWatchdog (os : list round) (w : watch) : watch := fold_left (fun w o => watch_round o w) os w.

(** The documentation of [GetUserObjectInformation]: when more bytes are needed than
    given, it fails.  A name takes at least one byte. *)
Class ObjectInformation : Prop := {
  oi_short : forall d n, n < snd (fst (GetUserObjectInformation d n)) -> fst (fst (GetUserObjectInformation d n)) = false;
  oi_name : forall d n, 0 < snd (fst (GetUserObjectInformation d n))
}.

(** Changes of the session or the desktop are never noticed.  The name of a desktop
    is asked for with an empty buffer first, to learn its length; the system answers
    such a call with a failure, and the function gives up: it never returns a name,
    so the watchdog reports no change, whatever happens to the session. *)
Theorem session_changes_missed `{!ObjectInformation} base desktop os :
  w_changed (sessionWatchdog os (watch_start base desktop)) = false.
Proof.
  assert (forall d, getDesktopName d = (false, [])) as G.
  { intros [d|]; [|done]. unfold getDesktopName. pose proof (oi_short d 0 (oi_name d 0)) as E.
    destruct (GetUserObjectInformation d 0) as [[ok n] data]. cbn in E. by subst. }
  unfold sessionWatchdog. assert (forall w, w_changed w = false -> prevDeskNameAvailable w = false ->
    w_changed (fold_left (fun w o => watch_round o w) os w) = false) as F.
  { induction os as [|o os IH]; intros w H1 H2; cbn; [done|].
    apply IH; unfold watch_round; rewrite G, H2; cbn; done. }
  apply F; unfold watch_start; by rewrite G.
Qed.

End Watchdog.

(** A system with one desktop, whose name takes eight bytes. *)
Definition sample_guoi (d n : Z) : bool * Z * bytes := if n <? 8 then (false, 8, []) else (true, 8, b "Default" ++ [0]).
#[export] Instance sample_guoi_documented : ObjectInformation sample_guoi.
Proof. split; intros d n; unfold sample_guoi; destruct (Z.ltb_spec n 8); cbn; lia || done. Qed.

Lemma session_changes_missed_witness :
  w_changed (sessionWatchdog sample_guoi [{| ro_session := 1; ro_desktop := Some 5 |}; {| ro_session := 2; ro_desktop := Some 6 |}]
    (watch_start sample_guoi 1 (Some 5))) = false.
Proof. apply (session_changes_missed sample_guoi). Defined.

(** ** What the client builds is what is replayed *)

Lemma rd_zero n k off m m0 : wr_bytes 0 (replicate n 0) m = Some m0 -> (off + k <= n)%nat -> rd k off m0 = Some 0.
Proof.
  intros E H. unfold wr_bytes in E. rewrite length_replicate in E. case_decide as D; [|done]. injection E as <-. unfold rd.
  rewrite decide_True by (rewrite length_app, length_replicate; lia). f_equal. cbn [take app].
  rewrite drop_app_le by (rewrite length_replicate; lia). rewrite take_app_le by (rewrite length_drop, length_replicate; lia).
  assert (take k (drop off (replicate n 0)) = replicate k 0) as ->.
  { apply list_eq. intros i. destruct (decide (i < k)%nat).
    - rewrite lookup_take_lt, lookup_drop, !lookup_replicate_2 by lia. done.
    - rewrite lookup_take_ge by lia. symmetry. apply lookup_replicate_None. lia. }
  clear. induction k as [|k IH]; [done|]. cbn. by rewrite IH.
Qed.

Lemma convert_step n off conv m v : rd n off m = Some v -> conv 0 = 0 -> 0 <= v < 256 ^ Z.of_nat n ->
  exists m', convert n off conv m = Some m' /\ length m' = length m /\
    rd n off m' = Some (conv v mod 256 ^ Z.of_nat n) /\
    forall k off', (off' + k <= off \/ off + n <= off')%nat -> rd k off' m' = rd k off' m.
Proof.
  intros E C R. unfold convert. rewrite E. cbn [mbind option_bind]. destruct (Z.eqb_spec v 0) as [->|N].
  - exists m. split; [done|]. split; [done|]. split; [|done]. rewrite C, E. done.
  - apply wr_step. unfold rd in E. case_decide; [done|congruence].
Qed.

(** Do the next conversion of a field. *)
Ltac do_convert :=
  match goal with
  | H : rd ?n ?off ?m = Some ?v |- context [convert ?n ?off ?f ?m] =>
      let m' := fresh "m" in let E := fresh "E" in let L := fresh "L" in
      let R := fresh "R" in let O := fresh "O" in
      destruct (convert_step n off f m v H) as (m' & E & L & R & O);
        [reflexivity|assumption|]; rewrite E; cbn [mbind option_bind]; clear E; clear H; carry O
  end.

Ltac rd_known :=
  repeat match goal with
  | H : rd ?n ?off ?m = Some ?v |- context [rd ?n ?off ?m] => rewrite H; cbn [mbind option_bind]
  end.

Ltac sdl_offsets :=
  unfold off_msgsize, off_msgtype, off_is_pressed, off_scancode, off_sdlkey, off_unicode, off_sdlmod, off_mousebutton,
    off_mousestate, off_relativeMouseMode, off_mousex, off_mousey, off_mouseRelX, off_mouseRelY, off_eventtime in *.

Lemma bswap_mod n z : bswap n z mod 256 ^ Z.of_nat n = bswap n z.
Proof. apply Z.mod_small, bswap_range. Qed.

(** The messages in memory, in network order. *)
Lemma keyboard_built pressed scancode key md unicode msg : (sizeof_keyboard <= length msg)%nat ->
  exists m, sdlmsg_keyboard pressed scancode key md unicode msg = Some m /\ length m = length msg /\
    rd 2 off_msgsize m = Some (htons 18) /\ rd 1 off_msgtype m = Some 1 /\ rd 1 off_is_pressed m = Some (pressed mod 256) /\
    rd 2 off_scancode m = Some (htons scancode) /\ rd 4 off_sdlkey m = Some (htonl (u32 key)) /\
    rd 4 off_unicode m = Some (htonl unicode) /\ rd 2 off_sdlmod m = Some (htons md).
Proof.
  intros Hl. unfold sdlmsg_keyboard, bzero, sizeof_keyboard in *. sdl_offsets.
  destruct (wr_bytes 0 (replicate 18 0) msg) as [m0|] eqn:E0; [|rewrite wr_bytes_Some in E0 by (rewrite length_replicate; lia); done].
  pose proof (wr_bytes_length _ _ _ _ E0). cbn [mbind option_bind]. do 7 do_wr. eexists. split; [reflexivity|].
  split; [congruence|]. unfold htons, htonl in *. rewrite !bswap_mod in *. auto 20.
Qed.

Lemma mouse_zeroed msg : (sizeof_mouse <= length msg)%nat -> exists m0, bzero sizeof_mouse msg = Some m0 /\ length m0 = length msg /\
  forall k off, (off + k <= sizeof_mouse)%nat -> rd k off m0 = Some 0.
Proof.
  intros Hl. unfold bzero. destruct (wr_bytes 0 (replicate sizeof_mouse 0) msg) as [m0|] eqn:E0;
    [|rewrite wr_bytes_Some in E0 by (rewrite length_replicate; lia); done].
  exists m0. split; [done|]. split; [by eapply wr_bytes_length|]. intros k off H. by eapply rd_zero.
Qed.

(** A mouse message in memory: all the fields the replay reads. *)
Definition mouse_in (m : list Z) (ty pressed button mode x y rx ry : Z) : Prop :=
  rd 1 off_msgtype m = Some ty /\ rd 1 off_is_pressed m = Some pressed /\ rd 1 off_mousebutton m = Some button /\
  rd 1 off_relativeMouseMode m = Some mode /\ rd 4 off_mousex m = Some x /\ rd 4 off_mousey m = Some y /\
  rd 4 off_mouseRelX m = Some rx /\ rd 4 off_mouseRelY m = Some ry /\
  rd 4 off_eventtime m = Some 0 /\ rd 4 (off_eventtime + 4) m = Some 0.

Ltac mouse_fields Z0 :=
  pose proof (Z0 1%nat 4%nat ltac:(unfold sizeof_mouse; lia)); pose proof (Z0 1%nat 5%nat ltac:(unfold sizeof_mouse; lia));
  pose proof (Z0 1%nat 7%nat ltac:(unfold sizeof_mouse; lia)); pose proof (Z0 4%nat 16%nat ltac:(unfold sizeof_mouse; lia));
  pose proof (Z0 4%nat 20%nat ltac:(unfold sizeof_mouse; lia)); pose proof (Z0 4%nat 24%nat ltac:(unfold sizeof_mouse; lia));
  pose proof (Z0 4%nat 28%nat ltac:(unfold sizeof_mouse; lia)).

Lemma htons_mod4 z : htons z mod 256 ^ Z.of_nat 4 = htons z.
Proof. apply Z.mod_small. pose proof (bswap_range 2 z). unfold htons. cbn in *. lia. Qed.

(** Finish a lemma on what a mouse message holds. *)
Ltac mouse_done :=
  eexists; split; [reflexivity|]; split; [congruence|]; unfold mouse_in; sdl_offsets; rewrite ?htons_mod4 in *; auto 20.

Lemma mousekey_built pressed button x y msg : (sizeof_mouse <= length msg)%nat ->
  exists m, sdlmsg_mousekey pressed button x y msg = Some m /\ length m = length msg /\
    mouse_in m 2 (pressed mod 256) (button mod 256) 0 (htons x) (htons y) 0 0.
Proof.
  intros Hl. unfold sdlmsg_mousekey. destruct (mouse_zeroed msg Hl) as (m0 & -> & L0 & Z0). unfold sizeof_mouse in Hl. sdl_offsets.
  cbn [mbind option_bind]. mouse_fields Z0. clear Z0. do 6 do_wr. mouse_done.
Qed.

Lemma mousewheel_built x y msg : (sizeof_mouse <= length msg)%nat ->
  exists m, sdlmsg_mousewheel x y msg = Some m /\ length m = length msg /\ mouse_in m 4 0 0 0 (htons x) (htons y) 0 0.
Proof.
  intros Hl. unfold sdlmsg_mousewheel. destruct (mouse_zeroed msg Hl) as (m0 & -> & L0 & Z0). unfold sizeof_mouse in Hl. sdl_offsets.
  cbn [mbind option_bind]. mouse_fields Z0. clear Z0. do 4 do_wr. mouse_done.
Qed.

Lemma mousemotion_built x y rx ry st md msg : (sizeof_mouse <= length msg)%nat ->
  exists m, sdlmsg_mousemotion x y rx ry st md msg = Some m /\ length m = length msg /\
    mouse_in m 3 0 0 (u8 md) (u32 x) (u32 y) (u32 rx) (u32 ry).
Proof.
  intros Hl. unfold sdlmsg_mousemotion. destruct (mouse_zeroed msg Hl) as (m0 & -> & L0 & Z0). unfold sizeof_mouse in Hl. sdl_offsets.
  cbn [mbind option_bind]. mouse_fields Z0. clear Z0. do 8 do_wr.
  eexists. split; [reflexivity|]. split; [congruence|]. unfold mouse_in. sdl_offsets.
  change (256 ^ Z.of_nat 4) with (2 ^ 32) in *.
  match goal with H : rd 1 7 _ = Some (u8 md mod _) |- _ => rewrite Z.mod_small in H by (by apply wrapu_range) end.
  auto 20.
Qed.

Lemma wraps_wrapu w z : 0 < w -> - 2 ^ (w - 1) <= z < 2 ^ (w - 1) -> wraps w (wrapu w z) = z.
Proof.
  intros Hw H. unfold wraps, wrapu. assert (2 ^ w = 2 * 2 ^ (w - 1)) as E by (rewrite <- Z.pow_succ_r by lia; f_equal; lia).
  rewrite Z.mod_mod by lia. destruct (Z.ltb_spec z 0).
  - rewrite <- (Z.mod_add z 1), Z.mod_small by lia. rewrite (proj2 (Z.ltb_ge _ _)) by lia. lia.
  - rewrite Z.mod_small by lia. by rewrite (proj2 (Z.ltb_lt _ _)) by lia.
Qed.

Lemma i32_u32 z : INT_MIN <= z <= INT_MAX -> i32 (u32 z) = z.
Proof. intros H. apply wraps_wrapu; [done|]. unfold INT_MIN, INT_MAX in H. lia. Qed.

(** What a change of the session adds in front. *)
Definition session_events (r : replayer) : list event := if bSessionChanged r then [ESetDesktop] else [].

Section KeyReplay.
Context (SDLK : sdl_key -> Z) (VK : vk_code -> Z) (MapVirtualKey : Z -> Z).

(** A keyboard message that was built is replayed as its key. *)
Lemma keyboard_replayed pressed scancode key md unicode msg r :
  0 <= pressed < 256 -> 0 <= scancode < 65536 -> INT_MIN <= key <= INT_MAX -> 0 <= md < 65536 ->
  (sizeof_keyboard <= length msg)%nat ->
  let '(vk, ks) := SDLKeyToKeySym SDLK VK key (r_keys r) in
  exists m, sdlmsg_keyboard pressed scancode key md unicode msg = Some m /\ is_Some (rd 2 off_msgsize m) /\
    sdlmsg_replay SDLK VK MapVirtualKey m r =
      if bool_decide (scancode ∈ kbScancode r) || bool_decide (key ∈ kbSdlkey r) then Some ([], r)
      else Some (session_events r ++
                 (if u16 vk =? INVALID_KEY then []
                  else [send r (KeyInput (u16 vk) (u16 (MapVirtualKey (u16 vk)))
                                 (if pressed =? 0 then KEYEVENTF_KEYUP else 0))]),
                 set_keystate ks (if bSessionChanged r then set_changed false r else r)).
Proof.
  intros Hp Hs Hk Hm Hl. destruct (SDLKeyToKeySym SDLK VK key (r_keys r)) as [vk ks] eqn:Ek.
  destruct (keyboard_built pressed scancode key md unicode msg Hl) as (m & E & L & R0 & R1 & R2 & R3 & R4 & R5 & R6).
  exists m. split; [done|]. split; [by rewrite R0|]. unfold sizeof_keyboard in Hl. unfold sdlmsg_replay, sdlmsg_ntoh. sdl_offsets.
  rewrite R1. cbn [mbind option_bind]. change (1 =? SDL_EVENT_MSGTYPE_KEYBOARD) with true. cbv iota.
  unfold htons, htonl in R3, R4, R5, R6. clear R0.
  pose proof (bswap_range 2 scancode). pose proof (bswap_range 4 (u32 key)). pose proof (bswap_range 4 unicode).
  pose proof (bswap_range 2 md). do 4 do_convert.
  unfold ntohs, htonl in *. rewrite !bswap_mod in *. rewrite !bswap_involutive in * by (first [done|by apply wrapu_range]).
  assert (i32 (u32 key) = key) as Ei by (by apply i32_u32). rewrite (Z.mod_small pressed) in * by lia.
  unfold sdlmsg_key_blocked, sdlmsg_kb_match, sdlmsg_replay_native, key_event, session_events. sdl_offsets.
  rd_known. change (1 =? SDL_EVENT_MSGTYPE_KEYBOARD) with true. cbn [negb]. rewrite Ei.
  destruct (bool_decide (scancode ∈ kbScancode r)); [done|]. cbn [mbind option_bind orb].
  destruct (bool_decide (key ∈ kbSdlkey r)); [done|]. destruct (bSessionChanged r); cbn [r_keys set_changed]; rewrite Ek; done.
Qed.

(** Keys arrive as they were pressed.  A keyboard message the client builds, sent
    as bytes, is replayed as exactly one key event for the virtual key of the key
    code the client gave, pressed or released as the client said, with the desktop taken
    first when the session changed; or as nothing, when the key has no virtual key or
    when its scan code or its key code is blocked. *)
Theorem keys_replayed pressed scancode key md unicode msg r :
  0 <= pressed < 256 -> 0 <= scancode < 65536 -> INT_MIN <= key <= INT_MAX -> 0 <= md < 65536 ->
  (sizeof_keyboard <= length msg)%nat ->
  let '(vk, ks) := SDLKeyToKeySym SDLK VK key (r_keys r) in
  exists m, sdlmsg_keyboard pressed scancode key md unicode msg = Some m /\
    sdlmsg_replay_callback SDLK VK MapVirtualKey m (Z.of_nat sizeof_keyboard) r =
      if bool_decide (scancode ∈ kbScancode r) || bool_decide (key ∈ kbSdlkey r) then Some ([], r)
      else Some (session_events r ++
                 (if u16 vk =? INVALID_KEY then []
                  else [send r (KeyInput (u16 vk) (u16 (MapVirtualKey (u16 vk)))
                                 (if pressed =? 0 then KEYEVENTF_KEYUP else 0))]),
                 set_keystate ks (if bSessionChanged r then set_changed false r else r)).
Proof.
  intros Hp Hs Hk Hm Hl. pose proof (keyboard_replayed pressed scancode key md unicode msg r Hp Hs Hk Hm Hl) as K.
  destruct (SDLKeyToKeySym SDLK VK key (r_keys r)) as [vk ks]. destruct K as (m & E & [v V] & K). exists m. split; [exact E|].
  unfold sdlmsg_replay_callback. rewrite V. exact K.
Qed.

(** A message shorter than its type needs is read past its end: the length the
    callback checks is only logged. *)
Theorem short_key_overread m r msglen : rd 1 off_msgtype m = Some SDL_EVENT_MSGTYPE_KEYBOARD ->
  (length m < sizeof_keyboard)%nat -> sdlmsg_replay_callback SDLK VK MapVirtualKey m msglen r = None.
Proof.
  intros T L. unfold sdlmsg_replay_callback, sdlmsg_replay, sdlmsg_ntoh. unfold sizeof_keyboard in L. sdl_offsets.
  destruct (rd 2 0 m); [|done]. cbn [mbind option_bind]. rewrite T. cbn [mbind option_bind].
  change (SDL_EVENT_MSGTYPE_KEYBOARD =? SDL_EVENT_MSGTYPE_KEYBOARD) with true. cbv iota.
  assert (forall n off f x y, convert n off f x = Some y -> length y = length x) as Lc.
  { intros n off f x y. unfold convert. destruct (rd n off x); [|done]. cbn. case_match; [by intros [= <-]|].
    apply wr_bytes_length. }
  destruct (convert 2 6 ntohs m) as [m1|] eqn:E1; [|done]. apply Lc in E1. cbn [mbind option_bind].
  destruct (convert 4 8 htonl m1) as [m2|] eqn:E2; [|done]. apply Lc in E2. cbn [mbind option_bind].
  destruct (convert 4 12 htonl m2) as [m3|] eqn:E3; [|done]. apply Lc in E3. cbn [mbind option_bind].
  unfold convert, rd. rewrite decide_False by lia. done.
Qed.
End KeyReplay.

Definition settled (r : replayer) : replayer := if bSessionChanged r then set_changed false r else r.

(** One step of the wheel, in the direction of [d]. *)
Definition wheel_step (d : Z) : list INPUT :=
  if d =? 0 then []
  else [MouseInput 0 0 (if 0 <? d then WHEEL_DELTA else u32 (- WHEEL_DELTA)) MOUSEEVENTF_WHEEL].

Lemma wheel_input_step d : -32768 <= d <= 32767 -> wheel_input (u16 d) = wheel_step d.
Proof.
  intros H. unfold wheel_input, wheel_step, to_short. rewrite wraps_wrapu by (try done; lia).
  destruct (Z.eqb_spec d 0) as [->|N]; [done|].
  assert ((u16 d =? 0) = false) as ->.
  { apply Z.eqb_neq. intros E. apply N. rewrite <- (wraps_wrapu 16 d) by (try done; lia). unfold u16 in E. by rewrite E. }
  destruct (Z.ltb_spec 0 d); [done|]. by rewrite (proj2 (Z.ltb_lt d 0)) by lia.
Qed.

Section MouseReplay.
Context (SDLK : sdl_key -> Z) (VK : vk_code -> Z) (MapVirtualKey : Z -> Z).

(** Converting a mouse message keeps all but the byte order. *)
Lemma mouse_ntoh ty p bt md x y rx ry m : mouse_in m ty p bt md x y rx ry ->
  Forall (fun v => 0 <= v < 256 ^ Z.of_nat 4) [x; y; rx; ry] -> ty = 2 \/ ty = 3 \/ ty = 4 ->
  let conv v := if ty =? 3 then v else ntohs (u16 v) in
  exists m', sdlmsg_ntoh m = Some m' /\ mouse_in m' ty p bt md (conv x) (conv y) (conv rx) (conv ry).
Proof.
  intros (R0 & R1 & R2 & R3 & R4 & R5 & R6 & R7 & R8 & R9) F T. rewrite !Forall_cons in F. destruct F as (F1 & F2 & F3 & F4 & _).
  unfold mouse_in, sdlmsg_ntoh. sdl_offsets. rewrite R0. cbn [mbind option_bind].
  assert (forall v, ntohs (u16 v) mod 256 ^ Z.of_nat 4 = ntohs (u16 v)) as Em by (intros; apply htons_mod4).
  destruct T as [->|[->| ->]].
  - change (2 =? SDL_EVENT_MSGTYPE_KEYBOARD) with false. change (2 =? SDL_EVENT_MSGTYPE_MOUSEMOTION) with false.
    change ((2 =? SDL_EVENT_MSGTYPE_MOUSEKEY) || (2 =? SDL_EVENT_MSGTYPE_MOUSEWHEEL)) with true. change (2 =? 3) with false. cbv iota.
    do 4 do_convert. rewrite !Em in *. eexists. split; [reflexivity|]. auto 20.
  - change (3 =? SDL_EVENT_MSGTYPE_KEYBOARD) with false. change (3 =? SDL_EVENT_MSGTYPE_MOUSEMOTION) with true.
    change (3 =? 3) with true. cbv iota. do 4 do_convert. rewrite !Z.mod_small in * by done. eexists. split; [reflexivity|]. auto 20.
  - change (4 =? SDL_EVENT_MSGTYPE_KEYBOARD) with false. change (4 =? SDL_EVENT_MSGTYPE_MOUSEMOTION) with false.
    change ((4 =? SDL_EVENT_MSGTYPE_MOUSEKEY) || (4 =? SDL_EVENT_MSGTYPE_MOUSEWHEEL)) with true. change (4 =? 3) with false. cbv iota.
    do 4 do_convert. rewrite !Em in *. eexists. split; [reflexivity|]. auto 20.
Qed.

Lemma motion_changed c r md x y rx ry : motion_of (set_changed c r) md x y rx ry = motion_of r md x y rx ry.
Proof. done. Qed.

(** Replaying a mouse message that is in host order. *)
Lemma mouse_native ty p bt md x y rx ry m r : mouse_in m ty p bt md x y rx ry -> ty = 2 \/ ty = 3 \/ ty = 4 ->
  sdlmsg_key_blocked m r = Some false /\
  sdlmsg_replay_native SDLK VK MapVirtualKey m r =
    (if ty =? 2 then Some (session_events r ++ [send r (button_input bt p)], settled r)
     else if ty =? 4 then Some (session_events r ++ map (send r) (wheel_input x ++ wheel_input y), settled r)
     else i ← motion_of r md (i32 x) (i32 y) (i32 rx) (i32 ry);
          Some (session_events r ++ send r i :: (if event_report r && negb (on_input_received r) then [EReport 0 0] else []), settled r)).
Proof.
  intros (R0 & R1 & R2 & R3 & R4 & R5 & R6 & R7 & R8 & R9) T.
  unfold sdlmsg_key_blocked, sdlmsg_replay_native, motion_input, session_events, settled. sdl_offsets.
  destruct T as [->|[->| ->]]; (split; [by rewrite R0|]).
  - destruct (bSessionChanged r); rewrite R0; cbn [mbind option_bind Z.eqb Pos.eqb SDL_EVENT_MSGTYPE_KEYBOARD SDL_EVENT_MSGTYPE_MOUSEKEY]; rd_known; done.
  - destruct (bSessionChanged r); rewrite R0; cbn [mbind option_bind Z.eqb Pos.eqb SDL_EVENT_MSGTYPE_KEYBOARD SDL_EVENT_MSGTYPE_MOUSEKEY
      SDL_EVENT_MSGTYPE_MOUSEWHEEL SDL_EVENT_MSGTYPE_MOUSEMOTION]; rd_known;
      rewrite ?motion_changed; (destruct (motion_of r md (i32 x) (i32 y) (i32 rx) (i32 ry)) as [i|]; [|done]);
      cbn [mbind option_bind]; unfold send; cbn [on_input_received event_report set_changed];
      destruct (on_input_received r), (event_report r); rd_known; done.
  - destruct (bSessionChanged r); rewrite R0; cbn [mbind option_bind Z.eqb Pos.eqb SDL_EVENT_MSGTYPE_KEYBOARD SDL_EVENT_MSGTYPE_MOUSEKEY
      SDL_EVENT_MSGTYPE_MOUSEWHEEL SDL_EVENT_MSGTYPE_MOUSEMOTION]; rd_known; done.
Qed.

Lemma htons_word z : 0 <= htons z < 256 ^ Z.of_nat 4.
Proof. pose proof (bswap_range 2 z). unfold htons. cbn in *. lia. Qed.

Lemma ntohs_word z : 0 <= z < 65536 -> ntohs (u16 (htons z)) = z.
Proof. intros Hz. unfold u16. rewrite wrapu_small by apply (bswap_range 2). by apply ntohs_htons. Qed.

Lemma wheel_replayed dx dy msg r : (sizeof_mouse <= length msg)%nat -> -32768 <= dx <= 32767 -> -32768 <= dy <= 32767 ->
  exists m, sdlmsg_mousewheel (u16 dx) (u16 dy) msg = Some m /\
    sdlmsg_replay SDLK VK MapVirtualKey m r =
      Some (session_events r ++ map (send r) (wheel_step dx ++ wheel_step dy), settled r).
Proof.
  intros Hl Hx Hy. destruct (mousewheel_built (u16 dx) (u16 dy) msg Hl) as (m & E & _ & M). exists m. split; [done|].
  destruct (mouse_ntoh _ _ _ _ _ _ _ _ m M) as (m' & E' & M'); [repeat constructor; try apply htons_word; done|auto|].
  change (4 =? 3) with false in M'. cbv iota in M'. rewrite !ntohs_word in M' by (by apply (wrapu_range 16)).
  destruct (mouse_native _ _ _ _ _ _ _ _ m' r M') as [B N]; [auto|]. unfold sdlmsg_replay. rewrite E'. cbn [mbind option_bind].
  rewrite B. cbn [mbind option_bind]. rewrite N. by rewrite !wheel_input_step.
Qed.

Lemma button_replayed pressed button x y msg r : (sizeof_mouse <= length msg)%nat -> 0 <= pressed < 256 -> 0 <= button < 256 ->
  exists m, sdlmsg_mousekey pressed button x y msg = Some m /\
    sdlmsg_replay SDLK VK MapVirtualKey m r = Some (session_events r ++ [send r (button_input button pressed)], settled r).
Proof.
  intros Hl Hp Hb. destruct (mousekey_built pressed button x y msg Hl) as (m & E & _ & M). exists m. split; [done|].
  rewrite (Z.mod_small pressed), (Z.mod_small button) in M by lia.
  destruct (mouse_ntoh _ _ _ _ _ _ _ _ m M) as (m' & E' & M'); [repeat constructor; try apply htons_word; done|auto|].
  destruct (mouse_native _ _ _ _ _ _ _ _ m' r M') as [B N]; [auto|]. unfold sdlmsg_replay. rewrite E'. cbn [mbind option_bind].
  rewrite B. cbn [mbind option_bind]. by rewrite N.
Qed.

Lemma motion_replayed x y rx ry st md msg r : (sizeof_mouse <= length msg)%nat ->
  Forall (fun v => INT_MIN <= v <= INT_MAX) [x; y; rx; ry] -> 0 <= md < 256 ->
  exists m, sdlmsg_mousemotion x y rx ry st md msg = Some m /\
    sdlmsg_replay SDLK VK MapVirtualKey m r =
      (i ← motion_of r md x y rx ry;
       Some (session_events r ++ send r i :: (if event_report r && negb (on_input_received r) then [EReport 0 0] else []),
             settled r)).
Proof.
  intros Hl F Hm. assert (forall z, 0 <= u32 z < 256 ^ Z.of_nat 4) as Hu by (intros z; by apply (wrapu_range 32)).
  destruct (mousemotion_built x y rx ry st md msg Hl) as (m & E & _ & M). exists m. split; [done|].
  destruct (mouse_ntoh _ _ _ _ _ _ _ _ m M) as (m' & E' & M'); [repeat constructor; apply Hu|auto|].
  change (3 =? 3) with true in M'. cbv iota in M'. unfold u8 in M'. rewrite (wrapu_small 8 md) in M' by lia.
  destruct (mouse_native _ _ _ _ _ _ _ _ m' r M') as [B N]; [auto|]. unfold sdlmsg_replay. rewrite E'. cbn [mbind option_bind].
  rewrite B. cbn [mbind option_bind]. rewrite N. rewrite !Forall_cons in F. destruct F as (F1 & F2 & F3 & F4 & _).
  by rewrite !i32_u32.
Qed.

(** The mouse moves, clicks and scrolls as the client's did.  A message the client
    builds, sent as bytes, is replayed as what the client saw: a wheel message as one
    step per axis that turned, in the direction it turned; a button message as the
    event of that button; a motion message as the motion of its coordinates, of which
    no bit is lost in the message. *)
Theorem mouse_replayed msg r : (sizeof_mouse <= length msg)%nat ->
  (forall dx dy, -32768 <= dx <= 32767 -> -32768 <= dy <= 32767 ->
    exists m, sdlmsg_mousewheel (u16 dx) (u16 dy) msg = Some m /\
      sdlmsg_replay SDLK VK MapVirtualKey m r =
        Some (session_events r ++ map (send r) (wheel_step dx ++ wheel_step dy), settled r)) /\
  (forall pressed button x y, 0 <= pressed < 256 -> 0 <= button < 256 ->
    exists m, sdlmsg_mousekey pressed button x y msg = Some m /\
      sdlmsg_replay SDLK VK MapVirtualKey m r = Some (session_events r ++ [send r (button_input button pressed)], settled r)) /\
  (forall x y rx ry st md, Forall (fun v => INT_MIN <= v <= INT_MAX) [x; y; rx; ry] -> 0 <= md < 256 ->
    exists m, sdlmsg_mousemotion x y rx ry st md msg = Some m /\
      sdlmsg_replay SDLK VK MapVirtualKey m r =
        (i ← motion_of r md x y rx ry;
         Some (session_events r ++ send r i :: (if event_report r && negb (on_input_received r) then [EReport 0 0] else []),
               settled r))).
Proof.
  intros Hl. split; [|split]; intros.
  - by apply wheel_replayed.
  - by apply button_replayed.
  - by apply motion_replayed.
Qed.
End MouseReplay.

(** ** Absolute coordinates *)

Lemma absolute_exact v size : 0 <= v <= size -> v < 65536 -> 0 < size <= 65536 ->
  absolute (of_Z 1) None v size = Some (65536 * v / size).
Proof.
  intros Hv Hv2 Hs. unfold absolute, dword_of. rewrite (dmul_exact 65536 1) by (unfold dprec; lia). change (65536 * 1) with 65536.
  assert (trunc (dmul (of_Z 65536) (of_Z v)) = Some (65536 * v)) as ->.
  { destruct (Z.eqb_spec v 0) as [->|N]; [vm_compute; reflexivity|].
    rewrite dmul_exact by (unfold dprec; lia). apply trunc_of_Z. unfold dprec. lia. }
  cbn [mbind option_bind]. rewrite (proj2 (Z.leb_le 0 _)), (proj2 (Z.ltb_lt _ _)) by lia. cbn [andb mbind option_bind].
  unfold dword_div. assert (u32 size = size) as -> by (apply wrapu_small; lia). rewrite (proj2 (Z.eqb_neq _ _)) by lia.
  f_equal. apply wraps_small; [done|]. split; [apply Z.div_pos; lia|]. apply Z.div_lt_upper_bound; [lia|].
  change (2 ^ (32 - 1)) with 2147483648. nia.
Qed.

(** Absolute mouse positions stay on the screen.  Without scaling, every pixel of a
    screen of at most 65536 pixels a side is mapped to a coordinate from 0 to
    65535, larger pixels to larger coordinates or equal ones, and different pixels are
    never confused: the system's inverse mapping gives the pixel back. *)
Theorem absolute_on_screen r x y rx ry :
  scaleFactorX r = of_Z 1 -> scaleFactorY r = of_Z 1 -> prect r = None ->
  0 <= x < cxsize r -> 0 <= y < cysize r -> cxsize r <= 65536 -> cysize r <= 65536 ->
  exists dx dy, motion_of r 0 x y rx ry = Some (MouseInput dx dy 0 (MOUSEEVENTF_ABSOLUTE + MOUSEEVENTF_MOVE)) /\
    0 <= dx <= 65535 /\ 0 <= dy <= 65535 /\
    (dx * cxsize r + 65535) / 65536 = x /\ (dy * cysize r + 65535) / 65536 = y.
Proof.
  intros Ex Ey Er Hx Hy Hcx Hcy. unfold motion_of. cbn [Z.eqb]. rewrite Ex, Ey, Er. cbn [fmap option_fmap option_map].
  rewrite !absolute_exact by lia. cbn [mbind option_bind]. eexists _, _. split; [reflexivity|].
  assert (forall v size, 0 <= v < size -> size <= 65536 -> 0 <= 65536 * v / size <= 65535 /\ (65536 * v / size * size + 65535) / 65536 = v) as K.
  { intros v size Hv Hs. pose proof (Z.div_mod (65536 * v) size ltac:(lia)) as D. pose proof (Z.mod_pos_bound (65536 * v) size ltac:(lia)) as B.
    split; [split; [apply Z.div_pos; lia|]|].
    - assert (65536 * v / size < 65536) by (apply Z.div_lt_upper_bound; nia). lia.
    - symmetry. apply Z.div_unique_pos with ((65536 * v / size * size + 65535) - 65536 * v); nia. }
  destruct (K x (cxsize r)) as [? ?]; [lia..|]. destruct (K y (cysize r)) as [? ?]; [lia..|]. done.
Qed.

(** ** Keys that cannot be blocked *)

Definition short_codes (db : gset Z) : Prop := forall k, k ∈ db -> k < 65536.

Lemma kb_loop_short fuel mapname : forall key db c db' c', short_codes db ->
  kb_loop fuel mapname key db c = Some (db', c') -> short_codes db'.
Proof.
  induction fuel as [|fuel IH]; intros key db c db' c' S E; cbn in E; [unfold cret in E; by simplify_eq|].
  destruct key as [kb|]; [|unfold cret in E; by simplify_eq].
  apply cbind_inv in E as (k & c1 & _ & E). apply cbind_inv in E as (db1 & c2 & E1 & E).
  apply cbind_inv in E as (next & c3 & _ & E). eapply IH, E. clear IH E.
  destruct (read_code k =? 0); [unfold cret in E1; by simplify_eq|].
  apply cbind_inv in E1 as (v & c4 & _ & E1). destruct v as [vb|]; [|unfold cret in E1; by simplify_eq].
  apply cbind_inv in E1 as (s & c5 & _ & E1). unfold cret in E1. simplify_eq. destruct (negb _); [|done].
  intros x [->%elem_of_singleton|I]%elem_of_union; [|by apply S]. unfold read_code.
  pose proof (wrapu_range 16 (Z.max INT_MIN (Z.min INT_MAX (sl_val (strtol k)))) ltac:(lia)). unfold u16. lia.
Qed.

Lemma kb_load_short mapname c db c' : kb_load mapname c = Some (db, c') -> short_codes db.
Proof.
  unfold kb_load. intros (n & c1 & _ & E)%cbind_inv. destruct (0 <? n); [|unfold cret in E; by simplify_eq].
  apply cbind_inv in E as ([] & c2 & _ & E). apply cbind_inv in E as (key & c3 & _ & E).
  eapply kb_loop_short, E. by intros x I%not_elem_of_empty.
Qed.

(** Keys with long codes cannot be blocked by their code.  Codes of the
    configuration are narrowed to 16 bits when they are read, so the table of blocked
    key codes holds none above 65535, whatever the configuration says: the keys whose
    code is made from their scan code (function, arrow, modifier and keypad keys, from
    2^30 on) are replayed unless their scan code is blocked, and the code that is blocked
    instead is that of another key. *)
Theorem long_keycodes_pass c sc kc c' r m k :
  sdlmsg_kb_init c = Some ((sc, kc), c') -> kbSdlkey r = kc -> kbScancode r = ∅ ->
  rd 1 off_msgtype m = Some SDL_EVENT_MSGTYPE_KEYBOARD -> is_Some (rd 2 off_scancode m) ->
  rd 4 off_sdlkey m = Some k -> 65536 <= i32 k -> sdlmsg_key_blocked m r = Some false.
Proof.
  unfold sdlmsg_kb_init. intros (sc1 & c1 & _ & E)%cbind_inv Ek Es T [s S] K L.
  apply cbind_inv in E as (kc1 & c2 & E & E2). unfold cret in E2. simplify_eq. apply kb_load_short in E.
  unfold sdlmsg_key_blocked, sdlmsg_kb_match. rewrite T. cbn [mbind option_bind negb]. rewrite S, Es.
  change (negb (SDL_EVENT_MSGTYPE_KEYBOARD =? SDL_EVENT_MSGTYPE_KEYBOARD)) with false. cbn [mbind option_bind].
  rewrite bool_decide_eq_false_2 by apply not_elem_of_empty. rewrite K. cbn [mbind option_bind].
  rewrite bool_decide_eq_false_2; [done|]. intros I%E. lia.
Qed.

(** ** Examples *)

Definition sample_replayer : replayer :=
  {| scaleFactorX := of_Z 1; scaleFactorY := of_Z 1; outputW := 0; outputH := 0; cxsize := 1920; cysize := 1080;
     kbScancode := ∅; kbSdlkey := {[27]}; keyblock_initialized := true; r_keys := fresh; prect := None;
     on_input_received := false; event_report := false; bSessionChanged := false;
     curr_width := 1920; curr_height := 1080; output_width := 1920; output_height := 1080 |}.

Lemma keys_replayed_witness : exists m ks,
  sdlmsg_keyboard 1 4 97 0 97 (replicate 64 7) = Some m /\
  sdlmsg_replay_callback sdl2_code some_vk (fun v => v) m 18 sample_replayer
  = Some ([ESend (KeyInput 65 65 0)], set_keystate ks sample_replayer).
Proof.
  pose proof (keys_replayed sdl2_code some_vk (fun v => v) 1 4 97 0 97 (replicate 64 7) sample_replayer) as T.
  assert ((SDLKeyToKeySym sdl2_code some_vk 97 fresh).1 = 65) as V by (vm_compute; reflexivity).
  change (r_keys sample_replayer) with fresh in T.
  destruct (SDLKeyToKeySym sdl2_code some_vk 97 fresh) as [vk ks]. cbn in V. subst vk.
  destruct T as (m & E1 & E2); [done|done|done|done|vm_compute; lia|]. exists m, ks. split; [exact E1|].
  rewrite bool_decide_eq_false_2 in E2 by apply not_elem_of_empty. rewrite bool_decide_eq_false_2 in E2; [exact E2|].
  intros I. change (97 ∈ ({[27]} : gset Z)) in I. apply elem_of_singleton in I. discriminate I.
Defined.

Lemma mouse_replayed_witness : exists m, sdlmsg_mousewheel 0 (u16 (-3)) (replicate 64 7) = Some m /\
  sdlmsg_replay sdl2_code some_vk (fun v => v) m sample_replayer
  = Some ([ESend (MouseInput 0 0 4294967176 MOUSEEVENTF_WHEEL)], sample_replayer).
Proof.
  destruct (mouse_replayed sdl2_code some_vk (fun v => v) (replicate 64 7) sample_replayer) as (W & _ & _); [vm_compute; lia|].
  exact (W 0 (-3) ltac:(lia) ltac:(lia)).
Defined.

Lemma short_key_overread_witness :
  sdlmsg_replay_callback sdl2_code some_vk (fun v => v) [0; 18; 1; 0; 1; 0; 0; 4] 8 sample_replayer = None.
Proof. apply (short_key_overread sdl2_code some_vk (fun v => v)); [reflexivity|vm_compute; lia]. Defined.

Lemma absolute_on_screen_witness : exists dx dy,
  motion_of sample_replayer 0 1919 1079 0 0 = Some (MouseInput dx dy 0 (MOUSEEVENTF_ABSOLUTE + MOUSEEVENTF_MOVE)) /\
  0 <= dx <= 65535 /\ 0 <= dy <= 65535.
Proof.
  destruct (absolute_on_screen sample_replayer 1919 1079 0 0) as (dx & dy & E & Hx & Hy & _);
    [reflexivity|reflexivity|reflexivity|cbn; lia..|]. exists dx, dy. split; [exact E|]. split; [exact Hx|exact Hy].
Defined.

(** A configuration that means to block the key F1. *)
Definition block_f1 : conf :=
  match ga_conf_mapwritev (b "key-block-keycode") (b "0x4000003a") (b "true") conf0 with Some (_, c) => c | None => conf0 end.

Lemma long_keycodes_pass_witness : exists kc c', sdlmsg_kb_init block_f1 = Some ((∅, kc), c') /\ kc = {[58]} /\
  sdlmsg_key_blocked [18; 0; 1; 0; 1; 0; 58; 0; 58; 0; 0; 64; 0; 0; 0; 0; 0; 0]
    {| scaleFactorX := of_Z 1; scaleFactorY := of_Z 1; outputW := 0; outputH := 0; cxsize := 1920; cysize := 1080;
       kbScancode := ∅; kbSdlkey := kc; keyblock_initialized := true; r_keys := fresh; prect := None;
       on_input_received := false; event_report := false; bSessionChanged := false;
       curr_width := 1920; curr_height := 1080; output_width := 1920; output_height := 1080 |} = Some false.
Proof.
  destruct (sdlmsg_kb_init block_f1) as [[[sc kc] c']|] eqn:E; [|vm_compute in E; discriminate].
  assert (sc = ∅ /\ kc = {[58]}) as [-> K] by (vm_compute in E; injection E as <- <- _; split; vm_compute; reflexivity).
  exists kc, c'. split; [reflexivity|]. split; [exact K|].
  apply (long_keycodes_pass block_f1 ∅ kc c' _ _ 1073741882 E); try reflexivity; try (by eexists).
  vm_compute. discriminate.
Defined.
