(* ===== verification/SockUtil.v ===== *)
(** * SockUtil: reliable transfers over non-blocking sockets

    Models [src/sources/encoder/sock_util/sock_util.cpp] and the transfer loops
    of [sock_server_send], [sock_server_recv] ([sock_server.cpp]),
    [sock_client_send] and [sock_client_recv] ([sock_client.cpp]).  Every answer
    of the kernel is an input: the result of the call, whether [errno] asks for
    a retry, and whether the deadline has passed after the sleep. *)

From Stdlib Require Import ZArith Lia.
From stdpp Require Import base list sets.
From S2P Require Import Prelude GaCommon.

Definition SOCK_USLEEP_TIME : Z := 100.
Definition SOCK_TIMEOUT_TIME : Z := 10000000.

(** ** Time *)

(** [sock_get_currtime] for a reading of the clock, as [int64_t] arithmetic. *)
Definition sock_get_currtime (now : timeval) : Z := tv_sec now * 1000000 + tv_usec now.

Definition sock_timeout (now : timeval) (start duration_us : Z) : bool :=
  duration_us <? sock_get_currtime now - start.

(** ** The transfer loop *)

(** One turn: the result of [send] or [recv], whether [errno] is [EINTR] or
    [EAGAIN], and the clock after the sleep. *)
Record io := { io_ret : Z; io_again : bool; io_now : timeval }.

(** How a transfer ends: the loop is left, a hard error, or still going on. *)
Inductive xend := XDone | XError (ret : Z) | XWait.

Record xres := {
  x_end : xend;
  x_left : Z;                    (* bytes not transferred *)
  x_pieces : list (nat * nat)    (* offset and length of each transferred piece *)
}.

Definition add_piece (off n : Z) (r : xres) : xres :=
  {| x_end := x_end r; x_left := x_left r; x_pieces := (Z.to_nat off, Z.to_nat n) :: x_pieces r |}.

(** The [do ... while] loop: [off] is where [p_src] or [p_dst] points. *)
Fixpoint sock_xfer (one_shot : bool) (begin_time off left : Z) (do_retry : bool) (evs : list io) : xres :=
  match evs with
  | [] => {| x_end := XWait; x_left := left; x_pieces := [] |}
  | e :: evs =>
      let late := sock_timeout (io_now e) begin_time SOCK_TIMEOUT_TIME in
      if 0 <? io_ret e then
        let left1 := left - io_ret e in
        let off1 := off + io_ret e in
        let retry := if (0 <? left1) && negb one_shot then true else do_retry in
        let retry := if retry && late then false else retry in
        add_piece off (io_ret e)
          (if (0 <? left1) && retry then sock_xfer one_shot begin_time off1 left1 retry evs
           else {| x_end := XDone; x_left := left1; x_pieces := [] |})
      else if io_again e then
        let retry := if negb one_shot then true else do_retry in
        let retry := if retry && late then false else retry in
        if (0 <? left) && retry then sock_xfer one_shot begin_time off left retry evs
        else {| x_end := XDone; x_left := left; x_pieces := [] |}
      else {| x_end := XError (io_ret e); x_left := left; x_pieces := [] |}
  end.

(** The value the function returns. *)
Definition xfer_ret (datalen : Z) (r : xres) : option Z :=
  match x_end r with
  | XDone => Some (i32 (datalen - x_left r))
  | XError ret => Some ret
  | XWait => None
  end.

(** ** Transfers *)

(** The kernel never takes or gives more than it was asked for. *)
Fixpoint kernel_ok (left : Z) (evs : list io) : Prop :=
  match evs with
  | [] => True
  | e :: evs => io_ret e <= left /\ kernel_ok (if 0 <? io_ret e then left - io_ret e else left) evs
  end.

(** The bytes of [data] in a list of pieces. *)
Definition slices (data : list Z) (ps : list (nat * nat)) : list Z :=
  concat (map (fun p : nat * nat => take (snd p) (drop (fst p) data)) ps).

Lemma sock_xfer_pieces shot begin data evs : forall off left retry,
  0 <= off -> 0 <= left -> off + left = Z.of_nat (length data) -> kernel_ok left evs ->
  let r := sock_xfer shot begin off left retry evs in
  0 <= x_left r <= left /\
  slices data (x_pieces r) = take (Z.to_nat (left - x_left r)) (drop (Z.to_nat off) data).
Proof.
  induction evs as [|e evs IH]; intros off left retry Ho Hl Hs Hk.
  { simpl. split; [lia|]. by rewrite Z.sub_diag. }
  destruct Hk as [Hr Hk]. cbn [sock_xfer]. destruct (0 <? io_ret e) eqn:E; bool_to_prop.
  - match goal with |- context [add_piece _ _ ?x] => set (rr2 := x) end.
    assert (H2 : 0 <= x_left rr2 <= left - io_ret e /\ slices data (x_pieces rr2) =
      take (Z.to_nat (left - io_ret e - x_left rr2)) (drop (Z.to_nat (off + io_ret e)) data)).
    { unfold rr2. destruct (_ && _); [apply IH; lia || done|]. simpl. split; [lia|]. by rewrite Z.sub_diag. }
    clearbody rr2. destruct H2 as [H2 H3]. cbn [add_piece x_left x_pieces]. split; [lia|].
    unfold slices in *. cbn [map concat fst snd]. rewrite H3.
    replace (Z.to_nat (left - x_left rr2))
      with (Z.to_nat (io_ret e) + Z.to_nat (left - io_ret e - x_left rr2))%nat by lia.
    replace (Z.to_nat (off + io_ret e)) with (Z.to_nat off + Z.to_nat (io_ret e))%nat by lia.
    rewrite <- drop_drop, <- take_take_drop. done.
  - destruct (io_again e).
    + destruct (_ && _); [by apply IH|]. simpl. split; [lia|]. by rewrite Z.sub_diag.
    + simpl. split; [lia|]. by rewrite Z.sub_diag.
Qed.

(** The loop is left only when everything is transferred, after the deadline,
    or after one turn in one-shot mode. *)
Lemma sock_xfer_done shot begin evs : forall off left retry,
  (shot = true -> retry = false) ->
  let r := sock_xfer shot begin off left retry evs in
  x_end r = XDone ->
  x_left r <= 0 \/ shot = true \/
  exists e, e ∈ evs /\ sock_timeout (io_now e) begin SOCK_TIMEOUT_TIME = true.
Proof.
  induction evs as [|e evs IH]; intros off left retry Hs; [done|]. cbn [sock_xfer].
  destruct shot; [by right; left|].
  destruct (sock_timeout (io_now e) begin SOCK_TIMEOUT_TIME) eqn:Et.
  { intros _. right. right. exists e. split; [set_solver|done]. }
  assert (Hgen : forall o l q r, (if (0 <? l) && q then sock_xfer false begin o l q evs
      else {| x_end := XDone; x_left := l; x_pieces := [] |}) = r -> q = true \/ l <= 0 ->
    x_end r = XDone -> x_left r <= 0 \/ false = true \/
      exists e', e' ∈ e :: evs /\ sock_timeout (io_now e') begin SOCK_TIMEOUT_TIME = true).
  { intros o l q r <- Hq Hd. destruct (0 <? l) eqn:El; bool_to_prop; cbn [andb] in *.
    - destruct Hq as [->|]; [|lia]. destruct (IH o l true ltac:(done) Hd) as [?|[?|(e' & He & Ht)]];
        [by left|done|]. right. right. exists e'. set_solver.
    - left. simpl. lia. }
  rewrite !andb_false_r. destruct (0 <? io_ret e) eqn:E.
  - intros Hd. cbn [add_piece x_end x_left negb andb] in *. eapply Hgen; [reflexivity| |exact Hd].
    rewrite andb_true_r. destruct (0 <? left - io_ret e) eqn:El; bool_to_prop; [by left|by right].
  - destruct (io_again e); [|done]. intros Hd. eapply Hgen; [reflexivity|by left|exact Hd].
Qed.

(** ** Properties *)

(** C26. Transfers are contiguous and exactly accounted.  For every data
    block of up to [INT_MAX] bytes and every behaviour of the kernel (short
    counts, retries, errors, any timing): the pieces passed to the kernel are
    consecutive and form a prefix of the data, nothing is skipped or repeated;
    when the loop ends without a hard error the function returns exactly the
    length of that prefix; and it ends early only after the ten-second deadline
    or in one-shot mode. *)
Theorem sock_xfer_exact shot begin data evs :
  Z.of_nat (length data) <= INT_MAX -> kernel_ok (Z.of_nat (length data)) evs ->
  let n := Z.of_nat (length data) in
  let r := sock_xfer shot begin 0 n false evs in
  slices data (x_pieces r) = take (Z.to_nat (n - x_left r)) data /\ 0 <= x_left r <= n /\
  (x_end r = XDone -> xfer_ret n r = Some (n - x_left r)) /\
  (x_end r = XDone -> xfer_ret n r = Some n \/ shot = true \/
     exists e, e ∈ evs /\ sock_timeout (io_now e) begin SOCK_TIMEOUT_TIME = true).
Proof.
  intros Hl Hk n r. unfold INT_MAX in Hl.
  destruct (sock_xfer_pieces shot begin data evs 0 n false) as [H1 H2]; [lia|lia|lia|done|].
  fold r in H1, H2. rewrite drop_0 in H2. split; [done|]. split; [done|].
  assert (H3 : x_end r = XDone -> xfer_ret n r = Some (n - x_left r)).
  { intros E. unfold xfer_ret. rewrite E. f_equal. unfold i32, wraps. rewrite Z.mod_small by lia.
    by rewrite (proj2 (Z.ltb_lt _ _)) by lia. }
  split; [done|]. intros E. destruct (sock_xfer_done shot begin evs 0 n false ltac:(done) E) as [H|H];
    [|by right]. fold r in H. left. rewrite (H3 E). f_equal. lia.
Qed.

Lemma sock_xfer_exact_witness :
  let evs := [{| io_ret := 2; io_again := false; io_now := {| tv_sec := 1; tv_usec := 0 |} |};
              {| io_ret := -1; io_again := true; io_now := {| tv_sec := 1; tv_usec := 200 |} |};
              {| io_ret := 1; io_again := false; io_now := {| tv_sec := 1; tv_usec := 300 |} |}] in
  let r := sock_xfer false 1000000 0 3 false evs in
  slices [7; 8; 9] (x_pieces r) = take (Z.to_nat (3 - x_left r)) [7; 8; 9] /\ 0 <= x_left r <= 3 /\
  (x_end r = XDone -> xfer_ret 3 r = Some (3 - x_left r)) /\
  (x_end r = XDone -> xfer_ret 3 r = Some 3 \/ false = true \/
     exists e, e ∈ evs /\ sock_timeout (io_now e) 1000000 SOCK_TIMEOUT_TIME = true).
Proof.
  apply (sock_xfer_exact false 1000000 [7; 8; 9]).
  - unfold INT_MAX. simpl. lia.
  - simpl. lia.
Defined.
