(* ===== verification/SockServer.v ===== *)
(** * SockServer: socket endpoints and client slots

    Models [src/sources/encoder/sock_util/sock_server.cpp] (set-up, the table of
    client slots, acceptance, disconnection, readiness), the shared client of
    [sock_client.cpp], and the receiver's client of
    [src/sources/streamer/module/irrv-receiver/sock_client.cpp].  The state is
    the server structure and the set of open descriptors; the answers of the
    system calls are arguments. *)

From Stdlib Require Import ZArith Lia String.
From stdpp Require Import base gmap sets list relations.
From S2P Require Import Prelude StdMap SockUtil.

(** ** Data *)

Definition SOCK_MAX_CLIENTS : Z := 512.
Definition FD_SETSIZE : Z := 1024.
Definition SUN_PATH_SIZE : Z := 108.

Inductive SOCK_conn_type_t := SOCK_CONN_TYPE_ABS_SOCK | SOCK_CONN_TYPE_UNIX_SOCK | SOCK_CONN_TYPE_INET_SOCK.

#[export] Instance conn_type_eq_dec : EqDecision SOCK_conn_type_t.
Proof. solve_decision. Defined.

Inductive sock_conn_status_t := disconnect | normal | readable.

Record sock_server_t := {
  sk_type : SOCK_conn_type_t;
  socketfd : Z;
  sk_path : bytes;
  client_slots : list Z;
  rfds : gset Z
}.

(** Where a socket is bound or connected. *)
Inductive address := AUnix (sun_path : bytes) | AInet (port : Z).

Record state := { srv : sock_server_t; open_fds : gset Z }.

Definition set_slots (l : list Z) (s : sock_server_t) : sock_server_t :=
  {| sk_type := sk_type s; socketfd := socketfd s; sk_path := sk_path s; client_slots := l; rfds := rfds s |}.

Definition set_rfds (r : gset Z) (s : sock_server_t) : sock_server_t :=
  {| sk_type := sk_type s; socketfd := socketfd s; sk_path := sk_path s;
     client_slots := client_slots s; rfds := r |}.

(** [close]: closing an invalid descriptor does nothing. *)
Definition close_fd (fd : Z) (o : gset Z) : gset Z := if fd =? -1 then o else o ∖ {[fd]}.

(** ** Slots *)

(** The first free slot at or after [id], or the number of slots. *)
Fixpoint find_slot (id : Z) (slots : list Z) : Z :=
  match slots with
  | [] => id
  | fd :: slots => if -1 =? fd then id else find_slot (id + 1) slots
  end.

Definition sock_server_find_empty_slot (s : sock_server_t) : Z := find_slot 0 (client_slots s).

(** ** Set-up *)

(** The answers of the system during [sock_server_init]. *)
Record init_env := {
  en_socket : Z; en_setsockopt : Z; en_ioctl : Z; en_bind : address -> Z; en_listen : Z;
  en_malloc : bool
}.

(** The text of the two [sprintf]s. *)
Definition sock_path_of (sock_name : bytes) (id : option bytes) : bytes :=
  sock_name ++ match id with Some i => i | None => [] end.

(** The address bound; [sprintf] and [strcpy] write without a bound, so a path
    that does not fit is undefined. *)
Definition bind_address (type : SOCK_conn_type_t) (path : bytes) (port : Z) : option address :=
  match type with
  | SOCK_CONN_TYPE_INET_SOCK => Some (AInet port)
  | _ =>
      if SUN_PATH_SIZE <=? Z.of_nat (length path) then None
      else match type with
           | SOCK_CONN_TYPE_ABS_SOCK => Some (AUnix [])
           | _ => Some (AUnix path)
           end
  end.

(** [sock_server_init]: NULL or the server, and the open descriptors. *)
Definition sock_server_init (env : init_env) (type : SOCK_conn_type_t) (sock_name : bytes)
    (id : option bytes) (port : Z) (o : gset Z) : option (option sock_server_t * gset Z) :=
  let fd := en_socket env in
  if fd <? 0 then Some (None, o)
  else
    let o1 := {[fd]} ∪ o in
    if en_setsockopt env <? 0 then Some (None, close_fd fd o1)
    else if en_ioctl env <? 0 then Some (None, close_fd fd o1)
    else
      addr ← bind_address type (sock_path_of sock_name id) port;
      if en_bind env addr <? 0 then Some (None, close_fd fd o1)
      else if en_listen env <? 0 then Some (None, close_fd fd o1)
      else if negb (en_malloc env) then Some (None, close_fd fd o1)
      else
        Some (Some {| sk_type := type; socketfd := fd;
                      sk_path := match type with
                                 | SOCK_CONN_TYPE_INET_SOCK => []
                                 | _ => sock_path_of sock_name id end;
                      client_slots := repeat (-1) (Z.to_nat SOCK_MAX_CLIENTS); rfds := ∅ |}, o1).

(** Close every slot in use. *)
Definition close_slots (slots : list Z) (o : gset Z) : gset Z :=
  fold_left (fun o fd => if -1 =? fd then o else close_fd fd o) slots o.

(** [sock_server_close]: the descriptors left open (the structure is freed). *)
Definition sock_server_close (server : option sock_server_t) (o : gset Z) : gset Z :=
  match server with
  | None => o
  | Some s => close_slots (client_slots s) (close_fd (socketfd s) o)
  end.

(** ** Clients *)

(** [sock_server_has_newconn]: [nsel] and [isset] are the answers of [select],
    [acc] of [accept] when the table is full.  [FD_SET] is defined for a descriptor
    below [FD_SETSIZE] only; the server's own socket is taken to be one. *)
Definition sock_server_has_newconn (timeout_ms nsel : Z) (isset : bool) (acc : Z) (s : state)
    : option (bool * state) :=
  _ ← int_chk (timeout_ms * 1000);
  if (nsel =? -1) || (nsel =? 0) then Some (false, s)
  else if negb isset then Some (false, s)
  else if sock_server_find_empty_slot (srv s) <? SOCK_MAX_CLIENTS then Some (true, s)
  else
    let o := if acc <? 0 then open_fds s else {[acc]} ∪ open_fds s in
    Some (false, {| srv := srv s; open_fds := close_fd acc o |}).

(** [sock_server_create_client]: the slot of the new client, or [None] for NULL. *)
Definition sock_server_create_client (acc io : Z) (malloc_ok : bool) (s : state)
    : option Z * state :=
  if acc <? 0 then (None, s)
  else
    let o := {[acc]} ∪ open_fds s in
    let drop := (None, {| srv := srv s; open_fds := close_fd acc o |}) in
    if io <? 0 then drop
    else
      let id := sock_server_find_empty_slot (srv s) in
      if SOCK_MAX_CLIENTS <=? id then drop
      else if negb malloc_ok then drop
      else (Some id, {| srv := set_slots (<[Z.to_nat id := acc]> (client_slots (srv s))) (srv s);
                        open_fds := o |}).

(** [sock_server_close_client] of the client with slot [id]. *)
Definition sock_server_close_client (id : Z) (s : state) : option state :=
  fd ← client_slots (srv s) !! Z.to_nat id;
  if -1 =? fd then Some s
  else Some {| srv := set_slots (<[Z.to_nat id := -1]> (client_slots (srv s))) (srv s);
               open_fds := close_fd fd (open_fds s) |}.

(** The descriptors of the slots in use, for [FD_SET]; a descriptor that does
    not fit an [fd_set] is undefined. *)
Fixpoint slot_set (slots : list Z) : option (gset Z) :=
  match slots with
  | [] => Some ∅
  | fd :: slots =>
      if -1 =? fd then slot_set slots
      else if FD_SETSIZE <=? fd then None
      else r ← slot_set slots; Some ({[fd]} ∪ r)
  end.

(** [sock_server_clients_readable]: [ready] is the set [select] leaves. *)
Definition sock_server_clients_readable (timeout_ms nsel : Z) (ready : gset Z) (s : state)
    : option (bool * state) :=
  r ← slot_set (client_slots (srv s));
  _ ← int_chk (timeout_ms * 1000);
  Some (negb ((nsel =? -1) || (nsel =? 0)),
        {| srv := set_rfds (r ∩ ready) (srv s); open_fds := open_fds s |}).

(** [sock_server_check_connect]; [nread] is what [FIONREAD] reports. *)
Definition sock_server_check_connect (id nread : Z) (s : state) : option sock_conn_status_t :=
  fd ← client_slots (srv s) !! Z.to_nat id;
  if (fd <? 0) || (FD_SETSIZE <=? fd) then None
  else if decide (fd ∈ rfds (srv s)) then
    Some (if negb (nread =? 0) then readable else disconnect)
  else Some normal.

(** [sock_server_send] and [sock_server_recv]: NULL arguments give -1. *)
Definition sock_server_send (have_server have_client : bool) (now datalen : Z) (evs : list io) : option Z :=
  if negb have_server then Some (-1)
  else if negb have_client then Some (-1)
  else xfer_ret datalen (sock_xfer false now 0 datalen false evs).

Definition sock_server_recv (have_server have_client : bool) (now datalen : Z) (one_shot : bool)
    (evs : list io) : option Z :=
  if negb have_server then Some (-1)
  else if negb have_client then Some (-1)
  else xfer_ret datalen (sock_xfer one_shot now 0 datalen false evs).

(** ** The shared client of the process *)

Record client_state := { g_client : option Z; g_client_ref : Z; c_open : gset Z }.

Record client_env := {
  ce_socket : Z; ce_connect : address -> Z; ce_malloc : bool; ce_ioctl : Z
}.

(** [sizeof(client->path)] *)
Definition SOCK_MAX_PATH_LEN : Z := 128.

(** [sock_client_init]: the client's descriptor, or [None] for NULL. *)
Definition sock_client_init (env : client_env) (type : SOCK_conn_type_t) (server_path : bytes)
    (port : Z) (s : client_state) : option Z * client_state :=
  match g_client s with
  | Some fd => (Some fd, {| g_client := Some fd; g_client_ref := wrapu 32 (g_client_ref s + 1); c_open := c_open s |})
  | None =>
      let fd := ce_socket env in
      if fd <? 0 then (None, s)
      else
        let fail := (None, {| g_client := None; g_client_ref := g_client_ref s;
                              c_open := close_fd fd ({[fd]} ∪ c_open s) |}) in
        let addr := match type with
                    | SOCK_CONN_TYPE_INET_SOCK => Some (AInet port)
                    | SOCK_CONN_TYPE_ABS_SOCK => Some (AUnix [])
                    | SOCK_CONN_TYPE_UNIX_SOCK =>
                        if SUN_PATH_SIZE - 1 <? Z.of_nat (length server_path) then None
                        else Some (AUnix server_path)
                    end in
        match addr with
        | None => fail
        | Some a =>
            if ce_connect env a <? 0 then fail
            else if negb (ce_malloc env) then fail
            else if ce_ioctl env <? 0 then fail
            else if SOCK_MAX_PATH_LEN - 1 <? Z.of_nat (length server_path) then fail
            else (Some fd, {| g_client := Some fd; g_client_ref := 1; c_open := {[fd]} ∪ c_open s |})
        end
  end.

(** [sock_client_close] of a client returned by [sock_client_init]. *)
Definition sock_client_close (client : option Z) (s : client_state) : option client_state :=
  if decide (client = g_client s) then
    let r := wrapu 32 (g_client_ref s - 1) in
    if r =? 0 then
      fd ← g_client s;
      Some {| g_client := None; g_client_ref := 0; c_open := close_fd fd (c_open s) |}
    else Some {| g_client := g_client s; g_client_ref := r; c_open := c_open s |}
  else match client with
       | Some fd => Some {| g_client := g_client s; g_client_ref := g_client_ref s;
                            c_open := close_fd fd (c_open s) |}
       | None => Some s
       end.

(** [sock_client_check_connect] after [select]. *)
Definition sock_client_check_connect (have_client : bool) (timeout_ms nsel : Z) (isset : bool) (nread : Z)
    : option sock_conn_status_t :=
  if negb have_client then Some normal
  else
    _ ← int_chk (timeout_ms * 1000);
    if (nsel =? -1) || (nsel =? 0) then Some normal
    else if isset then Some (if negb (nread =? 0) then readable else disconnect)
    else Some normal.

(** ** The receiver's client *)

(** [sock_client_send] of the receiver: up to 31 retries, one millisecond
    apart; [None] while it is still waiting. *)
Fixpoint receiver_send (left datalen retry_count : Z) (evs : list io) : option Z :=
  if left <=? 0 then Some (i32 (datalen - left))
  else match evs with
  | [] => None
  | e :: evs =>
      if 0 <? io_ret e then receiver_send (left - io_ret e) datalen retry_count evs
      else if io_again e then
        if retry_count <? 0 then Some (io_ret e)
        else receiver_send left datalen (retry_count - 1) evs
      else Some (io_ret e)
  end.

(** [sock_client_check_connect] of the receiver; [io] is the result of
    [ioctl(FIONREAD)]. *)
Definition receiver_check_connect (fd timeout_ms nsel : Z) (isset : bool) (io nread : Z)
    : option sock_conn_status_t :=
  if fd <? 0 then Some normal
  else if FD_SETSIZE <=? fd then None
  else
    _ ← int_chk (timeout_ms * 1000);
    if (nsel =? -1) || (nsel =? 0) then Some normal
    else if negb isset then Some normal
    else if negb (io =? -1) then Some (if negb (nread =? 0) then readable else disconnect)
    else Some normal.

(** ** The slot invariant *)

(** A server in use: its state and the clients that are connected, by slot. *)
Definition world : Type := state * list Z.

(** [base]: the descriptors that are not client connections. *)
Record slots_inv (base : gset Z) (w : world) : Prop := {
  si_len : Z.of_nat (length (client_slots (srv w.1))) = SOCK_MAX_CLIENTS;
  si_nodup : NoDup w.2;
  si_live : forall id, id ∈ w.2 <-> 0 <= id /\
      exists fd, fd <> -1 /\ client_slots (srv w.1) !! Z.to_nat id = Some fd;
  si_inj : forall i j fd, fd <> -1 -> client_slots (srv w.1) !! i = Some fd ->
      client_slots (srv w.1) !! j = Some fd -> i = j;
  si_open : forall fd, fd ∈ open_fds w.1 <->
      fd ∈ base \/ fd <> -1 /\ exists i, client_slots (srv w.1) !! i = Some fd;
  si_base : forall i fd, fd <> -1 -> client_slots (srv w.1) !! i = Some fd -> fd ∉ base
}.

(** What can happen to a server: [accept] returns a fresh descriptor or fails,
    connected clients are closed, readiness is polled. *)
Inductive server_step : world -> world -> Prop :=
  | ss_create acc io m s live r s' :
      (acc = -1 \/ 0 <= acc /\ acc ∉ open_fds s) ->
      sock_server_create_client acc io m s = (r, s') ->
      server_step (s, live) (s', match r with Some id => id :: live | None => live end)
  | ss_close id s live1 live2 s' :
      sock_server_close_client id s = Some s' ->
      server_step (s, live1 ++ id :: live2) (s', live1 ++ live2)
  | ss_newconn t nsel isset acc s live r s' :
      (acc = -1 \/ 0 <= acc /\ acc ∉ open_fds s) ->
      sock_server_has_newconn t nsel isset acc s = Some (r, s') ->
      server_step (s, live) (s', live)
  | ss_readable t nsel ready s live r s' :
      sock_server_clients_readable t nsel ready s = Some (r, s') ->
      server_step (s, live) (s', live).

(** The slot found is the first free one. *)
Lemma find_slot_spec slots : forall id,
  exists k, (k <= length slots)%nat /\ find_slot id slots = id + Z.of_nat k /\
    ((k < length slots)%nat -> slots !! k = Some (-1)) /\
    forall j, (j < k)%nat -> slots !! j <> Some (-1).
Proof.
  induction slots as [|fd slots IH]; intros id; cbn [find_slot].
  { exists 0%nat. simpl. split; [lia|]. split; [lia|]. split; lia. }
  destruct (-1 =? fd) eqn:E; bool_to_prop.
  - exists 0%nat. simpl. split; [lia|]. split; [lia|]. split; [by subst|lia].
  - destruct (IH (id + 1)) as (k & Hk & -> & H1 & H2). exists (S k). simpl.
    split; [lia|]. split; [lia|]. split; [intros H; apply H1; lia|].
    intros [|j] Hj; simpl; [congruence|]. apply H2. lia.
Qed.

Lemma find_empty_slot_spec base w :
  slots_inv base w ->
  let id := sock_server_find_empty_slot (srv w.1) in
  0 <= id <= SOCK_MAX_CLIENTS /\
  (id < SOCK_MAX_CLIENTS -> client_slots (srv w.1) !! Z.to_nat id = Some (-1)).
Proof.
  intros [Hl _ _ _ _ _]. unfold sock_server_find_empty_slot.
  destruct (find_slot_spec (client_slots (srv w.1)) 0) as (k & Hk & -> & H1 & _).
  cbv zeta. rewrite Z.add_0_l. split; [lia|]. intros H. rewrite Nat2Z.id. apply H1. lia.
Qed.

(** Accepting and closing a fresh descriptor leaves the open set alone. *)
Lemma close_fresh fd (o : gset Z) : 0 <= fd -> fd ∉ o -> close_fd fd ({[fd]} ∪ o) = o.
Proof.
  intros H. unfold close_fd. rewrite (proj2 (Z.eqb_neq fd (-1))) by lia. set_solver.
Qed.

Lemma slots_inv_same base s s' live :
  client_slots (srv s') = client_slots (srv s) -> open_fds s' = open_fds s ->
  slots_inv base (s, live) -> slots_inv base (s', live).
Proof. intros H1 H2 []. split; simpl in *; rewrite ?H1, ?H2; auto. Qed.

Lemma create_client_inv base s live acc io m r s' :
  slots_inv base (s, live) -> (acc = -1 \/ 0 <= acc /\ acc ∉ open_fds s) ->
  sock_server_create_client acc io m s = (r, s') ->
  slots_inv base (s', match r with Some id => id :: live | None => live end).
Proof.
  intros Hi Hacc E. destruct (find_empty_slot_spec base _ Hi) as [Hid Hfree]. simpl in Hid, Hfree.
  unfold sock_server_create_client in E. set (id := sock_server_find_empty_slot (srv s)) in *.
  destruct (acc <? 0) eqn:Ea; bool_to_prop; [by simplify_eq|].
  destruct Hacc as [Hacc|[_ Hacc]]; [lia|].
  assert (Hdrop : slots_inv base ({| srv := srv s; open_fds := close_fd acc ({[acc]} ∪ open_fds s) |}, live)).
  { rewrite close_fresh by done. by eapply slots_inv_same; [| |exact Hi]. }
  destruct (io <? 0); [by simplify_eq|]. destruct (SOCK_MAX_CLIENTS <=? id) eqn:El; [by simplify_eq|].
  destruct (negb m); simplify_eq; [done|]. bool_to_prop. clear Hdrop. specialize (Hfree El).
  destruct Hi as [Hl Hnd Hlv Hin Hop Hba]. simpl in *.
  assert (Hlt : (Z.to_nat id < length (client_slots (srv s)))%nat) by (by eapply lookup_lt_Some).
  assert (Hnew : forall i, client_slots (srv s) !! i = Some acc -> False).
  { intros i Hx. apply Hacc, Hop. right. split; [lia|eauto]. }
  assert (Hlook : forall i fd, fd <> -1 ->
    <[Z.to_nat id := acc]> (client_slots (srv s)) !! i = Some fd <->
    i = Z.to_nat id /\ fd = acc \/ i <> Z.to_nat id /\ client_slots (srv s) !! i = Some fd).
  { intros i fd Hfd. destruct (decide (i = Z.to_nat id)) as [->|Hne].
    - rewrite list_lookup_insert_eq by done. naive_solver.
    - rewrite list_lookup_insert_ne by done. naive_solver. }
  split; simpl.
  - by rewrite length_insert.
  - constructor; [|done]. intros Hx. apply Hlv in Hx as (_ & fd & Hne & Hx). congruence.
  - intros i. rewrite elem_of_cons, Hlv. split.
    + intros [->|(H0 & fd & Hne & Hx)].
      * split; [lia|]. exists acc. split; [lia|]. apply Hlook; [lia|]. auto.
      * split; [done|]. exists fd. split; [done|]. apply Hlook; [done|]. right.
        split; [|done]. intros Heq. rewrite Heq in Hx. congruence.
    + intros (H0 & fd & Hne & Hx). apply Hlook in Hx as [[Hx _]|[_ Hx]]; [|right; eauto|done].
      left. lia.
  - intros i j fd Hne Hx Hy. apply Hlook in Hx; [|done]. apply Hlook in Hy; [|done].
    destruct Hx as [[-> ->]|[Hx1 Hx]], Hy as [[-> Hy2]|[Hy1 Hy]];
      [done|by destruct (Hnew j)|subst; by destruct (Hnew i)|by eapply Hin].
  - intros fd. rewrite elem_of_union, elem_of_singleton, Hop. split.
    + intros [->|[?|(Hne & i & Hx)]]; [|by left|].
      * right. split; [lia|]. exists (Z.to_nat id). apply Hlook; [lia|]. auto.
      * right. split; [done|]. exists i. apply Hlook; [done|]. right. split; [|done].
        intros ->. congruence.
    + intros [?|(Hne & i & Hx)]; [by right; left|].
      apply Hlook in Hx as [[_ ->]|[_ Hx]]; [by left|right; right; eauto|done].
  - intros i fd Hne Hx. apply Hlook in Hx as [[_ ->]|[_ Hx]]; [|by eapply Hba|done].
    intros Hb. apply Hacc, Hop. by left.
Qed.

Lemma close_client_inv base s live1 id live2 s' :
  slots_inv base (s, live1 ++ id :: live2) -> sock_server_close_client id s = Some s' ->
  slots_inv base (s', live1 ++ live2).
Proof.
  intros [Hl Hnd Hlv Hin Hop Hba] E. simpl in *.
  assert (Hid : id ∈ live1 ++ id :: live2) by set_solver.
  pose proof Hid as (H0 & fd & Hfd & Hx)%Hlv.
  unfold sock_server_close_client in E. rewrite Hx in E. cbn [mbind option_bind] in E.
  rewrite (proj2 (Z.eqb_neq _ _)) in E by congruence. simplify_eq.
  assert (Hlt : (Z.to_nat id < length (client_slots (srv s)))%nat) by (by eapply lookup_lt_Some).
  assert (Hlook : forall i f, f <> -1 ->
    <[Z.to_nat id := -1]> (client_slots (srv s)) !! i = Some f <->
    i <> Z.to_nat id /\ client_slots (srv s) !! i = Some f).
  { intros i f Hf. destruct (decide (i = Z.to_nat id)) as [->|Hne].
    - rewrite list_lookup_insert_eq by done. naive_solver.
    - rewrite list_lookup_insert_ne by done. naive_solver. }
  assert (Hnin : id ∉ live1 ++ live2).
  { pose proof Hnd as Hnd2. rewrite <- Permutation_middle in Hnd2. by apply NoDup_cons in Hnd2 as [? _]. }
  split; simpl.
  - by rewrite length_insert.
  - apply NoDup_app in Hnd as (N1 & N2 & N3). apply NoDup_cons in N3 as [N3 N4].
    apply NoDup_app. split_and!; [done| |done]. intros x Hx1 Hx2. apply (N2 x Hx1). set_solver.
  - intros i. split.
    + intros Hi. assert (Hi' : i ∈ live1 ++ id :: live2) by set_solver.
      apply Hlv in Hi' as (Hi0 & f & Hf & Hfi). split; [done|]. exists f. split; [done|].
      apply Hlook; [done|]. split; [|done]. intros Heq. assert (i = id) as -> by lia. done.
    + intros (Hi0 & f & Hf & Hfi). apply Hlook in Hfi as [Hne Hfi]; [|done].
      assert (Hi' : i ∈ live1 ++ id :: live2) by (apply Hlv; eauto).
      apply elem_of_app in Hi' as [?|[->|?]%elem_of_cons]; [set_solver|done|set_solver].
  - intros i j f Hf Hi Hj. apply Hlook in Hi as [_ Hi]; [|done]. apply Hlook in Hj as [_ Hj]; [|done].
    by eapply Hin.
  - intros f. unfold close_fd. rewrite (proj2 (Z.eqb_neq fd (-1))) by done.
    rewrite elem_of_difference, elem_of_singleton, Hop. split.
    + intros [[?|(Hf & i & Hi)] Hne]; [by left|]. right. split; [done|]. exists i.
      apply Hlook; [done|]. split; [|done]. intros ->. congruence.
    + intros [Hb|(Hf & i & Hi)].
      * split; [by left|]. intros ->. by apply (Hba _ _ Hfd Hx).
      * apply Hlook in Hi as [Hne Hi]; [|done]. split; [right; eauto|]. intros ->.
        apply Hne. by eapply Hin.
  - intros i f Hf Hi. apply Hlook in Hi as [_ Hi]; [|done]. by eapply Hba.
Qed.

Lemma has_newconn_inv base s live t nsel isset acc r s' :
  slots_inv base (s, live) -> (acc = -1 \/ 0 <= acc /\ acc ∉ open_fds s) ->
  sock_server_has_newconn t nsel isset acc s = Some (r, s') -> slots_inv base (s', live).
Proof.
  intros Hi Hacc E. unfold sock_server_has_newconn in E. apply bind_Some in E as (_ & _ & E).
  destruct (_ || _); [by simplify_eq|]. destruct (negb _); [by simplify_eq|].
  destruct (_ <? SOCK_MAX_CLIENTS); simplify_eq; [done|].
  apply (slots_inv_same base s); [done| |exact Hi]. simpl.
  destruct Hacc as [->|[H0 Hacc]]; [done|]. rewrite (proj2 (Z.ltb_ge acc 0)) by done.
  by apply close_fresh.
Qed.

Lemma server_step_inv base w w' : server_step w w' -> slots_inv base w -> slots_inv base w'.
Proof.
  intros Hs Hi. destruct Hs as [acc io m s live r s' Hacc E|id s live1 live2 s' E
    |t nsel isset acc s live r s' Hacc E|t nsel ready s live r s' E].
  - by eapply create_client_inv.
  - by eapply close_client_inv.
  - by eapply has_newconn_inv.
  - unfold sock_server_clients_readable in E. apply bind_Some in E as (? & _ & E).
    apply bind_Some in E as (? & _ & E). simplify_eq. by eapply slots_inv_same; [| |exact Hi].
Qed.

(** A server fresh from [sock_server_init]. *)
Lemma slots_inv_init env type name id port o s o' :
  sock_server_init env type name id port o = Some (Some s, o') ->
  slots_inv o' ({| srv := s; open_fds := o' |}, []).
Proof.
  unfold sock_server_init. intros E. destruct (_ <? 0); [done|]. destruct (_ <? 0); [done|].
  destruct (_ <? 0); [done|]. apply bind_Some in E as (a & _ & E).
  destruct (_ <? 0); [done|]. destruct (_ <? 0); [done|]. destruct (negb _); [done|].
  simplify_eq. set (slots := repeat _ _).
  assert (H : forall i fd, slots !! i = Some fd -> fd = -1).
  { intros i fd Hx. apply list_elem_of_lookup_2 in Hx. apply list_elem_of_In, repeat_spec in Hx. done. }
  split; cbn [srv open_fds client_slots fst snd].
  - unfold slots. by rewrite repeat_length.
  - constructor.
  - intros i. split; [by intros ?%not_elem_of_nil|]. intros (_ & fd & Hne & Hx). by apply H in Hx.
  - intros i j fd Hne Hx. by apply H in Hx.
  - intros fd. split; [by left|]. intros [?|(Hne & i & Hx)]; [done|]. by apply H in Hx.
  - intros i fd Hne Hx. by apply H in Hx.
Qed.

(** ** Properties *)

(** C7. Client slots and descriptors are never mixed up or leaked.  From a
    freshly initialised server, whatever connections arrive (with any failures
    on the way), whatever clients are closed and polled: connected clients have
    distinct slots inside the table, each slot in use holds a descriptor of its
    own, and the open descriptors are exactly those from before plus one per
    connected client. *)
Theorem server_slots_exact env type name id port o s o' s' live :
  sock_server_init env type name id port o = Some (Some s, o') ->
  rtc server_step ({| srv := s; open_fds := o' |}, []) (s', live) ->
  NoDup live /\
  (forall i, i ∈ live <-> 0 <= i < SOCK_MAX_CLIENTS /\
     client_slots (srv s') !! Z.to_nat i <> Some (-1)) /\
  (forall i j fd, fd <> -1 -> client_slots (srv s') !! i = Some fd ->
     client_slots (srv s') !! j = Some fd -> i = j) /\
  (forall fd, fd ∈ open_fds s' <->
     fd ∈ o' \/ fd <> -1 /\ exists i, client_slots (srv s') !! i = Some fd).
Proof.
  intros E Hr. apply slots_inv_init in E.
  assert (Hi : slots_inv o' (s', live)).
  { revert E Hr. generalize (@nil Z), ({| srv := s; open_fds := o' |}). intros l st E Hr.
    remember (st, l) as w0. remember (s', live) as w1. subst w1.
    assert (E' : slots_inv o' w0) by (by subst). clear Heqw0 E.
    induction Hr; eauto using server_step_inv. }
  destruct Hi as [Hl Hnd Hlv Hin Hop _]. simpl in *. split; [done|]. split; [|done].
  intros i. rewrite Hlv. split.
  - intros (H0 & fd & Hne & Hx). split; [|congruence]. apply lookup_lt_Some in Hx. lia.
  - intros [H0 Hx]. split; [lia|].
    destruct (lookup_lt_is_Some_2 (client_slots (srv s')) (Z.to_nat i) ltac:(lia)) as [fd Hfd].
    exists fd. split; [congruence|done].
Qed.

Definition demo_env : init_env :=
  {| en_socket := 3; en_setsockopt := 0; en_ioctl := 0; en_bind := fun _ => 0; en_listen := 0;
     en_malloc := true |}.

Definition demo_server : sock_server_t :=
  {| sk_type := SOCK_CONN_TYPE_UNIX_SOCK; socketfd := 3; sk_path := b "/tmp/irr0";
     client_slots := repeat (-1) (Z.to_nat SOCK_MAX_CLIENTS); rfds := ∅ |}.

Definition demo_world : option Z * state :=
  sock_server_create_client 4 0 true {| srv := demo_server; open_fds := {[3]} ∪ ∅ |}.

Lemma server_slots_exact_witness :
  NoDup [0] /\
  (forall i, i ∈ [0] <-> 0 <= i < SOCK_MAX_CLIENTS /\
     client_slots (srv demo_world.2) !! Z.to_nat i <> Some (-1)) /\
  (forall i j fd, fd <> -1 -> client_slots (srv demo_world.2) !! i = Some fd ->
     client_slots (srv demo_world.2) !! j = Some fd -> i = j) /\
  (forall fd, fd ∈ open_fds demo_world.2 <->
     fd ∈ ({[3]} ∪ ∅ : gset Z) \/ fd <> -1 /\ exists i, client_slots (srv demo_world.2) !! i = Some fd).
Proof.
  apply (server_slots_exact demo_env SOCK_CONN_TYPE_UNIX_SOCK (b "/tmp/irr") (Some (b "0")) 0 ∅
           demo_server).
  - reflexivity.
  - apply rtc_once. apply (ss_create 4 0 true _ [] (Some 0)); [|reflexivity].
    right. split; [lia|]. simpl. set_solver.
Defined.

(** Abstract sockets ignore their name: whatever name and id are
    configured, an abstract server that binds at all binds to the same empty
    abstract name (and the client connects to it), so two such servers cannot
    coexist. *)
Theorem abstract_name_ignored name id port :
  bind_address SOCK_CONN_TYPE_ABS_SOCK (sock_path_of name id) port = None \/
  bind_address SOCK_CONN_TYPE_ABS_SOCK (sock_path_of name id) port = Some (AUnix []).
Proof. unfold bind_address. destruct (_ <=? _); auto. Qed.
