(* ===== verification/TransCoder.v ===== *)
(** * TransCoder: run-time settings of the transcoder

    Models the control interface of [src/sources/encoder/shared/CTransCoder.cpp]
    (the setters the streamer calls while the transcoding thread runs), and the
    profile and level tables of [ProfileLevel.h] with the look-ups of
    [CFFEncoder.cpp].  The integer and boolean members of the object are a
    finite memory indexed by the member's name; options handed to FFmpeg are
    the sequence of [av_dict_set] calls. *)

From Stdlib Require Import ZArith Lia String.
From stdpp Require Import base gmap list functions pretty.
From S2P Require Import Prelude StdMap.

(** ** Codecs, profiles and levels *)

Definition AV_CODEC_ID_MJPEG : Z := 7.
Definition AV_CODEC_ID_H264 : Z := 27.
Definition AV_CODEC_ID_HEVC : Z := 173.
Definition AV_CODEC_ID_AV1 : Z := 226.

(** A [std::map] built from an initialiser list: the first of two equal keys wins. *)
Definition smap_of {A} (l : list (bytes * A)) : smap A :=
  fold_left (fun m kv => match sm_find kv.1 m with
                         | Some _ => m
                         | None => sm_insert kv.1 kv.2 m end) l [].

Definition vaapi_encode_h264_profiles : smap Z := smap_of
  [(b "high", 100); (b "main", 77); (b "constrained_baseline", Z.lor 66 (Z.shiftl 1 9)); (b "default", 100)].

Definition vaapi_encode_h265_profiles : smap Z := smap_of
  [(b "main", 1); (b "main10", 2); (b "rext", 4); (b "default", 1)].

Definition vaapi_encode_mjpeg_profiles : smap Z := smap_of
  [(b "baseline", 192); (b "default", 192)].

Definition vaapi_encode_av1_profiles : smap Z := smap_of
  [(b "main", 0); (b "high", 1); (b "professional", 2); (b "default", 0)].

Definition vaapi_encode_h264_levels : smap Z := smap_of
  [(b "1", 10); (b "1.1", 11); (b "1.2", 12); (b "1.3", 13); (b "2", 20); (b "2.1", 21);
   (b "2.2", 22); (b "3", 30); (b "3.1", 31); (b "3.2", 32); (b "4", 40); (b "4.1", 41);
   (b "4.2", 42); (b "5", 50); (b "5.1", 51); (b "5.2", 52); (b "6", 60); (b "6.1", 61);
   (b "6.2", 62); (b "default", 42)].

Definition vaapi_encode_h265_levels : smap Z := smap_of
  [(b "1", 30); (b "2", 60); (b "2.1", 63); (b "3", 90); (b "3.1", 93); (b "4", 120);
   (b "4.1", 123); (b "5", 150); (b "5.1", 153); (b "5.2", 156); (b "6", 180); (b "6.1", 183);
   (b "6.2", 186); (b "default", 120)].

Definition vaapi_encode_av1_levels : smap Z := smap_of
  [(b "2", 20); (b "2.1", 21); (b "2.2", 22); (b "2.3", 23); (b "3", 30); (b "3.1", 31);
   (b "3.2", 32); (b "3.3", 33); (b "4", 40); (b "4.1", 41); (b "4.2", 42); (b "4.3", 43);
   (b "5", 50); (b "5.1", 51); (b "5.2", 52); (b "5.3", 53); (b "6", 60); (b "6.1", 61);
   (b "6.2", 62); (b "6.3", 63); (b "7 ", 70); (b "7.1", 71); (b "7.2", 72); (b "7.3", 73);
   (b "default", 40)].

(** The first key in map order that carries the value; empty when none does. *)
Fixpoint name_by_value (v : Z) (m : smap Z) : bytes :=
  match m with
  | [] => []
  | (k, x) :: m => if x =? v then k else name_by_value v m
  end.

(** [CFFEncoder::getProfileNameByValue] of an encoder for [codec_id]. *)
Definition getProfileNameByValue (codec_id v : Z) : bytes :=
  if codec_id =? AV_CODEC_ID_H264 then name_by_value v vaapi_encode_h264_profiles
  else if codec_id =? AV_CODEC_ID_HEVC then name_by_value v vaapi_encode_h265_profiles
  else if codec_id =? AV_CODEC_ID_MJPEG then name_by_value v vaapi_encode_mjpeg_profiles
  else if codec_id =? AV_CODEC_ID_AV1 then name_by_value v vaapi_encode_av1_profiles
  else [].

(** [CFFEncoder::getLevelNameByValue]. *)
Definition getLevelNameByValue (codec_id v : Z) : bytes :=
  if codec_id =? AV_CODEC_ID_H264 then name_by_value v vaapi_encode_h264_levels
  else if codec_id =? AV_CODEC_ID_HEVC then name_by_value v vaapi_encode_h265_levels
  else if codec_id =? AV_CODEC_ID_MJPEG then []
  else if codec_id =? AV_CODEC_ID_AV1 then name_by_value v vaapi_encode_av1_levels
  else [].

(** ** The object *)

(** Its members that the setters write; a [bool] member holds 0 or 1. *)
Inductive member :=
  | m_forceKeyFrame | m_setQP | m_setBitrate | m_bitrate | m_setMaxBitrate | m_maxBitrate
  | m_setMinMaxQP | m_maxQP | m_minQP | m_setFramerate | m_frameRate | m_setMaxframeSize
  | m_setRIR | m_IntRefType | m_IntRefCycleSize | m_IntRefQPDelta | m_setROI
  | m_setSEI | m_SEIType | m_SEIUserId | m_setDynamicEncode | m_gopSize | m_setGopSize
  | m_screenCaptureFlag | m_screenCaptureInterval | m_screenCaptureQuality | m_nCodec
  | m_isResolutionChange | m_isCodecChange | m_newWidth | m_newHeight | m_bSkipFrame
  | m_isAlphaChannelMode | m_buffer_width | m_buffer_height | m_isProfileLevelChange
  | m_vaapiPlugin | m_qsvPlugin | m_tcae | m_tcaeOn.

#[export] Instance member_eq_dec : EqDecision member.
Proof. solve_decision. Defined.

Record CTransCoder := {
  mem : member -> Z;
  m_pOutProp : list (bytes * option bytes);    (** the [av_dict_set] calls, oldest first *)
  m_mEncoders : gmap Z Z                       (** the codec of each stream's encoder *)
}.

Definition DEFAULT_SCREEN_CAPTURE_QUALITY : Z := 80.

(** The members' initialisers. *)
Definition mem0 : member -> Z :=
  <[m_screenCaptureQuality := DEFAULT_SCREEN_CAPTURE_QUALITY]> (<[m_vaapiPlugin := 1]> (fun _ => 0)).

(** A new object after [init] with [codec_type]. *)
Definition CTransCoder_init (codec_type : Z) : CTransCoder :=
  {| mem := <[m_nCodec := codec_type]> (<[m_screenCaptureQuality := DEFAULT_SCREEN_CAPTURE_QUALITY]> mem0);
     m_pOutProp := []; m_mEncoders := ∅ |}.

(** Assign a member. *)
Definition wr (f : member) (v : Z) (t : CTransCoder) : CTransCoder :=
  {| mem := <[f := v]> (mem t); m_pOutProp := m_pOutProp t; m_mEncoders := m_mEncoders t |}.

Definition setOutputProp (key : bytes) (value : option bytes) (t : CTransCoder) : CTransCoder :=
  {| mem := mem t; m_pOutProp := m_pOutProp t ++ [(key, value)]; m_mEncoders := m_mEncoders t |}.

(** ** Setters *)

Definition forceKeyFrame (force : Z) (t : CTransCoder) : CTransCoder :=
  wr m_setDynamicEncode 1 (wr m_forceKeyFrame force t).

Definition setQP (qp : Z) (t : CTransCoder) : CTransCoder :=
  wr m_setDynamicEncode 1 (wr m_setQP qp t).

Definition setBitrate (bitrate : Z) (t : CTransCoder) : CTransCoder :=
  wr m_setDynamicEncode 1 (wr m_bitrate bitrate (wr m_setBitrate bitrate t)).

Definition setMaxBitrate (max_bitrate : Z) (t : CTransCoder) : CTransCoder :=
  wr m_setDynamicEncode 1 (wr m_maxBitrate max_bitrate (wr m_setMaxBitrate max_bitrate t)).

(** The rate is a float; those that reach it here hold integers. *)
Definition setFramerate (framerate : Z) (t : CTransCoder) : CTransCoder :=
  wr m_setDynamicEncode 1 (wr m_frameRate framerate (wr m_setFramerate framerate t)).

Definition setMaxFrameSize (size : Z) (t : CTransCoder) : Z * CTransCoder :=
  (0, wr m_setDynamicEncode 1 (wr m_setMaxframeSize size t)).

Definition setRollingIntraRefresh (type cycle_size qp_delta : Z) (t : CTransCoder) : CTransCoder :=
  wr m_setDynamicEncode 1 (wr m_IntRefQPDelta qp_delta (wr m_IntRefCycleSize cycle_size
    (wr m_IntRefType type (wr m_setRIR 1 t)))).

Definition setMinMaxQP (min_qp max_qp : Z) (t : CTransCoder) : Z * CTransCoder :=
  (0, wr m_setDynamicEncode 1 (wr m_maxQP max_qp (wr m_minQP min_qp (wr m_setMinMaxQP 1 t)))).

Definition RESOLUTION_WIDTH_MIN : Z := 32.
Definition RESOLUTION_WIDTH_MAX : Z := 4096.
Definition RESOLUTION_HEIGHT_MIN : Z := 32.
Definition RESOLUTION_HEIGHT_MAX : Z := 4096.

Definition changeResolution (width height : Z) (t : CTransCoder) : Z * CTransCoder :=
  if (width <? RESOLUTION_WIDTH_MIN) || (RESOLUTION_WIDTH_MAX <? width)
     || (height <? RESOLUTION_HEIGHT_MIN) || (RESOLUTION_HEIGHT_MAX <? height)
  then (-1, t)
  else (0, wr m_newHeight height (wr m_newWidth width (wr m_isResolutionChange 1 t))).

(** The name of the encoder chosen for a codec, by plug-in. *)
Definition encoder_prop (vaapi qsv : bytes) (t : CTransCoder) : CTransCoder :=
  if negb (mem t m_vaapiPlugin =? 0) then setOutputProp (b "c") (Some vaapi) t
  else if negb (mem t m_qsvPlugin =? 0) then setOutputProp (b "c") (Some qsv) t
  else t.

Definition changeCodec (codec_type : Z) (t : CTransCoder) : Z * CTransCoder :=
  if negb (codec_type =? AV_CODEC_ID_H264) && negb (codec_type =? AV_CODEC_ID_HEVC) then (-1, t)
  else if negb (mem t m_nCodec =? codec_type) then
    let t := wr m_isCodecChange 1 (wr m_nCodec codec_type t) in
    let t := setOutputProp (b "level") None (setOutputProp (b "profile") None t) in
    (0, if mem t m_nCodec =? AV_CODEC_ID_H264 then encoder_prop (b "h264_vaapi") (b "h264_qsv") t
        else if mem t m_nCodec =? AV_CODEC_ID_HEVC then encoder_prop (b "hevc_vaapi") (b "hevc_qsv") t
        else if mem t m_nCodec =? AV_CODEC_ID_AV1 then encoder_prop (b "av1_vaapi") (b "av1_qsv") t
        else t)
  else (0, t).

Definition setSEI (sei_type sei_user_id : Z) (t : CTransCoder) : Z * CTransCoder :=
  (0, wr m_setDynamicEncode 1 (wr m_SEIUserId sei_user_id (wr m_SEIType sei_type (wr m_setSEI 1 t)))).

Definition setGopSize (size : Z) (t : CTransCoder) : Z * CTransCoder :=
  if size <? 1 then (-1, t)
  else if size =? mem t m_gopSize then (0, t)
  else (0, wr m_setDynamicEncode 1 (wr m_gopSize size (wr m_setGopSize 1 t))).

Definition setSkipFrameFlag (bSkipFrame : bool) (t : CTransCoder) : CTransCoder :=
  wr m_bSkipFrame (Z.b2z bSkipFrame) t.

Definition getSkipFrameFlag (t : CTransCoder) : bool := negb (mem t m_bSkipFrame =? 0).

Definition setScreenCaptureFlag (bAllowCapture : bool) (t : CTransCoder) : CTransCoder :=
  wr m_screenCaptureFlag (Z.b2z bAllowCapture) t.

Definition setScreenCaptureInterval (capture_interval : Z) (t : CTransCoder) : CTransCoder :=
  wr m_screenCaptureInterval capture_interval t.

Definition setScreenCaptureQuality (qualityFactor : Z) (t : CTransCoder) : CTransCoder :=
  if (qualityFactor <? 1) || (100 <? qualityFactor)
  then wr m_screenCaptureQuality DEFAULT_SCREEN_CAPTURE_QUALITY t
  else wr m_screenCaptureQuality qualityFactor t.

Definition setVideoMode (isAlpha : bool) (t : CTransCoder) : CTransCoder :=
  wr m_isAlphaChannelMode (Z.b2z isAlpha) t.

Definition setFrameBufferSize (width height : Z) (t : CTransCoder) : CTransCoder :=
  wr m_buffer_height height (wr m_buffer_width width t).

Definition getEncodeNewWidth (t : CTransCoder) : Z := mem t m_newWidth.
Definition getEncodeNewHeight (t : CTransCoder) : Z := mem t m_newHeight.

(** [changeEncoderProfileLevel]; undefined without an encoder for stream 0
    ([operator[]] then yields a null pointer). *)
Definition changeEncoderProfileLevel (iProfile iLevel : Z) (t : CTransCoder) : option (Z * CTransCoder) :=
  codec_id ← m_mEncoders t !! 0;
  let p := getProfileNameByValue codec_id iProfile in
  let l := getLevelNameByValue codec_id iLevel in
  if str_eqb p [] && str_eqb l [] then Some (-1, t)
  else
    let t := if negb (str_eqb p []) then setOutputProp (b "profile") (Some p) t else t in
    let t := if negb (str_eqb l []) then setOutputProp (b "level") (Some l) t else t in
    Some (0, wr m_isProfileLevelChange 1 t).

(** [setClientFeedback]; [feedback] is what the rate predictor answers. *)
Definition setClientFeedback (feedback : Z -> Z -> Z) (delay size : Z) (t : CTransCoder) : Z :=
  if negb (mem t m_tcaeOn =? 0) && negb (mem t m_tcae =? 0) then feedback delay size else 0.

(** ** What the settings keep *)

(** Sizes, capture quality and GOP a running encoder may be asked to apply. *)
Record settings_ok (t : CTransCoder) : Prop := {
  so_size : mem t m_newWidth = 0 /\ mem t m_newHeight = 0 \/
    RESOLUTION_WIDTH_MIN <= mem t m_newWidth <= RESOLUTION_WIDTH_MAX /\
    RESOLUTION_HEIGHT_MIN <= mem t m_newHeight <= RESOLUTION_HEIGHT_MAX;
  so_quality : 1 <= mem t m_screenCaptureQuality <= 100;
  so_gop : 0 <= mem t m_gopSize
}.

#[global] Arguments wr : simpl never.

Lemma mem_wr f v t g : mem (wr f v t) g = if decide (f = g) then v else mem t g.
Proof.
  unfold wr; cbn [mem]. destruct (decide (f = g)) as [->|N].
  - by rewrite fn_lookup_insert.
  - by rewrite fn_lookup_insert_ne.
Qed.

Lemma mem_prop k v t g : mem (setOutputProp k v t) g = mem t g.
Proof. reflexivity. Qed.

(** Read back the members a chain of assignments leaves. *)
Ltac mem_simpl :=
  rewrite ?mem_prop, ?mem_wr;
  repeat first [rewrite decide_True by done | rewrite decide_False by done].

(** Writing any member outside the constrained ones keeps the settings. *)
Lemma settings_ok_wr f v t :
  f <> m_newWidth -> f <> m_newHeight -> f <> m_screenCaptureQuality -> f <> m_gopSize ->
  settings_ok t -> settings_ok (wr f v t).
Proof.
  intros N1 N2 N3 N4 [S Q G].
  split; rewrite ?mem_wr, ?decide_False by done; done.
Qed.

Lemma settings_ok_prop k v t : settings_ok t -> settings_ok (setOutputProp k v t).
Proof. intros [S Q G]. by split. Qed.

#[export] Hint Resolve settings_ok_wr settings_ok_prop : cstream.
#[export] Hint Extern 4 (@eq member _ _ -> False) => discriminate : cstream.
#[export] Hint Extern 4 (not (@eq member _ _)) => discriminate : cstream.

Lemma settings_ok_init codec : settings_ok (CTransCoder_init codec).
Proof. split; vm_compute; intuition congruence. Qed.

Lemma changeResolution_ok w h t : settings_ok t -> settings_ok (changeResolution w h t).2.
Proof.
  intros S. unfold changeResolution. split_match; [done|]. bool_to_prop. destruct S as [S Q G].
  split; cbn [snd]; mem_simpl; [right; lia|done..].
Qed.

Lemma setGopSize_ok n t : settings_ok t -> settings_ok (setGopSize n t).2.
Proof.
  intros S. unfold setGopSize. repeat split_match; [done..|]. bool_to_prop. destruct S as [S Q G].
  split; cbn [snd]; mem_simpl; [done..|lia].
Qed.

Lemma setScreenCaptureQuality_ok q t : settings_ok t -> settings_ok (setScreenCaptureQuality q t).
Proof.
  intros [S Q G]. unfold setScreenCaptureQuality. split_match; bool_to_prop;
    split; mem_simpl; try done; unfold DEFAULT_SCREEN_CAPTURE_QUALITY; lia.
Qed.

Lemma encoder_prop_mem v q t g : mem (encoder_prop v q t) g = mem t g.
Proof. unfold encoder_prop. by repeat split_match. Qed.

(** A codec change leaves the requested codec in place, and nothing else changes
    but the change flag. *)
Lemma changeCodec_mem c t g :
  mem (changeCodec c t).2 g =
    if ((c =? AV_CODEC_ID_H264) || (c =? AV_CODEC_ID_HEVC)) && negb (mem t m_nCodec =? c) then
      if decide (g = m_nCodec) then c else if decide (g = m_isCodecChange) then 1 else mem t g
    else mem t g.
Proof.
  unfold changeCodec.
  destruct (c =? AV_CODEC_ID_H264) eqn:E1, (c =? AV_CODEC_ID_HEVC) eqn:E2; cbn [negb andb orb];
    try done; destruct (mem t m_nCodec =? c); cbn [negb snd]; try done.
  all: trans (mem (wr m_isCodecChange 1 (wr m_nCodec c t)) g);
    [repeat (split_match; rewrite ?encoder_prop_mem); done|].
  all: rewrite !mem_wr; destruct (decide (m_isCodecChange = g)) as [<-|];
    [done|destruct (decide (m_nCodec = g)) as [<-|]; [done|]];
    by rewrite !decide_False by congruence.
Qed.

Lemma changeCodec_ok c t : settings_ok t -> settings_ok (changeCodec c t).2.
Proof.
  intros [S Q G]. split; rewrite !changeCodec_mem; destruct (_ && _); done.
Qed.

Lemma changeCodec_ret c t :
  (changeCodec c t).1 = 0 <-> c = AV_CODEC_ID_H264 \/ c = AV_CODEC_ID_HEVC.
Proof.
  unfold changeCodec.
  destruct (Z.eqb_spec c AV_CODEC_ID_H264), (Z.eqb_spec c AV_CODEC_ID_HEVC); cbn [negb andb];
    try (destruct (negb _); simpl; tauto). simpl. naive_solver.
Qed.

Lemma changeEncoderProfileLevel_ok p l t r t' :
  changeEncoderProfileLevel p l t = Some (r, t') -> settings_ok t ->
  settings_ok t' /\ mem t' m_nCodec = mem t m_nCodec.
Proof.
  unfold changeEncoderProfileLevel. intros E S.
  destruct (m_mEncoders t !! 0) as [c|]; simpl in E; [|done].
  repeat split_match_in E; simplify_eq; (split; [|reflexivity]);
    repeat apply settings_ok_prop; try done; apply settings_ok_wr; auto with cstream.
Qed.
