(* ===== verification/IrrWorld.v ===== *)
(** * IrrWorld: the state shared by the streamer and its protocol

    The encoder library is one process with a global streamer
    ([IrrStreamer.cpp], [pStreamer]), the global tables of
    [irrv/irrv_protocol.cpp] ([clients], [auth_pass]) and the socket servers
    they refer to.  The operations of both files call each other (a codec change
    sends a message to the client, a client's control changes the encoder), so
    their state is one record.  What the process does to the outside is a trace
    of events. *)

From Stdlib Require Import ZArith Lia String.
From stdpp Require Import base gmap sets list.
From S2P Require Import Prelude StdMap SockUtil SockServer TransCoder.

(** ** The streamer *)

(** [CIrrVideoDemux], as far as the streamer sets it. *)
Record demux := { dx_framerate : Z; dx_first_start : bool; dx_renderfps : bool;
                  dx_vasurface : bool; dx_qsvsurface : bool }.

Record IrrStreamer := {
  m_pDemux : option demux;
  m_pTrans : option CTransCoder;
  m_pMux : option (Z * Z);           (** the callback's two servers, 0 for NULL *)
  m_pRuntimeWriter : bool;
  m_nWidth : Z; m_nHeight : Z; m_nCodecId : Z; m_fFramerate : Z;
  m_bVASurface : bool; m_bQSVSurface : bool;
  m_nClientNum : Z; m_bAllowEncode : bool; m_bAllowTransmit : bool;
  m_auth : bool; m_tcaeEnabled : bool
}.

(** ** The outside *)

(** The structures of [irrv_protocol.h] the server sends. *)
Inductive msg :=
  | VHEAD (flags width height format auth : Z)
  | VAUTH_ACK (result : Z)
  | VFRAME (flags data_size width height : Z)
  | VDATA (data : bytes)
  | VMESSAGE (msg_type value : Z).

(** Events on a server (its address) and a client (its slot there). *)
Inductive event :=
  | Accepted (server slot : Z)
  | Closed (server slot : Z)
  | Auth_request (server slot : Z) (id key : bytes)
  | Control (server slot ctrl_type : Z)
  | Sent (server slot : Z) (m : msg)
  | Shutdown (server : Z) (left_open : gset Z).

(** Calls of the file writer. *)
Inductive rt_mode := INPUT | OUTPUT | INOUT.
Inductive rt_call := rt_start (m : rt_mode) (frame_num : Z) | rt_stop (m : rt_mode) | rt_codec (codec : Z).

Record world := {
  streamer : option IrrStreamer;
  clients : gmap Z (option Z);
  auth_pass : gmap Z bool;
  servers : gmap Z state;
  g_wb_frame_idx : Z;
  writer_calls : list rt_call;
  trace : list event                   (** oldest first *)
}.

Definition set_streamer (s : option IrrStreamer) (w : world) : world :=
  {| streamer := s; clients := clients w; auth_pass := auth_pass w; servers := servers w;
     g_wb_frame_idx := g_wb_frame_idx w; writer_calls := writer_calls w; trace := trace w |}.
Definition set_client (server : Z) (c : option Z) (w : world) : world :=
  {| streamer := streamer w; clients := <[server := c]> (clients w); auth_pass := auth_pass w;
     servers := servers w; g_wb_frame_idx := g_wb_frame_idx w; writer_calls := writer_calls w;
     trace := trace w |}.
Definition set_auth (server : Z) (a : bool) (w : world) : world :=
  {| streamer := streamer w; clients := clients w; auth_pass := <[server := a]> (auth_pass w);
     servers := servers w; g_wb_frame_idx := g_wb_frame_idx w; writer_calls := writer_calls w;
     trace := trace w |}.
Definition set_servers (m : gmap Z state) (w : world) : world :=
  {| streamer := streamer w; clients := clients w; auth_pass := auth_pass w; servers := m;
     g_wb_frame_idx := g_wb_frame_idx w; writer_calls := writer_calls w; trace := trace w |}.
Definition set_wb_idx (n : Z) (w : world) : world :=
  {| streamer := streamer w; clients := clients w; auth_pass := auth_pass w; servers := servers w;
     g_wb_frame_idx := n; writer_calls := writer_calls w; trace := trace w |}.
Definition emit (e : event) (w : world) : world :=
  {| streamer := streamer w; clients := clients w; auth_pass := auth_pass w; servers := servers w;
     g_wb_frame_idx := g_wb_frame_idx w; writer_calls := writer_calls w; trace := trace w ++ [e] |}.
Definition call_writer (c : rt_call) (w : world) : world :=
  {| streamer := streamer w; clients := clients w; auth_pass := auth_pass w; servers := servers w;
     g_wb_frame_idx := g_wb_frame_idx w; writer_calls := writer_calls w ++ [c]; trace := trace w |}.

(** ** Clients of a server *)

Definition client_of (server : Z) (w : world) : option Z :=
  match clients w !! server with Some (Some slot) => Some slot | _ => None end.

Definition irrv_have_client (server : Z) (w : world) : bool :=
  match clients w !! server with Some (Some _) => true | _ => false end.

Definition irrv_get_auth_state (server : Z) (w : world) : bool :=
  match auth_pass w !! server with Some a => a | None => false end.

(** [sock_server_send(server, clients[server], ...)]: nothing is sent without a client. *)
Definition send_to (server : Z) (m : msg) : cmd world unit :=
  cmodify (fun w => match client_of server w with
                    | Some slot => emit (Sent server slot m) w
                    | None => w end).

(** [irrv_send_message]: server 0 is NULL. *)
Definition irrv_send_message (server msg_type value : Z) : cmd world Z := fun w =>
  if server =? 0 then Some (0, w)
  else if irrv_have_client server w then
    (send_to server (VMESSAGE msg_type (u32 value));;; cret 0) w
  else Some (0, w).

(** [CCallbackMux::sendMessage] with the protocol's callback installed. *)
Definition mux_sendMessage (mux : Z * Z) (msg_type value : Z) : cmd world Z :=
  irrv_send_message mux.1 msg_type value;;;
  irrv_send_message mux.2 msg_type value;;;
  cret 0.
