(* ===== verification/IrrStreamer.v ===== *)
(** * IrrStreamer: the streamer and its C interface

    Models the methods of [src/sources/encoder/shared/IrrStreamer.cpp] that act
    on a running stream, each under the streamer's lock, and the functions of
    [stream.cpp] that look the streamer up and call them. *)

From Stdlib Require Import ZArith Lia String.
From stdpp Require Import base gmap sets list relations pretty.
From S2P Require Import Prelude StdMap SockUtil SockServer TransCoder IrrWorld.

Definition EINVAL : Z := 22.
Definition ENAVAIL : Z := 119.
Definition AVERROR (e : Z) : Z := - e.

(** ** Construction *)

Definition IrrStreamer_new (w h framerate : Z) : IrrStreamer :=
  {| m_pDemux := None; m_pTrans := None; m_pMux := None; m_pRuntimeWriter := false;
     m_nWidth := w; m_nHeight := h; m_nCodecId := 0; m_fFramerate := framerate;
     m_bVASurface := false; m_bQSVSurface := false; m_nClientNum := 0;
     m_bAllowEncode := false; m_bAllowTransmit := false; m_auth := false; m_tcaeEnabled := false |}.

(** [stop]: undefined on a streamer that is not started. *)
Definition stop : cmd IrrStreamer unit := fun s =>
  match m_pTrans s with
  | None => None
  | Some _ => Some (tt,
      {| m_pDemux := None; m_pTrans := None; m_pMux := m_pMux s; m_pRuntimeWriter := m_pRuntimeWriter s;
         m_nWidth := m_nWidth s; m_nHeight := m_nHeight s; m_nCodecId := m_nCodecId s;
         m_fFramerate := m_fFramerate s; m_bVASurface := m_bVASurface s; m_bQSVSurface := m_bQSVSurface s;
         m_nClientNum := m_nClientNum s; m_bAllowEncode := m_bAllowEncode s;
         m_bAllowTransmit := m_bAllowTransmit s; m_auth := m_auth s; m_tcaeEnabled := m_tcaeEnabled s |})
  end.

(** Updates of a group of members. *)
Definition upd_trans (t : CTransCoder) (s : IrrStreamer) : IrrStreamer :=
  {| m_pDemux := m_pDemux s; m_pTrans := Some t; m_pMux := m_pMux s; m_pRuntimeWriter := m_pRuntimeWriter s;
     m_nWidth := m_nWidth s; m_nHeight := m_nHeight s; m_nCodecId := m_nCodecId s;
     m_fFramerate := m_fFramerate s; m_bVASurface := m_bVASurface s; m_bQSVSurface := m_bQSVSurface s;
     m_nClientNum := m_nClientNum s; m_bAllowEncode := m_bAllowEncode s;
     m_bAllowTransmit := m_bAllowTransmit s; m_auth := m_auth s; m_tcaeEnabled := m_tcaeEnabled s |}.
Definition upd_video (d : option demux) (codec framerate : Z) (va qsv : bool) (s : IrrStreamer) : IrrStreamer :=
  {| m_pDemux := d; m_pTrans := m_pTrans s; m_pMux := m_pMux s; m_pRuntimeWriter := m_pRuntimeWriter s;
     m_nWidth := m_nWidth s; m_nHeight := m_nHeight s; m_nCodecId := codec;
     m_fFramerate := framerate; m_bVASurface := va; m_bQSVSurface := qsv;
     m_nClientNum := m_nClientNum s; m_bAllowEncode := m_bAllowEncode s;
     m_bAllowTransmit := m_bAllowTransmit s; m_auth := m_auth s; m_tcaeEnabled := m_tcaeEnabled s |}.
Definition upd_flags (num : Z) (enc tx : bool) (s : IrrStreamer) : IrrStreamer :=
  {| m_pDemux := m_pDemux s; m_pTrans := m_pTrans s; m_pMux := m_pMux s; m_pRuntimeWriter := m_pRuntimeWriter s;
     m_nWidth := m_nWidth s; m_nHeight := m_nHeight s; m_nCodecId := m_nCodecId s;
     m_fFramerate := m_fFramerate s; m_bVASurface := m_bVASurface s; m_bQSVSurface := m_bQSVSurface s;
     m_nClientNum := num; m_bAllowEncode := enc;
     m_bAllowTransmit := tx; m_auth := m_auth s; m_tcaeEnabled := m_tcaeEnabled s |}.

(** Keep everything but the demuxer. *)
Definition upd_demux (d : demux) (s : IrrStreamer) : IrrStreamer :=
  upd_video (Some d) (m_nCodecId s) (m_fFramerate s) (m_bVASurface s) (m_bQSVSurface s) s.

(** Call the transcoder, or answer [none] when there is none. *)
Definition with_trans {A} (none : A) (op : CTransCoder -> option (A * CTransCoder)) : cmd IrrStreamer A :=
  fun s => match m_pTrans s with
           | None => Some (none, s)
           | Some t => '(r, t') ← op t; Some (r, upd_trans t' s)
           end.

(** ** Encoder settings *)

Definition force_key_frame (force : Z) : cmd IrrStreamer Z :=
  with_trans (AVERROR EINVAL) (fun t => Some (0, if negb (force =? 0) then forceKeyFrame 1 t else t)).

Definition set_qp (qp : Z) : cmd IrrStreamer Z :=
  with_trans (AVERROR EINVAL) (fun t => Some (0, setQP qp t)).

Definition set_bitrate (bitrate : Z) : cmd IrrStreamer Z :=
  with_trans (AVERROR EINVAL) (fun t => Some (0, setBitrate bitrate t)).

Definition set_max_bitrate (max_bitrate : Z) : cmd IrrStreamer Z :=
  with_trans (AVERROR EINVAL) (fun t => Some (0, setMaxBitrate max_bitrate t)).

Definition set_max_frame_size (size : Z) : cmd IrrStreamer Z :=
  with_trans (AVERROR EINVAL) (fun t => Some (setMaxFrameSize size t)).

Definition set_rolling_intra_refresh (type cycle_size qp_delta : Z) : cmd IrrStreamer Z :=
  with_trans (AVERROR EINVAL) (fun t => Some (0, setRollingIntraRefresh type cycle_size qp_delta t)).

Definition set_min_max_qp (min_qp max_qp : Z) : cmd IrrStreamer Z :=
  with_trans (AVERROR EINVAL) (fun t => Some (setMinMaxQP min_qp max_qp t)).

(** [std::to_string] of a float that holds an integer. *)
Definition to_string_float (z : Z) : bytes := b (pretty z) ++ b ".000000".

(** [set_framerate]: the conversion of the rate to [int] is undefined when it
    does not fit. *)
Definition set_framerate (framerate : Z) : cmd IrrStreamer Z := fun s =>
  match m_pTrans s with
  | None => Some (AVERROR EINVAL, s)
  | Some t =>
      let t := setOutputProp (b "r") (Some (to_string_float framerate)) (setFramerate framerate t) in
      d ← m_pDemux s;
      n ← int_chk framerate;
      Some (0, upd_video (Some {| dx_framerate := n; dx_first_start := dx_first_start d;
                                  dx_renderfps := dx_renderfps d; dx_vasurface := dx_vasurface d;
                                  dx_qsvsurface := dx_qsvsurface d |})
                 (m_nCodecId s) framerate (m_bVASurface s) (m_bQSVSurface s) (upd_trans t s))
  end.

Definition get_framerate (s : IrrStreamer) : option Z := int_chk (m_fFramerate s).

Definition MIN_RESOLUTION_VALUE_H264 : Z := 32.
Definition MIN_RESOLUTION_VALUE_HEVC : Z := 128.
Definition MIN_RESOLUTION_VALUE_AV1 : Z := 128.

Definition change_resolution (width height : Z) : cmd IrrStreamer Z := fun s =>
  match m_pTrans s with
  | None => Some (AVERROR EINVAL, s)
  | Some t =>
      if (m_nCodecId s =? AV_CODEC_ID_H264)
         && ((width <? MIN_RESOLUTION_VALUE_H264) || (height <? MIN_RESOLUTION_VALUE_H264))
      then Some (AVERROR EINVAL, s)
      else if (m_nCodecId s =? AV_CODEC_ID_HEVC)
         && ((width <? MIN_RESOLUTION_VALUE_HEVC) || (height <? MIN_RESOLUTION_VALUE_HEVC))
      then Some (AVERROR EINVAL, s)
      else if (m_nCodecId s =? AV_CODEC_ID_AV1)
         && ((width <? MIN_RESOLUTION_VALUE_AV1) || (height <? MIN_RESOLUTION_VALUE_AV1))
      then Some (AVERROR EINVAL, s)
      else Some (0, upd_trans (changeResolution width height t).2 s)
  end.

Definition IRRV_MESSAGE_VIDEO_FORMAT_CHANGE : Z := 1.

(** [change_codec], which also tells the clients and the file writer; [m_pMux]
    is null unless the stream goes to the protocol. *)
Definition change_codec (codec_type : Z) : cmd world Z := fun w =>
  match streamer w with
  | None => None
  | Some s =>
      match m_pTrans s with
      | None => Some (AVERROR EINVAL, w)
      | Some t =>
          if negb (m_nCodecId s =? AV_CODEC_ID_H264) && negb (m_nCodecId s =? AV_CODEC_ID_HEVC)
             && negb (m_nCodecId s =? AV_CODEC_ID_AV1)
          then Some (AVERROR EINVAL, w)
          else
            let '(r, t') := changeCodec codec_type t in
            let w := set_streamer (Some (upd_trans t' s)) w in
            if r =? 0 then
              let s' := upd_video (m_pDemux s) codec_type (m_fFramerate s) (m_bVASurface s)
                          (m_bQSVSurface s) (upd_trans t' s) in
              mux ← m_pMux s;
              (mux_sendMessage mux IRRV_MESSAGE_VIDEO_FORMAT_CHANGE codec_type;;;
               cmodify (call_writer (rt_codec codec_type));;;
               cret 0) (set_streamer (Some s') w)
            else Some (0, w)
      end
  end.

Definition set_sei (sei_type sei_user_id : Z) : cmd IrrStreamer Z :=
  with_trans (AVERROR EINVAL) (fun t => Some (setSEI sei_type sei_user_id t)).

Definition set_gop_size (size : Z) : cmd IrrStreamer Z :=
  with_trans (AVERROR EINVAL) (fun t => Some (setGopSize size t)).

Definition set_screen_capture_flag (bAllowCapture : bool) : cmd IrrStreamer unit :=
  with_trans tt (fun t => Some (tt, setScreenCaptureFlag bAllowCapture t)).

Definition set_screen_capture_interval (captureInterval : Z) : cmd IrrStreamer unit :=
  with_trans tt (fun t => Some (tt, setScreenCaptureInterval captureInterval t)).

Definition set_screen_capture_quality (quality_factor : Z) : cmd IrrStreamer unit :=
  with_trans tt (fun t => Some (tt, setScreenCaptureQuality quality_factor t)).

(** [set_client_feedback] does not look whether there is a transcoder. *)
Definition set_client_feedback (feedback : Z -> Z -> Z) (delay size : Z) : cmd IrrStreamer Z := fun s =>
  if m_tcaeEnabled s then t ← m_pTrans s; Some (setClientFeedback feedback delay size t, s)
  else Some (0, s).

Definition streamer_setSkipFrameFlag (bSkipFrame : bool) : cmd IrrStreamer unit :=
  with_trans tt (fun t => Some (tt, setSkipFrameFlag bSkipFrame t)).

Definition streamer_getSkipFrameFlag (s : IrrStreamer) : bool :=
  match m_pTrans s with None => false | Some t => getSkipFrameFlag t end.

(** These two follow the transcoder pointer unchecked. *)
Definition set_alpha_channel_mode (isAlpha : bool) : cmd IrrStreamer unit := fun s =>
  t ← m_pTrans s; Some (tt, upd_trans (setVideoMode isAlpha t) s).

Definition set_buffer_size (width height : Z) : cmd IrrStreamer unit := fun s =>
  t ← m_pTrans s; Some (tt, upd_trans (setFrameBufferSize width height t) s).

Definition streamer_getEncodeNewWidth (s : IrrStreamer) : Z :=
  match m_pTrans s with None => AVERROR EINVAL | Some t => getEncodeNewWidth t end.

Definition streamer_getEncodeNewHeight (s : IrrStreamer) : Z :=
  match m_pTrans s with None => AVERROR EINVAL | Some t => getEncodeNewHeight t end.

Definition change_profile_level (iProfile iLevel : Z) : cmd IrrStreamer Z :=
  with_trans (AVERROR EINVAL) (changeEncoderProfileLevel iProfile iLevel).

(** [setRenderFpsEncFlag] and its getter reach the demuxer through the transcoder. *)
Definition setRenderFpsEncFlag (bRenderFpsEnc : bool) : cmd IrrStreamer unit := fun s =>
  match m_pTrans s with
  | None => Some (tt, s)
  | Some _ => d ← m_pDemux s;
      Some (tt, upd_demux {| dx_framerate := dx_framerate d; dx_first_start := dx_first_start d;
                             dx_renderfps := bRenderFpsEnc; dx_vasurface := dx_vasurface d;
                             dx_qsvsurface := dx_qsvsurface d |} s)
  end.

Definition getRenderFpsEncFlag (s : IrrStreamer) : option Z :=
  match m_pTrans s with
  | None => Some (AVERROR EINVAL)
  | Some _ => d ← m_pDemux s; Some (Z.b2z (dx_renderfps d))
  end.

(** ** Surfaces, clients and flags *)

Definition setVASurfaceFlag (f : bool) (s : IrrStreamer) : IrrStreamer :=
  upd_video ((fun d => {| dx_framerate := dx_framerate d; dx_first_start := dx_first_start d;
                          dx_renderfps := dx_renderfps d; dx_vasurface := f;
                          dx_qsvsurface := dx_qsvsurface d |}) <$> m_pDemux s)
            (m_nCodecId s) (m_fFramerate s) f (m_bQSVSurface s) s.

Definition setQSVSurfaceFlag (f : bool) (s : IrrStreamer) : IrrStreamer :=
  upd_video ((fun d => {| dx_framerate := dx_framerate d; dx_first_start := dx_first_start d;
                          dx_renderfps := dx_renderfps d; dx_vasurface := dx_vasurface d;
                          dx_qsvsurface := f |}) <$> m_pDemux s)
            (m_nCodecId s) (m_fFramerate s) (m_bVASurface s) f s.

Definition incClientNum : cmd IrrStreamer unit := fun s =>
  n ← int_chk (m_nClientNum s + 1);
  Some (tt, upd_flags n (m_bAllowEncode s) (m_bAllowTransmit s) s).

Definition decClientNum : cmd IrrStreamer unit := fun s =>
  n ← int_chk (m_nClientNum s - 1);
  Some (tt, upd_flags n (m_bAllowEncode s) (m_bAllowTransmit s) s).

Definition setEncodeFlag (f : bool) : cmd IrrStreamer unit :=
  cmodify (fun s => upd_flags (m_nClientNum s) f (m_bAllowTransmit s) s).

Definition setTransmitFlag (f : bool) : cmd IrrStreamer unit :=
  cmodify (fun s => upd_flags (m_nClientNum s) (m_bAllowEncode s) f s).

Definition setFisrtStartEncoding (f : bool) : cmd IrrStreamer unit := fun s =>
  match m_pDemux s with
  | None => Some (tt, s)
  | Some d => Some (tt, upd_demux {| dx_framerate := dx_framerate d; dx_first_start := f;
                                     dx_renderfps := dx_renderfps d; dx_vasurface := dx_vasurface d;
                                     dx_qsvsurface := dx_qsvsurface d |} s)
  end.

(** ** The C interface *)

(** Run a method of the streamer, or answer [none] when there is none. *)
Definition on_streamer {A} (none : A) (op : cmd IrrStreamer A) : cmd world A := fun w =>
  match streamer w with
  | None => Some (none, w)
  | Some s => '(r, s') ← op s; Some (r, set_streamer (Some s') w)
  end.

(** Read the streamer, or answer [none]. *)
Definition ask_streamer {A} (none : A) (f : IrrStreamer -> A) (w : world) : A :=
  match streamer w with None => none | Some s => f s end.

Definition irr_stream_stop : cmd world unit := on_streamer tt stop.
Definition irr_stream_force_keyframe (force : Z) : cmd world Z := on_streamer (- EINVAL) (force_key_frame force).
Definition irr_stream_set_qp (qp : Z) : cmd world Z := on_streamer (- EINVAL) (set_qp qp).
Definition irr_stream_set_bitrate (bitrate : Z) : cmd world Z := on_streamer (- EINVAL) (set_bitrate bitrate).
Definition irr_stream_set_max_bitrate (m : Z) : cmd world Z := on_streamer (- EINVAL) (set_max_bitrate m).
Definition irr_stream_set_framerate (framerate : Z) : cmd world Z :=
  on_streamer (- EINVAL) (set_framerate framerate).
Definition irr_stream_get_framerate (w : world) : option Z :=
  ask_streamer (Some (- EINVAL)) get_framerate w.
Definition irr_stream_set_max_frame_size (size : Z) : cmd world Z :=
  on_streamer (- ENAVAIL) (set_max_frame_size size).
Definition irr_stream_set_rolling_intra_refresh (type cycle_size qp_delta : Z) : cmd world Z :=
  on_streamer (- ENAVAIL) (set_rolling_intra_refresh type cycle_size qp_delta).
Definition irr_stream_set_min_max_qp (min_qp max_qp : Z) : cmd world Z :=
  on_streamer (- ENAVAIL) (set_min_max_qp min_qp max_qp).
Definition irr_stream_change_resolution (width height : Z) : cmd world Z :=
  on_streamer (- EINVAL) (change_resolution width height).
Definition irr_stream_change_codec (codec_type : Z) : cmd world Z := fun w =>
  match streamer w with None => Some (- EINVAL, w) | Some _ => change_codec codec_type w end.
Definition irr_stream_get_width : world -> Z := ask_streamer (- EINVAL) m_nWidth.
Definition irr_stream_get_height : world -> Z := ask_streamer (- EINVAL) m_nHeight.
Definition irr_stream_get_encoder_type : world -> Z := ask_streamer (- EINVAL) m_nCodecId.
Definition irr_get_VASurfaceFlag : world -> Z := ask_streamer (- EINVAL) (fun s => Z.b2z (m_bVASurface s)).
Definition irr_get_QSVSurfaceFlag : world -> Z := ask_streamer (- EINVAL) (fun s => Z.b2z (m_bQSVSurface s)).
Definition irr_stream_incClient : cmd world unit := on_streamer tt incClientNum.
Definition irr_stream_decClient : cmd world unit := on_streamer tt decClientNum.
Definition irr_stream_getClientNum : world -> Z := ask_streamer (- EINVAL) m_nClientNum.
Definition irr_stream_setEncodeFlag (f : bool) : cmd world unit := on_streamer tt (setEncodeFlag f).
Definition irr_stream_getEncodeFlag : world -> bool := ask_streamer false m_bAllowEncode.
Definition irr_stream_setTransmitFlag (f : bool) : cmd world unit := on_streamer tt (setTransmitFlag f).
Definition irr_stream_getTransmitFlag : world -> bool := ask_streamer false m_bAllowTransmit.
Definition irr_stream_first_start_encdoding (f : bool) : cmd world unit :=
  on_streamer tt (setFisrtStartEncoding f).
Definition irr_stream_set_sei (sei_type sei_user_id : Z) : cmd world Z :=
  on_streamer (- EINVAL) (set_sei sei_type sei_user_id).
Definition irr_stream_set_gop_size (size : Z) : cmd world Z := on_streamer (- EINVAL) (set_gop_size size).
Definition irr_stream_getAuthFlag : world -> bool := ask_streamer false m_auth.
Definition irr_stream_set_screen_capture_flag (f : bool) : cmd world unit :=
  on_streamer tt (set_screen_capture_flag f).
Definition irr_sream_set_screen_capture_interval (n : Z) : cmd world unit :=
  on_streamer tt (set_screen_capture_interval n).
Definition irr_stream_set_screen_capture_quality (q : Z) : cmd world unit :=
  on_streamer tt (set_screen_capture_quality q).
Definition irr_stream_set_skipframe (f : bool) : cmd world unit :=
  on_streamer tt (streamer_setSkipFrameFlag f).
Definition irr_stream_get_skipframe : world -> Z :=
  ask_streamer (- EINVAL) (fun s => Z.b2z (streamer_getSkipFrameFlag s)).
Definition irr_stream_set_alpha_channel_mode (f : bool) : cmd world unit :=
  on_streamer tt (set_alpha_channel_mode f).
Definition irr_stream_set_buffer_size (width height : Z) : cmd world unit :=
  on_streamer tt (set_buffer_size width height).
Definition irr_stream_get_encode_new_width : world -> Z := ask_streamer (- EINVAL) streamer_getEncodeNewWidth.
Definition irr_stream_get_encode_new_height : world -> Z := ask_streamer (- EINVAL) streamer_getEncodeNewHeight.
Definition irr_stream_change_profile_level (iProfile iLevel : Z) : cmd world Z :=
  on_streamer (- EINVAL) (change_profile_level iProfile iLevel).
Definition irr_stream_set_client_feedback (feedback : Z -> Z -> Z) (delay size : Z) : cmd world Z :=
  on_streamer (- ENAVAIL) (set_client_feedback feedback delay size).
Definition irr_stream_set_encode_renderfps_flag (f : bool) : cmd world unit :=
  on_streamer tt (setRenderFpsEncFlag f).
Definition irr_stream_get_encode_renderfps_flag (w : world) : option Z :=
  ask_streamer (Some (- EINVAL)) getRenderFpsEncFlag w.

(** The file writer is reached through the streamer, when both exist. *)
Definition on_writer (calls : list rt_call) : cmd world unit := fun w =>
  match streamer w with
  | None => Some (tt, w)
  | Some s => if m_pRuntimeWriter s then Some (tt, fold_left (fun w c => call_writer c w) calls w)
              else Some (tt, w)
  end.

Inductive IRR_RUNTIME_WRITE_MODE := IRR_RT_MODE_INPUT | IRR_RT_MODE_OUTPUT | IRR_RT_MODE_BOTH.

Definition rt_mode_of (m : IRR_RUNTIME_WRITE_MODE) : rt_mode :=
  match m with IRR_RT_MODE_INPUT => INPUT | IRR_RT_MODE_OUTPUT => OUTPUT | IRR_RT_MODE_BOTH => INOUT end.

(** The default frame count of [startWriting]: no limit. *)
Definition ALL_FRAMES : Z := -1.

Definition irr_stream_runtime_writer_start_with_frame_num (frame_num : Z) : cmd world unit :=
  on_writer [rt_stop INOUT; rt_start INOUT frame_num].
Definition irr_stream_runtime_writer_start (m : IRR_RUNTIME_WRITE_MODE) : cmd world unit :=
  on_writer [rt_stop (rt_mode_of m); rt_start (rt_mode_of m) ALL_FRAMES].
Definition irr_stream_runtime_writer_stop (m : IRR_RUNTIME_WRITE_MODE) : cmd world unit :=
  on_writer [rt_stop (rt_mode_of m)].
