(* ===== verification/EncoderOpts.v ===== *)
(** * EncoderOpts: the checks of the encoder's options

    Models the option checks of [src/sources/encoder/shared/encoder.cpp]
    ([irr_check_options] and the functions it calls, [convert_bitrate]) on the
    structures of [api/irrv.h].  A C string is an optional byte string, [None]
    for a null pointer.  The code is the one compiled for the current FFmpeg
    (without [FFMPEG_v42]). *)

From Stdlib Require Import ZArith Lia String.
From stdpp Require Import base list.
From S2P Require Import Prelude StdMap GaConf CNum TransCoder IrrStreamer.

(** ** The structures *)

Abbreviation cstr := (option (list Z)) (only parsing).

Record rate_control_info_t := {
  bitrate : cstr; qfactor : cstr; qp : cstr; maxrate : cstr; ratectrl : cstr; bufsize : cstr;
  qmaxI : Z; qminI : Z; qmaxP : Z; qminP : Z
}.

Record irr_ref_info_t := { int_ref_type : cstr; int_ref_cycle_size : Z; int_ref_qp_delta : Z }.

Record irr_roi_info_t := {
  roi_enabled : bool; roi_x : Z; roi_y : Z; roi_width : Z; roi_height : Z; roi_value : Z
}.

Inductive encode_type := DATA_BUFFER | VASURFACE_ID | QSVSURFACE_ID.

Record encoder_info_t := {
  nPixfmt : Z; gop_size : Z; codec : cstr; url : cstr; low_power : Z;
  width : Z; height : Z; framerate : cstr; exp_vid_param : cstr; streaming : bool;
  encodeType : encode_type; encoderInstanceID : Z; rate_contrl_param : rate_control_info_t;
  quality : Z; max_frame_size : Z; ref_info : irr_ref_info_t; roi_info : irr_roi_info_t;
  slices : Z; sei : Z; finput : cstr; vframe : Z; foutput : cstr; loglevel : cstr; auth : bool;
  renderfps_enc : Z; minfps_enc : Z; profile : cstr; level : cstr; filter_nbthreads : Z;
  low_delay_brc : bool; skip_frame : bool; plugin : cstr; tcaeEnabled : bool; tcaeLogPath : cstr
}.

(** What the checks may assign, all other members kept. *)
Record checked := {
  c_url : cstr; c_rc : rate_control_info_t; c_profile : cstr; c_level : cstr; c_roi : irr_roi_info_t;
  c_framerate : cstr; c_max_frame_size : Z; c_gop_size : Z; c_slices : Z; c_quality : Z;
  c_minfps_enc : Z; c_low_delay_brc : bool; c_plugin : cstr
}.

Definition put (i : encoder_info_t) (c : checked) : encoder_info_t :=
  {| nPixfmt := nPixfmt i; gop_size := c_gop_size c; codec := codec i; url := c_url c;
     low_power := low_power i; width := width i; height := height i; framerate := c_framerate c;
     exp_vid_param := exp_vid_param i; streaming := streaming i; encodeType := encodeType i;
     encoderInstanceID := encoderInstanceID i; rate_contrl_param := c_rc c; quality := c_quality c;
     max_frame_size := c_max_frame_size c; ref_info := ref_info i; roi_info := c_roi c;
     slices := c_slices c; sei := sei i; finput := finput i; vframe := vframe i; foutput := foutput i;
     loglevel := loglevel i; auth := auth i; renderfps_enc := renderfps_enc i;
     minfps_enc := c_minfps_enc c; profile := c_profile c; level := c_level c;
     filter_nbthreads := filter_nbthreads i; low_delay_brc := c_low_delay_brc c;
     skip_frame := skip_frame i; plugin := c_plugin c; tcaeEnabled := tcaeEnabled i;
     tcaeLogPath := tcaeLogPath i |}.

(** ** Rates *)

Definition CH_M : Z := 77.
Definition CH_K : Z := 75.

(** [convert_bitrate]: undefined on the empty string (it reads the byte before
    it) and on a value that does not fit an [int]. *)
Definition convert_bitrate (s : cstr) : option Z :=
  match s with
  | None => Some 0
  | Some s =>
      c ← last s;
      to_int (if c =? CH_M then dmul (atof s) (of_Z 1000000)
              else if c =? CH_K then dmul (atof s) (of_Z 1000)
              else atof s)
  end.

(** ** Rate control *)

Definition QP_MAX_VALUE : Z := 51.

Record irr_rate_ctrl_options_info_t := {
  need_qp : bool; need_qfactor : bool; need_bitrate : bool; need_maxbitrate : bool
}.

(** [irr_rate_ctrl_type_map.find]: names are compared without case. *)
Definition irr_rate_ctrl_type (name : bytes) : option irr_rate_ctrl_options_info_t :=
  if strcaseeq name (b "CQP") then
    Some {| need_qp := true; need_qfactor := false; need_bitrate := false; need_maxbitrate := false |}
  else if strcaseeq name (b "CBR") then
    Some {| need_qp := false; need_qfactor := false; need_bitrate := true; need_maxbitrate := true |}
  else if strcaseeq name (b "VBR") then
    Some {| need_qp := false; need_qfactor := false; need_bitrate := true; need_maxbitrate := true |}
  else if strcaseeq name (b "QVBR") then
    Some {| need_qp := false; need_qfactor := true; need_bitrate := true; need_maxbitrate := true |}
  else None.

(** The value [atoi] reads, for a string that may be null. *)
Definition atoi_of (s : cstr) (none : Z) : Z := match s with None => none | Some s => atoi s end.

(** The bounds the code puts on the largest and the smallest quantiser. *)
Definition clamp_qmax (q : Z) : Z :=
  let q := if QP_MAX_VALUE <? q then QP_MAX_VALUE else q in if 0 <? q then q else 0.
Definition clamp_qmin (q : Z) : Z := if (0 <? q) && (q <=? QP_MAX_VALUE) then q else 0.

(** What the mode needs is missing or out of range. *)
Definition rate_missing (o : irr_rate_ctrl_options_info_t) (r : rate_control_info_t) : bool :=
  (need_qp o && ((atoi_of (qp r) 0 <=? 0) || (QP_MAX_VALUE <? atoi_of (qp r) 0)))
  || (need_qfactor o && (atoi_of (qfactor r) 0 <=? 0))
  || (need_bitrate o && (atoi_of (bitrate r) 0 <=? 0))
  || (need_maxbitrate o && (atoi_of (maxrate r) 0 <=? 0)).

(** The parameters without those the mode does not use, quantisers bounded. *)
Definition rate_adjust (o : irr_rate_ctrl_options_info_t) (r : rate_control_info_t) : rate_control_info_t :=
  {| bitrate := if need_bitrate o then bitrate r else None;
     qfactor := if need_qfactor o then qfactor r else None;
     qp := if need_qp o then qp r else None;
     maxrate := if need_maxbitrate o then maxrate r else None;
     ratectrl := ratectrl r;
     bufsize := if need_bitrate o && (0 <? atoi_of (bufsize r) 0) then bufsize r else None;
     qmaxI := if need_bitrate o then clamp_qmax (qmaxI r) else 0;
     qminI := if need_bitrate o then clamp_qmin (qminI r) else 0;
     qmaxP := if need_bitrate o then clamp_qmax (qmaxP r) else 0;
     qminP := if need_bitrate o then clamp_qmin (qminP r) else 0 |}.

(** The comparison of the two rates, when both are there. *)
Definition rates_agree (mode : bytes) (r : rate_control_info_t) : option bool :=
  match maxrate r, bitrate r with
  | Some m, Some v =>
      _bitrate ← convert_bitrate (Some v);
      _maxrate ← convert_bitrate (Some m);
      Some (negb (strcaseeq mode (b "CBR") && negb (_bitrate =? _maxrate))
            && negb ((strcaseeq mode (b "VBR") || strcaseeq mode (b "QVBR")) && (_maxrate <? _bitrate)))
  | _, _ => Some true
  end.

(** [irr_check_rate_ctrl_options]: the return value and the parameters, which
    are stored only on success. *)
Definition irr_check_rate_ctrl_options (r : rate_control_info_t) : option (Z * rate_control_info_t) :=
  match ratectrl r with
  | None => Some (AVERROR EINVAL, r)
  | Some mode =>
      match irr_rate_ctrl_type mode with
      | None => Some (AVERROR EINVAL, r)
      | Some o =>
          if rate_missing o r then Some (AVERROR EINVAL, r)
          else
            agree ← rates_agree mode (rate_adjust o r);
            Some (if agree : bool then (0, rate_adjust o r) else (AVERROR EINVAL, r))
      end
  end.

(** ** Rolling intra refresh, region of interest, profile and level *)

Definition irr_check_rir_options (f : irr_ref_info_t) : Z :=
  match int_ref_type f with
  | None => 0
  | Some t =>
      if str_eqb t (b "vertical") || str_eqb t (b "horizontal") then
        if int_ref_cycle_size f <=? 0 then AVERROR EINVAL
        else if (int_ref_qp_delta f <? - QP_MAX_VALUE) || (QP_MAX_VALUE <? int_ref_qp_delta f)
        then AVERROR EINVAL else 0
      else AVERROR EINVAL
  end.

Definition irr_check_roi_options (r : irr_roi_info_t) (w h : Z) : Z :=
  if (roi_x r <? 0) || (roi_y r <? 0) || (roi_width r <=? 0) || (roi_height r <=? 0) then AVERROR EINVAL
  else if (roi_value r <? -51) || (51 <? roi_value r) then AVERROR EINVAL
  else if (w <? roi_x r + roi_width r) || (h <? roi_y r + roi_height r) then AVERROR EINVAL
  else 0.

Definition CH_COLON : Z := 58.

(** The part of the url after the colon picks a table; with another part the
    table pointer stays null and the look-up is undefined. *)
Definition codec_table (h264 h265 av1 : smap Z) (u : bytes) : option (smap Z) :=
  let t := after_first CH_COLON u in
  if str_eqb t (b "264") then Some h264
  else if str_eqb t (b "265") then Some h265
  else if str_eqb t (b "av1") then Some av1
  else None.

Definition irr_check_encode_profile (u : cstr) (p : cstr) : option Z :=
  match p with
  | None => Some 0
  | Some p =>
      u ← u;
      m ← codec_table vaapi_encode_h264_profiles vaapi_encode_h265_profiles vaapi_encode_av1_profiles u;
      Some (match sm_find p m with None => AVERROR EINVAL | Some _ => 0 end)
  end.

Definition irr_check_encode_level (u : cstr) (l : cstr) : option Z :=
  match l with
  | None => Some 0
  | Some l =>
      u ← u;
      m ← codec_table vaapi_encode_h264_levels vaapi_encode_h265_levels vaapi_encode_av1_levels u;
      Some (match sm_find l m with None => AVERROR EINVAL | Some _ => 0 end)
  end.

(** ** All options *)

Definition valid_url : list bytes :=
  [b "irrv:264"; b "irrv:265"; b "irrv:av1"; b "local:264"; b "local:265"; b "local:av1"].
Definition valid_plugin : list bytes := [b "vaapi"; b "qsv"].
Definition DEFAULT_URL : bytes := b "irrv:264".
Definition DEFAULT_PLUGIN : bytes := b "vaapi".

(** [s] when it is one of the valid names, the default otherwise. *)
Definition valid_or (valid : list bytes) (dflt : bytes) (s : cstr) : cstr :=
  match s with
  | None => Some dflt
  | Some s => if existsb (str_eqb s) valid then Some s else Some dflt
  end.

(** The average size of a frame in bytes, at the larger of the two rates. *)
Definition average_frame_size (r : rate_control_info_t) (fr : bytes) : option Z :=
  b1 ← convert_bitrate (bitrate r);
  b2 ← convert_bitrate (maxrate r);
  to_int (ddiv (ddiv (of_Z (Z.max b1 b2)) (atof fr)) (of_Z 8)).

Definition check_max_frame_size (size : Z) (r : rate_control_info_t) (fr : cstr) : option Z :=
  let size := if size <? 0 then 0 else size in
  match bitrate r with
  | None => Some 0
  | Some _ =>
      if 0 <? size then
        f ← fr;
        if dltb (of_Z 0) (atof f) then
          avg ← average_frame_size r f;
          Some (if size <? avg then avg else size)
        else Some size
      else Some size
  end.

(** [low_delay_brc] is kept only with a variable rate. *)
Definition check_low_delay (l : bool) (r : rate_control_info_t) : option bool :=
  if l then m ← ratectrl r; Some (strcaseeq m (b "VBR") || strcaseeq m (b "QVBR")) else Some false.

(** The part after the two checks that can fail. *)
Definition check_rest (i : encoder_info_t) : option encoder_info_t :=
  p ← irr_check_encode_profile (url i) (profile i);
  l ← irr_check_encode_level (url i) (level i);
  let prof := if p <? 0 then Some (b "default") else profile i in
  let lev := if l <? 0 then Some (b "default") else level i in
  let roi := if roi_enabled (roi_info i) && (irr_check_roi_options (roi_info i) (width i) (height i) <? 0)
             then {| roi_enabled := false; roi_x := roi_x (roi_info i); roi_y := roi_y (roi_info i);
                     roi_width := roi_width (roi_info i); roi_height := roi_height (roi_info i);
                     roi_value := roi_value (roi_info i) |}
             else roi_info i in
  let fr := if atoi_of (framerate i) 0 <=? 0 then Some (b "30") else framerate i in
  mfs ← check_max_frame_size (max_frame_size i) (rate_contrl_param i) fr;
  ld ← check_low_delay (low_delay_brc i) (rate_contrl_param i);
  Some (put i
    {| c_url := url i; c_rc := rate_contrl_param i; c_profile := prof; c_level := lev; c_roi := roi;
       c_framerate := fr; c_max_frame_size := mfs;
       c_gop_size := if gop_size i <=? 0 then 120 else gop_size i;
       c_slices := if slices i <? 0 then 0 else slices i;
       c_quality := if (quality i <=? 0) || (7 <? quality i) then 4 else quality i;
       c_minfps_enc := if negb (renderfps_enc i =? 0) && (minfps_enc i <=? 0) then 3 else minfps_enc i;
       c_low_delay_brc := ld;
       c_plugin := valid_or valid_plugin DEFAULT_PLUGIN (plugin i) |}).

(** Assign the url and the rate control parameters. *)
Definition put_url_rc (u : cstr) (r : rate_control_info_t) (i : encoder_info_t) : encoder_info_t :=
  put i {| c_url := u; c_rc := r; c_profile := profile i; c_level := level i; c_roi := roi_info i;
           c_framerate := framerate i; c_max_frame_size := max_frame_size i; c_gop_size := gop_size i;
           c_slices := slices i; c_quality := quality i; c_minfps_enc := minfps_enc i;
           c_low_delay_brc := low_delay_brc i; c_plugin := plugin i |}.

(** [irr_check_options] on a structure that is not null. *)
Definition irr_check_options (i : encoder_info_t) : option (Z * encoder_info_t) :=
  let u := valid_or valid_url DEFAULT_URL (url i) in
  '(ret, rc) ← irr_check_rate_ctrl_options (rate_contrl_param i);
  let i := put_url_rc u rc i in
  if ret <? 0 then Some (AVERROR EINVAL, i)
  else if irr_check_rir_options (ref_info i) <? 0 then Some (AVERROR EINVAL, i)
  else i ← check_rest i; Some (0, i).

(** ** What the checks promise *)

(** Rate control parameters that fit the options [o] of their mode: what the
    mode needs is there and in range, what it does not use is absent. *)
Record rate_fits (mode : bytes) (o : irr_rate_ctrl_options_info_t) (r : rate_control_info_t) : Prop := {
  rf_qp : if need_qp o then 0 < atoi_of (qp r) 0 <= QP_MAX_VALUE else qp r = None;
  rf_qfactor : if need_qfactor o then 0 < atoi_of (qfactor r) 0 else qfactor r = None;
  rf_bitrate : if need_bitrate o then 0 < atoi_of (bitrate r) 0 else bitrate r = None;
  rf_maxrate : if need_maxbitrate o then 0 < atoi_of (maxrate r) 0 else maxrate r = None;
  rf_bufsize : bufsize r = None \/ need_bitrate o = true /\ 0 < atoi_of (bufsize r) 0;
  rf_quant : Forall (fun q => 0 <= q <= if need_bitrate o then QP_MAX_VALUE else 0)
               [qmaxI r; qminI r; qmaxP r; qminP r];
  rf_rates : need_bitrate o = true -> exists vb vm,
    convert_bitrate (bitrate r) = Some vb /\ convert_bitrate (maxrate r) = Some vm /\
    (strcaseeq mode (b "CBR") = true -> vb = vm) /\
    (strcaseeq mode (b "VBR") || strcaseeq mode (b "QVBR") = true -> vb <= vm)
}.

Definition rate_valid (r : rate_control_info_t) : Prop := exists mode o,
  ratectrl r = Some mode /\ irr_rate_ctrl_type mode = Some o /\ rate_fits mode o r.

(** The codec tables a valid url selects. *)
Definition in_table (tab : bytes -> option (smap Z)) (u s : cstr) : Prop :=
  match s with
  | None => True
  | Some s => exists u' m, u = Some u' /\ tab u' = Some m /\ is_Some (sm_find s m)
  end.

(** A limit for the size of a frame: none without a bit rate; else at least the bytes of an average frame, which is the
    larger of the two rates divided by the frame rate and by eight, where the frame rate is positive. *)
Definition frame_size_valid (size : Z) (r : rate_control_info_t) (fr : cstr) : Prop :=
  0 <= size /\ (bitrate r = None -> size = 0) /\
  (0 < size -> exists f, fr = Some f /\
     (dltb (of_Z 0) (atof f) = true ->
      exists b1 b2 avg, convert_bitrate (bitrate r) = Some b1 /\ convert_bitrate (maxrate r) = Some b2 /\
        to_int (ddiv (ddiv (of_Z (Z.max b1 b2)) (atof f)) (of_Z 8)) = Some avg /\ avg <= size)).

Record options_valid (i : encoder_info_t) : Prop := {
  ov_url : exists u, url i = Some u /\ In u valid_url;
  ov_plugin : exists p, plugin i = Some p /\ In p valid_plugin;
  ov_rate : rate_valid (rate_contrl_param i);
  ov_rir : match int_ref_type (ref_info i) with
           | None => True
           | Some t => (t = b "vertical" \/ t = b "horizontal") /\ 0 < int_ref_cycle_size (ref_info i) /\
                       -51 <= int_ref_qp_delta (ref_info i) <= 51
           end;
  ov_profile : in_table (codec_table vaapi_encode_h264_profiles vaapi_encode_h265_profiles
                           vaapi_encode_av1_profiles) (url i) (profile i);
  ov_level : in_table (codec_table vaapi_encode_h264_levels vaapi_encode_h265_levels
                         vaapi_encode_av1_levels) (url i) (level i);
  ov_roi : roi_enabled (roi_info i) = true ->
    0 <= roi_x (roi_info i) /\ 0 < roi_width (roi_info i) /\
    roi_x (roi_info i) + roi_width (roi_info i) <= width i /\
    0 <= roi_y (roi_info i) /\ 0 < roi_height (roi_info i) /\
    roi_y (roi_info i) + roi_height (roi_info i) <= height i /\
    -51 <= roi_value (roi_info i) <= 51;
  ov_framerate : 0 < atoi_of (framerate i) 0;
  ov_frame_size : frame_size_valid (max_frame_size i) (rate_contrl_param i) (framerate i);
  ov_gop : 0 < gop_size i;
  ov_slices : 0 <= slices i;
  ov_quality : 1 <= quality i <= 7;
  ov_minfps : renderfps_enc i <> 0 -> 0 < minfps_enc i;
  ov_low_delay : low_delay_brc i = true -> exists m, ratectrl (rate_contrl_param i) = Some m /\
    strcaseeq m (b "VBR") || strcaseeq m (b "QVBR") = true
}.

(** ** Lemmas *)

Lemma rate_needs_both mode o : irr_rate_ctrl_type mode = Some o -> need_maxbitrate o = need_bitrate o.
Proof. unfold irr_rate_ctrl_type. intros E. by repeat split_match_in E; simplify_eq. Qed.

Lemma atoi_of_Some s n : n <= 0 -> 0 < atoi_of s n -> is_Some s.
Proof. destruct s; simpl; [done|lia]. Qed.

Lemma clamp_qmax_range q : 0 <= clamp_qmax q <= QP_MAX_VALUE.
Proof. unfold clamp_qmax, QP_MAX_VALUE. repeat split_match; bool_to_prop; lia. Qed.

Lemma clamp_qmin_range q : 0 <= clamp_qmin q <= QP_MAX_VALUE.
Proof. unfold clamp_qmin, QP_MAX_VALUE. repeat split_match; bool_to_prop; lia. Qed.

Lemma clamp_qmax_id q : 0 <= q <= QP_MAX_VALUE -> clamp_qmax q = q.
Proof. unfold clamp_qmax, QP_MAX_VALUE. intros. repeat split_match; bool_to_prop; lia. Qed.

Lemma clamp_qmin_id q : 0 <= q <= QP_MAX_VALUE -> clamp_qmin q = q.
Proof.
  unfold clamp_qmin, QP_MAX_VALUE. intros.
  destruct (0 <? q) eqn:E1, (q <=? 51) eqn:E2; simpl; bool_to_prop; lia.
Qed.

(** Acceptance, by the parts of the check. *)
Lemma rate_check_inv r ret r' :
  irr_check_rate_ctrl_options r = Some (ret, r') ->
  (ret = AVERROR EINVAL /\ r' = r) \/
  (ret = 0 /\ exists mode o, ratectrl r = Some mode /\ irr_rate_ctrl_type mode = Some o /\
     rate_missing o r = false /\ r' = rate_adjust o r /\ rates_agree mode r' = Some true).
Proof.
  unfold irr_check_rate_ctrl_options. intros E.
  destruct (ratectrl r) as [mode|]; [|naive_solver].
  destruct (irr_rate_ctrl_type mode) as [o|] eqn:Eo; [|naive_solver].
  destruct (rate_missing o r) eqn:Em; [naive_solver|].
  destruct (rates_agree mode (rate_adjust o r)) as [[]|] eqn:Ea; simpl in E; simplify_eq; [|naive_solver].
  right. split; [done|]. by exists mode, o.
Qed.

Lemma rate_missing_false o r :
  rate_missing o r = false <->
  (need_qp o = true -> 0 < atoi_of (qp r) 0 <= QP_MAX_VALUE) /\
  (need_qfactor o = true -> 0 < atoi_of (qfactor r) 0) /\
  (need_bitrate o = true -> 0 < atoi_of (bitrate r) 0) /\
  (need_maxbitrate o = true -> 0 < atoi_of (maxrate r) 0).
Proof.
  unfold rate_missing. rewrite !orb_false_iff, !andb_false_iff, !orb_false_iff, !Z.leb_gt, Z.ltb_ge.
  destruct (need_qp o), (need_qfactor o), (need_bitrate o), (need_maxbitrate o); intuition congruence.
Qed.

Lemma rates_agree_true mode r : is_Some (bitrate r) -> is_Some (maxrate r) ->
  rates_agree mode r = Some true <-> exists vb vm,
    convert_bitrate (bitrate r) = Some vb /\ convert_bitrate (maxrate r) = Some vm /\
    (strcaseeq mode (b "CBR") = true -> vb = vm) /\
    (strcaseeq mode (b "VBR") || strcaseeq mode (b "QVBR") = true -> vb <= vm).
Proof.
  intros [v Ev] [m Em]. unfold rates_agree. rewrite Ev, Em.
  destruct (convert_bitrate (Some v)) as [vb|]; [|split; [done|naive_solver]].
  destruct (convert_bitrate (Some m)) as [vm|]; [|split; [done|naive_solver]].
  cbn [mbind option_bind].
  trans ((strcaseeq mode (b "CBR") = true -> vb = vm) /\
    (strcaseeq mode (b "VBR") || strcaseeq mode (b "QVBR") = true -> vb <= vm)).
  - destruct (strcaseeq mode (b "CBR")), (strcaseeq mode (b "VBR") || strcaseeq mode (b "QVBR")),
      (Z.eqb_spec vb vm), (Z.ltb_spec vm vb); simpl; split; intros; simplify_eq; intuition (try congruence; try lia).
  - split; [naive_solver|]. intros (?&?&[= <-]&[= <-]&?). done.
Qed.

(** An accepted request is valid once adjusted. *)
Lemma rate_adjust_fits mode o r :
  irr_rate_ctrl_type mode = Some o -> rate_missing o r = false ->
  rates_agree mode (rate_adjust o r) = Some true -> rate_fits mode o (rate_adjust o r).
Proof.
  intros Eo (Hqp & Hqf & Hb & Hm)%rate_missing_false Ha. pose proof (rate_needs_both _ _ Eo) as Eb.
  split; cbn [rate_adjust bitrate qfactor qp maxrate bufsize qmaxI qminI qmaxP qminP].
  1-4: destruct (need_qp o), (need_qfactor o), (need_bitrate o), (need_maxbitrate o); auto.
  - destruct (need_bitrate o), (Z.ltb_spec 0 (atoi_of (bufsize r) 0)); simpl; auto.
  - pose proof clamp_qmax_range. pose proof clamp_qmin_range.
    destruct (need_bitrate o); repeat constructor; try apply clamp_qmax_range; try apply clamp_qmin_range; lia.
  - intros Hn. apply (rates_agree_true mode (rate_adjust o r)); [| |done];
      cbn [rate_adjust bitrate maxrate]; rewrite ?Eb, Hn; eapply atoi_of_Some; eauto; lia.
Qed.

(** Valid parameters are accepted and kept. *)
Lemma rate_fits_fixed mode o r :
  irr_rate_ctrl_type mode = Some o -> rate_fits mode o r -> rate_missing o r = false /\ rate_adjust o r = r.
Proof.
  intros Eo [Hqp Hqf Hb Hm Hbuf Hq Hr]. split.
  - apply rate_missing_false. destruct (need_qp o), (need_qfactor o), (need_bitrate o), (need_maxbitrate o); naive_solver.
  - destruct r as [v f q m rc buf q1 q2 q3 q4]; unfold rate_adjust; cbn in *.
    rewrite !Forall_cons in Hq. destruct Hq as (Q1&Q2&Q3&Q4&_).
    f_equal; try (destruct (need_qp o), (need_qfactor o), (need_bitrate o), (need_maxbitrate o); congruence).
    + destruct Hbuf as [->|[-> Hbuf]]; [by destruct (_ && _)|]. by rewrite (proj2 (Z.ltb_lt _ _)).
    + destruct (need_bitrate o); [by apply clamp_qmax_id|lia].
    + destruct (need_bitrate o); [by apply clamp_qmin_id|lia].
    + destruct (need_bitrate o); [by apply clamp_qmax_id|lia].
    + destruct (need_bitrate o); [by apply clamp_qmin_id|lia].
Qed.

Lemma rate_check_valid r r' : irr_check_rate_ctrl_options r = Some (0, r') -> rate_valid r'.
Proof.
  intros [[? _]|(_&mode&o&Em&Eo&Hm&->&Ha)]%rate_check_inv; [done|].
  exists mode, o. split_and!; [done..|]. by apply rate_adjust_fits.
Qed.

Lemma rate_valid_fixed r : rate_valid r -> irr_check_rate_ctrl_options r = Some (0, r).
Proof.
  intros (mode&o&Em&Eo&F). destruct (rate_fits_fixed _ _ _ Eo F) as [Hm Hadj].
  unfold irr_check_rate_ctrl_options. rewrite Em, Eo, Hm, Hadj.
  assert (rates_agree mode r = Some true) as ->; [|done].
  pose proof (rate_needs_both _ _ Eo) as Eb. destruct F. destruct (need_bitrate o) eqn:En.
  - rewrite Eb in *. apply rates_agree_true; [eapply atoi_of_Some; [|done]; lia..|auto].
  - unfold rates_agree. rewrite rf_bitrate0. by destruct (maxrate r).
Qed.

Lemma existsb_str s l : existsb (str_eqb s) l = true <-> In s l.
Proof.
  rewrite existsb_exists. split; [intros (x & Hx & <-%str_eqb_eq); done|].
  intros H. exists s. by rewrite str_eqb_refl.
Qed.

Lemma valid_or_In valid d s : In d valid -> exists u, valid_or valid d s = Some u /\ In u valid.
Proof.
  intros Hd. unfold valid_or. destruct s as [s|]; [|by exists d].
  destruct (existsb _ _) eqn:E; [|by exists d]. apply existsb_str in E. by exists s.
Qed.

Lemma valid_or_id valid d s : In s valid -> valid_or valid d (Some s) = Some s.
Proof. intros H%existsb_str. unfold valid_or. by rewrite H. Qed.

(** A checked name is in its table, and "default" is in every table. *)
Definition named (tab : bytes -> option (smap Z)) (u s : cstr) : option Z :=
  match s with
  | None => Some 0
  | Some s => u ← u; m ← tab u; Some (match sm_find s m with None => AVERROR EINVAL | Some _ => 0 end)
  end.

Lemma named_in_table tab u s r : (forall x m, tab x = Some m -> is_Some (sm_find (b "default") m)) ->
  named tab u s = Some r -> in_table tab u (if r <? 0 then Some (b "default") else s).
Proof.
  intros Hd. unfold named, in_table. destruct s as [s|]; [|by intros [= <-]].
  destruct u as [u|]; simpl; [|done]. destruct (tab u) as [m|] eqn:Et; simpl; [|done].
  intros [= <-]. destruct (sm_find s m) eqn:Es; simpl; exists u, m; eauto.
Qed.

Lemma in_table_named tab u s : in_table tab u s -> named tab u s = Some 0.
Proof.
  destruct s as [s|]; [|done]. intros (u' & m & -> & Et & v & Ev). simpl. rewrite Et. simpl. by rewrite Ev.
Qed.

Lemma codec_table_default t1 t2 t3 x m :
  Forall (fun t => is_Some (sm_find (b "default") t)) [t1; t2; t3] ->
  codec_table t1 t2 t3 x = Some m -> is_Some (sm_find (b "default") m).
Proof.
  rewrite !Forall_cons. intros (H1&H2&H3&_). unfold codec_table.
  repeat split_match; intros [= <-]; done.
Qed.

Abbreviation profile_table :=
  (codec_table vaapi_encode_h264_profiles vaapi_encode_h265_profiles vaapi_encode_av1_profiles).
Abbreviation level_table :=
  (codec_table vaapi_encode_h264_levels vaapi_encode_h265_levels vaapi_encode_av1_levels).

Lemma find_default (t : smap Z) : negb (bool_decide (sm_find (b "default") t = None)) = true -> is_Some (sm_find (b "default") t).
Proof. by destruct (sm_find _ _). Qed.

Lemma profile_default x m : profile_table x = Some m -> is_Some (sm_find (b "default") m).
Proof. apply codec_table_default. rewrite !Forall_cons. split_and!; [apply find_default; by vm_compute..|done]. Qed.

Lemma level_default x m : level_table x = Some m -> is_Some (sm_find (b "default") m).
Proof. apply codec_table_default. rewrite !Forall_cons. split_and!; [apply find_default; by vm_compute..|done]. Qed.

Lemma einval_neg : (AVERROR EINVAL <? 0) = true.
Proof. reflexivity. Qed.

(** Decide the comparisons of a check that returns [AVERROR EINVAL]. *)
Ltac check_cases := rewrite ?einval_neg; cbn [orb Z.ltb Z.compare]; split; intros; simplify_eq; lia.

Lemma rir_ok f : (irr_check_rir_options f <? 0) = false <->
  match int_ref_type f with
  | None => True
  | Some t => (t = b "vertical" \/ t = b "horizontal") /\ 0 < int_ref_cycle_size f /\
              -51 <= int_ref_qp_delta f <= 51
  end.
Proof.
  unfold irr_check_rir_options. destruct (int_ref_type f) as [t|]; [|done].
  rewrite <- !str_eqb_eq. destruct (str_eqb t _ || str_eqb t _) eqn:E1.
  - apply orb_prop in E1. unfold QP_MAX_VALUE. change (- (51)) with (-51).
    destruct (Z.leb_spec (int_ref_cycle_size f) 0); [rewrite einval_neg; naive_solver lia|].
    destruct (Z.ltb_spec (int_ref_qp_delta f) (-51)), (Z.ltb_spec 51 (int_ref_qp_delta f));
      cbn [orb]; rewrite ?einval_neg, ?Z.ltb_irrefl; (split; [intros ?|intros (? & ? & ?)]);
      try done; lia.
  - apply orb_false_elim in E1 as [-> ->]. rewrite einval_neg. naive_solver.
Qed.

Lemma roi_ok r w h : (irr_check_roi_options r w h <? 0) = false <->
  0 <= roi_x r /\ 0 < roi_width r /\ roi_x r + roi_width r <= w /\
  0 <= roi_y r /\ 0 < roi_height r /\ roi_y r + roi_height r <= h /\ -51 <= roi_value r <= 51.
Proof.
  unfold irr_check_roi_options.
  destruct (Z.ltb_spec (roi_x r) 0), (Z.ltb_spec (roi_y r) 0), (Z.leb_spec (roi_width r) 0),
    (Z.leb_spec (roi_height r) 0); cbn [orb]; try check_cases.
  destruct (Z.ltb_spec (roi_value r) (-51)), (Z.ltb_spec 51 (roi_value r)); cbn [orb]; try check_cases.
  destruct (Z.ltb_spec w (roi_x r + roi_width r)), (Z.ltb_spec h (roi_y r + roi_height r)); check_cases.
Qed.

(** The frame size check leaves a valid limit, and a valid limit as it is. *)
Lemma frame_size_checked s r f s' : check_max_frame_size s r f = Some s' -> frame_size_valid s' r f.
Proof.
  unfold check_max_frame_size, frame_size_valid. destruct (bitrate r) as [br|] eqn:Eb; [|intros [= <-]; split_and!; [lia|done|lia]].
  set (s0 := if s <? 0 then 0 else s). assert (0 <= s0) by (unfold s0; destruct (Z.ltb_spec s 0); lia).
  clearbody s0. destruct (Z.ltb_spec 0 s0).
  - destruct f as [f|]; cbn [mbind option_bind]; [|done]. destruct (dltb (of_Z 0) (atof f)) eqn:Ef.
    + unfold average_frame_size. rewrite Eb. intros E. apply bind_Some in E as (avg & E & [= <-]).
      apply bind_Some in E as (b1 & E1 & E). apply bind_Some in E as (b2 & E2 & E).
      destruct (Z.ltb_spec s0 avg); (split; [lia|]); (split; [done|]); intros _; exists f; (split; [done|]); intros _; exists b1, b2, avg; split_and!; done || lia.
    + intros [= <-]. split; [lia|]. split; [done|]. intros _. exists f. split; [done|]. by rewrite Ef.
  - intros [= <-]. split; [lia|]. split; [done|]. lia.
Qed.
Lemma frame_size_kept s r f : frame_size_valid s r f -> check_max_frame_size s r f = Some s.
Proof.
  intros (H0 & Hn & Hp). unfold check_max_frame_size. rewrite (proj2 (Z.ltb_ge s 0)) by lia.
  destruct (bitrate r) as [br|] eqn:Eb; [|by rewrite Hn]. destruct (Z.ltb_spec 0 s) as [L|L]; [|done].
  destruct (Hp L) as (fr & -> & Hf). cbn [mbind option_bind]. destruct (dltb (of_Z 0) (atof fr)); [|done].
  destruct (Hf eq_refl) as (b1 & b2 & avg & E1 & E2 & E3 & Hs). unfold average_frame_size. rewrite Eb, E1, E2. cbn [mbind option_bind].
  rewrite E3. cbn [mbind option_bind]. by rewrite (proj2 (Z.ltb_ge s avg)) by lia.
Qed.

(** ** Properties of the option checks *)

Lemma check_rest_valid i i' :
  (exists u, url i = Some u /\ In u valid_url) -> rate_valid (rate_contrl_param i) ->
  (irr_check_rir_options (ref_info i) <? 0) = false ->
  check_rest i = Some i' -> options_valid i'.
Proof.
  intros Hu Hr Hrir E. unfold check_rest in E.
  apply bind_Some in E as (p & Ep & E). apply bind_Some in E as (l & El & E).
  apply bind_Some in E as (mfs & Em & E). apply bind_Some in E as (ld & Ed & E). simplify_eq.
  apply (named_in_table profile_table) in Ep; [|exact profile_default].
  apply (named_in_table level_table) in El; [|exact level_default].
  split; cbn [put c_url c_rc c_profile c_level c_roi c_framerate c_max_frame_size c_gop_size c_slices
    c_quality c_minfps_enc c_low_delay_brc c_plugin url plugin rate_contrl_param ref_info profile level
    roi_info width height framerate max_frame_size gop_size slices quality renderfps_enc minfps_enc
    low_delay_brc]; try done.
  - apply valid_or_In. simpl. auto.
  - by apply rir_ok.
  - intros He. apply roi_ok. destruct (roi_enabled (roi_info i)) eqn:Er; cbn [andb] in *; [|congruence].
    destruct (irr_check_roi_options (roi_info i) (width i) (height i) <? 0) eqn:Ec; done.
  - destruct (Z.leb_spec (atoi_of (framerate i) 0) 0); [done|lia].
  - by apply frame_size_checked in Em.
  - destruct (Z.leb_spec (gop_size i) 0); lia.
  - destruct (Z.ltb_spec (slices i) 0); lia.
  - destruct (Z.leb_spec (quality i) 0), (Z.ltb_spec 7 (quality i)); simpl; lia.
  - intros Hn. rewrite (proj2 (Z.eqb_neq _ _) Hn). destruct (Z.leb_spec (minfps_enc i) 0); simpl; lia.
  - intros ->. unfold check_low_delay in Ed. destruct (low_delay_brc i); [|done].
    apply bind_Some in Ed as (m & Er & [= E]). by exists m.
Qed.

Lemma check_rest_fixed i : options_valid i -> check_rest i = Some i.
Proof.
  intros [Hu Hpl Hr Hrir Hp Hl Hroi Hf Hm Hg Hs Hq Hmin Hld]. apply frame_size_kept in Hm. unfold check_rest.
  change (irr_check_encode_profile (url i) (profile i)) with (named profile_table (url i) (profile i)).
  change (irr_check_encode_level (url i) (level i)) with (named level_table (url i) (level i)).
  rewrite (in_table_named _ _ _ Hp), (in_table_named _ _ _ Hl). cbn [mbind option_bind].
  rewrite (proj2 (Z.leb_gt (atoi_of (framerate i) 0) 0)) by lia. rewrite Hm. cbn [mbind option_bind].
  assert (check_low_delay (low_delay_brc i) (rate_contrl_param i) = Some (low_delay_brc i)) as ->.
  { unfold check_low_delay. destruct (low_delay_brc i); [|done].
    destruct (Hld eq_refl) as (m & -> & E). cbn [mbind option_bind]. by rewrite E. }
  cbn [mbind option_bind]. rewrite Z.ltb_irrefl.
  rewrite (proj2 (Z.leb_gt (gop_size i) 0)), (proj2 (Z.ltb_ge (slices i) 0)),
    (proj2 (Z.leb_gt (quality i) 0)), (proj2 (Z.ltb_ge 7 (quality i))) by lia.
  destruct Hpl as (p & Epl & Hpl). rewrite Epl, valid_or_id by done.
  assert ((if negb (renderfps_enc i =? 0) && (minfps_enc i <=? 0) then 3 else minfps_enc i) = minfps_enc i) as ->.
  { destruct (Z.eqb_spec (renderfps_enc i) 0) as [|Hn]; [done|]. simpl.
    by rewrite (proj2 (Z.leb_gt (minfps_enc i) 0)) by auto. }
  assert (roi_enabled (roi_info i) && (irr_check_roi_options (roi_info i) (width i) (height i) <? 0) = false) as ->.
  { destruct (roi_enabled (roi_info i)); [|done]. apply roi_ok. auto. }
  f_equal. rewrite <- Epl. by destruct i.
Qed.

Lemma check_options_valid i i' : irr_check_options i = Some (0, i') -> options_valid i'.
Proof.
  unfold irr_check_options. intros E. apply bind_Some in E as ([ret rc] & Er & E).
  destruct (Z.ltb_spec ret 0); [done|]. set (i1 := put_url_rc _ rc i) in *.
  destruct (irr_check_rir_options (ref_info i1) <? 0) eqn:Erir; [done|].
  apply bind_Some in E as (i2 & E2 & [= <-]).
  destruct (rate_check_inv _ _ _ Er) as [[-> _]|[-> _]]; [done|].
  apply (check_rest_valid i1); [|by eapply rate_check_valid|done..].
  apply valid_or_In. simpl. auto.
Qed.

Lemma valid_options_fixed i : options_valid i -> irr_check_options i = Some (0, i).
Proof.
  intros V. unfold irr_check_options.
  rewrite rate_valid_fixed by apply V. cbn [mbind option_bind].
  destruct (ov_url _ V) as (u & Eu & Hu). rewrite Eu, valid_or_id by done.
  assert (put_url_rc (Some u) (rate_contrl_param i) i = i) as ->.
  { unfold put_url_rc, put. destruct i. simpl in *. by subst. }
  rewrite Z.ltb_irrefl, (proj2 (rir_ok _)) by apply V.
  rewrite check_rest_fixed by done. done.
Qed.

(** C28. What [irr_check_options] accepts is well formed.  Whenever it returns 0
    the structure it leaves names a known url and plug-in, has rate control
    parameters that are complete and consistent for their mode (what the mode
    does not use is absent, the quantisers are at most 51, a constant rate equals
    its maximum and a variable one does not exceed it), a profile and a level of
    the codec's tables, a region of interest inside the picture, a positive frame
    rate and GOP, a quality from 1 to 7, and a limit of the frame size that is not
    negative, 0 without a bit rate, and otherwise, when it is set and the frame
    rate is positive, not below the average frame (the larger of the two bit
    rates, over the frame rate, over eight); and a second check accepts the
    structure unchanged. *)
Theorem checked_options_valid i i' :
  irr_check_options i = Some (0, i') -> options_valid i' /\ irr_check_options i' = Some (0, i').
Proof. intros V%check_options_valid. split; [done|]. by apply valid_options_fixed. Qed.

(** Options as a command line gives them: a variable rate, unknown url and
    profile, quality and quantiser out of range. *)
Definition sample_options : encoder_info_t :=
  {| nPixfmt := 26; gop_size := 0; codec := None; url := Some (b "rtmp:264"); low_power := 0;
     width := 1280; height := 720; framerate := Some (b "60"); exp_vid_param := None; streaming := true;
     encodeType := VASURFACE_ID; encoderInstanceID := 0;
     rate_contrl_param := {| bitrate := Some (b "3.3M"); qfactor := None; qp := Some (b "28");
       maxrate := Some (b "6600K"); ratectrl := Some (b "vbr"); bufsize := None;
       qmaxI := 60; qminI := 10; qmaxP := 0; qminP := -3 |};
     quality := 9; max_frame_size := 10; ref_info := {| int_ref_type := None; int_ref_cycle_size := 0;
       int_ref_qp_delta := 0 |};
     roi_info := {| roi_enabled := true; roi_x := 1000; roi_y := 0; roi_width := 300; roi_height := 10;
       roi_value := 3 |};
     slices := -1; sei := 0; finput := None; vframe := 0; foutput := None; loglevel := None; auth := true;
     renderfps_enc := 1; minfps_enc := 0; profile := Some (b "extended"); level := Some (b "4.1");
     filter_nbthreads := 0; low_delay_brc := true; skip_frame := false; plugin := Some (b "cuda");
     tcaeEnabled := false; tcaeLogPath := None |}.

(** The sample after the check. *)
Definition sample_checked : encoder_info_t :=
  put sample_options
    {| c_url := Some (b "irrv:264");
       c_rc := {| bitrate := Some (b "3.3M"); qfactor := None; qp := None; maxrate := Some (b "6600K");
         ratectrl := Some (b "vbr"); bufsize := None; qmaxI := 51; qminI := 10; qmaxP := 0; qminP := 0 |};
       c_profile := Some (b "default"); c_level := Some (b "4.1");
       c_roi := {| roi_enabled := false; roi_x := 1000; roi_y := 0; roi_width := 300; roi_height := 10;
         roi_value := 3 |};
       c_framerate := Some (b "60"); c_max_frame_size := 13750; c_gop_size := 120; c_slices := 0;
       c_quality := 4; c_minfps_enc := 3; c_low_delay_brc := true; c_plugin := Some (b "vaapi") |}.

Lemma checked_options_valid_witness :
  irr_check_options sample_options = Some (0, sample_checked) /\
  options_valid sample_checked /\ irr_check_options sample_checked = Some (0, sample_checked).
Proof.
  assert (E : irr_check_options sample_options = Some (0, sample_checked)) by (vm_compute; reflexivity).
  split; [exact E|]. exact (checked_options_valid _ _ E).
Defined.

(** *** Rates and modes *)

Definition scale_of (u : bytes) : Z := if str_eqb u [CH_M] then 1000000 else if str_eqb u [CH_K] then 1000 else 1.

Lemma dmul_of_Z n k : 0 <= n <= INT_MAX -> 0 < k <= 1000000 -> trunc (dmul (of_Z n) (of_Z k)) = Some (n * k).
Proof.
  intros Hn Hk. unfold INT_MAX in Hn. destruct (decide (n = 0)) as [->|N].
  - rewrite (of_Z_pos k) by (unfold dprec; lia). done.
  - rewrite dmul_exact by (unfold dprec; nia). apply trunc_of_Z. unfold dprec. nia.
Qed.

Lemma last_unit n u : 0 <= n -> unit_suffix u ->
  last (print_int n ++ u) = Some (if str_eqb u [CH_M] then CH_M else if str_eqb u [CH_K] then CH_K
                                  else default 0 (last (print_int n))) /\
  (u = [] -> default 0 (last (print_int n)) <> CH_M /\ default 0 (last (print_int n)) <> CH_K).
Proof.
  intros Hn Hu. destruct (print_int_digits n Hn) as (c & r & -> & H & _).
  destruct Hu as [->|[->| ->]]; [|by rewrite last_snoc..].
  rewrite (right_id_L [] (++)). destruct (last (c :: r)) as [x|] eqn:E; [|by apply last_None in E].
  split; [done|]. intros _. apply last_Some_elem_of in E. rewrite Forall_forall in H. specialize (H _ E).
  unfold is_dec in H. simpl. unfold CH_M, CH_K. lia.
Qed.

(** Bit rates are read exactly.  For every number that fits an [int],
    written in decimal and followed by nothing, by [K] or by [M], the value
    [convert_bitrate] computes in double precision is the number times 1, 1000 or
    1000000, without rounding; when that does not fit an [int] the conversion is
    undefined. *)
Theorem convert_bitrate_exact n u :
  0 <= n <= INT_MAX -> unit_suffix u ->
  convert_bitrate (Some (print_int n ++ u)) = int_chk (n * scale_of u).
Proof.
  intros Hn Hu. destruct (last_unit n u) as [L Hd]; [lia|done|]. unfold convert_bitrate. rewrite L.
  cbn [mbind option_bind]. rewrite atof_print by (done || lia). unfold to_int, scale_of.
  destruct Hu as [->|[->| ->]].
  - destruct (Hd eq_refl) as [Hm Hk]. cbn [str_eqb str_cmp].
    rewrite (proj2 (Z.eqb_neq _ _) Hm), (proj2 (Z.eqb_neq _ _) Hk), Z.mul_1_r.
    rewrite trunc_of_Z; [done|]. unfold INT_MAX, dprec in *. lia.
  - change (str_eqb [75] [CH_M]) with false. change (str_eqb [75] [CH_K]) with true. cbv iota.
    change (CH_K =? CH_M) with false. rewrite Z.eqb_refl. by rewrite dmul_of_Z by (done || lia).
  - change (str_eqb [77] [CH_M]) with true. cbv iota. rewrite Z.eqb_refl.
    by rewrite dmul_of_Z by (done || lia).
Qed.

Lemma convert_bitrate_exact_witness :
  convert_bitrate (Some (print_int 2500 ++ [CH_K])) = Some 2500000 /\
  convert_bitrate (Some (print_int 5000 ++ [CH_M])) = None.
Proof.
  split.
  - apply (convert_bitrate_exact 2500 [CH_K]); [unfold INT_MAX; lia|right; left; reflexivity].
  - apply (convert_bitrate_exact 5000 [CH_M]); [unfold INT_MAX; lia|right; right; reflexivity].
Defined.

(** The mode names a request, without case. *)
Definition mode_is (r : rate_control_info_t) (name : bytes) : Prop :=
  exists m, ratectrl r = Some m /\ strcaseeq m name = true.

(** Both rates are given, positive, and related by [cmp]. *)
Definition rates_ok (cmp : Z -> Z -> Prop) (r : rate_control_info_t) : Prop :=
  0 < atoi_of (bitrate r) 0 /\ 0 < atoi_of (maxrate r) 0 /\
  exists vb vm, convert_bitrate (bitrate r) = Some vb /\ convert_bitrate (maxrate r) = Some vm /\ cmp vb vm.

Lemma strcaseeq_eq s t : strcaseeq s t = true <-> map tolower s = map tolower t.
Proof. apply str_eqb_eq. Qed.

(** The names of the modes exclude each other. *)
Lemma mode_names m name : strcaseeq m name = true ->
  irr_rate_ctrl_type m = irr_rate_ctrl_type name /\
  forall other, strcaseeq m other = strcaseeq name other.
Proof.
  intros E%strcaseeq_eq. assert (H : forall o, strcaseeq m o = strcaseeq name o).
  { intros o. unfold strcaseeq. by rewrite E. }
  split; [|done]. unfold irr_rate_ctrl_type. by rewrite !H.
Qed.

Lemma rate_check_iff r mode o : ratectrl r = Some mode -> irr_rate_ctrl_type mode = Some o ->
  (exists r', irr_check_rate_ctrl_options r = Some (0, r')) <->
  rate_missing o r = false /\ rates_agree mode (rate_adjust o r) = Some true.
Proof.
  intros Em Eo. unfold irr_check_rate_ctrl_options. rewrite Em, Eo.
  destruct (rate_missing o r); [split; [|naive_solver]; intros [? [=]]|].
  destruct (rates_agree mode (rate_adjust o r)) as [[]|]; simpl; split; try naive_solver; by intros [? [=]].
Qed.

(** A mode that uses rates accepts two positive rates related by its comparison. *)
Lemma mode_accepts mode o r (cmp : Z -> Z -> Prop) :
  ratectrl r = Some mode -> irr_rate_ctrl_type mode = Some o ->
  need_bitrate o = true -> need_qp o = false ->
  (forall vb vm, cmp vb vm <-> (strcaseeq mode (b "CBR") = true -> vb = vm) /\
    (strcaseeq mode (b "VBR") || strcaseeq mode (b "QVBR") = true -> vb <= vm)) ->
  (exists r', irr_check_rate_ctrl_options r = Some (0, r')) <->
  (need_qfactor o = true -> 0 < atoi_of (qfactor r) 0) /\ rates_ok cmp r.
Proof.
  intros Em Eo En Eq Hc. pose proof (rate_needs_both _ _ Eo) as Eb.
  assert (E1 : bitrate (rate_adjust o r) = bitrate r) by (simpl; by rewrite En).
  assert (E2 : maxrate (rate_adjust o r) = maxrate r) by (simpl; by rewrite Eb, En).
  assert (A : 0 < atoi_of (bitrate r) 0 -> 0 < atoi_of (maxrate r) 0 ->
    rates_agree mode (rate_adjust o r) = Some true <-> exists vb vm,
      convert_bitrate (bitrate r) = Some vb /\ convert_bitrate (maxrate r) = Some vm /\ cmp vb vm).
  { intros H1 H2. setoid_rewrite Hc.
    rewrite rates_agree_true, E1, E2; rewrite ?E1, ?E2; [done|by eapply atoi_of_Some..]. }
  rewrite (rate_check_iff r mode o Em Eo), rate_missing_false. rewrite Eb, En, Eq. unfold rates_ok.
  split.
  - intros [(_ & Hf & H1 & H2) H]. specialize (H1 eq_refl). specialize (H2 eq_refl). by rewrite <- (A H1 H2).
  - intros (Hf & H1 & H2 & H). rewrite (A H1 H2). by split_and!.
Qed.

(** [m] is the name [n]: it is none of the other names. *)
Ltac other_modes H :=
  repeat match goal with
  | |- context [strcaseeq ?m ?o] =>
      lazymatch type of H with forall x, strcaseeq m x = strcaseeq ?n x =>
        let v := eval vm_compute in (strcaseeq n o) in
        replace (strcaseeq m o) with v by (rewrite (H o); vm_compute; reflexivity) end
  end.

(** Rate control requests are accepted exactly by their mode: a constant
    quantiser from 1 to 51 for CQP, two equal positive rates for CBR, two
    positive rates in order for VBR, and those with a positive quality factor for
    QVBR; names are compared without case, and nothing else is accepted. *)
Theorem rate_ctrl_accepts_iff r :
  (exists r', irr_check_rate_ctrl_options r = Some (0, r')) <->
    mode_is r (b "CQP") /\ 0 < atoi_of (qp r) 0 <= QP_MAX_VALUE \/
    mode_is r (b "CBR") /\ rates_ok eq r \/
    mode_is r (b "VBR") /\ rates_ok Z.le r \/
    mode_is r (b "QVBR") /\ 0 < atoi_of (qfactor r) 0 /\ rates_ok Z.le r.
Proof.
  destruct (ratectrl r) as [m|] eqn:Em.
  2: { unfold irr_check_rate_ctrl_options, mode_is. rewrite Em. split; [by intros [? [=]]|].
       intros [[(? & [=] & _) _]|[[(? & [=] & _) _]|[[(? & [=] & _) _]|[(? & [=] & _) _]]]]. }
  assert (M : forall name, mode_is r name <-> strcaseeq m name = true).
  { intros name. unfold mode_is. rewrite Em. naive_solver. }
  rewrite !M. destruct (irr_rate_ctrl_type m) as [o|] eqn:Eo.
  2: { unfold irr_check_rate_ctrl_options. rewrite Em, Eo. unfold irr_rate_ctrl_type in Eo.
       repeat split_match_in Eo; try done. split; [by intros [? [=]]|]. intuition congruence. }
  pose proof Eo as Eo'. unfold irr_rate_ctrl_type in Eo'.
  destruct (strcaseeq m (b "CQP")) eqn:E1.
  { destruct (mode_names _ _ E1) as [_ H]. other_modes H.
    rewrite (rate_check_iff r m o Em Eo), rate_missing_false. injection Eo' as <-.
    unfold rates_agree, rate_adjust; cbn [maxrate need_qp need_qfactor need_bitrate need_maxbitrate].
    intuition discriminate. }
  destruct (strcaseeq m (b "CBR")) eqn:E2.
  { destruct (mode_names _ _ E2) as [_ H]. rewrite (mode_accepts m o r eq Em Eo); simplify_eq; [|done..|].
    - other_modes H. cbn [need_qfactor]. intuition discriminate.
    - intros vb vm. other_modes H. intuition discriminate. }
  destruct (strcaseeq m (b "VBR")) eqn:E3.
  { destruct (mode_names _ _ E3) as [_ H]. rewrite (mode_accepts m o r Z.le Em Eo); simplify_eq; [|done..|].
    - other_modes H. cbn [need_qfactor]. intuition discriminate.
    - intros vb vm. other_modes H. intuition discriminate. }
  destruct (strcaseeq m (b "QVBR")) eqn:E4; [|done].
  rewrite (mode_accepts m o r Z.le Em Eo); simplify_eq; [|done..|].
  - cbn [need_qfactor]. intuition discriminate.
  - intros vb vm. rewrite E2, E3, E4. intuition discriminate.
Qed.
