(* ===== verification/Surface.v ===== *)
(** * Surface: the surfaces handed to the encoder

    Models the surface functions of [src/sources/encoder/shared/encoder.cpp]:
    creation from descriptors and of internal surfaces, reference counting,
    destruction.  The resources they hold are explicit: open descriptors, VA
    surfaces and images, and allocations in a heap.  What the operating system
    and the VA driver answer is an argument ([answers]).  The code is the one
    compiled with [ENABLE_QSV] and the current FFmpeg. *)

From Stdlib Require Import ZArith Lia String.
From stdpp Require Import base gmap sets list.
From S2P Require Import Prelude EncoderOpts.

(** ** Data *)

Definition MAX_PLANE_NUM : nat := 4.
Definition VA_INVALID_SURFACE : Z := 4294967295.
Definition VA_STATUS_SUCCESS : Z := 0.
Definition VA_STATUS_ERROR_INVALID_VALUE : Z := 25.

Inductive surface_type := BUFFER | FD | INTERNAL | EXTERNAL.
#[export] Instance surface_type_eq_dec : EqDecision surface_type.
Proof. solve_decision. Defined.

(** [irr_surface_info_t]; the descriptors of the planes, [-1] for none. *)
Record irr_surface_info_t := {
  i_type : surface_type; i_format : Z; i_width : Z; i_height : Z;
  i_stride0 : Z; i_offset1 : Z; i_fd : list Z; i_pdata : option Z; i_data_size : Z
}.

(** [irr_surface_t]; pointers are heap addresses. *)
Record irr_surface_t := {
  info : irr_surface_info_t; ref_count : Z; vaSurfaceID : Z; enc_type : encode_type; mfxSurf : option Z
}.

(** [mfxFrameSurface1], as far as it is filled in. *)
Record mfxFrameSurface1 := { MemId : option Z; CropW : Z; CropH : Z; MWidth : Z; MHeight : Z }.

Inductive cell := CSurface (s : irr_surface_t) | CMfx (m : mfxFrameSurface1) | CBlock.

Record hw := { fds : gset Z; vas : gset Z; images : gset Z; heap : gmap Z cell }.

Definition set_fds (f : gset Z) (h : hw) : hw :=
  {| fds := f; vas := vas h; images := images h; heap := heap h |}.
Definition set_vas (v : gset Z) (h : hw) : hw :=
  {| fds := fds h; vas := v; images := images h; heap := heap h |}.
Definition set_images (i : gset Z) (h : hw) : hw :=
  {| fds := fds h; vas := vas h; images := i; heap := heap h |}.
Definition set_heap (m : gmap Z cell) (h : hw) : hw :=
  {| fds := fds h; vas := vas h; images := images h; heap := m |}.

(** What the system answers to one creation. *)
Record answers := {
  a_surface : option Z;              (** [calloc] of the surface: its address *)
  a_dup : list Z;                    (** [dup] of the planes' descriptors *)
  a_create : Z * Z;                  (** [vaCreateSurfaces]: status and id *)
  a_srf : option Z; a_memid : option Z;
  a_sync : Z; a_derive : Z; a_image : Z; a_map : Z; a_unmap : Z; a_destroy_image : Z
}.

(** ** Primitive operations *)

(** [calloc] at the address the system answers. *)
Definition calloc (a : option Z) (c : cell) : cmd hw (option Z) := fun h =>
  match a with
  | None => Some (None, h)
  | Some p => Some (Some p, set_heap (<[p := c]> (heap h)) h)
  end.

(** [free]: undefined on an address that is not allocated. *)
Definition free (p : Z) : cmd hw unit := fun h =>
  match heap h !! p with
  | None => None
  | Some _ => Some (tt, set_heap (delete p (heap h)) h)
  end.

Definition load_surface (p : Z) : cmd hw irr_surface_t := fun h =>
  match heap h !! p with Some (CSurface s) => Some (s, h) | _ => None end.

Definition load_mfx (p : Z) : cmd hw mfxFrameSurface1 := fun h =>
  match heap h !! p with Some (CMfx m) => Some (m, h) | _ => None end.

Definition store (p : Z) (c : cell) : cmd hw unit := fun h =>
  match heap h !! p with
  | None => None
  | Some _ => Some (tt, set_heap (<[p := c]> (heap h)) h)
  end.

Definition open_fds (l : list Z) : cmd hw unit :=
  cmodify (fun h => set_fds (fds h ∪ list_to_set (filter (fun f => f <> -1) l)) h).

(** Close every descriptor of the planes that is there. *)
Definition close_fds (l : list Z) : cmd hw unit :=
  cmodify (fun h => set_fds (fds h ∖ list_to_set (filter (fun f => f <> -1) l)) h).

Definition vaDestroySurfaces (id : Z) : cmd hw unit :=
  cmodify (fun h => set_vas (vas h ∖ {[id]}) h).

(** ** Creation *)

(** DRM formats, [fourcc_code] of [drm_fourcc.h]. *)
Definition fourcc (a b c d : Z) : Z := a + Z.shiftl b 8 + Z.shiftl c 16 + Z.shiftl d 24.
Definition DRM_FORMAT_ABGR8888 : Z := fourcc 65 66 50 52.
Definition DRM_FORMAT_XBGR8888 : Z := fourcc 88 66 50 52.
Definition DRM_FORMAT_ARGB8888 : Z := fourcc 65 82 50 52.
Definition DRM_FORMAT_XRGB8888 : Z := fourcc 88 82 50 52.
Definition DRM_FORMAT_RGB565 : Z := fourcc 82 71 49 54.
Definition DRM_FORMAT_NV12 : Z := fourcc 78 86 49 50.

(** The buffer size written for the driver; [None] when an [int] overflows or
    when the format is none of the known ones, whose pixel format is then read
    uninitialised. *)
Definition extbuf_size (i : irr_surface_info_t) : option Z :=
  n ← int_chk (i_height i * i_stride0 i);
  let f := i_format i in
  if (f =? DRM_FORMAT_ABGR8888) || (f =? DRM_FORMAT_XBGR8888) || (f =? DRM_FORMAT_ARGB8888)
     || (f =? DRM_FORMAT_XRGB8888) || (f =? DRM_FORMAT_RGB565) then Some n
  else if f =? DRM_FORMAT_NV12 then m ← int_chk (i_offset1 i * 3); Some (Z.quot m 2)
  else None.

(** The descriptors of the surface: duplicates of those that are there. *)
Definition dup_fds (a : list Z) (l : list Z) : list Z :=
  zip_with (fun d f => if f =? -1 then -1 else d) a l.

Definition align16 (n : Z) : option Z := m ← int_chk (n + 15); Some (Z.quot m 16 * 16).

(** [mfxFrameSurface1] for a picture; its members are 16 bits wide. *)
Definition mfx_info (memid : Z) (i : irr_surface_info_t) : option mfxFrameSurface1 :=
  w ← align16 (i_width i); h ← align16 (i_height i);
  Some {| MemId := Some memid; CropW := u16 (i_width i); CropH := u16 (i_height i);
          MWidth := u16 w; MHeight := u16 h |}.

Definition with_fds (l : list Z) (i : irr_surface_info_t) : irr_surface_info_t :=
  {| i_type := i_type i; i_format := i_format i; i_width := i_width i; i_height := i_height i;
     i_stride0 := i_stride0 i; i_offset1 := i_offset1 i; i_fd := l; i_pdata := None; i_data_size := 0 |}.

(** [create_surface_from_fd]; [iVASurface], [iQSVSurface] are what the streamer
    answers to [irr_get_VASurfaceFlag] and [irr_get_QSVSurfaceFlag]. *)
Definition create_surface_from_fd (iVASurface iQSVSurface : Z) (a : answers) (i : irr_surface_info_t)
  : cmd hw (option Z) :=
  let l := dup_fds (a_dup a) (i_fd i) in
  let s := {| info := with_fds l i; ref_count := 0; vaSurfaceID := 0; enc_type := DATA_BUFFER; mfxSurf := None |} in
  surface <-- calloc (a_surface a) (CSurface s) ;;
  match surface with
  | None => cret None
  | Some p =>
      open_fds l;;;
      clift (extbuf_size i);;;
      if negb (fst (a_create a) =? VA_STATUS_SUCCESS) then
        close_fds l;;; free p;;; cret None
      else
        cmodify (fun h => set_vas (vas h ∪ {[snd (a_create a)]}) h);;;
        let s := {| info := info s; ref_count := 1; vaSurfaceID := 0; enc_type := VASURFACE_ID; mfxSurf := None |} in
        if negb (iVASurface =? 0) then
          store p (CSurface {| info := info s; ref_count := 1; vaSurfaceID := snd (a_create a);
                               enc_type := VASURFACE_ID; mfxSurf := None |});;;
          cret (Some p)
        else if negb (iQSVSurface =? 0) then
          srf <-- calloc (a_srf a) (CMfx {| MemId := None; CropW := 0; CropH := 0; MWidth := 0; MHeight := 0 |}) ;;
          match srf with
          | None => free p;;; cret None
          | Some q =>
              memid <-- calloc (a_memid a) CBlock ;;
              match memid with
              | None => free q;;; free p;;; cret None
              | Some mi =>
                  store p (CSurface {| info := info s; ref_count := 1; vaSurfaceID := snd (a_create a);
                                       enc_type := QSVSURFACE_ID; mfxSurf := Some q |});;;
                  m <-- clift (mfx_info mi i) ;;
                  store q (CMfx m);;;
                  cret (Some p)
              end
          end
        else store p (CSurface s);;; cret (Some p)
  end.

(** [ZeroInitVASurface] on a surface that is not null: the status, the image
    derived and destroyed. *)
Definition ZeroInitVASurface (a : answers) : cmd hw Z :=
  if negb (a_sync a =? VA_STATUS_SUCCESS) then cret (a_sync a)
  else if negb (a_derive a =? VA_STATUS_SUCCESS) then cret (a_derive a)
  else
    cmodify (fun h => set_images (images h ∪ {[a_image a]}) h);;;
    let status := if negb (a_map a =? VA_STATUS_SUCCESS) then a_map a else a_unmap a in
    cmodify (fun h => if a_destroy_image a =? VA_STATUS_SUCCESS
                      then set_images (images h ∖ {[a_image a]}) h else h);;;
    if negb (a_destroy_image a =? VA_STATUS_SUCCESS) then
      cret (if status =? VA_STATUS_SUCCESS then a_destroy_image a else status)
    else cret status.

(** [create_internal_surface]; the reference count stays at the 0 of [calloc]. *)
Definition create_internal_surface (iQSVSurface : Z) (a : answers) (i : irr_surface_info_t)
  : cmd hw (option Z) :=
  if iQSVSurface =? 0 then cret None
  else
    let i' := {| i_type := i_type i; i_format := i_format i; i_width := i_width i; i_height := i_height i;
                 i_stride0 := i_stride0 i; i_offset1 := i_offset1 i; i_fd := i_fd i;
                 i_pdata := None; i_data_size := 0 |} in
    let s id mfx := CSurface {| info := i'; ref_count := 0; vaSurfaceID := id; enc_type := QSVSURFACE_ID;
                                mfxSurf := mfx |} in
    surface <-- calloc (a_surface a) (s 0 None) ;;
    match surface with
    | None => cret None
    | Some p =>
        srf <-- calloc (a_srf a) (CMfx {| MemId := None; CropW := 0; CropH := 0; MWidth := 0; MHeight := 0 |}) ;;
        match srf with
        | None => free p;;; cret None
        | Some q =>
            memid <-- calloc (a_memid a) CBlock ;;
            match memid with
            | None => free p;;; free q;;; cret None
            | Some mi =>
                if negb (fst (a_create a) =? VA_STATUS_SUCCESS) then
                  free p;;; free q;;; free mi;;; cret None
                else
                  cmodify (fun h => set_vas (vas h ∪ {[snd (a_create a)]}) h);;;
                  store p (s (snd (a_create a)) None);;;
                  status <-- ZeroInitVASurface a ;;
                  if negb (status =? VA_STATUS_SUCCESS) then
                    vaDestroySurfaces (snd (a_create a));;;
                    free p;;; free q;;; free mi;;; cret None
                  else
                    m <-- clift (mfx_info mi i) ;;
                    store q (CMfx m);;;
                    store p (s (snd (a_create a)) (Some q));;;
                    cret (Some p)
            end
        end
    end.

(** [irr_encoder_create_surface], once the display is known. *)
Definition irr_encoder_create_surface (iVASurface iQSVSurface : Z) (a : answers) (i : irr_surface_info_t)
  : cmd hw (option Z) :=
  match i_type i with
  | FD => create_surface_from_fd iVASurface iQSVSurface a i
  | INTERNAL => create_internal_surface iQSVSurface a i
  | _ => cret None
  end.

Definition irr_encoder_create_blank_surface (iVASurface iQSVSurface : Z) (a : answers) (width height : Z)
  : cmd hw (option Z) :=
  irr_encoder_create_surface iVASurface iQSVSurface a
    {| i_type := INTERNAL; i_format := 0; i_width := width; i_height := height; i_stride0 := 0;
       i_offset1 := 0; i_fd := repeat (-1) MAX_PLANE_NUM; i_pdata := None; i_data_size := 0 |}.

(** ** Destruction and counting *)

(** The library surface and its memory identifier. *)
Definition free_mfx (m : option Z) : cmd hw unit :=
  match m with
  | None => cret tt
  | Some q =>
      srf <-- load_mfx q ;;
      (match MemId srf with Some mi => free mi | None => cret tt end);;;
      free q
  end.

Definition destroy_va (id : Z) : cmd hw unit :=
  if negb (id =? VA_INVALID_SURFACE) then vaDestroySurfaces id else cret tt.

(** [irr_encoder_destroy_surface] on a pointer that is not null. *)
Definition irr_encoder_destroy_surface (p : Z) : cmd hw unit :=
  s <-- load_surface p ;;
  match i_type (info s) with
  | FD =>
      (match i_pdata (info s) with Some d => free d | None => cret tt end);;;
      destroy_va (vaSurfaceID s);;;
      close_fds (i_fd (info s));;;
      free_mfx (mfxSurf s);;;
      free p
  | INTERNAL =>
      destroy_va (vaSurfaceID s);;;
      free_mfx (mfxSurf s);;;
      free p
  | _ => free p
  end.

Definition with_count (n : Z) (s : irr_surface_t) : irr_surface_t :=
  {| info := info s; ref_count := n; vaSurfaceID := vaSurfaceID s; enc_type := enc_type s;
     mfxSurf := mfxSurf s |}.

Definition irr_encoder_ref_surface (p : Z) : cmd hw unit :=
  s <-- load_surface p ;;
  n <-- clift (int_chk (ref_count s + 1)) ;;
  store p (CSurface (with_count n s)).

Definition irr_encoder_unref_surface (p : Z) : cmd hw unit :=
  s <-- load_surface p ;;
  n <-- clift (int_chk (ref_count s - 1)) ;;
  store p (CSurface (with_count n s));;;
  if n =? 0 then irr_encoder_destroy_surface p else cret tt.

(** ** What a surface holds *)

(** Descriptors that are there. *)
Definition live (l : list Z) : gset Z := list_to_set (filter (fun f => f <> -1) l).

(** The library part of a surface: nothing, or a surface with its identifier. *)
Inductive extra : option Z -> list (Z * cell) -> Prop :=
  | extra_none : extra None []
  | extra_mfx q m mi : MemId m = Some mi -> extra (Some q) [(q, CMfx m); (mi, CBlock)].

(** In [h'] the surface at [p] with count [n] holds descriptors, a VA surface
    and allocations that [h] does not have, and nothing else differs. *)
Definition holds (h h' : hw) (p n : Z) : Prop := exists s e,
  extra (mfxSurf s) e /\ NoDup (p :: e.*1) /\ (forall k, k ∈ p :: e.*1 -> heap h !! k = None) /\
  ref_count s = n /\ i_type (info s) = FD /\ i_pdata (info s) = None /\
  (live (i_fd (info s)) ## fds h) /\ (vaSurfaceID s ∉ vas h) /\ vaSurfaceID s <> VA_INVALID_SURFACE /\
  fds h' = fds h ∪ live (i_fd (info s)) /\ vas h' = vas h ∪ {[vaSurfaceID s]} /\ images h' = images h /\
  heap h' = <[p := CSurface s]> (list_to_map e ∪ heap h).

(** Answers that respect what is in use. *)
Record fresh_answers (a : answers) (h : hw) : Prop := {
  fr_surface : forall p, a_surface a = Some p -> heap h !! p = None;
  fr_srf : forall q, a_srf a = Some q -> heap h !! q = None /\ a_surface a <> Some q;
  fr_memid : forall m, a_memid a = Some m -> heap h !! m = None /\ a_surface a <> Some m /\ a_srf a <> Some m;
  fr_dup : (list_to_set (a_dup a) : gset Z) ## fds h;
  fr_va : (snd (a_create a) ∉ vas h) /\ snd (a_create a) <> VA_INVALID_SURFACE
}.

Lemma dup_fds_fresh a l (f : gset Z) : (list_to_set a : gset Z) ## f -> (live (dup_fds a l)) ## f.
Proof.
  unfold live, dup_fds. intros H. revert l. induction a as [|d a IH]; intros [|x l]; simpl.
  1-3: set_solver.
  assert (H' : list_to_set a ## f) by (simpl in H; set_solver). specialize (IH H' l).
  destruct (x =? -1) eqn:E.
  - rewrite filter_cons_False by tauto. done.
  - destruct (decide (d = -1)) as [->|N].
    + rewrite filter_cons_False by tauto. done.
    + rewrite filter_cons_True by done. simpl in *. set_solver.
Qed.

(** Compare two finite maps key by key. *)
Ltac map_cases :=
  apply map_eq; intros ?; rewrite ?lookup_insert, ?lookup_delete, ?lookup_insert;
  repeat case_decide; simplify_eq; done.

Lemma hw_eq h h' : fds h = fds h' -> vas h = vas h' -> images h = images h' -> heap h = heap h' -> h = h'.
Proof. destruct h, h'; simpl; intros; by subst. Qed.

(** A surface created for the VA or the QSV path holds what it should. *)
Lemma create_holds va qsv a i h p h' :
  fresh_answers a h -> i_type i = FD -> va <> 0 \/ qsv <> 0 ->
  create_surface_from_fd va qsv a i h = Some (Some p, h') -> a_surface a = Some p /\ holds h h' p 1.
Proof.
  intros [Fs Fq Fm Fd [Fv Fi]] Ht Hf. pose proof (dup_fds_fresh _ (i_fd i) _ Fd) as Fl.
  unfold create_surface_from_fd. destruct (a_surface a) as [p'|]; [|done]. specialize (Fs _ eq_refl).
  unfold cbind, calloc, open_fds, cmodify, clift, close_fds, free, store, cret. cbn.
  destruct (extbuf_size i); [|done]. destruct (fst (a_create a) =? _); cbn; rewrite ?lookup_insert_eq; [|done].
  destruct (Z.eqb_spec va 0) as [->|Hva]; cbn; rewrite ?lookup_insert_eq.
  - destruct (Z.eqb_spec qsv 0) as [->|Hq]; [lia|]. cbn.
    destruct (a_srf a) as [q|]; cbn; [|rewrite lookup_insert_eq; done].
    destruct (Fq _ eq_refl) as [Fq1 Fq2].
    destruct (a_memid a) as [mi|]; cbn;
      [|rewrite lookup_insert_eq; cbn; rewrite delete_insert_eq, lookup_delete_ne, lookup_insert_eq by congruence; done].
    destruct (Fm _ eq_refl) as (Fm1 & Fm2 & Fm3).
    rewrite !lookup_insert_ne, lookup_insert_eq by congruence. cbn.
    destruct (mfx_info mi i) as [m|] eqn:Em; cbn; [|done].
    rewrite !lookup_insert_ne, lookup_insert_eq by congruence. intros [= <- <-]. split; [done|].
    exists (Build_irr_surface_t (with_fds (dup_fds (a_dup a) (i_fd i)) i) 1 (snd (a_create a)) QSVSURFACE_ID (Some q)),
      [(q, CMfx m); (mi, CBlock)].
    split; [apply extra_mfx; unfold mfx_info in Em; destruct (align16 (i_width i)), (align16 (i_height i)); naive_solver|].
    cbn. split_and!; try done.
    + repeat constructor; set_solver.
    + set_solver.
    + rewrite <- ?insert_union_l, (left_id_L ∅ (∪)). map_cases.
  - intros [= <- <-]. split; [done|].
    exists (Build_irr_surface_t (with_fds (dup_fds (a_dup a) (i_fd i)) i) 1 (snd (a_create a)) VASURFACE_ID None), [].
    split; [constructor|]. cbn. split_and!; try done.
    + repeat constructor; set_solver.
    + set_solver.
    + rewrite <- ?insert_union_l, (left_id_L ∅ (∪)). map_cases.
Qed.

Lemma holds_load h h' p n : holds h h' p n -> exists s, load_surface p h' = Some (s, h') /\ ref_count s = n /\
  forall n', exists h'', store p (CSurface (with_count n' s)) h' = Some (tt, h'') /\ holds h h'' p n'.
Proof.
  intros (s & e & He & Hn & Hk & <- & Ht & Hp & Hd & Hv & Hi & E1 & E2 & E3 & E4).
  exists s. unfold load_surface, store. rewrite E4, lookup_insert_eq. split; [done|split; [done|]].
  intros n'. eexists. split; [done|]. exists (with_count n' s), e. cbn. split_and!; try done. map_cases.
Qed.

Lemma holds_ref h h' p n : holds h h' p n -> 0 < n < INT_MAX ->
  exists h'', irr_encoder_ref_surface p h' = Some (tt, h'') /\ holds h h'' p (n + 1).
Proof.
  intros (s & El & <- & Hs)%holds_load Hn. unfold irr_encoder_ref_surface, cbind. rewrite El. unfold clift.
  rewrite int_chk_Some by (unfold INT_MIN; lia). apply Hs.
Qed.

Lemma holds_unref h h' p n : holds h h' p n -> 1 < n <= INT_MAX ->
  exists h'', irr_encoder_unref_surface p h' = Some (tt, h'') /\ holds h h'' p (n - 1).
Proof.
  intros (s & El & <- & Hs)%holds_load Hn. unfold irr_encoder_unref_surface, cbind. rewrite El. unfold clift.
  rewrite int_chk_Some by (unfold INT_MIN; lia). destruct (Hs (ref_count s - 1)) as (h'' & -> & Hh).
  rewrite (proj2 (Z.eqb_neq _ _)) by lia. eauto.
Qed.

(** Destruction gives back exactly what the surface holds. *)
Lemma holds_destroy h h' p n : holds h h' p n -> irr_encoder_destroy_surface p h' = Some (tt, h).
Proof.
  intros (s & e & He & Hn & Hk & _ & Ht & Hp & Hd & Hv & Hi & E1 & E2 & E3 & E4).
  unfold irr_encoder_destroy_surface, cbind at 1. unfold load_surface. rewrite E4, lookup_insert_eq, Ht, Hp.
  unfold destroy_va. rewrite (proj2 (Z.eqb_neq _ _) Hi). cbn [negb].
  unfold vaDestroySurfaces, close_fds, cbind, cret, cmodify.
  assert (H : free_mfx (mfxSurf s) (set_fds (fds h) (set_vas (vas h) h')) =
    Some (tt, {| fds := fds h; vas := vas h; images := images h; heap := <[p := CSurface s]> (heap h) |})).
  { inversion He as [M|q m mi Hm M]; subst; cbn [free_mfx].
    - unfold cret. do 2 f_equal. apply hw_eq; [done..|]. cbn. rewrite E4. cbn. by rewrite (left_id_L ∅ (∪)).
    - cbn in Hn, Hk. apply NoDup_cons in Hn as [N1 N2]. apply NoDup_cons in N2 as [N2 _].
      assert (q <> p /\ mi <> p /\ mi <> q) as (?&?&?) by set_solver.
      assert (heap h !! q = None /\ heap h !! mi = None) as [? ?] by (split; apply Hk; set_solver).
      cbn [list_to_map fst snd foldr] in E4. rewrite <- ?insert_union_l, (left_id_L ∅ (∪)) in E4.
      unfold cbind, load_mfx, free. cbn. rewrite !E4, lookup_insert_ne, lookup_insert_eq by done. cbn.
      rewrite Hm. cbn. rewrite E4, !lookup_insert_ne, lookup_insert_eq by done. cbn.
      rewrite lookup_delete_ne, lookup_insert_ne, lookup_insert_eq by done.
      do 2 f_equal. apply hw_eq; [done..|]. cbn.
      apply map_eq; intros k. rewrite !lookup_delete, !lookup_insert. repeat case_decide; simplify_eq; done. }
  replace (set_fds _ _) with (set_fds (fds h) (set_vas (vas h) h')).
  - rewrite H. unfold free. cbn. rewrite lookup_insert_eq. do 2 f_equal. apply hw_eq; [done..|]. cbn.
    rewrite delete_insert_id; [done|]. apply Hk. set_solver.
  - apply hw_eq; [cbn; rewrite E1; unfold live in *; set_solver|cbn; rewrite E2; set_solver|done..].
Qed.

Lemma holds_last h h' p : holds h h' p 1 -> irr_encoder_unref_surface p h' = Some (tt, h).
Proof.
  intros (s & El & Hc & Hs)%holds_load. unfold irr_encoder_unref_surface, cbind. rewrite El. unfold clift.
  rewrite Hc, int_chk_Some by (unfold INT_MIN, INT_MAX; lia).
  destruct (Hs (1 - 1)) as (h'' & -> & Hh). change (1 - 1 =? 0) with true. cbv iota.
  by apply holds_destroy in Hh.
Qed.

(** ** Properties of surfaces *)

(** Reference and unreference calls, and the count they leave. *)
Inductive ref_op := Ref | Unref.

Definition ref_exec (p : Z) (o : ref_op) : cmd hw unit :=
  match o with Ref => irr_encoder_ref_surface p | Unref => irr_encoder_unref_surface p end.

Fixpoint ref_run (p : Z) (os : list ref_op) : cmd hw unit :=
  match os with [] => cret tt | o :: os => ref_exec p o;;; ref_run p os end.

(** The count after some calls. *)
Fixpoint count (n : Z) (os : list ref_op) : Z :=
  match os with [] => n | Ref :: os => count (n + 1) os | Unref :: os => count (n - 1) os end.

(** The count stays positive before every call. *)
Fixpoint counted (n : Z) (os : list ref_op) : Prop :=
  match os with
  | [] => True
  | o :: os => 0 < n < INT_MAX /\ counted (match o with Ref => n + 1 | Unref => n - 1 end) os
  end.

Lemma ref_run_holds p os : forall h h' n, holds h h' p n -> 0 < n -> counted n os ->
  exists h'', ref_run p os h' = Some (tt, h'') /\
    (if count n os =? 0 then h'' = h else holds h h'' p (count n os)).
Proof.
  induction os as [|o os IH]; intros h h' n Hh Hn Hc; cbn [ref_run count].
  { exists h'. rewrite (proj2 (Z.eqb_neq _ _)) by lia. done. }
  destruct Hc as [Hb Hc]. destruct o; cbn [ref_exec]; unfold cbind.
  - destruct (holds_ref _ _ _ _ Hh) as (h1 & -> & H1); [lia|]. apply (IH h h1); [done|lia|done].
  - destruct (decide (n = 1)) as [->|N].
    + rewrite (holds_last _ _ _ Hh). destruct os as [|o os]; [by exists h|]. cbn in Hc. destruct o; cbn in Hc; lia.
    + destruct (holds_unref _ _ _ _ Hh) as (h1 & -> & H1); [lia|]. apply (IH h h1); [done|lia|done].
Qed.

(** C30. Surfaces neither leak nor disappear early.  From a surface created
    from descriptors (in VA or QSV mode, with any driver and allocator that do
    not answer what is already in use), any sequence of references and
    unreferences that keeps the count positive is defined; while the count is
    positive the surface keeps its duplicated descriptors, its VA surface and its
    allocations, and when it reaches zero all of them are given back and
    everything else is as before the creation. *)
Theorem surface_lifecycle va qsv a i h p h' os :
  fresh_answers a h -> i_type i = FD -> va <> 0 \/ qsv <> 0 ->
  irr_encoder_create_surface va qsv a i h = Some (Some p, h') -> counted 1 os ->
  exists h'', ref_run p os h' = Some (tt, h'') /\
    (if count 1 os =? 0 then h'' = h else holds h h'' p (count 1 os)).
Proof.
  intros F Ht Hf Hc Ho. unfold irr_encoder_create_surface in Hc. rewrite Ht in Hc.
  destruct (create_holds _ _ _ _ _ _ _ F Ht Hf Hc) as [_ Hh]. by apply (ref_run_holds p os h h' 1).
Qed.

(** A picture of one plane and a driver that answers. *)
Definition sample_surface : irr_surface_info_t :=
  {| i_type := FD; i_format := DRM_FORMAT_ABGR8888; i_width := 1280; i_height := 720; i_stride0 := 5120;
     i_offset1 := 0; i_fd := [7; -1; -1; -1]; i_pdata := None; i_data_size := 0 |}.
Definition sample_answers : answers :=
  {| a_surface := Some 1000; a_dup := [12; -1; -1; -1]; a_create := (0, 5); a_srf := Some 2000;
     a_memid := Some 3000; a_sync := 0; a_derive := 0; a_image := 1; a_map := 0; a_unmap := 0;
     a_destroy_image := 0 |}.
Definition hw0 : hw := {| fds := {[7]}; vas := ∅; images := ∅; heap := ∅ |}.

Lemma sample_fresh : fresh_answers sample_answers hw0.
Proof. split; cbn; intros; simplify_eq; repeat split; try done; set_solver. Qed.

Lemma surface_lifecycle_witness :
  exists h', irr_encoder_create_surface 0 1 sample_answers sample_surface hw0 = Some (Some 1000, h') /\
    ref_run 1000 [Ref; Unref; Unref] h' = Some (tt, hw0).
Proof.
  destruct (irr_encoder_create_surface 0 1 sample_answers sample_surface hw0) as [[r h']|] eqn:E;
    [|vm_compute in E; discriminate].
  assert (r = Some 1000) as -> by (vm_compute in E; congruence).
  exists h'. split; [reflexivity|].
  destruct (surface_lifecycle 0 1 sample_answers sample_surface hw0 1000 h' [Ref; Unref; Unref])
    as (h2 & Hr & Hh); [exact sample_fresh|reflexivity|right; lia|exact E|cbn; unfold INT_MAX; lia|].
  change (h2 = hw0) in Hh. by rewrite Hh in Hr.
Defined.

(** Creation in QSV mode leaks when memory runs out.  When the driver has
    made the surface and the allocation of the library surface (or of its
    identifier) fails, [create_surface_from_fd] returns null and frees its
    structures, but the duplicated descriptors stay open and the VA surface stays
    allocated. *)
Theorem qsv_creation_leaks a i h p :
  fresh_answers a h -> i_type i = FD -> a_surface a = Some p -> is_Some (extbuf_size i) ->
  fst (a_create a) = VA_STATUS_SUCCESS -> a_srf a = None \/ a_memid a = None ->
  irr_encoder_create_surface 0 1 a i h =
    Some (None, {| fds := fds h ∪ live (dup_fds (a_dup a) (i_fd i)); vas := vas h ∪ {[snd (a_create a)]};
                   images := images h; heap := heap h |}).
Proof.
  intros [Fs Fq _ _ _] Ht Hp [n He] Hs Hm. unfold irr_encoder_create_surface, create_surface_from_fd. rewrite Ht, Hp.
  specialize (Fs _ Hp). unfold cbind, calloc, open_fds, cmodify, clift, free, cret. cbn. rewrite He, Hs. cbn.
  destruct (a_srf a) as [q|]; cbn.
  - destruct Hm as [|Hm]; [done|]. rewrite Hm. destruct (Fq _ eq_refl) as [Fq1 Fq2]. cbn.
    rewrite lookup_insert_eq. cbn. rewrite delete_insert_id, lookup_insert_eq by (rewrite lookup_insert_ne by congruence; done).
    do 2 f_equal. apply hw_eq; [done..|]. cbn. by rewrite delete_insert_id.
  - rewrite lookup_insert_eq. do 2 f_equal. apply hw_eq; [done..|]. cbn. by rewrite delete_insert_id.
Qed.

Definition no_memory : answers :=
  {| a_surface := Some 1000; a_dup := [12; -1; -1; -1]; a_create := (0, 5); a_srf := None;
     a_memid := None; a_sync := 0; a_derive := 0; a_image := 1; a_map := 0; a_unmap := 0;
     a_destroy_image := 0 |}.

Lemma qsv_creation_leaks_witness :
  irr_encoder_create_surface 0 1 no_memory sample_surface hw0 =
    Some (None, {| fds := {[7]} ∪ live [12; -1; -1; -1]; vas := ∅ ∪ {[5]}; images := ∅; heap := ∅ |}).
Proof.
  apply (qsv_creation_leaks no_memory sample_surface hw0 1000).
  - split; cbn; intros; simplify_eq; repeat split; try done; set_solver.
  - reflexivity.
  - reflexivity.
  - by eexists.
  - reflexivity.
  - left. reflexivity.
Defined.
