(* ===== verification/SurfaceSet.v ===== *)
(** * SurfaceSet: several surfaces at once

    [Surface] follows one surface; the encoder's server has many.  Here the state
    of the hardware is a base plus disjoint pieces, one per surface: pieces can be
    taken in any order, so that a fact about the last surface created holds for
    every surface ([stack_pick]), and what is allocated otherwise goes to the base
    ([stack_base]).  The creation of blank surfaces adds such a piece
    ([create_internal_adds]). *)

From Stdlib Require Import ZArith Lia.
From stdpp Require Import base gmap sets list.
From S2P Require Import Prelude EncoderOpts Surface.

(** ** Pieces *)

Record piece := { pc_cells : gmap Z cell; pc_fds : gset Z; pc_vas : gset Z; pc_images : gset Z }.

(** [h'] is [h] and a piece that has nothing in common with it. *)
Record adds (x : piece) (h h' : hw) : Prop := {
  ad_cells : pc_cells x ##ₘ heap h; ad_fds : pc_fds x ## fds h; ad_vas : pc_vas x ## vas h;
  ad_images : pc_images x ## images h;
  ad_heap' : heap h' = pc_cells x ∪ heap h; ad_fds' : fds h' = pc_fds x ∪ fds h;
  ad_vas' : vas h' = pc_vas x ∪ vas h; ad_images' : images h' = pc_images x ∪ images h
}.

Definition empty_piece : piece := {| pc_cells := ∅; pc_fds := ∅; pc_vas := ∅; pc_images := ∅ |}.

Definition add_piece (x : piece) (h : hw) : hw :=
  {| fds := pc_fds x ∪ fds h; vas := pc_vas x ∪ vas h; images := pc_images x ∪ images h;
     heap := pc_cells x ∪ heap h |}.

Lemma adds_piece x h : pc_cells x ##ₘ heap h -> pc_fds x ## fds h -> pc_vas x ## vas h ->
  pc_images x ## images h -> adds x h (add_piece x h).
Proof. by split. Qed.

Lemma adds_eq x h h' : adds x h h' -> h' = add_piece x h.
Proof. intros []. by apply hw_eq. Qed.

Lemma gset_swap (x y h : gset Z) : x ## h -> y ## x ∪ h -> y ## h /\ x ## y ∪ h /\ y ∪ (x ∪ h) = x ∪ (y ∪ h).
Proof. set_solver. Qed.

Lemma adds_swap x y h1 h2 h3 : adds x h1 h2 -> adds y h2 h3 ->
  exists h2', adds y h1 h2' /\ adds x h2' h3.
Proof.
  intros [C1 F1 V1 I1 A1 A2 A3 A4] [C2 F2 V2 I2 B1 B2 B3 B4].
  rewrite A1 in C2. rewrite A2 in F2. rewrite A3 in V2. rewrite A4 in I2.
  apply map_disjoint_union_r in C2 as [C2 C3].
  destruct (gset_swap _ _ _ F1 F2) as (F3 & F4 & F5), (gset_swap _ _ _ V1 V2) as (V3 & V4 & V5),
    (gset_swap _ _ _ I1 I2) as (I3 & I4 & I5).
  exists (add_piece y h1). split; [by apply adds_piece|].
  split; cbn; [|done..| |congruence|congruence|congruence].
  - apply map_disjoint_union_r. split; [|done]. by apply map_disjoint_sym.
  - rewrite B1, A1, !(assoc_L (∪)). f_equal. by apply map_union_comm.
Qed.

(** The piece of a surface at [p] with count [n]. *)
Definition owns (x : piece) (p n : Z) : Prop := exists s e,
  extra (mfxSurf s) e /\ NoDup (p :: e.*1) /\ ref_count s = n /\ i_type (info s) = FD /\
  i_pdata (info s) = None /\ vaSurfaceID s <> VA_INVALID_SURFACE /\
  x = {| pc_cells := <[p := CSurface s]> (list_to_map e); pc_fds := live (i_fd (info s));
         pc_vas := {[vaSurfaceID s]}; pc_images := ∅ |}.

Lemma extra_dom p s (e : list (Z * cell)) k :
  (<[p := CSurface s]> (list_to_map e) : gmap Z cell) !! k = None <-> k ∉ p :: e.*1.
Proof.
  rewrite lookup_insert_None, not_elem_of_cons, not_elem_of_list_to_map. naive_solver.
Qed.

Lemma holds_adds h h' p n : holds h h' p n <-> exists x, owns x p n /\ adds x h h'.
Proof.
  split.
  - intros (s & e & He & Hn & Hk & Hc & Ht & Hp & Hd & Hv & Hi & E1 & E2 & E3 & E4).
    eexists. split; [exists s, e; by split_and!|]. split; cbn; [|done|set_solver|set_solver|..|by rewrite E3, (left_id_L ∅ (∪))].
    2,3,4: rewrite ?E1, ?E2; try apply (comm_L (∪)).
    + apply map_disjoint_spec. intros k c1 c2 K1 K2.
      destruct (decide (k ∈ p :: e.*1)) as [K|K]; [by rewrite (Hk k K) in K2|].
      by rewrite (proj2 (extra_dom p s e k) K) in K1.
    + by rewrite E4, insert_union_l.
  - intros (x & (s & e & He & Hn & Hc & Ht & Hp & Hi & ->) & [C F V I A1 A2 A3 A4]). cbn in *.
    exists s, e. split_and!; try done.
    2: set_solver. 2,3: rewrite ?A2, ?A3; apply (comm_L (∪)). 2: by rewrite A4, (left_id_L ∅ (∪)).
    + intros k K. destruct (heap h !! k) as [c|] eqn:E; [|done]. exfalso.
      rewrite map_disjoint_spec in C.
      destruct ((<[p := CSurface s]> (list_to_map e) : gmap Z cell) !! k) as [c'|] eqn:E'; [by eapply C|].
      by apply extra_dom in E'.
    + by rewrite A1, insert_union_l.
Qed.

(** ** Stacks *)

(** The hardware is the base [b] and the surfaces of the list, with counts. *)
Inductive stack (b : hw) : hw -> list (Z * Z) -> Prop :=
  | stack_nil : stack b b []
  | stack_cons h h' p n l : stack b h l -> holds h h' p n -> stack b h' ((p, n) :: l).

Lemma stack_nil_inv b h : stack b h [] -> h = b.
Proof. by inversion 1. Qed.

Lemma stack_cons_inv b h p n l : stack b h ((p, n) :: l) -> exists h', stack b h' l /\ holds h' h p n.
Proof. inversion 1; subst; eauto. Qed.

#[export] Instance stack_perm b h : Proper ((≡ₚ) ==> impl) (stack b h).
Proof.
  intros l l' P. revert h. induction P as [|[p n] l l' P IH|[p n] [q m] l|l1 l2 l3 P1 IH1 P2 IH2]; intros h H; [done|..].
  - apply stack_cons_inv in H as (h' & H & Hp). econstructor; [by apply IH|done].
  - apply stack_cons_inv in H as (h2 & H & Hp). apply stack_cons_inv in H as (h1 & H & Hq).
    apply holds_adds in Hp as (x & Ox & Ax). apply holds_adds in Hq as (y & Oy & Ay).
    destruct (adds_swap _ _ _ _ _ Ay Ax) as (h2' & B1 & B2).
    econstructor; [econstructor; [exact H|]|]; apply holds_adds; eauto.
  - by apply IH2, IH1.
Qed.

(** Any surface can be taken last. *)
Lemma stack_pick b h p n l : stack b h l -> (p, n) ∈ l ->
  exists h' l', l ≡ₚ (p, n) :: l' /\ stack b h' l' /\ holds h' h p n.
Proof.
  intros H I. apply elem_of_Permutation in I as [l' P]. rewrite P in H.
  apply stack_cons_inv in H as (h' & H1 & H2). eauto.
Qed.

(** What is added to the hardware goes to the base. *)
Lemma stack_base b h l y h' : stack b h l -> adds y h h' -> exists b', adds y b b' /\ stack b' h' l.
Proof.
  intros H. revert h'. induction H as [|h0 h1 p n l H IH Hp]; intros h' A; [eauto using stack_nil|].
  apply holds_adds in Hp as (x & Ox & Ax). destruct (adds_swap _ _ _ _ _ Ax A) as (h2 & A1 & A2).
  destruct (IH _ A1) as (b' & B1 & B2). exists b'. split; [done|]. econstructor; [done|]. apply holds_adds. eauto.
Qed.

Lemma holds_fresh h h' p n : holds h h' p n -> heap h !! p = None /\ is_Some (heap h' !! p).
Proof.
  intros (s & e & _ & _ & Hk & _ & _ & _ & _ & _ & _ & _ & _ & _ & E). split; [apply Hk; by left|].
  rewrite E, lookup_insert_eq. eauto.
Qed.

Lemma holds_mono h h' p n k : holds h h' p n -> is_Some (heap h !! k) -> is_Some (heap h' !! k).
Proof.
  intros (x & _ & A)%holds_adds [c K]. rewrite (ad_heap' _ _ _ A).
  destruct ((pc_cells x ∪ heap h) !! k) eqn:E; [eauto|]. apply lookup_union_None in E as [_ E]. by rewrite E in K.
Qed.

Lemma stack_alloc b h l p : stack b h l -> p ∈ l.*1 -> is_Some (heap h !! p).
Proof.
  induction 1 as [|h0 h1 q n l H IH Hq]; cbn; [by intros ?%elem_of_nil|].
  intros [->|I]%elem_of_cons; [by apply holds_fresh in Hq as []|]. eapply holds_mono; [done|by apply IH].
Qed.

Lemma stack_NoDup b h l : stack b h l -> NoDup l.*1.
Proof.
  induction 1 as [|h0 h1 q n l H IH Hq]; [constructor|]. cbn. constructor; [|done].
  intros I. apply (stack_alloc _ _ _ _ H) in I as [c I]. apply holds_fresh in Hq as [N _]. by rewrite N in I.
Qed.

(** The surface itself, and what the changes of count and type leave. *)
Lemma holds_surface h h' p n : holds h h' p n -> exists s, heap h' !! p = Some (CSurface s) /\
  load_surface p h' = Some (s, h') /\ ref_count s = n /\ i_pdata (info s) = None /\ (vaSurfaceID s ∈ vas h') /\
  (vaSurfaceID s ∉ vas h) /\
  forall n' ty, exists h'', store p (CSurface (Build_irr_surface_t (info s) n' (vaSurfaceID s) ty (mfxSurf s))) h'
    = Some (tt, h'') /\ holds h h'' p n' /\ vas h'' = vas h'.
Proof.
  intros (s & e & He & Hn & Hk & <- & Ht & Hp & Hd & Hv & Hi & E1 & E2 & E3 & E4).
  exists s. unfold load_surface, store. rewrite E4, lookup_insert_eq. split_and!; try done; [set_solver|].
  intros n' ty. eexists. split; [done|]. split; [|done].
  exists (Build_irr_surface_t (info s) n' (vaSurfaceID s) ty (mfxSurf s)), e. cbn. split_and!; try done. map_cases.
Qed.

Lemma stack_vas b h l p n : stack b h l -> (p, n) ∈ l ->
  exists s, heap h !! p = Some (CSurface s) /\ vaSurfaceID s ∈ vas h.
Proof.
  intros H I. destruct (stack_pick _ _ _ _ _ H I) as (h' & l' & _ & _ & Hp).
  apply holds_surface in Hp as (s & ? & _ & _ & _ & ? & _). eauto.
Qed.

(** Two surfaces have different identifiers. *)
Lemma stack_ids b h l p n q m : stack b h l -> (p, n) ∈ l -> (q, m) ∈ l -> p <> q ->
  exists s t, heap h !! p = Some (CSurface s) /\ heap h !! q = Some (CSurface t) /\ vaSurfaceID s <> vaSurfaceID t.
Proof.
  intros H Ip Iq N. destruct (stack_pick _ _ _ _ _ H Ip) as (h' & l' & P & H' & Hp).
  rewrite P in Iq. apply elem_of_cons in Iq as [Iq|Iq]; [congruence|].
  destruct (stack_vas _ _ _ _ _ H' Iq) as (t & Et & Vt).
  destruct (holds_surface _ _ _ _ Hp) as (s & Es & _ & _ & _ & _ & Vs & _).
  exists s, t. split_and!; [done| |congruence].
  apply holds_adds in Hp as (x & _ & A). rewrite (ad_heap' _ _ _ A). apply lookup_union_Some; [by apply A|]. by right.
Qed.

(** ** What is only added *)

(** Nothing of [h] is gone in [h']. *)
Record grown (h h' : hw) : Prop := {
  gr_heap : heap h ⊆ heap h'; gr_fds : fds h ⊆ fds h'; gr_vas : vas h ⊆ vas h'; gr_images : images h ⊆ images h'
}.

#[export] Instance grown_refl : Reflexive grown.
Proof. by split. Qed.

Lemma gset_split (x y : gset Z) : x ⊆ y -> y ∖ x ## x /\ y = (y ∖ x) ∪ x.
Proof. intros S. split; [set_solver|]. by rewrite difference_union_L, (comm_L (∪)), subseteq_union_1_L. Qed.

Lemma grown_adds h h' : grown h h' -> exists x, adds x h h'.
Proof.
  intros [S1 S2 S3 S4].
  destruct (gset_split _ _ S2) as [D2 E2], (gset_split _ _ S3) as [D3 E3], (gset_split _ _ S4) as [D4 E4].
  exists {| pc_cells := heap h' ∖ heap h; pc_fds := fds h' ∖ fds h; pc_vas := vas h' ∖ vas h;
            pc_images := images h' ∖ images h |}.
  split; cbn; [by apply map_disjoint_difference_l1|done..| |done|done|done].
  rewrite map_union_comm by (by apply map_disjoint_difference_l1). by rewrite map_difference_union.
Qed.

Lemma adds_grown x h h' : adds x h h' -> grown h h'.
Proof.
  intros [C F V I E1 E2 E3 E4]. split; rewrite ?E1, ?E2, ?E3, ?E4; [by apply map_union_subseteq_r|set_solver..].
Qed.

(** The operation takes nothing of [h] away. *)
Definition safe_for {A} (h : hw) (op : cmd hw A) : Prop :=
  forall h1 r h2, grown h h1 -> op h1 = Some (r, h2) -> grown h h2.

Lemma safe_ret {A} h (a : A) : safe_for h (cret a).
Proof. by intros h1 r h2 G [= <- <-]. Qed.

Lemma safe_bind {A B} h (m : cmd hw A) (f : A -> cmd hw B) :
  safe_for h m -> (forall a, safe_for h (f a)) -> safe_for h (cbind f m).
Proof. intros Hm Hf h1 r h2 G E. apply cbind_inv in E as (a & h' & E1 & E2). eapply Hf; [by eapply Hm|done]. Qed.

Lemma safe_lift {A} h (o : option A) : safe_for h (clift o).
Proof. intros h1 r h2 G E. unfold clift in E. by destruct o; simplify_eq. Qed.

Lemma safe_calloc h a c : (forall p, a = Some p -> heap h !! p = None) -> safe_for h (calloc a c).
Proof.
  intros F h1 r h2 [G1 G2 G3 G4] E. unfold calloc in E. destruct a as [p|]; simplify_eq; [|by split].
  split; cbn; [|done..]. by apply insert_subseteq_r; [apply F|].
Qed.

Lemma safe_free h p : heap h !! p = None -> safe_for h (free p).
Proof.
  intros F h1 r h2 [G1 G2 G3 G4] E. unfold free in E. destruct (heap h1 !! p); simplify_eq.
  split; cbn; [|done..]. apply map_subseteq_spec. intros k c0 K. rewrite lookup_delete_ne by (intros ->; congruence).
  by eapply lookup_weaken.
Qed.

Lemma safe_store h p c : heap h !! p = None -> safe_for h (store p c).
Proof.
  intros F h1 r h2 [G1 G2 G3 G4] E. unfold store in E. destruct (heap h1 !! p); simplify_eq.
  split; cbn; [|done..]. by apply insert_subseteq_r.
Qed.

Lemma safe_modify h f : (forall h1, grown h h1 -> grown h (f h1)) -> safe_for h (cmodify f).
Proof. intros F h1 r h2 G E. unfold cmodify in E. simplify_eq. by apply F. Qed.

Lemma safe_if {A} h (c : bool) (m n : cmd hw A) : safe_for h m -> safe_for h n -> safe_for h (if c then m else n).
Proof. by destruct c. Qed.

Create HintDb surfaces.
#[export] Hint Resolve safe_ret safe_lift safe_calloc safe_free safe_store safe_modify safe_if : surfaces.

(** Blank surfaces are added to what is there; the image derived to clear one is
    new. *)
Lemma ZeroInit_safe a h : a_image a ∉ images h -> safe_for h (ZeroInitVASurface a).
Proof.
  intros F. unfold ZeroInitVASurface. repeat apply safe_if; auto with surfaces.
  apply safe_bind; [apply safe_modify; intros h1 []; split; cbn; [done..|set_solver]|intros _].
  apply safe_bind; [|intros _; auto with surfaces].
  apply safe_modify. intros h1 []. case_match; split; cbn; try done. set_solver.
Qed.

Lemma create_internal_safe qsv a i h : fresh_answers a h -> (a_image a ∉ images h) ->
  safe_for h (create_internal_surface qsv a i).
Proof.
  intros [Fs Fq Fm _ [Fv _]] Fi. unfold create_internal_surface. apply safe_if; [auto with surfaces|].
  assert (forall q, a_srf a = Some q -> heap h !! q = None) as Fq' by (intros q E; by apply Fq).
  assert (forall m, a_memid a = Some m -> heap h !! m = None) as Fm' by (intros q E; by apply Fm).
  assert (Hva : safe_for h (cmodify (fun h => set_vas (vas h ∪ {[(a_create a).2]}) h))).
  { apply safe_modify. intros h1 []. split; cbn; [done..|set_solver|done]. }
  assert (Hvd : safe_for h (vaDestroySurfaces (a_create a).2)).
  { apply safe_modify. intros h1 []. split; cbn; [done..|set_solver|done]. }
  intros h1 r h2 G E. apply cbind_inv in E as (p & h3 & E1 & E). pose proof (safe_calloc h _ _ Fs _ _ _ G E1) as G3.
  unfold calloc in E1. destruct (a_surface a) as [p'|] eqn:Ep; simplify_eq; [|unfold cret in E; by simplify_eq].
  specialize (Fs _ eq_refl). clear G Ep. apply cbind_inv in E as (q & h4 & E1 & E).
  pose proof (safe_calloc h _ _ Fq' _ _ _ G3 E1) as G4. unfold calloc in E1.
  destruct (a_srf a) as [q'|]; simplify_eq;
    [|refine (safe_bind h _ _ _ _ _ _ _ G4 E); auto with surfaces].
  specialize (Fq' _ eq_refl). apply cbind_inv in E as (m & h5 & E1 & E).
  pose proof (safe_calloc h _ _ Fm' _ _ _ G4 E1) as G5. unfold calloc in E1.
  destruct (a_memid a) as [m'|]; simplify_eq;
    [|refine (safe_bind h _ _ _ _ _ _ _ G5 E); [auto with surfaces|intros _; apply safe_bind; auto with surfaces]].
  specialize (Fm' _ eq_refl). refine (safe_if h _ _ _ _ _ _ _ _ G5 E).
  { repeat (apply safe_bind; [auto with surfaces|intros _]); auto with surfaces. }
  repeat (apply safe_bind; [auto with surfaces|intros _]).
  apply safe_bind; [by apply ZeroInit_safe|intros status]. apply safe_if.
  - repeat (apply safe_bind; [auto with surfaces|intros _]); auto with surfaces.
  - apply safe_bind; [auto with surfaces|intros mi].
    repeat (apply safe_bind; [auto with surfaces|intros _]); auto with surfaces.
Qed.

Lemma create_internal_addr qsv a i h p h' :
  create_internal_surface qsv a i h = Some (Some p, h') -> a_surface a = Some p.
Proof.
  unfold create_internal_surface. destruct (qsv =? 0); [done|]. intros E.
  apply cbind_inv in E as (o & h1 & E1 & E). unfold calloc in E1.
  destruct (a_surface a) as [p'|]; simplify_eq. do 2 f_equal.
  apply cbind_inv in E as (o & h2 & E1 & E). destruct o as [q|];
    [|apply cbind_inv in E as (? & ? & _ & E); done].
  apply cbind_inv in E as (o & h3 & E2 & E). destruct o as [m|];
    [|do 2 apply cbind_inv in E as (? & ? & _ & E); done].
  destruct (negb _); [do 3 apply cbind_inv in E as (? & ? & _ & E); done|].
  do 2 apply cbind_inv in E as (? & ? & _ & E). apply cbind_inv in E as (st & ? & _ & E).
  destruct (negb _); [do 4 apply cbind_inv in E as (? & ? & _ & E); done|].
  do 3 apply cbind_inv in E as (? & ? & _ & E). unfold cret in E. by simplify_eq.
Qed.

Lemma ref_safe h p : heap h !! p = None -> safe_for h (irr_encoder_ref_surface p).
Proof.
  intros F. unfold irr_encoder_ref_surface. apply safe_bind; [|intros s; apply safe_bind; auto with surfaces].
  intros h1 r h2 G E. unfold load_surface in E. repeat case_match; by simplify_eq.
Qed.
