(* ===== verification/RuntimeWriter.v ===== *)
(** * RuntimeWriter: the file writers

    Models [src/sources/encoder/shared/utils/IORuntimeWriter.cpp] (recording of
    the input and the output while the encoder runs, one thread and one
    [SafeQueue] per stream) and [IOStreamWriter.cpp] (recording of a whole
    stream).  A thread is a state and its loop body a function; the calls, which
    hold the writer's mutex, and the turns of the threads are the steps of an
    interleaving, and [stopWriting], which waits for the thread, runs it to its
    end.  The answers of the VA driver for an input surface come with the data. *)

From Stdlib Require Import ZArith Lia String.
From stdpp Require Import base list relations.
From S2P Require Import Prelude StdMap TransCoder IrrWorld.

(** ** Data *)

Inductive IORuntimeDataType := ANY | VAAPI_SURFACE | DMA_BUFFER | SYSTEM_IMAGE | SYSTEM_BLOCK | SYSTEM_BLOCK_COPY.

#[export] Instance IORuntimeDataType_eq_dec : EqDecision IORuntimeDataType.
Proof. solve_decision. Defined.

(** What the driver answers when a surface is copied; [im_dpy] is the display. *)
Record va_image := {
  im_dpy : bool; im_create : Z; im_get : Z; im_map : Z; im_unmap : Z; im_destroy : Z;
  im_planes : list (Z * Z);        (** offset and pitch *)
  im_width : Z; im_height : Z; im_mem : bytes
}.

Record IORuntimeData := {
  type : IORuntimeDataType;
  data : option bytes;             (** null for the block that stops a thread *)
  blk : bytes;
  key_frame : bool;
  image : va_image
}.

(** ** Copies to a file: the return value and what is written *)

Definition copy_image_to_file (_ : IORuntimeData) : Z * bytes := (0, []).

Definition copy_block_to_file (d : IORuntimeData) : Z * bytes :=
  if decide (type d = SYSTEM_BLOCK) then (0, default [] (data d)) else (-1, []).

(** Row [h] of a plane; four bytes for a pixel. *)
Definition image_row (im : va_image) (plane : Z * Z) (h : nat) : bytes :=
  take (Z.to_nat (im_width im * 4)) (drop (Z.to_nat (plane.1 + plane.2 * Z.of_nat h)) (im_mem im)).

Definition image_bytes (im : va_image) : bytes :=
  flat_map (fun pl => flat_map (image_row im pl) (seq 0 (Z.to_nat (im_height im)))) (im_planes im).

(** Every [VA_CALL] that fails returns at once; the last two after the pixels
    are written. *)
Definition copy_surface_to_file (d : IORuntimeData) : Z * bytes :=
  let im := image d in
  if negb (im_dpy im) then (-1, [])
  else if decide (type d = VAAPI_SURFACE) then
    if negb (im_create im =? 0) then (-1, [])
    else if negb (im_get im =? 0) then (-1, [])
    else if negb (im_map im =? 0) then (-1, [])
    else if negb (im_unmap im =? 0) then (-1, image_bytes im)
    else if negb (im_destroy im =? 0) then (-1, image_bytes im)
    else (0, image_bytes im)
  else (-1, []).

(** ** The threads *)

(** A thread that runs knows its limit, the frames written and the file.  The count is an [int]; past [INT_MAX], where
    C++ leaves the increment undefined, it wraps around as on the machine. *)
Inductive thread_t := NotStarted | Running (frame_num count_written : Z) (file : bytes) | Exited (file : bytes).

Definition is_empty (d : IORuntimeData) : bool :=
  bool_decide (type d = SYSTEM_BLOCK) && bool_decide (data d = None).

(** The copy of one item by the input thread. *)
Definition copy_input (d : IORuntimeData) : Z * bytes :=
  match type d with
  | SYSTEM_IMAGE => copy_image_to_file d
  | VAAPI_SURFACE => copy_surface_to_file d
  | SYSTEM_BLOCK => copy_block_to_file d
  | _ => (-1, [])
  end.

(** The body of the input thread after the test for the end. *)
Definition input_body (n c : Z) (f : bytes) (d : IORuntimeData) : thread_t :=
  let '(ret, out) := copy_input d in
  let f := f ++ out in
  if ret <? 0 then Running n c f
  else if 0 <? n then if n <=? i32 (c + 1) then Exited f else Running n (i32 (c + 1)) f
  else Running n c f.

(** What the output thread writes for one item. *)
Definition output_bytes (d : IORuntimeData) : bytes :=
  match type d with
  | SYSTEM_BLOCK => default [] (data d)
  | SYSTEM_BLOCK_COPY => blk d
  | _ => []
  end.

(** The body of the output thread: the first packet must be a key frame. *)
Definition output_body (n c : Z) (f : bytes) (d : IORuntimeData) : thread_t :=
  if (c =? 0) && negb (key_frame d) then Running n c f
  else
    let '(c, f) := if (n <? 0) || (c <? n) then (i32 (c + 1), f ++ output_bytes d) else (c, f) in
    if (0 <? n) && (n <=? c) then Exited f else Running n c f.

Inductive stream_index := INPUT_STREAM | OUTPUT_STREAM.
#[export] Instance stream_index_eq_dec : EqDecision stream_index.
Proof. solve_decision. Defined.

(** One turn of a thread on an item. *)
Definition consume (x : stream_index) (t : thread_t) (d : IORuntimeData) : thread_t :=
  match t with
  | Running n c f =>
      if is_empty d then Exited f
      else match x with INPUT_STREAM => input_body n c f d | OUTPUT_STREAM => output_body n c f d end
  | _ => t
  end.

(** Waiting for the end of a thread: [None] when it waits for ever on an empty
    queue (or there is no thread). *)
Fixpoint join (x : stream_index) (t : thread_t) (q : list IORuntimeData) : option (bytes * list IORuntimeData) :=
  match t with
  | NotStarted => None
  | Exited f => Some (f, q)
  | Running _ _ _ => match q with [] => None | d :: q => join x (consume x t d) q end
  end.

(** ** The writer *)

Record stream := { queue : list IORuntimeData; thread : thread_t; file_name : bytes }.

Record IORuntimeWriter := {
  mCodecID : Z; mPrefix : bytes; mStatus : Z;
  streams : stream_index -> stream;
  files : list (bytes * bytes)     (** the files closed, by name *)
}.

Definition STOPPED : Z := 0.
Definition INPUT_WRITING : Z := 1.
Definition OUTPUT_WRITING : Z := 2.
Definition INOUT_WRITING : Z := Z.lor INPUT_WRITING OUTPUT_WRITING.

Definition IORuntimeWriter_new (codec_id : Z) (prefix : bytes) : IORuntimeWriter :=
  {| mCodecID := codec_id; mPrefix := prefix; mStatus := STOPPED;
     streams := fun _ => {| queue := []; thread := NotStarted; file_name := [] |}; files := [] |}.

Definition writing (x : stream_index) : Z :=
  match x with INPUT_STREAM => INPUT_WRITING | OUTPUT_STREAM => OUTPUT_WRITING end.

(** [mode & INPUT] and [mode & OUTPUT]. *)
Definition in_mode (m : rt_mode) (x : stream_index) : bool :=
  match m, x with INPUT, INPUT_STREAM | OUTPUT, OUTPUT_STREAM | INOUT, _ => true | _, _ => false end.

Definition active (x : stream_index) (w : IORuntimeWriter) : bool := negb (Z.land (mStatus w) (writing x) =? 0).

Definition set_stream (x : stream_index) (s : stream) (w : IORuntimeWriter) : IORuntimeWriter :=
  {| mCodecID := mCodecID w; mPrefix := mPrefix w; mStatus := mStatus w;
     streams := fun y => if decide (y = x) then s else streams w y; files := files w |}.
Definition set_status (st : Z) (w : IORuntimeWriter) : IORuntimeWriter :=
  {| mCodecID := mCodecID w; mPrefix := mPrefix w; mStatus := st; streams := streams w; files := files w |}.
Definition close_file (nm content : bytes) (w : IORuntimeWriter) : IORuntimeWriter :=
  {| mCodecID := mCodecID w; mPrefix := mPrefix w; mStatus := mStatus w; streams := streams w;
     files := files w ++ [(nm, content)] |}.

(** The extension by the codec. *)
Definition extension (codec_id : Z) : bytes :=
  if codec_id =? AV_CODEC_ID_H264 then b ".264"
  else if codec_id =? AV_CODEC_ID_HEVC then b ".265"
  else if codec_id =? AV_CODEC_ID_AV1 then b ".ivf" else [].

Definition new_file_name (x : stream_index) (time : bytes) (w : IORuntimeWriter) : bytes :=
  match x with
  | INPUT_STREAM => mPrefix w ++ b "input" ++ b "_" ++ time ++ b ".rgba"
  | OUTPUT_STREAM => mPrefix w ++ b "output" ++ b "_" ++ time ++ extension (mCodecID w)
  end.

(** Start one stream unless it is started or not asked for: [None] inside when
    the file does not open.  Assigning to a thread that was not joined ends the
    process. *)
Definition start_stream (x : stream_index) (m : rt_mode) (frame_num : Z) (time : bytes) (good : bool)
    (w : IORuntimeWriter) : option (option IORuntimeWriter) :=
  if negb (active x w) && in_mode m x then
    if negb good then Some None
    else match thread (streams w x) with
         | NotStarted => Some (Some (set_status (Z.lor (mStatus w) (writing x))
             (set_stream x {| queue := []; thread := Running frame_num 0 []; file_name := new_file_name x time w |} w)))
         | _ => None
         end
  else Some (Some w).

(** [startWriting]; [time] and [good] are the clock and the answers of the file
    system. *)
Definition startWriting (m : rt_mode) (frame_num : Z) (time : bytes) (good : stream_index -> bool)
    : cmd IORuntimeWriter Z := fun w =>
  if mStatus w =? INOUT_WRITING then Some (0, w)
  else
    r ← start_stream INPUT_STREAM m frame_num time (good INPUT_STREAM) w;
    match r with
    | None => Some (-1, w)
    | Some w =>
        r ← start_stream OUTPUT_STREAM m frame_num time (good OUTPUT_STREAM) w;
        match r with None => Some (-1, w) | Some w => Some (0, w) end
    end.

Definition empty_data : IORuntimeData :=
  {| type := SYSTEM_BLOCK; data := None; blk := []; key_frame := false;
     image := {| im_dpy := false; im_create := 0; im_get := 0; im_map := 0; im_unmap := 0; im_destroy := 0;
                 im_planes := []; im_width := 0; im_height := 0; im_mem := [] |} |}.

Definition push (x : stream_index) (d : IORuntimeData) (w : IORuntimeWriter) : IORuntimeWriter :=
  let s := streams w x in
  set_stream x {| queue := queue s ++ [d]; thread := thread s; file_name := file_name s |} w.

(** Stop one stream: an empty block for the thread, then [join]. *)
Definition stop_stream (x : stream_index) (m : rt_mode) (w : IORuntimeWriter) : option IORuntimeWriter :=
  if in_mode m x && active x w then
    w ← match thread (streams w x) with
        | NotStarted => Some w
        | _ =>
            let w := push x empty_data w in
            '(f, q) ← join x (thread (streams w x)) (queue (streams w x));
            Some (close_file (file_name (streams w x)) f
              (set_stream x {| queue := q; thread := NotStarted; file_name := file_name (streams w x) |} w))
        end;
    Some (set_status (Z.land (mStatus w) (Z.lnot (writing x))) w)
  else Some w.

Definition stopWriting (m : rt_mode) : cmd IORuntimeWriter Z := fun w =>
  if mStatus w =? STOPPED then Some (0, w)
  else w ← stop_stream INPUT_STREAM m w; w ← stop_stream OUTPUT_STREAM m w; Some (0, w).

Definition getRuntimeWriterStatus (w : IORuntimeWriter) : Z := mStatus w.

Definition changeCodecType (codec_id : Z) : cmd IORuntimeWriter Z := fun w =>
  Some (0, {| mCodecID := codec_id; mPrefix := mPrefix w; mStatus := mStatus w; streams := streams w; files := files w |}).

Definition submitRuntimeData (m : rt_mode) (d : IORuntimeData) : cmd IORuntimeWriter Z := fun w =>
  if mStatus w =? STOPPED then Some (0, w)
  else match m with
       | INOUT => Some (-1, w)
       | INPUT => Some (0, if active INPUT_STREAM w then push INPUT_STREAM d w else w)
       | OUTPUT => Some (0, if active OUTPUT_STREAM w then push OUTPUT_STREAM d w else w)
       end.

(** A turn of a thread: the next item of its queue. *)
Definition thread_turn (x : stream_index) (w : IORuntimeWriter) : option IORuntimeWriter :=
  let s := streams w x in
  match thread s, queue s with
  | Running _ _ _, d :: q =>
      Some (set_stream x {| queue := q; thread := consume x (thread s) d; file_name := file_name s |} w)
  | _, _ => None
  end.

(** ** Interleavings *)

Inductive wlabel :=
  | LStart (m : rt_mode) (frame_num : Z) (time : bytes) (good : stream_index -> bool)
  | LStop (m : rt_mode)
  | LSubmit (m : rt_mode) (d : IORuntimeData)
  | LCodec (codec_id : Z)
  | LTurn (x : stream_index).

Definition wstep (l : wlabel) (w : IORuntimeWriter) : option IORuntimeWriter :=
  match l with
  | LStart m n time good => snd <$> startWriting m n time good w
  | LStop m => snd <$> stopWriting m w
  | LSubmit m d => snd <$> submitRuntimeData m d w
  | LCodec c => snd <$> changeCodecType c w
  | LTurn x => thread_turn x w
  end.

Fixpoint wrun (ls : list wlabel) (w : IORuntimeWriter) : option IORuntimeWriter :=
  match ls with [] => Some w | l :: ls => w ← wstep l w; wrun ls w end.

(** ** The status agrees with the threads *)

Definition joinable (t : thread_t) : bool := match t with NotStarted => false | _ => true end.

Record writer_ok (w : IORuntimeWriter) : Prop := {
  wo_status : 0 <= mStatus w <= 3;
  wo_thread : forall x, active x w = joinable (thread (streams w x))
}.

Lemma status_cases z : 0 <= z <= 3 -> z = 0 \/ z = 1 \/ z = 2 \/ z = 3.
Proof. lia. Qed.

(** Setting and clearing a status bit. *)
Lemma status_set z x : 0 <= z <= 3 -> 0 <= Z.lor z (writing x) <= 3 /\
  forall y, negb (Z.land (Z.lor z (writing x)) (writing y) =? 0) =
            if decide (y = x) then true else negb (Z.land z (writing y) =? 0).
Proof.
  intros [-> | [-> | [-> | ->]]]%status_cases; (split; [destruct x; cbv; split; discriminate|]);
    intros y; destruct x, y; reflexivity.
Qed.

Lemma status_clear z x : 0 <= z <= 3 -> 0 <= Z.land z (Z.lnot (writing x)) <= 3 /\
  forall y, negb (Z.land (Z.land z (Z.lnot (writing x))) (writing y) =? 0) =
            if decide (y = x) then false else negb (Z.land z (writing y) =? 0).
Proof.
  intros [-> | [-> | [-> | ->]]]%status_cases; (split; [destruct x; cbv; split; discriminate|]);
    intros y; destruct x, y; reflexivity.
Qed.

(** A queue that ends in an empty block ends the thread. *)
Lemma join_ends x q : forall t, joinable t = true -> exists f q', join x t (q ++ [empty_data]) = Some (f, q').
Proof.
  induction q as [|d q IH]; intros t Ht; destruct t as [|n c f|f]; try done; cbn; eauto.
  apply IH. cbn. destruct (is_empty d); [done|]. destruct x.
  - unfold input_body. destruct (copy_input d). by repeat case_match.
  - unfold output_body. by repeat case_match.
Qed.

(** The file the thread leaves is the one of all items in the queue. *)
Lemma join_consume x q : forall t f q', join x t q = Some (f, q') -> fold_left (consume x) q t = Exited f.
Proof.
  assert (Hx : forall q f, fold_left (consume x) q (Exited f) = Exited f) by (intros l; by induction l).
  induction q as [|d q IH]; intros [|n c f0|f0] f q' E; cbn in *; simplify_eq; try done; eauto.
Qed.

(** Waiting is nothing but turns of the thread. *)
Lemma join_turns x : forall q t f q' w, join x t q = Some (f, q') -> thread (streams w x) = t ->
  queue (streams w x) = q ->
  exists w', wrun (repeat (LTurn x) (length q - length q')) w = Some w' /\
    thread (streams w' x) = Exited f /\ queue (streams w' x) = q' /\ (length q' <= length q)%nat.
Proof.
  induction q as [|d q IH]; intros t f q' w E Ht Hq; destruct t as [|n c f0|f0]; cbn in E; simplify_eq.
  - by exists w.
  - set (w1 := set_stream x {| queue := q; thread := consume x (Running n c f0) d; file_name := file_name (streams w x) |} w).
    destruct (IH _ _ _ w1 E) as (w2 & E2 & T2 & Q2 & L2); [subst w1; cbn; by rewrite decide_True..|].
    exists w2. split_and!; [|done..|cbn; lia]. cbn [length].
    replace (S (length q) - length q')%nat with (S (length q - length q')) by lia.
    cbn [repeat wrun wstep]. unfold thread_turn. rewrite Ht, Hq. done.
  - exists w. rewrite Nat.sub_diag. by rewrite Hq.
Qed.

Lemma consume_joinable x t d : joinable (consume x t d) = joinable t.
Proof.
  destruct t as [|n c f|f]; try done. cbn. destruct (is_empty d); [done|]. destruct x.
  - unfold input_body. destruct (copy_input d). by repeat case_match.
  - unfold output_body. by repeat case_match.
Qed.

Lemma streams_set x s w y : streams (set_stream x s w) y = if decide (y = x) then s else streams w y.
Proof. done. Qed.

(** A change of one stream that keeps whether its thread can be joined. *)
Lemma set_stream_ok x s w : writer_ok w -> joinable (thread s) = joinable (thread (streams w x)) ->
  writer_ok (set_stream x s w).
Proof.
  intros [S T] J. split; [done|]. intros y. rewrite streams_set. change (active y (set_stream x s w)) with (active y w).
  destruct (decide (y = x)) as [->|]; [by rewrite J|done].
Qed.

Lemma push_ok x d w : writer_ok w -> writer_ok (push x d w).
Proof. intros O. by apply set_stream_ok. Qed.

(** Starting one stream. *)
Lemma start_stream_ok x m n time good w : writer_ok w -> exists r, start_stream x m n time good w = Some r /\
  (r = None -> good = false) /\
  (forall w', r = Some w' -> writer_ok w' /\ files w' = files w /\
     (forall y t, new_file_name y t w' = new_file_name y t w) /\
     (forall y, y <> x -> streams w' y = streams w y) /\
     (forall y, active y w' = (if decide (y = x) then active y w || in_mode m x else active y w)) /\
     streams w' x = (if negb (active x w) && in_mode m x
                     then {| queue := []; thread := Running n 0 []; file_name := new_file_name x time w |}
                     else streams w x)).
Proof.
  intros [S T]. unfold start_stream. destruct (negb (active x w) && in_mode m x) eqn:E.
  - apply andb_prop in E as [E1%negb_true_iff E2]. destruct good; cbn [negb]; [|by eexists].
    pose proof (T x) as Tx. rewrite E1 in Tx. destruct (thread (streams w x)); try done.
    eexists. split; [reflexivity|]. split; [done|]. intros w' [= <-].
    destruct (status_set (mStatus w) x S) as [S' A'].
    assert (HA : forall y, active y (set_status (Z.lor (mStatus w) (writing x)) (set_stream x
      {| queue := []; thread := Running n 0 []; file_name := new_file_name x time w |} w))
      = if decide (y = x) then true else active y w) by (intros y; apply A').
    split_and!; try done.
    + split; [exact S'|]. intros y. rewrite HA. cbn. destruct (decide (y = x)); [done|apply T].
    + intros y Hy. cbn. by rewrite decide_False.
    + intros y. rewrite HA. destruct (decide (y = x)); [by rewrite E2, orb_true_r|done].
    + cbn. by rewrite decide_True.
  - eexists. split; [reflexivity|]. split; [done|]. intros w' [= <-]. split_and!; try done.
    intros y. destruct (decide (y = x)) as [->|]; [|done].
    destruct (active x w); [done|]. by destruct (in_mode m x).
Qed.

(** Stopping one stream: it ends, and its file is the one of the whole queue. *)
Lemma stop_stream_ok x m w : writer_ok w -> exists w', stop_stream x m w = Some w' /\ writer_ok w' /\
  (forall y, y <> x -> streams w' y = streams w y) /\
  (forall y, active y w' = (if decide (y = x) then active y w && negb (in_mode m x) else active y w)) /\
  (if in_mode m x && active x w
   then exists f, fold_left (consume x) (queue (streams w x) ++ [empty_data]) (thread (streams w x)) = Exited f /\
     files w' = files w ++ [(file_name (streams w x), f)]
   else w' = w).
Proof.
  intros [S T]. unfold stop_stream. destruct (in_mode m x && active x w) eqn:E.
  - apply andb_prop in E as [E1 E2]. pose proof (T x) as Tx. rewrite E2 in Tx. symmetry in Tx.
    destruct (join_ends x (queue (streams w x)) _ Tx) as (f & q' & J). pose proof (join_consume _ _ _ _ _ J) as C.
    set (w1 := push x empty_data w). set (nm := file_name (streams w x)).
    set (w2 := close_file nm f (set_stream x {| queue := q'; thread := NotStarted; file_name := nm |} w1)).
    assert ((match thread (streams w x) with NotStarted => Some w | _ =>
        '(f, q) ← join x (thread (streams w1 x)) (queue (streams w1 x));
        Some (close_file (file_name (streams w1 x)) f
          (set_stream x {| queue := q; thread := NotStarted; file_name := file_name (streams w1 x) |} w1)) end)
      = Some w2) as R.
    { destruct (thread (streams w x)) eqn:Et; [done|..]; subst w1; unfold push; rewrite streams_set, decide_True by done;
        cbn [thread queue file_name]; rewrite Et, J; subst w2; unfold push; by rewrite Et. }
    subst w1. cbn zeta. rewrite R. cbn [mbind option_bind]. eexists. split; [reflexivity|].
    destruct (status_clear (mStatus w2) x S) as [S' A'].
    split; [split; [exact S'|]|]; [|split_and!].
    + intros y. unfold active. cbn [mStatus set_status]. rewrite (A' y). cbn.
      destruct (decide (y = x)) as [->|]; [done|apply T].
    + intros y Hy. cbn. by rewrite !decide_False.
    + intros y. unfold active. cbn [mStatus set_status]. rewrite (A' y), E1, andb_false_r.
      by destruct (decide (y = x)).
    + exists f. split; [exact C|done].
  - eexists. split; [reflexivity|]. split_and!; try done. intros y. destruct (decide (y = x)) as [->|]; [|done].
    destruct (active x w); [|done]. rewrite andb_true_r in E. by rewrite E.
Qed.

(** ** Calls *)

(** What a call or a turn does to the output stream [x] of interest: the status
    bits and the streams before and after. *)
Lemma startWriting_ok m n time good w : writer_ok w -> exists r w', startWriting m n time good w = Some (r, w') /\
  writer_ok w' /\ files w' = files w /\
  (forall x, active x w = true -> active x w' = true /\ streams w' x = streams w x) /\
  (r = 0 -> forall x, active x w = false -> in_mode m x = true ->
     active x w' = true /\
     streams w' x = {| queue := []; thread := Running n 0 []; file_name := new_file_name x time w |}).
Proof.
  intros O. unfold startWriting. destruct (Z.eqb_spec (mStatus w) INOUT_WRITING) as [Es|_].
  { exists 0, w. split_and!; try done. intros _ x Hx. unfold active in Hx. rewrite Es in Hx. by destruct x. }
  destruct (start_stream_ok INPUT_STREAM m n time (good INPUT_STREAM) w O) as (r1 & -> & _ & H1).
  cbn [mbind option_bind]. destruct r1 as [w1|]; [|by exists (-1), w].
  destruct (H1 _ eq_refl) as (O1 & F1 & M1 & N1 & A1 & S1).
  destruct (start_stream_ok OUTPUT_STREAM m n time (good OUTPUT_STREAM) w1 O1) as (r2 & E2 & _ & H2).
  assert (P1 : forall x, active x w = true -> active x w1 = true /\ streams w1 x = streams w x).
  { intros x Hx. rewrite A1, Hx. destruct x; [|by rewrite N1]. cbn. by rewrite S1, Hx. }
  rewrite E2. cbn [mbind option_bind]. destruct r2 as [w2|]; [|by exists (-1), w1].
  destruct (H2 _ eq_refl) as (O2 & F2 & M2 & N2 & A2 & S2).
  exists 0, w2. split_and!; [done..|congruence| |].
  - intros x Hx. destruct (P1 x Hx) as [P1a P1b]. rewrite A2, P1a. destruct x; [by rewrite N2|].
    cbn. by rewrite S2, P1a.
  - intros _ x Hx Hm. destruct x.
    + rewrite A2, N2, A1, S1 by done. cbn. by rewrite Hx, Hm.
    + rewrite A2, S2, M1, Hm, orb_true_r. assert (active OUTPUT_STREAM w1 = false) as -> by (by rewrite A1).
      done.
Qed.

Lemma stopWriting_ok m w : writer_ok w -> exists w', stopWriting m w = Some (0, w') /\ writer_ok w' /\
  (forall x, in_mode m x = false -> active x w' = active x w /\ streams w' x = streams w x) /\
  (forall x, in_mode m x = true -> active x w' = false) /\
  (forall x, in_mode m x = true -> active x w = true -> exists f,
     fold_left (consume x) (queue (streams w x) ++ [empty_data]) (thread (streams w x)) = Exited f /\
     (file_name (streams w x), f) ∈ files w') /\
  (forall p, p ∈ files w -> p ∈ files w').
Proof.
  intros O. unfold stopWriting. destruct (Z.eqb_spec (mStatus w) STOPPED) as [Es|_].
  { assert (A : forall x, active x w = false) by (intros x; unfold active; rewrite Es; by destruct x).
    exists w. split_and!; try done. intros x _ Hx. by rewrite A in Hx. }
  destruct (stop_stream_ok INPUT_STREAM m w O) as (w1 & -> & O1 & N1 & A1 & F1). cbn [mbind option_bind].
  destruct (stop_stream_ok OUTPUT_STREAM m w1 O1) as (w2 & -> & O2 & N2 & A2 & F2). cbn [mbind option_bind].
  assert (M1 : forall p, p ∈ files w -> p ∈ files w1).
  { intros p Hp. destruct (in_mode m INPUT_STREAM && active INPUT_STREAM w); [|by subst].
    destruct F1 as (f & _ & ->). apply elem_of_app. by left. }
  assert (M2 : forall p, p ∈ files w1 -> p ∈ files w2).
  { intros p Hp. destruct (in_mode m OUTPUT_STREAM && active OUTPUT_STREAM w1); [|by subst].
    destruct F2 as (f & _ & ->). apply elem_of_app. by left. }
  exists w2. split_and!; [done..| | | |by eauto].
  - intros [] Hx.
    + rewrite A2, N2, A1, Hx by done. cbn. rewrite andb_true_r. split; [done|]. rewrite Hx in F1. cbn in F1. by subst.
    + rewrite A2, A1, Hx. cbn. rewrite andb_true_r. rewrite Hx in F2. cbn in F2. subst. split; [done|by apply N1].
  - intros [] Hx; rewrite A2; cbn; rewrite ?A1; cbn; rewrite Hx; by rewrite andb_false_r.
  - intros [] Hx Ha.
    + rewrite Hx, Ha in F1. cbn in F1. destruct F1 as (f & C & E). exists f. split; [done|]. apply M2. rewrite E.
      apply elem_of_app. right. by apply list_elem_of_singleton.
    + assert (active OUTPUT_STREAM w1 = true) as Ha1 by (by rewrite A1). rewrite Hx, Ha1 in F2. cbn in F2.
      rewrite (N1 OUTPUT_STREAM) in F2 by done. destruct F2 as (f & C & E). exists f. split; [done|]. rewrite E.
      apply elem_of_app. right. by apply list_elem_of_singleton.
Qed.

(** ** What is recorded *)

(** From the first key frame on. *)
Fixpoint from_key (ds : list IORuntimeData) : list IORuntimeData :=
  match ds with [] => [] | d :: ds' => if key_frame d then ds else from_key ds' end.

(** At most [n] items; no limit when [n] is negative. *)
Definition limit (n : Z) (ds : list IORuntimeData) : list IORuntimeData :=
  if n <? 0 then ds else take (Z.to_nat n) ds.

(** Up to and with the [k]-th item that is copied without an error. *)
Fixpoint up_to (k : nat) (ds : list IORuntimeData) : list IORuntimeData :=
  match ds, k with
  | d :: ds, S k' => d :: up_to (if (copy_input d).1 <? 0 then k else k') ds
  | _, _ => []
  end.

(** The content of a recording of [ds] with the limit [n]: a limit of 0 means no
    limit for the input, and nothing at all for the output. *)
Definition recorded (x : stream_index) (n : Z) (ds : list IORuntimeData) : bytes :=
  match x with
  | OUTPUT_STREAM => flat_map output_bytes (limit n (from_key ds))
  | INPUT_STREAM => flat_map (fun d => (copy_input d).2) (if 0 <? n then up_to (Z.to_nat n) ds else ds)
  end.

Definition content (t : thread_t) : bytes :=
  match t with Running _ _ f | Exited f => f | NotStarted => [] end.

Lemma consume_exited x ds f : fold_left (consume x) ds (Exited f) = Exited f.
Proof. by induction ds. Qed.

Lemma consume_empty x t :
  consume x t empty_data = match t with Running _ _ f => Exited f | _ => t end.
Proof. by destruct t. Qed.

Lemma next_count c k : 0 <= c -> c + Z.of_nat (S k) <= INT_MAX -> i32 (c + 1) = c + 1.
Proof. intros Hc Hk. unfold INT_MAX in Hk. apply wraps_small; lia. Qed.

Lemma output_run n ds : Forall (fun d => is_empty d = false) ds -> forall c f, 0 < c -> n < 0 \/ c < n ->
  c + Z.of_nat (length ds) <= INT_MAX ->
  content (fold_left (consume OUTPUT_STREAM) ds (Running n c f)) =
  f ++ flat_map output_bytes (if n <? 0 then ds else take (Z.to_nat (n - c)) ds).
Proof.
  induction 1 as [|d ds Hd _ IH]; intros c f Hc Hn Hb.
  { destruct (n <? 0); rewrite ?take_nil; cbn; by rewrite app_nil_r. }
  cbn [length] in Hb. cbn [fold_left consume]. rewrite Hd. unfold output_body. rewrite (proj2 (Z.eqb_neq c 0)) by lia. cbn [andb].
  rewrite (next_count c (length ds)) by lia.
  replace ((n <? 0) || (c <? n)) with true by (symmetry; rewrite orb_true_iff, !Z.ltb_lt; lia).
  destruct ((0 <? n) && (n <=? c + 1)) eqn:E.
  - apply andb_prop in E as [E1%Z.ltb_lt E2%Z.leb_le]. rewrite consume_exited. cbn [content].
    rewrite (proj2 (Z.ltb_ge n 0)) by lia. replace (Z.to_nat (n - c)) with 1%nat by lia. cbn.
    by rewrite ?take_0; cbn; rewrite ?app_nil_r.
  - rewrite IH, <- (assoc_L (++)); [|lia| |lia].
    + f_equal. destruct (Z.ltb_spec n 0) as [|Hn0]; [done|].
      replace (Z.to_nat (n - c)) with (S (Z.to_nat (n - (c + 1)))) by lia. done.
    + apply andb_false_iff in E as [E%Z.ltb_ge|E%Z.leb_gt]; lia.
Qed.

Lemma output_recorded n ds : Forall (fun d => is_empty d = false) ds -> Z.of_nat (length ds) <= INT_MAX ->
  content (fold_left (consume OUTPUT_STREAM) ds (Running n 0 [])) = recorded OUTPUT_STREAM n ds.
Proof.
  cbn [recorded]. unfold limit. induction 1 as [|d ds Hd Hds IH]; intros Hb; [cbn; destruct (n <? 0); by rewrite ?take_nil|].
  cbn [length] in Hb. assert (Hi : i32 (0 + 1) = 0 + 1) by done. specialize (IH ltac:(lia)). cbn [fold_left consume from_key]. rewrite Hd. unfold output_body. rewrite Z.eqb_refl. cbn [andb negb].
  destruct (key_frame d); [|exact IH]. rewrite Hi. destruct (Z.ltb_spec n 0) as [Hn|Hn]; cbn [orb negb].
  { rewrite (proj2 (Z.ltb_ge 0 n)) by lia. cbn [andb]. cbv iota beta. rewrite output_run by (done || lia).
    by rewrite (proj2 (Z.ltb_lt n 0)) by lia. }
  destruct (Z.ltb_spec 0 n) as [Hp|Hz].
  - destruct (Z.leb_spec n (0 + 1)) as [H1|H1]; cbn [andb].
    + replace n with 1 by lia. rewrite consume_exited. change (Z.to_nat 1) with 1%nat. cbn. by rewrite take_0, app_nil_r.
    + rewrite output_run by (done || lia). rewrite (proj2 (Z.ltb_ge n 0)) by lia.
      replace (Z.to_nat n) with (S (Z.to_nat (n - (0 + 1)))) by lia. done.
  - replace n with 0 by lia. cbn [andb]. clear - Hds. change (Z.to_nat 0) with 0%nat. rewrite take_0.
    induction Hds as [|d' ds' Hd' _ IH']; [done|]. cbn [fold_left consume]. rewrite Hd'. unfold output_body.
    rewrite Z.eqb_refl. by destruct (key_frame d').
Qed.

Lemma input_recorded n ds : Forall (fun d => is_empty d = false) ds -> Z.of_nat (length ds) <= INT_MAX ->
  content (fold_left (consume INPUT_STREAM) ds (Running n 0 [])) = recorded INPUT_STREAM n ds.
Proof.
  intros Hds Hb. cbn [recorded].
  enough (H : forall c f, 0 <= c -> c + Z.of_nat (length ds) <= INT_MAX -> (0 < n -> c < n) -> content (fold_left (consume INPUT_STREAM) ds (Running n c f)) =
    f ++ flat_map (fun d => (copy_input d).2) (if 0 <? n then up_to (Z.to_nat (n - c)) ds else ds)).
  { rewrite H by lia. by rewrite Z.sub_0_r. }
  clear Hb. induction Hds as [|d ds Hd _ IH]; intros c f H0 Hb Hc.
  { destruct (0 <? n); cbn; by rewrite app_nil_r. }
  cbn [length] in Hb. rewrite Nat2Z.inj_succ in Hb. cbn [fold_left consume]. rewrite Hd. unfold input_body. destruct (copy_input d) as [ret out] eqn:Ei.
  destruct (Z.ltb_spec 0 n) as [Hn|Hn].
  - replace (Z.to_nat (n - c)) with (S (Z.to_nat (n - c - 1))) by lia. cbn [up_to flat_map]. rewrite Ei. cbn [fst snd].
    rewrite (next_count c (length ds)) by lia. destruct (ret <? 0).
    + rewrite IH, <- (assoc_L (++)) by (done || lia). do 3 f_equal. f_equal. lia.
    + destruct (Z.leb_spec n (c + 1)).
      * rewrite consume_exited. cbn [content]. replace (Z.to_nat (n - c - 1)) with 0%nat by lia.
        replace (up_to 0 ds) with (@nil IORuntimeData) by (by destruct ds). cbn. by rewrite app_nil_r.
      * rewrite IH, <- (assoc_L (++)) by lia. do 3 f_equal. f_equal. lia.
  - cbn [flat_map]. rewrite Ei. cbn [snd]. destruct (ret <? 0); rewrite IH, <- (assoc_L (++)) by (done || lia); done.
Qed.

(** ** Recording in any interleaving *)

Definition sub_mode (m : rt_mode) (x : stream_index) : bool :=
  match m, x with INPUT, INPUT_STREAM | OUTPUT, OUTPUT_STREAM => true | _, _ => false end.

(** What is submitted for a stream. *)
Definition submitted (x : stream_index) (ls : list wlabel) : list IORuntimeData :=
  flat_map (fun l => match l with LSubmit m d => if sub_mode m x then [d] else [] | _ => [] end) ls.

Lemma submitted_cons x l ls : submitted x (l :: ls) = submitted x [l] ++ submitted x ls.
Proof. unfold submitted. cbn [flat_map]. by rewrite app_nil_r. Qed.

(** The stream is not stopped by this step. *)
Definition keeps_recording (x : stream_index) (l : wlabel) : Prop :=
  match l with LStop m => in_mode m x = false | _ => True end.

(** Stream [x] records into [nm] with limit [n], and the items submitted so far
    are [ds]: the thread together with its queue stands for them. *)
Record recording (x : stream_index) (n : Z) (nm : bytes) (ds : list IORuntimeData) (w : IORuntimeWriter) : Prop := {
  rc_ok : writer_ok w;
  rc_active : active x w = true;
  rc_name : file_name (streams w x) = nm;
  rc_thread : fold_left (consume x) (queue (streams w x)) (thread (streams w x)) =
              fold_left (consume x) ds (Running n 0 [])
}.

Lemma submit_step m d w : exists w' r, submitRuntimeData m d w = Some (r, w') /\
  forall x, (active x w = true -> sub_mode m x = true -> w' = push x d w) /\
            (sub_mode m x = false -> streams w' x = streams w x) /\ active x w' = active x w.
Proof.
  unfold submitRuntimeData. destruct (Z.eqb_spec (mStatus w) STOPPED) as [Es|_].
  { exists w, 0. split; [done|]. intros x. split_and!; [|done..]. intros Ha. unfold active in Ha. rewrite Es in Ha.
    by destruct x. }
  destruct m.
  - exists (if active INPUT_STREAM w then push INPUT_STREAM d w else w), 0. split; [done|].
    intros x. split_and!; [|by destruct x, (active INPUT_STREAM w)|by destruct (active INPUT_STREAM w)].
    intros Ha. by destruct x; [rewrite Ha|].
  - exists (if active OUTPUT_STREAM w then push OUTPUT_STREAM d w else w), 0. split; [done|].
    intros x. split_and!; [|by destruct x, (active OUTPUT_STREAM w)|by destruct (active OUTPUT_STREAM w)].
    intros Ha. by destruct x; [|rewrite Ha].
  - by exists w, (-1).
Qed.

Lemma submit_ok m d w r w' : writer_ok w -> submitRuntimeData m d w = Some (r, w') -> writer_ok w'.
Proof.
  intros O E. unfold submitRuntimeData in E. destruct (mStatus w =? STOPPED); [by simplify_eq|].
  destruct m; simplify_eq; [destruct (active INPUT_STREAM w)|destruct (active OUTPUT_STREAM w)|];
    (done || by apply push_ok).
Qed.

Lemma turn_inv x w w' : thread_turn x w = Some w' -> exists d q, queue (streams w x) = d :: q /\
  w' = set_stream x {| queue := q; thread := consume x (thread (streams w x)) d; file_name := file_name (streams w x) |} w.
Proof.
  unfold thread_turn. intros E. destruct (thread (streams w x)), (queue (streams w x)); simplify_eq. eauto.
Qed.

Lemma turn_ok x w w' : writer_ok w -> thread_turn x w = Some w' -> writer_ok w'.
Proof. intros O (d & q & _ & ->)%turn_inv. apply set_stream_ok; [done|]. apply consume_joinable. Qed.

Lemma wstep_ok l w w' : writer_ok w -> wstep l w = Some w' -> writer_ok w'.
Proof.
  intros O E. destruct l as [m n time good|m|m d|c|x]; cbn in E; try (apply fmap_Some in E as ([r w1] & E & ->); cbn).
  - destruct (startWriting_ok m n time good w O) as (r' & w2 & E2 & O2 & _). by simplify_eq.
  - destruct (stopWriting_ok m w O) as (w2 & E2 & O2 & _). by simplify_eq.
  - by eapply submit_ok.
  - unfold changeCodecType in E. simplify_eq. by destruct O.
  - by eapply turn_ok.
Qed.

Lemma recording_step x n nm ds l w w' : recording x n nm ds w -> keeps_recording x l -> wstep l w = Some w' ->
  recording x n nm (ds ++ submitted x [l]) w'.
Proof.
  intros [O A N T] K E. pose proof (wstep_ok _ _ _ O E) as O'.
  assert (Same : streams w' x = streams w x -> active x w' = active x w -> submitted x [l] = [] ->
    recording x n nm (ds ++ submitted x [l]) w').
  { intros S1 S2 S3. rewrite S3, app_nil_r. split; [done|..]; by rewrite ?S1, ?S2. }
  destruct l as [m n' time good|m|m d|c|y]; cbn in E; try (apply fmap_Some in E as ([r w1] & E & ->); cbn in *).
  - destruct (startWriting_ok m n' time good w O) as (r' & w2 & E2 & _ & _ & P & _). simplify_eq.
    destruct (P x A). apply Same; congruence.
  - destruct (stopWriting_ok m w O) as (w2 & E2 & _ & P & _). simplify_eq. destruct (P x K). by apply Same.
  - destruct (submit_step m d w) as (w2 & r' & E2 & P). simplify_eq. destruct (P x) as (P1 & P2 & P3).
    destruct (sub_mode m x) eqn:Sm; [|apply Same; auto; cbn; by rewrite Sm].
    rewrite (P1 A eq_refl) in *. unfold push in *. cbn [submitted flat_map]. rewrite ?Sm. cbn [app].
    split; [done|..]; rewrite ?streams_set, ?decide_True by done; [done|done|].
    cbn [queue thread]. by rewrite !fold_left_app, T.
  - unfold changeCodecType in E. simplify_eq. by apply Same.
  - apply turn_inv in E as (d & q & Eq & ->). destruct (decide (x = y)) as [<-|Ne].
    + rewrite app_nil_r. split; [done|..]; rewrite ?streams_set, ?decide_True by done; [done|done|].
      cbn [queue thread]. by rewrite <- T, Eq.
    + apply Same; [|done..]. rewrite streams_set. by rewrite decide_False.
Qed.

Lemma recording_run x n nm ls : forall ds w w', recording x n nm ds w -> Forall (keeps_recording x) ls ->
  wrun ls w = Some w' -> recording x n nm (ds ++ submitted x ls) w'.
Proof.
  induction ls as [|l ls IH]; intros ds w w' R K E; cbn [wrun] in E.
  { simplify_eq. by rewrite app_nil_r. }
  apply Forall_cons in K as [K1 K]. apply bind_Some in E as (w1 & E1 & E).
  rewrite submitted_cons, (assoc_L (++)). eapply IH; [by eapply recording_step|done..].
Qed.

(** C13. A recording holds exactly what was submitted.  From the start of the
    recording of a stream, in any interleaving of submissions (of at most
    [INT_MAX] items, none of which is a block without data, which would end the
    recording), turns of the two threads, and calls for the other stream, stopping
    returns, and the file has the bytes of the items submitted in their order:
    for the output those from the first key frame on, at most the number of
    frames asked for, all of them when that number is negative and none when it
    is 0; for the input, what was copied of every item (also of one whose copy
    ended in an error, as far as it went) up to the item that makes the number
    of items copied without an error reach the one asked for, and of all items
    when that is 0 or negative. *)
Theorem recording_exact x m n time good w w0 ls w1 m' :
  writer_ok w -> active x w = false -> in_mode m x = true -> startWriting m n time good w = Some (0, w0) ->
  wrun ls w0 = Some w1 -> Forall (keeps_recording x) ls -> Forall (fun d => is_empty d = false) (submitted x ls) ->
  Z.of_nat (length (submitted x ls)) <= INT_MAX -> in_mode m' x = true ->
  exists w2, stopWriting m' w1 = Some (0, w2) /\
    (new_file_name x time w, recorded x n (submitted x ls)) ∈ files w2.
Proof.
  intros O A M E R K D B M'.
  destruct (startWriting_ok m n time good w O) as (r & w0' & E' & O0 & _ & _ & P). simplify_eq.
  destruct (P eq_refl x A M) as [A0 S0].
  assert (R0 : recording x n (new_file_name x time w) [] w0) by (split; rewrite ?S0; done).
  apply (recording_run _ _ _ _ _ _ _ R0 K) in R as [O1 A1 N1 T1]. cbn [app] in T1.
  destruct (stopWriting_ok m' w1 O1) as (w2 & E2 & _ & _ & _ & F2 & _). exists w2. split; [done|].
  destruct (F2 x M' A1) as (f & C & Hf). rewrite N1 in Hf.
  rewrite fold_left_app, T1 in C. cbn [fold_left] in C.
  replace (recorded x n (submitted x ls)) with f; [done|].
  assert (content (fold_left (consume x) (submitted x ls) (Running n 0 [])) = f) as <-.
  { destruct (fold_left (consume x) (submitted x ls) (Running n 0 [])); rewrite consume_empty in C; by simplify_eq. }
  destruct x; [by apply input_recorded|by apply output_recorded].
Qed.

Lemma new_ok c p : writer_ok (IORuntimeWriter_new c p).
Proof. split; [cbn; unfold STOPPED; lia|]. by intros []. Qed.

Lemma wrun_ok ls : forall w w', writer_ok w -> wrun ls w = Some w' -> writer_ok w'.
Proof.
  induction ls as [|l ls IH]; intros w w' O E; cbn in E; [by simplify_eq|].
  apply bind_Some in E as (w1 & E1 & E). eapply IH; [|exact E]. by eapply wstep_ok.
Qed.

(** C38. The writer never hangs or dies.  In every interleaving of calls and
    turns of the threads from a new writer, every call returns: no start assigns
    to a thread that was not joined, and every stop ends, because the empty block
    it queues ends the thread. *)
Theorem writer_calls_return c p ls w l :
  wrun ls (IORuntimeWriter_new c p) = Some w -> (forall x, l <> LTurn x) -> is_Some (wstep l w).
Proof.
  intros O%wrun_ok N; [|apply new_ok]. destruct l as [m n time good|m|m d|k|x]; cbn.
  - destruct (startWriting_ok m n time good w O) as (r & w' & -> & _). by eauto.
  - destruct (stopWriting_ok m w O) as (w' & -> & _). by eauto.
  - destruct (submit_step m d w) as (w' & r & -> & _). by eauto.
  - by eauto.
  - by destruct (N x).
Qed.

(** Once the limit is reached the thread is gone but the status still says
    "writing": until the stream is stopped every submission stays in the queue
    for ever, and starting again does nothing. *)
Theorem limit_reached_grows x f ls : forall w w',
  writer_ok w -> active x w = true -> thread (streams w x) = Exited f -> Forall (keeps_recording x) ls ->
  wrun ls w = Some w' ->
  thread (streams w' x) = Exited f /\ queue (streams w' x) = queue (streams w x) ++ submitted x ls.
Proof.
  induction ls as [|l ls IH]; intros w w' O A T K E; cbn [wrun] in E.
  { simplify_eq. by rewrite app_nil_r. }
  apply Forall_cons in K as [K1 K]. apply bind_Some in E as (w1 & E1 & E).
  assert (active x w1 = true /\ thread (streams w1 x) = Exited f /\
    queue (streams w1 x) = queue (streams w x) ++ submitted x [l]) as (A1 & T1 & Q1).
  { destruct l as [m n' time good|m|m d|k|y]; cbn in E1; try (apply fmap_Some in E1 as ([r w2] & E1 & ->); cbn [snd]).
    - destruct (startWriting_ok m n' time good w O) as (r' & w3 & E3 & _ & _ & P & _). simplify_eq.
      destruct (P x A) as [-> ->]. by rewrite app_nil_r.
    - destruct (stopWriting_ok m w O) as (w3 & E3 & _ & P & _). simplify_eq.
      destruct (P x K1) as [-> ->]. by rewrite app_nil_r.
    - destruct (submit_step m d w) as (w3 & r' & E3 & P). simplify_eq. destruct (P x) as (P1 & P2 & P3).
      cbn [submitted flat_map snd]. rewrite P3. destruct (sub_mode m x) eqn:Sm.
      + rewrite (P1 A eq_refl). unfold push. rewrite streams_set, decide_True by done. by cbn.
      + rewrite P2 by done. by rewrite app_nil_r.
    - unfold changeCodecType in E1. simplify_eq. by rewrite app_nil_r.
    - destruct (decide (x = y)) as [<-|Ne]; [unfold thread_turn in E1; by rewrite T in E1|].
      apply turn_inv in E1 as (d & q & Eq & ->). by rewrite app_nil_r, streams_set, decide_False. }
  destruct (IH w1 w' (wstep_ok _ _ _ O E1) A1 T1 K E) as [-> ->]. split; [done|]. rewrite Q1, <- (assoc_L (++)).
  by rewrite <- submitted_cons.
Qed.

(** *** Examples *)

Definition sample_packet (key : bool) (x : Z) : IORuntimeData :=
  {| type := SYSTEM_BLOCK_COPY; data := None; blk := [x; x]; key_frame := key; image := image empty_data |}.

(** The output is started with a limit of two frames; the first packet is not a
    key frame, and the thread runs in between. *)
Definition sample_steps : list wlabel :=
  [LSubmit OUTPUT (sample_packet false 1); LSubmit OUTPUT (sample_packet true 2); LTurn OUTPUT_STREAM;
   LStart INPUT 0 [] (fun _ => true); LSubmit OUTPUT (sample_packet false 3); LTurn OUTPUT_STREAM;
   LSubmit OUTPUT (sample_packet true 4)].

Lemma recording_exact_witness :
  exists w0 w1 w2, startWriting OUTPUT 2 (b "t") (fun _ => true) (IORuntimeWriter_new AV_CODEC_ID_H264 (b "./")) = Some (0, w0) /\
    wrun sample_steps w0 = Some w1 /\ stopWriting INOUT w1 = Some (0, w2) /\
    (b "./output_t.264", [2; 2; 3; 3]) ∈ files w2.
Proof.
  destruct (startWriting OUTPUT 2 (b "t") (fun _ => true) (IORuntimeWriter_new AV_CODEC_ID_H264 (b "./")))
    as [[r w0]|] eqn:E0; [|discriminate E0].
  assert (r = 0) as -> by (injection E0 as <- _; reflexivity).
  destruct (wrun sample_steps w0) as [w1|] eqn:E1; [|injection E0 as <-; vm_compute in E1; discriminate E1].
  destruct (recording_exact OUTPUT_STREAM OUTPUT 2 (b "t") (fun _ => true) _ w0 sample_steps w1 INOUT (new_ok AV_CODEC_ID_H264 (b "./")))
    as (w2 & E2 & F2); try reflexivity; try exact E0; try exact E1.
  - repeat constructor.
  - repeat constructor.
  - vm_compute. discriminate.
  - exists w0, w1, w2. split_and!; [reflexivity|exact E1|exact E2|exact F2].
Defined.

Lemma writer_calls_return_witness :
  exists w, wrun (LStart INOUT (-1) [] (fun _ => true) :: sample_steps) (IORuntimeWriter_new AV_CODEC_ID_AV1 []) = Some w /\
    is_Some (wstep (LStop INOUT) w).
Proof.
  destruct (wrun (LStart INOUT (-1) [] (fun _ => true) :: sample_steps) (IORuntimeWriter_new AV_CODEC_ID_AV1 []))
    as [w|] eqn:E; [|vm_compute in E; discriminate E].
  exists w. split; [reflexivity|]. apply (writer_calls_return _ _ _ _ (LStop INOUT) E). discriminate.
Defined.

(** ** [IOStreamWriter]: recording of a whole stream *)

Module StreamWriter.

(** An input file is what is left of it and whether its end was met; the frames
    given to the callback are kept in order. *)
Record IOStreamWriter := {
  mInputFile : option (bytes * bool); mOutputFile : option bytes;
  mValidInputFrameNum : Z; mOneVideoFrameSize : Z; mVideoFrameWidth : Z; mVideoFrameHeight : Z;
  mFeedCbFunc : bool; mOutputFrameNumber : Z; mWrittenFrameCount : Z;
  fed : list bytes; closed : list bytes
}.

Definition new : IOStreamWriter :=
  {| mInputFile := None; mOutputFile := None; mValidInputFrameNum := -1; mOneVideoFrameSize := -1;
     mVideoFrameWidth := -1; mVideoFrameHeight := -1; mFeedCbFunc := false; mOutputFrameNumber := -1;
     mWrittenFrameCount := 0; fed := []; closed := [] |}.

Definition set_input (i : option (bytes * bool)) (l : list bytes) (w : IOStreamWriter) : IOStreamWriter :=
  {| mInputFile := i; mOutputFile := mOutputFile w; mValidInputFrameNum := mValidInputFrameNum w;
     mOneVideoFrameSize := mOneVideoFrameSize w; mVideoFrameWidth := mVideoFrameWidth w;
     mVideoFrameHeight := mVideoFrameHeight w; mFeedCbFunc := mFeedCbFunc w;
     mOutputFrameNumber := mOutputFrameNumber w; mWrittenFrameCount := mWrittenFrameCount w;
     fed := l; closed := closed w |}.
Definition set_output (o : option bytes) (count : Z) (cl : list bytes) (w : IOStreamWriter) : IOStreamWriter :=
  {| mInputFile := mInputFile w; mOutputFile := o; mValidInputFrameNum := mValidInputFrameNum w;
     mOneVideoFrameSize := mOneVideoFrameSize w; mVideoFrameWidth := mVideoFrameWidth w;
     mVideoFrameHeight := mVideoFrameHeight w; mFeedCbFunc := mFeedCbFunc w;
     mOutputFrameNumber := mOutputFrameNumber w; mWrittenFrameCount := count;
     fed := fed w; closed := cl |}.

(** [setInputStream]; [file] is the content when the file opens.  A frame size of
    0 passes the test and divides by zero. *)
Definition setInputStream (file : option bytes) (one_frame_size width height : Z) (func : bool)
    : cmd IOStreamWriter Z := fun w =>
  match file with
  | None => Some (-1, w)
  | Some f =>
      if (one_frame_size <? 0) || (width <=? 0) || (height <=? 0) then Some (-1, w)
      else if one_frame_size =? 0 then None
      else Some (0, {| mInputFile := Some (f, false); mOutputFile := mOutputFile w;
             mValidInputFrameNum := i32 (Z.of_nat (length f) / one_frame_size);
             mOneVideoFrameSize := one_frame_size; mVideoFrameWidth := width; mVideoFrameHeight := height;
             mFeedCbFunc := func; mOutputFrameNumber := mOutputFrameNumber w;
             mWrittenFrameCount := mWrittenFrameCount w; fed := fed w; closed := closed w |})
  end.

Definition setOutputStream (good : bool) : cmd IOStreamWriter Z := fun w =>
  if good then Some (0, set_output (Some []) (mWrittenFrameCount w) (closed w) w) else Some (-1, w).

Definition setOutputFrameNumber (frame_num : Z) : cmd IOStreamWriter unit := fun w =>
  Some (tt, {| mInputFile := mInputFile w; mOutputFile := mOutputFile w;
    mValidInputFrameNum := mValidInputFrameNum w; mOneVideoFrameSize := mOneVideoFrameSize w;
    mVideoFrameWidth := mVideoFrameWidth w; mVideoFrameHeight := mVideoFrameHeight w;
    mFeedCbFunc := mFeedCbFunc w; mOutputFrameNumber := frame_num;
    mWrittenFrameCount := mWrittenFrameCount w; fed := fed w; closed := closed w |}).

Definition feedVideoFrameFromInputStream (w : IOStreamWriter) : IOStreamWriter :=
  match mInputFile w with
  | None => w
  | Some (rest, eof) =>
      if mValidInputFrameNum w <=? 0 then w
      else if eof : bool then set_input None (fed w) w
      else
        let n := Z.to_nat (mOneVideoFrameSize w) in
        let complete := (n <=? length rest)%nat in
        set_input (Some (drop n rest, negb complete))
          (if complete && mFeedCbFunc w then fed w ++ [take n rest] else fed w) w
  end.

(** [writeToOutputStream] of data that may be null. *)
Definition writeToOutputStream (data : option bytes) : cmd IOStreamWriter Z := fun w =>
  match mOutputFile w, data with
  | Some o, Some d =>
      count ← int_chk (mWrittenFrameCount w + 1);
      let o := o ++ d in
      if (0 <? mValidInputFrameNum w) && (mValidInputFrameNum w <=? count)
         || (0 <? mOutputFrameNumber w) && (mOutputFrameNumber w <=? count)
      then Some (1, set_output None count (closed w ++ [o]) w)
      else Some (0, set_output (Some o) count (closed w) w)
  | _, _ => Some (0, w)
  end.

(** *** Feeding *)

Fixpoint feed (k : nat) (w : IOStreamWriter) : IOStreamWriter :=
  match k with O => w | S k => feed k (feedVideoFrameFromInputStream w) end.

(** The complete frames of a file. *)
Fixpoint frames (fuel n : nat) (f : bytes) : list bytes :=
  match fuel with
  | O => []
  | S fuel => if (n <=? length f)%nat then take n f :: frames fuel n (drop n f) else []
  end.

(** A file that is being fed: what is left and not at its end. *)
Record feeding (w : IOStreamWriter) (rest : bytes) : Prop := {
  fe_file : mInputFile w = Some (rest, false);
  fe_valid : 0 < mValidInputFrameNum w;
  fe_size : 0 < mOneVideoFrameSize w;
  fe_cb : mFeedCbFunc w = true
}.

Lemma feed_closed k : forall w, mInputFile w = None -> feed k w = w.
Proof.
  induction k as [|k IH]; intros w H; [done|]. cbn. unfold feedVideoFrameFromInputStream. rewrite H. by apply IH.
Qed.

Lemma feed_frames k : forall w rest, feeding w rest ->
  fed (feed k w) = fed w ++ frames k (Z.to_nat (mOneVideoFrameSize w)) rest.
Proof.
  induction k as [|k IH]; intros w rest [F V S C]; cbn [feed frames]; [by rewrite app_nil_r|].
  set (w1 := feedVideoFrameFromInputStream w). set (n := Z.to_nat (mOneVideoFrameSize w)).
  assert (w1 = set_input (Some (drop n rest, negb (n <=? length rest)%nat))
    (if (n <=? length rest)%nat then fed w ++ [take n rest] else fed w) w) as E1.
  { subst w1 n. unfold feedVideoFrameFromInputStream. rewrite F, C, andb_true_r.
    by rewrite (proj2 (Z.leb_gt _ _)) by lia. }
  destruct (n <=? length rest)%nat eqn:E.
  - rewrite (IH w1 (drop n rest)) by (rewrite E1; by split). rewrite E1. cbn [fed set_input mOneVideoFrameSize].
    by rewrite <- (assoc_L (++)).
  - rewrite app_nil_r. destruct k as [|k]; cbn [feed]; [by rewrite E1|].
    assert (feedVideoFrameFromInputStream w1 = set_input None (fed w) w1) as ->.
    { rewrite E1. unfold feedVideoFrameFromInputStream. cbn [mInputFile set_input negb mValidInputFrameNum].
      by rewrite (proj2 (Z.leb_gt _ _)) by lia. }
    by rewrite feed_closed.
Qed.

(** *** Output *)

(** The number of frames after which the output is closed: the smaller of the
    positive limits. *)
Definition reached (w : IOStreamWriter) (count : Z) : bool :=
  (0 <? mValidInputFrameNum w) && (mValidInputFrameNum w <=? count)
  || (0 <? mOutputFrameNumber w) && (mOutputFrameNumber w <=? count).

Fixpoint writes (ds : list bytes) (w : IOStreamWriter) : option (list Z * IOStreamWriter) :=
  match ds with
  | [] => Some ([], w)
  | d :: ds => '(r, w) ← writeToOutputStream (Some d) w; '(rs, w) ← writes ds w; Some (r :: rs, w)
  end.

(** Writes below the limit are all kept; the one that reaches it closes the file
    and is the only one that returns 1. *)
Lemma writes_open ds : forall w o, mOutputFile w = Some o ->
  (forall j, (j < length ds)%nat -> reached w (mWrittenFrameCount w + 1 + Z.of_nat j) = false) ->
  INT_MIN <= mWrittenFrameCount w -> mWrittenFrameCount w + Z.of_nat (length ds) <= INT_MAX ->
  exists w', writes ds w = Some (repeat 0 (length ds), w') /\ mOutputFile w' = Some (o ++ concat ds) /\
    mWrittenFrameCount w' = mWrittenFrameCount w + Z.of_nat (length ds) /\ closed w' = closed w /\
    (forall c, reached w' c = reached w c).
Proof.
  induction ds as [|d ds IH]; intros w o Ho R B1 B2; cbn [writes length repeat concat] in *.
  { exists w. rewrite app_nil_r. split_and!; try done. lia. }
  unfold writeToOutputStream at 1. rewrite Ho, int_chk_Some by lia. cbn [mbind option_bind].
  pose proof (R 0%nat ltac:(lia)) as R0. rewrite Z.add_0_r in R0. unfold reached in R0. rewrite R0.
  destruct (IH (set_output (Some (o ++ d)) (mWrittenFrameCount w + 1) (closed w) w) (o ++ d))
    as (w' & E & O' & C' & L' & P'); cbn [mOutputFile set_output mWrittenFrameCount closed] in *; try done; try lia.
  { intros j Hj. specialize (R (S j) ltac:(lia)).
    replace (mWrittenFrameCount w + 1 + Z.of_nat (S j)) with (mWrittenFrameCount w + 1 + 1 + Z.of_nat j) in R by lia.
    exact R. }
  exists w'. cbn [mbind option_bind]. rewrite E. cbn [mbind option_bind].
  split_and!; [done|by rewrite O', <- (assoc_L (++))|lia|done|exact P'].
Qed.

Lemma writes_closed ds : forall w, mOutputFile w = None -> writes ds w = Some (repeat 0 (length ds), w).
Proof.
  induction ds as [|d ds IH]; intros w H; [done|]. cbn [writes length repeat]. unfold writeToOutputStream at 1.
  rewrite H. cbn [mbind option_bind]. by rewrite IH.
Qed.

Lemma writes_app l1 l2 w : writes (l1 ++ l2) w =
  '(r1, w1) ← writes l1 w; '(r2, w2) ← writes l2 w1; Some (r1 ++ r2, w2).
Proof.
  revert w. induction l1 as [|d l1 IH]; intros w; cbn [app writes].
  { cbn [mbind option_bind]. by destruct (writes l2 w) as [[? ?]|]. }
  destruct (writeToOutputStream (Some d) w) as [[r w1]|]; [|done]. cbn [mbind option_bind]. rewrite IH.
  destruct (writes l1 w1) as [[r1 w2]|]; [|done]. cbn [mbind option_bind].
  by destruct (writes l2 w2) as [[? ?]|].
Qed.

(** Feeding and writing a whole file: the frames fed are the complete frames of
    the input in order, and the output is closed after as many packets as the
    input has frames; only that write returns 1, and later ones are dropped. *)
Theorem whole_file f size w h j ds : 0 < size -> 0 < w -> 0 < h ->
  let k := Z.of_nat (length f) / size in
  0 < k <= INT_MAX -> k <= Z.of_nat (length ds) ->
  exists w1 w2 w3,
    setInputStream (Some f) size w h true new = Some (0, w1) /\ setOutputStream true w1 = Some (0, w2) /\
    fed (feed j w2) = frames j (Z.to_nat size) f /\
    writes ds (feed j w2) =
      Some (repeat 0 (Z.to_nat k - 1) ++ 1 :: repeat 0 (length ds - Z.to_nat k), w3) /\
    closed w3 = [concat (take (Z.to_nat k) ds)].
Proof.
  intros Hs Hw Hh k Hk Hd. unfold setInputStream.
  rewrite (proj2 (Z.ltb_ge size 0)), (proj2 (Z.leb_gt w 0)), (proj2 (Z.leb_gt h 0)), (proj2 (Z.eqb_neq size 0)) by lia.
  cbn [orb].
  match goal with |- exists w1 w2 w3, Some (0, ?a) = _ /\ _ =>
    exists a; set (w2 := set_output (Some []) (mWrittenFrameCount a) (closed a) a); exists w2 end.
  assert (V : mValidInputFrameNum w2 = k).
  { cbn. fold k. apply wraps_small; [lia|]. unfold INT_MAX in Hk. cbn. lia. }
  assert (F : feeding w2 f) by (split; rewrite ?V; [done|lia|done..]).
  pose proof (feed_frames j _ _ F) as Fed.
  assert (K : mOutputFile (feed j w2) = Some [] /\ mWrittenFrameCount (feed j w2) = 0 /\ closed (feed j w2) = [] /\
    (forall c, reached (feed j w2) c = (k <=? c))).
  { assert (mOutputFile w2 = Some [] /\ mWrittenFrameCount w2 = 0 /\ closed w2 = [] /\
      (forall c, reached w2 c = (k <=? c))) as K0.
    { split_and!; try done. intros c. unfold reached. rewrite V, (proj2 (Z.ltb_lt 0 k)) by lia. cbn. by rewrite orb_false_r. }
    clear -K0. generalize dependent w2. induction j as [|j IH]; intros w2 K; [done|]. cbn [feed]. apply IH.
    unfold feedVideoFrameFromInputStream. destruct (mInputFile w2) as [[r e]|]; [|done].
    destruct (mValidInputFrameNum w2 <=? 0); [done|]. by destruct e. }
  destruct K as (K1 & K2 & K3 & K4).
  assert (exists d1 d d2, ds = d1 ++ d :: d2 /\ length d1 = (Z.to_nat k - 1)%nat) as (d1 & d & d2 & -> & L1).
  { destruct (drop (Z.to_nat k - 1) ds) as [|d d2] eqn:E.
    - apply (f_equal length) in E. rewrite length_drop in E. cbn in E. lia.
    - exists (take (Z.to_nat k - 1) ds), d, d2. rewrite <- E, take_drop. split; [done|]. rewrite length_take. lia. }
  destruct (writes_open d1 (feed j w2) []) as (w3 & E3 & O3 & C3 & L3 & R3); try done.
  { intros i Hi. rewrite K4, K2. apply Z.leb_gt. lia. }
  1-2: rewrite K2; unfold INT_MIN, INT_MAX in *; lia.
  rewrite writes_app, E3. cbn [mbind option_bind writes]. unfold writeToOutputStream at 1.
  rewrite O3, C3, K2, int_chk_Some by (unfold INT_MIN, INT_MAX in *; lia). cbn [mbind option_bind].
  pose proof (R3 (0 + Z.of_nat (length d1) + 1)) as R. unfold reached at 1 in R. rewrite R, K4, (proj2 (Z.leb_le _ _)) by lia.
  cbn [mbind option_bind]. rewrite writes_closed by done. cbn [mbind option_bind]. rewrite length_app. cbn [length].
  eexists. split_and!; [done|done|exact Fed| |cbn [closed set_output]].
  - replace (length d1 + S (length d2) - Z.to_nat k)%nat with (length d2) by lia. rewrite <- L1. reflexivity.
  - rewrite L3, K3. replace (d1 ++ d :: d2) with ((d1 ++ [d]) ++ d2) by (by rewrite <- (assoc_L (++))).
    rewrite take_app_length' by (rewrite length_app; cbn; lia). rewrite concat_app. cbn. by rewrite app_nil_r.
Qed.

Lemma whole_file_witness : exists w1 w2 w3,
    setInputStream (Some [1; 2; 3; 4; 5]) 2 16 16 true new = Some (0, w1) /\ setOutputStream true w1 = Some (0, w2) /\
    fed (feed 3 w2) = [[1; 2]; [3; 4]] /\ writes [[7]; [8; 8]; [9]] (feed 3 w2) = Some ([0; 1; 0], w3) /\
    closed w3 = [[7; 8; 8]].
Proof.
  apply (whole_file [1; 2; 3; 4; 5] 2 16 16 3 [[7]; [8; 8]; [9]]); vm_compute; try reflexivity; try discriminate.
  split; [reflexivity|discriminate].
Defined.

End StreamWriter.
