(* ===== verification/IrrvProtocol.v ===== *)
(** * IrrvProtocol: the server side of the IRRV protocol

    Models [src/sources/encoder/shared/irrv/irrv_protocol.cpp]: accepting a
    client, authentication, the client's controls, disconnection, and sending
    encoded frames.  What arrives from the outside during one call is an
    argument of it. *)

From Stdlib Require Import ZArith Lia String.
From stdpp Require Import base gmap sets list relations.
From S2P Require Import Prelude StdMap SockUtil SockServer TransCoder IrrWorld IrrStreamer.

(** ** Data *)

Definition IRRV_EVENT_VCTRL : Z := 0x1004.
Definition IRRV_EVENT_VAUTH : Z := 0x1006.
Definition AUTH_FAILED : Z := 0.
Definition AUTH_PASSED : Z := 1.

Definition IRRV_UUID_LEN : nat := 16.

(** A string literal that initialises a [unsigned char[16]]. *)
Definition uuid (s : string) : bytes := b s ++ repeat 0 (IRRV_UUID_LEN - length (b s)).
Definition auth_id : bytes := uuid "irrv_id".
Definition auth_key : bytes := uuid "irrv_key".

Definition IRRV_CTRL_NONE : Z := 0.
Definition IRRV_CTRL_KEYFRAME_SETTING : Z := 1.
Definition IRRV_CTRL_BITRATE_SETTING : Z := 2.
Definition IRRV_CTRL_QP_SETTING : Z := 3.
Definition IRRV_CTRL_GOP_SETTING : Z := 4.
Definition IRRV_CTRL_START : Z := 5.
Definition IRRV_CTRL_PAUSE : Z := 6.
Definition IRRV_CTRL_STOP : Z := 7.
Definition IRRV_CTRL_DUMP_START : Z := 8.
Definition IRRV_CTRL_DUMP_STOP : Z := 9.
Definition IRRV_CTRL_DUMP_FRAMES : Z := 10.
Definition IRRV_CTRL_RESOLUTION : Z := 11.
Definition IRRV_CTRL_FRAMERATE_SETTING : Z := 12.
Definition IRRV_CTRL_MAXFRAMESIZE_SETTING : Z := 13.
Definition IRRV_CTRL_RIR_SETTING : Z := 14.
Definition IRRV_CTRL_MIN_MAX_QP_SETTING : Z := 15.
Definition IRRV_CTRL_INPUT_DUMP_START : Z := 16.
Definition IRRV_CTRL_INPUT_DUMP_STOP : Z := 17.
Definition IRRV_CTRL_OUTPUT_DUMP_START : Z := 18.
Definition IRRV_CTRL_OUTPUT_DUMP_STOP : Z := 19.
Definition IRRV_CTRL_SEI_SETTING : Z := 20.
Definition IRRV_CTRL_SCREEN_CAPTURE_START : Z := 21.
Definition IRRV_CTRL_SCREEN_CAPTURE_STOP : Z := 22.
Definition IRRV_CTRL_ROI_SETTING : Z := 23.
Definition IRRV_CTRL_CHANGE_CODEC_TYPE : Z := 24.
Definition IRRV_CTRL_MAX_BITRATE_SETTING : Z := 25.
Definition IRRV_CTRL_SKIP_FRAME_SETTING : Z := 26.
Definition IRRV_CTRL_PROFILE_LEVEL : Z := 27.
Definition IRRV_CTRL_CLIENT_FEEDBACK : Z := 28.
Definition IRRV_CTRL_END : Z := 29.

(** [irrv_vctrl_t]: the type and the seven words of the union. *)
Record irrv_vctrl_t := { ctrl_type : Z; v0 : Z; v1 : Z; v2 : Z; v3 : Z; v4 : Z; v5 : Z; v6 : Z }.

(** The fields of the union's members, by word. *)
Definition vc_value (v : irrv_vctrl_t) : Z := v0 v.
Definition vc_reserved (i : nat) (v : irrv_vctrl_t) : Z := nth i [v1 v; v2 v; v3 v; v4 v; v5 v; v6 v] 0.

(** The types with a name in [VCtrlTypeMap]. *)
Definition VCtrlTypeMap_has (t : Z) : bool := (IRRV_CTRL_NONE <=? t) && (t <=? IRRV_CTRL_END).

Definition IRRV_STREAM_FORMAT_UNKNOWN : Z := -1.
Definition IRRV_STREAM_FORMAT_H264_RAW : Z := 1.
Definition IRRV_STREAM_FORMAT_H265_RAW : Z := 3.
Definition IRRV_STREAM_FORMAT_MJPEG : Z := 4.
Definition IRRV_STREAM_FORMAT_AV1_RAW : Z := 5.

Definition ConvertCodecTypeToStreamFormat (codec_id : Z) : Z :=
  if codec_id =? AV_CODEC_ID_AV1 then IRRV_STREAM_FORMAT_AV1_RAW
  else if codec_id =? AV_CODEC_ID_MJPEG then IRRV_STREAM_FORMAT_MJPEG
  else if codec_id =? AV_CODEC_ID_H264 then IRRV_STREAM_FORMAT_H264_RAW
  else if codec_id =? AV_CODEC_ID_HEVC then IRRV_STREAM_FORMAT_H265_RAW
  else IRRV_STREAM_FORMAT_UNKNOWN.

Definition irrv_check_authentication (id key : bytes) : bool :=
  str_eqb (take IRRV_UUID_LEN id) auth_id && str_eqb (take IRRV_UUID_LEN key) auth_key.

(** Conversion of a [uint32_t] to [float]: 24 significant bits, ties to even. *)
Definition float_of_u32 (z : Z) : Z :=
  if z <? 2 ^ 24 then z
  else
    let e := Z.log2 z - 23 in
    let q := z / 2 ^ e in
    let r := z mod 2 ^ e in
    let q := if (2 ^ (e - 1) <? r) || (r =? 2 ^ (e - 1)) && Z.odd q then q + 1 else q in
    q * 2 ^ e.

(** What happens outside during one call of [irrv_checknewconn]. *)
Record outside := {
  ou_select : Z; ou_isset : bool; ou_reject : Z;            (** [sock_server_has_newconn] *)
  ou_accept : Z; ou_ioctl : Z; ou_malloc : bool;            (** [sock_server_create_client] *)
  ou_nsel : Z; ou_ready : gset Z; ou_nread : Z;             (** readiness of the clients *)
  ou_event : Z;                                             (** the type of the event received *)
  ou_id : bytes; ou_key : bytes;                            (** [irrv_vauth_t] *)
  ou_ctrl : irrv_vctrl_t;                                   (** [irrv_vctrl_t] *)
  ou_feedback : Z -> Z -> Z                                 (** the rate predictor *)
}.

(** ** Operations *)

(** An operation of the socket layer on a live server. *)
Definition on_server {A} (server : Z) (op : state -> option (A * state)) : cmd world A := fun w =>
  s ← servers w !! server;
  '(r, s') ← op s;
  Some (r, set_servers (<[server := s']> (servers w)) w).

(** The size put into the headers: the one asked for, else the initial one. *)
Definition encode_size (w : world) : Z * Z :=
  let width := irr_stream_get_encode_new_width w in
  let height := irr_stream_get_encode_new_height w in
  if (width <=? 0) || (height <=? 0) then (irr_stream_get_width w, irr_stream_get_height w)
  else (width, height).

Definition header_width (w : world) : Z := let x := (encode_size w).1 in u32 (if 0 <? x then x else 720).
Definition header_height (w : world) : Z := let x := (encode_size w).2 in u32 (if 0 <? x then x else 1280).

(** The new-connection branch. *)
Definition accept_client (ou : outside) (server : Z) (auth_required : bool) : cmd world unit :=
  c <-- on_server server (fun s => Some (sock_server_create_client (ou_accept ou) (ou_ioctl ou) (ou_malloc ou) s));;
  cmodify (set_client server c);;;
  cmodify (fun w => match c with Some slot => emit (Accepted server slot) w | None => w end);;;
  irr_stream_incClient;;;
  w <-- cget;;
  send_to server (VHEAD 0 (header_width w) (header_height w)
    (u32 (ConvertCodecTypeToStreamFormat (irr_stream_get_encoder_type w))) (Z.b2z auth_required)).

(** [sock_server_close_client(server, clients[server])], then [clients[server] = NULL]. *)
Definition close_client (server slot : Z) : cmd world unit :=
  on_server server (fun s => s' ← sock_server_close_client slot s; Some (tt, s'));;;
  cmodify (emit (Closed server slot));;;
  cmodify (set_client server None).

(** The authentication request. *)
Definition handle_vauth (ou : outside) (server slot : Z) : cmd world unit :=
  cmodify (emit (Auth_request server slot (ou_id ou) (ou_key ou)));;;
  if irrv_check_authentication (ou_id ou) (ou_key ou) then
    cmodify (set_auth server true);;;
    send_to server (VAUTH_ACK AUTH_PASSED)
  else
    cmodify (set_auth server false);;;
    send_to server (VAUTH_ACK AUTH_FAILED);;;
    close_client server slot.

Definition void {S A} (m : cmd S A) : cmd S unit := m;;; cret tt.

(** The switch over the control's type; [FFMPEG_v42] is not defined. *)
Definition dispatch_vctrl (feedback : Z -> Z -> Z) (v : irrv_vctrl_t) : cmd world unit :=
  let t := ctrl_type v in
  let value := i32 (vc_value v) in
  if t =? IRRV_CTRL_KEYFRAME_SETTING then void (irr_stream_force_keyframe value)
  else if t =? IRRV_CTRL_BITRATE_SETTING then void (irr_stream_set_bitrate value)
  else if t =? IRRV_CTRL_MAX_BITRATE_SETTING then void (irr_stream_set_max_bitrate value)
  else if t =? IRRV_CTRL_SKIP_FRAME_SETTING then
    if vc_value v =? 1 then irr_stream_set_skipframe true
    else if vc_value v =? 0 then irr_stream_set_skipframe false
    else cret tt
  else if t =? IRRV_CTRL_QP_SETTING then void (irr_stream_set_qp value)
  else if t =? IRRV_CTRL_START then
    irr_stream_setEncodeFlag true;;; irr_stream_setTransmitFlag true;;;
    irr_stream_first_start_encdoding true
  else if t =? IRRV_CTRL_PAUSE then irr_stream_setTransmitFlag false
  else if t =? IRRV_CTRL_STOP then
    irr_stream_setEncodeFlag false;;; irr_stream_setTransmitFlag false;;;
    irr_stream_first_start_encdoding false
  else if t =? IRRV_CTRL_DUMP_START then irr_stream_runtime_writer_start IRR_RT_MODE_BOTH
  else if t =? IRRV_CTRL_DUMP_STOP then irr_stream_runtime_writer_stop IRR_RT_MODE_BOTH
  else if t =? IRRV_CTRL_DUMP_FRAMES then irr_stream_runtime_writer_start_with_frame_num value
  else if t =? IRRV_CTRL_FRAMERATE_SETTING then void (irr_stream_set_framerate (float_of_u32 (vc_value v)))
  else if t =? IRRV_CTRL_MAXFRAMESIZE_SETTING then void (irr_stream_set_max_frame_size value)
  else if t =? IRRV_CTRL_RIR_SETTING then
    void (irr_stream_set_rolling_intra_refresh (i32 (v1 v)) (i32 (v2 v)) (i32 (v3 v)))
  else if t =? IRRV_CTRL_MIN_MAX_QP_SETTING then void (irr_stream_set_min_max_qp (i32 (v1 v)) (i32 (v2 v)))
  else if t =? IRRV_CTRL_RESOLUTION then void (irr_stream_change_resolution (i32 (v1 v)) (i32 (v2 v)))
  else if t =? IRRV_CTRL_CHANGE_CODEC_TYPE then void (irr_stream_change_codec (vc_value v))
  else if t =? IRRV_CTRL_INPUT_DUMP_START then irr_stream_runtime_writer_start IRR_RT_MODE_INPUT
  else if t =? IRRV_CTRL_INPUT_DUMP_STOP then irr_stream_runtime_writer_stop IRR_RT_MODE_INPUT
  else if t =? IRRV_CTRL_OUTPUT_DUMP_START then irr_stream_runtime_writer_start IRR_RT_MODE_OUTPUT
  else if t =? IRRV_CTRL_OUTPUT_DUMP_STOP then irr_stream_runtime_writer_stop IRR_RT_MODE_OUTPUT
  else if t =? IRRV_CTRL_SEI_SETTING then void (irr_stream_set_sei (i32 (v1 v)) (i32 (v2 v)))
  else if t =? IRRV_CTRL_GOP_SETTING then void (irr_stream_set_gop_size value)
  else if t =? IRRV_CTRL_SCREEN_CAPTURE_START then
    irr_sream_set_screen_capture_interval (i32 (v0 v));;;
    irr_stream_set_screen_capture_quality (i32 (v1 v));;;
    irr_stream_set_screen_capture_flag true
  else if t =? IRRV_CTRL_SCREEN_CAPTURE_STOP then irr_stream_set_screen_capture_flag false
  else if t =? IRRV_CTRL_PROFILE_LEVEL then
    void (irr_stream_change_profile_level (i32 (vc_reserved 0 v)) (i32 (vc_reserved 1 v)))
  else if t =? IRRV_CTRL_CLIENT_FEEDBACK then void (irr_stream_set_client_feedback feedback (v0 v) (v1 v))
  else cret tt.

(** A control: its name is looked up first, and [std::map::at] throws for a
    type without one. *)
Definition handle_vctrl (ou : outside) (server slot : Z) : cmd world unit :=
  cmodify (emit (Control server slot (ctrl_type (ou_ctrl ou))));;;
  if VCtrlTypeMap_has (ctrl_type (ou_ctrl ou)) then dispatch_vctrl (ou_feedback ou) (ou_ctrl ou)
  else cundef.

(** A disconnected client. *)
Definition handle_disconnect (server slot : Z) : cmd world unit :=
  close_client server slot;;;
  cmodify (set_auth server false);;;
  irr_stream_decClient;;;
  iClientNum <-- cgets irr_stream_getClientNum;;
  if iClientNum =? 0 then irr_stream_setEncodeFlag false;;; irr_stream_setTransmitFlag false
  else cret tt.

(** What a readable client sent. *)
Definition handle_event (ou : outside) (server slot : Z) (auth_required : bool) : cmd world unit :=
  (if (ou_event ou =? IRRV_EVENT_VAUTH) && auth_required then handle_vauth ou server slot else cret tt);;;
  authed <-- cgets (irrv_get_auth_state server);;
  if (ou_event ou =? IRRV_EVENT_VCTRL) && (negb auth_required || authed) then handle_vctrl ou server slot
  else cret tt.

(** The second half of [irrv_checknewconn]: the client there is, if any. *)
Definition poll_client (ou : outside) (server : Z) (auth_required : bool) : cmd world unit :=
  rd <-- on_server server (sock_server_clients_readable 0 (ou_nsel ou) (ou_ready ou));;
  if (rd : bool) then
    c <-- cgets (client_of server);;
    match c with
    | None => cret tt
    | Some slot =>
        st <-- on_server server (fun s => st ← sock_server_check_connect slot (ou_nread ou) s; Some (st, s));;
        match st with
        | readable => handle_event ou server slot auth_required
        | disconnect => handle_disconnect server slot
        | normal => cret tt
        end
    end
  else cret tt.

(** The first half: accept a client when there is none. *)
Definition check_accept (ou : outside) (server : Z) (auth_required : bool) : cmd world unit :=
  have <-- cgets (irrv_have_client server);;
  if (have : bool) then cret tt
  else
    new <-- on_server server (sock_server_has_newconn 0 (ou_select ou) (ou_isset ou) (ou_reject ou));;
    if (new : bool) then accept_client ou server auth_required else cret tt.

Definition irrv_checknewconn (ou : outside) (server : Z) : cmd world Z :=
  (if negb (server =? 0) then
     auth_required <-- cgets irr_stream_getAuthFlag;;
     check_accept ou server auth_required;;;
     poll_client ou server auth_required
   else cret tt);;;
  cgets irr_stream_getClientNum.

(** Send one encoded frame, when the client may have it. *)
Definition send_frame (server flags size : Z) (data : bytes) (auth_required : bool) : cmd world unit :=
  w <-- cget;;
  if irrv_have_client server w && (negb auth_required || irrv_get_auth_state server w) then
    send_to server (VFRAME flags (u32 size) (header_width w) (header_height w));;;
    send_to server (VDATA (take (Z.to_nat size) data))
  else cret tt.

Definition irrv_writeback (ou : outside) (server : Z) (data : bytes) (size flags : Z) : cmd world Z :=
  auth_required <-- cgets irr_stream_getAuthFlag;;
  cmodify (fun w => set_wb_idx (u64 (g_wb_frame_idx w + 1)) w);;;
  irrv_checknewconn ou server;;;
  (if negb (server =? 0) then send_frame server flags size data auth_required else cret tt);;;
  cret 0.

(** [irrv_writeback2]: only H.264 and MJPEG data; [type] goes into the flags. *)
Definition irrv_writeback2 (ou : outside) (server : Z) (data : bytes) (size type : Z) : cmd world Z :=
  auth_required <-- cgets irr_stream_getAuthFlag;;
  irrv_checknewconn ou server;;;
  (if negb (server =? 0) && ((type =? AV_CODEC_ID_H264) || (type =? AV_CODEC_ID_MJPEG))
   then send_frame server (u32 type) size data auth_required else cret tt);;;
  cret 0.

(** [irrv_close]; the server is freed. *)
Definition irrv_close (server : Z) : cmd world unit :=
  if server =? 0 then cret tt
  else
    c <-- cgets (client_of server);;
    (match c with Some slot => close_client server slot | None => cret tt end);;;
    cmodify (fun w => match auth_pass w !! server with Some _ => set_auth server false w | None => w end);;;
    s <-- (fun w => clift (servers w !! server) w);;
    cmodify (emit (Shutdown server (sock_server_close (Some (srv s)) (open_fds s))));;;
    cmodify (fun w => set_servers (delete server (servers w)) w).

(** ** Effects of operations

    [effect R m]: every run of [m] relates the state before to the state after
    by [R].  Preorders compose along the monad. *)

Definition effect {A} (R : world -> world -> Prop) (m : cmd world A) : Prop :=
  forall w a w', m w = Some (a, w') -> R w w'.

Section effects.
Context (R : world -> world -> Prop) `{!PreOrder R}.

Lemma effect_ret {A} (a : A) : effect R (cret a).
Proof. intros w x w' [= _ <-]. reflexivity. Qed.

Lemma effect_undef {A} : effect R (@cundef world A).
Proof. intros w x w' [=]. Qed.

Lemma effect_get : effect R cget.
Proof. intros w x w' [= _ <-]. reflexivity. Qed.

Lemma effect_gets {A} (f : world -> A) : effect R (cgets f).
Proof. intros w x w' [= _ <-]. reflexivity. Qed.

Lemma effect_modify f : (forall w, R w (f w)) -> effect R (cmodify f).
Proof. intros H w x w' [= _ <-]. apply H. Qed.

Lemma effect_bind {A B} (m : cmd world A) (f : A -> cmd world B) :
  effect R m -> (forall a, effect R (f a)) -> effect R (cbind f m).
Proof.
  intros Hm Hf w x w' (a & w1 & E1 & E2)%cbind_inv.
  trans w1; [by eapply Hm|by eapply Hf].
Qed.

Lemma effect_void {A} (m : cmd world A) : effect R m -> effect R (void m).
Proof. intros H. apply effect_bind; [done|]. intros _. apply effect_ret. Qed.

Lemma effect_if {A} (c : bool) (m1 m2 : cmd world A) :
  effect R m1 -> effect R m2 -> effect R (if c then m1 else m2).
Proof. by destruct c. Qed.

(** Operations that only replace the streamer, or call the file writer. *)
Lemma effect_on_streamer {A} (a : A) op :
  (forall w s s' r, streamer w = Some s -> op s = Some (r, s') -> R w (set_streamer (Some s') w)) ->
  effect R (on_streamer a op).
Proof.
  intros H w x w'. unfold on_streamer. destruct (streamer w) as [s|] eqn:Es; [|intros [= _ <-]; reflexivity].
  destruct (op s) as [[r s']|] eqn:E; intros [= <- <-]. by eapply H.
Qed.

Lemma effect_on_writer calls :
  (forall w c, R w (call_writer c w)) -> effect R (on_writer calls).
Proof.
  intros H w x w'. unfold on_writer.
  destruct (streamer w) as [s|]; [|intros [= _ <-]; reflexivity].
  destruct (m_pRuntimeWriter s); intros [= _ <-]; [|reflexivity].
  clear x s. revert w. induction calls as [|c calls IH]; intros w; simpl; [reflexivity|].
  trans (call_writer c w); [apply H|apply IH].
Qed.

Lemma effect_send_to server m :
  (forall w slot, client_of server w = Some slot -> R w (emit (Sent server slot m) w)) ->
  effect R (send_to server m).
Proof.
  intros H w x w' [= _ <-]. destruct (client_of server w) eqn:E; [by apply H|reflexivity].
Qed.

Lemma effect_on_server {A} server (op : state -> option (A * state)) :
  (forall w s', is_Some (servers w !! server) -> R w (set_servers (<[server := s']> (servers w)) w)) ->
  effect R (on_server server op).
Proof.
  intros H w x w'. unfold on_server.
  destruct (servers w !! server) as [s|] eqn:E; simpl; [|done].
  destruct (op s) as [[r s']|]; simpl; intros [= _ <-]. apply H. by rewrite E.
Qed.

Lemma effect_send_message server t v :
  (forall w sv slot v, client_of sv w = Some slot -> R w (emit (Sent sv slot (VMESSAGE t v)) w)) ->
  effect R (irrv_send_message server t v).
Proof.
  intros H w x w'. unfold irrv_send_message.
  destruct (server =? 0); [intros [= _ <-]; reflexivity|].
  destruct (irrv_have_client server w); [|intros [= _ <-]; reflexivity].
  revert w x w'. change (effect R (send_to server (VMESSAGE t (u32 v));;; cret 0)).
  apply effect_bind; [|intros _; apply effect_ret]. apply effect_send_to. intros. by apply H.
Qed.

(** A codec change: the streamer, the clients' messages, the file writer. *)
Lemma effect_change_codec c :
  (forall w s t, streamer w = Some s -> m_pTrans s = Some t -> (changeCodec c t).1 <> 0 ->
     R w (set_streamer (Some (upd_trans (changeCodec c t).2 s)) w)) ->
  (forall w s t, streamer w = Some s -> m_pTrans s = Some t -> (changeCodec c t).1 = 0 ->
     R w (set_streamer (Some (upd_video (m_pDemux s) c (m_fFramerate s) (m_bVASurface s) (m_bQSVSurface s)
            (upd_trans (changeCodec c t).2 s))) w)) ->
  (forall w sv slot t v, client_of sv w = Some slot -> R w (emit (Sent sv slot (VMESSAGE t v)) w)) ->
  (forall w, R w (call_writer (rt_codec c) w)) ->
  effect R (irr_stream_change_codec c).
Proof.
  intros H1 H2 H3 H4 w x w'. unfold irr_stream_change_codec, change_codec.
  destruct (streamer w) as [s|] eqn:Es; [|intros [= _ <-]; reflexivity].
  destruct (m_pTrans s) as [t|] eqn:Et; [|intros [= _ <-]; reflexivity].
  destruct (_ && _); [intros [= _ <-]; reflexivity|].
  specialize (H1 w s t Es Et). specialize (H2 w s t Es Et).
  destruct (changeCodec c t) as [r t'] eqn:Ec; simpl in H1, H2.
  destruct (Z.eqb_spec r 0) as [->|Nr]; [|intros [= _ <-]; by apply H1].
  destruct (m_pMux s) as [mux|]; simpl; [|done].
  specialize (H2 eq_refl). intros E. etrans; [exact H2|]. revert E.
  match goal with |- _ ?w1 = _ -> R ?w2 _ => change w1 with w2; generalize w2 end.
  clear - H3 H4 PreOrder0. intros w E. revert E. generalize w x w'.
  change (effect R (mux_sendMessage mux IRRV_MESSAGE_VIDEO_FORMAT_CHANGE c;;;
                    cmodify (call_writer (rt_codec c));;; cret 0)).
  repeat first [apply effect_bind; [|intros _] | apply effect_ret | apply effect_modify; exact H4
               | apply effect_send_message; intros; by apply H3].
Qed.

End effects.

(** Decompose an operation into its parts; the relation's own facts about the
    parts are solved by [tac]. *)
Ltac effect_step :=
  match goal with
  | |- effect _ (cbind _ _) => apply effect_bind; [typeclasses eauto| |intros ?]
  | |- effect _ (void _) => apply effect_void; [typeclasses eauto|]
  | |- effect _ (cret _) => apply effect_ret; typeclasses eauto
  | |- effect _ cundef => apply effect_undef
  | |- effect _ cget => apply effect_get; typeclasses eauto
  | |- effect _ (cgets _) => apply effect_gets; typeclasses eauto
  | |- effect _ (if _ then _ else _) => apply effect_if
  | |- effect _ (match ?x with _ => _ end) => destruct x
  | |- effect _ (cmodify _) => apply effect_modify; intros ?
  | |- effect _ (on_streamer _ _) => apply effect_on_streamer; [typeclasses eauto|intros ??????]
  | |- effect _ (on_writer _) => apply effect_on_writer; [typeclasses eauto|intros ??]
  | |- effect _ (send_to _ _) => apply effect_send_to; [typeclasses eauto|intros ???]
  | |- effect _ (on_server _ _) => apply effect_on_server; intros ???
  | |- effect _ (irr_stream_change_codec _) => apply effect_change_codec; [typeclasses eauto|..]; intros
  end.

(** The interface functions are calls of the streamer or of the writer. *)
Ltac unfold_api :=
  unfold irr_stream_force_keyframe, irr_stream_set_bitrate, irr_stream_set_max_bitrate,
    irr_stream_set_skipframe, irr_stream_set_qp, irr_stream_setEncodeFlag, irr_stream_setTransmitFlag,
    irr_stream_first_start_encdoding, irr_stream_runtime_writer_start, irr_stream_runtime_writer_stop,
    irr_stream_runtime_writer_start_with_frame_num, irr_stream_set_framerate,
    irr_stream_set_max_frame_size, irr_stream_set_rolling_intra_refresh, irr_stream_set_min_max_qp,
    irr_stream_change_resolution, irr_stream_set_sei, irr_stream_set_gop_size,
    irr_sream_set_screen_capture_interval, irr_stream_set_screen_capture_quality,
    irr_stream_set_screen_capture_flag, irr_stream_change_profile_level, irr_stream_set_client_feedback,
    irr_stream_incClient, irr_stream_decClient.

(** ** Sessions, as the trace shows them *)

(** The credentials are the expected ones. *)
Definition good_credentials (id key : bytes) : Prop :=
  take IRRV_UUID_LEN id = auth_id /\ take IRRV_UUID_LEN key = auth_key.

#[export] Instance good_credentials_dec id key : Decision (good_credentials id key).
Proof. unfold good_credentials. apply _. Defined.

(** The client of a server after an event, and whether it presented the
    credentials on this connection. *)
Definition session_step (server : Z) (s : option (Z * bool)) (e : event) : option (Z * bool) :=
  match e with
  | Accepted sv slot => if sv =? server then Some (slot, false) else s
  | Closed sv _ => if sv =? server then None else s
  | Auth_request sv slot id key =>
      if sv =? server then Some (slot, bool_decide (good_credentials id key)) else s
  | _ => s
  end.

Definition session (server : Z) (tr : list event) : option (Z * bool) :=
  fold_left (session_step server) tr None.

Lemma session_snoc server tr e : session server (tr ++ [e]) = session_step server (session server tr) e.
Proof. unfold session. by rewrite fold_left_app. Qed.

Lemma session_sent server tr l :
  Forall (fun e => exists sv slot m, e = Sent sv slot m) l ->
  session server (tr ++ l) = session server tr.
Proof.
  intros H. unfold session. rewrite fold_left_app. generalize (fold_left (session_step server) tr None).
  induction H as [|e l (sv & slot & m & ->) _ IH]; intros s; simpl; [done|apply IH].
Qed.

Lemma check_authentication_spec id key :
  irrv_check_authentication id key = bool_decide (good_credentials id key).
Proof.
  unfold irrv_check_authentication. case_bool_decide as H.
  - destruct H as [-> ->]. by rewrite !str_eqb_refl.
  - apply not_true_iff_false. intros [H1 H2]%andb_prop. apply H.
    split; by apply str_eqb_eq.
Qed.

(** ** The tables agree with the trace *)

Record irrv_ok (server : Z) (w : world) : Prop := {
  ok_session : session server (trace w) =
    (fun slot => (slot, irrv_get_auth_state server w)) <$> client_of server w;
  ok_auth : client_of server w = None -> irrv_get_auth_state server w = false;
  ok_live : is_Some (client_of server w) -> is_Some (servers w !! server)
}.

(** Nothing happened to [server]. *)
Record same_at (server : Z) (w w' : world) : Prop := {
  sa_client : client_of server w' = client_of server w;
  sa_auth : irrv_get_auth_state server w' = irrv_get_auth_state server w;
  sa_session : session server (trace w') = session server (trace w);
  sa_live : is_Some (servers w !! server) -> is_Some (servers w' !! server)
}.

#[export] Instance same_at_preorder server : PreOrder (same_at server).
Proof.
  split; [by split|]. intros w1 w2 w3 [C1 A1 S1 L1] [C2 A2 S2 L2]. split; try congruence. auto.
Qed.

Lemma same_at_ok server w w' : same_at server w w' -> irrv_ok server w -> irrv_ok server w'.
Proof.
  intros [C A S L] [O1 O2 O3]. split; rewrite ?C, ?A, ?S; auto.
Qed.

Lemma same_at_streamer server s w : same_at server w (set_streamer s w).
Proof. by split. Qed.

Lemma same_at_writer server c w : same_at server w (call_writer c w).
Proof. by split. Qed.

Lemma same_at_sent server sv slot m w : same_at server w (emit (Sent sv slot m) w).
Proof. split; simpl; try done. by rewrite session_snoc. Qed.

Lemma same_at_control server sv slot t w : same_at server w (emit (Control sv slot t) w).
Proof. split; simpl; try done. by rewrite session_snoc. Qed.

Lemma same_at_servers server sv s w : same_at server w (set_servers (<[sv := s]> (servers w)) w).
Proof.
  split; simpl; try done. destruct (decide (sv = server)) as [->|].
  - rewrite lookup_insert_eq. by eexists.
  - by rewrite lookup_insert_ne.
Qed.

Lemma same_at_wb_idx server n w : same_at server w (set_wb_idx n w).
Proof. by split. Qed.

Lemma same_at_client server sv c w : sv <> server -> same_at server w (set_client sv c w).
Proof. intros N. split; simpl; try done. unfold client_of; simpl. by rewrite lookup_insert_ne. Qed.

Lemma same_at_set_auth server sv a w : sv <> server -> same_at server w (set_auth sv a w).
Proof. intros N. split; simpl; try done. unfold irrv_get_auth_state; simpl. by rewrite lookup_insert_ne. Qed.

(** An event of another server. *)
Lemma same_at_emit_ne server sv e w :
  (forall s, session_step server s e = s) -> sv <> server -> same_at server w (emit e w).
Proof. intros H N. split; simpl; try done. by rewrite session_snoc, H. Qed.

Create HintDb same.
#[export] Hint Resolve same_at_streamer same_at_writer same_at_sent same_at_control same_at_servers
  same_at_wb_idx same_at_client same_at_set_auth : same.

Ltac same_tac := unfold_api; repeat effect_step; auto with same.

(** Controls, frames and messages do not touch the sessions. *)
Lemma dispatch_same server fb v : effect (same_at server) (dispatch_vctrl fb v).
Proof. unfold dispatch_vctrl. same_tac. Qed.

Lemma handle_vctrl_same server ou sv slot : effect (same_at server) (handle_vctrl ou sv slot).
Proof. unfold handle_vctrl. same_tac. apply dispatch_same. Qed.

Lemma send_frame_same server sv flags size data a :
  effect (same_at server) (send_frame sv flags size data a).
Proof. unfold send_frame. same_tac. Qed.

Lemma send_message_same server sv t v : effect (same_at server) (irrv_send_message sv t v).
Proof. apply effect_send_message; [apply _|]. auto with same. Qed.

Lemma change_codec_same server c : effect (same_at server) (irr_stream_change_codec c).
Proof. same_tac. Qed.

(** *** Operations on another server *)

Section others.
Context (server sv : Z) (N : sv <> server).

Lemma accepted_ne slot w : same_at server w (emit (Accepted sv slot) w).
Proof. apply same_at_emit_ne with sv; [|done]. intros s; simpl. by destruct (Z.eqb_spec sv server). Qed.

Lemma closed_ne slot w : same_at server w (emit (Closed sv slot) w).
Proof. apply same_at_emit_ne with sv; [|done]. intros s; simpl. by destruct (Z.eqb_spec sv server). Qed.

Lemma auth_request_ne slot id key w : same_at server w (emit (Auth_request sv slot id key) w).
Proof. apply same_at_emit_ne with sv; [|done]. intros s; simpl. by destruct (Z.eqb_spec sv server). Qed.

Local Hint Resolve accepted_ne closed_ne auth_request_ne : same.

Lemma close_client_ne slot : effect (same_at server) (close_client sv slot).
Proof. unfold close_client. same_tac. Qed.

Lemma check_accept_ne ou a : effect (same_at server) (check_accept ou sv a).
Proof. unfold check_accept, accept_client. same_tac. by destruct a2; auto with same. Qed.

Lemma handle_vauth_ne ou slot : effect (same_at server) (handle_vauth ou sv slot).
Proof. unfold handle_vauth. same_tac. apply close_client_ne. Qed.

Lemma poll_client_ne ou a : effect (same_at server) (poll_client ou sv a).
Proof.
  unfold poll_client, handle_event, handle_disconnect. same_tac;
    auto using close_client_ne, handle_vauth_ne, handle_vctrl_same.
Qed.

Lemma checknewconn_ne ou : effect (same_at server) (irrv_checknewconn ou sv).
Proof. unfold irrv_checknewconn. same_tac; auto using check_accept_ne, poll_client_ne. Qed.

Lemma close_ne : effect (same_at server) (irrv_close sv).
Proof.
  unfold irrv_close. same_tac; auto using close_client_ne.
  - destruct (auth_pass _ !! sv); auto with same. reflexivity.
  - intros w x w'. destruct (servers w !! sv); simpl; [|done]. intros [= _ <-]. reflexivity.
  - apply same_at_emit_ne with sv; [by intros|done].
  - split; simpl; try done. by rewrite lookup_delete_ne.
Qed.

End others.

(** *** Operations on the server itself *)

(** The relation "the agreement is kept". *)
Definition keeps (server : Z) (w w' : world) : Prop := irrv_ok server w -> irrv_ok server w'.

#[export] Instance keeps_preorder server : PreOrder (keeps server).
Proof. split; [intros w H; exact H|]. intros w1 w2 w3 H1 H2 H. by apply H2, H1. Qed.

Lemma same_keeps {A} server (m : cmd world A) : effect (same_at server) m -> effect (keeps server) m.
Proof. intros H w a w' E O. eapply same_at_ok; [by eapply H|exact O]. Qed.

Lemma same_run {A} server (m : cmd world A) w a w' :
  m w = Some (a, w') -> effect (same_at server) m -> irrv_ok server w -> irrv_ok server w'.
Proof. intros E H. by apply (same_keeps server m H _ _ _ E). Qed.

Lemma client_of_set server c w : client_of server (set_client server c w) = c.
Proof. unfold client_of; simpl. rewrite lookup_insert_eq. by destruct c. Qed.

Lemma client_emit server e w : client_of server (emit e w) = client_of server w.
Proof. reflexivity. Qed.

Lemma auth_state_set server a w : irrv_get_auth_state server (set_auth server a w) = a.
Proof. unfold irrv_get_auth_state; simpl. by rewrite lookup_insert_eq. Qed.

(** A server without a client. *)
Lemma ok_no_client server w :
  client_of server w = None -> irrv_get_auth_state server w = false ->
  session server (trace w) = None -> irrv_ok server w.
Proof.
  intros C A S. split; rewrite ?C, ?S; auto. by intros [? [=]].
Qed.

(** Accepting: the new session is not authenticated. *)
Lemma ok_accepted server slot w :
  irrv_ok server w -> client_of server w = None -> is_Some (servers w !! server) ->
  irrv_ok server (emit (Accepted server slot) (set_client server (Some slot) w)).
Proof.
  intros [O1 O2 O3] C L. specialize (O2 C).
  split; rewrite ?client_emit, ?client_of_set; [|done..].
  cbn [trace emit set_client]. rewrite session_snoc; simpl. rewrite Z.eqb_refl.
  change (irrv_get_auth_state server (emit _ (set_client _ _ ?w))) with (irrv_get_auth_state server w).
  by rewrite O2.
Qed.

(** Authenticating: the answer recorded is the one the credentials deserve. *)
Lemma ok_authenticated server slot id key w :
  irrv_ok server w -> client_of server w = Some slot ->
  irrv_ok server (set_auth server (irrv_check_authentication id key) (emit (Auth_request server slot id key) w)).
Proof.
  intros [O1 O2 O3] C.
  split.
  - change (trace (set_auth _ _ ?w)) with (trace w); cbn [trace emit]. rewrite session_snoc; simpl.
    change (client_of server (set_auth _ _ (emit _ ?w))) with (client_of server w).
    rewrite Z.eqb_refl, C, auth_state_set, check_authentication_spec. done.
  - change (client_of server (set_auth _ _ (emit _ ?w))) with (client_of server w). by rewrite C.
  - intros _. simpl. apply O3. by rewrite C.
Qed.

Lemma on_server_inv {A} server (op : state -> option (A * state)) w a w' :
  on_server server op w = Some (a, w') ->
  exists s s', servers w !! server = Some s /\ op s = Some (a, s') /\
    w' = set_servers (<[server := s']> (servers w)) w.
Proof.
  unfold on_server. destruct (servers w !! server) as [s|]; simpl; [|done].
  destruct (op s) as [[r s']|] eqn:E; simpl; intros [= <- <-]. eauto.
Qed.

(** After a close there is no client and no session. *)
Lemma close_client_run server slot w a w' :
  close_client server slot w = Some (a, w') ->
  client_of server w' = None /\ session server (trace w') = None /\
  irrv_get_auth_state server w' = irrv_get_auth_state server w /\ streamer w' = streamer w.
Proof.
  unfold close_client. intros (u & w1 & E1 & E2)%cbind_inv.
  apply on_server_inv in E1 as (s & s' & _ & _ & ->). injection E2 as _ <-.
  rewrite client_of_set. simpl. rewrite session_snoc; simpl. by rewrite Z.eqb_refl.
Qed.

Lemma check_accept_ok server ou a : effect (keeps server) (check_accept ou server a).
Proof.
  intros w x w' E O. unfold check_accept in E. apply cbind_inv in E as (have & w0 & [= <- <-] & E).
  destruct (irrv_have_client server w) eqn:Eh; [by injection E as _ <-|].
  assert (client_of server w = None) as C.
  { unfold irrv_have_client in Eh. unfold client_of. by destruct (clients w !! server) as [[?|]|]. }
  apply cbind_inv in E as (new & w1 & E1 & E).
  apply on_server_inv in E1 as (s & s' & Es & _ & ->).
  set (w1 := set_servers _ w) in *.
  assert (irrv_ok server w1) as O1 by (eapply same_at_ok; [apply same_at_servers|done]).
  destruct new; [|by injection E as _ <-]. unfold accept_client in E.
  apply cbind_inv in E as (c & w2 & E2 & E).
  apply on_server_inv in E2 as (s2 & s2' & Es2 & _ & ->).
  set (w2 := set_servers _ w1) in *.
  assert (irrv_ok server w2) as O2 by (eapply same_at_ok; [apply same_at_servers|done]).
  apply cbind_inv in E as (u1 & w3 & [= _ <-] & E).
  apply cbind_inv in E as (u2 & w4 & [= _ <-] & E).
  apply (same_run _ _ _ _ _ E); [same_tac|]. destruct c as [slot|].
  - apply ok_accepted; [done..|]. simpl. rewrite lookup_insert_eq. by eexists.
  - destruct O2 as [O21 O22 O23]. apply ok_no_client; [apply client_of_set|by apply O22|].
    change (session server (trace w) = None). by rewrite (ok_session _ _ O), C.
Qed.

Lemma handle_vauth_ok server ou slot w x w' :
  handle_vauth ou server slot w = Some (x, w') -> client_of server w = Some slot ->
  irrv_ok server w -> irrv_ok server w'.
Proof.
  intros E C O. unfold handle_vauth in E. apply cbind_inv in E as (u & w1 & [= _ <-] & E).
  pose proof (ok_authenticated server slot (ou_id ou) (ou_key ou) w O C) as O1.
  destruct (irrv_check_authentication (ou_id ou) (ou_key ou)) eqn:Ea;
    apply cbind_inv in E as (u2 & w2 & [= _ <-] & E).
  - apply (same_run _ _ _ _ _ E); [same_tac|done].
  - apply cbind_inv in E as (u3 & w3 & E3 & E).
    assert (same_at server (set_auth server false (emit (Auth_request server slot (ou_id ou) (ou_key ou)) w)) w3)
      as [_ A3 _ _] by (eapply effect_send_to; [apply _| |exact E3]; auto with same).
    apply close_client_run in E as (C' & S' & A' & _).
    apply ok_no_client; [done| |done]. by rewrite A', A3, auth_state_set.
Qed.

Lemma handle_disconnect_ok server slot : effect (keeps server) (handle_disconnect server slot).
Proof.
  intros w x w' E O. unfold handle_disconnect in E. apply cbind_inv in E as (u & w1 & E1 & E).
  apply close_client_run in E1 as (C1 & S1 & _ & _).
  apply cbind_inv in E as (u2 & w2 & [= _ <-] & E).
  apply (same_run _ _ _ _ _ E); [same_tac|].
  apply ok_no_client; [done|apply auth_state_set|done].
Qed.

Lemma poll_client_ok server ou a : effect (keeps server) (poll_client ou server a).
Proof.
  intros w x w' E O. unfold poll_client in E. apply cbind_inv in E as (rd & w1 & E1 & E).
  assert (irrv_ok server w1) as O1.
  { eapply same_at_ok; [|done]. eapply effect_on_server; [|exact E1]. auto with same. }
  destruct rd; [|by injection E as _ <-].
  apply cbind_inv in E as (c & w2 & [= <- <-] & E).
  destruct (client_of server w1) as [slot|] eqn:C; [|by injection E as _ <-].
  apply cbind_inv in E as (st & w3 & E3 & E).
  assert (same_at server w1 w3) as SA.
  { eapply effect_on_server; [|exact E3]. auto with same. }
  pose proof (same_at_ok _ _ _ SA O1) as O3. rewrite <- (sa_client _ _ _ SA) in C.
  destruct st; [by eapply handle_disconnect_ok|by injection E as _ <-|].
  unfold handle_event in E. apply cbind_inv in E as (u & w4 & E4 & E).
  assert (irrv_ok server w4) as O4.
  { destruct (_ && _) in E4; [by eapply handle_vauth_ok|by injection E4 as _ <-]. }
  apply (same_run _ _ _ _ _ E); [|done]. same_tac. apply handle_vctrl_same.
Qed.

Lemma checknewconn_ok server ou : effect (keeps server) (irrv_checknewconn ou server).
Proof.
  unfold irrv_checknewconn. repeat effect_step; auto using check_accept_ok, poll_client_ok.
Qed.

Lemma close_ok server : effect (keeps server) (irrv_close server).
Proof.
  intros w x w' E O. unfold irrv_close in E. destruct (server =? 0); [by injection E as _ <-|].
  apply cbind_inv in E as (c & w1 & [= <- <-] & E).
  apply cbind_inv in E as (u & w2 & E2 & E).
  assert (client_of server w2 = None /\ session server (trace w2) = None) as [C2 S2].
  { destruct (client_of server w) as [slot|] eqn:C.
    - apply close_client_run in E2. tauto.
    - injection E2 as _ <-. split; [done|]. by rewrite (ok_session _ _ O), C. }
  apply cbind_inv in E as (u3 & w3 & [= _ <-] & E).
  apply cbind_inv in E as (s & w4 & E4 & E).
  destruct (servers _ !! server) as [s'|] eqn:Es in E4; simpl in E4; [|done].
  injection E4 as <- <-. injection E as _ <-.
  apply ok_no_client.
  - by destruct (auth_pass w2 !! server).
  - unfold irrv_get_auth_state; simpl. destruct (auth_pass w2 !! server) eqn:Ea; simpl.
    + by rewrite lookup_insert_eq.
    + by rewrite Ea.
  - simpl. rewrite session_snoc; simpl. by destruct (auth_pass w2 !! server).
Qed.

(** ** Who gets frames and who controls *)

(** The events that need an authenticated client, with that client. *)
Definition protected (e : event) : option (Z * Z) :=
  match e with
  | Control sv slot _ | Sent sv slot (VFRAME _ _ _ _) | Sent sv slot (VDATA _) => Some (sv, slot)
  | _ => None
  end.

(** After the trace [tr], every protected event of [l] goes to or comes from a
    client that authenticated on its connection. *)
Definition allowed (tr l : list event) : Prop :=
  forall l1 e l2 sv slot, l = l1 ++ e :: l2 -> protected e = Some (sv, slot) ->
    session sv (tr ++ l1) = Some (slot, true).

Definition guarded (w w' : world) : Prop := exists l, trace w' = trace w ++ l /\ allowed (trace w) l.

Lemma allowed_nil tr : allowed tr [].
Proof. intros l1 e l2 sv slot H. by destruct l1. Qed.

Lemma allowed_app tr la lb : allowed tr la -> allowed (tr ++ la) lb -> allowed tr (la ++ lb).
Proof.
  intros Ha Hb l1 e l2 sv slot E P.
  apply app_eq_app in E as (k & [[-> E]|[-> E]]).
  - destruct k as [|x k]; simplify_eq/=.
    + specialize (Hb [] e l2 sv slot eq_refl P). by rewrite !app_nil_r in Hb.
    + by eapply Ha.
  - rewrite (assoc_L (++)). by eapply Hb.
Qed.

Lemma allowed_one tr e :
  (forall sv slot, protected e = Some (sv, slot) -> session sv tr = Some (slot, true)) -> allowed tr [e].
Proof.
  intros H l1 e' l2 sv slot E P. destruct l1 as [|? [|]]; simplify_eq/=.
  rewrite app_nil_r. by apply H.
Qed.

#[export] Instance guarded_preorder : PreOrder guarded.
Proof.
  split; [intros w; exists []; split; [by rewrite app_nil_r|apply allowed_nil]|].
  intros w1 w2 w3 (la & E1 & Ha) (lb & E2 & Hb). exists (la ++ lb).
  split; [by rewrite E2, E1, (assoc_L (++))|]. rewrite E1 in Hb. by apply allowed_app.
Qed.

Lemma guarded_trace w w' : trace w' = trace w -> guarded w w'.
Proof. intros E. exists []. rewrite app_nil_r. split; [done|apply allowed_nil]. Qed.

Lemma guarded_emit e w :
  (forall sv slot, protected e = Some (sv, slot) -> session sv (trace w) = Some (slot, true)) ->
  guarded w (emit e w).
Proof. intros H. exists [e]. split; [done|by apply allowed_one]. Qed.

Lemma guarded_plain e w : protected e = None -> guarded w (emit e w).
Proof. intros H. apply guarded_emit. by rewrite H. Qed.

Create HintDb guard.
#[export] Hint Extern 1 (guarded _ (emit _ _)) => apply guarded_plain; reflexivity : guard.
#[export] Hint Extern 2 (guarded _ _) => apply guarded_trace; reflexivity : guard.

Ltac guard_tac := unfold_api; repeat effect_step; auto with guard.

Lemma dispatch_guarded fb v : effect guarded (dispatch_vctrl fb v).
Proof. unfold dispatch_vctrl. guard_tac. Qed.

Lemma close_client_guarded server slot : effect guarded (close_client server slot).
Proof. unfold close_client. guard_tac. Qed.

Lemma check_accept_guarded ou server a : effect guarded (check_accept ou server a).
Proof. unfold check_accept, accept_client. guard_tac. by destruct a2; auto with guard. Qed.

Lemma handle_vauth_guarded ou server slot : effect guarded (handle_vauth ou server slot).
Proof. unfold handle_vauth. guard_tac. apply close_client_guarded. Qed.

Lemma handle_disconnect_guarded server slot : effect guarded (handle_disconnect server slot).
Proof. unfold handle_disconnect. guard_tac. apply close_client_guarded. Qed.

Lemma send_message_guarded server t v : effect guarded (irrv_send_message server t v).
Proof. apply effect_send_message; [apply _|]. auto with guard. Qed.

Lemma change_codec_guarded c : effect guarded (irr_stream_change_codec c).
Proof. guard_tac. Qed.

Lemma close_guarded server : effect guarded (irrv_close server).
Proof.
  unfold irrv_close. guard_tac; auto using close_client_guarded.
  - destruct (auth_pass _ !! server); auto with guard.
  - intros w x w'. destruct (servers w !! server); simpl; [|done]. intros [= _ <-]. auto with guard.
Qed.

(** A control runs for the session the trace shows. *)
Lemma handle_vctrl_guarded ou server slot w x w' :
  handle_vctrl ou server slot w = Some (x, w') ->
  session server (trace w) = Some (slot, true) -> guarded w w'.
Proof.
  intros E S. unfold handle_vctrl in E. apply cbind_inv in E as (u & w1 & [= _ <-] & E).
  trans (emit (Control server slot (ctrl_type (ou_ctrl ou))) w).
  - apply guarded_emit. simpl. by intros sv sl [= <- <-].
  - destruct (VCtrlTypeMap_has _); [by eapply dispatch_guarded|done].
Qed.

Lemma session_of_client server slot w :
  irrv_ok server w -> client_of server w = Some slot -> irrv_get_auth_state server w = true ->
  session server (trace w) = Some (slot, true).
Proof. intros O C A. by rewrite (ok_session _ _ O), C, A. Qed.

Lemma poll_client_guarded ou server w x w' :
  poll_client ou server true w = Some (x, w') -> irrv_ok server w -> guarded w w'.
Proof.
  intros E O. unfold poll_client in E. apply cbind_inv in E as (rd & w1 & E1 & E).
  assert (same_at server w w1) as SA1 by (eapply effect_on_server; [|exact E1]; auto with same).
  assert (guarded w w1) as G1 by (eapply effect_on_server; [|exact E1]; auto with guard).
  trans w1; [done|]. clear G1.
  destruct rd; [|injection E as _ <-; reflexivity].
  apply cbind_inv in E as (c & w2 & [= <- <-] & E).
  destruct (client_of server w1) as [slot|] eqn:C; [|injection E as _ <-; reflexivity].
  apply cbind_inv in E as (st & w3 & E3 & E).
  assert (same_at server w1 w3) as SA3 by (eapply effect_on_server; [|exact E3]; auto with same).
  assert (guarded w1 w3) as G3 by (eapply effect_on_server; [|exact E3]; auto with guard).
  trans w3; [done|]. rewrite <- (sa_client _ _ _ SA3) in C.
  assert (irrv_ok server w3) as O3 by eauto using same_at_ok.
  destruct st; [by eapply handle_disconnect_guarded|injection E as _ <-; reflexivity|].
  unfold handle_event in E. rewrite andb_true_r in E. cbn [negb orb] in E.
  destruct (Z.eqb_spec (ou_event ou) IRRV_EVENT_VAUTH) as [->|Ne].
  - apply cbind_inv in E as (u & w4 & E4 & E). injection E as _ <-. by eapply handle_vauth_guarded.
  - apply cbind_inv in E as (u & w4 & [= _ <-] & E). unfold cgets, cbind in E.
    destruct ((ou_event ou =? IRRV_EVENT_VCTRL) && irrv_get_auth_state server w3) eqn:Ea;
      [|injection E as _ <-; reflexivity].
    apply andb_prop in Ea as [_ Ea]. eapply handle_vctrl_guarded; [done|by apply session_of_client].
Qed.

Lemma checknewconn_guarded ou server w x w' :
  irrv_checknewconn ou server w = Some (x, w') -> irr_stream_getAuthFlag w = true ->
  irrv_ok server w -> guarded w w'.
Proof.
  intros E A O. unfold irrv_checknewconn in E. apply cbind_inv in E as (u & w1 & E1 & [= _ <-]).
  destruct (server =? 0); simpl in E1; [injection E1 as _ <-; reflexivity|].
  unfold cgets in E1. apply cbind_inv in E1 as (a & w2 & [= <- <-] & E1). rewrite A in E1.
  apply cbind_inv in E1 as (u2 & w2 & E2 & E1).
  trans w2; [by eapply check_accept_guarded|].
  eapply poll_client_guarded; [done|]. by eapply check_accept_ok.
Qed.

Lemma send_frame_guarded server flags size data w x w' :
  send_frame server flags size data true w = Some (x, w') -> irrv_ok server w -> guarded w w'.
Proof.
  intros E O. unfold send_frame in E. apply cbind_inv in E as (w0 & w1 & [= <- <-] & E).
  cbn [negb orb] in E.
  destruct (irrv_have_client server w && irrv_get_auth_state server w) eqn:Eh;
    [|injection E as _ <-; reflexivity].
  apply andb_prop in Eh as [Eh Ea].
  destruct (client_of server w) as [slot|] eqn:C; cycle 1.
  { unfold irrv_have_client in Eh. unfold client_of in C. by destruct (clients w !! server) as [[|]|]. }
  pose proof (session_of_client _ _ _ O C Ea) as S.
  apply cbind_inv in E as (u & w1 & [= _ <-] & [= _ <-]). rewrite C, client_emit, C.
  etrans; apply guarded_emit; simpl; intros sv sl [= <- <-]; [done|]. by rewrite session_snoc.
Qed.

(** ** What the streamer keeps *)

(** Split a run of a streamer's method into its outcomes. *)
Ltac streamer_cases H :=
  unfold force_key_frame, set_qp, set_bitrate, set_max_bitrate, set_max_frame_size,
    set_rolling_intra_refresh, set_min_max_qp, set_framerate, change_resolution, set_sei, set_gop_size,
    set_screen_capture_flag, set_screen_capture_interval, set_screen_capture_quality,
    set_client_feedback, streamer_setSkipFrameFlag, change_profile_level, incClientNum, decClientNum,
    setEncodeFlag, setTransmitFlag, setFisrtStartEncoding, with_trans, cmodify in H;
  repeat (split_match_in H; simplify_eq/=); simplify_option_eq; repeat (case_match; simplify_eq/=).

(** Whether authentication is required is fixed when the stream starts. *)
Definition auth_same (w w' : world) : Prop := irr_stream_getAuthFlag w' = irr_stream_getAuthFlag w.

#[export] Instance auth_same_preorder : PreOrder auth_same.
Proof. split; [by intros w|]. unfold auth_same. intros w1 w2 w3 H1 H2. congruence. Qed.

Lemma auth_same_streamer w s s' :
  streamer w = Some s -> m_auth s' = m_auth s -> auth_same w (set_streamer (Some s') w).
Proof. intros E H. unfold auth_same, irr_stream_getAuthFlag, ask_streamer; simpl. by rewrite E. Qed.

Ltac auth_tac :=
  unfold_api; repeat effect_step;
  match goal with
  | Es : streamer ?w = Some ?s, H : _ ?s = Some _ |- auth_same ?w _ =>
      apply (auth_same_streamer _ _ _ Es); streamer_cases H; done
  | Es : streamer ?w = Some ?s |- auth_same ?w _ => by apply (auth_same_streamer _ _ _ Es)
  | |- auth_same _ _ => reflexivity
  | _ => idtac
  end.

Lemma dispatch_auth fb v : effect auth_same (dispatch_vctrl fb v).
Proof. unfold dispatch_vctrl. auth_tac. Qed.

Lemma close_client_auth server slot : effect auth_same (close_client server slot).
Proof. unfold close_client. auth_tac. Qed.

Lemma checknewconn_auth ou server : effect auth_same (irrv_checknewconn ou server).
Proof.
  unfold irrv_checknewconn, check_accept, accept_client, poll_client, handle_event, handle_vauth,
    handle_disconnect, handle_vctrl.
  auth_tac; auto using dispatch_auth, close_client_auth. by destruct a2.
Qed.

Lemma send_message_auth server t v : effect auth_same (irrv_send_message server t v).
Proof. apply effect_send_message; [apply _|]. reflexivity. Qed.

Lemma change_codec_auth c : effect auth_same (irr_stream_change_codec c).
Proof. auth_tac. Qed.

Lemma close_auth server : effect auth_same (irrv_close server).
Proof.
  unfold irrv_close. auth_tac; auto using close_client_auth.
  - by destruct (auth_pass _ !! server).
  - intros w x w'. destruct (servers w !! server); simpl; [|done]. intros [= _ <-]. reflexivity.
Qed.

Lemma send_frame_auth server flags size data a : effect auth_same (send_frame server flags size data a).
Proof. unfold send_frame. auth_tac. Qed.

(** ** Runs of the protocol *)

(** The process before any server is opened, with a stream that requires
    authentication or not. *)
Definition world0 (s : option IrrStreamer) : world :=
  {| streamer := s; clients := ∅; auth_pass := ∅; servers := ∅; g_wb_frame_idx := 0;
     writer_calls := []; trace := [] |}.

(** What can happen: calls of the protocol with whatever the outside does, a
    server being opened (as [irr_encoder_start] does), and changes of the
    streamer by other callers of its interface, as long as they leave
    authentication required. *)
Inductive irrv_step : world -> world -> Prop :=
  | is_check ou server w r w' : irrv_checknewconn ou server w = Some (r, w') -> irrv_step w w'
  | is_write ou server data size flags w r w' :
      irrv_writeback ou server data size flags w = Some (r, w') -> irrv_step w w'
  | is_write2 ou server data size type w r w' :
      irrv_writeback2 ou server data size type w = Some (r, w') -> irrv_step w w'
  | is_message server t v w r w' : irrv_send_message server t v w = Some (r, w') -> irrv_step w w'
  | is_codec c w r w' : irr_stream_change_codec c w = Some (r, w') -> irrv_step w w'
  | is_close server w r w' : irrv_close server w = Some (r, w') -> irrv_step w w'
  | is_open server st w : servers w !! server = None ->
      irrv_step w (set_servers (<[server := st]> (servers w)) (set_client server None (set_auth server false w)))
  | is_streamer s w : irr_stream_getAuthFlag (set_streamer s w) = irr_stream_getAuthFlag w ->
      irrv_step w (set_streamer s w).

(** Either side of a step at a given server. *)
Lemma effect_anywhere {A} (m : Z -> cmd world A) server sv :
  (forall sv, sv <> server -> effect (same_at server) (m sv)) -> effect (keeps server) (m server) ->
  effect (keeps server) (m sv).
Proof.
  intros H1 H2. destruct (decide (sv = server)) as [->|N]; [done|]. by apply same_keeps, H1.
Qed.

Lemma checknewconn_keeps server ou sv : effect (keeps server) (irrv_checknewconn ou sv).
Proof.
  apply (effect_anywhere (irrv_checknewconn ou)); [|apply checknewconn_ok].
  intros. by apply checknewconn_ne.
Qed.

Lemma writeback_keeps server ou sv data size flags :
  effect (keeps server) (irrv_writeback ou sv data size flags).
Proof.
  unfold irrv_writeback. repeat effect_step; auto using checknewconn_keeps, same_keeps, send_frame_same.
  intros O. by eapply same_at_ok; [apply same_at_wb_idx|].
Qed.

Lemma writeback2_keeps server ou sv data size type :
  effect (keeps server) (irrv_writeback2 ou sv data size type).
Proof.
  unfold irrv_writeback2. repeat effect_step; auto using checknewconn_keeps, same_keeps, send_frame_same.
Qed.

Lemma close_keeps server sv : effect (keeps server) (irrv_close sv).
Proof. apply (effect_anywhere irrv_close); [|apply close_ok]. intros. by apply close_ne. Qed.

Lemma open_ok server sv st w :
  servers w !! sv = None -> irrv_ok server w ->
  irrv_ok server (set_servers (<[sv := st]> (servers w)) (set_client sv None (set_auth sv false w))).
Proof.
  intros L O. destruct (decide (sv = server)) as [->|N]; cycle 1.
  { eapply same_at_ok; [|exact O]. trans (set_auth sv false w); [auto with same|].
    trans (set_client sv None (set_auth sv false w)); [auto with same|].
    apply (same_at_servers server sv st (set_client sv None (set_auth sv false w))). }
  assert (client_of server w = None) as C.
  { destruct (client_of server w) eqn:C; [|done].
    destruct (ok_live _ _ O) as [? H]; [by rewrite C|]. by rewrite L in H. }
  apply ok_no_client.
  - apply (client_of_set server None (set_auth server false w)).
  - apply (auth_state_set server false w).
  - simpl. by rewrite (ok_session _ _ O), C.
Qed.

Lemma step_keeps server w w' : irrv_step w w' -> irrv_ok server w -> irrv_ok server w'.
Proof.
  intros S. destruct S as [ou sv w r w' E|ou sv data size flags w r w' E|ou sv data size type w r w' E
    |sv t v w r w' E|c w r w' E|sv w r w' E|sv st w L|s w A].
  - by eapply checknewconn_keeps.
  - by eapply writeback_keeps.
  - by eapply writeback2_keeps.
  - eapply same_run, send_message_same; done.
  - eapply same_run, change_codec_same; done.
  - by eapply close_keeps.
  - by apply open_ok.
  - apply same_at_ok, same_at_streamer.
Qed.

(** Both ways of sending a frame. *)
Lemma writeback_guarded ou sv data size flags w r w' :
  irrv_writeback ou sv data size flags w = Some (r, w') -> irr_stream_getAuthFlag w = true ->
  irrv_ok sv w -> guarded w w' /\ auth_same w w'.
Proof.
  intros E A O. unfold irrv_writeback in E. apply cbind_inv in E as (a & w0 & [= <- <-] & E). rewrite A in E.
  apply cbind_inv in E as (u & w1 & [= _ <-] & E).
  set (w1 := set_wb_idx _ w) in *. assert (irrv_ok sv w1) as O1 by (by eapply same_at_ok; [apply same_at_wb_idx|]).
  apply cbind_inv in E as (n & w2 & E2 & E). apply cbind_inv in E as (u3 & w3 & E3 & [= _ <-]).
  pose proof (checknewconn_guarded _ _ _ _ _ E2 A O1) as G2.
  pose proof (checknewconn_auth _ _ _ _ _ E2) as A2.
  pose proof (checknewconn_ok _ _ _ _ _ E2 O1) as O2.
  destruct (sv =? 0); simpl in E3; [injection E3 as _ <-; split; [exact G2|exact A2]|].
  split; [trans w2; [exact G2|by eapply send_frame_guarded]|].
  trans w2; [exact A2|by eapply send_frame_auth].
Qed.

Lemma writeback2_guarded ou sv data size type w r w' :
  irrv_writeback2 ou sv data size type w = Some (r, w') -> irr_stream_getAuthFlag w = true ->
  irrv_ok sv w -> guarded w w' /\ auth_same w w'.
Proof.
  intros E A O. unfold irrv_writeback2 in E. apply cbind_inv in E as (a & w0 & [= <- <-] & E). rewrite A in E.
  apply cbind_inv in E as (n & w2 & E2 & E). apply cbind_inv in E as (u3 & w3 & E3 & [= _ <-]).
  pose proof (checknewconn_guarded _ _ _ _ _ E2 A O) as G2.
  pose proof (checknewconn_auth _ _ _ _ _ E2) as A2.
  pose proof (checknewconn_ok _ _ _ _ _ E2 O) as O2.
  destruct (_ && _) in E3; [|injection E3 as _ <-; by split].
  split; [trans w2; [exact G2|by eapply send_frame_guarded]|].
  trans w2; [exact A2|by eapply send_frame_auth].
Qed.

Lemma step_guarded w w' :
  irrv_step w w' -> irr_stream_getAuthFlag w = true -> (forall server, irrv_ok server w) ->
  guarded w w' /\ auth_same w w'.
Proof.
  intros S A O. destruct S as [ou sv w r w' E|ou sv data size flags w r w' E|ou sv data size type w r w' E
    |sv t v w r w' E|c w r w' E|sv w r w' E|sv st w L|s w A'].
  - split; [by eapply checknewconn_guarded|by eapply checknewconn_auth].
  - by eapply writeback_guarded.
  - by eapply writeback2_guarded.
  - split; [by eapply send_message_guarded|by eapply send_message_auth].
  - split; [by eapply change_codec_guarded|by eapply change_codec_auth].
  - split; [by eapply close_guarded|by eapply close_auth].
  - split; [by apply guarded_trace|reflexivity].
  - split; [by apply guarded_trace|exact A'].
Qed.

Lemma world0_ok server s : irrv_ok server (world0 s).
Proof. by apply ok_no_client. Qed.

Lemma run_guarded w w' :
  rtc irrv_step w w' -> irr_stream_getAuthFlag w = true -> (forall server, irrv_ok server w) -> guarded w w'.
Proof.
  induction 1 as [w|w w1 w' S _ IH]; intros A O; [reflexivity|].
  destruct (step_guarded _ _ S A O) as [G AS]. trans w1; [done|].
  apply IH; [by rewrite AS|]. intros server. by eapply step_keeps.
Qed.

(** ** The encoder's settings *)

(** What a client could want to change: the transcoder and demuxer objects, the
    codec and rate, and the file writer. *)
Definition encoder_view (w : world) :=
  ((fun s => (m_pTrans s, m_pDemux s, m_nCodecId s, m_fFramerate s)) <$> streamer w, writer_calls w).

Definition enc_same (w w' : world) : Prop := encoder_view w' = encoder_view w.

#[export] Instance enc_same_preorder : PreOrder enc_same.
Proof. split; [by intros w|]. unfold enc_same. intros w1 w2 w3 H1 H2. congruence. Qed.

Lemma enc_same_flags w s n e t :
  streamer w = Some s -> enc_same w (set_streamer (Some (upd_flags n e t s)) w).
Proof. intros E. unfold enc_same, encoder_view; simpl. by rewrite E. Qed.

Ltac enc_tac :=
  unfold_api; repeat effect_step;
  match goal with
  | Es : streamer ?w = Some ?s, H : _ ?s = Some _ |- enc_same ?w _ =>
      unfold incClientNum, decClientNum, setEncodeFlag, setTransmitFlag, cmodify in H;
      simplify_option_eq; by apply enc_same_flags
  | |- enc_same _ _ => reflexivity
  | _ => idtac
  end.

Lemma close_client_enc server slot : effect enc_same (close_client server slot).
Proof. unfold close_client. enc_tac. Qed.

Lemma check_accept_enc ou server a : effect enc_same (check_accept ou server a).
Proof. unfold check_accept, accept_client. enc_tac. by destruct a2. Qed.

Lemma handle_vauth_enc ou server slot : effect enc_same (handle_vauth ou server slot).
Proof. unfold handle_vauth. enc_tac. apply close_client_enc. Qed.

Lemma handle_disconnect_enc server slot : effect enc_same (handle_disconnect server slot).
Proof. unfold handle_disconnect. enc_tac. apply close_client_enc. Qed.

(** Accepting a client does not authenticate anybody. *)
Definition pass_same (w w' : world) : Prop := auth_pass w' = auth_pass w.

#[export] Instance pass_same_preorder : PreOrder pass_same.
Proof. split; [by intros w|]. unfold pass_same. intros w1 w2 w3 H1 H2. congruence. Qed.

Lemma check_accept_pass ou server a : effect pass_same (check_accept ou server a).
Proof. unfold check_accept, accept_client. unfold_api. repeat effect_step; try done. by destruct a2. Qed.

Lemma handle_event_enc ou server slot w x w' :
  handle_event ou server slot true w = Some (x, w') ->
  irrv_get_auth_state server w = false -> enc_same w w'.
Proof.
  intros E A. unfold handle_event in E. rewrite andb_true_r in E. cbn [negb orb] in E.
  destruct (Z.eqb_spec (ou_event ou) IRRV_EVENT_VAUTH) as [->|Ne].
  - apply cbind_inv in E as (u & w1 & E1 & E). injection E as _ <-. by eapply handle_vauth_enc.
  - apply cbind_inv in E as (u & w1 & [= _ <-] & E). unfold cgets, cbind in E.
    rewrite A, andb_false_r in E. injection E as _ <-. reflexivity.
Qed.

Lemma poll_client_enc ou server w x w' :
  poll_client ou server true w = Some (x, w') ->
  irrv_get_auth_state server w = false -> enc_same w w'.
Proof.
  intros E A. unfold poll_client in E. apply cbind_inv in E as (rd & w1 & E1 & E).
  apply on_server_inv in E1 as (s & s' & _ & _ & ->).
  destruct rd; [|injection E as _ <-; reflexivity].
  apply cbind_inv in E as (c & w2 & [= <- <-] & E).
  destruct (client_of server _) as [slot|] in E; [|injection E as _ <-; reflexivity].
  apply cbind_inv in E as (st & w3 & E3 & E).
  apply on_server_inv in E3 as (s3 & s3' & _ & _ & ->).
  destruct st; [|injection E as _ <-; reflexivity|].
  - apply handle_disconnect_enc in E. exact E.
  - apply handle_event_enc in E; [exact E|done].
Qed.

(** The settings in force are within the encoder's limits, and the streamer and
    the transcoder agree on the codec. *)
Definition settings_inv (w : world) : Prop :=
  match streamer w with
  | Some s => match m_pTrans s with
              | Some t => settings_ok t /\ mem t m_nCodec = m_nCodecId s
              | None => True end
  | None => True
  end.

Definition keeps_settings (w w' : world) : Prop := settings_inv w -> settings_inv w'.

#[export] Instance keeps_settings_preorder : PreOrder keeps_settings.
Proof. split; [by intros w H|]. intros w1 w2 w3 H1 H2 H. by apply H2, H1. Qed.

Lemma keeps_settings_upd w s s' :
  streamer w = Some s ->
  (forall t, m_pTrans s = Some t -> settings_ok t -> mem t m_nCodec = m_nCodecId s ->
     exists t', m_pTrans s' = Some t' /\ settings_ok t' /\ mem t' m_nCodec = m_nCodecId s') ->
  (m_pTrans s = None -> m_pTrans s' = None) ->
  keeps_settings w (set_streamer (Some s') w).
Proof.
  intros Es H1 H2 I. unfold settings_inv in *; simpl in *. rewrite Es in I.
  destruct (m_pTrans s) as [t|]; [|by rewrite H2].
  destruct I as [I1 I2]. destruct (H1 t eq_refl I1 I2) as (t' & -> & ? & ?). done.
Qed.

(** The methods that call the transcoder. *)
Lemma with_trans_settings {A} (none : A) op w s r s' :
  streamer w = Some s -> with_trans none op s = Some (r, s') ->
  (forall t q, op t = Some q -> settings_ok t -> settings_ok q.2 /\ mem q.2 m_nCodec = mem t m_nCodec) ->
  keeps_settings w (set_streamer (Some s') w).
Proof.
  intros Es E H. apply (keeps_settings_upd _ _ _ Es); unfold with_trans in E.
  - intros t Et O C. rewrite Et in E. destruct (op t) as [[a t']|] eqn:Eo; simpl in E; [|done].
    injection E as <- <-. simpl. exists t'. destruct (H _ _ Eo O) as [? Hc]; simpl in Hc. rewrite Hc. done.
  - intros Et. rewrite Et in E. by injection E as <- <-.
Qed.

(** The setters keep the settings. *)
Lemma setter_settings t t' :
  (settings_ok t -> settings_ok t') -> mem t' m_nCodec = mem t m_nCodec ->
  settings_ok t -> settings_ok t' /\ mem t' m_nCodec = mem t m_nCodec.
Proof. auto. Qed.

Ltac setter_tac :=
  intros ?? [= <-]; cbn [snd]; apply setter_settings;
  [ first [ exact (changeResolution_ok _ _ _) | exact (setGopSize_ok _ _) | exact (setScreenCaptureQuality_ok _ _)
          | unfold forceKeyFrame, setQP, setBitrate, setMaxBitrate, setMaxFrameSize, setRollingIntraRefresh,
              setMinMaxQP, setSEI, setScreenCaptureFlag, setScreenCaptureInterval, setSkipFrameFlag;
            try case_match; cbn [snd]; auto 10 with cstream ]
  | unfold setGopSize, setScreenCaptureQuality; repeat case_match; reflexivity ].

Ltac settings_op Es H :=
  unfold force_key_frame, set_qp, set_bitrate, set_max_bitrate, set_max_frame_size,
    set_rolling_intra_refresh, set_min_max_qp, set_sei, set_gop_size,
    set_screen_capture_flag, set_screen_capture_interval, set_screen_capture_quality,
    streamer_setSkipFrameFlag, change_profile_level in H;
  lazymatch type of H with
  | with_trans _ (changeEncoderProfileLevel _ _) _ = _ =>
      apply (with_trans_settings _ _ _ _ _ _ Es H); intros ? [??]; apply changeEncoderProfileLevel_ok
  | with_trans _ _ _ = _ => apply (with_trans_settings _ _ _ _ _ _ Es H); setter_tac
  | _ => apply (keeps_settings_upd _ _ _ Es); streamer_cases H; naive_solver
  end.

Lemma changeResolution_codec w h t : mem (changeResolution w h t).2 m_nCodec = mem t m_nCodec.
Proof. unfold changeResolution. by case_match. Qed.

Lemma set_framerate_settings w s f r s' :
  streamer w = Some s -> set_framerate f s = Some (r, s') -> keeps_settings w (set_streamer (Some s') w).
Proof.
  intros Es H. unfold set_framerate in H. apply (keeps_settings_upd _ _ _ Es).
  - intros t Et O C. rewrite Et in H. simplify_option_eq. eexists. split; [done|]. split; [|done].
    unfold setFramerate. auto 10 with cstream.
  - intros Et. rewrite Et in H. by simplify_eq.
Qed.

Lemma change_resolution_settings w s x y r s' :
  streamer w = Some s -> change_resolution x y s = Some (r, s') -> keeps_settings w (set_streamer (Some s') w).
Proof.
  intros Es H. unfold change_resolution in H. apply (keeps_settings_upd _ _ _ Es).
  - intros t Et O C. rewrite Et in H. repeat case_match; simplify_eq; try (eexists; by eauto).
    simpl. eexists. split; [done|]. split; [by apply changeResolution_ok|by rewrite changeResolution_codec].
  - intros Et. rewrite Et in H. by simplify_eq.
Qed.

(** A codec change: rejected, or both sides switch. *)
Lemma changeCodec_rejected c t :
  settings_ok t -> (changeCodec c t).1 <> 0 -> (changeCodec c t).2 = t.
Proof. intros O H. unfold changeCodec in *. by repeat case_match. Qed.

Lemma changeCodec_codec c t : (changeCodec c t).1 = 0 -> mem (changeCodec c t).2 m_nCodec = c.
Proof.
  intros H%changeCodec_ret. rewrite changeCodec_mem. rewrite (decide_True (P := m_nCodec = m_nCodec)) by done.
  destruct (Z.eqb_spec (mem t m_nCodec) c) as [E|E]; simpl; [by rewrite andb_false_r|].
  by destruct H as [-> | ->].
Qed.

Lemma change_codec_settings c : effect keeps_settings (irr_stream_change_codec c).
Proof.
  apply effect_change_codec; [apply _| | |intros w sv slot t v _ I; exact I|intros w I; exact I].
  - intros w s t Es Et Nr I. unfold settings_inv in *; simpl. rewrite Es, Et in I.
    destruct I as [O C]. by rewrite changeCodec_rejected.
  - intros w s t Es Et Er I. unfold settings_inv in *; simpl. rewrite Es, Et in I.
    destruct I as [O C]. split; [by apply changeCodec_ok|by apply changeCodec_codec].
Qed.

Lemma dispatch_settings fb v : effect keeps_settings (dispatch_vctrl fb v).
Proof.
  unfold dispatch_vctrl. unfold_api.
  repeat first [apply change_codec_settings | effect_step];
    lazymatch goal with
    | |- keeps_settings ?w (call_writer _ ?w) => intros I; exact I
    | Es : streamer _ = Some _, H : set_framerate _ _ = _ |- _ => by apply (set_framerate_settings _ _ _ _ _ Es H)
    | Es : streamer _ = Some _, H : change_resolution _ _ _ = _ |- _ =>
        by apply (change_resolution_settings _ _ _ _ _ _ Es H)
    | Es : streamer ?w = Some ?s, H : _ ?s = Some _ |- keeps_settings ?w _ => settings_op Es H
    end.
Qed.

Lemma close_client_settings server slot : effect keeps_settings (close_client server slot).
Proof. unfold close_client. repeat effect_step; intros I; exact I. Qed.

(** Calls that change the client count and the flags only. *)
Lemma flags_settings w s n e t : streamer w = Some s -> keeps_settings w (set_streamer (Some (upd_flags n e t s)) w).
Proof. intros Es I. unfold settings_inv in *; simpl. by rewrite Es in I. Qed.

Lemma checknewconn_settings ou server : effect keeps_settings (irrv_checknewconn ou server).
Proof.
  unfold irrv_checknewconn, check_accept, accept_client, poll_client, handle_event, handle_vauth,
    handle_disconnect, handle_vctrl. unfold_api.
  repeat effect_step; auto using dispatch_settings, close_client_settings;
    match goal with
    | Es : streamer ?w = Some ?s, H : _ ?s = Some _ |- keeps_settings ?w _ =>
        unfold incClientNum, decClientNum, setEncodeFlag, setTransmitFlag, cmodify in H;
        simplify_option_eq; by apply flags_settings
    | |- keeps_settings _ _ => intros I; repeat case_match; exact I
    end.
Qed.

(** ** Controls that a client can crash the server with *)

(** A stream that serves the protocol, with its encoder running. *)
Record running (w : world) (s : IrrStreamer) (t : CTransCoder) : Prop := {
  ru_streamer : streamer w = Some s;
  ru_trans : m_pTrans s = Some t;
  ru_demux : is_Some (m_pDemux s);
  ru_mux : is_Some (m_pMux s);
  ru_codec : is_Some (m_mEncoders t !! 0)
}.

Ltac run_api :=
  unfold_api; unfold void, cbind, cret, on_streamer, on_writer, streamer_setSkipFrameFlag, force_key_frame, set_qp,
    set_bitrate, set_max_bitrate, set_max_frame_size, set_rolling_intra_refresh, set_min_max_qp,
    set_sei, set_gop_size, set_screen_capture_flag, set_screen_capture_interval,
    set_screen_capture_quality, set_client_feedback, with_trans, setEncodeFlag, setTransmitFlag,
    setFisrtStartEncoding, change_resolution, cmodify.

Lemma profile_level_defined p l t : is_Some (m_mEncoders t !! 0) -> is_Some (changeEncoderProfileLevel p l t).
Proof. intros [c E]. unfold changeEncoderProfileLevel. rewrite E; simpl. case_match; by eexists. Qed.

Lemma void_defined {A} (m : cmd world A) w : is_Some (void m w) <-> is_Some (m w).
Proof. unfold void, cbind, cret. destruct (m w) as [[a w']|]; split; intros [? [=]]; by eexists. Qed.

Lemma on_writer_defined calls w : is_Some (on_writer calls w).
Proof. unfold on_writer. repeat case_match; by eexists. Qed.

Lemma change_codec_defined c w s t : running w s t -> is_Some (irr_stream_change_codec c w).
Proof.
  intros [Es Et _ [mux Em] _]. unfold irr_stream_change_codec, change_codec. rewrite Es, Et.
  case_match; [by eexists|]. destruct (changeCodec c t) as [r t']. case_match; [|by eexists].
  rewrite Em; simpl. unfold mux_sendMessage, irrv_send_message, send_to, cbind, cmodify, cret.
  repeat case_match; by eexists.
Qed.

Lemma dispatch_defined fb v w s t :
  running w s t -> ctrl_type v <> IRRV_CTRL_FRAMERATE_SETTING -> is_Some (dispatch_vctrl fb v w).
Proof.
  intros R N. pose proof R as [Es Et [d Ed] _ Ec]. unfold dispatch_vctrl.
  repeat match goal with
  | |- is_Some ((if ?x =? ?k then _ else _) _) => destruct (Z.eqb_spec x k) as [Hk|_]; [try (by destruct (N Hk))|]
  end; try done.
  all: try (clear Hk; run_api; simpl; rewrite Es; simpl; rewrite ?Et, ?Ed; simpl; by eauto).
  all: try (unfold_api; apply on_writer_defined).
  - run_api. repeat case_match; simplify_option_eq; by eauto.
  - run_api. rewrite Es, Et. repeat case_match; simplify_option_eq; by eauto.
  - apply void_defined. by eapply change_codec_defined.
  - run_api. rewrite Es, Et. simpl. destruct (setGopSize _ _). by eexists.
  - apply void_defined. run_api. unfold irr_stream_change_profile_level, change_profile_level, on_streamer, with_trans.
    rewrite Es, Et. simpl.
    destruct (profile_level_defined (i32 (vc_reserved 0 v)) (i32 (vc_reserved 1 v)) t Ec) as [[r t'] Ep].
    rewrite Ep. by eexists.
  - run_api. rewrite Es. destruct (m_tcaeEnabled s); simpl; rewrite ?Et; by eexists.
Qed.

(** The frame rate is converted to [int] on the way. *)
Lemma set_framerate_defined f w s t :
  running w s t -> (is_Some (irr_stream_set_framerate f w) <-> INT_MIN <= f <= INT_MAX).
Proof.
  intros [Es Et [d Ed] _ _]. unfold irr_stream_set_framerate, on_streamer, set_framerate.
  rewrite Es, Et, Ed; simpl. split.
  - intros [x E]. destruct (int_chk f) as [n|] eqn:Ei; [|done]. by apply int_chk_inv in Ei as [_ ?].
  - intros H. rewrite int_chk_Some by done. by eexists.
Qed.

Lemma float_of_u32_nonneg z : 0 <= z -> 0 <= float_of_u32 z.
Proof.
  intros H. unfold float_of_u32. case_match; [done|].
  assert (0 <= z / 2 ^ (Z.log2 z - 23)) by (apply Z.div_pos; [done|apply Z.pow_pos_nonneg; [lia|]];
    bool_to_prop; assert (24 <= Z.log2 z) by (apply Z.log2_le_pow2; lia); lia).
  case_match; apply Z.mul_nonneg_nonneg; lia || apply Z.pow_nonneg; lia.
Qed.

(** ** Properties *)

(** C1. When the stream requires authentication, every frame sent and
    every control executed belongs to a client that presented the right
    credentials on that very connection, whatever sequence of connections,
    requests, controls, disconnections, shutdowns and re-openings of servers,
    and changes of the streamer happens. *)
Theorem irrv_only_authenticated s w pre e post sv slot :
  irr_stream_getAuthFlag (world0 s) = true -> rtc irrv_step (world0 s) w ->
  trace w = pre ++ e :: post -> protected e = Some (sv, slot) ->
  session sv pre = Some (slot, true).
Proof.
  intros A R E P. destruct (run_guarded _ _ R A) as (l & El & Al); [intros; apply world0_ok|].
  simpl in El, Al. rewrite E in El. apply (Al pre e post); [by rewrite <- El|done].
Qed.

(** While authentication is required and the server's client has
    not authenticated, a call of [irrv_checknewconn] leaves the transcoder, the
    demuxer, the codec, the frame rate and the file writer as they are, whatever
    the client sends. *)
Theorem unauthenticated_cannot_configure ou server w r w' :
  irr_stream_getAuthFlag w = true -> irrv_get_auth_state server w = false ->
  irrv_checknewconn ou server w = Some (r, w') -> encoder_view w' = encoder_view w.
Proof.
  intros A N E. unfold irrv_checknewconn in E. apply cbind_inv in E as (u & w1 & E1 & [= _ <-]).
  destruct (server =? 0); simpl in E1; [by injection E1 as _ <-|].
  unfold cgets in E1. apply cbind_inv in E1 as (a & w2 & [= <- <-] & E1). rewrite A in E1.
  apply cbind_inv in E1 as (u2 & w2 & E2 & E1).
  rewrite (poll_client_enc _ _ _ _ _ E1); [by apply (check_accept_enc _ _ _ _ _ _ E2)|].
  unfold irrv_get_auth_state in *. by rewrite (check_accept_pass _ _ _ _ _ _ E2).
Qed.

(** C37. Whatever a client sends, a call of [irrv_checknewconn] keeps the
    encoder's settings within their limits (a requested size of 32 to 4096 in
    each direction, capture quality 1 to 100, no negative GOP size) and the
    streamer and the transcoder in agreement on the codec. *)
Theorem client_settings_safe ou server w r w' :
  settings_inv w -> irrv_checknewconn ou server w = Some (r, w') -> settings_inv w'.
Proof. intros I E. by apply (checknewconn_settings ou server _ _ _ E). Qed.

(** On a running stream, executing a client's control is defined
    exactly when its type has a name in [VCtrlTypeMap] (an unknown type makes
    [std::map::at] throw before the [switch] whose [default] would report it)
    and, for a frame rate, when the rate fits an [int]. *)
Theorem vctrl_defined_iff ou server slot w s t :
  running w s t -> 0 <= vc_value (ou_ctrl ou) ->
  is_Some (handle_vctrl ou server slot w) <->
  VCtrlTypeMap_has (ctrl_type (ou_ctrl ou)) = true /\
  (ctrl_type (ou_ctrl ou) = IRRV_CTRL_FRAMERATE_SETTING ->
   float_of_u32 (vc_value (ou_ctrl ou)) <= INT_MAX).
Proof.
  intros R V. unfold handle_vctrl. rewrite (cbind_Some _ _ _ tt (emit (Control server slot (ctrl_type (ou_ctrl ou))) w)) by done.
  assert (running (emit (Control server slot (ctrl_type (ou_ctrl ou))) w) s t) as R'.
  { destruct R as [? ? ? ? ?]. by split. }
  destruct (VCtrlTypeMap_has _); [|by split; [intros [? [=]]|intros [[=] _]]].
  destruct (Z.eq_dec (ctrl_type (ou_ctrl ou)) IRRV_CTRL_FRAMERATE_SETTING) as [Et|Ne].
  - unfold dispatch_vctrl. rewrite Et.
    change (is_Some (void (irr_stream_set_framerate (float_of_u32 (vc_value (ou_ctrl ou))))
      (emit (Control server slot IRRV_CTRL_FRAMERATE_SETTING) w)) <->
      true = true /\ (IRRV_CTRL_FRAMERATE_SETTING = IRRV_CTRL_FRAMERATE_SETTING ->
        float_of_u32 (vc_value (ou_ctrl ou)) <= INT_MAX)).
    rewrite Et in R'. rewrite void_defined, (set_framerate_defined _ _ _ _ R').
    pose proof (float_of_u32_nonneg _ V). unfold INT_MIN, INT_MAX. intuition lia.
  - split; [done|]. intros _. by eapply dispatch_defined.
Qed.

(** ** A concrete server *)

(** A listening server without clients, and a world that serves it. *)
Definition ex_server : state :=
  {| srv := {| sk_type := SOCK_CONN_TYPE_INET_SOCK; socketfd := 3; sk_path := [];
               client_slots := repeat (-1) (Z.to_nat SOCK_MAX_CLIENTS); rfds := ∅ |};
     open_fds := {[3]} |}.

Definition ex_streamer (auth : bool) (t : option CTransCoder) : IrrStreamer :=
  {| m_pDemux := (fun _ => {| dx_framerate := 30; dx_first_start := false; dx_renderfps := false;
                              dx_vasurface := false; dx_qsvsurface := false |}) <$> t;
     m_pTrans := t; m_pMux := (fun _ => (1, 0)) <$> t; m_pRuntimeWriter := true;
     m_nWidth := 720; m_nHeight := 1280; m_nCodecId := AV_CODEC_ID_H264; m_fFramerate := 30;
     m_bVASurface := false; m_bQSVSurface := false; m_nClientNum := 0;
     m_bAllowEncode := false; m_bAllowTransmit := false; m_auth := auth; m_tcaeEnabled := false |}.

Definition ex_ctrl (type value : Z) : irrv_vctrl_t :=
  {| ctrl_type := type; v0 := value; v1 := 0; v2 := 0; v3 := 0; v4 := 0; v5 := 0; v6 := 0 |}.

(** The outside: [fd] connects, or the client on [fd] has [nread] bytes of an
    event of [type]. *)
Definition ex_outside (select_ fd : Z) (nsel nread type : Z) (key : bytes) (v : irrv_vctrl_t) : outside :=
  {| ou_select := select_; ou_isset := true; ou_reject := -1; ou_accept := fd; ou_ioctl := 0;
     ou_malloc := true; ou_nsel := nsel; ou_ready := {[fd]}; ou_nread := nread; ou_event := type;
     ou_id := auth_id; ou_key := key; ou_ctrl := v; ou_feedback := fun _ _ => 0 |}.

Definition ex_connect (fd : Z) : outside := ex_outside 1 fd 0 0 0 [] (ex_ctrl 0 0).
Definition ex_event (fd type : Z) (key : bytes) (v : irrv_vctrl_t) : outside := ex_outside 0 fd 1 16 type key v.
Definition ex_gone (fd : Z) : outside := ex_outside 0 fd 1 0 0 [] (ex_ctrl 0 0).

(** A world after the server was opened, and runs of [irrv_checknewconn] on it. *)
Definition ex_world (s : IrrStreamer) : world :=
  set_servers (<[1 := ex_server]> ∅) (set_client 1 None (set_auth 1 false (world0 (Some s)))).

Fixpoint ex_checks (ous : list outside) : cmd world unit :=
  match ous with
  | [] => cret tt
  | ou :: ous => irrv_checknewconn ou 1;;; ex_checks ous
  end.

Definition ex_run (s : IrrStreamer) (ous : list outside) : world :=
  match ex_checks ous (ex_world s) with Some (_, w) => w | None => world0 None end.

Lemma ex_checks_steps ous : forall w u w', ex_checks ous w = Some (u, w') -> rtc irrv_step w w'.
Proof.
  induction ous as [|ou ous IH]; intros w u w' E; [by injection E as _ <-; apply rtc_refl|].
  apply cbind_inv in E as (r & w1 & E1 & E). eapply rtc_l; [by eapply is_check|by eapply IH].
Qed.

Lemma ex_run_steps s ous :
  match ex_checks ous (ex_world s) with Some _ => true | None => false end = true -> rtc irrv_step (world0 (Some s)) (ex_run s ous).
Proof.
  unfold ex_run. intros H. destruct (ex_checks ous (ex_world s)) as [[u w]|] eqn:E; [|done].
  eapply rtc_l; [by apply (is_open 1 ex_server)|]. by eapply ex_checks_steps.
Qed.

(** A client connects on descriptor 7, authenticates and
    sends a control. *)
Lemma irrv_only_authenticated_witness :
  let w := ex_run (ex_streamer true None)
             [ex_connect 7; ex_event 7 IRRV_EVENT_VAUTH auth_key (ex_ctrl 0 0);
              ex_event 7 IRRV_EVENT_VCTRL [] (ex_ctrl IRRV_CTRL_START 0)] in
  trace w !! 4%nat = Some (Control 1 0 IRRV_CTRL_START) /\
  session 1 (take 4 (trace w)) = Some (0, true).
Proof.
  intros w. assert (trace w !! 4%nat = Some (Control 1 0 IRRV_CTRL_START)) as E by (vm_compute; reflexivity).
  split; [exact E|].
  apply (irrv_only_authenticated (Some (ex_streamer true None)) w (take 4 (trace w))
           (Control 1 0 IRRV_CTRL_START) (drop 5 (trace w)) 1 0).
  - reflexivity.
  - apply ex_run_steps. vm_compute. reflexivity.
  - symmetry. apply take_drop_middle. exact E.
  - reflexivity.
Defined.

(** A client that is connected and has not authenticated asks for a codec change. *)
Lemma unauthenticated_cannot_configure_witness :
  let w := ex_run (ex_streamer true (Some (CTransCoder_init AV_CODEC_ID_H264))) [ex_connect 7] in
  exists r w', irrv_checknewconn (ex_event 7 IRRV_EVENT_VCTRL []
                 (ex_ctrl IRRV_CTRL_CHANGE_CODEC_TYPE AV_CODEC_ID_HEVC)) 1 w = Some (r, w') /\
    r = 1 /\ encoder_view w' = encoder_view w.
Proof.
  intros w. eexists _, _. assert (irrv_checknewconn (ex_event 7 IRRV_EVENT_VCTRL []
    (ex_ctrl IRRV_CTRL_CHANGE_CODEC_TYPE AV_CODEC_ID_HEVC)) 1 w = Some (1, w)) as E.
  { vm_compute. reflexivity. }
  split; [exact E|]. split; [reflexivity|].
  refine (unauthenticated_cannot_configure _ _ w _ w _ _ E); vm_compute; reflexivity.
Defined.

(** Without authentication, a client asks for 640x360 and gets it. *)
Lemma client_settings_safe_witness :
  let w := ex_run (ex_streamer false (Some (CTransCoder_init AV_CODEC_ID_H264))) [ex_connect 7] in
  let ou := ex_event 7 IRRV_EVENT_VCTRL []
              {| ctrl_type := IRRV_CTRL_RESOLUTION; v0 := 0; v1 := 640; v2 := 360; v3 := 0; v4 := 0; v5 := 0; v6 := 0 |} in
  irr_stream_get_encode_new_width
    (match irrv_checknewconn ou 1 w with Some (_, w') => w' | None => w end) = 640 /\
  settings_inv (match irrv_checknewconn ou 1 w with Some (_, w') => w' | None => w end).
Proof.
  intros w ou. split; [vm_compute; reflexivity|].
  destruct (irrv_checknewconn ou 1 w) as [[r w']|] eqn:E.
  - apply (client_settings_safe ou 1 w r w'); [|exact E].
    split; [apply settings_ok_init|reflexivity].
  - split; [apply settings_ok_init|reflexivity].
Defined.

(** Type 30 is one past [IRRV_CTRL_END]. *)
Lemma vctrl_defined_iff_witness :
  let t := {| mem := mem (CTransCoder_init AV_CODEC_ID_H264); m_pOutProp := [];
              m_mEncoders := <[0 := AV_CODEC_ID_H264]> ∅ |} in
  let w := ex_world (ex_streamer false (Some t)) in
  ~ is_Some (handle_vctrl (ex_event 7 IRRV_EVENT_VCTRL [] (ex_ctrl 30 0)) 1 0 w) /\
  is_Some (handle_vctrl (ex_event 7 IRRV_EVENT_VCTRL [] (ex_ctrl IRRV_CTRL_FRAMERATE_SETTING 60)) 1 0 w).
Proof.
  intros t w. assert (running w (ex_streamer false (Some t)) t) as R by (split; by eauto).
  split.
  - intros H. apply (vctrl_defined_iff _ _ _ _ _ _ R) in H; [|vm_compute; discriminate].
    destruct H as [H _]. discriminate H.
  - apply (vctrl_defined_iff _ _ _ _ _ _ R); [vm_compute; discriminate|].
    split; [reflexivity|]. intros _. vm_compute. discriminate.
Defined.

(** A client that fails to authenticate is closed without being
    taken off the client count: after one such attempt, a good client that
    starts encoding and leaves does not bring the count to zero, so encoding and
    transmission stay enabled with nobody connected. *)
Theorem failed_auth_leaks_client :
  exists w, rtc irrv_step (world0 (Some (ex_streamer true None))) w /\
    client_of 1 w = None /\ irr_stream_getClientNum w = 1 /\
    irr_stream_getEncodeFlag w = true /\ irr_stream_getTransmitFlag w = true.
Proof.
  exists (ex_run (ex_streamer true None)
    [ex_connect 7; ex_event 7 IRRV_EVENT_VAUTH [] (ex_ctrl 0 0);
     ex_connect 7; ex_event 7 IRRV_EVENT_VAUTH auth_key (ex_ctrl 0 0);
     ex_event 7 IRRV_EVENT_VCTRL [] (ex_ctrl IRRV_CTRL_START 0); ex_gone 7]).
  split; [apply ex_run_steps; vm_compute; reflexivity|].
  repeat split; vm_compute; reflexivity.
Qed.
