(* ===== verification/StreamStart.v ===== *)
(** * StreamStart: starting the encoder and its stream

    Models [irr_encoder_start] and [irr_encoder_stop] of
    [src/sources/encoder/shared/encoder.cpp], [irr_stream_start] of
    [stream.cpp], and [IrrStreamer::start], [set_output_prop],
    [generate_packet], [InitBlankFramePacket] of [IrrStreamer.cpp], with
    [CTransCoder::start] and [enableTcae].  The state puts together the world of
    the protocol ([IrrWorld]), the hardware resources ([Surface]) and the static
    servers of [irr_encoder_start].  FFmpeg's dictionary is an interface with its
    documented laws ([AvDict]). *)

From Stdlib Require Import ZArith Lia String.
From Stdlib Require Import Floats.SpecFloat.
From stdpp Require Import base gmap sets list.
From S2P Require Import Prelude StdMap GaConf CNum SockUtil SockServer TransCoder IrrWorld IrrStreamer.
From S2P Require Import EncoderOpts Surface IrrvProtocol.

(** ** FFmpeg's dictionary *)

(** A dictionary is the sequence of [av_dict_set] calls without flags; a null
    value removes the entry, and keys are compared without case. *)
Class AvDict := {
  av_dict_get : list (bytes * option bytes) -> bytes -> option bytes;
  av_dict_empty : forall k, av_dict_get [] k = None;
  av_dict_same : forall l k k' v, strcaseeq k k' = true -> av_dict_get (l ++ [(k', v)]) k = v;
  av_dict_other : forall l k k' v, strcaseeq k k' = false ->
    av_dict_get (l ++ [(k', v)]) k = av_dict_get l k
}.

(** The last call for the key decides. *)
Definition last_set (l : list (bytes * option bytes)) (k : bytes) : option bytes :=
  fold_left (fun acc kv => if strcaseeq k kv.1 then kv.2 else acc) l None.

#[export] Program Instance last_set_dict : AvDict := {| av_dict_get := last_set |}.
Next Obligation. reflexivity. Qed.
Next Obligation. intros l k k' v E. unfold last_set. rewrite fold_left_app. cbn. by rewrite E. Qed.
Next Obligation. intros l k k' v E. unfold last_set. rewrite fold_left_app. cbn. by rewrite E. Qed.

(** ** Stream information *)

Record IrrStreamInfo := {
  s_pix_format : Z; s_gop_size : Z; s_codec : cstr; s_url : cstr; s_low_power : Z;
  s_width : Z; s_height : Z; s_framerate : cstr; s_exp_vid_param : cstr; s_bVASurface : bool;
  s_rc : rate_control_info_t; s_quality : Z; s_max_frame_size : Z; s_ref : irr_ref_info_t;
  s_roi : irr_roi_info_t; s_slices : Z; s_sei : Z; s_auth : bool; s_renderfps_enc : Z;
  s_minfps_enc : Z; s_profile : cstr; s_level : cstr; s_filter_nbthreads : Z; s_low_delay_brc : bool;
  s_skip_frame : bool; s_plugin : cstr; s_bQSVSurface : bool; s_tcaeEnabled : bool;
  s_opaque : Z; s_opaque2 : Z
}.

Definition ENOMEM : Z := 12.

(** *** Options for the encoder *)

(** [setOutputProp] of a string that is not null. *)
Definition prop_str (k : bytes) (v : cstr) : list (bytes * bytes) :=
  match v with Some v => [(k, v)] | None => [] end.

(** [setOutputProp] of a number that is not 0. *)
Definition prop_int (k : bytes) (v : Z) : list (bytes * bytes) :=
  if v =? 0 then [] else [(k, print_int v)].

Definition prop_if (c : bool) (k : bytes) (v : bytes) : list (bytes * bytes) :=
  if c then [(k, v)] else [].

(** The encoder named when the caller names none. *)
Definition codec_prop (u : bytes) (qsv : bool) : list (bytes * bytes) :=
  if has_prefix (b "irrv:264") u then [(b "c", if qsv then b "h264_qsv" else b "h264_vaapi")]
  else if has_prefix (b "irrv:265") u then [(b "c", if qsv then b "hevc_qsv" else b "hevc_vaapi")]
  else if has_prefix (b "irrv:av1") u then [(b "c", if qsv then b "av1_qsv" else b "av1_vaapi")]
  else [].

Definition getStringResolution (w h : Z) : bytes := print_int w ++ b "x" ++ print_int h.

(** The calls of [set_output_prop], in order; url and plug-in are not null. *)
Definition output_props (i : IrrStreamInfo) (u pl : bytes) : list (bytes * bytes) :=
  let qsv := has_prefix (b "qsv") pl in
  prop_str (b "b") (bitrate (s_rc i))
  ++ (match s_codec i with Some c => [(b "c", c)] | None => codec_prop u qsv end)
  ++ prop_str (b "r") (s_framerate i)
  ++ prop_if (negb (s_low_power i =? 0)) (b "low_power") (b "1")
  ++ prop_if (negb (s_width i =? 0) && negb (s_height i =? 0)) (b "s") (getStringResolution (s_width i) (s_height i))
  ++ prop_int (b "g") (s_gop_size i)
  ++ prop_str (b "quality_factor") (qfactor (s_rc i))
  ++ prop_str (b "qp") (qp (s_rc i))
  ++ prop_str (b "maxrate") (maxrate (s_rc i))
  ++ prop_int (b "max_frame_size") (s_max_frame_size i)
  ++ prop_int (b "slices") (s_slices i)
  ++ prop_str (b "int_ref_type") (int_ref_type (s_ref i))
  ++ prop_int (b "int_ref_cycle_size") (int_ref_cycle_size (s_ref i))
  ++ prop_int (b "int_ref_qp_delta") (int_ref_qp_delta (s_ref i))
  ++ prop_int (b "qmaxI") (qmaxI (s_rc i))
  ++ prop_int (b "qminI") (qminI (s_rc i))
  ++ prop_int (b "qmaxP") (qmaxP (s_rc i))
  ++ prop_int (b "qminP") (qminP (s_rc i))
  ++ prop_int (b "compression_level") (s_quality i)
  ++ prop_str (b "bufsize") (bufsize (s_rc i))
  ++ prop_if qsv (b "udu_sei") (b "1")
  ++ prop_int (b "sei") (s_sei i)
  ++ prop_if (qsv && Z.testbit (s_sei i) 0) (b "hrd_compliance") (b "1")
  ++ prop_if (qsv && Z.testbit (s_sei i) 2) (b "recovery_point_sei") (b "1")
  ++ prop_if (qsv && Z.testbit (s_sei i) 3) (b "pic_timing_sei") (b "1")
  ++ prop_int (b "g") (s_gop_size i)
  ++ prop_str (b "profile") (s_profile i)
  ++ prop_str (b "level") (s_level i)
  ++ prop_int (b "filter_threads") (s_filter_nbthreads i)
  ++ prop_if (s_low_delay_brc i) (b "low_delay_brc") (b "1")
  ++ prop_if qsv (b "forced_idr") (b "1")
  ++ prop_if qsv (b "async_depth") (b "1")
  ++ prop_if (qsv && s_skip_frame i) (b "skip_frame") (b "3").

Definition set_props (l : list (bytes * bytes)) (t : CTransCoder) : CTransCoder :=
  fold_left (fun t kv => setOutputProp kv.1 (Some kv.2) t) l t.

Definition EnableVaapiPlugin (t : CTransCoder) : CTransCoder := wr m_qsvPlugin 0 (wr m_vaapiPlugin 1 t).
Definition EnableQsvPlugin (t : CTransCoder) : CTransCoder := wr m_vaapiPlugin 0 (wr m_qsvPlugin 1 t).

(** [set_output_prop]; the plug-in call comes after the first property, which it
    does not touch. *)
Definition set_output_prop (i : IrrStreamInfo) (u pl : bytes) (t : CTransCoder) : CTransCoder :=
  let t := if has_prefix (b "vaapi") pl then EnableVaapiPlugin t else t in
  let t := if has_prefix (b "qsv") pl then EnableQsvPlugin t else t in
  set_props (output_props i u pl) t.

(** The extra parameters [key=value:key=value...] of [IrrStreamer::start]: what
    comes before the next colon, pairs without [=] skipped, until nothing is
    left. *)
Fixpoint exp_props (fuel : nat) (expar : bytes) : list (bytes * bytes) :=
  match fuel with
  | O => []
  | S fuel =>
      let '(kv, rest) := match strchr CH_COLON expar with Some (p, q) => (p, q) | None => (expar, []) end in
      (match strchr CH_EQ kv with Some (k, v) => [(k, v)] | None => [] end)
      ++ (if bool_decide (rest = []) then [] else exp_props fuel rest)
  end.

Definition extra_props (e : cstr) : list (bytes * bytes) :=
  match e with None => [] | Some e => exp_props (S (length e)) e end.

(** ** Packets *)

(** What a packet's buffer starts with: the library surface's address, the VA
    surface, or pixels. *)
Inductive payload := PMfx (q : option Z) | PVa (id : Z) | PData (pixels : bytes).

Record IrrPacket := { pk_payload : payload; pk_size : Z; pk_ctrl : option Z }.

(** The rows of a picture, last first. *)
Fixpoint flip_rows (n : nat) (stride : nat) (p : bytes) : bytes :=
  match n with O => [] | S n => flip_rows n stride (drop stride p) ++ take stride p end.

(** The copy of pixels: undefined when the size overflows an [int], or when it
    runs past the pixels or the buffer. *)
Definition copy_pixels (w h : Z) (flip : bool) (pixels : option bytes) (size : Z) : option bytes :=
  stride ← int_chk (w * 4);
  n ← int_chk (stride * h);
  p ← pixels;
  if (0 <=? n) && (n <=? size) && (n <=? Z.of_nat (length p)) then
    Some (if flip then flip_rows (Z.to_nat h) (Z.to_nat stride) (take (Z.to_nat n) p)
          else take (Z.to_nat n) p)
  else None.

(** The size of a buffer of the pool: [av_image_get_buffer_size] for the first
    surface, kept for all that follow. *)
Definition pool_size (img_size : Z -> Z -> Z) (pool : option Z) (w h : Z) : Z :=
  match pool with Some n => n | None => img_size w h end.

(** [generate_packet] on a surface that is not null: the return value, the pool
    and the packet.  [init] and [get] are FFmpeg's answers. *)
Definition generate_packet (img_size : Z -> Z -> Z) (init get : bool) (pool : option Z)
    (s : irr_surface_t) (flip : bool) (pixels : option bytes) (ctrl : option Z)
    : option (Z * option Z * option IrrPacket) :=
  let size := pool_size img_size pool (i_width (info s)) (i_height (info s)) in
  if bool_decide (pool = None) && negb init then Some (AVERROR ENOMEM, None, None)
  else if negb get then Some (AVERROR ENOMEM, Some size, None)
  else
    d ← match enc_type s with
        | QSVSURFACE_ID => if 8 <=? size then Some (PMfx (mfxSurf s)) else None
        | VASURFACE_ID => if 4 <=? size then Some (PVa (vaSurfaceID s)) else None
        | DATA_BUFFER => PData <$> copy_pixels (i_width (info s)) (i_height (info s)) flip pixels size
        end;
    Some (0, Some size, Some {| pk_payload := d; pk_size := size; pk_ctrl := ctrl |}).

(** ** The state of the process *)

(** [m_pWriter]: the files asked for. *)
Record writer_params := { wp_input : cstr; wp_width : Z; wp_height : Z; wp_output : cstr; wp_frames : Z }.

Record enc := {
  e_world : world;
  e_hw : hw;
  e_irrv : Z; e_aux : Z;           (** the static servers of [irr_encoder_start], 0 when not open *)
  e_pool : option Z;               (** [m_pPool]: the size of its buffers *)
  e_blank : option Z;              (** [m_blankSurface] *)
  e_pixfmt : Z;
  e_writer : option writer_params;
  e_demux_freed : bool;            (** [m_pDemux] was deleted and not reset *)
  e_framerate : option spec_float  (** the transcoder's frame rate, once started *)
}.

Definition set_world (w : world) (e : enc) : enc :=
  {| e_world := w; e_hw := e_hw e; e_irrv := e_irrv e; e_aux := e_aux e; e_pool := e_pool e;
     e_blank := e_blank e; e_pixfmt := e_pixfmt e; e_writer := e_writer e;
     e_demux_freed := e_demux_freed e; e_framerate := e_framerate e |}.
Definition set_blank (h : hw) (pool blank : option Z) (e : enc) : enc :=
  {| e_world := e_world e; e_hw := h; e_irrv := e_irrv e; e_aux := e_aux e; e_pool := pool;
     e_blank := blank; e_pixfmt := e_pixfmt e; e_writer := e_writer e;
     e_demux_freed := e_demux_freed e; e_framerate := e_framerate e |}.
Definition set_start (pixfmt : Z) (freed : bool) (fr : option spec_float) (e : enc) : enc :=
  {| e_world := e_world e; e_hw := e_hw e; e_irrv := e_irrv e; e_aux := e_aux e; e_pool := e_pool e;
     e_blank := e_blank e; e_pixfmt := pixfmt; e_writer := e_writer e;
     e_demux_freed := freed; e_framerate := fr |}.
Definition set_static (irrv aux : Z) (e : enc) : enc :=
  {| e_world := e_world e; e_hw := e_hw e; e_irrv := irrv; e_aux := aux; e_pool := e_pool e;
     e_blank := e_blank e; e_pixfmt := e_pixfmt e; e_writer := e_writer e;
     e_demux_freed := e_demux_freed e; e_framerate := e_framerate e |}.
Definition set_writer (wp : option writer_params) (e : enc) : enc :=
  {| e_world := e_world e; e_hw := e_hw e; e_irrv := e_irrv e; e_aux := e_aux e; e_pool := e_pool e;
     e_blank := e_blank e; e_pixfmt := e_pixfmt e; e_writer := wp;
     e_demux_freed := e_demux_freed e; e_framerate := e_framerate e |}.

(** What the system answers during a start. *)
Record start_env := {
  se_port : cstr; se_aux : cstr;                 (** the environment variables *)
  se_init : init_env; se_init2 : init_env;       (** opening the two servers *)
  se_addr : Z; se_addr2 : Z;                     (** where they are allocated *)
  se_surface : answers;                          (** creation of the blank surface *)
  se_img_size : Z -> Z -> Z; se_pool : bool; se_buf : bool;
  se_tcae : Z;                                   (** [CTcaeWrapper::Initialize] *)
  se_thread : bool                               (** the thread is created *)
}.

Section Start.
Context `{AvDict}.

(** ** The transcoder *)

Definition getOutOptVal (short long : bytes) (t : CTransCoder) : option bytes :=
  match av_dict_get (m_pOutProp t) short with
  | Some v => Some v
  | None => av_dict_get (m_pOutProp t) long
  end.

(** [getInitBitrate] and [getMaxBitrate] convert like [convert_bitrate]. *)
Definition getInitBitrate (t : CTransCoder) : option Z := convert_bitrate (av_dict_get (m_pOutProp t) (b "b")).
Definition getMaxBitrate (t : CTransCoder) : option Z := convert_bitrate (av_dict_get (m_pOutProp t) (b "maxrate")).
Definition getInitGopSize (t : CTransCoder) : Z := atoi_of (av_dict_get (m_pOutProp t) (b "g")) 0.

(** [CTransCoder::start] of a transcoder that is not running: the return value
    and the frame rate; the demuxer's [start] returns 0 and the hardware context
    only gives a warning. *)
Definition trans_start (thread : bool) (t : CTransCoder) : option (Z * CTransCoder * option spec_float) :=
  br ← getInitBitrate t;
  let t := wr m_gopSize (getInitGopSize t) (wr m_bitrate br t) in
  let fr := atof <$> getOutOptVal (b "r") (b "framerate") t in
  Some (if thread then 0 else -1, t, fr).

Definition FF_COMPLIANCE_UNOFFICIAL : Z := -1.

(** [enableTcae]; [init] is what [CTcaeWrapper::Initialize] answers. *)
Definition enableTcae (init : Z) (t : CTransCoder) : option (bool * CTransCoder) :=
  _ ← getMaxBitrate t;
  if init <? 0 then Some (negb (mem t m_tcaeOn =? 0), wr m_tcae 0 t)
  else
    let t := wr m_tcaeOn 1 (wr m_tcae 1 t) in
    let t := setOutputProp (b "low_delay_brc") (Some (print_int 1)) t in
    Some (true, setOutputProp (b "hrd_compliance") (Some (print_int FF_COMPLIANCE_UNOFFICIAL)) t).

(** ** The streamer *)

Definition on_hw {A} (op : cmd hw A) : cmd enc A := fun e =>
  '(r, h) ← op (e_hw e); Some (r, set_blank h (e_pool e) (e_blank e) e).

(** [InitBlankFramePacket], for a streamer of this size. *)
Definition InitBlankFramePacket (en : start_env) (width height : Z) : cmd enc Z := fun e =>
  match e_blank e with
  | Some _ => Some (0, e)
  | None =>
      let va := irr_get_VASurfaceFlag (e_world e) in
      let qsv := irr_get_QSVSurfaceFlag (e_world e) in
      '(r, h) ← irr_encoder_create_blank_surface va qsv (se_surface en) width height (e_hw e);
      match r with
      | None => Some (-1, set_blank h (e_pool e) None e)
      | Some p =>
          '(s, _) ← load_surface p h;
          '(ret, pool, _) ← generate_packet (se_img_size en) (se_pool en) (se_buf en) (e_pool e) s false None None;
          let e := set_blank h pool (Some p) e in
          if negb (ret =? 0) then Some (ret, e)
          else (on_hw (irr_encoder_ref_surface p);;; cret 0) e
      end
  end.

(** The codec by the url. *)
Definition codec_of_url (u : bytes) : Z :=
  if has_prefix (b "irrv:264") u then AV_CODEC_ID_H264
  else if has_prefix (b "irrv:265") u then AV_CODEC_ID_HEVC
  else if has_prefix (b "irrv:av1") u then AV_CODEC_ID_AV1
  else AV_CODEC_ID_H264.

(** The transcoder and the multiplexer for the url: none for a url that is
    neither local nor of the protocol; an error for a local url without colon. *)
Inductive mux_choice := MuxError | MuxNone | MuxLocal | MuxIrrv.
Definition choose_mux (u : bytes) : mux_choice :=
  if has_prefix (b "local") u then
    match strchr CH_COLON u with None => MuxError | Some _ => MuxLocal end
  else if has_prefix (b "irrv") u then MuxIrrv else MuxNone.

Definition AV_PIX_FMT_RGBA : Z := 26.
Definition AV_PIX_FMT_BGRA : Z := 28.

(** The streamer once its transcoder is configured. *)
Definition started_streamer (s : IrrStreamer) (d : demux) (t : CTransCoder) (mux : option (Z * Z))
    (codec : Z) (auth tcae : bool) : IrrStreamer :=
  {| m_pDemux := Some d; m_pTrans := Some t; m_pMux := mux; m_pRuntimeWriter := true;
     m_nWidth := m_nWidth s; m_nHeight := m_nHeight s; m_nCodecId := codec; m_fFramerate := m_fFramerate s;
     m_bVASurface := m_bVASurface s; m_bQSVSurface := m_bQSVSurface s; m_nClientNum := m_nClientNum s;
     m_bAllowEncode := m_bAllowEncode s; m_bAllowTransmit := m_bAllowTransmit s;
     m_auth := if auth then true else m_auth s; m_tcaeEnabled := tcae |}.

(** The part of [IrrStreamer::start] after the objects are made: options, flags,
    and the start of the transcoder. *)
Definition start_trans (en : start_env) (i : IrrStreamInfo) (u pl : bytes) (s : IrrStreamer) (d : demux)
    (mux : option (Z * Z)) : cmd enc Z := fun e =>
  let codec := codec_of_url u in
  let t := set_props (extra_props (s_exp_vid_param i)) (CTransCoder_init codec) in
  let d := {| dx_framerate := dx_framerate d; dx_first_start := dx_first_start d;
              dx_renderfps := negb (s_renderfps_enc i =? 0);
              dx_vasurface := dx_vasurface d; dx_qsvsurface := dx_qsvsurface d |} in
  let t := setSkipFrameFlag (s_skip_frame i) t in
  let t := set_output_prop i u pl t in
  '(tcae, t) ← (if s_tcaeEnabled i then enableTcae (se_tcae en) t else Some (m_tcaeEnabled s, t));
  '(ret, t, fr) ← trans_start (se_thread en) t;
  let w := set_streamer (Some (started_streamer s d t mux codec (s_auth i) tcae)) (e_world e) in
  Some (ret, set_start (e_pixfmt e) (e_demux_freed e) fr (set_world w e)).

(** Conversion of an [int] to [float]. *)
Definition float_of_i32 (z : Z) : Z := if z <? 0 then - float_of_u32 (- z) else float_of_u32 z.

(** [IrrStreamer::start] on the registered streamer; framerate and plug-in are
    followed unchecked. *)
Definition streamer_start (en : start_env) (i : IrrStreamInfo) : cmd enc Z := fun e =>
  match streamer (e_world e) with
  | None => None
  | Some s =>
      if bool_decide (is_Some (m_pTrans s)) then Some (AVERROR EINVAL, e)
      else
        fr ← s_framerate i;
        let rate := if atoi fr =? 0 then m_fFramerate s else float_of_i32 (atoi fr) in
        let e := if s_pix_format i =? AV_PIX_FMT_BGRA then set_start AV_PIX_FMT_BGRA (e_demux_freed e) (e_framerate e) e
                 else e in
        '(ret, e) ← InitBlankFramePacket en (m_nWidth s) (m_nHeight s) e;
        if negb (ret =? 0) then Some (AVERROR EINVAL, e)
        else
          pl ← s_plugin i;
          let qsv := has_prefix (b "qsv") pl in
          let d := {| dx_framerate := rate; dx_first_start := false; dx_renderfps := true;
                      dx_vasurface := if qsv then false else m_bVASurface s;
                      dx_qsvsurface := if qsv then m_bQSVSurface s else false |} in
          let dangling := set_start (e_pixfmt e) true (e_framerate e) e in
          match s_url i with
          | None => Some (AVERROR EINVAL, dangling)
          | Some u =>
              match choose_mux u with
              | MuxError => Some (AVERROR EINVAL, dangling)
              | MuxNone => Some (AVERROR ENOMEM, dangling)
              | MuxLocal => start_trans en i u pl s d (m_pMux s) e
              | MuxIrrv => start_trans en i u pl s d (Some (s_opaque i, s_opaque2 i)) e
              end
          end
  end.

(** [irr_stream_start]. *)
Definition irr_stream_start (en : start_env) (i : IrrStreamInfo) : cmd enc Z := fun e =>
  match streamer (e_world e) with
  | None => Some (- EINVAL, e)
  | Some s =>
      let s := if s_bVASurface i then setVASurfaceFlag true s
               else if s_bQSVSurface i then setQSVSurfaceFlag true s else s in
      streamer_start en i (set_world (set_streamer (Some s) (e_world e)) e)
  end.

(** ** The encoder *)

(** The destructor of a streamer calls [stop], which follows the transcoder
    pointer unchecked. *)
Definition delete_streamer (o : option IrrStreamer) : option unit :=
  match o with
  | None => Some tt
  | Some s => match m_pTrans s with Some _ => Some tt | None => None end
  end.

(** [IrrStreamer::Register]: the new streamer replaces the old one. *)
Definition Register (w h framerate : Z) : cmd enc unit := fun e =>
  _ ← delete_streamer (streamer (e_world e));
  Some (tt, {| e_world := set_streamer (Some (IrrStreamer_new w h framerate)) (e_world e); e_hw := e_hw e;
               e_irrv := e_irrv e; e_aux := e_aux e; e_pool := None; e_blank := None;
               e_pixfmt := AV_PIX_FMT_RGBA; e_writer := None; e_demux_freed := false; e_framerate := None |}).

(** [irr_encoder_stop]. *)
Definition irr_encoder_stop : cmd enc unit := fun e =>
  _ ← delete_streamer (streamer (e_world e));
  Some (tt, set_world (set_streamer None (e_world e)) e).

Inductive output_mux_type := IRRV_MUX | LOCAL_MUX | DEFAULT.
Definition get_output_mux_type (u : bytes) : output_mux_type :=
  if has_prefix (b "irrv") u then IRRV_MUX else if has_prefix (b "local") u then LOCAL_MUX else DEFAULT.

Definition RESOLUTION_WIDTH_DEFAULT : Z := 576.
Definition RESOLUTION_HEIGHT_DEFAULT : Z := 960.
Definition size_ok (w h : Z) : bool :=
  negb ((w <? RESOLUTION_WIDTH_MIN) || (RESOLUTION_WIDTH_MAX <? w)
        || (h <? RESOLUTION_HEIGHT_MIN) || (RESOLUTION_HEIGHT_MAX <? h)).

(** [StaticSockServer::Init] and the table entries of a new server. *)
Definition open_server (en : init_env) (addr port : Z) (w : world) : option (bool * world) :=
  '(r, o) ← sock_server_init en SOCK_CONN_TYPE_INET_SOCK (b "../workdir/ipc/sock-util-default") None port ∅;
  match r with
  | None => Some (false, w)
  | Some sv => Some (true, set_client addr None (set_auth addr false
      (set_servers (<[addr := {| srv := sv; SockServer.open_fds := o |}]> (servers w)) w)))
  end.

(** Open a static server unless it is open already. *)
Definition static_server (cur addr : Z) (en : init_env) (port : Z) (w : world) : option (option Z * world) :=
  if cur =? 0 then
    '(ok, w) ← open_server en addr port w;
    Some (if ok : bool then Some addr else None, w)
  else Some (Some cur, w).

(** The information for the stream. *)
Definition stream_info (i : encoder_info_t) (w h : Z) (url_ : bytes) (op op2 : Z) : option IrrStreamInfo :=
  '(va, qsv) ← match encodeType i with
               | VASURFACE_ID => pl ← plugin i;
                   Some (if has_prefix (b "qsv") pl then (false, true) else (true, false))
               | _ => Some (false, false)
               end;
  Some {| s_pix_format := nPixfmt i; s_gop_size := if 0 <? gop_size i then gop_size i else 120;
     s_codec := codec i; s_url := Some url_; s_low_power := if low_power i =? 0 then 0 else 1;
     s_width := w; s_height := h; s_framerate := framerate i; s_exp_vid_param := exp_vid_param i;
     s_bVASurface := va;
     s_rc := match ratectrl (rate_contrl_param i) with
             | Some _ => rate_contrl_param i
             | None => {| bitrate := None; qfactor := None; qp := None; maxrate := None; ratectrl := None;
                          bufsize := None; qmaxI := 0; qminI := 0; qmaxP := 0; qminP := 0 |} end;
     s_quality := if (quality i <=? 0) || (7 <? quality i) then 4 else quality i;
     s_max_frame_size := max_frame_size i;
     s_ref := match int_ref_type (ref_info i) with
              | Some _ => ref_info i
              | None => {| int_ref_type := None; int_ref_cycle_size := 0; int_ref_qp_delta := 0 |} end;
     s_roi := if roi_enabled (roi_info i) then roi_info i
              else {| roi_enabled := false; roi_x := 0; roi_y := 0; roi_width := 0; roi_height := 0;
                      roi_value := 0 |};
     s_slices := slices i; s_sei := if 0 <? sei i then sei i else 0; s_auth := auth i;
     s_renderfps_enc := if renderfps_enc i =? 0 then 0 else 1; s_minfps_enc := minfps_enc i;
     s_profile := profile i; s_level := level i; s_filter_nbthreads := filter_nbthreads i;
     s_low_delay_brc := low_delay_brc i; s_skip_frame := skip_frame i; s_plugin := plugin i;
     s_bQSVSurface := qsv; s_tcaeEnabled := tcaeEnabled i; s_opaque := op; s_opaque2 := op2 |}.

(** The servers for a url of the protocol: the error, or the two addresses. *)
Definition irrv_servers (en : start_env) (id : Z) : cmd enc (option (Z * Z)) := fun e =>
  max_port ← int_chk (INT_MAX - 1000 - id);
  match se_port en with
  | None => Some (None, e)
  | Some p =>
      if max_port <? atoi p then Some (None, e)
      else
        port ← int_chk (atoi p + 1000 + id);
        '(sv, w) ← static_server (e_irrv e) (se_addr en) (se_init en) port (e_world e);
        match sv with
        | None => Some (None, set_world w e)
        | Some a =>
            let e := set_static a (e_aux e) (set_world w e) in
            match se_aux en with
            | Some v =>
                if has_prefix (b "1") v then
                  port2 ← int_chk (atoi p + 2000 + id);
                  '(sv2, w) ← static_server (e_aux e) (se_addr2 en) (se_init2 en) port2 (e_world e);
                  match sv2 with
                  | None => Some (None, set_world w e)
                  | Some a2 => Some (Some (a, a2), set_static a a2 (set_world w e))
                  end
                else Some (Some (a, e_aux e), e)
            | None => Some (Some (a, e_aux e), e)
            end
        end
  end.

(** [set_iostream_writer] with [irr_stream_set_iostream_writer_params]. *)
Definition set_iostream_writer (i : encoder_info_t) (w h : Z) (e : enc) : enc :=
  match foutput i with
  | None => e
  | Some o => set_writer (Some {| wp_input := finput i; wp_width := w; wp_height := h; wp_output := Some o;
                                  wp_frames := vframe i |}) e
  end.

(** What [irr_encoder_start] assigns in the caller's structure. *)
Definition put_start (i : encoder_info_t) (w h : Z) (ty : encode_type) : encoder_info_t :=
  {| nPixfmt := nPixfmt i; gop_size := gop_size i; codec := codec i; url := url i;
     low_power := low_power i; width := w; height := h; framerate := framerate i;
     exp_vid_param := exp_vid_param i; streaming := streaming i; encodeType := ty;
     encoderInstanceID := encoderInstanceID i; rate_contrl_param := rate_contrl_param i;
     quality := quality i; max_frame_size := max_frame_size i; ref_info := ref_info i;
     roi_info := roi_info i; slices := slices i; sei := sei i; finput := finput i; vframe := vframe i;
     foutput := foutput i; loglevel := loglevel i; auth := auth i; renderfps_enc := renderfps_enc i;
     minfps_enc := minfps_enc i; profile := profile i; level := level i;
     filter_nbthreads := filter_nbthreads i; low_delay_brc := low_delay_brc i;
     skip_frame := skip_frame i; plugin := plugin i; tcaeEnabled := tcaeEnabled i;
     tcaeLogPath := tcaeLogPath i |}.

(** [irr_encoder_start]: the return value and the caller's structure after the
    call.  A size that does not fit is replaced by the default, and with the
    QSV plug-in the type of surface is changed. *)
Definition irr_encoder_start (en : start_env) (i : encoder_info_t) : cmd enc (Z * encoder_info_t) := fun e =>
  let '(w, h) := if size_ok (width i) (height i) then (width i, height i)
                 else (RESOLUTION_WIDTH_DEFAULT, RESOLUTION_HEIGHT_DEFAULT) in
  let i1 := put_start i w h (encodeType i) in
  _ ← int_chk (INT_MAX - 1000 - encoderInstanceID i);
  '(_, e) ← Register w h 30 e;
  if negb (streaming i) then Some ((-1, i1), e)
  else
    u ← url i;
    let go op op2 e :=
      info ← stream_info i w h u op op2;
      '(r, e) ← irr_stream_start en info (set_iostream_writer i w h e);
      Some ((r, if s_bQSVSurface info then put_start i w h QSVSURFACE_ID else i1), e) in
    match get_output_mux_type u with
    | IRRV_MUX =>
        '(sv, e) ← irrv_servers en (encoderInstanceID i) e;
        match sv with
        | None => Some ((AVERROR EINVAL, i1), e)
        | Some (a, a2) => go a a2 e
        end
    | LOCAL_MUX => go 0 0 e
    | DEFAULT => Some ((AVERROR EINVAL, i1), e)
    end.

End Start.

(** ** Only QSV starts *)

(** The caller asks for the QSV path. *)
Definition qsv_asked (i : encoder_info_t) : bool :=
  match encodeType i, plugin i with
  | VASURFACE_ID, Some pl => has_prefix (b "qsv") pl
  | _, _ => false
  end.

(** Opening a server leaves the streamer and the rest of the encoder alone. *)
Lemma static_server_keeps cur addr en port w r w' :
  static_server cur addr en port w = Some (r, w') -> streamer w' = streamer w.
Proof.
  unfold static_server, open_server. intros E. destruct (cur =? 0); [|by simplify_eq].
  apply bind_Some in E as ([ok w1] & E1 & E). simplify_eq.
  apply bind_Some in E1 as ([r1 o] & _ & E1). by destruct r1; simplify_eq.
Qed.

Lemma irrv_servers_keeps en id e r e' : irrv_servers en id e = Some (r, e') ->
  streamer (e_world e') = streamer (e_world e) /\ e_blank e' = e_blank e /\ e_hw e' = e_hw e.
Proof.
  unfold irrv_servers. intros E. apply bind_Some in E as (mp & _ & E).
  destruct (se_port en) as [p|]; [|by simplify_eq]. destruct (mp <? atoi p); [by simplify_eq|].
  apply bind_Some in E as (port & _ & E). apply bind_Some in E as ([sv w] & E1 & E).
  apply static_server_keeps in E1. destruct sv as [a|]; [|by simplify_eq].
  destruct (se_aux en) as [v|]; [|by simplify_eq]. destruct (has_prefix _ v); [|by simplify_eq].
  apply bind_Some in E as (port2 & _ & E). apply bind_Some in E as ([sv2 w2] & E2 & E).
  apply static_server_keeps in E2. cbn in E2. destruct sv2; simplify_eq; cbn; by rewrite E2.
Qed.

Lemma Register_new w h f e e1 : Register w h f e = Some (tt, e1) ->
  streamer (e_world e1) = Some (IrrStreamer_new w h f) /\ e_blank e1 = None.
Proof. unfold Register. intros E. apply bind_Some in E as (? & _ & E). by simplify_eq. Qed.

Lemma stream_info_qsv i w h u op op2 info :
  stream_info i w h u op op2 = Some info -> s_bQSVSurface info = qsv_asked i.
Proof.
  unfold stream_info, qsv_asked. intros E. apply bind_Some in E as ([va qsv] & E1 & E). simplify_eq. cbn [s_bQSVSurface].
  destruct (encodeType i); simplify_eq; try done.
  apply bind_Some in E1 as (pl & -> & E1). by destruct (has_prefix (b "qsv") pl); simplify_eq.
Qed.

(** Without the QSV flag there is no blank surface, and the start fails before
    any object is made. *)
Lemma start_needs_qsv `{AvDict} en info w h f e r e' :
  streamer (e_world e) = Some (IrrStreamer_new w h f) -> e_blank e = None -> s_bQSVSurface info = false ->
  irr_stream_start en info e = Some (r, e') ->
  r <> 0 /\ exists s, streamer (e_world e') = Some s /\ m_pTrans s = None.
Proof.
  intros Hs Hb Hq E. unfold irr_stream_start in E. rewrite Hs, Hq in E.
  unfold streamer_start in E. cbn [e_world set_world streamer set_streamer] in E.
  set (s := if s_bVASurface info then _ else _) in E.
  assert (m_pTrans s = None /\ m_bQSVSurface s = false) as [Ht Hf] by (subst s; by destruct (s_bVASurface info)).
  rewrite Ht in E. cbn [bool_decide] in E. rewrite bool_decide_eq_false_2 in E by (intros [? [=]]).
  apply bind_Some in E as (fr & _ & E). apply bind_Some in E as ([r1 e1] & E1 & E).
  unfold InitBlankFramePacket in E1.
  replace (e_blank _) with (@None Z) in E1 by (destruct (s_pix_format info =? AV_PIX_FMT_BGRA); by rewrite <- ?Hb).
  replace (irr_get_QSVSurfaceFlag _) with 0 in E1
    by (destruct (s_pix_format info =? AV_PIX_FMT_BGRA); unfold irr_get_QSVSurfaceFlag, ask_streamer; cbn; by rewrite Hf).
  unfold irr_encoder_create_blank_surface, irr_encoder_create_surface, create_internal_surface in E1. cbn in E1.
  unfold cret in E1. cbn in E1. simplify_eq. cbn in E. simplify_eq.
  split; [unfold AVERROR, EINVAL; lia|]. exists s. by destruct (s_pix_format info =? AV_PIX_FMT_BGRA).
Qed.

(** A start without it leaves a streamer without transcoder. *)
Lemma failed_start_no_trans `{AvDict} en i e r i' e' :
  qsv_asked i = false -> irr_encoder_start en i e = Some ((r, i'), e') ->
  r <> 0 /\ exists s, streamer (e_world e') = Some s /\ m_pTrans s = None.
Proof.
  intros Hq E.
  unfold irr_encoder_start in E.
  set (wh := if size_ok (width i) (height i) then _ else _) in E. destruct wh as [w h].
  apply bind_Some in E as (? & _ & E). apply bind_Some in E as ([[] e1] & [Hs Hb]%Register_new & E).
  destruct (streaming i); cbn [negb] in E; [|simplify_eq; split; [lia|by eexists]].
  apply bind_Some in E as (u & _ & E).
  assert (Hgo : forall op op2 e2, streamer (e_world e2) = streamer (e_world e1) -> e_blank e2 = e_blank e1 ->
    (info ← stream_info i w h u op op2;
     '(r, e) ← irr_stream_start en info (set_iostream_writer i w h e2);
     Some ((r, if s_bQSVSurface info then put_start i w h QSVSURFACE_ID else put_start i w h (encodeType i)), e))
      = Some ((r, i'), e') ->
    r <> 0 /\ exists s, streamer (e_world e') = Some s /\ m_pTrans s = None).
  { intros op op2 e2 S2 B2 G. apply bind_Some in G as (info & I & G). apply bind_Some in G as ([r1 e3] & G1 & G).
    simplify_eq. apply stream_info_qsv in I.
    eapply (start_needs_qsv en info w h 30); [| |by rewrite I|exact G1].
    - unfold set_iostream_writer. destruct (foutput i); cbn; by rewrite S2.
    - unfold set_iostream_writer. destruct (foutput i); cbn; by rewrite B2. }
  destruct (get_output_mux_type u).
  - apply bind_Some in E as ([sv e2] & (K1 & K2 & _)%irrv_servers_keeps & E).
    destruct sv as [[a a2]|]; [by eapply Hgo in E|].
    simplify_eq. split; [unfold AVERROR, EINVAL; lia|]. rewrite K1. by eexists.
  - by eapply Hgo in E.
  - simplify_eq. split; [unfold AVERROR, EINVAL; lia|by eexists].
Qed.

(** C40. Only the QSV path can be started.  Unless the caller asks for VA
    surfaces together with the [qsv] plug-in, whatever the system answers,
    [irr_encoder_start] returns an error (the blank surface it needs is made by
    [create_internal_surface], which supports only the QSV path), although
    [vaapi] is the default plug-in; the streamer stays registered without a
    transcoder, and then [irr_encoder_stop], and any new start, follows the null
    transcoder pointer. *)
Theorem only_qsv_starts `{AvDict} en i e r i' e' :
  qsv_asked i = false -> irr_encoder_start en i e = Some ((r, i'), e') ->
  r <> 0 /\ irr_encoder_stop e' = None /\ forall en2 j, irr_encoder_start en2 j e' = None.
Proof.
  intros Hq E. destruct (failed_start_no_trans _ _ _ _ _ _ Hq E) as (Hr & s & Hs & Ht).
  split_and!; [done|by unfold irr_encoder_stop, delete_streamer; rewrite Hs, Ht|].
  intros en2 j. unfold irr_encoder_start, Register, delete_streamer. rewrite Hs, Ht.
  destruct (if size_ok _ _ then _ else _) as [w h]. by destruct (int_chk _).
Qed.

(** ** The options reach the encoder *)

(** The last value given for a key. *)
Definition last_prop (l : list (bytes * bytes)) (k : bytes) : option bytes :=
  fold_left (fun acc kv => if strcaseeq k kv.1 then Some kv.2 else acc) l None.

Lemma last_prop_acc k l : forall acc,
  fold_left (fun acc kv => if strcaseeq k kv.1 then Some kv.2 else acc) l acc =
  match last_prop l k with Some v => Some v | None => acc end.
Proof.
  unfold last_prop. induction l as [|kv l IH]; intros acc; [done|]. cbn [fold_left].
  rewrite IH, (IH (if strcaseeq k kv.1 then _ else None)).
  by destruct (fold_left _ l None), (strcaseeq k kv.1).
Qed.

Lemma last_prop_app k l1 l2 :
  last_prop (l1 ++ l2) k = match last_prop l2 k with Some v => Some v | None => last_prop l1 k end.
Proof. unfold last_prop at 1. rewrite fold_left_app. apply last_prop_acc. Qed.

Lemma last_prop_str k k' v : last_prop (prop_str k' v) k = if strcaseeq k k' then v else None.
Proof. by destruct v; cbn; destruct (strcaseeq k k'). Qed.
Lemma last_prop_int k k' v :
  last_prop (prop_int k' v) k = if strcaseeq k k' then if v =? 0 then None else Some (print_int v) else None.
Proof. unfold prop_int. by destruct (v =? 0); cbn; destruct (strcaseeq k k'). Qed.
Lemma last_prop_if k k' c v :
  last_prop (prop_if c k' v) k = if strcaseeq k k' then if c then Some v else None else None.
Proof. unfold prop_if. by destruct c; cbn; destruct (strcaseeq k k'). Qed.
Lemma option_eta {A} (x : option A) : match x with Some v => Some v | None => None end = x.
Proof. by destruct x. Qed.

(** Decide the comparisons of literal keys. *)
Ltac keys := repeat match goal with
  |- context [strcaseeq ?x ?y] => let v := eval vm_compute in (strcaseeq x y) in change (strcaseeq x y) with v end.

(** *** What each option should become *)

(** A number that is 0 is not given. *)
Definition given (v : Z) : cstr := if v =? 0 then None else Some (print_int v).
(** A value that is given under a condition. *)
Definition given_if (c : bool) (v : bytes) : cstr := if c then Some v else None.

(** The size the stream gets. *)
Definition start_size (i : encoder_info_t) : Z * Z :=
  if size_ok (width i) (height i) then (width i, height i)
  else (RESOLUTION_WIDTH_DEFAULT, RESOLUTION_HEIGHT_DEFAULT).

(** The encoder of the QSV plug-in for a url. *)
Definition qsv_encoder (u : bytes) : cstr :=
  if has_prefix (b "irrv:264") u then Some (b "h264_qsv")
  else if has_prefix (b "irrv:265") u then Some (b "hevc_qsv")
  else if has_prefix (b "irrv:av1") u then Some (b "av1_qsv") else None.

(** All keys of the encoder's dictionary with the value that the caller's checked
    options should give them, [None] for a key that is not set.  [tcae] says
    whether tolerance-based encoding runs, which decides two of the keys. *)
Definition option_table (i : encoder_info_t) (u : bytes) (tcae : bool) : list (bytes * cstr) :=
  let rc := rate_contrl_param i in
  let ref := ref_info i in
  let rir (v : cstr) := match int_ref_type ref with Some _ => v | None => None end in
  let sei_bit n := given_if ((0 <? sei i) && Z.testbit (sei i) n) (b "1") in
  [ (* rate control *)
    (b "b", bitrate rc); (b "maxrate", maxrate rc); (b "bufsize", bufsize rc);
    (b "qp", qp rc); (b "quality_factor", qfactor rc);
    (b "qmaxI", given (qmaxI rc)); (b "qminI", given (qminI rc));
    (b "qmaxP", given (qmaxP rc)); (b "qminP", given (qminP rc));
    (b "max_frame_size", given (max_frame_size i));
    (b "low_delay_brc", given_if (tcae || low_delay_brc i) (b "1"));
    (* the codec *)
    (b "c", match codec i with Some c => Some c | None => qsv_encoder u end);
    (b "profile", profile i); (b "level", level i);
    (b "g", Some (print_int (gop_size i))); (b "slices", given (slices i));
    (b "compression_level", Some (print_int (quality i)));
    (b "low_power", given_if (negb (low_power i =? 0)) (b "1"));
    (b "skip_frame", given_if (skip_frame i) (b "3"));
    (b "forced_idr", Some (b "1")); (b "async_depth", Some (b "1"));
    (* rolling intra refresh *)
    (b "int_ref_type", int_ref_type ref);
    (b "int_ref_cycle_size", rir (given (int_ref_cycle_size ref)));
    (b "int_ref_qp_delta", rir (given (int_ref_qp_delta ref)));
    (* supplemental information *)
    (b "udu_sei", Some (b "1")); (b "sei", given (Z.max 0 (sei i)));
    (b "hrd_compliance", if tcae then Some (b "-1") else sei_bit 0);
    (b "recovery_point_sei", sei_bit 2); (b "pic_timing_sei", sei_bit 3);
    (* the picture *)
    (b "r", framerate i);
    (b "s", Some (print_int (start_size i).1 ++ b "x" ++ print_int (start_size i).2));
    (b "filter_threads", given (filter_nbthreads i)) ].

(** The value of a key, whatever its case; none for a key that is not listed. *)
Fixpoint table_value (l : list (bytes * cstr)) (k : bytes) : cstr :=
  match l with
  | [] => None
  | (k', v) :: l => if strcaseeq k k' then v else table_value l k
  end.

(** Everything that is set: the options, then what tolerance-based encoding sets. *)
Definition final_props (info : IrrStreamInfo) (u pl : bytes) (tcae : bool) : list (bytes * bytes) :=
  output_props info u pl
  ++ (if tcae then [(b "low_delay_brc", print_int 1); (b "hrd_compliance", print_int FF_COMPLIANCE_UNOFFICIAL)]
      else []).

(** Split on whether the key is the next one of the table. *)
Ltac next_key := match goal with |- context [strcaseeq ?k ?x] => is_var k;
    let E := fresh in destruct (strcaseeq k x) eqn:E;
      [apply mode_names in E as [_ E]; rewrite ?E; clear E; keys; cbv iota | rewrite ?E; clear E; cbv iota] end.

Section Dict.
Context `{AvDict}.

Lemma get_set_props l k : forall t,
  av_dict_get (m_pOutProp (set_props l t)) k =
  match last_prop l k with Some v => Some v | None => av_dict_get (m_pOutProp t) k end.
Proof.
  induction l as [|[k' v] l IH] using rev_ind; intros t; [done|].
  unfold set_props. rewrite fold_left_app. cbn [fold_left fst snd setOutputProp m_pOutProp].
  rewrite last_prop_app. cbn [last_prop fold_left fst snd].
  destruct (strcaseeq k k') eqn:E; [by rewrite (av_dict_same _ _ _ _ E)|].
  rewrite (av_dict_other _ _ _ _ E). apply IH.
Qed.

Lemma set_props_mem l : forall t, mem (set_props l t) = mem t.
Proof. induction l as [|kv l IH]; intros t; [done|]. apply (IH (setOutputProp kv.1 (Some kv.2) t)). Qed.

(** The dictionary of a configured transcoder without extra parameters. *)
Lemma configured_get i u pl t k : m_pOutProp t = [] ->
  av_dict_get (m_pOutProp (set_output_prop i u pl t)) k = last_prop (output_props i u pl) k.
Proof.
  intros Ht. unfold set_output_prop. rewrite get_set_props.
  destruct (has_prefix (b "vaapi") pl), (has_prefix (b "qsv") pl);
    unfold EnableVaapiPlugin, EnableQsvPlugin, wr; cbn [m_pOutProp]; rewrite Ht, av_dict_empty; apply option_eta.
Qed.

Lemma configured_mem i u pl t f : f <> m_vaapiPlugin -> f <> m_qsvPlugin ->
  mem (set_output_prop i u pl t) f = mem t f.
Proof.
  intros N1 N2. unfold set_output_prop. rewrite set_props_mem.
  destruct (has_prefix (b "vaapi") pl), (has_prefix (b "qsv") pl);
    unfold EnableVaapiPlugin, EnableQsvPlugin; rewrite ?mem_wr, ?decide_False by done; done.
Qed.

(** Tolerance-based encoding, when it initialises, adds its two keys and changes
    its own members. *)
Lemma enableTcae_run init t v : getMaxBitrate t = Some v -> mem t m_tcaeOn = 0 ->
  exists t', enableTcae init t = Some (0 <=? init, t') /\
  (forall k, av_dict_get (m_pOutProp t') k =
     match last_prop (if 0 <=? init then [(b "low_delay_brc", print_int 1);
                        (b "hrd_compliance", print_int FF_COMPLIANCE_UNOFFICIAL)] else []) k with
     | Some v => Some v | None => av_dict_get (m_pOutProp t) k end) /\
  (forall f, f <> m_tcae -> f <> m_tcaeOn -> mem t' f = mem t f).
Proof.
  intros E Z0. unfold enableTcae. rewrite E. cbn [mbind option_bind]. rewrite Z.ltb_antisym.
  destruct (0 <=? init); cbn [negb]; eexists; (split; [by rewrite ?Z0|]); split.
  - intros k. apply (get_set_props [(b "low_delay_brc", print_int 1); (b "hrd_compliance", _)] k (wr m_tcaeOn 1 (wr m_tcae 1 t))).
  - intros f N1 N2. cbn [mem setOutputProp]. by rewrite !mem_wr, !decide_False.
  - done.
  - intros f N1 N2. by rewrite mem_wr, decide_False.
Qed.

End Dict.

(** ** A start that succeeds *)

(** The streamer and its transcoder are set up as the stream information asks. *)
Record set_up `{AvDict} (info : IrrStreamInfo) (u pl : bytes) (tcae : bool) (s : IrrStreamer) (t : CTransCoder) : Prop := {
  su_trans : m_pTrans s = Some t;
  su_options : forall k, av_dict_get (m_pOutProp t) k = last_prop (final_props info u pl tcae) k;
  su_bitrate : convert_bitrate (bitrate (s_rc info)) = Some (mem t m_bitrate);
  su_gop : mem t m_gopSize = s_gop_size info;
  su_codec : mem t m_nCodec = codec_of_url u /\ m_nCodecId s = codec_of_url u;
  su_auth : m_auth s = s_auth info;
  su_tcae : m_tcaeEnabled s = tcae;
  su_settings : settings_ok t
}.

(** Tolerance-based encoding is asked for and initialises. *)
Definition tcae_runs (asked : bool) (en : start_env) : bool := asked && (0 <=? se_tcae en).

Section Succeed.
Context `{AvDict}.

(** The keys that the start itself reads. *)
Lemma final_props_read info u pl tcae : s_gop_size info <> 0 ->
  last_prop (final_props info u pl tcae) (b "b") = bitrate (s_rc info) /\
  last_prop (final_props info u pl tcae) (b "g") = Some (print_int (s_gop_size info)) /\
  last_prop (final_props info u pl tcae) (b "maxrate") = maxrate (s_rc info).
Proof.
  intros G. unfold final_props, output_props, codec_prop. rewrite !last_prop_app.
  destruct tcae, (s_codec info), (has_prefix (b "irrv:264") u), (has_prefix (b "irrv:265") u), (has_prefix (b "irrv:av1") u).
  all: cbn [last_prop fold_left fst snd].
  all: rewrite ?last_prop_str, ?last_prop_int, ?last_prop_if; keys; cbv iota.
  all: rewrite ?option_eta; rewrite (proj2 (Z.eqb_neq _ _)) by done; done.
Qed.

(** What a transcoder that was configured has in its members when it is started. *)
Lemma trans_start_run info u pl tcae t :
  (forall k, av_dict_get (m_pOutProp t) k = last_prop (final_props info u pl tcae) k) ->
  is_Some (convert_bitrate (bitrate (s_rc info))) -> 0 < s_gop_size info <= INT_MAX ->
  exists br fr, convert_bitrate (bitrate (s_rc info)) = Some br /\
    trans_start true t = Some (0, wr m_gopSize (s_gop_size info) (wr m_bitrate br t), fr).
Proof.
  intros T [br Hb] Hg. exists br. eexists. split; [done|].
  destruct (final_props_read info u pl tcae) as (Tb & Tg & _); [lia|].
  unfold trans_start, getInitBitrate, getInitGopSize. rewrite !T, Tb, Hb, Tg. cbn [mbind option_bind atoi_of].
  rewrite <- (right_id_L [] (++) (print_int _)), atoi_print by (lia || by left). reflexivity.
Qed.

Lemma start_trans_run en info u pl s d mux e :
  se_thread en = true -> s_exp_vid_param info = None -> m_auth s = false -> m_tcaeEnabled s = false ->
  is_Some (convert_bitrate (bitrate (s_rc info))) -> is_Some (convert_bitrate (maxrate (s_rc info))) ->
  0 < s_gop_size info <= INT_MAX ->
  exists e' s' t, start_trans en info u pl s d mux e = Some (0, e') /\
    e_world e' = set_streamer (Some s') (e_world e) /\
    set_up info u pl (tcae_runs (s_tcaeEnabled info) en) s' t /\ m_pMux s' = mux.
Proof.
  intros Hth Hx Ha Hc Hb [vm Hm] Hg. unfold start_trans. rewrite Hth, Hx.
  set (t0 := set_output_prop info u pl _).
  assert (T0 : forall k, av_dict_get (m_pOutProp t0) k = last_prop (final_props info u pl false) k).
  { intros k. unfold final_props. rewrite (right_id_L [] (++)). by apply configured_get. }
  assert (M0 : forall f, f <> m_vaapiPlugin -> f <> m_qsvPlugin -> f <> m_bSkipFrame ->
    mem t0 f = mem (CTransCoder_init (codec_of_url u)) f).
  { intros f N1 N2 N3. subst t0. rewrite configured_mem by done. unfold setSkipFrameFlag.
    by rewrite mem_wr, decide_False. }
  clearbody t0. set (on := tcae_runs _ en).
  assert (exists t1, (if s_tcaeEnabled info then enableTcae (se_tcae en) t0 else Some (m_tcaeEnabled s, t0))
      = Some (on, t1) /\
    (forall k, av_dict_get (m_pOutProp t1) k = last_prop (final_props info u pl on) k) /\
    (forall f, f <> m_tcae -> f <> m_tcaeOn -> mem t1 f = mem t0 f)) as (t1 & -> & T1 & M1).
  { subst on. destruct (s_tcaeEnabled info); cbn [tcae_runs andb]; [|by exists t0; rewrite Hc].
    destruct (enableTcae_run (se_tcae en) t0 vm) as (t1 & E & D & M).
    - unfold getMaxBitrate. rewrite T0. by destruct (final_props_read info u pl false) as (_ & _ & ->); [lia|].
    - by rewrite M0.
    - exists t1. split_and!; [done| |done]. intros k. rewrite D, T0. unfold final_props. rewrite !last_prop_app. done. }
  cbn [mbind option_bind]. destruct (trans_start_run info u pl on t1 T1 Hb Hg) as (br & fr & Eb & ->). cbn [mbind option_bind].
  do 3 eexists. split; [reflexivity|]. split; [reflexivity|]. split; [|done].
  assert (M : forall f, f <> m_vaapiPlugin -> f <> m_qsvPlugin -> f <> m_bSkipFrame -> f <> m_tcae -> f <> m_tcaeOn ->
    mem t1 f = mem (CTransCoder_init (codec_of_url u)) f) by (intros; by rewrite M1, M0).
  split; cbn [m_pTrans m_nCodecId m_auth m_tcaeEnabled started_streamer]; try done.
  - split; [by rewrite !mem_wr, !decide_False, M|done].
  - rewrite Ha. by destruct (s_auth info).
  - split; rewrite !mem_wr; [rewrite !decide_False, !M by done; by left| |rewrite decide_True by done; lia].
    rewrite !decide_False, M by done. change (1 <= 80 <= 100). lia.
Qed.

End Succeed.

(** The driver and the allocator give the blank surface. *)
Record driver_ready (a : answers) (h : hw) : Prop := {
  dr_fresh : fresh_answers a h;
  dr_memory : is_Some (a_surface a) /\ is_Some (a_srf a) /\ is_Some (a_memid a);
  dr_status : fst (a_create a) = 0 /\ a_sync a = 0 /\ a_derive a = 0 /\ a_map a = 0 /\ a_unmap a = 0 /\
    a_destroy_image a = 0
}.

Lemma size_ok_bounds w h : size_ok w h = true ->
  RESOLUTION_WIDTH_MIN <= w <= RESOLUTION_WIDTH_MAX /\ RESOLUTION_HEIGHT_MIN <= h <= RESOLUTION_HEIGHT_MAX.
Proof.
  unfold size_ok. rewrite negb_true_iff, !orb_false_iff, !Z.ltb_ge. lia.
Qed.

Lemma blank_ready va a w h hw_ : driver_ready a hw_ -> size_ok w h = true ->
  exists p h' s, irr_encoder_create_blank_surface va 1 a w h hw_ = Some (Some p, h') /\
    heap h' !! p = Some (CSurface s) /\ enc_type s = QSVSURFACE_ID /\ ref_count s = 0 /\
    i_width (info s) = w /\ i_height (info s) = h.
Proof.
  intros [[_ Fq Fm _ _] ([p Hp] & [q Hq] & [m Hm]) (Hc & H1 & H2 & H3 & H4 & H5)] Hs.
  apply size_ok_bounds in Hs. unfold RESOLUTION_WIDTH_MIN, RESOLUTION_WIDTH_MAX,
    RESOLUTION_HEIGHT_MIN, RESOLUTION_HEIGHT_MAX in Hs.
  rewrite Hp, Hq in *. destruct (Fq _ eq_refl) as [_ N1]. destruct (Fm _ Hm) as (_ & N2 & N3).
  assert (p <> q /\ p <> m /\ q <> m) as (?&?&?) by (split_and!; congruence).
  unfold irr_encoder_create_blank_surface, irr_encoder_create_surface, create_internal_surface, ZeroInitVASurface.
  rewrite Hp, Hq, Hm, Hc, H1, H2, H3, H4, H5. cbn -[MAX_PLANE_NUM lookup insert].
  unfold cbind, cret, cmodify, calloc, store, clift. cbn -[MAX_PLANE_NUM lookup insert mfx_info].
  rewrite !lookup_insert_ne, !lookup_insert_eq by done.
  unfold mfx_info, align16. rewrite !int_chk_Some by (unfold INT_MIN, INT_MAX; cbn; lia).
  cbn -[MAX_PLANE_NUM lookup insert].
  rewrite ?lookup_insert_ne, ?lookup_insert_eq by done. cbn -[MAX_PLANE_NUM lookup insert].
  rewrite ?lookup_insert_ne, ?lookup_insert_eq by done. cbn -[MAX_PLANE_NUM lookup insert].
  do 3 eexists. split; [reflexivity|]. cbn -[MAX_PLANE_NUM lookup insert]. rewrite lookup_insert_eq. done.
Qed.

Definition env_port (en : start_env) (i : encoder_info_t) : Z :=
  atoi_of (se_port en) 0 + 1000 + encoderInstanceID i.

(** A first start on a system that gives what is asked for: a port, a socket, a
    surface, a buffer that can hold a pointer, and a thread. *)
Record env_ready (en : start_env) (i : encoder_info_t) (e : enc) : Prop := {
  er_first : streamer (e_world e) = None /\ e_irrv e = 0 /\ e_aux e = 0;
  er_port : exists p, se_port en = Some p /\ INT_MIN <= atoi p /\ 0 <= encoderInstanceID i <= INT_MAX - 1000 /\
    atoi p <= INT_MAX - 1000 - encoderInstanceID i;
  er_aux : se_aux en = None;
  er_socket : 0 <= en_socket (se_init en) /\ 0 <= en_setsockopt (se_init en) /\ 0 <= en_ioctl (se_init en) /\
    0 <= en_bind (se_init en) (AInet (env_port en i)) /\ 0 <= en_listen (se_init en) /\
    en_malloc (se_init en) = true;
  er_server : session (se_addr en) (trace (e_world e)) = None;
  er_driver : driver_ready (se_surface en) (e_hw e);
  er_buffer : se_pool en = true /\ se_buf en = true /\ 8 <= se_img_size en (start_size i).1 (start_size i).2;
  er_thread : se_thread en = true
}.

Lemma size_ok_start i : size_ok (start_size i).1 (start_size i).2 = true.
Proof. unfold start_size. by destruct (size_ok (width i) (height i)) eqn:E. Qed.

(** The server is opened and its table entries are set. *)
Lemma irrv_servers_run en i e : env_ready en i e -> forall e1, e_world e1 = e_world e \/
    (exists s, e_world e1 = set_streamer s (e_world e)) -> e_irrv e1 = 0 -> e_aux e1 = 0 ->
  exists e', irrv_servers en (encoderInstanceID i) e1 = Some (Some (se_addr en, 0), e') /\
    client_of (se_addr en) (e_world e') = None /\ irrv_get_auth_state (se_addr en) (e_world e') = false /\
    trace (e_world e') = trace (e_world e1) /\ is_Some (servers (e_world e') !! se_addr en) /\
    e_pool e' = e_pool e1.
Proof.
  intros R e1 W I0 A0. destruct (er_port _ _ _ R) as (p & Ep & Hp1 & Hid & Hp2). unfold irrv_servers.
  rewrite int_chk_Some by (unfold INT_MIN, INT_MAX in *; lia). cbn [mbind option_bind]. rewrite Ep.
  rewrite (proj2 (Z.ltb_ge _ _)) by lia.
  rewrite (int_chk_Some (atoi p + 1000 + _)) by (unfold INT_MIN, INT_MAX in *; lia). cbn [mbind option_bind].
  unfold static_server, open_server, sock_server_init. rewrite I0, Z.eqb_refl.
  destruct (er_socket _ _ _ R) as (S1 & S2 & S3 & S4 & S5 & S6).
  unfold env_port in S4. rewrite Ep in S4. cbn [atoi_of] in S4.
  rewrite (proj2 (Z.ltb_ge _ _) S1), (proj2 (Z.ltb_ge _ _) S2), (proj2 (Z.ltb_ge _ _) S3).
  cbn [bind_address mbind option_bind].
  rewrite (proj2 (Z.ltb_ge _ _) S4), (proj2 (Z.ltb_ge _ _) S5), S6, (er_aux _ _ _ R), A0.
  cbn -[lookup insert repeat]. eexists. split; [reflexivity|]. unfold client_of, irrv_get_auth_state.
  cbn -[lookup insert repeat]. rewrite !lookup_insert_eq. by eauto.
Qed.

(** The blank packet is made. *)
Lemma init_blank_run en w h e s : streamer (e_world e) = Some s -> m_bQSVSurface s = true ->
  e_blank e = None -> e_pool e = None -> driver_ready (se_surface en) (e_hw e) -> size_ok w h = true ->
  se_pool en = true -> se_buf en = true -> 8 <= se_img_size en w h ->
  exists e', InitBlankFramePacket en w h e = Some (0, e') /\ e_world e' = e_world e.
Proof.
  intros Hs Hq Hb Hp Hd Hz P B I. unfold InitBlankFramePacket. rewrite Hb.
  replace (irr_get_QSVSurfaceFlag (e_world e)) with 1
    by (unfold irr_get_QSVSurfaceFlag, ask_streamer; by rewrite Hs, Hq).
  destruct (blank_ready (irr_get_VASurfaceFlag (e_world e)) _ w h _ Hd Hz)
    as (p & h' & sf & -> & Hl & Ht & Hc & Hw & Hh).
  cbn [mbind option_bind]. unfold load_surface. rewrite Hl. cbn [mbind option_bind].
  unfold generate_packet, pool_size. rewrite Hp, P, B, Ht, Hw, Hh, (proj2 (Z.leb_le _ _) I).
  cbn -[lookup insert]. unfold cbind, cret, on_hw, irr_encoder_ref_surface, cbind, load_surface, clift, store.
  cbn -[lookup insert]. rewrite ?Hl, ?Hc. change (int_chk (0 + 1)) with (Some 1). cbv iota beta. rewrite Hl. by eexists.
Qed.

Lemma rate_valid_rates r : rate_valid r ->
  is_Some (ratectrl r) /\ is_Some (convert_bitrate (bitrate r)) /\ is_Some (convert_bitrate (maxrate r)).
Proof.
  intros (mode & o & Em & Eo & F). split; [by eauto|]. pose proof (rate_needs_both _ _ Eo) as Eb.
  destruct F as [_ _ Fb Fm _ _ Fr]. destruct (need_bitrate o).
  - destruct (Fr eq_refl) as (vb & vm & E1 & E2 & _). by eauto.
  - rewrite Eb in *. rewrite Fb, Fm. by vm_compute; eauto.
Qed.

Lemma last_prop_tcae k (tcae : bool) :
  last_prop (if tcae then [(b "low_delay_brc", print_int 1); (b "hrd_compliance", print_int FF_COMPLIANCE_UNOFFICIAL)]
             else []) k =
  if strcaseeq k (b "low_delay_brc") then given_if tcae (b "1")
  else if strcaseeq k (b "hrd_compliance") then given_if tcae (b "-1") else None.
Proof. destruct tcae; cbn [last_prop fold_left fst snd]; repeat next_key; done. Qed.

Lemma last_prop_codec k u c :
  last_prop (match c with Some c => [(b "c", c)] | None => codec_prop u true end) k =
  if strcaseeq k (b "c") then match c with Some c => Some c | None => qsv_encoder u end else None.
Proof.
  unfold codec_prop, qsv_encoder. destruct c; cbn [last_prop fold_left fst snd]; [done|].
  destruct (has_prefix (b "irrv:264") u), (has_prefix (b "irrv:265") u), (has_prefix (b "irrv:av1") u);
    cbn [last_prop fold_left fst snd]; by destruct (strcaseeq k (b "c")).
Qed.

(** What the information gives the dictionary is what the table asks for. *)
Lemma props_table info i u pl tcae k : has_prefix (b "qsv") pl = true ->
  s_rc info = rate_contrl_param i -> s_max_frame_size info = max_frame_size i -> s_codec info = codec i ->
  s_profile info = profile i -> s_level info = level i -> s_framerate info = framerate i ->
  s_gop_size info = gop_size i -> 0 < gop_size i -> s_quality info = quality i -> 1 <= quality i ->
  s_slices info = slices i -> s_low_power info = (if low_power i =? 0 then 0 else 1) ->
  s_skip_frame info = skip_frame i -> s_low_delay_brc info = low_delay_brc i ->
  s_filter_nbthreads info = filter_nbthreads i -> s_sei info = (if 0 <? sei i then sei i else 0) ->
  s_ref info = (match int_ref_type (ref_info i) with Some _ => ref_info i
                | None => {| int_ref_type := None; int_ref_cycle_size := 0; int_ref_qp_delta := 0 |} end) ->
  (s_width info, s_height info) = start_size i ->
  last_prop (final_props info u pl tcae) k = table_value (option_table i u tcae) k.
Proof.
  intros Hpl E1 E2 E3 E4 E5 E6 E7 Hg E8 Hq E9 E10 E11 E12 E13 E14 E15 E16.
  unfold final_props, output_props, getStringResolution.
  rewrite Hpl, E1, E2, E3, E4, E5, E6, E7, E8, E9, E10, E11, E12, E13, E14, E15. cbn [andb].
  assert (s_width info = (start_size i).1 /\ s_height info = (start_size i).2) as [-> ->] by (by rewrite <- E16).
  unfold option_table, table_value. rewrite !last_prop_app, last_prop_tcae, last_prop_codec.
  rewrite !last_prop_str, !last_prop_int, !last_prop_if.
  assert ((gop_size i =? 0) = false /\ (quality i =? 0) = false /\ ((start_size i).1 =? 0) = false /\
    ((start_size i).2 =? 0) = false) as (-> & -> & -> & ->).
  { pose proof (size_ok_bounds _ _ (size_ok_start i)) as B.
    unfold RESOLUTION_WIDTH_MIN, RESOLUTION_HEIGHT_MIN in B. rewrite !Z.eqb_neq. lia. }
  repeat next_key.
  all: rewrite ?option_eta; try done.
  all: unfold given, given_if; try by destruct tcae, (int_ref_type (ref_info i)) eqn:?, (low_power i =? 0).
  all: destruct (Z.ltb_spec 0 (sei i)); rewrite ?Z.testbit_0_l, ?Z.max_r, ?Z.max_l by lia; by destruct tcae.
Qed.

Section Whole.
Context `{AvDict}.

(** Stream information that the QSV path accepts, with a url of the protocol. *)
Record startable (info : IrrStreamInfo) (u pl : bytes) : Prop := {
  sa_flags : s_bVASurface info = false /\ s_bQSVSurface info = true;
  sa_given : is_Some (s_framerate info) /\ s_plugin info = Some pl /\ s_url info = Some u;
  sa_mux : choose_mux u = MuxIrrv;
  sa_extra : s_exp_vid_param info = None;
  sa_rates : is_Some (convert_bitrate (bitrate (s_rc info))) /\ is_Some (convert_bitrate (maxrate (s_rc info)));
  sa_gop : 0 < s_gop_size info <= INT_MAX
}.

Lemma irrv_url u : has_prefix (b "irrv") u = true -> choose_mux u = MuxIrrv.
Proof.
  intros Hpre. unfold choose_mux. rewrite Hpre. destruct u as [|x u]; [done|].
  destruct (Z.eq_dec x 105) as [->|N]; [done|]. exfalso. revert Hpre. cbn [has_prefix].
  unfold b. cbn. intros [H1 _]%andb_prop. apply Z.eqb_eq in H1. cbn in H1. lia.
Qed.

(** Checked options give such information, and what is set from it is the table. *)
Lemma stream_info_run i u a a2 :
  options_valid i -> qsv_asked i = true -> has_prefix (b "irrv") u = true -> exp_vid_param i = None ->
  gop_size i <= INT_MAX ->
  exists info pl, stream_info i (start_size i).1 (start_size i).2 u a a2 = Some info /\ startable info u pl /\
    s_opaque info = a /\ s_opaque2 info = a2 /\ s_rc info = rate_contrl_param i /\
    s_gop_size info = gop_size i /\ s_auth info = auth i /\ s_tcaeEnabled info = tcaeEnabled i /\
    forall tcae k, last_prop (final_props info u pl tcae) k = table_value (option_table i u tcae) k.
Proof.
  intros V Hq Hpre Hx Hg. destruct (rate_valid_rates _ (ov_rate _ V)) as ([rm Hrc] & Rb & Rm).
  assert (exists pl, plugin i = Some pl /\ encodeType i = VASURFACE_ID /\ has_prefix (b "qsv") pl = true)
    as (pl & Epl & Eet & Hpl).
  { unfold qsv_asked in Hq. destruct (encodeType i), (plugin i); try done. by eauto. }
  pose proof (ov_gop _ V) as Og. pose proof (ov_quality _ V) as Oq.
  unfold stream_info. rewrite Eet, Epl. cbn [mbind option_bind]. rewrite Hpl, Hrc.
  rewrite (proj2 (Z.ltb_lt 0 (gop_size i))) by lia.
  rewrite (proj2 (Z.leb_gt (quality i) 0)), (proj2 (Z.ltb_ge 7 (quality i))) by lia. cbn [orb].
  eexists _, pl. split; [reflexivity|].
  split; [split; cbn -[convert_bitrate choose_mux]; try done|split_and!; try done].
  - pose proof (ov_framerate _ V) as F. destruct (framerate i); [by eauto|cbn in F; lia].
  - by apply irrv_url.
  - intros tcae k. apply props_table; cbn -[start_size]; rewrite ?Hpl; try done; try lia. by destruct (start_size i).
Qed.

(** [irr_stream_start] on a registered streamer. *)
Lemma stream_start_run en info u pl e w h :
  streamer (e_world e) = Some (IrrStreamer_new w h 30) -> e_blank e = None -> e_pool e = None ->
  startable info u pl -> driver_ready (se_surface en) (e_hw e) -> size_ok w h = true ->
  se_pool en = true -> se_buf en = true -> 8 <= se_img_size en w h -> se_thread en = true ->
  exists e' s t, irr_stream_start en info e = Some (0, e') /\
    e_world e' = set_streamer (Some s) (e_world e) /\ set_up info u pl (tcae_runs (s_tcaeEnabled info) en) s t /\
    m_pMux s = Some (s_opaque info, s_opaque2 info).
Proof.
  intros Hs Hb Hp [[Fv Fq] ([fr Hfr] & Hpl & Hu) Hm Hx [Rb Rm] Hg] Hd Hz P B I Th.
  unfold irr_stream_start, streamer_start. rewrite Hs, Fv, Fq. cbn [e_world set_world streamer set_streamer].
  rewrite bool_decide_eq_false_2 by (intros [? [=]]). rewrite Hfr. cbn [mbind option_bind].
  set (e1 := if s_pix_format info =? AV_PIX_FMT_BGRA then _ else _).
  assert (e_world e1 = set_streamer (Some (setQSVSurfaceFlag true (IrrStreamer_new w h 30))) (e_world e) /\
    e_blank e1 = None /\ e_pool e1 = None /\ e_hw e1 = e_hw e) as (A1 & A2 & A3 & A4).
  { subst e1. by destruct (s_pix_format info =? AV_PIX_FMT_BGRA). }
  clearbody e1. rewrite <- A4 in Hd.
  destruct (init_blank_run en w h e1 (setQSVSurfaceFlag true (IrrStreamer_new w h 30)))
    as (e2 & E2 & W2); try done; [by rewrite A1|].
  change (InitBlankFramePacket en _ _ e1) with (InitBlankFramePacket en w h e1). rewrite E2. cbn [mbind option_bind]. rewrite Z.eqb_refl, Hpl, Hu.
  cbn [negb mbind option_bind]. rewrite Hm.
  match goal with |- context [start_trans en info u pl ?s ?d ?m e2] =>
    destruct (start_trans_run en info u pl s d m e2) as (e3 & s3 & t & -> & W3 & C & M); try done end.
  exists e3, s3, t. split_and!; try done. by rewrite W3, W2, A1.
Qed.

(** The streamer and its transcoder are set up as the caller's options ask. *)
Record configured (i : encoder_info_t) (u : bytes) (tcae : bool) (s : IrrStreamer) (t : CTransCoder) : Prop := {
  cf_trans : m_pTrans s = Some t;
  cf_options : forall k, av_dict_get (m_pOutProp t) k = table_value (option_table i u tcae) k;
  cf_bitrate : convert_bitrate (bitrate (rate_contrl_param i)) = Some (mem t m_bitrate);
  cf_gop : mem t m_gopSize = gop_size i;
  cf_codec : mem t m_nCodec = codec_of_url u /\ m_nCodecId s = codec_of_url u;
  cf_auth : m_auth s = auth i;
  cf_tcae : m_tcaeEnabled s = tcae;
  cf_settings : settings_ok t
}.


End Whole.

(** *** Examples *)

(** The checked sample with the QSV plug-in. *)
Definition qsv_options : encoder_info_t :=
  put sample_checked
    {| c_url := url sample_checked; c_rc := rate_contrl_param sample_checked; c_profile := profile sample_checked;
       c_level := level sample_checked; c_roi := roi_info sample_checked; c_framerate := framerate sample_checked;
       c_max_frame_size := max_frame_size sample_checked; c_gop_size := gop_size sample_checked;
       c_slices := slices sample_checked; c_quality := quality sample_checked;
       c_minfps_enc := minfps_enc sample_checked; c_low_delay_brc := low_delay_brc sample_checked;
       c_plugin := Some (b "qsv") |}.

Definition sample_init : init_env :=
  {| en_socket := 9; en_setsockopt := 0; en_ioctl := 0; en_bind := fun _ => 0; en_listen := 0; en_malloc := true |}.
Definition sample_env : start_env :=
  {| se_port := Some (b "23432"); se_aux := None; se_init := sample_init; se_init2 := sample_init;
     se_addr := 77; se_addr2 := 78; se_surface := sample_answers; se_img_size := fun w h => w * h * 4;
     se_pool := true; se_buf := true; se_tcae := 0; se_thread := true |}.
Definition enc0 : enc :=
  {| e_world := world0 None; e_hw := hw0; e_irrv := 0; e_aux := 0; e_pool := None; e_blank := None;
     e_pixfmt := AV_PIX_FMT_RGBA; e_writer := None; e_demux_freed := false; e_framerate := None |}.

Lemma sample_ready : env_ready sample_env qsv_options enc0.
Proof.
  split; try done.
  - exists (b "23432"). vm_compute. by split_and!.
  - split; [exact sample_fresh|by cbn; eauto|done].
Qed.

Lemma only_qsv_starts_witness :
  exists i' e', irr_encoder_start sample_env sample_checked enc0 = Some ((AVERROR EINVAL, i'), e') /\
    irr_encoder_stop e' = None.
Proof.
  destruct (irr_encoder_start sample_env sample_checked enc0) as [[[r i'] e']|] eqn:E; [|vm_compute in E; discriminate].
  exists i', e'. split; [vm_compute in E; injection E as <- <- <-; reflexivity|].
  apply (only_qsv_starts sample_env sample_checked enc0 r i' e'); [vm_compute; reflexivity|exact E].
Defined.


(** ** Pixels and extra parameters *)

(** The rows of a picture. *)
Fixpoint rows (n stride : nat) (p : bytes) : list bytes :=
  match n with O => [] | S n => take stride p :: rows n stride (drop stride p) end.

Lemma flip_rows_rev n stride : forall p, flip_rows n stride p = concat (rev (rows n stride p)).
Proof.
  induction n as [|n IH]; intros p; [done|]. cbn [flip_rows rows rev]. rewrite IH, concat_app. cbn.
  by rewrite (right_id_L [] (++)).
Qed.

Lemma rows_concat n stride : forall p, length p = (n * stride)%nat -> concat (rows n stride p) = p.
Proof.
  induction n as [|n IH]; intros p Hp; cbn [rows concat]; [by destruct p|].
  rewrite IH by (rewrite length_drop; lia). apply take_drop.
Qed.

Lemma rows_of_concat stride l : Forall (fun r => length r = stride) l -> rows (length l) stride (concat l) = l.
Proof.
  induction 1 as [|r l Hr Hl IH]; [done|]. cbn [length rows concat].
  by rewrite <- Hr, take_app_length, drop_app_length, Hr, IH.
Qed.

Lemma rows_length n stride : forall p, length p = (n * stride)%nat ->
  length (rows n stride p) = n /\ Forall (fun r => length r = stride) (rows n stride p).
Proof.
  induction n as [|n IH]; intros p Hp; [done|]. cbn [rows length].
  destruct (IH (drop stride p)) as [-> H]; [rewrite length_drop; lia|]. split; [done|].
  constructor; [|done]. rewrite length_take. lia.
Qed.

(** Flipping twice gives the picture back. *)
Lemma flip_rows_involutive n stride p : length p = (n * stride)%nat ->
  flip_rows n stride (flip_rows n stride p) = p.
Proof.
  intros Hp. destruct (rows_length n stride p Hp) as [Hl Hr].
  rewrite (flip_rows_rev n stride (flip_rows n stride p)), (flip_rows_rev n stride p).
  assert (rows n stride (concat (rev (rows n stride p))) = rev (rows n stride p)) as ->.
  { rewrite <- Hl at 1. rewrite <- length_rev. apply rows_of_concat. by apply Forall_rev. }
  rewrite rev_involutive. by apply rows_concat.
Qed.

(** Pixels are copied row by row into a buffer that must hold them.  With a
    pool of buffers of [n] bytes (sized by the first surface and never again),
    [generate_packet] on a picture of pixels of four bytes makes a packet with
    exactly the pixels, their rows in reverse order when the surface asks for a
    flip, if the picture has at most [n] bytes; a picture larger than the first
    one is written past the buffer.  Flipping twice gives the picture back. *)
Theorem pixel_packets img init n s flip p ctrl :
  enc_type s = DATA_BUFFER -> 0 <= i_width (info s) -> 0 <= i_height (info s) ->
  i_width (info s) * 4 <= INT_MAX ->
  Z.of_nat (length p) = i_width (info s) * 4 * i_height (info s) -> Z.of_nat (length p) <= INT_MAX ->
  let h := Z.to_nat (i_height (info s)) in
  let stride := Z.to_nat (i_width (info s) * 4) in
  generate_packet img init true (Some n) s flip (Some p) ctrl =
    (if Z.of_nat (length p) <=? n
     then Some (0, Some n, Some {| pk_payload := PData (if flip then concat (rev (rows h stride p)) else p);
                                   pk_size := n; pk_ctrl := ctrl |})
     else None) /\
  flip_rows h stride (flip_rows h stride p) = p.
Proof.
  intros Ht Hw Hh Hs Hl Hm h stride.
  assert (length p = (h * stride)%nat) as Hp by (subst h stride; lia).
  split; [|by apply flip_rows_involutive].
  unfold generate_packet, copy_pixels, pool_size. rewrite Ht. cbn [negb andb].
  rewrite andb_false_intro1 by (by apply bool_decide_eq_false_2).
  rewrite int_chk_Some by (unfold INT_MIN; lia). cbn [mbind option_bind].
  rewrite int_chk_Some by (unfold INT_MIN; lia). cbn [mbind option_bind].
  rewrite <- Hl, (proj2 (Z.leb_le 0 _)), Z.leb_refl, andb_true_r by lia. cbn [andb].
  destruct (Z.of_nat (length p) <=? n); [|done]. rewrite Nat2Z.id, take_ge by lia.
  cbn. by rewrite flip_rows_rev.
Qed.

(** Two pixels in two rows. *)
Definition pixel_surface : irr_surface_t :=
  {| info := {| i_type := BUFFER; i_format := 0; i_width := 1; i_height := 2; i_stride0 := 4; i_offset1 := 0;
                i_fd := []; i_pdata := None; i_data_size := 8 |};
     ref_count := 1; vaSurfaceID := 0; enc_type := DATA_BUFFER; mfxSurf := None |}.

Lemma pixel_packets_witness :
  generate_packet (fun _ _ => 8) true true (Some 8) pixel_surface true (Some [1; 2; 3; 4; 5; 6; 7; 8]) None =
    Some (0, Some 8, Some {| pk_payload := PData [5; 6; 7; 8; 1; 2; 3; 4]; pk_size := 8; pk_ctrl := None |}) /\
  generate_packet (fun _ _ => 8) true true (Some 7) pixel_surface true (Some [1; 2; 3; 4; 5; 6; 7; 8]) None = None.
Proof.
  split.
  - apply (pixel_packets (fun _ _ => 8) true 8 pixel_surface true [1; 2; 3; 4; 5; 6; 7; 8] None);
      vm_compute; try reflexivity; discriminate.
  - apply (pixel_packets (fun _ _ => 8) true 7 pixel_surface true [1; 2; 3; 4; 5; 6; 7; 8] None);
      vm_compute; try reflexivity; discriminate.
Defined.

(** [key=value] pairs written one after the other with colons between them. *)
Fixpoint join_pairs (l : list (bytes * bytes)) : bytes :=
  match l with
  | [] => []
  | [kv] => kv.1 ++ CH_EQ :: kv.2
  | kv :: l => (kv.1 ++ CH_EQ :: kv.2) ++ CH_COLON :: join_pairs l
  end.

(** A pair that can be written so. *)
Definition plain_pair (kv : bytes * bytes) : Prop :=
  Forall (fun c => c <> CH_COLON) kv.1 /\ Forall (fun c => c <> CH_EQ) kv.1 /\ Forall (fun c => c <> CH_COLON) kv.2.

Lemma plain_pair_no_colon kv : plain_pair kv -> Forall (fun c => c <> CH_COLON) (kv.1 ++ CH_EQ :: kv.2).
Proof. intros (H1 & _ & H2). apply Forall_app. split; [done|]. by constructor. Qed.

Lemma exp_props_join l : Forall plain_pair l -> forall fuel, (length (join_pairs l) < fuel)%nat ->
  exp_props fuel (join_pairs l) = l.
Proof.
  induction 1 as [|kv l Hkv Hl IH]; intros [|fuel] F; try lia; [done|].
  pose proof (plain_pair_no_colon _ Hkv) as Hc. destruct Hkv as (H1 & H2 & H3). destruct l as [|kv' l].
  - cbn [join_pairs exp_props]. rewrite (strchr_none _ _ Hc), (strchr_app _ _ _ H2).
    rewrite bool_decide_eq_true_2 by done. by destruct kv.
  - change (join_pairs (kv :: kv' :: l)) with ((kv.1 ++ CH_EQ :: kv.2) ++ CH_COLON :: join_pairs (kv' :: l)) in *.
    rewrite length_app in F. cbn [length] in F. cbn [exp_props].
    rewrite (strchr_app _ _ _ Hc), (strchr_app _ _ _ H2).
    rewrite bool_decide_eq_false_2, IH; [by destruct kv|lia|].
    destruct l; cbn [join_pairs]; by destruct kv' as [[|? ?] ?].
Qed.

(** Extra parameters written as pairs are read back as the same pairs, in order. *)
Theorem extra_props_roundtrip l : Forall plain_pair l -> extra_props (Some (join_pairs l)) = l.
Proof. intros H. apply exp_props_join; [done|]. lia. Qed.
