(* ===== verification/VideoDemux.v ===== *)
(** * VideoDemux: from a rendered surface to the encoding thread

    Models [src/sources/encoder/shared/CIrrVideoDemux.cpp] ([sendPacket],
    [readPacket], [stop]), [IrrStreamer::write] of [IrrStreamer.cpp] and
    [irr_encoder_write] of [encoder.cpp].  The renderer's thread sends packets and
    the encoding thread reads them, at its own pace or at the renderer's; both
    hold the demuxer's mutex while they touch the packet, so a send and the end
    of a read (after the wait, which releases the mutex) are the steps of an
    interleaving.  The clock, FFmpeg's answers and the driver's answers are
    arguments; the latency statistics ([ProfTimer]) are left out. *)

From Stdlib Require Import ZArith Lia.
From stdpp Require Import base list.
From S2P Require Import Prelude StdMap TransCoder IrrWorld IrrStreamer EncoderOpts Surface RuntimeWriter StreamStart.

(** ** State *)

(** [dm_pkt] is the buffer of [m_Pkt], [dm_ctrl] its display control, and
    [dm_frame_mcs] the time of a frame at the stream's rate. *)
Record CIrrVideoDemux := {
  dm_pkt : option payload; dm_ctrl : option Z;
  m_nPrevPts : Z; m_totalWaitMcs : Z; m_stop : bool; m_notified : bool;
  dm_renderfps : bool; dm_minfps : Z; dm_frame_mcs : Z; dm_vasurface : bool;
  dm_writer : option IORuntimeWriter
}.

Definition NEW_FRAME_WAIT_TIMEOUT_MCS : Z := 1000000.
Definition AVERROR_INVALIDDATA : Z := -1094995529.

(** The constructor takes over the blank packet. *)
Definition CIrrVideoDemux_new (frame_mcs : Z) (pkt : IrrPacket) : CIrrVideoDemux :=
  {| dm_pkt := Some (pk_payload pkt); dm_ctrl := None; m_nPrevPts := 0; m_totalWaitMcs := 0;
     m_stop := false; m_notified := false; dm_renderfps := true; dm_minfps := 0; dm_frame_mcs := frame_mcs;
     dm_vasurface := false; dm_writer := None |}.

Definition set_packet (p : option payload) (c : option Z) (n : bool) (d : CIrrVideoDemux) : CIrrVideoDemux :=
  {| dm_pkt := p; dm_ctrl := c; m_nPrevPts := m_nPrevPts d; m_totalWaitMcs := m_totalWaitMcs d;
     m_stop := m_stop d; m_notified := n; dm_renderfps := dm_renderfps d; dm_minfps := dm_minfps d;
     dm_frame_mcs := dm_frame_mcs d; dm_vasurface := dm_vasurface d; dm_writer := dm_writer d |}.
Definition set_clock (pts total : Z) (wr : option IORuntimeWriter) (d : CIrrVideoDemux) : CIrrVideoDemux :=
  {| dm_pkt := dm_pkt d; dm_ctrl := dm_ctrl d; m_nPrevPts := pts; m_totalWaitMcs := total;
     m_stop := m_stop d; m_notified := m_notified d; dm_renderfps := dm_renderfps d; dm_minfps := dm_minfps d;
     dm_frame_mcs := dm_frame_mcs d; dm_vasurface := dm_vasurface d; dm_writer := wr |}.

(** ** Operations *)

(** [stop]: the reader's wait does not test [m_stop]. *)
Definition stop (d : CIrrVideoDemux) : CIrrVideoDemux :=
  {| dm_pkt := dm_pkt d; dm_ctrl := dm_ctrl d; m_nPrevPts := m_nPrevPts d; m_totalWaitMcs := m_totalWaitMcs d;
     m_stop := true; m_notified := m_notified d; dm_renderfps := dm_renderfps d; dm_minfps := dm_minfps d;
     dm_frame_mcs := dm_frame_mcs d; dm_vasurface := dm_vasurface d; dm_writer := dm_writer d |}.

(** [sendPacket]: the packet replaces the one not read; a control that was not
    read stays unless there is a new one. *)
Definition sendPacket (pkt : IrrPacket) (d : CIrrVideoDemux) : CIrrVideoDemux :=
  set_packet (Some (pk_payload pkt)) (match pk_ctrl pkt with Some c => Some c | None => dm_ctrl d end) true d.

(** The time [readPacket] waits when it is called at [curr]. *)
Definition read_wait (curr : Z) (d : CIrrVideoDemux) : Z :=
  if negb (dm_renderfps d) then Z.max (dm_frame_mcs d - (curr - m_nPrevPts d)) 0
  else if negb (dm_minfps d =? 0) then Z.quot 1000000 (dm_minfps d)
  else NEW_FRAME_WAIT_TIMEOUT_MCS.

(** What the reader gets. *)
Record read_packet := { rp_payload : payload; rp_ctrl : option Z; rp_pts : Z }.

(** The waiting time after a read. *)
Definition total_wait (wait : Z) (d : CIrrVideoDemux) : Z :=
  let total := if m_notified d || m_stop d then 0 else m_totalWaitMcs d + wait in
  if NEW_FRAME_WAIT_TIMEOUT_MCS <=? total then 0 else total.

(** What is recorded of the input: the VA surface (its pixels come from the
    driver, [im]) or the bytes of the packet's buffer, [raw]. *)
Definition dump_data (d : CIrrVideoDemux) (im : va_image) (raw : bytes) : IORuntimeData :=
  {| type := if dm_vasurface d then VAAPI_SURFACE else SYSTEM_BLOCK; data := Some raw; blk := [];
     key_frame := false; image := im |}.

Definition dump_input (d : CIrrVideoDemux) (im : va_image) (raw : bytes) : option (option IORuntimeWriter) :=
  match dm_writer d with
  | None => Some None
  | Some w =>
      if getRuntimeWriterStatus w =? STOPPED then Some (Some w)
      else '(_, w) ← submitRuntimeData INPUT (dump_data d im raw) w; Some (Some w)
  end.

(** The end of [readPacket], after [wait] with the mutex taken again: [ref] is
    what [av_packet_ref] answers, [now] the clock. *)
Definition readPacket (wait now ref : Z) (im : va_image) (raw : bytes) (d : CIrrVideoDemux)
    : option (Z * option read_packet * CIrrVideoDemux) :=
  let total := total_wait wait d in
  match dm_pkt d with
  | None => Some (AVERROR_INVALIDDATA, None, set_packet None (dm_ctrl d) false (set_clock (m_nPrevPts d) total (dm_writer d) d))
  | Some p =>
      wr ← dump_input d im raw;
      Some (ref, Some {| rp_payload := p; rp_ctrl := dm_ctrl d; rp_pts := now |},
            set_packet (Some p) None false (set_clock now total wr d))
  end.

(** ** Writing a surface *)

(** [IrrStreamer::write]: the pool, the demuxer ([None] when there is none) and
    the answers of FFmpeg. *)
Definition streamer_write (img_size : Z -> Z -> Z) (init get : bool) (pool : option Z) (s : irr_surface_t)
    (flip : bool) (pixels : option bytes) (ctrl : option Z) (d : option CIrrVideoDemux)
    : option (Z * option Z * option CIrrVideoDemux) :=
  match d with
  | None => Some (AVERROR EINVAL, pool, None)
  | Some d =>
      '(ret, pool, pkt) ← generate_packet img_size init get pool s flip pixels ctrl;
      match pkt with
      | Some pkt => if ret =? 0 then Some (0, pool, Some (sendPacket pkt d)) else Some (ret, pool, Some d)
      | None => Some (ret, pool, Some d)
      end
  end.

(** The driver's answers when pixels are fetched from a surface: the statuses,
    the mapped memory from the first plane's offset, and [malloc]. *)
Record fetch_env := {
  fe_derive : Z; fe_map : Z; fe_unmap : Z; fe_destroy : Z; fe_mem : option bytes; fe_malloc : bool
}.

(** The pixels of an [FD] surface, copied to [pdata]: the return value (0 to go
    on), the size and the pixels. *)
Definition fetch_pixels (fe : fetch_env) (s : irr_surface_t) (size : Z) (pdata : option bytes)
    : option (Z * Z * option bytes) :=
  if negb (fe_derive fe =? VA_STATUS_SUCCESS) then Some (-1, size, pdata)
  else if negb (fe_map fe =? VA_STATUS_SUCCESS) then Some (-1, size, pdata)
  else
    '(size, pdata) ← match pdata with
                     | Some p => Some (size, Some p)
                     | None => n ← int_chk (i_stride0 (info s) * i_height (info s));
                               Some (n, if fe_malloc fe then Some [] else None)
                     end;
    pdata ← match pdata, fe_mem fe with
            | Some _, Some m => if (0 <=? size) && (size <=? Z.of_nat (length m))
                                then Some (Some (take (Z.to_nat size) m)) else None
            | _, _ => Some pdata
            end;
    if negb (fe_unmap fe =? VA_STATUS_SUCCESS) then Some (-1, size, pdata)
    else if negb (fe_destroy fe =? VA_STATUS_SUCCESS) then Some (-1, size, pdata)
    else Some (0, size, pdata).

(** The type of surface the flags ask for. *)
Definition flag_type (va qsv : Z) : option encode_type :=
  if va =? 1 then Some VASURFACE_ID
  else if qsv =? 1 then Some QSVSURFACE_ID
  else if (va =? 0) && (qsv =? 0) then Some DATA_BUFFER
  else None.

Definition with_type (ty : encode_type) (s : irr_surface_t) : irr_surface_t :=
  {| info := info s; ref_count := ref_count s; vaSurfaceID := vaSurfaceID s; enc_type := ty; mfxSurf := mfxSurf s |}.

(** [irr_encoder_write]; [streamer] says whether one is registered, [size] and
    [pdata] are the surface's pixel buffer.  The result gives the surface with its
    new type and its pixel buffer, the pool and the demuxer. *)
Definition irr_encoder_write (streamer : bool) (va qsv : Z) (fe : fetch_env) (img_size : Z -> Z -> Z)
    (init get : bool) (pool : option Z) (s : irr_surface_t) (size : Z) (pdata : option bytes) (flip : bool)
    (ctrl : option Z) (d : option CIrrVideoDemux)
    : option (Z * irr_surface_t * (Z * option bytes) * option Z * option CIrrVideoDemux) :=
  if negb streamer then Some (-1, s, (size, pdata), pool, d)
  else match flag_type va qsv with
       | None => Some (AVERROR EINVAL, s, (size, pdata), pool, d)
       | Some ty =>
           let s := with_type ty s in
           '(ret, size, pdata) ← match ty, i_type (info s) with
                                 | DATA_BUFFER, FD => fetch_pixels fe s size pdata
                                 | _, _ => Some (0, size, pdata)
                                 end;
           if negb (ret =? 0) then Some (ret, s, (size, pdata), pool, d)
           else '(ret, pool, d) ← streamer_write img_size init get pool s flip pdata ctrl d;
                Some (ret, s, (size, pdata), pool, d)
       end.

(** *** The rest of the encoder's interface: calls of the streamer *)

Definition irr_encoder_change_codec := irr_stream_change_codec.
Definition irr_encoder_change_resolution := irr_stream_change_resolution.
Definition irr_encoder_set_alpha_channel_mode := irr_stream_set_alpha_channel_mode.
Definition irr_encoder_set_buffer_size := irr_stream_set_buffer_size.
Definition irr_encoder_get_VASurfaceFlag := irr_get_VASurfaceFlag.
Definition irr_encoder_get_QSVSurfaceFlag := irr_get_QSVSurfaceFlag.
Definition irr_encoder_get_framerate := irr_stream_get_framerate.
Definition irr_encoder_set_encode_renderfps_flag := irr_stream_set_encode_renderfps_flag.
Definition irr_encoder_get_encode_renderfps_flag := irr_stream_get_encode_renderfps_flag.
Definition irr_encoder_set_skipframe := irr_stream_set_skipframe.
Definition irr_encoder_get_skipframe := irr_stream_get_skipframe.

(** ** Interleavings *)

Inductive devent :=
  | DSend (p : IrrPacket)
  | DRead (wait now ref : Z) (im : va_image) (raw : bytes)
  | DStop.

(** The packets read and the state after some events. *)
Fixpoint drun (evs : list devent) (d : CIrrVideoDemux) : option (list (option read_packet) * CIrrVideoDemux) :=
  match evs with
  | [] => Some ([], d)
  | DSend p :: evs => drun evs (sendPacket p d)
  | DStop :: evs => drun evs (stop d)
  | DRead wait now ref im raw :: evs =>
      '(_, r, d) ← readPacket wait now ref im raw d;
      '(rs, d) ← drun evs d; Some (r :: rs, d)
  end.

(** The last packet sent. *)
Definition last_payload (p : payload) (evs : list devent) : payload :=
  fold_left (fun p e => match e with DSend q => pk_payload q | _ => p end) evs p.

(** The last control sent since the last read. *)
Definition pending (c : option Z) (evs : list devent) : option Z :=
  fold_left (fun c e => match e with
    | DSend q => match pk_ctrl q with Some x => Some x | None => c end
    | DRead _ _ _ _ _ => None
    | DStop => c end) evs c.

(** A read of a demuxer that has a packet always succeeds. *)
Lemma readPacket_run wait now ref im raw d p : dm_pkt d = Some p -> exists wr,
  readPacket wait now ref im raw d =
    Some (ref, Some {| rp_payload := p; rp_ctrl := dm_ctrl d; rp_pts := now |},
          set_packet (Some p) None false (set_clock now (total_wait wait d) wr d)).
Proof.
  intros Hp. unfold readPacket. rewrite Hp. unfold dump_input. destruct (dm_writer d) as [w|]; [|by eexists].
  destruct (getRuntimeWriterStatus w =? STOPPED); [by eexists|].
  destruct (submit_step INPUT (dump_data d im raw) w) as (w' & r & -> & _). by eexists.
Qed.

Lemma drun_state evs : forall d p, dm_pkt d = Some p -> exists outs d', drun evs d = Some (outs, d') /\
  dm_pkt d' = Some (last_payload p evs) /\ dm_ctrl d' = pending (dm_ctrl d) evs /\
  dm_frame_mcs d' = dm_frame_mcs d /\ dm_renderfps d' = dm_renderfps d.
Proof.
  induction evs as [|e evs IH]; intros d p Hp; [by exists [], d|]. destruct e as [q|wait now ref im raw|]; cbn [drun].
  - exact (IH (sendPacket q d) (pk_payload q) eq_refl).
  - destruct (readPacket_run wait now ref im raw d p Hp) as [wr ->]. cbn [mbind option_bind].
    match goal with |- context [drun evs ?d1] => destruct (IH d1 p eq_refl) as (outs & d' & -> & H) end.
    cbn [mbind option_bind]. by do 2 eexists.
  - exact (IH (stop d) p Hp).
Qed.

(** The encoder reads the latest frame and loses no control.  After any
    interleaving of sends, reads and stops on a demuxer that holds a packet (it
    is made with the blank one), a read succeeds with the packet sent last (the
    older ones are dropped, and without a new one the last is read again), and
    with the last display control sent since the last read, even when later
    packets came without a control. *)
Theorem read_latest evs d p wait now ref im raw :
  dm_pkt d = Some p ->
  exists outs d1 d2, drun evs d = Some (outs, d1) /\
    readPacket wait now ref im raw d1 =
      Some (ref, Some {| rp_payload := last_payload p evs; rp_ctrl := pending (dm_ctrl d) evs; rp_pts := now |}, d2).
Proof.
  intros Hp. destruct (drun_state evs d p Hp) as (outs & d1 & E & P & C & _). exists outs, d1.
  destruct (readPacket_run wait now ref im raw d1 _ P) as [wr R]. rewrite C in R. by eexists.
Qed.

Definition no_image : va_image := image empty_data.
Definition packet (p : payload) (c : option Z) : IrrPacket := {| pk_payload := p; pk_size := 8; pk_ctrl := c |}.

Lemma read_latest_witness :
  exists outs d1 d2,
    drun [DSend (packet (PVa 1) (Some 5)); DSend (packet (PVa 2) None)]
      (CIrrVideoDemux_new 40000 (packet (PVa 0) None)) = Some (outs, d1) /\
    readPacket 0 77 0 no_image [] d1 =
      Some (0, Some {| rp_payload := PVa 2; rp_ctrl := Some 5; rp_pts := 77 |}, d2).
Proof.
  apply (read_latest [DSend (packet (PVa 1) (Some 5)); DSend (packet (PVa 2) None)]
    (CIrrVideoDemux_new 40000 (packet (PVa 0) None)) (PVa 0) 0 77 0 no_image []). reflexivity.
Defined.

(** ** Pacing *)

(** A run in which every read starts at some time, waits as long as it computes
    (or longer) and ends at its time stamp; with the time stamps. *)
Inductive timed : CIrrVideoDemux -> list devent -> list Z -> CIrrVideoDemux -> Prop :=
  | timed_nil d : timed d [] [] d
  | timed_send p d evs pts d' : timed (sendPacket p d) evs pts d' -> timed d (DSend p :: evs) pts d'
  | timed_stop d evs pts d' : timed (stop d) evs pts d' -> timed d (DStop :: evs) pts d'
  | timed_read curr now ref im raw d r pk d1 evs pts d' :
      readPacket (read_wait curr d) now ref im raw d = Some (r, Some pk, d1) ->
      curr + read_wait curr d <= now -> timed d1 evs pts d' ->
      forall ts, rp_pts pk = ts -> timed d (DRead (read_wait curr d) now ref im raw :: evs) (ts :: pts) d'.

(** Two time stamps that follow each other. *)
Definition apart (gap : Z) (pts : list Z) : Prop :=
  forall i a c, pts !! i = Some a -> pts !! S i = Some c -> gap <= c - a.

Lemma apart_cons gap a pts : (forall c, head pts = Some c -> gap <= c - a) -> apart gap pts -> apart gap (a :: pts).
Proof.
  intros H A [|i] x y Hx Hy; cbn in *; simplify_eq; [|by eapply A].
  apply H. by destruct pts; simplify_eq.
Qed.

(** At a fixed rate frames are never closer than the frame time.  When the
    encoder does not follow the renderer, in any run in which the waits last as
    long as asked for, two consecutive reads have time stamps at least the time
    of a frame apart, so [k] frames take at least [k] times that; and a read
    that starts early and is not late ends exactly one frame time after the
    previous one. *)
Theorem fixed_rate_pacing d evs pts d' :
  dm_renderfps d = false -> timed d evs pts d' ->
  apart (dm_frame_mcs d) (m_nPrevPts d :: pts) /\
  (0 <= dm_frame_mcs d -> dm_frame_mcs d * Z.of_nat (length pts) <= m_nPrevPts d' - m_nPrevPts d) /\
  forall curr, curr - m_nPrevPts d <= dm_frame_mcs d ->
    curr + read_wait curr d = m_nPrevPts d + dm_frame_mcs d.
Proof.
  intros R T. split; [|split].
  3: { intros curr Hc. unfold read_wait. rewrite R. cbn. lia. }
  all: induction T as [d|p d evs pts d' T IH|d evs pts d' T IH|curr now ref im raw d r pk d1 evs pts d' E Hw T IH ts Ets].
  1: by intros [|i] x y Hx Hy; cbn in *; simplify_eq.
  1,2: by apply IH.
  2: cbn; lia.
  2,3: by apply IH.
  all: unfold readPacket in E; destruct (dm_pkt d) as [p|] eqn:Ep; [|done];
    apply bind_Some in E as (wr & _ & E); simplify_eq;
    assert (dm_frame_mcs d <= now - m_nPrevPts d) by (unfold read_wait in Hw; rewrite R in Hw; cbn in Hw; lia).
  - apply apart_cons; [by intros c [= <-]|]. by apply IH.
  - intros F. specialize (IH R F). cbn [length rp_pts m_nPrevPts set_packet set_clock dm_frame_mcs] in *. lia.
Qed.

Definition fixed_demux : CIrrVideoDemux :=
  {| dm_pkt := Some (PVa 0); dm_ctrl := None; m_nPrevPts := 0; m_totalWaitMcs := 0; m_stop := false;
     m_notified := false; dm_renderfps := false; dm_minfps := 3; dm_frame_mcs := 40000; dm_vasurface := true;
     dm_writer := None |}.

Lemma fixed_rate_pacing_witness : exists evs pts d',
  timed fixed_demux evs pts d' /\ pts = [40010; 80010] /\ apart 40000 [0; 40010; 80010].
Proof.
  do 3 eexists. split; [|split; [reflexivity|]].
  - eapply (timed_read 30000 40010 0 no_image []); [reflexivity|vm_compute; discriminate| |reflexivity].
    eapply (timed_read 50000 80010 0 no_image []); [reflexivity|vm_compute; discriminate|apply timed_nil|reflexivity].
  - eapply (fixed_rate_pacing fixed_demux _ [40010; 80010]); [reflexivity|].
    eapply (timed_read 30000 40010 0 no_image []); [reflexivity|vm_compute; discriminate| |reflexivity].
    eapply (timed_read 50000 80010 0 no_image []); [reflexivity|vm_compute; discriminate|apply timed_nil|reflexivity].
Defined.

(** ** From the write to the read *)

(** The payload a surface gives for its type; pixels are copied from its buffer. *)
Definition surface_payload (ty : encode_type) (s : irr_surface_t) (flip : bool) (pixels : option bytes)
    (p : payload) : Prop :=
  match ty with
  | VASURFACE_ID => p = PVa (vaSurfaceID s)
  | QSVSURFACE_ID => p = PMfx (mfxSurf s)
  | DATA_BUFFER => exists px size, p = PData px /\ copy_pixels (i_width (info s)) (i_height (info s)) flip pixels size = Some px
  end.

Lemma generate_packet_inv img init get pool s flip px ctrl ret pool' pkt :
  generate_packet img init get pool s flip px ctrl = Some (ret, pool', pkt) ->
  match pkt with
  | Some k => ret = 0 /\ surface_payload (enc_type s) s flip px (pk_payload k) /\ pk_ctrl k = ctrl
  | None => ret = AVERROR ENOMEM
  end.
Proof.
  unfold generate_packet. intros E. destruct (_ && _); [by simplify_eq|]. destruct (negb get); [by simplify_eq|].
  apply bind_Some in E as (p & Ep & E). simplify_eq. split; [done|]. split; [|done]. cbn [pk_payload].
  destruct (enc_type s); cbn [surface_payload].
  - apply fmap_Some in Ep as (px' & Ec & ->). by eauto.
  - by case_match; simplify_eq.
  - by case_match; simplify_eq.
Qed.

(** A surface that is written is the next one read.  When
    [irr_encoder_write] returns 0, the demuxer's next read gives the surface in
    the form its flags ask for (the VA surface, the library surface or the
    pixels of its buffer), with the surface's display control or, when it has none, the one
    still waiting; on every error the demuxer is left as it was. *)
Theorem write_then_read va qsv fe img init get pool s size pdata flip ctrl d r s' size' pdata' pool' d' :
  irr_encoder_write true va qsv fe img init get pool s size pdata flip ctrl (Some d)
    = Some (r, s', (size', pdata'), pool', d') ->
  if r =? 0 then exists d1 ty p, d' = Some d1 /\ flag_type va qsv = Some ty /\ enc_type s' = ty /\
    surface_payload ty s flip pdata' p /\
    forall wait now ref im raw, exists d2, readPacket wait now ref im raw d1 =
      Some (ref, Some {| rp_payload := p; rp_ctrl := match ctrl with Some c => Some c | None => dm_ctrl d end;
                         rp_pts := now |}, d2)
  else d' = Some d.
Proof.
  unfold irr_encoder_write. cbn [negb]. destruct (flag_type va qsv) as [ty|] eqn:Et.
  2: { intros E. simplify_eq. done. }
  intros E. apply bind_Some in E as ([[ret size1] pd] & _ & E).
  destruct (ret =? 0) eqn:Er; cbn [negb] in E; [|simplify_eq; by rewrite Er].
  apply bind_Some in E as ([[r1 p1] d1] & E1 & E). simplify_eq. cbn [streamer_write] in E1.
  apply bind_Some in E1 as ([[r2 p2] pkt] & G%generate_packet_inv & E1). destruct pkt as [k|].
  - destruct G as (-> & Hp & Hc). rewrite Z.eqb_refl in E1. simplify_eq. cbn [Z.eqb].
    do 3 eexists. split_and!; [done..|exact Hp|]. intros wait now ref im raw.
    destruct (readPacket_run wait now ref im raw (sendPacket k d) (pk_payload k) eq_refl) as [wr ->].
    eexists. cbn [sendPacket set_packet dm_ctrl]. reflexivity.
  - simplify_eq. done.
Qed.

Definition fetch_ok : fetch_env :=
  {| fe_derive := 0; fe_map := 0; fe_unmap := 0; fe_destroy := 0; fe_mem := Some [1; 2; 3; 4]; fe_malloc := true |}.

Lemma write_then_read_witness :
  exists d1, irr_encoder_write true 0 1 fetch_ok (fun _ _ => 64) true true None pixel_surface 0 None false (Some 3)
      (Some fixed_demux) = Some (0, with_type QSVSURFACE_ID pixel_surface, (0, None), Some 64, Some d1) /\
    forall now, exists d2, readPacket 0 now 0 no_image [] d1 =
      Some (0, Some {| rp_payload := PMfx None; rp_ctrl := Some 3; rp_pts := now |}, d2).
Proof.
  destruct (irr_encoder_write true 0 1 fetch_ok (fun _ _ => 64) true true None pixel_surface 0 None false (Some 3)
    (Some fixed_demux)) as [[[[[r s'] [size' pd']] pool'] d']|] eqn:E; [|vm_compute in E; discriminate E].
  pose proof (write_then_read 0 1 fetch_ok (fun _ _ => 64) true true None pixel_surface 0 None false (Some 3)
    fixed_demux r s' size' pd' pool' d' E) as H.
  assert (r = 0 /\ s' = with_type QSVSURFACE_ID pixel_surface /\ size' = 0 /\ pd' = None /\ pool' = Some 64) as (-> & -> & -> & -> & ->)
    by (vm_compute in E; injection E as <- <- <- <- <- _; repeat split; reflexivity).
  destruct H as (d1 & ty & p & -> & Ht & _ & Hp & H). injection Ht as <-. cbn in Hp. subst p.
  exists d1. split; [reflexivity|]. intros now. apply H.
Defined.
