(* ===== verification/DisplayServer.v ===== *)
(** * DisplayServer: the process between the renderer and the encoder

    Models [src/sources/encoder/server]: [display_video_renderer.cpp] (surfaces of
    the guest's buffers, the surface on display, delayed destruction),
    [display_server_vhal.cpp] (commands of the guest, restart at a new size,
    messages of the private pipe, names of the sockets) and [display_server.cpp].
    The guest's buffers become surfaces of [Surface], are written with
    [VideoDemux.irr_encoder_write], and the encoder is started and stopped with
    [StreamStart].  The library that receives the guest's commands is the caller
    of [CommandHandler]; calls to it are kept in a log.  A [disp_res_t] is owned by
    one place at a time (the table of buffers, then the list of deleted ones), so
    it is kept by value; surfaces are addresses of the encoder's heap. *)

From Stdlib Require Import ZArith Lia String.
From stdpp Require Import base gmap sets list sorting.
From S2P Require Import Prelude StdMap GaConf CNum CxxString SockUtil SockServer TransCoder IrrWorld IrrStreamer.
From S2P Require Import EncoderOpts Surface SurfaceSet IrrvProtocol StreamStart VideoDemux.

(** ** Data *)

(** [cros_gralloc_handle]: its address and what the server reads. *)
Record gralloc_handle := {
  gh_addr : Z; gh_width : Z; gh_height : Z; gh_format : Z; gh_droid_format : Z;
  gh_fds : list Z; gh_strides : list Z; gh_offsets : list Z; gh_modifiers : list Z
}.

Definition DRV_MAX_PLANES : nat := 4.

(** [disp_res_t]. *)
Record disp_res_t := {
  dr_handle : Z; dr_width : Z; dr_height : Z; dr_drm_format : Z; dr_android_format : Z;
  dr_prime_fds : list Z; dr_strides : list Z; dr_offsets : list Z; dr_seq_no : Z;
  dr_format_modifiers : list Z; dr_surface : option Z
}.

(** The renderer ([DisplayVideoRenderer]), the server and what they use;
    [d_pixels] holds the pixel buffers of surfaces by their address, [d_calls] the
    calls of the receiver library, [None] once the receiver is deleted. *)
Inductive receiver_call := SetMode (w h : Z) | SetVideoAlpha (action : Z).

Record display := {
  d_enc : enc; d_demux : option CIrrVideoDemux; d_pixels : gmap Z bytes;
  m_frameIdx : Z; m_deletedReses : list (Z * option disp_res_t); m_curSurface : option Z;
  m_currentInfo : encoder_info_t;
  m_dispReses : gmap Z (option disp_res_t); m_curWidth : Z; m_curHeight : Z;
  d_calls : option (list receiver_call)
}.

Definition d_hw (d : display) : hw := e_hw (d_enc d).

Definition set_enc (e : enc) (x : option CIrrVideoDemux) (px : gmap Z bytes) (d : display) : display :=
  {| d_enc := e; d_demux := x; d_pixels := px; m_frameIdx := m_frameIdx d; m_deletedReses := m_deletedReses d;
     m_curSurface := m_curSurface d; m_currentInfo := m_currentInfo d; m_dispReses := m_dispReses d;
     m_curWidth := m_curWidth d; m_curHeight := m_curHeight d; d_calls := d_calls d |}.
Definition set_frame (n : Z) (del : list (Z * option disp_res_t)) (cur : option Z) (d : display) : display :=
  {| d_enc := d_enc d; d_demux := d_demux d; d_pixels := d_pixels d; m_frameIdx := n; m_deletedReses := del;
     m_curSurface := cur; m_currentInfo := m_currentInfo d; m_dispReses := m_dispReses d;
     m_curWidth := m_curWidth d; m_curHeight := m_curHeight d; d_calls := d_calls d |}.
Definition set_info (i : encoder_info_t) (d : display) : display :=
  {| d_enc := d_enc d; d_demux := d_demux d; d_pixels := d_pixels d; m_frameIdx := m_frameIdx d;
     m_deletedReses := m_deletedReses d; m_curSurface := m_curSurface d; m_currentInfo := i;
     m_dispReses := m_dispReses d; m_curWidth := m_curWidth d; m_curHeight := m_curHeight d;
     d_calls := d_calls d |}.
Definition set_reses (m : gmap Z (option disp_res_t)) (d : display) : display :=
  {| d_enc := d_enc d; d_demux := d_demux d; d_pixels := d_pixels d; m_frameIdx := m_frameIdx d;
     m_deletedReses := m_deletedReses d; m_curSurface := m_curSurface d; m_currentInfo := m_currentInfo d;
     m_dispReses := m; m_curWidth := m_curWidth d; m_curHeight := m_curHeight d; d_calls := d_calls d |}.
Definition set_size (w h : Z) (d : display) : display :=
  {| d_enc := d_enc d; d_demux := d_demux d; d_pixels := d_pixels d; m_frameIdx := m_frameIdx d;
     m_deletedReses := m_deletedReses d; m_curSurface := m_curSurface d; m_currentInfo := m_currentInfo d;
     m_dispReses := m_dispReses d; m_curWidth := w; m_curHeight := h; d_calls := d_calls d |}.
Definition set_calls (c : option (list receiver_call)) (d : display) : display :=
  {| d_enc := d_enc d; d_demux := d_demux d; d_pixels := d_pixels d; m_frameIdx := m_frameIdx d;
     m_deletedReses := m_deletedReses d; m_curSurface := m_curSurface d; m_currentInfo := m_currentInfo d;
     m_dispReses := m_dispReses d; m_curWidth := m_curWidth d; m_curHeight := m_curHeight d;
     d_calls := c |}.

(** A call through [m_vhalReceiver]. *)
Definition call_receiver (c : receiver_call) : cmd display unit := fun d =>
  match d_calls d with None => None | Some l => Some (tt, set_calls (Some (l ++ [c])) d) end.

(** The encoder's operations on the server's state. *)
Definition put_hw (h : hw) (d : display) : display :=
  set_enc (set_blank h (e_pool (d_enc d)) (e_blank (d_enc d)) (d_enc d)) (d_demux d) (d_pixels d) d.
Definition with_hw {A} (op : cmd hw A) : cmd display A := fun d =>
  '(r, h) ← op (d_hw d); Some (r, put_hw h d).
Definition with_world {A} (op : cmd world A) : cmd display A := fun d =>
  '(r, w) ← op (e_world (d_enc d)); Some (r, set_enc (set_world w (d_enc d)) (d_demux d) (d_pixels d) d).

(** ** The renderer *)

(** The low and the high word of a modifier are put together without a shift. *)
Definition format_modifier (l : list Z) (i : nat) : Z :=
  Z.lor (nth (2 * i) l 0) (nth (2 * i + 1) l 0).

Definition disp_res_of (h : gralloc_handle) : disp_res_t :=
  {| dr_handle := gh_addr h; dr_width := i32 (gh_width h); dr_height := i32 (gh_height h);
     dr_drm_format := i32 (gh_format h); dr_android_format := gh_droid_format h;
     dr_prime_fds := gh_fds h; dr_strides := map i32 (gh_strides h); dr_offsets := map i32 (gh_offsets h);
     dr_seq_no := 0; dr_format_modifiers := format_modifier (gh_modifiers h) <$> seq 0 DRV_MAX_PLANES;
     dr_surface := None |}.

Definition disp_info (r : disp_res_t) : irr_surface_info_t :=
  {| i_type := FD; i_format := dr_drm_format r; i_width := dr_width r; i_height := dr_height r;
     i_stride0 := nth 0 (dr_strides r) 0; i_offset1 := nth 1 (dr_offsets r) 0;
     i_fd := dr_prime_fds r; i_pdata := None; i_data_size := 0 |}.

Definition set_surface (s : option Z) (r : disp_res_t) : disp_res_t :=
  {| dr_handle := dr_handle r; dr_width := dr_width r; dr_height := dr_height r;
     dr_drm_format := dr_drm_format r; dr_android_format := dr_android_format r;
     dr_prime_fds := dr_prime_fds r; dr_strides := dr_strides r; dr_offsets := dr_offsets r;
     dr_seq_no := dr_seq_no r; dr_format_modifiers := dr_format_modifiers r; dr_surface := s |}.

(** [createDispRes]: null when there is no surface. *)
Definition createDispRes (a : answers) (h : gralloc_handle) : cmd display (option disp_res_t) := fun d =>
  let w := e_world (d_enc d) in
  let res := disp_res_of h in
  '(s, d) ← with_hw (irr_encoder_create_surface (irr_get_VASurfaceFlag w) (irr_get_QSVSurfaceFlag w) a
                       (disp_info res)) d;
  Some (match s with Some p => Some (set_surface (Some p) res) | None => None end, d).

(** [destroyDispRes]: destruction is put off. *)
Definition destroyDispRes (res : option disp_res_t) (d : display) : display :=
  match res with
  | None => d
  | Some r => set_frame (m_frameIdx d) (m_deletedReses d ++ [(m_frameIdx d, Some r)]) (m_curSurface d) d
  end.

(** What the driver and FFmpeg answer to a write, and the address of a new pixel
    buffer. *)
Record write_env := {
  we_fetch : fetch_env; we_img_size : Z -> Z -> Z; we_init : bool; we_get : bool; we_pdata : Z
}.

(** The pixel buffer of a surface after a write. *)
Definition with_pixels (p : option Z) (n : Z) (s : irr_surface_t) : irr_surface_t :=
  let i := info s in
  {| info := {| i_type := i_type i; i_format := i_format i; i_width := i_width i; i_height := i_height i;
                i_stride0 := i_stride0 i; i_offset1 := i_offset1 i; i_fd := i_fd i; i_pdata := p;
                i_data_size := n |};
     ref_count := ref_count s; vaSurfaceID := vaSurfaceID s; enc_type := enc_type s; mfxSurf := mfxSurf s |}.

(** [irr_encoder_write] on a surface of the heap. *)
Definition encoder_write (we : write_env) (p : Z) (ctrl : option Z) : cmd display Z := fun d =>
  let e := d_enc d in
  let w := e_world e in
  '(s, _) ← load_surface p (d_hw d);
  '(ret, s', (size, pd), pool, dm) ←
    irr_encoder_write (bool_decide (is_Some (streamer w))) (irr_get_VASurfaceFlag w) (irr_get_QSVSurfaceFlag w)
      (we_fetch we) (we_img_size we) (we_init we) (we_get we) (e_pool e) s (i_data_size (info s))
      (match i_pdata (info s) with Some _ => Some (default [] (d_pixels d !! p)) | None => None end)
      false ctrl (d_demux d);
  '(ptr, h) ← match i_pdata (info s), pd with
              | None, Some _ => calloc (Some (we_pdata we)) CBlock (d_hw d)
              | ptr, _ => Some (ptr, d_hw d)
              end;
  '(_, h) ← store p (CSurface (with_pixels ptr size s')) h;
  Some (ret, set_enc (set_blank h pool (e_blank e) e) dm
               (match pd with Some x => <[p := x]> (d_pixels d) | None => d_pixels d end) d).

(** The surface on display changes. *)
Definition set_current (surface : option Z) : cmd display unit := fun d =>
  if decide (m_curSurface d = surface) then Some (tt, d)
  else
    ((match m_curSurface d with Some c => with_hw (irr_encoder_unref_surface c) | None => cret tt end);;;
     (match surface with Some p => with_hw (irr_encoder_ref_surface p) | None => cret tt end);;;
     cmodify (fun d => set_frame (m_frameIdx d) (m_deletedReses d) surface d)) d.

(** [drawDispRes]; the value of the write is only logged. *)
Definition drawDispRes (we : write_env) (res : option disp_res_t) (ctrl : option Z) : cmd display unit :=
  let surface := match res with Some r => dr_surface r | None => None end in
  (match surface with Some p => encoder_write we p ctrl;;; cret tt | None => cret tt end);;;
  set_current surface.

Definition beginFrame (d : display) : display :=
  set_frame (u64 (m_frameIdx d + 1)) (m_deletedReses d) (m_curSurface d) d.

Definition endFrame (d : display) : display := d.

(** Drop the last reference, whatever the count is. *)
Definition release_surface (p : Z) : cmd display unit :=
  s <-- with_hw (load_surface p) ;;
  with_hw (store p (CSurface (with_count 1 s)));;;
  with_hw (irr_encoder_unref_surface p).

(** The identifier of the surface on display. *)
Definition current_id : cmd display Z := fun d =>
  match m_curSurface d with
  | None => Some (VA_INVALID_SURFACE, d)
  | Some c => '(s, d) ← with_hw (load_surface c) d; Some (vaSurfaceID s, d)
  end.

(** The end of a resource in [retireFrame]. *)
Definition retire_res (res : option disp_res_t) : cmd display unit :=
  match res with
  | None => cret tt
  | Some r =>
      match dr_surface r with
      | None => cret tt
      | Some p =>
          id <-- current_id ;;
          s <-- with_hw (load_surface p) ;;
          if negb (vaSurfaceID s =? id) then release_surface p else cret tt
      end
  end.

(** The age of an entry in frames, and the frame it is counted from. *)
Definition frame_age (cur idx : Z) : Z * Z :=
  if idx <=? cur then (idx, u64 (cur - idx)) else (0, u64 (cur - 0)).

(** The entries that stay. *)
Fixpoint retire (l : list (Z * option disp_res_t)) : cmd display (list (Z * option disp_res_t)) :=
  match l with
  | [] => cret []
  | (idx, res) :: l =>
      cur <-- cgets m_frameIdx ;;
      let '(idx, age) := frame_age cur idx in
      if 30 <? age then retire_res res;;; retire l
      else l' <-- retire l ;; cret ((idx, res) :: l')
  end.

Definition retireFrame : cmd display unit :=
  l <-- cgets m_deletedReses ;;
  l' <-- retire l ;;
  cmodify (fun d => set_frame (m_frameIdx d) l' (m_curSurface d) d).

(** [flushDelayDelRes], after its sleep. *)
Fixpoint flush (l : list (Z * option disp_res_t)) : cmd display unit :=
  match l with
  | [] => cret tt
  | (_, res) :: l =>
      (match res with
       | Some r => match dr_surface r with Some p => release_surface p | None => cret tt end
       | None => cret tt
       end);;;
      flush l
  end.
Definition flushDelayDelRes : cmd display unit :=
  l <-- cgets m_deletedReses ;;
  flush l;;;
  cmodify (fun d => set_frame (m_frameIdx d) [] (m_curSurface d) d).

Section Server.
Context `{AvDict}.

(** What the system answers to a start, and the demuxer it makes. *)
Record restart_env := { re_start : start_env; re_demux : CIrrVideoDemux }.

(** [irr_encoder_start] and [irr_encoder_stop] on the server's state; the return
    value of the start is not looked at. *)
Definition encoder_start (en : restart_env) (i : encoder_info_t) : cmd display encoder_info_t := fun d =>
  '(r, e) ← irr_encoder_start (re_start en) i (d_enc d);
  let dm := match streamer (e_world e) with
            | Some s => match m_pDemux s with Some _ => Some (re_demux en) | None => None end
            | None => None
            end in
  Some (r.2, set_enc e dm (d_pixels d) d).
Definition encoder_stop : cmd display unit := fun d =>
  '(_, e) ← irr_encoder_stop (d_enc d); Some (tt, set_enc e None (d_pixels d) d).

(** [DisplayVideoRenderer::init]: the information is copied before the start. *)
Definition renderer_init (en : restart_env) (i : encoder_info_t) : cmd display bool :=
  cmodify (set_info i);;;
  encoder_start en i;;;
  cmodify (fun d => if size_ok (width (m_currentInfo d)) (height (m_currentInfo d)) then d
                    else set_info (put_start (m_currentInfo d) RESOLUTION_WIDTH_DEFAULT RESOLUTION_HEIGHT_DEFAULT
                                     (encodeType (m_currentInfo d))) d);;;
  cret true.

Definition renderer_deinit : cmd display unit := retireFrame;;; encoder_stop.

(** [ChangeResolution]. *)
Definition ChangeResolution (en : restart_env) (w h : Z) : cmd display unit :=
  encoder_stop;;;
  cmodify (fun d => set_info (put_start (m_currentInfo d) (i32 w) (i32 h) VASURFACE_ID) d);;;
  d <-- cget ;;
  i <-- encoder_start en (m_currentInfo d) ;;
  cmodify (set_info i).

(** ** Commands of the guest *)

Definition CreateBuffer (a : answers) (h : gralloc_handle) : cmd display unit :=
  res <-- createDispRes a h ;;
  cmodify (fun d =>
    let d := match m_dispReses d !! gh_addr h with
             | Some old => set_reses (delete (gh_addr h) (m_dispReses (destroyDispRes old d))) (destroyDispRes old d)
             | None => d
             end in
    set_reses (<[gh_addr h := res]> (m_dispReses d)) d).

(** A buffer without resource stays in the table. *)
Definition RemoveBuffer (h : gralloc_handle) (d : display) : display :=
  match m_dispReses d !! gh_addr h with
  | Some (Some r) => let d := destroyDispRes (Some r) d in set_reses (delete (gh_addr h) (m_dispReses d)) d
  | _ => d
  end.

Definition new_size (disable : cstr) (h : gralloc_handle) (d : display) : bool :=
  (negb (gh_width h =? m_curWidth d) || negb (gh_height h =? m_curHeight d))
  && negb (match disable with Some v => has_prefix (b "1") v | None => false end).

(** The restart of the encoder for buffers of another size. *)
Definition resize (en : restart_env) (h : gralloc_handle) : cmd display unit :=
  ChangeResolution en (gh_width h) (gh_height h);;;
  cmodify (set_size (gh_width h) (gh_height h));;;
  with_world irr_stream_incClient;;;
  with_world (irr_stream_setEncodeFlag true);;;
  with_world (irr_stream_setTransmitFlag true);;;
  with_world (irr_stream_force_keyframe 1);;;
  cret tt.

(** [DisplayRequest]; [disable] is [DISABLE_DYNAMIC_RESOLUTION]. *)
Definition DisplayRequest (disable : cstr) (en : restart_env) (we : write_env) (h : gralloc_handle)
    (ctrl : option Z) : cmd display unit :=
  d <-- cget ;;
  (if new_size disable h d then resize en h else cret tt);;;
  d <-- cget ;;
  match m_dispReses d !! gh_addr h with
  | None => cret tt
  | Some res =>
      cmodify beginFrame;;;
      drawDispRes we res ctrl;;;
      cmodify endFrame;;;
      retireFrame
  end.

Inductive CommandType := FRAME_CREATE | FRAME_REMOVE | FRAME_DISPLAY | FRAME_OTHER.

Record frame_info_t := { fi_handle : option gralloc_handle; fi_ctrl : option Z }.

(** The answers a command may need. *)
Record command_env := { ce_answers : answers; ce_disable : cstr; ce_restart : restart_env; ce_write : write_env }.

Definition CommandHandler (ce : command_env) (c : CommandType) (f : option frame_info_t) : cmd display unit :=
  match f with
  | None => cret tt
  | Some f =>
      match fi_handle f with
      | None => cret tt
      | Some h =>
          match c with
          | FRAME_CREATE => CreateBuffer (ce_answers ce) h
          | FRAME_REMOVE => cmodify (RemoveBuffer h)
          | FRAME_DISPLAY => DisplayRequest (ce_disable ce) (ce_restart ce) (ce_write ce) h (fi_ctrl f)
          | FRAME_OTHER => cret tt
          end
      end
  end.

(** [deinit]: the table is emptied in the order of its keys. *)
Definition key_le (x y : Z * option disp_res_t) : Prop := x.1 <= y.1.
#[local] Instance key_le_dec : RelDecision key_le.
Proof. intros x y. unfold key_le. apply _. Defined.
Definition ordered_reses (m : gmap Z (option disp_res_t)) : list (option disp_res_t) :=
  (merge_sort key_le (map_to_list m)).*2.

(** The receiver is deleted before the thread of the pipe is joined. *)
Definition delete_receiver (d : display) : display := set_calls None d.

Definition server_deinit : cmd display unit :=
  cmodify delete_receiver;;;
  cmodify (fun d => set_reses ∅ (fold_left (fun d r => destroyDispRes r d) (ordered_reses (m_dispReses d)) d));;;
  renderer_deinit;;;
  flushDelayDelRes.

(** ** Messages of the private pipe *)

Definition IRRV_PIPE_MESSAGE_TYPE_TCAE_FEEDBACK : Z := 1.
Definition IRRV_PIPE_MESSAGE_TYPE_RESOLUTION_CHANGE : Z := 2.
Definition IRRV_PIPE_MESSAGE_TYPE_SET_VIDEO_ALPHA : Z := 3.
Definition PIPE_MAGIC : Z := 3735928559.        (* 0xdeadbeef *)
Definition PIPE_MESSAGE_SIZE : Z := 32.

Record irrv_pipe_message_t := { pm_magic : Z; pm_type : Z; pm_data0 : Z; pm_data1 : Z }.

(** One read of [PipeMsgHandler]: [size] bytes, and the message they make. *)
Definition pipe_message (feedback : Z -> Z -> Z) (size : Z) (m : irrv_pipe_message_t) : cmd display unit :=
  if negb (size =? PIPE_MESSAGE_SIZE) || negb (pm_magic m =? PIPE_MAGIC) then cret tt
  else if pm_type m =? IRRV_PIPE_MESSAGE_TYPE_TCAE_FEEDBACK then
    with_world (irr_stream_set_client_feedback feedback (pm_data0 m) (pm_data1 m));;; cret tt
  else if pm_type m =? IRRV_PIPE_MESSAGE_TYPE_RESOLUTION_CHANGE then
    call_receiver (SetMode (i32 (pm_data0 m)) (i32 (pm_data1 m)))
  else if pm_type m =? IRRV_PIPE_MESSAGE_TYPE_SET_VIDEO_ALPHA then call_receiver (SetVideoAlpha (pm_data0 m))
  else cret tt.

(** ** Initialisation *)

(** The path of the guest's socket. *)
Definition hwc_path (hwc_sock : cstr) (id : bytes) : bytes :=
  (match hwc_sock with
   | Some p => if contains (b "hwc-sock") p then p else b "/ipc/hwc-sock"
   | None => b "/ipc/hwc-sock"
   end) ++ id.

(** [path.substr(0, path.find("/hwc-sock"))]. *)
Definition socket_dir (path : bytes) : bytes :=
  match str_find (b "/hwc-sock") path with Some n => take n path | None => path end.

Definition in_k8s (env : cstr) : bool :=
  match env with Some v => str_eqb v (b "true") | None => false end.

Definition android_instance_id (env : cstr) (id : bytes) : Z := if in_k8s env then -1 else atoi id.

(** A word read back from a string stream. *)
Fixpoint word (s : bytes) : bytes :=
  match s with [] => [] | c :: s => if isspace c then [] else c :: word s end.
Definition stream_word (s : bytes) : bytes := word (drop_spaces s).

(** The name of the private pipe. *)
Definition pipe_name (env : cstr) (hwc_sock : cstr) (id : bytes) (user_id : Z) : bytes :=
  let dir := socket_dir (hwc_path hwc_sock id) in
  stream_word (if in_k8s env then dir ++ b "/hwc-pipe-" ++ print_int user_id
               else dir ++ b "/hwc-pipe-" ++ print_int (atoi id) ++ b "-" ++ print_int user_id).

(** [init]: the receiver, the encoder, the pipe; a failed start is not noticed. *)
Definition server_init (en : restart_env) (receiver fifo open : bool) (i : encoder_info_t) : cmd display bool :=
  if negb receiver then cret false
  else
    cmodify (set_calls (Some []));;;
    cmodify (set_size (u32 (width i)) (u32 (height i)));;;
    renderer_init en i;;;
    cret (fifo && open).

End Server.

(** ** The encoder's start and the hardware *)

Section Safety.
Context `{AvDict}.

Lemma blank_grown en w h e r e' : InitBlankFramePacket en w h e = Some (r, e') ->
  fresh_answers (se_surface en) (e_hw e) -> (a_image (se_surface en) ∉ images (e_hw e)) -> grown (e_hw e) (e_hw e').
Proof.
  unfold InitBlankFramePacket. intros E F I. destruct (e_blank e); [by simplify_eq|].
  apply bind_Some in E as ([o h1] & E1 & E).
  unfold irr_encoder_create_blank_surface, irr_encoder_create_surface in E1. cbn [i_type] in E1.
  pose proof (create_internal_safe _ _ _ _ F I _ _ _ (reflexivity _) E1) as G.
  destruct o as [p|]; [|by simplify_eq]. apply create_internal_addr in E1.
  apply bind_Some in E as ([s h2] & _ & E). apply bind_Some in E as ([[ret pool] o] & _ & E).
  destruct (negb (ret =? 0)); [by simplify_eq|].
  apply cbind_inv in E as ([] & e1 & E2 & E). unfold cret in E. simplify_eq. unfold on_hw in E2.
  apply bind_Some in E2 as ([[] h3] & E2 & E3). simplify_eq. cbn in *.
  eapply ref_safe; [|exact G|exact E2]. by apply F.
Qed.

Lemma trans_hw en i u pl s d mux e r e' : start_trans en i u pl s d mux e = Some (r, e') -> e_hw e' = e_hw e.
Proof.
  unfold start_trans. intros E. apply bind_Some in E as ([tc t] & _ & E).
  apply bind_Some in E as ([[ret t'] fr] & _ & E). by simplify_eq.
Qed.

Lemma streamer_start_grown en i e r e' : streamer_start en i e = Some (r, e') ->
  fresh_answers (se_surface en) (e_hw e) -> (a_image (se_surface en) ∉ images (e_hw e)) -> grown (e_hw e) (e_hw e').
Proof.
  unfold streamer_start. intros E F I. destruct (streamer (e_world e)) as [s|]; [|done].
  case_bool_decide; [by simplify_eq|]. apply bind_Some in E as (fr & _ & E).
  apply bind_Some in E as ([ret e1] & E1 & E).
  assert (grown (e_hw e) (e_hw e1)) as G.
  { destruct (s_pix_format i =? AV_PIX_FMT_BGRA); by apply blank_grown in E1. }
  clear E1. destruct (negb (ret =? 0)); [by simplify_eq|]. apply bind_Some in E as (pl & _ & E).
  destruct (s_url i) as [u|]; [|by simplify_eq].
  destruct (choose_mux u); simplify_eq; try done; apply trans_hw in E; by rewrite E.
Qed.

Lemma start_grown en i e r e' : irr_encoder_start en i e = Some (r, e') ->
  fresh_answers (se_surface en) (e_hw e) -> (a_image (se_surface en) ∉ images (e_hw e)) -> grown (e_hw e) (e_hw e').
Proof.
  unfold irr_encoder_start. intros E F I. destruct (if size_ok _ _ then _ else _) as [w h].
  apply bind_Some in E as (? & _ & E). apply bind_Some in E as ([[] e1] & E1 & E).
  assert (e_hw e1 = e_hw e) as H1.
  { unfold Register in E1. apply bind_Some in E1 as (? & _ & E1). by simplify_eq. }
  destruct (negb (streaming i)); [simplify_eq; by rewrite H1|]. apply bind_Some in E as (u & _ & E).
  assert (Hgo : forall op op2 e2 r e', e_hw e2 = e_hw e ->
    (info ← stream_info i w h u op op2;
     '(r, e) ← irr_stream_start en info (set_iostream_writer i w h e2);
     Some ((r, if s_bQSVSurface info then put_start i w h QSVSURFACE_ID
               else put_start i w h (encodeType i)), e)) = Some (r, e') -> grown (e_hw e) (e_hw e')).
  { intros op op2 e2 r' e3 H2 E3. apply bind_Some in E3 as (info & _ & E3).
    apply bind_Some in E3 as ([r2 e4] & E4 & E3). simplify_eq. unfold irr_stream_start in E4.
    assert (e_hw (set_iostream_writer i w h e2) = e_hw e) as H3 by (unfold set_iostream_writer; by destruct (foutput i)).
    destruct (streamer _) as [s|]; [|simplify_eq; by rewrite H3].
    rewrite <- H3 in F, I |- *. by apply streamer_start_grown in E4. }
  destruct (get_output_mux_type u).
  - apply bind_Some in E as ([sv e2] & E2 & E). destruct (irrv_servers_keeps _ _ _ _ _ E2) as (_ & _ & H2).
    destruct sv as [[a a2]|]; [|simplify_eq; by rewrite H2, H1]. eapply Hgo; [|exact E]. by rewrite H2.
  - by eapply Hgo.
  - simplify_eq. by rewrite H1.
Qed.
End Safety.

(** ** Surfaces of the server *)

Definition res_addr (r : option disp_res_t) : option Z := r ≫= dr_surface.

Abbreviation addrs := (omap res_addr).

(** The surfaces of the table and of the deleted resources. *)
Definition table (m : gmap Z (option disp_res_t)) : list Z := addrs (map_to_list m).*2.
Definition owned (d : display) : list Z := table (m_dispReses d) ++ addrs (m_deletedReses d).*2.

(** One reference for the resource, one while the surface is on display. *)
Definition counts (cur : option Z) (ps : list Z) : list (Z * Z) :=
  (fun p => (p, if decide (cur = Some p) then 2 else 1)) <$> ps.

(** The streamer takes surfaces of the hardware, not pixels. *)
Definition path_set (w : world) : Prop := irr_get_VASurfaceFlag w <> 0 \/ irr_get_QSVSurfaceFlag w <> 0.
Definition pool_ok (pool : option Z) : Prop := match pool with Some n => 8 <= n | None => True end.

Record display_ok (base : hw) (d : display) : Prop := {
  ok_stack : stack base (d_hw d) (counts (m_curSurface d) (owned d));
  ok_current : forall c, m_curSurface d = Some c -> c ∈ owned d;
  ok_deleted : forall idx r, (idx, r) ∈ m_deletedReses d -> is_Some (res_addr r) ->
    res_addr r = m_curSurface d -> idx = m_frameIdx d;
  ok_path : path_set (e_world (d_enc d));
  ok_pool : pool_ok (e_pool (d_enc d))
}.

(** *** Counts *)

#[local] Instance counts_perm cur : Proper ((≡ₚ) ==> (≡ₚ)) (counts cur).
Proof. intros l l' P. unfold counts. by rewrite P. Qed.

Lemma counts_cons cur p ps : counts cur (p :: ps) = (p, if decide (cur = Some p) then 2 else 1) :: counts cur ps.
Proof. done. Qed.

Lemma counts_fst cur ps : (counts cur ps).*1 = ps.
Proof. unfold counts. induction ps as [|p ps IH]; [done|]. cbn. by rewrite IH. Qed.

Lemma counts_other c ps : c ∉ ps -> counts (Some c) ps = counts None ps.
Proof.
  intros N. apply list_fmap_ext. intros i p E. rewrite !decide_False; [done|done|].
  intros [= ->]. apply N. by eapply list_elem_of_lookup_2.
Qed.

Lemma counts_elem cur ps p : p ∈ ps -> (p, if decide (cur = Some p) then 2 else 1) ∈ counts cur ps.
Proof. intros I. apply list_elem_of_fmap. by exists p. Qed.

Lemma stack_owned_NoDup b h cur ps : stack b h (counts cur ps) -> NoDup ps.
Proof. intros H%stack_NoDup. by rewrite counts_fst in H. Qed.

(** Take a surface out of the stack. *)
Lemma stack_split b h cur ps p : stack b h (counts cur ps) -> p ∈ ps ->
  exists ps' h', ps ≡ₚ p :: ps' /\ (p ∉ ps') /\ stack b h' (counts cur ps') /\
    holds h' h p (if decide (cur = Some p) then 2 else 1).
Proof.
  intros H I. pose proof (stack_owned_NoDup _ _ _ _ H) as N. apply elem_of_Permutation in I as [ps' P].
  rewrite P in H, N. apply NoDup_cons in N as [N _]. apply stack_cons_inv in H as (h' & H1 & H2). by exists ps', h'.
Qed.

Lemma stack_unref b h c ps : stack b h (counts (Some c) ps) -> c ∈ ps ->
  exists h', irr_encoder_unref_surface c h = Some (tt, h') /\ stack b h' (counts None ps).
Proof.
  intros H I. destruct (stack_split _ _ _ _ _ H I) as (ps' & h1 & P & N & H1 & H2). rewrite decide_True in H2 by done.
  destruct (holds_unref _ _ _ _ H2) as (h' & E & H3); [unfold INT_MAX; lia|]. exists h'. split; [done|].
  rewrite P. econstructor; [|exact H3]. by rewrite <- (counts_other c).
Qed.

Lemma stack_ref b h p ps : stack b h (counts None ps) -> p ∈ ps ->
  exists h', irr_encoder_ref_surface p h = Some (tt, h') /\ stack b h' (counts (Some p) ps).
Proof.
  intros H I. destruct (stack_split _ _ _ _ _ H I) as (ps' & h1 & P & N & H1 & H2). rewrite decide_False in H2 by done.
  destruct (holds_ref _ _ _ _ H2) as (h' & E & H3); [unfold INT_MAX; lia|]. exists h'. split; [done|].
  rewrite P, counts_cons, decide_True by done. econstructor; [|exact H3].
  by rewrite (counts_other p).
Qed.

(** *** Operations of the hardware on the server's state *)

Lemma with_hw_run {A} (op : cmd hw A) d r h : op (d_hw d) = Some (r, h) -> with_hw op d = Some (r, put_hw h d).
Proof. unfold with_hw. by intros ->. Qed.

Lemma release_run h1 p n d : holds h1 (d_hw d) p n -> release_surface p d = Some (tt, put_hw h1 d).
Proof.
  intros H. destruct (holds_load _ _ _ _ H) as (s & El & _ & Hs). destruct (Hs 1) as (h2 & Es & H2).
  unfold release_surface, cbind. rewrite (with_hw_run _ _ _ _ El). cbn [put_hw].
  assert (d_hw (put_hw (d_hw d) d) = d_hw d) as Ed by done. rewrite <- Ed in Es.
  rewrite (with_hw_run _ _ _ _ Es). by rewrite (with_hw_run _ _ _ _ (holds_last _ _ _ H2 : _ (d_hw (put_hw h2 _)) = _)).
Qed.

(** What the demuxer gets of a surface: by the flags of a streamer. *)
Definition surface_packet (w : world) (s : irr_surface_t) : payload :=
  if irr_get_VASurfaceFlag w =? 1 then PVa (vaSurfaceID s) else PMfx (mfxSurf s).

(** FFmpeg gives buffers. *)
Definition buffers_given (we : write_env) : Prop := we_init we = true /\ we_get we = true.

Definition sent (w : world) (s : irr_surface_t) (ctrl : option Z) (dm dm' : option CIrrVideoDemux) : Prop :=
  forall x, dm = Some x -> is_Some (streamer w) -> exists size,
    dm' = Some (sendPacket {| pk_payload := surface_packet w s; pk_size := size; pk_ctrl := ctrl |} x).

Lemma flag_cases w : is_Some (streamer w) -> path_set w ->
  irr_get_VASurfaceFlag w = 1 \/ irr_get_VASurfaceFlag w = 0 /\ irr_get_QSVSurfaceFlag w = 1.
Proof.
  intros [s E] P. unfold path_set, irr_get_VASurfaceFlag, irr_get_QSVSurfaceFlag, ask_streamer in *. rewrite E in *.
  destruct (m_bVASurface s), (m_bQSVSurface s); cbn in *; intuition lia.
Qed.

(** [irr_encoder_write] of a surface without pixel buffer. *)
Lemma surface_write we w pool s ctrl dm : path_set w -> pool_ok pool -> (forall w h, 8 <= we_img_size we w h) ->
  exists ret ty pool' dm', irr_encoder_write (bool_decide (is_Some (streamer w)))
    (irr_get_VASurfaceFlag w) (irr_get_QSVSurfaceFlag w) (we_fetch we)
    (we_img_size we) (we_init we) (we_get we) pool s (i_data_size (info s)) None false ctrl dm
    = Some (ret, with_type ty s, (i_data_size (info s), None), pool', dm') /\ pool_ok pool' /\
    (buffers_given we -> sent w s ctrl dm dm').
Proof.
  intros Pw Po Hw. unfold irr_encoder_write. case_bool_decide as Hs; cbn [negb].
  2: { exists (-1), (enc_type s), pool, dm. split; [by destruct s|]. split; [done|]. intros _ x _ S. done. }
  assert (exists ty, flag_type (irr_get_VASurfaceFlag w) (irr_get_QSVSurfaceFlag w) = Some ty /\ ty <> DATA_BUFFER /\
    match ty with VASURFACE_ID => PVa (vaSurfaceID s) | _ => PMfx (mfxSurf s) end = surface_packet w s) as (ty & -> & Nt & Et).
  { unfold flag_type, surface_packet. by destruct (flag_cases w Hs Pw) as [->|[-> ->]]; eexists. }
  assert (exists ret pool' dm', streamer_write (we_img_size we) (we_init we) (we_get we) pool (with_type ty s) false None ctrl dm
      = Some (ret, pool', dm') /\ pool_ok pool' /\ (buffers_given we -> sent w s ctrl dm dm')) as (ret & pool' & dm' & E & Hp & Hq).
  { unfold streamer_write. destruct dm as [x|]; [|by eexists _, pool, None].
    assert (8 <= pool_size (we_img_size we) pool (i_width (info s)) (i_height (info s))) as H8
      by (unfold pool_size; destruct pool; [done|apply Hw]).
    unfold generate_packet. cbn [info with_type].
    destruct (bool_decide (pool = None) && negb (we_init we)) eqn:E1.
    { eexists _, None, _. split; [reflexivity|]. split; [done|]. intros [B _]. rewrite B, andb_false_r in E1. done. }
    destruct (negb (we_get we)) eqn:E2.
    { eexists _, (Some _), _. split; [reflexivity|]. split; [done|]. intros [_ B]. by rewrite B in E2. }
    destruct ty; [done|..]; cbn [enc_type with_type]; rewrite (proj2 (Z.leb_le _ _)) by lia; cbn -[pool_size];
      (eexists _, (Some _), _; split; [reflexivity|]; split; [done|]; intros _ y [= <-] _; rewrite <- Et; by eexists). }
  exists ret, ty, pool', dm'. destruct ty; [done|..]; cbn [mbind option_bind Z.eqb negb]; by rewrite E.
Qed.

(** The write of a surface leaves the stack as it is. *)
Lemma write_run b we p ctrl d ps : stack b (d_hw d) (counts (m_curSurface d) ps) -> p ∈ ps ->
  path_set (e_world (d_enc d)) -> pool_ok (e_pool (d_enc d)) -> (forall w h, 8 <= we_img_size we w h) ->
  exists r h pool dm, encoder_write we p ctrl d = Some (r, set_enc (set_blank h pool (e_blank (d_enc d)) (d_enc d)) dm
      (d_pixels d) d) /\ stack b h (counts (m_curSurface d) ps) /\ pool_ok pool /\
    (buffers_given we -> forall s, load_surface p (d_hw d) = Some (s, d_hw d) ->
       sent (e_world (d_enc d)) s ctrl (d_demux d) dm).
Proof.
  intros H I Pw Po Hw. destruct (stack_split _ _ _ _ _ H I) as (ps' & h1 & P & N & H1 & H2).
  destruct (holds_surface _ _ _ _ H2) as (s & _ & El & Ec & Ep & _ & _ & Hs).
  unfold encoder_write. rewrite El. cbn [mbind option_bind]. rewrite Ep.
  destruct (surface_write we _ (e_pool (d_enc d)) s ctrl (d_demux d) Pw Po Hw) as (ret & ty & pool & dm & -> & Hp & Hq).
  cbn [mbind option_bind].
  destruct (Hs (ref_count s) ty) as (h' & E & H3 & _).
  replace (with_pixels None (i_data_size (info s)) (with_type ty s)) with
    (Build_irr_surface_t (info s) (ref_count s) (vaSurfaceID s) ty (mfxSurf s))
    by (unfold with_pixels, with_type; destruct s as [[] ? ? ? ?]; cbn in *; by subst).
  rewrite E. cbn. eexists _, h', pool, dm. split; [reflexivity|]. split; [|split; [done|]].
  - rewrite P. econstructor; [exact H1|]. by rewrite Ec in H3.
  - intros B s' [= <-]. by apply Hq.
Qed.

(** Putting a surface on display moves one reference. *)
Lemma current_run b s d ps : stack b (d_hw d) (counts (m_curSurface d) ps) ->
  (forall c, m_curSurface d = Some c -> c ∈ ps) -> (forall p, s = Some p -> p ∈ ps) ->
  exists h, set_current s d = Some (tt, set_frame (m_frameIdx d) (m_deletedReses d) s (put_hw h d)) /\
    stack b h (counts s ps).
Proof.
  intros H Hc Hs. unfold set_current. case_decide as Ec; [exists (d_hw d); subst; split; [by destruct d as [[]]|done]|].
  assert (exists h1, (match m_curSurface d with Some c => with_hw (irr_encoder_unref_surface c) | None => cret tt end) d
    = Some (tt, put_hw h1 d) /\ stack b h1 (counts None ps)) as (h1 & E1 & H1).
  { destruct (m_curSurface d) as [c|]; [|exists (d_hw d); split; [by destruct d as [[]]|done]].
    destruct (stack_unref _ _ _ _ H (Hc _ eq_refl)) as (h1 & E & H1). exists h1. split; [by apply with_hw_run|done]. }
  unfold cbind. rewrite E1. destruct s as [p|]; [|by exists h1].
  destruct (stack_ref _ _ _ _ H1 (Hs _ eq_refl)) as (h2 & E2 & H2).
  rewrite (with_hw_run _ (put_hw h1 d) _ _ E2). by exists h2.
Qed.

(** The identifier of the surface on display differs from every other one. *)
Lemma current_id_run b d ps p : stack b (d_hw d) (counts (m_curSurface d) ps) -> p ∈ ps ->
  (forall c, m_curSurface d = Some c -> c ∈ ps) -> m_curSurface d <> Some p ->
  exists id s, current_id d = Some (id, put_hw (d_hw d) d) /\ load_surface p (d_hw d) = Some (s, d_hw d) /\
    vaSurfaceID s <> id.
Proof.
  intros H I Hc N. unfold current_id. destruct (m_curSurface d) as [c|] eqn:Ec.
  - destruct (stack_ids _ _ _ p _ c _ H (counts_elem _ _ _ I) (counts_elem _ _ _ (Hc _ eq_refl))) as (s & t & Es & Et & Hn);
      [congruence|]. exists (vaSurfaceID t), s. unfold with_hw, load_surface. by rewrite Es, Et.
  - destruct (stack_split _ _ _ _ _ H I) as (ps' & h' & _ & _ & _ & Hp). exists VA_INVALID_SURFACE.
    destruct Hp as (s & e & _ & _ & _ & _ & _ & _ & _ & _ & Hi & _ & _ & _ & E). exists s.
    unfold load_surface. rewrite E, lookup_insert_eq. split; [|done]. by destruct d as [[]].
Qed.

Lemma addrs_cons (idx : Z) res l :
  addrs ((idx, res) :: l).*2 = addrs [res] ++ addrs l.*2.
Proof. cbn [fmap list_fmap omap list_omap snd]. by destruct (res_addr res). Qed.

(** The deleted resources that stay. *)
Lemma retire_run b ps0 : forall l d,
  stack b (d_hw d) (counts (m_curSurface d) (ps0 ++ addrs l.*2)) ->
  (forall c, m_curSurface d = Some c -> c ∈ ps0 ++ addrs l.*2) ->
  (forall idx r, (idx, r) ∈ l -> is_Some (res_addr r) -> res_addr r = m_curSurface d -> idx = m_frameIdx d) ->
  exists h l', retire l d = Some (l', put_hw h d) /\
    stack b h (counts (m_curSurface d) (ps0 ++ addrs l'.*2)) /\
    (forall c, m_curSurface d = Some c -> c ∈ ps0 ++ addrs l'.*2) /\
    (forall idx r, (idx, r) ∈ l' -> is_Some (res_addr r) -> res_addr r = m_curSurface d -> idx = m_frameIdx d).
Proof.
  intros l. revert ps0. induction l as [|[idx res] l IH]; intros ps0 d H Hc Hd.
  { exists (d_hw d), []. split; [by destruct d as [[]]|]. by split. }
  assert (Hd' : forall idx r, (idx, r) ∈ l -> is_Some (res_addr r) -> res_addr r = m_curSurface d -> idx = m_frameIdx d)
    by (intros; eapply Hd; [by right|done..]).
  cbn [retire]. unfold cbind at 1, cgets. destruct (frame_age (m_frameIdx d) idx) as [idx' age] eqn:Ea.
  destruct (30 <? age) eqn:E30.
  - unfold cbind at 1. assert (exists h, retire_res res d = Some (tt, put_hw h d) /\
      stack b h (counts (m_curSurface d) (ps0 ++ addrs l.*2)) /\
      (forall c, m_curSurface d = Some c -> c ∈ ps0 ++ addrs l.*2)) as (h & -> & H1 & Hc1).
    2: { destruct (IH ps0 (put_hw h d) H1 Hc1 Hd') as (h' & l' & -> & H2). by exists h', l'. }
    cbn [fmap list_fmap omap list_omap snd] in H, Hc. unfold retire_res.
    destruct res as [r|]; [|exists (d_hw d); split; [by destruct d as [[]]|done]].
    change (res_addr (Some r)) with (dr_surface r) in H, Hc.
    destruct (dr_surface r) as [p|] eqn:Er; [|exists (d_hw d); split; [by destruct d as [[]]|done]].
    assert (m_curSurface d <> Some p) as Np.
    { intros Ep. assert (idx = m_frameIdx d) as -> by (eapply Hd; [by left|cbn; by rewrite Er|cbn; by rewrite Er]).
      unfold frame_age in Ea. rewrite Z.leb_refl, Z.sub_diag in Ea. by simplify_eq. }
    assert (p ∈ ps0 ++ p :: addrs l.*2) as I by set_solver.
    destruct (current_id_run _ _ _ _ H I Hc Np) as (id & s & E1 & E2 & E3).
    unfold cbind. rewrite E1. rewrite (with_hw_run _ (put_hw (d_hw d) d) _ _ E2).
    rewrite (proj2 (Z.eqb_neq _ _) E3). cbn [negb].
    rewrite <- Permutation_middle in H. rewrite counts_cons in H. apply stack_cons_inv in H as (h & H1 & H2).
    exists h. split; [exact (release_run _ _ _ (put_hw (d_hw d) (put_hw (d_hw d) d)) H2)|]. split; [done|].
    intros c E. pose proof (Hc c E) as J. apply elem_of_app in J as [J|[->|J]%elem_of_cons]; set_solver.
  - assert (res_addr res = m_curSurface d -> is_Some (res_addr res) -> idx' = m_frameIdx d) as Hi.
    { intros E S. assert (idx = m_frameIdx d) as -> by (eapply Hd; [by left|done..]).
      unfold frame_age in Ea. rewrite Z.leb_refl in Ea. by simplify_eq. }
    destruct (IH (ps0 ++ addrs [res]) d) as (h & l' & E & H1 & Hc1 & Hd1).
    + by rewrite <- (assoc_L (++)), <- (addrs_cons idx).
    + by rewrite <- (assoc_L (++)), <- (addrs_cons idx).
    + done.
    + unfold cbind. rewrite E. exists h, ((idx', res) :: l'). split; [done|].
      rewrite <- (assoc_L (++)), <- (addrs_cons idx') in H1, Hc1. split; [done|]. split; [done|].
      intros i r [[= -> ->]|J]%elem_of_cons S Er; [by apply Hi|by eapply Hd1].
Qed.

(** *** What retiring keeps *)

(** Retiring does not touch what the encoder sees. *)
Definition same_frame (d d' : display) : Prop :=
  m_frameIdx d' = m_frameIdx d /\ d_demux d' = d_demux d /\ e_world (d_enc d') = e_world (d_enc d).

Lemma with_hw_same {A} (op : cmd hw A) d r d' : with_hw op d = Some (r, d') -> same_frame d d'.
Proof. unfold with_hw. intros E. apply bind_Some in E as ([a h] & _ & E). by simplify_eq. Qed.

Lemma same_frame_trans d1 d2 d3 : same_frame d1 d2 -> same_frame d2 d3 -> same_frame d1 d3.
Proof. intros (A1 & A2 & A3) (B1 & B2 & B3). unfold same_frame. by rewrite B1, B2, B3. Qed.

Lemma retire_res_same res d d' : retire_res res d = Some (tt, d') -> same_frame d d'.
Proof.
  unfold retire_res. destruct res as [r|]; [|by intros [= <-]]. destruct (dr_surface r) as [p|]; [|by intros [= <-]].
  intros E. apply cbind_inv in E as (id & d1 & E1 & E). apply cbind_inv in E as (s & d2 & E2%with_hw_same & E).
  assert (same_frame d d1) as S1.
  { unfold current_id in E1. destruct (m_curSurface d); [|by simplify_eq].
    apply bind_Some in E1 as ([t d3] & E1%with_hw_same & E3). by simplify_eq. }
  apply (same_frame_trans _ _ _ S1), (same_frame_trans _ _ _ E2). destruct (negb _); [|by injection E as <-].
  unfold release_surface in E. apply cbind_inv in E as (t & d3 & E3%with_hw_same & E).
  apply cbind_inv in E as ([] & d4 & E4%with_hw_same & E%with_hw_same).
  by apply (same_frame_trans _ _ _ E3), (same_frame_trans _ _ _ E4).
Qed.

(** An entry that is not older than 30 frames stays. *)
Lemma retire_keeps : forall l d l' d', retire l d = Some (l', d') -> same_frame d d' /\
  forall idx r, (idx, r) ∈ l -> idx <= m_frameIdx d <= idx + 30 -> (idx, r) ∈ l'.
Proof.
  induction l as [|[i res] l IH]; intros d l' d' E; cbn [retire] in E.
  { injection E as <- <-. split; [done|]. by intros idx r I%elem_of_nil. }
  apply cbind_inv in E as (n & d0 & [= <- <-] & E). destruct (frame_age (m_frameIdx d) i) as [i' age] eqn:Ea.
  destruct (30 <? age) eqn:E30.
  - apply cbind_inv in E as ([] & d1 & E1%retire_res_same & E). destruct (IH _ _ _ E) as [S K].
    split; [by eapply same_frame_trans|]. intros idx r [[= -> ->]|I]%elem_of_cons B.
    + unfold frame_age in Ea. rewrite (proj2 (Z.leb_le _ _)) in Ea by lia. simplify_eq. bool_to_prop.
      unfold u64 in *. rewrite wrapu_small in * by lia. lia.
    + apply K; [done|]. destruct E1 as [-> _]. done.
  - apply cbind_inv in E as (l1 & d1 & E1 & E). injection E as <- <-. destruct (IH _ _ _ E1) as [S K].
    split; [done|]. intros idx r [[= -> ->]|I]%elem_of_cons B; [|right; by apply K].
    unfold frame_age in Ea. rewrite (proj2 (Z.leb_le _ _)) in Ea by lia. simplify_eq. by left.
Qed.

Lemma retireFrame_keeps d d' : retireFrame d = Some (tt, d') -> same_frame d d' /\
  forall idx r, (idx, r) ∈ m_deletedReses d -> idx <= m_frameIdx d <= idx + 30 -> (idx, r) ∈ m_deletedReses d'.
Proof.
  unfold retireFrame. intros E. apply cbind_inv in E as (l & d1 & [= <- <-] & E).
  apply cbind_inv in E as (l' & d2 & E1%retire_keeps & E). unfold cmodify in E. by simplify_eq.
Qed.

(** An entry of a removed buffer survives [n] displays. *)
Definition keeps_entries (n : Z) (d d' : display) : Prop := forall idx r,
  (idx, r) ∈ m_deletedReses d -> 0 <= idx <= m_frameIdx d -> m_frameIdx d + n <= idx + 30 ->
  m_frameIdx d + n < 2 ^ 64 -> (idx, r) ∈ m_deletedReses d' /\ m_frameIdx d <= m_frameIdx d' <= m_frameIdx d + n.

Lemma keeps_trans n m d1 d2 d3 : 0 <= m -> keeps_entries n d1 d2 -> keeps_entries m d2 d3 -> keeps_entries (n + m) d1 d3.
Proof.
  intros Hm K1 K2 idx r I B1 B2 B3. destruct (K1 idx r I B1) as [I1 C1]; [lia..|].
  destruct (K2 idx r I1) as [I2 C2]; [lia..|]. split; [done|lia].
Qed.

Lemma keeps_more d d' : m_frameIdx d' = m_frameIdx d -> m_deletedReses d ⊆ m_deletedReses d' -> keeps_entries 0 d d'.
Proof. intros E S idx r I B _ _. split; [by apply S|lia]. Qed.

(** *** The table *)

Lemma table_insert m k r : m !! k = None -> table (<[k := r]> m) ≡ₚ addrs [r] ++ table m.
Proof.
  intros E. unfold table. rewrite map_to_list_insert by done. cbn [fmap list_fmap omap list_omap snd].
  by destruct (res_addr r).
Qed.

Lemma table_delete m k r : m !! k = Some r -> table m ≡ₚ addrs [r] ++ table (delete k m).
Proof.
  intros E. rewrite <- (insert_delete_id m k r) at 1 by done. apply table_insert, lookup_delete_eq.
Qed.

Lemma table_elem m k r p : m !! k = Some r -> res_addr r = Some p -> p ∈ table m.
Proof.
  intros E Ep. rewrite (table_delete _ _ _ E). apply elem_of_app. left. cbn [omap list_omap].
  rewrite Ep. by left.
Qed.

Lemma owned_destroy r d : owned (destroyDispRes r d) ≡ₚ addrs [r] ++ owned d.
Proof.
  unfold owned, destroyDispRes. destruct r as [r|]; cbn [m_dispReses m_deletedReses set_frame]; [|done].
  rewrite fmap_app, omap_app. cbn [fmap list_fmap snd]. solve_Permutation.
Qed.

(** *** Creation *)

Definition drm_formats : list Z :=
  [DRM_FORMAT_ABGR8888; DRM_FORMAT_XBGR8888; DRM_FORMAT_ARGB8888; DRM_FORMAT_XRGB8888; DRM_FORMAT_RGB565;
   DRM_FORMAT_NV12].

(** The guest describes a picture of a known format, and no [int] overflows: not
    height times stride, not three times the second offset of an NV12 picture, and
    not a side rounded up to 16. *)
Record picture_ok (i : irr_surface_info_t) : Prop := {
  po_format : In (i_format i) drm_formats;
  po_bytes : INT_MIN <= i_height i * i_stride0 i <= INT_MAX;
  po_offset : i_format i = DRM_FORMAT_NV12 -> INT_MIN <= i_offset1 i * 3 <= INT_MAX;
  po_width : INT_MIN <= i_width i + 15 <= INT_MAX;
  po_height : INT_MIN <= i_height i + 15 <= INT_MAX
}.

Lemma picture_size i : picture_ok i -> is_Some (extbuf_size i).
Proof.
  intros [F B O _ _]. unfold extbuf_size. rewrite (int_chk_Some _ B). cbn [mbind option_bind].
  cbn [In drm_formats] in F. destruct F as [<-|[<-|[<-|[<-|[<-|[E|[]]]]]]]; try by eexists.
  rewrite <- E in *. rewrite int_chk_Some by (by apply O). by eexists.
Qed.

Lemma picture_mfx i m : picture_ok i -> is_Some (mfx_info m i).
Proof. intros [_ _ _ W H]. unfold mfx_info, align16. rewrite !int_chk_Some by done. by eexists. Qed.

(** What the creation of a buffer needs: the guest's picture is as above, the
    allocator and the driver answer nothing that is in use, and memory for the
    library surface is there. *)
Record answers_ok (a : answers) (i : irr_surface_info_t) (h : hw) : Prop := {
  ao_fresh : fresh_answers a h; ao_picture : picture_ok i;
  ao_srf : is_Some (a_srf a); ao_memid : is_Some (a_memid a)
}.

Lemma create_run va qsv a i h : answers_ok a i h -> i_type i = FD -> va <> 0 \/ qsv <> 0 ->
  exists r h', irr_encoder_create_surface va qsv a i h = Some (r, h') /\
    match r with Some p => holds h h' p 1 | None => h' = h end.
Proof.
  intros [F P [q Hq] [mi Hmi]] Ht Hf. destruct (picture_size i P) as [n Hn].
  assert (forall m, is_Some (mfx_info m i)) as Hm by (intros; by apply picture_mfx).
  unfold irr_encoder_create_surface. rewrite Ht.
  destruct (create_surface_from_fd va qsv a i h) as [[r h']|] eqn:E.
  - exists r, h'. split; [done|]. destruct r as [p|]; [by eapply create_holds|].
    destruct F as [Fs Fq Fm Fd [Fv Fi]]. pose proof (dup_fds_fresh _ (i_fd i) _ Fd) as Fl. revert E.
    unfold create_surface_from_fd, calloc, clift, close_fds, open_fds, free, cbind, cmodify, store, cret.
    destruct (a_surface a) as [p|]; [|by intros [= <-]]. rewrite Hn, Hq, Hmi. specialize (Fs _ eq_refl).
    destruct (negb _); cbn; rewrite ?lookup_insert_eq.
    + intros [= <-]. apply hw_eq; cbn; [unfold live in Fl; set_solver|done..|]. by rewrite delete_insert_id.
    + intros E. exfalso. revert E. repeat (case_match; cbn; try done).
  - exfalso. revert E. destruct F as [Fs Fq Fm Fd [Fv Fi]].
    unfold create_surface_from_fd, calloc, clift, close_fds, open_fds, free, cbind, cmodify, store, cret.
    destruct (a_surface a) as [p|]; [|done]. rewrite Hn, Hq, Hmi. specialize (Fs _ eq_refl).
    destruct (Fq _ Hq) as [Fq1 Fq2], (Fm _ Hmi) as (Fm1 & Fm2 & Fm3).
    destruct (negb (_ =? VA_STATUS_SUCCESS)); cbn; rewrite ?lookup_insert_eq; [done|].
    destruct (negb (va =? 0)); cbn; rewrite ?lookup_insert_eq; [done|].
    destruct (negb (qsv =? 0)); cbn; rewrite ?lookup_insert_eq; [|done].
    rewrite !lookup_insert_ne, lookup_insert_eq by congruence. cbn. destruct (Hm mi) as [m ->]. cbn.
    by rewrite !lookup_insert_ne, lookup_insert_eq by congruence.
Qed.

(** A new surface on top of the owned ones. *)
Lemma stack_new b h h' p cur ps : stack b h (counts cur ps) -> (forall c, cur = Some c -> c ∈ ps) ->
  holds h h' p 1 -> stack b h' (counts cur (p :: ps)).
Proof.
  intros H Hc Hp. rewrite counts_cons, decide_False; [by econstructor|]. intros E.
  assert (is_Some (heap h !! p)) as [c N] by (eapply stack_alloc; [done|rewrite counts_fst; by apply Hc]).
  apply holds_fresh in Hp as [E' _]. by rewrite E' in N.
Qed.

Lemma create_res_run b a hd d : display_ok b d -> answers_ok a (disp_info (disp_res_of hd)) (d_hw d) ->
  exists r h, createDispRes a hd d = Some (r, put_hw h d) /\
    stack b h (counts (m_curSurface d) (addrs [r] ++ owned d)).
Proof.
  intros [H Hc _ Hp _] Ha. unfold createDispRes.
  destruct (create_run (irr_get_VASurfaceFlag (e_world (d_enc d))) (irr_get_QSVSurfaceFlag (e_world (d_enc d)))
    a (disp_info (disp_res_of hd)) (d_hw d) Ha eq_refl Hp) as (o & h' & E & Ho).
  rewrite (with_hw_run _ _ _ _ E). cbn [mbind option_bind]. destruct o as [p|].
  - eexists _, h'. split; [reflexivity|]. by eapply (stack_new b _ h' p).
  - subst h'. by exists None, (d_hw d).
Qed.

(** The state after a resource moved or was added, with its surface on the stack. *)
Lemma display_ok_moved b d d' : display_ok b d -> d_enc d' = set_blank (d_hw d') (e_pool (d_enc d)) (e_blank (d_enc d)) (d_enc d) ->
  m_curSurface d' = m_curSurface d -> m_frameIdx d' = m_frameIdx d ->
  stack b (d_hw d') (counts (m_curSurface d) (owned d')) -> owned d ⊆ owned d' ->
  (forall idx r, (idx, r) ∈ m_deletedReses d' -> (idx, r) ∈ m_deletedReses d \/ idx = m_frameIdx d) ->
  display_ok b d'.
Proof.
  intros [H Hc Hd Hp Ho] E Ec Ef S I D. split; rewrite ?Ec, ?Ef.
  - done.
  - intros c Hcc. by apply I, Hc.
  - intros idx r J S' Er. destruct (D _ _ J) as [J'|]; [|done]. by eapply Hd.
  - by rewrite E.
  - by rewrite E.
Qed.

Lemma CreateBuffer_ok b a hd d : display_ok b d -> answers_ok a (disp_info (disp_res_of hd)) (d_hw d) ->
  exists d', CreateBuffer a hd d = Some (tt, d') /\ display_ok b d' /\ keeps_entries 0 d d'.
Proof.
  intros O Ha. destruct (create_res_run b a hd d O Ha) as (r & h & E & S).
  unfold CreateBuffer, cbind. rewrite E. eexists. split; [reflexivity|]. split.
  2: { destruct (m_dispReses (put_hw h d) !! gh_addr hd) as [[r0|]|]; apply keeps_more; cbn; set_solver. }
  destruct (m_dispReses (put_hw h d) !! gh_addr hd) as [old|] eqn:El.
  - assert (owned (set_reses (<[gh_addr hd := r]> (m_dispReses (set_reses (delete (gh_addr hd)
      (m_dispReses (destroyDispRes old (put_hw h d)))) (destroyDispRes old (put_hw h d)))))
      (set_reses (delete (gh_addr hd) (m_dispReses (destroyDispRes old (put_hw h d)))) (destroyDispRes old (put_hw h d))))
      ≡ₚ addrs [r] ++ owned d) as P.
    { pose proof (owned_destroy old (put_hw h d)) as P. unfold owned in P |- *. cbn [m_dispReses m_deletedReses set_reses].
      assert (m_dispReses (destroyDispRes old (put_hw h d)) = m_dispReses d) as Em by (by destruct old).
      rewrite Em in P |- *. cbn [m_dispReses m_deletedReses put_hw set_enc] in P.
      rewrite table_insert by apply lookup_delete_eq. rewrite (table_delete _ _ _ El) in P at 1.
      rewrite <- !(assoc_L (++)) in P |- *. apply Permutation_app_head.
      apply (Permutation_app_inv_l (addrs [old])). by rewrite <- P. }
    eapply (display_ok_moved b d); [done|by destruct old|by destruct old|by destruct old|..].
    + rewrite P. by destruct old.
    + intros x Hx. rewrite P. set_solver.
    + intros idx r0. destruct old as [old|]; cbn; [|by left].
      intros [J|J%list_elem_of_singleton]%elem_of_app; [by left|right; by simplify_eq].
  - assert (owned (set_reses (<[gh_addr hd := r]> (m_dispReses (put_hw h d))) (put_hw h d)) ≡ₚ addrs [r] ++ owned d) as P.
    { unfold owned. cbn [m_dispReses m_deletedReses set_reses put_hw set_enc].
      rewrite table_insert by done. by rewrite <- (assoc_L (++)). }
    eapply (display_ok_moved b d); [done..|by rewrite P| |by left]. intros x Hx. rewrite P. set_solver.
Qed.

Lemma RemoveBuffer_ok b hd d : display_ok b d -> display_ok b (RemoveBuffer hd d).
Proof.
  intros O. unfold RemoveBuffer. destruct (m_dispReses d !! gh_addr hd) as [[r|]|] eqn:E; [|done..].
  assert (owned (set_reses (delete (gh_addr hd) (m_dispReses (destroyDispRes (Some r) d))) (destroyDispRes (Some r) d))
    ≡ₚ owned d) as P.
  { unfold owned. cbn [m_dispReses m_deletedReses set_reses destroyDispRes set_frame].
    rewrite (table_delete _ _ _ E), fmap_app, omap_app. cbn [fmap list_fmap snd]. solve_Permutation. }
  eapply (display_ok_moved b d); [done|by destruct d as [[]]|done|done|..].
  - rewrite P. apply O.
  - intros x Hx. by rewrite P.
  - intros idx r0. cbn. intros [J|J%list_elem_of_singleton]%elem_of_app; [by left|right; by simplify_eq].
Qed.

(** *** Display *)

Lemma retireFrame_ok b d : display_ok b d -> exists d', retireFrame d = Some (tt, d') /\ display_ok b d' /\
  d_enc d' = set_blank (d_hw d') (e_pool (d_enc d)) (e_blank (d_enc d)) (d_enc d) /\
  m_dispReses d' = m_dispReses d /\ m_curSurface d' = m_curSurface d.
Proof.
  intros [H Hc Hd Hp Ho]. unfold retireFrame, cbind, cgets.
  destruct (retire_run b (table (m_dispReses d)) (m_deletedReses d) d H Hc Hd) as (h & l & -> & H1 & Hc1 & Hd1).
  eexists. split; [reflexivity|]. by repeat split.
Qed.

(** A resource of the table is drawn. *)
Lemma draw_ok b we k res ctrl d : display_ok b d -> m_dispReses d !! k = Some res ->
  (forall w h, 8 <= we_img_size we w h) ->
  exists d', (cmodify beginFrame;;; drawDispRes we res ctrl) d = Some (tt, d') /\ display_ok b d' /\
    m_curSurface d' = res_addr res /\ m_frameIdx d' = u64 (m_frameIdx d + 1) /\
    m_deletedReses d' = m_deletedReses d /\
    (buffers_given we -> forall p s, res_addr res = Some p -> load_surface p (d_hw d) = Some (s, d_hw d) ->
       sent (e_world (d_enc d)) s ctrl (d_demux d) (d_demux d')).
Proof.
  intros [H Hc Hd Hp Ho] E Hw. set (d1 := beginFrame d).
  assert (forall p, res_addr res = Some p -> p ∈ owned d1) as Hr.
  { intros p Ep. unfold owned. apply elem_of_app. left. by eapply table_elem. }
  change ((cmodify beginFrame;;; drawDispRes we res ctrl) d) with (drawDispRes we res ctrl d1).
  change (drawDispRes we res ctrl) with
    ((match res_addr res with Some p => encoder_write we p ctrl;;; cret tt | None => cret tt end);;;
     set_current (res_addr res)).
  assert (exists h pool dm, (match res_addr res with Some p => encoder_write we p ctrl;;; cret tt | None => cret tt end) d1
    = Some (tt, set_enc (set_blank h pool (e_blank (d_enc d1)) (d_enc d1)) dm (d_pixels d1) d1) /\
      stack b h (counts (m_curSurface d) (owned d)) /\ pool_ok pool /\
      (buffers_given we -> forall p s, res_addr res = Some p -> load_surface p (d_hw d) = Some (s, d_hw d) ->
         sent (e_world (d_enc d)) s ctrl (d_demux d) dm)) as (h & pool & dm & E1 & H1 & Hp1 & Hq1).
  { destruct (res_addr res) as [p|].
    - destruct (write_run b we p ctrl d1 (owned d1)) as (r & h & pool & dm & E1 & H1 & P1 & Q1); [done|by apply Hr|done..|].
      exists h, pool, dm. unfold cbind. rewrite E1. split_and!; try done. intros B p' s [= <-]. by apply Q1.
    - exists (d_hw d1), (e_pool (d_enc d1)), (d_demux d1). split; [|done]. unfold cret. do 2 f_equal. by destruct d as [[]]. }
  unfold cbind at 1. rewrite E1. set (d2 := set_enc _ _ _ d1).
  destruct (current_run b (res_addr res) d2 (owned d1)) as (h2 & E2 & H2); [exact H1|exact Hc|exact Hr|].
  rewrite E2.
  eexists. split; [reflexivity|]. split; [|done]. split; cbn [m_curSurface set_frame d_enc m_frameIdx m_deletedReses]; try done.
  intros idx r I [p S] Er. exfalso. apply stack_owned_NoDup in H. unfold owned in H. apply NoDup_app in H as (_ & N & _).
  eapply N; [|apply list_elem_of_omap; exists r; split; [apply list_elem_of_fmap; by exists (idx, r)|exact S]].
  eapply table_elem; [exact E|]. by rewrite <- Er, S.
Qed.

(** *** Commands *)

(** What a command needs from the guest and the system.  Creation: [answers_ok].
    Display: a buffer of the encoder's pool holds a pointer; and when the buffer has
    another size than the server, which [fixed] excludes, the restart of the encoder
    returns, with a flag for surfaces set and a pool whose buffers hold a pointer. *)
Definition command_ok `{AvDict} (fixed : bool) (ce : command_env) (c : CommandType) (f : option frame_info_t)
    (d : display) : Prop :=
  match f ≫= fi_handle, c with
  | Some h, FRAME_CREATE => answers_ok (ce_answers ce) (disp_info (disp_res_of h)) (d_hw d)
  | Some h, FRAME_DISPLAY =>
      (forall w h, 8 <= we_img_size (ce_write ce) w h) /\
      if new_size (ce_disable ce) h d then
        fixed = false /\ fresh_answers (se_surface (re_start (ce_restart ce))) (d_hw d) /\
        (a_image (se_surface (re_start (ce_restart ce))) ∉ images (d_hw d)) /\
        exists d', resize (ce_restart ce) h d = Some (tt, d') /\ path_set (e_world (d_enc d')) /\
          pool_ok (e_pool (d_enc d'))
      else True
  | _, _ => True
  end.

Section Commands.
Context `{AvDict}.

Lemma world_hw {A} (op : cmd world A) d r d' : with_world op d = Some (r, d') ->
  d_hw d' = d_hw d /\ owned d' = owned d /\ m_curSurface d' = m_curSurface d /\ m_deletedReses d' = m_deletedReses d /\
  m_frameIdx d' = m_frameIdx d.
Proof. unfold with_world. intros E. apply bind_Some in E as ([a w] & _ & E). by simplify_eq. Qed.

(** The restart only adds to the hardware. *)
Lemma resize_grown en h d d' : resize en h d = Some (tt, d') ->
  fresh_answers (se_surface (re_start en)) (d_hw d) -> (a_image (se_surface (re_start en)) ∉ images (d_hw d)) ->
  grown (d_hw d) (d_hw d') /\ owned d' = owned d /\ m_curSurface d' = m_curSurface d /\
  m_deletedReses d' = m_deletedReses d /\ m_frameIdx d' = m_frameIdx d.
Proof.
  unfold resize, ChangeResolution. intros E F I.
  apply cbind_inv in E as ([] & d1 & E1 & E). apply cbind_inv in E as ([] & d2 & E2 & E).
  do 4 (apply cbind_inv in E as (? & ? & ?%world_hw & E)). unfold cret in E. simplify_eq.
  unfold cmodify in E2. simplify_eq.
  apply cbind_inv in E1 as ([] & d3 & E3 & E1). apply cbind_inv in E1 as ([] & d4 & E4 & E1).
  unfold cmodify in E4. simplify_eq. apply cbind_inv in E1 as (d5 & d6 & E5 & E1). unfold cget in E5. simplify_eq.
  apply cbind_inv in E1 as (i & d7 & E6 & E7). unfold cmodify in E7. simplify_eq.
  unfold encoder_stop in E3. apply bind_Some in E3 as ([[] e] & E3 & E8). simplify_eq.
  unfold irr_encoder_stop in E3. apply bind_Some in E3 as (? & _ & E3). simplify_eq.
  unfold encoder_start in E6. apply bind_Some in E6 as ([r e] & E6 & E8). simplify_eq.
  apply start_grown in E6; [|done..]. destruct_and!.
  split_and!; repeat match goal with Hx : _ = _ |- _ => rewrite Hx; clear Hx end; [exact E6|reflexivity..].
Qed.

Lemma DisplayRequest_ok fixed b ce hd ctrl d : display_ok b d ->
  command_ok fixed ce FRAME_DISPLAY (Some {| fi_handle := Some hd; fi_ctrl := ctrl |}) d ->
  exists d' b', DisplayRequest (ce_disable ce) (ce_restart ce) (ce_write ce) hd ctrl d = Some (tt, d') /\
    display_ok b' d' /\ grown b b' /\ (fixed = true -> b' = b) /\ keeps_entries 1 d d'.
Proof.
  intros O [Hw Hr]. unfold DisplayRequest. unfold cbind at 1, cget at 1.
  assert (exists d1 b1, (if new_size (ce_disable ce) hd d then resize (ce_restart ce) hd else cret tt) d = Some (tt, d1) /\
    display_ok b1 d1 /\ grown b b1 /\ (fixed = true -> b1 = b) /\ m_deletedReses d1 = m_deletedReses d /\
    m_frameIdx d1 = m_frameIdx d) as (d1 & b1 & E1 & O1 & G1 & F1 & D1 & I1).
  { destruct (new_size (ce_disable ce) hd d); [|by exists d, b].
    destruct Hr as (Hf & Fr & Fi & d1 & E1 & P1 & Q1). destruct (resize_grown _ _ _ _ E1 Fr Fi) as (G & Eo & Ec & Ed & Ef).
    apply grown_adds in G as [x A]. destruct O as [H0 Hc Hd Hp Ho].
    destruct (stack_base _ _ _ _ _ H0 A) as (b1 & A1 & S1). exists d1, b1. split; [done|].
    split; [split; rewrite ?Eo, ?Ec, ?Ed, ?Ef; done|]. apply adds_grown in A1. split_and!; try done. by subst. }
  unfold cbind at 1. rewrite E1. unfold cbind at 1, cget.
  destruct (m_dispReses d1 !! gh_addr hd) as [res|] eqn:El.
  2: { exists d1, b1. split_and!; try done. intros idx r I B _ _. rewrite D1, I1. split; [done|lia]. }
  destruct (draw_ok b1 (ce_write ce) _ res ctrl d1 O1 El Hw) as (d2 & E2 & O2 & _ & I2 & D2 & _).
  destruct (retireFrame_ok b1 d2 O2) as (d3 & E3 & O3 & _).
  assert (keeps_entries 1 d d3) as K.
  { apply retireFrame_keeps in E3 as [(I3 & _) K3]. intros idx r I B1 B2 B3. rewrite I3, I2, I1.
    unfold u64 in *. rewrite I1 in I2. rewrite wrapu_small in I2 |- * by lia.
    split; [|lia]. apply K3; [by rewrite D2, D1|lia]. }
  exists d3, b1. split; [|done].
  apply cbind_inv in E2 as ([] & d4 & E4 & E2). unfold cbind. unfold cmodify in E4 |- *. simplify_eq. rewrite E2. exact E3.
Qed.

(** A run of commands. *)
Record command := { cm_env : command_env; cm_type : CommandType; cm_frame : option frame_info_t }.

Definition exec (c : command) : cmd display unit := CommandHandler (cm_env c) (cm_type c) (cm_frame c).

Fixpoint crun (cs : list command) : cmd display unit :=
  match cs with [] => cret tt | c :: cs => exec c;;; crun cs end.

Definition is_display (c : command) : Z := match cm_type c with FRAME_DISPLAY => 1 | _ => 0 end.
Fixpoint displays (cs : list command) : Z := match cs with [] => 0 | c :: cs => is_display c + displays cs end.

Fixpoint commands_ok (fixed : bool) (cs : list command) (d : display) : Prop :=
  match cs with
  | [] => True
  | c :: cs => command_ok fixed (cm_env c) (cm_type c) (cm_frame c) d /\
               forall d', exec c d = Some (tt, d') -> commands_ok fixed cs d'
  end.

Lemma exec_ok fixed b c d : display_ok b d -> command_ok fixed (cm_env c) (cm_type c) (cm_frame c) d ->
  exists d' b', exec c d = Some (tt, d') /\ display_ok b' d' /\ grown b b' /\ (fixed = true -> b' = b) /\
    keeps_entries (is_display c) d d'.
Proof.
  intros O K. unfold exec, CommandHandler. destruct c as [ce c [[[hd|] ctrl]|]]; cbn [cm_env cm_type cm_frame fi_handle] in *;
    unfold is_display; cbn [cm_type].
  2,3: assert (forall n, 0 <= n -> keeps_entries n d d) as Kd by (intros n ? idx r I B _ _; split; [done|lia]);
       exists d, b; split_and!; try done; by destruct c; apply Kd.
  destruct c.
  - destruct (CreateBuffer_ok b _ _ _ O K) as (d' & E & O' & K'). by exists d', b.
  - eexists _, b. split; [reflexivity|]. split; [by apply RemoveBuffer_ok|]. split_and!; [done..|].
    unfold RemoveBuffer. repeat case_match; apply keeps_more; cbn; set_solver.
  - by apply (DisplayRequest_ok fixed b ce hd ctrl d).
  - exists d, b. split_and!; try done. by apply keeps_more.
Qed.

Lemma crun_ok fixed cs : forall b d, display_ok b d -> commands_ok fixed cs d ->
  exists d' b', crun cs d = Some (tt, d') /\ display_ok b' d' /\ grown b b' /\ (fixed = true -> b' = b) /\
    keeps_entries (displays cs) d d'.
Proof.
  assert (forall cs, 0 <= displays cs) as Hn.
  { clear cs. induction cs as [|c cs IH]; cbn; [done|]. unfold is_display. destruct (cm_type c); lia. }
  induction cs as [|c cs IH]; intros b d O K; [exists d, b; split_and!; try done; by apply keeps_more|].
  destruct K as [K1 K2].
  destruct (exec_ok fixed b c d O K1) as (d1 & b1 & E1 & O1 & G1 & F1 & L1).
  destruct (IH b1 d1 O1 (K2 _ E1)) as (d2 & b2 & E2 & O2 & G2 & F2 & L2).
  exists d2, b2. cbn [crun]. unfold cbind. rewrite E1. split; [done|]. split; [done|]. split_and!.
  - destruct G1, G2. split; by etransitivity.
  - intros ->. by rewrite F2, F1.
  - by eapply keeps_trans; [apply Hn|..].
Qed.
End Commands.

(** *** Shutdown *)

Lemma flush_run b : forall l d cs, stack b (d_hw d) cs -> cs.*1 ≡ₚ addrs l.*2 -> flush l d = Some (tt, put_hw b d).
Proof.
  induction l as [|[idx res] l IH]; intros d cs H P.
  - apply Permutation_nil_r in P. destruct cs; [|done]. apply stack_nil_inv in H. subst. by destruct d as [[]].
  - cbn [flush]. rewrite addrs_cons in P. unfold cbind.
    destruct res as [r|]; [|by eapply (IH d)].
    change (addrs [Some r]) with (match dr_surface r with Some p => [p] | None => [] end) in P.
    destruct (dr_surface r) as [p|]; [|by eapply (IH d)].
    assert (p ∈ cs.*1) as [[q n] [-> I]]%list_elem_of_fmap by (rewrite P; by left). cbn [fst] in *.
    destruct (stack_pick _ _ _ _ _ H I) as (h & cs' & P' & H' & Hp). rewrite (release_run _ _ _ _ Hp).
    rewrite (IH (put_hw h d) cs' H'); [done|]. rewrite P' in P. by apply Permutation_cons_inv in P.
Qed.

Lemma fold_destroy l : forall d, let d' := fold_left (fun d r => destroyDispRes r d) l d in
  d_enc d' = d_enc d /\ m_curSurface d' = m_curSurface d /\ m_frameIdx d' = m_frameIdx d /\
  addrs (m_deletedReses d').*2 = addrs (m_deletedReses d).*2 ++ addrs l /\
  forall idx r, (idx, r) ∈ m_deletedReses d' -> (idx, r) ∈ m_deletedReses d \/ idx = m_frameIdx d.
Proof.
  induction l as [|r l IH]; intros d; cbn zeta.
  { split_and!; [done..|by rewrite app_nil_r|by left]. }
  cbn [fold_left]. destruct (IH (destroyDispRes r d)) as (E1 & E2 & E3 & E4 & E5).
  rewrite E1, E2, E3, E4. destruct r as [r|]; cbn [destroyDispRes] in *; [|by split_and!].
  split_and!; [done..| |].
  - cbn [m_deletedReses set_frame]. rewrite fmap_app, omap_app, <- (assoc_L (++)). cbn [fmap list_fmap snd].
    f_equal. cbn [omap list_omap]. by destruct (res_addr (Some r)).
  - intros idx r0 I. destruct (E5 _ _ I) as [J|J]; [|by right]. cbn in J.
    apply elem_of_app in J as [J|J%list_elem_of_singleton]; [by left|right; by simplify_eq].
Qed.

(** The encoder can be stopped: it has a transcoder, or no streamer. *)
Definition stoppable (d : display) : Prop := is_Some (delete_streamer (streamer (e_world (d_enc d)))).

Lemma deinit_ok `{AvDict} b d : display_ok b d -> stoppable d ->
  exists d', server_deinit d = Some (tt, d') /\ d_hw d' = b /\ m_dispReses d' = ∅ /\ m_deletedReses d' = [].
Proof.
  intros O [[] S]. unfold server_deinit, renderer_deinit. unfold cbind at 1, cmodify at 1. unfold cbind at 1, cmodify.
  pose (d1 := set_reses ∅ (fold_left (fun d r => destroyDispRes r d) (ordered_reses (m_dispReses d)) (delete_receiver d))).
  change (set_reses ∅ _) with d1.
  destruct (fold_destroy (ordered_reses (m_dispReses d)) (delete_receiver d)) as (E1 & E2 & E3 & E4 & E5).
  assert (owned d1 ≡ₚ owned d) as P.
  { unfold owned, d1. cbn [m_dispReses m_deletedReses set_reses]. rewrite E4. cbn [m_deletedReses delete_receiver set_calls].
    unfold table at 1. rewrite map_to_list_empty. cbn [fmap list_fmap omap list_omap app].
    rewrite (comm (++)). apply Permutation_app_tail. unfold table, ordered_reses. by rewrite merge_sort_Permutation. }
  assert (display_ok b d1) as O1.
  { eapply (display_ok_moved b d); [done|..].
    - change (d_hw d1) with (e_hw (d_enc d1)). cbn [d1 d_enc set_reses]. rewrite E1. by destruct d as [[]].
    - exact E2.
    - exact E3.
    - rewrite P. change (d_hw d1) with (e_hw (d_enc d1)). cbn [d1 d_enc set_reses]. rewrite E1. apply O.
    - intros x Hx. by rewrite P.
    - exact E5. }
  destruct (retireFrame_ok b d1 O1) as (d2 & R & O2 & Ee & Em & _). unfold cbind at 1. unfold cbind at 1. rewrite R.
  assert (encoder_stop d2 = Some (tt, set_enc (set_world (set_streamer None (e_world (d_enc d2))) (d_enc d2)) None (d_pixels d2) d2)) as Es.
  { unfold encoder_stop, irr_encoder_stop. rewrite Ee. cbn [e_world set_blank]. cbn [d1 d_enc set_reses].
    rewrite E1. cbn [delete_receiver set_calls d_enc]. by rewrite S. }
  rewrite Es. unfold flushDelayDelRes, cbind, cgets. set (d3 := set_enc _ _ _ d2).
  rewrite (flush_run b (m_deletedReses d3) d3 (counts (m_curSurface d2) (owned d2))).
  - eexists. split; [reflexivity|]. split; [done|]. split; [|done]. exact Em.
  - apply O2.
  - rewrite counts_fst. unfold owned. by rewrite Em.
Qed.

(** C3. The surfaces of the guest's buffers are neither lost nor used too late.  A
    server without buffers, whose streamer takes surfaces and whose pool, if there
    is one, has buffers that hold a pointer, gets any sequence of the guest's commands:
    creation, also of a buffer that exists, removal, also of one that does not,
    display, also of one that was removed, unknown commands and frames without
    handle.  Assumed of the guest ([picture_ok]): each buffer it creates has one of
    the six known formats, and height times stride, three times the second offset of
    an NV12 buffer and the sides plus 15 fit an [int]; a guest that sends other values
    makes the creation undefined.  Assumed of the system ([answers_ok],
    [command_ok]): new objects are not in use already, memory for the library's two
    structures is granted (the surface itself may be refused, and the driver may fail), the
    image size of the encoder's pool is at least 8, and for a buffer of another size the
    restart of the encoder returns with surfaces and such a pool.  Then the sequence is
    defined; after it, and so after each of its prefixes, every surface of the table and of
    the removed buffers exists, with one reference, and one more while it is on display.
    When the encoder can be stopped at the end (it has a transcoder or no streamer), the
    shutdown gives back every surface, descriptor and allocation: the hardware is as
    before, but for what the restarts of the encoder added. *)
Theorem server_surfaces_safe `{AvDict} fixed cs d :
  m_dispReses d = ∅ -> m_deletedReses d = [] -> m_curSurface d = None ->
  path_set (e_world (d_enc d)) -> pool_ok (e_pool (d_enc d)) -> commands_ok fixed cs d ->
  exists d' b, crun cs d = Some (tt, d') /\
    stack b (d_hw d') (counts (m_curSurface d') (owned d')) /\
    grown (d_hw d) b /\ (fixed = true -> b = d_hw d) /\
    (stoppable d' -> exists d2, server_deinit d' = Some (tt, d2) /\ d_hw d2 = b).
Proof.
  intros E1 E2 E3 P Q K. assert (display_ok (d_hw d) d) as O.
  { split; unfold owned; rewrite ?E1, ?E2, ?E3; try done; [constructor|].
    intros idx r I. by apply elem_of_nil in I. }
  destruct (crun_ok fixed cs _ _ O K) as (d' & b & R & O' & G & F & _). exists d', b.
  split; [done|]. split; [apply O'|]. split; [done|]. split; [done|].
  intros S. destruct (deinit_ok b d' O' S) as (d2 & D & Eh & _). by exists d2.
Qed.

(** C12. The buffer a guest displays is the picture the encoder reads next.  For a
    buffer of the table, of the size the server has, the display request returns; the
    demuxer's next read gives the buffer's surface (as VA surface or as library
    surface, by the streamer's flags) with the request's display control or, when it
    has none, the one still waiting; and that surface is on display and still
    allocated. *)
Theorem displayed_is_next_read `{AvDict} b disable en we h ctrl d r p s x :
  display_ok b d -> new_size disable h d = false -> m_dispReses d !! gh_addr h = Some (Some r) ->
  dr_surface r = Some p -> load_surface p (d_hw d) = Some (s, d_hw d) -> d_demux d = Some x ->
  is_Some (streamer (e_world (d_enc d))) -> buffers_given we -> (forall w h, 8 <= we_img_size we w h) ->
  exists d' x', DisplayRequest disable en we h ctrl d = Some (tt, d') /\ d_demux d' = Some x' /\
    m_curSurface d' = Some p /\ is_Some (heap (d_hw d') !! p) /\
    forall wait now ref im raw, exists x2, readPacket wait now ref im raw x' =
      Some (ref, Some {| rp_payload := surface_packet (e_world (d_enc d)) s;
                         rp_ctrl := match ctrl with Some c => Some c | None => dm_ctrl x end; rp_pts := now |}, x2).
Proof.
  intros O Hn El Ep Es Ex St B Hw.
  destruct (draw_ok b we _ (Some r) ctrl d O El Hw) as (d2 & E2 & O2 & C2 & _ & _ & Q2).
  destruct (retireFrame_ok b d2 O2) as (d3 & E3 & O3 & Ee & _ & C3).
  destruct (Q2 B p s Ep Es x Ex St) as [size Q]. apply cbind_inv in E2 as ([] & d4 & E4 & E2).
  pose proof (proj1 (proj2 (proj1 (retireFrame_keeps _ _ E3)))) as Ed.
  exists d3. eexists. split_and!.
  - unfold DisplayRequest, cbind, cget. rewrite Hn. cbn. rewrite El.
    unfold cmodify in E4 |- *. simplify_eq. rewrite E2. exact E3.
  - rewrite Ed. exact Q.
  - rewrite C3, C2. exact Ep.
  - eapply stack_alloc; [apply O3|]. rewrite counts_fst. apply O3. rewrite C3, C2. exact Ep.
  - intros wait now ref im raw.
    destruct (readPacket_run wait now ref im raw (sendPacket {| pk_payload := surface_packet (e_world (d_enc d)) s;
      pk_size := size; pk_ctrl := ctrl |} x) (surface_packet (e_world (d_enc d)) s) eq_refl) as [wr ->].
    eexists. reflexivity.
Qed.

(** The surface of a removed buffer lives on for 30 frames.  After the removal
    (while the encoder may still read the last picture), whatever the guest
    commands, the surface stays allocated as long as at most 30 displays were
    requested. *)
Theorem removed_buffer_survives `{AvDict} fixed b d hd r p cs :
  display_ok b d -> m_dispReses d !! gh_addr hd = Some (Some r) -> dr_surface r = Some p ->
  commands_ok fixed cs (RemoveBuffer hd d) -> displays cs <= 30 -> 0 <= m_frameIdx d < 2 ^ 64 - 30 ->
  exists d', crun cs (RemoveBuffer hd d) = Some (tt, d') /\ p ∈ owned d' /\ is_Some (heap (d_hw d') !! p).
Proof.
  intros O El Ep K Hn Hf. destruct (crun_ok fixed cs b _ (RemoveBuffer_ok b hd d O) K) as (d' & b' & R & O' & _ & _ & L).
  exists d'. split; [done|]. destruct (L (m_frameIdx d) (Some r)) as [I _].
  1-4: unfold RemoveBuffer; rewrite El; cbn; try lia. { apply elem_of_app. right. by left. }
  assert (p ∈ owned d') as J.
  { unfold owned. apply elem_of_app. right. apply list_elem_of_omap. exists (Some r). split; [|done].
    apply list_elem_of_fmap. by exists (m_frameIdx d, Some r). }
  split; [done|]. eapply stack_alloc; [apply O'|]. by rewrite counts_fst.
Qed.

(** A failed start is not noticed, and crashes the server later.  With the default
    plug-in, or any but QSV, the encoder's start fails, but [init] reports success
    as soon as the pipe is there; the first buffer of another size then makes the
    server stop an encoder that has no transcoder, which follows a null pointer. *)
Theorem failed_start_crashes `{AvDict} en i d d' ok :
  qsv_asked i = false -> server_init en true true true i d = Some (ok, d') ->
  ok = true /\ forall en2 we h ctrl, (gh_width h =? m_curWidth d') && (gh_height h =? m_curHeight d') = false ->
    DisplayRequest None en2 we h ctrl d' = None.
Proof.
  intros Hq E. unfold server_init in E. cbn [negb] in E.
  do 2 (apply cbind_inv in E as ([] & ? & E1 & E); unfold cmodify in E1; simplify_eq).
  apply cbind_inv in E as (t & d3 & E2 & E). injection E as <- <-. split; [done|].
  unfold renderer_init in E2. apply cbind_inv in E2 as ([] & d4 & E3 & E2). unfold cmodify in E3. simplify_eq.
  apply cbind_inv in E2 as (i' & d5 & E4 & E2). apply cbind_inv in E2 as ([] & d6 & E5 & E2).
  injection E2 as _ <-. unfold encoder_start in E4. apply bind_Some in E4 as ([[r i2] e] & E4 & E6).
  destruct (failed_start_no_trans _ _ _ _ _ _ Hq E4) as (_ & s & Hs & Ht).
  assert (d_enc d6 = e) as Ee by (unfold cmodify in E5; simplify_eq; by case_match).
  intros en2 we h ctrl Hn. unfold DisplayRequest, cbind at 1, cget at 1.
  replace (new_size None h d6) with true.
  - assert (encoder_stop d6 = None) as Es
      by (unfold encoder_stop, irr_encoder_stop, delete_streamer; by rewrite Ee, Hs, Ht).
    unfold resize, ChangeResolution, cbind. by rewrite Es.
  - unfold new_size. rewrite andb_true_r, <- negb_andb, Hn. done.
Qed.

(** A message of the pipe that arrives during the shutdown, after the receiver was
    deleted and before the thread of the pipe is joined, follows a null pointer. *)
Theorem pipe_during_shutdown feedback d w h :
  pipe_message feedback PIPE_MESSAGE_SIZE
    {| pm_magic := PIPE_MAGIC; pm_type := IRRV_PIPE_MESSAGE_TYPE_RESOLUTION_CHANGE; pm_data0 := w; pm_data1 := h |}
    (delete_receiver d) = None.
Proof. reflexivity. Qed.

(** *** A guest with two buffers *)

Definition guest_buffer (addr fd : Z) : gralloc_handle :=
  {| gh_addr := addr; gh_width := 1280; gh_height := 720; gh_format := DRM_FORMAT_ABGR8888; gh_droid_format := 1;
     gh_fds := [fd; -1; -1; -1]; gh_strides := [5120; 0; 0; 0]; gh_offsets := [0; 0; 0; 0];
     gh_modifiers := [0; 0; 0; 0; 0; 0; 0; 0] |}.
Definition guest_answers (n : Z) : answers :=
  {| a_surface := Some (1000 + n); a_dup := [12 + n; -1; -1; -1]; a_create := (0, 50 + n); a_srf := Some (2000 + n);
     a_memid := Some (3000 + n); a_sync := 0; a_derive := 0; a_image := 1; a_map := 0; a_unmap := 0;
     a_destroy_image := 0 |}.
Definition sample_write : write_env :=
  {| we_fetch := fetch_ok; we_img_size := fun _ _ => 64; we_init := true; we_get := true; we_pdata := 9000 |}.
Definition sample_restart : restart_env := {| re_start := sample_env; re_demux := fixed_demux |}.
Definition guest_env (n : Z) : command_env :=
  {| ce_answers := guest_answers n; ce_disable := None; ce_restart := sample_restart; ce_write := sample_write |}.
Definition guest (n : Z) (c : CommandType) (h : gralloc_handle) : command :=
  {| cm_env := guest_env n; cm_type := c; cm_frame := Some {| fi_handle := Some h; fi_ctrl := None |} |}.

(** The server after its initialisation. *)
Definition display0 : display :=
  {| d_enc := enc0; d_demux := None; d_pixels := ∅; m_frameIdx := 0; m_deletedReses := []; m_curSurface := None;
     m_currentInfo := qsv_options; m_dispReses := ∅; m_curWidth := 0; m_curHeight := 0; d_calls := None |}.
Definition started_display : display :=
  match server_init sample_restart true true true qsv_options display0 with
  | Some (_, d) => d | None => display0
  end.

Definition guest_session : list command :=
  [guest 10 FRAME_CREATE (guest_buffer 1 7); guest 0 FRAME_DISPLAY (guest_buffer 1 7);
   guest 20 FRAME_CREATE (guest_buffer 1 8); guest 0 FRAME_DISPLAY (guest_buffer 1 8);
   guest 0 FRAME_REMOVE (guest_buffer 1 8); guest 0 FRAME_DISPLAY (guest_buffer 1 8)].

(** *** Deciding what a session needs *)

Definition unused (h : hw) (p : option Z) : bool :=
  match p with Some p => match heap h !! p with None => true | Some _ => false end | None => true end.

Definition in_int (z : Z) : bool := (INT_MIN <=? z) && (z <=? INT_MAX).

Definition pictureb (i : irr_surface_info_t) : bool :=
  existsb (Z.eqb (i_format i)) drm_formats && in_int (i_height i * i_stride0 i)
  && (negb (i_format i =? DRM_FORMAT_NV12) || in_int (i_offset1 i * 3))
  && in_int (i_width i + 15) && in_int (i_height i + 15).

Lemma pictureb_ok i : pictureb i = true -> picture_ok i.
Proof.
  unfold pictureb, in_int. intros ((((F & B)%andb_prop & O)%andb_prop & W)%andb_prop & H)%andb_prop.
  apply existsb_exists in F as (f & I & E%Z.eqb_eq).
  split; [by rewrite E|lia|intros N; rewrite N, Z.eqb_refl in O; cbn [negb orb] in O; lia|lia..].
Qed.

Definition answersb (a : answers) (i : irr_surface_info_t) (h : hw) : bool :=
  unused h (a_surface a) && unused h (a_srf a) && unused h (a_memid a)
  && bool_decide (is_Some (a_srf a)) && bool_decide (is_Some (a_memid a))
  && negb (bool_decide (a_surface a = a_srf a)) && negb (bool_decide (a_surface a = a_memid a))
  && negb (bool_decide (a_srf a = a_memid a))
  && bool_decide ((list_to_set (a_dup a) : gset Z) ## fds h) && bool_decide ((a_create a).2 ∉ vas h)
  && negb ((a_create a).2 =? VA_INVALID_SURFACE)
  && pictureb i.

Lemma unused_spec h p q : unused h p = true -> p = Some q -> heap h !! q = None.
Proof. intros U ->. cbn in U. by destruct (heap h !! q). Qed.

Lemma answersb_ok a i h : answersb a i h = true -> answers_ok a i h.
Proof.
  unfold answersb. intros E. bool_to_prop.
  repeat match goal with Hx : bool_decide _ = true |- _ => apply bool_decide_eq_true in Hx
                       | Hx : bool_decide _ = false |- _ => apply bool_decide_eq_false in Hx end.
  split; try done.
  - split; [intros p Ep; by eapply unused_spec, Ep|..|done|done].
    + intros q Eq. split; [by eapply unused_spec, Eq|congruence].
    + intros m Em. split; [by eapply unused_spec, Em|split; congruence].
  - by apply pictureb_ok.
Qed.

Definition command_okb (c : command) (d : display) : bool :=
  match cm_frame c ≫= fi_handle, cm_type c with
  | Some h, FRAME_CREATE => answersb (ce_answers (cm_env c)) (disp_info (disp_res_of h)) (d_hw d)
  | Some h, FRAME_DISPLAY => negb (new_size (ce_disable (cm_env c)) h d)
  | _, _ => true
  end.

Fixpoint commands_okb `{AvDict} (cs : list command) (d : display) : bool :=
  match cs with
  | [] => true
  | c :: cs => command_okb c d && match exec c d with Some (_, d') => commands_okb cs d' | None => true end
  end.

Lemma commands_okb_ok `{AvDict} cs : Forall (fun c => forall w h, 8 <= we_img_size (ce_write (cm_env c)) w h) cs ->
  forall d, commands_okb cs d = true -> commands_ok true cs d.
Proof.
  induction 1 as [|c cs Hw _ IH]; intros d E; [done|]. cbn in E. apply andb_prop in E as [E1 E2]. split.
  - unfold command_okb in E1. unfold command_ok. destruct (cm_frame c ≫= fi_handle) as [h|]; [|done].
    destruct (cm_type c); try done; [by apply answersb_ok|]. split; [done|]. apply negb_true_iff in E1. by rewrite E1.
  - intros d' Ed. rewrite Ed in E2. by apply IH.
Qed.

Lemma guest_session_ok : commands_ok true guest_session started_display.
Proof. apply commands_okb_ok; [by repeat constructor; cbn|vm_compute; reflexivity]. Qed.

Lemma server_surfaces_safe_witness : exists d', crun guest_session started_display = Some (tt, d') /\
  exists d2, server_deinit d' = Some (tt, d2) /\ d_hw d2 = d_hw started_display.
Proof.
  destruct (server_surfaces_safe true guest_session started_display) as (d' & b & R & _ & _ & Eb & S).
  - vm_compute. reflexivity.
  - vm_compute. reflexivity.
  - vm_compute. reflexivity.
  - right. vm_compute. discriminate.
  - vm_compute. discriminate.
  - exact guest_session_ok.
  - exists d'. split; [exact R|]. rewrite (Eb eq_refl) in S. apply S.
    assert (is_Some (crun guest_session started_display ≫= fun x => delete_streamer (streamer (e_world (d_enc x.2))))) as T
      by (vm_compute; by eexists). rewrite R in T. exact T.
Defined.

(** The server with one buffer. *)
Definition one_buffer : display :=
  match crun [guest 10 FRAME_CREATE (guest_buffer 1 7)] started_display with Some (_, d) => d | None => display0 end.

Lemma one_buffer_ok : display_ok (d_hw started_display) one_buffer.
Proof.
  destruct (crun_ok true [guest 10 FRAME_CREATE (guest_buffer 1 7)] (d_hw started_display) started_display)
    as (d & b & R & O & _ & Eb & _).
  - split; [constructor|..|right; vm_compute; discriminate|vm_compute; discriminate].
    + intros c E. vm_compute in E. discriminate E.
    + intros idx r I. assert (m_deletedReses started_display = []) as N by (vm_compute; reflexivity).
      rewrite N in I. apply elem_of_nil in I. destruct I.
  - apply commands_okb_ok; [by repeat constructor; cbn|vm_compute; reflexivity].
  - rewrite (Eb eq_refl) in O. unfold one_buffer. rewrite R. exact O.
Qed.

Lemma one_buffer_res : exists r, m_dispReses one_buffer !! 1 = Some (Some r) /\ dr_surface r = Some 1010.
Proof.
  assert (match m_dispReses one_buffer !! 1 with Some (Some r) => dr_surface r | _ => None end = Some 1010) as E
    by (vm_compute; reflexivity).
  destruct (m_dispReses one_buffer !! 1) as [[r|]|]; try done. by exists r.
Qed.

Lemma one_buffer_surface : exists s, load_surface 1010 (d_hw one_buffer) = Some (s, d_hw one_buffer) /\ mfxSurf s = Some 2010.
Proof.
  assert ((heap (d_hw one_buffer) !! 1010) ≫= (fun c => match c with CSurface s => mfxSurf s | _ => None end) = Some 2010) as E
    by (vm_compute; reflexivity).
  unfold load_surface. destruct (heap (d_hw one_buffer) !! 1010) as [[s| | ]|]; try done. by exists s.
Qed.

Lemma displayed_is_next_read_witness : exists d' x',
  DisplayRequest None sample_restart sample_write (guest_buffer 1 7) (Some 4) one_buffer = Some (tt, d') /\
  d_demux d' = Some x' /\ exists x2, readPacket 0 7 0 no_image [] x' =
    Some (0, Some {| rp_payload := PMfx (Some 2010); rp_ctrl := Some 4; rp_pts := 7 |}, x2).
Proof.
  destruct one_buffer_res as (r & Er & Hr). destruct one_buffer_surface as (s & Es & Hm).
  destruct (displayed_is_next_read (d_hw started_display) None sample_restart sample_write (guest_buffer 1 7) (Some 4)
    one_buffer r 1010 s fixed_demux) as (d' & x' & E & Ed & _ & _ & Hx).
  - exact one_buffer_ok.
  - vm_compute. reflexivity.
  - exact Er.
  - exact Hr.
  - exact Es.
  - vm_compute. reflexivity.
  - assert (is_Some (streamer (e_world (d_enc one_buffer)))) as T by (vm_compute; by eexists). exact T.
  - by split.
  - cbn. lia.
  - exists d', x'. split; [exact E|]. split; [exact Ed|]. destruct (Hx 0 7 0 no_image []) as [x2 ->]. exists x2.
    assert (irr_get_VASurfaceFlag (e_world (d_enc one_buffer)) = 0) as F by (vm_compute; reflexivity).
    unfold surface_packet. by rewrite F, Hm.
Defined.

Lemma removed_buffer_survives_witness : exists d',
  crun (repeat (guest 0 FRAME_DISPLAY (guest_buffer 1 7)) 30) (RemoveBuffer (guest_buffer 1 7) one_buffer) = Some (tt, d') /\
  is_Some (heap (d_hw d') !! 1010).
Proof.
  destruct one_buffer_res as (r & Er & Hr).
  destruct (removed_buffer_survives true (d_hw started_display) one_buffer (guest_buffer 1 7) r 1010
    (repeat (guest 0 FRAME_DISPLAY (guest_buffer 1 7)) 30)) as (d' & R & _ & A).
  - exact one_buffer_ok.
  - exact Er.
  - exact Hr.
  - apply commands_okb_ok; [by repeat constructor; cbn|vm_compute; reflexivity].
  - vm_compute. discriminate.
  - vm_compute. split; [discriminate|reflexivity].
  - exists d'. split; [exact R|exact A].
Defined.

Definition small_buffer : gralloc_handle :=
  {| gh_addr := 1; gh_width := 640; gh_height := 480; gh_format := DRM_FORMAT_ABGR8888; gh_droid_format := 1;
     gh_fds := [7; -1; -1; -1]; gh_strides := [2560; 0; 0; 0]; gh_offsets := [0; 0; 0; 0];
     gh_modifiers := [0; 0; 0; 0; 0; 0; 0; 0] |}.

Lemma failed_start_crashes_witness : exists d', server_init sample_restart true true true sample_checked display0 = Some (true, d') /\
  DisplayRequest None sample_restart sample_write small_buffer None d' = None.
Proof.
  assert (option_map (fun x => (m_curWidth x.2, m_curHeight x.2))
    (server_init sample_restart true true true sample_checked display0) = Some (1280, 720)) as S by (vm_compute; reflexivity).
  destruct (server_init sample_restart true true true sample_checked display0) as [[ok d']|] eqn:E; [|done].
  destruct (failed_start_crashes sample_restart sample_checked display0 d' ok) as [-> N]; [vm_compute; reflexivity|exact E|].
  exists d'. split; [reflexivity|]. apply N. injection S as Sw Sh. by rewrite Sw, Sh.
Defined.
