(* ===== verification/EncCli.v ===== *)
(** * EncCli: the command line of the encoder server

    Models [src/sources/encoder/server/cli.cpp] (the options [icr_parse_args]
    reads with [getopt_long_only], the sanity checks of the rate control and of
    the intra refresh type) and [main] of [src/sources/encoder/server/main.cpp],
    as compiled for the host with QSV.  [getopt_long_only] is the one of glibc:
    abbreviated names, [-name value] and [-name=value], one dash or two, and
    arguments that are not options skipped over.  The members of
    [encoder_info_t] that only the server reads are kept beside it. *)

From Stdlib Require Import ZArith Lia String Ascii.
From stdpp Require Import base list.
From coqutil Require Import Datatypes.RecordSetters.
From S2P Require Import Prelude StdMap GaConf CNum TransCoder IrrWorld IrrStreamer EncoderOpts Surface RuntimeWriter StreamStart VideoDemux DisplayServer CxxString.
Import TriangleBracketNotations.

(** ** [getopt_long_only] *)

Record option_t := { o_name : bytes; o_has_arg : bool; o_val : ascii }.

(** What a call returns: [-1], ['?'], or the option with its argument. *)
Inductive getopt_result := GEnd | GUnknown | GOption (val : ascii) (optarg : bytes).

Definition CH_DASH : Z := 45.
Definition CH_EQUAL : Z := 61.

(** The option a name stands for: its own name, or the only one it abbreviates. *)
Definition match_option (opts : list option_t) (name : bytes) : option option_t :=
  match List.find (fun o => str_eqb (o_name o) name) opts with
  | Some o => Some o
  | None => match List.filter (fun o => has_prefix name (o_name o)) opts with [o] => Some o | _ => None end
  end.

(** The name up to the equals sign, and the value after it. *)
Definition split_value (s : bytes) : bytes * option bytes :=
  match strchr CH_EQUAL s with Some (n, v) => (n, Some v) | None => (s, None) end.

Definition process_long_option (opts : list option_t) (body : bytes) (rest : list bytes) : getopt_result * list bytes :=
  let '(name, v) := split_value body in
  match match_option opts name with
  | None => (GUnknown, rest)
  | Some o =>
      match v, o_has_arg o with
      | Some v, true => (GOption (o_val o) v, rest)
      | Some _, false => (GUnknown, rest)
      | None, false => (GOption (o_val o) [], rest)
      | None, true => match rest with a :: rest => (GOption (o_val o) a, rest) | [] => (GUnknown, []) end
      end
  end.

(** One call, on the arguments that are left.  [posix] is the environment's
    [POSIXLY_CORRECT], with which the first argument that is no option ends the
    options. *)
Fixpoint getopt (posix : bool) (opts : list option_t) (args : list bytes) : getopt_result * list bytes :=
  match args with
  | [] => (GEnd, [])
  | a :: rest =>
      let skip := if posix then (GEnd, args) else getopt posix opts rest in
      match a with
      | d :: c :: body =>
          if d =? CH_DASH then
            if c =? CH_DASH then match body with [] => (GEnd, rest) | _ => process_long_option opts body rest end
            else process_long_option opts (c :: body) rest
          else skip
      | _ => skip
      end
  end.

(** ** The options *)

(** The encoder's information, with the members the encoder does not read. *)
Record cli_info := { cl_info : encoder_info_t; latency_opt : Z; hwc_sock : cstr; user_id : Z }.

Definition opt0 (n : string) (v : ascii) : option_t := {| o_name := b n; o_has_arg := false; o_val := v |}.
Definition opt1 (n : string) (v : ascii) : option_t := {| o_name := b n; o_has_arg := true; o_val := v |}.

Open Scope char_scope.

Definition long_options : list option_t :=
  [opt0 "streaming" "a"; opt1 "res" "b"; opt1 "url" "c"; opt1 "fr" "d"; opt1 "codec" "e"; opt1 "b" "f";
   opt0 "lowpower" "g"; opt0 "buffer" "h"; opt1 "qp" "i"; opt1 "qfactor" "j"; opt1 "maxrate" "k";
   opt1 "ratectrl" "l"; opt1 "mfs" "m"; opt1 "rirtype" "n"; opt1 "rircyclesize" "o"; opt1 "rirdeltaqp" "p";
   opt1 "slices" "q"; opt1 "qmaxI" "r"; opt1 "qminI" "s"; opt1 "qmaxP" "t"; opt1 "qminP" "u";
   opt1 "quality" "v"; opt1 "bufsize" "w"; opt1 "sei" "x"; opt1 "finput" "y"; opt1 "vframe" "z";
   opt1 "foutput" "A"; opt1 "loglevel" "B"; opt1 "latency_opt" "C"; opt1 "g" "D"; opt0 "auth" "E";
   opt1 "renderfps_enc" "F"; opt1 "minfps_enc" "G"; opt1 "roi_enabled" "H"; opt1 "roi_x" "I"; opt1 "roi_y" "J";
   opt1 "roi_w" "K"; opt1 "roi_h" "L"; opt1 "roi_value" "M"; opt1 "profile" "N"; opt1 "level" "O";
   opt1 "filter_threads" "P"; opt0 "h" "Q"; opt0 "low_delay_brc" "R"; opt0 "skipframe" "S"; opt1 "hwc_sock" "T";
   opt1 "plugin" "U"; opt1 "tcae" "V"; opt1 "user" "W"; opt1 "tcae_log_path" "X"].

Close Scope char_scope.

(** A decimal number at the head of a string ([%d]). *)
Definition scan_int (s : bytes) : option (Z * bytes) :=
  let s1 := drop_spaces s in
  let '(neg, s2) := match s1 with
                    | 45 :: r => (true, r) | 43 :: r => (false, r) | _ => (false, s1) end in
  let '(v, n, r) := digits 10 0 0 s2 in
  if (n =? 0)%nat then None else
  let v := if neg : bool then - v else v in
  Some (i32 (if LONG_MAX <? v then LONG_MAX else if v <? LONG_MIN then LONG_MIN else v), r).

(** [sscanf(optarg, "%dx%d", &info.width, &info.height)] *)
Definition scan_res (s : bytes) (i : encoder_info_t) : encoder_info_t :=
  match scan_int s with
  | None => i
  | Some (w, r) =>
      let i := i <| width := w |> in
      match r with
      | 120 :: r => match scan_int r with Some (h, _) => i <| height := h |> | None => i end
      | _ => i
      end
  end.

Definition i16 : Z -> Z := wraps 16.
Definition i8 : Z -> Z := wraps 8.

(** An argument read as a truth value. *)
Definition truth (n : Z) : bool := negb (n =? 0).

Open Scope char_scope.

(** The switch: [None] for the option that prints the usage and exits. *)
Definition handle_option (c : ascii) (optarg : bytes) (p : cli_info) : option cli_info :=
  let n := atoi optarg in
  let s := Some optarg in
  let set (f : encoder_info_t -> encoder_info_t) := Some (p <| cl_info ::= f |>) in
  match c with
  | "a" => set (fun i => i <| streaming := true |>)
  | "b" => set (scan_res optarg)
  | "c" => set (fun i => i <| url := s |>)
  | "d" => set (fun i => i <| framerate := s |>)
  | "e" => set (fun i => i <| codec := s |>)
  | "f" => set (fun i => i <| rate_contrl_param -> bitrate := s |>)
  | "g" => set (fun i => i <| low_power := 1 |>)
  | "h" => set (fun i => i <| encodeType := DATA_BUFFER |>)
  | "i" => set (fun i => i <| rate_contrl_param -> qp := s |>)
  | "j" => set (fun i => i <| rate_contrl_param -> qfactor := s |>)
  | "k" => set (fun i => i <| rate_contrl_param -> maxrate := s |>)
  | "l" => set (fun i => i <| rate_contrl_param -> ratectrl := s |>)
  | "m" => set (fun i => i <| max_frame_size := n |>)
  | "n" => set (fun i => i <| ref_info -> int_ref_type := s |>)
  | "o" => set (fun i => i <| ref_info -> int_ref_cycle_size := n |>)
  | "p" => set (fun i => i <| ref_info -> int_ref_qp_delta := n |>)
  | "q" => set (fun i => i <| slices := n |>)
  | "r" => set (fun i => i <| rate_contrl_param -> qmaxI := n |>)
  | "s" => set (fun i => i <| rate_contrl_param -> qminI := n |>)
  | "t" => set (fun i => i <| rate_contrl_param -> qmaxP := n |>)
  | "u" => set (fun i => i <| rate_contrl_param -> qminP := n |>)
  | "v" => set (fun i => i <| quality := n |>)
  | "w" => set (fun i => i <| rate_contrl_param -> bufsize := s |>)
  | "x" => set (fun i => i <| sei := n |>)
  | "y" => set (fun i => i <| finput := s |>)
  | "z" => set (fun i => i <| vframe := n |>)
  | "A" => set (fun i => i <| foutput := s |>)
  | "B" => set (fun i => i <| loglevel := s |>)
  | "C" => Some (p <| latency_opt := n |>)
  | "D" => set (fun i => i <| gop_size := n |>)
  | "E" => set (fun i => i <| auth := true |>)
  | "F" => set (fun i => i <| renderfps_enc := n |>)
  | "G" => set (fun i => i <| minfps_enc := n |>)
  | "H" => set (fun i => i <| roi_info -> roi_enabled := truth n |>)
  | "I" => set (fun i => i <| roi_info -> roi_x := i16 n |>)
  | "J" => set (fun i => i <| roi_info -> roi_y := i16 n |>)
  | "K" => set (fun i => i <| roi_info -> roi_width := u16 n |>)
  | "L" => set (fun i => i <| roi_info -> roi_height := u16 n |>)
  | "M" => set (fun i => i <| roi_info -> roi_value := i8 n |>)
  | "N" => set (fun i => i <| profile := s |>)
  | "O" => set (fun i => i <| level := s |>)
  | "P" => set (fun i => i <| filter_nbthreads := n |>)
  | "Q" => None
  | "R" => set (fun i => i <| low_delay_brc := true |>)
  | "S" => set (fun i => i <| skip_frame := true |>)
  | "T" => Some (p <| hwc_sock := s |>)
  | "U" => set (fun i => i <| plugin := s |>)
  | "V" => set (fun i => i <| tcaeEnabled := truth n |>)
  | "W" => Some (p <| user_id := n |>)
  | "X" => set (fun i => i <| tcaeLogPath := s |>)
  | _ => Some p
  end.

Close Scope char_scope.

(** The loop, [None] when the usage is printed.  A call consumes an argument, so
    one more than their number is enough fuel. *)
Fixpoint parse_loop (posix : bool) (fuel : nat) (args : list bytes) (p : cli_info) : option cli_info :=
  match fuel with
  | O => Some p
  | S fuel =>
      match getopt posix long_options args with
      | (GEnd, _) => Some p
      | (GUnknown, rest) => parse_loop posix fuel rest p
      | (GOption c a, rest) => p ← handle_option c a p; parse_loop posix fuel rest p
      end
  end.

Definition icr_parse_args (posix : bool) (args : list bytes) (p : cli_info) : option cli_info :=
  parse_loop posix (S (length args)) args p.

(** ** The sanity checks *)

Definition ENCODER_RESOLUTION_WIDTH_MAX : Z := 4096.
Definition ICR_ENCODER_BITRATE_LOW : Z := 1500000.
Definition ICR_ENCODER_BITRATE_HIGH : Z := 3000000.

Definition rc_config (bitrate qfactor qp maxrate : cstr) : rate_control_info_t :=
  {| bitrate := bitrate; qfactor := qfactor; qp := qp; maxrate := maxrate; ratectrl := None; bufsize := None;
     qmaxI := 0; qminI := 0; qmaxP := 0; qminP := 0 |}.

(** A string literal. *)
Definition lit (s : string) : cstr := Some (b s).

(** [default_rc_configs]: the parameters of a mode at the three levels; names are
    compared without case. *)
Definition default_rc_configs (name : bytes) : option (list rate_control_info_t) :=
  if strcaseeq name (b "CQP") then Some (repeat (rc_config None None (lit "26") None) 3)
  else if strcaseeq name (b "CBR") then
    Some [rc_config (lit "3.3M") None None (lit "3.3M"); rc_config (lit "5M") None None (lit "5M");
          rc_config (lit "8M") None None (lit "8M")]
  else if strcaseeq name (b "VBR") then
    Some [rc_config (lit "3.3M") None None (lit "6.6M"); rc_config (lit "5M") None None (lit "10M");
          rc_config (lit "8M") None None (lit "16M")]
  else if strcaseeq name (b "QVBR") then
    Some [rc_config (lit "3.3M") (lit "20") None (lit "6.6M"); rc_config (lit "5M") (lit "20") None (lit "10M");
          rc_config (lit "8M") (lit "20") None (lit "16M")]
  else if strcaseeq name (b "AVBR") then
    Some [rc_config (lit "3.3M") None None None; rc_config (lit "5M") None None None; rc_config (lit "8M") None None None]
  else if strcaseeq name (b "ICQ") then Some (repeat (rc_config None (lit "20") None None) 3)
  else None.

(** The level of a resolution. *)
Definition rc_level (framesize : Z) : nat :=
  if framesize <=? ICR_ENCODER_BITRATE_LOW then 0%nat
  else if (ICR_ENCODER_BITRATE_LOW <? framesize) && (framesize <? ICR_ENCODER_BITRATE_HIGH) then 1%nat else 2%nat.

(** [bitrate_ctrl_sanity_check]: the return value and the information. *)
Definition bitrate_ctrl_sanity_check (i : encoder_info_t) : option (Z * encoder_info_t) :=
  match ratectrl (rate_contrl_param i) with
  | None => Some (-1, i)
  | Some mode =>
      if (width i =? 0) || (height i =? 0) then Some (-1, i)
      else
        '(ret, rc) ← irr_check_rate_ctrl_options (rate_contrl_param i);
        let i := i <| rate_contrl_param := rc |> in
        if ret =? 0 then Some (0, i)
        else if (width i <=? 0) || (ENCODER_RESOLUTION_WIDTH_MAX <? width i)
                || (height i <=? 0) || (ENCODER_RESOLUTION_WIDTH_MAX <? height i) then Some (-1, i)
        else
          framesize ← int_chk (width i * height i);
          match default_rc_configs mode with
          | None => Some (-1, i)
          | Some configs =>
              rc ← configs !! rc_level framesize;
              Some (0, i <| rate_contrl_param := rc <| ratectrl := Some mode |> |>)
          end
  end.

Definition rir_type_map : list (bytes * bytes) :=
  [(b "1", b "vertical"); (b "v", b "vertical"); (b "V", b "vertical"); (b "2", b "horizontal");
   (b "h", b "horizontal"); (b "H", b "horizontal"); (b "3", b "slice"); (b "s", b "slice"); (b "S", b "slice")].

Definition rir_type_sanity_check (i : encoder_info_t) : encoder_info_t :=
  match int_ref_type (ref_info i) with
  | None => i
  | Some t =>
      match List.find (fun kv => str_eqb kv.1 t) rir_type_map with
      | Some kv => i <| ref_info -> int_ref_type := Some kv.2 |>
      | None => i
      end
  end.

(** ** [main] *)

(** [encoder_info_t info = { 0 }], then [encoder_info_init]. *)
Definition encoder_info_init : cli_info :=
  {| cl_info :=
       {| nPixfmt := AV_PIX_FMT_RGBA; gop_size := 0; codec := None; url := Some (b "irrv:264"); low_power := 0;
          width := 0; height := 0; framerate := Some (b "30"); exp_vid_param := None; streaming := true;
          encodeType := VASURFACE_ID; encoderInstanceID := 0; rate_contrl_param := rc_config None None None None;
          quality := 0; max_frame_size := 0;
          ref_info := {| int_ref_type := None; int_ref_cycle_size := 0; int_ref_qp_delta := 0 |};
          roi_info := {| roi_enabled := false; roi_x := 0; roi_y := 0; roi_width := 0; roi_height := 0; roi_value := 0 |};
          slices := 0; sei := 0; finput := None; vframe := 0; foutput := None; loglevel := None; auth := false;
          renderfps_enc := 0; minfps_enc := 3; profile := None; level := None; filter_nbthreads := 0;
          low_delay_brc := false; skip_frame := false; plugin := Some (b "vaapi"); tcaeEnabled := true;
          tcaeLogPath := None |};
     latency_opt := 1; hwc_sock := None; user_id := 0 |}.

(** [std::stringstream(first_arg) >> id_value] on a string that starts with a
    digit: a number that does not fit gives the largest one. *)
Definition read_id (s : bytes) : Z := let '(v, _, _) := digits 10 0 0 s in Z.min v INT_MAX.

Definition isdigit (c : Z) : bool := (48 <=? c) && (c <=? 57).

(** What [main] does once it has read its arguments. *)
Inductive main_result :=
  | ExitUsage                     (** usage printed, [EXIT_SUCCESS] *)
  | ExitFailure                   (** [EXIT_FAILURE] *)
  | Serve (id : bytes) (p : cli_info).

(** [main] up to the server's start, on [argv] without the program's name. *)
Definition main_options (posix : bool) (args : list bytes) : option main_result :=
  match args with
  | [] => Some ExitFailure
  | first_arg :: _ =>
      if negb (match first_arg with c :: _ => isdigit c | [] => false end) then Some ExitFailure
      else
        let p := encoder_info_init <| cl_info -> encoderInstanceID := read_id first_arg |> in
        match icr_parse_args posix args p with
        | None => Some ExitUsage
        | Some p =>
            '(r, i) ← bitrate_ctrl_sanity_check (cl_info p);
            if r <? 0 then Some ExitFailure
            else
              let i := rir_type_sanity_check i in
              '(r, i) ← irr_check_options i;
              if r <? 0 then Some ExitFailure else Some (Serve first_arg (p <| cl_info := i |>))
        end
  end.

(** The whole of [main]: the server, the guest's commands until a signal comes,
    the shutdown.  [receiver], [fifo] and [open] are the system's answers to the
    server's [init]. *)
Inductive exit_code := EXIT_SUCCESS | EXIT_FAILURE.

Definition encoder_main `{AvDict} (posix : bool) (en : restart_env) (receiver fifo open : bool) (cs : list command)
    (args : list bytes) : cmd display exit_code :=
  r <-- clift (main_options posix args) ;;
  match r with
  | ExitUsage => cret EXIT_SUCCESS
  | ExitFailure => cret EXIT_FAILURE
  | Serve _ p =>
      ok <-- server_init en receiver fifo open (cl_info p) ;;
      if negb ok then cret EXIT_FAILURE
      else crun cs;;; server_deinit;;; cret EXIT_SUCCESS
  end.

(** ** Reading back a command line *)

(** *** What a command line means *)

(** The options of the usage text: those without a value, and those with one. *)
Definition flag_names : list bytes :=
  [b "streaming"; b "lowpower"; b "buffer"; b "auth"; b "h"; b "low_delay_brc"; b "skipframe"].
Definition value_names : list bytes :=
  [b "res"; b "url"; b "fr"; b "codec"; b "b"; b "qp"; b "qfactor"; b "maxrate"; b "ratectrl"; b "mfs"; b "rirtype";
   b "rircyclesize"; b "rirdeltaqp"; b "slices"; b "qmaxI"; b "qminI"; b "qmaxP"; b "qminP"; b "quality"; b "bufsize";
   b "sei"; b "finput"; b "vframe"; b "foutput"; b "loglevel"; b "latency_opt"; b "g"; b "renderfps_enc";
   b "minfps_enc"; b "roi_enabled"; b "roi_x"; b "roi_y"; b "roi_w"; b "roi_h"; b "roi_value"; b "profile"; b "level";
   b "filter_threads"; b "hwc_sock"; b "plugin"; b "tcae"; b "user"; b "tcae_log_path"].
Definition option_names : list bytes := flag_names ++ value_names.
Definition takes_value (n : bytes) : bool := existsb (str_eqb n) value_names.

(** A name stands for an option when it is its name, or a prefix of no other. *)
Definition denotes (name full : bytes) : Prop :=
  In full option_names /\
  (name = full \/ (has_prefix name full = true /\
                   forall other, In other option_names -> has_prefix name other = true -> other = full)).

(** An option as a user writes it: with one dash or two, in full or abbreviated, with
    the value after an equals sign or as the next argument; or an option that does
    not exist or is ambiguous; or an argument that is no option. *)
Inductive item :=
  | IOption (two : bool) (name full : bytes) (eq : bool) (arg : bytes)
  | IUnknown (two : bool) (name : bytes) (v : option bytes)
  | IWord (w : bytes).

Definition dashes (two : bool) : bytes := if two then [CH_DASH; CH_DASH] else [CH_DASH].

Definition render (x : item) : list bytes :=
  match x with
  | IOption two name full eq arg =>
      if takes_value full then
        if eq then [dashes two ++ name ++ (CH_EQUAL :: arg)] else [dashes two ++ name; arg]
      else [dashes two ++ name]
  | IUnknown two name (Some v) => [dashes two ++ name ++ (CH_EQUAL :: v)]
  | IUnknown two name None => [dashes two ++ name]
  | IWord w => [w]
  end.

(** The name stands for the option; an unknown name is not taken for another form. *)
Definition item_ok (x : item) : Prop :=
  match x with
  | IOption _ name full eq arg => denotes name full /\ (takes_value full = false -> eq = false /\ arg = [])
  | IUnknown _ name v => (forall full, denotes name full -> False) /\ (CH_EQUAL ∉ name) /\ name <> [] /\
      head name <> Some CH_DASH
  | IWord w => head w <> Some CH_DASH \/ w = [CH_DASH]
  end.

(** The value an option was given last. *)
Definition last_value (xs : list item) (n : bytes) : option bytes :=
  fold_left (fun acc x => match x with
                          | IOption _ _ full _ arg => if str_eqb full n then Some arg else acc
                          | _ => acc end) xs None.

(** The last side that the values of [-res] give: the first number of a value, and
    the second one when a lower-case x is between them. *)
Definition width_of (v : bytes) : option Z := fst <$> scan_int v.
Definition height_of (v : bytes) : option Z :=
  match scan_int v with Some (_, 120 :: r) => fst <$> scan_int r | _ => None end.
Definition last_side (side : bytes -> option Z) (xs : list item) : option Z :=
  fold_left (fun acc x => match x with
                          | IOption _ _ full _ arg =>
                              if str_eqb full (b "res") then match side arg with Some z => Some z | None => acc end else acc
                          | _ => acc end) xs None.

(** What the options make of the information, member by member: [v] gives each
    option's last value, [w] and [h] the sides.  A member whose option is not given
    keeps its value. *)
Definition expected (v : bytes -> option bytes) (w h : option Z) (p : cli_info) : cli_info :=
  let i := cl_info p in
  let rc := rate_contrl_param i in
  let ref := ref_info i in
  let roi := roi_info i in
  let text (n : bytes) (d : cstr) := match v n with Some a => Some a | None => d end in
  let num (n : bytes) (d : Z) := match v n with Some a => atoi a | None => d end in
  let cut (n : bytes) (f : Z -> Z) (d : Z) := match v n with Some a => f (atoi a) | None => d end in
  let bool_of (n : bytes) (d : bool) := match v n with Some a => negb (atoi a =? 0) | None => d end in
  let flag {A} (n : bytes) (on d : A) := match v n with Some _ => on | None => d end in
  {| cl_info :=
       {| nPixfmt := nPixfmt i; gop_size := num (b "g") (gop_size i); codec := text (b "codec") (codec i);
          url := text (b "url") (url i); low_power := flag (b "lowpower") 1 (low_power i);
          width := default (width i) w; height := default (height i) h;
          framerate := text (b "fr") (framerate i); exp_vid_param := exp_vid_param i;
          streaming := flag (b "streaming") true (streaming i); encodeType := flag (b "buffer") DATA_BUFFER (encodeType i);
          encoderInstanceID := encoderInstanceID i;
          rate_contrl_param :=
            {| bitrate := text (b "b") (bitrate rc); qfactor := text (b "qfactor") (qfactor rc); qp := text (b "qp") (qp rc);
               maxrate := text (b "maxrate") (maxrate rc); ratectrl := text (b "ratectrl") (ratectrl rc);
               bufsize := text (b "bufsize") (bufsize rc); qmaxI := num (b "qmaxI") (qmaxI rc); qminI := num (b "qminI") (qminI rc);
               qmaxP := num (b "qmaxP") (qmaxP rc); qminP := num (b "qminP") (qminP rc) |};
          quality := num (b "quality") (quality i); max_frame_size := num (b "mfs") (max_frame_size i);
          ref_info := {| int_ref_type := text (b "rirtype") (int_ref_type ref);
                         int_ref_cycle_size := num (b "rircyclesize") (int_ref_cycle_size ref);
                         int_ref_qp_delta := num (b "rirdeltaqp") (int_ref_qp_delta ref) |};
          roi_info := {| roi_enabled := bool_of (b "roi_enabled") (roi_enabled roi);
                         roi_x := cut (b "roi_x") (wraps 16) (roi_x roi); roi_y := cut (b "roi_y") (wraps 16) (roi_y roi);
                         roi_width := cut (b "roi_w") (wrapu 16) (roi_width roi);
                         roi_height := cut (b "roi_h") (wrapu 16) (roi_height roi);
                         roi_value := cut (b "roi_value") (wraps 8) (roi_value roi) |};
          slices := num (b "slices") (slices i); sei := num (b "sei") (sei i); finput := text (b "finput") (finput i);
          vframe := num (b "vframe") (vframe i); foutput := text (b "foutput") (foutput i);
          loglevel := text (b "loglevel") (loglevel i); auth := flag (b "auth") true (auth i);
          renderfps_enc := num (b "renderfps_enc") (renderfps_enc i); minfps_enc := num (b "minfps_enc") (minfps_enc i);
          profile := text (b "profile") (profile i); level := text (b "level") (level i);
          filter_nbthreads := num (b "filter_threads") (filter_nbthreads i);
          low_delay_brc := flag (b "low_delay_brc") true (low_delay_brc i);
          skip_frame := flag (b "skipframe") true (skip_frame i); plugin := text (b "plugin") (plugin i);
          tcaeEnabled := bool_of (b "tcae") (tcaeEnabled i); tcaeLogPath := text (b "tcae_log_path") (tcaeLogPath i) |};
     latency_opt := num (b "latency_opt") (latency_opt p); hwc_sock := text (b "hwc_sock") (hwc_sock p);
     user_id := num (b "user") (user_id p) |}.

(** The meaning of a line: [None] when the usage is asked for. *)
Definition line_means (xs : list item) (p : cli_info) : option cli_info :=
  match last_value xs (b "h") with
  | Some _ => None
  | None => Some (expected (last_value xs) (last_side width_of xs) (last_side height_of xs) p)
  end.

(** What ends the options. *)
Definition options_end (rest : list bytes) : Prop := rest = [] \/ exists r, rest = [CH_DASH; CH_DASH] :: r.

(** *** The parser's steps *)

(** An item as the parser's table and switch take it. *)
Definition parsed (x : item) (p : cli_info) : option cli_info :=
  match x with
  | IOption _ name _ _ arg => o ← match_option long_options name; handle_option (o_val o) arg p
  | _ => Some p
  end.

Fixpoint apply_items (xs : list item) (p : cli_info) : option cli_info :=
  match xs with [] => Some p | x :: xs => p ← parsed x p; apply_items xs p end.

(** Names that can be told from values and from the end of the options. *)
Definition names_ok (opts : list option_t) : Prop := (1 < length opts)%nat /\ NoDup (map o_name opts) /\
  Forall (fun o => (CH_EQUAL ∉ o_name o) /\ head (o_name o) <> Some CH_DASH /\ o_name o <> []) opts.

Lemma match_option_spec opts name o : match_option opts name = Some o -> In o opts /\ has_prefix name (o_name o) = true.
Proof.
  unfold match_option. destruct (List.find _ opts) as [o'|] eqn:E.
  - intros [= ->]. apply List.find_some in E as [I E]. split; [done|]. apply str_eqb_eq in E. rewrite E.
    rewrite <- (app_nil_r name) at 2. apply has_prefix_app.
  - destruct (List.filter _ opts) as [|o1 [|]] eqn:F; try done. intros [= ->].
    assert (In o (List.filter (fun o => has_prefix name (o_name o)) opts)) as I by (rewrite F; left; done).
    apply List.filter_In in I. done.
Qed.

Lemma match_option_name opts name o : names_ok opts -> match_option opts name = Some o ->
  (CH_EQUAL ∉ name) /\ name <> [] /\ head name <> Some CH_DASH.
Proof.
  intros (L & _ & F) E. pose proof (match_option_spec _ _ _ E) as [I P]. apply has_prefix_spec in P as [t P].
  rewrite List.Forall_forall in F. destruct (F o I) as (H1 & H2 & H3). rewrite P in H1, H2.
  assert (name <> []) as N.
  { intros ->. unfold match_option in E. destruct (List.find _ opts) as [o'|] eqn:G.
    - apply List.find_some in G as [I' G]. apply str_eqb_eq in G. by destruct (F o' I') as (_ & _ & ?).
    - cbn in E. rewrite (List.forallb_filter_id (fun _ => true)) in E by (by apply List.forallb_forall).
      by destruct opts as [|? [|]]; cbn in L; try lia. }
  split; [|split; [done|]]; [intros X; apply H1, elem_of_app; by left|by destruct name].
Qed.

Lemma getopt_dashed posix opts two name tl rest : name <> [] -> head name <> Some CH_DASH ->
  getopt posix opts ((dashes two ++ name ++ tl) :: rest) = process_long_option opts (name ++ tl) rest.
Proof.
  intros N D. destruct name as [|c n]; [done|]. cbn in D. assert ((c =? CH_DASH) = false) as Ec by (apply Z.eqb_neq; congruence).
  destruct two; cbn; [done|]. by rewrite Ec.
Qed.

Lemma split_value_eq name v : CH_EQUAL ∉ name -> split_value (name ++ CH_EQUAL :: v) = (name, Some v).
Proof. intros N. unfold split_value. rewrite strchr_app; [done|]. apply Forall_forall. by intros x I ->. Qed.

Lemma split_value_none name : CH_EQUAL ∉ name -> split_value (name ++ []) = (name, None).
Proof. intros N. unfold split_value. rewrite app_nil_r, strchr_none; [done|]. apply Forall_forall. by intros x I ->. Qed.

Lemma long_options_ok : names_ok long_options.
Proof.
  split; [vm_compute; lia|]. split.
  - apply (bool_decide_unpack _). vm_compute. done.
  - apply (bool_decide_unpack _). vm_compute. done.
Qed.

(** The table of the parser is the one of the usage. *)
Lemma listed_option full : In full option_names ->
  exists o, In o long_options /\ o_name o = full /\ o_has_arg o = takes_value full.
Proof.
  intros I. assert (existsb (fun o => str_eqb (o_name o) full && eqb (o_has_arg o) (takes_value full)) long_options = true) as E.
  { revert full I. apply List.Forall_forall. apply (bool_decide_unpack _). vm_compute. done. }
  apply List.existsb_exists in E as (o & Io & [E1 E2]%andb_prop). exists o.
  apply str_eqb_eq in E1. apply eqb_prop in E2. done.
Qed.

Lemma option_listed o : In o long_options -> In (o_name o) option_names.
Proof.
  intros I. assert (existsb (str_eqb (o_name o)) option_names = true) as E.
  { revert o I. apply List.Forall_forall. apply (bool_decide_unpack _). vm_compute. done. }
  apply List.existsb_exists in E as (n & In_ & E%str_eqb_eq). by rewrite E.
Qed.

Lemma same_name o o' : In o long_options -> In o' long_options -> o_name o = o_name o' -> o = o'.
Proof.
  destruct long_options_ok as (_ & N & _). revert N. generalize long_options. intros l.
  induction l as [|x l IH]; [done|]. cbn [map]. intros [N1 N2]%NoDup_cons [->|I] [->|I'] E; [done|..|by apply IH].
  - exfalso. apply N1. rewrite E. by apply list_elem_of_In, List.in_map.
  - exfalso. apply N1. rewrite <- E. by apply list_elem_of_In, List.in_map.
Qed.

Lemma has_prefix_self s : has_prefix s s = true.
Proof. rewrite <- (app_nil_r s) at 2. apply has_prefix_app. Qed.

(** A name that stands for an option is found in the table. *)
Lemma denotes_match name full : denotes name full ->
  exists o, match_option long_options name = Some o /\ o_name o = full /\ o_has_arg o = takes_value full.
Proof.
  intros [I D]. destruct (listed_option _ I) as (o & Io & En & Ea). exists o. split; [|done].
  assert (forall o', In o' long_options -> has_prefix name (o_name o') = true -> name = full \/ o' = o) as U.
  { intros o' I' P. destruct D as [->|[_ D]]; [by left|right]. apply same_name; [done..|].
    rewrite En. apply D; [by apply option_listed|done]. }
  unfold match_option. destruct (List.find _ long_options) as [o'|] eqn:F.
  - apply List.find_some in F as [I' E%str_eqb_eq]. f_equal.
    destruct (U o' I') as [->|]; [rewrite E; apply has_prefix_self|by apply same_name; rewrite ?E|done].
  - assert (name <> full) as N.
    { intros ->. pose proof (List.find_none _ _ F o Io) as X. cbn in X. rewrite En in X.
      by rewrite (proj2 (str_eqb_eq _ _) eq_refl) in X. }
    assert (forall o', In o' (List.filter (fun o => has_prefix name (o_name o)) long_options) <-> o' = o) as S.
    { intros o'. rewrite List.filter_In. split; [intros [I' P]; by destruct (U o' I' P)|intros ->].
      split; [done|]. destruct D as [->|[P _]]; [done|by rewrite En]. }
    destruct (List.filter _ long_options) as [|x [|y l]] eqn:Fl.
    + exfalso. by apply (proj2 (S o) eq_refl).
    + f_equal. apply S. by left.
    + exfalso. assert (x = o) as -> by (apply S; by left). assert (y = o) as -> by (apply S; right; by left).
      assert (NoDup (List.filter (fun o => has_prefix name (o_name o)) long_options)) as ND.
      { apply NoDup_ListNoDup, List.NoDup_filter, NoDup_ListNoDup.
        destruct long_options_ok as (_ & N' & _). by eapply NoDup_fmap_1. }
      rewrite Fl in ND. apply NoDup_cons in ND as [X _]. apply X. by left.
Qed.

Lemma match_denotes name o : match_option long_options name = Some o -> denotes name (o_name o).
Proof.
  intros E. destruct (match_option_spec _ _ _ E) as [I P]. split; [by apply option_listed|]. revert E. unfold match_option.
  destruct (List.find _ long_options) as [o'|] eqn:F.
  - intros [= ->]. apply List.find_some in F as [_ E%str_eqb_eq]. by left.
  - destruct (List.filter _ long_options) as [|x [|y l]] eqn:Fl; try done. intros [= ->]. right. split; [done|].
    intros other Io Po. destruct (listed_option _ Io) as (o' & I' & <- & _).
    assert (In o' (List.filter (fun o => has_prefix name (o_name o)) long_options)) as X by (apply List.filter_In; done).
    rewrite Fl in X. by destruct X as [->|[]].
Qed.

Lemma match_none_denotes name full : denotes name full -> match_option long_options name = None -> False.
Proof. intros (o & -> & _)%denotes_match. done. Qed.

(** What [getopt] makes of an item. *)
Lemma getopt_item x rest : item_ok x ->
  match x with
  | IOption _ name full _ arg => exists o, match_option long_options name = Some o /\ o_name o = full /\
      getopt false long_options (render x ++ rest) = (GOption (o_val o) arg, rest)
  | IUnknown _ _ _ => getopt false long_options (render x ++ rest) = (GUnknown, rest)
  | IWord _ => getopt false long_options (render x ++ rest) = getopt false long_options rest
  end.
Proof.
  destruct x as [two name full eq arg|two name v|w]; cbn [item_ok render].
  - intros [D A]. destruct (denotes_match _ _ D) as (o & E & En & Ha). exists o. split; [done|]. split; [done|].
    destruct (match_option_name _ _ _ long_options_ok E) as (N1 & N2 & N3).
    destruct (takes_value full) eqn:Ht; [destruct eq|destruct (A eq_refl) as [-> ->]]; cbn [app].
    + rewrite getopt_dashed by done. unfold process_long_option. by rewrite split_value_eq, E, Ha.
    + rewrite <- (app_nil_r name). rewrite getopt_dashed by done. unfold process_long_option.
      by rewrite split_value_none, E, Ha.
    + rewrite <- (app_nil_r name). rewrite getopt_dashed by done. unfold process_long_option.
      by rewrite split_value_none, E, Ha.
  - intros (U & N1 & N2 & N3). assert (match_option long_options name = None) as E.
    { destruct (match_option long_options name) as [o|] eqn:E; [|done]. by destruct (U _ (match_denotes _ _ E)). }
    destruct v as [v|]; cbn [app].
    + rewrite getopt_dashed by done. unfold process_long_option. by rewrite split_value_eq, E.
    + rewrite <- (app_nil_r name). rewrite getopt_dashed by done. unfold process_long_option.
      by rewrite split_value_none, E.
  - intros [N| ->]; [|done]. destruct w as [|d [|c w]]; try done. cbn -[getopt] in *.
    cbn [getopt]. destruct (Z.eqb_spec d CH_DASH); [congruence|done].
Qed.

(** A loop that has enough fuel reads the items one by one. *)
Lemma parse_items rest xs : options_end rest -> Forall item_ok xs ->
  forall fuel p, (length (flat_map render xs ++ rest) < fuel)%nat ->
    parse_loop false fuel (flat_map render xs ++ rest) p = apply_items xs p.
Proof.
  intros R. induction 1 as [|x xs Hx _ IH]; intros fuel p L.
  - destruct fuel; [lia|]. destruct R as [->|[r ->]]; done.
  - cbn [flat_map] in L |- *. rewrite <- app_assoc in L |- *. destruct fuel as [|fuel]; [lia|].
    pose proof (getopt_item x (flat_map render xs ++ rest) Hx) as G. rewrite length_app in L.
    destruct x as [two name full eq arg|two name v|w]; cbn [apply_items parsed mbind option_bind].
    + destruct G as (o & E & _ & G). cbn [parse_loop]. rewrite G, E. cbn [mbind option_bind].
      destruct (handle_option (o_val o) arg p) as [p'|]; [|done]. cbn [mbind option_bind].
      apply IH. cbn [render] in L. destruct (takes_value full), eq; cbn in L; lia.
    + cbn [parse_loop]. rewrite G. apply IH. cbn in L. destruct v; cbn in L; lia.
    + rewrite <- (IH (S fuel) p) by (cbn in L; lia). cbn [parse_loop]. by rewrite G.
Qed.

(** *** The switch against the meaning *)

(** One more option. *)
Definition set_value (full arg : bytes) (v : bytes -> option bytes) (n : bytes) : option bytes :=
  if str_eqb full n then Some arg else v n.
Definition set_side (side : bytes -> option Z) (full arg : bytes) (z : option Z) : option Z :=
  if str_eqb full (b "res") then match side arg with Some z => Some z | None => z end else z.

Lemma res_expected arg v w h p :
  Some ((expected v w h p) <| cl_info ::= scan_res arg |>) =
  Some (expected (set_value (b "res") arg v) (set_side width_of (b "res") arg w) (set_side height_of (b "res") arg h) p).
Proof.
  unfold scan_res, set_side, width_of, height_of. destruct (scan_int arg) as [[z r]|]; [|reflexivity].
  destruct r as [|[|q|q] r]; try reflexivity. do 7 (destruct q as [q|q|]; try reflexivity).
  by destruct (scan_int r) as [[]|].
Qed.

Lemma handle_expected o arg v w h p : In o long_options ->
  handle_option (o_val o) arg (expected v w h p) =
  if str_eqb (o_name o) (b "h") then None
  else Some (expected (set_value (o_name o) arg v) (set_side width_of (o_name o) arg w)
                      (set_side height_of (o_name o) arg h) p).
Proof.
  intros I. cbn [long_options In] in I.
  repeat (destruct I as [<-|I]; [first [reflexivity|exact (res_expected arg v w h p)]|]). done.
Qed.

Lemma apply_items_snoc xs x p : apply_items (xs ++ [x]) p = apply_items xs p ≫= parsed x.
Proof.
  revert p. induction xs as [|y xs IH]; intros p; cbn [app apply_items].
  - cbn [mbind option_bind]. by destruct (parsed x p).
  - destruct (parsed y p) as [p'|]; [apply IH|done].
Qed.

Lemma last_value_snoc xs x n : last_value (xs ++ [x]) n =
  match x with IOption _ _ full _ arg => set_value full arg (last_value xs) n | _ => last_value xs n end.
Proof. unfold last_value at 1. rewrite fold_left_app. by destruct x. Qed.

Lemma last_side_snoc side xs x : last_side side (xs ++ [x]) =
  match x with IOption _ _ full _ arg => set_side side full arg (last_side side xs) | _ => last_side side xs end.
Proof. unfold last_side at 1. rewrite fold_left_app. by destruct x. Qed.

Lemma expected_ext v v' w h p : (forall n, v n = v' n) -> expected v w h p = expected v' w h p.
Proof. intros E. unfold expected. by rewrite !E. Qed.

(** The switch makes of the items what they mean. *)
Lemma items_mean xs p : Forall item_ok xs -> apply_items xs p = line_means xs p.
Proof.
  induction xs as [|x xs IH] using rev_ind; [by destruct p as [[? ? ? ? ? ? ? ? ? ? ? ? [] ? ? [] []]]|].
  rewrite Forall_app, Forall_singleton. intros [F Hx]. rewrite apply_items_snoc, IH by done.
  destruct x as [two name full eq arg|two name v|w].
  2,3: unfold line_means; rewrite last_value_snoc, !last_side_snoc; cbn [parsed];
       (destruct (last_value xs (b "h")); [done|]); cbn [mbind option_bind]; f_equal; apply expected_ext;
       intros n; by rewrite last_value_snoc.
  destruct Hx as [(o & E & <- & _)%denotes_match _]. apply match_option_spec in E as E'. destruct E' as [I _].
  unfold line_means. rewrite last_value_snoc, !last_side_snoc. unfold set_value at 1.
  destruct (last_value xs (b "h")) as [u|] eqn:Eu; [by destruct (str_eqb (o_name o) (b "h"))|].
  cbn [mbind option_bind parsed]. rewrite E. cbn [mbind option_bind]. rewrite (handle_expected _ _ _ _ _ _ I).
  destruct (str_eqb (o_name o) (b "h")); [done|]. f_equal. apply expected_ext. intros n. by rewrite last_value_snoc.
Qed.

(** C14. A command line means what its options say.  Options may be written in full or
    abbreviated to a prefix of no other option, with one dash or two, with the value in
    the same argument or in the next, in any order and more than once, with other
    arguments and with unknown or ambiguous options between them; the environment does not
    have [POSIXLY_CORRECT], with which glibc stops at the first argument that is no
    option.  Then every member of the server's information that an option sets has the
    value the option was given last, read as text, as a number cut to the member's width
    or as a truth value, and otherwise the value it had; the sides of the picture are the
    last that a value of [-res] gives; nothing else changes; and when the usage is
    asked for anywhere among the options, it is printed and nothing is returned.  Nothing
    behind the argument that ends the options is read. *)
Theorem command_line_read xs rest p :
  Forall item_ok xs -> options_end rest ->
  icr_parse_args false (flat_map render xs ++ rest) p = line_means xs p.
Proof. intros F R. unfold icr_parse_args. rewrite parse_items by (done || lia). by apply items_mean. Qed.

Definition sample_line : list item :=
  [IWord (b "3"); IOption false (b "res") (b "res") false (b "1280x720");
   IOption true (b "stre") (b "streaming") false []; IUnknown false (b "r") None; IWord (b "x");
   IOption false (b "plug") (b "plugin") true (b "qsv");
   IOption false (b "ratec") (b "ratectrl") false (b "vbr")].

(** Deciding what an abbreviation stands for. *)
Definition denotesb (name full : bytes) : bool :=
  existsb (str_eqb full) option_names &&
  (str_eqb name full || (has_prefix name full &&
                         forallb (fun o => negb (has_prefix name o) || str_eqb o full) option_names)).

Lemma denotesb_ok name full : denotesb name full = true <-> denotes name full.
Proof.
  unfold denotesb, denotes. rewrite andb_true_iff, orb_true_iff, andb_true_iff, List.existsb_exists, List.forallb_forall, str_eqb_eq.
  split.
  - intros [(n & I & ->%str_eqb_eq) D]. split; [done|]. destruct D as [->|[P D]]; [by left|right]. split; [done|].
    intros o Io Po. specialize (D o Io). rewrite Po in D. by apply str_eqb_eq.
  - intros [I D]. split; [exists full; by rewrite str_eqb_eq|]. destruct D as [->|[P D]]; [by left|right]. split; [done|].
    intros o Io. destruct (has_prefix name o) eqn:Po; [|done]. cbn. by apply str_eqb_eq, D.
Qed.

Lemma command_line_read_witness :
  icr_parse_args false [b "3"; b "-res"; b "1280x720"; b "--stre"; b "-r"; b "x"; b "-plug=qsv"; b "-ratec"; b "vbr";
                        b "--"; b "-h"] encoder_info_init
  = Some (encoder_info_init <| cl_info -> width := 1280 |> <| cl_info -> height := 720 |>
            <| cl_info -> plugin := Some (b "qsv") |> <| cl_info -> rate_contrl_param -> ratectrl := Some (b "vbr") |>).
Proof.
  change (icr_parse_args false (flat_map render sample_line ++ [b "--"; b "-h"]) encoder_info_init =
    Some (encoder_info_init <| cl_info -> width := 1280 |> <| cl_info -> height := 720 |>
            <| cl_info -> plugin := Some (b "qsv") |> <| cl_info -> rate_contrl_param -> ratectrl := Some (b "vbr") |>)).
  rewrite (command_line_read sample_line [b "--"; b "-h"] encoder_info_init).
  - vm_compute. reflexivity.
  - unfold sample_line. repeat (apply Forall_cons; split); [..|apply Forall_nil; done]; cbn [item_ok].
    4: { split_and!; [|by apply (bool_decide_unpack _)|done..].
         intros full D. by apply (match_none_denotes (b "r") full). }
    all: first [by left|split; [by apply denotesb_ok|by vm_compute]].
  - right. by eexists.
Defined.

(** ** The default rates *)

(** Names that differ in case only are the same mode. *)
Lemma check_other_case m name rc r : strcaseeq m name = true ->
  irr_check_rate_ctrl_options (rc <| ratectrl := Some name |>) = Some (0, r) ->
  irr_check_rate_ctrl_options (rc <| ratectrl := Some m |>) = Some (0, r <| ratectrl := Some m |>).
Proof.
  intros [Et Es]%mode_names. unfold irr_check_rate_ctrl_options, rates_agree. cbn -[irr_rate_ctrl_type convert_bitrate].
  rewrite Et. destruct (irr_rate_ctrl_type name) as [o|]; [|by intros [= ? <-]]. rewrite !Es.
  destruct (rate_missing o _) eqn:Em; [by intros [= ? <-]|].
  replace (rate_missing o (rc <| ratectrl := Some m |>)) with false by (rewrite <- Em; done).
  intros E. apply bind_Some in E as (agree & E1 & E2). setoid_rewrite E1. cbn. destruct agree; by simplify_eq.
Qed.

(** The modes the encoder supports. *)
Definition modes : list bytes := [b "CQP"; b "CBR"; b "VBR"; b "QVBR"].

Lemma supported_mode mode o : irr_rate_ctrl_type mode = Some o -> exists name, In name modes /\ strcaseeq mode name = true.
Proof.
  unfold irr_rate_ctrl_type. intros E. repeat case_match; try done; eexists; (split; [|done]); cbn; tauto.
Qed.

Lemma default_other_case m name : strcaseeq m name = true -> default_rc_configs m = default_rc_configs name.
Proof. intros [_ E]%mode_names. unfold default_rc_configs. by rewrite !E. Qed.

(** Each supported mode has defaults that pass the encoder's own check. *)
Lemma defaults_accepted mode o n : irr_rate_ctrl_type mode = Some o -> (n < 3)%nat ->
  exists configs rc, default_rc_configs mode = Some configs /\ configs !! n = Some rc /\
    let rc := rc <| ratectrl := Some mode |> in irr_check_rate_ctrl_options rc = Some (0, rc).
Proof.
  intros (name & I & E)%supported_mode L. rewrite (default_other_case _ _ E).
  assert (exists configs rc, default_rc_configs name = Some configs /\ configs !! n = Some rc /\
    irr_check_rate_ctrl_options (rc <| ratectrl := Some name |>) = Some (0, rc <| ratectrl := Some name |>)) as (cs & rc & E1 & E2 & E3).
  { cbn in I. destruct I as [<-|[<-|[<-|[<-|[]]]]]; do 3 (destruct n as [|n]; [do 2 eexists; split; [reflexivity|];
      split; [reflexivity|]; vm_compute; reflexivity|]); lia. }
  exists cs, rc. split; [done|]. split; [done|]. apply (check_other_case _ _ _ _ E) in E3. exact E3.
Qed.

Lemma rc_level_lt s : (rc_level s < 3)%nat.
Proof. unfold rc_level. repeat case_match; lia. Qed.

(** The server's check of an information it does not pass on to the encoder's. *)
Lemma sanity_defaults i mode r rc : ratectrl (rate_contrl_param i) = Some mode ->
  irr_check_rate_ctrl_options (rate_contrl_param i) = Some (r, rc) -> r <> 0 ->
  0 < width i <= ENCODER_RESOLUTION_WIDTH_MAX -> 0 < height i <= ENCODER_RESOLUTION_WIDTH_MAX ->
  bitrate_ctrl_sanity_check i =
    match default_rc_configs mode with
    | None => Some (-1, i <| rate_contrl_param := rc |>)
    | Some configs =>
        rc0 ← configs !! rc_level (width i * height i); Some (0, i <| rate_contrl_param := rc0 <| ratectrl := Some mode |> |>)
    end.
Proof.
  intros Em E N Hw Hh. unfold bitrate_ctrl_sanity_check. rewrite Em, E. unfold ENCODER_RESOLUTION_WIDTH_MAX in *.
  replace ((width i =? 0) || (height i =? 0)) with false by (symmetry; apply orb_false_iff; split; apply Z.eqb_neq; lia).
  cbn [mbind option_bind]. change (width (i <| rate_contrl_param := rc |>)) with (width i).
  change (height (i <| rate_contrl_param := rc |>)) with (height i). destruct (Z.eqb_spec r 0); [done|].
  replace ((width i <=? 0) || (4096 <? width i) || (height i <=? 0) || (4096 <? height i)) with false
    by (symmetry; rewrite !orb_false_iff; split_and!; first [apply Z.leb_gt|apply Z.ltb_ge]; lia).
  assert (0 <= width i * height i <= 4096 * 4096) as S by (split; [|apply Z.mul_le_mono_nonneg]; lia).
  rewrite int_chk_Some by (unfold INT_MIN, INT_MAX; lia). done.
Qed.

(** Bad rates are replaced, not refused.  For a mode the encoder supports and a
    resolution the server accepts, whatever rates, quantisers and buffer sizes the
    command line gives, the check of the server returns success: the parameters are
    then those of the encoder's own check when it accepts them, and otherwise the
    defaults of the mode at the level of the resolution; both pass the encoder's check
    again unchanged, and nothing else of the information changes.  (The check is
    undefined exactly when the encoder's is, for a rate that does not fit an [int].) *)
Theorem bad_rates_replaced i mode o :
  ratectrl (rate_contrl_param i) = Some mode -> irr_rate_ctrl_type mode = Some o ->
  0 < width i <= ENCODER_RESOLUTION_WIDTH_MAX -> 0 < height i <= ENCODER_RESOLUTION_WIDTH_MAX ->
  match irr_check_rate_ctrl_options (rate_contrl_param i) with
  | None => bitrate_ctrl_sanity_check i = None
  | Some (r, rc) => exists rc', bitrate_ctrl_sanity_check i = Some (0, i <| rate_contrl_param := rc' |>) /\
      irr_check_rate_ctrl_options rc' = Some (0, rc') /\
      (r = 0 -> rc' = rc) /\
      (r <> 0 -> exists configs rc0, default_rc_configs mode = Some configs /\
        configs !! rc_level (width i * height i) = Some rc0 /\ rc' = rc0 <| ratectrl := Some mode |>)
  end.
Proof.
  intros Em Eo Hw Hh. destruct (irr_check_rate_ctrl_options (rate_contrl_param i)) as [[r rc]|] eqn:E.
  - destruct (decide (r = 0)) as [->|N].
    + exists rc. split; [|split; [|done]].
      * unfold bitrate_ctrl_sanity_check. rewrite Em, E.
        by replace ((width i =? 0) || (height i =? 0)) with false by (symmetry; apply orb_false_iff; split; apply Z.eqb_neq; lia).
      * by apply rate_valid_fixed, (rate_check_valid (rate_contrl_param i)).
    + rewrite (sanity_defaults _ _ _ _ Em E N Hw Hh).
      destruct (defaults_accepted mode o (rc_level (width i * height i)) Eo (rc_level_lt _)) as (cs & rc0 & E1 & E2 & E3).
      rewrite E1. setoid_rewrite E2. eexists. split; [reflexivity|]. split; [exact E3|]. split; [done|]. eauto.
  - unfold bitrate_ctrl_sanity_check. rewrite Em, E.
    by replace ((width i =? 0) || (height i =? 0)) with false by (symmetry; apply orb_false_iff; split; apply Z.eqb_neq; lia).
Qed.

Definition full_hd : encoder_info_t := (cl_info encoder_info_init) <| width := 1920 |> <| height := 1080 |>.
Definition bad_vbr : encoder_info_t :=
  full_hd <| rate_contrl_param := (rc_config (lit "9M") None None (lit "8M")) <| ratectrl := lit "vbr" |> |>.

Lemma bad_rates_replaced_witness : bitrate_ctrl_sanity_check bad_vbr =
  Some (0, bad_vbr <| rate_contrl_param := (rc_config (lit "5M") None None (lit "10M")) <| ratectrl := lit "vbr" |> |>).
Proof.
  pose proof (bad_rates_replaced bad_vbr (b "vbr")
    {| need_qp := false; need_qfactor := false; need_bitrate := true; need_maxbitrate := true |} eq_refl eq_refl
    ltac:(vm_compute; split; [reflexivity|discriminate]) ltac:(vm_compute; split; [reflexivity|discriminate])) as T.
  assert (irr_check_rate_ctrl_options (rate_contrl_param bad_vbr) = Some (AVERROR EINVAL, rate_contrl_param bad_vbr)) as C
    by (vm_compute; reflexivity).
  rewrite C in T. destruct T as (rc' & E & _ & _ & D). destruct (D ltac:(done)) as (cs & rc0 & E1 & E2 & ->).
  injection E1 as <-. vm_compute in E2. injection E2 as <-. exact E.
Defined.

(** ** [main] *)

Lemma rir_keeps_rates i : rate_contrl_param (rir_type_sanity_check i) = rate_contrl_param i.
Proof. unfold rir_type_sanity_check. by repeat case_match. Qed.

(** [main] on an information whose rate control the encoder refuses. *)
Lemma unsupported_rates r : ratectrl r ≫= irr_rate_ctrl_type = None -> irr_check_rate_ctrl_options r = Some (AVERROR EINVAL, r).
Proof. unfold irr_check_rate_ctrl_options. destruct (ratectrl r) as [m|]; cbn; [|done]. by intros ->. Qed.

Lemma checked_mode r ret rc : irr_check_rate_ctrl_options r = Some (ret, rc) -> ratectrl rc = ratectrl r.
Proof.
  unfold irr_check_rate_ctrl_options. destruct (ratectrl r) as [m|] eqn:Em; [|by intros [= _ <-]].
  destruct (irr_rate_ctrl_type m); [|by intros [= _ <-]]. destruct (rate_missing _ _); [by intros [= _ <-]|].
  intros (ag & _ & E)%bind_Some. destruct ag; by simplify_eq.
Qed.

(** The outcomes of the server's check. *)
Lemma sanity_cases i mode ret rc : ratectrl (rate_contrl_param i) = Some mode ->
  irr_check_rate_ctrl_options (rate_contrl_param i) = Some (ret, rc) ->
  bitrate_ctrl_sanity_check i = Some (-1, i) \/
  (exists r, bitrate_ctrl_sanity_check i = Some (r, i <| rate_contrl_param := rc |>)) \/
  exists rc0, bitrate_ctrl_sanity_check i = Some (0, i <| rate_contrl_param := rc0 <| ratectrl := Some mode |> |>).
Proof.
  intros Em E. destruct (decide (ret <> 0 /\ 0 < width i <= ENCODER_RESOLUTION_WIDTH_MAX /\
    0 < height i <= ENCODER_RESOLUTION_WIDTH_MAX)) as [(N & Hw & Hh)|N].
  - rewrite (sanity_defaults _ _ _ _ Em E N Hw Hh). destruct (default_rc_configs mode) as [cs|] eqn:D; [|eauto].
    assert (length cs = 3%nat) as L
      by (unfold default_rc_configs in D; repeat (destruct (strcaseeq mode _); [by injection D as <-|]); done).
    destruct (lookup_lt_is_Some_2 cs (rc_level (width i * height i))) as [rc0 ->]; [rewrite L; apply rc_level_lt|]. eauto.
  - unfold bitrate_ctrl_sanity_check. rewrite Em, E. destruct (_ || _); [by left|]. right. left. cbn [mbind option_bind].
    destruct (Z.eqb_spec ret 0); [eauto|]. destruct (_ || _) eqn:B; [eauto|]. exfalso. apply N.
    change (width (i <| rate_contrl_param := rc |>)) with (width i) in *.
    change (height (i <| rate_contrl_param := rc |>)) with (height i) in *. bool_to_prop. lia.
Qed.

(** What the defaults of the two modes are, at every level. *)
Definition listed_defaults (mode : bytes) (r : rate_control_info_t) : Prop :=
  if strcaseeq mode (b "ICQ") then qfactor r = lit "20" /\ bitrate r = None
  else exists v, bitrate r = Some v /\ In v [b "3.3M"; b "5M"; b "8M"] /\ maxrate r = None.

Lemma listed_mode_type mode : strcaseeq mode (b "AVBR") || strcaseeq mode (b "ICQ") = true -> irr_rate_ctrl_type mode = None.
Proof. intros [[E _]%mode_names|[E _]%mode_names]%orb_true_iff; rewrite E; vm_compute; reflexivity. Qed.

Lemma listed_mode_defaults mode n : strcaseeq mode (b "AVBR") || strcaseeq mode (b "ICQ") = true -> (n < 3)%nat ->
  exists configs rc, default_rc_configs mode = Some configs /\ configs !! n = Some rc /\ listed_defaults mode rc.
Proof.
  intros H L. unfold listed_defaults. apply orb_true_iff in H as [H|H]; rewrite (default_other_case _ _ H);
    apply mode_names in H as [_ ->]; do 3 (destruct n as [|n]; [do 2 eexists; split; [reflexivity|]; split; [reflexivity|];
      vm_compute; first [by split|eexists; split; [reflexivity|]; split; [tauto|reflexivity]]|]); lia.
Qed.

Lemma main_refuses posix args p : icr_parse_args posix args
    (encoder_info_init <| cl_info -> encoderInstanceID := read_id (default [] (head args)) |>) = Some p ->
  ratectrl (rate_contrl_param (cl_info p)) ≫= irr_rate_ctrl_type = None ->
  main_options posix args = Some ExitFailure.
Proof.
  intros Ep Et. unfold main_options. destruct args as [|a args]; [done|]. case_match; [done|]. cbn [default head] in Ep.
  setoid_rewrite Ep. destruct (ratectrl (rate_contrl_param (cl_info p))) as [mode|] eqn:Em.
  - assert (irr_check_rate_ctrl_options (rate_contrl_param (cl_info p)) = Some (AVERROR EINVAL, rate_contrl_param (cl_info p))) as Ec
      by (apply unsupported_rates; by rewrite Em).
    assert (forall r i, ratectrl (rate_contrl_param i) = Some mode ->
      ('(r, i) ← Some (r, i); if r <? 0 then Some ExitFailure
       else '(r, i) ← irr_check_options (rir_type_sanity_check i);
         if r <? 0 then Some ExitFailure else Some (Serve a (p <| cl_info := i |>))) = Some ExitFailure) as K.
    { intros r i Er. cbn [mbind option_bind]. destruct (r <? 0); [done|]. unfold irr_check_options.
      rewrite unsupported_rates by (by rewrite rir_keeps_rates, Er). done. }
    destruct (sanity_cases _ _ _ _ Em Ec) as [->|[[r ->]|[rc0 ->]]]; by apply K.
  - unfold bitrate_ctrl_sanity_check. by rewrite Em.
Qed.

(** The rate control modes the defaults table lists beyond the encoder's own are
    refused in the end.  A command line that asks for AVBR or ICQ, at a resolution
    the server accepts, passes the server's check, which fills in the defaults of that
    mode; but the process always exits with a failure, since the encoder's check
    does not know the mode. *)
Theorem listed_modes_refused posix args p mode :
  icr_parse_args posix args (encoder_info_init <| cl_info -> encoderInstanceID := read_id (default [] (head args)) |>) = Some p ->
  ratectrl (rate_contrl_param (cl_info p)) = Some mode ->
  strcaseeq mode (b "AVBR") || strcaseeq mode (b "ICQ") = true ->
  main_options posix args = Some ExitFailure /\
  (0 < width (cl_info p) <= ENCODER_RESOLUTION_WIDTH_MAX -> 0 < height (cl_info p) <= ENCODER_RESOLUTION_WIDTH_MAX ->
   exists i', bitrate_ctrl_sanity_check (cl_info p) = Some (0, i') /\ listed_defaults mode (rate_contrl_param i')).
Proof.
  intros Ep Em Ha. pose proof (listed_mode_type _ Ha) as Et.
  split; [apply (main_refuses _ _ _ Ep); by rewrite Em|]. intros Hw Hh. unfold ENCODER_RESOLUTION_WIDTH_MAX in *.
  rewrite (sanity_defaults _ mode (AVERROR EINVAL) (rate_contrl_param (cl_info p))); try done;
    [|apply unsupported_rates; by rewrite Em].
  destruct (listed_mode_defaults mode _ Ha (rc_level_lt (width (cl_info p) * height (cl_info p)))) as (cs & rc & -> & E & L).
  setoid_rewrite E. eexists. split; [reflexivity|]. exact L.
Qed.

Lemma listed_modes_refused_witness :
  main_options false [b "0"; b "-res"; b "1280x720"; b "-ratectrl"; b "AVBR"] = Some ExitFailure.
Proof.
  destruct (icr_parse_args false [b "0"; b "-res"; b "1280x720"; b "-ratectrl"; b "AVBR"]
    (encoder_info_init <| cl_info -> encoderInstanceID := read_id (b "0") |>)) as [p|] eqn:E; [|vm_compute in E; discriminate].
  destruct (listed_modes_refused false [b "0"; b "-res"; b "1280x720"; b "-ratectrl"; b "AVBR"] p (b "AVBR")) as [F _].
  - exact E.
  - vm_compute in E. injection E as <-. reflexivity.
  - reflexivity.
  - exact F.
Defined.

(** A server is only ever started with valid options.  The process exits with
    success when the usage was asked for, and has then done nothing; or when its first
    argument starts with a digit and is the server's identifier, the options pass every
    check of the encoder (so that checking them again changes nothing), the
    server could be initialised with them, and the guest's commands and the shutdown
    all returned. *)
Theorem main_exit_success `{AvDict} posix en receiver fifo open cs args d d' :
  encoder_main posix en receiver fifo open cs args d = Some (EXIT_SUCCESS, d') ->
  (main_options posix args = Some ExitUsage /\ d' = d) \/
  exists id p d1 d2, main_options posix args = Some (Serve id p) /\ head args = Some id /\
    options_valid (cl_info p) /\ irr_check_options (cl_info p) = Some (0, cl_info p) /\
    server_init en receiver fifo open (cl_info p) d = Some (true, d1) /\
    crun cs d1 = Some (tt, d2) /\ server_deinit d2 = Some (tt, d').
Proof.
  unfold encoder_main. intros (r & d0 & E1 & E)%cbind_inv. unfold clift in E1.
  destruct (main_options posix args) as [r'|] eqn:Em; simplify_eq. destruct r as [| |id p].
  - left. unfold cret in E. by simplify_eq.
  - done.
  - right. apply cbind_inv in E as (ok & d1 & E2 & E). destruct ok; [|done]. cbn [negb] in E.
    apply cbind_inv in E as ([] & d2 & E3 & E). apply cbind_inv in E as ([] & d3 & E4 & E). unfold cret in E. simplify_eq.
    assert (head args = Some id /\ exists i, irr_check_options i = Some (0, cl_info p)) as [Eh [i Ei]].
    { unfold main_options in Em. destruct args as [|a args]; [done|]. destruct (negb _); [done|].
      destruct (icr_parse_args _ _ _) as [p0|]; [|done]. apply bind_Some in Em as ([r1 i1] & _ & Em).
      destruct (r1 <? 0); [done|]. apply bind_Some in Em as ([r2 i2] & Ei & Em). destruct (r2 <? 0) eqn:E0; [done|].
      injection Em as <- <-. split; [done|]. eexists. cbn. rewrite Ei. f_equal. f_equal.
      revert Ei E0. unfold irr_check_options. intros ([ret rc] & _ & Ei)%bind_Some.
      repeat case_match; simplify_eq; try by rewrite einval_neg. intros. apply bind_Some in Ei as (? & _ & Ei). by simplify_eq. }
    exists id, p, d1, d2. apply check_options_valid in Ei. split_and!; try done. by apply valid_options_fixed.
Qed.

Definition sample_args : list bytes :=
  [b "0"; b "-res"; b "1280x720"; b "-ratectrl"; b "cbr"; b "-b=4M"; b "-maxrate"; b "4M"; b "-plugin"; b "qsv"].

Lemma main_exit_success_witness : exists p,
  main_options false sample_args = Some (Serve (b "0") p) /\ irr_check_options (cl_info p) = Some (0, cl_info p).
Proof.
  assert (option_map fst (encoder_main false sample_restart true true true guest_session sample_args display0) = Some EXIT_SUCCESS)
    as S by (vm_compute; reflexivity).
  destruct (encoder_main false sample_restart true true true guest_session sample_args display0) as [[r d']|] eqn:E; [|done].
  injection S as ->.
  destruct (main_exit_success false sample_restart true true true guest_session sample_args display0 d' E)
    as [[U _]|(id & p & d1 & d2 & M & Hd & _ & C & _)].
  - exfalso. vm_compute in U. discriminate U.
  - injection Hd as <-. exists p. split; [exact M|exact C].
Defined.
