(* ===== verification/CallbackMux.v ===== *)
(** * CallbackMux: from the encoder to the clients and the files

    Models [src/sources/encoder/shared/CCallbackMux.cpp]: the multiplexer of a
    stream of the protocol.  A packet goes to the protocol's server only while
    transmission is allowed; otherwise the call only serves the clients.  The
    packets sent are also handed to the output file and to the runtime writer.
    Clients' controls arrive inside these calls, and those that start or stop the
    runtime writer act on the object the multiplexer holds. *)

From Stdlib Require Import ZArith Lia String.
From stdpp Require Import base gmap sets list.
From S2P Require Import Prelude StdMap GaConf CNum SockUtil SockServer TransCoder IrrWorld IrrStreamer EncoderOpts RuntimeWriter IrrvProtocol.



(** ** State *)

(** The process the callbacks act on, [m_bInited], the output file [m_pWriter]
    and the runtime writer (shared with the demuxer). *)
Record mux_state := {
  x_world : world; m_bInited : bool; m_pWriter : option StreamWriter.IOStreamWriter; x_runtime : option IORuntimeWriter
}.

Definition set_x_world (w : world) (x : mux_state) : mux_state :=
  {| x_world := w; m_bInited := m_bInited x; m_pWriter := m_pWriter x; x_runtime := x_runtime x |}.
Definition set_x_inited (i : bool) (x : mux_state) : mux_state :=
  {| x_world := x_world x; m_bInited := i; m_pWriter := m_pWriter x; x_runtime := x_runtime x |}.
Definition set_x_writer (o : option StreamWriter.IOStreamWriter) (x : mux_state) : mux_state :=
  {| x_world := x_world x; m_bInited := m_bInited x; m_pWriter := o; x_runtime := x_runtime x |}.
Definition set_x_runtime (o : option IORuntimeWriter) (x : mux_state) : mux_state :=
  {| x_world := x_world x; m_bInited := m_bInited x; m_pWriter := m_pWriter x; x_runtime := o |}.

(** What the outside does during a call of the protocol: the clients, and the
    clock and file system for a runtime writer that is started. *)
Record conn_env := { ce_out : outside; ce_time : bytes; ce_good : stream_index -> bool }.

(** The environment variables [encode_unlimit] and [enable_encode]. *)
Record encode_env := { gv_unlimit : cstr; gv_enable : cstr }.

Definition env_is_one (v : cstr) : bool := match v with Some v => has_prefix (b "1") v | None => false end.
Definition isEncodeUnconditionally (gv : encode_env) : bool := env_is_one (gv_unlimit gv).
Definition isEncodeEnableByEnv (gv : encode_env) : bool := env_is_one (gv_enable gv).

(** ** The protocol's callbacks *)

(** One call of the runtime writer. *)
Definition rt_exec (ce : conn_env) (c : rt_call) (w : IORuntimeWriter) : option IORuntimeWriter :=
  match c with
  | rt_start m n => snd <$> startWriting m n (ce_time ce) (ce_good ce) w
  | rt_stop m => snd <$> stopWriting m w
  | rt_codec c => snd <$> changeCodecType c w
  end.

Fixpoint rt_run (ce : conn_env) (cs : list rt_call) (w : IORuntimeWriter) : option IORuntimeWriter :=
  match cs with
  | [] => Some w
  | c :: cs => w ← rt_exec ce c w; rt_run ce cs w
  end.

(** A callback of the protocol: what it asked of the runtime writer is done on
    the object there is. *)
Definition callback {A} (ce : conn_env) (op : cmd world A) : cmd mux_state A := fun x =>
  '(r, w) ← op (x_world x);
  o ← match x_runtime x with
      | None => Some None
      | Some rt => Some <$> rt_run ce (drop (length (writer_calls (x_world x))) (writer_calls w)) rt
      end;
  Some (r, set_x_runtime o (set_x_world w x)).

(** ** Operations *)

(** [addStream] of a video stream; no open callback is installed. *)
Definition addStream : cmd mux_state Z := fun x =>
  if m_bInited x then Some (AVERROR EINVAL, x) else Some (0, set_x_inited true x).

(** [checkNewConn]; [mux] are the two servers, 0 for NULL. *)
Definition checkNewConn (mux : Z * Z) (c1 c2 : conn_env) : cmd mux_state Z :=
  n <-- (if mux.1 =? 0 then cret 0 else callback c1 (irrv_checknewconn (ce_out c1) mux.1)) ;;
  if mux.2 =? 0 then cret n else callback c2 (irrv_checknewconn (ce_out c2) mux.2).

(** A packet of the encoder. *)
Record av_packet := { ap_data : bytes; ap_flags : Z }.
Definition ap_size (p : av_packet) : Z := Z.of_nat (length (ap_data p)).

Definition transmit_allowed (gv : encode_env) (x : mux_state) : bool :=
  irr_stream_getTransmitFlag (x_world x) || isEncodeEnableByEnv gv || isEncodeUnconditionally gv.

(** The output file: [true] when all frames are written and the process exits. *)
Definition file_dump (p : av_packet) : cmd mux_state bool := fun x =>
  match m_pWriter x with
  | None => Some (false, x)
  | Some o => '(r, o) ← StreamWriter.writeToOutputStream (Some (ap_data p)) o;
              Some (negb (r =? 0), set_x_writer (Some o) x)
  end.

Definition AV_PKT_FLAG_KEY : Z := 1.

(** The data submitted to the runtime writer: a copy of the packet. *)
Definition packet_data (p : av_packet) : IORuntimeData :=
  {| type := SYSTEM_BLOCK_COPY; data := None; blk := ap_data p;
     key_frame := negb (Z.land (ap_flags p) AV_PKT_FLAG_KEY =? 0); image := image empty_data |}.

Definition runtime_dump (p : av_packet) : cmd mux_state unit := fun x =>
  match x_runtime x with
  | None => Some (tt, x)
  | Some rt =>
      if getRuntimeWriterStatus rt =? STOPPED then Some (tt, x)
      else '(_, rt) ← submitRuntimeData OUTPUT (packet_data p) rt; Some (tt, set_x_runtime (Some rt) x)
  end.

(** [write] of a packet that is not null: [None] when the process exits. *)
Definition mux_write (gv : encode_env) (mux : Z * Z) (c1 c2 : conn_env) (p : av_packet) : cmd mux_state (option Z) :=
  allowed <-- cgets (transmit_allowed gv) ;;
  if negb allowed then checkNewConn mux c1 c2;;; cret (Some 0)
  else
    ret <-- callback c1 (irrv_writeback (ce_out c1) mux.1 (ap_data p) (ap_size p) (ap_flags p)) ;;
    (if mux.2 =? 0 then cret 0 else callback c2 (irrv_checknewconn (ce_out c2) mux.2));;;
    exits <-- file_dump p ;;
    if (exits : bool) then cret None
    else runtime_dump p;;; cret (Some ret).

(** [write] of a picture with its type, for the second server. *)
Definition mux_write2 (mux : Z * Z) (ce : conn_env) (d : bytes) (ty : Z) : cmd mux_state Z :=
  if mux.2 =? 0 then cret (-1)
  else callback ce (irrv_writeback2 (ce_out ce) mux.2 d (Z.of_nat (length d)) ty);;; cret 0.

(** ** What a write sends *)

Definition is_frame (e : event) : bool :=
  match e with Sent _ _ (VFRAME _ _ _ _) | Sent _ _ (VDATA _) => true | _ => false end.

(** The frames sent between two states. *)
Definition sends (l : list event) (w w' : world) : Prop := exists evs,
  trace w' = trace w ++ evs /\ List.filter is_frame evs = l.

Lemma sends_app l1 l2 w1 w2 w3 : sends l1 w1 w2 -> sends l2 w2 w3 -> sends (l1 ++ l2) w1 w3.
Proof.
  intros (e1 & T1 & <-) (e2 & T2 & <-). exists (e1 ++ e2). rewrite T2, T1, List.filter_app. split; [|done].
  by rewrite (assoc_L (++)).
Qed.

#[export] Instance quiet_preorder : PreOrder (sends []).
Proof.
  split; [intros w; exists []; by rewrite app_nil_r|].
  intros w1 w2 w3 H1 H2. exact (sends_app [] [] _ _ _ H1 H2).
Qed.

Lemma quiet_trace w w' : trace w' = trace w -> sends [] w w'.
Proof. intros E. exists []. by rewrite app_nil_r. Qed.

Lemma sends_emit e w : sends (List.filter is_frame [e]) w (emit e w).
Proof. by exists [e]. Qed.

Lemma quiet_emit e w : is_frame e = false -> sends [] w (emit e w).
Proof. intros E. pose proof (sends_emit e w) as H. cbn in H. by rewrite E in H. Qed.

Create HintDb quiet.
#[export] Hint Extern 1 (sends [] _ (emit _ _)) => apply quiet_emit; reflexivity : quiet.
#[export] Hint Extern 2 (sends [] _ _) => apply quiet_trace; reflexivity : quiet.

Lemma dispatch_quiet fb v : effect (sends []) (dispatch_vctrl fb v).
Proof. unfold dispatch_vctrl. unfold_api. repeat effect_step; auto with quiet. Qed.

Lemma close_client_quiet server slot : effect (sends []) (close_client server slot).
Proof. unfold close_client. repeat effect_step; auto with quiet. Qed.

(** Serving the clients sends no frame. *)
Lemma checknewconn_quiet ou server : effect (sends []) (irrv_checknewconn ou server).
Proof.
  unfold irrv_checknewconn, check_accept, accept_client, poll_client, handle_event, handle_vauth,
    handle_disconnect, handle_vctrl. unfold_api.
  repeat effect_step; auto using dispatch_quiet, close_client_quiet with quiet;
    repeat case_match; auto with quiet.
Qed.

(** The two messages of a frame. *)
Definition frame_msgs (server slot flags : Z) (p : bytes) (wd ht : Z) : list event :=
  [Sent server slot (VFRAME flags (u32 (Z.of_nat (length p))) wd ht); Sent server slot (VDATA p)].

Lemma send_frame_sends server flags p a w x w' :
  send_frame server flags (Z.of_nat (length p)) p a w = Some (x, w') ->
  sends [] w w' \/ exists slot, sends (frame_msgs server slot flags p (header_width w) (header_height w)) w w'.
Proof.
  unfold send_frame. intros E. apply cbind_inv in E as (w0 & w1 & [= <- <-] & E).
  case_match; [|left; injection E as _ <-; reflexivity].
  apply cbind_inv in E as (u & w2 & [= _ <-] & E). injection E as _ <-. rewrite Nat2Z.id, firstn_all.
  destruct (client_of server w) as [slot|] eqn:C.
  - right. exists slot. replace (client_of server (emit _ w)) with (Some slot) by (by rewrite <- C).
    eexists [_; _]. split; [cbn [emit trace]; by rewrite <- (assoc_L (++))|reflexivity].
  - left. rewrite C. reflexivity.
Qed.

Lemma writeback_sends ou server p flags w x w' :
  irrv_writeback ou server p (Z.of_nat (length p)) flags w = Some (x, w') ->
  sends [] w w' \/ exists slot wd ht, sends (frame_msgs server slot flags p wd ht) w w'.
Proof.
  unfold irrv_writeback. intros E. apply cbind_inv in E as (a & w0 & [= <- <-] & E).
  apply cbind_inv in E as (u & w1 & [= _ <-] & E). apply cbind_inv in E as (n & w2 & E2 & E).
  apply checknewconn_quiet in E2. apply cbind_inv in E as (v & w3 & E3 & E). injection E as _ <-.
  assert (sends [] w w2) as Q by (etransitivity; [|exact E2]; apply quiet_trace; reflexivity).
  destruct (server =? 0); cbn [negb] in E3; [injection E3 as _ <-; by left|].
  apply send_frame_sends in E3 as [E3|(slot & E3)].
  - left. by etransitivity.
  - right. exists slot, (header_width w2), (header_height w2). exact (sends_app [] _ _ _ _ Q E3).
Qed.

Lemma callback_world {A} ce (op : cmd world A) x r x' :
  callback ce op x = Some (r, x') -> op (x_world x) = Some (r, x_world x').
Proof.
  unfold callback. intros E. apply bind_Some in E as ([r1 w] & E1 & E). apply bind_Some in E as (o & _ & E).
  by simplify_eq.
Qed.

Lemma check_quiet mux c1 c2 x r x' :
  checkNewConn mux c1 c2 x = Some (r, x') -> sends [] (x_world x) (x_world x').
Proof.
  unfold checkNewConn. intros E. apply cbind_inv in E as (n & x1 & E1 & E2).
  trans (x_world x1).
  - destruct (mux.1 =? 0); [injection E1 as _ <-; reflexivity|].
    by apply callback_world, checknewconn_quiet in E1.
  - destruct (mux.2 =? 0); [injection E2 as _ <-; reflexivity|].
    by apply callback_world, checknewconn_quiet in E2.
Qed.

Lemma file_dump_world p x r x' : file_dump p x = Some (r, x') -> x_world x' = x_world x.
Proof.
  unfold file_dump. intros E. destruct (m_pWriter x); [|by simplify_eq].
  apply bind_Some in E as ([r1 o] & _ & E). by simplify_eq.
Qed.

Lemma runtime_dump_world p x r x' : runtime_dump p x = Some (r, x') -> x_world x' = x_world x.
Proof.
  unfold runtime_dump. intros E. destruct (x_runtime x); [|by simplify_eq]. case_match; [by simplify_eq|].
  apply bind_Some in E as ([r1 o] & _ & E). by simplify_eq.
Qed.

(** C21. A packet reaches the clients at most once, whole, and only while
    transmission is allowed.  Whatever the clients do meanwhile, one write sends
    either no frame or exactly one header and one block with all the packet's
    bytes, to the client of the first server; and none when neither a client
    started the transmission nor an environment variable forces it. *)
Theorem packet_sent_when_allowed gv mux c1 c2 p x r x' :
  mux_write gv mux c1 c2 p x = Some (r, x') ->
  sends [] (x_world x) (x_world x') \/
  transmit_allowed gv x = true /\
  exists slot wd ht, sends (frame_msgs mux.1 slot (ap_flags p) (ap_data p) wd ht) (x_world x) (x_world x').
Proof.
  unfold mux_write. intros E. apply cbind_inv in E as (a & x0 & [= <- <-] & E).
  destruct (transmit_allowed gv x) eqn:Ha; cbn [negb] in E.
  2: { apply cbind_inv in E as (n & x1 & E1 & E). injection E as _ <-. left. by apply check_quiet in E1. }
  apply cbind_inv in E as (ret & x1 & E1%callback_world & E).
  apply cbind_inv in E as (n & x2 & E2 & E).
  assert (sends [] (x_world x1) (x_world x2)) as Q2.
  { destruct (mux.2 =? 0); [injection E2 as _ <-; reflexivity|].
    by apply callback_world, checknewconn_quiet in E2. }
  apply cbind_inv in E as (ex & x3 & E3%file_dump_world & E).
  assert (x_world x' = x_world x3) as Ex.
  { destruct ex; [by injection E as _ <-|]. apply cbind_inv in E as (u & x4 & E4%runtime_dump_world & E).
    injection E as _ <-. done. }
  rewrite Ex, E3. apply writeback_sends in E1 as [E1|(slot & wd & ht & E1)].
  - left. by etransitivity.
  - right. split; [done|]. exists slot, wd, ht. rewrite <- (app_nil_r (frame_msgs _ _ _ _ _ _)).
    by eapply sends_app.
Qed.

(** A client connects and starts the stream; then a packet is written. *)
Definition ex_conn (ou : outside) : conn_env := {| ce_out := ou; ce_time := b "now"; ce_good := fun _ => true |}.
Definition ex_idle : conn_env := ex_conn (ex_outside 0 7 0 0 0 [] (ex_ctrl 0 0)).
Definition no_env : encode_env := {| gv_unlimit := None; gv_enable := None |}.
Definition ex_mux (ous : list outside) : mux_state :=
  {| x_world := ex_run (ex_streamer false (Some (CTransCoder_init AV_CODEC_ID_H264))) ous;
     m_bInited := true; m_pWriter := None; x_runtime := Some (IORuntimeWriter_new AV_CODEC_ID_H264 (b "./")) |}.
Definition ex_started : mux_state :=
  ex_mux [ex_connect 7; ex_event 7 IRRV_EVENT_VCTRL [] (ex_ctrl IRRV_CTRL_START 0)].
Definition ex_packet : av_packet := {| ap_data := [0; 0; 1; 9]; ap_flags := 1 |}.

Lemma packet_sent_when_allowed_witness :
  transmit_allowed no_env ex_started = true /\
  exists x', mux_write no_env (1, 0) ex_idle ex_idle ex_packet ex_started = Some (Some 0, x') /\
    exists slot wd ht, sends (frame_msgs 1 slot 1 [0; 0; 1; 9] wd ht) (x_world ex_started) (x_world x').
Proof.
  split; [vm_compute; reflexivity|].
  destruct (mux_write no_env (1, 0) ex_idle ex_idle ex_packet ex_started) as [[r x']|] eqn:E;
    [|vm_compute in E; discriminate E].
  assert (r = Some 0) as -> by (vm_compute in E; injection E as <- _; reflexivity).
  exists x'. split; [reflexivity|].
  destruct (packet_sent_when_allowed _ _ _ _ _ _ _ _ E) as [(evs & T & F)|[_ S]]; [|exact S].
  exfalso. vm_compute in E. injection E as <-. vm_compute in T.
  injection T as <-. discriminate F.
Defined.
