(* ===== verification/TransLoop.v ===== *)
(** * TransLoop: the transcoding thread

    Models the thread of [src/sources/encoder/shared/CTransCoder.cpp]: [run] with
    its gate on the clients, [processInput] (a packet of the demuxer, the crop,
    the decoder), [decode] (the filter), [doOutput] (the encoder, its run-time
    settings, the packets, the screen capture) and [hwErrorCount].  The thread
    serves the one video stream of [CIrrVideoDemux], in the build for the current
    FFmpeg.  The object's settings are the [CTransCoder] of the streamer, so that
    a client's control that arrives while a packet is written is seen by the next
    turn.  Decoder, filter and encoder are FFmpeg objects: what is kept of them is
    how they were made, and their answers are arguments.  Statistics that are only
    logged are left out. *)

From Stdlib Require Import ZArith Lia String.
From stdpp Require Import base gmap sets list functions.
From S2P Require Import Prelude StdMap GaConf CNum SockUtil SockServer TransCoder IrrWorld IrrStreamer EncoderOpts Surface.
From S2P Require Import RuntimeWriter IrrvProtocol StreamStart VideoDemux CallbackMux.

Definition EIO : Z := 5.
Definition AVERROR_EOF : Z := -541478725.
Definition AVERROR_EXIT : Z := -1414092869.
Definition AVERROR_STREAM_NOT_FOUND : Z := -1381258232.
Definition HW_ERROR_INTERVAL : Z := 5000.
Definition HW_ERROR_DURATION_MAX : Z := 300.
Definition HW_ERROR_COUNT_MAX : Z := 10.

(** ** State *)

(** Members of the object that only the thread uses. *)
Inductive lmember :=
  | m_isEncHWError | m_hwErrorCnt | m_hwErrorOccurTimeInMs | m_hwErrorDurationInMs
  | m_countScreenCapture | m_isFramerateChange | m_frameNumInFrameRate | m_totalFrameSizeInFrameRate
  | m_nLastPktSize | m_prev_client_right | m_prev_client_bottom | m_stopping.

#[export] Instance lmember_eq_dec : EqDecision lmember.
Proof. solve_decision. Defined.

Record crop_info := {
  client_rect_right : Z; client_rect_bottom : Z; fb_rect_right : Z; fb_rect_bottom : Z;
  crop_top : Z; crop_bottom : Z; crop_left : Z; crop_right : Z; valid_crop : Z
}.

(** A filter and an encoder, as they were made. *)
Record filter_t := { fi_width : Z; fi_height : Z; fi_threads : Z }.
Record encoder_t := {
  en_name : bytes; en_qsv : bool; en_width : Z; en_height : Z; en_props : list (bytes * option bytes)
}.

Inductive pict_type := PICTURE_NONE | PICTURE_I | PICTURE_P.

(** A frame for the filter: its surface, the size and the crop when they are set. *)
Record frame := { fr_payload : payload; fr_size : option (Z * Z); fr_crop : option (Z * Z * Z * Z) }.

(** What the thread does with the FFmpeg objects, and to its process. *)
Inductive lcall :=
  | Push (f : frame)
  | SetBitrate (v : Z) | SetMaxBitrate (v : Z) | SetLowDelayBrc (v : Z) | SetFramerate (v : Z)
  | Encode (ty : pict_type) (sei : option Z) | EncodeFlush
  | MjpegEncode | TcaeSize (n : Z) | Kill.

Record loop := {
  l_mux : mux_state;
  l_demux : CIrrVideoDemux;
  l_mem : lmember -> Z;
  m_crop : crop_info;
  m_mStreamFound : option bool;        (** for stream 0 *)
  m_mDecoders : option (Z * Z);        (** the picture size of its decoder *)
  m_mFilters : option filter_t;
  l_encoder : option encoder_t;
  m_MJPEGEncoder : option Z;           (** its quality *)
  m_DispCtrlQueue : list Z;
  l_log : list lcall                   (** oldest first *)
}.

Definition set_l_mux (x : mux_state) (l : loop) : loop :=
  {| l_mux := x; l_demux := l_demux l; l_mem := l_mem l; m_crop := m_crop l;
     m_mStreamFound := m_mStreamFound l; m_mDecoders := m_mDecoders l; m_mFilters := m_mFilters l;
     l_encoder := l_encoder l; m_MJPEGEncoder := m_MJPEGEncoder l; m_DispCtrlQueue := m_DispCtrlQueue l;
     l_log := l_log l |}.
Definition set_l_demux (d : CIrrVideoDemux) (l : loop) : loop :=
  {| l_mux := l_mux l; l_demux := d; l_mem := l_mem l; m_crop := m_crop l;
     m_mStreamFound := m_mStreamFound l; m_mDecoders := m_mDecoders l; m_mFilters := m_mFilters l;
     l_encoder := l_encoder l; m_MJPEGEncoder := m_MJPEGEncoder l; m_DispCtrlQueue := m_DispCtrlQueue l;
     l_log := l_log l |}.
Definition lwr (f : lmember) (v : Z) (l : loop) : loop :=
  {| l_mux := l_mux l; l_demux := l_demux l; l_mem := <[f := v]> (l_mem l); m_crop := m_crop l;
     m_mStreamFound := m_mStreamFound l; m_mDecoders := m_mDecoders l; m_mFilters := m_mFilters l;
     l_encoder := l_encoder l; m_MJPEGEncoder := m_MJPEGEncoder l; m_DispCtrlQueue := m_DispCtrlQueue l;
     l_log := l_log l |}.
Definition set_l_stream (fd : option bool) (dc : option (Z * Z)) (fi : option filter_t) (l : loop) : loop :=
  {| l_mux := l_mux l; l_demux := l_demux l; l_mem := l_mem l; m_crop := m_crop l;
     m_mStreamFound := fd; m_mDecoders := dc; m_mFilters := fi;
     l_encoder := l_encoder l; m_MJPEGEncoder := m_MJPEGEncoder l; m_DispCtrlQueue := m_DispCtrlQueue l;
     l_log := l_log l |}.
Definition set_l_enc (e : option encoder_t) (m : option Z) (l : loop) : loop :=
  {| l_mux := l_mux l; l_demux := l_demux l; l_mem := l_mem l; m_crop := m_crop l;
     m_mStreamFound := m_mStreamFound l; m_mDecoders := m_mDecoders l; m_mFilters := m_mFilters l;
     l_encoder := e; m_MJPEGEncoder := m; m_DispCtrlQueue := m_DispCtrlQueue l; l_log := l_log l |}.
Definition set_l_disp (q : list Z) (l : loop) : loop :=
  {| l_mux := l_mux l; l_demux := l_demux l; l_mem := l_mem l; m_crop := m_crop l;
     m_mStreamFound := m_mStreamFound l; m_mDecoders := m_mDecoders l; m_mFilters := m_mFilters l;
     l_encoder := l_encoder l; m_MJPEGEncoder := m_MJPEGEncoder l; m_DispCtrlQueue := q; l_log := l_log l |}.
Definition log (c : lcall) (l : loop) : loop :=
  {| l_mux := l_mux l; l_demux := l_demux l; l_mem := l_mem l; m_crop := m_crop l;
     m_mStreamFound := m_mStreamFound l; m_mDecoders := m_mDecoders l; m_mFilters := m_mFilters l;
     l_encoder := l_encoder l; m_MJPEGEncoder := m_MJPEGEncoder l; m_DispCtrlQueue := m_DispCtrlQueue l;
     l_log := l_log l ++ [c] |}.
Definition set_crop (c : crop_info) (l : loop) : loop :=
  {| l_mux := l_mux l; l_demux := l_demux l; l_mem := l_mem l; m_crop := c;
     m_mStreamFound := m_mStreamFound l; m_mDecoders := m_mDecoders l; m_mFilters := m_mFilters l;
     l_encoder := l_encoder l; m_MJPEGEncoder := m_MJPEGEncoder l; m_DispCtrlQueue := m_DispCtrlQueue l;
     l_log := l_log l |}.

Definition l_world (l : loop) : world := x_world (l_mux l).

(** The transcoder object, through the streamer that owns it. *)
Definition trans_of (l : loop) : option CTransCoder := s ← streamer (l_world l); m_pTrans s.

Definition put_trans (t : CTransCoder) (l : loop) : loop :=
  match streamer (l_world l) with
  | Some s => set_l_mux (set_x_world (set_streamer (Some (IrrStreamer.upd_trans t s)) (l_world l)) (l_mux l)) l
  | None => l
  end.

Definition trans : cmd loop CTransCoder := fun l => t ← trans_of l; Some (t, l).

Definition on_mux {A} (op : cmd mux_state A) : cmd loop A := fun l =>
  '(r, x) ← op (l_mux l); Some (r, set_l_mux x l).

(** The two servers of the callback multiplexer; none for the muxer of FFmpeg,
    which is not of the protocol. *)
Definition mux_of (l : loop) : option (Z * Z) := s ← streamer (l_world l); m_pMux s.

(** The demuxer's flags, set through the streamer. *)
Definition demux_of (l : loop) : option demux := s ← streamer (l_world l); m_pDemux s.

(** [irr_encoder_write_crop], through the streamer to [CTransCoder::set_crop]:
    nothing happens without a transcoder. *)
Definition irr_encoder_write_crop (c : crop_info) (l : loop) : loop :=
  match trans_of l with Some _ => set_crop c l | None => l end.

Definition flag (f : member) (t : CTransCoder) : bool := negb (mem t f =? 0).
Definition lflag (f : lmember) (l : loop) : bool := negb (l_mem l f =? 0).

(** ** Hardware errors *)

(** [hwErrorCount]; [now] is the monotonic clock in microseconds. *)
Definition hwErrorCount (now : Z) : cmd loop unit := fun l =>
  let curr := now / 1000 in
  let delta := u64 (curr - l_mem l m_hwErrorOccurTimeInMs) in
  l ← (if HW_ERROR_INTERVAL <=? delta then Some (lwr m_hwErrorDurationInMs 0 (lwr m_hwErrorCnt 0 l))
       else n ← int_chk (l_mem l m_hwErrorCnt + 1);
            Some (lwr m_hwErrorDurationInMs (u64 (l_mem l m_hwErrorDurationInMs + delta)) (lwr m_hwErrorCnt n l)));
  let l := lwr m_hwErrorOccurTimeInMs curr l in
  Some (tt, if (HW_ERROR_DURATION_MAX <? l_mem l m_hwErrorDurationInMs) || (HW_ERROR_COUNT_MAX <? l_mem l m_hwErrorCnt)
            then log Kill l else l).

Section Loop.
Context `{AvDict}.

(** ** Encoders and settings *)

Definition set_encoders (m : gmap Z Z) (t : CTransCoder) : CTransCoder :=
  {| mem := mem t; m_pOutProp := m_pOutProp t; m_mEncoders := m |}.

Definition erase_encoders (l : loop) : loop :=
  let l := set_l_enc None (m_MJPEGEncoder l) l in
  match trans_of l with Some t => put_trans (set_encoders ∅ t) l | None => l end.

Definition erase_filters (l : loop) : loop := set_l_stream (m_mStreamFound l) (m_mDecoders l) None l.

(** [if (f) f = 0;] *)
Definition clear (f : member) (t : CTransCoder) : CTransCoder := if flag f t then wr f 0 t else t.

(** The name of the encoder [doOutput] makes. *)
Definition encoder_name (t : CTransCoder) : bytes :=
  let pick qsv vaapi :=
    if flag m_qsvPlugin t then default qsv (getOutOptVal (b "c") (b "codec") t)
    else if flag m_vaapiPlugin t then default vaapi (getOutOptVal (b "c") (b "codec") t)
    else [] in
  let c := mem t m_nCodec in
  if (c =? AV_CODEC_ID_H264) || (c =? 0) then pick (b "h264_qsv") (b "h264_vaapi")
  else if c =? AV_CODEC_ID_HEVC then pick (b "hevc_qsv") (b "hevc_vaapi")
  else if c =? AV_CODEC_ID_AV1 then pick (b "av1_qsv") (b "av1_vaapi")
  else [].

Definition restart_asked (t : CTransCoder) (l : loop) : bool :=
  lflag m_isEncHWError l || flag m_isResolutionChange t || flag m_isCodecChange t || flag m_isProfileLevelChange t.

(** The encoders are erased when a restart is asked for, and the requests are
    taken back. *)
Definition restart_encoders (l : loop) : option loop :=
  t ← trans_of l;
  if restart_asked t l then
    let l := erase_encoders l in
    t ← trans_of l;
    let l := if lflag m_isEncHWError l then lwr m_isEncHWError 0 l else l in
    Some (put_trans (clear m_isProfileLevelChange (clear m_isCodecChange (clear m_isResolutionChange t))) l)
  else Some l.

(** An encoder for the filter's pictures, when there is none; [codec_of] is the
    codec of the encoder FFmpeg finds by a name. *)
Definition make_encoder (codec_of : bytes -> Z) (fi : filter_t) (l : loop) : option loop :=
  match l_encoder l with
  | Some _ => Some l
  | None =>
      t ← trans_of l;
      let nm := encoder_name t in
      let e := {| en_name := nm; en_qsv := flag m_qsvPlugin t; en_width := fi_width fi; en_height := fi_height fi;
                  en_props := m_pOutProp t |} in
      Some (put_trans (set_encoders (<[0 := codec_of nm]> (m_mEncoders t)) t) (set_l_enc (Some e) (m_MJPEGEncoder l) l))
  end.

Definition make_mjpeg (l : loop) : option loop :=
  t ← trans_of l;
  Some (if flag m_screenCaptureFlag t && bool_decide (m_MJPEGEncoder l = None) && (0 <? mem t m_screenCaptureInterval)
        then lwr m_countScreenCapture 0 (set_l_enc (l_encoder l) (Some (mem t m_screenCaptureQuality)) l)
        else l).

(** The rate predictor's answers, and whether side data can be allocated. *)
Record dyn_env := { dy_target : Z; dy_logs_only : bool; dy_side : bool }.

(** [m_frameRate * targetSize * 8] in single precision. *)
Definition target_bitrate (rate size : Z) : option Z := int_chk (float_of_u32 (rate * float_of_u32 size) * 8).

Definition tcae_settings (dy : dyn_env) : cmd loop unit :=
  t <-- trans ;;
  if flag m_tcaeOn t && flag m_tcae t then
    if (0 <? dy_target dy) && flag m_qsvPlugin t && negb (dy_logs_only dy) then
      cmodify (log (SetLowDelayBrc 1));;;
      br <-- clift (target_bitrate (mem t m_frameRate) (dy_target dy)) ;;
      cmodify (put_trans (setMaxBitrate br (setBitrate br t)))
    else cmodify (log (SetLowDelayBrc 0))
  else cret tt.

Definition apply_rates (t : CTransCoder) (l : loop) : loop :=
  let l := if flag m_setBitrate t then log (SetBitrate (mem t m_bitrate)) l else l in
  if flag m_setMaxBitrate t then log (SetMaxBitrate (mem t m_maxBitrate)) l else l.

Definition apply_framerate (t : CTransCoder) (l : loop) : loop :=
  if flag m_setFramerate t then
    lwr m_isFramerateChange 1 (lwr m_frameNumInFrameRate 0 (lwr m_totalFrameSizeInFrameRate 0 l))
  else l.

(** The settings that wait for the next frame, in the order they are taken.  All but the rates are only taken
    back: this FFmpeg has no side data for them. *)
Definition pending_settings : list member :=
  [m_setQP; m_setBitrate; m_setMaxBitrate; m_setFramerate; m_setMaxframeSize; m_setRIR; m_setROI; m_setMinMaxQP; m_setSEI].

Definition apply_settings : cmd loop unit :=
  t <-- trans ;;
  cmodify (apply_rates t);;;
  cmodify (apply_framerate t);;;
  cmodify (put_trans (fold_left (fun t f => clear f t) pending_settings t)).

(** The next display control, as side data of the frame. *)
Definition next_sei (side : bool) : cmd loop (option Z) := fun l =>
  match m_DispCtrlQueue l with
  | [] => Some (None, l)
  | c :: q => Some (if side then Some c else None, set_l_disp q l)
  end.

(** [dynamicSetEncParameters] for an encoder and a frame that are there: the
    picture type and the side data it gives the frame. *)
Definition dynamicSetEncParameters (dy : dyn_env) : cmd loop (pict_type * option Z) :=
  t <-- trans ;;
  cmodify (put_trans (clear m_forceKeyFrame t));;;
  tcae_settings dy;;;
  apply_settings;;;
  sei <-- next_sei (dy_side dy) ;;
  cret (if flag m_forceKeyFrame t then PICTURE_I else if flag m_qsvPlugin t then PICTURE_P else PICTURE_NONE, sei).

(** [updateDynamicChangedFramerate]. *)
Definition updateDynamicChangedFramerate : cmd loop unit :=
  t <-- trans ;;
  n <-- clift (int_chk (mem t m_frameRate)) ;;
  cmodify (log (SetFramerate n));;;
  cmodify (lwr m_isFramerateChange 0).

(** ** Output *)

(** How a part of [doOutput] ends: the process exits, [doOutput] returns, or it
    goes on. *)
Inductive res := Exit | Return (r : Z) | Next (r : Z).

(** A packet the encoder gives, and what happens while it is written. *)
Record pkt_env := { pk_packet : av_packet; pk_c1 : conn_env; pk_c2 : conn_env; pk_local : Z }.

(** The answers for one turn of the frame loop. *)
Record frame_env := {
  fe_dyn : dyn_env; fe_write : Z; fe_add : Z;
  fe_packets : list pkt_env; fe_end : Z;
  fe_mwrite : Z; fe_pictures : list (bytes * conn_env)
}.

Definition write_packet (gv : encode_env) (p : pkt_env) : cmd loop (option Z) := fun l =>
  match mux_of l with
  | Some mux => on_mux (mux_write gv mux (pk_c1 p) (pk_c2 p) (pk_packet p)) l
  | None => Some (Some (pk_local p), l)
  end.

(** The size statistics at a fixed frame rate. *)
Definition count_size (n : Z) : cmd loop unit := fun l =>
  t ← trans_of l; d ← demux_of l;
  if dx_renderfps d then Some (tt, l)
  else
    let l := lwr m_totalFrameSizeInFrameRate (u64 (l_mem l m_totalFrameSizeInFrameRate + n)) l in
    if 0 <? mem t m_frameRate then
      k ← int_chk (l_mem l m_frameNumInFrameRate + 1);
      let l := lwr m_frameNumInFrameRate k l in
      Some (tt, if mem t m_frameRate <=? k then lwr m_frameNumInFrameRate 0 (lwr m_totalFrameSizeInFrameRate 0 l) else l)
    else Some (tt, l).

Definition out_packet (gv : encode_env) (p : pkt_env) : cmd loop res :=
  t <-- trans ;;
  cmodify (put_trans (clear m_setDynamicEncode t));;;
  count_size (ap_size (pk_packet p));;;
  cmodify (if flag m_tcaeOn t && flag m_tcae t then log (TcaeSize (ap_size (pk_packet p))) else fun l => l);;;
  r <-- write_packet gv p ;;
  match r with
  | None => cret Exit
  | Some r => if r <? 0 then cret (Return r)
              else cmodify (lwr m_nLastPktSize (ap_size (pk_packet p)));;; cret (Next r)
  end.

Fixpoint out_packets (gv : encode_env) (ps : list pkt_env) (e : Z) : cmd loop res :=
  match ps with
  | [] => cret (Next e)
  | p :: ps => r <-- out_packet gv p ;; match r with Next _ => out_packets gv ps e | _ => cret r end
  end.

Fixpoint out_pictures (ps : list (bytes * conn_env)) : cmd loop res :=
  match ps with
  | [] => cret (Next 0)
  | (d, ce) :: ps =>
      mux <-- cgets mux_of ;;
      r <-- (match mux with Some mux => on_mux (mux_write2 mux ce d AV_CODEC_ID_MJPEG) | None => cret 0 end) ;;
      if r <? 0 then cret (Return r) else out_pictures ps
  end.

(** The screen capture: every so many frames. *)
Definition capture (fe : frame_env) : cmd loop res :=
  t <-- trans ;; l <-- cget ;;
  if bool_decide (is_Some (m_MJPEGEncoder l)) && (0 <? mem t m_screenCaptureInterval)
     && (Z.rem (l_mem l m_countScreenCapture) (mem t m_screenCaptureInterval) =? 0) then
    cmodify (log MjpegEncode);;;
    if fe_mwrite fe <? 0 then cret (Return (fe_mwrite fe))
    else
      r <-- out_pictures (fe_pictures fe) ;;
      match r with Next _ => cmodify (lwr m_countScreenCapture 0);;; cret (Next 0) | _ => cret r end
  else cret (Next 0).

Definition add_stream (fe : frame_env) : cmd loop Z := fun l =>
  match mux_of l with Some _ => on_mux addStream l | None => Some (fe_add fe, l) end.

(** A frame goes to the encoder; the stream is added to the multiplexer with the
    first one. *)
Definition encode_frame (fe : frame_env) : cmd loop res :=
  s <-- dynamicSetEncParameters (fe_dyn fe) ;;
  l <-- cget ;;
  (if lflag m_isFramerateChange l then updateDynamicChangedFramerate else cret tt);;;
  cmodify (log (Encode s.1 s.2));;;
  if fe_write fe <? 0 then cret (Return (fe_write fe))
  else match m_mStreamFound l with
       | None => cundef
       | Some true => cret (Next 0)
       | Some false =>
           r <-- add_stream fe ;;
           if r <? 0 then cret (Return r)
           else cmodify (fun l => set_l_stream (Some true) (m_mDecoders l) (m_mFilters l) l);;; cret (Next 0)
       end.

(** One turn of the frame loop; without a frame the encoder is flushed. *)
Definition out_turn (gv : encode_env) (fr : bool) (fe : frame_env) : cmd loop res :=
  r <-- (if fr then encode_frame fe else cmodify (log EncodeFlush);;; cret (Next 0)) ;;
  match r with
  | Next _ =>
      r <-- out_packets gv (fe_packets fe) (fe_end fe) ;;
      match r with
      | Next e =>
          if e =? AVERROR EIO then cret (Return e)
          else
            r <-- capture fe ;;
            match r with
            | Next _ =>
                t <-- trans ;; l <-- cget ;;
                (if flag m_screenCaptureFlag t then
                   n <-- clift (int_chk (l_mem l m_countScreenCapture + 1)) ;; cmodify (lwr m_countScreenCapture n)
                 else cret tt);;;
                cret (Next 0)
            | _ => cret r
            end
      | _ => cret r
      end
  | _ => cret r
  end.

Fixpoint out_turns (gv : encode_env) (flush : bool) (fes : list frame_env) (last : frame_env) : cmd loop res :=
  match fes with
  | [] => if flush then out_turn gv false last else cret (Next 0)
  | fe :: fes => r <-- out_turn gv true fe ;; match r with Next _ => out_turns gv flush fes last | _ => cret r end
  end.

(** The frames the filter gives, the answers for the flush, and the filter's
    last error. *)
Record output_env := { oe_codec : bytes -> Z; oe_frames : list frame_env; oe_flush : frame_env; oe_error : Z }.

(** [doOutput]: [None] when the process exits.  Filters that failed are erased in
    the middle of the loop over them, which has no defined continuation. *)
Definition doOutput (gv : encode_env) (flush : bool) (oe : output_env) : cmd loop (option Z) := fun l =>
  match m_mFilters l with
  | None => Some (Some 0, l)
  | Some fi =>
      l ← restart_encoders l; l ← make_encoder (oe_codec oe) fi l; l ← make_mjpeg l;
      '(r, l) ← out_turns gv flush (oe_frames oe) (oe_flush oe) l;
      match r with
      | Exit => Some (None, l)
      | Return r => Some (Some r, l)
      | Next _ => if bool_decide (oe_frames oe = []) && (oe_error oe =? AVERROR EIO) then None else Some (Some 0, l)
      end
  end.

(** ** Input *)

(** A frame the decoder gives: its surface, whether the hardware context can be
    referenced, and the filter's answer. *)
Record dec_frame := { df_payload : payload; df_ref : bool; df_push : Z }.

(** The answers during [decode]: parsing of the frame rate, the best format of an
    encoder, the hardware context and its surface, and the frames. *)
Record decode_env := {
  de_rate : Z; de_format : option bytes -> Z; de_hwctx : bool; de_surface : Z; de_frames : list dec_frame
}.

(** The encoder whose formats [decode] asks for; without a plug-in the variable
    still holds the frame rate. *)
Definition format_name (t : CTransCoder) : option bytes :=
  let rate := getOutOptVal (b "r") (b "framerate") t in
  let pick vaapi qsv :=
    if flag m_vaapiPlugin t then Some (default vaapi (getOutOptVal (b "c") (b "codec") t))
    else if flag m_qsvPlugin t then Some (default qsv (getOutOptVal (b "c") (b "codec") t))
    else rate in
  let c := mem t m_nCodec in
  if (c =? AV_CODEC_ID_H264) || (c =? 0) then pick (b "h264_vaapi") (b "h264_qsv")
  else if c =? AV_CODEC_ID_HEVC then pick (b "hevc_vaapi") (b "hevc_qsv")
  else if c =? AV_CODEC_ID_AV1 then pick (b "av1_vaapi") (b "av1_qsv")
  else rate.

(** A filter for the decoder's pictures, or for the size asked for. *)
Definition make_filter (de : decode_env) (size : Z * Z) (t : CTransCoder) : cmd loop Z := fun l =>
  if bool_decide (is_Some (getOutOptVal (b "r") (b "framerate") t)) && (de_rate de <? 0) then Some (de_rate de, l)
  else if de_format de (format_name t) <? 0 then Some (-1, l)
  else
    let size := if flag m_isResolutionChange t then (mem t m_newWidth, mem t m_newHeight) else size in
    let fi := {| fi_width := size.1; fi_height := size.2;
                 fi_threads := atoi_of (getOutOptVal (b "filter") (b "filter_threads") t) 0 |} in
    Some (0, set_l_stream (m_mStreamFound l) (Some size) (Some fi) l).

Definition portrait (w h : Z) : bool := w <? h.

(** The client's picture and the stream's are of the same orientation. *)
Definition same_orientation (size : Z * Z) (c : crop_info) : bool :=
  let o := portrait size.1 size.2 in
  let cl := portrait (client_rect_right c) (client_rect_bottom c) in
  (o && cl && (0 <? client_rect_right c)) || (negb o && negb cl && (0 <? client_rect_right c)).

Definition frame_crop (size : Z * Z) (c : crop_info) : option (Z * Z * Z * Z) :=
  if same_orientation size c
     && ((0 <=? crop_top c) && (0 <=? crop_bottom c) && (0 <=? crop_left c) && (0 <=? crop_right c))
     && ((crop_top c <? fb_rect_bottom c) && (crop_bottom c <? fb_rect_bottom c)
         && (crop_left c <? fb_rect_right c) && (crop_right c <? fb_rect_right c))
  then Some (crop_top c, crop_bottom c, crop_left c, crop_right c) else None.

(** The surface of a frame, by the demuxer's flags. *)
Definition frame_payload (va qsv vaapi : bool) (default : Z) (p : payload) : option payload :=
  if va then match p with
             | PVa id => Some (PVa (if vaapi && (id =? VA_INVALID_SURFACE) then default else id))
             | _ => None end
  else if qsv then match p with PMfx q => Some (PMfx q) | _ => None end
  else Some p.

Fixpoint push_frames (de : decode_env) (va qsv : bool) (fs : list dec_frame) : cmd loop Z :=
  match fs with
  | [] => cret 0
  | f :: fs =>
      t <-- trans ;; l <-- cget ;;
      size <-- clift (m_mDecoders l) ;;
      p <-- clift (frame_payload va qsv (flag m_vaapiPlugin t) (de_surface de) (df_payload f)) ;;
      if (va || qsv) && de_hwctx de && negb (df_ref f) then cret (AVERROR ENOMEM)
      else
        cmodify (log (Push {| fr_payload := p;
          fr_size := if (va || qsv) && (0 <? mem t m_buffer_width) && (0 <? mem t m_buffer_height) && flag m_isAlphaChannelMode t
                     then Some (mem t m_buffer_width, mem t m_buffer_height) else None;
          fr_crop := frame_crop size (m_crop l) |}));;;
        if df_push f <? 0 then cret (df_push f) else push_frames de va qsv fs
  end.

(** [decode] for the stream's decoder. *)
Definition decode (de : decode_env) : cmd loop Z :=
  t <-- trans ;; l <-- cget ;;
  size <-- clift (m_mDecoders l) ;;
  d <-- clift (demux_of l) ;;
  cmodify (if lflag m_isEncHWError l || flag m_isResolutionChange t then erase_filters else fun l => l);;;
  fi <-- cgets m_mFilters ;;
  r <-- (match fi with Some _ => cret 0 | None => make_filter de size t end) ;;
  if r <? 0 then cret r else push_frames de (dx_vasurface d) (dx_qsvsurface d) (de_frames de).

(** What the demuxer and the decoder answer, see [VideoDemux.readPacket];
    [ie_mcs] is the time of a frame at a rate. *)
Record input_env := {
  ie_wait : Z; ie_now : Z; ie_ref : Z; ie_image : va_image; ie_raw : bytes; ie_mcs : Z -> Z;
  ie_write : Z; ie_dec : decode_env
}.

(** The demuxer as the reader finds it: flags set through the streamer, and the
    runtime writer it shares with the multiplexer. *)
Definition demux_view (mcs : Z -> Z) (x : demux) (w : option IORuntimeWriter) (d : CIrrVideoDemux) : CIrrVideoDemux :=
  {| dm_pkt := dm_pkt d; dm_ctrl := dm_ctrl d; m_nPrevPts := m_nPrevPts d; m_totalWaitMcs := m_totalWaitMcs d;
     m_stop := m_stop d; m_notified := m_notified d; dm_renderfps := dx_renderfps x; dm_minfps := dm_minfps d;
     dm_frame_mcs := mcs (dx_framerate x); dm_vasurface := dx_vasurface x; dm_writer := w |}.

Definition read_input (ie : input_env) : cmd loop (Z * option read_packet) := fun l =>
  x ← demux_of l;
  '(r, p, d) ← readPacket (ie_wait ie) (ie_now ie) (ie_ref ie) (ie_image ie) (ie_raw ie)
                 (demux_view (ie_mcs ie) x (x_runtime (l_mux l)) (l_demux l));
  Some ((r, p), set_l_mux (set_x_runtime (dm_writer d) (l_mux l)) (set_l_demux d l)).

(** [newInputStream] of the video stream: a decoder for pictures of the
    streamer's size. *)
Definition newInputStream : cmd loop Z := fun l =>
  match m_mStreamFound l with
  | Some true => Some (0, l)
  | _ => s ← streamer (l_world l);
         Some (0, set_l_stream (Some false) (Some (m_nWidth s, m_nHeight s)) (m_mFilters l) l)
  end.

(** A valid crop whose client rectangle is new asks for a change of resolution. *)
Definition crop_resolution (size : Z * Z) : cmd loop unit := fun l =>
  let c := m_crop l in
  if (valid_crop c =? 1) && same_orientation size c
     && (negb (client_rect_right c =? fb_rect_right c) && negb (l_mem l m_prev_client_right =? client_rect_right c)
         || negb (client_rect_bottom c =? fb_rect_bottom c) && negb (l_mem l m_prev_client_bottom =? client_rect_bottom c))
  then
    t ← trans_of l;
    let l := put_trans (changeResolution (client_rect_right c) (client_rect_bottom c) t).2 l in
    Some (tt, lwr m_prev_client_right (client_rect_right c) (lwr m_prev_client_bottom (client_rect_bottom c) l))
  else Some (tt, l).

Definition feed_input (l : loop) : loop :=
  match m_pWriter (l_mux l) with
  | Some w => set_l_mux (set_x_writer (Some (StreamWriter.feedVideoFrameFromInputStream w)) (l_mux l)) l
  | None => l
  end.

(** [processInput]; a display control is kept only when the packet was decoded. *)
Definition processInput (ie : input_env) : cmd loop Z :=
  cmodify feed_input;;;
  rp <-- read_input ie ;;
  if rp.1 <? 0 then
    dec <-- cgets m_mDecoders ;;
    (if (rp.1 =? AVERROR_EOF) && bool_decide (is_Some dec) then void (decode (ie_dec ie)) else cret tt);;;
    cret rp.1
  else
    fd <-- cgets m_mStreamFound ;;
    (match fd with None => newInputStream | Some _ => cret 0 end);;;
    dec <-- cgets m_mDecoders ;;
    match dec with
    | None => cret rp.1
    | Some size =>
        crop_resolution size;;;
        if ie_write ie <? 0 then cret (ie_write ie)
        else
          r <-- decode (ie_dec ie) ;;
          if r <? 0 then cret r
          else
            cmodify (fun l => match rp.2 ≫= rp_ctrl with
                              | Some c => set_l_disp (m_DispCtrlQueue l ++ [c]) l
                              | None => l end);;;
            cret r
    end.

(** ** The thread *)

Record run_env := {
  re_gv : encode_env; re_c1 : conn_env; re_c2 : conn_env; re_input : input_env;
  re_output : output_env; re_flush : output_env; re_clock : Z
}.

(** The gate: whether the turn goes on.  The flag is read before the clients are
    served. *)
Definition gate (re : run_env) : cmd loop bool := fun l =>
  match mux_of l with
  | None => Some (true, l)
  | Some mux =>
      let clientNum := irr_stream_getClientNum (l_world l) in
      let off := negb (irr_stream_getEncodeFlag (l_world l)) && negb (isEncodeEnableByEnv (re_gv re)) in
      if isEncodeUnconditionally (re_gv re) then Some (true, l)
      else
        '(n, l) ← (if (clientNum <=? 0) || ((0 <? clientNum) && off)
                   then on_mux (checkNewConn mux (re_c1 re) (re_c2 re)) l
                   else Some (clientNum, l));
        Some (negb (n <=? 0) && negb off, l)
  end.

Definition stop_capture (l : loop) : option loop :=
  t ← trans_of l;
  Some (if negb (flag m_screenCaptureFlag t) && bool_decide (is_Some (m_MJPEGEncoder l))
        then put_trans (wr m_screenCaptureInterval 0 t) (lwr m_countScreenCapture 0 (set_l_enc (l_encoder l) None l))
        else l).

(** [run]: [true] when the process exits. *)
Definition run (re : run_env) : cmd loop bool :=
  go <-- gate re ;;
  if negb go then cret false
  else
    (fun l => l ← stop_capture l; Some (tt, l));;;
    ret <-- processInput (re_input re) ;;
    if ret <? 0 then
      if ret =? AVERROR_STREAM_NOT_FOUND then cret false
      else
        r <-- (if ret =? AVERROR_EOF then doOutput (re_gv re) true (re_output re) else cret (Some 0)) ;;
        match r with
        | None => cret true
        | Some _ => cmodify (lwr m_stopping 1);;; cret false
        end
    else
      r <-- doOutput (re_gv re) false (re_output re) ;;
      match r with
      | None => cret true
      | Some r =>
          (if (r <? 0) && ((r =? AVERROR_EXIT) || (r =? AVERROR EIO))
           then cmodify (lwr m_isEncHWError 1);;; hwErrorCount (re_clock re) else cret tt);;;
          cret false
      end.

(** A round of the thread: [true] when it ends, after a flush. *)
Definition thread_round (re : run_env) : cmd loop bool :=
  ex <-- run re ;;
  if (ex : bool) then cret true
  else
    l <-- cget ;;
    if lflag m_stopping l then doOutput (re_gv re) true (re_flush re);;; cret true
    else cret false.

End Loop.

(** ** Facts about the state *)

Lemma trans_of_inv l t : trans_of l = Some t -> exists s, streamer (l_world l) = Some s /\ m_pTrans s = Some t.
Proof. intros E. by apply bind_Some in E. Qed.

Lemma trans_put t t' l : trans_of l = Some t -> trans_of (put_trans t' l) = Some t'.
Proof. intros (s & Es & _)%trans_of_inv. unfold put_trans. rewrite Es. reflexivity. Qed.

Lemma trans_put_other {B} (f : loop -> B) t' l :
  (forall x, f (set_l_mux x l) = f l) -> f (put_trans t' l) = f l.
Proof. intros E. unfold put_trans. case_match; [apply E|done]. Qed.

Lemma mem_clear f g t : mem (clear f t) g = if decide (f = g) then 0 else mem t g.
Proof.
  unfold clear, flag. destruct (Z.eqb_spec (mem t f) 0) as [E|E]; cbn [negb].
  - by destruct (decide (f = g)) as [<-|].
  - by rewrite mem_wr.
Qed.

Lemma mem_clears fs : forall g t, mem (fold_left (fun t f => clear f t) fs t) g = if decide (g ∈ fs) then 0 else mem t g.
Proof.
  induction fs as [|f fs IH]; intros g t; cbn [fold_left].
  - by rewrite decide_False by set_solver.
  - rewrite IH, mem_clear. destruct (decide (g ∈ fs)) as [I|N].
    + by rewrite decide_True by set_solver.
    + destruct (decide (f = g)) as [->|Ne]; [by rewrite decide_True by set_solver|].
      by rewrite decide_False by set_solver.
Qed.

Lemma prop_clear f t : m_pOutProp (clear f t) = m_pOutProp t.
Proof. unfold clear. by destruct (flag f t). Qed.

Lemma prop_clears fs : forall t, m_pOutProp (fold_left (fun t f => clear f t) fs t) = m_pOutProp t.
Proof. induction fs as [|f fs IH]; intros t; [done|]. cbn [fold_left]. by rewrite IH, prop_clear. Qed.

(** Membership of given settings in a given list. *)
Ltac dec_mem := apply (bool_decide_unpack _); vm_compute; exact I.

(** ** Settings *)

(** The calls on the encoder for the rates that wait. *)
Definition rate_calls (t : CTransCoder) : list lcall :=
  (if flag m_setBitrate t then [SetBitrate (mem t m_bitrate)] else []) ++
  (if flag m_setMaxBitrate t then [SetMaxBitrate (mem t m_maxBitrate)] else []).

Definition tcae_off (t : CTransCoder) : Prop := flag m_tcaeOn t && flag m_tcae t = false.

Lemma flag_clear f g t : f <> g -> flag g (clear f t) = flag g t.
Proof. intros N. unfold flag. by rewrite mem_clear, decide_False. Qed.

Lemma trans_log c l : trans_of (log c l) = trans_of l.
Proof. done. Qed.

Lemma next_sei_run side l :
  next_sei side l = Some (if side then head (m_DispCtrlQueue l) else None, set_l_disp (tail (m_DispCtrlQueue l)) l).
Proof. unfold next_sei. destruct l as [? ? ? ? ? ? ? ? ? [|c q] ?]; by destruct side. Qed.

Lemma apply_rates_log t l : l_log (apply_rates t l) = l_log l ++ rate_calls t.
Proof.
  unfold apply_rates, rate_calls. destruct (flag m_setBitrate t), (flag m_setMaxBitrate t); cbn [log l_log app];
    rewrite <- ?(assoc_L (++)), ?app_nil_r; done.
Qed.

Lemma trans_apply t0 t l : trans_of (apply_framerate t0 (apply_rates t l)) = trans_of l.
Proof. unfold apply_framerate, apply_rates. by repeat case_match. Qed.

Lemma log_framerate t l : l_log (apply_framerate t l) = l_log l.
Proof. unfold apply_framerate. by case_match. Qed.

Definition frame_type (t : CTransCoder) : pict_type :=
  if flag m_forceKeyFrame t then PICTURE_I else if flag m_qsvPlugin t then PICTURE_P else PICTURE_NONE.

(** The rate predictor is there and switched on; it has a target for the next frame, and the bit rate that makes. *)
Definition predictor_on (t : CTransCoder) : bool := flag m_tcaeOn t && flag m_tcae t.
Definition predictor_sets (dy : dyn_env) (t : CTransCoder) : bool :=
  predictor_on t && (0 <? dy_target dy) && flag m_qsvPlugin t && negb (dy_logs_only dy).
Definition predicted (dy : dyn_env) (t : CTransCoder) : option Z := target_bitrate (mem t m_frameRate) (dy_target dy).

(** The calls on the encoder for a frame: with a target, low delay and the predicted rates; else the rates that wait, low
    delay being switched off where there is a predictor. *)
Definition frame_calls (dy : dyn_env) (t : CTransCoder) : list lcall :=
  if predictor_sets dy t then
    SetLowDelayBrc 1 :: match predicted dy t with
                        | Some br => if br =? 0 then [] else [SetBitrate br; SetMaxBitrate br]
                        | None => []
                        end
  else (if predictor_on t then [SetLowDelayBrc 0] else []) ++ rate_calls t.

(** A member after a frame. *)
Definition member_after (dy : dyn_env) (t : CTransCoder) (f : member) : Z :=
  if decide (f ∈ m_forceKeyFrame :: pending_settings) then 0
  else if predictor_sets dy t && bool_decide (f ∈ [m_bitrate; m_maxBitrate]) then default 0 (predicted dy t)
  else if predictor_sets dy t && bool_decide (f = m_setDynamicEncode) then 1
  else mem t f.

Lemma tcae_settings_run dy l t : trans_of l = Some t -> (predictor_sets dy t = true -> is_Some (predicted dy t)) -> exists t' l',
  tcae_settings dy l = Some (tt, l') /\ trans_of l' = Some t' /\ l_log l' ++ rate_calls t' = l_log l ++ frame_calls dy t /\
  m_DispCtrlQueue l' = m_DispCtrlQueue l /\ m_pOutProp t' = m_pOutProp t /\
  forall f, f ∉ [m_setBitrate; m_setMaxBitrate] ->
    mem t' f = if predictor_sets dy t && bool_decide (f ∈ [m_bitrate; m_maxBitrate]) then default 0 (predicted dy t)
               else if predictor_sets dy t && bool_decide (f = m_setDynamicEncode) then 1 else mem t f.
Proof.
  intros Et Hp. unfold tcae_settings, trans, cbind at 1. rewrite Et. cbn [mbind option_bind].
  unfold frame_calls, predictor_sets, predictor_on in *. destruct (flag m_tcaeOn t && flag m_tcae t); cbn [andb] in *; [|by exists t, l].
  destruct ((0 <? dy_target dy) && flag m_qsvPlugin t && negb (dy_logs_only dy)); cbn [andb] in *.
  - destruct (Hp eq_refl) as [br Eb]. unfold predicted in *. rewrite Eb. unfold cbind, cmodify, clift.
    eexists _, _. split; [reflexivity|]. split; [eapply trans_put; exact Et|].
    rewrite !trans_put_other by done. cbn [default]. split_and!; [|done|done|].
    + set (t2 := setMaxBitrate br (setBitrate br t)).
      assert (mem t2 m_setBitrate = br /\ mem t2 m_bitrate = br /\ mem t2 m_setMaxBitrate = br /\ mem t2 m_maxBitrate = br) as (E1 & E2 & E3 & E4) by done.
      unfold rate_calls, flag. rewrite E1, E2, E3, E4. cbn [log l_log]. rewrite <- (assoc_L (++)). f_equal. by destruct (br =? 0).
    + intros f N. unfold setMaxBitrate, setBitrate. rewrite !mem_wr. repeat case_decide; subst; repeat case_bool_decide; set_solver.
  - exists t, (log (SetLowDelayBrc 0) l). split_and!; try done. cbn [log l_log]. by rewrite <- (assoc_L (++)).
Qed.

(** What [dynamicSetEncParameters] does. *)
Lemma dynamic_set_any dy l t : trans_of l = Some t -> (predictor_sets dy t = true -> is_Some (predicted dy t)) -> exists t' l',
  dynamicSetEncParameters dy l =
    Some ((frame_type t, if dy_side dy then head (m_DispCtrlQueue l) else None), l') /\
  trans_of l' = Some t' /\ l_log l' = l_log l ++ frame_calls dy t /\
  m_DispCtrlQueue l' = tail (m_DispCtrlQueue l) /\ m_pOutProp t' = m_pOutProp t /\
  forall f, mem t' f = member_after dy t f.
Proof.
  intros Et Hp. pose (t1 := clear m_forceKeyFrame t). pose (l1 := put_trans t1 l).
  assert (trans_of l1 = Some t1) as E1 by (by eapply trans_put).
  assert (predictor_on t1 = predictor_on t) as Eo by (unfold predictor_on, t1; by rewrite !flag_clear).
  assert (predictor_sets dy t1 = predictor_sets dy t) as Es by (unfold predictor_sets; rewrite Eo; unfold t1; by rewrite !flag_clear).
  assert (predicted dy t1 = predicted dy t) as Er by (unfold predicted, t1; by rewrite mem_clear, decide_False).
  assert (frame_calls dy t1 = frame_calls dy t) as Ec.
  { unfold frame_calls. rewrite Es, Er, Eo. unfold rate_calls, t1. by rewrite !flag_clear, !mem_clear, !decide_False by done. }
  destruct (tcae_settings_run dy l1 t1 E1) as (t2 & l2 & Et2 & E2 & L2 & Q2 & P2 & M2); [by rewrite Es, Er|]. rewrite Es, Er in M2.
  pose (t3 := fold_left (fun t f => clear f t) pending_settings t2).
  pose (l3 := put_trans t3 (apply_framerate t2 (apply_rates t2 l2))).
  assert (apply_settings l2 = Some (tt, l3)) as Ea.
  { unfold apply_settings, trans, cbind. rewrite E2. reflexivity. }
  assert (m_DispCtrlQueue l3 = m_DispCtrlQueue l) as Eq.
  { unfold l3. rewrite trans_put_other by done. unfold apply_framerate, apply_rates.
    repeat case_match; cbn [lwr log m_DispCtrlQueue]; rewrite Q2; unfold l1; by rewrite trans_put_other. }
  exists t3, (set_l_disp (tail (m_DispCtrlQueue l)) l3). split_and!.
  - unfold dynamicSetEncParameters, trans at 1, cbind at 1. rewrite Et. cbn [mbind option_bind].
    unfold cbind at 1, cmodify at 1. cbn [mbind option_bind]. fold t1 l1. unfold cbind at 1. rewrite Et2.
    cbn [mbind option_bind]. unfold cbind at 1. rewrite Ea. cbn [mbind option_bind].
    unfold cbind, cret. rewrite next_sei_run, Eq. reflexivity.
  - change (trans_of l3 = Some t3). eapply trans_put. rewrite trans_apply. exact E2.
  - change (l_log l3 = l_log l ++ frame_calls dy t). unfold l3. rewrite trans_put_other by done.
    rewrite log_framerate, apply_rates_log, L2, Ec. unfold l1. by rewrite trans_put_other.
  - done.
  - unfold t3. rewrite prop_clears, P2. apply prop_clear.
  - intros f. unfold t3, member_after. rewrite mem_clears.
    destruct (decide (f ∈ pending_settings)) as [I|N]; [by rewrite decide_True by set_solver|].
    rewrite M2 by (intros I; apply N; unfold pending_settings; set_solver). unfold t1. rewrite mem_clear.
    destruct (decide (m_forceKeyFrame = f)) as [<-|Ne].
    + rewrite (decide_True (P := m_forceKeyFrame ∈ _)) by set_solver. by rewrite !bool_decide_eq_false_2, !andb_false_r by (done || set_solver).
    + by rewrite (decide_False (P := f ∈ _)) by set_solver.
Qed.

(** ... and without the rate predictor. *)
Lemma dynamic_set_run dy l t : trans_of l = Some t -> tcae_off t -> exists t' l',
  dynamicSetEncParameters dy l =
    Some ((frame_type t, if dy_side dy then head (m_DispCtrlQueue l) else None), l') /\
  trans_of l' = Some t' /\ l_log l' = l_log l ++ rate_calls t /\
  m_DispCtrlQueue l' = tail (m_DispCtrlQueue l) /\ m_pOutProp t' = m_pOutProp t /\
  forall f, mem t' f = if decide (f ∈ m_forceKeyFrame :: pending_settings) then 0 else mem t f.
Proof.
  intros Et Tc. assert (predictor_sets dy t = false) as Es by (unfold predictor_sets, predictor_on; unfold tcae_off in Tc; by rewrite Tc).
  destruct (dynamic_set_any dy l t Et) as (t' & l' & E & Et' & L & Q & P & M); [by rewrite Es|]. exists t', l'. split_and!; try done.
  - rewrite L. unfold frame_calls, predictor_on. rewrite Es. unfold tcae_off in Tc. by rewrite Tc.
  - intros f. rewrite M. unfold member_after. rewrite Es. done.
Qed.


(** ** The gate *)

(** While no client is connected, or none has started the stream, a turn
    of the thread only serves the clients: no packet is read, nothing is decoded,
    encoded or sent, and the state of the pipeline does not change, unless an
    environment variable forces the encoding. *)
Theorem idle_without_clients `{AvDict} re l r l' mux : mux_of l = Some mux ->
  isEncodeUnconditionally (re_gv re) = false ->
  (irr_stream_getEncodeFlag (l_world l) = false /\ isEncodeEnableByEnv (re_gv re) = false \/
   irr_stream_getClientNum (l_world l) <= 0 /\
   forall n x, checkNewConn mux (re_c1 re) (re_c2 re) (l_mux l) = Some (n, x) -> n <= 0) ->
  run re l = Some (r, l') ->
  r = false /\ exists x, l' = set_l_mux x l /\ sends [] (l_world l) (x_world x).
Proof.
  intros Em Eu C E. unfold run in E. apply cbind_inv in E as (go & l1 & Eg & E).
  unfold gate in Eg. rewrite Em, Eu in Eg. apply bind_Some in Eg as ([n l2] & En & [= <- <-]).
  assert (exists x, l2 = set_l_mux x l /\ sends [] (l_world l) (x_world x) /\
    (irr_stream_getClientNum (l_world l) <= 0 ->
      checkNewConn mux (re_c1 re) (re_c2 re) (l_mux l) = Some (n, x))) as (x & -> & Q & Hn).
  { destruct ((_ <=? 0) || _) eqn:Eb.
    - apply bind_Some in En as ([n1 x] & Ec & [= <- <-]). exists x. split_and!; [done|by eapply check_quiet|done].
    - injection En as <- <-. exists (l_mux l). split_and!; [by destruct l|reflexivity|].
      intros L%Z.leb_le. by rewrite L in Eb. }
  assert (negb (n <=? 0) && negb (negb (irr_stream_getEncodeFlag (l_world l)) &&
    negb (isEncodeEnableByEnv (re_gv re))) = false) as Ego.
  { destruct C as [[-> ->]|[L Cn]]; [by rewrite andb_false_r|].
    specialize (Cn n x (Hn L)). apply Z.leb_le in Cn. by rewrite Cn. }
  rewrite Ego in E. cbn [negb] in E. injection E as <- <-. split; [done|]. by exists x.
Qed.

(** ** Hardware errors *)

Fixpoint hw_errors (nows : list Z) (l : loop) : option loop :=
  match nows with
  | [] => Some l
  | now :: nows => '(_, l) ← hwErrorCount now l; hw_errors nows l
  end.

(** Errors at these times (in milliseconds) belong together. *)
Fixpoint burst (last : Z) (ts : list Z) : Prop :=
  match ts with
  | [] => True
  | t :: ts => last <= t < last + HW_ERROR_INTERVAL /\ burst t ts
  end.

(** The number of errors of a burst that began at [t0] at which the process is
    told to end: those more than 300 ms after the first, and those after ten
    repetitions. *)
Fixpoint kills (t0 n : Z) (ts : list Z) : nat :=
  match ts with
  | [] => 0
  | t :: ts => (if (HW_ERROR_DURATION_MAX <? t - t0) || (HW_ERROR_COUNT_MAX <? n) then 1 else 0) + kills t0 (n + 1) ts
  end.

Lemma lmem_lwr f v l g : l_mem (lwr f v l) g = if decide (f = g) then v else l_mem l g.
Proof.
  cbn [lwr l_mem]. destruct (decide (f = g)) as [<-|N]; [by rewrite fn_lookup_insert|by rewrite fn_lookup_insert_ne].
Qed.

Lemma lwr_log f v l : l_log (lwr f v l) = l_log l.
Proof. done. Qed.

Lemma lmem_log c l g : l_mem (log c l) g = l_mem l g.
Proof. done. Qed.

Lemma u64_small z : 0 <= z < 2 ^ 64 -> u64 z = z.
Proof. apply Z.mod_small. Qed.

(** An error of the same burst. *)
Lemma hw_error_again now t0 last n l :
  0 <= t0 <= last -> last <= now / 1000 < last + HW_ERROR_INTERVAL -> now / 1000 < 2 ^ 64 -> 0 <= n < INT_MAX ->
  l_mem l m_hwErrorOccurTimeInMs = last -> l_mem l m_hwErrorCnt = n -> l_mem l m_hwErrorDurationInMs = last - t0 ->
  exists l', hwErrorCount now l = Some (tt, l') /\
    l_mem l' m_hwErrorOccurTimeInMs = now / 1000 /\ l_mem l' m_hwErrorCnt = n + 1 /\
    l_mem l' m_hwErrorDurationInMs = now / 1000 - t0 /\
    l_log l' = l_log l ++ (if (HW_ERROR_DURATION_MAX <? now / 1000 - t0) || (HW_ERROR_COUNT_MAX <? n + 1) then [Kill] else []).
Proof.
  intros H0 Hb Hu Hn Eo Ec Ed. unfold hwErrorCount. rewrite Eo, Ec, Ed. unfold HW_ERROR_INTERVAL in Hb.
  unfold INT_MAX in Hn. rewrite u64_small by lia. rewrite (proj2 (Z.leb_gt _ _)) by (unfold HW_ERROR_INTERVAL; lia).
  rewrite int_chk_Some by (unfold INT_MIN, INT_MAX; lia). cbn [mbind option_bind].
  rewrite u64_small by lia. replace (last - t0 + (now / 1000 - last)) with (now / 1000 - t0) by lia.
  eexists. split; [reflexivity|]. rewrite !lmem_lwr, ?decide_False, ?decide_True by done.
  destruct ((_ <? _) || _); rewrite ?lmem_log, ?lmem_lwr, ?decide_False, ?decide_True, ?app_nil_r by done; done.
Qed.

Lemma burst_run t0 nows : forall n last l,
  0 <= t0 <= last -> burst last (map (fun now => now / 1000) nows) -> Forall (fun now => now / 1000 < 2 ^ 64) nows ->
  0 <= n -> n + Z.of_nat (length nows) <= INT_MAX ->
  l_mem l m_hwErrorOccurTimeInMs = last -> l_mem l m_hwErrorCnt = n -> l_mem l m_hwErrorDurationInMs = last - t0 ->
  exists l', hw_errors nows l = Some l' /\
    l_log l' = l_log l ++ repeat Kill (kills t0 (n + 1) (map (fun now => now / 1000) nows)).
Proof.
  induction nows as [|now nows IH]; intros n last l H0 B F Hn Hl Eo Ec Ed; cbn [map kills hw_errors burst length] in *.
  { exists l. by rewrite app_nil_r. }
  destruct B as [Hb B]. apply list.Forall_cons in F as [Hu F].
  destruct (hw_error_again now t0 last n l) as (l1 & E & Eo1 & Ec1 & Ed1 & L1); [lia..|done|done|done|].
  destruct (IH (n + 1) (now / 1000) l1) as (l2 & E2 & L2); [lia|done|done|lia|lia|done|done|done|].
  exists l2. rewrite E. cbn [mbind option_bind]. split; [done|].
  rewrite L2, L1, <- (assoc_L (++)), repeat_app. by case_match.
Qed.

(** The thread gives up on a hardware error that lasts.  In a burst of
    errors (each less than five seconds after the one before, the first at least
    five seconds after any earlier error) the process is told to end at exactly
    the errors that come more than 300 ms after the first one or that are more
    than its tenth repetition, and at no other. *)
Theorem hw_error_burst now0 nows l :
  let t0 := now0 / 1000 in
  let ts := map (fun now => now / 1000) nows in
  l_mem l m_hwErrorOccurTimeInMs + HW_ERROR_INTERVAL <= t0 -> 0 <= l_mem l m_hwErrorOccurTimeInMs ->
  t0 < 2 ^ 64 -> burst t0 ts -> Forall (fun now => now / 1000 < 2 ^ 64) nows ->
  Z.of_nat (length nows) <= INT_MAX ->
  exists l', hw_errors (now0 :: nows) l = Some l' /\ l_log l' = l_log l ++ repeat Kill (kills t0 1 ts).
Proof.
  intros t0 ts Hg H0 Hu B F Hl. unfold HW_ERROR_INTERVAL in Hg.
  pose (l1 := lwr m_hwErrorOccurTimeInMs t0 (lwr m_hwErrorDurationInMs 0 (lwr m_hwErrorCnt 0 l))).
  assert (hwErrorCount now0 l = Some (tt, l1)) as E.
  { unfold hwErrorCount. fold t0. rewrite u64_small by lia.
    rewrite (proj2 (Z.leb_le _ _)) by (unfold HW_ERROR_INTERVAL; lia). cbn [mbind option_bind].
    rewrite !lmem_lwr, ?decide_False, ?decide_True by done. reflexivity. }
  cbn [hw_errors]. rewrite E. cbn [mbind option_bind].
  destruct (burst_run t0 nows 0 t0 l1) as (l' & E' & L');
    [lia|done|done|lia|lia|unfold l1; rewrite !lmem_lwr; done..| |].
  { unfold l1. rewrite !lmem_lwr, ?decide_False, ?decide_True by done. lia. }
  exists l'. done.
Qed.

(** ** Restarts *)

(** Restarting leaves the settings alone, except for the requests themselves. *)
Lemma restart_run l t : trans_of l = Some t -> restart_asked t l = true -> exists l1 t1,
  restart_encoders l = Some l1 /\ trans_of l1 = Some t1 /\ l_encoder l1 = None /\ m_mFilters l1 = m_mFilters l /\
  m_pOutProp t1 = m_pOutProp t /\ l_log l1 = l_log l /\
  forall f, mem t1 f = if decide (f ∈ [m_isResolutionChange; m_isCodecChange; m_isProfileLevelChange]) then 0 else mem t f.
Proof.
  intros Et R. unfold restart_encoders. rewrite Et. cbn [mbind option_bind]. rewrite R.
  assert (trans_of (erase_encoders l) = Some (set_encoders ∅ t)) as E1.
  { unfold erase_encoders. change (trans_of (set_l_enc None (m_MJPEGEncoder l) l)) with (trans_of l).
    rewrite Et. by eapply trans_put. }
  assert (forall {B} (f : loop -> B), (forall e m x, f (set_l_mux x (set_l_enc e m l)) = f l) ->
    (forall e m, f (set_l_enc e m l) = f l) -> f (erase_encoders l) = f l) as Eo.
  { intros B f H1 H2. unfold erase_encoders. case_match; [|done]. rewrite trans_put_other; [done|].
    intros x. by rewrite H1, H2. }
  assert (l_encoder (erase_encoders l) = None) as En.
  { unfold erase_encoders. case_match; [|done]. by rewrite trans_put_other. }
  rewrite E1. cbn [mbind option_bind]. eexists _, _. split; [reflexivity|].
  split; [eapply trans_put; by destruct (lflag _ _)|].
  rewrite !trans_put_other by done. split_and!.
  - by destruct (lflag _ _).
  - destruct (lflag _ _); cbn [lwr m_mFilters]; by apply Eo.
  - by rewrite !prop_clear.
  - destruct (lflag _ _); rewrite ?lwr_log; by apply Eo.
  - intros f. rewrite !mem_clear. cbn [set_encoders mem].
    destruct (decide (f ∈ _)) as [I|N]; [|rewrite !decide_False by set_solver; done].
    repeat (case_decide; [done|]). set_solver.
Qed.

Lemma make_encoder_run `{AvDict} codec fi l t : trans_of l = Some t -> l_encoder l = None -> exists l2 t2,
  make_encoder codec fi l = Some l2 /\ trans_of l2 = Some t2 /\
  l_encoder l2 = Some {| en_name := encoder_name t; en_qsv := flag m_qsvPlugin t; en_width := fi_width fi;
                         en_height := fi_height fi; en_props := m_pOutProp t |} /\
  m_mFilters l2 = m_mFilters l /\ mem t2 = mem t /\ l_log l2 = l_log l.
Proof.
  intros Et En. unfold make_encoder. rewrite En, Et. cbn [mbind option_bind]. eexists _, _.
  split; [reflexivity|]. split; [by eapply trans_put|]. by rewrite !trans_put_other.
Qed.

Lemma resolution_asked w h t :
  RESOLUTION_WIDTH_MIN <= w <= RESOLUTION_WIDTH_MAX -> RESOLUTION_HEIGHT_MIN <= h <= RESOLUTION_HEIGHT_MAX ->
  (changeResolution w h t).2 = wr m_newHeight h (wr m_newWidth w (wr m_isResolutionChange 1 t)).
Proof.
  intros Hw Hh. unfold changeResolution.
  by rewrite !(proj2 (Z.ltb_ge _ _)) by lia.
Qed.

(** A bit rate set by a client does not survive a restart of the encoder.
    The encoder gets the rate with the next frame; after a change of resolution
    the new encoder is made from the options of the start alone and the next
    frame sets no rate on it, although the transcoder still holds the client's. *)
Theorem client_bitrate_forgotten `{AvDict} v w h codec fi dy dy2 l t :
  trans_of l = Some t -> tcae_off t -> v <> 0 ->
  RESOLUTION_WIDTH_MIN <= w <= RESOLUTION_WIDTH_MAX -> RESOLUTION_HEIGHT_MIN <= h <= RESOLUTION_HEIGHT_MAX ->
  exists r1 l1 t1 l2 l3 t3 e r4 l4,
    dynamicSetEncParameters dy (put_trans (setBitrate v t) l) = Some (r1, l1) /\ SetBitrate v ∈ l_log l1 /\
    trans_of l1 = Some t1 /\
    restart_encoders (put_trans (changeResolution w h t1).2 l1) = Some l2 /\
    make_encoder codec fi l2 = Some l3 /\ l_encoder l3 = Some e /\ en_props e = m_pOutProp t /\
    trans_of l3 = Some t3 /\ mem t3 m_bitrate = v /\
    dynamicSetEncParameters dy2 l3 = Some (r4, l4) /\ l_log l4 = l_log l1.
Proof.
  intros Et Tc Hv Hw Hh.
  assert (forall f, f ∉ [m_setBitrate; m_bitrate; m_setDynamicEncode] -> mem (setBitrate v t) f = mem t f) as Es.
  { intros f N. unfold setBitrate. by rewrite !mem_wr, !decide_False by set_solver. }
  assert (mem (setBitrate v t) m_setBitrate = v /\ mem (setBitrate v t) m_bitrate = v) as [Eb1 Eb2].
  { unfold setBitrate. by rewrite !mem_wr, ?decide_False, ?decide_True by done. }
  destruct (dynamic_set_run dy (put_trans (setBitrate v t) l) (setBitrate v t)) as (t1 & l1 & E1 & Et1 & L1 & _ & P1 & M1).
  { by eapply trans_put. } { unfold tcae_off, flag. by rewrite !Es by dec_mem. }
  pose (t2 := (changeResolution w h t1).2). pose (l1' := put_trans t2 l1).
  assert (t2 = wr m_newHeight h (wr m_newWidth w (wr m_isResolutionChange 1 t1))) as E2 by (by apply resolution_asked).
  destruct (restart_run l1' t2) as (l2 & t2' & R & Et2 & En2 & _ & P2 & L2 & M2).
  { by eapply trans_put. } { unfold restart_asked, flag. rewrite E2, !mem_wr, ?decide_False, ?decide_True by done.
    by rewrite orb_true_r. }
  destruct (make_encoder_run codec fi l2 t2' Et2 En2) as (l3 & t3 & E3 & Et3 & En3 & _ & M3 & L3).
  assert (forall f, f ∉ [m_newHeight; m_newWidth; m_isResolutionChange; m_isCodecChange; m_isProfileLevelChange] ->
    mem t3 f = mem t1 f) as M31.
  { intros f N. rewrite M3, M2, decide_False by set_solver. rewrite E2. by rewrite !mem_wr, !decide_False by set_solver. }
  destruct (dynamic_set_run dy2 l3 t3 Et3) as (t4 & l4 & E4 & _ & L4 & _).
  { unfold tcae_off, flag. rewrite !M31 by dec_mem. rewrite !M1, !decide_False by dec_mem.
    by rewrite !Es by dec_mem. }
  eexists _, l1, t1, l2, l3, t3, _, _, l4. split_and!; [exact E1| |done|exact R|exact E3|exact En3| |done| |exact E4|].
  - rewrite L1. apply elem_of_app. right. unfold rate_calls, flag. rewrite Eb1, Eb2.
    by rewrite (proj2 (Z.eqb_neq _ _) Hv); left.
  - cbn [en_props]. rewrite P2, E2. exact P1.
  - rewrite M31 by dec_mem. by rewrite M1, decide_False by dec_mem.
  - rewrite L4, L3, L2. unfold l1'. rewrite trans_put_other by done. unfold rate_calls, flag.
    rewrite !M31 by dec_mem. by rewrite !M1, !decide_True, app_nil_r by dec_mem.
Qed.

(** ** A change of resolution *)

(** The pipeline's objects. *)
Definition pipeline (l : loop) : option filter_t * option encoder_t := (m_mFilters l, l_encoder l).

Definition preserves {A} (m : cmd loop A) : Prop := forall l a l', m l = Some (a, l') -> pipeline l' = pipeline l.

Lemma preserves_ret {A} (a : A) : preserves (cret a).
Proof. by intros l x l' [= _ <-]. Qed.
Lemma preserves_undef {A} : preserves (@cundef loop A).
Proof. by intros l x l' E. Qed.
Lemma preserves_get : preserves cget.
Proof. by intros l x l' [= _ <-]. Qed.
Lemma preserves_gets {A} (f : loop -> A) : preserves (cgets f).
Proof. by intros l x l' [= _ <-]. Qed.
Lemma preserves_modify f : (forall l, pipeline (f l) = pipeline l) -> preserves (cmodify f).
Proof. intros Hf l x l' [= _ <-]. apply Hf. Qed.
Lemma preserves_lift {A} (o : option A) : preserves (clift o).
Proof. intros l x l' E. unfold clift in E. by destruct o; simplify_eq/=. Qed.
Lemma preserves_bind {A B} (m : cmd loop A) (f : A -> cmd loop B) :
  preserves m -> (forall a, preserves (f a)) -> preserves (cbind f m).
Proof. intros Hm Hf l b l' (a & l1 & E1 & E2)%cbind_inv. rewrite (Hf a _ _ _ E2). by eapply Hm. Qed.
Lemma preserves_on_mux {A} (op : cmd mux_state A) : preserves (on_mux op).
Proof. intros l x l' E. apply bind_Some in E as ([r x1] & _ & E). by simplify_eq. Qed.
Lemma preserves_trans : preserves trans.
Proof. intros l x l' E. apply bind_Some in E as (t & _ & E). by simplify_eq. Qed.

Lemma pipeline_put t l : pipeline (put_trans t l) = pipeline l.
Proof. by apply trans_put_other. Qed.

Create HintDb pipe.
#[export] Hint Resolve preserves_ret preserves_undef preserves_get preserves_gets preserves_lift preserves_on_mux
  preserves_trans pipeline_put : pipe.

Ltac preserves_tac := repeat first
  [ progress auto with pipe
  | apply preserves_bind; [|intros ?]
  | apply preserves_modify; intros ?; first [reflexivity | apply pipeline_put | by repeat case_match]
  | case_match ].

Lemma preserves_count n : preserves (count_size n).
Proof.
  intros l x l' E. unfold count_size in E. apply bind_Some in E as (t & _ & E). apply bind_Some in E as (d & _ & E).
  case_match; [by simplify_eq|]. case_match; [|by simplify_eq]. apply bind_Some in E as (k & _ & E). simplify_eq.
  by case_match.
Qed.

Lemma preserves_dyn dy : preserves (dynamicSetEncParameters dy).
Proof.
  unfold dynamicSetEncParameters, tcae_settings, apply_settings. preserves_tac.
  - apply preserves_modify. intros l. unfold apply_rates. by repeat case_match.
  - apply preserves_modify. intros l. unfold apply_framerate. by repeat case_match.
  - intros l x l' E. rewrite next_sei_run in E. by simplify_eq.
Qed.
#[export] Hint Resolve preserves_count preserves_dyn : pipe.

Lemma preserves_packets gv ps e : preserves (out_packets gv ps e).
Proof.
  induction ps as [|p ps IH]; cbn [out_packets]; [auto with pipe|].
  apply preserves_bind; [|intros []; auto with pipe]. unfold out_packet. preserves_tac.
  intros l x l' E. unfold write_packet in E. case_match; [by eapply preserves_on_mux|by simplify_eq].
Qed.

Lemma preserves_pictures ps : preserves (out_pictures ps).
Proof. induction ps as [|[d ce] ps IH]; cbn [out_pictures]; preserves_tac. Qed.
#[export] Hint Resolve preserves_packets preserves_pictures : pipe.

Lemma preserves_encode fe : preserves (encode_frame fe).
Proof.
  unfold encode_frame, updateDynamicChangedFramerate. preserves_tac.
  intros l x l' E. unfold add_stream in E. case_match; [by eapply preserves_on_mux|by simplify_eq].
Qed.

Lemma preserves_capture fe : preserves (capture fe).
Proof. unfold capture. preserves_tac. Qed.
#[export] Hint Resolve preserves_encode preserves_capture : pipe.

Lemma preserves_turns gv flush fes last : preserves (out_turns gv flush fes last).
Proof.
  assert (forall fr fe, preserves (out_turn gv fr fe)) as Ht by (intros fr fe; unfold out_turn; preserves_tac).
  induction fes as [|fe fes IH]; cbn [out_turns]; preserves_tac.
Qed.

Lemma encoder_name_same `{AvDict} t t' : m_pOutProp t' = m_pOutProp t ->
  (forall f, f ∈ [m_qsvPlugin; m_vaapiPlugin; m_nCodec] -> mem t' f = mem t f) -> encoder_name t' = encoder_name t.
Proof.
  intros Ep Em. unfold encoder_name, getOutOptVal, flag. rewrite Ep, !Em by set_solver. done.
Qed.

(** After an output with a restart asked for, the encoder is a new one for the
    filter's pictures. *)
Lemma output_restarts `{AvDict} gv flush oe l r l' fi t :
  doOutput gv flush oe l = Some (r, l') -> m_mFilters l = Some fi -> trans_of l = Some t -> restart_asked t l = true ->
  m_mFilters l' = Some fi /\
  l_encoder l' = Some {| en_name := encoder_name t; en_qsv := flag m_qsvPlugin t; en_width := fi_width fi;
                         en_height := fi_height fi; en_props := m_pOutProp t |}.
Proof.
  intros E Ef Et R. unfold doOutput in E. rewrite Ef in E.
  destruct (restart_run l t Et R) as (l1 & t1 & E1 & Et1 & En1 & Ef1 & P1 & _ & M1).
  rewrite E1 in E. cbn [mbind option_bind] in E.
  destruct (make_encoder_run (oe_codec oe) fi l1 t1 Et1 En1) as (l2 & t2 & E2 & _ & En2 & Ef2 & _).
  rewrite E2 in E. cbn [mbind option_bind] in E. apply bind_Some in E as (l3 & E3 & E).
  apply bind_Some in E as ([r4 l4] & E4 & E). apply preserves_turns in E4.
  assert (pipeline l3 = pipeline l2) as E32.
  { unfold make_mjpeg in E3. apply bind_Some in E3 as (t3 & _ & E3). simplify_eq. by destruct (_ && _). }
  assert (pipeline l' = pipeline l2) as Ep.
  { rewrite <- E32, <- E4. repeat case_match; by simplify_eq. }
  unfold pipeline in Ep. rewrite En2, Ef2, Ef1, Ef in Ep. injection Ep as -> ->. split; [done|].
  assert (encoder_name t1 = encoder_name t) as ->.
  { apply encoder_name_same; [done|]. intros f I. rewrite M1. rewrite !elem_of_cons, elem_of_nil in I.
    by destruct I as [-> | [-> | [-> | []]]]. }
  unfold flag. by rewrite P1, M1, decide_False by dec_mem.
Qed.

Lemma clift_inv {S A} (o : option A) (s : S) a s' : clift o s = Some (a, s') -> o = Some a /\ s' = s.
Proof. unfold clift. destruct o; [|done]. by intros [= <- <-]. Qed.

Lemma trans_inv l t l' : trans l = Some (t, l') -> trans_of l = Some t /\ l' = l.
Proof. intros E. apply bind_Some in E as (t1 & -> & [= <- <-]). done. Qed.

(** Frames are pushed without a change of state. *)
Lemma push_frames_state de va qsv fs : forall l r l', push_frames de va qsv fs l = Some (r, l') ->
  l_mux l' = l_mux l /\ l_mem l' = l_mem l /\ pipeline l' = pipeline l.
Proof.
  induction fs as [|f fs IH]; intros l r l' E; cbn [push_frames] in E; [by injection E as _ <-|].
  apply cbind_inv in E as (t & l1 & [_ ->]%trans_inv & E). apply cbind_inv in E as (l1 & l2 & [= <- <-] & E).
  apply cbind_inv in E as (sz & l1 & [_ ->]%clift_inv & E). apply cbind_inv in E as (p1 & l1 & [_ ->]%clift_inv & E).
  case_match; [by injection E as _ <-|]. apply cbind_inv in E as (u & l1 & [= _ <-] & E).
  case_match; [by injection E as _ <-|]. by apply IH in E.
Qed.

(** Decoding with a change of resolution asked for makes a filter of the new
    size. *)
Lemma decode_resizes `{AvDict} de l r l' t : decode de l = Some (r, l') -> 0 <= r ->
  trans_of l = Some t -> flag m_isResolutionChange t = true ->
  l_mux l' = l_mux l /\ l_mem l' = l_mem l /\
  exists fi, m_mFilters l' = Some fi /\ fi_width fi = mem t m_newWidth /\ fi_height fi = mem t m_newHeight.
Proof.
  intros E Hr Et Ef. unfold decode in E. apply cbind_inv in E as (t0 & l0 & [Et0 ->]%trans_inv & E).
  rewrite Et in Et0. injection Et0 as <-. apply cbind_inv in E as (l0 & l1 & [= <- <-] & E).
  apply cbind_inv in E as (size & l0 & [_ ->]%clift_inv & E). apply cbind_inv in E as (d & l0 & [_ ->]%clift_inv & E).
  rewrite Ef, orb_true_r in E. apply cbind_inv in E as (u & l1 & [= _ <-] & E).
  apply cbind_inv in E as (fi & l1 & [= <- <-] & E). cbn [erase_filters set_l_stream m_mFilters] in E.
  apply cbind_inv in E as (rf & l1 & E1 & E). unfold make_filter in E1. rewrite Ef in E1.
  destruct (_ && _) eqn:Ea in E1; [injection E1 as <- <-; apply andb_prop in Ea as [_ Ea]; rewrite Ea in E|].
  { injection E as <- _. apply Z.ltb_lt in Ea. lia. }
  destruct (de_format _ _ <? 0) in E1; [injection E1 as <- <-; injection E as <- _; lia|]. injection E1 as <- <-. cbn [Z.ltb Z.compare] in E.
  apply push_frames_state in E as (-> & -> & Ep). unfold pipeline in Ep. injection Ep as Ep _. rewrite Ep.
  split_and!; [done|done|]. by eexists.
Qed.

Lemma read_input_state ie l rp l' : read_input ie l = Some (rp, l') ->
  l_world l' = l_world l /\ m_crop l' = m_crop l /\ m_mStreamFound l' = m_mStreamFound l /\ m_mDecoders l' = m_mDecoders l.
Proof.
  intros E. unfold read_input in E. apply bind_Some in E as (x & _ & E).
  apply bind_Some in E as ([[r p] d] & _ & E). by simplify_eq.
Qed.

Lemma feed_input_state l : l_world (feed_input l) = l_world l /\ m_crop (feed_input l) = m_crop l /\
  m_mStreamFound (feed_input l) = m_mStreamFound l /\ m_mDecoders (feed_input l) = m_mDecoders l.
Proof. unfold feed_input. by case_match. Qed.

Lemma crop_off size l : valid_crop (m_crop l) <> 1 -> crop_resolution size l = Some (tt, l).
Proof. intros N%Z.eqb_neq. unfold crop_resolution. by rewrite N. Qed.

(** The stream's decoder before [decode]: that of an earlier packet, or a new one. *)
Lemma stream_known l : m_mStreamFound l = None \/ is_Some (m_mDecoders l) -> forall r l',
  (match m_mStreamFound l with None => newInputStream | Some _ => cret 0 end) l = Some (r, l') ->
  l_world l' = l_world l /\ m_crop l' = m_crop l /\ is_Some (m_mDecoders l').
Proof.
  intros Hd r l' E. destruct (m_mStreamFound l) as [f|] eqn:Ef.
  - injection E as _ <-. by destruct Hd.
  - unfold newInputStream in E. rewrite Ef in E. apply bind_Some in E as (s & _ & E). simplify_eq.
    split_and!; [done|done|by eexists].
Qed.

Lemma input_resizes `{AvDict} ie l r l' t : processInput ie l = Some (r, l') -> 0 <= r ->
  trans_of l = Some t -> flag m_isResolutionChange t = true -> valid_crop (m_crop l) <> 1 ->
  m_mStreamFound l = None \/ is_Some (m_mDecoders l) ->
  trans_of l' = Some t /\
  exists fi, m_mFilters l' = Some fi /\ fi_width fi = mem t m_newWidth /\ fi_height fi = mem t m_newHeight.
Proof.
  intros E Hr Et Ef Hc Hd. unfold processInput in E. apply cbind_inv in E as (u & l0 & [= _ <-] & E).
  destruct (feed_input_state l) as (W0 & C0 & F0 & D0).
  apply cbind_inv in E as (rp & l1 & E1 & E). apply read_input_state in E1 as (W1 & C1 & F1 & D1).
  rewrite W0 in W1. rewrite C0 in C1. rewrite F0 in F1. rewrite D0 in D1.
  destruct (rp.1 <? 0) eqn:Er.
  { apply cbind_inv in E as (dec & l2 & [= <- <-] & E). apply cbind_inv in E as (v & l2 & _ & E).
    injection E as <- _. apply Z.ltb_lt in Er. lia. }
  apply cbind_inv in E as (fd & l2 & [= <- <-] & E). apply cbind_inv in E as (n & l2 & E2 & E).
  apply stream_known in E2 as (W2 & C2 & [size D2]); [|by rewrite F1, D1].
  apply cbind_inv in E as (dec & l3 & [= <- <-] & E). rewrite D2 in E.
  apply cbind_inv in E as (v & l3 & E3 & E). rewrite crop_off in E3 by (by rewrite C2, C1). injection E3 as _ <-.
  destruct (ie_write ie <? 0) eqn:Ew; [injection E as <- _; apply Z.ltb_lt in Ew; lia|].
  apply cbind_inv in E as (r1 & l4 & E4 & E). destruct (r1 <? 0) eqn:E1r.
  { injection E as <- _. apply Z.ltb_lt in E1r. lia. }
  apply Z.ltb_ge in E1r. apply cbind_inv in E as (v1 & l5 & [= _ <-] & [= _ <-]).
  assert (trans_of l2 = Some t) as Et2 by (unfold trans_of; by rewrite W2, W1).
  apply (decode_resizes _ _ _ _ t) in E4 as (M4 & _ & fi & E4 & Ewd & Ehd); [|done|done|done].
  assert (trans_of l4 = Some t) as Et4 by (unfold trans_of, l_world; by rewrite M4).
  destruct (rp.2 ≫= rp_ctrl); (split; [exact Et4|]); by exists fi.
Qed.

(** C17. A change of resolution takes effect with the next packet.  Once a
    client has asked for it, and no valid crop asks for another one, the next
    packet that is decoded makes a filter of the new size and the output that
    follows makes a new encoder for that size, with the codec, the plug-in and the
    options of the transcoder, whatever the clients and the encoder do meanwhile. *)
Theorem resolution_change_takes_effect `{AvDict} ie gv flush oe l r l1 r2 l2 t :
  trans_of l = Some t -> mem t m_isResolutionChange <> 0 -> valid_crop (m_crop l) <> 1 ->
  m_mStreamFound l = None \/ is_Some (m_mDecoders l) ->
  processInput ie l = Some (r, l1) -> 0 <= r -> doOutput gv flush oe l1 = Some (r2, l2) ->
  exists fi, m_mFilters l2 = Some fi /\ fi_width fi = mem t m_newWidth /\ fi_height fi = mem t m_newHeight /\
    l_encoder l2 = Some {| en_name := encoder_name t; en_qsv := flag m_qsvPlugin t; en_width := mem t m_newWidth;
                           en_height := mem t m_newHeight; en_props := m_pOutProp t |}.
Proof.
  intros Et Hf Hc Hd Ei Hr Eo.
  assert (flag m_isResolutionChange t = true) as Ef by (unfold flag; by rewrite (proj2 (Z.eqb_neq _ _) Hf)).
  destruct (input_resizes _ _ _ _ _ Ei Hr Et Ef Hc Hd) as (Et1 & fi & Efi & Ew & Eh).
  destruct (output_restarts _ _ _ _ _ _ _ _ Eo Efi Et1) as [E2 En]; [by unfold restart_asked; rewrite Ef, orb_true_r|].
  exists fi. by rewrite En, Ew, Eh.
Qed.

(** ** The screen capture *)

(** Without the second server a capture fails on its first picture, before the
    frame counter is reset: the next frame is captured again. *)
Theorem capture_without_second_server fe l t m q d ce ps : trans_of l = Some t -> mux_of l = Some (m, 0) ->
  m_MJPEGEncoder l = Some q -> 0 < mem t m_screenCaptureInterval ->
  Z.rem (l_mem l m_countScreenCapture) (mem t m_screenCaptureInterval) = 0 ->
  0 <= fe_mwrite fe -> fe_pictures fe = (d, ce) :: ps ->
  capture fe l = Some (Return (-1), log MjpegEncode l).
Proof.
  intros Et Em Ej Hi Hc Hw Ep. unfold capture, trans, cbind at 1. rewrite Et. cbn [mbind option_bind].
  unfold cbind at 1, cget at 1. cbn [mbind option_bind]. rewrite Ej, Hc. rewrite (proj2 (Z.ltb_lt _ _) Hi).
  rewrite bool_decide_true by (by eexists). cbn [andb Z.eqb]. unfold cbind at 1, cmodify at 1. cbn [mbind option_bind].
  rewrite (proj2 (Z.ltb_ge _ _) Hw), Ep. unfold cbind at 1. cbn [out_pictures]. unfold cbind at 1, cgets at 1.
  cbn [mbind option_bind]. change (mux_of (log MjpegEncode l)) with (mux_of l). rewrite Em. by destruct l.
Qed.

(** ** A concrete thread *)

Definition no_crop : crop_info :=
  {| client_rect_right := 0; client_rect_bottom := 0; fb_rect_right := 0; fb_rect_bottom := 0;
     crop_top := 0; crop_bottom := 0; crop_left := 0; crop_right := 0; valid_crop := 0 |}.

(** The thread after these events at its server. *)
Definition ex_loop (ous : list outside) : loop :=
  {| l_mux := ex_mux ous; l_demux := CIrrVideoDemux_new 33333 (packet (PData [1; 2; 3; 4]) None);
     l_mem := fun _ => 0; m_crop := no_crop; m_mStreamFound := None; m_mDecoders := None; m_mFilters := None;
     l_encoder := None; m_MJPEGEncoder := None; m_DispCtrlQueue := [7]; l_log := [] |}.

Definition ex_control (ty v : Z) : outside := ex_event 7 IRRV_EVENT_VCTRL [] (ex_ctrl ty v).
Definition ex_resize (w h : Z) : outside :=
  ex_event 7 IRRV_EVENT_VCTRL []
    {| ctrl_type := IRRV_CTRL_RESOLUTION; v0 := 0; v1 := w; v2 := h; v3 := 0; v4 := 0; v5 := 0; v6 := 0 |}.
Definition ex_dyn : dyn_env := {| dy_target := 0; dy_logs_only := false; dy_side := true |}.


Definition ex_decode : decode_env :=
  {| de_rate := 0; de_format := fun _ => 1; de_hwctx := false; de_surface := 0;
     de_frames := [{| df_payload := PData [1; 2; 3; 4]; df_ref := true; df_push := 0 |}] |}.
Definition ex_input : input_env :=
  {| ie_wait := 0; ie_now := 1000; ie_ref := 0; ie_image := no_image; ie_raw := []; ie_mcs := fun _ => 33333;
     ie_write := 0; ie_dec := ex_decode |}.
Definition ex_frame_env : frame_env :=
  {| fe_dyn := ex_dyn; fe_write := 0; fe_add := 0;
     fe_packets := [{| pk_packet := ex_packet; pk_c1 := ex_idle; pk_c2 := ex_idle; pk_local := 0 |}]; fe_end := -11;
     fe_mwrite := 0; fe_pictures := [] |}.
Definition ex_output : output_env :=
  {| oe_codec := fun _ => AV_CODEC_ID_H264; oe_frames := [ex_frame_env]; oe_flush := ex_frame_env; oe_error := 0 |}.
Definition ex_turn : run_env :=
  {| re_gv := no_env; re_c1 := ex_idle; re_c2 := ex_idle; re_input := ex_input; re_output := ex_output;
     re_flush := ex_output; re_clock := 0 |}.

(** A connected client that has not started the stream. *)
Lemma idle_without_clients_witness :
  exists l', run ex_turn (ex_loop [ex_connect 7]) = Some (false, l') /\
    exists x, l' = set_l_mux x (ex_loop [ex_connect 7]).
Proof.
  destruct (run ex_turn (ex_loop [ex_connect 7])) as [[r l']|] eqn:E; [|vm_compute in E; discriminate E].
  destruct (idle_without_clients ex_turn (ex_loop [ex_connect 7]) r l' (1, 0)) as (-> & x & -> & _).
  - vm_compute. reflexivity.
  - reflexivity.
  - left. split; vm_compute; reflexivity.
  - exact E.
  - eexists. split; [reflexivity|]. exists x. reflexivity.
Defined.

(** Errors every 200 ms: the process is told to end from the third on. *)
Lemma hw_error_burst_witness :
  exists l', hw_errors [10000000; 10200000; 10400000; 10600000] (ex_loop []) = Some l' /\ l_log l' = [Kill; Kill].
Proof.
  destruct (hw_error_burst 10000000 [10200000; 10400000; 10600000] (ex_loop [])) as (l' & E & L).
  - vm_compute. discriminate.
  - vm_compute. discriminate.
  - vm_compute. reflexivity.
  - vm_compute. repeat split; discriminate.
  - repeat constructor.
  - vm_compute. discriminate.
  - exists l'. split; [exact E|]. rewrite L. reflexivity.
Defined.

Lemma client_bitrate_forgotten_witness :
  let l := ex_loop [ex_connect 7; ex_control IRRV_CTRL_START 0] in
  exists t r1 l1 t3 l3 r4 l4, trans_of l = Some t /\
    dynamicSetEncParameters ex_dyn (put_trans (setBitrate 5000000 t) l) = Some (r1, l1) /\
    SetBitrate 5000000 ∈ l_log l1 /\ trans_of l3 = Some t3 /\ mem t3 m_bitrate = 5000000 /\
    dynamicSetEncParameters ex_dyn l3 = Some (r4, l4) /\ l_log l4 = l_log l1.
Proof.
  intros l. destruct (trans_of l) as [t|] eqn:Et; [|vm_compute in Et; discriminate Et].
  assert (tcae_off t) as Tc by (vm_compute in Et; injection Et as <-; reflexivity).
  destruct (client_bitrate_forgotten 5000000 640 480 (fun _ => AV_CODEC_ID_H264)
    {| fi_width := 640; fi_height := 480; fi_threads := 0 |} ex_dyn ex_dyn l t Et Tc)
    as (r1 & l1 & t1 & l2 & l3 & t3 & e & r4 & l4 & H1 & H2 & _ & _ & _ & _ & _ & H3 & H4 & H5 & H6);
    [discriminate|vm_compute; split; discriminate|vm_compute; split; discriminate|].
  exists t, r1, l1, t3, l3, r4, l4. repeat split; assumption.
Defined.

Lemma resolution_change_takes_effect_witness :
  let l := ex_loop [ex_connect 7; ex_control IRRV_CTRL_START 0; ex_resize 640 480] in
  exists l1 r2 l2 e, processInput ex_input l = Some (0, l1) /\ doOutput no_env false ex_output l1 = Some (r2, l2) /\
    l_encoder l2 = Some e /\ en_width e = 640 /\ en_height e = 480.
Proof.
  intros l. destruct (trans_of l) as [t|] eqn:Et; [|vm_compute in Et; discriminate Et].
  assert (mem t m_isResolutionChange = 1 /\ mem t m_newWidth = 640 /\ mem t m_newHeight = 480) as (Ef & Ew & Eh)
    by (vm_compute in Et; injection Et as <-; vm_compute; repeat split; reflexivity).
  destruct (processInput ex_input l) as [[r l1]|] eqn:E1; [|vm_compute in E1; discriminate E1].
  assert (r = 0) as -> by (vm_compute in E1; injection E1 as <- _; reflexivity).
  destruct (doOutput no_env false ex_output l1) as [[r2 l2]|] eqn:E2;
    [|vm_compute in E1; injection E1 as <-; vm_compute in E2; discriminate E2].
  destruct (resolution_change_takes_effect ex_input no_env false ex_output l 0 l1 r2 l2 t)
    as (fi & _ & _ & _ & En); [exact Et|rewrite Ef; discriminate|discriminate|left; reflexivity|exact E1|lia|exact E2|].
  exists l1, r2, l2. eexists. split; [reflexivity|]. split; [exact E2|]. split; [exact En|]. split; assumption.
Defined.
