(* ===== verification/IrrvClient.v ===== *)
(** * IrrvClient: the receiving side of the IRRV protocol

    Models [src/sources/streamer/module/irrv-receiver/CSendRecvMessage.cpp] and
    [.h]: the client of the encoder's server, which sends controls and forwards
    the frames it receives to the streaming modules.  Structures are the bytes
    they have on the wire (little-endian words). *)

From Stdlib Require Import ZArith Lia String.
From stdpp Require Import base gmap sets list.
From S2P Require Import Prelude StdMap Bytes SockUtil SockServer TransCoder IrrWorld IrrStreamer IrrvProtocol.

(** ** Data *)

Definition IRRV_EVENT_VHEAD : Z := 0x1000.
Definition IRRV_EVENT_VFRAME : Z := 0x1002.
Definition IRRV_EVENT_VAUTH_ACK : Z := 0x1007.
Definition IRRV_EVENT_MESSAGE : Z := 0x100c.
Definition IRRV_MAGIC : Z := 0xc9c9d2c6.
Definition IRRV_STREAM_VIDEO_ONLY : Z := 0.

(** An answer of [recv]: an error (-1), or the bytes received (none: the peer
    closed). *)
Inductive answer := RecvError | RecvData (l : bytes).

(** What the receiver sends. *)
Inductive cmsg :=
  | C_VCTRL (v : irrv_vctrl_t)
  | C_VAUTH (id key : bytes)
  | C_VHEAD_ACK (value flags width height format : Z).

Record receiver := {
  m_client : Z;
  m_width : Z; m_height : Z; m_format : Z;                (** [unsigned int] *)
  m_ready : bool;
  m_bUnexpectedDisconnect : bool;
  m_bStartEncoderImmediately : bool;
  m_bEnableAlphaTransmission : bool;
  m_frameData : bytes;
  m_encout : option bytes;                               (** what was dumped, if there is a file *)
  m_privatePipe : Z;
  r_in : list answer;                                    (** the answers of [recv] to come *)
  r_sent : list cmsg;                                    (** oldest first *)
  r_packets : list (bytes * Z);                          (** packets forwarded: data and flags *)
  r_closed : list Z                                      (** descriptors closed *)
}.

(** [None]: the call has not returned, the answers ran out. *)
Abbreviation rcmd A := (cmd receiver A).

Definition set_conn (fd : Z) (ready unexpected : bool) (pipe : Z) (closed : list Z) (r : receiver) : receiver :=
  {| m_client := fd; m_width := m_width r; m_height := m_height r; m_format := m_format r;
     m_ready := ready; m_bUnexpectedDisconnect := unexpected;
     m_bStartEncoderImmediately := m_bStartEncoderImmediately r;
     m_bEnableAlphaTransmission := m_bEnableAlphaTransmission r; m_frameData := m_frameData r;
     m_encout := m_encout r; m_privatePipe := pipe; r_in := r_in r; r_sent := r_sent r;
     r_packets := r_packets r; r_closed := r_closed r ++ closed |}.
Definition set_head (w h f : Z) (r : receiver) : receiver :=
  {| m_client := m_client r; m_width := w; m_height := h; m_format := f;
     m_ready := m_ready r; m_bUnexpectedDisconnect := m_bUnexpectedDisconnect r;
     m_bStartEncoderImmediately := m_bStartEncoderImmediately r;
     m_bEnableAlphaTransmission := m_bEnableAlphaTransmission r; m_frameData := m_frameData r;
     m_encout := m_encout r; m_privatePipe := m_privatePipe r; r_in := r_in r; r_sent := r_sent r;
     r_packets := r_packets r; r_closed := r_closed r |}.
Definition set_io (data : bytes) (out : option bytes) (ins : list answer) (sent : list cmsg)
    (packets : list (bytes * Z)) (r : receiver) : receiver :=
  {| m_client := m_client r; m_width := m_width r; m_height := m_height r; m_format := m_format r;
     m_ready := m_ready r; m_bUnexpectedDisconnect := m_bUnexpectedDisconnect r;
     m_bStartEncoderImmediately := m_bStartEncoderImmediately r;
     m_bEnableAlphaTransmission := m_bEnableAlphaTransmission r; m_frameData := data;
     m_encout := out; m_privatePipe := m_privatePipe r; r_in := ins; r_sent := sent;
     r_packets := packets; r_closed := r_closed r |}.

Definition set_data (d : bytes) (r : receiver) : receiver :=
  set_io d (m_encout r) (r_in r) (r_sent r) (r_packets r) r.
Definition send_msg (m : cmsg) (r : receiver) : receiver :=
  set_io (m_frameData r) (m_encout r) (r_in r) (r_sent r ++ [m]) (r_packets r) r.
Definition mark_ready (r : receiver) : receiver :=
  set_conn (m_client r) true (m_bUnexpectedDisconnect r) (m_privatePipe r) [] r.

(** [sock_client_recv]: one [recv]; the bytes are [None] on an error. *)
Definition sock_client_recv : rcmd (option bytes) := fun r =>
  match r_in r with
  | [] => None
  | a :: ins =>
      Some (match a with RecvError => None | RecvData l => Some l end,
            set_io (m_frameData r) (m_encout r) ins (r_sent r) (r_packets r) r)
  end.

(** ** Controls *)

Definition vctrl (t a0 a1 a2 a3 : Z) : irrv_vctrl_t :=
  {| ctrl_type := t; v0 := a0; v1 := a1; v2 := a2; v3 := a3; v4 := 0; v5 := 0; v6 := 0 |}.

(** [irrv_op] of one control. *)
Definition irrv_op (v : irrv_vctrl_t) : rcmd unit := fun r =>
  if m_client r <? 0 then Some (tt, r) else Some (tt, send_msg (C_VCTRL v) r).

(** The controls with arguments in the union's members. *)
Definition irrv_set_rolling_intra_refresh (type cycle_size qp_delta : Z) : irrv_vctrl_t :=
  vctrl IRRV_CTRL_RIR_SETTING 0 type cycle_size qp_delta.
Definition irrv_set_min_max_qp (min_qp max_qp : Z) : irrv_vctrl_t :=
  vctrl IRRV_CTRL_MIN_MAX_QP_SETTING 0 min_qp max_qp 0.
Definition irrv_change_resolution (new_width new_height : Z) : irrv_vctrl_t :=
  vctrl IRRV_CTRL_RESOLUTION 0 new_width new_height 0.
Definition irrv_set_sei (sei_type sei_id : Z) : irrv_vctrl_t :=
  vctrl IRRV_CTRL_SEI_SETTING 0 sei_type sei_id 0.
Definition irrv_set_screen_capture_start (capture_interval quality_factor : Z) : irrv_vctrl_t :=
  vctrl IRRV_CTRL_SCREEN_CAPTURE_START capture_interval quality_factor 0 0.
Definition irrv_set_client_feedback (delay size : Z) : irrv_vctrl_t :=
  vctrl IRRV_CTRL_CLIENT_FEEDBACK delay size 0 0.

(** A region of interest (16-bit positions and sizes, an 8-bit value), and the controls that are sent for several, one for
    each; nothing for none or too many. *)
Record AVRoI2 := { ri_x : Z; ri_y : Z; ri_width : Z; ri_height : Z; ri_value : Z }.
Definition MAX_ROI_NUM : Z := 8.
Definition roi_control (roi_num : Z) (p : AVRoI2) : irrv_vctrl_t :=
  {| ctrl_type := IRRV_CTRL_ROI_SETTING; v0 := u32 roi_num; v1 := u32 (ri_x p); v2 := u32 (ri_y p); v3 := u32 (ri_width p);
     v4 := u32 (ri_height p); v5 := u32 (ri_value p); v6 := 0 |}.
Definition irrv_set_region_of_interest (rois : list AVRoI2) : list irrv_vctrl_t :=
  let roi_num := Z.of_nat (length rois) in
  if (roi_num <=? 0) || (MAX_ROI_NUM <? roi_num) then [] else map (roi_control roi_num) rois.

(** [irrv_op] of several controls, sent as one block. *)
Definition irrv_op_vector (l : list irrv_vctrl_t) : rcmd unit := fun r =>
  if m_client r <? 0 then Some (tt, r) else Some (tt, foldl (fun r v => send_msg (C_VCTRL v) r) r l).

(** The calls of a user of the receiver that build one control. *)
Inductive single_control :=
  | encodestart | encodepause | encodestop | keyframe | bitrate (v : Z) | framerate (v : Z)
  | max_frame_size (v : Z) | qp (v : Z) | gop_size (v : Z) | dump_start | dump_stop
  | input_dump_start | input_dump_stop | output_dump_start | output_dump_stop | dump_frames (n : Z)
  | screen_capture_start (interval quality : Z) | screen_capture_stop
  | resolution (w h : Z) | rolling_intra_refresh (type cycle_size qp_delta : Z)
  | min_max_qp (min max : Z) | sei (type id : Z) | client_feedback (delay size : Z).

Definition control_msg (c : single_control) : irrv_vctrl_t :=
  match c with
  | encodestart => vctrl IRRV_CTRL_START 0 0 0 0
  | encodepause => vctrl IRRV_CTRL_PAUSE 0 0 0 0
  | encodestop => vctrl IRRV_CTRL_STOP 0 0 0 0
  | keyframe => vctrl IRRV_CTRL_KEYFRAME_SETTING 1 0 0 0
  | bitrate v => vctrl IRRV_CTRL_BITRATE_SETTING v 0 0 0
  | framerate v => vctrl IRRV_CTRL_FRAMERATE_SETTING v 0 0 0
  | max_frame_size v => vctrl IRRV_CTRL_MAXFRAMESIZE_SETTING v 0 0 0
  | qp v => vctrl IRRV_CTRL_QP_SETTING v 0 0 0
  | gop_size v => vctrl IRRV_CTRL_GOP_SETTING v 0 0 0
  | dump_start => vctrl IRRV_CTRL_DUMP_START 0 0 0 0
  | dump_stop => vctrl IRRV_CTRL_DUMP_STOP 0 0 0 0
  | input_dump_start => vctrl IRRV_CTRL_INPUT_DUMP_START 0 0 0 0
  | input_dump_stop => vctrl IRRV_CTRL_INPUT_DUMP_STOP 0 0 0 0
  | output_dump_start => vctrl IRRV_CTRL_OUTPUT_DUMP_START 0 0 0 0
  | output_dump_stop => vctrl IRRV_CTRL_OUTPUT_DUMP_STOP 0 0 0 0
  | dump_frames n => vctrl IRRV_CTRL_DUMP_FRAMES n 0 0 0
  | screen_capture_start interval quality => irrv_set_screen_capture_start interval quality
  | screen_capture_stop => vctrl IRRV_CTRL_SCREEN_CAPTURE_STOP 0 0 0 0
  | resolution w h => irrv_change_resolution w h
  | rolling_intra_refresh type cycle_size qp_delta => irrv_set_rolling_intra_refresh type cycle_size qp_delta
  | min_max_qp min max => irrv_set_min_max_qp min max
  | sei type id => irrv_set_sei type id
  | client_feedback delay size => irrv_set_client_feedback delay size
  end.

(** All calls of a user of the receiver, with the controls each sends. *)
Inductive control := single (c : single_control) | region_of_interest (rois : list AVRoI2).
Definition control_msgs (c : control) : list irrv_vctrl_t :=
  match c with single c => [control_msg c] | region_of_interest rois => irrv_set_region_of_interest rois end.

(** ** Connection *)

(** What the outside does during one turn of the receiving thread. *)
Record turn := {
  tu_connect : Z;              (** [sock_client_init] *)
  tu_alive : bool;             (** [sock_client_check_connect] is not [disconnect] *)
  tu_poll : Z;                 (** [poll] *)
  tu_side_data : bool          (** [ga_packet_new_side_data] succeeds *)
}.

Definition irrv_sock_client_init (t : turn) : rcmd bool := fun r =>
  let r1 :=
    if m_client r <? 0 then
      let r := set_conn (tu_connect t) (m_ready r) (m_bUnexpectedDisconnect r) (m_privatePipe r) [] r in
      if m_bStartEncoderImmediately r && negb (m_client r <? 0) && tu_alive t then
        send_msg (C_VCTRL (vctrl IRRV_CTRL_KEYFRAME_SETTING 1 0 0 0))
          (send_msg (C_VCTRL (vctrl IRRV_CTRL_START 1 0 0 0)) r)
      else r
    else r in
  Some (negb (m_client r1 <? 0), r1).

Definition irrv_sock_client_disconnect (r : receiver) : receiver :=
  if m_client r <? 0 then r
  else set_conn (-1) (m_ready r) (m_bUnexpectedDisconnect r) (m_privatePipe r) [m_client r] r.

Definition private_pipe_disconnect (r : receiver) : receiver :=
  if m_privatePipe r <? 0 then r
  else set_conn (m_client r) (m_ready r) (m_bUnexpectedDisconnect r) (-1) [m_privatePipe r] r.

Definition irrv_send_authentication : receiver -> receiver := send_msg (C_VAUTH auth_id auth_key).

(** ** Receiving *)

(** A structure of [n] words, zero before [recv] fills its beginning. *)
Definition words_of (n : nat) (l : bytes) : list Z :=
  let l := take (4 * n) (l ++ repeat 0 (4 * n)) in
  map (fun i => of_le (take 4 (drop (4 * i) l))) (seq 0 n).

Definition word (l : list Z) (i : nat) : Z := nth i l 0.

(** [vector::resize] *)
Definition resize (n : nat) (l : bytes) : bytes := take n l ++ repeat 0 (n - length l).

(** Overwrite the bytes from [off] on. *)
Definition overwrite (off : nat) (x l : bytes) : bytes := take off l ++ x ++ drop (off + length x) l.

(** The loop that collects a frame: errors and an end of stream are retried. *)
Fixpoint recv_frame_data (ins : list answer) (off : nat) (left_size : Z) (data : bytes)
    : option (bytes * list answer) :=
  if left_size <=? 0 then Some (data, ins)
  else match ins with
       | [] => None
       | RecvError :: ins => recv_frame_data ins off left_size data
       | RecvData x :: ins =>
           if 0 <? Z.of_nat (length x)
           then recv_frame_data ins (off + length x) (left_size - Z.of_nat (length x)) (overwrite off x data)
           else recv_frame_data ins off left_size data
       end.

(** The dump file, when there is one. *)
Definition dump (video_size alpha_size data_size : Z) (r : receiver) : option bytes :=
  (fun out =>
     if m_bEnableAlphaTransmission r && negb (video_size =? 0) && (0 <? alpha_size)
     then out ++ take (Z.to_nat video_size) (m_frameData r)
     else out ++ take (Z.to_nat data_size) (m_frameData r)) <$> m_encout r.

Definition recv_vhead : rcmd unit :=
  h <-- sock_client_recv;;
  match h with
  | None => cret tt
  | Some l =>
      let head := words_of 8 l in
      cmodify (set_head (word head 1) (word head 2) (word head 3));;;
      cmodify (fun r => if negb (word head 4 =? 0) then irrv_send_authentication r else r);;;
      cmodify (send_msg (C_VHEAD_ACK 1 IRRV_STREAM_VIDEO_ONLY (word head 1) (word head 2) (word head 3)));;;
      cmodify mark_ready
  end.

Definition recv_vframe (t : turn) : rcmd unit :=
  h <-- sock_client_recv;;
  match h with
  | None => cret tt
  | Some l =>
      let frame := words_of 8 l in
      let flags := word frame 0 in
      let data_size := word frame 1 in
      let video_size := word frame 2 in
      let alpha_size := word frame 3 in
      r <-- cget;;
      if (data_size =? 0) || (data_size <? video_size) || (u32 (u32 (4 * m_width r) * m_height r) <? data_size)
      then cret tt
      else
        d <-- clift (recv_frame_data (r_in r) 0 (i32 data_size) (resize (Z.to_nat data_size) (m_frameData r)));;
        cmodify (fun r => set_io d.1 (m_encout r) d.2 (r_sent r) (r_packets r) r);;;
        cmodify (fun r => set_io (m_frameData r) (dump video_size alpha_size data_size r) (r_in r) (r_sent r)
                            (r_packets r) r);;;
        if tu_side_data t then
          cmodify (fun r => set_io (m_frameData r) (m_encout r) (r_in r) (r_sent r)
                              (r_packets r ++ [(m_frameData r, i32 flags)]) r)
        else cret tt
  end.

(** The answer to an authentication: its result is only logged. *)
Definition recv_vauth_ack : rcmd unit := sock_client_recv;;; cret tt.

(** An event the receiver does not know. *)
Definition unknown_event : rcmd unit :=
  cmodify (fun r =>
    let r := private_pipe_disconnect (irrv_sock_client_disconnect r) in
    set_conn (m_client r) false true (m_privatePipe r) [] r).

Definition recv_es_stream (t : turn) : rcmd unit :=
  ok <-- irrv_sock_client_init t;;
  if negb ok then cret tt
  else
    r <-- cget;;
    (if m_bUnexpectedDisconnect r then
       irrv_op (control_msg encodestart);;; irrv_op (control_msg keyframe);;;
       cmodify (fun r => set_conn (m_client r) (m_ready r) false (m_privatePipe r) [] r)
     else cret tt);;;
    if tu_poll t <? 0 then
      cmodify (fun r => set_conn (-1) (m_ready r) (m_bUnexpectedDisconnect r) (m_privatePipe r) [m_client r] r)
    else if tu_poll t =? 0 then cret tt
    else
      h <-- sock_client_recv;;
      match h with
      | None => cret tt
      | Some l =>
          let type := word (words_of 4 l) 1 in
          if type =? IRRV_EVENT_VHEAD then recv_vhead
          else if type =? IRRV_EVENT_VAUTH_ACK then recv_vauth_ack
          else if type =? IRRV_EVENT_VFRAME then recv_vframe t
          else unknown_event
      end.

(** ** What the server puts on the wire *)

Definition words (l : list Z) : bytes := concat (map (to_le 4) l).

(** The structures of [irrv_protocol.h], as the server fills them. *)
Definition wire (m : msg) : bytes :=
  match m with
  | VHEAD flags width height format auth =>
      words [IRRV_MAGIC; IRRV_EVENT_VHEAD; 48; 0; flags; width; height; format; auth; 0; 0; 0]
  | VAUTH_ACK result =>
      words [IRRV_MAGIC; IRRV_EVENT_VAUTH_ACK; 76; 0] ++ repeat 0 32 ++ words [result; 0; 0; 0; 0; 0; 0]
  | VFRAME flags data_size width height =>
      words [IRRV_MAGIC; IRRV_EVENT_VFRAME; 48; 0; flags; data_size; 0; 0; width; height; 0; 0]
  | VDATA data => data
  | VMESSAGE msg_type value =>
      words [IRRV_MAGIC; IRRV_EVENT_MESSAGE; 48; 0; msg_type; value; 0; 0; 0; 0; 0; 0]
  end.

(** [feeds d ins]: the answers [ins] deliver exactly [d], in any pieces, with
    any number of errors and empty reads before the last piece. *)
Inductive feeds : bytes -> list answer -> Prop :=
  | feeds_nil : feeds [] []
  | feeds_error d ins : d <> [] -> feeds d ins -> feeds d (RecvError :: ins)
  | feeds_empty d ins : d <> [] -> feeds d ins -> feeds d (RecvData [] :: ins)
  | feeds_data x d ins : x <> [] -> feeds d ins -> feeds (x ++ d) (RecvData x :: ins).

Lemma recv_frame_data_feeds d ins rest : feeds d ins -> forall off buf,
  length buf = (off + length d)%nat ->
  recv_frame_data (ins ++ rest) off (Z.of_nat (length d)) buf = Some (take off buf ++ d, rest).
Proof.
  induction 1 as [|d ins N F IH|d ins N F IH|x d ins N F IH]; intros off buf L.
  - simpl in *. rewrite app_nil_r, take_ge by lia. by destruct rest.
  - cbn [recv_frame_data app]. destruct (Z.leb_spec (Z.of_nat (length d)) 0) as [Hl|_]; [|by apply IH].
    by destruct d.
  - cbn [recv_frame_data app]. destruct (Z.leb_spec (Z.of_nat (length d)) 0) as [Hl|_]; [by destruct d|].
    simpl. by apply IH.
  - rewrite length_app in L |- *. assert (0 < length x)%nat by (destruct x; simpl; [done|lia]).
    cbn [recv_frame_data app]. destruct (Z.leb_spec (Z.of_nat (length x + length d)) 0); [lia|].
    destruct (Z.ltb_spec 0 (Z.of_nat (length x))); [|lia].
    replace (Z.of_nat (length x + length d) - Z.of_nat (length x)) with (Z.of_nat (length d)) by lia.
    rewrite IH.
    + unfold overwrite. rewrite take_app_add', take_app_length' by (rewrite ?length_take; lia).
      by rewrite <- (assoc_L (++)).
    + unfold overwrite. rewrite !length_app, length_take, length_drop. lia.
Qed.

(** The words of a structure come back. *)
Lemma words_cons x l : words (x :: l) = to_le 4 x ++ words l.
Proof. reflexivity. Qed.

Lemma length_words l : length (words l) = (4 * length l)%nat.
Proof. induction l as [|x l IH]; [done|]. rewrite words_cons, length_app, IH, length_to_le. simpl. lia. Qed.

Lemma words_slice l i x : l !! i = Some x -> take 4 (drop (4 * i) (words l)) = to_le 4 x.
Proof.
  revert i. induction l as [|y l IH]; intros [|i] E; cbn in E; try discriminate E.
  - injection E as ->. rewrite words_cons. by rewrite drop_0, take_app_length' by (by rewrite length_to_le).
  - rewrite words_cons. replace (4 * S i)%nat with (length (to_le 4 y) + 4 * i)%nat by (rewrite length_to_le; lia).
    rewrite drop_app_add. by apply IH.
Qed.

Lemma words_of_words l :
  Forall (fun x => 0 <= x < 2 ^ 32) l -> words_of (length l) (words l) = l.
Proof.
  intros H. unfold words_of.
  rewrite take_app_length' by (by rewrite length_words).
  apply list_eq. intros i. rewrite list_lookup_fmap.
  destruct (decide (i < length l)%nat) as [Hi|Hi].
  - rewrite lookup_seq_lt by done.
    change (Some (of_le (take 4 (drop (4 * i) (words l)))) = l !! i). destruct (lookup_lt_is_Some_2 l i Hi) as [x Ex].
    rewrite Ex. rewrite (words_slice l i x Ex), of_le_to_le.
    rewrite Z.mod_small; [done|]. rewrite Forall_lookup in H. specialize (H _ _ Ex). simpl. lia.
  - rewrite lookup_seq_ge by lia. symmetry. apply lookup_ge_None_2. lia.
Qed.

Lemma words_app l1 l2 : words (l1 ++ l2) = words l1 ++ words l2.
Proof. unfold words. by rewrite map_app, concat_app. Qed.

(** The event header and the rest of a structure. *)
Lemma words_split l1 l2 :
  take (4 * length l1) (words (l1 ++ l2)) = words l1 /\ drop (4 * length l1) (words (l1 ++ l2)) = words l2.
Proof.
  rewrite words_app. split; [rewrite take_app_length'|rewrite drop_app_length']; by rewrite ?length_words.
Qed.

Lemma wire_vframe flags size w h :
  take 16 (wire (VFRAME flags size w h)) = words [IRRV_MAGIC; IRRV_EVENT_VFRAME; 48; 0] /\
  drop 16 (wire (VFRAME flags size w h)) = words [flags; size; 0; 0; w; h; 0; 0].
Proof. exact (words_split [IRRV_MAGIC; IRRV_EVENT_VFRAME; 48; 0] [flags; size; 0; 0; w; h; 0; 0]). Qed.

Lemma wire_vmessage t v :
  take 16 (wire (VMESSAGE t v)) = words [IRRV_MAGIC; IRRV_EVENT_MESSAGE; 48; 0].
Proof. exact (proj1 (words_split [IRRV_MAGIC; IRRV_EVENT_MESSAGE; 48; 0] [t; v; 0; 0; 0; 0; 0; 0])). Qed.

(** The type of an event is read back from its header. *)
Lemma event_type t :
  0 <= t < 2 ^ 32 -> word (words_of 4 (words [IRRV_MAGIC; t; 48; 0])) 1 = t.
Proof.
  intros H. change 4%nat with (length [IRRV_MAGIC; t; 48; 0]). rewrite words_of_words; [done|].
  repeat constructor; try done; unfold IRRV_MAGIC; lia.
Qed.

Lemma resize_length n l : length (resize n l) = n.
Proof. unfold resize. rewrite length_app, length_take, repeat_length. lia. Qed.

Lemma i32_small z : 0 <= z < 2 ^ 31 -> i32 z = z.
Proof.
  intros H. unfold i32, wraps. rewrite Z.mod_small by lia.
  destruct (Z.ltb_spec z (2 ^ (32 - 1))); [done|lia].
Qed.

(** A connected receiver with data to read: the thread reads the next event. *)
Definition receiving (t : turn) (r : receiver) : Prop :=
  0 <= m_client r /\ m_bUnexpectedDisconnect r = false /\ 0 < tu_poll t.

Definition with_in (ins : list answer) (r : receiver) : receiver :=
  set_io (m_frameData r) (m_encout r) ins (r_sent r) (r_packets r) r.

Lemma recv_es_event t r l ins :
  receiving t r -> r_in r = RecvData l :: ins ->
  recv_es_stream t r =
    (let type := word (words_of 4 l) 1 in
     if type =? IRRV_EVENT_VHEAD then recv_vhead
     else if type =? IRRV_EVENT_VAUTH_ACK then recv_vauth_ack
     else if type =? IRRV_EVENT_VFRAME then recv_vframe t
     else unknown_event) (with_in ins r).
Proof.
  intros (C & U & P) E. unfold recv_es_stream, irrv_sock_client_init.
  assert ((m_client r <? 0) = false) as Ec by (apply Z.ltb_ge; lia).
  unfold cbind at 1. rewrite !Ec. cbn [negb]. unfold cbind at 1, cget. rewrite U.
  unfold cbind at 1, cret at 1.
  destruct (Z.ltb_spec (tu_poll t) 0); [lia|]. destruct (Z.eqb_spec (tu_poll t) 0); [lia|].
  unfold cbind, sock_client_recv. rewrite E. reflexivity.
Qed.

(** The frame itself. *)
Lemma recv_vframe_feeds t r flags data w h chunks rest :
  0 <= flags < 2 ^ 32 -> 0 <= w < 2 ^ 32 -> 0 <= h < 2 ^ 32 ->
  data <> [] -> Z.of_nat (length data) < 2 ^ 31 ->
  Z.of_nat (length data) <= u32 (u32 (4 * m_width r) * m_height r) ->
  feeds data chunks -> tu_side_data t = true ->
  r_in r = RecvData (words [flags; Z.of_nat (length data); 0; 0; w; h; 0; 0]) :: chunks ++ rest ->
  exists r', recv_vframe t r = Some (tt, r') /\
    r_packets r' = r_packets r ++ [(data, i32 flags)] /\ r_in r' = rest /\
    r_sent r' = r_sent r /\ m_client r' = m_client r.
Proof.
  intros Hf Hw Hh N L M F S E. unfold recv_vframe.
  unfold cbind at 1, sock_client_recv. rewrite E.
  assert (words_of 8 (words [flags; Z.of_nat (length data); 0; 0; w; h; 0; 0])
          = [flags; Z.of_nat (length data); 0; 0; w; h; 0; 0]) as ->.
  { apply (words_of_words [flags; Z.of_nat (length data); 0; 0; w; h; 0; 0]).
    repeat constructor; lia. }
  cbv zeta. cbn [word nth]. unfold cbind at 1, cget.
  cbn [m_width m_height set_io].
  assert (0 < length data)%nat by (destruct data; simpl; [done|lia]).
  rewrite (proj2 (Z.eqb_neq (Z.of_nat (length data)) 0)) by lia.
  rewrite (proj2 (Z.ltb_ge (Z.of_nat (length data)) 0)) by lia.
  rewrite (proj2 (Z.ltb_ge (u32 (u32 (4 * m_width r) * m_height r)) (Z.of_nat (length data)))) by done.
  cbn [orb r_in set_io m_frameData]. rewrite (i32_small (Z.of_nat (length data))) by lia. rewrite Nat2Z.id.
  rewrite (recv_frame_data_feeds _ _ _ F 0 (resize (length data) (m_frameData r))) by (by rewrite resize_length).
  unfold cbind, clift, cmodify. rewrite S. eexists. by split.
Qed.

(** ** Properties *)

(** C8. A frame the server sends is forwarded unchanged.  When a
    connected receiver reads the header and the information of a frame each in
    one piece and the frame's data in any pieces, with any number of failed or
    empty reads in between, it forwards exactly the bytes and the flags the
    server sent and consumes exactly what belongs to the frame, provided the
    data is not larger than four bytes per pixel of the announced size. *)
Theorem receiver_forwards_frame t r flags data w h chunks rest :
  receiving t r -> tu_side_data t = true ->
  0 <= flags < 2 ^ 32 -> 0 <= w < 2 ^ 32 -> 0 <= h < 2 ^ 32 ->
  data <> [] -> Z.of_nat (length data) < 2 ^ 31 ->
  Z.of_nat (length data) <= u32 (u32 (4 * m_width r) * m_height r) ->
  feeds (wire (VDATA data)) chunks ->
  let head := wire (VFRAME flags (u32 (Z.of_nat (length data))) w h) in
  r_in r = RecvData (take 16 head) :: RecvData (drop 16 head) :: chunks ++ rest ->
  exists r', recv_es_stream t r = Some (tt, r') /\
    r_packets r' = r_packets r ++ [(data, i32 flags)] /\ r_in r' = rest /\
    r_sent r' = r_sent r /\ m_client r' = m_client r.
Proof.
  intros R S Hf Hw Hh N L M F head E.
  destruct (wire_vframe flags (u32 (Z.of_nat (length data))) w h) as [Et Ed].
  unfold head in E. rewrite Et, Ed in E. rewrite (recv_es_event _ _ _ _ R E). cbv zeta.
  rewrite event_type by (unfold IRRV_EVENT_VFRAME; lia). simpl.
  assert (u32 (Z.of_nat (length data)) = Z.of_nat (length data)) as Eu by (apply wrapu_small; lia).
  rewrite Eu. apply (recv_vframe_feeds t (with_in _ r) flags data w h chunks rest); auto.
Qed.

(** The answers of a sample session: a 2x1 stream, a frame of five bytes in two
    pieces with an error and an empty read in between. *)
Definition ex_receiver (ins : list answer) : receiver :=
  {| m_client := 5; m_width := 2; m_height := 1; m_format := IRRV_STREAM_FORMAT_H264_RAW; m_ready := true;
     m_bUnexpectedDisconnect := false; m_bStartEncoderImmediately := true; m_bEnableAlphaTransmission := false;
     m_frameData := [1; 2; 3; 4; 5; 6; 7]; m_encout := None; m_privatePipe := -1; r_in := ins; r_sent := [];
     r_packets := []; r_closed := [] |}.

Definition ex_turn : turn := {| tu_connect := -1; tu_alive := true; tu_poll := 1; tu_side_data := true |}.

Lemma receiver_forwards_frame_witness :
  let head := wire (VFRAME 1 5 2 1) in
  let chunks := [RecvData [9; 8]; RecvError; RecvData []; RecvData [7; 6; 5]] in
  exists r', recv_es_stream ex_turn
      (ex_receiver (RecvData (take 16 head) :: RecvData (drop 16 head) :: chunks ++ [])) = Some (tt, r') /\
    r_packets r' = [] ++ [([9; 8; 7; 6; 5], i32 1)] /\ r_in r' = [] /\ r_sent r' = [] /\ m_client r' = 5.
Proof.
  intros head chunks.
  apply (receiver_forwards_frame ex_turn
    (ex_receiver (RecvData (take 16 head) :: RecvData (drop 16 head) :: chunks ++ [])) 1 [9; 8; 7; 6; 5] 2 1 chunks []);
    try reflexivity; try discriminate; try lia.
  - split; [vm_compute; discriminate|]. split; reflexivity.
  - apply (feeds_data [9; 8] [7; 6; 5]); [discriminate|].
    apply feeds_error; [discriminate|]. apply feeds_empty; [discriminate|].
    apply (feeds_data [7; 6; 5] []); [discriminate|constructor].
Defined.

(** The call of the encoder's interface each control stands for. *)
Definition single_effect (feedback : Z -> Z -> Z) (c : single_control) : cmd world unit :=
  match c with
  | encodestart => irr_stream_setEncodeFlag true;;; irr_stream_setTransmitFlag true;;;
                   irr_stream_first_start_encdoding true
  | encodepause => irr_stream_setTransmitFlag false
  | encodestop => irr_stream_setEncodeFlag false;;; irr_stream_setTransmitFlag false;;;
                  irr_stream_first_start_encdoding false
  | keyframe => void (irr_stream_force_keyframe 1)
  | bitrate v => void (irr_stream_set_bitrate (i32 v))
  | framerate v => void (irr_stream_set_framerate (float_of_u32 v))
  | max_frame_size v => void (irr_stream_set_max_frame_size (i32 v))
  | qp v => void (irr_stream_set_qp (i32 v))
  | gop_size v => void (irr_stream_set_gop_size (i32 v))
  | dump_start => irr_stream_runtime_writer_start IRR_RT_MODE_BOTH
  | dump_stop => irr_stream_runtime_writer_stop IRR_RT_MODE_BOTH
  | input_dump_start => irr_stream_runtime_writer_start IRR_RT_MODE_INPUT
  | input_dump_stop => irr_stream_runtime_writer_stop IRR_RT_MODE_INPUT
  | output_dump_start => irr_stream_runtime_writer_start IRR_RT_MODE_OUTPUT
  | output_dump_stop => irr_stream_runtime_writer_stop IRR_RT_MODE_OUTPUT
  | dump_frames n => irr_stream_runtime_writer_start_with_frame_num (i32 n)
  | screen_capture_start interval quality =>
      irr_sream_set_screen_capture_interval (i32 interval);;;
      irr_stream_set_screen_capture_quality (i32 quality);;;
      irr_stream_set_screen_capture_flag true
  | screen_capture_stop => irr_stream_set_screen_capture_flag false
  | resolution w h => void (irr_stream_change_resolution (i32 w) (i32 h))
  | rolling_intra_refresh t c d => void (irr_stream_set_rolling_intra_refresh (i32 t) (i32 c) (i32 d))
  | min_max_qp a z => void (irr_stream_set_min_max_qp (i32 a) (i32 z))
  | sei t i => void (irr_stream_set_sei (i32 t) (i32 i))
  | client_feedback d s => void (irr_stream_set_client_feedback feedback d s)
  end.

(** The effect of each control of a call; a region of interest has none. *)
Definition control_effect (feedback : Z -> Z -> Z) (c : control) : cmd world unit :=
  match c with single c => single_effect feedback c | region_of_interest _ => cret tt end.

(** C36. Receiver and server agree on the controls.  Whatever call is made at the
    receiver, every control it sends passes the server's look-up and is handled
    without error.  For all calls but one it is executed as the call of the
    encoder's interface it stands for, with the arguments in the right places of
    the union; the exception is [irrv_set_region_of_interest], whose controls
    (one for each of one to eight regions) the server, built for the current
    FFmpeg, passes over without any effect.  For an unauthenticated stream this is
    what one [irrv_checknewconn] does with the control it received. *)
Theorem controls_agree c m ou server slot w :
  In m (control_msgs c) -> ou_ctrl ou = m -> ou_event ou = IRRV_EVENT_VCTRL ->
  handle_event ou server slot false w =
    control_effect (ou_feedback ou) c (emit (Control server slot (ctrl_type m)) w).
Proof.
  intros I E V. unfold handle_event. rewrite V. unfold cbind at 1, cret at 1.
  unfold cbind at 1, cgets. cbn [negb orb andb]. unfold handle_vctrl. rewrite E.
  unfold cbind at 1, cmodify. destruct c as [c|rois]; cbn [control_msgs] in I.
  - destruct I as [<-|[]]. by destruct c.
  - unfold irrv_set_region_of_interest in I. destruct (_ || _); [done|]. by apply in_map_iff in I as (p & <- & _).
Qed.

Lemma controls_agree_witness :
  let ou := ex_event 7 IRRV_EVENT_VCTRL [] (control_msg (resolution 640 360)) in
  let w := ex_run (ex_streamer false (Some (CTransCoder_init AV_CODEC_ID_H264))) [ex_connect 7] in
  handle_event ou 1 0 false w =
    void (irr_stream_change_resolution 640 360) (emit (Control 1 0 IRRV_CTRL_RESOLUTION) w).
Proof.
  intros ou w. exact (controls_agree (single (resolution 640 360)) _ ou 1 0 w (or_introl eq_refl) eq_refl eq_refl).
Defined.

(** The controls of two regions of interest are dropped. *)
Lemma region_of_interest_dropped :
  let p := {| ri_x := 0; ri_y := 0; ri_width := 64; ri_height := 64; ri_value := -5 |} in
  let ou := ex_event 7 IRRV_EVENT_VCTRL [] (roi_control 2 p) in
  let w := ex_run (ex_streamer false (Some (CTransCoder_init AV_CODEC_ID_H264))) [ex_connect 7] in
  control_msgs (region_of_interest [p; p]) = [roi_control 2 p; roi_control 2 p] /\
  handle_event ou 1 0 false w = Some (tt, emit (Control 1 0 IRRV_CTRL_ROI_SETTING) w).
Proof. split; reflexivity. Qed.

(** The message the server sends after a codec change is unknown
    to the receiver: reading its header makes it close the connection, and the
    rest of the message stays unread. *)
Theorem message_disconnects_receiver t r msg_type value rest :
  receiving t r -> r_in r = RecvData (take 16 (wire (VMESSAGE msg_type value))) :: rest ->
  exists r', recv_es_stream t r = Some (tt, r') /\
    m_client r' = -1 /\ m_client r ∈ r_closed r' /\ m_ready r' = false /\
    m_bUnexpectedDisconnect r' = true /\ r_in r' = rest /\ r_packets r' = r_packets r.
Proof.
  intros R E. rewrite wire_vmessage in E. rewrite (recv_es_event _ _ _ _ R E). cbv zeta.
  rewrite event_type by (unfold IRRV_EVENT_MESSAGE; lia). destruct R as (C & _ & _).
  eexists. split; [reflexivity|].
  unfold private_pipe_disconnect, irrv_sock_client_disconnect; simpl.
  rewrite (proj2 (Z.ltb_ge (m_client r) 0)) by lia. simpl.
  destruct (m_privatePipe r <? 0); simpl; repeat split; set_solver.
Qed.

Lemma message_disconnects_receiver_witness :
  exists r', recv_es_stream ex_turn
      (ex_receiver [RecvData (take 16 (wire (VMESSAGE IRRV_MESSAGE_VIDEO_FORMAT_CHANGE AV_CODEC_ID_HEVC)))])
      = Some (tt, r') /\
    m_client r' = -1 /\ 5 ∈ r_closed r' /\ m_ready r' = false /\
    m_bUnexpectedDisconnect r' = true /\ r_in r' = [] /\ r_packets r' = [].
Proof.
  apply (message_disconnects_receiver ex_turn (ex_receiver
    [RecvData (take 16 (wire (VMESSAGE IRRV_MESSAGE_VIDEO_FORMAT_CHANGE AV_CODEC_ID_HEVC)))])
    IRRV_MESSAGE_VIDEO_FORMAT_CHANGE AV_CODEC_ID_HEVC []); [|reflexivity].
  split; [vm_compute; discriminate|]. split; reflexivity.
Defined.

(** The loop that collects a frame does not notice that the server closed the
    connection: it keeps calling [recv], which returns 0 each time. *)
Lemma frame_loop_spins n off left_size data :
  0 < left_size -> recv_frame_data (repeat (RecvData []) n) off left_size data = None.
Proof.
  intros H. induction n as [|n IH]; simpl; destruct (Z.leb_spec left_size 0); done || lia.
Qed.
