(* ===== verification/CommandParser.v ===== *)
(** * CommandParser: the command line parser of the applications

    Models [src/sources/apps/idd-setup-tool/CommandParserImpl.cpp] and [.h]:
    registration of commands, switches, parameters and settings, the processing of a
    command line, the help screen and its line breaking, and the string helpers of
    [Utility.cpp] it uses.  Where the code stores values through [void *] into the
    structure of its user, a class of targets says what a store does.  Wide strings
    are lists of their characters.  An operation returns, throws, exits, or is
    undefined. *)

From Stdlib Require Import ZArith Lia String.
From stdpp Require Import base gmap list.
From S2P Require Import Prelude StdMap GaConf CNum CxxString.

(** ** Outcomes *)

Inductive res (A : Type) := Ret (a : A) | Throws | Exits (code : Z) | Undef.
Arguments Ret {A} a.
Arguments Throws {A}.
Arguments Exits {A} code.
Arguments Undef {A}.

Definition rbind {A B} (m : res A) (f : A -> res B) : res B :=
  match m with Ret a => f a | Throws => Throws | Exits c => Exits c | Undef => Undef end.

Declare Scope res_scope.
Delimit Scope res_scope with res.
Notation "x <~ m ; k" := (rbind m (fun x => k)) (at level 100, m at level 90, k at level 200, right associativity) : res_scope.
Open Scope res_scope.

(** An absent element is undefined, an exception for [at] and [substr]. *)
Definition or_undef {A} (o : option A) : res A := match o with Some a => Ret a | None => Undef end.
Definition or_throws {A} (o : option A) : res A := match o with Some a => Ret a | None => Throws end.

Lemma rbind_Ret {A B} (m : res A) (f : A -> res B) v : rbind m f = Ret v -> exists a, m = Ret a /\ f a = Ret v.
Proof. destruct m as [a| | |]; cbn; try done. eauto. Qed.

(** ** Targets *)

Inductive ArgumentTypes := NONE | STRING | INTEGER | STRING_VECTOR | INTEGER_VECTOR | PATH.

(** Stores through the [void *] of a switch or parameter: into a variable, into an
    element of an array ([Undef] past its end), or at the end of a vector. *)
Class Targets (T O : Type) := {
  set_switch : T -> O -> O;
  put_string : T -> nat -> bytes -> O -> res O;
  put_int : T -> nat -> Z -> O -> res O;
  push_string : T -> bytes -> O -> res O;
  push_int : T -> Z -> O -> res O;
  put_path : T -> nat -> bytes -> O -> res O
}.

(** ** Strings *)

(** [StringToLowerCase] is [lower]. *)
Definition StringToLowerCase (s : bytes) : bytes := lower s.

(** [CheckIfStringContainsPattern] *)
Definition CheckIfStringContainsPattern (target pattern : bytes) (ignore_case : bool) : bool :=
  if ignore_case then contains (StringToLowerCase pattern) (StringToLowerCase target) else contains pattern target.

(** [SplitStringOnDelimiter]: the parts between the occurrences of a delimiter, and
    what follows the last one unless it is empty. *)
Fixpoint split_on (fuel : nat) (content delim : bytes) : list bytes :=
  match fuel with
  | O => []
  | S fuel =>
      match str_find delim content with
      | Some n => if bool_decide (content = []) then [] else take n content :: split_on fuel (drop (n + length delim) content) delim
      | None => match content with [] => [] | _ => [content] end
      end
  end.
Definition SplitStringOnDelimiter (content delim : bytes) : list bytes := split_on (S (length content)) content delim.

(** [std::stoi] *)
Definition stoi (s : bytes) : res Z :=
  let s1 := drop_spaces s in
  let '(neg, s2) := match s1 with
                    | 45 :: r => (true, r) | 43 :: r => (false, r) | _ => (false, s1) end in
  let '(v, n, _) := digits 10 0 0 s2 in
  if (n =? 0)%nat then Throws
  else
    let v := if neg : bool then - v else v in
    if (v <? INT_MIN) || (INT_MAX <? v) then Throws else Ret v.

(** ** The parser *)

Record CommandStruct := {
  CommandNumber : Z; CommandName : bytes; CommandAbbreviatedDescription : bytes; CommandDescription : bytes;
  CommandBugs : bytes; c_IsHidden : bool
}.

Section Parser.
Context {T Opt : Type} `{Targets T Opt}.

Record SwitchStruct := { s_Target : T; s_OptionsList : list bytes; s_HelpMessage : bytes; s_IsHidden : bool }.
Record ParamStruct := {
  p_Target : T; p_Type : ArgumentTypes; p_OptionsList : list bytes; p_Delimiter : bytes; p_ArgumentCount : Z;
  p_IgnoreCase : bool; p_HelpMessage : bytes; p_IsHidden : bool
}.

Record parser := {
  CurrentCommandNumber : Z; GlobalDescription : bytes; GlobalBugs : bytes; MiscCounters : gmap bytes Z;
  Commands : list CommandStruct; CommandNameToNumberLookup : gmap bytes Z;
  GlobalSwitches : list SwitchStruct; GlobalParams : list ParamStruct;
  CommandSpecificSettings : gmap bytes (list ParamStruct); CommandSpecificSwitches : gmap bytes (list SwitchStruct);
  CommandSpecificParams : gmap bytes (list ParamStruct); ToolName : bytes; RawArguments : list bytes; Options : Opt
}.

(** Reading a map with [operator[]] gives an empty value for a missing key. *)
Definition at_key {V} (k : bytes) (m : gmap bytes (list V)) : list V := default [] (m !! k).

(** *** Registration *)

Definition MAX_ARGUMENT_VARIATIONS : nat := 3.

(** Keep the larger of the counter and [v] ([operator[]] starts it at zero). *)
Definition raise_counter (k : bytes) (v : Z) (m : gmap bytes Z) : gmap bytes Z :=
  let cur := default 0 (m !! k) in <[k := if cur <? v then v else cur]> m.

(** Assignments to the members. *)
Definition with_commands (cs : list CommandStruct) (names counters : gmap bytes Z)
    (sw : gmap bytes (list SwitchStruct)) (pa : gmap bytes (list ParamStruct)) (p : parser) : parser :=
  {| CurrentCommandNumber := CurrentCommandNumber p; GlobalDescription := GlobalDescription p; GlobalBugs := GlobalBugs p;
     MiscCounters := counters; Commands := cs; CommandNameToNumberLookup := names;
     GlobalSwitches := GlobalSwitches p; GlobalParams := GlobalParams p;
     CommandSpecificSettings := CommandSpecificSettings p; CommandSpecificSwitches := sw;
     CommandSpecificParams := pa; ToolName := ToolName p; RawArguments := RawArguments p; Options := Options p |}.
Definition with_text (desc bugs : bytes) (cs : list CommandStruct) (p : parser) : parser :=
  {| CurrentCommandNumber := CurrentCommandNumber p; GlobalDescription := desc; GlobalBugs := bugs;
     MiscCounters := MiscCounters p; Commands := cs; CommandNameToNumberLookup := CommandNameToNumberLookup p;
     GlobalSwitches := GlobalSwitches p; GlobalParams := GlobalParams p;
     CommandSpecificSettings := CommandSpecificSettings p; CommandSpecificSwitches := CommandSpecificSwitches p;
     CommandSpecificParams := CommandSpecificParams p; ToolName := ToolName p; RawArguments := RawArguments p;
     Options := Options p |}.
Definition with_options (gs : list SwitchStruct) (gp : list ParamStruct) (counters : gmap bytes Z)
    (se : gmap bytes (list ParamStruct)) (sw : gmap bytes (list SwitchStruct)) (pa : gmap bytes (list ParamStruct))
    (p : parser) : parser :=
  {| CurrentCommandNumber := CurrentCommandNumber p; GlobalDescription := GlobalDescription p; GlobalBugs := GlobalBugs p;
     MiscCounters := counters; Commands := Commands p; CommandNameToNumberLookup := CommandNameToNumberLookup p;
     GlobalSwitches := gs; GlobalParams := gp; CommandSpecificSettings := se; CommandSpecificSwitches := sw;
     CommandSpecificParams := pa; ToolName := ToolName p; RawArguments := RawArguments p; Options := Options p |}.
Definition with_state (n : Z) (raw : list bytes) (o : Opt) (p : parser) : parser :=
  {| CurrentCommandNumber := n; GlobalDescription := GlobalDescription p; GlobalBugs := GlobalBugs p;
     MiscCounters := MiscCounters p; Commands := Commands p; CommandNameToNumberLookup := CommandNameToNumberLookup p;
     GlobalSwitches := GlobalSwitches p; GlobalParams := GlobalParams p;
     CommandSpecificSettings := CommandSpecificSettings p; CommandSpecificSwitches := CommandSpecificSwitches p;
     CommandSpecificParams := CommandSpecificParams p; ToolName := ToolName p; RawArguments := raw; Options := o |}.

Definition commands_key : bytes := b "Commands Offset".
Definition global_key : bytes := b "Global Options Offset".
Definition settings_key (cmd : bytes) : bytes := b "Command Specific Settings Offset: " ++ cmd.
Definition options_key (cmd : bytes) : bytes := b "Command Specific Options Offset: " ++ cmd.

Definition AddCommand (name abbrev : bytes) (p : parser) : parser :=
  let num := Z.of_nat (length (Commands p)) + 1 in
  let c := {| CommandNumber := num; CommandName := name; CommandAbbreviatedDescription := abbrev;
              CommandDescription := []; CommandBugs := []; c_IsHidden := false |} in
  let key := StringToLowerCase name in
  with_commands (Commands p ++ [c]) (<[key := num]> (CommandNameToNumberLookup p))
    (raise_counter commands_key (Z.of_nat (length name) + 2) (MiscCounters p))
    (<[key := []]> (CommandSpecificSwitches p)) (<[key := []]> (CommandSpecificParams p)) p.

(** The [OptionCount] arguments of a variadic function, joined by newlines; [stack] is
    what can be read, the arguments and what lies behind them. *)
Fixpoint va_join (first : bool) (count : nat) (stack : list bytes) (acc : bytes) : res bytes :=
  match count with
  | O => Ret acc
  | S count =>
      match stack with
      | [] => Undef
      | a :: stack => va_join false count stack ((if first then acc else acc ++ [10]) ++ a)
      end
  end.

Definition AddGlobalDescription (count : nat) (stack : list bytes) (p : parser) : res parser :=
  d <~ va_join true count stack (GlobalDescription p); Ret (with_text d (GlobalBugs p) (Commands p) p).
Definition AddGlobalBugs (count : nat) (stack : list bytes) (p : parser) : res parser :=
  d <~ va_join true count stack (GlobalBugs p); Ret (with_text (GlobalDescription p) d (Commands p) p).

(** The command of a name; an unknown one has the index [-1]. *)
Definition command_index (name : bytes) (p : parser) : res nat :=
  match CommandNameToNumberLookup p !! StringToLowerCase name with
  | None => Undef
  | Some n => if n =? 0 then Undef else Ret (Z.to_nat (n - 1))
  end.

Definition AddCommandSpecificDescription (name : bytes) (count : nat) (stack : list bytes) (p : parser) : res parser :=
  i <~ command_index name p;
  c <~ or_undef (Commands p !! i);
  d <~ va_join true count stack (CommandDescription c);
  Ret (with_text (GlobalDescription p) (GlobalBugs p)
    (<[i := {| CommandNumber := CommandNumber c; CommandName := CommandName c;
               CommandAbbreviatedDescription := CommandAbbreviatedDescription c; CommandDescription := d;
               CommandBugs := CommandBugs c; c_IsHidden := c_IsHidden c |}]> (Commands p)) p).
Definition AddCommandSpecificBugs (name : bytes) (count : nat) (stack : list bytes) (p : parser) : res parser :=
  i <~ command_index name p;
  c <~ or_undef (Commands p !! i);
  d <~ va_join true count stack (CommandBugs c);
  Ret (with_text (GlobalDescription p) (GlobalBugs p)
    (<[i := {| CommandNumber := CommandNumber c; CommandName := CommandName c;
               CommandAbbreviatedDescription := CommandAbbreviatedDescription c;
               CommandDescription := CommandDescription c; CommandBugs := d; c_IsHidden := c_IsHidden c |}]> (Commands p)) p).

(** The width of a switch in the help screen. *)
Definition switch_offset (opts : list bytes) : Z :=
  fold_left (fun n o => n + Z.of_nat (length o)) opts (Z.of_nat (length opts) * 2).

Definition VALUE : bytes := b "<VALUE>".

(** The form of the value of a parameter. *)
Definition expression_string (ty : ArgumentTypes) (delim : bytes) (count : Z) : bytes :=
  match ty with
  | STRING_VECTOR | INTEGER_VECTOR => VALUE ++ delim ++ VALUE ++ delim ++ b "..."
  | _ => match Z.to_nat count with
         | O => []
         | S n => fold_left (fun s _ => s ++ delim ++ VALUE) (seq 0 n) VALUE
         end
  end.
Definition param_offset (ty : ArgumentTypes) (delim : bytes) (count : Z) (opts : list bytes) : Z :=
  Z.of_nat (length (expression_string ty delim count)) + 3
  + fold_left (fun n o => Z.max n (Z.of_nat (length o))) opts 0.

(** The check the registration functions start with. *)
Definition variations_ok (opts : list bytes) : res unit :=
  if (MAX_ARGUMENT_VARIATIONS <? length opts)%nat then Exits 1 else Ret tt.

Definition AddGlobalSwitch (t : T) (help : bytes) (hidden : bool) (opts : list bytes) (p : parser) : res parser :=
  _ <~ variations_ok opts;
  Ret (with_options
    (GlobalSwitches p ++ [{| s_Target := t; s_OptionsList := opts; s_HelpMessage := help; s_IsHidden := hidden |}])
    (GlobalParams p) (raise_counter global_key (switch_offset opts) (MiscCounters p))
    (CommandSpecificSettings p) (CommandSpecificSwitches p) (CommandSpecificParams p) p).

Definition new_param (t : T) (ty : ArgumentTypes) (ignore : bool) (delim : bytes) (count : Z) (help : bytes) (hidden : bool)
    (opts : list bytes) : ParamStruct :=
  {| p_Target := t; p_Type := ty; p_OptionsList := opts; p_Delimiter := delim; p_ArgumentCount := count;
     p_IgnoreCase := ignore; p_HelpMessage := help; p_IsHidden := hidden |}.

Definition AddGlobalParam (t : T) (ty : ArgumentTypes) (ignore : bool) (delim : bytes) (count : Z) (help : bytes)
    (hidden : bool) (opts : list bytes) (p : parser) : res parser :=
  _ <~ variations_ok opts;
  Ret (with_options (GlobalSwitches p) (GlobalParams p ++ [new_param t ty ignore delim count help hidden opts])
    (raise_counter global_key (param_offset ty delim count opts) (MiscCounters p))
    (CommandSpecificSettings p) (CommandSpecificSwitches p) (CommandSpecificParams p) p).

Definition AddCommandSpecificSetting (cmd : bytes) (t : T) (ty : ArgumentTypes) (ignore : bool) (delim : bytes) (count : Z)
    (help : bytes) (opts : list bytes) (p : parser) : res parser :=
  let k := StringToLowerCase cmd in
  _ <~ variations_ok opts;
  Ret (with_options (GlobalSwitches p) (GlobalParams p)
    (raise_counter (settings_key k) (param_offset ty delim count opts) (MiscCounters p))
    (<[k := at_key k (CommandSpecificSettings p) ++ [new_param t ty ignore delim count help false opts]]>
      (CommandSpecificSettings p))
    (CommandSpecificSwitches p) (CommandSpecificParams p) p).

Definition AddCommandSpecificSwitch (cmd : bytes) (t : T) (help : bytes) (hidden : bool) (opts : list bytes) (p : parser)
    : res parser :=
  let k := StringToLowerCase cmd in
  _ <~ variations_ok opts;
  Ret (with_options (GlobalSwitches p) (GlobalParams p)
    (raise_counter (options_key k) (switch_offset opts) (MiscCounters p)) (CommandSpecificSettings p)
    (<[k := at_key k (CommandSpecificSwitches p)
            ++ [{| s_Target := t; s_OptionsList := opts; s_HelpMessage := help; s_IsHidden := hidden |}]]>
      (CommandSpecificSwitches p))
    (CommandSpecificParams p) p).

Definition AddCommandSpecificParam (cmd : bytes) (t : T) (ty : ArgumentTypes) (ignore : bool) (delim : bytes) (count : Z)
    (help : bytes) (opts : list bytes) (p : parser) : res parser :=
  let k := StringToLowerCase cmd in
  _ <~ variations_ok opts;
  Ret (with_options (GlobalSwitches p) (GlobalParams p)
    (raise_counter (options_key k) (param_offset ty delim count opts) (MiscCounters p))
    (CommandSpecificSettings p) (CommandSpecificSwitches p)
    (<[k := at_key k (CommandSpecificParams p) ++ [new_param t ty ignore delim count help false opts]]>
      (CommandSpecificParams p)) p).

(** *** Values *)

(** One segment of a value. *)
Definition store_segment (pa : ParamStruct) (i : nat) (seg : bytes) (o : Opt) : res Opt :=
  let seg := if p_IgnoreCase pa then StringToLowerCase seg else seg in
  match p_Type pa with
  | STRING => put_string (p_Target pa) i seg o
  | INTEGER => n <~ stoi seg; put_int (p_Target pa) i n o
  | STRING_VECTOR => push_string (p_Target pa) seg o
  | INTEGER_VECTOR => n <~ stoi seg; push_int (p_Target pa) n o
  | PATH => put_path (p_Target pa) i seg o
  | NONE => Ret o
  end.

(** The loop over the segments, from the count [i] on; each takes a character, so the
    length of the text is enough fuel. *)
Fixpoint extract_loop (fuel : nat) (pa : ParamStruct) (args : bytes) (i : nat) (o : Opt) : res (nat * Opt) :=
  match args, fuel with
  | [], _ => Ret (i, o)
  | _, O => Undef
  | _, S fuel =>
      let '(seg, rest) :=
        match str_find (p_Delimiter pa) args with
        | Some n => if bool_decide (p_Delimiter pa = []) then (args, [])
                    else (take n args, drop (n + length (p_Delimiter pa)) args)
        | None => (args, [])
        end in
      o <~ store_segment pa i seg o;
      extract_loop fuel pa rest (S i) o
  end.

Definition ExtractAndStoreParamInfo (pa : ParamStruct) (args : bytes) (o : Opt) : res (bool * Opt) :=
  r <~ extract_loop (length args) pa args 0 o;
  let n := Z.of_nat (fst r) in
  Ret (if negb (p_ArgumentCount pa =? 0) && negb (n =? p_ArgumentCount pa) then false
       else if (p_ArgumentCount pa =? 0) && (n =? 0) then false else true, snd r).

(** *** Matching an argument *)

(** The parameter of a list an argument is for, and where its value starts: the first
    option whose name and equals sign occur anywhere in it. *)
Definition match_variation (arg opt : bytes) : option nat :=
  let cmd := StringToLowerCase opt ++ [61] in
  if contains cmd (StringToLowerCase arg) then Some (length cmd) else None.
Fixpoint match_variations (arg : bytes) (opts : list bytes) : option nat :=
  match opts with
  | [] => None
  | o :: opts => match match_variation arg o with Some n => Some n | None => match_variations arg opts end
  end.
Fixpoint match_param (arg : bytes) (ps : list ParamStruct) : option (ParamStruct * nat) :=
  match ps with
  | [] => None
  | pa :: ps => match match_variations arg (p_OptionsList pa) with Some n => Some (pa, n) | None => match_param arg ps end
  end.

(** Store the value; a count that does not fit is only reported. *)
Definition take_param (arg : bytes) (m : ParamStruct * nat) (o : Opt) : res Opt :=
  v <~ or_throws (substr (snd m) arg);
  r <~ ExtractAndStoreParamInfo (fst m) v o;
  Ret (snd r).

Definition match_switch (arg : bytes) (ss : list SwitchStruct) : option SwitchStruct :=
  List.find (fun s => existsb (fun o => str_eqb (StringToLowerCase arg) (StringToLowerCase o)) (s_OptionsList s)) ss.

(** The options of a stage: parameters first, then switches. *)
Definition CheckForGlobalOptions (arg : bytes) (p : parser) : res (option Opt) :=
  match match_param arg (GlobalParams p) with
  | Some m => o <~ take_param arg m (Options p); Ret (Some o)
  | None =>
      match match_switch arg (GlobalSwitches p) with
      | Some s => Ret (Some (set_switch (s_Target s) (Options p)))
      | None => Ret None
      end
  end.

Definition CheckForCommandChange (arg : bytes) (p : parser) : option Z :=
  CommandNameToNumberLookup p !! StringToLowerCase arg.

(** Without a current command this indexes the vector with [-1]. *)
Definition CheckForCommandSpecificOptions (arg : bytes) (p : parser) : res (option Opt) :=
  if CurrentCommandNumber p =? 0 then Undef
  else
    c <~ or_undef (Commands p !! Z.to_nat (CurrentCommandNumber p - 1));
    let k := StringToLowerCase (CommandName c) in
    match match_param arg (at_key k (CommandSpecificSettings p)) with
    | Some m => o <~ take_param arg m (Options p); Ret (Some o)
    | None =>
        match match_param arg (at_key k (CommandSpecificParams p)) with
        | Some m => o <~ take_param arg m (Options p); Ret (Some o)
        | None =>
            match match_switch arg (at_key k (CommandSpecificSwitches p)) with
            | Some s => Ret (Some (set_switch (s_Target s) (Options p)))
            | None => Ret None
            end
        end
    end.

(** Whether the argument was taken, and the parser. *)
Definition ProcessSingleCommand (arg : bytes) (p : parser) : res (bool * parser) :=
  g <~ CheckForGlobalOptions arg p;
  match g with
  | Some o => Ret (true, with_state (CurrentCommandNumber p) (RawArguments p) o p)
  | None =>
      match (if CurrentCommandNumber p =? 0 then CheckForCommandChange arg p else None) with
      | Some n => Ret (true, with_state n (RawArguments p) (Options p) p)
      | None =>
          s <~ CheckForCommandSpecificOptions arg p;
          match s with
          | Some o => Ret (true, with_state (CurrentCommandNumber p) (RawArguments p) o p)
          | None => Ret (false, p)
          end
      end
  end.

(** The arguments in turn, up to one that is not taken. *)
Fixpoint parse_all (args : list bytes) (p : parser) : res (bool * parser) :=
  match args with
  | [] => Ret (true, p)
  | a :: args =>
      let p := with_state (CurrentCommandNumber p) (RawArguments p ++ [a]) (Options p) p in
      r <~ ProcessSingleCommand a p;
      if fst r then parse_all args (snd r) else Ret r
  end.

(** [constraints] is the virtual [ConstraintFunction]. *)
Definition ParseCommands (constraints : parser -> res (bool * parser)) (args : list bytes) (p : parser)
    : res (bool * parser) :=
  r <~ parse_all args p;
  if fst r then constraints (snd r) else Ret r.

Definition GetCurrentCommand (p : parser) : res (option CommandStruct) :=
  if CurrentCommandNumber p =? 0 then Ret None
  else c <~ or_undef (Commands p !! Z.to_nat (CurrentCommandNumber p - 1)); Ret (Some c).

(** *** Breaking lines *)

Definition HELP_MESSAGE_MAX_LENGTH : Z := 110.

(** The parts of a text between newlines, at least one. *)
Fixpoint lines (s : bytes) : list bytes :=
  match s with
  | [] => [[]]
  | c :: s => match lines s with
              | l :: ls => if c =? 10 then [] :: l :: ls else (c :: l) :: ls
              | [] => [[c]]
              end
  end.

(** The text without line ends ([erase] of [remove], twice). *)
Definition strip (s : bytes) : bytes := erase_char 13 (erase_char 10 s).

(** [s.at(i)]: throws behind the end. *)
Definition char_at (s : bytes) (i : Z) : res Z :=
  if i <? Z.of_nat (length s) then or_throws (s !! Z.to_nat i) else Throws.

(** The loops on [SplitSize], a [uint32_t]: step back while the character [off] behind
    it satisfies [f].  An index below the length is met only once, so the length is
    enough fuel. *)
Fixpoint step_back (fuel : nat) (f : Z -> bool) (off : Z) (s : bytes) (i : Z) : res Z :=
  c <~ char_at s (u32 (i + off));
  if f c then match fuel with O => Undef | S fuel => step_back fuel f off s (u32 (i - 1)) end
  else Ret i.

(** Where a long line is cut: behind the first blank that follows the last word that
    ends early enough. *)
Definition split_size (max : Z) (s : bytes) : res Z :=
  i <~ step_back (S (length s)) (fun c => negb (c =? 32)) 1 s max;
  i <~ step_back (S (length s)) (fun c => c =? 32) 0 s i;
  Ret (u32 (i + 1)).

(** The lines a line is broken into: [limit] is the length that is left alone.  Each
    takes characters off, so the length is enough fuel. *)
Fixpoint break_line (fuel : nat) (limit max : Z) (s : bytes) : res (list bytes) :=
  if limit <? Z.of_nat (length s) then
    match fuel with
    | O => Undef
    | S fuel =>
        i <~ split_size max s;
        let n := Z.to_nat (u32 (i + 1)) in
        rest <~ or_throws (substr n s);
        ls <~ break_line fuel limit max rest;
        Ret (take n s :: ls)
    end
  else Ret [s].

(** Every line but the last has one less character to spare. *)
Fixpoint break_lines (max : Z) (ls : list bytes) : res (list bytes) :=
  match ls with
  | [] => Ret []
  | [l] => break_line (S (length l)) (u32 (max + 1)) max (strip l)
  | l :: ls =>
      a <~ break_line (S (length l)) max max (strip l);
      r <~ break_lines max ls;
      Ret (a ++ r)
  end.

Definition spaces (n : nat) : bytes := replicate n 32.

Definition join_lines (ls : list bytes) : bytes :=
  match ls with
  | [] => []
  | l :: ls => l ++ concat (map (cons 10) ls)
  end.

(** Every line behind the first is indented; the first begins with the header. *)
Definition indent_lines (first other : bytes) (ls : list bytes) : list bytes :=
  match ls with
  | [] => []
  | l :: ls => (first ++ strip l) :: map (fun l => other ++ strip l) ls
  end.

Definition FormatHelpMessage (Whitespace : nat) (Header Content : bytes) : res bytes :=
  let header := Header ++ spaces (Whitespace - length Header) in
  let max := u32 (HELP_MESSAGE_MAX_LENGTH - Z.of_nat Whitespace) in
  ls <~ break_lines max (lines Content);
  Ret (join_lines (indent_lines header (spaces Whitespace) (lines (join_lines ls)))).

(** *** The help screen *)

(** The formatted output goes through a buffer of 4096 characters; what a longer one
    leaves there is not specified. *)
Definition buffered (s : bytes) : res bytes := if (4096 <=? length s)%nat then Undef else Ret s.

(** Each line of an expanded format behind the indentation of the tool. *)
Definition FormatOutput (indent : nat) (s : bytes) : res bytes :=
  s <~ buffered s;
  Ret (join_lines (map (fun l => concat (replicate indent (b "  ")) ++ strip l) (lines s))).

(** A text that is used as a format must not have a conversion. *)
Definition as_format (s : bytes) : res bytes := if existsb (fun c => c =? 37) s then Undef else Ret s.
Definition FormatOutputWithOffset (offset indent : nat) (s : bytes) : res bytes :=
  s <~ buffered s; s <~ as_format s; FormatOutput (indent + offset) s.

(** Lines written to the output. *)
Fixpoint put_lines (ls : list (res bytes)) (out : bytes) : res bytes :=
  match ls with
  | [] => Ret out
  | l :: ls => l <~ l; put_lines ls (out ++ l ++ [10])
  end.

Section Help.
Variable indent : nat.

(** A counter as a column, a [uint32_t]. *)
Definition counter (k : bytes) (p : parser) : nat := Z.to_nat (u32 (default 0 (MiscCounters p !! k))).

Definition entry (ws : nat) (head text : bytes) : res bytes :=
  m <~ FormatHelpMessage ws head text; FormatOutputWithOffset 1 indent m.
Definition heading (text : string) : list (res bytes) := [Ret []; FormatOutput indent (b text); Ret []].

(** A switch with its variations on one line; a parameter with a line for each. *)
Definition switch_lines (ws : nat) (s : SwitchStruct) : list (res bytes) :=
  if s_IsHidden s then []
  else [entry ws (match s_OptionsList s with
                  | [] => []
                  | o :: os => fold_left (fun acc o => acc ++ b ", " ++ o) os o
                  end) (s_HelpMessage s)].
Definition param_lines (ws : nat) (pa : ParamStruct) : list (res bytes) :=
  if p_IsHidden pa then []
  else map (fun o => entry ws (o ++ [61] ++ expression_string (p_Type pa) (p_Delimiter pa) (p_ArgumentCount pa))
                       (p_HelpMessage pa)) (p_OptionsList pa).

Definition nonempty {A} (l : list A) : bool := match l with [] => false | _ => true end.

Definition command_help (c : CommandStruct) (p : parser) : list (res bytes) :=
  let k := StringToLowerCase (CommandName c) in
  let settings := at_key k (CommandSpecificSettings p) in
  let switches := at_key k (CommandSpecificSwitches p) in
  let params := at_key k (CommandSpecificParams p) in
  let usage := ToolName p ++ b " " ++ CommandName c
    ++ (if nonempty settings then b " <settings> ..." else [])
    ++ (if nonempty switches || nonempty params then b " [<options>]" else [])
    ++ (if nonempty (GlobalSwitches p) || nonempty (GlobalParams p) then b " [<global-options>]" else []) in
  [s <~ as_format usage; FormatOutput indent s]
  ++ (if nonempty settings
      then heading "Settings:" ++ concat (map (param_lines (counter (settings_key k) p)) settings) else [])
  ++ (if nonempty switches || nonempty params
      then heading "Options:" ++ concat (map (switch_lines (counter (options_key k) p)) switches)
           ++ concat (map (param_lines (counter (options_key k) p)) params) else []).

Definition overview (p : parser) : list (res bytes) :=
  [FormatOutput indent (b "1) " ++ ToolName p ++ b " [<global-options>]");
   FormatOutput indent (b "2) " ++ ToolName p ++ b " <command> [<options>] [<global-options>]")]
  ++ heading "Supported Commands:"
  ++ concat (map (fun c => if c_IsHidden c then []
                           else [entry (counter commands_key p) (CommandName c) (CommandAbbreviatedDescription c)])
              (Commands p)).

(** The two texts at the end, each under its heading unless it is empty. *)
Definition closing (title : string) (text : bytes) : list (res bytes) :=
  if nonempty text then heading title ++ [entry 0 [] text] else [].

Definition ShowHelpMessage (p : parser) : res bytes :=
  cur <~ GetCurrentCommand p;
  put_lines
    (match cur with None => overview p | Some c => command_help c p end
     ++ heading "Globally Available Options:"
     ++ concat (map (switch_lines (counter global_key p)) (GlobalSwitches p))
     ++ concat (map (param_lines (counter global_key p)) (GlobalParams p))
     ++ closing "Description:" (match cur with None => GlobalDescription p | Some c => CommandDescription c end)
     ++ closing "Bugs:" (match cur with None => GlobalBugs p | Some c => CommandBugs c end)) [].
End Help.

End Parser.

(** ** Text of the help screen *)

(** Texts the line breaking is made for: no blank at the start, none behind another,
    and no word of more than [m] characters. *)
Definition well_spaced (m : nat) (s : bytes) : Prop :=
  s !! 0%nat <> Some 32 /\ (forall i, s !! i = Some 32 -> s !! S i <> Some 32)
  /\ (forall i, (i + m < length s)%nat -> exists j, (i <= j <= i + m)%nat /\ s !! j = Some 32).

Lemma well_spaced_drop m s j : well_spaced m s -> s !! j = Some 32 -> well_spaced m (drop (S j) s).
Proof.
  intros (H0 & H1 & H2) Hj. repeat split.
  - rewrite lookup_drop, Nat.add_0_r. by apply H1.
  - intros i. rewrite !lookup_drop. replace (S j + S i)%nat with (S (S j + i)) by lia. apply H1.
  - intros i. rewrite length_drop. intros Hi. destruct (H2 (S j + i)%nat) as (k & Hk & E); [lia|].
    exists (k - S j)%nat. rewrite lookup_drop. replace (S j + (k - S j))%nat with k by lia. split; [lia|done].
Qed.

Lemma char_at_Some s i c : s !! i = Some c -> char_at s (Z.of_nat i) = Ret c.
Proof.
  intros E. pose proof (lookup_lt_Some _ _ _ E). unfold char_at.
  rewrite (proj2 (Z.ltb_lt _ _)) by lia. by rewrite Nat2Z.id, E.
Qed.

(** Stepping back finds the last blank at or before its start. *)
Lemma step_back_blank s k fuel :
  Z.of_nat (length s) < 2 ^ 32 - 1 -> (S k < length s)%nat -> (k <= fuel)%nat ->
  (exists j, (j <= k)%nat /\ s !! S j = Some 32) ->
  exists r, (r <= k)%nat /\ s !! S r = Some 32
    /\ step_back fuel (fun c => negb (c =? 32)) 1 s (Z.of_nat k) = Ret (Z.of_nat r).
Proof.
  intros L. revert fuel. induction k as [|k IH]; intros fuel Hk Hf (j & Hj & Ej).
  - assert (j = O) as -> by lia. exists O. repeat split; [lia|done|].
    destruct fuel; cbn [step_back]; rewrite u32_small by lia;
      change (Z.of_nat 0 + 1) with (Z.of_nat 1); by rewrite (char_at_Some _ _ _ Ej).
  - destruct fuel as [|fuel]; [lia|]. cbn [step_back]. rewrite u32_small by lia.
    replace (Z.of_nat (S k) + 1) with (Z.of_nat (S (S k))) by lia.
    destruct (lookup_lt_is_Some_2 s (S (S k))) as [c Ec]; [lia|]. rewrite (char_at_Some _ _ _ Ec). cbn.
    destruct (Z.eqb_spec c 32) as [->|N]; cbn [negb].
    + exists (S k). repeat split; [lia|done].
    + rewrite u32_small by lia. replace (Z.of_nat (S k) - 1) with (Z.of_nat k) by lia.
      destruct (IH fuel) as (r & Hr & Er & E); [lia|lia| |].
      * exists j. split; [|done]. assert (j <> S k) by (intros ->; congruence). lia.
      * exists r. repeat split; [lia|done|done].
Qed.

Lemma split_size_blank m s :
  Z.of_nat (length s) < 2 ^ 32 - 2 -> well_spaced m s -> (0 < m)%nat -> (m + 1 < length s)%nat ->
  exists j, (j <= m + 1)%nat /\ s !! j = Some 32 /\ split_size (Z.of_nat m) s = Ret (Z.of_nat j).
Proof.
  intros L (H0 & H1 & H2) Hm Hs. destruct (H2 O) as (j & Hj & Ej); [lia|].
  assert (j <> O) by (intros ->; done). destruct j as [|j]; [done|].
  destruct (step_back_blank s m (S (length s))) as (r & Hr & Er & E); [lia|lia|lia|exists j; split; [lia|done]|].
  exists (S r). repeat split; [lia|done|]. unfold split_size. rewrite E. cbn [rbind].
  destruct (lookup_lt_is_Some_2 s r) as [c Ec]; [apply lookup_lt_Some in Er; lia|].
  cbn [step_back]. rewrite Z.add_0_r, u32_small by (apply lookup_lt_Some in Er; lia).
  rewrite (char_at_Some _ _ _ Ec). cbn [rbind].
  rewrite (proj2 (Z.eqb_neq c 32)) by (intros ->; by apply (H1 r)). cbn [rbind].
  rewrite u32_small by (apply lookup_lt_Some in Er; lia). f_equal. lia.
Qed.

Lemma break_line_cons fuel limit max s : break_line fuel limit max s <> Ret [].
Proof.
  destruct fuel; cbn [break_line]; destruct (_ <? _); try done.
  destruct (split_size max s); cbn [rbind]; try done. destruct (substr _ s); cbn [rbind or_throws]; try done.
  by destruct (break_line _ _ _ _).
Qed.

(** A well spaced line is broken at blanks into pieces that give it back. *)
Lemma break_line_ok m s fuel :
  (length s <= fuel)%nat -> Z.of_nat (length s) < 2 ^ 32 - 2 -> well_spaced m s -> (0 < m)%nat ->
  exists ps, break_line fuel (Z.of_nat m + 1) (Z.of_nat m) s = Ret ps
    /\ concat ps = s /\ Forall (fun p => (length p <= m + 2)%nat) ps.
Proof.
  revert s. induction fuel as [|fuel IH]; intros s Hf L W Hm.
  - exists [s]. cbn [break_line]. rewrite (proj2 (Z.ltb_ge _ _)) by lia. cbn. rewrite app_nil_r.
    repeat split. constructor; [lia|done].
  - cbn [break_line]. destruct (Z.ltb_spec (Z.of_nat m + 1) (Z.of_nat (length s))) as [B|B].
    + destruct (split_size_blank m s) as (j & Hj & Ej & E); [done|done|done|lia|]. rewrite E. cbn [rbind].
      pose proof (lookup_lt_Some _ _ _ Ej) as Lj. rewrite u32_small by lia.
      replace (Z.to_nat (Z.of_nat j + 1)) with (S j) by lia. unfold substr.
      rewrite (proj2 (Nat.leb_le _ _)) by lia. cbn [or_throws rbind].
      destruct (IH (drop (S j) s)) as (ps & E' & C & F).
      * rewrite length_drop. lia.
      * rewrite length_drop. lia.
      * by apply well_spaced_drop.
      * done.
      * rewrite E'. cbn [rbind]. exists (take (S j) s :: ps). split; [done|].
        cbn. split; [rewrite C; change (take (S j) s ++ drop (S j) s = s); apply take_drop|].
        constructor; [rewrite length_take; lia|done].
    + exists [s]. cbn. rewrite app_nil_r. repeat split. constructor; [lia|done].
Qed.

Lemma lines_plain s : 10 ∉ s -> lines s = [s].
Proof.
  induction s as [|c s IH]; intros N; [done|]. apply not_elem_of_cons in N as [Nc N]. cbn. rewrite (IH N).
  by rewrite (proj2 (Z.eqb_neq c 10)) by done.
Qed.

Lemma lines_newline s t : 10 ∉ s -> lines (s ++ 10 :: t) = s :: lines t.
Proof.
  induction s as [|c s IH]; intros N.
  - change ([] ++ 10 :: t) with (10 :: t). cbn. destruct (lines t) eqn:E; [|done].
    destruct t as [|d t]; [done|]. cbn in E. destruct (lines t); [done|]. by destruct (d =? 10).
  - apply not_elem_of_cons in N as [Nc N]. cbn. change (lines (s ++ 10 :: t)) with (lines (s ++ 10 :: t)).
    rewrite (IH N). by rewrite (proj2 (Z.eqb_neq c 10)) by done.
Qed.

Lemma lines_join ls : ls <> [] -> Forall (fun l => 10 ∉ l) ls -> lines (join_lines ls) = ls.
Proof.
  destruct ls as [|l ls]; [done|]. intros _. revert l. induction ls as [|l' ls IH]; intros l F; inversion F; subst.
  - cbn. rewrite app_nil_r. by apply lines_plain.
  - cbn. change (lines (l ++ 10 :: join_lines (l' :: ls)) = l :: l' :: ls). rewrite lines_newline by done. by rewrite IH.
Qed.

Lemma erase_plain c s : c ∉ s -> erase_char c s = s.
Proof.
  unfold erase_char. induction s as [|x s IH]; [done|]. intros [N1 N2]%not_elem_of_cons.
  rewrite filter_cons_True by done. by rewrite IH.
Qed.

Lemma strip_plain s : 10 ∉ s -> 13 ∉ s -> strip s = s.
Proof.
  intros N1 N2. unfold strip. by rewrite (erase_plain 10 s N1), (erase_plain 13 s N2).
Qed.

Lemma Forall_concat_elem {A} (x : A) (ls : list (list A)) : x ∉ concat ls -> Forall (fun l => x ∉ l) ls.
Proof.
  induction ls as [|l ls IH]; cbn; intros N; [constructor|]. apply not_elem_of_app in N as [N1 N2]. auto.
Qed.

(** Indented lines that have no line ends. *)
Lemma indent_plain a i ls :
  Forall (fun l => 10 ∉ l) ls -> Forall (fun l => 13 ∉ l) ls ->
  indent_lines a i ls = match ls with [] => [] | l :: ls => (a ++ l) :: map (app i) ls end.
Proof.
  destruct ls as [|l ls]; [done|]. intros [N1 F1]%Forall_cons [N2 F2]%Forall_cons. cbn. rewrite strip_plain by done.
  f_equal. apply map_ext_in. intros x Hx%list_elem_of_In.
  rewrite Forall_forall in F1. rewrite Forall_forall in F2. rewrite strip_plain; auto.
Qed.

(** A help text of one line whose words fit is always formatted: it is broken into
    lines of at most two characters more than the column has, the first behind the
    header, the others behind blanks, and no character of it is lost. *)
Theorem help_text_kept ws header content :
  (ws < 110)%nat -> Z.of_nat (length content) < 2 ^ 32 - 2 -> 10 ∉ content -> 13 ∉ content ->
  well_spaced (110 - ws) content ->
  exists p ps, concat (p :: ps) = content /\ Forall (fun l => (length l <= 112 - ws)%nat) (p :: ps)
    /\ FormatHelpMessage ws header content
       = Ret (join_lines ((header ++ spaces (ws - length header) ++ p) :: map (app (spaces ws)) ps)).
Proof.
  intros Hw L N1 N2 W. unfold FormatHelpMessage. rewrite (lines_plain _ N1). cbn [break_lines].
  unfold HELP_MESSAGE_MAX_LENGTH. rewrite (strip_plain _ N1 N2), (u32_small (110 - Z.of_nat ws)) by lia.
  replace (110 - Z.of_nat ws) with (Z.of_nat (110 - ws)) by lia. rewrite u32_small by lia.
  destruct (break_line_ok (110 - ws) content (S (length content))) as (ps & E & C & F); [lia|done|done|lia|].
  rewrite E. cbn [rbind].
  destruct ps as [|p ps]; [by apply break_line_cons in E|].
  exists p, ps. split; [done|]. split; [eapply Forall_impl; [exact F|]; intros l Hl; cbv beta in *; lia|].
  rewrite <- C in N1, N2. rewrite lines_join; [|done|by apply Forall_concat_elem].
  rewrite indent_plain by (by apply Forall_concat_elem). by rewrite <- app_assoc.
Qed.

Lemma help_text_kept_witness :
  let content := b "Disable specified adapter (options: msft, idd, flex)" in
  exists p ps, concat (p :: ps) = content /\ Forall (fun l => (length l <= 12)%nat) (p :: ps)
    /\ FormatHelpMessage 100 (b "--disable-adapter") content
       = Ret (join_lines ((b "--disable-adapter" ++ spaces (100 - 17) ++ p) :: map (app (spaces 100)) ps)).
Proof.
  intros content. apply (help_text_kept 100 (b "--disable-adapter") content).
  - lia.
  - by vm_compute.
  - by apply (bool_decide_unpack (10 ∉ content)).
  - by apply (bool_decide_unpack (13 ∉ content)).
  - split; [by vm_compute|]. split.
    + intros i Hi. assert (i < 52)%nat by (by apply lookup_lt_Some in Hi).
      do 52 (destruct i as [|i]; [vm_compute in Hi |- *; congruence|]). lia.
    + intros i Hi. change (length content) with 52%nat in Hi. 
      assert (forall k, content !! k = Some 32 -> (i <= k <= i + 10)%nat -> exists j, (i <= j <= i + 10)%nat /\ content !! j = Some 32) as K by eauto.
      destruct (decide (i <= 7)%nat); [apply (K 7%nat); [done|lia]|].
      destruct (decide (i <= 17)%nat); [apply (K 17%nat); [done|lia]|].
      destruct (decide (i <= 25)%nat); [apply (K 25%nat); [done|lia]|].
      destruct (decide (i <= 35)%nat); [apply (K 35%nat); [done|lia]|].
      destruct (decide (i <= 41)%nat); [apply (K 41%nat); [done|lia]|].
      apply (K 46%nat); [done|lia].
Defined.

(** A line that is not the last and has exactly one character more than the column
    makes the help screen throw: the length that starts the breaking is one less than
    the one it can break. *)
Theorem long_line_throws ws header line rest :
  (ws < 110)%nat -> 10 ∉ line -> 13 ∉ line -> length line = (111 - ws)%nat ->
  FormatHelpMessage ws header (line ++ 10 :: rest) = Throws.
Proof.
  intros Hw N1 N2 L. unfold FormatHelpMessage, HELP_MESSAGE_MAX_LENGTH. rewrite (lines_newline _ _ N1).
  rewrite (u32_small (110 - Z.of_nat ws)) by lia.
  assert (break_line (S (length line)) (110 - Z.of_nat ws) (110 - Z.of_nat ws) (strip line) = Throws) as B.
  { rewrite (strip_plain _ N1 N2). cbn [break_line]. rewrite (proj2 (Z.ltb_lt _ _)) by lia. unfold split_size.
    cbn [step_back]. unfold char_at at 1. rewrite u32_small, (proj2 (Z.ltb_ge _ _)) by lia. done. }
  cbn [break_lines]. destruct (lines rest) eqn:E; [|by rewrite B].
  destruct rest as [|c rest]; [done|]. cbn in E. destruct (lines rest); [done|]. by destruct (c =? 10).
Qed.

Lemma long_line_throws_witness :
  FormatHelpMessage 100 (b "--scale") (b "Scaling set" ++ 10 :: b "for a display") = Throws.
Proof. apply (long_line_throws 100); [lia| | |done]; by apply (bool_decide_unpack (_ ∉ _)). Defined.

(** ** Values and commands *)

(** The text of several values. *)
Definition join_values (delim : bytes) (parts : list bytes) : bytes :=
  match parts with
  | [] => []
  | v :: parts => v ++ concat (map (app delim) parts)
  end.

Section ParserFacts.
Context {T Opt : Type} `{Targets T Opt}.


(** Values stored one after the other. *)
Fixpoint store_all (pa : @ParamStruct T) (i : nat) (parts : list bytes) (o : Opt) : res Opt :=
  match parts with
  | [] => Ret o
  | v :: parts => o <~ store_segment pa i v o; store_all pa (S i) parts o
  end.

Lemma join_values_cons x ds v w parts :
  join_values (x :: ds) (v :: w :: parts) = v ++ (x :: ds) ++ join_values (x :: ds) (w :: parts).
Proof. cbn. by rewrite <- !app_assoc. Qed.

Lemma extract_loop_join pa x ds parts fuel i o :
  p_Delimiter pa = x :: ds -> Forall (fun v => x ∉ v) parts -> List.last parts [] <> [] ->
  (length (join_values (x :: ds) parts) <= fuel)%nat ->
  extract_loop fuel pa (join_values (x :: ds) parts) i o
  = (o <~ store_all pa i parts o; Ret ((i + length parts)%nat, o)).
Proof.
  intros D. revert fuel i o. induction parts as [|v parts IH]; intros fuel i o F L Hf; [done|].
  apply Forall_cons in F as [Nv F]. destruct parts as [|w parts].
  - cbn in L, Hf |- *. rewrite app_nil_r in Hf |- *. destruct v as [|c v]; [done|].
    destruct fuel as [|fuel]; [cbn in Hf; lia|]. cbn [extract_loop]. rewrite D, str_find_none by done.
    destruct (store_segment pa i (c :: v) o) as [o'| | |]; cbn [rbind]; try done.
    replace (i + 1)%nat with (S i) by lia. by destruct fuel.
  - rewrite join_values_cons in Hf |- *. set (rest := join_values (x :: ds) (w :: parts)) in *.
    rewrite !length_app in Hf. cbn [length] in Hf. destruct fuel as [|fuel]; [lia|].
    destruct (v ++ (x :: ds) ++ rest) as [|c s] eqn:E; [by destruct v|].
    cbn [extract_loop]. rewrite D, <- E, str_find_skip by done.
    rewrite str_find_prefix. cbn [fmap option_fmap option_map]. rewrite Nat.add_0_r.
    rewrite bool_decide_eq_false_2 by done. rewrite take_app_length.
    rewrite <- drop_drop, drop_app_length, drop_app_length.
    cbn [store_all]. destruct (store_segment pa i v o) as [o'| | |]; cbn [rbind]; try done.
    rewrite (IH fuel (S i) o' F L) by lia. cbn [store_all]. destruct (store_segment pa (S i) w o'); cbn [rbind]; try done.
    destruct (store_all _ _ _ _); cbn [rbind]; try done. do 2 f_equal. cbn. lia.
Qed.

(** Values joined by the delimiter of a parameter are stored one by one and in order;
    the answer says whether their number is the wanted one. *)
Theorem values_stored pa x ds parts o :
  p_Delimiter pa = x :: ds -> Forall (fun v => x ∉ v) parts -> List.last parts [] <> [] ->
  ExtractAndStoreParamInfo pa (join_values (x :: ds) parts) o
  = (o <~ store_all pa 0 parts o;
     Ret (if p_ArgumentCount pa =? 0 then true else Z.of_nat (length parts) =? p_ArgumentCount pa, o)).
Proof.
  intros D F L. unfold ExtractAndStoreParamInfo. rewrite (extract_loop_join pa x ds parts _ _ _ D F L) by done.
  destruct (store_all pa 0 parts o) as [o'| | |]; cbn [rbind]; try done. cbn [fst snd]. rewrite Nat.add_0_l.
  assert (Z.of_nat (length parts) <> 0) as N by (destruct parts; [done|cbn; lia]).
  rewrite (proj2 (Z.eqb_neq _ 0) N). by destruct (p_ArgumentCount pa =? 0), (_ =? p_ArgumentCount pa).
Qed.

(** Commands are found by their numbers. *)
Definition numbered (p : @parser T Opt) : Prop :=
  (forall k n, CommandNameToNumberLookup p !! k = Some n -> 1 <= n <= Z.of_nat (length (Commands p)))
  /\ 0 <= CurrentCommandNumber p <= Z.of_nat (length (Commands p)).

Lemma AddCommand_numbered name text (p : @parser T Opt) : numbered p -> numbered (AddCommand name text p).
Proof.
  intros [N C]. split; cbn [AddCommand with_commands CommandNameToNumberLookup Commands CurrentCommandNumber];
    rewrite length_app; cbn [length]; [|lia].
  intros k n. destruct (decide (StringToLowerCase name = k)) as [->|D].
  - rewrite lookup_insert_eq. intros [= <-]. lia.
  - rewrite lookup_insert_ne by done. intros Hn%N. lia.
Qed.

Lemma ProcessSingleCommand_numbered arg (p p' : @parser T Opt) t :
  numbered p -> ProcessSingleCommand arg p = Ret (t, p') -> numbered p' /\ Commands p' = Commands p.
Proof.
  intros [N C] E. unfold ProcessSingleCommand in E. apply rbind_Ret in E as ([o|] & _ & E).
  { by injection E as <- <-. }
  destruct (if CurrentCommandNumber p =? 0 then CheckForCommandChange arg p else None) as [n|] eqn:K.
  - injection E as <- <-. destruct (CurrentCommandNumber p =? 0); [|done]. apply N in K. split; [|done]. split; [done|].
    cbn. lia.
  - apply rbind_Ret in E as ([o|] & _ & E); by injection E as <- <-.
Qed.

Lemma parse_all_numbered args (p p' : @parser T Opt) t :
  numbered p -> parse_all args p = Ret (t, p') -> numbered p' /\ Commands p' = Commands p.
Proof.
  revert p. induction args as [|a args IH]; intros p N; cbn [parse_all]; [by intros [= <- <-]|].
  intros E. apply rbind_Ret in E as ([t1 p1] & E1 & E2).
  apply ProcessSingleCommand_numbered in E1 as [N1 C1]; [|by destruct N].
  cbn [fst snd] in E2. destruct t1.
  - destruct (IH _ N1 E2) as [N2 C2]. split; [done|]. by rewrite C2.
  - injection E2 as <- <-. by split.
Qed.
End ParserFacts.
