(* ===== verification/IddDisplays.v ===== *)
(** * IddDisplays: displays and adapters of the setup tool

    Models of [src/sources/apps/idd-setup-tool/]: the table of device patterns of
    [Utility.h], the enumeration of displays, their enabling, disabling and
    rearrangement ([RearrangeDisplays.cpp]), the change of resolution
    ([ChangeDisplaySettings.cpp]), and the enumeration, enabling and disabling of
    adapters ([EnableDisableAdapters.cpp]).  What the system answers (its devices,
    the registry, the status of a change) is a parameter; the changes an operation
    asks for are a sequence of calls.  Printing is left out. *)

From Stdlib Require Import ZArith Lia String.
From stdpp Require Import base gmap list.
From S2P Require Import Prelude StdMap GaConf CNum CxxString CommandParser.

(** ** The patterns *)

Inductive ENABLE_DISABLE_PATTERN_TYPES := DESCRIPTION | VENDOR_AND_DEVICE_ID.

Record EnableDisablePatternStruct := {
  Abbreviation : bytes; DisplaysToMatch : list bytes; AdaptersToMatch : list bytes; IsAnInvertedTarget : bool;
  PatternType : ENABLE_DISABLE_PATTERN_TYPES
}.

Definition flex0 : bytes := b "VEN_8086&DEV_56C0".
Definition flex1 : bytes := b "VEN_8086&DEV_56C1".
Definition idd_device : bytes := b "Intel IddSampleDriver Device".

Definition SupportedEnableDisablePatterns : list EnableDisablePatternStruct :=
  let mk a d ad i t := {| Abbreviation := b a; DisplaysToMatch := d; AdaptersToMatch := ad; IsAnInvertedTarget := i;
                          PatternType := t |} in
  [mk "flex" [] [flex0; flex1] false VENDOR_AND_DEVICE_ID;
   mk "non-flex" [flex1; flex1] [] true VENDOR_AND_DEVICE_ID;
   mk "idd" [idd_device] [idd_device] false DESCRIPTION;
   mk "non-idd" [idd_device] [] true DESCRIPTION;
   mk "msft" [b "Microsoft Basic Display"] [b "Microsoft Basic Display Adapter"] false DESCRIPTION;
   mk "virtio" [b "Red Hat VirtIO GPU DOD controller"; b "Red Hat QXL controller"] [] false DESCRIPTION]%string.

Definition DisplayToResolutionMap : list (bytes * (Z * Z * ENABLE_DISABLE_PATTERN_TYPES)) :=
  [(flex0, (1920, 1080, VENDOR_AND_DEVICE_ID)); (flex1, (1920, 1080, VENDOR_AND_DEVICE_ID));
   (idd_device, (1920, 1080, DESCRIPTION)); (b "Microsoft Basic Display", (1024, 768, DESCRIPTION));
   (b "Red Hat VirtIO GPU DOD controller", (1280, 1024, DESCRIPTION));
   (b "Red Hat QXL controller", (1024, 768, DESCRIPTION))].

Definition type_eqb (s t : ENABLE_DISABLE_PATTERN_TYPES) : bool :=
  match s, t with DESCRIPTION, DESCRIPTION | VENDOR_AND_DEVICE_ID, VENDOR_AND_DEVICE_ID => true | _, _ => false end.

(** A device against a part of a pattern, by its description or its identifier. *)
Definition device_matches (ty : ENABLE_DISABLE_PATTERN_TYPES) (inverted : bool) (sub descr id : bytes) : bool :=
  match ty with
  | DESCRIPTION => xorb (CheckIfStringContainsPattern descr sub true) inverted
  | VENDOR_AND_DEVICE_ID => xorb (CheckIfStringContainsPattern id sub true) inverted
  end.

(** ** Numbered devices *)

(** [PatternMatchCounts] and [DeviceNamesForIndexedPatterns] (or [DeviceIDsForIndexedPatterns]). *)
Record numbering := { PatternMatchCounts : gmap bytes Z; DevicesForIndexedPatterns : gmap bytes (list bytes) }.
Definition no_numbers : numbering := {| PatternMatchCounts := ∅; DevicesForIndexedPatterns := ∅ |}.

(** A device gets the next number of a pattern. *)
Definition count_device (abbr device : bytes) (n : numbering) : numbering :=
  match PatternMatchCounts n !! abbr with
  | None => {| PatternMatchCounts := <[abbr := 1]> (PatternMatchCounts n);
               DevicesForIndexedPatterns := <[abbr := [device]]> (DevicesForIndexedPatterns n) |}
  | Some k => {| PatternMatchCounts := <[abbr := u32 (k + 1)]> (PatternMatchCounts n);
                 DevicesForIndexedPatterns :=
                   <[abbr := default [] (DevicesForIndexedPatterns n !! abbr) ++ [device]]> (DevicesForIndexedPatterns n) |}
  end.

(** The displays' [CheckEnableDisablePatternMatches] looks at the description first,
    whatever the type of the pattern. *)
Definition display_counts (e : EnableDisablePatternStruct) (descr id sub : bytes) : bool :=
  xorb (CheckIfStringContainsPattern descr sub true) (IsAnInvertedTarget e)
  || device_matches (PatternType e) (IsAnInvertedTarget e) sub descr id.
Definition number_display (descr id name : bytes) (n : numbering) : numbering :=
  fold_left (fun n e => if existsb (display_counts e descr id) (DisplaysToMatch e)
                        then count_device (Abbreviation e) name n else n) SupportedEnableDisablePatterns n.
Definition number_adapter (name id : bytes) (n : numbering) : numbering :=
  fold_left (fun n e => if existsb (fun sub => device_matches (PatternType e) (IsAnInvertedTarget e) sub name id) (AdaptersToMatch e)
                        then count_device (Abbreviation e) id n else n) SupportedEnableDisablePatterns n.

(** A requested pattern against an entry of the table: [None] when it is not meant,
    otherwise the one device asked for by number, or no device for all of them. *)
Definition is_digit (c : Z) : bool := (48 <=? c) && (c <=? 57).
Definition pattern_target (n : numbering) (request : bytes) (e : EnableDisablePatternStruct) : res (option bytes) :=
  if has_prefix (Abbreviation e) request then
    let index := drop (length (Abbreviation e)) request in
    match index with
    | [] => Ret (Some [])
    | _ =>
        if forallb is_digit index then
          i <~ stoi index;
          if (i <? 1) || (default 0 (PatternMatchCounts n !! Abbreviation e) <? i) then Ret None
          else
            d <~ or_undef (default [] (DevicesForIndexedPatterns n !! Abbreviation e) !! Z.to_nat (i - 1));
            Ret (Some d)
        else Ret None
    end
  else Ret None.

(** The first entry that is meant. *)
Fixpoint find_pattern (n : numbering) (request : bytes) (es : list EnableDisablePatternStruct)
    : res (option (EnableDisablePatternStruct * bytes)) :=
  match es with
  | [] => Ret None
  | e :: es =>
      t <~ pattern_target n request e;
      match t with Some d => Ret (Some (e, d)) | None => find_pattern n request es end
  end.

(** ** Displays *)

Record DISPLAY_DEVICE := { DeviceName : bytes; DeviceString : bytes; StateFlags : Z; DeviceKey : bytes }.

(** The parts of a [DEVMODE] the tool changes. *)
Record DEVMODE := { dm_x : Z; dm_y : Z; dmPelsWidth : Z; dmPelsHeight : Z }.

Definition DISPLAY_DEVICE_ATTACHED_TO_DESKTOP : Z := 1.
Definition attached (d : DISPLAY_DEVICE) : bool := Z.testbit (StateFlags d) 0.

(** [EraseFromStartOfString] *)
Definition EraseFromStartOfString (s to_erase : bytes) : bytes :=
  if has_prefix (StringToLowerCase to_erase) (StringToLowerCase s) then drop (length to_erase) s else s.

Inductive call :=
  | Push (name : bytes) (m : DEVMODE) (primary : bool)   (* into the registry, not applied *)
  | ApplyAll                                             (* the pushed changes *)
  | Resolution (name : bytes) (width height : Z).        (* applied at once *)

(** What the system answers: the displays in the order of their numbers, the settings
    of a display (the current ones or those of the registry), the values of a registry
    key (a value that cannot be read is [None]), the modes of a display, and the
    status of the [k]-th change. *)
Record system := {
  displays : list DISPLAY_DEVICE; current_settings : bytes -> option DEVMODE; registry_settings : bytes -> option DEVMODE;
  key_values : bytes -> option (list (option (bytes * bytes))); modes : bytes -> list (Z * Z); status_of : nat -> Z
}.

Section Displays.
Variable sys : system.

Definition machine_prefix : bytes := 92 :: b "REGISTRY" ++ 92 :: b "MACHINE" ++ [92].

(** The last value of that name wins. *)
Definition LookupDeviceIDForDisplay (key : bytes) : bytes :=
  match key_values sys (EraseFromStartOfString key machine_prefix) with
  | None => []
  | Some vs =>
      fold_left (fun id v => match v with
                             | Some (name, data) => if str_eqb (StringToLowerCase name) (b "matchingdeviceid") then data else id
                             | None => id
                             end) vs []
  end.

Definition zero_mode : DEVMODE := {| dm_x := 0; dm_y := 0; dmPelsWidth := 0; dmPelsHeight := 0 |}.

(** The settings recorded for a display, when it is recorded. *)
Definition settings_of (only_attached : bool) (d : DISPLAY_DEVICE) : option (DISPLAY_DEVICE * DEVMODE) :=
  if attached d then m ← current_settings sys (DeviceName d); Some (d, m)
  else if only_attached then None
  else m ← registry_settings sys (DeviceName d); Some (d, m).

Definition QueryActiveSettings (only_attached : bool) : list (DISPLAY_DEVICE * DEVMODE) * numbering :=
  (omap (settings_of only_attached) (displays sys),
   fold_left (fun n d => number_display (DeviceString d) (LookupDeviceIDForDisplay (DeviceKey d)) (DeviceName d) n)
     (displays sys) no_numbers).

(** One change, and whether it was successful. *)
Definition DISP_CHANGE_SUCCESSFUL : Z := 0.
Definition ChangeDisplaySettingsEx (c : call) (t : list call) : bool * list call :=
  (status_of sys (length t) =? DISP_CHANGE_SUCCESSFUL, t ++ [c]).

(** *** Rearranging *)

Definition set_x (x : Z) (m : DEVMODE) : DEVMODE :=
  {| dm_x := x; dm_y := dm_y m; dmPelsWidth := dmPelsWidth m; dmPelsHeight := dmPelsHeight m |}.

(** Each display begins where the one before ends ([LONG] plus [DWORD]). *)
Fixpoint rearrange_rest (prev : DEVMODE) (ds : list (DISPLAY_DEVICE * DEVMODE)) (t : list call) : bool * list call :=
  match ds with
  | [] => (true, t)
  | (d, m) :: ds =>
      let m := set_x (i32 (dm_x prev + dmPelsWidth prev)) m in
      let '(ok, t) := ChangeDisplaySettingsEx (Push (DeviceName d) m false) t in
      if ok then rearrange_rest m ds t else (false, t)
  end.

Definition RearrangeDisplays (settings : list (DISPLAY_DEVICE * DEVMODE)) (t : list call) : Z * list call :=
  match settings with
  | [] => (-1, t)
  | (d, m) :: ds =>
      let m := {| dm_x := 0; dm_y := 0; dmPelsWidth := dmPelsWidth m; dmPelsHeight := dmPelsHeight m |} in
      let '(ok, t) := ChangeDisplaySettingsEx (Push (DeviceName d) m true) t in
      if ok then
        let '(ok, t) := rearrange_rest m ds t in
        if ok then
          let '(ok, t) := ChangeDisplaySettingsEx ApplyAll t in
          (if ok then 0 else -1, t)
        else (-1, t)
      else (-1, t)
  end.

(** *** Enabling and disabling *)

Record display_target_info_t := {
  ti_pattern : bytes; ti_inverted : bool; ti_device_name : bytes; ti_type : ENABLE_DISABLE_PATTERN_TYPES;
  default_width : Z; default_height : Z
}.

(** The display is meant; a display asked for by number is compared by the start of
    its name only. *)
Definition is_target (ti : display_target_info_t) (d : DISPLAY_DEVICE) : bool :=
  device_matches (ti_type ti) (ti_inverted ti) (ti_pattern ti) (DeviceString d) (LookupDeviceIDForDisplay (DeviceKey d))
  && (match ti_device_name ti with [] => true | _ => has_prefix (DeviceName d) (ti_device_name ti) end).

Definition resized (ti : display_target_info_t) (m : DEVMODE) : DEVMODE :=
  {| dm_x := dm_x m; dm_y := dm_y m; dmPelsWidth := default_width ti; dmPelsHeight := default_height ti |}.

Fixpoint push_targets (ti : display_target_info_t) (ds : list (DISPLAY_DEVICE * DEVMODE)) (t : list call) : bool * list call :=
  match ds with
  | [] => (true, t)
  | (d, m) :: ds =>
      if is_target ti d then
        let '(ok, t) := ChangeDisplaySettingsEx (Push (DeviceName d) (resized ti m) false) t in
        if ok then push_targets ti ds t else (false, t)
      else push_targets ti ds t
  end.

Definition EnableDisableDisplay (settings : list (DISPLAY_DEVICE * DEVMODE)) (ti : display_target_info_t) (t : list call)
    : Z * list call :=
  match settings with
  | [] => (-1, t)
  | _ =>
      let '(ok, t) := push_targets ti settings t in
      if ok then
        let '(ok, t) := ChangeDisplaySettingsEx ApplyAll t in
        (if ok then 0 else -1, t)
      else (-1, t)
  end.

(** The size an enabled display gets. *)
Definition size_for (ty : ENABLE_DISABLE_PATTERN_TYPES) (sub : bytes) : Z * Z :=
  match List.find (fun p => str_eqb (fst p) sub) DisplayToResolutionMap with
  | Some (_, (w, h, ty')) => if type_eqb ty' ty then (w, h) else (1920, 1080)
  | None => (1920, 1080)
  end.

Definition target_info (e : EnableDisablePatternStruct) (device sub : bytes) (enable : bool) : display_target_info_t :=
  let wh := if enable then size_for (PatternType e) sub else (0, 0) in
  {| ti_pattern := sub; ti_inverted := IsAnInvertedTarget e; ti_device_name := device; ti_type := PatternType e;
     default_width := fst wh; default_height := snd wh |}.

(** The parts of a pattern in turn; [status &= ...] starts from one. *)
Fixpoint act_on (e : EnableDisablePatternStruct) (device : bytes) (enable : bool)
    (settings : list (DISPLAY_DEVICE * DEVMODE)) (subs : list bytes) (status : Z) (t : list call) : Z * list call :=
  match subs with
  | [] => (status, t)
  | sub :: subs =>
      let '(s, t) := EnableDisableDisplay settings (target_info e device sub enable) t in
      act_on e device enable settings subs (Z.land status s) t
  end.

Definition EnableDisableDisplayManager (request : bytes) (settings : list (DISPLAY_DEVICE * DEVMODE)) (n : numbering)
    (enable : bool) (t : list call) : res (Z * list call) :=
  f <~ find_pattern n (StringToLowerCase request) SupportedEnableDisablePatterns;
  match f with
  | Some (e, device) => Ret (act_on e device enable settings (DisplaysToMatch e) 1 t)
  | None => Ret (1, t)
  end.
Definition DisableDisplay (request : bytes) settings n t := EnableDisableDisplayManager request settings n false t.
Definition EnableDisplay (request : bytes) settings n t := EnableDisableDisplayManager request settings n true t.

(** *** Resolution *)

(** Every IDD display that has the mode is set to it; a failure is only printed. *)
Definition SetDisplayResolution (width height : Z) (t : list call) : list call :=
  fold_left (fun t d =>
    if str_eqb (DeviceString d) idd_device && existsb (fun m => (fst m =? width) && (snd m =? height)) (modes sys (DeviceName d))
    then snd (ChangeDisplaySettingsEx (Resolution (DeviceName d) width height) t) else t) (displays sys) t.
End Displays.

(** ** Adapters *)

(** A device of a setup class as the system describes it; a property that cannot be
    read is [None]. *)
Record device_info := {
  di_id : option bytes; di_friendly : option bytes; di_description : option bytes; di_hardware : option bytes
}.

Record Adapter := { devID : bytes; devName : bytes; devHardwareID : bytes; devGuid : Z; devIndex : nat }.

(** A state change of a device, in the global or the current profile. *)
Inductive adapter_call := StateChange (id : bytes) (enable global : bool).

(** The system: the setup classes of displays, the devices of a class, and the success
    of setting the parameters, of the [k]-th call and of reading its result. *)
Record adapter_system := {
  display_classes : option (list Z); class_devices : Z -> option (list device_info);
  params_set : nat -> bool; call_done : nat -> bool; result_read : nat -> bool
}.

Section Adapters.
Variable sys : adapter_system.
Variable verbose : bool.

(** [GetDeviceStringProperty]: the whole buffer, of 513 characters or the value and two
    zeros when that is not enough. *)
Definition GetDeviceStringProperty (v : option bytes) : res bytes :=
  v <~ or_throws v;
  Ret (v ++ replicate (if (length v <? 513)%nat then 513 - length v else 2) 0).

Definition GetDeviceDescription (d : device_info) : res bytes :=
  match GetDeviceStringProperty (di_friendly d) with
  | Throws => GetDeviceStringProperty (di_description d)
  | r => r
  end.
Definition GetDeviceID (d : device_info) : bytes := default (b "?") (di_id d).

(** The adapters of a class, from an index on, and their numbers. *)
Fixpoint list_class (guid : Z) (i : nat) (ds : list device_info) (out : list Adapter) (n : numbering)
    : res (list Adapter * numbering) :=
  match ds with
  | [] => Ret (out, n)
  | d :: ds =>
      name <~ GetDeviceDescription d;
      hw <~ GetDeviceStringProperty (di_hardware d);
      let a := {| devID := GetDeviceID d; devName := name; devHardwareID := hw; devGuid := guid; devIndex := i |} in
      list_class guid (S i) ds (out ++ [a]) (number_adapter (devName a) (devID a) n)
  end.
Fixpoint list_classes (guids : list Z) (out : list Adapter) (n : numbering) : res (list Adapter * numbering) :=
  match guids with
  | [] => Ret (out, n)
  | g :: guids =>
      ds <~ or_throws (class_devices sys g);
      r <~ list_class g 0 ds out n;
      list_classes guids (fst r) (snd r)
  end.
Definition GetAdapterList : res (list Adapter * numbering) :=
  guids <~ or_throws (display_classes sys); list_classes guids [] no_numbers.

Definition GetNumIddCompatibleAdapters (l : list Adapter) : nat :=
  length (filter (fun a =>
    let hw := StringToLowerCase (devHardwareID a) in
    contains (b "ven_8086") hw && (contains (b "dev_56c1") hw || contains (b "dev_56c0") hw) = true) l).

(** The enabling in the global profile may fail, the one in the current profile not. *)
Definition ChangeAdapterState (a : Adapter) (enable : bool) (t : list adapter_call) : res (list adapter_call) :=
  ds <~ or_throws (class_devices sys (devGuid a));
  if existsb (fun d => str_eqb (devID a) (GetDeviceID d)) ds then
    let t := if enable && params_set sys (length t) then t ++ [StateChange (devID a) true true] else t in
    if params_set sys (length t) && call_done sys (length t) then
      let t' := t ++ [StateChange (devID a) enable false] in
      if verbose && negb (result_read sys (length t)) then Throws else Ret t'
    else Throws
  else Throws.

Record adapter_target_info_t := {
  at_pattern : bytes; at_inverted : bool; at_device_id : bytes; at_type : ENABLE_DISABLE_PATTERN_TYPES
}.
Definition is_adapter_target (ti : adapter_target_info_t) (a : Adapter) : bool :=
  device_matches (at_type ti) (at_inverted ti) (at_pattern ti) (devName a) (devID a)
  && (match at_device_id ti with [] => true | _ => has_prefix (devID a) (at_device_id ti) end).

Fixpoint EnableDisableAdapter (l : list Adapter) (ti : adapter_target_info_t) (enable : bool) (t : list adapter_call)
    : res (list adapter_call) :=
  match l with
  | [] => Ret t
  | a :: l =>
      t <~ (if is_adapter_target ti a then ChangeAdapterState a enable t else Ret t);
      EnableDisableAdapter l ti enable t
  end.

Fixpoint adapters_act_on (e : EnableDisablePatternStruct) (id : bytes) (enable : bool) (l : list Adapter) (subs : list bytes)
    (t : list adapter_call) : res (list adapter_call) :=
  match subs with
  | [] => Ret t
  | sub :: subs =>
      t <~ EnableDisableAdapter l {| at_pattern := sub; at_inverted := IsAnInvertedTarget e; at_device_id := id;
                                     at_type := PatternType e |} enable t;
      adapters_act_on e id enable l subs t
  end.

Definition EnableDisableDisplayAdapterManager (request : bytes) (enable : bool) (t : list adapter_call) : res (list adapter_call) :=
  r <~ GetAdapterList;
  f <~ find_pattern (snd r) (StringToLowerCase request) SupportedEnableDisablePatterns;
  match f with
  | Some (e, id) => adapters_act_on e id enable (fst r) (AdaptersToMatch e) t
  | None => Ret t
  end.
Definition DisableDisplayAdapter (request : bytes) t := EnableDisableDisplayAdapterManager request false t.
Definition EnableDisplayAdapter (request : bytes) t := EnableDisableDisplayAdapterManager request true t.
End Adapters.

(** ** Facts *)

Section DisplayFacts.
Variable sys : system.

(** Every change the system is asked for is successful. *)
Definition all_succeed : Prop := forall k, status_of sys k = DISP_CHANGE_SUCCESSFUL.

Lemma change_ok c t : all_succeed -> ChangeDisplaySettingsEx sys c t = (true, t ++ [c]).
Proof. intros H. unfold ChangeDisplaySettingsEx. by rewrite H. Qed.

(** *** Rows of displays *)

(** Displays side by side from a position on. *)
Fixpoint row (x : Z) (ds : list (DISPLAY_DEVICE * DEVMODE)) : list call :=
  match ds with
  | [] => []
  | (d, m) :: ds => Push (DeviceName d) (set_x x m) false :: row (x + dmPelsWidth m) ds
  end.
Definition total_width (ds : list (DISPLAY_DEVICE * DEVMODE)) : Z :=
  foldr (fun p w => dmPelsWidth (snd p) + w) 0 ds.
Definition widths_ok (ds : list (DISPLAY_DEVICE * DEVMODE)) : Prop := Forall (fun p => 0 <= dmPelsWidth (snd p)) ds.

Lemma total_width_nonneg ds : widths_ok ds -> 0 <= total_width ds.
Proof. induction ds as [|p ds IH]; [done|]. intros [H1 H2]%Forall_cons. specialize (IH H2).
  cbn [total_width foldr]. fold (total_width ds). cbv beta in H1. lia.
Qed.

Lemma rearrange_rest_ok prev ds t :
  all_succeed -> widths_ok ds -> 0 <= dm_x prev -> 0 <= dmPelsWidth prev ->
  dm_x prev + dmPelsWidth prev + total_width ds < 2 ^ 31 ->
  rearrange_rest sys prev ds t = (true, t ++ row (dm_x prev + dmPelsWidth prev) ds).
Proof.
  intros A. revert prev t. induction ds as [|[d m] ds IH]; intros prev t W X P L; [cbn; by rewrite app_nil_r|].
  apply Forall_cons in W as [Wm W]. cbn [snd] in Wm. pose proof (total_width_nonneg ds W).
  cbn [total_width foldr snd] in L. fold (total_width ds) in L.
  cbn [rearrange_rest]. rewrite change_ok by done. unfold i32.
  rewrite wraps_small by lia.
  rewrite IH; cbn [set_x dm_x dmPelsWidth]; [|done|lia|lia|lia]. by rewrite <- app_assoc.
Qed.

(** When the changes are accepted, the displays are put side by side in the order of
    their numbers: the first one becomes the primary display at the origin, each other
    begins where the one before ends and keeps its vertical position; then the changes
    are applied together. *)
Theorem displays_in_a_row d m ds t :
  all_succeed -> widths_ok ((d, m) :: ds) -> total_width ((d, m) :: ds) < 2 ^ 31 ->
  RearrangeDisplays sys ((d, m) :: ds) t
  = (0, t ++ Push (DeviceName d) {| dm_x := 0; dm_y := 0; dmPelsWidth := dmPelsWidth m; dmPelsHeight := dmPelsHeight m |} true
             :: row (dmPelsWidth m) ds ++ [ApplyAll]).
Proof.
  intros A W L. apply Forall_cons in W as [Wm W]. cbn [snd] in Wm.
  cbn [total_width foldr snd] in L. fold (total_width ds) in L.
  cbn [RearrangeDisplays]. rewrite change_ok by done.
  rewrite rearrange_rest_ok; cbn [dm_x dmPelsWidth]; [|done..|lia]. rewrite change_ok by done.
  by rewrite Z.add_0_l, <- !app_assoc.
Qed.

Lemma rearrange_rest_inv prev ds t ok t' :
  rearrange_rest sys prev ds t = (ok, t') ->
  exists new, t' = t ++ new /\ (ApplyAll ∉ new)
    /\ (ok = true -> length new = length ds /\ forall k, (k < length new)%nat -> status_of sys (length t + k) = DISP_CHANGE_SUCCESSFUL).
Proof.
  revert prev t. induction ds as [|[d m] ds IH]; intros prev t; cbn [rearrange_rest].
  - intros [= <- <-]. exists []. rewrite app_nil_r. split; [done|]. split; [apply not_elem_of_nil|]. intros _. split; [done|].
    cbn. lia.
  - unfold ChangeDisplaySettingsEx at 1. destruct (Z.eqb_spec (status_of sys (length t)) DISP_CHANGE_SUCCESSFUL) as [E|E].
    + intros H. apply IH in H as (new & -> & N & St). set (c := Push _ _ _) in *. exists (c :: new).
      split; [by rewrite <- app_assoc|]. split; [apply not_elem_of_cons; split; [done|done]|].
      intros O. destruct (St O) as [S1 S2]. split; [cbn; by rewrite S1|]. intros [|k] Hk; [by rewrite Nat.add_0_r|].
      specialize (S2 k). rewrite length_app in S2. cbn in S2, Hk. replace (length t + S k)%nat with (length t + 1 + k)%nat by lia.
      apply S2. lia.
    + intros [= <- <-]. eexists [_]. split; [done|]. split; [|done]. by rewrite list_elem_of_singleton.
Qed.

(** The changes are applied only when every one of them was accepted, and then last. *)
Theorem applied_all_or_none settings t r t' :
  RearrangeDisplays sys settings t = (r, t') ->
  exists new, t' = t ++ new
    /\ ((ApplyAll ∈ new) ->
        exists pushes, new = pushes ++ [ApplyAll] /\ length pushes = length settings
          /\ forall k, (k < length pushes)%nat -> status_of sys (length t + k) = DISP_CHANGE_SUCCESSFUL).
Proof.
  destruct settings as [|[d m] ds]; cbn [RearrangeDisplays].
  { intros [= <- <-]. exists []. rewrite app_nil_r. split; [done|]. by intros ?%elem_of_nil. }
  unfold ChangeDisplaySettingsEx at 1. set (c := Push _ _ _).
  destruct (Z.eqb_spec (status_of sys (length t)) DISP_CHANGE_SUCCESSFUL) as [E|E].
  2: { intros [= <- <-]. exists [c]. split; [done|]. by intros ?%list_elem_of_singleton. }
  destruct (rearrange_rest sys _ ds (t ++ [c])) as [ok t1] eqn:R. apply rearrange_rest_inv in R as (new & -> & N & St).
  destruct ok; unfold ChangeDisplaySettingsEx.
  - intros [= <- <-]. exists ((c :: new) ++ [ApplyAll]). split; [by rewrite <- !app_assoc|]. intros _. exists (c :: new).
    destruct (St eq_refl) as [S1 S2]. split; [done|]. split; [cbn; by rewrite S1|].
    intros [|k] Hk; [by rewrite Nat.add_0_r|]. specialize (S2 k). rewrite length_app in S2. cbn in S2, Hk.
    replace (length t + S k)%nat with (length t + 1 + k)%nat by lia. apply S2. lia.
  - intros [= <- <-]. exists (c :: new). split; [by rewrite <- app_assoc|]. intros [?|?]%elem_of_cons; done.
Qed.

(** *** Requests *)

Lemma push_targets_ok ti ds t :
  all_succeed ->
  push_targets sys ti ds t
  = (true, t ++ map (fun p => Push (DeviceName (fst p)) (resized ti (snd p)) false)
                  (List.filter (fun p => is_target sys ti (fst p)) ds)).
Proof.
  intros A. revert t. induction ds as [|[d m] ds IH]; intros t; [cbn; by rewrite app_nil_r|].
  cbn [push_targets List.filter fst]. destruct (is_target sys ti d); [|by apply IH].
  rewrite change_ok by done. rewrite IH. cbn [map fst snd]. by rewrite <- app_assoc.
Qed.

(** The changes a part of a pattern stands for. *)
Definition changes_for (e : EnableDisablePatternStruct) (device : bytes) (enable : bool)
    (settings : list (DISPLAY_DEVICE * DEVMODE)) (sub : bytes) : list call :=
  let ti := target_info e device sub enable in
  map (fun p => Push (DeviceName (fst p)) (resized ti (snd p)) false)
    (List.filter (fun p => is_target sys ti (fst p)) settings) ++ [ApplyAll].

Lemma EnableDisableDisplay_ok e device enable settings sub t :
  all_succeed -> settings <> [] ->
  EnableDisableDisplay sys settings (target_info e device sub enable) t
  = (0, t ++ changes_for e device enable settings sub).
Proof.
  intros A N. unfold EnableDisableDisplay. destruct settings as [|p ps] eqn:E; [done|]. rewrite <- E.
  rewrite push_targets_ok, change_ok by done. by rewrite <- app_assoc.
Qed.

Lemma act_on_ok e device enable settings subs st t :
  all_succeed -> settings <> [] ->
  act_on sys e device enable settings subs st t
  = (match subs with [] => st | _ => 0 end, t ++ concat (map (changes_for e device enable settings) subs)).
Proof.
  intros A N. revert st t. induction subs as [|sub subs IH]; intros st t; [cbn; by rewrite app_nil_r|].
  cbn [act_on]. rewrite EnableDisableDisplay_ok by done. rewrite Z.land_0_r, IH. cbn [map concat].
  rewrite <- app_assoc. by destruct subs.
Qed.

(** A request by the name of a pattern changes, part by part, exactly the displays the
    part matches, and applies the changes; it succeeds. *)
Theorem request_by_name e request settings n enable t :
  all_succeed -> settings <> [] -> e ∈ SupportedEnableDisablePatterns -> DisplaysToMatch e <> [] ->
  StringToLowerCase request = Abbreviation e ->
  EnableDisableDisplayManager sys request settings n enable t
  = Ret (0, t ++ concat (map (changes_for e [] enable settings) (DisplaysToMatch e))).
Proof.
  intros A N E D R. unfold EnableDisableDisplayManager. rewrite R.
  assert (find_pattern n (Abbreviation e) SupportedEnableDisablePatterns = Ret (Some (e, []))) as ->.
  { clear D. unfold SupportedEnableDisablePatterns in E. repeat (apply elem_of_cons in E as [->|E]; [done|]).
    by apply elem_of_nil in E. }
  cbn [rbind]. rewrite act_on_ok by done. by destruct (DisplaysToMatch e).
Qed.

(** A request by the name and a number changes the displays of the pattern whose name
    is that of the numbered display, or a beginning of it. *)
Theorem request_by_number e index i device request settings n enable t :
  all_succeed -> settings <> [] -> e ∈ SupportedEnableDisablePatterns -> DisplaysToMatch e <> [] ->
  StringToLowerCase request = Abbreviation e ++ index -> index <> [] -> forallb is_digit index = true ->
  stoi index = Ret i -> 1 <= i <= default 0 (PatternMatchCounts n !! Abbreviation e) ->
  default [] (DevicesForIndexedPatterns n !! Abbreviation e) !! Z.to_nat (i - 1) = Some device ->
  EnableDisableDisplayManager sys request settings n enable t
  = Ret (0, t ++ concat (map (changes_for e device enable settings) (DisplaysToMatch e))).
Proof.
  intros A N E D R I F S B L. unfold EnableDisableDisplayManager. rewrite R.
  assert (pattern_target n (Abbreviation e ++ index) e = Ret (Some device)) as P.
  { unfold pattern_target. rewrite has_prefix_app, drop_app_length. destruct index as [|c index]; [done|].
    rewrite F, S. cbn [rbind]. rewrite (proj2 (Z.ltb_ge _ _)), (proj2 (Z.ltb_ge _ _)) by lia. by rewrite L. }
  assert (find_pattern n (Abbreviation e ++ index) SupportedEnableDisablePatterns = Ret (Some (e, device))) as ->.
  { unfold SupportedEnableDisablePatterns in E |- *.
    repeat (apply elem_of_cons in E as [->|E]; [cbn [find_pattern]; by repeat first [rewrite P | progress cbn [rbind]]|]).
    by apply elem_of_nil in E. }
  cbn [rbind]. rewrite act_on_ok by done. by destruct (DisplaysToMatch e).
Qed.

(** *** Numbers *)

(** Every number of a pattern has its device; no pattern has more than [bound]. *)
Definition numbers_ok (bound : Z) (n : numbering) : Prop :=
  forall abbr k, PatternMatchCounts n !! abbr = Some k ->
    k <= bound /\ exists l, DevicesForIndexedPatterns n !! abbr = Some l /\ Z.of_nat (length l) = k.

Lemma numbers_ok_le a c n : a <= c -> numbers_ok a n -> numbers_ok c n.
Proof. intros H N abbr k E. destruct (N _ _ E). split; [lia|done]. Qed.

Lemma count_device_ok bound abbr d n :
  0 <= bound -> bound + 1 < 2 ^ 32 -> numbers_ok bound n -> numbers_ok (bound + 1) (count_device abbr d n).
Proof.
  intros H0 H1 N abbr' k. unfold count_device.
  destruct (PatternMatchCounts n !! abbr) as [k0|] eqn:E; cbn [PatternMatchCounts DevicesForIndexedPatterns];
    (destruct (decide (abbr = abbr')) as [<-|D];
       [rewrite !lookup_insert_eq|rewrite !lookup_insert_ne by done; intros E'; destruct (N _ _ E'); split; [lia|done]]);
    intros [= <-].
  - destruct (N _ _ E) as (B & l & -> & L). rewrite u32_small by lia. split; [lia|]. eexists. split; [done|].
    cbn [default from_option id]. rewrite length_app. cbn [length]. lia.
  - split; [lia|]. by exists [d].
Qed.

Lemma number_display_ok bound descr id name n :
  0 <= bound -> bound + 6 < 2 ^ 32 -> numbers_ok bound n -> numbers_ok (bound + 6) (number_display descr id name n).
Proof.
  intros H0 H1 N. unfold number_display.
  change 6 with (Z.of_nat (length SupportedEnableDisablePatterns)) in H1 |- *.
  generalize dependent n. generalize dependent bound.
  induction SupportedEnableDisablePatterns as [|e es IH]; intros bound H0 H1 n N; cbn [fold_left length] in *.
  { by rewrite Z.add_0_r. }
  replace (bound + Z.of_nat (S (length es))) with (bound + 1 + Z.of_nat (length es)) by lia.
  apply IH; [lia|lia|]. destruct (existsb _ _); [apply count_device_ok; [lia..|done]|apply (numbers_ok_le bound); [lia|done]].
Qed.

Lemma query_numbers_ok only :
  6 * Z.of_nat (length (displays sys)) < 2 ^ 32 ->
  numbers_ok (6 * Z.of_nat (length (displays sys))) (snd (QueryActiveSettings sys only)).
Proof.
  unfold QueryActiveSettings. cbn [snd]. intros L.
  assert (forall b n ds, 0 <= b -> b + 6 * Z.of_nat (length ds) < 2 ^ 32 -> numbers_ok b n ->
    numbers_ok (b + 6 * Z.of_nat (length ds))
      (fold_left (fun n d => number_display (DeviceString d) (LookupDeviceIDForDisplay sys (DeviceKey d)) (DeviceName d) n) ds n)) as G.
  { intros b n ds. revert b n. induction ds as [|d ds IH]; intros b n B0 B N; cbn [fold_left length] in *.
    - by replace (b + 6 * Z.of_nat 0) with b by lia.
    - replace (b + 6 * Z.of_nat (S (length ds))) with (b + 6 + 6 * Z.of_nat (length ds)) by lia.
      apply IH; [lia|lia|]. apply number_display_ok; [lia..|done]. }
  apply (G 0); [lia|lia|]. intros abbr k E. unfold no_numbers in E. cbn [PatternMatchCounts] in E. by rewrite lookup_empty in E.
Qed.

Lemma pattern_target_defined bound n request e : numbers_ok bound n -> pattern_target n request e <> Undef.
Proof.
  intros N. unfold pattern_target. destruct (has_prefix _ _); [|done]. destruct (drop _ _) as [|c index]; [done|].
  destruct (forallb _ _); [|done]. destruct (stoi _) as [i| | |] eqn:S; cbn [rbind]; try done.
  - destruct (_ || _) eqn:B; [done|]. apply orb_false_iff in B as [B1%Z.ltb_ge B2%Z.ltb_ge].
    destruct (PatternMatchCounts n !! Abbreviation e) as [k|] eqn:E; cbn [default from_option id] in B2; [|lia].
    destruct (N _ _ E) as (_ & l & -> & L). cbn [default from_option id].
    destruct (lookup_lt_is_Some_2 l (Z.to_nat (i - 1))) as [d ->]; [lia|done].
  - unfold stoi in S. repeat split_match_in S; done.
Qed.

(** The numbers the enumeration gave out never lead outside the lists of devices,
    whatever is requested. *)
Theorem request_in_range only request :
  6 * Z.of_nat (length (displays sys)) < 2 ^ 32 ->
  find_pattern (snd (QueryActiveSettings sys only)) request SupportedEnableDisablePatterns <> Undef.
Proof.
  intros L. pose proof (query_numbers_ok only L) as N. generalize (snd (QueryActiveSettings sys only)), N. clear.
  intros n N. induction SupportedEnableDisablePatterns as [|e es IH]; [done|]. cbn [find_pattern].
  pose proof (pattern_target_defined _ n request e N). by destruct (pattern_target n request e) as [[d|]| | |].
Qed.

(** *** Data center adapters *)

(** The pattern for all displays but those of the data center adapters names one of
    the two device identifiers twice: disabling it disables a display of the other. *)
Theorem non_flex_disables_flex settings n t d m :
  all_succeed -> (d, m) ∈ settings ->
  CheckIfStringContainsPattern (LookupDeviceIDForDisplay sys (DeviceKey d)) flex0 true = true ->
  CheckIfStringContainsPattern (LookupDeviceIDForDisplay sys (DeviceKey d)) flex1 true = false ->
  exists t', DisableDisplay sys (b "non-flex") settings n t = Ret (0, t')
    /\ Push (DeviceName d) {| dm_x := dm_x m; dm_y := dm_y m; dmPelsWidth := 0; dmPelsHeight := 0 |} false ∈ t'.
Proof.
  intros A I C0 C1. unfold DisableDisplay, EnableDisableDisplayManager.
  change (find_pattern n (StringToLowerCase (b "non-flex")) SupportedEnableDisablePatterns)
    with (Ret (Some ({| Abbreviation := b "non-flex"; DisplaysToMatch := [flex1; flex1]; AdaptersToMatch := [];
                        IsAnInvertedTarget := true; PatternType := VENDOR_AND_DEVICE_ID |}, @nil Z))).
  cbn [rbind DisplaysToMatch]. rewrite act_on_ok; [|done|by intros ->; apply elem_of_nil in I].
  eexists. split; [done|]. cbn [map concat]. apply elem_of_app. right. apply elem_of_app. left.
  unfold changes_for. apply elem_of_app. left. apply list_elem_of_fmap. exists (d, m). split; [done|].
  apply list_elem_of_In, List.filter_In. split; [by apply list_elem_of_In|].
  unfold is_target. cbn [fst target_info ti_type ti_inverted ti_pattern ti_device_name PatternType IsAnInvertedTarget device_matches].
  by rewrite C1.
Qed.
End DisplayFacts.

(** ** Examples *)

Definition example_display (name descr key : string) : DISPLAY_DEVICE :=
  {| DeviceName := b name; DeviceString := b descr; StateFlags := 1; DeviceKey := b key |}.
Definition example_mode : DEVMODE := {| dm_x := 50; dm_y := 7; dmPelsWidth := 1920; dmPelsHeight := 1080 |}.

(** A display of the first data center adapter, and two virtual ones. *)
Definition flex_display := example_display "DISPLAY3" "Intel(R) Data Center GPU Flex Series 170" "video0".
Definition idd_display1 := example_display "DISPLAY1" "Intel IddSampleDriver Device" "video1".
Definition idd_display10 := example_display "DISPLAY10" "Intel IddSampleDriver Device" "video1".
Definition example_system : system :=
  {| displays := [idd_display1; idd_display10; flex_display]; current_settings := fun _ => Some example_mode;
     registry_settings := fun _ => None;
     key_values := fun k => if str_eqb k (b "video0") then Some [Some (b "MatchingDeviceId", b "pci\ven_8086&dev_56c0")] else None;
     modes := fun _ => [(1920, 1080)]; status_of := fun _ => 0 |}.

Lemma displays_in_a_row_witness :
  RearrangeDisplays example_system [(idd_display1, example_mode); (idd_display10, example_mode)] []
  = (0, [Push (b "DISPLAY1") {| dm_x := 0; dm_y := 0; dmPelsWidth := 1920; dmPelsHeight := 1080 |} true;
         Push (b "DISPLAY10") {| dm_x := 1920; dm_y := 7; dmPelsWidth := 1920; dmPelsHeight := 1080 |} false; ApplyAll]).
Proof.
  apply (displays_in_a_row example_system idd_display1 example_mode [(idd_display10, example_mode)] []).
  - by intros k.
  - by repeat constructor.
  - by vm_compute.
Defined.

Lemma applied_all_or_none_witness :
  exists new, snd (RearrangeDisplays example_system [(idd_display1, example_mode)] []) = [] ++ new
    /\ ((ApplyAll ∈ new) ->
        exists pushes, new = pushes ++ [ApplyAll] /\ length pushes = 1%nat
          /\ forall k, (k < length pushes)%nat -> status_of example_system (0 + k) = DISP_CHANGE_SUCCESSFUL).
Proof. eapply (applied_all_or_none example_system [(idd_display1, example_mode)] []); reflexivity. Defined.

Definition idd_pattern : EnableDisablePatternStruct :=
  {| Abbreviation := b "idd"; DisplaysToMatch := [idd_device]; AdaptersToMatch := [idd_device];
     IsAnInvertedTarget := false; PatternType := DESCRIPTION |}.
Definition off_mode : DEVMODE := {| dm_x := 50; dm_y := 7; dmPelsWidth := 0; dmPelsHeight := 0 |}.

Lemma request_by_name_witness :
  let settings := [(idd_display1, example_mode); (flex_display, example_mode)] in
  EnableDisableDisplayManager example_system (b "IDD") settings no_numbers false []
  = Ret (0, [Push (b "DISPLAY1") off_mode false; ApplyAll]).
Proof.
  intros settings. refine (request_by_name example_system idd_pattern (b "IDD") settings no_numbers false [] _ _ _ _ _).
  - by intros k.
  - done.
  - by do 2 right; left.
  - done.
  - done.
Defined.

(** The tenth virtual display is asked for, and the first one is switched off too. *)
Lemma request_by_number_witness :
  let settings := [(idd_display1, example_mode); (idd_display10, example_mode)] in
  let n := {| PatternMatchCounts := {[b "idd" := 2]};
              DevicesForIndexedPatterns := {[b "idd" := [b "DISPLAY1"; b "DISPLAY10"]]} |} in
  EnableDisableDisplayManager example_system (b "idd2") settings n false []
  = Ret (0, [Push (b "DISPLAY1") off_mode false; Push (b "DISPLAY10") off_mode false; ApplyAll]).
Proof.
  intros settings n.
  refine (request_by_number example_system idd_pattern (b "2") 2 (b "DISPLAY10") (b "idd2") settings n false [] _ _ _ _ _ _ _ _ _ _).
  - by intros k.
  - done.
  - by do 2 right; left.
  - done.
  - done.
  - done.
  - done.
  - done.
  - by vm_compute.
  - by vm_compute.
Defined.

Lemma request_in_range_witness :
  find_pattern (snd (QueryActiveSettings example_system true)) (b "idd99") SupportedEnableDisablePatterns <> Undef.
Proof. apply (request_in_range example_system). by vm_compute. Defined.

Lemma non_flex_disables_flex_witness :
  exists t', DisableDisplay example_system (b "non-flex") [(flex_display, example_mode)] no_numbers [] = Ret (0, t')
    /\ Push (b "DISPLAY3") off_mode false ∈ t'.
Proof.
  apply (non_flex_disables_flex example_system [(flex_display, example_mode)] no_numbers [] flex_display example_mode).
  - by intros k.
  - by left.
  - by vm_compute.
  - by vm_compute.
Defined.
