(* ===== verification/IddSystem.v ===== *)
(** * IddSystem: scaling, pairing and registry keys of the setup tool

    Models of [src/sources/apps/idd-setup-tool/]: the scaling of displays
    ([ChangeDisplaySettings.cpp]), the pairing of virtual displays with adapters
    ([PairIdd.cpp]), and the installation, removal and registry keys of the driver
    ([InstallIDD.cpp]).  What the system answers is a parameter; printing is left
    out. *)

From Stdlib Require Import ZArith Lia String.
From stdpp Require Import base gmap list.
From S2P Require Import Prelude StdMap GaConf CNum CxxString CommandParser.

(** ** Scaling *)

Definition known_dpi : list Z := [100; 125; 150; 175; 200; 225; 250; 300; 350; 400; 450; 500].

(** The steps of a source, relative to the recommended one. *)
Record dpi_scale := { minScaleRel : Z; curScaleRel : Z; maxScaleRel : Z }.
Record DPIScalingInfo := { minimum : Z; maximum : Z; current : Z; recommended : Z }.

(** [std::clamp]: undefined for an empty range. *)
Definition clamp (v lo hi : Z) : res Z :=
  if hi <? lo then Undef else Ret (if v <? lo then lo else if hi <? v then hi else v).

(** An element of the table; an index outside is undefined. *)
Definition dpi_at (i : Z) : res Z := if i <? 0 then Undef else or_undef (known_dpi !! Z.to_nat i).

Definition GetDPIScalingInfo (req : option dpi_scale) : res DPIScalingInfo :=
  s <~ or_throws req;
  cur <~ clamp (curScaleRel s) (minScaleRel s) (maxScaleRel s);
  if minScaleRel s =? INT_MIN then Undef
  else
    let min_abs := Z.abs (minScaleRel s) in
    if Z.of_nat (length known_dpi) <? u64 (min_abs + maxScaleRel s + 1) then Throws
    else
      c <~ dpi_at (min_abs + cur);
      r <~ dpi_at min_abs;
      m <~ dpi_at (min_abs + maxScaleRel s);
      Ret {| minimum := 100; maximum := m; current := c; recommended := r |}.

Fixpoint index_of (v : Z) (l : list Z) : option nat :=
  match l with
  | [] => None
  | x :: l => if x =? v then Some O else S <$> index_of v l
  end.

(** The relative step to ask for, if a change is needed. *)
Definition SetDPIScaling (req : option dpi_scale) (dpi : Z) : res (option Z) :=
  info <~ GetDPIScalingInfo req;
  dpi <~ clamp dpi (minimum info) (maximum info);
  if dpi =? current info then Ret None
  else
    i <~ or_throws (index_of dpi known_dpi);
    r <~ or_throws (index_of (recommended info) known_dpi);
    Ret (Some (i32 (Z.of_nat i - Z.of_nat r))).

(** The sources of the active paths in turn; [set_ok] is the success of the [k]-th
    change.  The information is read again for the messages. *)
Definition after_set (s : option dpi_scale) (rel : option Z) : option dpi_scale :=
  match rel, s with
  | Some r, Some s => Some {| minScaleRel := minScaleRel s; curScaleRel := r; maxScaleRel := maxScaleRel s |}
  | _, _ => s
  end.
Fixpoint set_sources (set_ok : nat -> bool) (verbose : bool) (dpi : Z) (k : nat) (ss : list (option dpi_scale))
    : res (list (option dpi_scale)) :=
  match ss with
  | [] => Ret []
  | s :: ss =>
      _ <~ (if verbose then _ <~ GetDPIScalingInfo s; Ret tt else Ret tt);
      rel <~ SetDPIScaling s dpi;
      _ <~ (match rel with Some _ => if set_ok k then Ret tt else Throws | None => Ret tt end);
      let s := after_set s rel in
      _ <~ (if verbose then _ <~ GetDPIScalingInfo s; Ret tt else Ret tt);
      r <~ set_sources set_ok verbose dpi (match rel with Some _ => S k | None => k end) ss;
      Ret (s :: r)
  end.

(** The query of the paths may fail, or find none. *)
Definition SetDisplayDPI (set_ok : nat -> bool) (verbose : bool) (paths : option (list (option dpi_scale))) (dpi : Z)
    : res (list (option dpi_scale)) :=
  ps <~ or_throws paths;
  match ps with [] => Throws | _ => set_sources set_ok verbose dpi 0 ps end.

(** *** Facts *)

Lemma known_sorted i j x y : known_dpi !! i = Some x -> known_dpi !! j = Some y -> x <= y -> (i <= j)%nat.
Proof.
  intros Hi Hj L. pose proof (lookup_lt_Some _ _ _ Hi) as Bi. pose proof (lookup_lt_Some _ _ _ Hj) as Bj. cbn in Bi, Bj.
  do 12 (destruct i as [|i]; [cbn in Hi; injection Hi as <-; do 12 (destruct j as [|j]; [cbn in Hj; injection Hj as <-; lia|]); lia|]).
  lia.
Qed.

Lemma known_least i x : known_dpi !! i = Some x -> 100 <= x.
Proof. intros H. do 12 (destruct i as [|i]; [cbn in H; injection H as <-; lia|]). done. Qed.

Lemma index_of_known i x : known_dpi !! i = Some x -> index_of x known_dpi = Some i.
Proof. intros H. do 12 (destruct i as [|i]; [cbn in H; by injection H as <-|]). done. Qed.

Lemma dpi_at_ok i : 0 <= i < 12 -> exists x, dpi_at i = Ret x /\ known_dpi !! Z.to_nat i = Some x.
Proof.
  intros H. unfold dpi_at. rewrite (proj2 (Z.ltb_ge i 0)) by lia.
  destruct (lookup_lt_is_Some_2 known_dpi (Z.to_nat i)) as [x E]; [cbn; lia|]. rewrite E. by exists x.
Qed.

(** The range a source reports: one the table covers. *)
Definition covered (s : dpi_scale) : Prop :=
  -11 <= minScaleRel s <= 0 /\ minScaleRel s <= maxScaleRel s /\ maxScaleRel s - minScaleRel s < 12.

Lemma GetDPIScalingInfo_covered s : covered s ->
  exists c r m, GetDPIScalingInfo (Some s) = Ret {| minimum := 100; maximum := m; current := c; recommended := r |}
    /\ known_dpi !! Z.to_nat (- minScaleRel s) = Some r
    /\ known_dpi !! Z.to_nat (maxScaleRel s - minScaleRel s) = Some m
    /\ known_dpi !! Z.to_nat (Z.max (minScaleRel s) (Z.min (curScaleRel s) (maxScaleRel s)) - minScaleRel s) = Some c.
Proof.
  intros (A & B & C). unfold GetDPIScalingInfo. cbn [or_throws rbind]. unfold clamp.
  rewrite (proj2 (Z.ltb_ge _ _)) by lia. cbn [rbind].
  assert ((if curScaleRel s <? minScaleRel s then minScaleRel s
           else if maxScaleRel s <? curScaleRel s then maxScaleRel s else curScaleRel s)
          = Z.max (minScaleRel s) (Z.min (curScaleRel s) (maxScaleRel s))) as ->.
  { destruct (Z.ltb_spec (curScaleRel s) (minScaleRel s)); [lia|].
    destruct (Z.ltb_spec (maxScaleRel s) (curScaleRel s)); lia. }
  rewrite (proj2 (Z.eqb_neq _ _)) by (unfold INT_MIN; lia). rewrite Z.abs_neq by lia.
  unfold u64. rewrite wrapu_small by (change (2 ^ 64) with 18446744073709551616; lia).
  change (Z.of_nat (length known_dpi)) with 12. rewrite (proj2 (Z.ltb_ge _ _)) by lia.
  destruct (dpi_at_ok (- minScaleRel s + Z.max (minScaleRel s) (Z.min (curScaleRel s) (maxScaleRel s)))) as (c & E1 & L1); [lia|].
  destruct (dpi_at_ok (- minScaleRel s)) as (r & E2 & L2); [lia|].
  destruct (dpi_at_ok (- minScaleRel s + maxScaleRel s)) as (m & E3 & L3); [lia|].
  rewrite E1, E2, E3. cbn [rbind]. exists c, r, m. split; [done|]. split; [done|].
  split; [rewrite <- L3|rewrite <- L1]; f_equal; lia.
Qed.

(** Setting a scaling the table has, or one outside the range of the display, gives the
    nearest one in the range: read again, it is the current one. *)
Theorem scaling_reads_back s dpi info :
  covered s -> GetDPIScalingInfo (Some s) = Ret info -> Z.max 100 (Z.min dpi (maximum info)) ∈ known_dpi ->
  exists rel info', SetDPIScaling (Some s) dpi = Ret rel
    /\ GetDPIScalingInfo (after_set (Some s) rel) = Ret info'
    /\ current info' = Z.max 100 (Z.min dpi (maximum info)).
Proof.
  intros Cv G K. pose proof Cv as (A & B & C).
  destruct (GetDPIScalingInfo_covered s Cv) as (c & r & m & G' & Lr & Lm & Lc). rewrite G in G'. injection G' as ->.
  cbn [maximum] in K |- *. remember (Z.max 100 (Z.min dpi m)) as v eqn:Ev. apply list_elem_of_lookup in K as [k Lk].
  pose proof (known_least _ _ Lm) as Hm.
  assert (clamp dpi 100 m = Ret v) as Cl.
  { unfold clamp. rewrite (proj2 (Z.ltb_ge _ _)) by lia. f_equal. destruct (Z.ltb_spec dpi 100); [lia|].
    destruct (Z.ltb_spec m dpi); lia. }
  unfold SetDPIScaling. rewrite G. cbn [rbind minimum maximum current recommended]. rewrite Cl. cbn [rbind].
  destruct (Z.eqb_spec v c) as [->|D].
  { exists None. cbn [after_set]. eexists. split; [done|]. split; [exact G|done]. }
  rewrite (index_of_known _ _ Lk), (index_of_known _ _ Lr). cbn [or_throws rbind].
  pose proof (known_sorted _ _ _ _ Lk Lm ltac:(lia)) as Bk.
  eexists. cbn [after_set].
  set (rel := i32 _). assert (rel = Z.of_nat k + minScaleRel s) as Er.
  { unfold rel, i32. rewrite Z2Nat.id by lia. replace (Z.of_nat k - - minScaleRel s) with (Z.of_nat k + minScaleRel s) by lia.
    unfold wraps. change (2 ^ 32) with 4294967296. change (2 ^ (32 - 1)) with 2147483648.
    destruct (Z_lt_le_dec (Z.of_nat k + minScaleRel s) 0).
    - rewrite <- (Z.mod_unique_pos _ 4294967296 (-1) (Z.of_nat k + minScaleRel s + 4294967296)) by lia.
      rewrite (proj2 (Z.ltb_ge _ _)) by lia. lia.
    - rewrite Z.mod_small by lia. by rewrite (proj2 (Z.ltb_lt _ _)) by lia. }
  destruct (GetDPIScalingInfo_covered {| minScaleRel := minScaleRel s; curScaleRel := rel; maxScaleRel := maxScaleRel s |})
    as (c' & r' & m' & G2 & _ & _ & Lc'); [done|].
  eexists. split; [done|]. split; [exact G2|]. cbn [current]. cbn [minScaleRel curScaleRel maxScaleRel] in Lc'.
  rewrite Er in Lc'. replace (Z.to_nat _) with k in Lc' by lia. congruence.
Qed.

Lemma scaling_reads_back_witness :
  let s := {| minScaleRel := -2; curScaleRel := 0; maxScaleRel := 3 |} in
  exists rel info, SetDPIScaling (Some s) 500 = Ret rel
    /\ GetDPIScalingInfo (after_set (Some s) rel) = Ret info /\ current info = 225.
Proof.
  intros s. apply (scaling_reads_back s 500 {| minimum := 100; maximum := 225; current := 150; recommended := 150 |}).
  - repeat split; cbn; lia.
  - by vm_compute.
  - by apply (bool_decide_unpack (225 ∈ known_dpi)).
Defined.

(** ** Pairing *)

(** A locally unique identifier of an adapter. *)
Record LUID := { LowPart : Z; HighPart : Z }.

Global Instance LUID_eq_dec : EqDecision LUID.
Proof. solve_decision. Defined.

Definition DISPLAYCONFIG_OUTPUT_TECHNOLOGY_INDIRECT_WIRED : Z := 16.
Definition DISPLAYCONFIG_OUTPUT_TECHNOLOGY_INDIRECT_VIRTUAL : Z := 17.
Definition IsIddPath (technology : Z) : bool :=
  (technology =? DISPLAYCONFIG_OUTPUT_TECHNOLOGY_INDIRECT_WIRED)
  || (technology =? DISPLAYCONFIG_OUTPUT_TECHNOLOGY_INDIRECT_VIRTUAL).

Definition MSFT_BASIC_DISPLAY_ADAPTER : Z := 5140.

(** The two static lists. *)
Record luids := { IddLUIDs : list LUID; GpuLUIDs : list LUID }.

Definition IsIddAdapter (luid : LUID) (l : luids) : bool := bool_decide (luid ∈ IddLUIDs l).

(** [paths] are the adapter and the technology of each path, [None] when the query
    fails; [adapters] the vendor and identifier of each adapter, [None] without a
    factory. *)
Definition GetAdapterLUIDs (paths : option (list (LUID * Z))) (adapters : option (list (Z * LUID))) (l : luids) : luids :=
  match paths with
  | None => l
  | Some ps =>
      let l := {| IddLUIDs := IddLUIDs l ++ map fst (List.filter (fun p => IsIddPath (snd p)) ps); GpuLUIDs := GpuLUIDs l |} in
      match adapters with
      | None => l
      | Some ads =>
          {| IddLUIDs := IddLUIDs l;
             GpuLUIDs := GpuLUIDs l ++ List.filter (fun a => negb (IsIddAdapter a l))
                           (map snd (List.filter (fun a => negb (fst a =? MSFT_BASIC_DISPLAY_ADAPTER)) ads)) |}
      end
  end.

(** [OpenVirtualDisplay]: [can_open] is the success of opening the file. *)
Definition OpenVirtualDisplay (can_open : bytes -> bool) (path : bytes) : bool :=
  match path with [] => false | _ => can_open path end.

(** The pairings asked for: the [i]-th device with the adapter [i] modulo their number;
    a division by zero is undefined. *)
Fixpoint pair_devices (can_open : bytes -> bool) (gpus : list LUID) (i : nat) (paths : list bytes) : res (list (bytes * LUID)) :=
  match paths with
  | [] => Ret []
  | p :: paths =>
      if OpenVirtualDisplay can_open p then
        if (length gpus =? 0)%nat then Undef
        else
          g <~ or_throws (gpus !! (i mod length gpus)%nat);
          r <~ pair_devices can_open gpus (S i) paths;
          Ret ((p, g) :: r)
      else pair_devices can_open gpus (S i) paths
  end.

Definition PairIddLUIDsToGpuLUIDs (can_open : bytes -> bool) (devices : list bytes)
    (paths : option (list (LUID * Z))) (adapters : option (list (Z * LUID))) (l : luids) : res (luids * list (bytes * LUID)) :=
  let l := GetAdapterLUIDs paths adapters l in
  r <~ pair_devices can_open (GpuLUIDs l) 0 devices;
  Ret (l, r).

(** *** Facts *)

Lemma pair_devices_cycle can_open gpus i paths :
  gpus <> [] -> Forall (fun p => OpenVirtualDisplay can_open p = true) paths ->
  exists r, pair_devices can_open gpus i paths = Ret r /\ map fst r = paths
    /\ map (fun p => Some (snd p)) r = map (fun k => gpus !! (k mod length gpus)%nat) (seq i (length paths)).
Proof.
  intros N. assert (length gpus <> 0)%nat as L by (by destruct gpus). revert i.
  induction paths as [|p paths IH]; intros i F; [by exists []|]. apply Forall_cons in F as [O F]. cbn [pair_devices].
  rewrite O, (proj2 (Nat.eqb_neq _ _)) by done.
  destruct (lookup_lt_is_Some_2 gpus (i mod length gpus)) as [g E]; [by apply Nat.mod_upper_bound|]. rewrite E. cbn [or_throws rbind].
  destruct (IH (S i) F) as (r & -> & E1 & E2). cbn [rbind]. exists ((p, g) :: r). split; [done|].
  cbn [map fst snd length seq]. by rewrite E1, E2, E.
Qed.

(** How often a remainder occurs among the first numbers. *)
Lemma count_remainder g j n : (j < g)%nat ->
  length (List.filter (fun k => (k mod g =? j)%nat) (seq 0 n)) = ((n + (g - 1 - j)) / g)%nat.
Proof.
  intros J. induction n as [|n IH]; [cbn; symmetry; apply Nat.div_small; lia|].
  rewrite seq_S, List.filter_app, length_app, IH. cbn [List.filter Nat.add].
  pose proof (Nat.div_mod n g ltac:(lia)) as D. pose proof (Nat.mod_upper_bound n g ltac:(lia)) as U.
  set (q := (n / g)%nat) in *. set (m := (n mod g)%nat) in *.
  assert (forall x, (x < 2 * g)%nat -> ((g * q + x) / g = q + (if (g <=? x)%nat then 1 else 0))%nat) as V.
  { intros x Hx. rewrite Nat.mul_comm, Nat.div_add_l by lia. f_equal. destruct (Nat.leb_spec g x).
    - symmetry. apply (Nat.div_unique x g 1 (x - g)); lia.
    - apply Nat.div_small. lia. }
  rewrite D. replace (S (g * q + m + (g - 1 - j)))%nat with (g * q + (m + g - j))%nat by lia.
  replace (g * q + m + (g - 1 - j))%nat with (g * q + (m + (g - 1 - j)))%nat by lia. rewrite !V by lia.
  destruct (Nat.eqb_spec m j), (Nat.leb_spec g (m + (g - 1 - j))), (Nat.leb_spec g (m + g - j)); cbn [length]; lia.
Qed.

(** When every device can be opened and there is an adapter, every device is paired,
    and every adapter gets the same number of devices up to one. *)
Theorem pairing_balanced can_open devices paths adapters l :
  let gpus := GpuLUIDs (GetAdapterLUIDs paths adapters l) in
  gpus <> [] -> NoDup gpus -> Forall (fun p => OpenVirtualDisplay can_open p = true) devices ->
  exists r, PairIddLUIDsToGpuLUIDs can_open devices paths adapters l = Ret (GetAdapterLUIDs paths adapters l, r)
    /\ map fst r = devices
    /\ forall g, g ∈ gpus ->
         (length devices / length gpus <= length (List.filter (fun p => bool_decide (snd p = g)) r)
          <= length devices / length gpus + 1)%nat.
Proof.
  intros gpus N D F. destruct (pair_devices_cycle can_open gpus 0 devices N F) as (r & E & E1 & E2).
  exists r. unfold PairIddLUIDsToGpuLUIDs. fold gpus. rewrite E. split; [done|]. split; [done|].
  intros g [j Lj]%list_elem_of_lookup. pose proof (lookup_lt_Some _ _ _ Lj) as Bj.
  assert (length (List.filter (fun p => bool_decide (snd p = g)) r)
          = length (List.filter (fun k => (k mod length gpus =? j)%nat) (seq 0 (length devices)))) as ->.
  { revert E2. generalize (seq 0 (length devices)). clear E E1. induction r as [|[p h] r IH]; intros [|k ks]; cbn [map]; try done.
    intros [= Eh Er]. cbn [List.filter snd]. specialize (IH _ Er).
    assert (bool_decide (h = g) = (k mod length gpus =? j)%nat) as ->; [|by destruct (_ =? _)%nat; cbn [length]; rewrite IH].
    destruct (Nat.eqb_spec (k mod length gpus) j) as [Ek|Ek]; [rewrite Ek in Eh; apply bool_decide_eq_true; congruence|].
    apply bool_decide_eq_false. intros ->. apply Ek. by apply (NoDup_lookup gpus _ _ g). }
  rewrite count_remainder by done. split; [apply Nat.Div0.div_le_mono; lia|].
  rewrite <- Nat.div_add by lia. apply Nat.Div0.div_le_mono. lia.
Qed.

Lemma pairing_balanced_witness :
  let gpu k := {| LowPart := k; HighPart := 0 |} in
  let devices := [b "idd0"; b "idd1"; b "idd2"] in
  let paths := Some [(gpu 9, 17)] in
  let adapters := Some [(32902, gpu 1); (32902, gpu 9); (5140, gpu 5); (32902, gpu 2)] in
  let l := {| IddLUIDs := []; GpuLUIDs := [] |} in
  exists r, PairIddLUIDsToGpuLUIDs (fun _ => true) devices paths adapters l
            = Ret ({| IddLUIDs := [gpu 9]; GpuLUIDs := [gpu 1; gpu 2] |}, r)
    /\ map fst r = devices
    /\ forall g, g ∈ [gpu 1; gpu 2] -> (1 <= length (List.filter (fun p => bool_decide (snd p = g)) r) <= 2)%nat.
Proof.
  intros gpu devices paths adapters l. apply (pairing_balanced (fun _ => true) devices paths adapters l).
  - done.
  - by apply (bool_decide_unpack (NoDup _)).
  - by repeat constructor.
Defined.

(** Without an adapter the first device that can be opened makes the tool divide by zero. *)
Theorem pairing_without_adapter can_open p devices paths adapters l :
  GpuLUIDs (GetAdapterLUIDs paths adapters l) = [] -> OpenVirtualDisplay can_open p = true ->
  PairIddLUIDsToGpuLUIDs can_open (p :: devices) paths adapters l = Undef.
Proof. intros G O. unfold PairIddLUIDsToGpuLUIDs. rewrite G. cbn [pair_devices]. by rewrite O. Qed.

Lemma pairing_without_adapter_witness :
  PairIddLUIDsToGpuLUIDs (fun _ => true) [b "idd0"] (Some []) (Some [(5140, {| LowPart := 5; HighPart := 0 |})])
    {| IddLUIDs := []; GpuLUIDs := [] |} = Undef.
Proof. by apply (pairing_without_adapter (fun _ => true) (b "idd0") []). Defined.

(** ** Driver and registry *)

(** [GetMultiSzDevProperty]: the strings of a buffer of zero-terminated strings, up to an
    empty one; reading behind the buffer is undefined. *)
Fixpoint read_wsz (s : bytes) : option (bytes * bytes) :=
  match s with
  | [] => None
  | c :: s => if c =? 0 then Some ([], s) else '(t, r) ← read_wsz s; Some (c :: t, r)
  end.
Fixpoint multi_sz (fuel : nat) (s : bytes) : res (list bytes) :=
  match fuel with
  | O => Undef
  | S fuel =>
      match read_wsz s with
      | None => Undef
      | Some ([], _) => Ret []
      | Some (t, r) => ts <~ multi_sz fuel r; Ret (t :: ts)
      end
  end.
(** [prop] is the property as the system returns it; the buffer has more room, filled
    with zeros. *)
Definition GetMultiSzDevProperty (prop : option bytes) : res (list bytes) :=
  match prop with
  | None => Ret []
  | Some v => let buf := v ++ replicate (S (length v)) 0 in multi_sz (S (length buf)) buf
  end.

Definition idd_hwid : bytes := b "root\iddsampledriver".

(** [UninstallIDD]: the devices of the class with the hardware identifier of the driver
    are removed; a failure is remembered. [devs] pairs their identifiers' property with
    the success of the removal. *)
Fixpoint uninstall_loop (devs : list (option bytes * bool)) (result : bool) (count : Z) : res (bool * Z) :=
  match devs with
  | [] => Ret (result, count)
  | (prop, removable) :: devs =>
      ids <~ GetMultiSzDevProperty prop;
      if existsb (str_eqb idd_hwid) ids
      then if removable then uninstall_loop devs result (u32 (count + 1)) else uninstall_loop devs false count
      else uninstall_loop devs result count
  end.
Definition UninstallIDD (devs : option (list (option bytes * bool))) : res (bool * Z) :=
  match devs with None => Ret (false, 0) | Some devs => uninstall_loop devs true 0 end.

(** [InstallIDD]: the steps of one installation, all of which throw when they fail; the
    answer is whether the system must be started again. *)
Record install_steps := {
  inf_class : bool; list_created : bool; info_created : bool; property_set : bool; registered : bool;
  newdev_loaded : bool; update_found : bool; updated : option bool
}.
Definition InstallIDD (hwid : bytes) (s : install_steps) : res bool :=
  match hwid with
  | [] => Throws
  | _ =>
      if inf_class s && list_created s && info_created s && property_set s && registered s && newdev_loaded s && update_found s
      then or_throws (updated s) else Throws
  end.

(** [SetIDDRegisterKeys]: a subkey that can be enumerated and opened has its values read;
    those of the data center adapters are marked. *)
Definition is_flex_value (v : option (bytes * bytes)) : bool :=
  match v with
  | Some (name, data) =>
      str_eqb (StringToLowerCase name) (b "matchingdeviceid")
      && (contains (b "ven_8086&dev_56c1") (StringToLowerCase data) || contains (b "ven_8086&dev_56c0") (StringToLowerCase data))
  | None => false
  end.
Definition SetIDDRegisterKeys (subkeys : option (list (option (bytes * option (list (option (bytes * bytes))))))) : bool * list bytes :=
  match subkeys with
  | None | Some [] => (false, [])
  | Some ks =>
      (true, omap (fun k => match k with
                            | Some (name, Some vs) => if existsb is_flex_value vs then Some name else None
                            | _ => None
                            end) ks)
  end.

(** The strings of a property. *)
Definition pack (ts : list bytes) : bytes := concat (map (fun t => t ++ [0]) ts).

Lemma read_wsz_app t r : 0 ∉ t -> read_wsz (t ++ 0 :: r) = Some (t, r).
Proof.
  induction t as [|c t IH]; intros N; [done|]. apply not_elem_of_cons in N as [Nc N]. cbn.
  rewrite (proj2 (Z.eqb_neq c 0)) by done. change (read_wsz (t ++ 0 :: r)) with (read_wsz (t ++ 0 :: r)).
  rewrite (IH N). done.
Qed.

Lemma multi_sz_pack ts r fuel :
  Forall (fun t => t <> [] /\ (0 ∉ t)) ts -> (length ts < fuel)%nat -> multi_sz fuel (pack ts ++ 0 :: r) = Ret ts.
Proof.
  revert fuel. induction ts as [|t ts IH]; intros fuel F L; (destruct fuel as [|fuel]; [lia|]); [done|].
  apply Forall_cons in F as [[Nt Zt] F]. cbn in L. unfold pack. cbn [map concat multi_sz].
  rewrite <- !app_assoc. change ([0] ++ concat (map (fun t => t ++ [0]) ts) ++ 0 :: r) with (0 :: pack ts ++ 0 :: r).
  rewrite read_wsz_app by done. destruct t as [|c t]; [done|]. rewrite IH; [done|done|lia].
Qed.

Lemma length_pack ts : (length ts <= length (pack ts))%nat.
Proof. induction ts as [|t ts IH]; [done|]. unfold pack. cbn. fold (pack ts). rewrite !length_app. cbn. lia. Qed.

(** The identifiers of a device are read back from its property. *)
Lemma GetMultiSzDevProperty_pack ts :
  Forall (fun t => t <> [] /\ (0 ∉ t)) ts -> GetMultiSzDevProperty (Some (pack ts ++ [0])) = Ret ts.
Proof.
  intros F. unfold GetMultiSzDevProperty. rewrite <- app_assoc. cbn [app]. change ([0] ++ ?r) with (0 :: r).
  apply multi_sz_pack; [done|]. pose proof (length_pack ts). rewrite !length_app. cbn [length]. lia.
Qed.

(** A device with its identifiers and whether it can be removed. *)
Definition device (d : list bytes * bool) : option bytes * bool := (Some (pack (fst d) ++ [0]), snd d).

Lemma uninstall_loop_spec ds r c :
  Forall (fun d => Forall (fun t => t <> [] /\ (0 ∉ t)) (fst d)) ds -> 0 <= c -> c + Z.of_nat (length ds) < 2 ^ 32 ->
  let idds := List.filter (fun d => existsb (str_eqb idd_hwid) (fst d)) ds in
  uninstall_loop (map device ds) r c
  = Ret (r && forallb snd idds, c + Z.of_nat (length (List.filter snd idds))).
Proof.
  revert r c. induction ds as [|[ids rm] ds IH]; intros r c F C L; [cbn; by rewrite andb_true_r, Z.add_0_r|].
  apply Forall_cons in F as [Fi F]. cbn [fst] in Fi. cbn [map length device fst snd uninstall_loop] in *.
  rewrite GetMultiSzDevProperty_pack by done. cbn [rbind List.filter fst].
  destruct (existsb (str_eqb idd_hwid) ids); [|apply IH; [done|lia|lia]].
  destruct rm; cbn [forallb List.filter snd length]; rewrite IH by (done || (try rewrite u32_small by lia; lia)).
  - rewrite u32_small by lia. cbn [andb]. do 2 f_equal. lia.
  - by rewrite andb_false_r.
Qed.

(** Removal takes away exactly the devices of the driver that can be removed, tells
    their number, and fails when one of them stays. *)
Theorem uninstall_removes ds :
  Forall (fun d => Forall (fun t => t <> [] /\ (0 ∉ t)) (fst d)) ds -> Z.of_nat (length ds) < 2 ^ 32 ->
  let idds := List.filter (fun d => existsb (str_eqb idd_hwid) (fst d)) ds in
  UninstallIDD (Some (map device ds)) = Ret (forallb snd idds, Z.of_nat (length (List.filter snd idds))).
Proof. intros F L. cbn [UninstallIDD]. by rewrite uninstall_loop_spec by (done || lia). Qed.

Lemma uninstall_removes_witness :
  UninstallIDD (Some (map device [([idd_hwid], true); ([b "pci"; idd_hwid], false); ([b "pci"], true)])) = Ret (false, 1).
Proof.
  apply (uninstall_removes [([idd_hwid], true); ([b "pci"; idd_hwid], false); ([b "pci"], true)]); [|done].
  by apply (bool_decide_unpack (Forall _ _)).
Defined.
