(* ===== verification/IddSetupTool.v ===== *)
(** * IddSetupTool: the options and the steps of the setup tool

    Models [src/sources/apps/idd-setup-tool/IddSetupToolCommandParser.cpp] and [.h] on
    top of the command parser (the registered options, the constraints between them),
    and [idd-setup-tool.cpp], the steps the tool takes for its options.  Writing the
    options to a file for tests ([DumpConfigurationValues]) and printing are left
    out. *)

From Stdlib Require Import ZArith Lia String.
From stdpp Require Import base gmap list.
From coqutil Require Import Datatypes.RecordSetters.
From S2P Require Import Prelude StdMap GaConf CNum CxxString CommandParser.
Import TriangleBracketNotations.

(** ** Options *)

Record IddSetupToolOptionsStruct := {
  Verbose : bool; Yes : bool; Help : bool; InstallIdd : bool; UninstallIdd : bool; TrustInf : bool; PairIdd : bool;
  ForceNoUninstall : bool; ForceNoPair : bool; InfPath : bytes; Resolutions : Z * Z; Scale : Z; RearrangeDisplays : bool;
  AdaptersToDisable : list bytes; DisplaysToDisable : list bytes; AdaptersToEnable : list bytes; DisplaysToEnable : list bytes;
  ShowIddCount : bytes; ShowAdaptersInfo : bytes; ShowDisplaysInfo : bytes; IndentationLevel : Z; PostActionDelay : Z;
  DumpConfigurationValues : bool
}.
Definition default_options : IddSetupToolOptionsStruct :=
  {| Verbose := false; Yes := false; Help := false; InstallIdd := false; UninstallIdd := false; TrustInf := false;
     PairIdd := false; ForceNoUninstall := false; ForceNoPair := false; InfPath := []; Resolutions := (0, 0); Scale := 0;
     RearrangeDisplays := false; AdaptersToDisable := []; DisplaysToDisable := []; AdaptersToEnable := [];
     DisplaysToEnable := []; ShowIddCount := []; ShowAdaptersInfo := []; ShowDisplaysInfo := []; IndentationLevel := 0;
     PostActionDelay := 2000; DumpConfigurationValues := false |}.

(** The members options are stored in. *)
Inductive target :=
  | tVerbose | tHelp | tYes | tPostActionDelay | tIndentationLevel | tDumpConfigurationValues | tInfPath | tTrustInf | tScale
  | tResolutions | tRearrangeDisplays | tAdaptersToDisable | tDisplaysToDisable | tForceNoUninstall | tForceNoPair
  | tAdaptersToEnable | tDisplaysToEnable | tShowIddCount | tShowAdaptersInfo | tShowDisplaysInfo.

(** A store of the wrong type or outside a member is undefined. *)
Global Instance Options_Targets : Targets target IddSetupToolOptionsStruct := {|
  set_switch t o :=
    match t with
    | tVerbose => o <| Verbose := true |> | tHelp => o <| Help := true |> | tYes => o <| Yes := true |>
    | tDumpConfigurationValues => o <| DumpConfigurationValues := true |> | tTrustInf => o <| TrustInf := true |>
    | tRearrangeDisplays => o <| RearrangeDisplays := true |> | tForceNoUninstall => o <| ForceNoUninstall := true |>
    | tForceNoPair => o <| ForceNoPair := true |> | _ => o
    end;
  put_string t i v o :=
    match t, i with
    | tShowIddCount, O => Ret (o <| ShowIddCount := v |>)
    | tShowAdaptersInfo, O => Ret (o <| ShowAdaptersInfo := v |>)
    | tShowDisplaysInfo, O => Ret (o <| ShowDisplaysInfo := v |>)
    | _, _ => Undef
    end;
  put_int t i v o :=
    match t, i with
    | tPostActionDelay, O => Ret (o <| PostActionDelay := u32 v |>)
    | tIndentationLevel, O => Ret (o <| IndentationLevel := u32 v |>)
    | tScale, O => Ret (o <| Scale := v |>)
    | tResolutions, O => Ret (o <| Resolutions := (v, snd (Resolutions o)) |>)
    | tResolutions, S O => Ret (o <| Resolutions := (fst (Resolutions o), v) |>)
    | _, _ => Undef
    end;
  push_string t v o :=
    match t with
    | tAdaptersToDisable => Ret (o <| AdaptersToDisable := AdaptersToDisable o ++ [v] |>)
    | tDisplaysToDisable => Ret (o <| DisplaysToDisable := DisplaysToDisable o ++ [v] |>)
    | tAdaptersToEnable => Ret (o <| AdaptersToEnable := AdaptersToEnable o ++ [v] |>)
    | tDisplaysToEnable => Ret (o <| DisplaysToEnable := DisplaysToEnable o ++ [v] |>)
    | _ => Undef
    end;
  push_int t v o := Undef;
  put_path t i v o := match t, i with tInfPath, O => Ret (o <| InfPath := v |>) | _, _ => Undef end
|}.

(** A text; a backquote stands for a double quote. *)
Definition txt (s : string) : bytes := map (fun c => if c =? 96 then 34 else c) (b s).

Abbreviation idd_parser := (@parser target IddSetupToolOptionsStruct).

Definition new_parser : idd_parser :=
  {| CurrentCommandNumber := 0; GlobalDescription := []; GlobalBugs := []; MiscCounters := ∅; Commands := [];
     CommandNameToNumberLookup := ∅; GlobalSwitches := []; GlobalParams := []; CommandSpecificSettings := ∅;
     CommandSpecificSwitches := ∅; CommandSpecificParams := ∅; ToolName := b "idd-setup-tool.exe"; RawArguments := [];
     Options := default_options |}.

(** The registrations of the constructor; [behind] is what a variadic function finds
    behind its arguments. *)
Definition registrations (behind : list bytes) : list (idd_parser -> res idd_parser) :=
  [AddGlobalSwitch tVerbose (txt "Turn on additional logging (default: off)") false [b "-v"; b "--verbose"];
   AddGlobalSwitch tHelp (txt "Print help") false [b "-h"; b "--help"];
   AddGlobalSwitch tYes (txt "Assume `yes` on all prompts (default: off)") false [b "-y"; b "--yes"];
   AddGlobalParam tPostActionDelay INTEGER true (b "") 1
     (txt "Applies the specified delay (in milliseconds) after every action that changes display or adapter states (default: 2000ms)") false [b "--delay"];
   AddGlobalParam tIndentationLevel INTEGER true (b "") 1
     (txt "Offset all output from this tool by this amount") true [b "--indentation"];
   AddGlobalSwitch tDumpConfigurationValues
     (txt "Causes tool to append values of all configuration options interpreted by this command parser to the file idd_setup_tool_dumped_configuration_values.csv.") true [b "--dump-configuration-values"];
   AddGlobalBugs 6
     ([txt "Some functions of this tool do not work in non-interactive shells. A list of known commands that require interactive shells is below; but overall this tool is not validated in non-interactive shell.";
      txt " - `idd-setup-tool.exe set` scaling change functionality.";
      txt " - `idd-setup-tool.exe install` scaling change functionality.";
      txt "";
      txt "Some functions of this tool have a known instability when running operations immediately after enabling or disabling adapters.";
      txt "In our testing this is resolved by including a small delay between sensitive actions which is applied by default (2000ms) if an adapter has been disabled or enabled. However this can be set to zero or increased if required by using the `--delay=<VALUE>` parameter."] ++ behind);
   fun p => Ret (AddCommand (b "install") (txt "Installs IDD") p);
   fun p => Ret (AddCommand (b "uninstall") (txt "Uninstalls IDD") p);
   fun p => Ret (AddCommand (b "set") (txt "Configure adapter(s) settings") p);
   fun p => Ret (AddCommand (b "enable") (txt "Enable adapters or displays") p);
   fun p => Ret (AddCommand (b "disable") (txt "Disable adapters or displays") p);
   fun p => Ret (AddCommand (b "pair") (txt "Pair adapters to IDD displays") p);
   fun p => Ret (AddCommand (b "rearrange") (txt "Rearrange available displays") p);
   fun p => Ret (AddCommand (b "show") (txt "Show information related to IDD setup") p);
   AddCommandSpecificParam (b "install") tInfPath PATH false (b "") 1
     (txt "Location of IDD driver (IddSampleDriver.inf) to install (default: $bindir\idd\)") [b "--location"];
   AddCommandSpecificSwitch (b "install") tTrustInf
     (txt "Extract certificate and add it to the trusted store (default: no)") false [b "--trust"];
   AddCommandSpecificParam (b "install") tScale INTEGER true (b "") 1
     (txt "Configure specified scaling for the display (default: use system default)") [b "--scale"];
   AddCommandSpecificParam (b "install") tResolutions INTEGER true (b "x") 2
     (txt "Configure specified resolution for the display (default: use system default)") [b "--resolution"];
   AddCommandSpecificSwitch (b "install") tRearrangeDisplays
     (txt "Rearrange displays horizontally, set leftmost as primary") false [b "--rearrange"];
   AddCommandSpecificParam (b "install") tAdaptersToDisable STRING_VECTOR true (b ",") 0
     (txt "Disable specified adapter (options: msft, idd, flex)") [b "--disable-adapter"];
   AddCommandSpecificParam (b "install") tDisplaysToDisable STRING_VECTOR true (b ",") 0
     (txt "Disable specified display (options: non-flex, msft, idd, virtio, non-idd)") [b "--disable-display"];
   AddCommandSpecificSwitch (b "install") tForceNoUninstall
     (txt "Perform installation with no uninstall step") true [b "--force-no-uninstall"];
   AddCommandSpecificSwitch (b "install") tForceNoPair (txt "Perform installation with no pair step") true [b "--force-no-pair"];
   AddCommandSpecificParam (b "uninstall") tAdaptersToEnable STRING_VECTOR true (b ",") 0
     (txt "Enable specified adapter after IDD uninstallation (options: msft, idd, flex)") [b "--enable-adapter"];
   AddCommandSpecificParam (b "uninstall") tDisplaysToEnable STRING_VECTOR true (b ",") 0
     (txt "Enable specified display after IDD uninstallation (options: non-flex, msft, idd, virtio, non-idd)") [b "--enable-display"];
   AddCommandSpecificSetting (b "set") tScale INTEGER true (b "") 1
     (txt "Configure specified scaling for the display") [b "scale"];
   AddCommandSpecificSetting (b "set") tResolutions INTEGER true (b "x") 2
     (txt "Configure specified resolution for the display") [b "resolution"];
   AddCommandSpecificSetting (b "enable") tAdaptersToEnable STRING_VECTOR true (b ",") 0
     (txt "Enable specified adapter (options: msft, idd, flex)") [b "adapter"];
   AddCommandSpecificSetting (b "enable") tDisplaysToEnable STRING_VECTOR true (b ",") 0
     (txt "Enable specified display (options: non-flex, msft, idd, virtio, non-idd)") [b "display"];
   AddCommandSpecificSetting (b "disable") tAdaptersToDisable STRING_VECTOR true (b ",") 0
     (txt "Disable specified adapter (options: msft, idd, flex)") [b "adapter"];
   AddCommandSpecificSetting (b "disable") tDisplaysToDisable STRING_VECTOR true (b ",") 0
     (txt "Disable specified display (options: non-flex, msft, idd, virtio, non-idd)") [b "display"];
   AddCommandSpecificParam (b "show") tShowIddCount STRING true (b "") 1
     (txt "If this option is `yes` then print number of IDD-compatible adapters on the system (default: yes)") [b "--count"];
   AddCommandSpecificParam (b "show") tShowAdaptersInfo STRING true (b "") 1
     (txt "If this option is `yes` then print some information on adapters (default: yes)") [b "--adapters"];
   AddCommandSpecificParam (b "show") tShowDisplaysInfo STRING true (b "") 1
     (txt "If this option is `yes` then print some information on displays (default: yes)") [b "--displays"];
   AddGlobalDescription 3
     ([txt "The order in which arguments are supplied to this tool is not important, with the exception of the <command> argument which must come before any arguments specific to that command.";
      txt "";
      txt "All options and modes in this tool are case insensitive; though the values provided to these options (e.g. a path to an INF file) may still be case sensitive."] ++ behind);
   AddCommandSpecificDescription (b "install") 12
     ([txt "Installs IDD display for each IDD compatible adapter.";
      txt "This will uninstall any previously installed IDD displays prior to installation of new IDD displays.";
      txt "";
      txt "Pairing is done automatically following installation.";
      txt "See `idd-setup-tool.exe pair --help` for more details on pairing.";
      txt "";
      txt "Using `--resolution` or `--scale` you can configure any installed IDD displays resolution.";
      txt "This behaves identical to `idd-setup-tool.exe set` in terms of behavior.";
      txt "See `idd-setup-tool.exe set --help` for more details on setting IDD resolution and scaling.";
      txt "";
      txt "Using `--disable-adapter` or `--disable-display` you can disable specific adapters or displays specified by the pattern.";
      txt "See `idd-setup-tool.exe disable --help` for more details on adapter and display disabling, as well as the detailed list of supported patterns."] ++ behind);
   AddCommandSpecificDescription (b "uninstall") 4
     ([txt "Uninstalls any detected IDD display.";
      txt "Using `--enable-adapter` or `--enable-display` you can enable specific adapters or displays specified by the pattern.";
      txt "See `idd-setup-tool.exe enable --help` for more details on adapter and display enabling, as well as the detailed list of supported patterns."] ++ behind);
   AddCommandSpecificDescription (b "set") 6
     ([txt "Configures given setting for available IDD displays.";
      txt "";
      txt "Mind that if the order in which these settings are set is important, this should be done by execution of `idd-setup-tool.exe set` a few times consecutively";
      txt "Default ordering of this tool is:";
      txt " - Resolution";
      txt " - Scaling"] ++ behind);
   AddCommandSpecificDescription (b "enable") 15
     ([txt "Enables specified adapters/displays.";
      txt "";
      txt "Using `adapter` or `display` you can enable adapters or displays specified by a pattern:";
      txt " - non-flex = All except Intel Data Center GPU Flex";
      txt " - msft     = Microsoft Basic Adapter";
      txt " - virtio   = Red Hat VirtIO GPU DOD controller and Red Hat QXL controller";
      txt " - idd      = Intel IddSampleDriver Device";
      txt " - flex     = Intel Data Center GPU Flex Series";
      txt " - non-idd  = All except Intel IddSampleDriver Device";
      txt "Specific displays and adapters can be targeted by supplying one of the above patterns with an index (e.g. idd1 disable only the first idd display or adapter).";
      txt "'show' command can be used to enumerate the full list of patterns that will affect each adapter or display.";
      txt "Default ordering of this tool is:";
      txt " - Enable adapters";
      txt " - Enable displays";
      txt "Note: Some of these patterns are display or adapter only."] ++ behind);
   AddCommandSpecificDescription (b "disable") 15
     ([txt "Disables specified adapters/displays.";
      txt "";
      txt "Using `adapter` or `display` you can disable adapters or displays specified by a pattern:";
      txt " - non-flex = All except Intel Data Center GPU Flex";
      txt " - msft     = Microsoft Basic Adapter";
      txt " - virtio   = Red Hat VirtIO GPU DOD controller and Red Hat QXL controller";
      txt " - idd      = Intel IddSampleDriver Device";
      txt " - flex     = Intel Data Center GPU Flex Series";
      txt " - non-idd  = All except Intel IddSampleDriver Device";
      txt "Specific displays and adapters can be targeted by supplying one of the above patterns with an index (e.g. idd1 disable only the first idd display or adapter).";
      txt "'show' command can be used to enumerate the full list of patterns that will affect each adapter or display.";
      txt "Default ordering of this tool is:";
      txt " - Disable adapters";
      txt " - Disable displays";
      txt "Note: Some of these patterns are display or adapter only."] ++ behind);
   AddCommandSpecificDescription (b "pair") 2
     ([txt "Loops through IDD displays and adapters and pairs each IDD display with next IDD compatible adapter.";
      txt "If there are more displays than adapters, adapters loop starts anew so some adapters will be assigned with few displays."] ++ behind);
   AddCommandSpecificBugs (b "pair") 9
     ([txt "This command will likely re-enable MSFT basic display (and perhaps any other disabled displays).";
      txt "It is recommended to disable any unwanted displays after running this command - or any other commands that run";
      txt "IDD paring such as install.";
      txt "";
      txt "Pairing should preserve over reboot. Its our bug that it's not. As a workaround `pair` command must be re-run";
      txt "anytime the following occurs:";
      txt " - IDD Driver is disabled/enabled";
      txt " - GFX Driver is disabled/enabled";
      txt " - System is rebooted"] ++ behind);
   AddCommandSpecificDescription (b "rearrange") 1
     ([txt "Rearranges displays horizontally, and sets the leftmost display as the primary."] ++ behind);
   AddCommandSpecificDescription (b "show") 2
     ([txt "Prints information on adapters or displays.";
      txt "Along with information about each display and adapter the list of adapter and display enabling and disabling patterns that will affect each device is also displayed."] ++ behind)].

Fixpoint register (fs : list (idd_parser -> res idd_parser)) (p : idd_parser) : res idd_parser :=
  match fs with
  | [] => Ret p
  | f :: fs => p <~ f p; register fs p
  end.
Definition IddSetupToolCommandParser (behind : list bytes) : res idd_parser := register (registrations behind) new_parser.

(** ** Constraints *)

Section Constraints.
Variable is_regular_file : bytes -> bool.
Variable default_path : bytes.

Definition separator (c : Z) : bool := (c =? 92) || (c =? 47).
(** [operator/] of paths, for a name that is not absolute. *)
Definition path_join (p name : bytes) : bytes :=
  match List.rev p with
  | [] => name
  | c :: _ => if separator c then p ++ name else p ++ 92 :: name
  end.
Definition isIddOk (idd : bytes) : bool :=
  is_regular_file (path_join idd (b "IddSampleDriver.inf")) && is_regular_file (path_join idd (b "IddSampleDriver.dll"))
  && is_regular_file (path_join idd (b "iddsampledriver.cat")).

Definition with_opts (f : IddSetupToolOptionsStruct -> IddSetupToolOptionsStruct) (p : idd_parser) : idd_parser :=
  with_state (CurrentCommandNumber p) (RawArguments p) (f (Options p)) p.

Definition is_nil {A} (l : list A) : bool := match l with [] => true | _ => false end.
Definition or_yes (v : bytes) : bytes := if is_nil v then b "yes" else v.

(** The modes a command turns on, and the settings it asks for. *)
Definition command_modes (name : bytes) (o : IddSetupToolOptionsStruct) : res IddSetupToolOptionsStruct :=
  if str_eqb name (b "install") then
    Ret (o <| UninstallIdd := negb (ForceNoUninstall o) || UninstallIdd o |> <| InstallIdd := true |>
           <| PairIdd := negb (ForceNoPair o) || PairIdd o |>)
  else if str_eqb name (b "uninstall") then Ret (o <| UninstallIdd := true |>)
  else if str_eqb name (b "set") then
    if (fst (Resolutions o) =? 0) && (Scale o =? 0) then Exits (-1) else Ret o
  else if str_eqb name (b "enable") then
    if is_nil (AdaptersToEnable o) && is_nil (DisplaysToEnable o) then Exits (-1) else Ret o
  else if str_eqb name (b "disable") then
    if is_nil (AdaptersToDisable o) && is_nil (DisplaysToDisable o) then Exits (-1) else Ret o
  else if str_eqb name (b "pair") then Ret (o <| PairIdd := true |>)
  else if str_eqb name (b "rearrange") then Ret (o <| RearrangeDisplays := true |>)
  else if str_eqb name (b "show") then
    Ret (o <| ShowAdaptersInfo := or_yes (ShowAdaptersInfo o) |> <| ShowDisplaysInfo := or_yes (ShowDisplaysInfo o) |>
           <| ShowIddCount := or_yes (ShowIddCount o) |>)
  else Ret o.

Definition ConstraintFunction (p : idd_parser) : res (bool * idd_parser) :=
  cur <~ GetCurrentCommand p;
  match (if Help (Options p) then None else cur) with
  | None => _ <~ ShowHelpMessage (Z.to_nat (IndentationLevel (Options p))) p; Exits 0
  | Some c =>
      o <~ command_modes (StringToLowerCase (CommandName c)) (Options p);
      if InstallIdd o || TrustInf o then
        let idd := if is_nil (InfPath o) then default_path else InfPath o in
        if isIddOk idd then Ret (true, with_opts (fun _ => o <| InfPath := idd |>) p) else Exits (-1)
      else Ret (true, with_opts (fun _ => o) p)
  end.

(** A command line from the start. *)
Definition parse_line (behind args : list bytes) : res (bool * idd_parser) :=
  p <~ IddSetupToolCommandParser behind; ParseCommands ConstraintFunction args p.
End Constraints.

(** ** Steps *)

Inductive action :=
  | AUninstall | AListAdapters | AQuery (only_attached : bool) | ATrust | AInstall | AKeys
  | ADisableAdapter (p : bytes) | AEnableAdapter (p : bytes) | APair | ADelay (ms : Z)
  | ADisableDisplay (p : bytes) | AEnableDisplay (p : bytes) | ASetResolution (w h : Z) | ARearrange | AScale (dpi : Z).

(** The actions so far and the flag for the delay; the tool goes on or stops. *)
Record steps := { done_actions : list action; delay_required : bool }.
Inductive progress := Go (s : steps) | Stop (code : Z) (s : steps).
Definition andthen (m : progress) (f : steps -> progress) : progress :=
  match m with Go s => f s | Stop c s => Stop c s end.
Declare Scope steps_scope.
Delimit Scope steps_scope with steps.
Notation "m >=> f" := (andthen m f) (at level 50, left associativity) : steps_scope.
Local Open Scope steps_scope.

Section Main.
(** The outcome of an action after others: a failure that is returned or thrown ends
    the tool with the code [-1]; the number of adapters found by listing them. *)
Variable succeeds : list action -> action -> bool.
Variable idd_adapters : list action -> nat.
Variable o : IddSetupToolOptionsStruct.

Definition act (a : action) (s : steps) : progress :=
  let s' := {| done_actions := done_actions s ++ [a]; delay_required := delay_required s |} in
  if succeeds (done_actions s) a then Go s' else Stop (-1) s'.
Fixpoint act_all (l : list action) (s : steps) : progress :=
  match l with [] => Go s | a :: l => act a s >=> act_all l end.
Definition adapters_changed (s : steps) : progress := Go {| done_actions := done_actions s; delay_required := true |}.

(** [ApplyExecutionDelayBeforeDisplayChange], when it is due. *)
Definition delay (s : steps) : progress :=
  if delay_required s then
    Go {| done_actions := done_actions s ++ (if 0 <? PostActionDelay o then [ADelay (PostActionDelay o)] else []);
          delay_required := false |}
  else Go s.

Definition when (c : bool) (f : steps -> progress) (s : steps) : progress := if c then f s else Go s.
Definition says_yes (v : bytes) : bool := str_eqb (StringToLowerCase v) (b "yes").

Definition install_step (s : steps) : progress :=
  act AListAdapters s >=> fun s =>
  act_all (replicate (idd_adapters (done_actions s)) AInstall) s >=> act AKeys
  >=> act_all [ADisableAdapter (b "idd"); ADisableAdapter (b "flex"); AEnableAdapter (b "flex"); AEnableAdapter (b "idd")]
  >=> adapters_changed.
Definition disable_displays_step (s : steps) : progress :=
  delay s >=> act (AQuery true) >=> act_all (map ADisableDisplay (DisplaysToDisable o)).
Definition disable_adapters_step (s : steps) : progress :=
  act_all (map ADisableAdapter (AdaptersToDisable o)) s >=> adapters_changed.
Definition enable_adapters_step (s : steps) : progress :=
  act_all (map AEnableAdapter (AdaptersToEnable o)) s >=> adapters_changed.
Definition enable_displays_step (s : steps) : progress :=
  delay s >=> act (AQuery false) >=> act_all (map AEnableDisplay (DisplaysToEnable o)).
Definition resolution_step (s : steps) : progress :=
  delay s >=> act (ASetResolution (fst (Resolutions o)) (snd (Resolutions o))).
Definition rearrange_step (s : steps) : progress := delay s >=> act (AQuery true) >=> act ARearrange.
Definition scale_step (s : steps) : progress := delay s >=> act (AScale (Scale o)).

(** The body of [main] behind the parsing of its arguments. *)
Definition main_steps (s : steps) : progress :=
  when (UninstallIdd o) (act AUninstall) s
  >=> when (says_yes (ShowAdaptersInfo o) || says_yes (ShowIddCount o)) (act AListAdapters)
  >=> when (says_yes (ShowDisplaysInfo o)) (act (AQuery true))
  >=> when (TrustInf o) (act ATrust)
  >=> when (InstallIdd o) install_step
  >=> when (PairIdd o) (act APair)
  >=> when (negb (is_nil (DisplaysToDisable o))) disable_displays_step
  >=> when (negb (is_nil (AdaptersToDisable o))) disable_adapters_step
  >=> when (negb (is_nil (AdaptersToEnable o))) enable_adapters_step
  >=> when (negb (is_nil (DisplaysToEnable o))) enable_displays_step
  >=> when (negb (fst (Resolutions o) =? 0) && negb (snd (Resolutions o) =? 0)) resolution_step
  >=> when (RearrangeDisplays o) rearrange_step
  >=> when (negb (Scale o =? 0)) scale_step.

Definition main_run : Z * list action :=
  match main_steps {| done_actions := []; delay_required := false |} with
  | Go s => (0, done_actions s)
  | Stop c s => (c, done_actions s)
  end.

(** *** The delay *)

Definition adapter_change (a : action) : bool :=
  match a with ADisableAdapter _ | AEnableAdapter _ => true | _ => false end.
Definition display_change (a : action) : bool :=
  match a with ADisableDisplay _ | AEnableDisplay _ | ASetResolution _ _ | ARearrange | AScale _ => true | _ => false end.
Definition is_delay (a : action) : bool := match a with ADelay ms => 0 <? ms | _ => false end.

(** An adapter was changed and no delay has followed. *)
Definition pending (p : bool) (a : action) : bool := if adapter_change a then true else if is_delay a then false else p.
Definition unsettled (l : list action) : bool := fold_left pending l false.
(** Every display is changed only when the adapters have settled. *)
Fixpoint settled_from (p : bool) (l : list action) : bool :=
  match l with
  | [] => true
  | a :: l => negb (display_change a && p) && settled_from (pending p a) l
  end.
Definition settled (l : list action) : bool := settled_from false l.

Lemma unsettled_snoc l a : unsettled (l ++ [a]) = pending (unsettled l) a.
Proof. unfold unsettled. by rewrite fold_left_app. Qed.

Lemma settled_from_snoc p l a :
  settled_from p (l ++ [a]) = settled_from p l && negb (display_change a && fold_left pending l p).
Proof.
  revert p. induction l as [|x l IH]; intros p; cbn [app settled_from fold_left].
  - by rewrite andb_true_r.
  - by rewrite IH, andb_assoc.
Qed.
Lemma settled_snoc l a : settled (l ++ [a]) = settled l && negb (display_change a && unsettled l).
Proof. apply settled_from_snoc. Qed.

(** The state between the steps, and what holds whenever the tool stops. *)
Definition between (s : steps) : Prop :=
  settled (done_actions s) = true /\ (unsettled (done_actions s) = true -> delay_required s = true).
Definition quiet (s : steps) : Prop := settled (done_actions s) = true /\ unsettled (done_actions s) = false.
Definition leads (P : steps -> Prop) (m : progress) : Prop :=
  match m with Go s => P s | Stop _ s => settled (done_actions s) = true end.

Lemma leads_then (P Q : steps -> Prop) m f : leads P m -> (forall s, P s -> leads Q (f s)) -> leads Q (m >=> f).
Proof. destruct m as [s|c s]; cbn; auto. Qed.

Lemma leads_when (c : bool) f s : between s -> (between s -> leads between (f s)) -> leads between (when c f s).
Proof. intros B H. unfold when. destruct c; [by apply H|done]. Qed.

Lemma act_leads P a s : settled (done_actions s ++ [a]) = true ->
  P {| done_actions := done_actions s ++ [a]; delay_required := delay_required s |} -> leads P (act a s).
Proof. intros H1 H2. unfold act. by destruct (succeeds _ _). Qed.

(** An action that is no change keeps the state, one on a display needs settled adapters. *)
Lemma act_between a s : display_change a = false -> adapter_change a = false -> is_delay a = false ->
  between s -> leads between (act a s).
Proof.
  intros D A L [S U]. assert (settled (done_actions s ++ [a]) = true) as S' by (rewrite settled_snoc, S, D; done).
  apply act_leads; [done|]. split; [done|]. cbn [done_actions delay_required]. rewrite unsettled_snoc. unfold pending. by rewrite A, L.
Qed.
Lemma act_quiet a s : adapter_change a = false -> quiet s -> leads quiet (act a s).
Proof.
  intros A [S U]. assert (settled (done_actions s ++ [a]) = true) as S' by (rewrite settled_snoc, S, U, andb_false_r; done).
  apply act_leads; [done|]. split; [done|]. cbn [done_actions]. rewrite unsettled_snoc, U. unfold pending. rewrite A. by destruct (is_delay a).
Qed.
Lemma act_all_quiet l s : Forall (fun a => adapter_change a = false) l -> quiet s -> leads quiet (act_all l s).
Proof.
  revert s. induction l as [|a l IH]; intros s F Q; [done|]. apply Forall_cons in F as [Fa F].
  apply (leads_then quiet); [by apply act_quiet|]. intros s'. by apply IH.
Qed.
Lemma act_all_settled l s : Forall (fun a => display_change a = false) l -> settled (done_actions s) = true ->
  leads (fun s => settled (done_actions s) = true) (act_all l s).
Proof.
  revert s. induction l as [|a l IH]; intros s F S; [done|]. apply Forall_cons in F as [Fa F].
  apply (leads_then (fun s => settled (done_actions s) = true)).
  - apply act_leads; cbn [done_actions]; rewrite settled_snoc, S, Fa; done.
  - intros s'. by apply IH.
Qed.
Lemma quiet_between s : quiet s -> between s.
Proof. intros [S U]. split; [done|]. by rewrite U. Qed.
Lemma leads_mono (P Q : steps -> Prop) m : (forall s, P s -> Q s) -> leads P m -> leads Q m.
Proof. intros H. destruct m; cbn; auto. Qed.

Lemma delay_quiet s : 0 < PostActionDelay o -> between s -> leads quiet (delay s).
Proof.
  intros D [S U]. unfold delay. destruct (delay_required s) eqn:E; cbn [leads].
  - rewrite (proj2 (Z.ltb_lt _ _) D). split; cbn [done_actions]; [by rewrite settled_snoc, S|].
    rewrite unsettled_snoc. unfold pending. cbn [adapter_change is_delay]. by rewrite (proj2 (Z.ltb_lt _ _) D).
  - split; [done|]. destruct (unsettled (done_actions s)); [by specialize (U eq_refl)|done].
Qed.

Lemma adapters_between l s : Forall (fun a => display_change a = false) l -> between s ->
  leads between (act_all l s >=> adapters_changed).
Proof.
  intros F [S _]. apply (leads_then (fun s => settled (done_actions s) = true)); [by apply act_all_settled|].
  intros s' S'. split; [done|]. done.
Qed.

(** After a delay, changes of displays and queries. *)
Lemma display_step f s : 0 < PostActionDelay o -> (forall s, quiet s -> leads quiet (f s)) -> between s ->
  leads between (delay s >=> f).
Proof.
  intros D F B. apply (leads_then quiet); [by apply delay_quiet|]. intros s' Q.
  apply (leads_mono quiet); [apply quiet_between|by apply F].
Qed.

Lemma Forall_map_const {A} (f : A -> action) (P : action -> Prop) l : (forall x, P (f x)) -> Forall P (map f l).
Proof. intros H. induction l; constructor; auto. Qed.

Ltac by_quiet := intros ? ?; first [by apply act_quiet | apply act_all_quiet; [by apply Forall_map_const|done]].

Lemma query_then c f s : 0 < PostActionDelay o -> (forall s, quiet s -> leads quiet (f s)) -> between s ->
  leads between (delay s >=> act (AQuery c) >=> f).
Proof.
  intros D F B. apply (leads_then quiet between (delay s >=> act (AQuery c))).
  - apply (leads_then quiet); [by apply delay_quiet|by_quiet].
  - intros s' Q. apply (leads_mono quiet); [apply quiet_between|by apply F].
Qed.

Lemma when_step (c : bool) f m : leads between m -> (forall s, between s -> leads between (f s)) ->
  leads between (m >=> when c f).
Proof. intros M F. apply (leads_then between); [done|]. intros s B. apply leads_when; auto. Qed.

Lemma install_between s : between s -> leads between (install_step s).
Proof.
  intros B. unfold install_step. apply (leads_then between); [by apply act_between|]. intros s1 B1.
  set (l := replicate _ AInstall). assert (forall s, between s -> leads between (act_all l s)) as R.
  { unfold l. induction (idd_adapters _) as [|n IH]; intros s2 B2; [done|]. cbn [replicate act_all].
    apply (leads_then between); [by apply act_between|done]. }
  apply (leads_then (fun s => settled (done_actions s) = true)); [|intros s' S'; by split].
  apply (leads_then between); [|intros s' [S' _]; by apply act_all_settled; [repeat constructor|]].
  apply (leads_then between); [by apply R|]. intros s' B'. by apply act_between.
Qed.

Lemma main_settled : 0 < PostActionDelay o -> forall s, between s -> leads between (main_steps s).
Proof.
  intros D s B. unfold main_steps.
  repeat (apply when_step; [|intros s' B'; first
    [ by apply act_between | by apply install_between
    | unfold disable_displays_step, enable_displays_step, rearrange_step; by apply query_then; [|by_quiet|]
    | unfold resolution_step, scale_step; by apply display_step; [|by_quiet|]
    | unfold disable_adapters_step, enable_adapters_step; by apply adapters_between; [apply Forall_map_const|] ]]).
  apply leads_when; [done|]. intros B'. by apply act_between.
Qed.

(** C24. With a delay configured, the tool never changes a display after it has enabled or
    disabled an adapter without the delay in between, whatever its options are and
    whichever action fails. *)
Theorem display_changes_wait : 0 < PostActionDelay o -> settled (snd main_run) = true.
Proof.
  intros D. unfold main_run. set (s0 := {| done_actions := []; delay_required := false |}).
  assert (between s0) as B by done. pose proof (main_settled D s0 B) as L.
  destruct (main_steps s0) as [s|c s]; cbn [leads snd] in *; [by destruct L|done].
Qed.

End Main.

Lemma display_changes_wait_witness :
  let o := default_options <| InstallIdd := true |> <| DisplaysToDisable := [b "non-idd"] |> <| AdaptersToDisable := [b "msft"] |>
             <| Scale := 100 |> in
  settled (snd (main_run (fun _ _ => true) (fun _ => 2%nat) o)) = true.
Proof. intros o. by apply (display_changes_wait (fun _ _ => true) (fun _ => 2%nat) o). Defined.

(** Disabling takes the displays before the adapters, unlike what the help of the
    command says. *)
Lemma disable_order succeeds n o d a :
  (forall l x, succeeds l x = true) ->
  o = default_options <| DisplaysToDisable := [d] |> <| AdaptersToDisable := [a] |> ->
  main_run succeeds n o = (0, [AQuery true; ADisableDisplay d; ADisableAdapter a]).
Proof.
  intros S ->. unfold main_run, main_steps, when. cbn. unfold disable_displays_step, disable_adapters_step, delay, act, act_all. cbn.
  rewrite !S. cbn. unfold act. cbn. rewrite S. cbn. unfold act. cbn. by rewrite S.
Qed.

(** ** The constructor and its command lines *)

(** The description of the command a number stands for. *)
Definition description (k : nat) (r : res idd_parser) : option bytes :=
  match r with Ret p => CommandDescription <$> Commands p !! k | _ => None end.

(** The description of the removal is registered with one argument less than announced:
    the constructor reads what lies behind the arguments, and shows it as a line of the
    description. *)
Theorem constructor_overreads :
  IddSetupToolCommandParser [] = Undef
  /\ forall x, exists d, description 1 (IddSetupToolCommandParser [x]) = Some (d ++ 10 :: x).
Proof.
  split; [by vm_compute|]. intros x.
  exists (join_lines [txt "Uninstalls any detected IDD display.";
    txt "Using `--enable-adapter` or `--enable-display` you can enable specific adapters or displays specified by the pattern.";
    txt "See `idd-setup-tool.exe enable --help` for more details on adapter and display enabling, as well as the detailed list of supported patterns."]).
  by vm_compute.
Qed.

(** The options a command line ends with. *)
Definition options_of (r : res (bool * idd_parser)) : res (bool * IddSetupToolOptionsStruct) :=
  x <~ r; Ret (fst x, Options (snd x)).

(** What a user can type: a setting with the dashes of an option ends the tool with an
    exception, a third number of a resolution is stored behind the array, and an unknown
    first argument reads the vector of commands before its start; the intended forms
    are accepted. *)
Theorem arguments_unchecked is_file dir x :
  let run args := options_of (parse_line is_file dir [x] (map b args)) in
  run ["set"; "--scale=100"]%string = Throws
  /\ run ["set"; "resolution=1920x1080x60"]%string = Undef
  /\ run ["help"]%string = Undef
  /\ run ["set"; "Scale=100"; "resolution=1920x1080"]%string
     = Ret (true, default_options <| Scale := 100 |> <| Resolutions := (1920, 1080) |>)
  /\ run ["disable"; "adapter=MSFT,idd2"; "--delay=0"]%string
     = Ret (true, default_options <| AdaptersToDisable := [b "msft"; b "idd2"] |> <| PostActionDelay := 0 |>).
Proof. intros run. repeat split; by vm_compute. Qed.

(** A command asked for help. *)
Definition help_of (k : Z) : res bytes :=
  p <~ IddSetupToolCommandParser [[]]; ShowHelpMessage 0 (with_state k [] (Options p) p).
Definition prints (r : res bytes) : bool := match r with Ret _ => true | _ => false end.

(** The help screen of the tool and of every command is printed: no text throws, is too
    long for the buffers it goes through, or is taken for a format. *)
Theorem help_screens_print k : 0 <= k <= 8 -> prints (help_of k) = true.
Proof.
  intros K. assert (forallb (fun k => prints (help_of (Z.of_nat k))) (seq 0 9) = true) as F by (by vm_compute).
  rewrite forallb_forall in F. rewrite <- (Z2Nat.id k) by lia. apply F, in_seq. lia.
Qed.

Lemma help_screens_print_witness : prints (help_of 5) = true.
Proof. apply (help_screens_print 5). lia. Defined.
