(* ===== verification/Json.v ===== *)
(** * Json: what the program uses of its JSON library

    The WebRTC module reads the client's messages and writes its own with
    [nlohmann::json], a library that is not part of the repository.  The class [Json]
    lists the operations the program calls, and [JsonLaws] what the documentation of
    the library promises of them; the components are defined and proved against the
    two.  A small data type of JSON values shows that the laws can hold.  [act] is the
    monad of code that changes state and may throw: what was assigned before the
    exception stays assigned. *)

From Stdlib Require Import ZArith Lia String.
From Stdlib Require Import Floats.SpecFloat.
From stdpp Require Import base list option.
From S2P Require Import Prelude Bytes StdMap GaConf CNum.

Create Rewrite HintDb json.

Lemma wraps_range w z : 0 < w -> - 2 ^ (w - 1) <= wraps w z < 2 ^ (w - 1).
Proof.
  intros Hw. unfold wraps, wrapu. assert (2 ^ w = 2 * 2 ^ (w - 1)) as E by (rewrite <- Z.pow_succ_r by lia; f_equal; lia).
  assert (0 < 2 ^ (w - 1)) by (apply Z.pow_pos_nonneg; lia). pose proof (Z.mod_pos_bound z (2 ^ w) ltac:(lia)).
  destruct (Z.ltb_spec (z mod 2 ^ w) (2 ^ (w - 1))); lia.
Qed.

(** ** Code that may throw *)

(** [Undef] is undefined behaviour. *)
Inductive outcome (A : Type) := Done (a : A) | Throws | Undef.
Arguments Done {A} a.
Arguments Throws {A}.
Arguments Undef {A}.

Definition act (S A : Type) : Type := S -> outcome A * S.

#[export] Instance act_ret {S} : MRet (act S) := fun A a s => (Done a, s).
#[export] Instance act_bind {S} : MBind (act S) := fun A B f m s =>
  match m s with
  | (Done a, s) => f a s
  | (Throws, s) => (Throws, s)
  | (Undef, s) => (Undef, s)
  end.

Definition throws {S A} : act S A := fun s => (Throws, s).
Definition gets {S A} (f : S -> A) : act S A := fun s => (Done (f s), s).
Definition modify {S} (f : S -> S) : act S unit := fun s => (Done tt, f s).
Definition of_outcome {S A} (o : outcome A) : act S A := fun s => (o, s).
(** [None] for an exception, and [None] for undefined behaviour. *)
Definition or_throw {S A} (o : option A) : act S A := fun s => (match o with Some a => Done a | None => Throws end, s).
Definition or_undef {S A} (o : option A) : act S A := fun s => (match o with Some a => Done a | None => Undef end, s).

Lemma act_bind_done {S A B} (m : act S A) (f : A -> act S B) s a s' : m s = (Done a, s') -> (m ≫= f) s = f a s'.
Proof. unfold mbind, act_bind. by intros ->. Qed.

Lemma act_bind_throws {S A B} (m : act S A) (f : A -> act S B) s s' : m s = (Throws, s') -> (m ≫= f) s = (Throws, s').
Proof. unfold mbind, act_bind. by intros ->. Qed.

Lemma act_bind_undef {S A B} (m : act S A) (f : A -> act S B) s s' : m s = (Undef, s') -> (m ≫= f) s = (Undef, s').
Proof. unfold mbind, act_bind. by intros ->. Qed.

Lemma act_bind_inv {S A B} (m : act S A) (f : A -> act S B) s v s' : (m ≫= f) s = (Done v, s') ->
  exists a s1, m s = (Done a, s1) /\ f a s1 = (Done v, s').
Proof. unfold mbind, act_bind. destruct (m s) as [[a| |] s1]; [|done..]. intros E. by exists a, s1. Qed.

Lemma or_undef_inv {S A} (o : option A) (s : S) v s' : or_undef o s = (Done v, s') -> o = Some v /\ s' = s.
Proof. unfold or_undef. destruct o; [|done]. by intros [= <- <-]. Qed.

Lemma or_throw_inv {S A} (o : option A) (s : S) v s' : or_throw o s = (Done v, s') -> o = Some v /\ s' = s.
Proof. unfold or_throw. destruct o; [|done]. by intros [= <- <-]. Qed.

(** ** The operations *)

Class Json := {
  json : Type;
  parse : bytes -> option json;               (** [json::parse]; an exception for a text that is not JSON *)
  subscript : json -> bytes -> option json;   (** [j["key"]]: null for a key that is missing *)
  is_null : json -> bool;
  is_string : json -> bool;
  is_object : json -> bool;
  is_number : json -> bool;
  size : json -> Z;
  get_string : json -> option bytes;
  get_int32 : json -> outcome Z;
  get_uint32 : json -> outcome Z;
  get_float : json -> outcome spec_float;
  get_floats : json -> outcome (list spec_float);   (** [std::vector<float>] *)
  get_strings : json -> option (list bytes)         (** [std::vector<std::string>] *)
}.

Class JsonLaws (J : Json) : Prop := {
  (** [j["key"]] throws unless [j] is an object or null. *)
  subscript_throws : forall j k, subscript j k = None <-> is_object j = false /\ is_null j = false;
  (** A string is what converts to a string. *)
  string_converts : forall j, is_string j = true <-> exists s, get_string j = Some s;
  (** Null, strings and objects convert to no number, and numbers never throw. *)
  int32_number : forall j, is_number j = true -> get_int32 j <> Throws;
  int32_throws : forall j, is_null j || is_string j || is_object j = true -> get_int32 j = Throws;
  uint32_number : forall j, is_number j = true -> get_uint32 j <> Throws;
  uint32_throws : forall j, is_null j || is_string j || is_object j = true -> get_uint32 j = Throws;
  floats_throw : forall j, is_null j || is_string j || is_number j = true -> get_floats j = Throws;
  strings_throw : forall j, is_null j || is_string j || is_number j = true -> get_strings j = None;
  float_throws : forall j, is_null j || is_string j || is_object j = true -> get_float j = Throws;
  (** Conversions give values of their type. *)
  int32_range : forall j z, get_int32 j = Done z -> INT_MIN <= z <= INT_MAX;
  uint32_range : forall j z, get_uint32 j = Done z -> 0 <= z < 2 ^ 32
}.

(** ** Messages of the client *)

Section Messages.
Context {J : Json}.

(** [msg] is a control message: an object of type "control" with the event's name and
    its parameters (null, when it has none). *)
Definition control_event (msg ev : bytes) (params : json) : Prop :=
  exists j t d e,
    parse msg = Some j /\
    subscript j (b "type") = Some t /\ is_string t = true /\ get_string t = Some (b "control") /\
    subscript j (b "data") = Some d /\ is_object d = true /\
    subscript d (b "event") = Some e /\ is_string e = true /\ get_string e = Some ev /\
    subscript d (b "parameters") = Some params.

(** The four checks of every handler: the data and the name of the event, or nothing for
    a message that is ignored. *)
Definition read_control {S} (msg : bytes) : act S (option (json * bytes)) :=
  j ← or_throw (parse msg);
  t ← or_throw (subscript j (b "type"));
  if negb (is_string t) then mret None
  else
    ty ← or_throw (get_string t);
    if negb (str_eqb ty (b "control")) then mret None
    else
      d ← or_throw (subscript j (b "data"));
      if negb (is_object d) then mret None
      else
        e ← or_throw (subscript d (b "event"));
        if negb (is_string e) then mret None
        else ev ← or_throw (get_string e); mret (Some (d, ev)).

Definition field {S} (j : json) (key : bytes) : act S json := or_throw (subscript j key).
Definition int_field {S} (j : json) (key : bytes) : act S Z := v ← field j key; of_outcome (get_int32 v).
Definition uint_field {S} (j : json) (key : bytes) : act S Z := v ← field j key; of_outcome (get_uint32 v).
Definition float_field {S} (j : json) (key : bytes) : act S spec_float := v ← field j key; of_outcome (get_float v).
Definition string_field {S} (j : json) (key : bytes) : act S bytes := v ← field j key; or_throw (get_string v).

Lemma read_control_event {S} msg ev params (s : S) : control_event msg ev params ->
  exists d, read_control msg s = (Done (Some (d, ev)), s) /\ is_object d = true /\ subscript d (b "parameters") = Some params.
Proof.
  intros (j & t & d & e & E1 & E2 & E3 & E4 & E5 & E6 & E7 & E8 & E9 & E10). exists d. split; [|done].
  unfold read_control, mbind, act_bind, or_throw. rewrite E1, E2, E3. cbn [negb]. rewrite E4, str_eqb_refl. cbn [negb].
  rewrite E5, E6. cbn [negb]. rewrite E7, E8. cbn [negb]. by rewrite E9.
Qed.

(** A message that is no JSON text, or no object, throws. *)
Lemma read_control_throws `{!JsonLaws J} {S} msg (s : S) :
  (forall j, parse msg = Some j -> is_object j = false /\ is_null j = false) -> read_control msg s = (Throws, s).
Proof.
  intros H. unfold read_control, mbind, act_bind, or_throw. destruct (parse msg) as [j|]; [|done].
  by rewrite (proj2 (subscript_throws j _) (H j eq_refl)).
Qed.

Lemma field_value {S} j key v (s : S) : subscript j key = Some v -> field j key s = (Done v, s).
Proof. intros E. unfold field, or_throw. by rewrite E. Qed.
Lemma int_field_value {S} j key v (s : S) : subscript j key = Some v -> int_field j key s = (get_int32 v, s).
Proof. intros E. unfold int_field, field, mbind, act_bind, or_throw. by rewrite E. Qed.
Lemma uint_field_value {S} j key v (s : S) : subscript j key = Some v -> uint_field j key s = (get_uint32 v, s).
Proof. intros E. unfold uint_field, field, mbind, act_bind, or_throw. by rewrite E. Qed.
Lemma float_field_value {S} j key v (s : S) : subscript j key = Some v -> float_field j key s = (get_float v, s).
Proof. intros E. unfold float_field, field, mbind, act_bind, or_throw. by rewrite E. Qed.
Lemma string_field_value {S} j key v (s : S) : subscript j key = Some v ->
  string_field j key s = (match get_string v with Some x => Done x | None => Throws end, s).
Proof. intros E. unfold string_field, field, mbind, act_bind, or_throw. by rewrite E. Qed.

Lemma field_inv {S} j key (s : S) v s' : field j key s = (Done v, s') -> subscript j key = Some v /\ s' = s.
Proof. apply or_throw_inv. Qed.
Lemma int_field_inv {S} j key (s : S) z s' : int_field j key s = (Done z, s') ->
  exists v, subscript j key = Some v /\ get_int32 v = Done z /\ s' = s.
Proof. intros (v & s1 & [E ->]%field_inv & [= E2 <-])%act_bind_inv. by exists v. Qed.
Lemma uint_field_inv {S} j key (s : S) z s' : uint_field j key s = (Done z, s') ->
  exists v, subscript j key = Some v /\ get_uint32 v = Done z /\ s' = s.
Proof. intros (v & s1 & [E ->]%field_inv & [= E2 <-])%act_bind_inv. by exists v. Qed.
Lemma string_field_inv {S} j key (s : S) t s' : string_field j key s = (Done t, s') ->
  exists v, subscript j key = Some v /\ get_string v = Some t /\ s' = s.
Proof. intros (v & s1 & [E ->]%field_inv & [E2 ->]%or_throw_inv)%act_bind_inv. by exists v. Qed.

End Messages.

#[export] Hint Rewrite @field_value @int_field_value @uint_field_value @float_field_value @string_field_value
  using eassumption : json.

(** ** Code that only reads *)

(** When it returns, the state is as it was. *)
Definition reads {S A} (m : act S A) : Prop := forall s a s', m s = (Done a, s') -> s' = s.

Lemma reads_ret {S A} (a : A) : reads (mret a : act S A).
Proof. by intros s a' s' [= _ <-]. Qed.
Lemma reads_bind {S A B} (m : act S A) (f : A -> act S B) : reads m -> (forall a, reads (f a)) -> reads (m ≫= f).
Proof. intros Hm Hf s v s' (a & s1 & E1 & E2)%act_bind_inv. apply Hm in E1 as ->. by apply Hf in E2. Qed.
Lemma reads_if {S A} (x : bool) (m n : act S A) : reads m -> reads n -> reads (if x then m else n).
Proof. by destruct x. Qed.
Lemma reads_gets {S A} (f : S -> A) : reads (gets f).
Proof. by intros s a s' [= _ <-]. Qed.
Lemma reads_outcome {S A} (o : outcome A) : reads (of_outcome o : act S A).
Proof. by intros s a s' [= _ <-]. Qed.
Lemma reads_throw {S A} (o : option A) : reads (or_throw o : act S A).
Proof. by intros s a s' [_ ->]%or_throw_inv. Qed.
Lemma reads_undef {S A} (o : option A) : reads (or_undef o : act S A).
Proof. by intros s a s' [_ ->]%or_undef_inv. Qed.

(** Every value it returns satisfies [P]. *)
Definition gives {S A} (P : A -> Prop) (m : act S A) : Prop := forall s a s', m s = (Done a, s') -> P a.

Lemma gives_ret {S A} (P : A -> Prop) a : P a -> gives P (mret a : act S A).
Proof. by intros H s a' s' [= <- _]. Qed.
Lemma gives_bind {S A B} (Q : A -> Prop) (P : B -> Prop) (m : act S A) (f : A -> act S B) :
  gives Q m -> (forall a, Q a -> gives P (f a)) -> gives P (m ≫= f).
Proof. intros Hm Hf s v s' (a & s1 & E1 & E2)%act_bind_inv. exact (Hf a (Hm _ _ _ E1) _ _ _ E2). Qed.
Lemma gives_any {S A B} (P : B -> Prop) (m : act S A) (f : A -> act S B) : (forall a, gives P (f a)) -> gives P (m ≫= f).
Proof. intros Hf. by apply (gives_bind (fun _ => True)). Qed.
Lemma gives_if {S A} (P : A -> Prop) (x : bool) (m n : act S A) : gives P m -> gives P n -> gives P (if x then m else n).
Proof. by destruct x. Qed.
Lemma gives_undef {S A} (P : A -> Prop) (o : option A) : (forall a, o = Some a -> P a) -> gives P (or_undef o : act S A).
Proof. intros H s a s' [E _]%or_undef_inv. by apply H. Qed.

Create HintDb reads.
#[export] Hint Resolve reads_ret reads_bind reads_if reads_gets reads_outcome reads_throw reads_undef : reads.

Section Reads.
Context {J : Json} {S : Type}.

Lemma reads_field j key : reads (field j key : act S json).
Proof. apply reads_throw. Qed.
Lemma reads_int_field j key : reads (int_field j key : act S Z).
Proof. apply reads_bind; [apply reads_throw|intros; apply reads_outcome]. Qed.
Lemma reads_uint_field j key : reads (uint_field j key : act S Z).
Proof. apply reads_bind; [apply reads_throw|intros; apply reads_outcome]. Qed.
Lemma reads_string_field j key : reads (string_field j key : act S bytes).
Proof. apply reads_bind; [apply reads_throw|intros; apply reads_throw]. Qed.
Lemma reads_control msg : reads (read_control msg : act S (option (json * bytes))).
Proof. unfold read_control. repeat first [apply reads_bind; [apply reads_throw|intros ?]|apply reads_if; [apply reads_ret|]]. apply reads_ret. Qed.

End Reads.

#[export] Hint Resolve reads_field reads_int_field reads_uint_field reads_string_field reads_control : reads.

(** ** JSON values *)

(** What the messages of the client and of the server use; the arrays hold bytes or
    strings. *)
Inductive value :=
  | VNull
  | VBool (x : bool)
  | VInt (z : Z)
  | VDouble (x : double)
  | VString (s : bytes)
  | VArray (l : list Z)
  | VStrings (l : list bytes)
  | VObject (fields : list (bytes * value)).

Fixpoint assoc (k : bytes) (l : list (bytes * value)) : value :=
  match l with
  | [] => VNull
  | (k', v) :: l => if str_eqb k k' then v else assoc k l
  end.

(** [j["key"] = v] on an object. *)
Fixpoint set_field (k : bytes) (v : value) (l : list (bytes * value)) : list (bytes * value) :=
  match l with
  | [] => [(k, v)]
  | (k', v') :: l => if str_eqb k k' then (k', v) :: l else (k', v') :: set_field k v l
  end.

Lemma assoc_set_field k v l k' : assoc k' (set_field k v l) = if str_eqb k' k then v else assoc k' l.
Proof.
  induction l as [|[k1 v1] l IH]; cbn; [by destruct (str_eqb k' k)|].
  destruct (str_eqb k k1) eqn:E; cbn; [apply str_eqb_eq in E as ->; by destruct (str_eqb k' k1)|]. rewrite IH.
  destruct (str_eqb k' k1) eqn:E1; [|done]. apply str_eqb_eq in E1 as ->.
  destruct (str_eqb k1 k) eqn:E2; [|done]. apply str_eqb_eq in E2 as ->. by rewrite str_eqb_refl in E.
Qed.

(** Conversions of a [double]: to an integer, undefined out of range, and to [float]. *)
Definition double_to_uint (x : double) : outcome Z :=
  match trunc x with Some z => if (0 <=? z) && (z <? 2 ^ 32) then Done z else Undef | None => Undef end.
Definition double_to_int (x : double) : outcome Z := match to_int x with Some z => Done z | None => Undef end.
Definition double_to_float (x : double) : spec_float :=
  match x with
  | S754_finite s m e => binary_normalize 24 128 (if s then - Z.pos m else Z.pos m) e s
  | x => x
  end.

(** [texts] are the texts that are read, with what they say. *)
Definition values (texts : list (bytes * value)) : Json := {|
  json := value;
  parse t := match assoc t texts with VNull => None | v => Some v end;
  subscript j k := match j with VObject l => Some (assoc k l) | VNull => Some VNull | _ => None end;
  is_null j := match j with VNull => true | _ => false end;
  is_string j := match j with VString _ => true | _ => false end;
  is_object j := match j with VObject _ => true | _ => false end;
  is_number j := match j with VInt _ | VDouble _ => true | _ => false end;
  size j := match j with VNull => 0 | VObject l => Z.of_nat (length l) | VArray l => Z.of_nat (length l)
            | VStrings l => Z.of_nat (length l) | _ => 1 end;
  get_string j := match j with VString s => Some s | _ => None end;
  get_int32 j := match j with
                 | VInt z => Done (wraps 32 z) | VDouble x => double_to_int x | VBool x => Done (if x then 1 else 0) | _ => Throws
                 end;
  get_uint32 j := match j with
                  | VInt z => Done (wrapu 32 z) | VDouble x => double_to_uint x | VBool x => Done (if x then 1 else 0) | _ => Throws
                  end;
  get_float j := match j with
                 | VInt z => Done (binary_normalize 24 128 z 0 false) | VDouble x => Done (double_to_float x) | _ => Throws
                 end;
  get_floats j := match j with
                  | VArray l => Done (map (fun z => binary_normalize 24 128 z 0 false) l) | VStrings [] => Done [] | _ => Throws
                  end;
  get_strings j := match j with VStrings l => Some l | VArray [] => Some [] | _ => None end
|}.

#[export] Instance values_laws texts : JsonLaws (values texts).
Proof.
  split; cbn.
  - intros j k. destruct j; cbn; split; intuition congruence.
  - intros j. destruct j; cbn; split; (discriminate || (by intros [? [=]]) || eauto).
  - intros j. destruct j; try done. unfold double_to_int. intros _. by destruct (to_int x).
  - intros j. by destruct j.
  - intros j. destruct j; try done. unfold double_to_uint. intros _. destruct (trunc x); [|done]. by destruct (_ && _).
  - intros j. by destruct j.
  - intros j. by destruct j.
  - intros j. by destruct j.
  - intros j. by destruct j.
  - intros j z. destruct j as [|[]|z0|x| | | |]; try done; [intros [= <-]; unfold INT_MIN, INT_MAX; lia..| |].
    + intros [= <-]. pose proof (wraps_range 32 z0 ltac:(lia)) as R. unfold INT_MIN, INT_MAX. cbn in R. lia.
    + unfold double_to_int, to_int. destruct (trunc x); [|done]. cbn [mbind option_bind].
      destruct (int_chk z0) eqn:E; [|done]. apply int_chk_inv in E as [-> R]. by intros [= <-].
  - intros j z. destruct j as [|[]|z0|x| | | |]; try done; [intros [= <-]; lia..| |].
    + intros [= <-]. by apply wrapu_range.
    + unfold double_to_uint. destruct (trunc x) as [t|]; [|done]. destruct ((0 <=? t) && (t <? 2 ^ 32)) eqn:E; [|done].
      intros [= <-]. apply andb_prop in E as [E1 E2]. lia.
Qed.
