(* ===== verification/SdlController.v ===== *)
(** * SdlController: the browser's events as input messages

    Models [src/sources/streamer/module/server-webrtc/ga-controller-sdl.cpp] and
    [ga-controller-sdl.h]: a JSON message of the browser becomes a message of
    [ctrl-sdl], which is replayed at once.  The JSON library is the interface [Json];
    the numbers of key codes, scan codes and virtual keys are those of the headers of SDL
    and of the system.  [float] is binary32, with the operations of [SpecFloat]. *)

From Stdlib Require Import ZArith Lia String.
From Stdlib Require Import Floats.SpecFloat.
From stdpp Require Import base gmap sets list.
From S2P Require Import Doubles.
From S2P Require Import Prelude Bytes CtrlMsg StdMap CNum SdlKeys CtrlSdl Json.

(** ** Keys *)

(** A key code of SDL: one of those with a name in the key map of [ctrl-sdl], or the
    character itself for letters and digits. *)
Inductive keycode := Key (k : sdl_key) | Char (c : Z).

Inductive sdl_scancode :=
  | SDL_SCANCODE_BACKSPACE | SDL_SCANCODE_TAB | SDL_SCANCODE_LALT | SDL_SCANCODE_PAUSE | SDL_SCANCODE_CAPSLOCK
  | SDL_SCANCODE_PAGEUP | SDL_SCANCODE_PAGEDOWN | SDL_SCANCODE_END | SDL_SCANCODE_HOME
  | SDL_SCANCODE_PRINTSCREEN | SDL_SCANCODE_INSERT | SDL_SCANCODE_DELETE | SDL_SCANCODE_LGUI
  | SDL_SCANCODE_RGUI | SDL_SCANCODE_KP_0 | SDL_SCANCODE_KP_1 | SDL_SCANCODE_KP_2 | SDL_SCANCODE_KP_3
  | SDL_SCANCODE_KP_4 | SDL_SCANCODE_KP_5 | SDL_SCANCODE_KP_6 | SDL_SCANCODE_KP_7 | SDL_SCANCODE_KP_8
  | SDL_SCANCODE_KP_9 | SDL_SCANCODE_KP_MULTIPLY | SDL_SCANCODE_KP_PLUS | SDL_SCANCODE_KP_ENTER
  | SDL_SCANCODE_KP_MINUS | SDL_SCANCODE_KP_PERIOD | SDL_SCANCODE_KP_DIVIDE | SDL_SCANCODE_NUMLOCKCLEAR
  | SDL_SCANCODE_SCROLLLOCK | SDL_SCANCODE_RALT | SDL_SCANCODE_SEMICOLON | SDL_SCANCODE_EQUALS
  | SDL_SCANCODE_COMMA | SDL_SCANCODE_MINUS | SDL_SCANCODE_PERIOD | SDL_SCANCODE_SLASH | SDL_SCANCODE_GRAVE
  | SDL_SCANCODE_LEFTBRACKET | SDL_SCANCODE_BACKSLASH | SDL_SCANCODE_RIGHTBRACKET | SDL_SCANCODE_APOSTROPHE
  | SDL_SCANCODE_RETURN | SDL_SCANCODE_LSHIFT | SDL_SCANCODE_LCTRL | SDL_SCANCODE_ESCAPE | SDL_SCANCODE_SPACE
  | SDL_SCANCODE_LEFT | SDL_SCANCODE_UP | SDL_SCANCODE_RIGHT | SDL_SCANCODE_DOWN | SDL_SCANCODE_0
  | SDL_SCANCODE_1 | SDL_SCANCODE_2 | SDL_SCANCODE_3 | SDL_SCANCODE_4 | SDL_SCANCODE_5 | SDL_SCANCODE_6
  | SDL_SCANCODE_7 | SDL_SCANCODE_8 | SDL_SCANCODE_9 | SDL_SCANCODE_A | SDL_SCANCODE_B | SDL_SCANCODE_C
  | SDL_SCANCODE_D | SDL_SCANCODE_E | SDL_SCANCODE_F | SDL_SCANCODE_G | SDL_SCANCODE_H | SDL_SCANCODE_I
  | SDL_SCANCODE_J | SDL_SCANCODE_K | SDL_SCANCODE_L | SDL_SCANCODE_M | SDL_SCANCODE_N | SDL_SCANCODE_O
  | SDL_SCANCODE_P | SDL_SCANCODE_Q | SDL_SCANCODE_R | SDL_SCANCODE_S | SDL_SCANCODE_T | SDL_SCANCODE_U
  | SDL_SCANCODE_V | SDL_SCANCODE_W | SDL_SCANCODE_X | SDL_SCANCODE_Y | SDL_SCANCODE_Z | SDL_SCANCODE_F1
  | SDL_SCANCODE_F2 | SDL_SCANCODE_F3 | SDL_SCANCODE_F4 | SDL_SCANCODE_F5 | SDL_SCANCODE_F6 | SDL_SCANCODE_F7
  | SDL_SCANCODE_F8 | SDL_SCANCODE_F9 | SDL_SCANCODE_F10 | SDL_SCANCODE_F11 | SDL_SCANCODE_F12.

Definition key_map : list (Z * (keycode * sdl_scancode)) :=
  [(8, (Key SDLK_BACKSPACE, SDL_SCANCODE_BACKSPACE)); (9, (Key SDLK_TAB, SDL_SCANCODE_TAB));
   (18, (Key SDLK_LALT, SDL_SCANCODE_LALT)); (19, (Key SDLK_PAUSE, SDL_SCANCODE_PAUSE));
   (20, (Key SDLK_CAPSLOCK, SDL_SCANCODE_CAPSLOCK)); (33, (Key SDLK_PAGEUP, SDL_SCANCODE_PAGEUP));
   (34, (Key SDLK_PAGEDOWN, SDL_SCANCODE_PAGEDOWN)); (35, (Key SDLK_END, SDL_SCANCODE_END));
   (36, (Key SDLK_HOME, SDL_SCANCODE_HOME)); (44, (Key SDLK_PRINTSCREEN, SDL_SCANCODE_PRINTSCREEN));
   (45, (Key SDLK_INSERT, SDL_SCANCODE_INSERT)); (46, (Key SDLK_DELETE, SDL_SCANCODE_DELETE));
   (91, (Key SDLK_LGUI, SDL_SCANCODE_LGUI)); (92, (Key SDLK_RGUI, SDL_SCANCODE_RGUI));
   (96, (Key SDLK_KP_0, SDL_SCANCODE_KP_0)); (97, (Key SDLK_KP_1, SDL_SCANCODE_KP_1));
   (98, (Key SDLK_KP_2, SDL_SCANCODE_KP_2)); (99, (Key SDLK_KP_3, SDL_SCANCODE_KP_3));
   (100, (Key SDLK_KP_4, SDL_SCANCODE_KP_4)); (101, (Key SDLK_KP_5, SDL_SCANCODE_KP_5));
   (102, (Key SDLK_KP_6, SDL_SCANCODE_KP_6)); (103, (Key SDLK_KP_7, SDL_SCANCODE_KP_7));
   (104, (Key SDLK_KP_8, SDL_SCANCODE_KP_8)); (105, (Key SDLK_KP_9, SDL_SCANCODE_KP_9));
   (106, (Key SDLK_KP_MULTIPLY, SDL_SCANCODE_KP_MULTIPLY)); (107, (Key SDLK_KP_PLUS, SDL_SCANCODE_KP_PLUS));
   (108, (Key SDLK_KP_ENTER, SDL_SCANCODE_KP_ENTER)); (109, (Key SDLK_KP_MINUS, SDL_SCANCODE_KP_MINUS));
   (110, (Key SDLK_KP_PERIOD, SDL_SCANCODE_KP_PERIOD)); (111, (Key SDLK_KP_DIVIDE, SDL_SCANCODE_KP_DIVIDE));
   (144, (Key SDLK_NUMLOCKCLEAR, SDL_SCANCODE_NUMLOCKCLEAR));
   (145, (Key SDLK_SCROLLLOCK, SDL_SCANCODE_SCROLLLOCK)); (164, (Key SDLK_LALT, SDL_SCANCODE_LALT));
   (165, (Key SDLK_RALT, SDL_SCANCODE_RALT)); (186, (Key SDLK_SEMICOLON, SDL_SCANCODE_SEMICOLON));
   (187, (Key SDLK_EQUALS, SDL_SCANCODE_EQUALS)); (188, (Key SDLK_COMMA, SDL_SCANCODE_COMMA));
   (189, (Key SDLK_MINUS, SDL_SCANCODE_MINUS)); (190, (Key SDLK_PERIOD, SDL_SCANCODE_PERIOD));
   (191, (Key SDLK_SLASH, SDL_SCANCODE_SLASH)); (192, (Key SDLK_BACKQUOTE, SDL_SCANCODE_GRAVE));
   (219, (Key SDLK_LEFTBRACKET, SDL_SCANCODE_LEFTBRACKET));
   (220, (Key SDLK_BACKSLASH, SDL_SCANCODE_BACKSLASH));
   (221, (Key SDLK_RIGHTBRACKET, SDL_SCANCODE_RIGHTBRACKET)); (222, (Key SDLK_QUOTE, SDL_SCANCODE_APOSTROPHE));
   (13, (Key SDLK_RETURN, SDL_SCANCODE_RETURN)); (16, (Key SDLK_LSHIFT, SDL_SCANCODE_LSHIFT));
   (17, (Key SDLK_LCTRL, SDL_SCANCODE_LCTRL)); (27, (Key SDLK_ESCAPE, SDL_SCANCODE_ESCAPE));
   (32, (Key SDLK_SPACE, SDL_SCANCODE_SPACE)); (37, (Key SDLK_LEFT, SDL_SCANCODE_LEFT));
   (38, (Key SDLK_UP, SDL_SCANCODE_UP)); (39, (Key SDLK_RIGHT, SDL_SCANCODE_RIGHT));
   (40, (Key SDLK_DOWN, SDL_SCANCODE_DOWN)); (48, (Char 48, SDL_SCANCODE_0)); (49, (Char 49, SDL_SCANCODE_1));
   (50, (Char 50, SDL_SCANCODE_2)); (51, (Char 51, SDL_SCANCODE_3)); (52, (Char 52, SDL_SCANCODE_4));
   (53, (Char 53, SDL_SCANCODE_5)); (54, (Char 54, SDL_SCANCODE_6)); (55, (Char 55, SDL_SCANCODE_7));
   (56, (Char 56, SDL_SCANCODE_8)); (57, (Char 57, SDL_SCANCODE_9)); (65, (Char 97, SDL_SCANCODE_A));
   (66, (Char 98, SDL_SCANCODE_B)); (67, (Char 99, SDL_SCANCODE_C)); (68, (Char 100, SDL_SCANCODE_D));
   (69, (Char 101, SDL_SCANCODE_E)); (70, (Char 102, SDL_SCANCODE_F)); (71, (Char 103, SDL_SCANCODE_G));
   (72, (Char 104, SDL_SCANCODE_H)); (73, (Char 105, SDL_SCANCODE_I)); (74, (Char 106, SDL_SCANCODE_J));
   (75, (Char 107, SDL_SCANCODE_K)); (76, (Char 108, SDL_SCANCODE_L)); (77, (Char 109, SDL_SCANCODE_M));
   (78, (Char 110, SDL_SCANCODE_N)); (79, (Char 111, SDL_SCANCODE_O)); (80, (Char 112, SDL_SCANCODE_P));
   (81, (Char 113, SDL_SCANCODE_Q)); (82, (Char 114, SDL_SCANCODE_R)); (83, (Char 115, SDL_SCANCODE_S));
   (84, (Char 116, SDL_SCANCODE_T)); (85, (Char 117, SDL_SCANCODE_U)); (86, (Char 118, SDL_SCANCODE_V));
   (87, (Char 119, SDL_SCANCODE_W)); (88, (Char 120, SDL_SCANCODE_X)); (89, (Char 121, SDL_SCANCODE_Y));
   (90, (Char 122, SDL_SCANCODE_Z)); (112, (Key SDLK_F1, SDL_SCANCODE_F1));
   (113, (Key SDLK_F2, SDL_SCANCODE_F2)); (114, (Key SDLK_F3, SDL_SCANCODE_F3));
   (115, (Key SDLK_F4, SDL_SCANCODE_F4)); (116, (Key SDLK_F5, SDL_SCANCODE_F5));
   (117, (Key SDLK_F6, SDL_SCANCODE_F6)); (118, (Key SDLK_F7, SDL_SCANCODE_F7));
   (119, (Key SDLK_F8, SDL_SCANCODE_F8)); (120, (Key SDLK_F9, SDL_SCANCODE_F9));
   (121, (Key SDLK_F10, SDL_SCANCODE_F10)); (122, (Key SDLK_F11, SDL_SCANCODE_F11));
   (123, (Key SDLK_F12, SDL_SCANCODE_F12))].

Definition find_key (which : Z) : option (keycode * sdl_scancode) :=
  snd <$> List.find (fun e => fst e =? which) key_map.

(** ** Single precision *)

Abbreviation float := spec_float (only parsing).
Definition fprec : Z := 24.
Definition femax : Z := 128.
Definition fadd (x y : float) : float := SFadd fprec femax x y.
Definition fsub (x y : float) : float := SFsub fprec femax x y.
Definition float_of_int (z : Z) : float := binary_normalize fprec femax z 0 false.
Definition fzero : float := S754_zero false.

(** [std::floor] and [std::ceil], as integers; nothing for an infinity or a NaN. *)
Definition scaled (s : bool) (m : positive) : Z := if s then - Z.pos m else Z.pos m.
Definition ffloor (x : float) : option Z :=
  match x with
  | S754_zero _ => Some 0
  | S754_finite s m e => Some (if 0 <=? e then scaled s m * 2 ^ e else scaled s m / 2 ^ (- e))
  | _ => None
  end.
Definition fceil (x : float) : option Z :=
  match x with
  | S754_zero _ => Some 0
  | S754_finite s m e => Some (if 0 <=? e then scaled s m * 2 ^ e else - (- scaled s m / 2 ^ (- e)))
  | _ => None
  end.

(** ** The controller *)

Record MousePosition := { mp_x : Z; mp_y : Z }.

Inductive FitMode := Fit | Stretch.

Record controller := {
  mouse_is_pressed_ : bool; renderer_width_ : Z; renderer_height_ : Z; renderer_padding_x_ : Z; renderer_padding_y_ : Z;
  accumulated_wheel_x_ : float; accumulated_wheel_y_ : float; display_width_ : Z; display_height_ : Z;
  current_mouse_position_ : MousePosition; mode_ : FitMode
}.

Definition with_renderer_height (h : Z) (c : controller) : controller :=
  {| mouse_is_pressed_ := mouse_is_pressed_ c; renderer_width_ := renderer_width_ c; renderer_height_ := h;
     renderer_padding_x_ := renderer_padding_x_ c; renderer_padding_y_ := renderer_padding_y_ c;
     accumulated_wheel_x_ := accumulated_wheel_x_ c; accumulated_wheel_y_ := accumulated_wheel_y_ c;
     display_width_ := display_width_ c; display_height_ := display_height_ c;
     current_mouse_position_ := current_mouse_position_ c; mode_ := mode_ c |}.
Definition with_renderer_width (w : Z) (c : controller) : controller :=
  {| mouse_is_pressed_ := mouse_is_pressed_ c; renderer_width_ := w; renderer_height_ := renderer_height_ c;
     renderer_padding_x_ := renderer_padding_x_ c; renderer_padding_y_ := renderer_padding_y_ c;
     accumulated_wheel_x_ := accumulated_wheel_x_ c; accumulated_wheel_y_ := accumulated_wheel_y_ c;
     display_width_ := display_width_ c; display_height_ := display_height_ c;
     current_mouse_position_ := current_mouse_position_ c; mode_ := mode_ c |}.
Definition with_mode (m : FitMode) (c : controller) : controller :=
  {| mouse_is_pressed_ := mouse_is_pressed_ c; renderer_width_ := renderer_width_ c; renderer_height_ := renderer_height_ c;
     renderer_padding_x_ := renderer_padding_x_ c; renderer_padding_y_ := renderer_padding_y_ c;
     accumulated_wheel_x_ := accumulated_wheel_x_ c; accumulated_wheel_y_ := accumulated_wheel_y_ c;
     display_width_ := display_width_ c; display_height_ := display_height_ c;
     current_mouse_position_ := current_mouse_position_ c; mode_ := m |}.
Definition with_pressed (p : bool) (c : controller) : controller :=
  {| mouse_is_pressed_ := p; renderer_width_ := renderer_width_ c; renderer_height_ := renderer_height_ c;
     renderer_padding_x_ := renderer_padding_x_ c; renderer_padding_y_ := renderer_padding_y_ c;
     accumulated_wheel_x_ := accumulated_wheel_x_ c; accumulated_wheel_y_ := accumulated_wheel_y_ c;
     display_width_ := display_width_ c; display_height_ := display_height_ c;
     current_mouse_position_ := current_mouse_position_ c; mode_ := mode_ c |}.
Definition UpdateMousePosition (p : MousePosition) (c : controller) : controller :=
  {| mouse_is_pressed_ := mouse_is_pressed_ c; renderer_width_ := renderer_width_ c; renderer_height_ := renderer_height_ c;
     renderer_padding_x_ := renderer_padding_x_ c; renderer_padding_y_ := renderer_padding_y_ c;
     accumulated_wheel_x_ := accumulated_wheel_x_ c; accumulated_wheel_y_ := accumulated_wheel_y_ c;
     display_width_ := display_width_ c; display_height_ := display_height_ c;
     current_mouse_position_ := p; mode_ := mode_ c |}.
Definition with_wheel (x y : float) (c : controller) : controller :=
  {| mouse_is_pressed_ := mouse_is_pressed_ c; renderer_width_ := renderer_width_ c; renderer_height_ := renderer_height_ c;
     renderer_padding_x_ := renderer_padding_x_ c; renderer_padding_y_ := renderer_padding_y_ c;
     accumulated_wheel_x_ := x; accumulated_wheel_y_ := y;
     display_width_ := display_width_ c; display_height_ := display_height_ c;
     current_mouse_position_ := current_mouse_position_ c; mode_ := mode_ c |}.

(** What [ga_window_bounds] finds: the size of the screen and the corner of the window's
    client area; nothing when it fails. *)
Record bounds := { wb_width : Z; wb_height : Z; wb_left : Z; wb_top : Z }.

Definition CalculatePaddings (wb : option bounds) (c : controller) : controller :=
  let '(px, py, dw, dh) := match wb with
                           | None => (0, 0, i32 (renderer_width_ c), i32 (renderer_height_ c))
                           | Some w => (u32 (wb_left w), u32 (wb_top w), wb_width w, wb_height w)
                           end in
  {| mouse_is_pressed_ := mouse_is_pressed_ c; renderer_width_ := renderer_width_ c; renderer_height_ := renderer_height_ c;
     renderer_padding_x_ := px; renderer_padding_y_ := py;
     accumulated_wheel_x_ := accumulated_wheel_x_ c; accumulated_wheel_y_ := accumulated_wheel_y_ c;
     display_width_ := dw; display_height_ := dh;
     current_mouse_position_ := current_mouse_position_ c; mode_ := mode_ c |}.

(** The constructor; two members are not initialised. *)
Definition SdlController (pressed : bool) (pos : MousePosition) (wb : option bounds) : controller :=
  CalculatePaddings wb
    {| mouse_is_pressed_ := pressed; renderer_width_ := 1280; renderer_height_ := 720; renderer_padding_x_ := 0;
       renderer_padding_y_ := 0; accumulated_wheel_x_ := fzero; accumulated_wheel_y_ := fzero; display_width_ := 0;
       display_height_ := 0; current_mouse_position_ := pos; mode_ := Fit |}.

(** [(int32_t) (((double) mouse / 32767) * display)] *)
Definition scale_position (mouse display : Z) : option Z := to_int (dmul (ddiv (of_Z mouse) (of_Z 32767)) (of_Z display)).
Definition CalcuateMousePosition (mouse_x mouse_y display_width display_height : Z) : option MousePosition :=
  x ← scale_position mouse_x display_width;
  y ← scale_position mouse_y display_height;
  Some {| mp_x := x; mp_y := y |}.

(** The whole part of what the wheel turned so far, and what is left of it. *)
Definition wheel_whole (acc : float) : option (Z * float) :=
  z ← (if SFltb fzero acc then z ← ffloor acc; int_chk z
       else if SFltb acc fzero then z ← fceil acc; int_chk z
       else Some 0);
  Some (z, fsub acc (float_of_int z)).

Section Controller.
Context {J : Json} (SDLK : sdl_key -> Z) (VK : vk_code -> Z) (MapVirtualKey : Z -> Z) (SCAN : sdl_scancode -> Z).

Definition code_of (k : keycode) : Z := match k with Key k => SDLK k | Char c => c end.

(** The controller and the replayer of [ctrl-sdl]. *)
Definition state : Type := controller * replayer.
Definition on_controller (f : controller -> controller) (s : state) : state := (f s.1, s.2).

Definition mouse_position (p : json) : act state MousePosition :=
  x ← int_field p (b "x");
  y ← int_field p (b "y");
  c ← gets fst;
  or_undef (CalcuateMousePosition x y (display_width_ c) (display_height_ c)).

(** The branches of [ConvertToSdlMessage]; [d] is the event's data and [m] the memory of
    the message. *)
Definition convert_mousemove (d : json) (m : list Z) : act state (option (list Z)) :=
  p ← field d (b "parameters");
  pos ← mouse_position p;
  m ← or_undef (sdlmsg_mousemotion (mp_x pos) (mp_y pos) 0 0 0 0 m);
  mret (Some m).

Definition convert_mousekey (down : bool) (d : json) (m : list Z) : act state (option (list Z)) :=
  p ← field d (b "parameters");
  if size p <? 3 then mret None
  else
    pos ← mouse_position p;
    modify (on_controller (UpdateMousePosition pos)) ≫= fun _ =>
    which ← uint_field p (b "which");
    modify (on_controller (with_pressed down)) ≫= fun _ =>
    m ← or_undef (sdlmsg_mousekey (if down then 1 else 0) (u8 which) (u16 (mp_x pos)) (u16 (mp_y pos)) m);
    mret (Some m).

Definition convert_key (down : bool) (d : json) (m : list Z) : act state (option (list Z)) :=
  p ← field d (b "parameters");
  which ← uint_field p (b "which");
  match find_key (i32 which) with
  | Some (k, sc) => m ← or_undef (sdlmsg_keyboard (if down then 1 else 0) (u16 (SCAN sc)) (code_of k) 0 0 m); mret (Some m)
  | None => mret None
  end.

Definition convert_sizechange (wb : option bounds) (d : json) : act state (option (list Z)) :=
  p ← field d (b "parameters");
  sz ← field p (b "rendererSize");
  h ← uint_field sz (b "height");
  modify (on_controller (with_renderer_height h)) ≫= fun _ =>
  w ← uint_field sz (b "width");
  modify (on_controller (with_renderer_width w)) ≫= fun _ =>
  mode ← string_field p (b "mode");
  modify (on_controller (with_mode (if str_eqb mode (b "stretch") then Stretch else Fit))) ≫= fun _ =>
  modify (on_controller (CalculatePaddings wb)) ≫= fun _ =>
  mret None.

Definition convert_wheel (d : json) (m : list Z) : act state (option (list Z)) :=
  p ← field d (b "parameters");
  x ← float_field p (b "deltaX");
  y ← float_field p (b "deltaY");
  c ← gets fst;
  '(ix, ax) ← or_undef (wheel_whole (fadd (accumulated_wheel_x_ c) x));
  '(iy, ay) ← or_undef (wheel_whole (fadd (accumulated_wheel_y_ c) y));
  modify (on_controller (with_wheel ax ay)) ≫= fun _ =>
  m ← or_undef (sdlmsg_mousewheel (u16 ix) (u16 iy) m);
  mret (Some m).

Definition ConvertToSdlMessage (wb : option bounds) (json_message : bytes) (m : list Z) : act state (option (list Z)) :=
  e ← read_control json_message;
  match e with
  | None => mret None
  | Some (d, ev) =>
      if str_eqb ev (b "mousemove") then convert_mousemove d m
      else if str_eqb ev (b "mouseup") || str_eqb ev (b "mousedown") then convert_mousekey (str_eqb ev (b "mousedown")) d m
      else if str_eqb ev (b "keydown") || str_eqb ev (b "keyup") then convert_key (str_eqb ev (b "keydown")) d m
      else if str_eqb ev (b "sizechange") then convert_sizechange wb d
      else if str_eqb ev (b "wheel") then convert_wheel d m
      else mret None
  end.

Definition replay (m : list Z) : act state (list event) := fun s =>
  match sdlmsg_replay SDLK VK MapVirtualKey m s.2 with
  | Some (ev, r) => (Done ev, (s.1, r))
  | None => (Undef, s)
  end.

(** [msg] is the uninitialised message on the stack. *)
Definition PushClientEvent (wb : option bounds) (msg : list Z) (json_message : bytes) : act state (list event) :=
  sdl ← ConvertToSdlMessage wb json_message msg;
  match sdl with
  | None => mret []
  | Some m => replay m
  end.

End Controller.

(** ** Positions *)

(** Positions stay on the display, its far edge included. *)
Lemma scale_position_range x w : 0 <= x <= 32767 -> 0 <= w <= INT_MAX ->
  exists p, scale_position x w = Some p /\ 0 <= p <= w.
Proof.
  intros Hx Hw. unfold scale_position, to_int.
  destruct (trunc_at_most w (dmul (ddiv (of_Z x) (of_Z 32767)) (of_Z w))) as (z & E & Hz); [lia| |].
  - apply dmul_fraction; [|unfold dprec, INT_MAX in *; lia]. apply ddiv_fraction; unfold dprec; lia.
  - rewrite E. exists z. cbn [mbind option_bind]. split; [|done]. apply int_chk_Some. unfold INT_MIN, INT_MAX in *; lia.
Qed.

(** The position is the exact part of the side, rounded down. *)
Lemma scale_position_near x w : 0 <= x <= 32767 -> 0 <= w < 65536 ->
  exists p, scale_position x w = Some p /\ 0 <= p <= w /\ 32767 * p <= x * w <= 32767 * (p + 1).
Proof.
  intros Hx Hw. destruct (scale_position_range x w Hx) as (p & E & Hp); [unfold INT_MAX; lia|].
  destruct (position_near x 32767 w Hx) as (p' & E' & Hq); [lia|lia|]. unfold scale_position in E. rewrite E' in E. injection E as ->. by exists p.
Qed.

Lemma scale_position_edge w : 0 < w <= INT_MAX -> scale_position 32767 w = Some w.
Proof.
  intros Hw. unfold scale_position, to_int. change (ddiv (of_Z 32767) (of_Z 32767)) with (of_Z 1).
  rewrite dmul_exact by (unfold dprec, INT_MAX in *; lia). rewrite Z.mul_1_l, trunc_of_Z by (unfold dprec, INT_MAX in *; lia).
  cbn [mbind option_bind]. apply int_chk_Some. unfold INT_MIN, INT_MAX in *; lia.
Qed.

(** ** Virtual keys *)

(** The documented numbers of the virtual keys. *)
Definition win32_code (v : vk_code) : Z :=
  match v with
  | VK_BACK => 8 | VK_TAB => 9 | VK_CLEAR => 12 | VK_RETURN => 13 | VK_MENU => 18 | VK_PAUSE => 19 | VK_CAPITAL => 20
  | VK_ESCAPE => 27 | VK_MODECHANGE => 31 | VK_SPACE => 32 | VK_PRIOR => 33 | VK_NEXT => 34 | VK_END => 35 | VK_HOME => 36
  | VK_LEFT => 37 | VK_UP => 38 | VK_RIGHT => 39 | VK_DOWN => 40 | VK_SNAPSHOT => 44 | VK_INSERT => 45 | VK_DELETE => 46
  | VK_HELP => 47 | VK_LWIN => 91 | VK_RWIN => 92 | VK_NUMPAD0 => 96 | VK_NUMPAD1 => 97 | VK_NUMPAD2 => 98 | VK_NUMPAD3 => 99
  | VK_NUMPAD4 => 100 | VK_NUMPAD5 => 101 | VK_NUMPAD6 => 102 | VK_NUMPAD7 => 103 | VK_NUMPAD8 => 104 | VK_NUMPAD9 => 105
  | VK_MULTIPLY => 106 | VK_ADD => 107 | VK_SUBTRACT => 109 | VK_DECIMAL => 110 | VK_DIVIDE => 111
  | VK_F1 => 112 | VK_F2 => 113 | VK_F3 => 114 | VK_F4 => 115 | VK_F5 => 116 | VK_F6 => 117 | VK_F7 => 118 | VK_F8 => 119
  | VK_F9 => 120 | VK_F10 => 121 | VK_F11 => 122 | VK_F12 => 123 | VK_F13 => 124 | VK_F14 => 125 | VK_F15 => 126
  | VK_NUMLOCK => 144 | VK_SCROLL => 145 | VK_LSHIFT => 160 | VK_RSHIFT => 161 | VK_LCONTROL => 162 | VK_RCONTROL => 163
  | VK_LMENU => 164 | VK_RMENU => 165 | VK_OEM_1 => 186 | VK_OEM_PLUS => 187 | VK_OEM_COMMA => 188 | VK_OEM_MINUS => 189
  | VK_OEM_PERIOD => 190 | VK_OEM_2 => 191 | VK_OEM_3 => 192 | VK_OEM_4 => 219 | VK_OEM_5 => 220 | VK_OEM_6 => 221 | VK_OEM_7 => 222
  end.

(** The virtual key of a browser's key: the same number, but for keys that a browser does
    not tell apart from their left or main variant. *)
Definition pressed_key (which : Z) : Z :=
  if which =? 16 then 160 else if which =? 17 then 162 else if which =? 18 then 164 else if which =? 108 then 13 else which.

(** What an entry of the browser's map must satisfy for [pressed_key] to be right. *)
Definition entry_ok (e : Z * (keycode * sdl_scancode)) : bool :=
  match e.2.1 with
  | Key k => forallb (fun kv => negb (bool_decide (k = kv.1)) || (win32_code kv.2 =? pressed_key e.1)) (keymap_first ++ keymap_third)
  | Char c => ((48 <=? c) && (c <=? 57) && (pressed_key e.1 =? c)) || ((97 <=? c) && (c <=? 122) && (pressed_key e.1 =? c - 32))
  end && (0 <=? pressed_key e.1) && (pressed_key e.1 <? 256).

Lemma entries_ok : forallb entry_ok key_map = true.
Proof. vm_compute. reflexivity. Qed.

(** The map of [ctrl-sdl] as it is before and after its first use. *)
Definition keys_ok (SDLK : sdl_key -> Z) (VK : vk_code -> Z) (ks : keys) : Prop :=
  ks = fresh \/ ks = SDLKeyToKeySym_init SDLK VK fresh.

Section Theorems.
Context {J : Json} (SDLK : sdl_key -> Z) (MapVirtualKey : Z -> Z) (SCAN : sdl_scancode -> Z).
Context `{!SdlCodes SDLK} (SDLK_range : forall k, INT_MIN <= SDLK k <= INT_MAX).

Lemma keys_ok_translate x ks : keys_ok SDLK win32_code ks ->
  SDLKeyToKeySym SDLK win32_code x ks = ((SDLKeyToKeySym SDLK win32_code x fresh).1, SDLKeyToKeySym_init SDLK win32_code fresh).
Proof. by intros [->| ->]. Qed.

Lemma browser_key which k sc : find_key which = Some (k, sc) ->
  (SDLKeyToKeySym SDLK win32_code (code_of SDLK k) fresh).1 = pressed_key which /\ 0 <= pressed_key which < 256 /\
  INT_MIN <= code_of SDLK k <= INT_MAX.
Proof.
  unfold find_key. destruct (List.find _ key_map) as [e|] eqn:F; [|done]. apply find_some in F as [I W].
  apply Z.eqb_eq in W. intros E0. assert (e.2 = (k, sc)) as E by (cbn in E0; congruence). clear E0. pose proof entries_ok as O. rewrite forallb_forall in O. specialize (O e I).
  unfold entry_ok in O. rewrite E, W in O. cbn [fst] in O. apply andb_prop in O as [[O R1]%andb_prop R2].
  split; [|split; [lia|]].
  - pose proof (keys_translated SDLK win32_code (code_of SDLK k)) as T.
    destruct (SDLKeyToKeySym SDLK win32_code (code_of SDLK k) fresh) as [vk ks]. destruct T as (_ & _ & TK & T1 & T2 & _). cbn [fst].
    destruct k as [k|c]; cbn [code_of] in *.
    + destruct (TK k eq_refl) as (v & Iv & ->). rewrite forallb_forall in O. specialize (O (k, v) Iv). cbn in O.
      rewrite bool_decide_eq_true_2 in O by done. cbn in O. lia.
    + destruct (Z.le_gt_cases 97 c); [rewrite T2|rewrite T1]; lia.
  - destruct k as [k|c]; cbn [code_of]; [apply SDLK_range|]. unfold INT_MIN, INT_MAX. lia.
Qed.

(** A control event reaches the branch of its name. *)
Lemma convert_event VK wb text ev params m s : control_event text ev params ->
  exists d, subscript d (b "parameters") = Some params /\
    ConvertToSdlMessage SDLK SCAN wb text m s =
      (if str_eqb ev (b "mousemove") then convert_mousemove d m
       else if str_eqb ev (b "mouseup") || str_eqb ev (b "mousedown") then convert_mousekey (str_eqb ev (b "mousedown")) d m
       else if str_eqb ev (b "keydown") || str_eqb ev (b "keyup") then convert_key SDLK SCAN (str_eqb ev (b "keydown")) d m
       else if str_eqb ev (b "sizechange") then convert_sizechange wb d
       else if str_eqb ev (b "wheel") then convert_wheel d m
       else mret None) s /\
    (forall o s', ConvertToSdlMessage SDLK SCAN wb text m s = (Done o, s') ->
       PushClientEvent SDLK VK MapVirtualKey SCAN wb m text s =
         match o with None => (Done [], s') | Some m' => replay SDLK VK MapVirtualKey m' s' end).
Proof.
  intros Ev. destruct (read_control_event text ev params s Ev) as (d & Er & _ & Ep). exists d. split; [done|]. split.
  - unfold ConvertToSdlMessage. by rewrite (act_bind_done _ _ _ _ _ Er).
  - intros o s' E. unfold PushClientEvent. rewrite (act_bind_done _ _ _ _ _ E). by destruct o.
Qed.

(** The key that the browser names is the key that is pressed.  A control message
    "keydown" or "keyup" with the browser's code of a key the program knows presses or
    releases, once, the virtual key with that very code (the left shift, control and alt
    keys for the codes that do not say which, and the return key for the one of the
    keypad), after the desktop was taken if the session changed; a key that is blocked, or that the
    program does not know, presses nothing.  The controller itself does not change. *)
Theorem browser_keys_pressed wb msg text down params w which c r :
  control_event text (if down : bool then b "keydown" else b "keyup") params ->
  subscript params (b "which") = Some w -> get_uint32 w = Done which ->
  (sizeof_keyboard <= length msg)%nat -> keys_ok SDLK win32_code (r_keys r) ->
  exists r', keys_ok SDLK win32_code (r_keys r') /\
    PushClientEvent SDLK win32_code MapVirtualKey SCAN wb msg text (c, r) =
      (Done match find_key (i32 which) with
            | None => []
            | Some (k, sc) =>
                if bool_decide (u16 (SCAN sc) ∈ kbScancode r) || bool_decide (code_of SDLK k ∈ kbSdlkey r) then []
                else session_events r ++
                     [send r (KeyInput (pressed_key (i32 which)) (u16 (MapVirtualKey (pressed_key (i32 which))))
                                (if down then 0 else KEYEVENTF_KEYUP))]
            end, (c, r')).
Proof.
  intros Ev Ew Eu Hl Hk. destruct (convert_event win32_code wb text _ params msg (c, r) Ev) as (d & Ep & Ec & Push).
  assert (ConvertToSdlMessage SDLK SCAN wb text msg (c, r) = convert_key SDLK SCAN down d msg (c, r)) as Ec'
    by (rewrite Ec; destruct down; reflexivity).
  clear Ec. rewrite Ec' in Push. clear Ec'. unfold convert_key, mbind, act_bind in Push. rewrite (field_value _ _ _ _ Ep) in Push.
  rewrite (uint_field_value _ _ _ _ Ew), Eu in Push.
  destruct (find_key (i32 which)) as [[k sc]|] eqn:F; [|exists r; split; [done|exact (Push _ _ eq_refl)]].
  destruct (browser_key (i32 which) k sc F) as (V & R1 & R2).
  pose proof (keyboard_replayed SDLK win32_code MapVirtualKey (if down then 1 else 0) (u16 (SCAN sc)) (code_of SDLK k) 0 0 msg r) as K.
  rewrite keys_ok_translate in K by done. rewrite V in K. destruct K as (m & Em & _ & K); [by destruct down|by apply (wrapu_range 16)|done|done|done|].
  unfold or_undef in Push. rewrite Em in Push. rewrite (Push _ _ eq_refl). unfold replay. cbn [snd fst]. rewrite K.
  assert (u16 (pressed_key (i32 which)) = pressed_key (i32 which)) as -> by (apply wrapu_small; lia).
  assert ((pressed_key (i32 which) =? INVALID_KEY) = false) as -> by (apply Z.eqb_neq; unfold INVALID_KEY; lia).
  assert (forall x y : Z, (if (if down then 1 else 0) =? 0 then x else y) = if down then y else x) as -> by (by destruct down).
  destruct (_ || _); [exists r; done|]. eexists. split; [|reflexivity]. by right.
Qed.

(** The coordinate the system gets for a position, on a screen that is not scaled. *)
Definition coordinate (pos size : Z) : Z := 65536 * pos / size.

Definition plain_screen (r : replayer) (c : controller) : Prop :=
  scaleFactorX r = of_Z 1 /\ scaleFactorY r = of_Z 1 /\ prect r = None /\
  cxsize r = display_width_ c /\ cysize r = display_height_ c /\
  0 < display_width_ c < 65536 /\ 0 < display_height_ c < 65536.

Lemma motion_coordinate r c px py : plain_screen r c -> 0 <= px <= display_width_ c -> 0 <= py <= display_height_ c ->
  motion_of r 0 px py 0 0 = Some (MouseInput (coordinate px (display_width_ c)) (coordinate py (display_height_ c)) 0
                                    (MOUSEEVENTF_ABSOLUTE + MOUSEEVENTF_MOVE)).
Proof.
  intros (Ex & Ey & Er & Ew & Eh & Hw & Hh) Hx Hy. unfold motion_of. cbn [Z.eqb]. rewrite Ex, Ey, Er, Ew, Eh.
  cbn [fmap option_fmap option_map]. rewrite !absolute_exact by lia. done.
Qed.

(** A move of the browser's mouse is a move of the system's. *)
Lemma mousemove_replayed VK wb msg text params vx vy x y px py c r :
  control_event text (b "mousemove") params ->
  subscript params (b "x") = Some vx -> subscript params (b "y") = Some vy -> get_int32 vx = Done x -> get_int32 vy = Done y ->
  scale_position x (display_width_ c) = Some px -> scale_position y (display_height_ c) = Some py ->
  (sizeof_mouse <= length msg)%nat -> plain_screen r c -> 0 <= px <= display_width_ c -> 0 <= py <= display_height_ c ->
  PushClientEvent SDLK VK MapVirtualKey SCAN wb msg text (c, r) =
    (Done (session_events r ++
           send r (MouseInput (coordinate px (display_width_ c)) (coordinate py (display_height_ c)) 0
                     (MOUSEEVENTF_ABSOLUTE + MOUSEEVENTF_MOVE)) ::
           (if event_report r && negb (on_input_received r) then [EReport 0 0] else [])),
     (c, settled r)).
Proof.
  intros Ev Ex Ey Gx Gy Sx Sy Hl Hs Hx Hy. destruct (convert_event VK wb text _ params msg (c, r) Ev) as (d & Ep & Ec & Push).
  change (str_eqb (b "mousemove") (b "mousemove")) with true in Ec. cbv iota in Ec. rewrite Ec in Push. clear Ec.
  assert (0 < display_width_ c < 65536 /\ 0 < display_height_ c < 65536) as [Bw Bh] by (unfold plain_screen in Hs; tauto).
  destruct (motion_replayed SDLK VK MapVirtualKey px py 0 0 0 0 msg r Hl) as (m & Em & K);
    [repeat constructor; unfold INT_MIN, INT_MAX; lia|lia|].
  unfold convert_mousemove, mouse_position, mbind, act_bind in Push. rewrite (field_value _ _ _ _ Ep) in Push.
  rewrite (int_field_value _ _ _ _ Ex), Gx in Push. rewrite (int_field_value _ _ _ _ Ey), Gy in Push. unfold gets in Push. cbn [fst] in Push.
  unfold CalcuateMousePosition, or_undef in Push. rewrite Sx in Push. cbn [mbind option_bind] in Push. rewrite Sy in Push.
  cbn [mbind option_bind mp_x mp_y] in Push. rewrite Em in Push. rewrite (Push _ _ eq_refl). unfold replay. cbn [snd fst]. rewrite K.
  by rewrite (motion_coordinate r c).
Qed.

(** C32. The mouse of the browser drives the mouse of the system.  On a screen that is not scaled, a control message
    "mousemove" with coordinates [x] and [y] from 0 to 32767 is replayed as one absolute motion.  Its horizontal position is
    the part [x / 32767] of the width of the display, rounded down, and its vertical position the part [y / 32767] of the
    height (one pixel less is possible only where such a part is a whole number); both lie on the display, from 0 to the width
    or height, and the coordinates the system gets for them lie from 0 to 65536. *)
Theorem browser_mouse_on_display VK wb msg text params vx vy x y c r :
  control_event text (b "mousemove") params ->
  subscript params (b "x") = Some vx -> subscript params (b "y") = Some vy -> get_int32 vx = Done x -> get_int32 vy = Done y ->
  0 <= x <= 32767 -> 0 <= y <= 32767 -> (sizeof_mouse <= length msg)%nat -> plain_screen r c ->
  exists px py,
    32767 * px <= x * display_width_ c <= 32767 * (px + 1) /\ 32767 * py <= y * display_height_ c <= 32767 * (py + 1) /\
    0 <= px <= display_width_ c /\ 0 <= py <= display_height_ c /\
    0 <= coordinate px (display_width_ c) <= 65536 /\ 0 <= coordinate py (display_height_ c) <= 65536 /\
    PushClientEvent SDLK VK MapVirtualKey SCAN wb msg text (c, r) =
      (Done (session_events r ++
             send r (MouseInput (coordinate px (display_width_ c)) (coordinate py (display_height_ c)) 0
                       (MOUSEEVENTF_ABSOLUTE + MOUSEEVENTF_MOVE)) ::
             (if event_report r && negb (on_input_received r) then [EReport 0 0] else [])),
       (c, settled r)).
Proof.
  intros Ev Ex Ey Gx Gy Hx Hy Hl Hs. assert (0 < display_width_ c < 65536 /\ 0 < display_height_ c < 65536) as [Bw Bh] by (unfold plain_screen in Hs; tauto).
  destruct (scale_position_near x (display_width_ c) Hx) as (px & Sx & Rx & Qx); [lia|].
  destruct (scale_position_near y (display_height_ c) Hy) as (py & Sy & Ry & Qy); [lia|].
  assert (forall p w, 0 <= p <= w -> 0 < w -> 0 <= coordinate p w <= 65536) as Rc.
  { intros p w Hp Hw. unfold coordinate. split; [apply Z.div_pos; lia|]. apply Z.div_le_upper_bound; lia. }
  exists px, py. do 4 (split; [done|]). split; [apply Rc; lia|]. split; [apply Rc; lia|].
  by apply (mousemove_replayed VK wb msg text params vx vy x y px py c r).
Qed.

(** The far edge of the browser's view is outside the screen: the greatest coordinates
    the browser sends are replayed as 65536, one past the greatest the system
    knows. *)
Theorem far_edge_off_screen VK wb msg text params vx vy c r :
  control_event text (b "mousemove") params ->
  subscript params (b "x") = Some vx -> subscript params (b "y") = Some vy ->
  get_int32 vx = Done 32767 -> get_int32 vy = Done 32767 -> (sizeof_mouse <= length msg)%nat -> plain_screen r c ->
  PushClientEvent SDLK VK MapVirtualKey SCAN wb msg text (c, r) =
    (Done (session_events r ++ send r (MouseInput 65536 65536 0 (MOUSEEVENTF_ABSOLUTE + MOUSEEVENTF_MOVE)) ::
           (if event_report r && negb (on_input_received r) then [EReport 0 0] else [])),
     (c, settled r)).
Proof.
  intros Ev Ex Ey Gx Gy Hl Hs. assert (0 < display_width_ c < 65536 /\ 0 < display_height_ c < 65536) as [Bw Bh] by (unfold plain_screen in Hs; tauto).
  assert (forall w, 0 < w -> coordinate w w = 65536) as Ew by (intros w Hw; unfold coordinate; apply Z.div_mul; lia).
  rewrite <- (Ew (display_width_ c)) at 1 by lia. rewrite <- (Ew (display_height_ c)) at 1 by lia.
  apply (mousemove_replayed VK wb msg text params vx vy 32767 32767); try done;
    first [apply scale_position_edge; unfold INT_MAX; lia|lia].
Qed.

(** A button of the browser's mouse, and its wheel. *)
Theorem browser_buttons_and_wheel VK wb msg text params c r : (sizeof_mouse <= length msg)%nat ->
  (forall down vx vy vw x y which pos, control_event text (if down : bool then b "mousedown" else b "mouseup") params ->
     3 <= size params -> subscript params (b "x") = Some vx -> subscript params (b "y") = Some vy -> subscript params (b "which") = Some vw ->
     get_int32 vx = Done x -> get_int32 vy = Done y -> get_uint32 vw = Done which ->
     CalcuateMousePosition x y (display_width_ c) (display_height_ c) = Some pos ->
     PushClientEvent SDLK VK MapVirtualKey SCAN wb msg text (c, r) =
       (Done (session_events r ++ [send r (button_input (u8 which) (if down then 1 else 0))]),
        (with_pressed down (UpdateMousePosition pos c), settled r))) /\
  (forall vx vy x y ix iy ax ay, control_event text (b "wheel") params ->
     subscript params (b "deltaX") = Some vx -> subscript params (b "deltaY") = Some vy -> get_float vx = Done x -> get_float vy = Done y ->
     wheel_whole (fadd (accumulated_wheel_x_ c) x) = Some (ix, ax) -> wheel_whole (fadd (accumulated_wheel_y_ c) y) = Some (iy, ay) ->
     -32768 <= ix <= 32767 -> -32768 <= iy <= 32767 ->
     PushClientEvent SDLK VK MapVirtualKey SCAN wb msg text (c, r) =
       (Done (session_events r ++ map (send r) (wheel_step ix ++ wheel_step iy)), (with_wheel ax ay c, settled r))).
Proof.
  intros Hl. split.
  - intros down vx vy vw x y which pos Ev Hs Ex Ey Ew Gx Gy Gw P.
    destruct (convert_event VK wb text _ params msg (c, r) Ev) as (d & Ep & Ec & Push).
    assert (ConvertToSdlMessage SDLK SCAN wb text msg (c, r) = convert_mousekey down d msg (c, r)) as Ec'
      by (rewrite Ec; destruct down; reflexivity).
    rewrite Ec' in Push. clear Ec Ec'. unfold convert_mousekey, mouse_position, mbind, act_bind in Push.
    rewrite (field_value _ _ _ _ Ep) in Push. rewrite (proj2 (Z.ltb_ge _ _) Hs) in Push.
    rewrite (int_field_value _ _ _ _ Ex), Gx in Push. rewrite (int_field_value _ _ _ _ Ey), Gy in Push. unfold gets in Push. cbn [fst] in Push.
    rewrite P in Push. unfold modify at 1 in Push. unfold or_undef at 1 in Push. rewrite (uint_field_value _ _ _ _ Ew), Gw in Push.
    destruct (button_replayed SDLK VK MapVirtualKey (if down then 1 else 0) (u8 which) (u16 (mp_x pos)) (u16 (mp_y pos)) msg r Hl) as (m & Em & K);
      [by destruct down|by apply (wrapu_range 8)|].
    unfold modify, or_undef in Push. rewrite Em in Push. rewrite (Push _ _ eq_refl). unfold replay. cbn [snd fst on_controller]. by rewrite K.
  - intros vx vy x y ix iy ax ay Ev Ex Ey Gx Gy Wx Wy Hx Hy.
    destruct (convert_event VK wb text _ params msg (c, r) Ev) as (d & Ep & Ec & Push).
    assert (ConvertToSdlMessage SDLK SCAN wb text msg (c, r) = convert_wheel d msg (c, r)) as Ec' by (rewrite Ec; reflexivity).
    rewrite Ec' in Push. clear Ec Ec'. unfold convert_wheel, mbind, act_bind in Push. rewrite (field_value _ _ _ _ Ep) in Push.
    rewrite (float_field_value _ _ _ _ Ex), Gx in Push. rewrite (float_field_value _ _ _ _ Ey), Gy in Push. unfold gets in Push. cbn [fst] in Push.
    unfold or_undef in Push. rewrite Wx, Wy in Push. unfold modify in Push.
    destruct (wheel_replayed SDLK VK MapVirtualKey ix iy msg r Hl Hx Hy) as (m & Em & K). rewrite Em in Push.
    rewrite (Push _ _ eq_refl). unfold replay. cbn [snd fst on_controller]. by rewrite K.
Qed.

(** A message that is not JSON, or is JSON but neither an object nor null, ends in an
    exception, and so does a control event whose number is missing. *)
Theorem malformed_messages_throw `{!JsonLaws J} VK wb msg text s :
  (forall j, parse text = Some j -> is_object j = false /\ is_null j = false) \/
  (exists ev params v, control_event text ev params /\ In ev [b "keydown"; b "keyup"] /\
     subscript params (b "which") = Some v /\ is_null v = true) ->
  PushClientEvent SDLK VK MapVirtualKey SCAN wb msg text s = (Throws, s).
Proof.
  intros [H|(ev & params & v & Ev & Iv & Ew & Nv)].
  - unfold PushClientEvent, ConvertToSdlMessage. by rewrite !(act_bind_throws _ _ _ s) by (rewrite ?(act_bind_throws _ _ _ s); by rewrite ?read_control_throws).
  - destruct (convert_event VK wb text ev params msg s Ev) as (d & Ep & Ec & _). unfold PushClientEvent. apply act_bind_throws. rewrite Ec.
    assert (forall down, convert_key SDLK SCAN down d msg s = (Throws, s)) as K.
    { intros down. unfold convert_key, mbind, act_bind. rewrite (field_value _ _ _ _ Ep), (uint_field_value _ _ _ _ Ew), uint32_throws; [done|].
      by rewrite Nv. }
    destruct Iv as [<-|[<-|[]]]; apply K.
Qed.

End Theorems.

(** ** Examples *)

(** A control message with the event [ev]; the text that stands for it is the name of
    the event. *)
Definition control (ev : bytes) (params : list (bytes * value)) : bytes * value :=
  (ev, VObject [(b "type", VString (b "control"));
                (b "data", VObject [(b "event", VString ev); (b "parameters", VObject params)])]).

Definition sample_texts : list (bytes * value) :=
  [control (b "keydown") [(b "which", VInt 65)];
   control (b "mousemove") [(b "x", VInt 32767); (b "y", VInt 32767)];
   control (b "mousedown") [(b "which", VInt 3); (b "x", VInt 0); (b "y", VInt 0)];
   control (b "keyup") []].

Definition sample_controller : controller :=
  SdlController false {| mp_x := 0; mp_y := 0 |} (Some {| wb_width := 1920; wb_height := 1080; wb_left := 0; wb_top := 0 |}).

Lemma sample_event ev params : assoc ev sample_texts = (control ev params).2 ->
  @control_event (values sample_texts) ev ev (VObject params).
Proof.
  intros E. eexists (control ev params).2, _, _, _. split; [|by repeat split].
  change (match assoc ev sample_texts with VNull => None | v => Some v end = Some (control ev params).2). by rewrite E.
Defined.

Lemma sdl2_range k : INT_MIN <= sdl2_code k <= INT_MAX.
Proof. destruct k; vm_compute; split; discriminate. Qed.

Lemma browser_keys_pressed_witness : exists r',
  @PushClientEvent (values sample_texts) sdl2_code win32_code (fun v => v) (fun _ => 4) None (replicate 64 7) (b "keydown")
    (sample_controller, sample_replayer) = (Done [ESend (KeyInput 65 65 0)], (sample_controller, r')).
Proof.
  destruct (@browser_keys_pressed (values sample_texts) sdl2_code (fun v => v) (fun _ => 4) _ sdl2_range None (replicate 64 7)
    (b "keydown") true (VObject [(b "which", VInt 65)]) (VInt 65) 65 sample_controller sample_replayer) as (r' & _ & E);
    [apply sample_event; reflexivity|reflexivity|reflexivity|vm_compute; lia|by left|].
  exists r'. rewrite E. change (find_key (i32 65)) with (Some (Char 97, SDL_SCANCODE_A)). cbv iota beta.
  rewrite bool_decide_eq_false_2 by apply not_elem_of_empty. rewrite bool_decide_eq_false_2; [reflexivity|].
  intros I. change (97 ∈ ({[27]} : gset Z)) in I. apply elem_of_singleton in I. discriminate I.
Defined.

Lemma sample_plain : plain_screen sample_replayer sample_controller.
Proof. repeat split. Defined.

Lemma browser_mouse_on_display_witness : exists dx dy, 0 <= dx <= 65536 /\ 0 <= dy <= 65536 /\
  @PushClientEvent (values sample_texts) sdl2_code win32_code (fun v => v) (fun _ => 4) None (replicate 64 7) (b "mousemove")
    (sample_controller, sample_replayer) =
  (Done [ESend (MouseInput dx dy 0 (MOUSEEVENTF_ABSOLUTE + MOUSEEVENTF_MOVE))], (sample_controller, sample_replayer)).
Proof.
  destruct (@browser_mouse_on_display (values sample_texts) sdl2_code (fun v => v) (fun _ => 4) win32_code None (replicate 64 7)
    (b "mousemove") (VObject [(b "x", VInt 32767); (b "y", VInt 32767)]) (VInt 32767) (VInt 32767) 32767 32767 sample_controller
    sample_replayer) as (px & py & _ & _ & _ & _ & Hx & Hy & E);
    [apply sample_event; reflexivity|reflexivity|reflexivity|reflexivity|reflexivity|lia|lia|vm_compute; lia|exact sample_plain|].
  eexists _, _. split; [exact Hx|]. split; [exact Hy|]. exact E.
Defined.

Lemma far_edge_off_screen_witness :
  @PushClientEvent (values sample_texts) sdl2_code win32_code (fun v => v) (fun _ => 4) None (replicate 64 7) (b "mousemove")
    (sample_controller, sample_replayer) =
  (Done [ESend (MouseInput 65536 65536 0 (MOUSEEVENTF_ABSOLUTE + MOUSEEVENTF_MOVE))], (sample_controller, sample_replayer)).
Proof.
  exact (@far_edge_off_screen (values sample_texts) sdl2_code (fun v => v) (fun _ => 4) win32_code None (replicate 64 7)
    (b "mousemove") (VObject [(b "x", VInt 32767); (b "y", VInt 32767)]) (VInt 32767) (VInt 32767) sample_controller
    sample_replayer
    (sample_event (b "mousemove") [(b "x", VInt 32767); (b "y", VInt 32767)] eq_refl) eq_refl eq_refl eq_refl eq_refl ltac:(vm_compute; lia) sample_plain).
Defined.

Lemma browser_buttons_and_wheel_witness :
  @PushClientEvent (values sample_texts) sdl2_code win32_code (fun v => v) (fun _ => 4) None (replicate 64 7) (b "mousedown")
    (sample_controller, sample_replayer) =
  (Done [ESend (MouseInput 0 0 0 MOUSEEVENTF_RIGHTDOWN)],
   (with_pressed true (UpdateMousePosition {| mp_x := 0; mp_y := 0 |} sample_controller), sample_replayer)).
Proof.
  destruct (@browser_buttons_and_wheel (values sample_texts) sdl2_code (fun v => v) (fun _ => 4) win32_code None (replicate 64 7)
    (b "mousedown") (VObject [(b "which", VInt 3); (b "x", VInt 0); (b "y", VInt 0)]) sample_controller sample_replayer) as [B _];
    [vm_compute; lia|].
  exact (B true (VInt 0) (VInt 0) (VInt 3) 0 0 3 {| mp_x := 0; mp_y := 0 |}
    (sample_event (b "mousedown") [(b "which", VInt 3); (b "x", VInt 0); (b "y", VInt 0)] eq_refl) ltac:(cbn; lia) eq_refl eq_refl eq_refl
    eq_refl eq_refl eq_refl eq_refl).
Defined.

Lemma malformed_messages_throw_witness :
  @PushClientEvent (values sample_texts) sdl2_code win32_code (fun v => v) (fun _ => 4) None (replicate 64 7) (b "keyup")
    (sample_controller, sample_replayer) = (Throws, (sample_controller, sample_replayer)).
Proof.
  apply (@malformed_messages_throw (values sample_texts) sdl2_code (fun v => v) (fun _ => 4) _). right.
  exists (b "keyup"), (VObject []), VNull. split; [apply sample_event; reflexivity|]. split; [cbn; auto|]. by split.
Defined.
