(* ===== verification/AndroidController.v ===== *)
(** * AndroidController: the client's touches and mouse for Android

    Models [src/sources/streamer/module/server-webrtc/ga-controller-android.cpp] and
    [ga-controller-android.h]: the sockets of the virtual input devices, and the
    conversion of the client's JSON messages to the text commands of the devices.
    The JSON library is the interface [Json]; the devices belong to [libvhal], which is
    not part of the repository, and what they are told is the output. *)

From Stdlib Require Import ZArith Lia String.
From stdpp Require Import base gmap sets list.
From S2P Require Import Prelude Bytes StdMap GaConf CNum Json.

(** ** The devices *)

(** [uci.socket_dir] and [uci.status_dir] *)
Record UnixConnectionInfo := { socket_dir : bytes; status_dir : bytes }.

(** The number of devices, from 1 to 31. *)
Definition virtual_inputs (n : Z) : Z :=
  let n := if n <? 1 then 1 else n in if 31 <? n then 31 else n.

Definition device (socket status : bytes) (i : Z) : UnixConnectionInfo :=
  {| socket_dir := socket ++ b "-" ++ print_int i; status_dir := status ++ b "-" ++ print_int i |}.

Definition input_devices : cmd conf (list UnixConnectionInfo) :=
  session <-- ga_conf_readint (b "android-session") ;;
  let session := if session <? 0 then 0 else session in
  num <-- ga_conf_readint (b "virtual-input-num") ;;
  let num := virtual_inputs num in
  dir <-- ga_conf_readstr (b "aic-workdir") ;;
  k8s <-- ga_conf_readbool (b "k8s") 0 ;;
  let '(socket, status) :=
    if k8s =? 1 then (dir ++ b "/input-pipe", dir ++ b "/.input-status")
    else (dir ++ b "/ipc/input-pipe" ++ print_int session, dir ++ b "/ipc/.input-status" ++ print_int session) in
  multi <-- ga_conf_readbool (b "enable-multi-user") 0 ;;
  suffix <-- (if negb (multi =? 0) then user <-- ga_conf_readint (b "user") ;; cret (b "-" ++ print_int user) else cret []) ;;
  cret (map (device (socket ++ suffix) (status ++ suffix)) (seqZ 0 num)).

(** ** The controller *)

Record controller := {
  abs_x : Z; abs_y : Z; abs_gameWidth : Z; abs_gameHeight : Z; is_pressed : bool; is_mouse : bool;
  game_offset_x : Z; game_offset_y : Z; inputDev : list UnixConnectionInfo
}.

Definition with_position (x y : Z) (c : controller) : controller :=
  {| abs_x := x; abs_y := y; abs_gameWidth := abs_gameWidth c; abs_gameHeight := abs_gameHeight c; is_pressed := is_pressed c;
     is_mouse := is_mouse c; game_offset_x := game_offset_x c; game_offset_y := game_offset_y c; inputDev := inputDev c |}.
Definition with_pressed (p : bool) (c : controller) : controller :=
  {| abs_x := abs_x c; abs_y := abs_y c; abs_gameWidth := abs_gameWidth c; abs_gameHeight := abs_gameHeight c; is_pressed := p;
     is_mouse := is_mouse c; game_offset_x := game_offset_x c; game_offset_y := game_offset_y c; inputDev := inputDev c |}.
Definition with_mouse (m : bool) (c : controller) : controller :=
  {| abs_x := abs_x c; abs_y := abs_y c; abs_gameWidth := abs_gameWidth c; abs_gameHeight := abs_gameHeight c; is_pressed := is_pressed c;
     is_mouse := m; game_offset_x := game_offset_x c; game_offset_y := game_offset_y c; inputDev := inputDev c |}.

(** What a device is told. *)
Inductive message :=
  | onInputMessage (dev : nat) (cmd : bytes)
  | onJoystickMessage (dev : nat) (cmd : bytes).

Definition newline : bytes := [10].

Section Controller.
(** [old]: the variable [OLD_INPUT_PROTOCOL] is in the environment. *)
Context {J : Json} (old : bool).

(** The constructor. *)
Definition AndroidController : cmd conf controller :=
  devs <-- input_devices ;;
  let '(w, h) := if old then (1920, 1080) else (0, 0) in
  cret {| abs_x := w / 2; abs_y := h / 2; abs_gameWidth := w; abs_gameHeight := h; is_pressed := false; is_mouse := true;
          game_offset_x := 0; game_offset_y := 0; inputDev := devs |}.

Definition translate (pos size : Z) : option Z :=
  if old then to_int (dmul (ddiv (of_Z pos) (of_Z size)) (of_Z 32767)) else Some pos.
Definition TranslateX (c : controller) : option Z := translate (abs_x c) (abs_gameWidth c).
Definition TranslateY (c : controller) : option Z := translate (abs_y c) (abs_gameHeight c).

(** [sprintf(cmd, "m 0 %d %d 255\n", ...)], and "c\n" after it. *)
Definition pointer_command (letter : bytes) (c : controller) : option (list message) :=
  tx ← TranslateX c; x ← int_chk (game_offset_x c + tx);
  ty ← TranslateY c; y ← int_chk (game_offset_y c + ty);
  Some [onInputMessage 0 (letter ++ b " 0 " ++ print_int x ++ b " " ++ print_int y ++ b " 255" ++ newline);
        onInputMessage 0 (b "c" ++ newline)].

Definition clamp (v size : Z) : Z := let v := if v <? 0 then 0 else v in if size <? v then size else v.

Definition push_mousemove (d : json) : act controller (list message) :=
  p ← field d (b "parameters");
  x ← int_field p (b "x");
  y ← int_field p (b "y");
  c ← gets (fun c => c);
  '(nx, ny) ← (if is_mouse c then
                 nx ← or_undef (int_chk (abs_x c + x)); ny ← or_undef (int_chk (abs_y c + y));
                 mret (clamp nx (abs_gameWidth c), clamp ny (abs_gameHeight c))
               else mret (x, y));
  modify (with_position nx ny) ≫= fun _ =>
  c ← gets (fun c => c);
  if is_pressed c then or_undef (pointer_command (b "m") c) else mret [].

Definition push_mousedown (d : json) : act controller (list message) :=
  p ← field d (b "parameters");
  if size p <? 3 then mret []
  else
    x ← int_field p (b "x");
    y ← int_field p (b "y");
    let mouse := negb ((4 <? x) || (4 <? y)) in
    modify (with_mouse mouse) ≫= fun _ =>
    modify (if mouse then (fun c => c) else with_position x y) ≫= fun _ =>
    modify (with_pressed true) ≫= fun _ =>
    c ← gets (fun c => c);
    or_undef (pointer_command (b "d") c).

Definition push_mouseup : act controller (list message) :=
  modify (with_pressed false) ≫= fun _ =>
  modify (with_mouse true) ≫= fun _ =>
  mret [onInputMessage 0 (b "u 0" ++ newline); onInputMessage 0 (b "c" ++ newline)].

(** Touches and joysticks: text for one of the devices. *)
Definition push_device (make : nat -> bytes -> message) (id : bytes) (d : json) : act controller (list message) :=
  p ← field d (b "parameters");
  data ← string_field p (b "data");
  dev ← uint_field p id;
  c ← gets (fun c => c);
  if Z.of_nat (length (inputDev c)) <=? dev then mret [] else mret [make (Z.to_nat dev) data].

Definition PushClientEvent (json_message : bytes) : act controller (list message) :=
  e ← read_control json_message;
  match e with
  | None => mret []
  | Some (d, ev) =>
      if str_eqb ev (b "mousemove") then push_mousemove d
      else if str_eqb ev (b "mousedown") then push_mousedown d
      else if str_eqb ev (b "mouseup") then push_mouseup
      else if str_eqb ev (b "touch") then push_device onInputMessage (b "tID") d
      else if str_eqb ev (b "joystick") then push_device onJoystickMessage (b "jID") d
      else mret []
  end.

End Controller.

(** ** Properties *)

(** From one to 31 devices are opened, numbered from 0 after the same prefixes. *)
Theorem devices_numbered cf devs cf' : input_devices cf = Some (devs, cf') ->
  (1 <= length devs <= 31)%nat /\
  exists socket status, forall i d, devs !! i = Some d ->
    d = {| socket_dir := socket ++ b "-" ++ print_int (Z.of_nat i); status_dir := status ++ b "-" ++ print_int (Z.of_nat i) |}.
Proof.
  unfold input_devices. intros E.
  apply cbind_inv in E as (session & c1 & _ & E). apply cbind_inv in E as (num & c2 & _ & E). apply cbind_inv in E as (dir & c3 & _ & E).
  apply cbind_inv in E as (k8s & c4 & _ & E). destruct (if k8s =? 1 then _ else _) as [socket status].
  apply cbind_inv in E as (multi & c5 & _ & E). apply cbind_inv in E as (suffix & c6 & _ & E). injection E as <- <-.
  assert (1 <= virtual_inputs num <= 31) as R.
  { unfold virtual_inputs. destruct (Z.ltb_spec num 1); [cbn; lia|]. destruct (Z.ltb_spec 31 num); lia. }
  split; [rewrite length_map, length_seqZ; lia|]. exists (socket ++ suffix), (status ++ suffix). intros i d H.
  rewrite list_lookup_fmap in H. apply fmap_Some in H as (z & H & ->). apply lookup_seqZ in H as [-> _]. done.
Qed.

(** What the commands to the first device do to the finger it emulates: "d" puts it
    down, "m" moves it, which only a finger that is down can do, "u" takes it up. *)
Fixpoint gesture (down : bool) (out : list message) : option bool :=
  match out with
  | [] => Some down
  | onInputMessage 0 (100 :: _) :: out => gesture true out
  | onInputMessage 0 (117 :: _) :: out => gesture false out
  | onInputMessage 0 (109 :: _) :: out => if down then gesture down out else None
  | _ :: out => gesture down out
  end.

Section Properties.
Context {J : Json} (old : bool).

Lemma push_event text ev params c : control_event text ev params ->
  exists d, subscript d (b "parameters") = Some params /\
    PushClientEvent old text c =
      (if str_eqb ev (b "mousemove") then push_mousemove old d
       else if str_eqb ev (b "mousedown") then push_mousedown old d
       else if str_eqb ev (b "mouseup") then push_mouseup
       else if str_eqb ev (b "touch") then push_device onInputMessage (b "tID") d
       else if str_eqb ev (b "joystick") then push_device onJoystickMessage (b "jID") d
       else mret []) c.
Proof.
  intros Ev. destruct (read_control_event text ev params c Ev) as (d & Er & _ & Ep). exists d. split; [done|].
  unfold PushClientEvent. by rewrite (act_bind_done _ _ _ _ _ Er).
Qed.

Lemma pointer_letter letter c out : pointer_command old [letter] c = Some out ->
  exists rest, out = [onInputMessage 0 (letter :: rest); onInputMessage 0 (b "c" ++ newline)].
Proof.
  unfold pointer_command. destruct (TranslateX old c) as [tx|]; [|done]. cbn [mbind option_bind].
  destruct (int_chk (game_offset_x c + tx)); [|done]. cbn [mbind option_bind]. destruct (TranslateY old c) as [ty|]; [|done].
  cbn [mbind option_bind]. destruct (int_chk (game_offset_y c + ty)); [|done]. cbn [mbind option_bind]. intros [= <-]. by eexists.
Qed.

Lemma mousemove_gesture d c out c' : push_mousemove old d c = (Done out, c') ->
  is_pressed c' = is_pressed c /\ gesture (is_pressed c) out = Some (is_pressed c').
Proof.
  intros (p & c1 & [_ ->]%field_inv & (x & c2 & (? & _ & _ & ->)%int_field_inv & (y & c3 & (? & _ & _ & ->)%int_field_inv & E)%act_bind_inv)%act_bind_inv)%act_bind_inv.
  apply act_bind_inv in E as (c4 & c5 & [= <- <-] & ([nx ny] & c6 & E1 & E)%act_bind_inv).
  assert (c6 = c) as ->.
  { destruct (is_mouse c); [|by injection E1].
    apply act_bind_inv in E1 as (? & ? & [_ ->]%or_undef_inv & (? & ? & [_ ->]%or_undef_inv & [= _ _ <-])%act_bind_inv). done. }
  apply act_bind_inv in E as (? & c7 & [= <- <-] & (? & ? & [= <- <-] & E)%act_bind_inv). cbn [is_pressed with_position] in E.
  destruct (is_pressed c) eqn:P.
  - apply or_undef_inv in E as [(rest & ->)%(pointer_letter 109) ->]. cbn [is_pressed with_position gesture b app]. by rewrite P.
  - injection E as <- <-. cbn [is_pressed with_position gesture]. by rewrite P.
Qed.

Lemma mousedown_gesture d c out c' : push_mousedown old d c = (Done out, c') ->
  gesture (is_pressed c) out = Some (is_pressed c').
Proof.
  intros (p & c1 & [_ ->]%field_inv & E)%act_bind_inv. destruct (size p <? 3); [by injection E as <- <-|].
  apply act_bind_inv in E as (x & c2 & (? & _ & _ & ->)%int_field_inv & (y & c3 & (? & _ & _ & ->)%int_field_inv & E)%act_bind_inv).
  set (mouse := negb _) in E. apply act_bind_inv in E as (? & c4 & [= <- <-] & (? & c5 & [= <- <-] & E)%act_bind_inv).
  apply act_bind_inv in E as (? & c6 & [= <- <-] & (? & c7 & [= <- <-] & E)%act_bind_inv).
  apply or_undef_inv in E as [(rest & ->)%(pointer_letter 100) ->]. done.
Qed.

(** The messages of a client, one after the other. *)
Fixpoint push_all (texts : list bytes) : act controller (list message) :=
  match texts with
  | [] => mret []
  | t :: texts => o ← PushClientEvent old t; os ← push_all texts; mret (o ++ os)
  end.

Lemma gesture_app o os : forall p q, gesture p o = Some q -> gesture p (o ++ os) = gesture q os.
Proof.
  induction o as [|m o IH]; intros p q; [by intros [= <-]|]. cbn [gesture app].
  destruct m as [[|dev] cmd|dev cmd]; try apply IH. destruct cmd as [|a cmd]; [apply IH|].
  repeat (case_match; try done; try apply IH).
Qed.

(** C22. The commands of the mouse are gestures a finger can make.  Whatever mouse events the
    client sends, in any order, the commands the first device gets for them put the finger down before
    they move it, and never move a finger that is up; afterwards the controller holds
    the finger down exactly if the device does. *)
Theorem mouse_gestures texts : forall c outs c',
  Forall (fun t => exists ev params, control_event t ev params /\ In ev [b "mousemove"; b "mousedown"; b "mouseup"]) texts ->
  push_all texts c = (Done outs, c') -> gesture (is_pressed c) outs = Some (is_pressed c').
Proof.
  induction texts as [|t texts IH]; intros c outs c' F; cbn [push_all]; [by intros [= <- <-]|].
  apply Forall_cons in F as [(ev & params & Ev & I) F].
  intros (o & c1 & E1 & (os & c2 & E2 & [= <- <-])%act_bind_inv)%act_bind_inv. specialize (IH _ _ _ F E2).
  rewrite (gesture_app o os _ (is_pressed c1)); [exact IH|].
  destruct (push_event t ev params c Ev) as (d & _ & Ed). rewrite Ed in E1.
  destruct I as [<-|[<-|[<-|[]]]].
  - by apply (mousemove_gesture d).
  - by apply (mousedown_gesture d).
  - by injection E1 as <- <-.
Qed.

(** The pointer of a mouse stays on the game's screen, and without the old protocol that
    screen is one point: a relative motion, however long, leaves the pointer at the
    corner. *)
Theorem relative_pointer text params vx vy x y c :
  control_event text (b "mousemove") params -> subscript params (b "x") = Some vx -> subscript params (b "y") = Some vy ->
  get_int32 vx = Done x -> get_int32 vy = Done y ->
  is_mouse c = true -> is_pressed c = false -> 0 <= abs_gameWidth c -> 0 <= abs_gameHeight c ->
  INT_MIN <= abs_x c + x <= INT_MAX -> INT_MIN <= abs_y c + y <= INT_MAX ->
  exists px py, PushClientEvent old text c = (Done [], with_position px py c) /\
    px = Z.min (abs_gameWidth c) (Z.max 0 (abs_x c + x)) /\ py = Z.min (abs_gameHeight c) (Z.max 0 (abs_y c + y)) /\
    (abs_gameWidth c = 0 -> abs_gameHeight c = 0 -> px = 0 /\ py = 0).
Proof.
  intros Ev Ex Ey Gx Gy M P Hw Hh Rx Ry. destruct (push_event text _ params c Ev) as (d & Ep & ->). change (str_eqb (b "mousemove") (b "mousemove")) with true. cbv iota.
  unfold push_mousemove, mbind, act_bind. rewrite (field_value _ _ _ _ Ep), (int_field_value _ _ _ _ Ex), Gx, (int_field_value _ _ _ _ Ey), Gy.
  unfold gets at 1. rewrite M. unfold or_undef. rewrite !int_chk_Some by done. unfold mret, act_ret, modify, gets. cbn [is_pressed with_position]. rewrite P.
  assert (forall v size, 0 <= size -> clamp v size = Z.min size (Z.max 0 v)) as C.
  { intros v size0 Hs. unfold clamp. destruct (Z.ltb_spec v 0); [destruct (Z.ltb_spec size0 0); lia|]. destruct (Z.ltb_spec size0 v); lia. }
  eexists _, _. split; [reflexivity|]. rewrite !C by done. repeat split; lia.
Qed.

(** Touches and joysticks reach the device they name, with the text unchanged, or none
    when there is no such device. *)
Theorem touches_delivered text params ev vd vi data dev c :
  control_event text ev params -> In ev [b "touch"; b "joystick"] ->
  subscript params (b "data") = Some vd -> get_string vd = Some data ->
  subscript params (if str_eqb ev (b "touch") then b "tID" else b "jID") = Some vi -> get_uint32 vi = Done dev ->
  PushClientEvent old text c =
    (Done (if dev <? Z.of_nat (length (inputDev c))
           then [(if str_eqb ev (b "touch") then onInputMessage else onJoystickMessage) (Z.to_nat dev) data] else []), c).
Proof.
  intros Ev I Ed Gd Ei Gi. destruct (push_event text ev params c Ev) as (d & Ep & ->).
  assert (forall make id, subscript params id = Some vi -> push_device make id d c =
    (Done (if dev <? Z.of_nat (length (inputDev c)) then [make (Z.to_nat dev) data] else []), c)) as K.
  { intros make id E. unfold push_device, mbind, act_bind.
    rewrite (field_value _ _ _ _ Ep), (string_field_value _ _ _ _ Ed), Gd, (uint_field_value _ _ _ _ E), Gi. unfold gets.
    rewrite (Z.leb_antisym dev). by destruct (dev <? _). }
  destruct I as [<-|[<-|[]]]; by apply K.
Qed.

End Properties.

(** ** Examples *)

Definition sample_control (ev : bytes) (params : list (bytes * value)) : value :=
  VObject [(b "type", VString (b "control")); (b "data", VObject [(b "event", VString ev); (b "parameters", VObject params)])].

Definition sample_texts : list (bytes * value) :=
  map (fun '(ev, params) => (ev, sample_control ev params))
    [(b "mousemove", [(b "x", VInt 300); (b "y", VInt 40)]);
     (b "mousedown", [(b "which", VInt 1); (b "x", VInt 0); (b "y", VInt 0)]);
     (b "mouseup", []);
     (b "touch", [(b "data", VString (b "u 0")); (b "tID", VInt 1)])].

Definition sample_controller (w h : Z) : controller :=
  {| abs_x := w / 2; abs_y := h / 2; abs_gameWidth := w; abs_gameHeight := h; is_pressed := false; is_mouse := true;
     game_offset_x := 0; game_offset_y := 0; inputDev := map (device (b "s") (b "t")) (seqZ 0 2) |}.

Lemma sample_gesture ev params : assoc ev sample_texts = sample_control ev params ->
  @control_event (values sample_texts) ev ev (VObject params).
Proof.
  intros E. eexists (sample_control ev params), _, _, _. split; [|by repeat split].
  change (match assoc ev sample_texts with VNull => None | v => Some v end = Some (sample_control ev params)). by rewrite E.
Defined.

Lemma mouse_gestures_witness :
  gesture false [onInputMessage 0 (b "d 0 0 0 255" ++ newline); onInputMessage 0 (b "c" ++ newline);
                 onInputMessage 0 (b "m 0 0 0 255" ++ newline); onInputMessage 0 (b "c" ++ newline);
                 onInputMessage 0 (b "u 0" ++ newline); onInputMessage 0 (b "c" ++ newline)] = Some false.
Proof.
  apply (@mouse_gestures (values sample_texts) false [b "mousedown"; b "mousemove"; b "mouseup"] (sample_controller 0 0) _ (sample_controller 0 0)).
  - repeat constructor; eexists _, _; (split; [apply sample_gesture; reflexivity|cbn; auto]).
  - vm_compute. reflexivity.
Defined.

Lemma relative_pointer_witness : exists px py,
  @PushClientEvent (values sample_texts) false (b "mousemove") (sample_controller 0 0) = (Done [], with_position px py (sample_controller 0 0)) /\
  px = 0 /\ py = 0.
Proof.
  destruct (@relative_pointer (values sample_texts) false (b "mousemove") (VObject [(b "x", VInt 300); (b "y", VInt 40)]) (VInt 300) (VInt 40)
    300 40 (sample_controller 0 0)) as (px & py & E & _ & _ & Z0);
    [apply sample_gesture; reflexivity|reflexivity|reflexivity|reflexivity|reflexivity|reflexivity|reflexivity|vm_compute; discriminate|vm_compute; discriminate
    |split; vm_compute; discriminate|split; vm_compute; discriminate|].
  exists px, py. split; [exact E|]. by apply Z0.
Defined.

Lemma touches_delivered_witness :
  @PushClientEvent (values sample_texts) false (b "touch") (sample_controller 0 0) = (Done [onInputMessage 1 (b "u 0")], sample_controller 0 0).
Proof.
  exact (@touches_delivered (values sample_texts) false (b "touch") (VObject [(b "data", VString (b "u 0")); (b "tID", VInt 1)]) (b "touch")
    (VString (b "u 0")) (VInt 1) (b "u 0") 1 (sample_controller 0 0) (sample_gesture (b "touch") [(b "data", VString (b "u 0")); (b "tID", VInt 1)] eq_refl)
    (or_introl eq_refl) eq_refl eq_refl eq_refl eq_refl).
Defined.

Definition sample_conf : conf :=
  match ga_conf_writev (b "virtual-input-num") (b "40") conf0 with Some (_, c) => c | None => conf0 end.

Lemma devices_numbered_witness : exists devs cf', input_devices sample_conf = Some (devs, cf') /\ (1 <= length devs <= 31)%nat.
Proof.
  destruct (input_devices sample_conf) as [[devs cf']|] eqn:E; [|vm_compute in E; discriminate E].
  exists devs, cf'. split; [reflexivity|]. exact (proj1 (devices_numbered sample_conf devs cf' E)).
Defined.
