(* ===== verification/WebrtcClient.v ===== *)
(** * WebrtcClient: the peer of the browser

    Models [ICSP2PClient] ([src/sources/streamer/module/server-webrtc/ics-p2p-client.cpp],
    [ics-p2p-client.h]) with the encoder's front ([ga-video-input.cpp]), the messages about
    cursor and quality ([ga-cursor.cpp], [ga-qos.cpp], and [core/cursor.cpp] and
    [core/QoSMgt.cpp] that feed them) and the module around it ([server-webrtc.cpp]).  The WebRTC
    library, the JSON library and the handlers of [libvhal] are not part of the repository: what
    they are told is the output, and what they tell the program, late answers included, is
    the input.  The build is without latency telemetry. *)

From Stdlib Require Import ZArith Lia String.
From stdpp Require Import base gmap sets list.
From S2P Require Import Prelude Bytes StdMap GaConf CNum CxxString Json.

(** ** The controller *)

(** [Controller::PushClientEvent], which the two controllers implement. *)
Class Controller (C E : Type) := push_client_event : bytes -> act C (list E).

(** ** Messages about the cursor and the quality *)

Record Rect := { rc_left : Z; rc_top : Z; rc_right : Z; rc_bottom : Z }.
Record CURSOR_INFO := {
  isVisible : bool; srcRect : Rect; dstRect : Rect; cu_width : Z; cu_height : Z; cu_pitch : Z
}.
Record CURSOR_DATA := { cursorInfo : CURSOR_INFO; cursorDataUpdate : bool; lenOfCursor : Z; cursorData : list Z }.

Definition MAX_CURSOR_SIZE : Z := 64 * 64 * 4.

(** [queue_cursor]: the data of the sink; copying more than there is room for is
    undefined. *)
Definition queue_cursor (info : CURSOR_INFO) (pBuffer : option (list Z)) (nLen : Z) : option CURSOR_DATA :=
  match pBuffer with
  | Some buf =>
      if (MAX_CURSOR_SIZE <? nLen) || (Z.of_nat (length buf) <? nLen) then None
      else Some {| cursorInfo := info; cursorDataUpdate := true; lenOfCursor := nLen;
                   cursorData := take (Z.to_nat nLen) buf ++ replicate (Z.to_nat (MAX_CURSOR_SIZE - nLen)) 0 |}
  | None => Some {| cursorInfo := info; cursorDataUpdate := false; lenOfCursor := 0; cursorData := replicate (Z.to_nat MAX_CURSOR_SIZE) 0 |}
  end.

Definition rect_json (r : Rect) : value :=
  VObject (set_field (b "bottom") (VInt (rc_bottom r)) (set_field (b "right") (VInt (rc_right r))
    (set_field (b "top") (VInt (rc_top r)) (set_field (b "left") (VInt (rc_left r)) [])))).

(** [GetJsonForCursorInfo], before [dump]. *)
Definition GetJsonForCursorInfo (c : CURSOR_DATA) : list (bytes * value) :=
  let i := cursorInfo c in
  let j := set_field (b "visible") (VBool (isVisible i)) (set_field (b "type") (VString (b "cursor")) []) in
  if negb (isVisible i) then j
  else
    let j := set_field (b "srcRect") (rect_json (srcRect i)) j in
    let j := set_field (b "dstRect") (rect_json (dstRect i)) j in
    let j := set_field (b "width") (VInt (cu_width i)) j in
    let j := set_field (b "height") (VInt (cu_height i)) j in
    let j := set_field (b "pitch") (VInt (cu_pitch i)) j in
    let j := set_field (b "noShapeChange") (VBool true) j in
    if cursorDataUpdate c then
      set_field (b "noShapeChange") (VBool false) (set_field (b "cursorData") (VArray (cursorData c)) j)
    else j.

Record QosInfo := {
  frameno : Z; framesize : Z; bitrate : Z; captureFps : Z; eventime_sec : Z; eventime_usec : Z; capturetime : double;
  encodetime : double; estimated_bw : Z
}.

(** [GetJsonForQoSInfo], before [dump]. *)
Definition GetJsonForQoSInfo (q : QosInfo) : list (bytes * value) :=
  [(b "type", VString (b "qos")); (b "frameno", VInt (frameno q)); (b "framesize", VInt (framesize q)); (b "bitrate", VInt (bitrate q));
   (b "captureFps", VInt (captureFps q)); (b "eventime_sec", VInt (eventime_sec q)); (b "eventime_usec", VInt (eventime_usec q));
   (b "capturetime", VDouble (capturetime q)); (b "encodetime", VDouble (encodetime q)); (b "estimated_bw", VInt (estimated_bw q))].

(** A text between quotation marks, and an object of strings. *)
Definition quoted (s : bytes) : bytes := [34] ++ s ++ [34].
Definition video_alpha_ack : bytes := b "{" ++ quoted (b "key") ++ b ":" ++ quoted (b "video-alpha-success") ++ b "}".
Definition user_id_message (user : Z) : bytes :=
  b "{" ++ quoted (b "key") ++ b ":" ++ quoted (b "user-id") ++ b "," ++ quoted (b "val") ++ b ":" ++ quoted (print_int user) ++ b "}".

(** ** Configuration *)

Definition get_p2p_server : cmd conf bytes :=
  host <-- ga_conf_readstr (b "signaling-server-host") ;;
  port <-- ga_conf_readstr (b "signaling-server-port") ;;
  let host := if bool_decide (host = []) then b "127.0.0.1" else host in
  let port := if bool_decide (port = []) then b "8095" else port in
  cret (b "http://" ++ host ++ b ":" ++ port).

Definition get_android_session : cmd conf Z :=
  k8s <-- ga_conf_readbool (b "k8s") 0 ;;
  if k8s =? 0 then s <-- ga_conf_readint (b "android-session") ;; cret (if s <? 0 then 0 else s) else cret (-1).

Inductive VideoCodec := kH264 | kH265 | kAv1.
Record IceServer := { ice_urls : list bytes; ice_username : bytes; ice_password : bytes }.

(** What [Init] asks of the library. *)
Record P2PConfiguration := {
  p2p_server : bytes; server_peer : bytes; allowed_ids : list bytes; video_codec : VideoCodec; ice_servers : list IceServer;
  ice_ports : option (Z * Z); audio_stream : bool; render_drc : bool
}.

(** [video-codec] *)
Definition codec_of (codec : bytes) : VideoCodec :=
  if str_eqb codec (b "hevc") || str_eqb codec (b "h265") then kH265 else if str_eqb codec (b "av1") then kAv1 else kH264.

Definition ice_servers_of (ip : bytes) : cmd conf (list IceServer) :=
  if bool_decide (ip = []) then cret []
  else
    user <-- ga_conf_readstr (b "coturn-username") ;;
    pass <-- ga_conf_readstr (b "coturn-password") ;;
    port <-- ga_conf_readstr (b "coturn-port") ;;
    cret [{| ice_urls := [b "stun:" ++ ip ++ b ":" ++ port]; ice_username := user; ice_password := pass |};
          {| ice_urls := [b "turn:" ++ ip ++ b ":" ++ port ++ b "?transport=tcp"; b "turn:" ++ ip ++ b ":" ++ port ++ b "?transport=udp"];
             ice_username := user; ice_password := pass |}].

(** The loop over the clones does not end when their number is the greatest [uint32_t]. *)
Definition clone_ids (client : bytes) (clones : Z) : option (list bytes) :=
  if clones =? 2 ^ 32 - 1 then None
  else Some (map (fun i => client ++ b "-clone" ++ print_int i) (seqZ 1 clones)).

(** [CreateStream]: audio is a stream of its own when it is enabled but not bundled. *)
Definition CreateStream : cmd conf bool :=
  audio <-- ga_conf_readbool (b "enable-audio") 1 ;;
  bundle <-- ga_conf_readbool (b "av-bundle") 1 ;;
  cret (negb (audio =? 0) && (bundle =? 0)).

(** [Init] *)
Definition Init : cmd conf P2PConfiguration :=
  server <-- ga_conf_readstr (b "server-peer-id") ;;
  client <-- ga_conf_readstr (b "client-peer-id") ;;
  let server := if bool_decide (server = []) then b "ga" else server in
  let client := if bool_decide (client = []) then b "client" else client in
  pmin <-- ga_conf_readint (b "ice-port-min") ;;
  pmax <-- ga_conf_readint (b "ice-port-max") ;;
  codec <-- ga_conf_readstr (b "video-codec") ;;
  ip <-- ga_conf_readstr (b "coturn-ip") ;;
  ice <-- ice_servers_of ip ;;
  clones <-- ga_conf_readint (b "client-clones") ;;
  ids <-- clift (clone_ids client (u32 clones)) ;;
  url <-- get_p2p_server ;;
  audio <-- CreateStream ;;
  drc <-- ga_conf_readint (b "enable-render-drc") ;;
  cret {| p2p_server := url; server_peer := server; allowed_ids := client :: ids; video_codec := codec_of codec; ice_servers := ice;
          ice_ports := if (0 <? pmin) && (0 <? pmax) then Some (pmin, pmax) else None; audio_stream := audio; render_drc := 0 <? drc |}.

(** ** The client *)

Record client := {
  remote_user_id_ : bytes; streaming_ : bool; capturer_started_ : bool; send_failures_ : Z; send_blocked_ : bool;
  bytes_sent_on_last_stat_call_ : Z; bytes_sent_on_last_credit_call_ : Z; current_available_bandwidth_ : Z;
  enable_render_drc_ : bool; has_audio_stream : bool
}.

(** After [Init]. *)
Definition client0 (cfg : P2PConfiguration) : client := {|
  remote_user_id_ := []; streaming_ := false; capturer_started_ := false; send_failures_ := 0; send_blocked_ := true;
  bytes_sent_on_last_stat_call_ := 0; bytes_sent_on_last_credit_call_ := 0; current_available_bandwidth_ := 8 * 1000 * 1000;
  enable_render_drc_ := render_drc cfg; has_audio_stream := audio_stream cfg |}.

Definition set_peer (p : bytes) (c : client) : client :=
  {| remote_user_id_ := p; streaming_ := streaming_ c; capturer_started_ := capturer_started_ c; send_failures_ := send_failures_ c;
     send_blocked_ := send_blocked_ c; bytes_sent_on_last_stat_call_ := bytes_sent_on_last_stat_call_ c;
     bytes_sent_on_last_credit_call_ := bytes_sent_on_last_credit_call_ c; current_available_bandwidth_ := current_available_bandwidth_ c;
     enable_render_drc_ := enable_render_drc_ c; has_audio_stream := has_audio_stream c |}.
Definition set_streaming (s cap : bool) (c : client) : client :=
  {| remote_user_id_ := remote_user_id_ c; streaming_ := s; capturer_started_ := cap; send_failures_ := send_failures_ c;
     send_blocked_ := send_blocked_ c; bytes_sent_on_last_stat_call_ := bytes_sent_on_last_stat_call_ c;
     bytes_sent_on_last_credit_call_ := bytes_sent_on_last_credit_call_ c; current_available_bandwidth_ := current_available_bandwidth_ c;
     enable_render_drc_ := enable_render_drc_ c; has_audio_stream := has_audio_stream c |}.
Definition set_sending (f : Z) (blocked : bool) (c : client) : client :=
  {| remote_user_id_ := remote_user_id_ c; streaming_ := streaming_ c; capturer_started_ := capturer_started_ c; send_failures_ := f;
     send_blocked_ := blocked; bytes_sent_on_last_stat_call_ := bytes_sent_on_last_stat_call_ c;
     bytes_sent_on_last_credit_call_ := bytes_sent_on_last_credit_call_ c; current_available_bandwidth_ := current_available_bandwidth_ c;
     enable_render_drc_ := enable_render_drc_ c; has_audio_stream := has_audio_stream c |}.
Definition set_credit (s : Z) (c : client) : client :=
  {| remote_user_id_ := remote_user_id_ c; streaming_ := streaming_ c; capturer_started_ := capturer_started_ c;
     send_failures_ := send_failures_ c; send_blocked_ := send_blocked_ c; bytes_sent_on_last_stat_call_ := bytes_sent_on_last_stat_call_ c;
     bytes_sent_on_last_credit_call_ := s; current_available_bandwidth_ := current_available_bandwidth_ c;
     enable_render_drc_ := enable_render_drc_ c; has_audio_stream := has_audio_stream c |}.

Definition OWT_MAX_SEND_FAILURES : Z := 100.

(** What the encoder is told ([GAVideoEncoder], through the encoder module's [ioctl]). *)
Inductive ioctl :=
  | REQUEST_KEYFRAME | PAUSE | REQUEST_NEW_CURSOR | SET_MAX_BPS (bps : Z) | UPDATE_CLIENT_EVENT (sec usec : Z)
  | UPDATE_FRAME_STATS (ts size delay start_delay loss : Z) | CHANGE_RENDER_RESOLUTION (w h : Z) | SET_VIDEO_ALPHA (action : Z).

Record FrameMetaData := { last_slice : bool; capture_time_ms : Z; encode_start_ms : Z; encode_end_ms : Z }.
Record EncodedImageMetaData := { is_keyframe : bool; picture_id : Z; last_fragment : bool; capture_timestamp : Z; encoding_start : Z; encoding_end : Z }.
Record ga_packet := { pkt_data : list Z; pkt_pts : Z; pkt_flags : Z; pkt_side_data : option FrameMetaData }.

Definition GA_PKT_FLAG_KEY : Z := 1.

(** What the client does to the outside; [E] is what the controller does. *)
Inductive effect (E : Type) :=
  | Publish (peer : bytes) (audio : bool)
  | Send (peer text : bytes)                            (** without callbacks *)
  | SendJson (peer : bytes) (j : list (bytes * value))  (** cursor and quality *)
  | Ioctl (i : ioctl)
  | Input (e : E)
  | SendOneFrame (data : list Z) (m : EncodedImageMetaData)
  | HookClientStatus (connected : bool)
  | AudioStatus (connected : bool)
  | UpdateCameraInfo (text : bytes)
  | ConfigureSensors
  | SensorRequest (on : bool)
  | SensorData (text : bytes)
  | WriteGps (data : bytes)
  | CommandChannel (text : bytes).
Arguments Publish {E}. Arguments Send {E}. Arguments SendJson {E}. Arguments Ioctl {E}. Arguments Input {E}.
Arguments SendOneFrame {E}. Arguments HookClientStatus {E}. Arguments AudioStatus {E}. Arguments UpdateCameraInfo {E}.
Arguments ConfigureSensors {E}. Arguments SensorRequest {E}. Arguments SensorData {E}. Arguments WriteGps {E}. Arguments CommandChannel {E}.

Section Client.
(** [win]: the build for Windows, with the other one for Android; [cf]: the configuration,
    which does not change while the client runs; [venc]: a video encoder is registered. *)
Context {J : Json} {C E : Type} `{!Controller C E} (win : bool) (cf : conf) (venc : bool).

Abbreviation state := (client * C)%type (only parsing).
Abbreviation effects := (list (effect E)) (only parsing).

Definition on_client (f : client -> client) (s : state) : state := (f s.1, s.2).
Definition conf_read {A} (m : cmd conf A) : act state A := or_undef (fst <$> m cf).
Definition the_client : act state client := gets fst.

(** *** The encoder's front *)

(** [encoder_get_vencoder()->ioctl(...)]: the call through a null pointer is
    undefined. *)
Definition ioctl_checked (i : ioctl) : act state effects := mret (if venc then [Ioctl i] else []).
Definition ioctl_unchecked (i : ioctl) : act state effects := if venc then mret [Ioctl i] else or_undef None.
Definition RequestKeyFrame : act state effects := ioctl_checked REQUEST_KEYFRAME.
Definition Pause : act state effects := ioctl_checked PAUSE.
Definition SetMaxBps (bps : Z) : act state effects := ioctl_unchecked (SET_MAX_BPS bps).
Definition SetClientEvent (sec usec : Z) : act state effects := ioctl_unchecked (UPDATE_CLIENT_EVENT sec usec).
Definition SetFrameStats (ts size delay start_delay loss : Z) : act state effects :=
  ioctl_unchecked (UPDATE_FRAME_STATS ts size delay start_delay loss).
Definition ChangeRenderResolution (w h : Z) : act state effects := ioctl_unchecked (CHANGE_RENDER_RESOLUTION w h).
Definition SetVideoAlpha (action : Z) : act state effects := ioctl_unchecked (SET_VIDEO_ALPHA action).
Definition RequestCursorShape : act state effects := ioctl_unchecked REQUEST_NEW_CURSOR.

(** *** Messages *)

Definition is_clone (peer : bytes) : act state bool :=
  n ← conf_read (ga_conf_readint (b "client-clones"));
  mret ((1 <=? n) && contains (b "-clone") peer).

(** The message "start". *)
Definition on_start (peer : bytes) : act state effects :=
  clone ← is_clone peer;
  modify (if (clone : bool) then (fun s => s) else on_client (set_peer peer)) ≫= fun _ =>
  c ← the_client;
  multi ← conf_read (ga_conf_readbool (b "enable-multi-user") 0);
  user ← (if negb (multi =? 0) then u ← conf_read (ga_conf_readint (b "user")); mret [Send peer (user_id_message u)] else mret []);
  mret ([Publish peer false] ++ (if win then [AudioStatus true; HookClientStatus true] else []) ++
        (if has_audio_stream c then [Publish peer true] else []) ++ user).

(** The callback of a successful [Publish]. *)
Definition on_published : act state effects :=
  modify (on_client (fun c => set_streaming true (capturer_started_ c) c)) ≫= fun _ =>
  k ← RequestKeyFrame;
  r ← RequestCursorShape;
  mret (k ++ r).

(** [event_param["key"].is_number()] *)
Definition number_field (p : json) (key : bytes) : act state bool := v ← field p key; mret (is_number v).

Fixpoint all_numbers (p : json) (keys : list bytes) : act state bool :=
  match keys with
  | [] => mret true
  | k :: keys => n ← number_field p k; if n : bool then all_numbers p keys else mret false
  end.

Definition on_framestats (d : json) : act state effects :=
  p ← field d (b "parameters");
  if negb (is_object p) then mret []
  else if size p <? 5 then mret []
  else
    ok ← all_numbers p [b "framets"; b "framesize"; b "framedelay"; b "framestartdelay"; b "packetloss"];
    if negb (ok : bool) then mret []
    else
      ts ← int_field p (b "framets"); sz ← int_field p (b "framesize"); delay ← int_field p (b "framedelay");
      start ← int_field p (b "framestartdelay"); loss ← int_field p (b "packetloss");
      SetFrameStats ts sz delay start loss.

Definition on_sizechange (d : json) : act state effects :=
  p ← field d (b "parameters");
  if negb (is_object p) then mret []
  else
    sz ← field p (b "rendererSize");
    if negb (is_object sz) then mret []
    else if negb (size sz =? 2) then mret []
    else
      ok ← all_numbers sz [b "width"; b "height"];
      if negb (ok : bool) then mret []
      else w ← int_field sz (b "width"); h ← int_field sz (b "height"); ChangeRenderResolution w h.

Definition on_videoalpha (d : json) : act state effects :=
  p ← field d (b "parameters");
  if negb (is_object p) then mret []
  else
    ok ← number_field p (b "action");
    if negb (ok : bool) then mret []
    else
      a ← uint_field p (b "action");
      e ← SetVideoAlpha a;
      c ← the_client;
      mret (e ++ [Send (remote_user_id_ c) video_alpha_ack]).

Definition on_gps (d : json) : act state effects :=
  p ← field d (b "parameters");
  data ← string_field p (b "data");
  mret [WriteGps data].

(** The events the client handles itself; nothing for one that is for the controller. *)
Definition own_event (message : bytes) (d : json) (ev : bytes) : act state (option effects) :=
  c ← the_client;
  if str_eqb ev (b "framestats") then e ← on_framestats d; mret (Some e)
  else if win then mret None
  else if str_eqb ev (b "camerainfo") then mret (Some [UpdateCameraInfo message])
  else if enable_render_drc_ c && str_eqb ev (b "sizechange") then e ← on_sizechange d; mret (Some e)
  else if str_eqb ev (b "videoalpha") then e ← on_videoalpha d; mret (Some e)
  else if str_eqb ev (b "sensorcheck") then mret (Some [ConfigureSensors; SensorRequest true])
  else if str_eqb ev (b "sensordata") then mret (Some [SensorData message])
  else if str_eqb ev (b "gps") then e ← on_gps d; mret (Some e)
  else if str_eqb ev (b "cmdchannel") then mret (Some [CommandChannel message])
  else mret None.

(** [controller_->PushClientEvent(message)] *)
Definition push (message : bytes) : act state effects := fun s =>
  let '(o, c) := push_client_event message s.2 in
  (match o with Done l => Done (map Input l) | Throws => Throws | Undef => Undef end, (s.1, c)).

(** The end of [OnMessageReceived] for Windows; [now] is the time of day. *)
Definition note_client_event (now : Z * Z) (message : bytes) : act state effects :=
  e ← read_control message;
  match e with
  | None => mret []
  | Some (d, ev) =>
      p ← field d (b "parameters");
      if str_eqb ev (b "mousemove") && is_object p then
        if 4 <? size p then
          ok ← all_numbers p [b "eventTimeSec"; b "eventTimeUsec"];
          if negb (ok : bool) then mret []
          else sec ← int_field p (b "eventTimeSec"); usec ← int_field p (b "eventTimeUsec"); SetClientEvent sec usec
        else mret []
      else if str_eqb ev (b "keydown") && is_object p then SetClientEvent now.1 now.2
      else mret []
  end.

Definition OnMessageReceived (now : Z * Z) (peer message : bytes) : act state effects :=
  modify (on_client (fun c => set_sending (send_failures_ c) false c)) ≫= fun _ =>
  if str_eqb message (b "start") then on_start peer
  else
    e ← read_control message;
    own ← (match e with None => mret None | Some (d, ev) => own_event message d ev end);
    match own with
    | Some e => mret e
    | None =>
        i ← push message;
        t ← (if win then note_client_event now message else mret []);
        mret (i ++ t)
    end.

(** *** Cursor and quality *)

Definition may_send (c : client) : bool := streaming_ c && negb (send_blocked_ c).

Definition SendCursor (data : CURSOR_DATA) : act state effects :=
  c ← the_client;
  mret (if may_send c && win then [SendJson (remote_user_id_ c) (GetJsonForCursorInfo data)] else []).

Definition SendQoS (q : QosInfo) : act state effects :=
  c ← the_client;
  mret (if may_send c then [SendJson (remote_user_id_ c) (GetJsonForQoSInfo q)] else []).

(** The callbacks of both for success, and of [SendQoS] for failure ([uint64_t] counts). *)
Definition on_sent : act state effects := modify (on_client (set_sending 0 false)) ≫= fun _ => mret [].
Definition on_send_failed : act state effects :=
  modify (on_client (fun c => let f := wrapu 64 (send_failures_ c + 1) in
                              set_sending f ((OWT_MAX_SEND_FAILURES <=? f) || send_blocked_ c) c)) ≫= fun _ => mret [].

(** *** Frames *)

(** What goes with a frame; [now_ms] is the clock of the library. *)
Definition frame_metadata (now_ms : Z) (p : ga_packet) (sd : FrameMetaData) : EncodedImageMetaData :=
  {| is_keyframe := negb (Z.land (pkt_flags p) GA_PKT_FLAG_KEY =? 0); picture_id := u16 (pkt_pts p);
     last_fragment := last_slice sd; capture_timestamp := now_ms;
     encoding_start := wraps 64 (now_ms + encode_start_ms sd - capture_time_ms sd);
     encoding_end := wraps 64 (now_ms + encode_end_ms sd - capture_time_ms sd) |}.

(** The end of [InsertFrame]: the frame, when it has data, and the bandwidth for the encoder. *)
Definition send_frame (p : ga_packet) (m : EncodedImageMetaData) (bandwidth : Z) : act state effects :=
  bps ← SetMaxBps bandwidth;
  mret ((if bool_decide (pkt_data p = []) then [] else [SendOneFrame (pkt_data p) m]) ++ bps).

(** [InsertFrame]; the statistics are compiled out ([g_bEnableOwtStats]). *)
Definition InsertFrame (now_ms : Z) (packet : option ga_packet) : act state effects :=
  c ← the_client;
  match packet with
  | None => mret []
  | Some p =>
      if negb (capturer_started_ c) then mret []
      else
        match pkt_side_data p with
        | None => mret []
        | Some sd => send_frame p (frame_metadata now_ms p sd) (current_available_bandwidth_ c)
        end
  end.

(** *** Observers *)

Definition OnStarted : act state effects :=
  modify (on_client (fun c => set_streaming (streaming_ c) true c)) ≫= fun _ => RequestKeyFrame.
Definition OnStopped : act state effects :=
  modify (on_client (set_streaming false false)) ≫= fun _ => mret (if win then [] else [SensorRequest false]).
Definition OnKeyFrameRequest : act state effects := RequestKeyFrame.

Definition OnPeerConnectionClosed (peer : bytes) : act state effects :=
  n ← conf_read (ga_conf_readint (b "client-clones"));
  let hook := if win then [HookClientStatus false] else [] in
  if (1 <=? u32 n) && contains (b "-clone") peer then mret hook
  else p ← Pause; mret (hook ++ p ++ (if win then [AudioStatus false] else [])).

(** [GetCreditBytes]: the difference of two [int64_t]. *)
Definition GetCreditBytes : act state Z :=
  c ← the_client;
  let d := bytes_sent_on_last_stat_call_ c - bytes_sent_on_last_credit_call_ c in
  modify (on_client (set_credit (bytes_sent_on_last_stat_call_ c))) ≫= fun _ => mret d.

(** *** The module *)

Definition sizeof_credit : Z := 8.
Definition GA_IOCTL_ERR_INVALID_ARGUMENT : Z := -6.

(** [webrtc_server_ioctl] of [GA_IOCTL_GET_CREDIT_BYTES]: the result and what is stored. *)
Definition webrtc_server_ioctl (is_credit : bool) (argsize : Z) : act state (Z * option Z) :=
  if negb is_credit then mret (0, None)
  else if negb (argsize =? sizeof_credit) then mret (GA_IOCTL_ERR_INVALID_ARGUMENT, None)
  else n ← GetCreditBytes; mret (0, Some n).

(** *** Runs *)

Inductive input :=
  | IMessage (now : Z * Z) (peer text : bytes)
  | IPublished | ISent | ISendFailed
  | ICursor (c : CURSOR_DATA) | IQos (q : QosInfo)
  | IFrame (now_ms : Z) (p : option ga_packet)
  | IStarted | IStopped | IKeyFrame
  | IClosed (peer : bytes)
  | ICredit.

Definition step (i : input) : act state effects :=
  match i with
  | IMessage now peer text => OnMessageReceived now peer text
  | IPublished => on_published
  | ISent => on_sent
  | ISendFailed => on_send_failed
  | ICursor c => SendCursor c
  | IQos q => SendQoS q
  | IFrame now p => InsertFrame now p
  | IStarted => OnStarted
  | IStopped => OnStopped
  | IKeyFrame => OnKeyFrameRequest
  | IClosed peer => OnPeerConnectionClosed peer
  | ICredit => webrtc_server_ioctl true sizeof_credit ≫= fun _ => mret []
  end.

(** What happens to the client, one input after the other; an exception or undefined
    behaviour ends the run. *)
Inductive run : state -> list input -> list (effect E) -> state -> Prop :=
  | run_nil s : run s [] [] s
  | run_cons s i o s1 il os s2 : step i s = (Done o, s1) -> run s1 il os s2 -> run s (i :: il) (o ++ os) s2.

(** ** Properties *)

(** *** What a step changes *)

Ltac reads := repeat first
  [ apply reads_ret | apply reads_bind; [|intros ?] | apply reads_if | apply reads_gets | apply reads_outcome | apply reads_throw
  | apply reads_undef | apply reads_field | apply reads_int_field | apply reads_uint_field | apply reads_string_field | apply reads_control
  | assumption ].

Lemma reads_checked i : reads (ioctl_checked i).
Proof. apply reads_ret. Qed.
Lemma reads_unchecked i : reads (ioctl_unchecked i).
Proof. apply reads_if; [apply reads_ret|apply reads_undef]. Qed.
Lemma reads_all_numbers p keys : reads (all_numbers p keys).
Proof. induction keys as [|k keys IH]; cbn [all_numbers]; unfold number_field; reads. Qed.

Lemma reads_own message d ev : reads (own_event message d ev).
Proof.
  unfold own_event, on_framestats, on_sizechange, on_videoalpha, on_gps, number_field, the_client, SetFrameStats, ChangeRenderResolution, SetVideoAlpha.
  repeat first [apply reads_all_numbers|apply reads_unchecked|progress reads].
Qed.

Lemma reads_note now message : reads (note_client_event now message).
Proof.
  unfold note_client_event, SetClientEvent. apply reads_bind; [apply reads_control|]. intros [[d ev]|]; [|apply reads_ret].
  repeat first [apply reads_all_numbers|apply reads_unchecked|progress reads].
Qed.

Lemma reads_start_user peer : reads (is_clone peer).
Proof. unfold is_clone, conf_read. reads. Qed.

(** What an input does to the fields that say what may be sent. *)
Definition next_client (i : input) (c : client) : client :=
  match i with
  | IMessage _ _ _ => set_sending (send_failures_ c) false c
  | IPublished => set_streaming true (capturer_started_ c) c
  | ISent => set_sending 0 false c
  | ISendFailed => let f := wrapu 64 (send_failures_ c + 1) in set_sending f ((OWT_MAX_SEND_FAILURES <=? f) || send_blocked_ c) c
  | IStarted => set_streaming (streaming_ c) true c
  | IStopped => set_streaming false false c
  | ICredit => set_credit (bytes_sent_on_last_stat_call_ c) c
  | _ => c
  end.

(** Only the peer's name is left open: "start" may set it. *)
Definition same_but_peer (c c' : client) : Prop := c' = set_peer (remote_user_id_ c') c.

Lemma same_refl c : same_but_peer c c.
Proof. by destruct c. Qed.

Lemma step_client i s o s' : step i s = (Done o, s') -> same_but_peer (next_client i s.1) s'.1.
Proof.
  destruct s as [c k]. destruct i; cbn [step next_client].
  - intros (? & s1 & [= <- <-] & H)%act_bind_inv. cbn [on_client fst] in *. destruct (str_eqb text (b "start")).
    + apply act_bind_inv in H as (clone & s2 & ->%reads_start_user & (? & s3 & [= <- <-] & H)%act_bind_inv).
      assert (s' = (if clone then (fun s => s) else on_client (set_peer peer)) (on_client (fun c => set_sending (send_failures_ c) false c) (c, k))) as ->.
      { revert H. generalize ((if clone then (fun s : client * C => s) else on_client (set_peer peer)) (on_client (fun c => set_sending (send_failures_ c) false c) (c, k))).
        intros s0 H. refine ((_ : reads _) _ _ _ H). unfold the_client, conf_read. reads. }
      destruct clone; [apply same_refl|done].
    + apply act_bind_inv in H as (e & s2 & ->%reads_control & (own & s3 & E1 & H)%act_bind_inv).
      assert (s3 = on_client (fun c => set_sending (send_failures_ c) false c) (c, k)) as ->.
      { destruct e as [[d ev]|]; [by apply reads_own in E1|by injection E1]. }
      destruct own as [e0|]; [injection H as <- <-; apply same_refl|].
      apply act_bind_inv in H as (l & s4 & E2 & (t & s5 & E3 & [= <- <-])%act_bind_inv).
      assert (s5 = s4) as -> by (destruct win; [by apply reads_note in E3|by injection E3]).
      unfold push in E2. destruct (push_client_event text _) as [[] ?]; injection E2 as _ <-; try done; apply same_refl.
  - intros (? & s1 & [= <- <-] & (? & ? & ->%reads_checked & (? & ? & ->%reads_unchecked & [= <- <-])%act_bind_inv)%act_bind_inv)%act_bind_inv. apply same_refl.
  - intros [= <- <-]. apply same_refl.
  - intros [= <- <-]. apply same_refl.
  - intros [= <- <-]. apply same_refl.
  - intros [= <- <-]. apply same_refl.
  - intros H. assert (reads (InsertFrame now_ms p)) as R; [|apply R in H as ->; apply same_refl].
    unfold InsertFrame, the_client, SetMaxBps. apply reads_bind; [apply reads_gets|]. intros c0. destruct p as [p|]; [|reads].
    apply reads_if; [reads|]. destruct (pkt_side_data p); [|reads]. unfold send_frame. apply reads_bind; [apply reads_unchecked|intros; reads].
  - intros (? & s1 & [= <- <-] & ->%reads_checked)%act_bind_inv. apply same_refl.
  - intros [= <- <-]. apply same_refl.
  - intros ->%reads_checked. apply same_refl.
  - intros H. assert (reads (OnPeerConnectionClosed peer)) as R; [|apply R in H as ->; apply same_refl].
    unfold OnPeerConnectionClosed, conf_read, Pause. repeat first [apply reads_checked|progress reads].
  - intros [= <- <-]. apply same_refl.
Qed.

(** *** What a step sends *)

(** Neither cursor nor quality nor a frame. *)
Definition quiet (e : effect E) : Prop := match e with SendJson _ _ | SendOneFrame _ _ => False | _ => True end.

Lemma quiet_checked i : gives (Forall quiet) (ioctl_checked i).
Proof. apply gives_ret. destruct venc; repeat constructor. Qed.
Lemma quiet_unchecked i : gives (Forall quiet) (ioctl_unchecked i).
Proof. apply gives_if; [apply gives_ret; repeat constructor|by apply gives_undef]. Qed.

Ltac gives := repeat first
  [ apply quiet_checked | apply quiet_unchecked | apply gives_if | apply gives_ret; repeat constructor; done | apply gives_any; intros ? ].

Lemma quiet_own message d ev : gives (fun o => forall e, o = Some e -> Forall quiet e) (own_event message d ev).
Proof.
  assert (forall m : act (client * C) (list (effect E)), gives (Forall quiet) m -> gives (fun o => forall e, o = Some e -> Forall quiet e) (e ← m; mret (Some e))) as K.
  { intros m Hm. apply (gives_bind (Forall quiet)); [done|]. intros a Ha. apply gives_ret. by intros e [= <-]. }
  assert (forall l, Forall quiet l -> gives (fun o => forall e, o = Some e -> Forall quiet e) (mret (Some l) : act (client * C) _)) as R.
  { intros l Hl. apply gives_ret. by intros e [= <-]. }
  unfold own_event. apply gives_any. intros c. repeat apply gives_if; try (apply R; repeat constructor); try (apply gives_ret; done); apply K.
  - unfold on_framestats, SetFrameStats. gives.
  - unfold on_sizechange, ChangeRenderResolution. gives.
  - unfold on_videoalpha, SetVideoAlpha. do 2 (apply gives_any; intros ?; apply gives_if; [gives|]). apply gives_any. intros action.
    apply (gives_bind (Forall quiet)); [apply quiet_unchecked|]. intros e He. apply gives_any. intros c0.
    apply gives_ret. apply Forall_app. split; [done|repeat constructor].
  - unfold on_gps. gives.
Qed.

Lemma quiet_message now peer text : gives (Forall quiet) (OnMessageReceived now peer text).
Proof.
  unfold OnMessageReceived. apply gives_any. intros _. apply gives_if.
  - unfold on_start. do 4 (apply gives_any; intros ?). apply (gives_bind (Forall quiet)).
    + apply gives_if; [apply gives_any; intros ?|]; apply gives_ret; repeat constructor.
    + intros u Hu. apply gives_ret. constructor; [done|]. apply Forall_app. split; [destruct win; repeat constructor|].
      apply Forall_app. split; [destruct (has_audio_stream _); repeat constructor|done].
  - apply gives_any. intros e. apply (gives_bind (fun o => forall l, o = Some l -> Forall quiet l)).
    + destruct e as [[d ev]|]; [apply quiet_own|by apply gives_ret].
    + intros [l|] Hl; [apply gives_ret; by apply Hl|]. apply (gives_bind (Forall quiet)).
      * intros s a s' H. unfold push in H. destruct (push_client_event text s.2) as [[l| |] ?]; try done. injection H as <- _.
        apply Forall_fmap, Forall_forall. done.
      * intros l1 H1. apply (gives_bind (Forall quiet)); [|intros l2 H2; apply gives_ret; by apply Forall_app].
        apply gives_if; [|apply gives_ret; constructor]. unfold note_client_event, SetClientEvent. apply gives_any. intros [[d ev]|]; gives.
Qed.

(** Cursor and quality are sent only by their own calls, while the client streams and is
    not blocked; frames only by [InsertFrame], while the capturer runs. *)
Lemma step_sends i s o s' : step i s = (Done o, s') ->
  (may_send s.1 = false -> forall p j, ~ In (SendJson p j) o) /\ (capturer_started_ s.1 = false -> forall d m, ~ In (SendOneFrame d m) o).
Proof.
  intros H. assert (Forall quiet o -> (may_send s.1 = false -> forall p j, ~ In (SendJson p j) o) /\
    (capturer_started_ s.1 = false -> forall d m, ~ In (SendOneFrame d m) o)) as K.
  { rewrite List.Forall_forall. intros F. split; intros _ ? ? I; exact (F _ I). }
  destruct i; cbn [step] in H.
  - apply K. by apply quiet_message in H.
  - apply K. refine ((_ : gives (Forall quiet) _) _ _ _ H). apply gives_any. intros _. apply (gives_bind (Forall quiet)); [apply quiet_checked|].
    intros k Hk. apply (gives_bind (Forall quiet)); [apply quiet_unchecked|]. intros r Hr. apply gives_ret. by apply Forall_app.
  - apply K. by injection H as <- _.
  - apply K. by injection H as <- _.
  - injection H as <- _. split; intros M; [rewrite M; cbn; tauto|]. intros d m. destruct (_ && _); cbn; intuition discriminate.
  - injection H as <- _. split; intros M; [rewrite M; cbn; tauto|]. intros d m. destruct (may_send _); cbn; intuition discriminate.
  - apply act_bind_inv in H as (c & s1 & [= <- <-] & H). destruct p as [p|]; [|apply K; by injection H as <- _].
    destruct (capturer_started_ s.1) eqn:Cs; [|apply K; by injection H as <- _]. split; [|done]. intros _ q j I. cbn [negb] in H.
    destruct (pkt_side_data p); [|by injection H as <- _]. apply act_bind_inv in H as (bps & s2 & H1%quiet_unchecked & [= <- _]).
    apply in_app_iff in I as [I|I]; [case_bool_decide; cbn in I; intuition discriminate|]. rewrite List.Forall_forall in H1. exact (H1 _ I).
  - apply K. refine ((_ : gives (Forall quiet) _) _ _ _ H). apply gives_any. intros _. apply quiet_checked.
  - apply K. injection H as <- _. destruct win; repeat constructor.
  - apply K. by apply quiet_checked in H.
  - apply K. refine ((_ : gives (Forall quiet) _) _ _ _ H). apply gives_any. intros n. apply gives_if; [apply gives_ret; destruct win; repeat constructor|].
    apply (gives_bind (Forall quiet)); [apply quiet_checked|]. intros l Hl. apply gives_ret. apply Forall_app. split; [destruct win; repeat constructor|].
    apply Forall_app. split; [done|destruct win; repeat constructor].
  - apply K. by injection H as <- _.
Qed.

(** An answer that lets the client send again: a message of the peer, or a success. *)
Definition unblocks (i : input) : bool := match i with IMessage _ _ _ | ISent => true | _ => false end.
Definition is_failure (i : input) : bool := match i with ISendFailed => true | _ => false end.
Definition failures (il : list input) : Z := Z.of_nat (length (List.filter is_failure il)).

Lemma same_fields c c' : same_but_peer c c' ->
  streaming_ c' = streaming_ c /\ capturer_started_ c' = capturer_started_ c /\ send_failures_ c' = send_failures_ c /\
  send_blocked_ c' = send_blocked_ c /\ bytes_sent_on_last_stat_call_ c' = bytes_sent_on_last_stat_call_ c /\
  bytes_sent_on_last_credit_call_ c' = bytes_sent_on_last_credit_call_ c /\ current_available_bandwidth_ c' = current_available_bandwidth_ c.
Proof. unfold same_but_peer. intros ->. by destruct c. Qed.

Lemma blocked_run s il o s' : run s il o s' -> send_blocked_ s.1 = true -> forallb (fun i => negb (unblocks i)) il = true ->
  (forall p j, ~ In (SendJson p j) o) /\ send_blocked_ s'.1 = true.
Proof.
  induction 1 as [s|s i o s1 il os s2 Hs Hr IH]; intros B F; [split; [by intros ? ? []|done]|]. cbn in F. apply andb_prop in F as [Fi F].
  destruct (step_sends _ _ _ _ Hs) as [Q _]. apply step_client, same_fields in Hs as (_ & _ & _ & B1 & _).
  destruct IH as [Q2 B2]; [|done|].
  { rewrite B1. destruct i; cbn in *; try done. by rewrite B, orb_true_r. }
  split; [|done]. intros p j [I|I]%in_app_iff; [|by apply Q2 in I]. apply (Q (ltac:(unfold may_send; rewrite B; apply andb_false_r)) p j I).
Qed.

(** Failures add up over any inputs but a success, messages of the peer included, and the last one blocks when there are
    enough of them. *)
Lemma failing_run s il o s' : run s (il ++ [ISendFailed]) o s' -> 0 <= send_failures_ s.1 -> send_failures_ s.1 + failures il + 1 < 2 ^ 64 ->
  ~ In ISent il ->
  send_failures_ s'.1 = send_failures_ s.1 + failures il + 1 /\
  (OWT_MAX_SEND_FAILURES <= send_failures_ s'.1 -> send_blocked_ s'.1 = true).
Proof.
  revert s o. induction il as [|i il IH]; cbn [app]; intros s o R P L F; inversion R as [|? ? o1 s1 ? os ? Hs Hr]; subst; clear R;
    pose proof (same_fields _ _ (step_client _ _ _ _ Hs)) as (_ & _ & F1 & B1 & _); unfold failures in *; cbn [List.filter] in *.
  - inversion Hr; subst. cbn [next_client] in F1, B1. cbn [length] in *. rewrite (wrapu_small 64) in F1, B1 by lia.
    cbn [send_failures_ send_blocked_ set_sending] in F1, B1. split; [lia|]. intros M. rewrite B1, (proj2 (Z.leb_le _ _)) by lia. done.
  - assert (E1 : send_failures_ s1.1 = send_failures_ s.1 + if is_failure i then 1 else 0).
    { rewrite F1. destruct i; cbn; try lia; [exfalso; apply F; by left|]. rewrite wrapu_small; [done|]. cbn [is_failure length] in L. lia. }
    destruct (IH s1 os Hr) as [I1 I2]; [destruct (is_failure i); lia|destruct (is_failure i); cbn [length] in *; lia|intros I; apply F; by right|].
    split; [|done]. destruct (is_failure i); cbn [length] in *; lia.
Qed.

(** C11. A peer that does not answer is left alone.  Failures to send add up until a send succeeds: messages of the peer in between
    do not make the client forget them.  When a failure is the hundredth or a later one in this count (with the failures from
    before), from then on neither cursor nor quality is sent to the peer, whatever the rest of the program asks for, until the
    peer sends a message or a pending send succeeds.  So a single failure after such a message blocks again. *)
Theorem silent_peer_blocked s il1 o1 s1 il2 o2 s2 :
  run s (il1 ++ [ISendFailed]) o1 s1 -> run s1 il2 o2 s2 ->
  ~ In ISent il1 -> forallb (fun i => negb (unblocks i)) il2 = true ->
  0 <= send_failures_ s.1 -> OWT_MAX_SEND_FAILURES <= send_failures_ s.1 + failures il1 + 1 < 2 ^ 64 ->
  send_failures_ s1.1 = send_failures_ s.1 + failures il1 + 1 /\
  (forall p j, ~ In (SendJson p j) o2) /\ send_blocked_ s2.1 = true.
Proof.
  intros R1 R2 F1 F2 P L. destruct (failing_run _ _ _ _ R1) as [Ef Eb]; [done|lia|done|]. split; [done|].
  apply (blocked_run _ _ _ _ R2); [|done]. apply Eb; lia.
Qed.

(** Frames are sent only while the capturer runs: from the state after [Init], and from
    any state in which it is stopped, no frame leaves before [OnStarted]. *)
Theorem frames_while_capturing s il o s' : run s il o s' -> capturer_started_ s.1 = false -> ~ In IStarted il ->
  (forall d m, ~ In (SendOneFrame d m) o) /\ capturer_started_ s'.1 = false.
Proof.
  induction 1 as [s|s i o s1 il os s2 Hs Hr IH]; intros B N; [split; [by intros ? ? []|done]|].
  destruct (step_sends _ _ _ _ Hs) as [_ Q]. apply step_client, same_fields in Hs as (_ & B1 & _).
  destruct IH as [Q2 B2]; [|intros I; apply N; by right|].
  { rewrite B1. destruct i; cbn; try done. exfalso. apply N. by left. }
  split; [|done]. intros d m [I|I]%in_app_iff; [by apply Q in I|by apply Q2 in I].
Qed.

(** No bytes are ever credited.  The statistics that would count the bytes sent are
    compiled out, so whatever happens the module reports 0 credit bytes, and the
    encoder is told the same bandwidth of eight megabits with every frame. *)
Theorem no_credit cfg k il o s : run (client0 cfg, k) il o s ->
  (exists s', webrtc_server_ioctl true sizeof_credit s = (Done (0, Some 0), s')) /\ current_available_bandwidth_ s.1 = 8000000.
Proof.
  intros R. assert (forall s0, run s0 il o s -> bytes_sent_on_last_stat_call_ s0.1 = 0 -> bytes_sent_on_last_credit_call_ s0.1 = 0 ->
    current_available_bandwidth_ s0.1 = 8000000 -> bytes_sent_on_last_stat_call_ s.1 = 0 /\ bytes_sent_on_last_credit_call_ s.1 = 0 /\
    current_available_bandwidth_ s.1 = 8000000) as K.
  { clear R. induction 1 as [s|s i o s1 il os s2 Hs Hr IH]; intros A1 A2 A3; [done|].
    apply step_client, same_fields in Hs as (_ & _ & _ & _ & B1 & B2 & B3). apply IH; [rewrite B1|rewrite B2|rewrite B3]; destruct i; done. }
  destruct (K _ R) as (E1 & E2 & E3); [done..|]. split; [|done]. eexists. unfold webrtc_server_ioctl, GetCreditBytes, the_client, gets, modify, mbind, act_bind.
  change (sizeof_credit =? sizeof_credit) with true. cbn [negb mret act_ret]. rewrite E1, E2. reflexivity.
Qed.

(** C25. A frame reaches the browser as it was encoded: while the capturer runs, a packet with
    data and its times becomes one frame with the same bytes, the key flag, the last
    sixteen bits of its time stamp as its number, and times of encoding that lie as far from the
    capture as the encoder's did; then the encoder gets its bandwidth.  Without
    the times nothing is sent. *)
Theorem frame_inserted now p sd s : capturer_started_ s.1 = true -> venc = true -> pkt_data p <> [] ->
  (pkt_side_data p = None -> InsertFrame now (Some p) s = (Done [], s)) /\
  (pkt_side_data p = Some sd -> 0 <= now -> 0 <= capture_time_ms sd <= encode_start_ms sd -> encode_start_ms sd <= encode_end_ms sd ->
   now + encode_end_ms sd < 2 ^ 63 ->
   exists m, InsertFrame now (Some p) s = (Done [SendOneFrame (pkt_data p) m; Ioctl (SET_MAX_BPS (current_available_bandwidth_ s.1))], s) /\
     is_keyframe m = Z.odd (pkt_flags p) /\ picture_id m = pkt_pts p mod 65536 /\ last_fragment m = last_slice sd /\
     encoding_start m - capture_timestamp m = encode_start_ms sd - capture_time_ms sd /\
     encoding_end m - capture_timestamp m = encode_end_ms sd - capture_time_ms sd).
Proof.
  intros Cs V D. split.
  - intros Es. unfold InsertFrame, the_client, gets, mbind, act_bind. by rewrite Cs, Es.
  - intros Es H1 H2 H3 H4. unfold InsertFrame, send_frame, frame_metadata, the_client, gets, SetMaxBps, ioctl_unchecked, mbind, act_bind. rewrite Cs, Es, V. cbn [negb mret act_ret].
    rewrite bool_decide_eq_false_2 by done. eexists. split; [reflexivity|]. cbn.
    rewrite !(wraps_small 64) by (change (2 ^ (64 - 1)) with (2 ^ 63); lia). split; [|split; [done|split; [done|lia]]].
    unfold GA_PKT_FLAG_KEY. change 1 with (Z.ones 1) at 1. rewrite (Z.land_ones (pkt_flags p) 1) by lia. change (2 ^ 1) with 2. rewrite Zmod_odd. by destruct (Z.odd (pkt_flags p)).
Qed.

(** *** Messages *)

(** A message that is for the controller, on Windows. *)
Lemma message_for_controller now peer text ev params c k l k' : win = true ->
  control_event text ev params -> text <> b "start" -> ev <> b "framestats" ->
  push_client_event text k = (Done l, k') ->
  (ev = b "mousemove" -> is_object params = false \/ size params <= 4) ->
  OnMessageReceived now peer text (c, k) =
    match (if bool_decide (ev = b "keydown") && is_object params then SetClientEvent now.1 now.2 else mret [])
            (set_sending (send_failures_ c) false c, k') with
    | (Done t, s) => (Done (map Input l ++ t), s)
    | (Throws, s) => (Throws, s)
    | (Undef, s) => (Undef, s)
    end.
Proof.
  intros W Ev Ns Nf Hp Hm. assert (forall x y, x <> y -> str_eqb x y = false) as Ne.
  { intros x y N. destruct (str_eqb x y) eqn:Q; [|done]. by apply str_eqb_eq in Q. }
  unfold OnMessageReceived. unfold modify. unfold mbind at 1, act_bind at 1. cbn [on_client fst snd]. rewrite (Ne _ _ Ns).
  destruct (read_control_event text ev params (on_client (fun c0 => set_sending (send_failures_ c0) false c0) (c, k)) Ev) as (d & Er & _ & Ep).
  cbn [on_client fst snd] in Er. rewrite (act_bind_done _ _ _ _ _ Er).
  rewrite (act_bind_done (own_event text d ev) _ _ None (set_sending (send_failures_ c) false c, k)).
  2: { unfold own_event, the_client, gets, mbind, act_bind. by rewrite (Ne _ _ Nf), W. }
  rewrite (act_bind_done (push text) _ _ (map Input l) (set_sending (send_failures_ c) false c, k')).
  2: { unfold push. cbn [snd fst]. by rewrite Hp. }
  rewrite W. unfold note_client_event.
  destruct (read_control_event text ev params (set_sending (send_failures_ c) false c, k') Ev) as (d' & Er' & _ & Ep').
  unfold mbind at 1, act_bind at 1. rewrite (act_bind_done _ _ _ _ _ Er'). rewrite (act_bind_done _ _ _ _ _ (field_value _ _ _ _ Ep')).
  destruct (str_eqb ev (b "mousemove")) eqn:Em.
  - apply str_eqb_eq in Em. specialize (Hm Em). subst ev. rewrite bool_decide_eq_false_2 by done. cbn [andb].
    destruct (is_object params); [|done]. destruct Hm as [Hm|Hm]; [done|]. by rewrite (proj2 (Z.ltb_ge _ _)) by lia.
  - cbn [andb]. destruct (bool_decide_reflect (ev = b "keydown")) as [->|N].
    + rewrite str_eqb_refl. done.
    + by rewrite (Ne _ _ N).
Qed.

(** The message with a frame's statistics is for the encoder. *)
Lemma framestats_message now peer text params z c k : control_event text (b "framestats") params -> text <> b "start" ->
  is_object params = true -> 5 <= size params ->
  (forall key, In key [b "framets"; b "framesize"; b "framedelay"; b "framestartdelay"; b "packetloss"] ->
     exists v, subscript params key = Some v /\ is_number v = true /\ get_int32 v = Done (z key)) ->
  OnMessageReceived now peer text (c, k) =
    SetFrameStats (z (b "framets")) (z (b "framesize")) (z (b "framedelay")) (z (b "framestartdelay")) (z (b "packetloss"))
      (set_sending (send_failures_ c) false c, k).
Proof.
  intros Ev Ns O Sz F. assert (str_eqb text (b "start") = false) as Nq.
  { destruct (str_eqb text (b "start")) eqn:Q; [|done]. by apply str_eqb_eq in Q. }
  unfold OnMessageReceived. unfold modify. unfold mbind at 1, act_bind at 1. cbn [on_client fst snd]. rewrite Nq.
  destruct (read_control_event text _ params (on_client (fun c0 => set_sending (send_failures_ c0) false c0) (c, k)) Ev) as (d & Er & _ & Ep).
  cbn [on_client fst snd] in Er. rewrite (act_bind_done _ _ _ _ _ Er). set (s := (set_sending (send_failures_ c) false c, k)).
  set (stats := SetFrameStats _ _ _ _ _).
  assert (on_framestats d s = stats s) as K.
  { assert (forall keys, (forall key, In key keys -> In key [b "framets"; b "framesize"; b "framedelay"; b "framestartdelay"; b "packetloss"]) ->
      all_numbers params keys s = (Done true, s)) as A.
    { induction keys as [|key keys IH]; intros I; [done|]. cbn [all_numbers]. destruct (F key (I key (or_introl eq_refl))) as (v & Q1 & Q2 & _).
      unfold number_field, mbind at 1, act_bind at 1. rewrite (act_bind_done _ _ _ _ _ (field_value _ _ _ _ Q1)). cbn [mret act_ret]. rewrite Q2.
      apply IH. intros key' I'. apply I. by right. }
    unfold on_framestats. rewrite (act_bind_done _ _ _ _ _ (field_value _ _ _ s Ep)). rewrite O. cbn [negb]. rewrite (proj2 (Z.ltb_ge _ _)) by lia.
    rewrite (act_bind_done _ _ _ _ _ (A _ (fun _ I => I))). cbn [negb].
    assert (forall key, In key [b "framets"; b "framesize"; b "framedelay"; b "framestartdelay"; b "packetloss"] -> int_field params key s = (Done (z key), s)) as G.
    { intros key I. destruct (F key I) as (v & Q1 & _ & Q3). by rewrite (int_field_value _ _ _ _ Q1), Q3. }
    rewrite (act_bind_done _ _ _ _ _ (G (b "framets") ltac:(cbn; auto))), (act_bind_done _ _ _ _ _ (G (b "framesize") ltac:(cbn; auto))),
      (act_bind_done _ _ _ _ _ (G (b "framedelay") ltac:(cbn; auto))), (act_bind_done _ _ _ _ _ (G (b "framestartdelay") ltac:(cbn; auto))),
      (act_bind_done _ _ _ _ _ (G (b "packetloss") ltac:(cbn; auto 6))). done. }
  unfold mbind at 1, act_bind at 1, own_event.
  rewrite (act_bind_done the_client _ s s.1 s) by done. change (str_eqb (b "framestats") (b "framestats")) with true. cbv iota.
  unfold mbind, act_bind. rewrite K. unfold stats, SetFrameStats, ioctl_unchecked. by destruct venc.
Qed.

(** A client that reports its statistics when no encoder is registered crashes the
    server: the module's pointer is used unchecked. *)
Theorem stats_without_encoder now peer text params z c k : venc = false ->
  control_event text (b "framestats") params -> text <> b "start" -> is_object params = true -> 5 <= size params ->
  (forall key, In key [b "framets"; b "framesize"; b "framedelay"; b "framestartdelay"; b "packetloss"] ->
     exists v, subscript params key = Some v /\ is_number v = true /\ get_int32 v = Done (z key)) ->
  OnMessageReceived now peer text (c, k) = (Undef, (set_sending (send_failures_ c) false c, k)).
Proof.
  intros V Ev Ns O Sz F. rewrite (framestats_message now peer text params z c k Ev Ns O Sz F).
  unfold SetFrameStats, ioctl_unchecked. by rewrite V.
Qed.

(** A clone that leaves is reported as the client that leaves: when clones are allowed and
    the connection of one closes, the application's hook is told that the client
    disconnected, while the first client goes on streaming. *)
Theorem clone_reported_as_client peer s n : win = true ->
  fst <$> ga_conf_readint (b "client-clones") cf = Some n -> 1 <= n <= INT_MAX -> contains (b "-clone") peer = true ->
  OnPeerConnectionClosed peer s = (Done [HookClientStatus false], s).
Proof.
  intros W Hn R Hc. unfold OnPeerConnectionClosed, conf_read. rewrite Hn. unfold or_undef, mbind, act_bind.
  assert (u32 n = n) as -> by (apply wrapu_small; unfold INT_MAX in R; lia). rewrite (proj2 (Z.leb_le 1 n)), Hc, W by lia. done.
Qed.

End Client.

(** *** Configuration *)

Lemma clone_ids_spec client n ids : 0 <= n -> clone_ids client n = Some ids ->
  length ids = Z.to_nat n /\ forall i, 1 <= i <= n -> (client ++ b "-clone" ++ print_int i) ∈ ids.
Proof.
  unfold clone_ids. intros Hn. destruct (n =? 2 ^ 32 - 1); [done|]. intros [= <-]. split; [by rewrite length_map, length_seqZ|].
  intros i Hi. apply list_elem_of_fmap. exists i. split; [done|]. apply elem_of_seqZ. lia.
Qed.

(** Who may connect: the client's name, which is "client" when none is configured, and one
    name per clone, numbered from 1.  A negative number of clones is read as a huge one, and
    for -1 the loop that adds them never ends. *)
Theorem allowed_peers cf cfg cf' client n :
  fst <$> ga_conf_readstr (b "client-peer-id") cf = Some client -> fst <$> ga_conf_readint (b "client-clones") cf = Some n ->
  (Init cf = Some (cfg, cf') -> 0 <= n <= INT_MAX ->
   let name := if bool_decide (client = []) then b "client" else client in
   length (allowed_ids cfg) = S (Z.to_nat n) /\ name ∈ allowed_ids cfg /\
   forall i, 1 <= i <= n -> (name ++ b "-clone" ++ print_int i) ∈ allowed_ids cfg) /\
  (n = -1 -> Init cf = None).
Proof.
  intros Hc Hn.
  assert (forall key c0 v c1, ga_conf_readstr key c0 = Some (v, c1) -> c1 = c0) as RS.
  { intros key c0 v c1. unfold ga_conf_readstr, cbind, cget. destruct (sm_find key (ga_vars c0)); by intros [= _ <-]. }
  assert (forall key c0 v c1, ga_conf_readint key c0 = Some (v, c1) -> c1 = c0) as RI.
  { intros key c0 v c1 (str & c2 & ->%RS & H)%cbind_inv. unfold cret in H. repeat case_match; by injection H. }
  assert (forall ip c0 v c1, ice_servers_of ip c0 = Some (v, c1) -> c1 = c0) as RC.
  { intros ip c0 v c1. unfold ice_servers_of. case_bool_decide; [by intros [= _ <-]|].
    intros (? & ? & ->%RS & (? & ? & ->%RS & (? & ? & ->%RS & [= _ <-])%cbind_inv)%cbind_inv)%cbind_inv. done. }
  assert (forall r, Init cf = Some r -> exists c0 n0 ids rest, ga_conf_readstr (b "client-peer-id") cf = Some (c0, cf) /\
    ga_conf_readint (b "client-clones") cf = Some (n0, cf) /\
    clone_ids (if bool_decide (c0 = []) then b "client" else c0) (u32 n0) = Some ids /\
    allowed_ids r.1 = (if bool_decide (c0 = []) then b "client" else c0) :: ids /\ rest = r.2) as K.
  { intros [cfg0 cf0] H. unfold Init in H.
    apply cbind_inv in H as (sv & c1 & A1%RS & H). subst c1. apply cbind_inv in H as (cl & c1 & A2 & H). pose proof (RS _ _ _ _ A2); subst c1.
    apply cbind_inv in H as (p1 & c1 & A3%RI & H). subst c1. apply cbind_inv in H as (p2 & c1 & A4%RI & H). subst c1.
    apply cbind_inv in H as (co & c1 & A5%RS & H). subst c1. apply cbind_inv in H as (ip & c1 & A6%RS & H). subst c1.
    apply cbind_inv in H as (ice & c1 & A7%RC & H). subst c1. apply cbind_inv in H as (n0 & c1 & A8 & H). pose proof (RI _ _ _ _ A8); subst c1.
    apply cbind_inv in H as (ids & c1 & A9 & H). unfold clift in A9. destruct (clone_ids _ (u32 n0)) as [ids0|] eqn:Ei; [|done]. injection A9 as <- <-.
    apply cbind_inv in H as (url & c1 & _ & H). apply cbind_inv in H as (au & c2 & _ & H). apply cbind_inv in H as (drc & c3 & _ & H).
    injection H as <- <-. exists cl, n0, ids0, c3. split; [exact A2|]. split; [exact A8|]. split; [exact Ei|]. by split. }
  split.
  - intros Hi R. destruct (K _ Hi) as (c0 & n0 & ids & ? & A1 & A2 & A3 & A4 & _). rewrite A1 in Hc. rewrite A2 in Hn. injection Hc as ->. injection Hn as ->.
    cbn [fst] in A4. assert (u32 n = n) as En by (apply wrapu_small; unfold INT_MAX in R; lia). rewrite En in A3.
    destruct (clone_ids_spec _ _ _ (proj1 R) A3) as [L M]. cbv zeta. rewrite A4. split; [cbn; by rewrite L|]. split; [left|]. intros i Hi'. right. by apply M.
  - intros ->. destruct (Init cf) as [r|] eqn:Hi; [|done]. destruct (K r eq_refl) as (c0 & n0 & ids & ? & _ & A2 & A3 & _).
    rewrite A2 in Hn. injection Hn as ->. by vm_compute in A3.
Qed.

(** *** The cursor *)

(** What the browser is told of the cursor.  Of a hidden cursor it learns only that it is
    hidden; of a visible one its rectangles and sizes, and, exactly when the shape changed, the whole
    array of the shape, of 16384 bytes whatever the shape's own size. *)
Theorem cursor_message info buf n d : 0 <= n -> queue_cursor info buf n = Some d ->
  let j := GetJsonForCursorInfo d in
  assoc (b "type") j = VString (b "cursor") /\ assoc (b "visible") j = VBool (isVisible info) /\
  (isVisible info = false -> length j = 2%nat) /\
  (isVisible info = true -> assoc (b "width") j = VInt (cu_width info) /\ assoc (b "height") j = VInt (cu_height info) /\
     assoc (b "pitch") j = VInt (cu_pitch info) /\
     assoc (b "srcRect") j = rect_json (srcRect info) /\ assoc (b "dstRect") j = rect_json (dstRect info) /\
     assoc (b "noShapeChange") j = VBool (bool_decide (buf = None)) /\
     match buf with
     | None => assoc (b "cursorData") j = VNull
     | Some bytes => exists l, assoc (b "cursorData") j = VArray l /\ Z.of_nat (length l) = MAX_CURSOR_SIZE /\ take (Z.to_nat n) l = take (Z.to_nat n) bytes /\
                     drop (Z.to_nat n) l = replicate (Z.to_nat (MAX_CURSOR_SIZE - n)) 0
     end).
Proof.
  intros Hn0. unfold queue_cursor. destruct buf as [bytes|].
  - destruct (Z.ltb_spec MAX_CURSOR_SIZE n) as [|Hn]; [done|]. destruct (Z.ltb_spec (Z.of_nat (length bytes)) n) as [|Hl]; [done|]. cbn [orb]. intros [= <-].
    unfold GetJsonForCursorInfo. cbn [cursorInfo cursorDataUpdate cursorData]. destruct (isVisible info); cbn [negb]; cbv zeta; rewrite !assoc_set_field.
    + split; [done|]. split; [done|]. split; [done|]. intros _. do 5 (split; [done|]). split; [by rewrite bool_decide_eq_false_2|].
      eexists. split; [reflexivity|]. split; [rewrite length_app, length_take, length_replicate; lia|].
      split; [rewrite take_app_le by (rewrite length_take; lia); rewrite take_take; f_equal; lia|].
      by rewrite drop_app_length' by (rewrite length_take; lia).
    + split; [done|]. split; [done|]. by split.
  - generalize (replicate (Z.to_nat MAX_CURSOR_SIZE) 0). intros zeros [= <-]. unfold GetJsonForCursorInfo. cbn [cursorInfo cursorDataUpdate cursorData]. destruct (isVisible info); cbn [negb]; cbv zeta; rewrite !assoc_set_field.
    + split; [done|]. split; [done|]. split; [done|]. intros _. do 5 (split; [done|]). by split.
    + split; [done|]. split; [done|]. by split.
Qed.
