(* ===== verification/BrowserInput.v ===== *)
(** * BrowserInput: from the browser's event to the system's input

    Composes the peer of the browser ([WebrtcClient]) with its two controllers: [SdlController]
    for Windows, which ends in the system's input queue ([CtrlSdl]), and [AndroidController].
    Both implement [Controller::PushClientEvent]
    ([src/sources/streamer/module/server-webrtc/ga-controller.h]). *)

From Stdlib Require Import ZArith Lia String.
From stdpp Require Import base gmap sets list.
From S2P Require Import Prelude Bytes StdMap GaConf CNum SdlKeys CtrlSdl Json SdlController AndroidController WebrtcClient.

Section Controllers.
Context {J : Json} (SDLK : sdl_key -> Z) (VK : vk_code -> Z) (MapVirtualKey : Z -> Z) (SCAN : sdl_scancode -> Z).

(** The controller of Windows: [wb] is what [ga_window_bounds] answers, [msg] the memory of
    the message on the stack. *)
Definition sdl_controller (wb : option bounds) (msg : list Z) : Controller SdlController.state CtrlSdl.event :=
  fun text => SdlController.PushClientEvent SDLK VK MapVirtualKey SCAN wb msg text.

(** The controller of Android. *)
Definition android_controller (old : bool) : Controller AndroidController.controller AndroidController.message :=
  fun text => AndroidController.PushClientEvent old text.

End Controllers.

Section EndToEnd.
Context {J : Json} (SDLK : sdl_key -> Z) (MapVirtualKey : Z -> Z) (SCAN : sdl_scancode -> Z).
Context `{!SdlCodes SDLK} (SDLK_range : forall k, INT_MIN <= SDLK k <= INT_MAX).

(** What the system gets for a browser's key. *)
Definition key_inputs (down : bool) (which : Z) (r : replayer) : list CtrlSdl.event :=
  match find_key (i32 which) with
  | None => []
  | Some (k, sc) =>
      if bool_decide (u16 (SCAN sc) ∈ kbScancode r) || bool_decide (code_of SDLK k ∈ kbSdlkey r) then []
      else session_events r ++
           [send r (KeyInput (pressed_key (i32 which)) (u16 (MapVirtualKey (pressed_key (i32 which)))) (if down then 0 else KEYEVENTF_KEYUP))]
  end.

(** A key pressed in the browser is pressed on the server.  When the peer delivers the
    control message of a key, the server presses or releases, exactly once, the virtual key with
    the browser's code (its left or main variant where the browser does not tell them apart), nothing for
    a blocked or unknown key; for a key that goes down it then tells the encoder
    the time of the event, and in any case the peer may be sent messages again. *)
Theorem browser_key_reaches_system cf wb msg now peer text down params w which c ctl r :
  control_event text (if down : bool then b "keydown" else b "keyup") params -> text <> b "start" ->
  is_object params = true -> subscript params (b "which") = Some w -> get_uint32 w = Done which ->
  (sizeof_keyboard <= length msg)%nat -> keys_ok SDLK win32_code (r_keys r) ->
  exists r', keys_ok SDLK win32_code (r_keys r') /\
    @OnMessageReceived J SdlController.state CtrlSdl.event (sdl_controller SDLK win32_code MapVirtualKey SCAN wb msg) true cf true
      now peer text (c, (ctl, r)) =
    (Done (map Input (key_inputs down which r) ++ (if down then [Ioctl (UPDATE_CLIENT_EVENT now.1 now.2)] else [])),
     (set_sending (send_failures_ c) false c, (ctl, r'))).
Proof.
  intros Ev Ns O Ew Eu Hl Hk.
  destruct (browser_keys_pressed SDLK MapVirtualKey SCAN SDLK_range wb msg text down params w which ctl r Ev Ew Eu Hl Hk) as (r' & Hk' & Hp).
  exists r'. split; [exact Hk'|].
  pose proof (@message_for_controller J _ _ (sdl_controller SDLK win32_code MapVirtualKey SCAN wb msg) true cf true now peer text _ params c (ctl, r)
    (key_inputs down which r) (ctl, r') eq_refl Ev Ns) as M.
  eapply eq_trans; [apply M; [by destruct down|exact Hp|by destruct down]|]. rewrite O. destruct down; reflexivity.
Qed.

(** A message that ends in an exception: on Windows nothing between the network and the
    controller catches it, so text that is not JSON, or JSON that is no object, from the peer stops
    the server; that sending is allowed again stays. *)
Theorem bad_text_throws `{!JsonLaws J} cf venc wb msg now peer text c ctl r : text <> b "start" ->
  (forall j, parse text = Some j -> is_object j = false /\ is_null j = false) ->
  @OnMessageReceived J SdlController.state CtrlSdl.event (sdl_controller SDLK win32_code MapVirtualKey SCAN wb msg) true cf venc
    now peer text (c, (ctl, r)) = (Throws, (set_sending (send_failures_ c) false c, (ctl, r))).
Proof.
  intros Ns Hj. unfold OnMessageReceived. rewrite (act_bind_done (modify _) _ _ tt (set_sending (send_failures_ c) false c, (ctl, r))) by done.
  destruct (str_eqb text (b "start")) eqn:Q; [by apply str_eqb_eq in Q|]. apply act_bind_throws. by apply read_control_throws.
Qed.

End EndToEnd.

(** ** Examples *)

Definition plain_config : P2PConfiguration :=
  {| p2p_server := []; server_peer := []; allowed_ids := []; video_codec := kH264; ice_servers := []; ice_ports := None;
     audio_stream := false; render_drc := false |}.

Definition web (texts : list (bytes * value)) : Controller SdlController.state CtrlSdl.event :=
  @sdl_controller (values texts) sdl2_code win32_code (fun v => v) (fun _ => 4) None (replicate 64 7).

Lemma browser_key_reaches_system_witness : exists r',
  @OnMessageReceived (values SdlController.sample_texts) _ _ (web SdlController.sample_texts) true conf0 true (5, 6) (b "client") (b "keydown")
    (client0 plain_config, (SdlController.sample_controller, sample_replayer)) =
  (Done [Input (ESend (KeyInput 65 65 0)); Ioctl (UPDATE_CLIENT_EVENT 5 6)],
   (set_sending 0 false (client0 plain_config), (SdlController.sample_controller, r'))).
Proof.
  destruct (@browser_key_reaches_system (values SdlController.sample_texts) sdl2_code (fun v => v) (fun _ => 4) _ sdl2_range conf0 None (replicate 64 7)
    (5, 6) (b "client") (b "keydown") true (VObject [(b "which", VInt 65)]) (VInt 65) 65 (client0 plain_config)
    SdlController.sample_controller sample_replayer) as (r' & _ & H);
    [apply SdlController.sample_event; reflexivity|discriminate|reflexivity|reflexivity|reflexivity|vm_compute; lia|by left|].
  exists r'. unfold web. rewrite H. unfold key_inputs. change (find_key (i32 65)) with (Some (Char 97, SDL_SCANCODE_A)). cbv iota beta.
  rewrite bool_decide_eq_false_2 by apply not_elem_of_empty. rewrite bool_decide_eq_false_2; [reflexivity|].
  intros I. change (97 ∈ ({[27]} : gset Z)) in I. apply elem_of_singleton in I. discriminate I.
Defined.

Lemma bad_text_throws_witness :
  @OnMessageReceived (values SdlController.sample_texts) _ _ (web SdlController.sample_texts) true conf0 true (5, 6) (b "client") (b "hello")
    (client0 plain_config, (SdlController.sample_controller, sample_replayer)) =
  (Throws, (set_sending 0 false (client0 plain_config), (SdlController.sample_controller, sample_replayer))).
Proof.
  apply (@bad_text_throws (values SdlController.sample_texts) sdl2_code (fun v => v) (fun _ => 4) _); [discriminate|].
  intros j H. discriminate H.
Defined.

Definition quality : QosInfo :=
  {| frameno := 1; framesize := 2; bitrate := 3; captureFps := 4; eventime_sec := 5; eventime_usec := 6; capturetime := of_Z 0; encodetime := of_Z 0;
     estimated_bw := 7 |}.

Definition fresh_state : client * SdlController.state := (client0 plain_config, (SdlController.sample_controller, sample_replayer)).

(** A peer that was sent a hundred messages in vain. *)
Lemma silent_peer_blocked_witness : exists o2 s2,
  @run (values []) _ _ (web []) true conf0 true (set_sending 100 true (client0 plain_config), fresh_state.2) [IPublished; IQos quality] o2 s2 /\
  (forall p j, ~ In (SendJson p j) o2) /\ send_blocked_ s2.1 = true.
Proof.
  assert (exists o2 s2, @run (values []) _ _ (web []) true conf0 true (set_sending 100 true (client0 plain_config), fresh_state.2) [IPublished; IQos quality] o2 s2)
    as (o2 & s2 & R) by (do 2 eexists; do 2 (eapply run_cons; [reflexivity|]); constructor).
  exists o2, s2. split; [exact R|].
  apply (@silent_peer_blocked (values []) _ _ (web []) true conf0 true fresh_state (replicate 99 ISendFailed) (concat (replicate 100 []))
    _ _ _ _) with (2 := R); [| |reflexivity|vm_compute; discriminate|split; [vm_compute; discriminate|reflexivity]].
  - do 100 (eapply run_cons; [reflexivity|]). constructor.
  - intros I. apply list_elem_of_In, elem_of_replicate in I as [I _]. discriminate I.
Defined.

Lemma frames_while_capturing_witness : exists o s,
  @run (values []) _ _ (web []) true conf0 true fresh_state
    [IFrame 0 (Some {| pkt_data := [1]; pkt_pts := 0; pkt_flags := 1; pkt_side_data := None |})] o s /\
  (forall d m, ~ In (SendOneFrame d m) o) /\ capturer_started_ s.1 = false.
Proof.
  assert (@run (values []) _ _ (web []) true conf0 true fresh_state
    [IFrame 0 (Some {| pkt_data := [1]; pkt_pts := 0; pkt_flags := 1; pkt_side_data := None |})] ([] ++ []) fresh_state) as R
    by (eapply run_cons; [reflexivity|constructor]).
  do 2 eexists. split; [exact R|]. apply (@frames_while_capturing (values []) _ _ (web []) true conf0 true _ _ _ _ R); [reflexivity|].
  intros [H|[]]. discriminate H.
Defined.

Lemma no_credit_witness : exists s', @webrtc_server_ioctl SdlController.state true sizeof_credit
  (client0 plain_config, (SdlController.sample_controller, sample_replayer)) = (Done (0, Some 0), s').
Proof.
  destruct (@no_credit (values []) _ _ (web []) true conf0 true plain_config (SdlController.sample_controller, sample_replayer) [] []
    (client0 plain_config, (SdlController.sample_controller, sample_replayer)) (run_nil _ _ _ _)) as [H _]. exact H.
Defined.

Lemma frame_inserted_witness : exists m,
  @InsertFrame SdlController.state CtrlSdl.event true 1000
    (Some {| pkt_data := [1; 2; 3]; pkt_pts := 65537; pkt_flags := 1;
             pkt_side_data := Some {| last_slice := true; capture_time_ms := 10; encode_start_ms := 12; encode_end_ms := 17 |} |})
    (set_streaming true true (client0 plain_config), (SdlController.sample_controller, sample_replayer)) =
  (Done [SendOneFrame [1; 2; 3] m; Ioctl (SET_MAX_BPS 8000000)],
   (set_streaming true true (client0 plain_config), (SdlController.sample_controller, sample_replayer))) /\ picture_id m = 1.
Proof.
  destruct (@frame_inserted SdlController.state CtrlSdl.event true 1000
    {| pkt_data := [1; 2; 3]; pkt_pts := 65537; pkt_flags := 1;
       pkt_side_data := Some {| last_slice := true; capture_time_ms := 10; encode_start_ms := 12; encode_end_ms := 17 |} |}
    {| last_slice := true; capture_time_ms := 10; encode_start_ms := 12; encode_end_ms := 17 |}
    (set_streaming true true (client0 plain_config), (SdlController.sample_controller, sample_replayer)) eq_refl eq_refl) as [_ K]; [discriminate|].
  destruct (K eq_refl) as (m & H & _ & P & _); [lia|cbn; lia|cbn; lia|reflexivity|]. exists m. split; [exact H|exact P].
Defined.

Lemma cursor_message_witness : exists d, queue_cursor
  {| isVisible := true; srcRect := {| rc_left := 0; rc_top := 0; rc_right := 32; rc_bottom := 32 |};
     dstRect := {| rc_left := 0; rc_top := 0; rc_right := 32; rc_bottom := 32 |}; cu_width := 32; cu_height := 32; cu_pitch := 128 |} None 0 = Some d /\
  assoc (b "type") (GetJsonForCursorInfo d) = VString (b "cursor").
Proof.
  eexists. split; [reflexivity|].
  exact (proj1 (cursor_message {| isVisible := true; srcRect := {| rc_left := 0; rc_top := 0; rc_right := 32; rc_bottom := 32 |};
     dstRect := {| rc_left := 0; rc_top := 0; rc_right := 32; rc_bottom := 32 |}; cu_width := 32; cu_height := 32; cu_pitch := 128 |} None 0 _
     ltac:(lia) eq_refl)).
Defined.
