(* ===== verification/Latency.v ===== *)
(** * Latency: how fast the picture follows the client's input

    Models the end-to-end latency telemetry of [ICSP2PClient] (builds with
    [E2ELATENCY_TELEMETRY_ENABLED]; [src/sources/streamer/module/server-webrtc/ics-p2p-client.cpp],
    [ics-p2p-client.h]): the client stamps a message with its time, and the server answers with the
    first frame that may show the input.  Times are milliseconds in [uint64_t], frame numbers and
    delays [uint32_t]. *)

From Stdlib Require Import ZArith Lia String.
From stdpp Require Import base list.
From S2P Require Import Prelude Bytes StdMap Json.

Definition u64 : Z -> Z := wrapu 64.

Record latency := {
  frame_number_ : Z; frame_delay_ : Z;
  send_time_ms : Z; received_time_ms : Z; received_frame_number : Z     (** [client_latency_] *)
}.

Definition HasClientStats (l : latency) : bool := negb (send_time_ms l =? 0).

(** [UpdateFrameNumber]; the guard compares a [uint32_t] with its greatest value. *)
Definition UpdateFrameNumber (l : latency) : latency :=
  {| frame_number_ := if 2 ^ 32 - 1 <? frame_number_ l then 0 else u32 (frame_number_ l + 1); frame_delay_ := frame_delay_ l;
     send_time_ms := send_time_ms l; received_time_ms := received_time_ms l; received_frame_number := received_frame_number l |}.

(** [HandleLatencyMessage]; [now] is the system's clock. *)
Definition HandleLatencyMessage (now latency_send_time_ms : Z) (l : latency) : latency :=
  if HasClientStats l then l
  else
    {| frame_number_ := frame_number_ l; frame_delay_ := frame_delay_ l; send_time_ms := latency_send_time_ms; received_time_ms := now;
       received_frame_number := frame_number_ l |}.

(** The time from the client's input to the end of rendering, as [int64_t]. *)
Definition render_client_input_time (now encode_time : Z) (l : latency) : Z :=
  wraps 64 (u64 (u64 (now - encode_time) - received_time_ms l)).

(** The telemetry of [InsertFrame]: the message that goes with the frame, before [dump]. *)
Definition frame_latency (now encode_time : Z) (l : latency) : list (bytes * value) * latency :=
  let l := UpdateFrameNumber l in
  let r := render_client_input_time now encode_time l in
  let delay := if r <=? 0 then u32 (frame_delay_ l + 1) else frame_delay_ l in
  let render := if r <=? 0 then 0 else r in
  let stats := HasClientStats l && (frame_number_ l =? u32 (received_frame_number l + delay)) in
  let msg := if stats then [(b "clientSendLatencyTime", VInt (send_time_ms l)); (b "serverReceivedLatencyTime", VInt (received_time_ms l));
                            (b "serverRenderClientInputTime", VInt render)] else [] in
  (msg ++ [(b "serverEncodeFrameTime", VInt encode_time)],
   {| frame_number_ := frame_number_ l; frame_delay_ := if stats then 1 else delay; send_time_ms := if stats then 0 else send_time_ms l;
      received_time_ms := if stats then 0 else received_time_ms l; received_frame_number := if stats then 0 else received_frame_number l |}).

(** ** What the client gets *)

(** Frames: the time each is sent and how long its encoding took. *)
Fixpoint frames_latency (fs : list (Z * Z)) (l : latency) : list (list (bytes * value)) * latency :=
  match fs with
  | [] => ([], l)
  | f :: fs => let '(m, l) := frame_latency f.1 f.2 l in let '(ms, l) := frames_latency fs l in (m :: ms, l)
  end.

(** Nothing waits to be answered. *)
Definition idle (l : latency) : Prop := 0 <= frame_number_ l < 2 ^ 32 /\ frame_delay_ l = 1 /\ send_time_ms l = 0.

(** The client's message [t0], received at [at_ms], waits; [k] frames were sent since that it
    could not be part of. *)
Definition waits (t0 at_ms k : Z) (l : latency) : Prop :=
  0 <= received_frame_number l < 2 ^ 32 /\ frame_number_ l = u32 (received_frame_number l + k) /\ frame_delay_ l = 1 + k /\ 0 <= k /\
  send_time_ms l = t0 /\ received_time_ms l = at_ms.

Lemma u32_succ a c : u32 (u32 (a + c) + 1) = u32 (a + (1 + c)).
Proof. unfold u32, wrapu. rewrite Zplus_mod_idemp_l. f_equal. lia. Qed.

Lemma update_number l : 0 <= frame_number_ l < 2 ^ 32 -> frame_number_ (UpdateFrameNumber l) = u32 (frame_number_ l + 1).
Proof. intros H. cbn. by rewrite (proj2 (Z.ltb_ge _ _)) by lia. Qed.

(** The time left of a frame whose clock did not run backwards. *)
Lemma render_time now e l : 0 <= received_time_ms l < 2 ^ 62 -> 0 <= e <= now -> now < 2 ^ 62 ->
  render_client_input_time now e l = now - e - received_time_ms l.
Proof.
  intros H1 H2 H3. unfold render_client_input_time, u64. rewrite (wrapu_small 64 (now - e)) by lia.
  unfold wraps, wrapu. rewrite Z.mod_mod by lia. destruct (Z.le_gt_cases 0 (now - e - received_time_ms l)).
  - rewrite Z.mod_small by lia. by rewrite (proj2 (Z.ltb_lt _ _)) by lia.
  - rewrite <- (Z.mod_add _ 1), Z.mod_small by lia. rewrite (proj2 (Z.ltb_ge _ _)) by lia. lia.
Qed.

(** A frame that was being encoded when the message came. *)
Lemma early_frame now e t0 at_ms k l : waits t0 at_ms k l -> 0 < t0 -> 0 <= at_ms < 2 ^ 62 -> 0 <= e <= now -> now < 2 ^ 62 -> k < 2 ^ 32 - 2 ->
  now - e <= at_ms ->
  exists l', frame_latency now e l = ([(b "serverEncodeFrameTime", VInt e)], l') /\ waits t0 at_ms (k + 1) l'.
Proof.
  intros (W1 & W2 & W3 & W4 & W5 & W6) Ht Ha He Hn Hk Hr. unfold frame_latency.
  set (u := UpdateFrameNumber l). assert (frame_number_ u = u32 (received_frame_number l + (1 + k))) as Eu.
  { unfold u. rewrite update_number by (rewrite W2; by apply (wrapu_range 32)). by rewrite W2, u32_succ. }
  assert (render_client_input_time now e u <= 0) as Hneg by (rewrite render_time; unfold u; cbn; lia).
  rewrite (proj2 (Z.leb_le _ _) Hneg). unfold HasClientStats. change (send_time_ms u) with (send_time_ms l).
  change (received_frame_number u) with (received_frame_number l). change (frame_delay_ u) with (frame_delay_ l). rewrite Eu, W3.
  assert (u32 (1 + k + 1) = 2 + k) as Ed by (rewrite (wrapu_small 32) by lia; lia). rewrite Ed.
  assert ((u32 (received_frame_number l + (1 + k)) =? u32 (received_frame_number l + (2 + k))) = false) as ->.
  { apply Z.eqb_neq. unfold u32, wrapu. intros Q. pose proof (Z.div_mod (received_frame_number l + (1 + k)) (2 ^ 32) ltac:(lia)).
    pose proof (Z.div_mod (received_frame_number l + (2 + k)) (2 ^ 32) ltac:(lia)). nia. }
  rewrite andb_false_r. cbn [app]. eexists. split; [reflexivity|]. unfold waits. cbn.
  split; [done|]. split; [by rewrite <- Eu, Eu, (Z.add_comm k 1)|]. lia.
Qed.

(** The first frame after it. *)
Lemma answering_frame now e t0 at_ms k l : waits t0 at_ms k l -> 0 < t0 -> 0 <= at_ms < 2 ^ 62 -> 0 <= e <= now -> now < 2 ^ 62 -> k < 2 ^ 32 - 2 ->
  at_ms < now - e ->
  exists l', frame_latency now e l =
    ([(b "clientSendLatencyTime", VInt t0); (b "serverReceivedLatencyTime", VInt at_ms); (b "serverRenderClientInputTime", VInt (now - e - at_ms));
      (b "serverEncodeFrameTime", VInt e)], l') /\ idle l'.
Proof.
  intros (W1 & W2 & W3 & W4 & W5 & W6) Ht Ha He Hn Hk Hr. unfold frame_latency.
  set (u := UpdateFrameNumber l). assert (frame_number_ u = u32 (received_frame_number l + (1 + k))) as Eu.
  { unfold u. rewrite update_number by (rewrite W2; by apply (wrapu_range 32)). by rewrite W2, u32_succ. }
  assert (render_client_input_time now e u = now - e - at_ms) as Er by (rewrite render_time; unfold u; cbn; lia).
  rewrite Er, (proj2 (Z.leb_gt _ _)) by lia. unfold HasClientStats. change (send_time_ms u) with (send_time_ms l).
  change (received_time_ms u) with (received_time_ms l).
  change (received_frame_number u) with (received_frame_number l). change (frame_delay_ u) with (frame_delay_ l).
  rewrite Eu, W3, W5, W6, Z.eqb_refl, (proj2 (Z.eqb_neq t0 0)) by lia. cbn [negb andb app]. eexists. split; [reflexivity|].
  unfold idle. cbn. split; [by apply (wrapu_range 32)|done].
Qed.

(** C18. Every client's stamp is answered once, with the right frame.  When nothing waits and a
    message with the client's time arrives, all frames whose encoding had begun before carry
    only their encoding time, and the first frame whose encoding began later carries the client's
    time, the time the message arrived and the time between that and the end of rendering; after it nothing
    waits again. *)
Theorem latency_answered_once at_ms t0 early now e l : idle l -> 0 < t0 -> 0 <= at_ms < 2 ^ 62 ->
  Forall (fun f => 0 <= f.2 <= f.1 /\ f.1 < 2 ^ 62 /\ f.1 - f.2 <= at_ms) early -> Z.of_nat (length early) < 2 ^ 32 - 2 ->
  0 <= e <= now -> now < 2 ^ 62 -> at_ms < now - e ->
  exists l', frames_latency (early ++ [(now, e)]) (HandleLatencyMessage at_ms t0 l) =
    (map (fun f => [(b "serverEncodeFrameTime", VInt f.2)]) early ++
     [[(b "clientSendLatencyTime", VInt t0); (b "serverReceivedLatencyTime", VInt at_ms); (b "serverRenderClientInputTime", VInt (now - e - at_ms));
       (b "serverEncodeFrameTime", VInt e)]], l') /\ idle l'.
Proof.
  intros (I1 & I2 & I3) Ht Ha F L He Hn Hr.
  assert (waits t0 at_ms 0 (HandleLatencyMessage at_ms t0 l)) as W.
  { unfold HandleLatencyMessage, HasClientStats. rewrite I3. unfold waits. cbn. rewrite Z.add_0_r. split; [done|]. split; [symmetry; by apply wrapu_small|]. lia. }
  revert W. generalize (HandleLatencyMessage at_ms t0 l). assert (0 + Z.of_nat (length early) < 2 ^ 32 - 2) as L0 by lia. revert L0.
  generalize 0 as k. clear - Ht Ha F He Hn Hr.
  induction F as [|[n1 e1] early (G1 & G2 & G3) F IH]; intros k L l0 W; cbn [app frames_latency map].
  - destruct (answering_frame now e t0 at_ms k l0 W Ht Ha He Hn) as (l' & E & Id); [cbn in L; lia|done|]. cbn [fst snd]. rewrite E. by exists l'.
  - cbn [fst snd] in *. destruct (early_frame n1 e1 t0 at_ms k l0 W Ht Ha G1 G2) as (l1 & E & W1); [cbn in L; lia|done|].
    destruct (IH (k + 1) ltac:(cbn [length] in L; lia) l1 W1) as (l' & E' & Id). rewrite E, E'. by exists l'.
Qed.

Lemma latency_answered_once_witness : exists l',
  frames_latency [(110, 20); (130, 10)] (HandleLatencyMessage 100 77 {| frame_number_ := 4294967295; frame_delay_ := 1; send_time_ms := 0; received_time_ms := 0; received_frame_number := 0 |}) =
  ([[(b "serverEncodeFrameTime", VInt 20)];
    [(b "clientSendLatencyTime", VInt 77); (b "serverReceivedLatencyTime", VInt 100); (b "serverRenderClientInputTime", VInt 20); (b "serverEncodeFrameTime", VInt 10)]], l').
Proof.
  destruct (latency_answered_once 100 77 [(110, 20)] 130 10 {| frame_number_ := 4294967295; frame_delay_ := 1; send_time_ms := 0; received_time_ms := 0; received_frame_number := 0 |})
    as (l' & E & _); [unfold idle; cbn; lia|lia|lia|repeat constructor; cbn; lia|cbn; lia|lia|lia|lia|]. exists l'. exact E.
Defined.
