(* ===== verification/VhalAudio.v ===== *)
(** * VhalAudio: sound between the browser and Android

    Models [AudioFrameGenerator] (the sound of Android for the browser) and [AudioPlayer] (the
    browser's microphone for Android), in
    [src/sources/streamer/module/server-webrtc/aic-vhal-client/audio-frame-generator.cpp],
    [audio-frame-generator.h], [AudioPlayer.cpp] and [AudioPlayer.h].  The sockets to Android
    belong to [libvhal], which is not part of the repository: its control messages and packets are the
    input, the packets for it the output.  [None] is undefined behaviour, such as a copy past
    the end of a buffer.  Memory from [new] holds bytes nobody knows, [junk]. *)

From Stdlib Require Import ZArith Lia String.
From stdpp Require Import base list.
From S2P Require Import Prelude.

(** ** The generator *)

Definition MAX_QUEUE_SIZE : nat := 3.

Record generator := {
  mChannelNumber : Z; mSampleRate : Z; mRecBufLen10ms : Z; mBufferPool : list (option (list Z)); mBufferIdsQ : list nat;
  mBufferIdToPush : nat; mSockBuffer : option (list Z); mVhalStreamStopped : bool; mBufferFull : bool
}.

Definition generator0 : generator :=
  {| mChannelNumber := 2; mSampleRate := 48000; mRecBufLen10ms := 1920; mBufferPool := replicate MAX_QUEUE_SIZE None; mBufferIdsQ := [];
     mBufferIdToPush := 0; mSockBuffer := None; mVhalStreamStopped := true; mBufferFull := false |}.

Definition with_stopped (s : bool) (g : generator) : generator :=
  {| mChannelNumber := mChannelNumber g; mSampleRate := mSampleRate g; mRecBufLen10ms := mRecBufLen10ms g; mBufferPool := mBufferPool g;
     mBufferIdsQ := mBufferIdsQ g; mBufferIdToPush := mBufferIdToPush g; mSockBuffer := mSockBuffer g; mVhalStreamStopped := s;
     mBufferFull := mBufferFull g |}.
Definition with_sock (b : option (list Z)) (g : generator) : generator :=
  {| mChannelNumber := mChannelNumber g; mSampleRate := mSampleRate g; mRecBufLen10ms := mRecBufLen10ms g; mBufferPool := mBufferPool g;
     mBufferIdsQ := mBufferIdsQ g; mBufferIdToPush := mBufferIdToPush g; mSockBuffer := b; mVhalStreamStopped := mVhalStreamStopped g;
     mBufferFull := mBufferFull g |}.
Definition with_queue (pool : list (option (list Z))) (q : list nat) (id : nat) (full : bool) (g : generator) : generator :=
  {| mChannelNumber := mChannelNumber g; mSampleRate := mSampleRate g; mRecBufLen10ms := mRecBufLen10ms g; mBufferPool := pool;
     mBufferIdsQ := q; mBufferIdToPush := id; mSockBuffer := mSockBuffer g; mVhalStreamStopped := mVhalStreamStopped g; mBufferFull := full |}.

(** [memcpy(dst, src, n)]: the destination afterwards. *)
Definition memcpy (dst src : option (list Z)) (n : Z) : option (option (list Z)) :=
  if n =? 0 then Some dst
  else
    d ← dst; s ← src;
    if (n <? 0) || (Z.of_nat (length d) <? n) || (Z.of_nat (length s) <? n) then None
    else Some (Some (take (Z.to_nat n) s ++ drop (Z.to_nat n) d)).

Section Generator.
Context (junk : nat -> Z).

Definition new_buffer (n : Z) : list Z := map junk (seq 0 (Z.to_nat n)).

(** [kOpen]: the format of the sound, [bytes] per sample.  The queue is left as it is. *)
Definition on_open (rate channels frame_count bytes : Z) (g : generator) : generator :=
  let n := i32 (frame_count * channels * bytes) in
  {| mChannelNumber := channels; mSampleRate := rate; mRecBufLen10ms := n;
     mBufferPool := replicate MAX_QUEUE_SIZE (if 0 <? n then Some (new_buffer n) else None);
     mBufferIdsQ := mBufferIdsQ g; mBufferIdToPush := mBufferIdToPush g;
     mSockBuffer := if 0 <? n then Some (new_buffer n) else None; mVhalStreamStopped := true; mBufferFull := mBufferFull g |}.

End Generator.

(** [kData]: [packet] is what [ReadDataPacket] stores, nothing when it fails. *)
Definition on_data (data_size : Z) (packet : option (list Z)) (g : generator) : option generator :=
  if data_size <=? 0 then Some g
  else
    match mSockBuffer g, packet with
    | None, _ => None
    | Some _, None => Some g
    | Some sock, Some p =>
        if Nat.ltb (length sock) (length p) then None
        else
          let g := with_sock (Some (p ++ drop (length p) sock)) g in
          if Nat.eqb (length (mBufferIdsQ g)) MAX_QUEUE_SIZE then Some (with_queue (mBufferPool g) (mBufferIdsQ g) (mBufferIdToPush g) true g)
          else
            dst ← mBufferPool g !! mBufferIdToPush g;
            dst ← memcpy dst (mSockBuffer g) (mRecBufLen10ms g);
            Some (with_queue (<[mBufferIdToPush g := dst]> (mBufferPool g)) (mBufferIdsQ g ++ [mBufferIdToPush g])
                    ((mBufferIdToPush g + 1) mod MAX_QUEUE_SIZE) false g)
    end.

Definition on_startstream : generator -> generator := with_stopped false.
Definition on_stopstream : generator -> generator := with_stopped true.

(** [GenerateFramesForNext10Ms]: what it writes at the start of the frame buffer (as many
    bytes as it returns). *)
Definition GenerateFramesForNext10Ms (capacity : Z) (g : generator) : option (list Z * generator) :=
  if capacity <? u32 (mRecBufLen10ms g) then Some ([], g)
  else
    match mBufferIdsQ g with
    | id :: q =>
        if 0 <? mRecBufLen10ms g then
          buffer ← mBufferPool g !! id; buf ← buffer;
          if Z.of_nat (length buf) <? mRecBufLen10ms g then None
          else Some (take (Z.to_nat (mRecBufLen10ms g)) buf, with_queue (mBufferPool g) q (mBufferIdToPush g) (mBufferFull g) g)
        else Some (if mVhalStreamStopped g then replicate (Z.to_nat capacity) 0 else [], g)
    | [] => Some (if mVhalStreamStopped g then replicate (Z.to_nat capacity) 0 else [], g)
    end.

(** ** A queue of at most three packets *)

(** What the generator promises: packets come out as they went in, in order; a packet that
    finds three waiting is dropped; an empty queue gives silence while the stream is stopped. *)
Inductive audio_op := Data (p : list Z) | Play (capacity : Z) | StartStream | StopStream.

Record audio_spec := { waiting : list (list Z); silent : bool }.

Definition spec_step (op : audio_op) (s : audio_spec) : list Z * audio_spec :=
  match op with
  | Data p => ([], {| waiting := if Nat.ltb (length (waiting s)) MAX_QUEUE_SIZE then waiting s ++ [p] else waiting s; silent := silent s |})
  | Play capacity =>
      match waiting s with
      | p :: q => (p, {| waiting := q; silent := silent s |})
      | [] => (if silent s then replicate (Z.to_nat capacity) 0 else [], s)
      end
  | StartStream => ([], {| waiting := waiting s; silent := false |})
  | StopStream => ([], {| waiting := waiting s; silent := true |})
  end.

Definition gen_step (op : audio_op) (g : generator) : option (list Z * generator) :=
  match op with
  | Data p => g ← on_data (Z.of_nat (length p)) (Some p) g; Some ([], g)
  | Play capacity => GenerateFramesForNext10Ms capacity g
  | StartStream => Some ([], on_startstream g)
  | StopStream => Some ([], on_stopstream g)
  end.

Fixpoint spec_run (ops : list audio_op) (s : audio_spec) : list (list Z) * audio_spec :=
  match ops with
  | [] => ([], s)
  | op :: ops => let '(o, s) := spec_step op s in let '(os, s) := spec_run ops s in (o :: os, s)
  end.
Fixpoint gen_run (ops : list audio_op) (g : generator) : option (list (list Z) * generator) :=
  match ops with
  | [] => Some ([], g)
  | op :: ops => '(o, g) ← gen_step op g; '(os, g) ← gen_run ops g; Some (o :: os, g)
  end.

(** The buffers in use are consecutive and end before the next one to fill. *)
Definition ring_ids (next k : nat) : list nat := map (fun i => (next + 2 * MAX_QUEUE_SIZE - k + i) mod MAX_QUEUE_SIZE)%nat (seq 0 k).

Record ring_ok (n : nat) (g : generator) : Prop := {
  ro_len : mRecBufLen10ms g = Z.of_nat n;
  ro_pos : (0 < n)%nat /\ Z.of_nat n <= INT_MAX;
  ro_pool : length (mBufferPool g) = MAX_QUEUE_SIZE /\ Forall (fun b => exists l, b = Some l /\ length l = n) (mBufferPool g);
  ro_sock : exists l, mSockBuffer g = Some l /\ length l = n;
  ro_next : (mBufferIdToPush g < MAX_QUEUE_SIZE)%nat;
  ro_ids : (length (mBufferIdsQ g) <= MAX_QUEUE_SIZE)%nat /\ mBufferIdsQ g = ring_ids (mBufferIdToPush g) (length (mBufferIdsQ g))
}.

(** What the buffers in use hold. *)
Definition abs (g : generator) : audio_spec :=
  {| waiting := omap (fun id => mjoin (mBufferPool g !! id)) (mBufferIdsQ g); silent := mVhalStreamStopped g |}.

(** ** The ring implements the queue *)

Lemma ring_shape n g : ring_ok n g -> exists a1 a2 a3 sock next k,
  mBufferPool g = [Some a1; Some a2; Some a3] /\ Forall (fun l => length l = n) [a1; a2; a3; sock] /\ mSockBuffer g = Some sock /\
  mBufferIdToPush g = next /\ In next [0; 1; 2]%nat /\ mBufferIdsQ g = ring_ids next k /\ In k [0; 1; 2; 3]%nat.
Proof.
  intros [_ _ [L F] (sock & Es & Ls) Hn [Hk Hi]]. unfold MAX_QUEUE_SIZE in *.
  destruct (mBufferPool g) as [|x1 [|x2 [|x3 [|]]]]; try discriminate L. rewrite !Forall_cons in F.
  destruct F as ((a1 & -> & E1) & (a2 & -> & E2) & (a3 & -> & E3) & _).
  exists a1, a2, a3, sock, (mBufferIdToPush g), (length (mBufferIdsQ g)). split; [done|]. split; [by repeat constructor|].
  split; [done|]. split; [done|]. split; [cbn; lia|]. split; [exact Hi|cbn; lia].
Qed.

Lemma memcpy_full dst src n : length src = n -> length dst = n -> (0 < n)%nat ->
  memcpy (Some dst) (Some src) (Z.of_nat n) = Some (Some src).
Proof.
  intros Ls Ld Hn. unfold memcpy. rewrite (proj2 (Z.eqb_neq _ _)) by lia. cbn [mbind option_bind].
  rewrite (proj2 (Z.ltb_ge _ _)), Ls, Ld, Z.ltb_irrefl by lia. cbn [orb]. rewrite Nat2Z.id. subst n.
  by rewrite firstn_all, drop_ge, app_nil_r by lia.
Qed.

(** The operations on packets of the agreed size, and buffers at least that big. *)
Definition op_ok (n : nat) (op : audio_op) : Prop :=
  match op with Data p => length p = n | Play capacity => Z.of_nat n <= capacity < 2 ^ 32 | _ => True end.

Lemma data_step n p g : ring_ok n g -> length p = n ->
  exists g', on_data (Z.of_nat n) (Some p) g = Some g' /\ ring_ok n g' /\ abs g' = (spec_step (Data p) (abs g)).2.
Proof.
  intros R Lp. destruct (ring_shape n g R) as (a1 & a2 & a3 & sock & next & k & Ep & F & Es & En & In_ & Ei & Ik).
  rewrite !Forall_cons in F. destruct F as (F1 & F2 & F3 & F4 & _). destruct R as [Rl [Rp Rm] _ _ _ _].
  unfold on_data. rewrite (proj2 (Z.leb_gt _ _)) by lia. rewrite Es. rewrite (proj2 (Nat.ltb_ge _ _)) by lia.
  assert (p ++ drop (length p) sock = p) as -> by (rewrite drop_ge by lia; apply app_nil_r).
  cbn [mBufferIdsQ with_sock mBufferPool mBufferIdToPush mSockBuffer mRecBufLen10ms]. rewrite Ei, Ep, En, Rl.
  assert (forall dst, length dst = n -> memcpy (Some dst) (Some p) (Z.of_nat n) = Some (Some p)) as M by (intros; by apply memcpy_full).
  destruct In_ as [<-|[<-|[<-|[]]]]; destruct Ik as [<-|[<-|[<-|[<-|[]]]]]; cbn [ring_ids map seq length Nat.eqb MAX_QUEUE_SIZE lookup list_lookup mbind option_bind];
    rewrite ?(M a1), ?(M a2), ?(M a3) by done; cbn [mbind option_bind];
    (eexists; split; [reflexivity|]; split;
     [constructor; cbn; [done|done|split; [done|by repeat constructor; eexists]|by eexists|unfold MAX_QUEUE_SIZE; lia|split; [unfold MAX_QUEUE_SIZE; lia|done]]
     |unfold abs; cbn; by rewrite ?Ep, ?Ei]).
Qed.

Lemma play_step n capacity g : ring_ok n g -> Z.of_nat n <= capacity < 2 ^ 32 ->
  exists o g', GenerateFramesForNext10Ms capacity g = Some (o, g') /\ ring_ok n g' /\ (o, abs g') = spec_step (Play capacity) (abs g).
Proof.
  intros R Hc. destruct (ring_shape n g R) as (a1 & a2 & a3 & sock & next & k & Ep & F & Es & En & In_ & Ei & Ik).
  rewrite !Forall_cons in F. destruct F as (F1 & F2 & F3 & F4 & _). pose proof R as [Rl [Rp Rm] _ _ _ _].
  unfold GenerateFramesForNext10Ms. rewrite Rl. assert (u32 (Z.of_nat n) = Z.of_nat n) as -> by (apply wrapu_small; lia).
  rewrite (proj2 (Z.ltb_ge _ _)) by lia. rewrite (proj2 (Z.ltb_lt 0 _)) by lia. rewrite Ei, Ep.
  assert (forall l : list Z, length l = n -> take (Z.to_nat (Z.of_nat n)) l = l) as T by (intros l <-; rewrite Nat2Z.id; apply firstn_all).
  destruct In_ as [<-|[<-|[<-|[]]]]; destruct Ik as [<-|[<-|[<-|[<-|[]]]]]; cbn [ring_ids map seq];
    try (eexists _, _; split; [reflexivity|]; split; [exact R|]; unfold abs; cbn; by rewrite Ei);
    cbn [lookup list_lookup mbind option_bind Nat.modulo Nat.divmod Nat.sub Nat.add Nat.mul MAX_QUEUE_SIZE fst snd];
    rewrite ?F1, ?F2, ?F3, Z.ltb_irrefl, ?(T a1), ?(T a2), ?(T a3) by done;
    (eexists _, _; split; [reflexivity|]; split;
     [constructor; cbn; rewrite ?Ep, ?En; [done|done|split; [done|by repeat constructor; eexists]|by eexists|unfold MAX_QUEUE_SIZE; lia|split; [unfold MAX_QUEUE_SIZE; lia|done]]
     |unfold abs; cbn; by rewrite ?Ep, ?Ei]).
Qed.

(** C15. The ring of three buffers is a queue of at most three packets.  Once the format of the
    sound is known, any sequence of packets of its size, requests for sound and starts and stops of
    the stream runs without undefined behaviour and gives what the queue gives: packets in order,
    none repeated and none mixed up, dropped only when three are waiting, silence when
    the stream is stopped and nothing waits. *)
Theorem audio_ring_is_queue n ops : forall g, ring_ok n g -> Forall (op_ok n) ops ->
  exists os g', gen_run ops g = Some (os, g') /\ ring_ok n g' /\ spec_run ops (abs g) = (os, abs g').
Proof.
  induction ops as [|op ops IH]; intros g R F; [by exists [], g|]. apply Forall_cons in F as [Fo F]. cbn [gen_run spec_run].
  assert (exists o g1, gen_step op g = Some (o, g1) /\ ring_ok n g1 /\ spec_step op (abs g) = (o, abs g1)) as (o & g1 & E1 & R1 & E2).
  { destruct op as [p|capacity| |]; cbn [gen_step op_ok] in *.
    - destruct (data_step n p g R Fo) as (g1 & E1 & R1 & E2). rewrite Fo, E1. exists [], g1. split; [done|]. split; [done|]. by rewrite E2.
    - destruct (play_step n capacity g R Fo) as (o & g1 & E1 & R1 & E2). by exists o, g1.
    - exists [], (on_startstream g). split; [done|]. split; [by destruct R|done].
    - exists [], (on_stopstream g). split; [done|]. split; [by destruct R|done]. }
  rewrite E1, E2. cbn [mbind option_bind]. destruct (IH g1 R1 F) as (os & g' & E3 & R' & E4). rewrite E3, E4. by exists (o :: os), g'.
Qed.

(** A format makes the ring ready when nothing was queued before. *)
Lemma open_ready junk rate channels frames bytes n g : i32 (frames * channels * bytes) = Z.of_nat n -> (0 < n)%nat ->
  mBufferIdsQ g = [] -> (mBufferIdToPush g < MAX_QUEUE_SIZE)%nat -> ring_ok n (on_open junk rate channels frames bytes g).
Proof.
  intros E Hn Q Hp. assert (Z.of_nat n <= INT_MAX) as Hm.
  { rewrite <- E. unfold i32, wraps, INT_MAX. pose proof (Z.mod_pos_bound (frames * channels * bytes) (2 ^ 32) ltac:(lia)).
    destruct (Z.ltb_spec ((frames * channels * bytes) mod 2 ^ 32) (2 ^ (32 - 1))); lia. }
  assert (length (new_buffer junk (Z.of_nat n)) = n) as Lb by (unfold new_buffer; rewrite length_map, length_seq, Nat2Z.id; done).
  constructor; cbn; rewrite ?E, ?(proj2 (Z.ltb_lt 0 (Z.of_nat n))) by lia; rewrite ?Q; cbn.
  - done.
  - done.
  - split; [done|]. repeat constructor; by eexists.
  - by eexists.
  - done.
  - split; [lia|done].
Qed.

(** A new format does not empty the queue: a packet that waits when Android opens the
    sound again is replaced by whatever the new memory holds. *)
Theorem reopen_plays_junk junk rate channels frames bytes n p g g1 : ring_ok n g -> mBufferIdsQ g = [] -> length p = n ->
  i32 (frames * channels * bytes) = Z.of_nat n ->
  on_data (Z.of_nat n) (Some p) g = Some g1 ->
  exists g2, GenerateFramesForNext10Ms (Z.of_nat n) (on_open junk rate channels frames bytes g1) = Some (new_buffer junk (Z.of_nat n), g2).
Proof.
  intros R Q Lp E D. destruct (data_step n p g R Lp) as (g1' & D' & R1 & A). rewrite D in D'. injection D' as <-.
  assert (0 < n)%nat as Hn by (destruct R as [_ [? _] _ _ _ _]; done). assert (Z.of_nat n <= INT_MAX) as Hm by (destruct R as [_ [_ ?] _ _ _ _]; done).
  assert (exists id q, mBufferIdsQ g1 = id :: q /\ (id < MAX_QUEUE_SIZE)%nat) as (id & q & Eq & Hid).
  { destruct R1 as [_ _ [L1 _] _ _ [_ Hi]]. destruct (mBufferIdsQ g1) as [|id q] eqn:Eq.
    - exfalso. unfold abs in A. rewrite Q, Eq in A. cbn in A. discriminate A.
    - exists id, q. split; [done|]. cbn [ring_ids length seq map] in Hi. injection Hi as -> _. unfold MAX_QUEUE_SIZE. lia. }
  unfold GenerateFramesForNext10Ms, on_open. cbn [mRecBufLen10ms mBufferIdsQ mBufferPool mBufferIdToPush mBufferFull]. rewrite E, Eq.
  assert (u32 (Z.of_nat n) = Z.of_nat n) as -> by (apply wrapu_small; unfold INT_MAX in Hm; lia). rewrite Z.ltb_irrefl, (proj2 (Z.ltb_lt 0 _)) by lia.
  rewrite lookup_replicate_2 by done. cbn [mbind option_bind].
  assert (length (new_buffer junk (Z.of_nat n)) = n) as Lb by (unfold new_buffer; rewrite length_map, length_seq, Nat2Z.id; done).
  rewrite Lb, Z.ltb_irrefl, Nat2Z.id. eexists. do 2 f_equal. by rewrite take_ge by lia.
Qed.

(** Sound that arrives before its format crashes: there is no buffer to read it into. *)
Theorem data_before_open size packet : 0 < size -> on_data size packet generator0 = None.
Proof. intros H. unfold on_data. by rewrite (proj2 (Z.leb_gt _ _)) by lia. Qed.

(** ** The player *)

Record player := { channelCount : Z; bufferSizeInBytes : Z; pl_sock : option (list Z) }.

Definition player0 : player := {| channelCount := 1; bufferSizeInBytes := 320; pl_sock := None |}.

(** [kOpen]: the buffer, of twice as many bytes as the size says, is made the first time
    only; the size is a [size_t]. *)
Definition player_open (junk : nat -> Z) (channels frame_count bytes : Z) (p : player) : player :=
  let n := wrapu 64 (wrapu 64 (frame_count * channels) * bytes) in
  {| channelCount := channels; bufferSizeInBytes := n;
     pl_sock := match pl_sock p with Some s => Some s | None => Some (map junk (seq 0 (Z.to_nat (2 * n)))) end |}.

(** Two-byte samples, each written for the left and for the right. *)
Fixpoint MonoToStereo (num : nat) (data : list Z) : list Z :=
  match num, data with
  | S num, x :: y :: data => [x; y; x; y] ++ MonoToStereo num data
  | _, _ => []
  end.

(** [OnData]: the packet for Android, and the buffer afterwards. *)
Definition OnData (data : list Z) (bits_per_sample number_of_channels number_of_frames : Z) (p : player) : option (list Z * player) :=
  let size := wrapu 64 (wrapu 64 (number_of_frames * channelCount p) * bits_per_sample) / 8 in
  sock ← (if channelCount p =? number_of_channels then memcpy (pl_sock p) (Some data) size
          else if (number_of_channels =? 1) && (channelCount p =? 2) then
            s ← pl_sock p;
            let num := Z.to_nat (number_of_frames * number_of_channels) in
            if Nat.ltb (length s) (4 * num) || Nat.ltb (length data) (2 * num) then None
            else Some (Some (MonoToStereo num data ++ drop (4 * num) s))
          else Some (pl_sock p));
  s ← sock;
  if Z.of_nat (length s) <? size then None
  else Some (take (Z.to_nat size) s, {| channelCount := channelCount p; bufferSizeInBytes := bufferSizeInBytes p; pl_sock := Some s |}).

Lemma stereo_length num : forall data, (2 * num <= length data)%nat -> length (MonoToStereo num data) = (4 * num)%nat.
Proof.
  induction num as [|num IH]; intros data H; [done|]. destruct data as [|x [|y data]]; [cbn in H; lia|cbn in H; lia|].
  cbn [MonoToStereo]. rewrite length_app, IH by (cbn in H; lia). cbn. lia.
Qed.

(** Each sample of a mono microphone is heard on both sides: of [n] frames of 16 bits,
    Android gets [n] stereo frames whose left and right samples are the microphone's. *)
Theorem mono_played_on_both n data p s : channelCount p = 2 -> pl_sock p = Some s -> (4 * n <= length s)%nat -> (2 * n <= length data)%nat ->
  Z.of_nat n < 2 ^ 32 ->
  exists p', OnData data 16 1 (Z.of_nat n) p = Some (MonoToStereo n data, p') /\ length (MonoToStereo n data) = (4 * n)%nat /\
    forall i, (i < n)%nat -> exists x y, data !! (2 * i)%nat = Some x /\ data !! (2 * i + 1)%nat = Some y /\
      take 4 (drop (4 * i) (MonoToStereo n data)) = [x; y; x; y].
Proof.
  intros Hc Hs L1 L2 Hn. unfold OnData. rewrite Hc, Hs. cbn [Z.eqb Pos.eqb andb mbind option_bind]. rewrite Z.mul_1_r, Nat2Z.id.
  rewrite (proj2 (Nat.ltb_ge _ _) L1), (proj2 (Nat.ltb_ge _ _) L2). cbn [orb mbind option_bind].
  assert (wrapu 64 (wrapu 64 (Z.of_nat n * 2) * 16) / 8 = Z.of_nat (4 * n)) as ->.
  { rewrite !(wrapu_small 64) by (try lia; rewrite wrapu_small; lia). replace (Z.of_nat n * 2 * 16) with (Z.of_nat (4 * n) * 8) by lia. by apply Z.div_mul. }
  pose proof (stereo_length n data L2) as Ls. rewrite length_app, length_drop, Ls. rewrite (proj2 (Z.ltb_ge _ _)) by lia. rewrite Nat2Z.id.
  eexists. split; [rewrite take_app_le, take_ge by lia; reflexivity|]. split; [done|]. clear - L2. revert data L2.
  induction n as [|n IH]; intros data L i Hi; [lia|]. destruct data as [|x [|y data]]; [cbn in L; lia|cbn in L; lia|].
  destruct i as [|i]; [by exists x, y|]. destruct (IH data ltac:(cbn in L; lia) i ltac:(lia)) as (x' & y' & E1 & E2 & E3). exists x', y'.
  replace (2 * S i)%nat with (S (S (2 * i))) by lia. replace (S (S (2 * i)) + 1)%nat with (S (S (2 * i + 1))) by lia.
  replace (4 * S i)%nat with (S (S (S (S (4 * i))))) by lia. done.
Qed.

(** A second format does not get a second buffer: sound that fits the new size but not the
    first one overruns the buffer. *)
Theorem reopened_player_overruns junk f1 f2 c bytes data p1 p2 : p1 = player_open junk c f1 bytes player0 -> p2 = player_open junk c f2 bytes p1 ->
  0 < c < 2 ^ 16 -> 0 <= f1 < 2 ^ 16 -> 0 <= f2 < 2 ^ 16 -> bytes = 2 -> 2 * f1 < f2 -> f2 * c * 2 <= Z.of_nat (length data) ->
  OnData data 16 c f2 p2 = None.
Proof.
  intros -> -> Hc H1 H2 -> Hf Hd. unfold OnData, player_open. cbn [channelCount pl_sock player0]. rewrite Z.eqb_refl.
  assert (forall f, 0 <= f < 2 ^ 16 -> wrapu 64 (wrapu 64 (f * c) * 2) = f * c * 2) as W.
  { intros f Hf'. assert (f * c < 2 ^ 32) by nia. rewrite !(wrapu_small 64) by (try rewrite wrapu_small; nia). done. }
  rewrite !W by done. assert (f2 * c < 2 ^ 32) by nia. assert (2 * f1 * c < f2 * c) by nia.
  assert (wrapu 64 (wrapu 64 (f2 * c) * 16) / 8 = f2 * c * 2) as ->.
  { rewrite !(wrapu_small 64) by (try rewrite wrapu_small; nia). replace (f2 * c * 16) with (f2 * c * 2 * 8) by lia. by apply Z.div_mul. }
  unfold memcpy. rewrite (proj2 (Z.eqb_neq _ _)) by nia. cbn [mbind option_bind]. rewrite length_map, length_seq.
  rewrite (proj2 (Z.ltb_lt (Z.of_nat _) _)) by (rewrite Z2Nat.id by nia; nia). by rewrite orb_true_r.
Qed.

(** ** Examples *)

Definition sample_generator : generator := on_open (fun _ => 99) 48000 1 2 2 generator0.

Lemma sample_ring : ring_ok 4 sample_generator.
Proof. apply (open_ready _ _ _ _ _ 4); [reflexivity|lia|reflexivity|cbn; unfold MAX_QUEUE_SIZE; lia]. Defined.

Lemma audio_ring_is_queue_witness : exists os g', gen_run [Data [1; 2; 3; 4]; Play 4; Play 4] sample_generator = Some (os, g') /\
  os = [[]; [1; 2; 3; 4]; [0; 0; 0; 0]].
Proof.
  destruct (audio_ring_is_queue 4 [Data [1; 2; 3; 4]; Play 4; Play 4] sample_generator sample_ring) as (os & g' & E & _ & S);
    [repeat constructor; cbn; lia|]. exists os, g'. split; [exact E|]. vm_compute in S. by injection S.
Defined.

Lemma reopen_plays_junk_witness : exists g1 g2, on_data 4 (Some [1; 2; 3; 4]) sample_generator = Some g1 /\
  GenerateFramesForNext10Ms 4 (on_open (fun _ => 99) 48000 1 2 2 g1) = Some ([99; 99; 99; 99], g2).
Proof.
  eexists. destruct (reopen_plays_junk (fun _ => 99) 48000 1 2 2 4 [1; 2; 3; 4] sample_generator _ sample_ring eq_refl eq_refl eq_refl eq_refl) as (g2 & E).
  exists g2. split; [reflexivity|]. exact E.
Defined.

Lemma data_before_open_witness : on_data 1920 (Some []) generator0 = None.
Proof. exact (data_before_open 1920 (Some []) ltac:(lia)). Defined.

Lemma mono_played_on_both_witness : exists p', OnData [1; 2; 3; 4] 16 1 2 (player_open (fun _ => 99) 2 2 2 player0) = Some ([1; 2; 1; 2; 3; 4; 3; 4], p').
Proof.
  destruct (mono_played_on_both 2 [1; 2; 3; 4] (player_open (fun _ => 99) 2 2 2 player0) _ eq_refl eq_refl) as (p' & E & _);
    [vm_compute; lia|cbn; lia|cbn; lia|]. exists p'. exact E.
Defined.

Lemma reopened_player_overruns_witness :
  OnData (replicate 16 7) 16 2 4 (player_open (fun _ => 99) 2 4 2 (player_open (fun _ => 99) 2 1 2 player0)) = None.
Proof.
  exact (reopened_player_overruns (fun _ => 99) 1 4 2 2 (replicate 16 7) _ _ eq_refl eq_refl ltac:(lia) ltac:(lia) ltac:(lia) eq_refl ltac:(lia) ltac:(vm_compute; discriminate)).
Defined.
