(* ===== verification/VhalControl.v ===== *)
(** * VhalControl: sensors, cameras and commands between the browser and Android

    Models [SensorHandler], [CommandChannelHandler] and [CameraClientHandler]
    ([src/sources/streamer/module/server-webrtc/aic-vhal-client/]) and the address of an
    Android session ([android-common.h]).  The sockets to Android belong to [libvhal], which is not
    part of the repository: what it is told is the output.  The JSON library is the interface
    [Json]. *)

From Stdlib Require Import ZArith Lia String Sorted.
From Stdlib Require Import Floats.SpecFloat.
From stdpp Require Import base gmap list sorting.
From S2P Require Import Prelude Bytes StdMap GaConf CNum Json WebrtcClient.

(** ** The address of a session *)

(** [android::ip] *)
Definition ip : cmd conf bytes :=
  k8s <-- ga_conf_readbool (b "k8s") 0 ;;
  if k8s =? 1 then cret (b "127.0.0.1")
  else
    session <-- ga_conf_readint (b "android-session") ;;
    let session := if session <? 0 then 0 else session in
    n <-- clift (int_chk (session + 2)) ;;
    cret (b "172.100." ++ print_int (n / 256) ++ b "." ++ print_int (n mod 256)).

(** ** Sensors *)

Definition MAX_SENSOR_DATA_VAL_CNT : nat := 6.

Inductive Orientation := landscapeOrientation | portraitOrientation.

(** What the rotation of the screen means for a sensor: its axes turn, its axes and the
    biases turn, or nothing. *)
Inductive sensor_kind := Axes | AxesAndBias | NoAxes.

(** [mSensorMap], by ascending type: whether the sensor is enabled, and its period. *)
Definition sensor_map : Type := list (Z * (bool * Z)).

Fixpoint map_set (t : Z) (v : bool * Z) (m : sensor_map) : sensor_map :=
  match m with
  | [] => [(t, v)]
  | (t', v') :: m' => if t <? t' then (t, v) :: m else if t =? t' then (t, v) :: m' else (t', v') :: map_set t v m'
  end.

Record sensors := { mIsClientRequested : bool; mSensorMap : sensor_map; mOrientation : Orientation }.

(** The constructor; the flag is not initialised. *)
Definition SensorHandler (flag : bool) : cmd conf sensors :=
  w <-- ga_conf_readint (b "video-res-width") ;;
  h <-- ga_conf_readint (b "video-res-height") ;;
  cret {| mIsClientRequested := flag; mSensorMap := []; mOrientation := if w <? h then portraitOrientation else landscapeOrientation |}.

(** [sendCmdToClient]: the text that the client is sent. *)
Definition sendCmdToClient (t : Z) (enabled : bool) (period : Z) : bytes :=
  if enabled then
    b "{ " ++ quoted (b "key") ++ b " : " ++ quoted (b "sensor-start") ++ b ", " ++ quoted (b "type") ++ b " : " ++ quoted (print_int t) ++
    b ", " ++ quoted (b "samplingPeriod_ms") ++ b " : " ++ quoted (print_int period) ++ b "}"
  else
    b "{ " ++ quoted (b "key") ++ b " : " ++ quoted (b "sensor-stop") ++ b " , " ++ quoted (b "type") ++ b " :" ++ quoted (print_int t) ++ b "}".

(** [processVHALCtrlMsg]: the texts sent. *)
Definition processVHALCtrlMsg (t : Z) (enabled : bool) (period : Z) (s : sensors) : list bytes * sensors :=
  (if mIsClientRequested s then [sendCmdToClient t enabled period] else [],
   {| mIsClientRequested := mIsClientRequested s; mSensorMap := map_set t (enabled, period) (mSensorMap s); mOrientation := mOrientation s |}).

Definition setClientRequestFlag (f : bool) (s : sensors) : sensors :=
  {| mIsClientRequested := f; mSensorMap := mSensorMap s; mOrientation := mOrientation s |}.

Definition configureClientSensors (s : sensors) : list bytes :=
  map (fun e => sendCmdToClient e.1 e.2.1 e.2.2) (mSensorMap s).

(** The axes of a device that lies on its side: [x, y] become [-y, x]. *)
Definition turn (f : list spec_float) (i : nat) : list spec_float :=
  match f !! i, f !! S i with
  | Some x, Some y => <[S i := x]> (<[i := SFopp y]> f)
  | _, _ => f
  end.

Definition updateCoordinates (k : sensor_kind) (f : list spec_float) : list spec_float :=
  match k with
  | Axes => turn f 0
  | AxesAndBias => turn (turn f 0) 3
  | NoAxes => f
  end.

Record SensorDataPacket := { sp_type : Z; sp_data : list spec_float }.

Section Client.
(** [kind_of]: the types of sensors of [libvhal]; [stack]: the six values of the packet
    before they are set. *)
Context {J : Json} (kind_of : Z -> sensor_kind) (stack : list spec_float).

(** [processClientMsg]: the packet for Android, if there is one. *)
Definition processClientMsg (text : bytes) : act sensors (option SensorDataPacket) :=
  j ← or_throw (parse text);
  d ← field j (b "data");
  p ← field d (b "parameters");
  if is_string p then mret None
  else
    t ← field p (b "type");
    if negb (is_number t) then mret None
    else
      v ← field p (b "data");
      data ← of_outcome (get_floats v);
      if Nat.ltb MAX_SENSOR_DATA_VAL_CNT (length data) then mret None
      else
        ty ← of_outcome (get_int32 t);
        s ← gets (fun s => s);
        let f := data ++ drop (length data) stack in
        mret (Some {| sp_type := ty; sp_data := match mOrientation s with landscapeOrientation => updateCoordinates (kind_of ty) f | _ => f end |}).

(** ** The command channel *)

Inductive MsgType := kActivityMonitor | kAicCommand.

(** [CommandChannelHandler::processClientMsg]: the packets sent; [cf] is the configuration. *)
Definition processCommand (cf : conf) (text : bytes) : act unit (list (MsgType * bytes)) :=
  if bool_decide (text = []) then mret []
  else
    j ← or_throw (parse text);
    d ← field j (b "data");
    p ← field d (b "parameters");
    if negb (is_object p) then mret []
    else
      pkg ← field p (b "pkg");
      l1 ← (if is_string pkg then
              s ← or_throw (get_string pkg);
              if bool_decide (s = []) then mret []
              else
                multi ← or_undef (fst <$> ga_conf_readbool (b "enable-multi-user") 0 cf);
                if negb (multi =? 0) then
                  user ← or_undef (fst <$> ga_conf_readint (b "user") cf);
                  mret [(kActivityMonitor, b "0:" ++ s ++ b ":" ++ print_int user)]
                else mret [(kActivityMonitor, b "0:" ++ s)]
            else mret []);
      cmd ← field p (b "cmd");
      l2 ← (if is_string cmd then s ← or_throw (get_string cmd); mret (if bool_decide (s = []) then [] else [(kAicCommand, s)]) else mret []);
      mret (l1 ++ l2).

(** What Android says of an activity or a command, for the client ([cmd_channel_msg_handler]
    of [ics-p2p-client.cpp]); other types are not forwarded by the handler. *)
Definition channel_message (t : MsgType) (msg : bytes) : list bytes :=
  if bool_decide (msg = []) then []
  else
    let key := match t with kActivityMonitor => b "activity-switch" | kAicCommand => b "cmd-output" end in
    [b "{" ++ quoted (b "key") ++ b ":" ++ quoted key ++ b "," ++ quoted (b "val") ++ b ":" ++ quoted msg ++ b "}"].

(** ** Cameras *)

Definition MAX_NUM_CAMERAS_SUPPORTED : Z := 2.

Inductive FrameResolution := k480p | k720p | k1080p.
Inductive SensorOrientation := ORIENTATION_0 | ORIENTATION_90 | ORIENTATION_180 | ORIENTATION_270.
Inductive CameraFacing := BACK_FACING | FRONT_FACING.

Record camera_info_t := { cameraId : Z; codec_type : VideoCodec; resolution : FrameResolution; sensorOrientation : SensorOrientation; facing : CameraFacing }.

Definition resolution_of (s : bytes) : FrameResolution :=
  if str_eqb s (b "1080p") || str_eqb s (b "2160p") || str_eqb s (b "4320p") then k1080p else if str_eqb s (b "720p") then k720p else k480p.
Definition orientation_of (s : bytes) : SensorOrientation :=
  if str_eqb s (b "270") then ORIENTATION_270 else if str_eqb s (b "180") then ORIENTATION_180 else if str_eqb s (b "90") then ORIENTATION_90
  else ORIENTATION_0.
Definition facing_of (s : bytes) : CameraFacing := if str_eqb s (b "front") then FRONT_FACING else BACK_FACING.

(** A property of camera [i]: what the client says, or the configuration when it says "NULL"
    or is not asked.  A list that is too short is read past its end. *)
Definition camera_property (cf : conf) (hw : bool) (said : list bytes) (prop : bytes) (i : nat) : act unit bytes :=
  s ← or_undef (said !! i);
  if negb (str_eqb s (b "NULL")) && hw then mret s
  else or_undef (fst <$> ga_conf_readstr (prop ++ print_int (Z.of_nat i)) cf).

Definition camera_of (cf : conf) (hw : bool) (res orient face : list bytes) (i : nat) : act unit camera_info_t :=
  codec ← or_undef (fst <$> ga_conf_readstr (b "video-codec") cf);
  r ← camera_property cf hw res (b "camera-res-") i;
  o ← camera_property cf hw orient (b "camera-orientation-") i;
  f ← camera_property cf hw face (b "camera-facing-") i;
  mret {| cameraId := Z.of_nat i; codec_type := codec_of codec; resolution := resolution_of r; sensorOrientation := orientation_of o; facing := facing_of f |}.

Fixpoint cameras (cf : conf) (hw : bool) (res orient face : list bytes) (ids : list nat) : act unit (list camera_info_t) :=
  match ids with
  | [] => mret []
  | i :: ids => c ← camera_of cf hw res orient face i; cs ← cameras cf hw res orient face ids; mret (c :: cs)
  end.

(** A vector of a negative size throws. *)
Definition processClientCameraMsg (cf : conf) (text : bytes) : act unit (list camera_info_t) :=
  hw ← or_undef (fst <$> ga_conf_readbool (b "get-hw-capability") 1 cf);
  let hw := negb (hw =? 0) in
  j ← or_throw (parse text);
  d ← field j (b "data");
  p ← field d (b "parameters");
  n ← (if hw then v ← field p (b "numOfCameras"); if is_number v then of_outcome (get_int32 v) else mret 0
       else or_undef (fst <$> ga_conf_readint (b "number-of-cameras-supported") cf));
  if n =? 0 then mret []
  else
    let n := if MAX_NUM_CAMERAS_SUPPORTED <? n then MAX_NUM_CAMERAS_SUPPORTED else n in
    if n <? 0 then throws
    else
      let strings key := if hw then v ← field p key; or_throw (get_strings v) else mret (replicate (Z.to_nat n) []) in
      res ← strings (b "maxCameraRes");
      orient ← strings (b "camOrientation");
      face ← strings (b "camFacing");
      cameras cf hw res orient face (seq 0 (Z.to_nat n)).

(** [updateCameraInfo]: what Android is told, unless it does not answer. *)
Definition updateCameraInfo (capability : bool) (cf : conf) (text : bytes) : act unit (option (list camera_info_t)) :=
  if negb capability then mret None else c ← processClientCameraMsg cf text; mret (Some c).

End Client.

(** ** Properties *)

(** Every session of the first 65534 has an address of its own: the two last numbers
    spell the session plus two, each from 0 to 255. *)
Theorem session_address cf cf' session addr k8s :
  fst <$> ga_conf_readbool (b "k8s") 0 cf = Some k8s -> k8s <> 1 ->
  fst <$> ga_conf_readint (b "android-session") cf = Some session -> session < 65534 ->
  ip cf = Some (addr, cf') ->
  exists hi lo, addr = b "172.100." ++ print_int hi ++ b "." ++ print_int lo /\ 0 <= hi <= 255 /\ 0 <= lo <= 255 /\
    hi * 256 + lo = Z.max 0 session + 2.
Proof.
  intros Hk Nk Hs Ls. unfold ip. intros (k & c1 & E1 & E)%cbind_inv. rewrite E1 in Hk. injection Hk as ->.
  rewrite (proj2 (Z.eqb_neq _ _) Nk) in E. apply cbind_inv in E as (s & c2 & E2 & E).
  assert (c1 = cf) as ->.
  { apply cbind_inv in E1 as (str & c3 & E3 & E4). unfold ga_conf_readstr, cbind, cget in E3.
    destruct (sm_find (b "k8s") (ga_vars cf)); injection E3 as _ <-; case_bool_decide; by injection E4. }
  rewrite E2 in Hs. injection Hs as ->. apply cbind_inv in E as (n & c3 & E3 & E). unfold clift in E3.
  assert ((if session <? 0 then 0 else session) = Z.max 0 session) as Em by (destruct (Z.ltb_spec session 0); lia). rewrite Em in E3.
  rewrite int_chk_Some in E3 by (unfold INT_MIN, INT_MAX; lia). injection E3 as <- <-. injection E as <- <-.
  exists ((Z.max 0 session + 2) / 256), ((Z.max 0 session + 2) mod 256). split; [done|].
  pose proof (Z.mod_pos_bound (Z.max 0 session + 2) 256 ltac:(lia)). pose proof (Z.div_mod (Z.max 0 session + 2) 256 ltac:(lia)).
  assert ((Z.max 0 session + 2) / 256 < 256) by (apply Z.div_lt_upper_bound; lia). pose proof (Z.div_pos (Z.max 0 session + 2) 256 ltac:(lia) ltac:(lia)).
  lia.
Qed.

(** *** Sensors *)

(** The last configuration of a sensor among the messages of Android. *)
Fixpoint last_config (t : Z) (msgs : list (Z * (bool * Z))) : option (bool * Z) :=
  match msgs with
  | [] => None
  | (t', v) :: msgs => match last_config t msgs with Some w => Some w | None => if t =? t' then Some v else None end
  end.

Definition ascending (m : sensor_map) : Prop := StronglySorted (fun a c => a.1 < c.1) m.

Lemma map_set_in t v m : ascending m -> forall t' v', In (t', v') (map_set t v m) <-> (t' = t /\ v' = v) \/ (t' <> t /\ In (t', v') m).
Proof.
  induction m as [|[t1 v1] m IH]; intros S t' v'; cbn.
  - split; [intros [[= <- <-]|[]]; by left|]. intros [[-> ->]|[_ []]]. by left.
  - apply StronglySorted_inv in S as [S F]. rewrite List.Forall_forall in F.
    destruct (Z.ltb_spec t t1) as [L|L]; [|destruct (Z.eqb_spec t t1) as [->|N]].
    + cbn. split.
      * intros [[= <- <-]|[[= <- <-]|I]]; [by left|right; split; [lia|by left]|]. right. split; [specialize (F _ I); cbn in F; lia|by right].
      * intros [[-> ->]|[_ I]]; [by left|by right].
    + cbn. split.
      * intros [[= <- <-]|I]; [by left|]. right. split; [specialize (F _ I); cbn in F; lia|by right].
      * intros [[-> ->]|[N [[= <- <-]|I]]]; [by left|done|by right].
    + cbn. rewrite (IH S). split.
      * intros [[= <- <-]|[[-> ->]|[N' I]]]; [right; split; [lia|by left]|by left|right; split; [done|by right]].
      * intros [[-> ->]|[N' [[= <- <-]|I]]]; [right; by left|by left|right; right; done].
Qed.

Lemma map_set_ascending t v m : ascending m -> ascending (map_set t v m).
Proof.
  induction m as [|[t1 v1] m IH]; intros S; cbn; [repeat constructor|]. pose proof S as S0. apply StronglySorted_inv in S as [S F].
  destruct (Z.ltb_spec t t1) as [L|L]; [|destruct (Z.eqb_spec t t1) as [->|N]].
  - constructor; [done|]. rewrite List.Forall_forall in *. intros [t' v'] [[= <- <-]|I]; cbn; [done|]. specialize (F _ I). cbn in F. lia.
  - constructor; [done|]. exact F.
  - constructor; [by apply IH|]. rewrite List.Forall_forall in *. intros [t' v'] I. apply map_set_in in I as [[-> ->]|[_ I]]; [cbn; lia| |done].
    exact (F _ I).
Qed.

(** The messages of Android, one after the other. *)
Definition vhal_all (msgs : list (Z * (bool * Z))) (s : sensors) : sensors :=
  fold_left (fun s m => (processVHALCtrlMsg m.1 m.2.1 m.2.2 s).2) msgs s.

(** A client that asks for the sensors learns what Android last said of each.  After
    any messages of Android, the request is answered with one text per sensor Android named,
    in the order of their types, each for the last configuration of its sensor. *)
Theorem sensors_up_to_date msgs s : mSensorMap s = [] ->
  exists l, configureClientSensors (vhal_all msgs s) = map (fun e => sendCmdToClient e.1 e.2.1 e.2.2) l /\
    StronglySorted (fun a c => a.1 < c.1) l /\ (forall t v, In (t, v) l <-> last_config t msgs = Some v).
Proof.
  intros E. exists (mSensorMap (vhal_all msgs s)). split; [done|].
  assert (forall m0, ascending m0 -> forall s0, mSensorMap s0 = m0 -> ascending (mSensorMap (vhal_all msgs s0)) /\
    forall t v, In (t, v) (mSensorMap (vhal_all msgs s0)) <-> last_config t msgs = Some v \/ (last_config t msgs = None /\ In (t, v) m0)) as K.
  { clear. induction msgs as [|[t1 v1] msgs IH]; intros m0 S s0 E0.
    - cbn. rewrite E0. split; [done|]. intros t v. split; [by right|]. by intros [|[]].
    - set (s1 := (processVHALCtrlMsg t1 v1.1 v1.2 s0).2). change (vhal_all ((t1, v1) :: msgs) s0) with (vhal_all msgs s1). cbn [last_config].
      destruct (IH (map_set t1 v1 m0) (map_set_ascending t1 v1 m0 S) s1) as [S1 H1]; [unfold s1; cbn; rewrite E0; by destruct v1|].
      split; [done|]. intros t v. rewrite H1, (map_set_in t1 v1 m0 S). destruct (last_config t msgs) as [w|]; [split; intros [H|[[=] _]]; by left|].
      destruct (Z.eqb_spec t t1) as [->|N]; split.
      + intros [[=]|[_ [[_ ->]|[[] _]]]]; [by left|done].
      + intros [[= ->]|[[=] _]]. right. split; [done|by left].
      + intros [[=]|[_ [[-> _]|[_ I]]]]; [done|by right].
      + intros [[=]|[_ I]]. right. split; [done|by right]. }
  destruct (K [] ltac:(constructor) s E) as [S H]. split; [exact S|]. intros t v. rewrite H. split; [intros [|[_ []]]; done|by left].
Qed.

(** *** Turning the axes *)

Lemma SFopp_involutive x : SFopp (SFopp x) = x.
Proof. destruct x as [s|s| |s m e]; cbn; by rewrite ?negb_involutive. Qed.

(** Turning the device four times by a right angle is turning it not at all, for every kind
    of sensor; the third axis, and for sensors without axes everything, is never
    touched. *)
Theorem four_turns k f : length f = MAX_SENSOR_DATA_VAL_CNT ->
  updateCoordinates k (updateCoordinates k (updateCoordinates k (updateCoordinates k f))) = f /\
  updateCoordinates k f !! 2%nat = f !! 2%nat /\ length (updateCoordinates k f) = length f.
Proof.
  intros L. unfold MAX_SENSOR_DATA_VAL_CNT in L. destruct f as [|a [|c [|d [|e [|g [|h [|]]]]]]]; try discriminate L.
  destruct k; cbn; rewrite ?SFopp_involutive; done.
Qed.

(** *** Cameras *)

Section CameraProperties.
Context {J : Json}.

Lemma cameras_length cf hw res orient face ids cs : cameras cf hw res orient face ids tt = (Done cs, tt) -> map cameraId cs = map Z.of_nat ids.
Proof.
  revert cs. induction ids as [|i ids IH]; intros cs; cbn [cameras]; [by intros [= <-]|].
  intros (c & [] & E & (cs' & [] & E2 & [= <-])%act_bind_inv)%act_bind_inv. cbn [map]. rewrite (IH cs' E2). f_equal.
  unfold camera_of in E. apply act_bind_inv in E as (? & [] & _ & (? & [] & _ & (? & [] & _ & (? & [] & _ & [= <-])%act_bind_inv)%act_bind_inv)%act_bind_inv). done.
Qed.

(** Android gets at most two cameras, numbered from zero, and otherwise as many as the client
    has; a negative number ends in an exception, and lists that are shorter than the number
    says are read past their end. *)
Theorem cameras_announced cf text j d p v n hw :
  fst <$> ga_conf_readbool (b "get-hw-capability") 1 cf = Some hw -> hw <> 0 ->
  parse text = Some j -> subscript j (b "data") = Some d -> subscript d (b "parameters") = Some p ->
  subscript p (b "numOfCameras") = Some v -> is_number v = true -> get_int32 v = Done n ->
  (forall cs, processClientCameraMsg cf text tt = (Done cs, tt) -> n = 0 \/ 0 < n /\ map cameraId cs = map Z.of_nat (seq 0 (Z.to_nat (Z.min 2 n)))) /\
  (n < 0 -> processClientCameraMsg cf text tt = (Throws, tt)) /\
  (0 < n -> forall vr vo vf res orient face, subscript p (b "maxCameraRes") = Some vr -> subscript p (b "camOrientation") = Some vo ->
     subscript p (b "camFacing") = Some vf -> get_strings vr = Some res -> get_strings vo = Some orient -> get_strings vf = Some face ->
     res = [] -> processClientCameraMsg cf text tt = (Undef, tt)).
Proof.
  intros Hh Nh Ej Ed Ep Ev Nv En.
  assert (processClientCameraMsg cf text tt =
    (if n =? 0 then mret []
     else if (if MAX_NUM_CAMERAS_SUPPORTED <? n then MAX_NUM_CAMERAS_SUPPORTED else n) <? 0 then throws
     else
       r ← (v ← field p (b "maxCameraRes"); or_throw (get_strings v)); o ← (v ← field p (b "camOrientation"); or_throw (get_strings v));
       f ← (v ← field p (b "camFacing"); or_throw (get_strings v));
       cameras cf true r o f (seq 0 (Z.to_nat (if MAX_NUM_CAMERAS_SUPPORTED <? n then MAX_NUM_CAMERAS_SUPPORTED else n)))) tt) as ->.
  { unfold processClientCameraMsg. rewrite Hh. rewrite (act_bind_done _ _ tt hw tt) by done. rewrite (proj2 (Z.eqb_neq _ _) Nh). cbn [negb].
    rewrite (act_bind_done _ _ tt j tt) by (unfold or_throw; by rewrite Ej). rewrite (act_bind_done _ _ _ _ _ (field_value _ _ _ tt Ed)).
    rewrite (act_bind_done _ _ _ _ _ (field_value _ _ _ tt Ep)). rewrite (act_bind_done _ _ tt n tt); [done|].
    rewrite (act_bind_done _ _ _ _ _ (field_value _ _ _ tt Ev)). rewrite Nv. unfold of_outcome. by rewrite En. }
  assert (0 < n -> (if MAX_NUM_CAMERAS_SUPPORTED <? n then MAX_NUM_CAMERAS_SUPPORTED else n) = Z.min 2 n) as Em.
  { unfold MAX_NUM_CAMERAS_SUPPORTED. destruct (Z.ltb_spec 2 n); lia. }
  split; [|split].
  - intros cs. destruct (Z.eqb_spec n 0) as [->|N]; [by left|]. destruct (Z.le_gt_cases n 0) as [Hn|Hn].
    { assert ((if MAX_NUM_CAMERAS_SUPPORTED <? n then MAX_NUM_CAMERAS_SUPPORTED else n) = n) as -> by (unfold MAX_NUM_CAMERAS_SUPPORTED; destruct (Z.ltb_spec 2 n); lia).
      rewrite (proj2 (Z.ltb_lt n 0)) by lia. done. }
    rewrite Em by lia. rewrite (proj2 (Z.ltb_ge _ _)) by lia. right. split; [done|].
    apply act_bind_inv in H as (r & [] & _ & (o & [] & _ & (f & [] & _ & H)%act_bind_inv)%act_bind_inv). by apply cameras_length in H.
  - intros Hn. rewrite (proj2 (Z.eqb_neq n 0)) by lia.
    assert ((if MAX_NUM_CAMERAS_SUPPORTED <? n then MAX_NUM_CAMERAS_SUPPORTED else n) = n) as -> by (unfold MAX_NUM_CAMERAS_SUPPORTED; destruct (Z.ltb_spec 2 n); lia).
    by rewrite (proj2 (Z.ltb_lt n 0)) by lia.
  - intros Hn vr vo vf res orient face Er Eo Ef Gr Go Gf ->. rewrite (proj2 (Z.eqb_neq n 0)) by lia. rewrite Em by lia. rewrite (proj2 (Z.ltb_ge _ _)) by lia.
    assert (forall key v l, subscript p key = Some v -> get_strings v = Some l -> (v ← field p key; or_throw (get_strings v)) tt = (Done l, tt)) as G.
    { intros key w l Ek Gk. rewrite (act_bind_done _ _ _ _ _ (field_value _ _ _ tt Ek)). unfold or_throw. by rewrite Gk. }
    rewrite (act_bind_done _ _ _ _ _ (G _ _ _ Er Gr)), (act_bind_done _ _ _ _ _ (G _ _ _ Eo Go)), (act_bind_done _ _ _ _ _ (G _ _ _ Ef Gf)).
    destruct (Z.to_nat (Z.min 2 n)) as [|m] eqn:Q; [lia|]. cbn [seq cameras]. apply act_bind_undef. unfold camera_of.
    assert (exists c, fst <$> ga_conf_readstr (b "video-codec") cf = Some c) as [c Hc].
    { unfold ga_conf_readstr, cbind, cget. destruct (sm_find _ (ga_vars cf)); by eexists. }
    rewrite Hc. rewrite (act_bind_done _ _ tt c tt) by done. apply act_bind_undef. unfold camera_property. by apply act_bind_undef.
Qed.

End CameraProperties.

(** ** Examples *)

Definition session_conf : conf :=
  match ga_conf_writev (b "android-session") (b "300") conf0 with Some (_, c) => c | None => conf0 end.

Lemma session_address_witness : exists addr cf', ip session_conf = Some (addr, cf') /\ exists hi lo, hi * 256 + lo = 302 /\
  addr = b "172.100." ++ print_int hi ++ b "." ++ print_int lo.
Proof.
  destruct (ip session_conf) as [[addr cf']|] eqn:E; [|vm_compute in E; discriminate E]. exists addr, cf'. split; [reflexivity|].
  destruct (session_address session_conf cf' 300 addr 0) as (hi & lo & Ea & _ & _ & Es); [vm_compute; reflexivity|lia|vm_compute; reflexivity|lia|exact E|].
  exists hi, lo. split; [exact Es|exact Ea].
Defined.

Lemma sensors_up_to_date_witness : exists l,
  configureClientSensors (vhal_all [(4, (true, 20)); (1, (true, 10)); (4, (false, 20))] {| mIsClientRequested := false; mSensorMap := []; mOrientation := portraitOrientation |})
  = map (fun e => sendCmdToClient e.1 e.2.1 e.2.2) l /\ In (4, (false, 20)) l.
Proof.
  destruct (sensors_up_to_date [(4, (true, 20)); (1, (true, 10)); (4, (false, 20))] {| mIsClientRequested := false; mSensorMap := []; mOrientation := portraitOrientation |}
    eq_refl) as (l & E & _ & H). exists l. split; [exact E|]. apply H. reflexivity.
Defined.

Lemma four_turns_witness :
  let f := [of_Z 1; of_Z 2; of_Z 3; of_Z 4; of_Z 5; of_Z 6] in
  updateCoordinates Axes (updateCoordinates Axes (updateCoordinates Axes (updateCoordinates Axes f))) = f.
Proof. exact (proj1 (four_turns Axes [of_Z 1; of_Z 2; of_Z 3; of_Z 4; of_Z 5; of_Z 6] eq_refl)). Defined.

Definition camera_text : list (bytes * value) :=
  [(b "camerainfo", VObject [(b "data", VObject [(b "parameters", VObject [(b "numOfCameras", VInt (-1))])])])].

Lemma cameras_announced_witness : @processClientCameraMsg (values camera_text) conf0 (b "camerainfo") tt = (Throws, tt).
Proof.
  refine (proj1 (proj2 (@cameras_announced (values camera_text) conf0 (b "camerainfo") (VObject [(b "data", VObject [(b "parameters", VObject [(b "numOfCameras", VInt (-1))])])])
    (VObject [(b "parameters", VObject [(b "numOfCameras", VInt (-1))])]) (VObject [(b "numOfCameras", VInt (-1))]) (VInt (-1)) (-1) 1 _ _ _ _ _ _ _ _)) _);
    try reflexivity; lia.
Defined.
