(* ===== verification/NetPred.v ===== *)
(** * NetPred: how large the next frame may be

    Models [encoder/shared/tcae/net_pred.cpp]: the predictor that learns from the
    sizes of frames and the delays the client reports how many bytes a frame may
    have so that it arrives within the target delay.  A line, delay against size,
    is fitted to the last frames with weights that fade; it gives a target, which
    is limited and smoothed; spikes of the delay switch to a lower steady state,
    from which a recovery is tried after a while.

    All arithmetic on [double] is that of the code, operation by operation, in
    binary64.  The ratio with which weights fade is computed by [pow], whose last
    bit the standard leaves open: it is an argument.  Counters of type [int] are
    checked; the dump files are left out. *)

From Stdlib Require Import ZArith Lia Bool.
From Stdlib Require Import Floats.SpecFloat.
From stdpp Require Import base list option.
From S2P Require Import Prelude StdMap CNum Doubles.

(** ** State *)

(** What is configured, and constants of the constructor. *)
Record settings := {
  m_targetDelay : double; m_recordedLen : Z; m_forgotRatio : double; m_maxTargetSize : double; m_minTargetSize : double;
  m_fps : double; m_filterFactor : double; m_enableSteadyStateCheck : bool }.

Definition m_exceptionThreshold : double := of_Z 1.
Definition m_effectiveSizeThreshold : double := of_Z 1.
Definition m_effectiveDataLen : nat := 2.
Definition m_timeout : Z := 10.
Definition m_observeCounterThreshold : Z := 5.
Definition MinReverseBandwidth : double := decimal 2 2.
Definition SubstantialChangeThreshold : double := decimal 1 1.

(** The line: milliseconds per kilobyte, and milliseconds for an empty frame. *)
Record line := { m_reverseBandWidth : double; m_propagotionDelay : double }.

(** Delays and sizes of the last frames, the newest first. *)
Record history := { m_delays : list double; m_sizes : list double; m_effectiveDelays : list double; m_effectiveSizes : list double }.

(** Spikes and recovery. *)
Record steady := {
  m_observeCounter : Z; m_framesSinceLastSpike : Z; m_encFramesForThreshold : Z; m_newState : bool; m_spikes : Z;
  m_recoveryAttempt : bool; m_recoveryFrames : Z; m_estimateAcc : double; m_estimatedThresholdSize : double; m_timeToExplore : Z }.

(** The target, in kilobytes. *)
Record target := { m_nextTargetSize : double; m_previousTargetSize : double; m_filteredTargetSize : double }.

Record NetPred := { conf : settings; model : line; hist : history; stst : steady; tgt : target }.

Definition with_conf (v : settings) (p : NetPred) : NetPred := {| conf := v; model := model p; hist := hist p; stst := stst p; tgt := tgt p |}.
Definition with_model (v : line) (p : NetPred) : NetPred := {| conf := conf p; model := v; hist := hist p; stst := stst p; tgt := tgt p |}.
Definition with_hist (v : history) (p : NetPred) : NetPred := {| conf := conf p; model := model p; hist := v; stst := stst p; tgt := tgt p |}.
Definition with_stst (v : steady) (p : NetPred) : NetPred := {| conf := conf p; model := model p; hist := hist p; stst := v; tgt := tgt p |}.
Definition with_tgt (v : target) (p : NetPred) : NetPred := {| conf := conf p; model := model p; hist := hist p; stst := stst p; tgt := v |}.

(** The constructor; [ratio] is [pow(0.01, 1.0 / 2 / 100)] and [env] the variable
    TCAE_STEADY_STATE_CHECK. *)
Definition steady0 : steady :=
  {| m_observeCounter := 0; m_framesSinceLastSpike := 0; m_encFramesForThreshold := 0; m_newState := false; m_spikes := 0;
     m_recoveryAttempt := false; m_recoveryFrames := 0; m_estimateAcc := of_Z 0; m_estimatedThresholdSize := of_Z 0; m_timeToExplore := m_timeout |}.
Definition NetPred_new (ratio : double) (env : option bytes) : NetPred :=
  {| conf := {| m_targetDelay := of_Z 16; m_recordedLen := 100; m_forgotRatio := ratio; m_maxTargetSize := of_Z 1000;
                m_minTargetSize := of_Z 5; m_fps := of_Z 30; m_filterFactor := decimal 5 1;
                m_enableSteadyStateCheck := match env with Some s => negb (atoi s =? 0) | None => true end |};
     model := {| m_reverseBandWidth := of_Z 1; m_propagotionDelay := of_Z 0 |};
     hist := {| m_delays := []; m_sizes := []; m_effectiveDelays := []; m_effectiveSizes := [] |}; stst := steady0;
     tgt := {| m_nextTargetSize := of_Z 0; m_previousTargetSize := of_Z 0; m_filteredTargetSize := of_Z 0 |} |}.

Definition Clear (p : NetPred) : NetPred :=
  with_hist {| m_delays := []; m_sizes := []; m_effectiveDelays := m_effectiveDelays (hist p); m_effectiveSizes := m_effectiveSizes (hist p) |} p.

(** Settings; sizes are given in bytes. *)
Definition SetRecordedLen (n : Z) (c : settings) : settings :=
  {| m_targetDelay := m_targetDelay c; m_recordedLen := n; m_forgotRatio := m_forgotRatio c; m_maxTargetSize := m_maxTargetSize c;
     m_minTargetSize := m_minTargetSize c; m_fps := m_fps c; m_filterFactor := m_filterFactor c; m_enableSteadyStateCheck := m_enableSteadyStateCheck c |}.
Definition SetTargetDelay (d : double) (c : settings) : settings :=
  {| m_targetDelay := d; m_recordedLen := m_recordedLen c; m_forgotRatio := m_forgotRatio c; m_maxTargetSize := m_maxTargetSize c;
     m_minTargetSize := m_minTargetSize c; m_fps := m_fps c; m_filterFactor := m_filterFactor c; m_enableSteadyStateCheck := m_enableSteadyStateCheck c |}.
Definition SetMaxTargetSize (bytes : Z) (c : settings) : settings :=
  {| m_targetDelay := m_targetDelay c; m_recordedLen := m_recordedLen c; m_forgotRatio := m_forgotRatio c; m_maxTargetSize := ddiv (of_Z bytes) (of_Z 1000);
     m_minTargetSize := m_minTargetSize c; m_fps := m_fps c; m_filterFactor := m_filterFactor c; m_enableSteadyStateCheck := m_enableSteadyStateCheck c |}.
Definition SetMinTargetSize (bytes : Z) (c : settings) : settings :=
  {| m_targetDelay := m_targetDelay c; m_recordedLen := m_recordedLen c; m_forgotRatio := m_forgotRatio c; m_maxTargetSize := m_maxTargetSize c;
     m_minTargetSize := ddiv (of_Z bytes) (of_Z 1000); m_fps := m_fps c; m_filterFactor := m_filterFactor c; m_enableSteadyStateCheck := m_enableSteadyStateCheck c |}.
Definition SetFPS (fps : double) (c : settings) : settings :=
  {| m_targetDelay := m_targetDelay c; m_recordedLen := m_recordedLen c; m_forgotRatio := m_forgotRatio c; m_maxTargetSize := m_maxTargetSize c;
     m_minTargetSize := m_minTargetSize c; m_fps := fps; m_filterFactor := m_filterFactor c; m_enableSteadyStateCheck := m_enableSteadyStateCheck c |}.
Definition SetOutputFilterFactor (f : double) (c : settings) : settings :=
  let f := if dltb (of_Z 1) f then of_Z 1 else f in
  let f := if dltb f (of_Z 0) then of_Z 0 else f in
  {| m_targetDelay := m_targetDelay c; m_recordedLen := m_recordedLen c; m_forgotRatio := m_forgotRatio c; m_maxTargetSize := m_maxTargetSize c;
     m_minTargetSize := m_minTargetSize c; m_fps := m_fps c; m_filterFactor := f; m_enableSteadyStateCheck := m_enableSteadyStateCheck c |}.

(** ** The line *)

Section Model.
Context (c : settings).

(** One turn of the loops over the records: [acc] gets the weight, which then fades. *)
Fixpoint weighted {A B} (acc : double -> A -> B -> B) (l : list A) (weight : double) (b : B) : B :=
  match l with
  | [] => b
  | x :: l => weighted acc l (dmul weight (m_forgotRatio c)) (acc weight x b)
  end.

Definition tiny : double := decimal 1 6.

Definition WeightedMean (data : list double) : double :=
  let '(accD, accN) := weighted (fun w x '(d, n) => (dadd d (dmul w x), dadd n w)) data (of_Z 1) (of_Z 0, of_Z 0) in
  if dltb accN tiny then of_Z 0 else ddiv accD accN.

Definition UpdateModelSmall (delays sizes : list double) (l : line) : line :=
  let meanDelay := WeightedMean delays in
  let meanSize := WeightedMean sizes in
  if dltb meanSize tiny || dltb meanDelay tiny then l
  else {| m_reverseBandWidth := ddiv meanDelay meanSize; m_propagotionDelay := decimal 1 1 |}.

(** Records without delay and size do not count. *)
Definition no_record (r : double * double) : bool := dltb r.1 tiny && dltb r.2 tiny.

(** The size of a container against a fifth of the records. *)
Definition few (n : nat) : bool := dltb (of_Z (Z.of_nat n)) (dmul (decimal 2 1) (of_Z (m_recordedLen c))).

Definition UpdateModelNormal (delays sizes : list double) (l : line) : line :=
  if few (length delays) then UpdateModelSmall delays sizes l
  else
    let meanDelay := WeightedMean delays in
    let meanSize := WeightedMean sizes in
    let '(accD, accN) :=
      weighted (fun w r '(d, n) =>
        if no_record r then (d, n)
        else (dadd d (dmul (dmul (dmul w w) (dsub r.1 meanDelay)) (dsub r.2 meanSize)),
              dadd n (dmul (dmul (dmul w w) (dsub r.2 meanSize)) (dsub r.2 meanSize)))) (zip delays sizes) (of_Z 1) (of_Z 0, of_Z 0) in
    if dltb accN tiny then UpdateModelSmall delays sizes l
    else let rb := ddiv accD accN in {| m_reverseBandWidth := rb; m_propagotionDelay := dsub meanDelay (dmul rb meanSize) |}.

Definition UpdateModelSafe (delays sizes : list double) (l : line) : line :=
  let meanDelay := WeightedMean delays in
  let meanSize := WeightedMean sizes in
  let keep := map (fun r => if dltb (of_Z 0) (dmul (dsub r.1 meanDelay) (dsub r.2 meanSize)) then r else (of_Z 0, of_Z 0)) (zip delays sizes) in
  UpdateModelNormal (map fst keep) (map snd keep) l.

Definition SanityCheck (l : line) : bool := dltb MinReverseBandwidth (m_reverseBandWidth l) && dleb (of_Z 0) (m_propagotionDelay l).

(** [push_front] and [pop_back]. *)
Definition shift_in (x : double) (l : list double) : list double := removelast (x :: l).

(** The records that the line is fitted to: without a frame of at least a kilobyte among
    them, the last ones of that size are put in front, from the oldest to the newest.  The
    code takes both numbers from [m_effectiveSizes]. *)
Definition records (h : history) : list double * list double :=
  if existsb (fun s => dleb m_effectiveSizeThreshold s) (m_sizes h) then (m_delays h, m_sizes h)
  else fold_left (fun '(d, s) x => (shift_in x d, shift_in x s)) (rev (m_effectiveSizes h)) (m_delays h, m_sizes h).

Definition UpdateModel (h : history) (l : line) : line :=
  let '(delays, sizes) := records h in
  let l := UpdateModelNormal delays sizes l in
  let l := if SanityCheck l then l else UpdateModelSafe delays sizes l in
  if SanityCheck l then l else UpdateModelSmall delays sizes l.

(** ** Spikes and recovery *)

(** [m_timeout * m_fps], and [m_timeToExplore * m_fps]. *)
Definition frames_in (seconds : Z) : double := dmul (of_Z seconds) (m_fps c).

Definition IsSpikeOn (s : steady) : bool := m_observeCounterThreshold <=? m_observeCounter s.

Definition OscillationDetected (s : steady) : bool :=
  dltb (of_Z (m_framesSinceLastSpike s)) (frames_in m_timeout) && (2 <=? m_spikes s).

Definition set_observed (n : Z) (s : steady) : steady :=
  {| m_observeCounter := n; m_framesSinceLastSpike := m_framesSinceLastSpike s; m_encFramesForThreshold := m_encFramesForThreshold s;
     m_newState := m_newState s; m_spikes := m_spikes s; m_recoveryAttempt := m_recoveryAttempt s; m_recoveryFrames := m_recoveryFrames s;
     m_estimateAcc := m_estimateAcc s; m_estimatedThresholdSize := m_estimatedThresholdSize s; m_timeToExplore := m_timeToExplore s |}.
Definition set_spikes (n since : Z) (new : bool) (s : steady) : steady :=
  {| m_observeCounter := m_observeCounter s; m_framesSinceLastSpike := since; m_encFramesForThreshold := m_encFramesForThreshold s;
     m_newState := new; m_spikes := n; m_recoveryAttempt := m_recoveryAttempt s; m_recoveryFrames := m_recoveryFrames s;
     m_estimateAcc := m_estimateAcc s; m_estimatedThresholdSize := m_estimatedThresholdSize s; m_timeToExplore := m_timeToExplore s |}.
Definition set_threshold (v : double) (s : steady) : steady :=
  {| m_observeCounter := m_observeCounter s; m_framesSinceLastSpike := m_framesSinceLastSpike s; m_encFramesForThreshold := m_encFramesForThreshold s;
     m_newState := m_newState s; m_spikes := m_spikes s; m_recoveryAttempt := m_recoveryAttempt s; m_recoveryFrames := m_recoveryFrames s;
     m_estimateAcc := m_estimateAcc s; m_estimatedThresholdSize := v; m_timeToExplore := m_timeToExplore s |}.
Definition set_recovery (on : bool) (frames explore : Z) (s : steady) : steady :=
  {| m_observeCounter := m_observeCounter s; m_framesSinceLastSpike := m_framesSinceLastSpike s; m_encFramesForThreshold := m_encFramesForThreshold s;
     m_newState := m_newState s; m_spikes := m_spikes s; m_recoveryAttempt := on; m_recoveryFrames := frames;
     m_estimateAcc := m_estimateAcc s; m_estimatedThresholdSize := m_estimatedThresholdSize s; m_timeToExplore := explore |}.
Definition set_estimate (acc : double) (frames : Z) (s : steady) : steady :=
  {| m_observeCounter := m_observeCounter s; m_framesSinceLastSpike := m_framesSinceLastSpike s; m_encFramesForThreshold := frames;
     m_newState := m_newState s; m_spikes := m_spikes s; m_recoveryAttempt := m_recoveryAttempt s; m_recoveryFrames := m_recoveryFrames s;
     m_estimateAcc := acc; m_estimatedThresholdSize := m_estimatedThresholdSize s; m_timeToExplore := m_timeToExplore s |}.

(** Whether the threshold changed, and the state with it. *)
Definition UpdateSteadyState (s : steady) : bool * steady :=
  if m_newState s && (0 <? m_encFramesForThreshold s) && (2 <=? m_spikes s) then
    let size := ddiv (ddiv (m_estimateAcc s) (of_Z (m_encFramesForThreshold s))) (of_Z 1000) in
    let low := dmul (dsub (of_Z 1) SubstantialChangeThreshold) (m_estimatedThresholdSize s) in
    let high := dmul (dadd (of_Z 1) SubstantialChangeThreshold) (m_estimatedThresholdSize s) in
    if dltb size low || dltb high size then (true, set_threshold size s) else (false, s)
  else (false, s).

(** The end of a spike. *)
Definition spike_ends (s : steady) : option steady :=
  n ← int_chk (m_spikes s + 1);
  let s := set_spikes n (m_framesSinceLastSpike s) (m_newState s) s in
  let s := set_spikes n 0 (OscillationDetected s || m_newState s) s in
  let '(changed, s) := UpdateSteadyState s in
  Some (if m_recoveryAttempt s && (2 <=? m_spikes s)
        then set_recovery false 0 (if changed then m_timeout else u32 (m_timeToExplore s * 2)) s else s).

Definition ManageRecoveryAttempt (s : steady) : option steady :=
  let ongoing := m_recoveryAttempt s && dleb (of_Z (m_recoveryFrames s)) (dmul (m_fps c) (of_Z m_timeout)) in
  let init := m_newState s && negb (m_recoveryAttempt s) && negb (IsSpikeOn s) && deqb (of_Z (m_framesSinceLastSpike s)) (frames_in (m_timeToExplore s)) in
  if negb init && negb ongoing then Some (set_recovery false (m_recoveryFrames s) (m_timeToExplore s) s)
  else
    let s := if init then set_recovery true 0 (m_timeToExplore s) s else s in
    if ongoing then
      n ← int_chk (m_recoveryFrames s + 1);
      let s := set_recovery (m_recoveryAttempt s) n (m_timeToExplore s) s in
      Some (if deqb (of_Z n) (frames_in m_timeout)
            then set_spikes 0 0 false (set_threshold (of_Z 0) (set_estimate (of_Z 0) 0 (set_recovery false 0 m_timeout s))) else s)
    else Some s.

Definition CheckNewSteadyState (encoded_size : Z) (delay_in_ms : double) (s : steady) : option steady :=
  if negb (m_enableSteadyStateCheck c) then Some s
  else
    let high_in_recovery := m_recoveryAttempt s && dltb (ddiv (m_targetDelay c) (of_Z 2)) delay_in_ms in
    let high := dltb (m_targetDelay c) delay_in_ms || dltb delay_in_ms (of_Z 0) || high_in_recovery in
    let ends := negb high && IsSpikeOn s in
    let s := set_observed (if high then u32 (m_observeCounter s + 1) else 0) s in
    s ← (if ends then spike_ends s else Some s);
    s ← (if IsSpikeOn s || m_recoveryAttempt s then
           n ← (if encoded_size =? 0 then Some (m_encFramesForThreshold s) else int_chk (m_encFramesForThreshold s + 1));
           Some (set_estimate (dadd (m_estimateAcc s) (of_Z encoded_size)) n s)
         else Some s);
    since ← int_chk (m_framesSinceLastSpike s + 1);
    s ← ManageRecoveryAttempt (set_spikes (m_spikes s) since (m_newState s) s);
    Some (if dleb (frames_in m_timeout) (of_Z (m_framesSinceLastSpike s)) then set_spikes 0 (m_framesSinceLastSpike s) (m_newState s) s else s).

(** ** The target *)

(** [AdjustTarget] on the new target [next]. *)
Definition AdjustTarget (s : steady) (delay_in_ms previous next : double) : double :=
  let next := if dleb (dmul (decimal 9 1) (m_targetDelay c)) delay_in_ms && dleb previous next then dmul previous (decimal 9 1) else next in
  if negb (m_enableSteadyStateCheck c) || m_recoveryAttempt s then next
  else if m_newState s && dltb (of_Z 0) (m_estimatedThresholdSize s) then
    let cap := dmul (decimal 95 2) (m_estimatedThresholdSize s) in if dltb cap next then cap else next
  else next.

(** The line that the target is taken from: after an exceptionally late frame the delay is
    taken for the network's, and when it is close to the target half of it for the
    bandwidth's. *)
Definition exception_line (h : history) (l : line) (sizeInK delay_in_ms : double) : line :=
  if few (length (m_sizes h)) then l
  else
    let '(mse, count) :=
      weighted (fun w r '(e, n) =>
        if no_record r then (e, n)
        else let est := dadd (dmul (m_reverseBandWidth l) r.2) (m_propagotionDelay l) in
             (dadd e (dmul (dmul (dmul w w) (dsub r.1 est)) (dsub r.1 est)), dadd n (dmul w w)))
        (tail (zip (m_delays h) (m_sizes h))) (of_Z 1) (of_Z 0, of_Z 0) in
    if dltb tiny count then
      let standardError := dsqrt (ddiv mse count) in
      let est := dadd (dmul (m_reverseBandWidth l) sizeInK) (m_propagotionDelay l) in
      if dltb (dmul m_exceptionThreshold standardError) (dsub delay_in_ms est) then
        let pd := dsub delay_in_ms (dmul (m_reverseBandWidth l) sizeInK) in
        if dltb (dmul (decimal 9 1) (m_targetDelay c)) delay_in_ms then
          let pd := dadd (dmul (decimal 5 1) pd) (dmul (decimal 5 1) (m_propagotionDelay l)) in
          {| m_reverseBandWidth := ddiv (dsub delay_in_ms pd) sizeInK; m_propagotionDelay := pd |}
        else {| m_reverseBandWidth := m_reverseBandWidth l; m_propagotionDelay := pd |}
      else l
    else l.

(** The limits. *)
Definition limit (x : double) : double :=
  let y := if dltb x (m_minTargetSize c) || is_nan x then m_minTargetSize c else x in
  if dltb (m_maxTargetSize c) y then m_maxTargetSize c else y.

(** The output filter; [next] is within the limits. *)
Definition smooth (filtered next : double) : double :=
  let filtered := if dltb filtered (of_Z 1) then next else filtered in
  dadd (dmul (dmul filtered (decimal 9 1)) (m_filterFactor c)) (dmul next (dsub (of_Z 1) (dmul (m_filterFactor c) (decimal 9 1)))).

(** A new record, and the oldest one dropped. *)
Definition record_frame (sizeInK delay_in_ms : double) (h : history) : history :=
  let delays := delay_in_ms :: m_delays h in
  let sizes := sizeInK :: m_sizes h in
  let full := m_recordedLen c <? i32 (Z.of_nat (length delays)) in
  let eff := dleb m_effectiveSizeThreshold sizeInK in
  let es := if eff then sizeInK :: m_effectiveSizes h else m_effectiveSizes h in
  let ed := if eff then delay_in_ms :: m_effectiveDelays h else m_effectiveDelays h in
  let drop := eff && Nat.ltb m_effectiveDataLen (length ed) in
  {| m_delays := if full then removelast delays else delays; m_sizes := if full then removelast sizes else sizes;
     m_effectiveDelays := if drop then removelast ed else ed; m_effectiveSizes := if drop then removelast es else es |}.
End Model.

(** No delay: the target shrinks. *)
Definition shrink (c : settings) (t : target) : target :=
  let n := dmul (m_nextTargetSize t) (decimal 95 2) in
  {| m_nextTargetSize := if dltb n (m_minTargetSize c) then m_minTargetSize c else n;
     m_previousTargetSize := m_previousTargetSize t; m_filteredTargetSize := m_filteredTargetSize t |}.

(** A new target from the line [l]. *)
Definition retarget (c : settings) (s : steady) (l : line) (delay_in_ms : double) (t : target) : target :=
  let next := ddiv (dsub (dmul (decimal 9 1) (m_targetDelay c)) (m_propagotionDelay l)) (m_reverseBandWidth l) in
  let next := limit c (AdjustTarget c s delay_in_ms (m_nextTargetSize t) next) in
  let f := smooth c (m_filteredTargetSize t) next in
  {| m_nextTargetSize := f; m_previousTargetSize := m_nextTargetSize t; m_filteredTargetSize := f |}.

Definition UpdateSizeAndDelay (size encoded_size : Z) (delay_in_ms : double) (p : NetPred) : option NetPred :=
  let c := conf p in
  s ← CheckNewSteadyState c encoded_size delay_in_ms (stst p);
  let p := with_stst s p in
  if dltb delay_in_ms (of_Z 0) then Some (with_tgt (shrink c (tgt p)) p)
  else
    let sizeInK := ddiv (of_Z size) (of_Z 1000) in
    let h := record_frame c sizeInK delay_in_ms (hist p) in
    let l := UpdateModel c h (model p) in
    let t := retarget c s (exception_line c h l sizeInK delay_in_ms) delay_in_ms (tgt p) in
    Some (with_tgt t (with_model l (with_hist h p))).

Definition GetNextFrameSize (p : NetPred) : option Z := z ← to_int (dmul (m_nextTargetSize (tgt p)) (of_Z 1000)); Some (u32 z).
Definition GetTargetDelay (p : NetPred) : double := m_targetDelay (conf p).

(** ** Calls *)

(** What the rest of the program does with a predictor while frames are sent. *)
Inductive call :=
| CUpdate (size encoded_size : Z) (delay_in_ms : double)
| CSetFPS (fps : double)
| CSetTargetDelay (d : double)
| CSetRecordedLen (n : Z)
| CClear.

Definition exec (k : call) (p : NetPred) : option NetPred :=
  match k with
  | CUpdate size enc delay => UpdateSizeAndDelay size enc delay p
  | CSetFPS f => Some (with_conf (SetFPS f (conf p)) p)
  | CSetTargetDelay d => Some (with_conf (SetTargetDelay d (conf p)) p)
  | CSetRecordedLen n => Some (with_conf (SetRecordedLen n (conf p)) p)
  | CClear => Some (Clear p)
  end.

Fixpoint exec_all (ks : list call) (p : NetPred) : option NetPred :=
  match ks with [] => Some p | k :: ks => p ← exec k p; exec_all ks p end.

Definition is_update (k : call) : bool := match k with CUpdate _ _ _ => true | _ => false end.

(** ** The counters *)

(** No counter is larger than the number of updates. *)
Definition counted (n : Z) (s : steady) : Prop :=
  0 <= m_framesSinceLastSpike s <= n /\ 0 <= m_encFramesForThreshold s <= n /\ 0 <= m_spikes s <= n /\ 0 <= m_recoveryFrames s <= n.

Lemma counted_mono n n' s : counted n s -> n <= n' -> counted n' s.
Proof. unfold counted. lia. Qed.

Lemma spike_ends_counted c n s : counted n s -> n < INT_MAX -> exists s', spike_ends c s = Some s' /\ counted (n + 1) s' /\
  m_framesSinceLastSpike s' = 0 /\ 0 <= m_encFramesForThreshold s' <= n /\ 0 <= m_recoveryFrames s' <= n.
Proof.
  intros H Hn. unfold spike_ends, counted in *. rewrite int_chk_Some by (unfold INT_MIN, INT_MAX in *; lia). cbn [mbind option_bind].
  unfold UpdateSteadyState. destruct (_ && (0 <? _) && _); [destruct (_ || dltb _ _)|]; destruct (m_recoveryAttempt _ && _);
    (eexists; split; [reflexivity|]; cbn; lia).
Qed.

Lemma recovery_counted c n s : counted n s -> m_recoveryFrames s < n -> n <= INT_MAX -> exists s', ManageRecoveryAttempt c s = Some s' /\ counted n s'.
Proof.
  intros H Hr Hn. unfold ManageRecoveryAttempt. set (ongoing := m_recoveryAttempt s && _). set (init := m_newState s && _ && _ && _).
  clearbody ongoing init. destruct (negb init && negb ongoing); [eexists; split; [reflexivity|exact H]|]. unfold counted in *.
  destruct ongoing; [|destruct init; (eexists; split; [reflexivity|cbn; lia])].
  rewrite int_chk_Some by (destruct init; cbn; unfold INT_MIN, INT_MAX in *; lia). cbn [mbind option_bind]. eexists. split; [reflexivity|].
  destruct (deqb _ _), init; cbn; lia.
Qed.

Lemma steady_counted c enc d n s : counted n s -> n < INT_MAX -> exists s', CheckNewSteadyState c enc d s = Some s' /\ counted (n + 1) s'.
Proof.
  intros H Hn. unfold CheckNewSteadyState. destruct (negb _); [eexists; split; [reflexivity|]; eapply counted_mono; [exact H|lia]|].
  set (high := _ || _ || _). set (s1 := set_observed _ s). assert (counted n s1) as H1 by exact H. clearbody high s1.
  assert (exists s2, (if negb high && IsSpikeOn s then spike_ends c s1 else Some s1) = Some s2 /\ counted (n + 1) s2 /\
    0 <= m_framesSinceLastSpike s2 <= n /\ 0 <= m_encFramesForThreshold s2 <= n /\ 0 <= m_recoveryFrames s2 <= n) as (s2 & -> & H2 & Hs & He & Hr).
  { destruct (negb high && _).
    - destruct (spike_ends_counted c n s1 H1 Hn) as (s2 & -> & K & E & R). exists s2. unfold counted in *. split; [done|]. split; [done|]. lia.
    - exists s1. split; [done|]. split; [eapply counted_mono; [done|lia]|]. unfold counted in H1. lia. }
  cbn [mbind option_bind]. assert (exists s3, (if IsSpikeOn s2 || m_recoveryAttempt s2 then
      n ← (if enc =? 0 then Some (m_encFramesForThreshold s2) else int_chk (m_encFramesForThreshold s2 + 1));
      Some (set_estimate (dadd (m_estimateAcc s2) (of_Z enc)) n s2) else Some s2) = Some s3 /\ counted (n + 1) s3 /\
      m_framesSinceLastSpike s3 = m_framesSinceLastSpike s2 /\ m_recoveryFrames s3 = m_recoveryFrames s2) as (s3 & -> & H3 & Es & Er).
  { destruct (_ || _); [|by exists s2]. destruct (enc =? 0); [|rewrite int_chk_Some by (unfold INT_MIN, INT_MAX in *; lia)]; cbn [mbind option_bind];
      (eexists; split; [reflexivity|]; unfold counted in *; cbn; lia). }
  cbn [mbind option_bind]. rewrite int_chk_Some by (unfold INT_MIN, INT_MAX in *; lia). cbn [mbind option_bind].
  destruct (recovery_counted c (n + 1) (set_spikes (m_spikes s3) (m_framesSinceLastSpike s3 + 1) (m_newState s3) s3)) as (s4 & -> & H4);
    [unfold counted in *; cbn; lia|cbn; lia|lia|]. cbn [mbind option_bind]. eexists. split; [reflexivity|].
  destruct (dleb _ _); [|done]. unfold counted in *. cbn. lia.
Qed.

(** ** The target stays within the limits *)

(** The limits are [B] bytes and a tenth of it, and the filter is that of the constructor. *)
Definition limits (B : Z) (c : settings) : Prop :=
  m_maxTargetSize c = ddiv (of_Z B) (of_Z 1000) /\ m_minTargetSize c = ddiv (of_Z (B / 10)) (of_Z 1000) /\ m_filterFactor c = decimal 5 1.

(** The limits on the grid, and what rounding can add. *)
Definition lo (B : Z) : Z := B / 10 * 2 ^ 29 / 1000.
Definition hi (B : Z) : Z := B * 2 ^ 29 / 1000 + 1.
Definition in_limits (B : Z) (x : double) : Prop := between (Z.max 0 (lo B - 8)) (hi B + 8) x.

Ltac grid := Z.to_euclidean_division_equations; lia.

Lemma lo_hi B : 0 < B < 2 ^ 32 -> 0 <= lo B < 2 ^ 52 /\ 0 <= hi B < 2 ^ 52 /\ lo B + 1 <= hi B - 1.
Proof. unfold lo, hi. intros H. change (2 ^ 29) with 536870912. change (2 ^ 52) with 4503599627370496. change (2 ^ 32) with 4294967296 in H. grid. Qed.

Section Limits.
Context (B : Z) (HB : 0 < B < 2 ^ 32) (c : settings) (HL : limits B c).

Lemma max_between : between (lo B + 1) (hi B) (m_maxTargetSize c).
Proof.
  destruct HL as (-> & _). pose proof (lo_hi B HB) as L. change (2 ^ 52) with 4503599627370496 in L. change (2 ^ 32) with 4294967296 in HB.
  apply (between_mono (hi B - 1) (hi B)); [|lia..]. apply div_between; change (2 ^ 53) with 9007199254740992; unfold hi in *; change (2 ^ 29) with 536870912 in *; grid.
Qed.

Lemma min_between : between (lo B) (lo B + 1) (m_minTargetSize c).
Proof.
  destruct HL as (_ & -> & _). pose proof (lo_hi B HB) as L. change (2 ^ 52) with 4503599627370496 in L. change (2 ^ 32) with 4294967296 in HB.
  apply div_between; change (2 ^ 53) with 9007199254740992; unfold lo in *; change (2 ^ 29) with 536870912 in *; grid.
Qed.

Lemma limit_between x : valid x = true -> between (lo B) (hi B) (limit c x).
Proof.
  intros V. pose proof max_between as [Nx Bx]. pose proof min_between as [Nn Bn].
  destruct (clamp_within (m_minTargetSize c) (m_maxTargetSize c) x V Nn Nx ltac:(lia)) as [N H]. split; [exact N|]. unfold limit. lia.
Qed.

Lemma full_0_9 : full (decimal 9 1). Proof. vm_compute. reflexivity. Qed.
Lemma full_0_95 : full (decimal 95 2). Proof. vm_compute. reflexivity. Qed.

Lemma adjusted_valid s d prev next : valid next = true -> valid (AdjustTarget c s d prev next) = true.
Proof.
  intros V. unfold AdjustTarget. set (n := if _ && _ then _ else _).
  assert (valid n = true) as Vn by (unfold n; destruct (_ && _); [apply dmul_valid, full_0_9|done]). clearbody n.
  destruct (_ || _); [done|]. destruct (_ && _); [|done]. destruct (dltb _ _); [|done]. rewrite dmul_comm. apply dmul_valid, full_0_95.
Qed.

(** The filter: what is between the limits, give or take its own error, stays there. *)
Lemma smooth_between f next : f = of_Z 0 \/ in_limits B f -> between (lo B) (hi B) next -> in_limits B (smooth c f next).
Proof.
  intros Hf Hn. pose proof (lo_hi B HB) as L. unfold smooth. destruct HL as (_ & _ & ->). set (f' := if dltb f _ then _ else _).
  assert (in_limits B f') as Hf'.
  { assert (in_limits B next) by (eapply between_mono; [exact Hn|lia..]). unfold f'. destruct Hf as [->|Hf]; [done|]. by destruct (dltb _ _). }
  clearbody f'. clear Hf f. unfold in_limits in *. set (l := lo B) in *. set (h := hi B) in *. clearbody l h.
  change (2 ^ 52) with 4503599627370496 in L.
  set (l8 := Z.max 0 (l - 8)) in *. set (a0 := l8 * 8106479329266893 / 9007199254740992). set (a1 := (h + 8) * 8106479329266893 / 9007199254740992 + 1).
  assert (between a0 a1 (dmul f' (decimal 9 1))) as HA.
  { apply (scale_between _ _ 8106479329266893 _ _ _ _ Hf'); [by vm_compute|by vm_compute|lia|..]; change (2 ^ 53) with 9007199254740992; unfold a0, a1; grid. }
  assert (between (a0 / 2) (a1 / 2 + 1) (dmul (dmul f' (decimal 9 1)) (decimal 5 1))) as HA2.
  { apply (scale_between _ _ 4503599627370496 _ _ _ _ HA); [by vm_compute|by vm_compute|lia|..]; change (2 ^ 53) with 9007199254740992; unfold a0, a1; grid. }
  set (c0 := l * 4953959590107546 / 9007199254740992). set (c1 := h * 4953959590107546 / 9007199254740992 + 1).
  assert (between c0 c1 (dmul next (dsub (of_Z 1) (dmul (decimal 5 1) (decimal 9 1))))) as HC.
  { apply (scale_between _ _ 4953959590107546 _ _ _ _ Hn); [by vm_compute|by vm_compute|lia|..]; change (2 ^ 53) with 9007199254740992; unfold c0, c1; grid. }
  eapply between_mono; [apply (add_between _ _ _ _ _ _ HA2 HC); change (2 ^ 53) with 9007199254740992|..]; unfold a0, a1, c0, c1, l8; grid.
Qed.

(** The state of the target: [u] tells whether there was an update. *)
Definition target_ok (u : bool) (t : target) : Prop :=
  (if u then in_limits B (m_nextTargetSize t) else m_nextTargetSize t = of_Z 0) /\
  (m_filteredTargetSize t = of_Z 0 \/ in_limits B (m_filteredTargetSize t)).

Lemma shrink_ok u t : target_ok u t -> target_ok true (shrink c t).
Proof.
  intros [Hn Hf]. split; [|exact Hf]. unfold shrink. cbn [m_nextTargetSize]. pose proof min_between as [Nm Bm].
  pose proof (lo_hi B HB) as L. change (2 ^ 52) with 4503599627370496 in L.
  assert (between 0 (hi B + 8) (m_nextTargetSize t)) as Hn0.
  { destruct u; [eapply between_mono; [exact Hn|lia..]|]. rewrite Hn. split; [done|]. cbn [val]. unfold units.
    pose proof (Z.pow_pos_nonneg 2 1045 ltac:(lia) ltac:(lia)). change (val (of_Z 0)) with 0. nia. }
  assert (between 0 (hi B + 8) (dmul (m_nextTargetSize t) (decimal 95 2))) as [N V].
  { apply (scale_between _ _ 8556839292003942 _ _ _ _ Hn0); [by vm_compute|by vm_compute|lia|..]; change (2 ^ 53) with 9007199254740992; lia. }
  set (n := dmul _ _) in *. destruct (dltb n _) eqn:E.
  - apply (between_mono (lo B) (lo B + 1)); [by split|lia..].
  - rewrite dltb_val in E by done. apply Z.ltb_ge in E. split; [done|]. assert (units (Z.max 0 (lo B - 8)) <= units (lo B)) by (apply (proj1 (units_le _ _)); lia). lia.
Qed.

Lemma retarget_ok u s l d t : target_ok u t -> target_ok true (retarget c s l d t).
Proof.
  intros [Hn Hf]. unfold retarget. assert (in_limits B (smooth c (m_filteredTargetSize t) (limit c (AdjustTarget c s d (m_nextTargetSize t)
    (ddiv (dsub (dmul (decimal 9 1) (m_targetDelay c)) (m_propagotionDelay l)) (m_reverseBandWidth l)))))) as K.
  { apply smooth_between; [done|]. apply limit_between, adjusted_valid, ddiv_valid. }
  split; [exact K|right; exact K].
Qed.
End Limits.

(** ** Theorems *)

Definition pred_ok (B n : Z) (u : bool) (p : NetPred) : Prop := limits B (conf p) /\ counted n (stst p) /\ target_ok B u (tgt p).

(** A predictor as it is after its construction and [SetMaxTargetSize] and [SetMinTargetSize]. *)
Definition fresh (B : Z) (p : NetPred) : Prop :=
  limits B (conf p) /\ stst p = steady0 /\ m_nextTargetSize (tgt p) = of_Z 0 /\ m_filteredTargetSize (tgt p) = of_Z 0.

Lemma fresh_ok B p : fresh B p -> pred_ok B 0 false p.
Proof. intros (L & S & N & F). split; [done|]. split; [rewrite S; by repeat split|]. split; [done|by left]. Qed.

Lemma update_ok B n u size enc d p : 0 < B < 2 ^ 32 -> pred_ok B n u p -> n < INT_MAX ->
  exists p', UpdateSizeAndDelay size enc d p = Some p' /\ pred_ok B (n + 1) true p' /\ conf p' = conf p.
Proof.
  intros HB (L & S & T) Hn. unfold UpdateSizeAndDelay. destruct (steady_counted (conf p) enc d n (stst p) S Hn) as (s & -> & S').
  cbn [mbind option_bind]. destruct (dltb d _); (eexists; split; [reflexivity|]; split; [|done]; split; [done|]; split; [done|]).
  - by eapply shrink_ok.
  - by eapply retarget_ok.
Qed.

Lemma pred_exec_ok B n u k p : 0 < B < 2 ^ 32 -> pred_ok B n u p -> n < INT_MAX ->
  exists p', exec k p = Some p' /\ pred_ok B (n + 1) (u || is_update k) p'.
Proof.
  intros HB H Hn. assert (forall q, limits B (conf q) -> stst q = stst p -> tgt q = tgt p -> pred_ok B (n + 1) (u || false) q) as K.
  { intros q L S T. destruct H as (_ & Hc & Ht). split; [done|]. rewrite S, T, orb_false_r. split; [|done]. eapply counted_mono; [done|lia]. }
  destruct H as [L H]. destruct k as [size enc d|f|d|m|]; cbn [exec is_update]; [|eexists; split; [reflexivity|by apply K]..].
  destruct (update_ok B n u size enc d p HB (conj L H) Hn) as (p' & E & O & _). rewrite orb_true_r. eauto.
Qed.

Lemma exec_all_ok B ks : forall n u p, 0 < B < 2 ^ 32 -> pred_ok B n u p -> n + Z.of_nat (length ks) <= INT_MAX ->
  exists p', exec_all ks p = Some p' /\ pred_ok B (n + Z.of_nat (length ks)) (u || existsb is_update ks) p'.
Proof.
  induction ks as [|k ks IH]; intros n u p HB H Hn; cbn [exec_all existsb length] in *.
  - exists p. rewrite orb_false_r, Z.add_0_r. done.
  - destruct (pred_exec_ok B n u k p HB H ltac:(lia)) as (p1 & -> & H1). cbn [mbind option_bind].
    destruct (IH (n + 1) (u || is_update k) p1 HB H1 ltac:(lia)) as (p2 & -> & H2). exists p2. split; [done|].
    by replace (n + Z.of_nat (S (length ks))) with (n + 1 + Z.of_nat (length ks)) by lia; rewrite orb_assoc.
Qed.

(** The target in bytes. *)
Lemma frame_size_ok B n u p : 0 < B < 2 ^ 31 -> pred_ok B n u p ->
  exists z, GetNextFrameSize p = Some z /\ if u then Z.max 0 (B / 10 - 1) <= z <= B else z = 0.
Proof.
  intros HB (_ & _ & [H _]). unfold GetNextFrameSize, to_int. destruct u.
  - change (2 ^ 31) with 2147483648 in HB. destruct H as [N V]. destruct (val_of_Z 1000 ltac:(lia)) as [N1 V1].
    set (b1 := Z.max 0 (2 * (B / 10) - 1)).
    assert (forall k, 0 <= k < 2 ^ 53 -> rep (k * 2 ^ 1073)) as R by (intros k Hk; exists k, (-1); repeat split; lia).
    assert (nonneg (dmul (m_nextTargetSize (tgt p)) (of_Z 1000)) /\ b1 * 2 ^ 1073 <= val (dmul (m_nextTargetSize (tgt p)) (of_Z 1000)) <= (2 * B + 1) * 2 ^ 1073) as [Nm Vm].
    { apply dmul_within; [done|done|apply R; change (2 ^ 53) with 9007199254740992; unfold b1; grid..|]. rewrite V1. unfold units in V.
      assert (2 ^ 1073 = 2 ^ 28 * 2 ^ 1045) as -> by reflexivity. pose proof (Z.pow_pos_nonneg 2 1045 ltac:(lia) ltac:(lia)).
      pose proof (Z.pow_pos_nonneg 2 1074 ltac:(lia) ltac:(lia)). set (u := 2 ^ 1045) in *. set (w := 2 ^ 1074) in *.
      assert (b1 * 2 ^ 28 <= Z.max 0 (lo B - 8) * 1000) as A1 by (unfold b1, lo; change (2 ^ 28) with 268435456; change (2 ^ 29) with 536870912; grid).
      assert ((hi B + 8) * 1000 <= (2 * B + 1) * 2 ^ 28) as A2 by (unfold hi; change (2 ^ 28) with 268435456; change (2 ^ 29) with 536870912; grid).
      clearbody u w b1. set (q := 2 ^ 28) in *. clearbody q. set (v := val (m_nextTargetSize (tgt p))) in *. clearbody v. split.
      - replace (b1 * (q * u) * w) with (b1 * q * u * w) by ring. replace (v * (1000 * w)) with (v * 1000 * w) by ring. apply Z.mul_le_mono_nonneg_r; [lia|]. nia.
      - replace ((2 * B + 1) * (q * u) * w) with ((2 * B + 1) * q * u * w) by ring. replace (v * (1000 * w)) with (v * 1000 * w) by ring. apply Z.mul_le_mono_nonneg_r; [lia|]. nia. }
    rewrite trunc_val by done. cbn [mbind option_bind]. set (z := val _ / 2 ^ 1074).
    assert (B / 10 - 1 <= z <= B /\ 0 <= z) as Hz.
    { unfold z. change (2 ^ 1074) with (2 * 2 ^ 1073). pose proof (Z.pow_pos_nonneg 2 1073 ltac:(lia) ltac:(lia)). set (w := 2 ^ 1073) in *. clearbody w.
      set (v := val _) in *. clearbody v. assert (2 * (B / 10 - 1) <= b1 /\ 0 <= b1) as [Hb Hb0] by (unfold b1; lia). clearbody b1. set (t := B / 10) in *. clearbody t. split; [split|].
      - apply Z.div_le_lower_bound; [lia|]. transitivity (b1 * w); [|lia]. replace (2 * w * (t - 1)) with (2 * (t - 1) * w) by ring. apply Z.mul_le_mono_nonneg_r; lia.
      - apply Z.lt_succ_r, Z.div_lt_upper_bound; [lia|]. nia.
      - apply Z.div_le_lower_bound; nia. }
    clearbody z. rewrite int_chk_Some by (unfold INT_MIN, INT_MAX; lia). cbn [mbind option_bind]. exists z. split; [|lia].
    f_equal. unfold u32. apply wrapu_small. lia.
  - rewrite H. by exists 0.
Qed.

(** The size of the next frame stays between the limits.  From a fresh predictor with a
    greatest frame of [B] bytes and a smallest of a tenth of it, whatever sizes and delays
    are reported, whole or not, negative, infinite or no numbers at all, and whatever else
    is set in between: every call is defined, the size is 0 until the first report, and
    from then on at most [B] and at least the smallest size less the byte that rounding
    can cost. *)
Theorem frame_size_in_range B p ks : 0 < B < 2 ^ 31 -> fresh B p -> Z.of_nat (length ks) <= INT_MAX ->
  exists p' z, exec_all ks p = Some p' /\ GetNextFrameSize p' = Some z /\
    if existsb is_update ks then Z.max 0 (B / 10 - 1) <= z <= B else z = 0.
Proof.
  intros HB F Hl. destruct (exec_all_ok B ks 0 false p ltac:(lia) (fresh_ok B p F) ltac:(lia)) as (p' & E & O).
  destruct (frame_size_ok B _ _ p' HB O) as (z & Z & R). eauto.
Qed.

(** *** Recovery *)

(** In the low steady state, with no recovery going on. *)
Definition stuck (s : steady) : Prop := m_newState s = true /\ m_recoveryAttempt s = false /\ m_timeToExplore s = m_timeout.

Lemma stuck_steady c enc d n s s' : counted n s -> n < INT_MAX -> stuck s ->
  (forall k, 0 <= k <= INT_MAX -> deqb (of_Z k) (frames_in c m_timeout) = false) -> CheckNewSteadyState c enc d s = Some s' -> stuck s'.
Proof.
  intros C Hn (Nw & At & Ex) W. unfold CheckNewSteadyState. destruct (negb _); [intros [= <-]; done|].
  set (high := _ || _ || _). set (s1 := set_observed _ s). assert (stuck s1) as S1 by done. assert (counted n s1) as C1 by exact C. clearbody high s1.
  destruct (if negb high && IsSpikeOn s then _ else _) as [s2|] eqn:E2; [|done]. cbn [mbind option_bind].
  assert (stuck s2 /\ counted (n + 1) s2 /\ 0 <= m_framesSinceLastSpike s2 <= n) as (S2 & C2 & F2).
  { destruct (negb high && _); [|injection E2 as <-; split; [done|]; split; [eapply counted_mono; [done|lia]|]; unfold counted in C1; lia].
    destruct (spike_ends_counted c n s1 C1 Hn) as (s3 & E3 & C3 & F3 & _). rewrite E3 in E2. injection E2 as <-. split; [|split; [done|unfold counted in C1; lia]].
    revert E3. unfold spike_ends. destruct (int_chk _); [|done]. cbn [mbind option_bind]. destruct S1 as (N1 & A1 & X1).
    unfold UpdateSteadyState. destruct (_ && (0 <? _) && _); [destruct (_ || dltb _ _)|]; cbn; rewrite A1; cbn; intros [= <-]; unfold stuck; cbn; by rewrite N1, orb_true_r. }
  destruct (if IsSpikeOn s2 || _ then _ else _) as [s3|] eqn:E3; [|done]. cbn [mbind option_bind].
  assert (stuck s3 /\ m_framesSinceLastSpike s3 = m_framesSinceLastSpike s2) as [S3 F3].
  { destruct (_ || _); [|by injection E3 as <-]. destruct (if enc =? 0 then _ else _); [|done]. by injection E3 as <-. }
  rewrite int_chk_Some by (unfold INT_MIN, INT_MAX in *; lia). cbn [mbind option_bind].
  unfold ManageRecoveryAttempt. destruct S3 as (N3 & A3 & X3). cbn. rewrite N3, A3, X3. cbn.
  rewrite W by lia. rewrite andb_false_r. cbn. intros [= <-]. by destruct (dleb _ _).
Qed.

(** With a frame rate that is not a whole number of frames in ten seconds the predictor
    never recovers.  The frame count is compared with [m_timeToExplore * m_fps] for
    equality: once two spikes made it settle for a smaller size, no sequence of reports,
    however good the network gets, starts a recovery, and the smaller size stays. *)
Theorem fractional_rate_never_recovers (us : list (Z * Z * double)) B n p p' : 0 < B < 2 ^ 32 -> pred_ok B n true p -> n + Z.of_nat (length us) <= INT_MAX ->
  (forall k, 0 <= k <= INT_MAX -> deqb (of_Z k) (frames_in (conf p) m_timeout) = false) -> stuck (stst p) ->
  exec_all (map (fun '(a, e, d) => CUpdate a e d) us) p = Some p' -> stuck (stst p').
Proof.
  intros HB. revert n p. induction us as [|[[a e] d] us IH]; intros n p O Hn W S; cbn [map exec_all exec]; [by intros [= <-]|].
  cbn [length] in Hn. destruct (update_ok B n true a e d p HB O ltac:(lia)) as (p1 & E & O1 & Ec). rewrite E. cbn [mbind option_bind].
  apply (IH (n + 1)); [done|lia|by rewrite Ec|]. revert E. unfold UpdateSizeAndDelay.
  destruct (CheckNewSteadyState _ _ _ _) as [s|] eqn:E; [|done]. cbn [mbind option_bind]. destruct O as (_ & C & _).
  assert (stuck s) by (eapply stuck_steady; [exact C| |done..]; lia). destruct (dltb d _); by intros [= <-].
Qed.

(** *** Small frames *)

Lemma fold_shift l : forall d s, (length l <= length d)%nat -> (length l <= length s)%nat ->
  fold_left (fun '(d, s) x => (shift_in x d, shift_in x s)) l (d, s) =
  (rev l ++ take (length d - length l) d, rev l ++ take (length s - length l) s).
Proof.
  assert (forall x (d : list double), d <> [] -> shift_in x d = x :: take (length d - 1) d) as K.
  { intros x d Hd. unfold shift_in. destruct d as [|y d] using rev_ind; [done|]. rewrite app_comm_cons, removelast_last, length_app.
    cbn [length]. replace (length d + 1 - 1)%nat with (length d) by lia. by rewrite take_app_length. }
  induction l as [|x l IH]; intros d s Hd Hs; cbn [fold_left length rev] in *.
  - by rewrite !Nat.sub_0_r, !firstn_all.
  - assert (d <> []) by (by destruct d; cbn in *; [lia|]). assert (s <> []) by (by destruct s; cbn in *; [lia|]).
    assert (length (shift_in x d) = length d) by (rewrite K by done; cbn [length]; rewrite length_take; lia).
    assert (length (shift_in x s) = length s) by (rewrite K by done; cbn [length]; rewrite length_take; lia).
    rewrite IH by lia. rewrite !K by done. cbn [length]. rewrite !length_take. f_equal.
    + replace (S ((length d - 1) `min` length d) - length l)%nat with (S (length d - S (length l))) by lia.
      cbn [take]. rewrite take_take, <- app_assoc. cbn [app]. do 3 f_equal. lia.
    + replace (S ((length s - 1) `min` length s) - length l)%nat with (S (length s - S (length l))) by lia.
      cbn [take]. rewrite take_take, <- app_assoc. cbn [app]. do 3 f_equal. lia.
Qed.

(** When all recorded frames are smaller than a kilobyte, the sizes of the last larger ones
    are taken for their delays as well: the line is fitted to points whose delay is their
    size. *)
Theorem sizes_taken_for_delays h : existsb (fun s => dleb m_effectiveSizeThreshold s) (m_sizes h) = false ->
  (length (m_effectiveSizes h) <= length (m_delays h))%nat -> length (m_sizes h) = length (m_delays h) ->
  records h = (m_effectiveSizes h ++ take (length (m_delays h) - length (m_effectiveSizes h)) (m_delays h),
               m_effectiveSizes h ++ take (length (m_delays h) - length (m_effectiveSizes h)) (m_sizes h)).
Proof.
  intros E L El. unfold records. rewrite E, fold_shift by (rewrite length_rev; lia). by rewrite rev_involutive, length_rev, El.
Qed.

(** ** Witnesses *)

(** A predictor for frames of at most 50000 bytes, with the settings of the encoder. *)
Definition sample_pred (fps : double) : NetPred :=
  let p := NetPred_new (decimal 97723722095581 14) None in
  with_conf (SetFPS fps (SetTargetDelay (of_Z 100) (SetRecordedLen 100 (SetMinTargetSize 5000 (SetMaxTargetSize 50000 (conf p)))))) p.

Lemma frame_size_in_range_witness : exists p' z,
  exec_all [CUpdate 20000 20000 (of_Z 30); CUpdate 21000 20000 S754_nan; CUpdate 0 20000 (of_Z (-1)); CUpdate 90000 1 (S754_infinity false)]
    (sample_pred (of_Z 30)) = Some p' /\ GetNextFrameSize p' = Some z /\ 4999 <= z <= 50000.
Proof. apply (frame_size_in_range 50000); [lia|by vm_compute|vm_compute; discriminate]. Defined.

(** A rate of 29.97 frames per second, in the low steady state. *)
Definition low_state : steady :=
  {| m_observeCounter := 0; m_framesSinceLastSpike := 0; m_encFramesForThreshold := 0; m_newState := true; m_spikes := 0;
     m_recoveryAttempt := false; m_recoveryFrames := 0; m_estimateAcc := of_Z 0; m_estimatedThresholdSize := of_Z 8; m_timeToExplore := m_timeout |}.
Definition low_pred : NetPred :=
  let p := with_stst low_state (sample_pred (decimal 2997 2)) in
  with_tgt {| m_nextTargetSize := of_Z 8; m_previousTargetSize := of_Z 8; m_filteredTargetSize := of_Z 8 |} p.

Definition low_reports : list (Z * Z * double) := [(2000, 2000, of_Z 10); (2000, 2000, of_Z 10)].

Lemma fractional_rate_never_recovers_witness : exists p',
  exec_all (map (fun '(a, e, d) => CUpdate a e d) low_reports) low_pred = Some p' /\ stuck (stst p').
Proof.
  destruct (exec_all (map (fun '(a, e, d) => CUpdate a e d) low_reports) low_pred) as [p'|] eqn:E; [|vm_compute in E; discriminate E].
  exists p'. split; [reflexivity|].
  apply (fractional_rate_never_recovers low_reports 50000 0 low_pred p');
    [lia| |vm_compute; discriminate| |repeat split|exact E].
  - split; [split; [|split]; vm_compute; reflexivity|]. split; [vm_compute; repeat split; discriminate|]. split; [|right]; (split; [done|]; vm_compute; split; discriminate).
  - intros k Hk. destruct (deqb _ _) eqn:D; [|done]. exfalso.
    destruct (val_of_Z k ltac:(unfold INT_MAX in *; lia)) as [Nk Vk]. apply deqb_val in D; [|done|by vm_compute]. rewrite Vk in D.
    apply (f_equal (fun v => v mod 2 ^ 1074)) in D. rewrite Z.mod_mul in D by lia. vm_compute in D. discriminate D.
Defined.
