(* ===== verification/Tcae.v ===== *)
(** * Tcae: target sizes from client feedback

    Models [encoder/shared/tcae/enc_frame_settings_predictor.cpp]
    ([PredictorTcaeImpl]: start and its checks, the queues of feedback and encoded
    sizes, the prediction with key frames and frame drops) and [CTcaeWrapper.cpp]
    (what the transcoder calls, and its log).  The predictor of [NetPred] does the
    arithmetic; [ratio] and [env] are its arguments. *)

From Stdlib Require Import ZArith Lia Bool String.
From Stdlib Require Import Floats.SpecFloat.
From stdpp Require Import base list option.
From S2P Require Import Prelude StdMap CNum Doubles NetPred.

(** ** Data *)

Inductive tcaeStatus :=
| ERR_NONE | ERR_UNKNOWN | ERR_NULL_PTR | ERR_UNSUPPORTED | ERR_MEMORY_ALLOC | ERR_INVALID_ARG | ERR_INVALID_HANDLE
| ERR_LOCK_MEMORY | ERR_NOT_INITIALIZED | ERR_UNDEFINED_BEHAVIOR | ERR_MORE_DATA | ERR_MORE_SURFACE | ERR_ABORTED.
Definition status_value (s : tcaeStatus) : Z :=
  match s with
  | ERR_NONE => 0 | ERR_UNKNOWN => -1 | ERR_NULL_PTR => -2 | ERR_UNSUPPORTED => -3 | ERR_MEMORY_ALLOC => -4 | ERR_INVALID_ARG => -5
  | ERR_INVALID_HANDLE => -6 | ERR_LOCK_MEMORY => -7 | ERR_NOT_INITIALIZED => -8 | ERR_UNDEFINED_BEHAVIOR => -9
  | ERR_MORE_DATA => -10 | ERR_MORE_SURFACE => -11 | ERR_ABORTED => -12
  end.

Definition TCAE_USE_DEFAULT_VALUE : Z := 0.
Definition TCAE_MODE_UNKNOWN : Z := 0.
Definition TCAE_PREDICT_FRAME_SIZE : Z := 1.
Definition TCAE_FRAME_DROP : Z := 2.
Definition TCAE_MODE_STANDALONE : Z := 4.
Definition TCAE_FRAMETYPE_UNKNOWN : Z := 0.
Definition TCAE_FRAMETYPE_I : Z := 1.
Definition TCAE_FRAMETYPE_REF : Z := 64.
Definition TCAE_FRAMETYPE_IDR : Z := 128.

Record TcaeInitParams_t := {
  featuresSet : Z; targetDelayInMs : Z; bufferedRecordsCount : Z; maxSequentialDropsCount : Z; maxFrameSizeInBytes : Z; minDropFramesDistance : Z }.
Record PerFrameNetworkData_t := { lastPacketDelayInUs : Z; transmittedDataSizeInBytes : Z; idrRequired : bool }.
Record EncodedFrameFeedback_t := { fb_encFrameType : Z; fb_frameSizeInBytes : Z; fb_frameOrder : Z }.
Record FrameSettings_t := { encFrameType : Z; frameSizeInBytes : Z; dropFrame : bool }.

Definition DefaultEnabledFeatures : Z := TCAE_PREDICT_FRAME_SIZE.
Definition DefaultRecordsCount : Z := 100.
Definition DefaultMaxDropsCountInSequence : Z := 3.
Definition DefaultMinDropFramesDistance : Z := 1.
Definition DefaultMaxFrameSizeInBytes : Z := 50000.
Definition IDRSizeIncreaseCoeff : Z := 3.

(** The predictor; what a call leaves alone is kept by the updates below. *)
Record PredictorTcaeImpl := {
  m_NetworkPredictor : option NetPred; m_features : Z; m_initialTargetDelayInMs : Z; m_maxSequentialDropsCount : Z;
  m_maxFrameSizeInBytes : Z; m_minDropFramesDist : Z; m_framesSinceLastDrop : Z;
  m_cachedBitstreamSize : list Z; m_cachedNetworkStats : list (Z * Z); m_idrRequested : bool; m_validFeedback : bool;
  m_frameDropsCount : Z; m_lastKnownDelayInMs : Z; m_lastTransmittedSize : Z }.

Definition PredictorTcaeImpl_new : PredictorTcaeImpl :=
  {| m_NetworkPredictor := None; m_features := 0; m_initialTargetDelayInMs := 0; m_maxSequentialDropsCount := 0; m_maxFrameSizeInBytes := 0;
     m_minDropFramesDist := 0; m_framesSinceLastDrop := 0; m_cachedBitstreamSize := []; m_cachedNetworkStats := []; m_idrRequested := false;
     m_validFeedback := false; m_frameDropsCount := 0; m_lastKnownDelayInMs := 0; m_lastTransmittedSize := 0 |}.

Definition with_net (n : option NetPred) (p : PredictorTcaeImpl) : PredictorTcaeImpl :=
  {| m_NetworkPredictor := n; m_features := m_features p; m_initialTargetDelayInMs := m_initialTargetDelayInMs p;
     m_maxSequentialDropsCount := m_maxSequentialDropsCount p; m_maxFrameSizeInBytes := m_maxFrameSizeInBytes p;
     m_minDropFramesDist := m_minDropFramesDist p; m_framesSinceLastDrop := m_framesSinceLastDrop p;
     m_cachedBitstreamSize := m_cachedBitstreamSize p; m_cachedNetworkStats := m_cachedNetworkStats p; m_idrRequested := m_idrRequested p;
     m_validFeedback := m_validFeedback p; m_frameDropsCount := m_frameDropsCount p; m_lastKnownDelayInMs := m_lastKnownDelayInMs p;
     m_lastTransmittedSize := m_lastTransmittedSize p |}.
Definition with_input (bs : list Z) (ns : list (Z * Z)) (idr valid : bool) (p : PredictorTcaeImpl) : PredictorTcaeImpl :=
  {| m_NetworkPredictor := m_NetworkPredictor p; m_features := m_features p; m_initialTargetDelayInMs := m_initialTargetDelayInMs p;
     m_maxSequentialDropsCount := m_maxSequentialDropsCount p; m_maxFrameSizeInBytes := m_maxFrameSizeInBytes p;
     m_minDropFramesDist := m_minDropFramesDist p; m_framesSinceLastDrop := m_framesSinceLastDrop p;
     m_cachedBitstreamSize := bs; m_cachedNetworkStats := ns; m_idrRequested := idr; m_validFeedback := valid;
     m_frameDropsCount := m_frameDropsCount p; m_lastKnownDelayInMs := m_lastKnownDelayInMs p; m_lastTransmittedSize := m_lastTransmittedSize p |}.
Definition with_last (delay size : Z) (p : PredictorTcaeImpl) : PredictorTcaeImpl :=
  {| m_NetworkPredictor := m_NetworkPredictor p; m_features := m_features p; m_initialTargetDelayInMs := m_initialTargetDelayInMs p;
     m_maxSequentialDropsCount := m_maxSequentialDropsCount p; m_maxFrameSizeInBytes := m_maxFrameSizeInBytes p;
     m_minDropFramesDist := m_minDropFramesDist p; m_framesSinceLastDrop := m_framesSinceLastDrop p;
     m_cachedBitstreamSize := m_cachedBitstreamSize p; m_cachedNetworkStats := m_cachedNetworkStats p; m_idrRequested := m_idrRequested p;
     m_validFeedback := m_validFeedback p; m_frameDropsCount := m_frameDropsCount p; m_lastKnownDelayInMs := delay; m_lastTransmittedSize := size |}.
Definition with_drops (count since : Z) (p : PredictorTcaeImpl) : PredictorTcaeImpl :=
  {| m_NetworkPredictor := m_NetworkPredictor p; m_features := m_features p; m_initialTargetDelayInMs := m_initialTargetDelayInMs p;
     m_maxSequentialDropsCount := m_maxSequentialDropsCount p; m_maxFrameSizeInBytes := m_maxFrameSizeInBytes p;
     m_minDropFramesDist := m_minDropFramesDist p; m_framesSinceLastDrop := since;
     m_cachedBitstreamSize := m_cachedBitstreamSize p; m_cachedNetworkStats := m_cachedNetworkStats p; m_idrRequested := m_idrRequested p;
     m_validFeedback := m_validFeedback p; m_frameDropsCount := count; m_lastKnownDelayInMs := m_lastKnownDelayInMs p;
     m_lastTransmittedSize := m_lastTransmittedSize p |}.

Definition has (features bit : Z) : bool := negb (Z.land features bit =? 0).
Definition default (v d : Z) : Z := if v =? TCAE_USE_DEFAULT_VALUE then d else v.

(** ** Numbers *)

(** [ceil] and [round] of a double that is not negative, as whole numbers. *)
Definition dceil (x : double) : Z :=
  match x with S754_finite false m e => if 0 <=? e then Z.pos m * 2 ^ e else - (- Z.pos m / 2 ^ (- e)) | _ => 0 end.
Definition dround (x : double) : Z :=
  match x with S754_finite false m e => if 0 <=? e then Z.pos m * 2 ^ e else (2 * Z.pos m + 2 ^ (- e)) / (2 * 2 ^ (- e)) | _ => 0 end.

(** ** [PredictorTcaeImpl] *)

Section Predictor.
Context (ratio : double) (env : option bytes).

(** The checks of [StartImpl]: an error, or the features, the number of records, the delay,
    the two settings of drops and the greatest frame. *)
Definition start_checks (a : TcaeInitParams_t) : tcaeStatus + (Z * Z * Z * Z * Z * Z) :=
  let features := if featuresSet a =? TCAE_MODE_UNKNOWN then DefaultEnabledFeatures else featuresSet a in
  let features := if featuresSet a =? TCAE_MODE_STANDALONE then Z.lor DefaultEnabledFeatures TCAE_MODE_STANDALONE else features in
  let known := Z.lor (Z.lor (Z.lor TCAE_PREDICT_FRAME_SIZE TCAE_MODE_UNKNOWN) TCAE_FRAME_DROP) TCAE_MODE_STANDALONE in
  if negb (Z.land features (Z.lnot known) =? 0) then inl ERR_INVALID_ARG
  else if negb (has features TCAE_PREDICT_FRAME_SIZE) then inl ERR_UNSUPPORTED
  else
    let recCount := default (bufferedRecordsCount a) DefaultRecordsCount in
    if recCount =? 0 then inl ERR_INVALID_ARG
    else if targetDelayInMs a =? 0 then inl ERR_INVALID_ARG
    else
      let drops := has features TCAE_FRAME_DROP in
      let dropsCount := if drops then default (maxSequentialDropsCount a) DefaultMaxDropsCountInSequence else 0 in
      if drops && (dropsCount =? 0) then inl ERR_INVALID_ARG
      else
        let dropsDistance := if drops then default (minDropFramesDistance a) DefaultMinDropFramesDistance else 0 in
        if drops && (dropsDistance =? 0) then inl ERR_INVALID_ARG
        else
          let maxFrameSize := default (maxFrameSizeInBytes a) DefaultMaxFrameSizeInBytes in
          if maxFrameSize =? 0 then inl ERR_INVALID_ARG
          else inr (features, recCount, targetDelayInMs a, dropsCount, dropsDistance, maxFrameSize).

Definition configure (recCount delay maxFrameSize : Z) : NetPred :=
  let n := NetPred_new ratio env in
  with_conf (SetTargetDelay (of_Z delay) (SetRecordedLen (i32 recCount) (SetMinTargetSize (maxFrameSize / 10) (SetMaxTargetSize maxFrameSize (conf n))))) n.

Definition StartImpl (params : option TcaeInitParams_t) (p : PredictorTcaeImpl) : tcaeStatus * PredictorTcaeImpl :=
  match params with
  | None => (ERR_NULL_PTR, p)
  | Some a =>
      match start_checks a with
      | inl e => (e, p)
      | inr (features, recCount, delay, dropsCount, dropsDistance, maxFrameSize) =>
          (ERR_NONE,
           {| m_NetworkPredictor := Some (configure recCount delay maxFrameSize); m_features := features; m_initialTargetDelayInMs := delay;
              m_maxSequentialDropsCount := dropsCount; m_maxFrameSizeInBytes := maxFrameSize; m_minDropFramesDist := dropsDistance;
              m_framesSinceLastDrop := dropsDistance; m_cachedBitstreamSize := m_cachedBitstreamSize p;
              m_cachedNetworkStats := m_cachedNetworkStats p; m_idrRequested := m_idrRequested p; m_validFeedback := m_validFeedback p;
              m_frameDropsCount := m_frameDropsCount p; m_lastKnownDelayInMs := m_lastKnownDelayInMs p;
              m_lastTransmittedSize := m_lastTransmittedSize p |})
      end
  end.

Definition Start (params : option TcaeInitParams_t) (p : PredictorTcaeImpl) : tcaeStatus * PredictorTcaeImpl :=
  match m_NetworkPredictor p with Some _ => (ERR_UNSUPPORTED, p) | None => StartImpl params p end.

Definition Stop (p : PredictorTcaeImpl) : tcaeStatus * PredictorTcaeImpl :=
  match m_NetworkPredictor p with
  | None => (ERR_NOT_INITIALIZED, p)
  | Some _ => (ERR_NONE, with_drops 0 (m_framesSinceLastDrop p) (with_last 0 0 (with_input [] [] false (m_validFeedback p) (with_net None p))))
  end.

Definition SetFps (fps : double) (p : PredictorTcaeImpl) : tcaeStatus * PredictorTcaeImpl :=
  match m_NetworkPredictor p with
  | None => (ERR_NOT_INITIALIZED, p)
  | Some n => if dleb fps (of_Z 0) then (ERR_INVALID_ARG, p) else (ERR_NONE, with_net (Some (with_conf (SetFPS fps (conf n)) n)) p)
  end.

(** Microseconds to milliseconds, rounded up. *)
Definition delay_ms (us : Z) : Z := u32 (dceil (ddiv (of_Z us) (of_Z 1000))).

Definition UpdateNetworkStateImpl (d : PerFrameNetworkData_t) (p : PredictorTcaeImpl) : tcaeStatus * PredictorTcaeImpl :=
  let p := with_input (m_cachedBitstreamSize p) (m_cachedNetworkStats p) (idrRequired d) (m_validFeedback p) p in
  if (lastPacketDelayInUs d =? 0) || (transmittedDataSizeInBytes d =? 0) then (ERR_INVALID_ARG, p)
  else (ERR_NONE, with_input (m_cachedBitstreamSize p)
                    (m_cachedNetworkStats p ++ [(transmittedDataSizeInBytes d, delay_ms (lastPacketDelayInUs d))]) (m_idrRequested p) true p).

Definition UpdateNetworkState (d : option PerFrameNetworkData_t) (p : PredictorTcaeImpl) : tcaeStatus * PredictorTcaeImpl :=
  match m_NetworkPredictor p, d with
  | None, _ => (ERR_NOT_INITIALIZED, p)
  | Some _, None => (ERR_NULL_PTR, p)
  | Some _, Some d => UpdateNetworkStateImpl d p
  end.

Definition BitstreamSentImpl (f : EncodedFrameFeedback_t) (p : PredictorTcaeImpl) : tcaeStatus * PredictorTcaeImpl :=
  if negb (has (m_features p) TCAE_MODE_STANDALONE) && (fb_frameOrder f =? 0) then (ERR_INVALID_ARG, p)
  else (ERR_NONE, with_input (m_cachedBitstreamSize p ++ [fb_frameSizeInBytes f]) (m_cachedNetworkStats p)
                    (if has (fb_encFrameType f) TCAE_FRAMETYPE_IDR && m_idrRequested p then false else m_idrRequested p) (m_validFeedback p) p).

Definition BitstreamSent (f : option EncodedFrameFeedback_t) (p : PredictorTcaeImpl) : tcaeStatus * PredictorTcaeImpl :=
  match m_NetworkPredictor p, f with
  | None, _ => (ERR_NOT_INITIALIZED, p)
  | Some _, None => (ERR_NULL_PTR, p)
  | Some _, Some f => BitstreamSentImpl f p
  end.

(** The first loop: each report of the client goes with the oldest encoded size, or none.
    The result has the last report. *)
Fixpoint feed_stats (stats : list (Z * Z)) (bs : list Z) (last : Z * Z) (n : NetPred) : option (list Z * (Z * Z) * NetPred) :=
  match stats with
  | [] => Some (bs, last, n)
  | (size, delay) :: stats =>
      n ← UpdateSizeAndDelay size (match bs with b :: _ => b | [] => 0 end) (of_Z delay) n;
      feed_stats stats (tail bs) (size, delay) n
  end.

(** The second loop: encoded sizes without a report. *)
Fixpoint feed_sizes (valid : bool) (transmitted : Z) (bs : list Z) (n : NetPred) : option NetPred :=
  match bs with
  | [] => Some n
  | b :: bs => n ← (if valid then UpdateSizeAndDelay transmitted b (of_Z (-1)) n else Some n); feed_sizes valid transmitted bs n
  end.

(** What the queues held, given to the network predictor; the queues are empty afterwards. *)
Definition consume_input (n : NetPred) (p : PredictorTcaeImpl) : option PredictorTcaeImpl :=
  '(bs, (size, delay), n) ← feed_stats (m_cachedNetworkStats p) (m_cachedBitstreamSize p) (0, 0) n;
  let p := if delay =? 0 then p else with_last delay size p in
  n ← feed_sizes (m_validFeedback p) (m_lastTransmittedSize p) bs n;
  Some (with_input [] [] (m_idrRequested p) (m_validFeedback p) (with_net (Some n) p)).

(** Whether the frame is dropped. *)
Definition drop_now (p : PredictorTcaeImpl) : bool :=
  has (m_features p) TCAE_FRAME_DROP && (m_frameDropsCount p <? m_maxSequentialDropsCount p) &&
  negb ((m_frameDropsCount p =? 0) && (m_framesSinceLastDrop p <? m_minDropFramesDist p)) &&
  (m_initialTargetDelayInMs p <? m_lastKnownDelayInMs p) &&
  (m_frameDropsCount p <? u32 (dround (ddiv (of_Z (m_lastKnownDelayInMs p)) (of_Z (m_initialTargetDelayInMs p))))).

Definition PredictEncSettingsImpl (s : FrameSettings_t) (n : NetPred) (p : PredictorTcaeImpl) : option (tcaeStatus * FrameSettings_t * PredictorTcaeImpl) :=
  p ← consume_input n p;
  let insertIDR := m_idrRequested p in
  let p := with_input (m_cachedBitstreamSize p) (m_cachedNetworkStats p) false (m_validFeedback p) p in
  n ← m_NetworkPredictor p;
  predicted ← GetNextFrameSize n;
  if negb insertIDR && drop_now p then
    Some (ERR_NONE, {| encFrameType := encFrameType s; frameSizeInBytes := frameSizeInBytes s; dropFrame := true |},
          with_drops (u32 (m_frameDropsCount p + 1)) 0 p)
  else
    let boosted := if insertIDR && (m_lastKnownDelayInMs p <? m_initialTargetDelayInMs p)
                   then Z.min (u32 (IDRSizeIncreaseCoeff * predicted)) (m_maxFrameSizeInBytes p) else predicted in
    let type := if insertIDR then Z.lor (Z.lor TCAE_FRAMETYPE_IDR TCAE_FRAMETYPE_REF) TCAE_FRAMETYPE_I else encFrameType s in
    let since := if has (m_features p) TCAE_FRAME_DROP then wrapu 64 (m_framesSinceLastDrop p + 1) else m_framesSinceLastDrop p in
    Some (ERR_NONE, {| encFrameType := type; frameSizeInBytes := boosted; dropFrame := dropFrame s |}, with_drops 0 since p).

Definition PredictEncSettings (s : option FrameSettings_t) (p : PredictorTcaeImpl) : option (tcaeStatus * option FrameSettings_t * PredictorTcaeImpl) :=
  match m_NetworkPredictor p, s with
  | None, _ => Some (ERR_NOT_INITIALIZED, s, p)
  | Some _, None => Some (ERR_NULL_PTR, None, p)
  | Some n, Some s => '(st, s, p) ← PredictEncSettingsImpl s n p; Some (st, Some s, p)
  end.

(** ** [CTcaeWrapper] *)

Record FrameData_t := { targetSize : Z; encodedSize : Z; delayInUs : Z; clientPacketSize : Z }.

(** A line of the log, without its time. *)
Inductive log_function := LogFeedback | LogEncoded | LogTarget.
Record log_entry := { le_data : FrameData_t; le_feedback : Z; le_enc : Z; le_function : log_function }.
Record TcaeLogger := {
  m_enabled : bool; m_runVBRmode : bool; m_EncFrameNumber : Z; m_FeedbackFrameNumber : Z; m_encData : FrameData_t; m_log : list log_entry }.

Definition no_data : FrameData_t := {| targetSize := 0; encodedSize := 0; delayInUs := 0; clientPacketSize := 0 |}.
Definition logger0 : TcaeLogger :=
  {| m_enabled := false; m_runVBRmode := false; m_EncFrameNumber := 0; m_FeedbackFrameNumber := 0; m_encData := no_data; m_log := [] |}.

(** [InitLog]; [opened] is whether the file can be written, [mode] BRC_OVERRIDE_MODE. *)
Definition InitLog (path : bool) (opened : bool) (mode : option bytes) (l : TcaeLogger) : TcaeLogger :=
  if negb path then l
  else {| m_enabled := opened;
          m_runVBRmode := if opened && match mode with Some s => atoi s =? 1 | None => false end then true else m_runVBRmode l;
          m_EncFrameNumber := m_EncFrameNumber l; m_FeedbackFrameNumber := m_FeedbackFrameNumber l; m_encData := m_encData l; m_log := m_log l |}.

Definition makeLogEntry (d : FrameData_t) (f : log_function) (l : TcaeLogger) : log_entry :=
  {| le_data := d; le_feedback := m_FeedbackFrameNumber l; le_enc := m_EncFrameNumber l; le_function := f |}.

Definition log_feedback (delay size : Z) (l : TcaeLogger) : option TcaeLogger :=
  if negb (m_enabled l) then Some l
  else
    n ← int_chk (m_FeedbackFrameNumber l + 1);
    let d := {| targetSize := 0; encodedSize := 0; delayInUs := delay; clientPacketSize := size |} in
    Some {| m_enabled := true; m_runVBRmode := m_runVBRmode l; m_EncFrameNumber := m_EncFrameNumber l; m_FeedbackFrameNumber := n;
            m_encData := m_encData l; m_log := m_log l ++ [makeLogEntry d LogFeedback l] |}.

Definition log_encoded (size : Z) (l : TcaeLogger) : option TcaeLogger :=
  if negb (m_enabled l) then Some l
  else
    n ← int_chk (m_EncFrameNumber l + 1);
    let d := {| targetSize := targetSize (m_encData l); encodedSize := size; delayInUs := delayInUs (m_encData l); clientPacketSize := clientPacketSize (m_encData l) |} in
    Some {| m_enabled := true; m_runVBRmode := m_runVBRmode l; m_EncFrameNumber := n; m_FeedbackFrameNumber := m_FeedbackFrameNumber l;
            m_encData := d; m_log := m_log l ++ [makeLogEntry d LogEncoded l] |}.

Definition log_target (size : Z) (l : TcaeLogger) : TcaeLogger :=
  if negb (m_enabled l) then l
  else
    let d := {| targetSize := size; encodedSize := 0; delayInUs := 0; clientPacketSize := 0 |} in
    {| m_enabled := true; m_runVBRmode := m_runVBRmode l; m_EncFrameNumber := m_EncFrameNumber l; m_FeedbackFrameNumber := m_FeedbackFrameNumber l;
       m_encData := d; m_log := m_log l ++ [makeLogEntry d LogTarget l] |}.

Record CTcaeWrapper := { m_tcae : option PredictorTcaeImpl; m_tcaeLogPath : bool; m_logger : TcaeLogger }.
Definition wrapper0 : CTcaeWrapper := {| m_tcae := None; m_tcaeLogPath := false; m_logger := logger0 |}.

Definition LogsOnlyMode (w : CTcaeWrapper) : bool := m_runVBRmode (m_logger w).
Definition setTcaeLogPath (w : CTcaeWrapper) : CTcaeWrapper := {| m_tcae := m_tcae w; m_tcaeLogPath := true; m_logger := m_logger w |}.

Definition init_params (targetDelay maxFrameSize : Z) : TcaeInitParams_t :=
  {| featuresSet := TCAE_MODE_STANDALONE; targetDelayInMs := targetDelay; bufferedRecordsCount := 100; maxSequentialDropsCount := 0;
     maxFrameSizeInBytes := if 0 <? maxFrameSize then maxFrameSize else 0; minDropFramesDistance := 0 |}.

(** [Initialize]; [alloc] is whether the predictor can be allocated. *)
Definition Initialize (alloc opened : bool) (mode : option bytes) (targetDelay maxFrameSize : Z) (w : CTcaeWrapper) : Z * CTcaeWrapper :=
  if negb alloc then (status_value ERR_MEMORY_ALLOC, w)
  else
    let '(st, p) := Start (Some (init_params targetDelay maxFrameSize)) PredictorTcaeImpl_new in
    match st with
    | ERR_NONE => (0, {| m_tcae := Some p; m_tcaeLogPath := m_tcaeLogPath w; m_logger := InitLog (m_tcaeLogPath w) opened mode (m_logger w) |})
    | _ => (status_value st, {| m_tcae := Some p; m_tcaeLogPath := m_tcaeLogPath w; m_logger := m_logger w |})
    end.

Definition UpdateClientFeedback (delay size : Z) (w : CTcaeWrapper) : option (Z * CTcaeWrapper) :=
  match m_tcae w with
  | None => Some (status_value ERR_NULL_PTR, w)
  | Some p =>
      let '(st, p) := UpdateNetworkState (Some {| lastPacketDelayInUs := delay; transmittedDataSizeInBytes := size; idrRequired := false |}) p in
      match st with
      | ERR_NONE => l ← log_feedback delay size (m_logger w); Some (0, {| m_tcae := Some p; m_tcaeLogPath := m_tcaeLogPath w; m_logger := l |})
      | _ => Some (status_value st, {| m_tcae := Some p; m_tcaeLogPath := m_tcaeLogPath w; m_logger := m_logger w |})
      end
  end.

Definition UpdateEncodedSize (size : Z) (w : CTcaeWrapper) : option (Z * CTcaeWrapper) :=
  match m_tcae w with
  | None => Some (status_value ERR_NULL_PTR, w)
  | Some p =>
      let '(st, p) := BitstreamSent (Some {| fb_encFrameType := TCAE_FRAMETYPE_UNKNOWN; fb_frameSizeInBytes := size; fb_frameOrder := 0 |}) p in
      match st with
      | ERR_NONE => l ← log_encoded size (m_logger w); Some (0, {| m_tcae := Some p; m_tcaeLogPath := m_tcaeLogPath w; m_logger := l |})
      | _ => Some (status_value st, {| m_tcae := Some p; m_tcaeLogPath := m_tcaeLogPath w; m_logger := m_logger w |})
      end
  end.

(** [GetTargetSize]: an error is returned as a size. *)
Definition GetTargetSize (w : CTcaeWrapper) : option (Z * CTcaeWrapper) :=
  match m_tcae w with
  | None => Some (u32 (status_value ERR_NULL_PTR), w)
  | Some p =>
      '(st, s, p) ← PredictEncSettings (Some {| encFrameType := 0; frameSizeInBytes := 0; dropFrame := false |}) p;
      match st, s with
      | ERR_NONE, Some s =>
          Some (frameSizeInBytes s, {| m_tcae := Some p; m_tcaeLogPath := m_tcaeLogPath w; m_logger := log_target (frameSizeInBytes s) (m_logger w) |})
      | _, _ => Some (u32 (status_value st), {| m_tcae := Some p; m_tcaeLogPath := m_tcaeLogPath w; m_logger := m_logger w |})
      end
  end.

Definition SetFps_w (fps : double) (w : CTcaeWrapper) : Z * CTcaeWrapper :=
  match m_tcae w with
  | None => (status_value ERR_NULL_PTR, w)
  | Some p => let '(st, p) := SetFps fps p in (status_value st, {| m_tcae := Some p; m_tcaeLogPath := m_tcaeLogPath w; m_logger := m_logger w |})
  end.
End Predictor.

(** ** Calls *)

(** What is called after the start, on the predictor... *)
Inductive pcall := PNetwork (d : PerFrameNetworkData_t) | PSent (f : EncodedFrameFeedback_t) | PPredict | PFps (fps : double).

Definition pexec (k : pcall) (p : PredictorTcaeImpl) : option (list FrameSettings_t * PredictorTcaeImpl) :=
  match k with
  | PNetwork d => Some ([], (UpdateNetworkState (Some d) p).2)
  | PSent f => Some ([], (BitstreamSent (Some f) p).2)
  | PPredict =>
      '(_, s, p) ← PredictEncSettings (Some {| encFrameType := 0; frameSizeInBytes := 0; dropFrame := false |}) p;
      Some (option_list s, p)
  | PFps f => Some ([], (SetFps f p).2)
  end.

(** ... and on the wrapper. *)
Inductive wcall := WFeedback (delay size : Z) | WEncoded (size : Z) | WTarget | WFps (fps : double).

Definition wexec (k : wcall) (w : CTcaeWrapper) : option (list Z * CTcaeWrapper) :=
  match k with
  | WFeedback d s => '(_, w) ← UpdateClientFeedback d s w; Some ([], w)
  | WEncoded n => '(_, w) ← UpdateEncodedSize n w; Some ([], w)
  | WTarget => '(z, w) ← GetTargetSize w; Some ([z], w)
  | WFps f => Some ([], (SetFps_w f w).2)
  end.

Fixpoint run_calls {K S A} (ex : K -> S -> option (list A * S)) (ks : list K) (s : S) : option (list A * S) :=
  match ks with
  | [] => Some ([], s)
  | k :: ks => '(a, s) ← ex k s; '(l, s) ← run_calls ex ks s; Some (a ++ l, s)
  end.

(** ** The invariant *)

(** A started predictor of frames up to [B] bytes after [N] calls; [v] tells whether there
    was valid feedback. *)
Definition tcae_ok (B N : Z) (v : bool) (p : PredictorTcaeImpl) : Prop :=
  exists n k u, m_NetworkPredictor p = Some n /\ pred_ok B k u n /\
    0 <= k /\ k + Z.of_nat (length (m_cachedNetworkStats p)) + Z.of_nat (length (m_cachedBitstreamSize p)) <= N /\
    m_maxFrameSizeInBytes p = B /\ m_validFeedback p = v /\
    (if v then u = true \/ m_cachedNetworkStats p <> [] else u = false /\ m_cachedNetworkStats p = []).

Lemma feed_stats_ok B stats : forall bs last n k u, 0 < B < 2 ^ 32 -> pred_ok B k u n -> k + Z.of_nat (length stats) <= INT_MAX ->
  exists bs' last' n', feed_stats stats bs last n = Some (bs', last', n') /\ (length bs' <= length bs)%nat /\
    pred_ok B (k + Z.of_nat (length stats)) (u || negb (bool_decide (stats = []))) n'.
Proof.
  induction stats as [|[size delay] stats IH]; intros bs last n k u HB H Hk; cbn [feed_stats length] in *.
  - exists bs, last, n. rewrite Z.add_0_r. cbn. by rewrite orb_false_r.
  - destruct (update_ok B k u size (match bs with b :: _ => b | [] => 0 end) (of_Z delay) n HB H ltac:(lia)) as (n1 & -> & H1 & _). cbn [mbind option_bind].
    destruct (IH (tail bs) (size, delay) n1 (k + 1) true HB H1 ltac:(lia)) as (bs' & last' & n' & -> & L & H2). exists bs', last', n'.
    split; [done|]. split; [destruct bs; cbn in *; lia|]. replace (k + Z.of_nat (S (length stats))) with (k + 1 + Z.of_nat (length stats)) by lia.
    cbn in H2. by rewrite orb_true_r.
Qed.

Lemma feed_sizes_ok B t bs : forall n k, 0 < B < 2 ^ 32 -> pred_ok B k true n -> k + Z.of_nat (length bs) <= INT_MAX ->
  exists n', feed_sizes true t bs n = Some n' /\ pred_ok B (k + Z.of_nat (length bs)) true n'.
Proof.
  induction bs as [|x bs IH]; intros n k HB H Hk; cbn [feed_sizes length] in *; [exists n; by rewrite Z.add_0_r|].
  destruct (update_ok B k true t x (of_Z (-1)) n HB H ltac:(lia)) as (n1 & -> & H1 & _). cbn [mbind option_bind].
  destruct (IH n1 (k + 1) HB H1 ltac:(lia)) as (n' & -> & H2). exists n'. split; [done|].
  by replace (k + Z.of_nat (S (length bs))) with (k + 1 + Z.of_nat (length bs)) by lia.
Qed.

Lemma feed_nothing t bs n : feed_sizes false t bs n = Some n.
Proof. induction bs; [done|]. cbn [feed_sizes mbind option_bind]. done. Qed.

(** What the queues and the network predictor have to do with nothing else. *)
Definition same_frame (p p' : PredictorTcaeImpl) : Prop :=
  m_features p' = m_features p /\ m_initialTargetDelayInMs p' = m_initialTargetDelayInMs p /\
  m_maxSequentialDropsCount p' = m_maxSequentialDropsCount p /\ m_minDropFramesDist p' = m_minDropFramesDist p /\
  m_frameDropsCount p' = m_frameDropsCount p /\ m_framesSinceLastDrop p' = m_framesSinceLastDrop p /\ m_idrRequested p' = m_idrRequested p.

Lemma consume_ok B N v n p : 0 < B < 2 ^ 32 -> tcae_ok B N v p -> N <= INT_MAX -> m_NetworkPredictor p = Some n ->
  exists p' n', consume_input n p = Some p' /\ m_NetworkPredictor p' = Some n' /\ (exists k, k <= N /\ 0 <= k /\ pred_ok B k v n') /\
    m_cachedNetworkStats p' = [] /\ m_cachedBitstreamSize p' = [] /\ m_maxFrameSizeInBytes p' = B /\ m_validFeedback p' = v /\ same_frame p p'.
Proof.
  intros HB (n0 & k & u & En & H & Hk0 & Hk & EB & Ev & Hv) HN E. rewrite E in En. injection En as <-. unfold consume_input.
  destruct (feed_stats_ok B (m_cachedNetworkStats p) (m_cachedBitstreamSize p) (0, 0) n k u HB H ltac:(lia)) as (bs & [size delay] & n1 & -> & L & H1).
  cbn [mbind option_bind]. set (p1 := if delay =? 0 then p else _).
  assert (same_frame p p1 /\ m_maxFrameSizeInBytes p1 = B /\ m_validFeedback p1 = v) as (S1 & B1 & V1) by (unfold p1; by destruct (delay =? 0)).
  assert (exists n2 k2, feed_sizes (m_validFeedback p1) (m_lastTransmittedSize p1) bs n1 = Some n2 /\ 0 <= k2 <= N /\ pred_ok B k2 v n2) as (n2 & k2 & -> & Hk2 & H2).
  { rewrite V1. destruct v.
    - assert (u || negb (bool_decide (m_cachedNetworkStats p = [])) = true) as Eu.
      { destruct Hv as [->|Hv]; [done|]. rewrite bool_decide_false by done. apply orb_true_r. }
      rewrite Eu in H1. destruct (feed_sizes_ok B (m_lastTransmittedSize p1) bs n1 _ HB H1 ltac:(lia)) as (n2 & E2 & H2). exists n2, (k + Z.of_nat (length (m_cachedNetworkStats p)) + Z.of_nat (length bs)).
      split; [done|]. split; [lia|done].
    - destruct Hv as [-> Es]. rewrite Es in *. cbn in H1. rewrite feed_nothing. exists n1, (k + 0). split; [done|]. split; [cbn [length] in *; lia|done]. }
  cbn [mbind option_bind]. eexists _, n2. split; [reflexivity|]. split; [done|]. split; [exists k2; split; [lia|]; split; [lia|done]|]. done.
Qed.

(** A prediction: its result, and that the queues are empty after it. *)
Lemma predict_ok B N v p : 0 < B < 2 ^ 31 -> tcae_ok B N v p -> N <= INT_MAX ->
  exists s p' z p1, PredictEncSettings (Some {| encFrameType := 0; frameSizeInBytes := 0; dropFrame := false |}) p = Some (ERR_NONE, Some s, p') /\
    tcae_ok B N v p' /\ (if v then Z.max 0 (B / 10 - 1) <= z <= B else z = 0) /\ m_idrRequested p' = false /\
    m_maxSequentialDropsCount p' = m_maxSequentialDropsCount p /\ m_minDropFramesDist p' = m_minDropFramesDist p /\ m_features p' = m_features p /\
    same_frame p p1 /\
    if negb (m_idrRequested p) && drop_now p1 then s = {| encFrameType := 0; frameSizeInBytes := 0; dropFrame := true |} /\
      m_frameDropsCount p' = u32 (m_frameDropsCount p + 1) /\ m_framesSinceLastDrop p' = 0
    else dropFrame s = false /\ m_frameDropsCount p' = 0 /\ (m_idrRequested p = false -> frameSizeInBytes s = z) /\ 0 <= frameSizeInBytes s <= B /\
      m_framesSinceLastDrop p' = if has (m_features p) TCAE_FRAME_DROP then wrapu 64 (m_framesSinceLastDrop p + 1) else m_framesSinceLastDrop p.
Proof.
  intros HB H HN. pose proof H as (n & k & u & En & _). unfold PredictEncSettings. rewrite En. unfold PredictEncSettingsImpl.
  destruct (consume_ok B N v n p ltac:(lia) H HN En) as (p1 & n1 & -> & En1 & (k1 & Hk1 & Hk0 & O1) & Es & Eb & Em & Ev & S1). cbn [mbind option_bind].
  cbn [m_NetworkPredictor with_input]. rewrite En1. cbn [mbind option_bind]. destruct (frame_size_ok B k1 v n1 HB O1) as (z & -> & Hz). cbn [mbind option_bind].
  pose proof S1 as (F1 & F2 & F3 & F4 & F5 & F6 & F7). rewrite F7. set (q := with_input _ _ false _ p1).
  assert (Hd : drop_now q = drop_now p1) by done. rewrite Hd.
  assert (K : forall c s, tcae_ok B N v (with_drops c s q)).
  { intros c s. exists n1, k1, v. cbn. rewrite En1, Es, Eb. cbn. split; [done|]. split; [done|]. split; [lia|]. split; [lia|]. split; [done|]. split; [done|]. destruct v; auto. }
  destruct (negb (m_idrRequested p) && drop_now p1) eqn:D.
  - eexists _, _, z, p1. split; [reflexivity|]. split; [apply K|]. split; [destruct v; lia|]. cbn. rewrite F1, F3, F4, F5. rewrite D. done.
  - eexists _, _, z, p1. split; [reflexivity|]. split; [apply K|]. split; [destruct v; [lia|done]|]. cbn [m_idrRequested with_drops q with_input m_maxSequentialDropsCount m_minDropFramesDist m_features].
    rewrite F3, F4, F1. split; [done|]. split; [done|]. split; [done|]. split; [done|]. split; [done|]. rewrite D. cbn. rewrite F6. split; [done|]. split; [done|].
    assert (0 <= z <= B) by (destruct v; [split; lia|lia]). split; [intros ->; done|]. split; [|done].
    destruct (m_idrRequested p && _); [|done]. rewrite Em. pose proof (wrapu_range 32 (IDRSizeIncreaseCoeff * z) ltac:(lia)). unfold u32. lia.
Qed.

(** The other calls only put something into a queue. *)
Lemma network_ok B N v d p : tcae_ok B N v p ->
  tcae_ok B (N + 1) (v || negb ((lastPacketDelayInUs d =? 0) || (transmittedDataSizeInBytes d =? 0))) (UpdateNetworkState (Some d) p).2 /\
  same_frame p (with_input [] [] (m_idrRequested p) false (UpdateNetworkState (Some d) p).2) /\ m_idrRequested (UpdateNetworkState (Some d) p).2 = idrRequired d.
Proof.
  intros (n & k & u & En & H & Hk0 & Hk & EB & Ev & Hv). unfold UpdateNetworkState. rewrite En. unfold UpdateNetworkStateImpl.
  destruct ((lastPacketDelayInUs d =? 0) || _); cbn [negb snd]; rewrite ?orb_false_r, ?orb_true_r; (split; [|done]); exists n, k, u; cbn.
  - split_and!; try done. lia.
  - rewrite length_app. cbn [length]. split_and!; try done; [lia|]. destruct v; cbn; right; intros [_ [=]]%app_eq_nil.
Qed.

Lemma sent_ok B N v f p : tcae_ok B N v p -> tcae_ok B (N + 1) v (BitstreamSent (Some f) p).2 /\
  same_frame p (with_input [] [] (m_idrRequested p) false (BitstreamSent (Some f) p).2) /\
  (m_idrRequested p = false -> m_idrRequested (BitstreamSent (Some f) p).2 = false).
Proof.
  intros (n & k & u & En & H & Hk0 & Hk & EB & Ev & Hv). unfold BitstreamSent. rewrite En. unfold BitstreamSentImpl.
  destruct (negb _ && _); cbn [snd].
  - split; [|done]. exists n, k, u. split_and!; try done. lia.
  - split; [|split; [done|cbn; intros ->; by rewrite andb_false_r]]. exists n, k, u. cbn. rewrite length_app. cbn [length]. split_and!; try done. lia.
Qed.

Lemma fps_ok B N v f p : tcae_ok B N v p -> tcae_ok B (N + 1) v (SetFps f p).2 /\ same_frame p (SetFps f p).2.
Proof.
  intros (n & k & u & En & H & Hk0 & Hk & EB & Ev & Hv). unfold SetFps. rewrite En. destruct (dleb _ _); cbn [snd]; (split; [|done]).
  - exists n, k, u. split_and!; try done. lia.
  - exists (with_conf (SetFPS f (conf n)) n), k, u. split; [done|]. split; [exact H|]. split_and!; try done. cbn. lia.
Qed.

Lemma tcae_mono B N N' v p : tcae_ok B N v p -> N <= N' -> tcae_ok B N' v p.
Proof. intros (n & k & u & En & H & Hk0 & Hk & R) L. exists n, k, u. do 3 (split; [done|]). split; [lia|done]. Qed.

(** A successful start. *)
Lemma start_ok ratio env a p : 0 <= maxFrameSizeInBytes a -> Start ratio env (Some a) PredictorTcaeImpl_new = (ERR_NONE, p) ->
  let B := default (maxFrameSizeInBytes a) DefaultMaxFrameSizeInBytes in
  0 < B /\ tcae_ok B 0 false p /\ m_frameDropsCount p = 0 /\ m_framesSinceLastDrop p = m_minDropFramesDist p /\ m_idrRequested p = false /\ m_lastKnownDelayInMs p = 0.
Proof.
  intros Ha. unfold Start. cbn [m_NetworkPredictor PredictorTcaeImpl_new StartImpl]. destruct (start_checks a) as [e|[[[[[f r] d] dc] dd] mx]] eqn:E.
  { intros [= -> _]. exfalso. revert E. unfold start_checks. repeat (case_match; try discriminate). }
  intros [= <-]. set (B := default _ _). assert (mx = B /\ mx <> 0) as [-> HB].
  { revert E. unfold start_checks. repeat (case_match; try discriminate); intros [= _ _ _ _ _ <-]; (split; [done|lia]). }
  assert (0 <= B) by (unfold B, default, DefaultMaxFrameSizeInBytes; destruct (_ =? _); lia).
  split; [lia|]. split; [|done]. exists (configure ratio env r d B), 0, false. split_and!; try done. apply fresh_ok. by repeat split.
Qed.

(** ** Theorems *)

(** *** What the transcoder gets *)

(** Target sizes of [calls] that are right for frames of at most [B] bytes: none before the
    client's first valid report, and between the limits after it. *)
Fixpoint sizes_ok (B : Z) (v : bool) (calls : list wcall) (sizes : list Z) : Prop :=
  match calls, sizes with
  | [], [] => True
  | WTarget :: calls, z :: sizes => (if v then Z.max 0 (B / 10 - 1) <= z <= B else z = 0) /\ sizes_ok B v calls sizes
  | WFeedback d s :: calls, _ => sizes_ok B (v || negb ((d =? 0) || (s =? 0))) calls sizes
  | (WEncoded _ | WFps _) :: calls, _ => sizes_ok B v calls sizes
  | _, _ => False
  end.

(** The wrapper between calls; frames are not dropped and no key frame is asked for. *)
Definition wrapper_ok (B N : Z) (v : bool) (w : CTcaeWrapper) : Prop :=
  exists p, m_tcae w = Some p /\ tcae_ok B N v p /\ m_idrRequested p = false /\ has (m_features p) TCAE_FRAME_DROP = false /\
    0 <= m_EncFrameNumber (m_logger w) <= N /\ 0 <= m_FeedbackFrameNumber (m_logger w) <= N.

(** One call, and what it leaves for the others. *)
Lemma wexec_ok B N v k w calls : 0 < B < 2 ^ 31 -> wrapper_ok B N v w -> N < INT_MAX ->
  exists out v' w', wexec k w = Some (out, w') /\ wrapper_ok B (N + 1) v' w' /\
    (forall sizes, sizes_ok B v' calls sizes -> sizes_ok B v (k :: calls) (out ++ sizes)).
Proof.
  intros HB (p & Ep & O & Hi & Hf & He & Hb) HN. destruct k as [d s|n| |f]; cbn [wexec].
  - unfold UpdateClientFeedback. rewrite Ep. set (r := {| lastPacketDelayInUs := d |}). destruct (network_ok B N v r p O) as (O1 & (F1 & _) & I1). cbn in O1, F1.
    destruct (UpdateNetworkState (Some r) p) as [st p1]. cbn [snd] in O1, I1, F1. exists [].
    assert (exists l, (st = ERR_NONE -> log_feedback d s (m_logger w) = Some l) /\ 0 <= m_EncFrameNumber l <= N + 1 /\ 0 <= m_FeedbackFrameNumber l <= N + 1) as (l & El & L).
    { unfold log_feedback. destruct (negb (m_enabled (m_logger w))); [exists (m_logger w); split; [done|lia]|]. rewrite int_chk_Some by (unfold INT_MIN, INT_MAX in *; lia).
      cbn [mbind option_bind]. eexists. split; [reflexivity|]. cbn. lia. }
    assert (forall l', 0 <= m_EncFrameNumber l' <= N + 1 -> 0 <= m_FeedbackFrameNumber l' <= N + 1 ->
      wrapper_ok B (N + 1) (v || negb ((d =? 0) || (s =? 0))) {| m_tcae := Some p1; m_tcaeLogPath := m_tcaeLogPath w; m_logger := l' |}) as K.
    { intros l' H1 H2. exists p1. cbn [m_tcae m_logger]. split_and!; try done; [by rewrite F1|lia..]. }
    destruct st; try (eexists _, _; split; [reflexivity|]; split; [apply K; lia|done]). rewrite (El eq_refl). cbn [mbind option_bind].
    eexists _, _. split; [reflexivity|]. split; [apply K; lia|done].
  - unfold UpdateEncodedSize. rewrite Ep. set (r := {| fb_encFrameType := _ |}). destruct (sent_ok B N v r p O) as (O1 & (F1 & _) & I1). cbn in F1.
    destruct (BitstreamSent (Some r) p) as [st p1]. cbn [snd] in O1, I1, F1. specialize (I1 Hi). exists [], v.
    assert (exists l, (st = ERR_NONE -> log_encoded n (m_logger w) = Some l) /\ 0 <= m_EncFrameNumber l <= N + 1 /\ 0 <= m_FeedbackFrameNumber l <= N + 1) as (l & El & L).
    { unfold log_encoded. destruct (negb (m_enabled (m_logger w))); [exists (m_logger w); split; [done|lia]|]. rewrite int_chk_Some by (unfold INT_MIN, INT_MAX in *; lia).
      cbn [mbind option_bind]. eexists. split; [reflexivity|]. cbn. lia. }
    assert (forall l', 0 <= m_EncFrameNumber l' <= N + 1 -> 0 <= m_FeedbackFrameNumber l' <= N + 1 ->
      wrapper_ok B (N + 1) v {| m_tcae := Some p1; m_tcaeLogPath := m_tcaeLogPath w; m_logger := l' |}) as K.
    { intros l' H1 H2. exists p1. cbn [m_tcae m_logger]. split_and!; try done; [by rewrite F1|lia..]. }
    destruct st; try (eexists; split; [reflexivity|]; split; [apply K; lia|done]). rewrite (El eq_refl). cbn [mbind option_bind].
    eexists. split; [reflexivity|]. split; [apply K; lia|done].
  - unfold GetTargetSize. rewrite Ep. destruct (predict_ok B N v p HB O ltac:(lia)) as (s & p' & z & p1 & -> & O' & Hz & I' & _ & _ & Ef & S1 & R).
    cbn [mbind option_bind]. assert (drop_now p1 = false) as D by (destruct S1 as (F1 & _); unfold drop_now; by rewrite F1, Hf).
    rewrite D, andb_false_r in R. destruct R as (_ & _ & Es & _ & _). specialize (Es Hi). eexists _, v, _. split; [reflexivity|]. split.
    + exists p'. rewrite Ef. cbn [m_tcae m_logger]. split_and!; try done; [eapply tcae_mono; [exact O'|lia]|..]; unfold log_target; destruct (negb (m_enabled (m_logger w))); cbn; lia.
    + intros sizes Hs. cbn. split; [by rewrite Es|done].
  - unfold SetFps_w. rewrite Ep. destruct (fps_ok B N v f p O) as (O1 & (F1 & _ & _ & _ & _ & _ & F7)). destruct (SetFps f p) as [st p1]. cbn [snd] in *.
    eexists [], v, _. split; [reflexivity|]. split; [|done]. exists p1. cbn [m_tcae m_logger]. split_and!; try done; [by rewrite F7|by rewrite F1|lia..].
Qed.

Lemma wrapper_run_ok B calls : forall N v w, 0 < B < 2 ^ 31 -> wrapper_ok B N v w -> N + Z.of_nat (length calls) <= INT_MAX ->
  exists sizes w', run_calls wexec calls w = Some (sizes, w') /\ sizes_ok B v calls sizes.
Proof.
  induction calls as [|k calls IH]; intros N v w HB O HN; cbn [run_calls length] in *; [by exists [], w|].
  destruct (wexec_ok B N v k w calls HB O ltac:(lia)) as (out & v' & w1 & -> & O1 & K). cbn [mbind option_bind].
  destruct (IH (N + 1) v' w1 HB O1 ltac:(lia)) as (sizes & w2 & -> & S). cbn [mbind option_bind]. eexists _, _. split; [reflexivity|]. by apply K.
Qed.

(** C16. The target size the transcoder gets for a frame.  After the rate predictor is started,
    with any positive delay and a greatest frame size below two gigabytes (50000 when none
    is given), whatever feedback and encoded sizes arrive in whatever order: every call
    returns; a client that never sends valid feedback leaves every target at 0, which means
    none; and after the first valid feedback each target lies between a tenth of the
    greatest size (less the byte that rounding can cost) and that size. *)
Theorem target_sizes_in_range ratio env opened mode delay mx w calls :
  0 < delay -> 0 <= mx < 2 ^ 31 -> m_logger w = logger0 -> Z.of_nat (length calls) <= INT_MAX ->
  exists w0 sizes w', Initialize ratio env true opened mode delay mx w = (0, w0) /\ run_calls wexec calls w0 = Some (sizes, w') /\
    sizes_ok (if 0 <? mx then mx else 50000) false calls sizes.
Proof.
  intros Hd Hm Hl Hc. unfold Initialize. cbn [negb]. set (a := init_params delay mx). set (B := if 0 <? mx then mx else 50000).
  assert (default (maxFrameSizeInBytes a) DefaultMaxFrameSizeInBytes = B) as EB.
  { unfold a, init_params, B, default, TCAE_USE_DEFAULT_VALUE. cbn. destruct (Z.ltb_spec 0 mx); [|done]. by rewrite (proj2 (Z.eqb_neq _ _)) by lia. }
  assert (HB : 0 < B < 2 ^ 31) by (unfold B; destruct (Z.ltb_spec 0 mx); lia).
  assert (start_checks a = inr (5, 100, delay, 0, 0, B)) as Ec.
  { unfold start_checks. rewrite EB. cbn. rewrite (proj2 (Z.eqb_neq delay 0)), (proj2 (Z.eqb_neq B 0)) by lia. done. }
  assert (exists p, Start ratio env (Some a) PredictorTcaeImpl_new = (ERR_NONE, p) /\ m_features p = 5) as (p & Es & Ef).
  { unfold Start. cbn [m_NetworkPredictor PredictorTcaeImpl_new StartImpl]. rewrite Ec. eexists. by split. }
  rewrite Es. destruct (start_ok ratio env a p ltac:(unfold a; cbn; destruct (0 <? mx); lia) Es) as (_ & O & _ & _ & Hi & _). rewrite EB in O.
  destruct (wrapper_run_ok B calls 0 false {| m_tcae := Some p; m_tcaeLogPath := m_tcaeLogPath w; m_logger := InitLog (m_tcaeLogPath w) opened mode (m_logger w) |} HB)
    as (sizes & w' & E & S); [|lia|by eexists _, sizes, w'].
  exists p. cbn [m_tcae m_logger]. rewrite Ef, Hl. split_and!; try done; unfold InitLog; destruct (m_tcaeLogPath w); cbn; lia.
Qed.

(** *** Dropped frames *)

(** The frames of a stream, [true] for a dropped one, are dropped at most [max] in a row,
    with at least [dist] kept ones between two rows; [count] dropped ones and [since] kept
    ones come just before. *)
Fixpoint well_dropped (max dist count since : Z) (frames : list bool) : bool :=
  match frames with
  | [] => true
  | true :: frames => (count <? max) && ((0 <? count) || (dist <=? since)) && well_dropped max dist (count + 1) 0 frames
  | false :: frames => well_dropped max dist 0 (since + 1) frames
  end.

(** The predictor between calls, when frames may be dropped. *)
Definition dropping (B N : Z) (p : PredictorTcaeImpl) : Prop :=
  (exists v, tcae_ok B N v p) /\ has (m_features p) TCAE_FRAME_DROP = true /\ 0 <= m_frameDropsCount p <= m_maxSequentialDropsCount p /\
  m_maxSequentialDropsCount p < 2 ^ 16 /\ 0 <= m_minDropFramesDist p < 2 ^ 16 /\ 0 <= m_framesSinceLastDrop p <= m_minDropFramesDist p + N.

Lemma dropping_same B N v p p' : dropping B N p -> tcae_ok B (N + 1) v p' -> same_frame p (with_input [] [] (m_idrRequested p) false p') -> dropping B (N + 1) p'.
Proof.
  intros ((v0 & O) & Hf & Hc & Hm & Hd & Hs) O' (F1 & F2 & F3 & F4 & F5 & F6 & _). cbn in *. unfold dropping.
  split; [by exists v|]. rewrite F1, F3, F4, F5, F6. split_and!; try done; lia.
Qed.

(** One call, for a row of dropped frames that goes on with [frames]. *)
Lemma pexec_ok B N k p : 0 < B < 2 ^ 31 -> dropping B N p -> N < INT_MAX ->
  exists out p', pexec k p = Some (out, p') /\ dropping B (N + 1) p' /\ Forall (fun s => 0 <= frameSizeInBytes s <= B) out /\
    m_maxSequentialDropsCount p' = m_maxSequentialDropsCount p /\ m_minDropFramesDist p' = m_minDropFramesDist p /\
    (forall frames, well_dropped (m_maxSequentialDropsCount p) (m_minDropFramesDist p) (m_frameDropsCount p') (m_framesSinceLastDrop p') frames = true ->
      well_dropped (m_maxSequentialDropsCount p) (m_minDropFramesDist p) (m_frameDropsCount p) (m_framesSinceLastDrop p) (map dropFrame out ++ frames) = true).
Proof.
  intros HB D HN. pose proof D as ((v & O) & Hf & Hc & Hm & Hd & Hs).
  assert (K : forall v' p', tcae_ok B (N + 1) v' p' -> same_frame p (with_input [] [] (m_idrRequested p) false p') -> exists out p'',
    Some ([], p') = Some (out, p'') /\ dropping B (N + 1) p'' /\ Forall (fun s => 0 <= frameSizeInBytes s <= B) out /\
    m_maxSequentialDropsCount p'' = m_maxSequentialDropsCount p /\ m_minDropFramesDist p'' = m_minDropFramesDist p /\
    (forall frames, well_dropped (m_maxSequentialDropsCount p) (m_minDropFramesDist p) (m_frameDropsCount p'') (m_framesSinceLastDrop p'') frames = true ->
      well_dropped (m_maxSequentialDropsCount p) (m_minDropFramesDist p) (m_frameDropsCount p) (m_framesSinceLastDrop p) (map dropFrame out ++ frames) = true)).
  { intros v' p' O' S. eexists _, _. split; [reflexivity|]. split; [by eapply dropping_same|]. split; [done|].
    destruct S as (F1 & F2 & F3 & F4 & F5 & F6 & _). cbn in *. split; [done|]. split; [done|]. intros frames. by rewrite F5, F6. }
  destruct k as [d|f| |f]; cbn [pexec].
  - destruct (network_ok B N v d p O) as (O1 & S1 & _). by eapply K.
  - destruct (sent_ok B N v f p O) as (O1 & S1 & _). by eapply K.
  - destruct (predict_ok B N v p HB O ltac:(lia)) as (s & p' & z & p1 & -> & O' & _ & _ & E3 & E4 & E1 & (G1 & G2 & G3 & G4 & G5 & G6 & _) & R).
    cbn [mbind option_bind option_list]. eexists _, _. split; [reflexivity|]. rewrite E3, E4. destruct (negb _ && drop_now p1) eqn:ED.
    + destruct R as (-> & R1 & R2). apply andb_true_iff in ED as [_ ED]. unfold drop_now in ED. rewrite G1, G3, G4, G5, G6, Hf in ED. cbn [andb] in ED.
      apply andb_true_iff in ED as [ED _]. apply andb_true_iff in ED as [ED _]. apply andb_true_iff in ED as [D1 D2].
      assert (m_frameDropsCount p' = m_frameDropsCount p + 1) as R1' by (rewrite R1; apply wrapu_small; lia).
      split; [|split; [repeat constructor; cbn; lia|split; [done|split; [done|]]]].
      * split; [exists v; eapply tcae_mono; [done|lia]|]. rewrite E1, E3, E4, R1', R2. split_and!; try done; lia.
      * intros frames W. change (map dropFrame _ ++ frames) with (true :: frames). cbn [well_dropped]. rewrite R1', R2 in W. rewrite W, D1. cbn [andb]. rewrite andb_true_r.
        apply negb_true_iff, andb_false_iff in D2. apply orb_true_iff. lia.
    + destruct R as (R0 & R1 & _ & R2 & R3). rewrite Hf in R3.
      assert (m_framesSinceLastDrop p' = m_framesSinceLastDrop p + 1) as R3' by (rewrite R3; apply wrapu_small; unfold INT_MAX in *; lia).
      split; [|split; [by apply Forall_singleton|split; [done|split; [done|]]]].
      * split; [exists v; eapply tcae_mono; [done|lia]|]. rewrite E1, E3, E4, R1, R3'. split_and!; try done; lia.
      * intros frames W. change (map dropFrame _ ++ frames) with (dropFrame s :: frames). rewrite R0. cbn [well_dropped]. by rewrite R1, R3' in W.
  - destruct (fps_ok B N v f p O) as (O1 & S1). eapply K; [exact O1|]. destruct S1 as (? & ? & ? & ? & ? & ? & _). by repeat split.
Qed.

Lemma prun_ok B ks : forall N p, 0 < B < 2 ^ 31 -> dropping B N p -> N + Z.of_nat (length ks) <= INT_MAX ->
  exists out p', run_calls pexec ks p = Some (out, p') /\ Forall (fun s => 0 <= frameSizeInBytes s <= B) out /\
    well_dropped (m_maxSequentialDropsCount p) (m_minDropFramesDist p) (m_frameDropsCount p) (m_framesSinceLastDrop p) (map dropFrame out) = true.
Proof.
  induction ks as [|k ks IH]; intros N p HB D HN; cbn [run_calls length] in *; [by exists [], p|].
  destruct (pexec_ok B N k p HB D ltac:(lia)) as (o & p1 & -> & D1 & F1 & E3 & E4 & W1). cbn [mbind option_bind].
  destruct (IH (N + 1) p1 HB D1 ltac:(lia)) as (out & p2 & -> & F2 & W2). cbn [mbind option_bind]. eexists _, _. split; [reflexivity|].
  split; [by apply Forall_app|]. rewrite map_app. apply W1. by rewrite <- E3, <- E4.
Qed.

(** C34. Frames are dropped in moderation.  When dropping is asked for and the predictor started,
    whatever is reported and predicted, no more frames in a row are dropped than the start
    allowed, as many frames as it asked for are kept between two rows, and no frame that is
    kept, key frames included, may be larger than the greatest size. *)
Theorem drops_limited ratio env a p ks : 0 <= maxFrameSizeInBytes a < 2 ^ 31 -> 0 <= maxSequentialDropsCount a < 2 ^ 16 -> 0 <= minDropFramesDistance a < 2 ^ 16 ->
  has (featuresSet a) TCAE_FRAME_DROP = true -> Start ratio env (Some a) PredictorTcaeImpl_new = (ERR_NONE, p) -> Z.of_nat (length ks) <= INT_MAX ->
  exists out p', run_calls pexec ks p = Some (out, p') /\
    well_dropped (default (maxSequentialDropsCount a) 3) (default (minDropFramesDistance a) 1) 0 (default (minDropFramesDistance a) 1) (map dropFrame out) = true /\
    Forall (fun s => 0 <= frameSizeInBytes s <= default (maxFrameSizeInBytes a) 50000) out.
Proof.
  intros Hm Hs Hd Hf E Hk. destruct (start_ok ratio env a p ltac:(lia) E) as (HB & O & C0 & S0 & _).
  assert (m_features p = featuresSet a /\ m_maxSequentialDropsCount p = default (maxSequentialDropsCount a) 3 /\
    m_minDropFramesDist p = default (minDropFramesDistance a) 1) as (E1 & E2 & E3).
  { revert E. unfold Start. cbn [m_NetworkPredictor PredictorTcaeImpl_new StartImpl].
    destruct (start_checks a) as [e|[[[[[f r] d] dc] dd] mx]] eqn:Ec; intros [= ].
    - exfalso. subst. revert Ec. unfold start_checks. repeat (case_match; try discriminate).
    - subst p. cbn. revert Ec. unfold start_checks.
      assert ((featuresSet a =? TCAE_MODE_UNKNOWN) = false) as ->. { apply Z.eqb_neq. intros Z0. rewrite Z0 in Hf. discriminate Hf. }
      assert ((featuresSet a =? TCAE_MODE_STANDALONE) = false) as ->. { apply Z.eqb_neq. intros Z0. rewrite Z0 in Hf. discriminate Hf. }
      rewrite Hf. repeat (case_match; try discriminate); intros [= <- <- <- <- <- <-]; done. }
  assert (B31 : default (maxFrameSizeInBytes a) DefaultMaxFrameSizeInBytes < 2 ^ 31).
  { unfold default, DefaultMaxFrameSizeInBytes. destruct (_ =? _); lia. }
  destruct (prun_ok (default (maxFrameSizeInBytes a) DefaultMaxFrameSizeInBytes) ks 0 p (conj HB B31)) as (out & p' & R & F & W).
  { split; [by exists false|]. rewrite E1, C0, S0, E2, E3. unfold default. split_and!; try done; repeat (case_match; try lia). }
  { lia. }
  exists out, p'. split; [done|]. rewrite E2, E3, C0, S0, E3 in W. by split.
Qed.

(** A request for a key frame is lost when another report arrives before the next frame. *)
Theorem key_request_overwritten d d' n p : m_NetworkPredictor p = Some n -> idrRequired d' = false ->
  m_idrRequested (UpdateNetworkState (Some d') (UpdateNetworkState (Some d) p).2).2 = false.
Proof.
  intros E Ed. unfold UpdateNetworkState. rewrite E. unfold UpdateNetworkStateImpl. destruct (_ || _); cbn [snd m_NetworkPredictor with_input];
    rewrite E; destruct (_ || _); done.
Qed.

(** ** Witnesses *)

Lemma target_sizes_in_range_witness : exists w0 sizes w',
  Initialize (decimal 97723722095581 14) None true true None 100 50000 (setTcaeLogPath wrapper0) = (0, w0) /\
  run_calls wexec [WEncoded 21000; WTarget; WFeedback 30500 20000; WFps (of_Z 30); WTarget; WEncoded 20000; WTarget] w0 = Some (sizes, w') /\
  sizes_ok 50000 false [WEncoded 21000; WTarget; WFeedback 30500 20000; WFps (of_Z 30); WTarget; WEncoded 20000; WTarget] sizes.
Proof.
  apply (target_sizes_in_range (decimal 97723722095581 14) None true None 100 50000 (setTcaeLogPath wrapper0)
    [WEncoded 21000; WTarget; WFeedback 30500 20000; WFps (of_Z 30); WTarget; WEncoded 20000; WTarget]); [lia|lia|reflexivity|vm_compute; discriminate].
Defined.

Definition drop_params : TcaeInitParams_t :=
  {| featuresSet := 3; targetDelayInMs := 20; bufferedRecordsCount := 0; maxSequentialDropsCount := 2; maxFrameSizeInBytes := 40000; minDropFramesDistance := 2 |}.
Definition drop_calls : list pcall :=
  PNetwork {| lastPacketDelayInUs := 90000; transmittedDataSizeInBytes := 3000; idrRequired := false |} :: repeat PPredict 8.

Lemma drops_limited_witness : exists p out p', Start (decimal 97723722095581 14) None (Some drop_params) PredictorTcaeImpl_new = (ERR_NONE, p) /\
  run_calls pexec drop_calls p = Some (out, p') /\ map dropFrame out = [true; true; false; false; true; true; false; false] /\
  well_dropped 2 2 0 2 (map dropFrame out) = true.
Proof.
  destruct (Start (decimal 97723722095581 14) None (Some drop_params) PredictorTcaeImpl_new) as [st p] eqn:E.
  assert (st = ERR_NONE) as -> by (vm_compute in E; injection E as <- _; reflexivity).
  destruct (drops_limited (decimal 97723722095581 14) None drop_params p drop_calls) as (out & p' & R & W & _); [cbn; lia|cbn; lia|cbn; lia|reflexivity|exact E|vm_compute; discriminate|].
  exists p, out, p'. split; [reflexivity|]. split; [exact R|]. split; [|exact W].
  vm_compute in E. injection E as <-. vm_compute in R. injection R as <- _. reflexivity.
Defined.
