(* ===== verification/ClientControl.v ===== *)
(** * ClientControl: the native client's input and cursor

    Models the client of [src/sources/apps/webrtc-client] that runs on Windows, but for its
    window ([ClientWindow]): the translation of window messages and raw input
    ([ga-option.cc]), the control messages ([control-handler.cc]), the session that sends
    them and receives the cursor ([game-session.cc]), and the start of its connection
    ([peer-connection.cc]).  The documents of
    rapidjson, whose members the code adds and reads by name, are the JSON values of
    [Json]; the text they are written to and read from is left to the library. *)

From Stdlib Require Import ZArith Lia String.
From Stdlib Require Import Floats.SpecFloat.
From stdpp Require Import base list option relations.
From S2P Require Import Prelude Bytes StdMap GaConf CNum Json SdlController.

(** ** Single precision *)

Definition fmul (x y : float) : float := SFmul fprec femax x y.
Definition fdiv (x y : float) : float := SFdiv fprec femax x y.

(** ** Control messages *)

Inductive MouseEvent := kMouseMove | kMouseLeftButton | kMouseMiddleButton | kMouseRightButton | kMouseWheel.
Inductive MouseButtonState := kMouseButtonUp | kMouseButtonDown.

(** Of the window messages, the ones the client handles. *)
Inductive window_message :=
| WM_KEYDOWN | WM_KEYUP | WM_INPUT | WM_MOUSEMOVE | WM_LBUTTONUP | WM_LBUTTONDOWN | WM_MBUTTONUP | WM_MBUTTONDOWN
| WM_RBUTTONUP | WM_RBUTTONDOWN | WM_MOUSEWHEEL | WM_SYSKEYDOWN | WM_SYSKEYUP | WM_CLOSE | WM_DESTROY | WM_GA_CURSOR_VISIBLE | WM_OTHER.

Record KeyboardOptions := { v_key_ : Z; msg_ : window_message }.
Record MouseOptions := { x_pos_ : Z; y_pos_ : Z; delta_y_ : Z; m_event_ : MouseEvent; m_button_state_ : MouseButtonState }.
Record FrameStats := { fs_ts : Z; fs_size : Z; fs_delay : Z; fs_start_delay : Z; fs_p_loss : Z; latencymsg_ : Z }.

(** [{"type": "control", "data": {...}}] *)
Definition control (data : list (bytes * value)) : value := VObject [(b "type", VString (b "control")); (b "data", VObject data)].

Definition OnKeyboardEvent (k : KeyboardOptions) : value :=
  let ev := match msg_ k with
            | WM_KEYDOWN => [(b "event", VString (b "keydown"))]
            | WM_KEYUP => [(b "event", VString (b "keyup"))]
            | _ => []
            end in
  control (ev ++ [(b "parameters", VObject [(b "which", VInt (v_key_ k))])]).

(** A coordinate: the position times the scale over the size of the window, in
    32767ths; undefined when it does not fit an [int]. *)
Definition coordinate_of (scale : float) (pos window : Z) : option Z :=
  to_int (fmul (fdiv (fmul (float_of_int pos) scale) (float_of_int window)) (float_of_int 32767)).

(** The name of a button's event, and the number of the button. *)
Definition button (s : MouseButtonState) (which : Z) : list (bytes * value) * list (bytes * value) :=
  ([(b "event", VString (match s with kMouseButtonDown => b "mousedown" | kMouseButtonUp => b "mouseup" end))], [(b "which", VInt which)]).

(** [OnMouseEvent]; [scale] is [screen_scale_factor_] itself, and not the copy of it that
    is at least 1. *)
Definition OnMouseEvent (scale : float) (width height : Z) (m : MouseOptions) : option value :=
  x ← coordinate_of scale (x_pos_ m) width;
  y ← coordinate_of scale (y_pos_ m) height;
  let '(ev, more) :=
    match m_event_ m with
    | kMouseMove => ([(b "event", VString (b "mousemove"))], [])
    | kMouseLeftButton => button (m_button_state_ m) 1
    | kMouseMiddleButton => button (m_button_state_ m) 2
    | kMouseRightButton => button (m_button_state_ m) 3
    | kMouseWheel => ([(b "event", VString (b "wheel"))], [(b "deltaX", VInt 0); (b "deltaY", VInt (delta_y_ m)); (b "deltaZ", VInt 0)])
    end in
  Some (control (ev ++ [(b "parameters", VObject ([(b "x", VInt x); (b "y", VInt y); (b "movementX", VInt x); (b "movementY", VInt y)] ++ more))])).

Definition fone : float := float_of_int 1.

Definition OnSizeChange (scale : float) (render_w render_h : Z) : option value :=
  let scale := if SFleb fone scale then scale else fone in
  x ← to_int (fmul (float_of_int render_w) scale);
  y ← to_int (fmul (float_of_int render_h) scale);
  Some (control [(b "event", VString (b "sizechange"));
                 (b "parameters", VObject [(b "mode", VString (b "stretch"));
                                           (b "rendererSize", VObject [(b "width", VInt x); (b "height", VInt y)])])]).

Definition onPointerlockchange (relative : bool) : value :=
  control [(b "event", VString (b "pointerlockchange")); (b "parameters", VObject [(b "locked", VBool relative)])].

Definition OnStatsRequest (f : FrameStats) : value :=
  control [(b "event", VString (b "framestats"));
           (b "parameters", VObject ([(b "framets", VInt (fs_ts f)); (b "framesize", VInt (fs_size f)); (b "framedelay", VInt (fs_delay f));
                                      (b "framestartdelay", VInt (fs_start_delay f)); (b "packetloss", VInt (fs_p_loss f))] ++
                                     (if 0 <? latencymsg_ f then [(b "E2ELatency", VInt (latencymsg_ f))] else [])))].

(** ** The session *)

(** What is remembered of the session, whether the server's stream has arrived at its
    connection, and the documents it sent. *)
Record GameSession := {
  render_width_ : Z; render_height_ : Z; prev_pointerlock_status_ : bool; stream_started_ : bool; sent : list value }.
Definition GameSession_new : GameSession :=
  {| render_width_ := 0; render_height_ := 0; prev_pointerlock_status_ := false; stream_started_ := false; sent := [] |}.
Definition set_size (w h : Z) (s : GameSession) : GameSession :=
  {| render_width_ := w; render_height_ := h; prev_pointerlock_status_ := prev_pointerlock_status_ s; stream_started_ := stream_started_ s; sent := sent s |}.
Definition set_pointerlock (relative : bool) (s : GameSession) : GameSession :=
  {| render_width_ := render_width_ s; render_height_ := render_height_ s; prev_pointerlock_status_ := relative; stream_started_ := stream_started_ s;
     sent := sent s |}.
Definition set_stream (s : GameSession) : GameSession :=
  {| render_width_ := render_width_ s; render_height_ := render_height_ s; prev_pointerlock_status_ := prev_pointerlock_status_ s; stream_started_ := true;
     sent := sent s |}.

(** [PeerConnection::SendMessage]: nothing is sent before the stream has arrived. *)
Definition SendMessage (v : value) (s : GameSession) : GameSession :=
  if stream_started_ s
  then {| render_width_ := render_width_ s; render_height_ := render_height_ s; prev_pointerlock_status_ := prev_pointerlock_status_ s;
          stream_started_ := true; sent := sent s ++ [v] |}
  else s.

Definition OnStreamAdded (scale : float) (s : GameSession) : option GameSession :=
  if negb (render_width_ s =? 0) && negb (render_height_ s =? 0)
  then v ← OnSizeChange scale (render_width_ s) (render_height_ s); Some (SendMessage v s) else Some s.
(** [PeerConnection::OnStreamAdded] *)
Definition PeerConnection_OnStreamAdded (scale : float) (s : GameSession) : option GameSession := OnStreamAdded scale (set_stream s).

Definition SendSizeChange (w h : Z) (s : GameSession) : GameSession :=
  if negb (w =? render_width_ s) || negb (h =? render_height_ s) then set_size w h s else s.

(** The mode counts as told, also when nothing was sent. *)
Definition SendPointerlockchange (relative : bool) (s : GameSession) : GameSession :=
  if negb (Bool.eqb (prev_pointerlock_status_ s) relative)
  then set_pointerlock relative (SendMessage (onPointerlockchange relative) s) else s.

Definition SendFrameStats (f : FrameStats) (s : GameSession) : GameSession := SendMessage (OnStatsRequest f) s.
Definition SendMouseEvent (scale : float) (width height : Z) (m : MouseOptions) (s : GameSession) : option GameSession :=
  v ← OnMouseEvent scale width height m; Some (SendMessage v s).
Definition SendKeyboardEvent (k : KeyboardOptions) (s : GameSession) : GameSession := SendMessage (OnKeyboardEvent k) s.

(** ** Window messages and raw input *)

(** Raw input as the system gives it. *)
Inductive button_flags :=
| RI_MOUSE_LEFT_BUTTON_DOWN | RI_MOUSE_LEFT_BUTTON_UP | RI_MOUSE_MIDDLE_BUTTON_DOWN | RI_MOUSE_MIDDLE_BUTTON_UP
| RI_MOUSE_RIGHT_BUTTON_DOWN | RI_MOUSE_RIGHT_BUTTON_UP | RI_MOUSE_BUTTON_4_DOWN | RI_MOUSE_BUTTON_4_UP
| RI_MOUSE_BUTTON_5_DOWN | RI_MOUSE_BUTTON_5_UP | RI_MOUSE_WHEEL | RI_OTHER.
Inductive raw_input :=
| RawMouse (lLastX lLastY : Z) (flags : button_flags) (usButtonData : Z)
| RawKeyboard (message : window_message) (vkey : Z)
| RawOther.

Definition PopulateCommonMouseOptionsLegacy (l_param delta : Z) (e : MouseEvent) (st : MouseButtonState) : MouseOptions :=
  {| x_pos_ := Z.land l_param 65535; y_pos_ := Z.land (Z.shiftr l_param 16) 65535; delta_y_ := delta; m_event_ := e; m_button_state_ := st |}.

(** Nothing for what is not reported. *)
Definition PopulateCommonMouseOptionsRaw (x y : Z) (flags : button_flags) (data : Z) : option MouseOptions :=
  let mk e st d := Some {| x_pos_ := x; y_pos_ := y; delta_y_ := d; m_event_ := e; m_button_state_ := st |} in
  match flags with
  | RI_MOUSE_LEFT_BUTTON_DOWN => mk kMouseLeftButton kMouseButtonDown 0
  | RI_MOUSE_LEFT_BUTTON_UP => mk kMouseLeftButton kMouseButtonUp 0
  | RI_MOUSE_MIDDLE_BUTTON_DOWN => mk kMouseMiddleButton kMouseButtonDown 0
  | RI_MOUSE_MIDDLE_BUTTON_UP => mk kMouseMiddleButton kMouseButtonUp 0
  | RI_MOUSE_RIGHT_BUTTON_DOWN => mk kMouseRightButton kMouseButtonDown 0
  | RI_MOUSE_RIGHT_BUTTON_UP => mk kMouseRightButton kMouseButtonUp 0
  | RI_MOUSE_BUTTON_4_DOWN | RI_MOUSE_BUTTON_4_UP | RI_MOUSE_BUTTON_5_DOWN | RI_MOUSE_BUTTON_5_UP => None
  | RI_MOUSE_WHEEL => mk kMouseWheel kMouseButtonUp data
  | RI_OTHER => if negb (x =? 0) || negb (y =? 0) then mk kMouseMove kMouseButtonUp 0 else None
  end.

(** [GET_WHEEL_DELTA_WPARAM] *)
Definition wheel_delta (w_param : Z) : Z := wraps 16 (Z.shiftr w_param 16).

(** What a window message without raw input says of the mouse. *)
Definition mouse_message (m : window_message) (w_param l_param : Z) : option MouseOptions :=
  let mk := PopulateCommonMouseOptionsLegacy l_param in
  match m with
  | WM_MOUSEMOVE => Some (mk 0 kMouseMove kMouseButtonUp)
  | WM_LBUTTONUP => Some (mk 0 kMouseLeftButton kMouseButtonUp)
  | WM_LBUTTONDOWN => Some (mk 0 kMouseLeftButton kMouseButtonDown)
  | WM_MBUTTONUP => Some (mk 0 kMouseMiddleButton kMouseButtonUp)
  | WM_MBUTTONDOWN => Some (mk 0 kMouseMiddleButton kMouseButtonDown)
  | WM_RBUTTONUP => Some (mk 0 kMouseRightButton kMouseButtonUp)
  | WM_RBUTTONDOWN => Some (mk 0 kMouseRightButton kMouseButtonDown)
  | WM_MOUSEWHEEL => Some (mk (wheel_delta w_param) kMouseWheel kMouseButtonUp)
  | _ => None
  end.

(** The client's window: its size, the scale of the screen, and whether the cursor is
    reported in relative mode. *)
Record view := { v_width : Z; v_height : Z; v_scale : float; g_bCursorRelativemode : bool }.

(** [SendInput]; [raw] is what [GetRawInputData] gives for WM_INPUT. *)
Definition SendInput (v : view) (m : window_message) (w_param l_param : Z) (raw : raw_input) (s : GameSession) : option GameSession :=
  match m with
  | WM_KEYDOWN | WM_KEYUP => Some (SendKeyboardEvent {| v_key_ := w_param; msg_ := m |} s)
  | WM_INPUT =>
      if g_bCursorRelativemode v then
        match raw with
        | RawMouse x y flags data =>
            match PopulateCommonMouseOptionsRaw x y flags data with
            | Some o => SendMouseEvent (v_scale v) (v_width v) (v_height v) o s
            | None => Some s
            end
        | RawKeyboard message vkey => Some (SendKeyboardEvent {| v_key_ := vkey; msg_ := message |} s)
        | RawOther => Some s
        end
      else Some s
  | _ =>
      if g_bCursorRelativemode v then Some s
      else match mouse_message m w_param l_param with
           | Some o => SendMouseEvent (v_scale v) (v_width v) (v_height v) o s
           | None => Some s
           end
  end.

Definition ChangeCursorReportMode (relative : bool) (v : view) (s : GameSession) : view * GameSession :=
  ({| v_width := v_width v; v_height := v_height v; v_scale := v_scale v; g_bCursorRelativemode := relative |}, SendPointerlockchange relative s).

(** ** The cursor *)

(** [ga::json]: the members of a document; a document that is no object has none to ask
    for. *)
Inductive json_type := kNullType | kFalseType | kTrueType | kObjectType | kArrayType | kStringType | kNumberType.
Definition type_of (v : value) : json_type :=
  match v with
  | VNull => kNullType | VBool false => kFalseType | VBool true => kTrueType | VInt _ | VDouble _ => kNumberType
  | VString _ => kStringType | VArray _ | VStrings _ => kArrayType | VObject _ => kObjectType
  end.
Definition member (d : value) (k : bytes) : option value := match d with VObject l => Some (assoc k l) | _ => None end.

Definition MemberType (d : value) (k : bytes) : option json_type :=
  match d with VNull => Some kNullType | _ => v ← member d k; Some (type_of v) end.
(** [GetUint64] of a number that is none is undefined. *)
Definition FromUint64 (d : value) (k : bytes) : option Z :=
  t ← MemberType d k;
  match t with
  | kNumberType => v ← member d k; match v with VInt z => if (0 <=? z) && (z <? 2 ^ 64) then Some z else None | _ => None end
  | _ => Some 0
  end.
Definition FromString (d : value) (k : bytes) : option bytes :=
  t ← MemberType d k;
  match t with kStringType => v ← member d k; match v with VString s => Some s | _ => None end | _ => Some [] end.
Definition FromBool (d : value) (k : bytes) : option bool :=
  t ← MemberType d k; Some (match t with kTrueType => true | _ => false end).

Record CursorInfo := { ci_isVisible : bool; ci_width : Z; ci_height : Z; ci_pitch : Z; ci_cursorDataUpdate : bool; ci_cursordata : list Z }.
Definition no_cursor : CursorInfo :=
  {| ci_isVisible := false; ci_width := 0; ci_height := 0; ci_pitch := 0; ci_cursorDataUpdate := false; ci_cursordata := [] |}.
Definition CLIENT_MAX_CURSOR_SIZE : Z := 64 * 64 * 4.

(** [OnDataReceivedHandler] on the document of a message: what the callback gets, if it is
    called; bytes are cut from unsigned numbers. *)
Definition OnDataReceivedHandler (d : value) : option (option CursorInfo) :=
  type ← FromString d (b "type");
  if negb (str_eqb type (b "cursor")) then Some None
  else
    visible ← FromBool d (b "visible");
    if negb visible then Some (Some no_cursor)
    else
      w ← FromUint64 d (b "width");
      h ← FromUint64 d (b "height");
      p ← FromUint64 d (b "pitch");
      same ← FromBool d (b "noShapeChange");
      data ← (if same then Some []
              else v ← member d (b "cursorData");
                   match v with
                   | VArray l => if Z.of_nat (length l) <=? CLIENT_MAX_CURSOR_SIZE then Some (map u8 l) else Some []
                   | VStrings l => if (Z.of_nat (length l) <=? CLIENT_MAX_CURSOR_SIZE) && negb (bool_decide (l = [])) then None else Some []
                   | _ => Some []
                   end);
      Some (Some {| ci_isVisible := true; ci_width := u32 w; ci_height := u32 h; ci_pitch := u32 p; ci_cursorDataUpdate := negb same; ci_cursordata := data |}).

(** ** The first message *)

(** [PeerConnection::Start] sends [start] until it was delivered once.  Its loop and the two
    callbacks of a message run on different threads: the steps are the exchanges of the
    shared variables.  [sending] counts the messages without an answer, [told] the
    callbacks that have set [send_success_] and not yet [send_invoke_is_safe_], [freed] those
    that have yet to call the session. *)
Inductive loop_phase := Checking | Sleeping | Started.
Record start_state := {
  phase : loop_phase; send_invoke_is_safe_ : bool; send_success_ : bool; sending : nat; told : nat; freed : nat;
  starts : nat; failures : nat; connected : nat }.
Definition start0 : start_state :=
  {| phase := Checking; send_invoke_is_safe_ := true; send_success_ := false; sending := 0; told := 0; freed := 0; starts := 0; failures := 0; connected := 0 |}.

Inductive start_step : start_state -> start_state -> Prop :=
| check_sends s : phase s = Checking -> send_invoke_is_safe_ s = true ->
    start_step s {| phase := Sleeping; send_invoke_is_safe_ := false; send_success_ := send_success_ s; sending := S (sending s); told := told s;
                    freed := freed s; starts := S (starts s); failures := failures s; connected := connected s |}
| check_waits s : phase s = Checking -> send_invoke_is_safe_ s = false ->
    start_step s {| phase := Sleeping; send_invoke_is_safe_ := false; send_success_ := send_success_ s; sending := sending s; told := told s;
                    freed := freed s; starts := starts s; failures := failures s; connected := connected s |}
| wakes s : phase s = Sleeping ->
    start_step s {| phase := if send_success_ s then Started else Checking; send_invoke_is_safe_ := send_invoke_is_safe_ s;
                    send_success_ := send_success_ s; sending := sending s; told := told s; freed := freed s; starts := starts s;
                    failures := failures s; connected := connected s |}
| delivered s n : sending s = S n ->
    start_step s {| phase := phase s; send_invoke_is_safe_ := send_invoke_is_safe_ s; send_success_ := true; sending := n; told := S (told s);
                    freed := freed s; starts := starts s; failures := failures s; connected := connected s |}
| frees s n : told s = S n ->
    start_step s {| phase := phase s; send_invoke_is_safe_ := true; send_success_ := send_success_ s; sending := sending s; told := n;
                    freed := S (freed s); starts := starts s; failures := failures s; connected := connected s |}
| tells_session s n : freed s = S n ->
    start_step s {| phase := phase s; send_invoke_is_safe_ := send_invoke_is_safe_ s; send_success_ := send_success_ s; sending := sending s; told := told s;
                    freed := n; starts := starts s; failures := failures s; connected := S (connected s) |}
| fails s n : sending s = S n ->
    start_step s {| phase := phase s; send_invoke_is_safe_ := true; send_success_ := send_success_ s; sending := n; told := told s; freed := freed s;
                    starts := starts s; failures := S (failures s); connected := connected s |}.

(** The flag guards the messages; every message is accounted for; once one was delivered the
    loop sends at most one more. *)
Definition one_unanswered (s : start_state) : Prop :=
  (sending s + told s = if send_invoke_is_safe_ s then 0 else 1)%nat /\
  (starts s = sending s + told s + freed s + connected s + failures s)%nat /\
  (send_success_ s = false -> told s + freed s + connected s = 0)%nat /\
  (send_success_ s = true -> 1 <= told s + freed s + connected s)%nat /\
  (phase s = Started -> send_success_ s = true) /\
  (if send_success_ s then told s + freed s + connected s + sending s <= match phase s with Checking => 1 | _ => 2 end else True)%nat.

Lemma unanswered_step s s' : one_unanswered s -> start_step s s' -> one_unanswered s'.
Proof.
  unfold one_unanswered. intros (G & A & F & T & P & L) St.
  destruct St as [s Ph Sf|s Ph Sf|s Ph|s n E|s n E|s n E|s n E]; cbn; try rewrite Ph in *; try rewrite Sf in *; try rewrite E in *;
    destruct (send_invoke_is_safe_ s), (send_success_ s), (phase s); try discriminate;
    try specialize (F eq_refl); try specialize (T eq_refl); cbn in *; repeat split; intros; try discriminate; try done; auto; lia.
Qed.

(** The start of a connection.  However the loop and the callbacks interleave, at most one
    [start] waits for its answer; the loop ends only after one was delivered; and [start] is
    sent at most twice more often than it failed, the second time when the loop looks at the flag
    between the delivery and its own check of it. *)
Theorem start_sent_alone s : rtc start_step start0 s ->
  (sending s <= 1)%nat /\ (phase s = Started -> 1 <= told s + freed s + connected s)%nat /\ (starts s <= failures s + 2)%nat.
Proof.
  intros R. assert (one_unanswered s) as (G & A & F & T & P & L).
  { cut (one_unanswered start0); [|repeat split; done]. induction R as [|x y z St _ IH]; [done|]. intros Ok. by apply IH, (unanswered_step x). }
  split; [destruct (send_invoke_is_safe_ s); lia|]. split; [intros E; auto|].
  destruct (send_success_ s); [destruct (phase s); lia|]. rewrite A. specialize (F eq_refl). destruct (send_invoke_is_safe_ s); lia.
Qed.

(** ** What the client does wrong *)

(** In relative mode the wheel turns one way only: the unsigned number of the raw input is
    taken as it is, so that a turn towards the user, by -120, is sent as 65416. *)
Theorem raw_wheel_one_way v x y data s s' : g_bCursorRelativemode v = true -> stream_started_ s = true -> 0 <= data ->
  SendInput v WM_INPUT 0 0 (RawMouse x y RI_MOUSE_WHEEL data) s = Some s' ->
  exists d p, sent s' = sent s ++ [control [(b "event", VString (b "wheel")); (b "parameters", VObject p)]] /\ assoc (b "deltaY") p = VInt d /\ 0 <= d.
Proof.
  intros R St Hd. unfold SendInput. rewrite R. cbn [PopulateCommonMouseOptionsRaw]. unfold SendMouseEvent, OnMouseEvent. cbn [m_event_ x_pos_ y_pos_ delta_y_].
  destruct (coordinate_of _ x _) as [cx|]; [|done]. cbn [mbind option_bind]. destruct (coordinate_of _ y _) as [cy|]; [|done]. cbn [mbind option_bind].
  intros [= <-]. unfold SendMessage. rewrite St. eexists data, _. split; [reflexivity|]. by split.
Qed.

(** A message that is no object ends the client: the members of an array are asked for. *)
Theorem array_message_crashes l : OnDataReceivedHandler (VArray l) = None.
Proof. reflexivity. Qed.

(** A mode that was chosen before the stream arrived is never told: it counts as told, and
    choosing it again sends nothing. *)
Theorem mode_lost scale v s s' : stream_started_ s = false -> prev_pointerlock_status_ s = false ->
  PeerConnection_OnStreamAdded scale (ChangeCursorReportMode true v s).2 = Some s' ->
  (forall d, In d (sent s') -> In d (sent s) \/ Some d = OnSizeChange scale (render_width_ s) (render_height_ s)) /\
  (ChangeCursorReportMode true (ChangeCursorReportMode true v s).1 s').2 = s'.
Proof.
  intros St Pv. unfold ChangeCursorReportMode, SendPointerlockchange, SendMessage. rewrite St, Pv. cbn.
  unfold PeerConnection_OnStreamAdded, OnStreamAdded, SendMessage. cbn. destruct (_ && _).
  - destruct (OnSizeChange _ _ _) as [d|]; [|done]. cbn. intros [= <-]. cbn. split; [|done].
    intros x [I|[<-|[]]]%in_app_iff; auto.
  - intros [= <-]. cbn. split; [by left|done].
Qed.
