(* ===== verification/ClientWindow.v ===== *)
(** * ClientWindow: the native client's window

    Models the window of the native client in [src/sources/apps/webrtc-client]: its
    procedure and modes ([window-class.cc]), the handler that owns it
    ([window-handler.cc]) and the flags of the program ([webrtc-client.cc]).  What the
    system knows of the screen is a [desktop], what the window asks of the system is a
    [window_effect]. *)

From Stdlib Require Import ZArith Lia String.
From Stdlib Require Import Floats.SpecFloat.
From stdpp Require Import base list option.
From S2P Require Import Prelude Bytes StdMap GaConf CNum Json SdlController ClientControl.

(** ** The window *)

Record RECT := { left : Z; top : Z; right : Z; bottom : Z }.
Record WindowClass := {
  client_window_width_ : Z; client_window_height_ : Z; initial_window_width_ : Z; initial_window_height_ : Z;
  scale_ratio_w_ : float; scale_ratio_h_ : float; x_render_offset_ : Z; y_render_offset_ : Z;
  full_screen_toggle_ : bool; game_mode_toggle_ : bool; in_sys_key_down_ : bool; window_rect_ : RECT }.

(** The window as it is created on a screen of that size, where the system has put it
    at [rect]. *)
Definition WindowClass_new (screen : Z * Z) (rect : RECT) : WindowClass :=
  {| client_window_width_ := screen.1; client_window_height_ := screen.2; initial_window_width_ := screen.1; initial_window_height_ := screen.2;
     scale_ratio_w_ := fone; scale_ratio_h_ := fone; x_render_offset_ := 0; y_render_offset_ := 0;
     full_screen_toggle_ := false; game_mode_toggle_ := true; in_sys_key_down_ := false; window_rect_ := rect |}.

Definition set_toggles (full game down : bool) (w : WindowClass) : WindowClass :=
  {| client_window_width_ := client_window_width_ w; client_window_height_ := client_window_height_ w;
     initial_window_width_ := initial_window_width_ w; initial_window_height_ := initial_window_height_ w;
     scale_ratio_w_ := scale_ratio_w_ w; scale_ratio_h_ := scale_ratio_h_ w; x_render_offset_ := x_render_offset_ w; y_render_offset_ := y_render_offset_ w;
     full_screen_toggle_ := full; game_mode_toggle_ := game; in_sys_key_down_ := down; window_rect_ := window_rect_ w |}.

(** What the system answers: the size of the screen, the rectangle of the window before and
    that of its contents after it was moved, and the counter of [ShowCursor]. *)
Record desktop := { screen : Z * Z; GetWindowRect : RECT; GetClientRect : RECT; cursor_count : Z }.

Inductive window_effect :=
| Input (m : window_message) (w_param l_param : Z)
| SetWindowPos (x y w h : Z)
| SetWindowSize (x y w h : Z)
| GameMode (enable : bool)
| CursorCount (count : Z)
| DestroyWindow
| PostQuitMessage
| DefProc.

(** The position that a message of the mouse carries, put together again after scaling: the
    two signed halves, moved by the offsets (an LPARAM less a UINT has 64 bits), times the
    ratio, and joined with the shift and the [|] of the code. *)
Definition scaled_lparam (w : WindowClass) (l_param : Z) : option Z :=
  let x := wraps 64 (wraps 16 l_param - x_render_offset_ w) in
  let y := wraps 64 (wraps 16 (Z.shiftr l_param 16) - y_render_offset_ w) in
  sy ← fceil (fmul (scale_ratio_h_ w) (float_of_int y));
  sx ← fceil (fmul (scale_ratio_w_ w) (float_of_int x));
  Some (Z.lor (wraps 64 (Z.shiftl sy 16)) sx).

Definition VK_UP : Z := 38.
Definition VK_OEM_PLUS : Z := 187.
Definition KF_ALTDOWN : Z := 8192.
Definition alt_down (l_param : Z) : bool := negb (Z.land (Z.land (Z.shiftr l_param 16) 65535) KF_ALTDOWN =? 0).


(** [ChangeWindowedMode]: the picture keeps the shape of the first window and fills the
    width; undefined for a first window of no width. *)
Definition ChangeWindowedMode (d : desktop) (full : bool) (w : WindowClass) : option (list window_effect * WindowClass) :=
  let rect := if full then GetWindowRect d else window_rect_ w in
  let cw := if full then u32 (right (GetClientRect d) - left (GetClientRect d)) else initial_window_width_ w in
  let ch := if full then u32 (bottom (GetClientRect d) - top (GetClientRect d)) else initial_window_height_ w in
  let pos := if full then SetWindowPos 0 0 (screen d).1 (screen d).2
             else SetWindowPos (left rect) (top rect) (u32 (right rect - left rect)) (u32 (bottom rect - top rect)) in
  if initial_window_width_ w =? 0 then None
  else
    let new_height := wraps 32 (u32 (cw * initial_window_height_ w) / initial_window_width_ w) in
    let y_offset := u32 (ch - new_height) / 2 in
    Some ([pos; SetWindowSize 0 y_offset cw (u32 new_height)],
          {| client_window_width_ := cw; client_window_height_ := ch;
             initial_window_width_ := initial_window_width_ w; initial_window_height_ := initial_window_height_ w;
             scale_ratio_w_ := fdiv (float_of_int (initial_window_width_ w)) (float_of_int cw);
             scale_ratio_h_ := fdiv (float_of_int (initial_window_height_ w)) (float_of_int new_height);
             x_render_offset_ := 0; y_render_offset_ := y_offset;
             full_screen_toggle_ := full_screen_toggle_ w; game_mode_toggle_ := game_mode_toggle_ w; in_sys_key_down_ := in_sys_key_down_ w;
             window_rect_ := rect |}).

(** The loops around [ShowCursor], which counts up or down and returns the count. *)
Fixpoint show_more (fuel : nat) (count : Z) : option Z :=
  match fuel with O => None | S fuel => if count <=? 0 then show_more fuel (count + 1) else Some count end.
Fixpoint hide_more (fuel : nat) (count : Z) : option Z :=
  match fuel with O => None | S fuel => if 0 <=? count then hide_more fuel (count - 1) else Some count end.
Definition show_pointer (count : Z) : option Z := show_more (S (Z.to_nat (- count))) (count + 1).
Definition hide_pointer (count : Z) : option Z := hide_more (S (Z.to_nat count)) (count - 1).

Definition GA_HIDE_CURSOR : Z := 0.
Definition GA_SHOW_CURSOR : Z := 1.

Definition InternalWndProc (d : desktop) (m : window_message) (w_param l_param : Z) (w : WindowClass) : option (list window_effect * WindowClass) :=
  match m with
  | WM_MOUSEMOVE | WM_LBUTTONUP | WM_LBUTTONDOWN | WM_MBUTTONUP | WM_MBUTTONDOWN | WM_RBUTTONUP | WM_RBUTTONDOWN =>
      l ← scaled_lparam w l_param; Some ([Input m w_param l], w)
  | WM_KEYDOWN | WM_KEYUP | WM_INPUT => Some ([Input m w_param l_param], w)
  | WM_SYSKEYDOWN =>
      if (w_param =? VK_UP) && alt_down l_param && negb (in_sys_key_down_ w) then
        if full_screen_toggle_ w
        then '(es, w) ← ChangeWindowedMode d false w; Some (es ++ [GameMode false], set_toggles false (game_mode_toggle_ w) true w)
        else '(es, w) ← ChangeWindowedMode d true w; Some (es ++ [GameMode false; GameMode true], set_toggles true (game_mode_toggle_ w) true w)
      else if (w_param =? VK_OEM_PLUS) && alt_down l_param && negb (in_sys_key_down_ w) then
        if game_mode_toggle_ w then Some ([GameMode true], set_toggles (full_screen_toggle_ w) false true w)
        else Some ([GameMode false], set_toggles (full_screen_toggle_ w) true true w)
      else Some ([], w)
  | WM_SYSKEYUP => Some ([], set_toggles (full_screen_toggle_ w) (game_mode_toggle_ w) false w)
  | WM_CLOSE => Some ([DestroyWindow], w)
  | WM_DESTROY => Some ([PostQuitMessage], w)
  | WM_GA_CURSOR_VISIBLE =>
      if l_param =? GA_SHOW_CURSOR
      then c ← show_pointer (cursor_count d); Some ([CursorCount c; GameMode false; DefProc], w)
      else c ← hide_pointer (cursor_count d);
           Some (CursorCount c :: (if negb (game_mode_toggle_ w) then [GameMode true] else []) ++ [DefProc], w)
  | WM_MOUSEWHEEL | WM_OTHER => Some ([DefProc], w)
  end.

(** [WindowHandler::OnMouseStateChange] sends the window this message; the shape of the
    cursor is not used. *)
Definition OnMouseStateChange (c : CursorInfo) : window_message * Z :=
  (WM_GA_CURSOR_VISIBLE, if ci_isVisible c then GA_SHOW_CURSOR else GA_HIDE_CURSOR).

(** [WindowHandler::GetWindowSize] and what else [SendInput] sees. *)
Definition view_of (scale : float) (relative : bool) (w : WindowClass) : view :=
  {| v_width := wraps 32 (client_window_width_ w); v_height := wraps 32 (client_window_height_ w); v_scale := scale; g_bCursorRelativemode := relative |}.

(** The whole way of a window message to the documents that are sent. *)
Fixpoint run_effects (v : view) (raw : raw_input) (es : list window_effect) (s : GameSession) : option GameSession :=
  match es with
  | [] => Some s
  | Input m wp lp :: es => s ← SendInput v m wp lp raw s; run_effects v raw es s
  | _ :: es => run_effects v raw es s
  end.

Definition window_input (scale : float) (relative : bool) (d : desktop) (m : window_message) (w_param l_param : Z) (raw : raw_input)
    (w : WindowClass) (s : GameSession) : option (WindowClass * GameSession) :=
  '(es, w) ← InternalWndProc d m w_param l_param w; s ← run_effects (view_of scale relative w) raw es s; Some (w, s).

(** ** The owner of the window *)

(** The handler's pointer to the window: none, to a window, or to one that was deleted. *)
Inductive owned := NoWindow | Alive | Deleted.
Record WindowHandler := { wc_ : owned; session_id_ : bytes; connected_ : bool }.

Definition OnGameServerConnected (id : bytes) (h : WindowHandler) : WindowHandler :=
  if bool_decide (id = []) then h else {| wc_ := wc_ h; session_id_ := id; connected_ := true |}.
Definition InitializeGameWindow (h : WindowHandler) : WindowHandler := {| wc_ := Alive; session_id_ := session_id_ h; connected_ := connected_ h |}.

(** [WindowClass::Destroy] deletes the window; undefined for one that is gone. *)
Definition WindowClass_Destroy (o : owned) : option owned := match o with Alive => Some Deleted | _ => None end.
(** The destructor of the handler's [unique_ptr]. *)
Definition delete_owned (o : owned) : option owned := match o with NoWindow => Some NoWindow | Alive => Some Deleted | Deleted => None end.
(** What the window's procedure does to it: the message that closes it deletes it. *)
Definition close_window (h : WindowHandler) : option WindowHandler :=
  o ← WindowClass_Destroy (wc_ h); Some {| wc_ := o; session_id_ := session_id_ h; connected_ := connected_ h |}.

(** [WindowHandler::Destroy]: the session that is left, if there is one. *)
Definition WindowHandler_Destroy (h : WindowHandler) : option (option bytes) :=
  o ← (match wc_ h with NoWindow => Some NoWindow | o => WindowClass_Destroy o end);
  _ ← delete_owned o;
  Some (if bool_decide (session_id_ h = []) then None else Some (session_id_ h)).

(** ** The flags of the program *)

Record flags := {
  FLAGS_peer_server_url : bytes; FLAGS_sessionid : bytes; FLAGS_clientid : bytes; FLAGS_stunsvr : bytes;
  FLAGS_show_statistics : bool; FLAGS_logging : bool; FLAGS_streamdump : bool; FLAGS_verbose : bool; FLAGS_enable_rext : bool }.
Definition flags0 : flags :=
  {| FLAGS_peer_server_url := []; FLAGS_sessionid := b "ga"; FLAGS_clientid := b "client"; FLAGS_stunsvr := b "stun:stun.l.google.com:19302";
     FLAGS_show_statistics := false; FLAGS_logging := false; FLAGS_streamdump := false; FLAGS_verbose := false; FLAGS_enable_rext := false |}.
Definition with_texts (url session client stun : bytes) (f : flags) : flags :=
  {| FLAGS_peer_server_url := url; FLAGS_sessionid := session; FLAGS_clientid := client; FLAGS_stunsvr := stun;
     FLAGS_show_statistics := FLAGS_show_statistics f; FLAGS_logging := FLAGS_logging f; FLAGS_streamdump := FLAGS_streamdump f;
     FLAGS_verbose := FLAGS_verbose f; FLAGS_enable_rext := FLAGS_enable_rext f |}.
Definition with_switches (stats logging dump verbose rext : bool) (f : flags) : flags :=
  {| FLAGS_peer_server_url := FLAGS_peer_server_url f; FLAGS_sessionid := FLAGS_sessionid f; FLAGS_clientid := FLAGS_clientid f;
     FLAGS_stunsvr := FLAGS_stunsvr f; FLAGS_show_statistics := stats; FLAGS_logging := logging; FLAGS_streamdump := dump;
     FLAGS_verbose := verbose; FLAGS_enable_rext := rext |}.

(** Nothing when the program ends with its usage; what is not known, or lacks its value, ends
    the reading. *)
Fixpoint ParseCommandLineFlags (args : list bytes) (f : flags) : option flags :=
  match args with
  | [] => Some f
  | a :: rest =>
      if str_eqb a (b "-h") || str_eqb a (b "--help") then None
      else if str_eqb a (b "--peer_server_url") then
        match rest with [] => Some f | v :: rest => ParseCommandLineFlags rest (with_texts v (FLAGS_sessionid f) (FLAGS_clientid f) (FLAGS_stunsvr f) f) end
      else if str_eqb a (b "--sessionid") then
        match rest with [] => Some f | v :: rest => ParseCommandLineFlags rest (with_texts (FLAGS_peer_server_url f) v (FLAGS_clientid f) (FLAGS_stunsvr f) f) end
      else if str_eqb a (b "--clientid") then
        match rest with [] => Some f | v :: rest => ParseCommandLineFlags rest (with_texts (FLAGS_peer_server_url f) (FLAGS_sessionid f) v (FLAGS_stunsvr f) f) end
      else if str_eqb a (b "--show_statistics") then
        ParseCommandLineFlags rest (with_switches true (FLAGS_logging f) (FLAGS_streamdump f) (FLAGS_verbose f) (FLAGS_enable_rext f) f)
      else if str_eqb a (b "--logging") then
        ParseCommandLineFlags rest (with_switches (FLAGS_show_statistics f) true (FLAGS_streamdump f) (FLAGS_verbose f) (FLAGS_enable_rext f) f)
      else if str_eqb a (b "--streamdump") then
        ParseCommandLineFlags rest (with_switches (FLAGS_show_statistics f) (FLAGS_logging f) true (FLAGS_verbose f) (FLAGS_enable_rext f) f)
      else if str_eqb a (b "--verbose") then
        ParseCommandLineFlags rest (with_switches (FLAGS_show_statistics f) (FLAGS_logging f) (FLAGS_streamdump f) true (FLAGS_enable_rext f) f)
      else if str_eqb a (b "--stunsvr") then
        match rest with [] => Some f | v :: rest => ParseCommandLineFlags rest (with_texts (FLAGS_peer_server_url f) (FLAGS_sessionid f) (FLAGS_clientid f) v f) end
      else if str_eqb a (b "--enable-sw-hevc-decoder") then
        ParseCommandLineFlags rest (with_switches (FLAGS_show_statistics f) (FLAGS_logging f) (FLAGS_streamdump f) (FLAGS_verbose f) true f)
      else Some f
  end.

(** [WinMain]'s flags: the statistics need the verbose output. *)
Definition main_flags (args : list bytes) : option flags :=
  f ← ParseCommandLineFlags args flags0;
  Some (if FLAGS_show_statistics f then with_switches true (FLAGS_logging f) (FLAGS_streamdump f) true (FLAGS_enable_rext f) f else f).

(** A command line for the flags. *)
Definition client_args (f : flags) : list bytes :=
  let switch (x : bool) (name : bytes) := if x then [name] else [] in
  [b "--peer_server_url"; FLAGS_peer_server_url f; b "--sessionid"; FLAGS_sessionid f; b "--clientid"; FLAGS_clientid f; b "--stunsvr"; FLAGS_stunsvr f] ++
  switch (FLAGS_show_statistics f) (b "--show_statistics") ++ switch (FLAGS_logging f) (b "--logging") ++ switch (FLAGS_streamdump f) (b "--streamdump") ++
  switch (FLAGS_verbose f) (b "--verbose") ++ switch (FLAGS_enable_rext f) (b "--enable-sw-hevc-decoder").

(** Every setting can be given on the command line, whatever the texts are, and is read as it
    was meant. *)
Theorem client_flags_roundtrip f : ParseCommandLineFlags (client_args f) flags0 = Some f.
Proof. destruct f as [u s c t [] [] [] [] []]; reflexivity. Qed.

(** ** The modes of the window *)

Lemma show_more_spec fuel c : (Z.to_nat (1 - c) < fuel)%nat -> show_more fuel c = Some (Z.max c 1).
Proof.
  revert c. induction fuel as [|fuel IH]; intros c H; [lia|]. cbn [show_more]. destruct (Z.leb_spec c 0); [|f_equal; lia].
  rewrite IH by lia. f_equal. lia.
Qed.
Lemma hide_more_spec fuel c : (Z.to_nat (c + 1) < fuel)%nat -> hide_more fuel c = Some (Z.min c (-1)).
Proof.
  revert c. induction fuel as [|fuel IH]; intros c H; [lia|]. cbn [hide_more]. destruct (Z.leb_spec 0 c); [|f_equal; lia].
  rewrite IH by lia. f_equal. lia.
Qed.

(** The loops end: whatever others did to the counter, the pointer is shown or hidden after
    the message. *)
Lemma show_pointer_spec c : show_pointer c = Some (Z.max (c + 1) 1).
Proof. apply show_more_spec. lia. Qed.
Lemma hide_pointer_spec c : hide_pointer c = Some (Z.min (c - 1) (-1)).
Proof. apply hide_more_spec. lia. Qed.

Lemma pointer_message d c w : exists es count, InternalWndProc d (OnMouseStateChange c).1 0 (OnMouseStateChange c).2 w = Some (CursorCount count :: es, w) /\
  (ci_isVisible c = true <-> 0 <= count).
Proof.
  unfold InternalWndProc, OnMouseStateChange. cbn [fst snd]. rewrite show_pointer_spec, hide_pointer_spec. destruct (ci_isVisible c); cbn.
  - do 2 eexists. split; [reflexivity|]. split; [lia|done].
  - do 2 eexists. split; [reflexivity|]. split; [done|lia].
Qed.

Definition is_one (x : float) : bool := match x with S754_finite false m e => Pos.eqb m 8388608 && (e =? -23) | _ => false end.
Lemma is_one_spec x : is_one x = true -> x = fone.
Proof. destruct x as [| | |[] m e]; try done. intros [->%Pos.eqb_eq ->%Z.eqb_eq]%andb_prop. vm_compute. reflexivity. Qed.

Fixpoint unit_ratio_from (n : nat) (z : Z) : bool :=
  match n with O => true | S n => is_one (fdiv (float_of_int z) (float_of_int z)) && unit_ratio_from n (z + 1) end.

Lemma unit_ratio_all n y : unit_ratio_from n y = true -> forall z, y <= z < y + Z.of_nat n -> fdiv (float_of_int z) (float_of_int z) = fone.
Proof.
  revert y. induction n as [|n IH]; intros y H z Hz; cbn [unit_ratio_from] in H; [lia|]. apply andb_prop in H as [Hy H].
  destruct (Z.eq_dec z y) as [->|N]; [by apply is_one_spec|apply (IH (y + 1)); [done|lia]].
Qed.

Lemma unit_ratio z : 0 < z < 32768 -> fdiv (float_of_int z) (float_of_int z) = fone.
Proof. intros H. apply (unit_ratio_all (Z.to_nat 32767) 1); [vm_compute; reflexivity|lia]. Qed.

Lemma first_height w h : 0 < w < 32768 -> 0 < h < 32768 -> wraps 32 (u32 (w * h) / w) = h.
Proof.
  intros Hw Hh. unfold u32. rewrite wrapu_small by nia. rewrite Z.mul_comm, Z.div_mul by lia. apply wraps_small; lia.
Qed.

(** The full screen and back.  Alt and the arrow fill the screen; held, they do nothing more;
    once more they put the window back where it was, with the size, the ratios and the
    offset it was created with, whatever the screen was. *)
Theorem full_screen_and_back d1 d2 w lp : 0 < initial_window_width_ w < 32768 -> 0 < initial_window_height_ w < 32768 -> alt_down lp = true ->
  in_sys_key_down_ w = false -> full_screen_toggle_ w = false ->
  exists es1 w1 w2 w3, InternalWndProc d1 WM_SYSKEYDOWN VK_UP lp w = Some (SetWindowPos 0 0 (screen d1).1 (screen d1).2 :: es1, w1) /\
    (forall d, InternalWndProc d WM_SYSKEYDOWN VK_UP lp w1 = Some ([], w1)) /\
    (forall d, InternalWndProc d WM_SYSKEYUP VK_UP lp w1 = Some ([], w2)) /\
    (let r := GetWindowRect d1 in InternalWndProc d2 WM_SYSKEYDOWN VK_UP lp w2 =
      Some ([SetWindowPos (left r) (top r) (u32 (right r - left r)) (u32 (bottom r - top r));
             SetWindowSize 0 0 (initial_window_width_ w) (initial_window_height_ w); GameMode false], w3)) /\
    w3 = set_toggles false (game_mode_toggle_ w) true
           (WindowClass_new (initial_window_width_ w, initial_window_height_ w) (GetWindowRect d1)).
Proof.
  intros Hw Hh A K F. unfold InternalWndProc. rewrite A, K, F. cbn [negb andb Z.eqb VK_UP Pos.eqb]. unfold ChangeWindowedMode.
  assert ((initial_window_width_ w =? 0) = false) as Nz by lia. rewrite Nz. cbn [mbind option_bind]. do 4 eexists. split; [reflexivity|].
  split; [reflexivity|]. split; [reflexivity|]. cbn. rewrite Nz. cbn. rewrite (first_height _ _ Hw Hh), Z.sub_diag, !unit_ratio by done.
  split; [|reflexivity]. repeat f_equal. unfold u32. apply wrapu_small. lia.
Qed.

Fixpoint unscaled_from (n : nat) (y : Z) : bool :=
  match n with
  | O => true
  | S n => match fceil (fmul fone (float_of_int y)) with Some z => (z =? y) && unscaled_from n (y + 1) | None => false end
  end.

Lemma unscaled_all n y : unscaled_from n y = true -> forall z, y <= z < y + Z.of_nat n -> fceil (fmul fone (float_of_int z)) = Some z.
Proof.
  revert y. induction n as [|n IH]; intros y H z Hz; cbn [unscaled_from] in *; [lia|].
  destruct (fceil _) as [q|] eqn:E; [|done]. apply andb_prop in H as [Hq H]. apply Z.eqb_eq in Hq. subst q.
  destruct (Z.eq_dec z y) as [->|N]; [done|]. apply (IH (y + 1)); [done|lia].
Qed.

Lemma unscaled y : -32768 <= y < 32768 -> fceil (fmul fone (float_of_int y)) = Some y.
Proof. intros H. apply (unscaled_all (Z.to_nat 65536) (-32768)); [vm_compute; reflexivity|lia]. Qed.

(** The two halves of a position. *)
Lemma halves x y : -32768 <= x < 32768 -> -32768 <= y < 32768 ->
  wraps 16 (y * 65536 + wrapu 16 x) = x /\ wraps 16 (Z.shiftr (y * 65536 + wrapu 16 x) 16) = y.
Proof.
  intros Hx Hy. rewrite Z.shiftr_div_pow2 by lia. unfold wraps, wrapu. change (2 ^ (16 - 1)) with 32768. change (2 ^ 16) with 65536.
  pose proof (Z.mod_pos_bound x 65536 ltac:(lia)) as B. rewrite Z.div_add_l by lia. rewrite (Z.div_small (x mod 65536)), Z.add_0_r by lia.
  rewrite (Z.add_comm (y * 65536)), Z_mod_plus_full, Z.mod_mod by lia. split.
  - destruct (Z.ltb_spec (x mod 65536) 32768); Z.to_euclidean_division_equations; lia.
  - destruct (Z.ltb_spec (y mod 65536) 32768); Z.to_euclidean_division_equations; lia.
Qed.

(** A pointer left of the picture loses its height: the sign of the horizontal position runs
    over the vertical one, and the client reports the lowest row. *)
Theorem left_of_picture_loses_height w x y : scale_ratio_w_ w = fone -> scale_ratio_h_ w = fone -> x_render_offset_ w = 0 -> y_render_offset_ w = 0 ->
  -32768 <= x < 0 -> 0 <= y < 32768 ->
  exists l, scaled_lparam w (y * 65536 + wrapu 16 x) = Some l /\ y_pos_ (PopulateCommonMouseOptionsLegacy l 0 kMouseMove kMouseButtonUp) = 65535.
Proof.
  intros Ew Eh Ox Oy Hx Hy. destruct (halves x y ltac:(lia) ltac:(lia)) as [Hl Hh]. unfold scaled_lparam. rewrite Ew, Eh, Ox, Oy, Hl, Hh, !Z.sub_0_r.
  assert (forall z, -32768 <= z < 32768 -> wraps 64 z = z) as W.
  { intros z Hz. unfold wraps, wrapu. change (2 ^ (64 - 1)) with 9223372036854775808. change (2 ^ 64) with 18446744073709551616.
    destruct (Z.ltb_spec (z mod 18446744073709551616) 9223372036854775808); Z.to_euclidean_division_equations; lia. }
  rewrite !W by lia. rewrite !unscaled by lia. cbn [mbind option_bind]. eexists. split; [reflexivity|]. cbn [y_pos_ PopulateCommonMouseOptionsLegacy].
  rewrite Z.shiftr_lor. assert (Z.shiftr x 16 = -1) as ->. { rewrite Z.shiftr_div_pow2 by lia. change (2 ^ 16) with 65536. Z.to_euclidean_division_equations; lia. }
  by rewrite Z.lor_m1_r.
Qed.

(** Outside relative mode the wheel does not turn at all: the window procedure leaves its
    message to the system. *)
Theorem wheel_not_forwarded scale relative d wp lp raw w s : window_input scale relative d WM_MOUSEWHEEL wp lp raw w s = Some (w, s).
Proof. reflexivity. Qed.

(** The client cannot end well: leaving the program deletes its window twice, and a window
    that was closed before is used after it was deleted. *)
Theorem window_deleted_twice h : wc_ h = Alive ->
  WindowHandler_Destroy h = None /\ exists h', close_window h = Some h' /\ WindowHandler_Destroy h' = None.
Proof. intros E. unfold WindowHandler_Destroy, close_window. rewrite E. cbn. split; [done|]. eexists. split; reflexivity. Qed.
