(* ===== verification/ClientServer.v ===== *)
(** * ClientServer: the native client and the server together

    Composes the client ([ClientControl], [ClientWindow]) with the server's side of the connection
    ([WebrtcClient], [BrowserInput]): a key of the client's window is pressed on the
    server, the statistics of the client reach the encoder, and the cursor of the server
    is the cursor the client shows.  Between them is JSON text, written and read by two
    libraries: [represents] says what it means that the server's library holds a document
    the client's wrote, in terms of the operations the server uses. *)

From Stdlib Require Import ZArith Lia String.
From Stdlib Require Import Floats.SpecFloat.
From stdpp Require Import base gmap sets list.
From S2P Require Import Prelude Bytes StdMap GaConf CNum SdlKeys CtrlSdl Json SdlController AndroidController WebrtcClient BrowserInput ClientControl ClientWindow.

Section Transport.
Context {J : Json}.

(** [j] is the document [v]. *)
Inductive represents : value -> json -> Prop :=
| rep_null j : is_null j = true -> represents VNull j
| rep_bool x j : represents (VBool x) j
| rep_int z j : is_number j = true -> get_int32 j = Done (wraps 32 z) -> get_uint32 j = Done (wrapu 32 z) -> represents (VInt z) j
| rep_string s j : is_string j = true -> get_string j = Some s -> represents (VString s) j
| rep_object l j (members : bytes -> json) : is_object j = true -> size j = Z.of_nat (length l) ->
    (forall k, subscript j k = Some (members k)) -> (forall k, represents (assoc k l) (members k)) -> represents (VObject l) j.

(** [text] is what the client sends for the document, as the server reads it. *)
Definition transmitted (v : value) (text : bytes) : Prop := exists j, parse text = Some j /\ represents v j.

Lemma represents_string s j : represents (VString s) j -> is_string j = true /\ get_string j = Some s.
Proof. by inversion 1. Qed.
Lemma represents_int z j : represents (VInt z) j -> is_number j = true /\ get_int32 j = Done (wraps 32 z) /\ get_uint32 j = Done (wrapu 32 z).
Proof. by inversion 1. Qed.
Lemma represents_object l j : represents (VObject l) j -> is_object j = true /\ size j = Z.of_nat (length l) /\
  forall k, exists j', subscript j k = Some j' /\ represents (assoc k l) j'.
Proof. inversion 1 as [| | | |l' j' g O Sz Sb Rp]. split; [done|]. split; [done|]. intros k. by exists (g k). Qed.

(** A control message of the client is one for the server. *)
Lemma control_transmitted text ev rest params : transmitted (control ((b "event", VString ev) :: rest)) text ->
  assoc (b "parameters") rest = VObject params ->
  exists p, control_event text ev p /\ represents (VObject params) p.
Proof.
  intros (j & Ep & (_ & _ & F)%represents_object) Er.
  destruct (F (b "type")) as (t & Et & (Ht & Gt)%represents_string). destruct (F (b "data")) as (d & Ed & (Hd & _ & Fd)%represents_object).
  destruct (Fd (b "event")) as (e & Ee & (He & Ge)%represents_string). destruct (Fd (b "parameters")) as (p & Epp & Rp).
  change (represents (assoc (b "parameters") rest) p) in Rp. rewrite Er in Rp. exists p. split; [|done]. by exists j, t, d, e.
Qed.

End Transport.

Section Keys.
Context {J : Json} (SDLK : sdl_key -> Z) (MapVirtualKey : Z -> Z) (SCAN : sdl_scancode -> Z).
Context `{!SdlCodes SDLK} (SDLK_range : forall k, INT_MIN <= SDLK k <= INT_MAX).

(** C5. A key pressed in the client's window is pressed on the server.  For a key of the client's
    window that goes down or up, once the stream has arrived, the client sends exactly one
    document; when the server gets
    it, it presses or releases, exactly once, the virtual key with that code (its left or
    main variant where the code does not say which), or nothing for a key that is blocked
    or unknown; for a key that goes down it then tells the encoder the time of the event.
    The client's window does not change, nor does its session but for the document sent; the
    server's client is unchanged but that sending to it is allowed again. *)
Theorem client_key_reaches_system cf wb msg now peer text (down : bool) vkey lp raw scale relative d w s c ctl r :
  stream_started_ s = true -> 0 <= vkey < 2 ^ 32 -> text <> b "start" -> (sizeof_keyboard <= length msg)%nat -> keys_ok SDLK win32_code (r_keys r) ->
  exists doc, window_input scale relative d (if down then WM_KEYDOWN else WM_KEYUP) vkey lp raw w s =
      Some (w, {| render_width_ := render_width_ s; render_height_ := render_height_ s; prev_pointerlock_status_ := prev_pointerlock_status_ s;
                  stream_started_ := stream_started_ s; sent := sent s ++ [doc] |}) /\
    (transmitted doc text -> exists r', keys_ok SDLK win32_code (r_keys r') /\
       @OnMessageReceived J SdlController.state CtrlSdl.event (sdl_controller SDLK win32_code MapVirtualKey SCAN wb msg) true cf true
         now peer text (c, (ctl, r)) =
       (Done (map WebrtcClient.Input (key_inputs SDLK MapVirtualKey SCAN down vkey r) ++ (if down then [Ioctl (UPDATE_CLIENT_EVENT now.1 now.2)] else [])),
        (set_sending (send_failures_ c) false c, (ctl, r')))).
Proof.
  intros St Hk Ns Hl Hr. exists (OnKeyboardEvent {| v_key_ := vkey; msg_ := if down then WM_KEYDOWN else WM_KEYUP |}).
  split; [rewrite St; transitivity (Some (w, SendKeyboardEvent {| v_key_ := vkey; msg_ := if down then WM_KEYDOWN else WM_KEYUP |} s));
    [by destruct down|unfold SendKeyboardEvent, SendMessage; by rewrite St]|]. intros T.
  assert (exists p, control_event text (if down then b "keydown" else b "keyup") p /\ represents (VObject [(b "which", VInt vkey)]) p) as (p & Ev & Rp).
  { destruct down; apply (control_transmitted _ _ _ _ T); reflexivity. }
  apply represents_object in Rp as (O & _ & F). destruct (F (b "which")) as (j & Ej & (_ & _ & Gu)%represents_int).
  apply (browser_key_reaches_system SDLK MapVirtualKey SCAN SDLK_range cf wb msg now peer text down p j vkey c ctl r); try done.
  by rewrite Gu, wrapu_small by lia.
Qed.
End Keys.

(** ** Statistics *)

Section Stats.
Context {J : Json} {C E : Type} `{push_client_event : !Controller C E} (win : bool) (cf : conf).

(** The client's statistics of a frame reach the encoder: the server hands the five numbers
    over as they are (in 32 bits), and does nothing else with the message. *)
Theorem client_stats_reach_encoder now peer text f s c k : stream_started_ s = true -> transmitted (OnStatsRequest f) text -> text <> b "start" ->
  sent (SendFrameStats f s) = sent s ++ [OnStatsRequest f] /\
  OnMessageReceived win cf true now peer text (c, k) =
    (Done [Ioctl (UPDATE_FRAME_STATS (wraps 32 (fs_ts f)) (wraps 32 (fs_size f)) (wraps 32 (fs_delay f)) (wraps 32 (fs_start_delay f)) (wraps 32 (fs_p_loss f)))],
     (set_sending (send_failures_ c) false c, k)).
Proof.
  intros St T Ns. split; [unfold SendFrameStats, SendMessage; by rewrite St|].
  destruct (control_transmitted text (b "framestats") _ _ T eq_refl) as (p & Ev & (O & Sz & F)%represents_object).
  set (z key := if str_eqb key (b "framets") then wraps 32 (fs_ts f) else if str_eqb key (b "framesize") then wraps 32 (fs_size f)
                else if str_eqb key (b "framedelay") then wraps 32 (fs_delay f) else if str_eqb key (b "framestartdelay") then wraps 32 (fs_start_delay f)
                else wraps 32 (fs_p_loss f)).
  rewrite (framestats_message win cf true now peer text p z c k Ev Ns O); [done| |].
  - rewrite Sz, length_app. cbn [length]. lia.
  - intros key I. destruct (F key) as (v & Ev' & Rv). exists v. split; [done|].
    destruct I as [<-|[<-|[<-|[<-|[<-|[]]]]]]; apply represents_int in Rv as (N & G & _); (split; [exact N|exact G]).
Qed.
End Stats.

(** ** The cursor *)

(** What the client makes of a cursor's members. *)
Lemma handler_hidden j : assoc (b "type") j = VString (b "cursor") -> assoc (b "visible") j = VBool false ->
  OnDataReceivedHandler (VObject j) = Some (Some no_cursor).
Proof.
  intros Et Ev. unfold OnDataReceivedHandler, FromString, FromBool, MemberType, member. cbn [mbind option_bind]. rewrite Et. cbn [type_of mbind option_bind].
  rewrite str_eqb_refl. cbn [negb]. rewrite Ev. done.
Qed.

Lemma handler_visible j w h p same : assoc (b "type") j = VString (b "cursor") -> assoc (b "visible") j = VBool true ->
  assoc (b "width") j = VInt w -> assoc (b "height") j = VInt h -> assoc (b "pitch") j = VInt p -> assoc (b "noShapeChange") j = VBool same ->
  0 <= w < 2 ^ 32 -> 0 <= h < 2 ^ 32 -> 0 <= p < 2 ^ 32 ->
  (same = false -> exists l, assoc (b "cursorData") j = VArray l /\ Z.of_nat (length l) <= CLIENT_MAX_CURSOR_SIZE) ->
  exists data, OnDataReceivedHandler (VObject j) =
    Some (Some {| ci_isVisible := true; ci_width := w; ci_height := h; ci_pitch := p; ci_cursorDataUpdate := negb same; ci_cursordata := data |}) /\
    if same then data = [] else forall l, assoc (b "cursorData") j = VArray l -> data = map u8 l.
Proof.
  intros Et Ev Ew Eh Ep Es Hw Hh Hp Hd. unfold OnDataReceivedHandler, FromString, FromBool, FromUint64, MemberType, member.
  cbn [mbind option_bind]. rewrite Et. cbn [type_of mbind option_bind]. rewrite str_eqb_refl. cbn [negb]. rewrite Ev. cbn [type_of mbind option_bind negb].
  assert (forall z, 0 <= z < 2 ^ 32 -> (0 <=? z) && (z <? 2 ^ 64) = true) as U by (intros z Hz; apply andb_true_iff; lia).
  rewrite Ew. cbn [type_of mbind option_bind]. rewrite U by done. cbn [mbind option_bind]. rewrite Eh. cbn [type_of mbind option_bind]. rewrite U by done.
  cbn [mbind option_bind]. rewrite Ep. cbn [type_of mbind option_bind]. rewrite U by done. cbn [mbind option_bind]. rewrite Es.
  unfold u32. rewrite !wrapu_small by lia. destruct same; cbn [type_of mbind option_bind negb]; [eexists; split; reflexivity|].
  destruct (Hd eq_refl) as (l & El & Hl). rewrite El. cbn [mbind option_bind]. rewrite (proj2 (Z.leb_le _ _) Hl). cbn [mbind option_bind].
  eexists. split; [reflexivity|]. by intros l' [= <-].
Qed.

Lemma map_u8 l : Forall (fun x => 0 <= x < 256) l -> map u8 l = l.
Proof. induction 1 as [|x l Hx _ IH]; [done|]. cbn [map]. rewrite IH. f_equal. apply wrapu_small. lia. Qed.

(** C33. The client shows its pointer when the server shows the cursor.  Of the document the server
    sends for a cursor that was queued, the client takes the visibility, the sizes and,
    exactly when the shape was given, the 16384 bytes that begin with it; then its window
    leaves the counter of the pointer at zero or above when the cursor is visible, and below
    when it is hidden, whatever the counter was. *)
Theorem cursor_shown info buf n d desk w : 0 <= n -> queue_cursor info buf n = Some d ->
  0 <= cu_width info < 2 ^ 32 -> 0 <= cu_height info < 2 ^ 32 -> 0 <= cu_pitch info < 2 ^ 32 ->
  match buf with Some l => Forall (fun x => 0 <= x < 256) l | None => True end ->
  exists shown, OnDataReceivedHandler (VObject (GetJsonForCursorInfo d)) = Some (Some shown) /\ ci_isVisible shown = isVisible info /\
    (exists es count, InternalWndProc desk (OnMouseStateChange shown).1 0 (OnMouseStateChange shown).2 w = Some (CursorCount count :: es, w) /\
       (isVisible info = true <-> 0 <= count)) /\
    (isVisible info = true -> ci_width shown = cu_width info /\ ci_height shown = cu_height info /\ ci_pitch shown = cu_pitch info /\
       ci_cursorDataUpdate shown = negb (bool_decide (buf = None)) /\
       match buf with
       | None => ci_cursordata shown = []
       | Some l => length (ci_cursordata shown) = Z.to_nat CLIENT_MAX_CURSOR_SIZE /\ take (Z.to_nat n) (ci_cursordata shown) = take (Z.to_nat n) l
       end).
Proof.
  intros Hn Q Hw Hh Hp Hb. destruct (cursor_message info buf n d Hn Q) as (Et & Ev & _ & V). destruct (isVisible info).
  - destruct (V eq_refl) as (Ew & Eh & Ep & _ & _ & Es & D). clear V Q.
    destruct (handler_visible _ _ _ _ _ Et Ev Ew Eh Ep Es Hw Hh Hp) as (data & E & R).
    + destruct buf as [l|]; [|by rewrite bool_decide_eq_true_2]. intros _. destruct D as (l' & El & Ll & _). exists l'. split; [done|]. rewrite Ll. done.
    + eexists. split; [exact E|]. split; [done|]. split; [apply pointer_message|]. intros _. split; [done|]. split; [done|]. split; [done|]. split; [done|]. cbn [ci_cursordata]. clear E.
      destruct buf as [l|]; [rewrite bool_decide_eq_false_2 in R by done|by rewrite bool_decide_eq_true_2 in R].
      destruct D as (l' & El & Ll & Tk & Dr). rewrite (R l' El), map_u8.
      * split; [|done]. apply Nat2Z.inj. rewrite Ll, Z2Nat.id by (unfold CLIENT_MAX_CURSOR_SIZE; lia). done.
      * rewrite <- (take_drop (Z.to_nat n) l'), Tk, Dr. apply Forall_app. split; [by apply Forall_take|]. apply Forall_replicate. lia.
  - exists no_cursor. split; [by apply handler_hidden|]. split; [done|]. split; [apply pointer_message|done].
Qed.

(** ** Examples *)

(** Two libraries that agree: the server's holds the documents themselves. *)
Lemma agree_null texts k : @represents (values texts) (assoc k []) (assoc k []).
Proof. by constructor. Qed.

Lemma agree_field texts x v l : @represents (values texts) v v -> (forall k, @represents (values texts) (assoc k l) (assoc k l)) ->
  forall k, @represents (values texts) (assoc k ((x, v) :: l)) (assoc k ((x, v) :: l)).
Proof. intros Hv Hl k. cbn [assoc]. destruct (str_eqb k x); [exact Hv|apply Hl]. Qed.

Lemma agree_object texts l : (forall k, @represents (values texts) (assoc k l) (assoc k l)) -> @represents (values texts) (VObject l) (VObject l).
Proof. intros H. by apply (@rep_object (values texts)) with (members := fun k => assoc k l). Qed.

Ltac agree := repeat first [apply agree_object | apply agree_field | apply agree_null
  | apply (@rep_string (values _)); reflexivity | apply (@rep_int (values _)); reflexivity ].

Definition key_document : value := OnKeyboardEvent {| v_key_ := 65; msg_ := WM_KEYDOWN |}.
Definition key_texts : list (bytes * value) := [(b "key", key_document)].
Definition screen_rect : RECT := {| left := 0; top := 0; right := 640; bottom := 480 |}.
Definition one_screen : desktop := {| screen := (640, 480); GetWindowRect := screen_rect; GetClientRect := screen_rect; cursor_count := 0 |}.
Definition client_window : WindowClass := WindowClass_new (640, 480) screen_rect.
Definition streaming : GameSession := set_stream GameSession_new.

Lemma client_key_reaches_system_witness :
  window_input fone false one_screen WM_KEYDOWN 65 0 RawOther client_window streaming =
    Some (client_window, SendMessage key_document streaming) /\
  exists r', @OnMessageReceived (values key_texts) _ _ (web key_texts) true conf0 true (5, 6) (b "client") (b "key")
    (client0 plain_config, (SdlController.sample_controller, sample_replayer)) =
  (Done (map WebrtcClient.Input (key_inputs sdl2_code (fun v => v) (fun _ => 4) true 65 sample_replayer) ++ [Ioctl (UPDATE_CLIENT_EVENT 5 6)]),
   (set_sending 0 false (client0 plain_config), (SdlController.sample_controller, r'))).
Proof.
  destruct (@client_key_reaches_system (values key_texts) sdl2_code (fun v => v) (fun _ => 4) _ sdl2_range conf0 None (replicate 64 7) (5, 6)
    (b "client") (b "key") true 65 0 RawOther fone false one_screen client_window streaming (client0 plain_config)
    SdlController.sample_controller sample_replayer) as (doc & W & T); [reflexivity|lia|discriminate|vm_compute; lia|by left|].
  cbn in W. injection W as <-. split; [reflexivity|].
  destruct T as (r' & _ & E); [|by exists r'].
  exists key_document. split; [reflexivity|]. agree.
Defined.

Definition one_frame : FrameStats := {| fs_ts := 11; fs_size := 2000; fs_delay := 7; fs_start_delay := 3; fs_p_loss := 0; latencymsg_ := 0 |}.

Lemma client_stats_reach_encoder_witness :
  @OnMessageReceived (values [(b "stats", OnStatsRequest one_frame)]) _ _ (web []) true conf0 true (5, 6) (b "client") (b "stats")
    (client0 plain_config, (SdlController.sample_controller, sample_replayer)) =
  (Done [Ioctl (UPDATE_FRAME_STATS 11 2000 7 3 0)], (set_sending 0 false (client0 plain_config), (SdlController.sample_controller, sample_replayer))).
Proof.
  apply (@client_stats_reach_encoder (values [(b "stats", OnStatsRequest one_frame)]) _ _ (web []) true conf0 (5, 6) (b "client") (b "stats")
    one_frame streaming); [reflexivity| |discriminate].
  exists (OnStatsRequest one_frame). split; [reflexivity|]. agree.
Defined.

Definition arrow : WebrtcClient.CURSOR_INFO :=
  {| isVisible := true; srcRect := {| rc_left := 0; rc_top := 0; rc_right := 2; rc_bottom := 1 |};
     dstRect := {| rc_left := 0; rc_top := 0; rc_right := 2; rc_bottom := 1 |}; cu_width := 2; cu_height := 1; cu_pitch := 8 |}.

Lemma cursor_shown_witness : exists d shown, queue_cursor arrow (Some [1; 2; 3; 4; 5; 6; 7; 8]) 8 = Some d /\
  OnDataReceivedHandler (VObject (GetJsonForCursorInfo d)) = Some (Some shown) /\ ci_width shown = 2 /\
  take 8 (ci_cursordata shown) = [1; 2; 3; 4; 5; 6; 7; 8].
Proof.
  assert (exists d, queue_cursor arrow (Some [1; 2; 3; 4; 5; 6; 7; 8]) 8 = Some d) as [d Q] by (eexists; reflexivity).
  destruct (cursor_shown arrow (Some [1; 2; 3; 4; 5; 6; 7; 8]) 8 d one_screen client_window) as (shown & H & _ & _ & V);
    [lia|exact Q|cbn; lia..|repeat (constructor; [lia|]); constructor|].
  destruct (V eq_refl) as (W & _ & _ & _ & _ & D). exists d, shown. split; [exact Q|]. split; [exact H|]. split; [exact W|exact D].
Defined.
