(* ===== verification/GaModule.v ===== *)
(** * GaModule: loading of modules, their interfaces and side data of packets

    Models [src/sources/streamer/core/ga-module.cpp]: the list of loaded modules over the
    dynamic loader, the wrappers around a module's functions, and the side data of a
    packet in a heap. *)

From Stdlib Require Import ZArith Lia String.
From stdpp Require Import base gmap sets list relations.
From S2P Require Import Prelude Bytes StdMap.

(** ** Loading *)

Section Loader.
(** The dynamic loader: the library of a file name, whether it has [module_load], and what
    [module_load] returns; handles are counted, as [dlopen] does. *)
Context (dlopen : bytes -> option Z) (has_load : Z -> bool) (module_load : Z -> option Z).

Record loader := { mlist : gmap Z Z; refs : Z -> nat }.
Definition loader0 : loader := {| mlist := ∅; refs := fun _ => O |}.

Definition count (h : Z) (d : nat -> nat) (s : loader) : loader :=
  {| mlist := mlist s; refs := fun h' => if h' =? h then d (refs s h) else refs s h' |}.
Definition set_mlist (l : gmap Z Z) (s : loader) : loader := {| mlist := l; refs := refs s |}.
Definition dlclose (h : Z) : loader -> loader := count h pred.

Definition ga_load_module (modname : bytes) (s : loader) : option Z * loader :=
  match dlopen (modname ++ b ".so") with
  | None => (None, s)
  | Some h =>
      let s := count h S s in
      if negb (has_load h) then (None, dlclose h s)
      else match module_load h with
           | None => (None, dlclose h s)
           | Some m => (Some m, set_mlist (<[m := h]> (mlist s)) s)
           end
  end.

Definition ga_unload_module (m : option Z) (s : loader) : loader :=
  match m with
  | None => s
  | Some m => match mlist s !! m with None => s | Some h => set_mlist (delete m (mlist s)) (dlclose h s) end
  end.

Inductive loader_step : loader -> loader -> Prop :=
| load_step name s : loader_step s (ga_load_module name s).2
| unload_step m s : loader_step s (ga_unload_module m s).

(** A loaded module comes from its library, which is open. *)
Definition loaded_ok (s : loader) : Prop := forall m h, mlist s !! m = Some h -> module_load h = Some m /\ (0 < refs s h)%nat.

Lemma loaded_ok_step s s' : loaded_ok s -> loader_step s s' -> loaded_ok s'.
Proof.
  intros O St. destruct St as [name s|m s].
  - unfold ga_load_module. destruct (dlopen _) as [h|]; [|done].
    assert (loaded_ok (dlclose h (count h S s))) as C.
    { intros m' h' E. destruct (O m' h' E) as [L R]. split; [done|]. cbn. rewrite Z.eqb_refl. by destruct (Z.eqb_spec h' h) as [->|]. }
    destruct (has_load h); cbn [negb]; [|exact C]. destruct (module_load h) as [m|] eqn:L; [|exact C].
    intros m' h'. cbn. destruct (decide (m' = m)) as [->|N].
    + rewrite lookup_insert_eq. intros [= <-]. split; [done|]. rewrite Z.eqb_refl. lia.
    + rewrite lookup_insert_ne by done. intros E. destruct (O m' h' E) as [L' R]. split; [done|]. destruct (Z.eqb_spec h' h) as [->|]; lia.
  - unfold ga_unload_module. destruct m as [m|]; [|done]. destruct (mlist s !! m) as [h|] eqn:E; [|done].
    intros m' h'. cbn. intros [N E']%lookup_delete_Some. destruct (O m h E) as [L _]. destruct (O m' h' E') as [L' R']. split; [done|].
    destruct (Z.eqb_spec h' h) as [->|]; [congruence|done].
Qed.

(** Whatever was loaded and unloaded, in whatever order and with whatever failures: the
    library of every module in the list is open, so that its functions can be called. *)
Theorem loaded_modules_open s m h : rtc loader_step loader0 s -> mlist s !! m = Some h -> (0 < refs s h)%nat.
Proof.
  intros R E. assert (loaded_ok s) as O.
  { cut (loaded_ok loader0); [|by intros ? ? ?]. induction R as [|x y z St _ IH]; [done|]. intros O. apply IH; [done|]. by apply (loaded_ok_step x). }
  by destruct (O m h E).
Qed.

(** A module that was loaded twice can be unloaded once: its library stays open. *)
Theorem second_load_leaks name h m : dlopen (name ++ b ".so") = Some h -> has_load h = true -> module_load h = Some m ->
  let s1 := ga_unload_module (Some m) (ga_load_module name (ga_load_module name loader0).2).2 in
  mlist s1 = ∅ /\ refs s1 h = 1%nat /\ ga_unload_module (Some m) s1 = s1.
Proof.
  intros E L M. unfold ga_load_module. rewrite E, L, M. cbn. rewrite !insert_insert_eq. unfold ga_unload_module. cbn. rewrite lookup_insert_eq. cbn.
  rewrite delete_insert_id by done. rewrite !Z.eqb_refl. split; [done|]. split; [done|]. by rewrite lookup_empty.
Qed.
End Loader.

(** ** The functions of a module *)

Section Interface.
Context {W : Type}.

(** The functions that are not NULL. *)
Record ga_module_t := {
  m_init : option (Z -> cmd W Z); m_start : option (Z -> cmd W Z); m_stop : option (Z -> cmd W Z); m_deinit : option (Z -> cmd W Z);
  m_ioctl : option (Z -> Z -> Z -> cmd W Z); m_notify : option (Z -> cmd W Z); m_raw : option (Z -> cmd W (option Z));
  m_send_packet : option (Z -> Z -> cmd W Z) }.

Definition GA_IOCTL_ERR_NULLMODULE : Z := -2.
Definition GA_IOCTL_ERR_NOINTERFACE : Z := -3.

(** NULL is answered by an error, a missing function by [missing]. *)
Definition wrapper (f : ga_module_t -> option (Z -> cmd W Z)) (missing : Z) (m : option ga_module_t) (arg : Z) : cmd W Z :=
  match m with
  | None => cret GA_IOCTL_ERR_NULLMODULE
  | Some m => match f m with None => cret missing | Some g => g arg end
  end.
Definition ga_module_init : option ga_module_t -> Z -> cmd W Z := wrapper m_init 0.
Definition ga_module_start : option ga_module_t -> Z -> cmd W Z := wrapper m_start GA_IOCTL_ERR_NOINTERFACE.
Definition ga_module_stop : option ga_module_t -> Z -> cmd W Z := wrapper m_stop 0.
Definition ga_module_deinit : option ga_module_t -> Z -> cmd W Z := wrapper m_deinit 0.
Definition ga_module_notify : option ga_module_t -> Z -> cmd W Z := wrapper m_notify 0.
Definition ga_module_ioctl (m : option ga_module_t) (command argsize arg : Z) : cmd W Z :=
  match m with
  | None => cret GA_IOCTL_ERR_NULLMODULE
  | Some m => match m_ioctl m with None => cret GA_IOCTL_ERR_NOINTERFACE | Some g => g command argsize arg end
  end.
Definition ga_module_raw (m : option ga_module_t) (arg : Z) : cmd W (option Z) :=
  match m with None => cret None | Some m => match m_raw m with None => cret None | Some g => g arg end end.
(** Not checked. *)
Definition ga_module_send_packet (m : option ga_module_t) (channelId pkt : Z) : cmd W Z :=
  match m with None => cundef | Some m => match m_send_packet m with None => cundef | Some g => g channelId pkt end end.

Definition ga_init_single_module (m : option ga_module_t) (arg : Z) : cmd W Z :=
  match m with
  | None => cundef
  | Some m => match m_init m with None => cret 0 | Some g => r <-- g arg ;; cret (if r <? 0 then -1 else 0) end
  end.
(** Whether the program goes on. *)
Definition ga_init_single_module_or_quit (m : option ga_module_t) (arg : Z) : cmd W bool :=
  r <-- ga_init_single_module m arg ;; cret (negb (r <? 0)).
(** [run] starts the thread; it may not be possible to make one. *)
Definition ga_run_single_module (threadproc : option (cmd W unit)) (created : bool) : cmd W Z :=
  match threadproc with None => cret 0 | Some run => if created then run ;;; cret 0 else cret (-1) end.
Definition ga_run_single_module_or_quit (threadproc : option (cmd W unit)) (created : bool) : cmd W bool :=
  r <-- ga_run_single_module threadproc created ;; cret (negb (r <? 0)).
End Interface.
Arguments ga_module_t : clear implicits.

(** ** Side data of packets *)

Inductive ga_packet_side_data_type := GA_PACKET_DATA_PALETTE | GA_PACKET_DATA_NEW_EXTRADATA.
#[export] Instance side_data_type_eq_dec : EqDecision ga_packet_side_data_type.
Proof. solve_decision. Defined.

(** An element of the array of side data, and what an allocation holds: the bytes of one
    element, or the array, whose last place may not be written yet. *)
Record side := { sd_data : Z; sd_size : Z; sd_type : ga_packet_side_data_type }.
Inductive cell := Buffer (size : Z) | Elements (l : list (option side)).
(** Addresses from [fresh] on were never used. *)
Record mem := { heap : gmap Z cell; fresh : Z }.

Definition GA_NOPTS_VALUE : Z := - 2 ^ 63.
Definition GA_INPUT_BUFFER_PADDING_SIZE : Z := 32.
(** A packet.  The number of side data elements is an [int] in the code; each
    element is an allocation of its own, so that the number of them that are alive
    stays below its limit. *)
Record ga_packet_t := {
  pkt_buf : option Z; pkt_pts : Z; pkt_dts : Z; pkt_data : option Z; pkt_size : Z; pkt_stream_index : Z; pkt_flags : Z;
  side_data : option Z; side_data_elems : nat; pkt_duration : Z; pkt_pos : Z; pkt_convergence_duration : Z }.

Definition ga_init_packet (p : ga_packet_t) : ga_packet_t :=
  {| pkt_buf := None; pkt_pts := GA_NOPTS_VALUE; pkt_dts := GA_NOPTS_VALUE; pkt_data := pkt_data p; pkt_size := pkt_size p;
     pkt_stream_index := 0; pkt_flags := 0; side_data := None; side_data_elems := 0; pkt_duration := 0; pkt_pos := -1; pkt_convergence_duration := 0 |}.
Definition set_side (a : option Z) (n : nat) (p : ga_packet_t) : ga_packet_t :=
  {| pkt_buf := pkt_buf p; pkt_pts := pkt_pts p; pkt_dts := pkt_dts p; pkt_data := pkt_data p; pkt_size := pkt_size p;
     pkt_stream_index := pkt_stream_index p; pkt_flags := pkt_flags p; side_data := a; side_data_elems := n; pkt_duration := pkt_duration p;
     pkt_pos := pkt_pos p; pkt_convergence_duration := pkt_convergence_duration p |}.

Definition alloc (c : cell) : cmd mem Z := fun m => Some (fresh m, {| heap := <[fresh m := c]> (heap m); fresh := fresh m + 1 |}).
Definition free (a : Z) : cmd mem unit :=
  fun m => match heap m !! a with Some _ => Some (tt, {| heap := delete a (heap m); fresh := fresh m |}) | None => None end.
Definition elements (a : Z) : cmd mem (list (option side)) :=
  fun m => match heap m !! a with Some (Elements l) => Some (l, m) | _ => None end.
Definition store_elements (a : Z) (l : list (option side)) : cmd mem unit :=
  fun m => match heap m !! a with Some (Elements _) => Some (tt, {| heap := <[a := Elements l]> (heap m); fresh := fresh m |}) | _ => None end.

(** [realloc] to [n] elements: the first ones are kept. *)
Definition realloc (old : option Z) (n : nat) : cmd mem Z :=
  match old with
  | None => alloc (Elements (replicate n None))
  | Some a => l <-- elements a ;; free a ;;; alloc (Elements (take n (l ++ replicate n None)))
  end.

(** [grown] and [given]: whether [realloc] and [malloc] succeed. *)
Definition ga_packet_new_side_data (grown given : bool) (p : ga_packet_t) (type : ga_packet_side_data_type) (size : Z) :
    cmd mem (option Z * ga_packet_t) :=
  let elems := side_data_elems p in
  if INT_MAX - GA_INPUT_BUFFER_PADDING_SIZE <? u32 size then cret (None, p)
  else if negb grown then cret (None, p)
  else
    a <-- realloc (side_data p) (S elems) ;;
    let p := set_side (Some a) elems p in
    if negb given then cret (None, p)
    else
      d <-- alloc (Buffer (size + GA_INPUT_BUFFER_PADDING_SIZE)) ;;
      l <-- elements a ;;
      store_elements a (<[elems := Some {| sd_data := d; sd_size := size; sd_type := type |}]> l) ;;;
      cret (Some d, set_side (Some a) (S elems) p).

(** The elements of the array up to [side_data_elems]; one that was not written has no value. *)
Fixpoint first_of (type : ga_packet_side_data_type) (l : list (option side)) : option (option side) :=
  match l with
  | [] => Some None
  | None :: _ => None
  | Some e :: l => if decide (sd_type e = type) then Some (Some e) else first_of type l
  end.

(** The address and the size. *)
Definition ga_packet_get_side_data (p : ga_packet_t) (type : ga_packet_side_data_type) : cmd mem (option Z * Z) :=
  match side_data p with
  | Some a =>
      if (side_data_elems p =? 0)%nat then cret (None, 0)
      else
        l <-- elements a ;;
        match first_of type (take (side_data_elems p) l) with
        | Some (Some e) => cret (Some (sd_data e), sd_size e)
        | Some None => cret (None, 0)
        | None => cundef
        end
  | None => cret (None, 0)
  end.

Fixpoint free_all (l : list (option side)) : cmd mem unit :=
  match l with
  | [] => cret tt
  | Some e :: l => free (sd_data e) ;;; free_all l
  | None :: _ => cundef
  end.
Definition ga_packet_free_side_data (p : ga_packet_t) : cmd mem unit :=
  match side_data p with
  | None => cret tt
  | Some a => l <-- elements a ;; free_all (take (side_data_elems p) l) ;;; free a
  end.

(** *** What a packet owns *)

Definition buffers (es : list side) (r : gmap Z cell) : gmap Z cell :=
  foldr (fun e h => <[sd_data e := Buffer (sd_size e + GA_INPUT_BUFFER_PADDING_SIZE)]> h) r es.

(** The heap is [r], which the packet does not touch, and the packet's own: a buffer for each
    of the elements [es], and the array, unless nothing was ever added. *)
Definition owns (r : gmap Z cell) (p : ga_packet_t) (es : list side) (m : mem) : Prop :=
  side_data_elems p = length es /\
  (forall a, fresh m <= a -> heap m !! a = None) /\
  NoDup (map sd_data es) /\ Forall (fun e => r !! sd_data e = None) es /\
  match side_data p with
  | None => es = [] /\ heap m = r
  | Some a => exists junk, r !! a = None /\ (a ∉ map sd_data es) /\ heap m = <[a := Elements (map Some es ++ junk)]> (buffers es r)
  end.

Lemma buffers_lookup es r a : a ∉ map sd_data es -> buffers es r !! a = r !! a.
Proof. induction es as [|e es IH]; cbn; [done|]. intros [N I]%not_elem_of_cons. rewrite lookup_insert_ne by done. by apply IH. Qed.

Lemma buffers_app es e r : sd_data e ∉ map sd_data es ->
  buffers (es ++ [e]) r = <[sd_data e := Buffer (sd_size e + GA_INPUT_BUFFER_PADDING_SIZE)]> (buffers es r).
Proof.
  unfold buffers. induction es as [|x es IH]; cbn; [done|]. intros [N I]%not_elem_of_cons. rewrite IH by done. by apply insert_insert_ne.
Qed.

Lemma free_all_spec es r a c f : NoDup (map sd_data es) -> Forall (fun e => r !! sd_data e = None) es -> a ∉ map sd_data es ->
  free_all (map Some es) {| heap := <[a := c]> (buffers es r); fresh := f |} = Some (tt, {| heap := <[a := c]> r; fresh := f |}).
Proof.
  induction es as [|e es IH]; cbn; [done|]. intros [Nd1 Nd]%NoDup_cons [Hr Hrs]%Forall_cons [N I]%not_elem_of_cons.
  unfold cbind at 1. unfold free at 1. cbn. rewrite lookup_insert_ne, lookup_insert_eq by done. cbn.
  rewrite delete_insert_ne by done. fold (buffers es r). rewrite delete_insert_id; [by apply IH|]. by rewrite buffers_lookup.
Qed.

Lemma first_of_some type es : first_of type (map Some es) = Some (head (filter (fun e => sd_type e = type) es)).
Proof. induction es as [|e es IH]; [done|]. cbn [map first_of]. rewrite filter_cons, IH. by destruct (decide _). Qed.

Lemma owned_elements r p es m a : owns r p es m -> side_data p = Some a ->
  exists l, heap m !! a = Some (Elements l) /\ take (side_data_elems p) l = map Some es.
Proof.
  intros (L & _ & _ & _ & H) E. rewrite E in H. destruct H as (junk & _ & _ & ->). exists (map Some es ++ junk). split; [apply lookup_insert_eq|].
  rewrite L, <- (length_map Some es), take_app_length. done.
Qed.

Lemma owned_below r p es m a : owns r p es m -> fresh m <= a -> r !! a = None /\ (a ∉ map sd_data es) /\ side_data p <> Some a.
Proof.
  intros (_ & F & Nd & Fr & H) Ha. specialize (F a Ha). destruct (side_data p) as [d|].
  - destruct H as (junk & R & N & E). rewrite E in F. apply lookup_insert_None in F as [Fb Na]. split; [|split; [|congruence]].
    + clear - Fb. induction es as [|e es IH]; [done|]. cbn in Fb. apply lookup_insert_None in Fb as [Fb _]. by apply IH.
    + clear - Fb. induction es as [|e es IH]; [apply not_elem_of_nil|]. cbn in Fb. apply lookup_insert_None in Fb as [Fb Ne]. apply not_elem_of_cons. split; [congruence|by apply IH].
  - destruct H as [-> <-]. split; [done|]. split; [apply not_elem_of_nil|done].
Qed.

(** A new array at [fresh] for the same elements. *)
Lemma moved_owns r p es m x : owns r p es m ->
  let m' := {| heap := <[fresh m := Elements (map Some es ++ [x])]> (buffers es r); fresh := fresh m + 1 |} in
  owns r (set_side (Some (fresh m)) (side_data_elems p) p) es m'.
Proof.
  intros O m'. destruct (owned_below r p es m (fresh m) O ltac:(lia)) as (Nr & Nb & _). split; [apply O|]. split; [|split; [apply O|split; [apply O|by exists [x]]]].
  intros a Ha. cbn in *. destruct (owned_below r p es m a O ltac:(lia)) as (Na & Nba & _). rewrite lookup_insert_ne by lia. by rewrite buffers_lookup.
Qed.

(** Growing the array keeps the elements. *)
Lemma realloc_owns r p es m : owns r p es m -> exists x,
  realloc (side_data p) (S (side_data_elems p)) m =
    Some (fresh m, {| heap := <[fresh m := Elements (map Some es ++ [x])]> (buffers es r); fresh := fresh m + 1 |}).
Proof.
  intros (L & F & Nd & Fr & H). unfold realloc. destruct (side_data p) as [d|] eqn:Ed.
  - destruct H as (junk & R & N & E).
    assert (heap m !! d = Some (Elements (map Some es ++ junk))) as Ed' by (rewrite E; apply lookup_insert_eq).
    unfold cbind, elements, free, alloc. rewrite Ed'. cbn -[take replicate]. rewrite Ed'. cbn -[take replicate].
    rewrite E, delete_insert_id by (by rewrite buffers_lookup). rewrite <- app_assoc, L, take_app_ge by (rewrite length_map; lia).
    replace (S (length es) - length (map Some es))%nat with 1%nat by (rewrite length_map; lia).
    assert (exists x, take 1 (junk ++ replicate (S (length es)) None) = [x]) as [x ->] by (destruct junk; eexists; reflexivity). by exists x.
  - destruct H as [-> E]. unfold alloc. rewrite E, L. by exists None.
Qed.

(** Whether side data can be added. *)
Definition accepted (grown given : bool) (size : Z) : bool := (u32 size <=? INT_MAX - GA_INPUT_BUFFER_PADDING_SIZE) && grown && given.

(** Adding side data, on every path: nothing changes for the caller when it fails; when it
    succeeds there is one element more, with a buffer of its own and its padding. *)
Lemma new_side_data_spec r p es m grown given type size : owns r p es m ->
  exists d p' m', ga_packet_new_side_data grown given p type size m = Some ((d, p'), m') /\
    match d with
    | None => accepted grown given size = false /\ owns r p' es m'
    | Some d => accepted grown given size = true /\ owns r p' (es ++ [{| sd_data := d; sd_size := size; sd_type := type |}]) m'
    end.
Proof.
  intros O. unfold ga_packet_new_side_data, accepted. rewrite Z.leb_antisym.
  destruct (Z.ltb_spec (INT_MAX - GA_INPUT_BUFFER_PADDING_SIZE) (u32 size)); cbn [negb andb]; [by exists None, p, m|].
  destruct grown; cbn [negb andb]; [|by exists None, p, m]. destruct (realloc_owns r p es m O) as [x E]. unfold cbind at 1. rewrite E.
  pose proof (moved_owns r p es m x O) as O1. cbn zeta in O1. set (m1 := {| heap := _; fresh := _ |}) in *.
  destruct given; cbn [negb]; [|by eexists None, _, m1].
  destruct (owned_below _ _ _ m1 (fresh m1) O1 ltac:(lia)) as (Nr & Nb & Na). destruct O1 as (L & F & Nd & Fr & _).
  destruct (owned_below r p es m (fresh m) O ltac:(lia)) as (Ar & Ab & _).
  eexists (Some (fresh m1)), _, _. split.
  { unfold cbind, alloc, elements, store_elements. cbn -[buffers insert]. rewrite lookup_insert_ne, lookup_insert_eq by (cbn; lia). cbn -[buffers insert].
    rewrite lookup_insert_ne, lookup_insert_eq by (cbn; lia). reflexivity. }
  split; [done|].
  cbn in L, F, Nr, Nb. split; [cbn; rewrite length_app; cbn; lia|]. split.
  { intros a Ha. cbn in *. rewrite !lookup_insert_ne by lia. specialize (F a ltac:(lia)). by rewrite lookup_insert_ne in F by lia. }
  split; [rewrite map_app; apply NoDup_app; split; [done|split; [|apply NoDup_singleton]]; intros a I ->%list_elem_of_singleton; by apply Nb|].
  split; [by apply Forall_app; split; [|constructor]|]. exists []. split; [done|]. split.
  { rewrite map_app. intros [I|I]%elem_of_app; [by apply Ab|]. apply list_elem_of_singleton in I. cbn in I. lia. }
  cbn. rewrite buffers_app by done. cbn. rewrite (insert_insert_ne _ (fresh m + 1) (fresh m)) by lia. rewrite insert_insert_eq.
  do 2 f_equal. rewrite map_app, app_nil_r, L, <- (length_map Some es), insert_app_r_alt, Nat.sub_diag by lia. done.
Qed.

Lemma get_owned r p es m type : owns r p es m ->
  ga_packet_get_side_data p type m =
    Some (match head (filter (fun e => sd_type e = type) es) with Some e => (Some (sd_data e), sd_size e) | None => (None, 0) end, m).
Proof.
  intros O. unfold ga_packet_get_side_data. destruct (side_data p) as [a|] eqn:E.
  - destruct (owned_elements r p es m a O E) as (l & El & Tl). destruct O as (L & _). destruct (Nat.eqb_spec (side_data_elems p) 0) as [Z0|].
    + rewrite Z0 in L. by destruct es.
    + unfold cbind, elements. rewrite El, Tl, first_of_some. by destruct (head _).
  - destruct O as (_ & _ & _ & _ & O). rewrite E in O. by destruct O as [-> _].
Qed.

Lemma free_owned r p es m : owns r p es m -> exists m', ga_packet_free_side_data p m = Some (tt, m') /\ heap m' = r.
Proof.
  intros O. unfold ga_packet_free_side_data. destruct (side_data p) as [a|] eqn:E.
  - destruct (owned_elements r p es m a O E) as (l & El & Tl). destruct O as (_ & _ & Nd & Fr & H). rewrite E in H. destruct H as (junk & R & N & Eh).
    unfold cbind, elements. rewrite El, Tl. destruct m as [h f]. cbn in Eh. subst h. rewrite free_all_spec by done. unfold free. cbn. rewrite lookup_insert_eq.
    eexists. split; [reflexivity|]. cbn. by rewrite delete_insert_id.
  - destruct O as (_ & _ & _ & _ & O). rewrite E in O. destruct O as [_ Eh]. by exists m.
Qed.

Record add_request := { rq_grown : bool; rq_given : bool; rq_type : ga_packet_side_data_type; rq_size : Z }.
Definition granted (q : add_request) : bool := accepted (rq_grown q) (rq_given q) (rq_size q).
Fixpoint add_all (qs : list add_request) (p : ga_packet_t) : cmd mem ga_packet_t :=
  match qs with
  | [] => cret p
  | q :: qs => r <-- ga_packet_new_side_data (rq_grown q) (rq_given q) p (rq_type q) (rq_size q) ;; add_all qs r.2
  end.

Lemma add_all_owns r qs : forall p es m, owns r p es m -> exists new p' m', add_all qs p m = Some (p', m') /\ owns r p' (es ++ new) m' /\
  map (fun e => (sd_type e, sd_size e)) new = map (fun q => (rq_type q, rq_size q)) (filter (fun q => granted q = true) qs).
Proof.
  induction qs as [|q qs IH]; intros p es m O; [exists [], p, m; by rewrite app_nil_r|]. cbn [add_all].
  destruct (new_side_data_spec r p es m (rq_grown q) (rq_given q) (rq_type q) (rq_size q) O) as (d & p1 & m1 & E & H). unfold cbind at 1. rewrite E. cbn [snd].
  rewrite filter_cons. unfold granted at 1. destruct d as [d|]; destruct H as [A O1].
  - destruct (IH _ _ _ O1) as (new & p2 & m2 & -> & O2 & M). rewrite decide_True by done. rewrite <- app_assoc in O2. eexists _, p2, m2.
    split; [done|]. split; [exact O2|]. cbn. by rewrite M.
  - destruct (IH _ _ _ O1) as (new & p2 & m2 & -> & O2 & M). rewrite decide_False by (unfold granted; by rewrite A). by exists new, p2, m2.
Qed.

(** C35. The side data of a packet.  To a packet that was initialised, side data is added in any
    order, with any sizes, whichever allocations fail.  Every call returns; exactly the
    requests whose size leaves room for the padding in an [int], and whose memory was given,
    are there, in their order, each with a buffer of its size and the padding; asking for a
    type finds the first of it, or nothing; and freeing gives back all of it and nothing else. *)
Theorem side_data_lifecycle qs p m : (forall a, fresh m <= a -> heap m !! a = None) ->
  exists es p' m', add_all qs (ga_init_packet p) m = Some (p', m') /\
    map (fun e => (sd_type e, sd_size e)) es = map (fun q => (rq_type q, rq_size q)) (filter (fun q => granted q = true) qs) /\
    Forall (fun e => heap m' !! sd_data e = Some (Buffer (sd_size e + GA_INPUT_BUFFER_PADDING_SIZE))) es /\
    (forall type, ga_packet_get_side_data p' type m' =
       Some (match head (filter (fun e => sd_type e = type) es) with Some e => (Some (sd_data e), sd_size e) | None => (None, 0) end, m')) /\
    exists m'', ga_packet_free_side_data p' m' = Some (tt, m'') /\ heap m'' = heap m.
Proof.
  intros F. assert (owns (heap m) (ga_init_packet p) [] m) as O by (split; [done|]; split; [done|]; split; [constructor|]; split; [constructor|done]).
  destruct (add_all_owns (heap m) qs _ _ _ O) as (es & p' & m' & E & O' & M). cbn in O'. exists es, p', m'. split; [done|]. split; [done|].
  split; [|split; [intros t; by apply (get_owned (heap m))|by apply (free_owned (heap m) p' es)]].
  destruct O' as (_ & _ & Nd & Fr & H). destruct (side_data p') as [a|]; [|by destruct H as [-> _]].
  destruct H as (junk & _ & N & ->). clear - Nd N. apply Forall_forall. intros e I.
  rewrite lookup_insert_ne by (intros ->; apply N; by apply list_elem_of_fmap_2). clear N.
  induction es as [|x es IH]; [by apply not_elem_of_nil in I|]. cbn in Nd |- *. apply NoDup_cons in Nd as [Nx Nd]. apply elem_of_cons in I as [->|I]; [apply lookup_insert_eq|].
  rewrite lookup_insert_ne; [by apply IH|]. intros X. apply Nx. rewrite X. by apply list_elem_of_fmap_2.
Qed.

(** Freeing leaves the packet as it was: looking into it again, or freeing it again, uses
    memory that is gone. *)
Theorem freed_packet_dangles r p es m m' type : owns r p es m -> es <> [] -> ga_packet_free_side_data p m = Some (tt, m') ->
  ga_packet_get_side_data p type m' = None /\ ga_packet_free_side_data p m' = None.
Proof.
  intros O Ne E. destruct (free_owned r p es m O) as (m1 & E1 & Hr). rewrite E1 in E. injection E as <-. destruct O as (L & _ & _ & _ & H).
  unfold ga_packet_get_side_data, ga_packet_free_side_data. destruct (side_data p) as [a|]; [|by destruct H].
  destruct H as (_ & R & _). unfold cbind, elements. rewrite Hr, R. split; [|done]. destruct (Nat.eqb_spec (side_data_elems p) 0); [|by rewrite Hr, R].
  by destruct es; [|cbn in *; lia].
Qed.

(** *** Examples *)

Definition two_requests : list add_request :=
  [{| rq_grown := true; rq_given := true; rq_type := GA_PACKET_DATA_PALETTE; rq_size := 8 |};
   {| rq_grown := true; rq_given := true; rq_type := GA_PACKET_DATA_NEW_EXTRADATA; rq_size := INT_MAX |};
   {| rq_grown := true; rq_given := true; rq_type := GA_PACKET_DATA_NEW_EXTRADATA; rq_size := 5 |}].
Definition blank_packet : ga_packet_t :=
  {| pkt_buf := None; pkt_pts := 0; pkt_dts := 0; pkt_data := None; pkt_size := 0; pkt_stream_index := 0; pkt_flags := 0; side_data := None;
     side_data_elems := 0; pkt_duration := 0; pkt_pos := 0; pkt_convergence_duration := 0 |}.

Lemma side_data_lifecycle_witness : exists es p' m',
  add_all two_requests (ga_init_packet blank_packet) {| heap := ∅; fresh := 1 |} = Some (p', m') /\
  map (fun e => (sd_type e, sd_size e)) es = [(GA_PACKET_DATA_PALETTE, 8); (GA_PACKET_DATA_NEW_EXTRADATA, 5)] /\
  exists m'', ga_packet_free_side_data p' m' = Some (tt, m'') /\ heap m'' = ∅.
Proof.
  destruct (side_data_lifecycle two_requests blank_packet {| heap := ∅; fresh := 1 |}) as (es & p' & m' & E & M & _ & _ & D); [intros a _; apply lookup_empty|].
  exists es, p', m'. split; [exact E|]. split; [exact M|exact D].
Defined.
