(* ===== verification/PeriodicServer.v ===== *)
(** * PeriodicServer: the process of the streamer

    Models [src/sources/streamer/server/periodic/ga-server-periodic.cpp]: the command
    line, the configuration that is made from it, and the life of the two modules (the
    receiver of the encoder's stream and the WebRTC server), over the loader of
    [GaModule] and the store of [GaConf]. *)

From Stdlib Require Import ZArith Lia String.
From stdpp Require Import base gmap sets list.
From S2P Require Import Prelude Bytes StdMap GaConf GaModule.

(** ** The command line *)

(** The variables of [main] that the options set. *)
Inductive opt :=
| p2p | port | icr_ip | icr_port | icr_start_immediately | loglevel | owt_loglevel | server_id
| client_id | workdir | session | enable_multi_user | user | target_delay | bufferred_records | device
| width | height | framerate | video_codec | video_rc | video_bitrate | enable_tcae | tcae_debug_log
| video_bs_file | video_stats_file | virtual_input_num | k8s_env | measure_latency | enable_render_drc | ice_port_min | ice_port_max
| coturn_ip | coturn_username | coturn_password | coturn_port | client_clones.
#[export] Instance opt_eq_dec : EqDecision opt.
Proof. solve_decision. Defined.

(** The variable an option sets. *)
Definition option_of (a : bytes) : option opt :=
  if str_eqb a (b "-s") || str_eqb a (b "--server") then Some p2p
  else if str_eqb a (b "-p") || str_eqb a (b "--port") then Some port
  else if str_eqb a (b "--icr-ip") then Some icr_ip
  else if str_eqb a (b "--icr-port") then Some icr_port
  else if str_eqb a (b "--icr-start-immediately") then Some icr_start_immediately
  else if str_eqb a (b "--loglevel") then Some loglevel
  else if str_eqb a (b "--owt-loglevel") then Some owt_loglevel
  else if str_eqb a (b "--server-peer-id") then Some server_id
  else if str_eqb a (b "--client-peer-id") then Some client_id
  else if str_eqb a (b "--workdir") then Some workdir
  else if str_eqb a (b "-n") then Some session
  else if str_eqb a (b "--enable-multi-user") then Some enable_multi_user
  else if str_eqb a (b "--user") then Some user
  else if str_eqb a (b "--netpred-delay") then Some target_delay
  else if str_eqb a (b "--netpred-records") then Some bufferred_records
  else if str_eqb a (b "-d") || str_eqb a (b "--device") then Some device
  else if str_eqb a (b "--width") then Some width
  else if str_eqb a (b "--height") then Some height
  else if str_eqb a (b "--framerate") then Some framerate
  else if str_eqb a (b "--codec") then Some video_codec
  else if str_eqb a (b "--video-rc") then Some video_rc
  else if str_eqb a (b "--video-bitrate") then Some video_bitrate
  else if str_eqb a (b "--enable-tcae") then Some enable_tcae
  else if str_eqb a (b "--tcae-debug-log") then Some tcae_debug_log
  else if str_eqb a (b "--video-bs-file") then Some video_bs_file
  else if str_eqb a (b "--video-stats-file") then Some video_stats_file
  else if str_eqb a (b "--virtual-input-num") then Some virtual_input_num
  else if str_eqb a (b "--k8s") then Some k8s_env
  else if str_eqb a (b "--measure-latency") then Some measure_latency
  else if str_eqb a (b "--enable-render-drc") then Some enable_render_drc
  else if str_eqb a (b "--ice-port-min") then Some ice_port_min
  else if str_eqb a (b "--ice-port-max") then Some ice_port_max
  else if str_eqb a (b "--coturn-ip") then Some coturn_ip
  else if str_eqb a (b "--coturn-username") then Some coturn_username
  else if str_eqb a (b "--coturn-password") then Some coturn_password
  else if str_eqb a (b "--coturn-port") then Some coturn_port
  else if str_eqb a (b "--client-clones") then Some client_clones
  else None.

(** Nothing where the variable is NULL. *)
Definition defaults (o : opt) : option bytes :=
  match o with
  | p2p => Some (b "localhost")
  | port => Some (b "8095")
  | icr_ip => Some (b "127.0.0.1")
  | icr_port => Some (b "23432")
  | icr_start_immediately => Some (b "0")
  | loglevel => Some (b "info")
  | owt_loglevel => Some (b "none")
  | server_id => Some (b "ga0")
  | client_id => Some (b "client0")
  | workdir => Some (b "/opt/workdir")
  | session => Some (b "0")
  | enable_multi_user => Some (b "0")
  | user => Some (b "0")
  | target_delay => None
  | bufferred_records => Some (b "5")
  | device => Some (b "/dev/dri/renderD128")
  | width => Some (b "1920")
  | height => Some (b "1080")
  | framerate => Some (b "30")
  | video_codec => Some (b "h264")
  | video_rc => Some (b "vbr")
  | video_bitrate => Some (b "3000000")
  | enable_tcae => Some (b "1")
  | tcae_debug_log => None
  | video_bs_file => None
  | video_stats_file => None
  | virtual_input_num => Some (b "2")
  | k8s_env => Some (b "0")
  | measure_latency => Some (b "0")
  | enable_render_drc => Some (b "0")
  | ice_port_min => Some (b "50000")
  | ice_port_max => Some (b "50999")
  | coturn_ip => None
  | coturn_username => Some (b "username")
  | coturn_password => Some (b "password")
  | coturn_port => Some (b "3478")
  | client_clones => Some (b "0")
  end.

Definition options : Type := opt -> option bytes.
Definition set_opt (o : opt) (v : bytes) (vs : options) : options := fun o' => if decide (o' = o) then Some v else vs o'.

(** The loop over the arguments: it prints the usage or the version and ends the process, or
    stops at the first argument that is no option. *)
Inductive parsed := Quit | Options (vs : options) (rest : list bytes).
Fixpoint parse_options (args : list bytes) (vs : options) : parsed :=
  match args with
  | [] => Options vs []
  | a :: rest =>
      if str_eqb a (b "-h") || str_eqb a (b "--help") || str_eqb a (b "--version") then Quit
      else match option_of a with
           | Some o => match rest with [] => Options vs [] | v :: rest => parse_options rest (set_opt o v vs) end
           | None => Options vs (a :: rest)
           end
  end.

(** ** The configuration *)

Inductive conf_write := Write (key : bytes) (o : opt) | WriteIfSet (key : bytes) (o : opt) | WriteMap (mapname key : bytes) (o : opt).
#[export] Instance conf_write_eq_dec : EqDecision conf_write.
Proof. solve_decision. Defined.

(** The calls of [main], in their order. *)
Definition writes : list conf_write :=
  [Write (b "owt-loglevel") owt_loglevel;
   Write (b "signaling-server-host") p2p;
   Write (b "signaling-server-port") port;
   Write (b "server-peer-id") server_id;
   Write (b "client-peer-id") client_id;
   Write (b "icr-ip") icr_ip;
   Write (b "icr-port") icr_port;
   Write (b "icr-start-immediately") icr_start_immediately;
   Write (b "aic-workdir") workdir;
   Write (b "android-session") session;
   Write (b "enable-multi-user") enable_multi_user;
   Write (b "user") user;
   WriteIfSet (b "netpred-target-delay") target_delay;
   Write (b "netpred-records") bufferred_records;
   Write (b "video-device") device;
   Write (b "video-res-width") width;
   Write (b "video-res-height") height;
   Write (b "video-fps") framerate;
   Write (b "video-codec") video_codec;
   Write (b "video-rc") video_rc;
   WriteMap (b "video-specific") (b "b") video_bitrate;
   Write (b "enable-tcae") enable_tcae;
   Write (b "k8s") k8s_env;
   Write (b "measure-latency") measure_latency;
   Write (b "enable-render-drc") enable_render_drc;
   WriteIfSet (b "tcae-debug-log") tcae_debug_log;
   WriteIfSet (b "video-bs-file") video_bs_file;
   WriteIfSet (b "video-stats-file") video_stats_file;
   WriteIfSet (b "virtual-input-num") virtual_input_num;
   Write (b "ice-port-min") ice_port_min;
   Write (b "ice-port-max") ice_port_max;
   WriteIfSet (b "coturn-ip") coturn_ip;
   Write (b "coturn-username") coturn_username;
   Write (b "coturn-password") coturn_password;
   Write (b "coturn-port") coturn_port;
   Write (b "client-clones") client_clones].

(** A NULL where the code does not look is undefined. *)
Definition write_one (vs : options) (w : conf_write) : cmd conf unit :=
  match w with
  | Write key o => match vs o with Some v => ga_conf_writev key v ;;; cret tt | None => cundef end
  | WriteIfSet key o => match vs o with Some v => ga_conf_writev key v ;;; cret tt | None => cret tt end
  | WriteMap mapname key o => match vs o with Some v => ga_conf_mapwritev mapname key v ;;; cret tt | None => cundef end
  end.
Fixpoint write_all (vs : options) (ws : list conf_write) : cmd conf unit :=
  match ws with [] => cret tt | w :: ws => write_one vs w ;;; write_all vs ws end.

(** [main] up to the modules: nothing when the process goes on, else its exit code.
    [ga_init] loads the file. *)
Definition main_conf (fs : bytes -> option bytes) (depth : nat) (args : list bytes) : cmd conf (option Z) :=
  match parse_options args defaults with
  | Quit => cret (Some 0)
  | Options _ [] => cret (Some (-1))
  | Options vs (config :: _) =>
      r <-- ga_conf_load fs depth config ;;
      if r <? 0 then cret (Some (-1)) else write_all vs writes ;;; cret None
  end.

(** ** The modules *)

Inductive fn := Finit | Fstart | Fstop | Fdeinit.
#[export] Instance fn_eq_dec : EqDecision fn.
Proof. solve_decision. Defined.
Inductive call := Call (m : Z) (f : fn) | RegisterEncoder (m : Z).

Section Modules.
Context (dlopen : bytes -> option Z) (has_load : Z -> bool) (module_load : Z -> option Z) (prefix : bytes).
(** Which functions a module has, and what they return. *)
Context (has : Z -> fn -> bool) (ret : Z -> fn -> Z).

Definition log_call (c : call) : cmd (list call) unit := cmodify (fun l => l ++ [c]).
Definition logged (m : Z) (f : fn) : option (Z -> cmd (list call) Z) :=
  if has m f then Some (fun _ => log_call (Call m f) ;;; cret (ret m f)) else None.
Definition module_of (m : Z) : ga_module_t (list call) :=
  {| m_init := logged m Finit; m_start := logged m Fstart; m_stop := logged m Fstop; m_deinit := logged m Fdeinit;
     m_ioctl := None; m_notify := None; m_raw := None; m_send_packet := None |}.

Record Ctx := { m_vencoder : option Z; m_server : option Z }.
Definition Ctx0 : Ctx := {| m_vencoder := None; m_server := None |}.

Definition LoadModules (s : loader) : Z * Ctx * loader :=
  match ga_load_module dlopen has_load module_load (prefix ++ b "irrv-receiver") s with
  | (None, s) => (-1, Ctx0, s)
  | (Some v, s) =>
      match ga_load_module dlopen has_load module_load (prefix ++ b "server-webrtc") s with
      | (None, s) => (-1, {| m_vencoder := Some v; m_server := None |}, s)
      | (Some w, s) => (0, {| m_vencoder := Some v; m_server := Some w |}, s)
      end
  end.
Definition UnloadModules (c : Ctx) (s : loader) : loader := ga_unload_module (m_vencoder c) (ga_unload_module (m_server c) s).

(** Whether the process goes on. *)
Definition InitModules (c : Ctx) : cmd (list call) bool :=
  go <-- ga_init_single_module_or_quit (option_map module_of (m_vencoder c)) 0 ;;
  if negb go then cret false else ga_init_single_module_or_quit (option_map module_of (m_server c)) 0.
Definition RunModules (c : Ctx) : cmd (list call) bool :=
  match m_vencoder c, m_server c with
  | Some v, Some w =>
      log_call (RegisterEncoder v) ;;;
      match m_start (module_of w) with
      | None => cundef
      | Some start => r <-- start 0 ;; cret (negb (r <? 0))
      end
  | _, _ => cundef
  end.
Definition StopModules (c : Ctx) : cmd (list call) unit :=
  ga_module_stop (option_map module_of (m_vencoder c)) 0 ;;; ga_module_stop (option_map module_of (m_server c)) 0 ;;; cret tt.
Definition DeinitModules (c : Ctx) : cmd (list call) unit :=
  ga_module_deinit (option_map module_of (m_server c)) 0 ;;; ga_module_deinit (option_map module_of (m_vencoder c)) 0 ;;; cret tt.

(** The rest of [main], from the loading of the modules over the signal that ends the process:
    the exit code, the calls and the loader. *)
Definition main_modules (s : loader) : option (Z * list call * loader) :=
  let '(r, c, s) := LoadModules s in
  if r <? 0 then Some (-1, [], s)
  else match InitModules c [] with
       | None => None
       | Some (false, l) => Some (-1, l, s)
       | Some (true, l) =>
           match RunModules c l with
           | None => None
           | Some (false, l) => Some (-1, l, s)
           | Some (true, l) =>
               match (StopModules c ;;; DeinitModules c) l with
               | None => None
               | Some (_, l) => Some (0, l, UnloadModules c s)
               end
           end
       end.
End Modules.

(** ** Options reach the configuration *)

(** What the options [pairs] of a command line, names with values, make of the variables. *)
Definition given (pairs : list (bytes * bytes)) (vs : options) : options :=
  foldl (fun vs p => match option_of p.1 with Some o => set_opt o p.2 vs | None => vs end) vs pairs.

Lemma help_is_no_option a o : option_of a = Some o -> str_eqb a (b "-h") || str_eqb a (b "--help") || str_eqb a (b "--version") = false.
Proof.
  intros E. destruct (str_eqb a (b "-h")) eqn:H1; [by apply str_eqb_eq in H1 as ->|].
  destruct (str_eqb a (b "--help")) eqn:H2; [by apply str_eqb_eq in H2 as ->|].
  destruct (str_eqb a (b "--version")) eqn:H3; [by apply str_eqb_eq in H3 as ->|done].
Qed.

Lemma parse_given pairs config rest : forall vs, Forall (fun p => option_of p.1 <> None) pairs -> option_of config = None ->
  str_eqb config (b "-h") || str_eqb config (b "--help") || str_eqb config (b "--version") = false ->
  parse_options (flat_map (fun p => [p.1; p.2]) pairs ++ config :: rest) vs = Options (given pairs vs) (config :: rest).
Proof.
  induction pairs as [|[a v] pairs IH]; intros vs Hp Hc Hh; cbn [flat_map app parse_options fst snd given foldl].
  - by rewrite Hh, Hc.
  - apply Forall_cons in Hp as [Ha Hp]. cbn in Ha. destruct (option_of a) as [o|] eqn:E; [|done]. rewrite (help_is_no_option a o E). by apply IH.
Qed.

Definition needs (w : conf_write) : option opt := match w with Write _ o | WriteMap _ _ o => Some o | WriteIfSet _ _ => None end.
Definition key_of (w : conf_write) : bytes := match w with Write k _ | WriteIfSet k _ | WriteMap k _ _ => k end.

(** What a call makes of the variable it writes. *)
Definition written (vs : options) (w : conf_write) (x : gaConfVar) : gaConfVar :=
  match w with
  | Write _ o | WriteIfSet _ o => match vs o with Some v => var_assign v x | None => x end
  | WriteMap _ key o => match vs o with Some v => var_index_assign key v x | None => x end
  end.

Lemma write_one_spec vs w c : (forall o, needs w = Some o -> vs o <> None) -> conf_ok c ->
  exists c', write_one vs w c = Some (tt, c') /\ conf_ok c' /\
    forall k, vars_index k c' = if str_eqb k (key_of w) then written vs w (vars_index k c) else vars_index k c.
Proof.
  intros N Hc.
  assert (forall key f, (forall x, var_ok x -> var_ok (f x)) -> conf_ok (vars_update key f c) /\
    forall k, vars_index k (vars_update key f c) = if str_eqb k key then f (vars_index k c) else vars_index k c) as U.
  { intros key f Hf. split; [by apply vars_update_ok|]. intros k. rewrite vars_index_update by done. destruct (str_eqb k key) eqn:E; [|done].
    by apply str_eqb_eq in E as ->. }
  destruct w as [key o|key o|name key o]; cbn [write_one written key_of needs] in *; try specialize (N o eq_refl); destruct (vs o) as [v|]; try done.
  - eexists. split; [reflexivity|]. apply U. auto with cstream.
  - eexists. split; [reflexivity|]. apply U. auto with cstream.
  - exists c. split; [done|]. split; [done|]. intros k. by destruct (str_eqb _ _).
  - eexists. split; [reflexivity|]. apply U. auto with cstream.
Qed.

Lemma write_all_spec vs ws : forall c, Forall (fun w => forall o, needs w = Some o -> vs o <> None) ws -> NoDup (map key_of ws) -> conf_ok c ->
  exists c', write_all vs ws c = Some (tt, c') /\ conf_ok c' /\ (forall k, k ∉ map key_of ws -> vars_index k c' = vars_index k c) /\
    Forall (fun w => vars_index (key_of w) c' = written vs w (vars_index (key_of w) c)) ws.
Proof.
  induction ws as [|w ws IH]; intros c Hn Nd Hc; cbn [write_all map] in *; [by exists c|].
  apply Forall_cons in Hn as [Hw Hn]. apply NoDup_cons in Nd as [Nw Nd].
  destruct (write_one_spec vs w c Hw Hc) as (c1 & E1 & Hc1 & V1). destruct (IH c1 Hn Nd Hc1) as (c2 & E2 & Hc2 & K2 & F2).
  exists c2. split; [unfold cbind; by rewrite E1|]. split; [done|]. split.
  - intros k [N I]%not_elem_of_cons. by rewrite (K2 k I), V1, str_eqb_ne.
  - constructor; [by rewrite (K2 _ Nw), V1, str_eqb_refl|]. rewrite Forall_forall in F2 |- *. intros x I. rewrite (F2 x I), V1, str_eqb_ne; [done|].
    intros X. apply Nw. rewrite <- X. by apply list_elem_of_fmap_2.
Qed.

(** The key of the configuration that an option is meant for. *)
Definition stored_under (o : opt) : option bytes :=
  match o with
  | p2p => Some (b "signaling-server-host")
  | port => Some (b "signaling-server-port")
  | icr_ip => Some (b "icr-ip")
  | icr_port => Some (b "icr-port")
  | icr_start_immediately => Some (b "icr-start-immediately")
  | loglevel => None
  | owt_loglevel => Some (b "owt-loglevel")
  | server_id => Some (b "server-peer-id")
  | client_id => Some (b "client-peer-id")
  | workdir => Some (b "aic-workdir")
  | session => Some (b "android-session")
  | enable_multi_user => Some (b "enable-multi-user")
  | user => Some (b "user")
  | target_delay => Some (b "netpred-target-delay")
  | bufferred_records => Some (b "netpred-records")
  | device => Some (b "video-device")
  | width => Some (b "video-res-width")
  | height => Some (b "video-res-height")
  | framerate => Some (b "video-fps")
  | video_codec => Some (b "video-codec")
  | video_rc => Some (b "video-rc")
  | video_bitrate => None
  | enable_tcae => Some (b "enable-tcae")
  | tcae_debug_log => Some (b "tcae-debug-log")
  | video_bs_file => Some (b "video-bs-file")
  | video_stats_file => Some (b "video-stats-file")
  | virtual_input_num => Some (b "virtual-input-num")
  | k8s_env => Some (b "k8s")
  | measure_latency => Some (b "measure-latency")
  | enable_render_drc => Some (b "enable-render-drc")
  | ice_port_min => Some (b "ice-port-min")
  | ice_port_max => Some (b "ice-port-max")
  | coturn_ip => Some (b "coturn-ip")
  | coturn_username => Some (b "coturn-username")
  | coturn_password => Some (b "coturn-password")
  | coturn_port => Some (b "coturn-port")
  | client_clones => Some (b "client-clones")
  end.

Lemma stored_written o key : stored_under o = Some key -> Write key o ∈ writes \/ WriteIfSet key o ∈ writes.
Proof.
  destruct o; cbn [stored_under]; intros [= <-]; (left; apply (bool_decide_unpack _); vm_compute; exact Logic.I) ||
    (right; apply (bool_decide_unpack _); vm_compute; exact Logic.I).
Qed.

Lemma given_some pairs : forall vs o, vs o <> None -> given pairs vs o <> None.
Proof.
  induction pairs as [|[a v] pairs IH]; intros vs o H; [done|]. cbn [given foldl fst snd]. apply IH. destruct (option_of a) as [o'|]; [|done].
  unfold set_opt. by destruct (decide (o = o')).
Qed.

Lemma writes_needed : Forall (fun w => forall o, needs w = Some o -> defaults o <> None) writes.
Proof. repeat (constructor; [intros o [= <-]; discriminate || (intros o [=])|]). all: constructor. Qed.

Lemma writes_distinct : NoDup (map key_of writes).
Proof. apply (bool_decide_unpack _). vm_compute. exact Logic.I. Qed.

(** Loading a file keeps the store good, if it returns. *)
Definition keeps_ok {A} (m : cmd conf A) : Prop := forall c a c', conf_ok c -> m c = Some (a, c') -> conf_ok c'.

Lemma keeps_ok_bind {A B} (m : cmd conf A) (f : A -> cmd conf B) : keeps_ok m -> (forall a, keeps_ok (f a)) -> keeps_ok (cbind f m).
Proof. intros Hm Hf c x c' Hc. unfold cbind. destruct (m c) as [[y c1]|] eqn:E; [|done]. apply Hf. by apply (Hm c y c1). Qed.

Lemma keeps_ok_ret {A} (a : A) : keeps_ok (cret a).
Proof. by intros c x c' Hc [= _ <-]. Qed.

Lemma keeps_ok_update k f : (forall v, var_ok v -> var_ok (f v)) -> keeps_ok (cmodify (vars_update k f)).
Proof. intros Hf c x c' Hc [= _ <-]. by apply vars_update_ok. Qed.

Lemma load_keeps fs depth : forall f, keeps_ok (ga_conf_load fs depth f).
Proof.
  induction depth as [|depth IH]; intros f; [done|]. cbn [ga_conf_load]. destruct (fs f) as [content|]; [|apply keeps_ok_ret].
  generalize (conf_lines (length content) content) as ls, 0 as n. induction ls as [|l ls IHl]; intros n; cbn [load_lines]; [apply keeps_ok_ret|].
  apply keeps_ok_bind; [|intros r; destruct (r <? 0); [apply keeps_ok_ret|apply IHl]]. unfold ga_conf_parse.
  repeat first [apply keeps_ok_ret | apply IH | apply keeps_ok_bind; [apply keeps_ok_update|intros _] | progress auto with cstream | split_match].
Qed.

(** C29. The options of the server reach its modules.  The command line is any options with their
    values, in any order, and the name of a file that can be loaded.  Then the server goes on,
    and its configuration has, for every key that an option stands for, the last value that
    was given, or the default, whatever the file says; what has no default and was not
    given is as in the file; the bit rate is put into the map of the encoder; and all other
    keys of the file are as they were. *)
Theorem server_options_stored fs depth pairs config rest c c1 lines :
  Forall (fun p => option_of p.1 <> None) pairs -> option_of config = None ->
  str_eqb config (b "-h") || str_eqb config (b "--help") || str_eqb config (b "--version") = false ->
  conf_ok c -> ga_conf_load fs depth config c = Some (lines, c1) -> 0 <= lines ->
  let vs := given pairs defaults in
  exists c2, main_conf fs depth (flat_map (fun p => [p.1; p.2]) pairs ++ config :: rest) c = Some (None, c2) /\ conf_ok c2 /\
    (forall o key, stored_under o = Some key -> var_data key c2 = match vs o with Some v => v | None => var_data key c1 end) /\
    var_entry (b "video-specific") (b "b") c2 = vs video_bitrate /\
    (forall key, key ∉ map key_of writes -> vars_index key c2 = vars_index key c1).
Proof.
  intros Hp Hc Hh Ok L Hl vs. unfold main_conf. rewrite parse_given by done. fold vs. unfold cbind at 1. rewrite L.
  rewrite (proj2 (Z.ltb_ge _ _) Hl). pose proof (load_keeps fs depth config c lines c1 Ok L) as Ok1.
  destruct (write_all_spec vs writes c1) as (c2 & E & Ok2 & K & F); [|apply writes_distinct|done|].
  { eapply Forall_impl; [exact writes_needed|]. intros w H o Ho. by apply given_some, H. }
  rewrite Forall_forall in F. exists c2. split; [unfold cbind; by rewrite E|]. split; [done|]. repeat split.
  - intros o key [I|I]%stored_written; specialize (F _ I); cbn in F; unfold var_data; rewrite F; clear; by destruct (vs o).
  - assert (WriteMap (b "video-specific") (b "b") video_bitrate ∈ writes) as I by (apply (bool_decide_unpack _); vm_compute; exact Logic.I). specialize (F _ I). cbn -[b] in F.
    unfold var_entry. rewrite F. assert (vs video_bitrate <> None) as N by (apply given_some; discriminate).
    destruct (vs video_bitrate) as [v|]; [|done]. cbn [var_index_assign mapdata]. apply sm_find_insert. exact (proj1 (vars_index_ok c1 (b "video-specific") Ok1)).
  - exact K.
Qed.

(** ** The life of the modules *)

Section Life.
Context (dlopen : bytes -> option Z) (has_load : Z -> bool) (module_load : Z -> option Z) (prefix : bytes).
Context (has : Z -> fn -> bool) (ret : Z -> fn -> Z).

(** A call is made if the module has the function. *)
Definition made (c : call) : list call := match c with Call m f => if has m f then [c] else [] | RegisterEncoder _ => [c] end.

Lemma init_made m l : 0 <= ret m Finit -> ga_init_single_module_or_quit (Some (module_of has ret m)) 0 l = Some (true, l ++ made (Call m Finit)).
Proof.
  intros H. unfold ga_init_single_module_or_quit, ga_init_single_module, module_of, logged, made, cbind. cbn.
  destruct (has m Finit); cbn; [by rewrite (proj2 (Z.ltb_ge _ _) H)|by rewrite app_nil_r].
Qed.

Lemma wrapper_made f sel m l : sel (module_of has ret m) = logged has ret m f ->
  wrapper sel 0 (Some (module_of has ret m)) 0 l = Some (if has m f then ret m f else 0, l ++ made (Call m f)).
Proof. intros E. unfold wrapper. rewrite E. unfold logged, made. by destruct (has m f); [|rewrite app_nil_r]. Qed.

(** The libraries are found, and are different ones. *)
Context (hv hs v w : Z) (Dv : dlopen ((prefix ++ b "irrv-receiver") ++ b ".so") = Some hv) (Ds : dlopen ((prefix ++ b "server-webrtc") ++ b ".so") = Some hs).
Context (Lv : has_load hv = true) (Ls : has_load hs = true) (Mv : module_load hv = Some v) (Ms : module_load hs = Some w) (Nh : hv <> hs) (Nm : v <> w).

Lemma both_loaded : exists s, LoadModules dlopen has_load module_load prefix loader0 = (0, {| m_vencoder := Some v; m_server := Some w |}, s) /\
  mlist (UnloadModules {| m_vencoder := Some v; m_server := Some w |} s) = ∅ /\
  forall h, refs (UnloadModules {| m_vencoder := Some v; m_server := Some w |} s) h = O.
Proof.
  unfold LoadModules, ga_load_module. rewrite Dv, Lv, Mv, Ds, Ls, Ms. cbn [negb]. eexists. split; [reflexivity|].
  unfold UnloadModules, ga_unload_module. cbn. rewrite lookup_insert_eq. cbn. rewrite delete_insert_id by (by rewrite lookup_insert_ne).
  rewrite lookup_insert_eq. cbn. split; [by rewrite delete_insert_id|]. intros h. rewrite !Z.eqb_refl.
  rewrite (proj2 (Z.eqb_neq hs hv)), (proj2 (Z.eqb_neq hv hs)) by congruence. destruct (Z.eqb_spec h hv), (Z.eqb_spec h hs); congruence || reflexivity.
Qed.

(** The server's life.  When no function of a module fails, the modules are initialised, the
    encoder registered and the server started; after the signal both are stopped and then
    deinitialised, the server first; functions that a module lacks are left out, except that
    the server must have [start]; at the end no library is left open. *)
Theorem server_life : has w Fstart = true -> (forall m f, 0 <= ret m f) ->
  exists s, main_modules dlopen has_load module_load prefix has ret loader0 =
    Some (0, concat (map made [Call v Finit; Call w Finit; RegisterEncoder v; Call w Fstart; Call v Fstop; Call w Fstop; Call w Fdeinit; Call v Fdeinit]), s) /\
    mlist s = ∅ /\ forall h, refs s h = O.
Proof.
  intros St R. destruct both_loaded as (s & E & M & C). eexists. split; [|split; [exact M|exact C]]. unfold main_modules. rewrite E. cbn [Z.ltb Z.compare].
  unfold InitModules, cbind at 1. cbn [m_vencoder m_server option_map]. rewrite init_made by done. cbn [negb]. rewrite init_made by done.
  unfold RunModules. cbn [m_vencoder m_server]. unfold cbind, log_call, cmodify. cbn [m_start module_of]. unfold logged at 1. rewrite St.
  unfold cbind, log_call, cmodify, cret. rewrite (proj2 (Z.ltb_ge _ _) (R w Fstart)). cbn [negb].
  unfold StopModules, DeinitModules, ga_module_stop, ga_module_deinit, cbind. cbn [m_vencoder m_server option_map].
  do 2 (rewrite (wrapper_made Fstop m_stop) by done; cbv iota beta). unfold cret at 1. do 2 (rewrite (wrapper_made Fdeinit m_deinit) by done; cbv iota beta).
  unfold cret. cbn [concat map]. do 3 f_equal.
  assert (made (Call w Fstart) = [Call w Fstart]) as -> by (unfold made; by rewrite St). by rewrite app_nil_r, <- !app_assoc.
Qed.

(** A module that cannot be initialised ends the process. *)
Theorem server_init_fails : has v Finit = true -> ret v Finit < 0 ->
  exists s, main_modules dlopen has_load module_load prefix has ret loader0 = Some (-1, [Call v Finit], s).
Proof.
  intros H R. destruct both_loaded as (s & E & _). exists s. unfold main_modules. rewrite E. cbn [Z.ltb Z.compare].
  unfold InitModules, ga_init_single_module_or_quit, ga_init_single_module, cbind. cbn [m_vencoder option_map module_of m_init]. unfold logged. rewrite H.
  unfold cbind, log_call, cmodify, cret. by rewrite (proj2 (Z.ltb_lt _ _) R).
Qed.
End Life.

(** ** Examples *)

Definition sample_line : list (bytes * bytes) := [(b "-s", b "10.0.0.1"); (b "--codec", b "av1"); (b "--server", b "10.0.0.2"); (b "--video-bitrate", b "5000000")].
Definition sample_fs (f : bytes) : option bytes := if str_eqb f (b "server.conf") then Some (b "video-codec = h265") else None.

Lemma server_options_stored_witness : exists c1 c2, ga_conf_load sample_fs 1 (b "server.conf") conf0 = Some (1, c1) /\
  main_conf sample_fs 1 (flat_map (fun p => [p.1; p.2]) sample_line ++ [b "server.conf"]) conf0 = Some (None, c2) /\
  var_data (b "video-codec") c1 = b "h265" /\ var_data (b "video-codec") c2 = b "av1" /\
  var_data (b "signaling-server-host") c2 = b "10.0.0.2" /\ var_entry (b "video-specific") (b "b") c2 = Some (b "5000000").
Proof.
  assert (exists c1, ga_conf_load sample_fs 1 (b "server.conf") conf0 = Some (1, c1) /\ var_data (b "video-codec") c1 = b "h265") as (c1 & L & D)
    by (eexists; split; reflexivity).
  destruct (server_options_stored sample_fs 1 sample_line (b "server.conf") [] conf0 c1 1) as (c2 & E & _ & W & B & _);
    [repeat (constructor; [discriminate|]); constructor|reflexivity|reflexivity|split; [constructor|intros k v H; discriminate H]|exact L|lia|].
  exists c1, c2. split; [exact L|]. split; [exact E|]. split; [exact D|].
  split; [exact (W video_codec (b "video-codec") eq_refl)|]. split; [exact (W p2p (b "signaling-server-host") eq_refl)|exact B].
Defined.

Definition two_files (f : bytes) : option Z :=
  if str_eqb f (b "mod/irrv-receiver.so") then Some 1 else if str_eqb f (b "mod/server-webrtc.so") then Some 2 else None.

Lemma server_life_witness : exists s, main_modules two_files (fun _ => true) (fun h => Some (h + 10)) (b "mod/") (fun _ f => bool_decide (f <> Fdeinit)) (fun _ _ => 0) loader0 =
  Some (0, [Call 11 Finit; Call 12 Finit; RegisterEncoder 11; Call 12 Fstart; Call 11 Fstop; Call 12 Fstop], s) /\ mlist s = ∅.
Proof.
  destruct (server_life two_files (fun _ => true) (fun h => Some (h + 10)) (b "mod/") (fun _ f => bool_decide (f <> Fdeinit)) (fun _ _ => 0)
    1 2 11 12) as (s & E & M & _); [reflexivity..|discriminate|discriminate|reflexivity|lia|]. exists s. split; [exact E|exact M].
Defined.
