(* ===== verification/CursorShape.v ===== *)
(** * CursorShape: the cursor of the desktop that is captured

    Models the cursor part of [src/sources/streamer/capture/desktop-duplicator.cpp]: the
    position and the shape that the system reports with a frame, the three kinds of shapes
    it has, and the state that a receiver waits for.  Indices and sizes are unsigned
    32-bit numbers, as in the code; a byte outside its buffer has no value. *)

From Stdlib Require Import ZArith Lia.
From stdpp Require Import base list list_numbers sets.
From S2P Require Import Prelude Bytes.

(** ** State *)

Record CursorState := {
  visible : bool; cur_x : Z; cur_y : Z; shape_present : bool; shape_width : Z; shape_height : Z; shape_pitch : Z;
  shape_hotspot_x : Z; shape_hotspot_y : Z; shape_data : list Z; shape_xor_data : list Z }.
Definition CursorState0 : CursorState :=
  {| visible := false; cur_x := 0; cur_y := 0; shape_present := false; shape_width := 0; shape_height := 0; shape_pitch := 0;
     shape_hotspot_x := 0; shape_hotspot_y := 0; shape_data := []; shape_xor_data := [] |}.
Definition set_place (v : bool) (x y : Z) (s : CursorState) : CursorState :=
  {| visible := v; cur_x := x; cur_y := y; shape_present := shape_present s; shape_width := shape_width s; shape_height := shape_height s;
     shape_pitch := shape_pitch s; shape_hotspot_x := shape_hotspot_x s; shape_hotspot_y := shape_hotspot_y s; shape_data := shape_data s;
     shape_xor_data := shape_xor_data s |}.

Inductive shape_type := MONOCHROME | COLOR | MASKED_COLOR | OTHER_SHAPE.
Record shape_info := { si_type : shape_type; si_width : Z; si_height : Z; si_pitch : Z; si_hot_x : Z; si_hot_y : Z }.
Definition set_shape (i : shape_info) (w h p : Z) (data xor : list Z) (s : CursorState) : CursorState :=
  {| visible := visible s; cur_x := cur_x s; cur_y := cur_y s; shape_present := true; shape_width := w; shape_height := h; shape_pitch := p;
     shape_hotspot_x := si_hot_x i; shape_hotspot_y := si_hot_y i; shape_data := data; shape_xor_data := xor |}.

(** What comes with a frame. *)
Record frame_info := { LastMouseUpdateTime : Z; pp_visible : bool; pp_x : Z; pp_y : Z; PointerShapeBufferSize : Z }.

(** Whether anything changed. *)
Definition update_cursor_position (f : frame_info) (s : CursorState) : bool * CursorState :=
  if LastMouseUpdateTime f =? 0 then (false, s)
  else if negb (Bool.eqb (visible s) (pp_visible f))
  then (true, if pp_visible f then set_place true (pp_x f) (pp_y f) s else set_place false (cur_x s) (cur_y s) s)
  else if pp_visible f && (negb (cur_x s =? pp_x f) || negb (cur_y s =? pp_y f)) then (true, set_place (visible s) (pp_x f) (pp_y f) s)
  else (false, s).

(** ** Shapes *)

Definition at_ (l : list Z) (i : Z) : option Z := if i <? 0 then None else l !! Z.to_nat i.
Definition put (i v : Z) (l : list Z) : option (list Z) := if (i <? 0) || (Z.of_nat (length l) <=? i) then None else Some (<[Z.to_nat i := v]> l).
(** [std::vector::resize] *)
Definition resized (n : Z) (l : list Z) : list Z := take (Z.to_nat n) (l ++ replicate (Z.to_nat n) 0).
(** The order of the loops. *)
Definition pixels (w h : Z) : list (Z * Z) := flat_map (fun y => map (fun x => (x, y)) (seqZ 0 w)) (seqZ 0 h).
Fixpoint each {S} (f : Z * Z -> S -> option S) (l : list (Z * Z)) (s : S) : option S :=
  match l with [] => Some s | p :: l => s ← f p s; each f l s end.

Definition put4 (off r g b a : Z) (l : list Z) : option (list Z) :=
  l ← put (u32 (off + 0)) r l; l ← put (u32 (off + 1)) g l; l ← put (u32 (off + 2)) b l; put (u32 (off + 3)) a l.

(** The two colours of a pixel with the bits [aa] and [xx]. *)
Definition mono_pixel (aa xx : Z) : list Z * list Z :=
  if (aa =? 0) && (xx =? 0) then ([0; 0; 0; 255], [0; 0; 0; 0])
  else if (aa =? 0) && (xx =? 1) then ([255; 255; 255; 255], [0; 0; 0; 0])
  else if (aa =? 1) && (xx =? 0) then ([0; 0; 0; 0], [0; 0; 0; 0])
  else ([0; 0; 0; 0], [255; 255; 255; 255]).
Definition put_pixel (off : Z) (c : list Z) (l : list Z) : option (list Z) :=
  match c with [r; g; b; a] => put4 off r g b a l | _ => None end.

Definition bit_of (v k : Z) : Z := Z.land (Z.shiftr v k) 1.

(** Whether the shape was taken ([E_INVALIDARG] when not). *)
Definition update_cursor_shape_monochrome (i : shape_info) (data : list Z) (s : CursorState) : option (bool * CursorState) :=
  if Z.of_nat (length data) <? u32 (si_pitch i * si_height i) then Some (false, s)
  else
    let width := si_width i in
    let height := si_height i / 2 in
    let pitch := u32 (si_width i * 4) in
    let n := u32 (pitch * height) in
    let xor_mask_offset := u32 (si_pitch i * si_height i) / 2 in
    '(a, x) ← each (fun '(x, y) '(da, dx) =>
                 let bit_off := u32 (x / 8 + u32 (y * si_pitch i)) in
                 let bit_shr := Z.land x 7 in
                 va ← at_ data bit_off;
                 vx ← at_ data (xor_mask_offset + bit_off);
                 let dst_off := u32 (u32 (4 * x) + u32 (y * pitch)) in
                 let '(ca, cx) := mono_pixel (bit_of va bit_shr) (bit_of vx bit_shr) in
                 da ← put_pixel dst_off ca da; dx ← put_pixel dst_off cx dx; Some (da, dx))
               (pixels width height) (resized n (shape_data s), resized n (shape_xor_data s));
    Some (true, set_shape i width height pitch a x s).

Definition update_cursor_shape_color (i : shape_info) (data : list Z) (s : CursorState) : option (bool * CursorState) :=
  let n := u32 (si_pitch i * si_height i) in
  if Z.of_nat (length data) <? n then Some (false, s)
  else Some (true, set_shape i (si_width i) (si_height i) (si_pitch i) (take (Z.to_nat n) data) [] s).

Definition update_cursor_shape_masked_color (i : shape_info) (data : list Z) (s : CursorState) : option (bool * CursorState) :=
  let n := u32 (si_pitch i * si_height i) in
  if Z.of_nat (length data) <? n then Some (false, s)
  else
    let copy := take (Z.to_nat n) data in
    '(a, x) ← each (fun '(x, y) '(da, dx) =>
                 let off := u32 (u32 (4 * x) + 3 + u32 (y * si_pitch i)) in
                 v ← at_ data off;
                 da ← put off (if v =? 0 then 255 else 0) da;
                 dx ← put off (if v =? 0 then 0 else 255) dx; Some (da, dx))
               (pixels (si_width i) (si_height i)) (copy, copy);
    Some (true, set_shape i (si_width i) (si_height i) (si_pitch i) a x s).

(** [update_cursor_shape]: [buf] is [m_shape_buffer], which only ever grows; [answer] is what the
    system gives for the shape and the bytes it writes at the front of the buffer.  The result of the
    functions above is not looked at. *)
Definition grown (n : Z) (buf : list Z) : list Z := if Z.of_nat (length buf) <? n then resized n buf else buf.
Definition update_cursor_shape (f : frame_info) (answer : option (shape_info * list Z)) (s : CursorState) (buf : list Z)
  : option (bool * CursorState * list Z) :=
  if PointerShapeBufferSize f =? 0 then Some (false, s, buf)
  else
    let buf := grown (PointerShapeBufferSize f) buf in
    match answer with
    | None => Some (false, s, buf)
    | Some (i, written) =>
        let buf := written ++ drop (length written) buf in
        match si_type i with
        | MONOCHROME => r ← update_cursor_shape_monochrome i buf s; Some (true, r.2, buf)
        | COLOR => r ← update_cursor_shape_color i buf s; Some (true, r.2, buf)
        | MASKED_COLOR => r ← update_cursor_shape_masked_color i buf s; Some (true, r.2, buf)
        | OTHER_SHAPE => Some (false, s, buf)
        end
    end.

(** ** The receiver *)

Record duplicator := { m_cursor_state : CursorState; m_shape_buffer : list Z; m_cursor_updated : bool; m_output_cursor : CursorState }.
Definition duplicator0 : duplicator :=
  {| m_cursor_state := CursorState0; m_shape_buffer := []; m_cursor_updated := false; m_output_cursor := CursorState0 |}.

(** The cursor part of [acquire_surface]. *)
Definition acquire_cursor (f : frame_info) (answer : option (shape_info * list Z)) (d : duplicator) : option duplicator :=
  let '(moved, s) := update_cursor_position f (m_cursor_state d) in
  '(shaped, s, buf) ← update_cursor_shape f answer s (m_shape_buffer d);
  Some (if moved || shaped then {| m_cursor_state := s; m_shape_buffer := buf; m_cursor_updated := true; m_output_cursor := s |}
        else {| m_cursor_state := s; m_shape_buffer := buf; m_cursor_updated := m_cursor_updated d; m_output_cursor := m_output_cursor d |}).

(** [receive_cursor] at the end of its wait: the state, or nothing when the time ran out. *)
Definition receive_cursor (timeout_ms : Z) (d : duplicator) : option CursorState * duplicator :=
  if timeout_ms =? 0 then (Some (m_output_cursor d), d)
  else if m_cursor_updated d
  then (Some (m_output_cursor d),
        {| m_cursor_state := m_cursor_state d; m_shape_buffer := m_shape_buffer d; m_cursor_updated := false; m_output_cursor := m_output_cursor d |})
  else (None, d).

(** ** Loops over the pixels *)

Lemma each_inv {S} (f : Z * Z -> S -> option S) (P : list (Z * Z) -> S -> Prop) l s :
  P [] s ->
  (forall ds p todo s, l = ds ++ p :: todo -> P ds s -> exists s', f p s = Some s' /\ P (ds ++ [p]) s') ->
  exists s', each f l s = Some s' /\ P l s'.
Proof.
  intros H0 Hs.
  assert (G : forall todo ds s, l = ds ++ todo -> P ds s -> exists s', each f todo s = Some s' /\ P l s').
  { induction todo as [|p todo IH]; intros ds t Hl Ht; simpl.
    - rewrite app_nil_r in Hl. subst. eauto.
    - destruct (Hs ds p todo t Hl Ht) as (t' & Hf & Ht'). rewrite Hf. simpl.
      apply (IH (ds ++ [p])); [|done]. by rewrite <- app_assoc. }
  by apply (G l []).
Qed.

Lemma pixels_succ w h : 0 <= h -> pixels w (h + 1) = pixels w h ++ map (fun x => (x, h)) (seqZ 0 w).
Proof.
  intros Hh. unfold pixels. rewrite seqZ_app by lia. rewrite flat_map_app. f_equal.
  rewrite Z.add_0_l. change (seqZ h 1) with [h]. simpl. by rewrite app_nil_r.
Qed.
Lemma pixels_length w h : 0 <= w -> 0 <= h -> Z.of_nat (length (pixels w h)) = w * h.
Proof.
  intros Hw. revert h. apply (natlike_ind (fun h => Z.of_nat (length (pixels w h)) = w * h)); [simpl; lia|].
  intros h Hh IH. unfold Z.succ. rewrite pixels_succ by done. rewrite length_app, length_map, length_seqZ. lia.
Qed.
Lemma pixels_lookup w h i x y :
  0 <= w -> 0 <= h -> pixels w h !! i = Some (x, y) -> Z.of_nat i = y * w + x /\ 0 <= x < w /\ 0 <= y < h.
Proof.
  intros Hw Hh. revert h Hh.
  apply (natlike_ind (fun h => pixels w h !! i = Some (x, y) -> Z.of_nat i = y * w + x /\ 0 <= x < w /\ 0 <= y < h)); [done|].
  intros h Hh IH. unfold Z.succ. rewrite pixels_succ by done. rewrite lookup_app_Some. intros [H|[Hl H]].
  - destruct (IH H) as (? & ? & ?). lia.
  - rewrite list_lookup_fmap in H. apply fmap_Some in H as (x' & Hx & [= -> ->]). apply lookup_seqZ in Hx as [-> Hx].
    pose proof (pixels_length w h Hw Hh). lia.
Qed.
Lemma pixels_split w h ds x y todo :
  0 <= w -> 0 <= h -> pixels w h = ds ++ (x, y) :: todo -> Z.of_nat (length ds) = y * w + x /\ 0 <= x < w /\ 0 <= y < h.
Proof. intros Hw Hh E. apply (pixels_lookup w h); [done..|]. by rewrite E, list_lookup_middle. Qed.
Lemma elem_of_pixels w h x y : 0 <= w -> 0 <= h -> (x, y) ∈ pixels w h <-> 0 <= x < w /\ 0 <= y < h.
Proof.
  intros Hw Hh. split.
  - intros [i Hi]%list_elem_of_lookup_1. apply (pixels_lookup w h i x y Hw Hh) in Hi. tauto.
  - intros [Hx Hy]. unfold pixels. apply list_elem_of_In, in_flat_map. exists y. split.
    + apply list_elem_of_In, elem_of_seqZ. lia.
    + apply (in_map (fun x => (x, y))), list_elem_of_In, elem_of_seqZ. lia.
Qed.

Lemma at_Some l i v : at_ l i = Some v <-> 0 <= i /\ l !! Z.to_nat i = Some v.
Proof. unfold at_. destruct (Z.ltb_spec i 0); naive_solver lia. Qed.
Lemma at_defined l i : 0 <= i < Z.of_nat (length l) -> exists v, at_ l i = Some v.
Proof. intros H. destruct (lookup_lt_is_Some_2 l (Z.to_nat i)) as [v Hv]; [lia|]. exists v. apply at_Some. split; [lia|done]. Qed.
Lemma put_ok i v l : 0 <= i < Z.of_nat (length l) -> put i v l = Some (<[Z.to_nat i := v]> l).
Proof. intros H. unfold put. destruct (Z.ltb_spec i 0); [lia|]. destruct (Z.leb_spec (Z.of_nat (length l)) i); [lia|done]. Qed.
Lemma put_out i v l : Z.of_nat (length l) <= i -> put i v l = None.
Proof. intros H. unfold put. destruct (Z.leb_spec (Z.of_nat (length l)) i); [|lia]. by rewrite orb_true_r. Qed.
Lemma length_resized n l : 0 <= n -> Z.of_nat (length (resized n l)) = n.
Proof. intros H. unfold resized. rewrite length_take, length_app, length_replicate. lia. Qed.

(** Four bytes written over the four that follow [pre]. *)
Lemma put_pixel_at off r g b a pre rest :
  off = Z.of_nat (length pre) -> (4 <= length rest)%nat -> off + 4 <= 2 ^ 32 ->
  put_pixel off [r; g; b; a] (pre ++ rest) = Some (pre ++ [r; g; b; a] ++ drop 4 rest).
Proof.
  intros -> Hr Ho. destruct rest as [|b0 [|b1 [|b2 [|b3 rest]]]]; simpl in Hr; try lia.
  assert (W : forall k, 0 <= k < 4 -> u32 (Z.of_nat (length pre) + k) = Z.of_nat (length pre) + k) by (intros; apply u32_small; lia).
  assert (I : forall k v tl, 0 <= k < Z.of_nat (length tl) ->
     put (Z.of_nat (length pre) + k) v (pre ++ tl) = Some (pre ++ <[Z.to_nat k := v]> tl)).
  { intros k v tl Hk. rewrite put_ok by (rewrite length_app; lia). f_equal.
    rewrite insert_app_r_alt by lia. do 2 f_equal. lia. }
  unfold put_pixel, put4. rewrite !W by lia.
  rewrite I by (simpl; lia). simpl. rewrite I by (simpl; lia). simpl. rewrite I by (simpl; lia). simpl. rewrite I by (simpl; lia). done.
Qed.
Lemma mono_pixel_form aa xx : exists r g b a r' g' b' a', mono_pixel aa xx = ([r; g; b; a], [r'; g'; b'; a']).
Proof. unfold mono_pixel. repeat case_match; eauto 10. Qed.

(** ** Monochrome shapes *)

(** What the planes hold at a pixel, from the AND mask in the upper half of the bytes and the XOR
    mask in the lower half. *)
Definition and_byte (i : shape_info) (data : list Z) (x y : Z) : Z := data !!! Z.to_nat (x / 8 + y * si_pitch i).
Definition xor_byte (i : shape_info) (data : list Z) (x y : Z) : Z := and_byte i data x (y + si_height i / 2).
Definition mono_at (i : shape_info) (data : list Z) (p : Z * Z) : list Z * list Z :=
  mono_pixel (bit_of (and_byte i data p.1 p.2) (Z.land p.1 7)) (bit_of (xor_byte i data p.1 p.2) (Z.land p.1 7)).

(** The shapes of the system: rows of whole bytes, two masks of the same height, and the sizes within 32 bits. *)
Record mono_shape (i : shape_info) (data : list Z) : Prop := {
  ms_width : 0 <= si_width i <= 8 * si_pitch i;
  ms_height : 0 <= si_height i /\ Z.even (si_height i) = true;
  ms_in : si_pitch i * si_height i < 2 ^ 32;
  ms_out : 4 * si_width i * (si_height i / 2) < 2 ^ 32 /\ 4 * si_width i < 2 ^ 32;
  ms_data : si_pitch i * si_height i <= Z.of_nat (length data) }.

Lemma mono_at_length i data p : length (mono_at i data p).1 = 4%nat /\ length (mono_at i data p).2 = 4%nat.
Proof. unfold mono_at. by edestruct mono_pixel_form as (? & ? & ? & ? & ? & ? & ? & ? & ->). Qed.

(** One plane: the pixels written so far, then what was there. *)
Section Plane.
  Context (col : Z * Z -> list Z) (Hcol : forall p, length (col p) = 4%nat).
Lemma plane_length ds : length (flat_map col ds) = (4 * length ds)%nat.
Proof using Hcol. induction ds as [|p ds IH]; [done|]. simpl flat_map. rewrite length_app, IH, Hcol. simpl. lia. Qed.
Lemma plane_step off ds p base :
  off = 4 * Z.of_nat (length ds) -> off + 4 <= Z.of_nat (length base) <= 2 ^ 32 ->
  put_pixel off (col p) (flat_map col ds ++ drop (4 * length ds) base) =
  Some (flat_map col (ds ++ [p]) ++ drop (4 * length (ds ++ [p])) base).
Proof using Hcol.
  intros Ho Hb. pose proof (Hcol p) as Hp. destruct (col p) as [|r [|g [|b [|a [|]]]]] eqn:E; try done.
  rewrite put_pixel_at; [|rewrite plane_length; lia|rewrite length_drop; lia|lia].
  rewrite flat_map_app. simpl flat_map. rewrite E, drop_drop, <- app_assoc. do 4 f_equal. rewrite length_app. simpl. lia.
Qed.
Lemma plane_full l base : length base = (4 * length l)%nat -> flat_map col l ++ drop (4 * length l) base = flat_map col l.
Proof using Hcol. intros H. rewrite drop_ge by lia. apply app_nil_r. Qed.
End Plane.

Section Mono.
  Context (i : shape_info) (data : list Z) (Hm : mono_shape i data).

Lemma half_height : si_height i = 2 * (si_height i / 2).
Proof using Hm. destruct (ms_height i data Hm) as [H E]. apply Z.even_spec in E as [k ->]. rewrite Z.mul_comm, Z.div_mul by lia. lia. Qed.

Lemma mono_reads x y : 0 <= x < si_width i -> 0 <= y < si_height i / 2 ->
  let off := u32 (x / 8 + u32 (y * si_pitch i)) in
  at_ data off = Some (and_byte i data x y) /\
  at_ data (u32 (si_pitch i * si_height i) / 2 + off) = Some (xor_byte i data x y).
Proof using Hm.
  intros Hx Hy. pose proof half_height as Hh. destruct Hm as [Hw [H0 _] Hin _ Hd].
  set (h := si_height i / 2) in *. set (p := si_pitch i) in *.
  assert (x / 8 < p) by (apply Z.div_lt_upper_bound; lia). pose proof (Z.div_pos x 8).
  assert (y * p + p <= h * p) by nia. assert (p * si_height i = 2 * (h * p)) as E by (rewrite Hh; ring).
  rewrite (u32_small (y * p)) by nia. rewrite (u32_small (x / 8 + _)) by nia. rewrite (u32_small (p * _)) by nia.
  rewrite E, (Z.mul_comm 2), Z.div_mul by lia. simpl. rewrite !at_Some.
  assert (L : forall z, 0 <= z < Z.of_nat (length data) -> data !! Z.to_nat z = Some (data !!! Z.to_nat z)).
  { intros z Hz. apply list_lookup_lookup_total_lt. lia. }
  unfold xor_byte, and_byte. fold h p. replace (x / 8 + (y + h) * p) with (h * p + (x / 8 + y * p)) by ring.
  repeat split; try apply L; nia.
Qed.

(** Every pixel is read and written within its buffers, and the two planes hold the colours of the pixels row by row. *)
Lemma monochrome_planes s :
  update_cursor_shape_monochrome i data s =
  Some (true, set_shape i (si_width i) (si_height i / 2) (4 * si_width i)
                (flat_map (fun p => (mono_at i data p).1) (pixels (si_width i) (si_height i / 2)))
                (flat_map (fun p => (mono_at i data p).2) (pixels (si_width i) (si_height i / 2))) s).
Proof using Hm.
  pose proof mono_reads as R. pose proof half_height as Hh. unfold update_cursor_shape_monochrome.
  destruct Hm as [Hw [H0 _] Hin [Ho Ho'] Hd]. set (h := si_height i / 2) in *. set (w := si_width i) in *.
  assert (Hh0 : 0 <= h) by lia. rewrite (u32_small (w * 4)) by lia. rewrite (u32_small (w * 4 * h)) by nia.
  rewrite (u32_small (si_pitch i * si_height i)) by nia. rewrite (u32_small (si_pitch i * si_height i)) in R by nia.
  destruct (Z.ltb_spec (Z.of_nat (length data)) (si_pitch i * si_height i)); [lia|].
  match goal with |- context [each ?f ?l ?s0] => set (step := f); set (start := s0) end.
  destruct (each_inv step (fun ds t =>
     t = (flat_map (fun p => (mono_at i data p).1) ds ++ drop (4 * length ds) start.1,
          flat_map (fun p => (mono_at i data p).2) ds ++ drop (4 * length ds) start.2)) (pixels w h) start)
    as ([a x] & -> & E).
  - reflexivity.
  - intros ds [x y] todo t El ->. destruct (pixels_split _ _ _ _ _ _ (proj1 Hw) Hh0 El) as (Hi & Hx & Hy).
    destruct (R x y Hx Hy) as [Ra Rx]. unfold step at 1. cbv zeta in Ra, Rx. rewrite Ra; cbn [mbind option_bind]. rewrite Rx; cbn [mbind option_bind].
    assert (y * w + w <= h * w) by nia. rewrite (u32_small (4 * x)), (u32_small (y * _)) by lia. rewrite u32_small by lia.
    change (mono_pixel _ _) with (mono_at i data (x, y)).
    rewrite (surjective_pairing (mono_at i data (x, y))).
    rewrite (plane_step (fun p => (mono_at i data p).1) (fun p => proj1 (mono_at_length i data p)) _ ds (x, y));
      [|lia|unfold start; cbn [fst]; rewrite length_resized; lia].
    cbn [mbind option_bind].
    rewrite (plane_step (fun p => (mono_at i data p).2) (fun p => proj2 (mono_at_length i data p)) _ ds (x, y));
      [|lia|unfold start; cbn [snd]; rewrite length_resized; lia].
    eauto.
  - cbn [mbind option_bind]. injection E as -> ->. pose proof (pixels_length w h (proj1 Hw) Hh0) as Hl.
    rewrite !plane_full; [by rewrite (Z.mul_comm 4)|..].
    all: try (intros p; apply mono_at_length). all: apply Nat2Z.inj; unfold start; cbn [fst snd]; rewrite length_resized; lia.
Qed.
End Mono.

(** *** What is seen

    The planes are drawn one after the other: the first by its alpha ([over]), the second by inverting
    what is below ([invert]), as the comments of the state say.  Levels are bytes. *)
Definition over (v a screen : Z) : Z := (v * a + screen * (255 - a)) / 255.
Definition invert (v screen : Z) : Z := (v * (255 - screen) + (255 - v) * screen) / 255.
(** The level of channel [k] of pixel [(x, y)] of the shape over [screen]. *)
Definition drawn (s : CursorState) (k : nat) (x y screen : Z) : option Z :=
  let off := Z.to_nat (4 * x + y * shape_pitch s) in
  v ← shape_data s !! (off + k)%nat;
  a ← shape_data s !! (off + 3)%nat;
  xv ← shape_xor_data s !! (off + k)%nat;
  Some (invert xv (over v a screen)).

(** The meaning of the two masks: the screen AND the first, XOR the second. *)
Definition masked_level (aa xx : bool) (screen : Z) : Z :=
  Z.lxor (Z.land screen (if aa then 255 else 0)) (if xx then 255 else 0).

Lemma bit_of_testbit v k : 0 <= k -> bit_of v k = Z.b2z (Z.testbit v k).
Proof. intros H. unfold bit_of. rewrite Z.testbit_spec' by done. rewrite Z.shiftr_div_pow2 by done. by rewrite (Z.land_ones _ 1). Qed.

Lemma masked_level_cases aa xx s : 0 <= s < 256 ->
  masked_level aa xx s = match aa, xx with false, false => 0 | false, true => 255 | true, false => s | true, true => 255 - s end.
Proof.
  intros H. unfold masked_level.
  assert (T : forallb (fun s => (Z.land s 255 =? s) && (Z.lxor s 255 =? 255 - s)) (seqZ 0 256) = true) by reflexivity.
  rewrite forallb_forall in T. specialize (T s). rewrite <- list_elem_of_In, elem_of_seqZ in T.
  destruct (andb_prop _ _ (T ltac:(lia))) as [E1%Z.eqb_eq E2%Z.eqb_eq].
  destruct aa, xx; rewrite ?E1, ?E2, ?Z.land_0_r, ?Z.lxor_0_r; done.
Qed.

Lemma flat_map_lookup (col : Z * Z -> list Z) l j k p :
  (forall p, length (col p) = 4%nat) -> l !! j = Some p -> (k < 4)%nat -> flat_map col l !! (4 * j + k)%nat = col p !! k.
Proof.
  intros Hc. revert j. induction l as [|q l IH]; intros [|j] Hj Hk; simpl flat_map; try done.
  - injection Hj as ->. apply lookup_app_l. rewrite Hc. lia.
  - rewrite lookup_app_r by (rewrite Hc; lia). rewrite Hc. rewrite <- (IH j Hj Hk). f_equal. lia.
Qed.
Lemma pixels_at w h x y : 0 <= x < w -> 0 <= y < h -> pixels w h !! Z.to_nat (y * w + x) = Some (x, y).
Proof.
  intros Hx Hy. destruct (lookup_lt_is_Some_2 (pixels w h) (Z.to_nat (y * w + x))) as [[x' y'] E].
  - pose proof (pixels_length w h). nia.
  - rewrite E. apply pixels_lookup in E as (Hi & Hx' & Hy'); [|lia..]. rewrite Z2Nat.id in Hi by nia.
    destruct (Z.div_mod_unique w y y' x x') as [-> ->]; [lia..|done].
Qed.

Lemma drawn_level (aa xx : bool) k s : (k < 3)%nat -> 0 <= s < 256 ->
  let '(c, cx) := mono_pixel (Z.b2z aa) (Z.b2z xx) in
  exists v a xv, c !! k = Some v /\ c !! 3%nat = Some a /\ cx !! k = Some xv /\ invert xv (over v a s) = masked_level aa xx s.
Proof.
  intros Hk Hs. rewrite masked_level_cases by done.
  destruct aa, xx; simpl; destruct k as [|[|[|k]]]; try lia; do 3 eexists; (split; [reflexivity|]); (split; [reflexivity|]); (split; [reflexivity|]).
  all: unfold invert, over; try lia.
  all: rewrite ?Z.mul_0_l, ?Z.add_0_l, ?Z.sub_0_r, ?Z.mul_0_r, ?Z.div_mul, ?Z.add_0_r, ?(Z.mul_comm 255), ?Z.div_mul by lia; try lia.
  all: try reflexivity.
Qed.

(** A monochrome cursor is seen as its masks say.  For a shape whose rows hold their pixels and whose sizes fit 32 bits, the shape is
    taken, no byte outside the buffers is touched, and each channel of each pixel, drawn with the two planes over any level of the screen, is
    the screen AND the first mask XOR the second, with the bits of a byte taken from the least significant one on. *)
Theorem monochrome_drawn i data s k x y screen :
  mono_shape i data -> (k < 3)%nat -> 0 <= x < si_width i -> 0 <= y < si_height i / 2 -> 0 <= screen < 256 ->
  exists s', update_cursor_shape_monochrome i data s = Some (true, s') /\
    drawn s' k x y screen =
    Some (masked_level (Z.testbit (and_byte i data x y) (x mod 8)) (Z.testbit (xor_byte i data x y) (x mod 8)) screen).
Proof.
  intros Hm Hk Hx Hy Hs. eexists. split; [by apply monochrome_planes|].
  pose proof (pixels_at _ _ x y Hx Hy) as Hp. set (px := pixels _ _) in *.
  unfold drawn. cbn [shape_pitch shape_data shape_xor_data set_shape].
  replace (Z.to_nat (4 * x + y * (4 * si_width i))) with (4 * Z.to_nat (y * si_width i + x))%nat by nia.
  rewrite !(flat_map_lookup _ _ _ _ (x, y)); try done; try lia; try (intros q; apply mono_at_length).
  assert (L : Z.land x 7 = x mod 8) by apply (Z.land_ones x 3 ltac:(lia)).
  unfold mono_at. cbn [fst snd]. rewrite L, !bit_of_testbit by (apply Z.mod_pos_bound; lia).
  pose proof (drawn_level (Z.testbit (and_byte i data x y) (x mod 8)) (Z.testbit (xor_byte i data x y) (x mod 8)) k screen Hk Hs) as D.
  destruct (mono_pixel _ _) as [c cx]. cbn [fst snd]. destruct D as (v & a & xv & -> & -> & -> & E). cbn. by rewrite E.
Qed.

(** The system keeps the leftmost pixel of a byte in its most significant bit; here it is read from the
    least significant one, so that every eight pixels are drawn mirrored: the one black pixel on the left
    of this shape (all others transparent) is drawn as the eighth. *)
Definition dot : shape_info := {| si_type := MONOCHROME; si_width := 8; si_height := 2; si_pitch := 1; si_hot_x := 0; si_hot_y := 0 |}.
Lemma dot_mirrored :
  exists s, update_cursor_shape_monochrome dot [127; 0] CursorState0 = Some (true, s) /\
    map (fun x => drawn s 0 x 0 100) (seqZ 0 8) = map Some [100; 100; 100; 100; 100; 100; 100; 0].
Proof. eexists. split; reflexivity. Qed.

(** ** Masked colour shapes *)

Record color_shape (i : shape_info) (data : list Z) : Prop := {
  cs_width : 0 <= si_width i /\ 4 * si_width i <= si_pitch i;
  cs_height : 0 <= si_height i;
  cs_in : si_pitch i * si_height i < 2 ^ 32;
  cs_data : si_pitch i * si_height i <= Z.of_nat (length data) }.

(** The place of the alpha byte of a pixel. *)
Definition alpha (i : shape_info) (p : Z * Z) : nat := Z.to_nat (4 * p.1 + 3 + p.2 * si_pitch i).

Definition fixed_upto (i : shape_info) (copy : list Z) (v0 v1 : Z) (ds : list (Z * Z)) (l : list Z) : Prop :=
  length l = length copy /\
  (forall j, (forall p, p ∈ ds -> j <> alpha i p) -> l !! j = copy !! j) /\
  (forall p, p ∈ ds -> l !! alpha i p = (fun v => if v =? 0 then v0 else v1) <$> (copy !! alpha i p)).

Lemma fixed_step i copy v0 v1 ds p v l :
  fixed_upto i copy v0 v1 ds l -> copy !! alpha i p = Some v ->
  fixed_upto i copy v0 v1 (ds ++ [p]) (<[alpha i p := if v =? 0 then v0 else v1]> l).
Proof.
  intros (Hl & Ho & Hd) Hv. pose proof (lookup_lt_Some _ _ _ Hv) as Hlt. split; [by rewrite length_insert|]. split.
  - intros j Hj. rewrite list_lookup_insert_ne by (apply not_eq_sym, Hj; set_solver). apply Ho. set_solver.
  - intros q Hq. destruct (decide (alpha i q = alpha i p)) as [E|E].
    + rewrite E, list_lookup_insert_eq by lia. by rewrite Hv.
    + rewrite list_lookup_insert_ne by done. apply Hd. apply elem_of_app in Hq as [Hq|Hq]; [done|]. apply list_elem_of_singleton in Hq. by subst.
Qed.

(** A masked colour shape: a pixel whose mask is 0 is opaque in the first plane and absent from the second, and
    the other way round for any other mask; the colours, and the bytes between the rows, are those of the system. *)
Theorem masked_color_planes i data s :
  color_shape i data ->
  let n := Z.to_nat (si_pitch i * si_height i) in
  exists a x,
    update_cursor_shape_masked_color i data s = Some (true, set_shape i (si_width i) (si_height i) (si_pitch i) a x s) /\
    fixed_upto i (take n data) 255 0 (pixels (si_width i) (si_height i)) a /\
    fixed_upto i (take n data) 0 255 (pixels (si_width i) (si_height i)) x.
Proof.
  intros [[Hw Hp] Hh Hin Hd] n. unfold update_cursor_shape_masked_color. rewrite (u32_small (si_pitch i * si_height i)) by nia.
  destruct (Z.ltb_spec (Z.of_nat (length data)) (si_pitch i * si_height i)); [lia|]. fold n.
  assert (Hn : length (take n data) = n) by (rewrite length_take; lia).
  match goal with |- context [each ?f ?l ?s0] => set (step := f) end.
  destruct (each_inv step (fun ds t => fixed_upto i (take n data) 255 0 ds t.1 /\ fixed_upto i (take n data) 0 255 ds t.2)
     (pixels (si_width i) (si_height i)) (take n data, take n data)) as ([a x] & -> & Ha & Hx).
  - split; (split; [done|split; [done|set_solver]]).
  - intros ds [x y] todo [da dx] El [Ha Hx]. destruct (pixels_split _ _ _ _ _ _ Hw Hh El) as (_ & Hxr & Hyr).
    assert (y * si_pitch i + si_pitch i <= si_pitch i * si_height i) by nia.
    assert (Hal : Z.of_nat (alpha i (x, y)) = 4 * x + 3 + y * si_pitch i) by (unfold alpha; cbn [fst snd]; nia).
    unfold step at 1. rewrite (u32_small (4 * x)), (u32_small (y * _)) by nia. rewrite u32_small by nia. rewrite <- Hal.
    destruct (lookup_lt_is_Some_2 (take n data) (alpha i (x, y))) as [v Hv]; [lia|].
    assert (Hv' : at_ data (Z.of_nat (alpha i (x, y))) = Some v).
    { apply at_Some. split; [lia|]. rewrite Nat2Z.id. by apply lookup_take_Some in Hv as [Hv _]. }
    rewrite Hv'. cbn [mbind option_bind]. cbn [fst snd] in *.
    pose proof (proj1 Ha) as Hla. pose proof (proj1 Hx) as Hlx. rewrite !put_ok by lia. cbn [mbind option_bind]. rewrite Nat2Z.id.
    eexists. split; [reflexivity|]. cbn [fst snd]. by split; apply fixed_step.
  - eauto.
Qed.

(** A pixel of a masked colour shape, by its channels. *)
Corollary masked_color_pixel i data s x y :
  color_shape i data -> 0 <= x < si_width i -> 0 <= y < si_height i ->
  let off := Z.to_nat (4 * x + y * si_pitch i) in
  exists s' m, update_cursor_shape_masked_color i data s = Some (true, s') /\ data !! (off + 3)%nat = Some m /\
    shape_data s' !! (off + 3)%nat = Some (if m =? 0 then 255 else 0) /\
    shape_xor_data s' !! (off + 3)%nat = Some (if m =? 0 then 0 else 255) /\
    forall k, (k < 3)%nat -> shape_data s' !! (off + k)%nat = data !! (off + k)%nat /\ shape_xor_data s' !! (off + k)%nat = data !! (off + k)%nat.
Proof.
  intros Hc Hx Hy off. destruct (masked_color_planes i data s Hc) as (a & b & E & (La & Oa & Fa) & (Lb & Ob & Fb)).
  destruct Hc as [[Hw Hp] Hh Hin Hd]. set (n := Z.to_nat (si_pitch i * si_height i)) in *.
  assert (Hin' : (off + 4 <= n)%nat) by (unfold off, n; nia).
  assert (Hal : alpha i (x, y) = (off + 3)%nat) by (unfold alpha, off; cbn [fst snd]; nia).
  assert (Hpx : (x, y) ∈ pixels (si_width i) (si_height i)) by (apply elem_of_pixels; lia).
  destruct (lookup_lt_is_Some_2 data (off + 3)) as [m Hm]; [lia|]. exists (set_shape i (si_width i) (si_height i) (si_pitch i) a b s), m.
  pose proof (Fa _ Hpx) as Ga. pose proof (Fb _ Hpx) as Gb. rewrite Hal, lookup_take_lt, Hm in Ga, Gb by lia.
  split; [done|]. split; [done|]. split; [done|]. split; [done|]. intros k Hk. cbn [shape_data shape_xor_data set_shape].
  assert (Hk' : forall p, p ∈ pixels (si_width i) (si_height i) -> (off + k)%nat <> alpha i p).
  { intros [x' y'] [Hx' Hy']%elem_of_pixels; [|lia..]. unfold alpha, off; cbn [fst snd]. intros Eo.
    assert (y = y') as <- by nia. nia. }
  rewrite (Oa _ Hk'), (Ob _ Hk'), lookup_take_lt by lia. done.
Qed.

(** There is no check that a row holds its pixels: the alpha byte of the last pixel of the last row is then
    written past the end of the planes. *)
Lemma masked_color_overrun data s : Z.of_nat (length data) = 6 ->
  update_cursor_shape_masked_color {| si_type := MASKED_COLOR; si_width := 2; si_height := 1; si_pitch := 6; si_hot_x := 0; si_hot_y := 0 |} data s = None.
Proof. intros H. destruct data as [|? [|? [|? [|? [|? [|? [|]]]]]]]; simpl in H; try lia. reflexivity. Qed.

(** ** The state that is published *)

(** A shape that is refused is reported as an update all the same, with the state as it was. *)
Lemma refused_shape_reported f i written s buf :
  PointerShapeBufferSize f <> 0 -> si_type i <> OTHER_SHAPE ->
  let buf' := written ++ drop (length written) (grown (PointerShapeBufferSize f) buf) in
  Z.of_nat (length buf') < u32 (si_pitch i * si_height i) ->
  update_cursor_shape f (Some (i, written)) s buf = Some (true, s, buf').
Proof.
  intros Hf Ht buf' Hs. unfold update_cursor_shape. rewrite (proj2 (Z.eqb_neq _ _) Hf). fold buf'.
  unfold update_cursor_shape_monochrome, update_cursor_shape_color, update_cursor_shape_masked_color.
  rewrite (proj2 (Z.ltb_lt _ _) Hs). by destruct (si_type i).
Qed.

Lemma position_unreported f s s' : update_cursor_position f s = (false, s') -> s' = s.
Proof. unfold update_cursor_position. repeat case_match; congruence. Qed.
Lemma shape_unreported f ans s buf s' buf' : update_cursor_shape f ans s buf = Some (false, s', buf') -> s' = s.
Proof.
  unfold update_cursor_shape. repeat case_match; try congruence; destruct (_ : option (bool * CursorState)); simpl; congruence.
Qed.

(** Frames and receivers in any order; [seen] is the last state that a receiver got. *)
Inductive event := Frame (f : frame_info) (answer : option (shape_info * list Z)) | Receive (timeout_ms : Z).
Definition event_step (e : event) (t : duplicator * CursorState) : option (duplicator * CursorState) :=
  match e with
  | Frame f ans => d ← acquire_cursor f ans t.1; Some (d, t.2)
  | Receive ms => let r := receive_cursor ms t.1 in Some (r.2, default t.2 r.1)
  end.
Fixpoint events (l : list event) (t : duplicator * CursorState) : option (duplicator * CursorState) :=
  match l with [] => Some t | e :: l => t ← event_step e t; events l t end.

Definition published (t : duplicator * CursorState) : Prop :=
  m_output_cursor t.1 = m_cursor_state t.1 /\ (m_cursor_updated t.1 = false -> t.2 = m_cursor_state t.1).

Lemma event_published e t t' : event_step e t = Some t' -> published t -> published t'.
Proof.
  destruct t as [d seen]. intros E [Ho Hu]. cbn [fst snd] in *. destruct e as [f ans|ms]; cbn [event_step fst snd] in E.
  - apply bind_Some in E as (d' & E & [= <-]). unfold acquire_cursor in E.
    destruct (update_cursor_position f (m_cursor_state d)) as [moved s1] eqn:E1.
    apply bind_Some in E as ([[shaped s2] buf] & E2 & E). injection E as <-.
    destruct moved; [done|]. destruct shaped; [done|]. apply position_unreported in E1 as ->. apply shape_unreported in E2 as ->. done.
  - injection E as <-. unfold receive_cursor, published. repeat case_match; cbn; auto.
Qed.

(** Whatever frames and requests came before, the state a receiver is given is the current one, and a receiver that
    waits in vain already has the current one. *)
Theorem receiver_up_to_date l t ms :
  events l (duplicator0, CursorState0) = Some t ->
  default t.2 (receive_cursor ms t.1).1 = m_cursor_state t.1.
Proof.
  intros E. assert (P : published t).
  { assert (H0 : published (duplicator0, CursorState0)) by done. revert E H0. generalize (duplicator0, CursorState0).
    induction l as [|e l IH]; simpl; intros t0 E H0; [congruence|].
    apply bind_Some in E as (t1 & E1 & E). eauto using event_published. }
  destruct P as [Ho Hu]. unfold receive_cursor. repeat case_match; cbn; auto.
Qed.

(** The fourth pixel of the upper row of a shape of two rows, which inverts the screen. *)
Lemma monochrome_drawn_witness :
  let i := {| si_type := MONOCHROME; si_width := 8; si_height := 4; si_pitch := 1; si_hot_x := 0; si_hot_y := 0 |} in
  exists s', update_cursor_shape_monochrome i [8; 0; 8; 0] CursorState0 = Some (true, s') /\ drawn s' 1 3 0 100 = Some 155.
Proof.
  apply (monochrome_drawn {| si_type := MONOCHROME; si_width := 8; si_height := 4; si_pitch := 1; si_hot_x := 0; si_hot_y := 0 |}
           [8; 0; 8; 0] CursorState0 1 3 0 100); try (simpl; lia); try (split; reflexivity || discriminate).
  constructor; simpl; repeat split; lia.
Defined.
