(* ===== verification/CaptureFlow.v ===== *)
(** * CaptureFlow: surfaces, packets and statistics of the desktop capture

    Models the parts of [src/sources/streamer/capture] through which a captured picture passes: the
    events that tell when the graphics processor is done with a surface ([event-queue.cpp], with
    [signal_gpu_event] and [wait_gpu_event_cpu] of [dx11-surface.cpp]), the pool that surfaces come from
    and go back to ([dx11-surface-pool.cpp], [frame.cpp]), the queue of encoded packets
    ([av-qsv-encoder.cpp]), the statistics of frames ([telemetry-manager.cpp]), and the start and stop of
    the whole ([dt-capture.cpp]).  What the system answers is an argument of each operation; handles are
    numbers, and 0 is [nullptr]. *)

From Stdlib Require Import ZArith Lia.
From stdpp Require Import base list_numbers sets gmultiset list.
From S2P Require Import Prelude.

(** ** Events *)

Record Event := { event_handle : Z; shared_fence : Z; fence_value : Z; d3d11_fence : Z; d3d12_fence : Z; signalled : bool }.
Definition set_signalled (b : bool) (e : Event) : Event :=
  {| event_handle := event_handle e; shared_fence := shared_fence e; fence_value := fence_value e; d3d11_fence := d3d11_fence e;
     d3d12_fence := d3d12_fence e; signalled := b |}.
Definition set_shared (f : Z) (e : Event) : Event :=
  {| event_handle := event_handle e; shared_fence := f; fence_value := fence_value e; d3d11_fence := d3d11_fence e;
     d3d12_fence := d3d12_fence e; signalled := signalled e |}.
Definition set_fence (f v : Z) (e : Event) : Event :=
  {| event_handle := event_handle e; shared_fence := f; fence_value := v; d3d11_fence := d3d11_fence e;
     d3d12_fence := d3d12_fence e; signalled := signalled e |}.
Definition drop_d3d (e : Event) : Event :=
  {| event_handle := event_handle e; shared_fence := shared_fence e; fence_value := fence_value e; d3d11_fence := 0; d3d12_fence := 0;
     signalled := signalled e |}.
Definition set_d3d11 (f : Z) (e : Event) : Event :=
  {| event_handle := event_handle e; shared_fence := shared_fence e; fence_value := fence_value e; d3d11_fence := f;
     d3d12_fence := d3d12_fence e; signalled := true |}.
Definition new_event (h : Z) : Event :=
  {| event_handle := h; shared_fence := 0; fence_value := 0; d3d11_fence := 0; d3d12_fence := 0; signalled := false |}.

(** [closed] collects the handles that were closed. *)
Record EventQueue := { m_event_queue : list Event; m_free_events : list Event; closed : list Z }.
Definition EventQueue0 : EventQueue := {| m_event_queue := []; m_free_events := []; closed := [] |}.
Definition nz (h : Z) : list Z := if h =? 0 then [] else [h].

Inductive wait_result := WAIT_OBJECT_0 | WAIT_TIMEOUT | WAIT_FAILED.
Definition timed_out (w : wait_result) : bool := match w with WAIT_TIMEOUT => true | _ => false end.

Definition release_event (e : Event) (q : EventQueue) : EventQueue :=
  if signalled e
  then {| m_event_queue := m_event_queue q; m_free_events := m_free_events q ++ [e]; closed := closed q |}
  else {| m_event_queue := m_event_queue q; m_free_events := m_free_events q ++ [drop_d3d (set_shared 0 e)];
          closed := closed q ++ nz (shared_fence e) |}.

Definition pop_front (q : EventQueue) : EventQueue :=
  match m_event_queue q with
  | [] => q
  | e :: l => let q := release_event e q in {| m_event_queue := l; m_free_events := m_free_events q; closed := closed q |}
  end.

(** The loop of [acquire_event]: what is before the iterator, what is at it and after it, and the handles closed.
    Removing an entry leaves the iterator at the next one and the loop then steps over it; past the end
    this is undefined. *)
Fixpoint take_free (fuel : nat) (wait : Z -> wait_result) (pre rest : list Event) (cl : list Z) : option (option Event * list Event * list Z) :=
  match fuel, rest with
  | O, _ => None
  | _, [] => Some (None, pre, cl)
  | S fuel, e :: r =>
      if event_handle e =? 0 then
        match r with
        | [] => None
        | x :: r => take_free fuel wait (pre ++ [x]) r (cl ++ nz (shared_fence e))
        end
      else if signalled e && timed_out (wait (event_handle e)) then take_free fuel wait (pre ++ [e]) r cl
      else Some (Some (set_shared 0 (set_signalled false e)), pre ++ r, cl ++ nz (shared_fence e))
  end.
(** [created] is the handle of [CreateEvent], 0 when it fails; the flag says whether it was called. *)
Definition acquire_event (wait : Z -> wait_result) (created : Z) (q : EventQueue) : option (Event * bool * EventQueue) :=
  '(r, free, cl) ← take_free (S (length (m_free_events q))) wait [] (m_free_events q) [];
  let q := {| m_event_queue := m_event_queue q; m_free_events := free; closed := closed q ++ cl |} in
  Some (match r with Some e => (e, false, q) | None => (new_event created, true, q) end).

Definition push_back (wait : Z -> wait_result) (created fence value : Z) (q : EventQueue) : option (bool * EventQueue) :=
  '(e, fresh, q) ← acquire_event wait created q;
  Some (fresh, {| m_event_queue := m_event_queue q ++ [set_fence fence value e]; m_free_events := m_free_events q; closed := closed q |}).

Fixpoint flush_loop (wait : Z -> wait_result) (l : list Event) (q : EventQueue) : EventQueue :=
  match l with
  | [] => q
  | e :: l =>
      if event_handle e =? 0 then flush_loop wait l (release_event (set_signalled false e) q)
      else if signalled e then
        if timed_out (wait (event_handle e))
        then flush_loop wait l {| m_event_queue := m_event_queue q ++ [e]; m_free_events := m_free_events q; closed := closed q |}
        else flush_loop wait l (release_event (set_signalled false e) q)
      else flush_loop wait l {| m_event_queue := m_event_queue q ++ [e]; m_free_events := m_free_events q; closed := closed q |}
  end.
Definition flush (wait : Z -> wait_result) (q : EventQueue) : EventQueue :=
  flush_loop wait (m_event_queue q) {| m_event_queue := []; m_free_events := m_free_events q; closed := closed q |}.

(** The destructor, and what it closes in all; before it closes an event that is still signalled it waits for it. *)
Definition pop_all (q : EventQueue) : EventQueue := Nat.iter (length (m_event_queue q)) pop_front q.
Definition event_handles (e : Event) : list Z := nz (event_handle e) ++ nz (shared_fence e).
Definition EventQueue_destroy (q : EventQueue) : list Z :=
  let q := pop_all q in closed q ++ flat_map event_handles (m_free_events q).

(** *** Events of a surface *)

Definition set_back (f : Event -> Event) (l : list Event) : list Event :=
  match rev l with [] => [] | e :: r => rev r ++ [f e] end.
(** The event at the back, or one that nothing is known of. *)
Definition back (l : list Event) : Event := default (new_event 0) (last l).

(** [signal_gpu_event] of a Direct3D 11 fence: [dup] is the duplicate of the fence's handle, if any, [set_ok] whether the
    fence takes the event.  The result tells whether it succeeded, and whether an event was created. *)
Definition signal_gpu_event (fence shared : Z) (dup : option Z) (wait : Z -> wait_result) (created value : Z) (set_ok : bool) (q : EventQueue)
  : option (bool * bool * EventQueue) :=
  if (fence =? 0) || (shared =? 0) then Some (false, false, q)
  else match dup with
       | None => Some (false, false, q)
       | Some h =>
           '(fresh, q) ← push_back wait created h value q;
           if event_handle (back (m_event_queue q)) =? 0 then Some (false, fresh, q)
           else if negb set_ok then Some (false, fresh, q)
           else Some (true, fresh, {| m_event_queue := set_back (set_d3d11 fence) (m_event_queue q); m_free_events := m_free_events q; closed := closed q |})
       end.

(** [wait_gpu_event_cpu]: whether all events came within the time; each wait gets what is left of it, which
    is part of what [wait] answers.  A wait that fails counts as one that came. *)
Fixpoint wait_loop (fuel : nat) (wait : Z -> wait_result) (q : EventQueue) : bool * EventQueue :=
  match fuel, m_event_queue q with
  | S fuel, e :: l =>
      if event_handle e =? 0 then wait_loop fuel wait (pop_front q)
      else if timed_out (wait (event_handle e)) then (false, q)
      else wait_loop fuel wait (pop_front {| m_event_queue := set_signalled false e :: l; m_free_events := m_free_events q; closed := closed q |})
  | _, _ => (true, q)
  end.
Definition wait_gpu_event_cpu (wait : Z -> wait_result) (q : EventQueue) : bool * EventQueue := wait_loop (length (m_event_queue q)) wait q.

(** ** Surfaces *)

Record texture_desc := {
  td_Width : Z; td_Height : Z; td_MipLevels : Z; td_ArraySize : Z; td_Format : Z; td_SampleCount : Z; td_SampleQuality : Z; td_Usage : Z;
  td_BindFlags : Z; td_CPUAccessFlags : Z; td_MiscFlags : Z }.
Definition desc_differs (l r : texture_desc) : bool :=
  negb (td_Width l =? td_Width r) || negb (td_Height l =? td_Height r) || negb (td_MipLevels l =? td_MipLevels r)
  || negb (td_ArraySize l =? td_ArraySize r) || negb (td_Format l =? td_Format r) || negb (td_SampleCount l =? td_SampleCount r)
  || negb (td_SampleQuality l =? td_SampleQuality r) || negb (td_Usage l =? td_Usage r) || negb (td_BindFlags l =? td_BindFlags r)
  || negb (td_CPUAccessFlags l =? td_CPUAccessFlags r) || negb (td_MiscFlags l =? td_MiscFlags r).

(** A surface: which one, whether it is a [DX11Surface], its device and description, the events on it. *)
Record surface := { sf_id : Z; sf_dx11 : bool; sf_device : Z; sf_desc : texture_desc; sf_events : EventQueue }.
Definition set_events (q : EventQueue) (s : surface) : surface :=
  {| sf_id := sf_id s; sf_dx11 := sf_dx11 s; sf_device := sf_device s; sf_desc := sf_desc s; sf_events := q |}.
Record SurfacePool := { m_device : Z; m_texture_desc : texture_desc; m_free_list : list surface }.

(** [wait] answers for every handle; [create] makes a new surface.  The list never has a missing surface, since [release]
    does not put one in. *)
Fixpoint acquire_loop (wait : Z -> wait_result) (l : list surface) : option surface * list surface :=
  match l with
  | [] => (None, [])
  | s :: l =>
      let '(came, q) := wait_gpu_event_cpu wait (sf_events s) in
      if came then (Some (set_events q s), l)
      else let '(r, l) := acquire_loop wait l in (r, set_events q s :: l)
  end.
Definition acquire (wait : Z -> wait_result) (create : Z -> texture_desc -> option surface) (p : SurfacePool) : option surface * SurfacePool :=
  let '(r, l) := acquire_loop wait (m_free_list p) in
  let p := {| m_device := m_device p; m_texture_desc := m_texture_desc p; m_free_list := l |} in
  (match r with Some s => Some s | None => create (m_device p) (m_texture_desc p) end, p).

(** The second result is the surface that is destroyed. *)
Definition release (so : option surface) (p : SurfacePool) : SurfacePool * option surface :=
  match so with
  | None => (p, None)
  | Some s =>
      if negb (sf_dx11 s) then (p, Some s)
      else if negb (m_device p =? sf_device s) then (p, Some s)
      else if desc_differs (m_texture_desc p) (sf_desc s) then (p, Some s)
      else ({| m_device := m_device p; m_texture_desc := m_texture_desc p; m_free_list := m_free_list p ++ [s] |}, None)
  end.

(** [Frame::create] and the destructor of a frame, whose pool may be gone. *)
Definition Frame_create (so : option surface) : option surface := so.
Definition Frame_destroy (s : surface) (pool : option SurfacePool) : option SurfacePool * option surface :=
  match pool with
  | Some p => let '(p, d) := release (Some s) p in (Some p, d)
  | None => (None, Some s)
  end.

(** ** Packets *)

Record FrameTimingInfo := { capture_start_ts : Z; capture_end_ts : Z; encode_start_ts : Z; encode_end_ts : Z; presentation_ts : Z }.
Definition set_encode (a b : Z) (t : FrameTimingInfo) : FrameTimingInfo :=
  {| capture_start_ts := capture_start_ts t; capture_end_ts := capture_end_ts t; encode_start_ts := a; encode_end_ts := b;
     presentation_ts := presentation_ts t |}.
Record Packet := { pk_data : list Z; pk_flags : Z; pk_timing : FrameTimingInfo }.
Definition flag_keyframe : Z := 1.
Definition AV_PKT_FLAG_KEY : Z := 1.

Definition m_packet_queue_max_size : Z := 4.
Record av_encoder := { m_packet_queue : list Packet; m_insert_key_frame : bool }.
Definition av_encoder0 : av_encoder := {| m_packet_queue := []; m_insert_key_frame := false |}.

(** What the codec does with a frame: whether it takes it, and then the packets it has (data, flags and the time at
    which each is had), and whether it ends with [EAGAIN]. *)
Record codec_answer := { ca_taken : bool; ca_packets : list (list Z * Z * Z); ca_again : bool }.

Fixpoint receive_loop (l : list (list Z * Z * Z)) (t : FrameTimingInfo) (e : av_encoder) : FrameTimingInfo * av_encoder :=
  match l with
  | [] => (t, e)
  | (data, flags, now) :: l =>
      if m_packet_queue_max_size <? Z.of_nat (length (m_packet_queue e))
      then receive_loop l t {| m_packet_queue := m_packet_queue e; m_insert_key_frame := true |}
      else
        let t := set_encode (encode_start_ts t) now t in
        let p := {| pk_data := data; pk_flags := if Z.land flags AV_PKT_FLAG_KEY =? 0 then 0 else flag_keyframe; pk_timing := t |} in
        receive_loop l t {| m_packet_queue := m_packet_queue e ++ [p]; m_insert_key_frame := m_insert_key_frame e |}
  end.

(** The end of [encode_frame], once the picture is in the encoder's surface: [codec] is given whether a key frame is asked for and
    the time stamp (clock ticks of 100 ns to 1/90000 s).  Whether it succeeded. *)
Definition submit_frame (codec : bool -> Z -> codec_answer) (start end_ : Z) (t : FrameTimingInfo) (e : av_encoder)
  : bool * FrameTimingInfo * av_encoder :=
  let key := m_insert_key_frame e in
  let e := {| m_packet_queue := m_packet_queue e; m_insert_key_frame := false |} in
  let t := set_encode start end_ t in
  let a := codec key (Z.quot (presentation_ts t * 9) 1000) in
  if negb (ca_taken a) then (false, t, e)
  else let '(t, e) := receive_loop (ca_packets a) t e in (ca_again a, t, e).

(** [receive_packet] at the end of its wait. *)
Definition receive_packet (e : av_encoder) : option Packet * av_encoder :=
  match m_packet_queue e with
  | [] => (None, e)
  | p :: l => (Some p, {| m_packet_queue := l; m_insert_key_frame := m_insert_key_frame e |})
  end.
Definition request_key_frame (e : av_encoder) : av_encoder := {| m_packet_queue := m_packet_queue e; m_insert_key_frame := true |}.

(** ** Statistics *)

Definition m_max_frames : Z := 100.
Record FrameStatistics := { fs_timing : FrameTimingInfo; frame_size : Z; frame_num : Z; key_frame : Z }.
Record telemetry := { m_frame_count : Z; m_stats_queue : list FrameStatistics; m_frame_rows : option (list (list Z)) }.

(** Microseconds of clock ticks. *)
Definition us (t : Z) : Z := Z.quot t 10.
(** A division of a signed number by a [size_t], back to a signed one. *)
Definition div_size (a : Z) (n : nat) : Z := wraps 64 (u64 a / Z.of_nat n).

Record averages := { av_capture_interval : Z; av_encode_interval : Z; av_capture_time : Z; av_encode_time : Z; av_bitrate : Z }.
Definition averages_of (q : list FrameStatistics) (s : FrameStatistics) : averages :=
  match q, last q with
  | oldest :: _, Some prev =>
      let total := us (encode_end_ts (fs_timing s)) - us (encode_end_ts (fs_timing oldest)) in
      let bytes := frame_size s + foldl (fun a f => a + frame_size f) 0 q - frame_size oldest in
      let rate := if total =? 0 then 0 else Z.quot (bytes * 1000000) total in
      {| av_capture_interval := us (capture_start_ts (fs_timing s)) - us (capture_start_ts (fs_timing prev));
         av_encode_interval := us (encode_end_ts (fs_timing s)) - us (encode_end_ts (fs_timing prev));
         av_capture_time := div_size (us (capture_start_ts (fs_timing s)) - us (capture_start_ts (fs_timing oldest))) (length q);
         av_encode_time := div_size total (length q);
         av_bitrate := Z.quot (rate * 8 + 999) 1000 |}
  | _, _ => {| av_capture_interval := 0; av_encode_interval := 0; av_capture_time := 0; av_encode_time := 0; av_bitrate := 0 |}
  end.

(** A row of the file; in the place of the two rates, which are printed as a million divided by them (0 for 0), the
    average times. *)
Definition frame_row (q : list FrameStatistics) (s : FrameStatistics) : list Z :=
  let t := fs_timing s in
  let a := averages_of q s in
  [frame_num s; frame_size s; key_frame s;
   us (capture_start_ts t); us (capture_end_ts t); us (encode_start_ts t); us (encode_end_ts t); us (presentation_ts t);
   us (capture_end_ts t) - us (capture_start_ts t); av_capture_interval a;
   us (encode_end_ts t) - us (encode_start_ts t); av_encode_interval a;
   us (encode_end_ts t) - us (capture_start_ts t);
   av_capture_time a; av_encode_time a; av_bitrate a].

Definition stats_of (n : Z) (p : Packet) : FrameStatistics :=
  {| fs_timing := pk_timing p; frame_size := u32 (Z.of_nat (length (pk_data p))); frame_num := u32 n;
     key_frame := if Z.land (pk_flags p) flag_keyframe =? 0 then 0 else 1 |}.
Definition update_frame_statistics (p : Packet) (t : telemetry) : telemetry :=
  let s := stats_of (m_frame_count t) p in
  {| m_frame_count := m_frame_count t + 1;
     m_stats_queue := (if m_max_frames <=? Z.of_nat (length (m_stats_queue t)) then drop 1 (m_stats_queue t) else m_stats_queue t) ++ [s];
     m_frame_rows := (fun rows => rows ++ [frame_row (m_stats_queue t) s]) <$> m_frame_rows t |}.
Definition frame_statistics (t : telemetry) : option FrameStatistics := last (m_stats_queue t).

(** ** Start and stop *)

(** The parts that are there, and those whose threads run.  [m_threads]: the two threads of the capture itself. *)
Record DTCapture := { m_encoder : bool; dup_runs : bool; vp_runs : bool; cur_runs : bool; m_threads : bool; m_keep_alive : bool }.

(** [create]: the answers of the parts, in the order in which they are made; the check after the encoder looks at the video
    processor. *)
Record create_answers := {
  a_duplicator : bool; a_display_adapter : bool; a_display_desc : bool; a_vendor_intel : bool; a_intel_adapter : bool; a_encode_desc : bool;
  a_processor : bool; a_registered : bool; a_encoder : bool; a_cursor : bool }.
Definition DTCapture_create (a : create_answers) : option DTCapture :=
  if negb (a_duplicator a) then None
  else if negb (a_display_adapter a) then None
  else if negb (a_display_desc a) then None
  else if negb (a_vendor_intel a) && negb (a_intel_adapter a) then None
  else if negb (a_encode_desc a) then None
  else if negb (a_processor a) then None
  else if negb (a_registered a) then None
  else if negb (a_processor a) then None
  else if negb (a_cursor a) then None
  else Some {| m_encoder := a_encoder a; dup_runs := false; vp_runs := false; cur_runs := false; m_threads := false; m_keep_alive := false |}.

(** The [start]s of the parts: a thread assigned over one that can be joined ends the program.  The encoder's does nothing; the
    providers were registered by [create]. *)
Definition duplicator_start (c : DTCapture) : option DTCapture :=
  if dup_runs c then None
  else Some {| m_encoder := m_encoder c; dup_runs := true; vp_runs := vp_runs c; cur_runs := cur_runs c; m_threads := m_threads c; m_keep_alive := m_keep_alive c |}.
Definition processor_start (c : DTCapture) : option DTCapture :=
  if vp_runs c then None
  else Some {| m_encoder := m_encoder c; dup_runs := dup_runs c; vp_runs := true; cur_runs := cur_runs c; m_threads := m_threads c; m_keep_alive := m_keep_alive c |}.
Definition cursor_start (c : DTCapture) : DTCapture :=
  {| m_encoder := m_encoder c; dup_runs := dup_runs c; vp_runs := vp_runs c; cur_runs := true; m_threads := m_threads c; m_keep_alive := m_keep_alive c |}.
Definition DTCapture_start (c : DTCapture) : option (bool * DTCapture) :=
  if negb (m_encoder c) then Some (false, c)
  else
    c ← duplicator_start c;
    c ← processor_start c;
    let c := cursor_start c in
    if m_threads c then None
    else Some (true, {| m_encoder := m_encoder c; dup_runs := dup_runs c; vp_runs := vp_runs c; cur_runs := cur_runs c; m_threads := true; m_keep_alive := true |}).

Definition DTCapture_stop (c : DTCapture) : DTCapture :=
  {| m_encoder := m_encoder c; dup_runs := false; vp_runs := false; cur_runs := false; m_threads := false; m_keep_alive := false |}.

(** ** Handles are closed exactly once *)

Definition ms (l : list Z) : gmultiset Z := list_to_set_disj l.
Lemma elements_ms l : elements (ms l) ≡ₚ l.
Proof.
  induction l as [|x l IH]; [done|]. unfold ms in *. simpl. rewrite gmultiset_elements_disj_union, IH, gmultiset_elements_singleton. done.
Qed.
Lemma perm_ms (l k : list Z) : l ≡ₚ k <-> ms l = ms k.
Proof. split; [by unfold ms; intros ->|]. intros E. by rewrite <- (elements_ms l), E, elements_ms. Qed.
Lemma ms_app l k : ms (l ++ k) = ms l ⊎ ms k.
Proof. apply list_to_set_disj_app. Qed.
Lemma ms_cons x l : ms (x :: l) = {[+ x +]} ⊎ ms l.
Proof. done. Qed.
(** Permutations of lists put together from the same lists. *)
Ltac perm :=
  rewrite ?perm_ms in *; rewrite ?ms_app, ?ms_cons in *;
  try change (ms []) with (∅ : gmultiset Z) in *; multiset_solver.

(** All handles a queue has closed or still has. *)
Definition held (q : EventQueue) : list Z := flat_map event_handles (m_event_queue q ++ m_free_events q).
Definition total (q : EventQueue) : list Z := closed q ++ held q.

Lemma total_parts q : total q = closed q ++ flat_map event_handles (m_event_queue q) ++ flat_map event_handles (m_free_events q).
Proof. unfold total, held. by rewrite flat_map_app. Qed.
Lemma release_total e q : total (release_event e q) ≡ₚ event_handles e ++ total q.
Proof.
  rewrite !total_parts. unfold release_event. destruct (signalled e); simpl; rewrite flat_map_app; simpl; [perm|].
  change (event_handles (drop_d3d (set_shared 0 e))) with (nz (event_handle e) ++ []). change (event_handles e) with (nz (event_handle e) ++ nz (shared_fence e)). perm.
Qed.

Lemma pop_front_total q : total (pop_front q) ≡ₚ total q.
Proof.
  unfold pop_front. destruct (m_event_queue q) as [|e l] eqn:E; [done|].
  pose proof (release_total e q) as R. rewrite !total_parts in *. simpl in *.
  replace (m_event_queue (release_event e q)) with (m_event_queue q) in R by (unfold release_event; by destruct (signalled e)).
  rewrite E in *. simpl in *. perm.
Qed.

Lemma take_free_total fuel wait pre rest cl r free cl' :
  take_free fuel wait pre rest cl = Some (r, free, cl') ->
  cl' ++ (match r with Some e => event_handles e | None => [] end) ++ flat_map event_handles free ≡ₚ cl ++ flat_map event_handles (pre ++ rest) /\
  (forall e, r = Some e -> shared_fence e = 0).
Proof.
  revert pre rest cl. induction fuel as [|fuel IH]; intros pre rest cl E; [done|]. destruct rest as [|e rest]; simpl in E.
  { injection E as <- <- <-. by rewrite app_nil_r. }
  destruct (event_handle e =? 0) eqn:E0.
  - destruct rest as [|x rest]; [done|]. apply IH in E as [E ?]. split; [|done]. rewrite E. rewrite !flat_map_app. simpl.
    change (event_handles e) with (nz (event_handle e) ++ nz (shared_fence e)). unfold nz at 2. rewrite E0. simpl. perm.
  - destruct (signalled e && timed_out (wait (event_handle e))).
    + apply IH in E as [E ?]. split; [|done]. rewrite E. by rewrite <- app_assoc.
    + injection E as <- <- <-. split; [|by intros ? [= <-]]. rewrite !flat_map_app. simpl.
      change (event_handles (set_shared 0 (set_signalled false e))) with (nz (event_handle e) ++ []).
      change (event_handles e) with (nz (event_handle e) ++ nz (shared_fence e)). perm.
Qed.

Lemma push_back_total wait created fence value q fresh q' :
  push_back wait created fence value q = Some (fresh, q') ->
  total q' ≡ₚ (if fresh then nz created else []) ++ nz fence ++ total q.
Proof.
  unfold push_back, acquire_event. intros E. apply bind_Some in E as ([[e fr] q1] & E & [= <- <-]).
  apply bind_Some in E as ([[r free] cl] & E & E2). apply take_free_total in E as [E Hr]. simpl in E.
  destruct r as [e0|]; injection E2 as <- <- <-; rewrite !total_parts; simpl; rewrite flat_map_app; simpl.
  - change (event_handles (set_fence fence value e0)) with (nz (event_handle e0) ++ nz fence).
    assert (Hn : nz (shared_fence e0) = []) by (by rewrite (Hr e0 eq_refl)).
    change (event_handles e0) with (nz (event_handle e0) ++ nz (shared_fence e0)) in E. rewrite Hn in E. perm.
  - change (event_handles (set_fence fence value (new_event created))) with (nz created ++ nz fence). perm.
Qed.

Lemma flush_loop_total wait l q : total (flush_loop wait l q) ≡ₚ flat_map event_handles l ++ total q.
Proof.
  revert q. induction l as [|e l IH]; intros q; simpl; [done|].
  assert (R : total (release_event (set_signalled false e) q) ≡ₚ event_handles e ++ total q) by exact (release_total (set_signalled false e) q).
  repeat case_match; rewrite IH; try (rewrite R; perm).
  all: rewrite !total_parts; simpl; rewrite flat_map_app; simpl; perm.
Qed.
Lemma flush_total wait q : total (flush wait q) ≡ₚ total q.
Proof. unfold flush. rewrite flush_loop_total, !total_parts. simpl. perm. Qed.

Lemma wait_loop_total fuel wait q : total (wait_loop fuel wait q).2 ≡ₚ total q.
Proof.
  revert q. induction fuel as [|fuel IH]; intros q; simpl; [done|]. destruct (m_event_queue q) as [|e l] eqn:E; [done|].
  repeat case_match; try done; rewrite IH, pop_front_total; [done|]. rewrite !total_parts, E. done.
Qed.

Lemma signal_total fence shared dup wait created value ok q r fresh q' :
  signal_gpu_event fence shared dup wait created value ok q = Some (r, fresh, q') ->
  total q' ≡ₚ (if fresh then nz created else []) ++ (if (fence =? 0) || (shared =? 0) then [] else from_option nz [] dup) ++ total q.
Proof.
  unfold signal_gpu_event. destruct ((fence =? 0) || (shared =? 0)); [by intros [= <- <- <-]|].
  destruct dup as [h|]; [|by intros [= <- <- <-]]. intros E. apply bind_Some in E as ([fr q1] & E1 & E). apply push_back_total in E1.
  destruct (_ =? 0); [by injection E as <- <- <-|]. destruct ok; [|by injection E as <- <- <-]. injection E as <- <- <-.
  simpl in E1 |- *. rewrite <- E1, !total_parts. simpl. unfold set_back. destruct (rev (m_event_queue q1)) as [|e k] eqn:El; simpl.
  - apply (f_equal (@rev Event)) in El. rewrite rev_involutive in El. by rewrite El.
  - apply (f_equal (@rev Event)) in El. rewrite rev_involutive in El. rewrite El. simpl. by rewrite !flat_map_app.
Qed.

Lemma pop_all_empty q : m_event_queue (pop_all q) = [].
Proof.
  unfold pop_all. remember (length (m_event_queue q)) as n eqn:Hn. revert q Hn. induction n as [|n IH]; intros q Hn.
  - destruct (m_event_queue q) eqn:E; [simpl; done|done].
  - rewrite Nat.iter_succ_r. apply IH. unfold pop_front. destruct (m_event_queue q); simpl in *; [done|lia].
Qed.
Lemma destroy_total q : EventQueue_destroy q ≡ₚ total q.
Proof.
  unfold EventQueue_destroy. assert (T : forall n, total (Nat.iter n pop_front q) ≡ₚ total q).
  { induction n as [|n IH]; [done|]. simpl. by rewrite pop_front_total. }
  pose proof (T (length (m_event_queue q))) as R. fold (pop_all q) in R. rewrite total_parts, pop_all_empty in R. done.
Qed.

(** What is done with the events of a surface. *)
Inductive event_op :=
| Signal (fence shared : Z) (dup : option Z) (wait : Z -> wait_result) (created value : Z) (set_ok : bool)
| Flush (wait : Z -> wait_result)
| WaitCpu (wait : Z -> wait_result).
(** The handles the surface is given: a new event, the duplicate of a fence. *)
Definition op_step (o : event_op) (q : EventQueue) : option (list Z * EventQueue) :=
  match o with
  | Signal fence shared dup wait created value ok =>
      '(_, fresh, q) ← signal_gpu_event fence shared dup wait created value ok q;
      Some ((if fresh : bool then nz created else []) ++ (if (fence =? 0) || (shared =? 0) then [] else from_option nz [] dup), q)
  | Flush wait => Some ([], flush wait q)
  | WaitCpu wait => Some ([], (wait_gpu_event_cpu wait q).2)
  end.
Fixpoint event_ops (l : list event_op) (q : EventQueue) : option (list Z * EventQueue) :=
  match l with
  | [] => Some ([], q)
  | o :: l => '(g, q) ← op_step o q; '(g', q) ← event_ops l q; Some (g ++ g', q)
  end.

Lemma op_total o q g q' : op_step o q = Some (g, q') -> total q' ≡ₚ g ++ total q.
Proof.
  destruct o; simpl; intros E.
  - apply bind_Some in E as ([[r fresh] q1] & E1 & [= <- <-]). rewrite (signal_total _ _ _ _ _ _ _ _ _ _ _ E1), <- app_assoc. done.
  - injection E as <- <-. apply flush_total.
  - injection E as <- <-. apply wait_loop_total.
Qed.
Lemma ops_total l q g q' : event_ops l q = Some (g, q') -> total q' ≡ₚ g ++ total q.
Proof.
  revert q g. induction l as [|o l IH]; simpl; intros q g E; [by injection E as <- <-|].
  apply bind_Some in E as ([g1 q1] & E1 & E). apply bind_Some in E as ([g2 q2] & E2 & [= <- <-]).
  apply op_total in E1. apply IH in E2. rewrite E2, E1. perm.
Qed.

(** *** Where every event could be created, nothing is undefined *)

Definition has_handle (e : Event) : Prop := event_handle e <> 0.
Definition all_handles (q : EventQueue) : Prop := Forall has_handle (m_event_queue q) /\ Forall has_handle (m_free_events q).
Definition created_ok (o : event_op) : Prop := match o with Signal _ _ _ _ created _ _ => created <> 0 | _ => True end.

Lemma take_free_ok fuel wait pre rest cl :
  (length rest < fuel)%nat -> Forall has_handle pre -> Forall has_handle rest ->
  exists r free cl', take_free fuel wait pre rest cl = Some (r, free, cl') /\ Forall has_handle free /\ (forall e, r = Some e -> has_handle e).
Proof.
  revert pre rest cl. induction fuel as [|fuel IH]; intros pre rest cl Hf Hp Hr; [lia|]. destruct rest as [|e rest]; simpl.
  { eexists _, _, _. split; [done|]. by split. }
  inversion_clear Hr as [|? ? He Hr']. rewrite (proj2 (Z.eqb_neq _ _) He). simpl in Hf. case_match.
  - apply IH; [lia|by apply Forall_app_2; [|constructor]|done].
  - eexists _, _, _. split; [done|]. split; [by apply Forall_app_2|]. by intros ? [= <-].
Qed.

Lemma release_handles e q : has_handle e -> all_handles q -> all_handles (release_event e q).
Proof. intros He [H1 H2]. unfold release_event. destruct (signalled e); (split; [done|]); apply Forall_app_2; auto. Qed.
Lemma pop_front_handles q : all_handles q -> all_handles (pop_front q).
Proof.
  intros [H1 H2]. unfold pop_front. destruct (m_event_queue q) as [|e l] eqn:E; [split; [by rewrite E|done]|]. inversion_clear H1.
  destruct (release_handles e q) as [_ R]; [done|by split; [rewrite E; constructor|]|]. by split.
Qed.
Lemma push_back_handles wait created fence value q : created <> 0 -> all_handles q ->
  exists fresh q', push_back wait created fence value q = Some (fresh, q') /\ all_handles q'.
Proof.
  intros Hc [H1 H2]. unfold push_back, acquire_event.
  destruct (take_free_ok (S (length (m_free_events q))) wait [] (m_free_events q) []) as (r & free & cl & -> & Hf & Hr); [lia|done..|].
  simpl. destruct r as [e|]; (do 2 eexists; split; [reflexivity|]); (split; [|done]); (apply Forall_app_2; [done|]); constructor; try done.
  by apply (Hr e).
Qed.
Lemma flush_loop_handles wait l q : Forall has_handle l -> all_handles q -> all_handles (flush_loop wait l q).
Proof.
  intros Hl. revert q. induction Hl as [|e l He Hl IH]; intros q Hq; simpl; [done|].
  destruct Hq as [H1 H2]. repeat case_match; apply IH; try (by apply release_handles).
  all: split; [apply Forall_app_2; auto|done].
Qed.
Lemma wait_loop_handles fuel wait q : all_handles q -> all_handles (wait_loop fuel wait q).2.
Proof.
  revert q. induction fuel as [|fuel IH]; intros q Hq; simpl; [done|]. destruct (m_event_queue q) as [|e l] eqn:E; [done|].
  repeat case_match; try done; apply IH, pop_front_handles; [done|]. destruct Hq as [H1 H2]. rewrite E in H1. inversion_clear H1.
  split; [by constructor|done].
Qed.
Lemma op_handles o q : created_ok o -> all_handles q -> exists g q', op_step o q = Some (g, q') /\ all_handles q'.
Proof.
  destruct o; simpl; intros Hc Hq.
  - unfold signal_gpu_event. destruct (_ || _); [eauto|]. destruct dup as [h|]; [|eauto].
    destruct (push_back_handles wait created h value q Hc Hq) as (fr & q1 & -> & Hq1). simpl.
    repeat case_match; simpl; eauto. do 2 eexists. split; [done|]. destruct Hq1 as [H1 H2]. split; [|done]. simpl. unfold set_back.
    destruct (rev (m_event_queue q1)) as [|e k] eqn:El; [done|]. apply (f_equal (@rev Event)) in El. rewrite rev_involutive in El.
    rewrite El in H1. simpl in H1. apply Forall_app in H1 as [? H1]. apply Forall_app_2; [done|]. inversion_clear H1. by constructor.
  - do 2 eexists. split; [done|]. destruct Hq as [H1 H2]. by apply flush_loop_handles.
  - do 2 eexists. split; [done|]. by apply wait_loop_handles.
Qed.

(** Events and fences of a surface, from its creation to its end: whatever is signalled, waited for or flushed, in any order and
    with any answers of the system as long as events can be created, every operation is defined, and in the end every
    handle that the surface was given has been closed, each exactly once. *)
Theorem handles_closed_once l :
  Forall created_ok l ->
  exists given q, event_ops l EventQueue0 = Some (given, q) /\ EventQueue_destroy q ≡ₚ given.
Proof.
  intros Hl. assert (D : forall q, all_handles q -> exists g q', event_ops l q = Some (g, q')).
  { induction Hl as [|o l Ho Hl IH]; simpl; [eauto|]. intros q Hq. destruct (op_handles o q Ho Hq) as (g & q1 & -> & Hq1). simpl.
    destruct (IH q1 Hq1) as (g' & q2 & ->). simpl. eauto. }
  destruct (D EventQueue0) as (g & q & E); [by split; constructor|]. exists g, q. split; [done|].
  apply ops_total in E. rewrite destroy_total, E. simpl. by rewrite app_nil_r.
Qed.

(** Where an event could not be created it is queued all the same, and once it is given back the next request for an event
    steps past the end of the list. *)
Definition never (h : Z) : wait_result := WAIT_TIMEOUT.
Definition at_once (h : Z) : wait_result := WAIT_OBJECT_0.
Lemma missing_event_undefined :
  event_ops [Signal 1 1 (Some 5) at_once 0 1 true; WaitCpu at_once; Signal 1 1 (Some 6) at_once 7 2 true] EventQueue0 = None.
Proof. reflexivity. Qed.

(** An event that the fence did not take stays at the front of the queue, where it is waited for in vain. *)
Lemma refused_event_stays :
  exists g q, event_ops [Signal 1 1 (Some 5) at_once 7 1 false; Flush never] EventQueue0 = Some (g, q) /\
    wait_gpu_event_cpu (fun h => if h =? 7 then WAIT_TIMEOUT else WAIT_OBJECT_0) q = (false, q).
Proof. do 2 eexists. split; reflexivity. Qed.

(** ** The pool *)

Lemma wait_loop_done fuel wait q : (length (m_event_queue q) <= fuel)%nat ->
  (wait_loop fuel wait q).1 = true -> m_event_queue (wait_loop fuel wait q).2 = [].
Proof.
  revert q. induction fuel as [|fuel IH]; intros q Hf; simpl.
  { destruct (m_event_queue q) eqn:E; [done|simpl in Hf; lia]. }
  destruct (m_event_queue q) as [|e l] eqn:E; [done|]. simpl in Hf. repeat case_match; try done; apply IH.
  all: unfold pop_front; simpl; rewrite ?E; simpl; lia.
Qed.

(** A surface taken from the pool has nothing pending; those before it have, and they stay, in order. *)
Lemma acquire_loop_spec wait l s l' :
  acquire_loop wait l = (Some s, l') ->
  exists pre s0 post, l = pre ++ s0 :: post /\ map sf_id l' = map sf_id (pre ++ post) /\
    s = set_events (wait_gpu_event_cpu wait (sf_events s0)).2 s0 /\ m_event_queue (sf_events s) = [] /\
    Forall (fun s => (wait_gpu_event_cpu wait (sf_events s)).1 = false) pre.
Proof.
  revert s l'. induction l as [|t l IH]; intros s l' E; simpl in E; [done|].
  destruct (wait_gpu_event_cpu wait (sf_events t)) as [came q] eqn:Ew. destruct came.
  - injection E as <- <-. exists [], t, l. rewrite Ew. split_and!; try done. simpl.
    pose proof (wait_loop_done (length (m_event_queue (sf_events t))) wait (sf_events t)) as D. unfold wait_gpu_event_cpu in Ew.
    rewrite Ew in D. by apply D.
  - destruct (acquire_loop wait l) as [r k] eqn:El. injection E as -> <-.
    destruct (IH _ _ eq_refl) as (pre & s0 & post & -> & Hm & Hs & Hq & Hp). exists (t :: pre), s0, post. split_and!; try done.
    + simpl. by rewrite Hm.
    + constructor; [by rewrite Ew|done].
Qed.
Lemma acquire_loop_ids wait l r l' : acquire_loop wait l = (r, l') -> from_option (fun s => [sf_id s]) [] r ++ map sf_id l' ≡ₚ map sf_id l.
Proof.
  revert r l'. induction l as [|t l IH]; intros r l' E; simpl in E; [by injection E as <- <-|].
  destruct (wait_gpu_event_cpu wait (sf_events t)) as [[] q]; [by injection E as <- <-|].
  destruct (acquire_loop wait l) as [r1 k] eqn:El. injection E as <- <-. simpl. rewrite <- (IH _ _ eq_refl). destruct r1; simpl; [apply perm_swap|done].
Qed.

Definition fits (p : SurfacePool) (s : surface) : Prop := sf_dx11 s = true /\ sf_device s = m_device p /\ sf_desc s = m_texture_desc p.
Lemma desc_same l r : desc_differs l r = false <-> l = r.
Proof.
  unfold desc_differs. rewrite !orb_false_iff, !negb_false_iff, !Z.eqb_eq. destruct l, r; simpl. split; [intros; f_equal; tauto|by intros [= -> -> -> -> -> -> -> -> -> -> ->]].
Qed.
Lemma release_kept s p : (release (Some s) p).2 = None <-> fits p s.
Proof.
  unfold release, fits. destruct (sf_dx11 s); simpl; [|by split; [|intros (? & _)]].
  destruct (Z.eqb_spec (m_device p) (sf_device s)) as [->|N]; simpl; [|split; [done|intros (_ & E & _); congruence]].
  pose proof (desc_same (m_texture_desc p) (sf_desc s)) as D. destruct (desc_differs _ _); simpl.
  - split; [done|]. intros (_ & _ & E). symmetry in E. by apply D in E.
  - split; [|done]. intros _. rewrite (proj1 D eq_refl). done.
Qed.

(** The pool and its users: a surface is taken (where none is free, one with the identity [id] is made, if the
    system makes it), or the [j]-th surface in use is given back, with whatever events are on it by then. *)
Inductive pool_op := Take (wait : Z -> wait_result) (id : option Z) | Give (j : nat) (q : EventQueue).
Definition make (id : option Z) (dev : Z) (d : texture_desc) : option surface :=
  (fun i => {| sf_id := i; sf_dx11 := true; sf_device := dev; sf_desc := d; sf_events := EventQueue0 |}) <$> id.
(** The pool, the surfaces in use, those destroyed, and the identities of those made. *)
Record pool_state := { ps_pool : SurfacePool; ps_used : list surface; ps_gone : list surface; ps_made : list Z }.
Definition pool_step (o : pool_op) (t : pool_state) : pool_state :=
  match o with
  | Take wait id =>
      let '(r, p) := acquire wait (make id) (ps_pool t) in
      let made := match (acquire_loop wait (m_free_list (ps_pool t))).1, id with None, Some i => [i] | _, _ => [] end in
      {| ps_pool := p; ps_used := ps_used t ++ option_list r; ps_gone := ps_gone t; ps_made := ps_made t ++ made |}
  | Give j q =>
      match ps_used t !! j with
      | None => t
      | Some s =>
          let '(p, d) := release (Some (set_events q s)) (ps_pool t) in
          {| ps_pool := p; ps_used := delete j (ps_used t); ps_gone := ps_gone t ++ option_list d; ps_made := ps_made t |}
      end
  end.
Definition pool_run (l : list pool_op) (p : SurfacePool) : pool_state :=
  foldl (fun t o => pool_step o t) {| ps_pool := p; ps_used := []; ps_gone := []; ps_made := [] |} l.

Record pool_ok (t : pool_state) : Prop := {
  po_ids : map sf_id (m_free_list (ps_pool t)) ++ map sf_id (ps_used t) ++ map sf_id (ps_gone t) ≡ₚ ps_made t;
  po_free : Forall (fits (ps_pool t)) (m_free_list (ps_pool t));
  po_used : Forall (fits (ps_pool t)) (ps_used t);
  po_gone : ps_gone t = [] }.

Lemma acquire_loop_fits wait p l r l' :
  acquire_loop wait l = (r, l') -> Forall (fits p) l -> Forall (fits p) l' /\ forall s, r = Some s -> fits p s.
Proof.
  intros E Hl. revert r l' E. induction Hl as [|t l Ht Hl IH]; intros r l' E; simpl in E; [by injection E as <- <-|].
  destruct (wait_gpu_event_cpu wait (sf_events t)) as [[] q]; [injection E as <- <-; split; [done|]; by intros ? [= <-]|].
  destruct (acquire_loop wait l) as [r1 k]. injection E as <- <-. destruct (IH _ _ eq_refl) as [H1 H2]. split; [by constructor|done].
Qed.

Lemma pool_step_ok o t : pool_ok t -> pool_ok (pool_step o t).
Proof.
  intros [Hi Hf Hu Hg]. destruct o as [wait id|j q]; simpl.
  - unfold acquire. destruct (acquire_loop wait (m_free_list (ps_pool t))) as [r l] eqn:E. simpl.
    destruct (acquire_loop_fits _ _ _ _ _ E Hf) as [Hl Hr]. pose proof (acquire_loop_ids _ _ _ _ E) as I.
    constructor; simpl; try done.
    + rewrite Hg in *. destruct r as [s|], id as [i|]; simpl in *; rewrite ?map_app in *; simpl in *; perm.
    + apply Forall_app_2; [done|]. destruct r as [s|]; [constructor; [by apply Hr|done]|]. destruct id; simpl; [|done]. by constructor.
  - destruct (ps_used t !! j) as [s|] eqn:E; [|done]. pose proof (Forall_lookup_1 _ _ _ _ Hu E) as Hs.
    pose proof (proj2 (release_kept (set_events q s) (ps_pool t)) Hs) as K. pose proof (Permutation_map sf_id (delete_Permutation _ _ _ E)) as P.
    unfold release in *. destruct (negb (sf_dx11 _)); [done|]. destruct (negb (_ =? _)); [done|]. destruct (desc_differs _ _); [done|].
    constructor; simpl; try done.
    + rewrite <- Hi, map_app, Hg. simpl in *. perm.
    + by apply Forall_app_2; [|constructor].
    + by apply Forall_delete.
    + by rewrite Hg.
Qed.

(** Surfaces go round and none is lost or given to two users: from an empty pool, after any takings and givings, the surfaces that
    are free and those in use are exactly those that were made, each in one place only; all fit the pool, and none of the
    pool's own surfaces is ever destroyed when it is given back. *)
Theorem pool_surfaces_exclusive l p :
  m_free_list p = [] ->
  let t := pool_run l p in
  map sf_id (m_free_list (ps_pool t)) ++ map sf_id (ps_used t) ≡ₚ ps_made t /\
  Forall (fits (ps_pool t)) (m_free_list (ps_pool t) ++ ps_used t) /\ ps_gone t = [].
Proof.
  intros Hp t. assert (K : pool_ok t).
  { unfold t, pool_run. assert (K0 : pool_ok {| ps_pool := p; ps_used := []; ps_gone := []; ps_made := [] |}) by (constructor; simpl; by rewrite ?Hp).
    revert K0. generalize {| ps_pool := p; ps_used := []; ps_gone := []; ps_made := [] |}.
    induction l as [|o l IH]; simpl; intros t0 K0; [done|]. by apply IH, pool_step_ok. }
  destruct K as [Hi Hf Hu Hg]. rewrite Hg in Hi. simpl in Hi. rewrite app_nil_r in Hi. split_and!; try done. by apply Forall_app_2.
Qed.

(** ** Packets arrive in order, and without missing references *)

(** An encoder that answers every frame with its packet, a key frame where one is asked for. *)
Definition prompt_codec (data : list Z) (flags now : Z) (key : bool) (pts : Z) : codec_answer :=
  {| ca_taken := true; ca_packets := [(data, if key then Z.lor flags AV_PKT_FLAG_KEY else flags, now)]; ca_again := true |}.

Inductive packet_op := Submit (data : list Z) (flags start end_ now : Z) (t : FrameTimingInfo) | Fetch | AskKey.
(** What was fetched; of every packet that was made, whether it was kept and whether it is a key frame. *)
Record packet_state := { pt_enc : av_encoder; pt_fetched : list Packet; pt_made : list (bool * bool) }.
Definition is_key (p : Packet) : bool := negb (Z.land (pk_flags p) flag_keyframe =? 0).
Definition packet_step (o : packet_op) (s : packet_state) : packet_state :=
  match o with
  | Submit data flags start end_ now t =>
      let e := (submit_frame (prompt_codec data flags now) start end_ t (pt_enc s)).2 in
      let kept := (length (m_packet_queue (pt_enc s)) <? length (m_packet_queue e))%nat in
      let key := m_insert_key_frame (pt_enc s) || negb (Z.land flags AV_PKT_FLAG_KEY =? 0) in
      {| pt_enc := e; pt_fetched := pt_fetched s; pt_made := pt_made s ++ [(kept, key)] |}
  | Fetch => let '(p, e) := receive_packet (pt_enc s) in {| pt_enc := e; pt_fetched := pt_fetched s ++ option_list p; pt_made := pt_made s |}
  | AskKey => {| pt_enc := request_key_frame (pt_enc s); pt_fetched := pt_fetched s; pt_made := pt_made s |}
  end.
Definition packet_run (l : list packet_op) : packet_state :=
  foldl (fun s o => packet_step o s) {| pt_enc := av_encoder0; pt_fetched := []; pt_made := [] |} l.

(** No packet that is kept and not a key frame comes behind one that was dropped. *)
Fixpoint references_kept (prev : bool) (l : list (bool * bool)) : bool :=
  match l with [] => true | (kept, key) :: l => (prev || key) && references_kept kept l end.
Definition last_kept (prev : bool) (l : list (bool * bool)) : bool := from_option fst prev (last l).

Lemma references_snoc prev l x : references_kept prev (l ++ [x]) = references_kept prev l && (last_kept prev l || x.2).
Proof.
  revert prev. induction l as [|[k y] l IH]; intros prev; simpl.
  - destruct x; simpl. by rewrite !andb_true_r.
  - rewrite IH, <- andb_assoc. unfold last_kept. rewrite last_cons. by destruct (last l).
Qed.

Lemma key_flag (b : bool) flags :
  negb (Z.land (if Z.land (if b then Z.lor flags AV_PKT_FLAG_KEY else flags) AV_PKT_FLAG_KEY =? 0 then 0 else flag_keyframe) flag_keyframe =? 0)
  = b || negb (Z.land flags AV_PKT_FLAG_KEY =? 0).
Proof.
  assert (H : b = true -> (Z.land (Z.lor flags AV_PKT_FLAG_KEY) AV_PKT_FLAG_KEY =? 0) = false).
  { intros _. rewrite Z.land_comm, Z.land_lor_distr_r. apply Z.eqb_neq. intros E. apply Z.lor_eq_0_iff in E as [_ E]. done. }
  destruct b; simpl; [by rewrite H|]. by destruct (Z.land flags AV_PKT_FLAG_KEY =? 0).
Qed.

Record packets_ok (s : packet_state) : Prop := {
  pa_bound : (length (m_packet_queue (pt_enc s)) <= 5)%nat;
  pa_order : map is_key (pt_fetched s ++ m_packet_queue (pt_enc s)) = map snd (filter (fun m => m.1 = true) (pt_made s));
  pa_refs : references_kept true (pt_made s) = true;
  pa_flag : last_kept true (pt_made s) = false -> m_insert_key_frame (pt_enc s) = true }.

Lemma packet_step_ok o s : packets_ok s -> packets_ok (packet_step o s).
Proof.
  intros [Hb Ho Hr Hf]. destruct o as [data flags start end_ now t| |]; simpl.
  - unfold submit_frame, prompt_codec. simpl.
    destruct (Z.ltb_spec m_packet_queue_max_size (Z.of_nat (length (m_packet_queue (pt_enc s))))) as [Hl|Hl];
      unfold m_packet_queue_max_size in Hl; simpl.
    + rewrite Nat.ltb_irrefl. constructor; simpl; try done.
      * rewrite filter_app. simpl. by rewrite app_nil_r.
      * rewrite references_snoc, Hr. simpl. destruct (last_kept true (pt_made s)); [done|]. by rewrite Hf.
    + rewrite length_app. simpl. rewrite (proj2 (Nat.ltb_lt _ _)) by lia. constructor; simpl.
      * rewrite length_app. simpl. lia.
      * rewrite app_assoc, map_app, Ho, filter_app, map_app. f_equal. simpl. unfold is_key. simpl. by rewrite key_flag.
      * rewrite references_snoc, Hr. simpl. destruct (last_kept true (pt_made s)); [done|]. by rewrite Hf.
      * unfold last_kept. by rewrite last_snoc.
  - unfold receive_packet. destruct (m_packet_queue (pt_enc s)) as [|p l] eqn:E; simpl; constructor; simpl; rewrite ?E; try done.
    + by rewrite app_nil_r.
    + simpl in Hb. lia.
    + by rewrite <- app_assoc.
  - by constructor.
Qed.

(** The client of an encoder that answers every frame with one packet can decode what it fetches: the packets come in the
    order in which they were made, the only ones missing are those dropped for want of room, and the packet after a missing one
    is a key frame. *)
Theorem fetched_decodable l :
  let s := packet_run l in
  map is_key (pt_fetched s ++ m_packet_queue (pt_enc s)) = map snd (filter (fun m => m.1 = true) (pt_made s)) /\
  references_kept true (pt_made s) = true /\
  (length (m_packet_queue (pt_enc s)) <= 5)%nat.
Proof.
  intros s. assert (K : packets_ok s).
  { unfold s, packet_run. assert (K0 : packets_ok {| pt_enc := av_encoder0; pt_fetched := []; pt_made := [] |}) by (constructor; simpl; [lia|done..]).
    revert K0. generalize {| pt_enc := av_encoder0; pt_fetched := []; pt_made := [] |}.
    induction l as [|o l IH]; simpl; intros t0 K0; [done|]. by apply IH, packet_step_ok. }
  by destruct K.
Qed.

(** The queue takes one packet more than its greatest size. *)
Definition t0 : FrameTimingInfo := {| capture_start_ts := 0; capture_end_ts := 0; encode_start_ts := 0; encode_end_ts := 0; presentation_ts := 0 |}.
Lemma queue_takes_five :
  Z.of_nat (length (m_packet_queue (pt_enc (packet_run (replicate 6 (Submit [1] 0 0 0 0 t0)))))) = m_packet_queue_max_size + 1.
Proof. reflexivity. Qed.

(** The request for a key frame is forgotten when the codec does not take the frame that was to be one: behind a packet that was
    dropped, the next to be kept refers to it. *)
Lemma refused_frame_forgets_key e codec start end_ t :
  ca_taken (codec true (Z.quot (presentation_ts t * 9) 1000)) = false -> m_insert_key_frame e = true ->
  m_insert_key_frame (submit_frame codec start end_ t e).2 = false /\
  forall data now, let e' := (submit_frame (prompt_codec data 0 now) start end_ t (receive_packet (submit_frame codec start end_ t e).2).2).2 in
    (length (m_packet_queue e) <= 5)%nat ->
    exists p, last (m_packet_queue e') = Some p /\ pk_data p = data /\ is_key p = false.
Proof.
  intros Hc Hk. unfold submit_frame at 1 3. rewrite Hk. simpl. rewrite Hc. simpl. split; [done|]. intros data now Hl. unfold submit_frame, receive_packet. simpl.
  destruct (m_packet_queue e) as [|p l]; simpl; [by eexists|]. simpl in Hl.
  destruct (Z.ltb_spec m_packet_queue_max_size (Z.of_nat (length l))) as [H|H]; unfold m_packet_queue_max_size in H; [lia|].
  simpl. rewrite last_snoc. by eexists.
Qed.

(** ** Statistics *)

Definition telemetry0 (file : bool) : telemetry := {| m_frame_count := 0; m_stats_queue := []; m_frame_rows := if file then Some [] else None |}.
Definition telemetry_run (file : bool) (l : list Packet) : telemetry := foldl (fun t p => update_frame_statistics p t) (telemetry0 file) l.

(** Statistics of the [n]-th, [n+1]-th, ... packet. *)
Definition all_stats (l : list Packet) : list FrameStatistics := imap (fun n p => stats_of (Z.of_nat n) p) l.

(** The buffer holds the last hundred frames, the newest last, and every frame has its row in the file. *)
Theorem statistics_window file l :
  let t := telemetry_run file l in
  m_stats_queue t = drop (length l - 100) (all_stats l) /\ m_frame_count t = Z.of_nat (length l) /\
  length <$> m_frame_rows t = (if file then Some (length l) else None) /\ frame_statistics t = last (all_stats l).
Proof.
  intros t. assert (K : m_stats_queue t = drop (length l - 100) (all_stats l) /\ m_frame_count t = Z.of_nat (length l) /\
    length <$> m_frame_rows t = (if file then Some (length l) else None)).
  { unfold t, telemetry_run. clear t. induction l as [|p l IH] using rev_ind; [by destruct file|].
    rewrite foldl_snoc. destruct IH as (Hq & Hc & Hr). set (t := foldl _ _ l) in *. unfold all_stats in *. rewrite imap_app, length_app. simpl.
    rewrite Hc, Hq. split_and!.
    - rewrite length_drop, length_imap. unfold m_max_frames. rewrite Nat.add_0_r.
      destruct (Z.leb_spec 100 (Z.of_nat (length l - (length l - 100)))) as [E|E].
      + rewrite drop_drop, drop_app_le by (rewrite length_imap; lia). do 2 f_equal. lia.
      + rewrite drop_app_le by (rewrite length_imap; lia). do 2 f_equal. lia.
    - lia.
    - destruct (m_frame_rows t) as [rows|]; simpl in *; [|by destruct file]. destruct file; [|done]. injection Hr as Hr. rewrite length_app, Hr. done. }
  destruct K as (Hq & Hc & Hr). split_and!; try done. unfold frame_statistics. rewrite Hq.
  destruct l as [|p l _] using rev_ind; [done|]. unfold all_stats. rewrite imap_app, length_app. simpl.
  rewrite drop_app_le by (rewrite length_imap; lia). by rewrite !last_snoc.
Qed.

(** ** Start and stop *)

(** Stopped after a start, the capture can be started again; started twice without a stop, it ends the program. *)
Lemma capture_restarts c c' : DTCapture_start c = Some (true, c') ->
  DTCapture_start c' = None /\ DTCapture_start (DTCapture_stop c') = Some (true, c').
Proof.
  unfold DTCapture_start, duplicator_start, processor_start. destruct c as [[] [] [] u [] k]; simpl; try done. intros [= <-]. by split.
Qed.

(** A capture whose encoder could not be made is handed out, and refuses to start. *)
Lemma capture_without_encoder a :
  a_duplicator a = true -> a_display_adapter a = true -> a_display_desc a = true -> a_vendor_intel a = true -> a_encode_desc a = true ->
  a_processor a = true -> a_registered a = true -> a_cursor a = true -> a_encoder a = false ->
  exists c, DTCapture_create a = Some c /\ DTCapture_start c = Some (false, c).
Proof. destruct a; simpl; intros; subst. eexists. split; reflexivity. Qed.

(** Two events, one of them waited for, and the end. *)
Lemma handles_closed_once_witness :
  exists given q,
    event_ops [Signal 1 1 (Some 5) at_once 7 1 true; Signal 1 1 (Some 6) at_once 8 2 true; WaitCpu never; Flush at_once; Signal 1 1 (Some 9) never 10 3 true]
      EventQueue0 = Some (given, q) /\ EventQueue_destroy q ≡ₚ given.
Proof. apply (handles_closed_once _). repeat constructor; discriminate. Defined.
